(* ===== verification/_CoqProject ===== *)
-Q . S2P
Prelude.v
GoStrings.v
GoNet.v
GoIO.v
GoUrl.v
Buffers.v
FakeIP.v
Dns.v
Router.v
Socks.v
Sni.v
ServerManager.v
Dial.v
UdpProxy.v
Relay.v
RelayRun.v
Rewrite.v
Forward.v
RotatingWriter.v
Ipc.v
ProcCache.v
Trace.v
Config.v
Listeners.v
Drivers.v
Bpf.v
Ebpf.v
Iptables.v
Otel.v
Web.v
Runtime.v
App.v
Wrapper.v
CommandLine.v
Tun.v
WinTun.v
HttpConnect.v
Log.v
DarwinProc.v
WinProc.v
Tc.v
Mitm.v
Darwin.v
Daemon.v
Icmp.v
WinNotify.v
WinAddr.v
WinLayout.v
WinIpcfg.v
WinDns.v
WinIf.v
WinRoutes.v
Wintun.v
Intercept.v
SocksDial.v
