(* ===== verification/Prelude.v ===== *)
(** * vproxy: a verification development

    vproxy is a local proxy written in Go.  It accepts SOCKS5, HTTP and
    transparently redirected TCP connections and UDP datagrams, decides by rules
    whether each target is reached directly, through an upstream proxy, through
    an intercepting TLS end point, or not at all, and relays the bytes.  DNS
    queries are answered with fake addresses so that a later connection to such
    an address can be mapped back to the name.  This library models the part of
    the program that carries that logic and proves what makes it correct.

    ** Parts of the program and files of the library

    - Prelude, GoStrings, GoNet, GoUrl, GoIO, Buffers: what the sources use of Go and its
      standard library (slices with length and capacity, strings, strconv, net
      addresses and CIDR masks, net/url, byte streams, fields of buffers), with the shared tactics,
      hints and lemmas.  A call is a value of [outcome] (result, error or
      panic); stateful calls are in the monad [stm].
    - FakeIP: src/internal/dns/fakeip.go, the pool of fake addresses.
    - Dns: the same file, HijackPacket, HandleDNSQuery and parseDomain.
    - Router: src/internal/router.go, rule syntax and routing decision.
    - Socks: src/socks/client.go, address codec, server handshake, client
      connect, UDP association.
    - Sni: src/internal/handler.go 20-148, PeekingConn, sniffSNI and the
      ClientHello parser.
    - ServerManager: src/internal/servermanager.go, upstream list, probing and
      the active server.
    - Dial: handler.go, dialDirect, dialTarget, dialTargetUDP and the tests for
      local relays.
    - UdpProxy: handler.go, serveTransparentUDP with its session table and the
      throttle udpDropLog.
    - Relay, RelayRun: src/internal/tcp.go, the relay as one copy after the other,
      and as two goroutines with half-closing in every order.
    - Rewrite: src/internal/rewrite.go.
    - Forward: handler.go, forward, handlePlainHTTP, serveHTTP, serveSocks,
      serveTransparent, handleUDP and the HTTP helpers.
    - RotatingWriter: src/internal/rotating_writer.go.
    - Ipc: src/internal/ipc and src/proxy/cgroup, the control socket.
    - ProcCache: src/proxy/tproxy/proc_linux.go, which process owns a port.
    - Trace: src/internal/trace_model.go and trace.go.
    - Config: src/internal/config.go, LoadConfig.
    - Listeners: handler.go, StartSocks, StartHTTP, StartTransparent, Stop and
      the reload of the configuration in src/internal/app.go.
    - Drivers: the relay detectors of src/proxy/driver and the original
      destination of redirected datagrams in
      src/proxy/tproxy/tproxy_udp_linux.go.
    - HttpConnect: handler.go, dialHTTPWithTimeout and the buffered connection
      it returns.
    - Bpf: src/proxy/ebpf/bpf/redirect.c, the programs attached to the cgroup,
      with the byte layout of their map entries.
    - Ebpf: src/proxy/ebpf/loader.go, loading, configuration, bypassed networks
      and the look-up of original destinations.
    - Iptables: src/proxy/iptables/iptables_linux.go.
    - Tun: src/proxy/tproxy/tproxy_linux.go, the TUN device of Linux.
    - WinTun: src/proxy/tproxy/tproxy_windows.go, routes and interfaces.
    - Otel: src/internal/otel.go, the life of the tracer provider.
    - Web: src/internal/web.go, the handlers of the console.
    - Log: src/internal/log.go.
    - App: src/internal/app.go, SelfHeal, the two monitors and shutdown.
    - Wrapper: src/internal/app.go, RunWrapper.
    - Daemon: src/internal/app.go, RunServer from its start to its shutdown.
    - CommandLine: src/cmd/vproxy.
    - Icmp: src/proxy/tproxy/icmp.go, the answers to echo requests, with its
      callers on Linux and Windows.
    - Tc: src/proxy/ebpf/tc_linux.go and bpf/tc_redirect.c, the traffic-control
      filter and its white lists.
    - Darwin: src/proxy/tproxy/tproxy_darwin.go, the pf rules of macOS, start,
      clean-up and original destinations.
    - DarwinProc, WinProc: src/proxy/tproxy/process_darwin.go and
      process_windows.go, which process owns a port.
    - Mitm: src/internal/mitm/mitm.go, root and leaf certificates.
    - WinAddr, WinLayout: src/internal/winipcfg/types.go, types_32.go and
      types_64.go, socket addresses byte by byte and the layout of every
      structure that is shared with Windows.
    - WinIpcfg: src/internal/winipcfg/luid.go, addresses and routes.
    - WinIf: winipcfg.go, luid.go and types.go, interfaces, their tables and names,
      and the settings of the TUN device.
    - WinDns: luid.go, netsh.go and winipcfg.go, name servers.
    - WinRoutes: the routes of tproxy_windows.go again, on the rows of bytes that
      WinIpcfg hands to Windows.
    - Wintun: src/third_party/wintun, the bindings of the driver's library: its
      loading by several threads ([Lazy]), adapters and sessions.
    - WinNotify: src/internal/winipcfg/*_change_handler.go, the change
      notifications as threads with mutexes and wait groups.
    - Intercept: the drivers of src/proxy/driver as instances of one class, the
      transparent UDP sockets of src/proxy/tproxy/tproxy_udp_linux.go and the
      look-up by cookie in tproxy_linux.go.
    - SocksDial: src/socks/client.go, dialling an upstream.
    - Runtime: version information, the status report, the control group, the
      permission check, the PID file and the bundled Wintun library.

    Each component is one Module whose records, constructors and functions carry
    the names of the source.  The components meet as in the program: Forward
    calls Sni, Router, Rewrite, Dial and Relay; Dial calls Router and
    ServerManager and reads the fake-IP pool; UdpProxy calls Dns and Dial; Dns
    calls FakeIP; Listeners builds the managers of Router, ServerManager and
    Rewrite.  The programs of Bpf write the maps that Ebpf reads; App composes
    Ebpf, Iptables, Otel and Listeners, Wrapper adds Ipc and ServerManager,
    Daemon composes App, Listeners, Otel, Ipc, ServerManager and FakeIP into the
    whole run of the server, and CommandLine composes Config, Router and
    Listeners.  WinRoutes is a refinement of WinTun's routes over WinIpcfg and
    WinAddr.

    ** State, effects and the environment

    Mutexes make most methods atomic, and such a method is one function on the
    state.  Where the code gives up a lock or races, the steps are explicit and
    interleave: [ServerManager.sm_step] (probing against updates and reports),
    [UdpProxy.allow_sys] (loads and compare-and-swaps of the throttle) and
    [UdpProxy.udp_step] (datagrams against ending sessions); Tun keeps its mutex
    as state, and locking it twice is the outcome [Tun.Blocked], and
    [WinNotify.step] interleaves callers, notifications and callbacks,
    [RelayRun.step] the two copies of a relay, [Lazy.exec] the threads that load
    a library and [Mitm.g_step] the requests for certificates.  In Daemon the healings
    run one at a time, which the code does not enforce; [App.overlapping_heals_leak]
    shows what it costs when they do not.  Forward uses the sequential relay, which RelayRun justifies for
    connections with CloseWrite.  Everything
    outside the program is an argument: the classes [Dial.Env], [UdpProxy.UEnv],
    [Forward.HEnv] and [Listeners.LEnv] answer each dial, look-up, handshake,
    read or listen as an arbitrary function of the events so far, and
    [Ebpf.KEnv], [Iptables.Shell], [Otel.OtelEnv], [Web.WebEnv], [Tun.TunEnv],
    [WinTun.WinEnv], [Tc.TcEnv], [Mitm.CryptoEnv], [Darwin.PfEnv],
    [WinIpcfg.IpEnv], [WinIf.IfEnv], [Wintun.WtEnv], [WinDns.DnsEnv], [WinDns.AdaptersEnv], [Intercept.NetEnv],
    [SocksDial.SocksEnv], [Runtime.DllEnv] and the records
    [App.healing], [Wrapper.wenv], [Daemon.denv], [CommandLine.menv],
    [DarwinProc.sys] and [WinProc.winsys] decide in the same way which call of the kernel, the
    shell or a library fails.  [HttpConnect.ReadResponse] is the response parser,
    [Icmp.Gvisor] gVisor's payload and checksum functions,
    [Rewrite.Regexp] is any regular-expression engine and [Ipc.Json] any JSON
    codec that reads back what it wrote.  The theorems hold for all of them; the
    witnesses give concrete instances.  The events record every externally
    visible action in order, and are what the safety theorems speak about.

    ** What the theorems show

    - Routing: doMatchContext is equivalent to a declarative policy; rules that
      are written are read back; remote LANs take precedence; whatever the
      network does, a dial obeys the decision (blocked targets are never
      dialled, direct ones never go through an upstream and conversely); a
      blocked transparent connection or HTTP request is refused without a dial
      (rewrite rules, which come first, apart).
    - Fake addresses: the pool implements an abstract list of domains, names and
      addresses round trip until the pool wraps, the DNS responder never panics
      on a buffer with spare capacity, answers as specified, and the address in
      its answer leads back to the name.
    - Connections: SNI sniffing neither panics nor loses a byte for the reads that
      follow, and finds the name; in every schedule a relay delivers a prefix of what was sent and returns,
      and all of it on connections that can be half-closed; spans are paired; each HTTP request
      gets one answer; UDP sessions do not leak upstream connections; the
      handler accounts for its listeners.
    - Upstreams: the active server never is a loopback URL with one of the program's
      own ports, in every interleaving; probing selects the first usable server and terminates.
    - SOCKS5: codec round trips, server handshake, UDP encapsulation and the
      absence of leaks in DialUDP.
    - Services: only entitled clients move processes into the cgroup, retries
      are bounded and succeed when they can; the process cache is a map with a
      time to live; the log writer loses only whole old backups; the index of
      the rewrite engine is equivalent to a linear scan.
    - Redirection: the eBPF programs redirect what the configuration says and
      nothing else (in remote mode to a reversed address), and the destination they
      record for a TCP connection, IPv4 or IPv6, is the one the proxy looks
      up while the maps have room; loading that fails leaves nothing attached; the
      packet filter rules redirect as configured and are removed again, where there
      were none of the program before, deletions work during the set-up and the
      removal meets no failure; under such conditions
      the whole run of the daemon (start, any sequence of reloads, posted
      configurations, network changes and repairs, shutdown) and that of a wrapped
      command leave the kernel and the rules as they found them; the traffic-control
      filter marks exactly the frames of the senders that were white-listed; the pf
      rules of macOS steer flows as intended, and the anchor that holds them is emptied
      with the listeners, while pf stays enabled and its main rules stay replaced; the
      TUN device of Linux is started and removed any number of times; on Windows
      a failed start and a clean-up restore the routes made by programs, the route
      chosen for a bypass is the longest match, the bytes handed to Windows are the
      routes that are meant, the settings of the device reach its row and no other, and
      dialled sockets avoid the TUN interface; unfragmented echo requests are answered
      and other messages and protocols go to the network stack.
    - Processes: the parsers of the socket tables of macOS and Windows find the
      owner of a port for every table in the documented layout, and never read
      out of bounds whatever the kernel returns.
    - Windows configuration: setting the addresses or routes of an interface
      leaves exactly those that were given, if they are distinct; no operation touches another
      interface or family, panics or leaks a table, whatever fails; old and new
      versions of Windows are asked for the same name servers, by the call if it
      exists and by a script otherwise; socket addresses
      survive the union they are stored in, and the layouts of the structures
      are those of Windows on both word sizes; a callback that was unregistered
      is never called again, and every call returns unless a callback calls
      back into the package.
    - Wintun: the library is loaded and each procedure looked up at most once, by
      any number of threads in any order, without a deadlock and in a bounded number
      of steps; a thread that is alone does what the function says; an adapter is
      closed once.
    - Dialling: transparent sockets are opened with the options they need or not
      at all; a connection to an upstream is returned without a deadline or is
      closed.
    - Interception: every certificate that is handed out names its host, is
      signed by the root in memory and has a key of its own, however requests overlap.
    - Programs: waiting for the daemon terminates with the verdict of the first
      decisive poll; a wrapped command is proxied under the rule added for it
      and is given proxies that are served; published telemetry states are well
      formed; the console opens only names below its root, refuses dot-dot elements
      and redirects requests for index pages, as http.ServeFileFS documents.
    - Defects: several lemmas prove that the code departs from its intent
      (reuse of fake addresses, the truncated DNS question, the SOCKS5 client's
      reply parser, UDP fallback to the program itself, wildcard hosts in
      rewrite rules, remote LANs lost on reload, sockets hidden behind a
      TIME_WAIT entry, the byte-reversed upstream of the eBPF remote mode, rules
      left or removed too early by App and Wrapper, the self-deadlock of a failed
      TUN start, upstreams given as literal addresses on Windows, commands
      hidden by a substring of another rule, checksums of echo replies, a failed
      root certificate that is final, local name servers that pf does not
      intercept, white lists lost by a second set-up of the filter, callbacks
      that unregister themselves, failures hidden by FlushIPAddresses, reversed
      addresses in the look-up by cookie, the sockets that the driver of Linux
      does not close, uploads that a relay cuts off, sessions ended twice,
      overlapping healings, certificates made twice, own addresses that are not
      recognised, fragments answered as requests and panics on inconsistent lengths,
      marked multicast, the main rules of pf, a closed standard output).

    ** Bounds and fuel

    Integers are [Z]; conversions to 8, 16, 32 and 64 bits are written out where
    the code relies on them.  Recursion is structural on the data wherever the
    code's loop is (rules, servers, labels by remaining bytes, attempts left,
    backups).  Fuel appears in printing numbers (20 decimal and 16 hexadecimal
    digits, enough for 64 bits), in [Dns.parseDomain_loop] and [Sni.ext_loop]
    (one unit per byte of the buffer; each round consumes a byte),
    [DarwinProc.records] (one unit per byte; a record has at least eight),
    [ServerManager.ts_run] (one unit per server and phase),
    [CommandLine.wait_loop] (the timeout divided by the polling interval, plus
    two), [WinDns.adapters_loop] (the sizes that 32 bits can hold; each round
    grows the buffer) and [ProcCache.scan_loop] (one more than the bytes of the file; each line
    consumes one); the theorems about these loops give the result itself, so the
    fuel is proved to be enough.

    ** What is not modelled

    Timeouts of connections; net/http's parsing and printing and the TLS
    handshake, which are inputs of Forward; keys and signatures are symbolic in
    Mitm; the OpenTelemetry SDK; JSON; gVisor's network stack; the code inside of
    wintun.dll and its log callback, which is never installed; of winipcfg the
    generated system-call stubs, the enumerations of constants, the accessors of
    UTF-16 names and the changes of anycast entries, which nothing calls; flag
    parsing, the built-in page of the console and the usage text; the logging
    functions without a format, which read their text as one; the programs under
    src/tests and src/scripts.  The routes and addresses that Windows adds by itself
    when an interface gets an address are not in the tables of WinTun and WinIpcfg;
    the owner of a process does not change while Ipc serves a request; a write of
    RelayRun is not partial.  Case mapping and white space of strings are those of
    ASCII.
*)

From stdpp Require Export base tactics option list gmap fin_maps strings.
From Stdlib Require Export ZArith Lia Ascii.
From Stdlib Require String.

(** ** Scope and small notations *)

Declare Scope vproxy_scope.
Delimit Scope vproxy_scope with vp.
#[global] Open Scope Z_scope.
#[global] Open Scope vproxy_scope.

(** A byte of a Go [[]byte] or of a Go [string]. *)
Abbreviation byte := ascii (only parsing).

(** ** Results of Go calls

    [Ok] is a normal return with a nil error, [Err] a return with a non-nil
    error and [Panic] a run-time panic (index or slice bound out of range). *)
Inductive outcome (E A : Type) : Type :=
| Ok (a : A)
| Err (e : E)
| Panic.
Arguments Ok {E A} _.
Arguments Err {E A} _.
Arguments Panic {E A}.

#[global] Instance outcome_ret E : MRet (outcome E) := fun A a => Ok a.
#[global] Instance outcome_bind E : MBind (outcome E) := fun A B f m =>
  match m with Ok a => f a | Err e => Err e | Panic => Panic end.
#[global] Instance outcome_fmap E : FMap (outcome E) := fun A B f m =>
  match m with Ok a => Ok (f a) | Err e => Err e | Panic => Panic end.

Definition is_panic {E A} (o : outcome E A) : bool :=
  match o with Panic => true | _ => false end.
Definition is_ok {E A} (o : outcome E A) : bool :=
  match o with Ok _ => true | _ => false end.

Lemma outcome_bind_ok {E A B} (m : outcome E A) (f : A → outcome E B) b :
  (m ≫= f) = Ok b ↔ ∃ a, m = Ok a ∧ f a = Ok b.
Proof. destruct m; simpl; naive_solver. Qed.

Lemma outcome_bind_panic {E A B} (m : outcome E A) (f : A → outcome E B) :
  is_panic (m ≫= f) = true ↔
  is_panic m = true ∨ ∃ a, m = Ok a ∧ is_panic (f a) = true.
Proof. destruct m; simpl; naive_solver. Qed.

(** ** Stateful calls

    A call that reads and changes a state of type [S] and may fail: explicit
    state passing with the outcome of the call. *)
Definition stm (S E A : Type) : Type := S → outcome E A * S.

#[global] Instance stm_ret S E : MRet (stm S E) := fun A a s => (Ok a, s).
#[global] Instance stm_bind S E : MBind (stm S E) := fun A B f m s =>
  match m s with
  | (Ok a, s) => f a s
  | (Err e, s) => (Err e, s)
  | (Panic, s) => (Panic, s)
  end.

Definition throw {S E A} (e : E) : stm S E A := fun s => (Err e, s).
Definition crash {S E A} : stm S E A := fun s => (Panic, s).
Definition lift {S E A} (o : outcome E A) : stm S E A := fun s => (o, s).
Definition get_st {S E} : stm S E S := fun s => (Ok s, s).
Definition put_st {S E} (s : S) : stm S E unit := fun _ => (Ok tt, s).
(** Run a call and keep its error as a value, as Go code that inspects [err]. *)
Definition try_ {S E F A} (m : stm S E A) : stm S F (outcome E A) := fun s =>
  match m s with
  | (Panic, s) => (Panic, s)
  | (o, s) => (Ok o, s)
  end.

Lemma stm_bind_ok {S E A B} (m : stm S E A) (f : A → stm S E B) s a s' :
  m s = (Ok a, s') → (m ≫= f) s = f a s'.
Proof. intros H. unfold mbind, stm_bind. by rewrite H. Qed.

Lemma stm_bind_err {S E A B} (m : stm S E A) (f : A → stm S E B) s e s' :
  m s = (Err e, s') → (m ≫= f) s = (Err e, s').
Proof. intros H. unfold mbind, stm_bind. by rewrite H. Qed.

Lemma stm_bind_panic {S E A B} (m : stm S E A) (f : A → stm S E B) s s' :
  m s = (Panic, s') → (m ≫= f) s = (Panic, s').
Proof. intros H. unfold mbind, stm_bind. by rewrite H. Qed.

Lemma stm_bind_inv {S E A B} (m : stm S E A) (f : A → stm S E B) s b s' :
  (m ≫= f) s = (Ok b, s') → ∃ a s1, m s = (Ok a, s1) ∧ f a s1 = (Ok b, s').
Proof. unfold mbind, stm_bind. destruct (m s) as [[a|e|] s1]; naive_solver. Qed.

Lemma try_ok {S E F A} (m : stm S E A) s a s' :
  m s = (Ok a, s') → try_ (F := F) m s = (Ok (Ok a), s').
Proof. intros H. unfold try_. by rewrite H. Qed.

Lemma try_err {S E F A} (m : stm S E A) s e s' :
  m s = (Err e, s') → try_ (F := F) m s = (Ok (Err e), s').
Proof. intros H. unfold try_. by rewrite H. Qed.

(** A call that leaves a relation between its states, whatever its outcome. *)
Definition keeps {S E A} (R : S → S → Prop) (m : stm S E A) : Prop := ∀ s, R s (snd (m s)).

Lemma keeps_bind {S E A B} (R : S → S → Prop) (m : stm S E A) (f : A → stm S E B) :
  (∀ x y z, R x y → R y z → R x z) → keeps R m → (∀ a, keeps R (f a)) → keeps R (m ≫= f).
Proof.
  intros Ht Hm Hf s. unfold mbind, stm_bind. specialize (Hm s).
  destruct (m s) as [[a|e|] s1]; cbn [snd] in *; [|done..]. eapply Ht; [done|apply Hf].
Qed.

(** What a call guarantees from states in [P]: [Q] of its result, [X] of its error
    or, with [None], of a panic. *)
Definition triple {S E A} (P : S → Prop) (m : stm S E A) (Q : A → S → Prop) (X : option E → S → Prop) : Prop :=
  ∀ s, P s → match m s with
             | (Ok a, s') => Q a s'
             | (Err e, s') => X (Some e) s'
             | (Panic, s') => X None s'
             end.

Lemma triple_bind {S E A B} (P : S → Prop) (m : stm S E A) (f : A → stm S E B) Q R X :
  triple P m Q X → (∀ a, triple (Q a) (f a) R X) → triple P (m ≫= f) R X.
Proof.
  intros Hm Hf s Hs. specialize (Hm s Hs). unfold mbind, stm_bind.
  destruct (m s) as [[a|e|] s']; [by apply Hf|done|done].
Qed.

Lemma triple_ret {S E A} (P : S → Prop) (a : A) (X : option E → S → Prop) : triple P (mret a) (λ _, P) X.
Proof. by intros s Hs. Qed.

Lemma triple_get {S E A} (P : S → Prop) (f : S → stm S E A) Q X :
  (∀ s0, P s0 → triple (λ s, s = s0) (f s0) Q X) → triple P (get_st ≫= f) Q X.
Proof. intros H s Hs. apply (H s Hs s eq_refl). Qed.

Lemma triple_pre {S E A} (P P' : S → Prop) (m : stm S E A) Q X :
  (∀ s, P' s → P s) → triple P m Q X → triple P' m Q X.
Proof. intros H Hm s Hs. apply Hm, H, Hs. Qed.

Lemma lift_bind {S E A B} (o : outcome E A) (f : A → stm S E B) a s :
  o = Ok a → (lift o ≫= f) s = f a s.
Proof. by intros ->. Qed.

(** ** Tactics *)

(** Case analysis on every [match] and [if] in sight, with equations kept. *)
Ltac crush_match :=
  simplify_eq/=; try done; repeat (case_match; simplify_eq/=; try done).

(** Turn boolean tests in hypotheses into propositions. *)
Ltac boolify :=
  repeat match goal with
  | H : (_ && _)%bool = true |- _ => apply andb_prop in H; destruct H
  | H : (_ || _)%bool = false |- _ => apply orb_false_elim in H; destruct H
  | H : negb _ = true |- _ => apply negb_true_iff in H
  | H : negb _ = false |- _ => apply negb_false_iff in H
  | H : Nat.ltb _ _ = true |- _ => apply Nat.ltb_lt in H
  | H : Nat.ltb _ _ = false |- _ => apply Nat.ltb_ge in H
  | H : Nat.leb _ _ = true |- _ => apply Nat.leb_le in H
  | H : Nat.leb _ _ = false |- _ => apply Nat.leb_gt in H
  | H : Nat.eqb _ _ = true |- _ => apply Nat.eqb_eq in H
  | H : Nat.eqb _ _ = false |- _ => apply Nat.eqb_neq in H
  | H : Z.ltb _ _ = true |- _ => apply Z.ltb_lt in H
  | H : Z.ltb _ _ = false |- _ => apply Z.ltb_ge in H
  | H : Z.leb _ _ = true |- _ => apply Z.leb_le in H
  | H : Z.leb _ _ = false |- _ => apply Z.leb_gt in H
  | H : Z.eqb _ _ = true |- _ => apply Z.eqb_eq in H
  | H : Z.eqb _ _ = false |- _ => apply Z.eqb_neq in H
  | H : String.eqb _ _ = true |- _ => apply String.eqb_eq in H
  | H : String.eqb _ _ = false |- _ => apply String.eqb_neq in H
  | H : bool_decide _ = true |- _ => apply bool_decide_eq_true in H
  | H : bool_decide _ = false |- _ => apply bool_decide_eq_false in H
  end.

(** Linear arithmetic with [/] and [mod] by constants. *)
Ltac zlia := Z.to_euclidean_division_equations; lia.

(** ** Bytes *)

(** The unsigned value of a byte and Go's conversion [byte(z)] (truncation). *)
Definition u8 (b : byte) : Z := Z.of_N (N_of_ascii b).
Definition mk8 (z : Z) : byte := ascii_of_N (Z.to_N (z mod 256)).

(** Byte sequences written as lists of numbers, as Go composite literals. *)
Definition bytes (l : list Z) : list byte := mk8 <$> l.

Lemma u8_range b : 0 ≤ u8 b < 256.
Proof.
  unfold u8. pose proof (N_ascii_bounded b). lia.
Qed.

Lemma u8_mk8 z : u8 (mk8 z) = z mod 256.
Proof.
  unfold u8, mk8. pose proof (Z.mod_pos_bound z 256).
  rewrite N_ascii_embedding by lia. lia.
Qed.

Lemma u8_mk8_small z : 0 ≤ z < 256 → u8 (mk8 z) = z.
Proof. intros. rewrite u8_mk8, Z.mod_small; lia. Qed.

Lemma mk8_u8 b : mk8 (u8 b) = b.
Proof.
  unfold u8, mk8. pose proof (u8_range b) as H. unfold u8 in H.
  rewrite Z.mod_small, N2Z.id by lia. apply ascii_N_embedding.
Qed.

#[global] Instance u8_inj : Inj (=) (=) u8.
Proof. intros a b H. rewrite <- (mk8_u8 a), <- (mk8_u8 b). by f_equal. Qed.

#[global] Instance u8_comparable (a b : byte) : Decision (a = b) := ascii_dec a b.

(** ** Machine integers *)

Definition wrap32 (z : Z) : Z := z mod 2 ^ 32.
Definition wrap16 (z : Z) : Z := z mod 2 ^ 16.

Lemma wrap32_small z : 0 ≤ z < 2 ^ 32 → wrap32 z = z.
Proof. apply Z.mod_small. Qed.

(** Big-endian integers, as [binary.BigEndian.Uint16/Uint32] and the
    [int(hi)<<8 | int(lo)] idiom of the sources. *)
Definition be16 (hi lo : byte) : Z := Z.lor (Z.shiftl (u8 hi) 8) (u8 lo).
Definition put16 (z : Z) : list byte := [mk8 (Z.shiftr z 8); mk8 z].
Definition be32 (b0 b1 b2 b3 : byte) : Z :=
  Z.lor (Z.lor (Z.shiftl (u8 b0) 24) (Z.shiftl (u8 b1) 16))
        (Z.lor (Z.shiftl (u8 b2) 8) (u8 b3)).
Definition put32 (z : Z) : list byte :=
  [mk8 (Z.shiftr z 24); mk8 (Z.shiftr z 16); mk8 (Z.shiftr z 8); mk8 z].

(** [hi * 2^k + lo] and [hi << k | lo] agree when [lo] fits in [k] bits. *)
Lemma lor_shiftl_add a b k :
  0 ≤ k → 0 ≤ b < 2 ^ k → Z.lor (Z.shiftl a k) b = a * 2 ^ k + b.
Proof.
  intros Hk Hb.
  assert (Z.land (Z.shiftl a k) b = 0) as Hl.
  { apply Z.bits_inj'. intros n Hn.
    rewrite Z.land_spec, Z.bits_0, Z.shiftl_spec by lia.
    destruct (Z.lt_ge_cases n k) as [Hlt|Hge].
    - by rewrite (Z.testbit_neg_r a) by lia.
    - rewrite <- (Z.mod_small b (2 ^ k)) by lia.
      rewrite Z.mod_pow2_bits_high by lia. by rewrite andb_false_r. }
  rewrite <- Z.lxor_lor, <- Z.add_nocarry_lxor by done.
  rewrite Z.shiftl_mul_pow2; lia.
Qed.

Lemma be16_eq hi lo : be16 hi lo = u8 hi * 256 + u8 lo.
Proof. unfold be16. pose proof (u8_range lo). rewrite lor_shiftl_add; lia. Qed.

Lemma be16_range hi lo : 0 ≤ be16 hi lo < 65536.
Proof. rewrite be16_eq. pose proof (u8_range lo). pose proof (u8_range hi). lia. Qed.

Lemma be32_eq b0 b1 b2 b3 :
  be32 b0 b1 b2 b3 = u8 b0 * 2 ^ 24 + u8 b1 * 2 ^ 16 + u8 b2 * 2 ^ 8 + u8 b3.
Proof.
  unfold be32. pose proof (u8_range b0). pose proof (u8_range b1).
  pose proof (u8_range b2). pose proof (u8_range b3).
  rewrite (lor_shiftl_add (u8 b2)) by lia.
  rewrite (Z.shiftl_mul_pow2 (u8 b1)) by lia.
  rewrite (lor_shiftl_add (u8 b0)) by lia.
  replace (u8 b0 * 2 ^ 24 + u8 b1 * 2 ^ 16)
    with (Z.shiftl (u8 b0 * 2 ^ 8 + u8 b1) 16)
    by (rewrite Z.shiftl_mul_pow2; lia).
  rewrite lor_shiftl_add, ?Z.shiftl_mul_pow2; lia.
Qed.

Lemma be32_range b0 b1 b2 b3 : 0 ≤ be32 b0 b1 b2 b3 < 2 ^ 32.
Proof.
  rewrite be32_eq. pose proof (u8_range b0). pose proof (u8_range b1).
  pose proof (u8_range b2). pose proof (u8_range b3). lia.
Qed.

Lemma be16_put16 z hi lo :
  put16 z = [hi; lo] → be16 hi lo = wrap16 z.
Proof.
  unfold put16, wrap16. intros [= <- <-]. rewrite be16_eq, !u8_mk8.
  rewrite Z.shiftr_div_pow2 by lia.
  change (2 ^ 8) with 256. change (2 ^ 16) with (256 * 256).
  rewrite (Z.rem_mul_r z 256 256) by lia. lia.
Qed.

Lemma be32_put32 z b0 b1 b2 b3 :
  put32 z = [b0; b1; b2; b3] → be32 b0 b1 b2 b3 = wrap32 z.
Proof.
  unfold put32, wrap32. intros [= <- <- <- <-]. rewrite be32_eq, !u8_mk8.
  rewrite !Z.shiftr_div_pow2 by lia.
  change (2 ^ 24) with (256 * (256 * 256)). change (2 ^ 16) with (256 * 256).
  change (2 ^ 8) with 256. change (2 ^ 32) with (256 * (256 * (256 * 256))).
  rewrite !(Z.rem_mul_r z 256) by lia.
  rewrite !(Z.rem_mul_r (z / 256) 256) by lia.
  rewrite !(Z.rem_mul_r (z / 256 / 256) 256) by lia.
  rewrite <- !Z.div_div by lia. lia.
Qed.

Lemma mk8_eq z b : z mod 256 = u8 b → mk8 z = b.
Proof. intros H. apply (inj u8). by rewrite u8_mk8. Qed.

Lemma put32_be32 b0 b1 b2 b3 : put32 (be32 b0 b1 b2 b3) = [b0; b1; b2; b3].
Proof.
  rewrite be32_eq. unfold put32. rewrite !Z.shiftr_div_pow2 by lia.
  pose proof (u8_range b0). pose proof (u8_range b1).
  pose proof (u8_range b2). pose proof (u8_range b3).
  repeat f_equal; apply mk8_eq; change (2 ^ 24) with 16777216;
    change (2 ^ 16) with 65536; change (2 ^ 8) with 256; zlia.
Qed.

Lemma put16_be16 hi lo : put16 (be16 hi lo) = [hi; lo].
Proof.
  rewrite be16_eq. unfold put16. rewrite Z.shiftr_div_pow2 by lia.
  pose proof (u8_range hi). pose proof (u8_range lo).
  repeat f_equal; apply mk8_eq; change (2 ^ 8) with 256; zlia.
Qed.

(** Little-endian numbers of four bytes. *)
Definition le32 (l : list byte) : Z :=
  match l with [a; b; c; d] => be32 d c b a | _ => 0 end.
Definition put32le (z : Z) : list byte := rev (put32 z).

Lemma le32_put32le z : 0 ≤ z < 2 ^ 32 → le32 (put32le z) = z.
Proof. intros. rewrite <- (wrap32_small z) at 2 by done. by apply be32_put32. Qed.

(** ** Go slices

    [sl_mem] is the memory from the start of the slice up to its capacity and
    [sl_len] the length: indexing is checked against the length, re-slicing
    against the capacity. *)
Record slice := Slice { sl_mem : list byte; sl_len : nat }.

Definition sl_wf (s : slice) : Prop := (sl_len s ≤ length (sl_mem s))%nat.

(** The visible bytes. *)
Definition sl_bytes (s : slice) : list byte := take (sl_len s) (sl_mem s).

(** A slice whose capacity is its length. *)
Definition sl_of (l : list byte) : slice := Slice l (length l).

(** [s[i]] *)
Definition sl_index {E} (s : slice) (i : nat) : outcome E byte :=
  if Nat.ltb i (sl_len s)
  then match sl_mem s !! i with Some b => Ok b | None => Panic end
  else Panic.

(** [s[a:b]] *)
Definition sl_sub {E} (s : slice) (a b : nat) : outcome E (list byte) :=
  if Nat.leb a b && Nat.leb b (length (sl_mem s))
  then Ok (take (b - a) (drop a (sl_mem s)))
  else Panic.

Lemma sl_sub_ok {E} s a b :
  (a ≤ b)%nat → (b ≤ length (sl_mem s))%nat →
  sl_sub (E:=E) s a b = Ok (take (b - a) (drop a (sl_mem s))).
Proof.
  intros ??. unfold sl_sub.
  by rewrite (proj2 (Nat.leb_le a b)), (proj2 (Nat.leb_le b _)) by lia.
Qed.

Lemma take_drop_middle_app {A} (l1 l2 l3 : list A) n m :
  n = length l1 → m = length l2 → take m (drop n (l1 ++ l2 ++ l3)) = l2.
Proof. intros -> ->. by rewrite drop_app_length, take_app_length. Qed.

(** A sub-slice whose place in the memory is known. *)
Lemma sl_sub_app {E} l1 l2 l3 n a b :
  a = length l1 → b = (length l1 + length l2)%nat →
  sl_sub (E:=E) (Slice (l1 ++ l2 ++ l3) n) a b = Ok l2.
Proof.
  intros -> ->. rewrite sl_sub_ok; cbn [sl_mem]; [|lia|rewrite !length_app; lia].
  f_equal. apply take_drop_middle_app; lia.
Qed.

Lemma sl_sub_length {E} s a b l :
  sl_sub (E:=E) s a b = Ok l → length l = (b - a)%nat.
Proof.
  unfold sl_sub. intros. crush_match. boolify.
  rewrite length_take, length_drop. lia.
Qed.

Lemma sl_index_ok {E} s i :
  sl_wf s → (i < sl_len s)%nat →
  ∃ b, sl_mem s !! i = Some b ∧ sl_index (E:=E) s i = Ok b.
Proof.
  intros Hw Hi. unfold sl_index. rewrite (proj2 (Nat.ltb_lt _ _)) by done.
  destruct (lookup_lt_is_Some_2 (sl_mem s) i) as [b Hb]; [unfold sl_wf in *; lia|].
  exists b. by rewrite Hb.
Qed.

Lemma sl_index_of {E} l i b : l !! i = Some b → sl_index (E:=E) (sl_of l) i = Ok b.
Proof.
  intros H. unfold sl_index, sl_of. cbn [sl_len sl_mem].
  rewrite (proj2 (Nat.ltb_lt _ _)) by (by eapply lookup_lt_Some). by rewrite H.
Qed.

(** ** Filters *)

Lemma filter_keep {A} (P : A → Prop) `{∀ x, Decision (P x)} (l : list A) :
  (∀ x, x ∈ l → P x) → filter P l = l.
Proof.
  induction l as [|x l IH]; intros Hp; [done|].
  rewrite filter_cons_True by (apply Hp; by left). f_equal. apply IH. intros. apply Hp. by right.
Qed.

Lemma filter_none {A} (P : A → Prop) `{∀ x, Decision (P x)} (l : list A) :
  (∀ x, x ∈ l → ¬ P x) → filter P l = [].
Proof.
  induction l as [|x l IH]; intros Hp; [done|].
  rewrite filter_cons_False by (apply Hp; by left). apply IH. intros. apply Hp. by right.
Qed.

(** ** Hint databases *)
Create HintDb vproxy.
#[export] Hint Resolve u8_range be16_range be32_range : vproxy.
