(* ===== verification/GoStrings.v ===== *)
(** * The parts of Go's [strings], [strconv] and [fmt] packages the sources use

    A Go string is a sequence of bytes, here Rocq's [string] (a sequence of
    8-bit [ascii]).  Case mapping and white space are those of the ASCII range:
    [ToUpper], [ToLower], [EqualFold], [TrimSpace] and [Fields] act on ASCII
    letters and on the ASCII white-space bytes, and leave every byte above 0x7f
    alone; Go treats such bytes as parts of UTF-8 encoded runes.  Sizes of
    numbers follow a 64-bit [int]. *)

From S2P Require Import Prelude.

#[global] Open Scope string_scope.
#[global] Open Scope list_scope.
#[global] Open Scope Z_scope.

#[global] Arguments String.append !_ _ / : simpl nomatch.
#[global] Arguments String.eqb : simpl never.

(** [slen s] is [len(s)]; [stake n s] and [sdrop n s] are [s[:n]], [s[n:]]. *)
Abbreviation slen := String.length.

Fixpoint stake (n : nat) (s : string) : string :=
  match n, s with
  | S n, String c s => String c (stake n s)
  | _, _ => EmptyString
  end.

Fixpoint sdrop (n : nat) (s : string) : string :=
  match n, s with
  | S n, String _ s => sdrop n s
  | _, _ => s
  end.

(** Conversions [string(b)] and [[]byte(s)]. *)
Definition of_bytes (l : list byte) : string := String.string_of_list_ascii l.
Definition to_bytes (s : string) : list byte := String.list_ascii_of_string s.

Lemma of_to_bytes s : of_bytes (to_bytes s) = s.
Proof. apply String.string_of_list_ascii_of_string. Qed.
Lemma to_of_bytes l : to_bytes (of_bytes l) = l.
Proof. apply String.list_ascii_of_string_of_list_ascii. Qed.

Lemma length_to_bytes s : length (to_bytes s) = slen s.
Proof. induction s; simpl; auto. Qed.

Lemma slen_of_bytes l : slen (of_bytes l) = length l.
Proof. rewrite <- length_to_bytes, to_of_bytes. done. Qed.

Lemma to_bytes_app s t : to_bytes (s +:+ t) = to_bytes s ++ to_bytes t.
Proof. unfold to_bytes. induction s as [|c s IH]; simpl; [done|]. by rewrite IH. Qed.

Lemma to_bytes_cons c s : to_bytes (String c s) = c :: to_bytes s.
Proof. done. Qed.
Lemma to_bytes_nil : to_bytes "" = [].
Proof. done. Qed.

Lemma of_bytes_app l k : of_bytes (l ++ k) = of_bytes l +:+ of_bytes k.
Proof. unfold of_bytes. induction l as [|c l IH]; simpl; [done|]. by rewrite IH. Qed.

Lemma slen_app s t : slen (s +:+ t) = (slen s + slen t)%nat.
Proof. induction s; simpl; auto. Qed.

Lemma sapp_assoc (a b c : string) : (a +:+ b) +:+ c = a +:+ (b +:+ c).
Proof. induction a as [|x a IH]; simpl; [done|]. by rewrite IH. Qed.

Lemma sapp_nil_r (a : string) : a +:+ "" = a.
Proof. induction a as [|x a IH]; simpl; [done|]. by rewrite IH. Qed.

Lemma sapp_inj_l (a b c : string) : a +:+ b = a +:+ c → b = c.
Proof. induction a; simpl; [done|]. intros [= H]. auto. Qed.

Lemma sapp_inj_r (a b c : string) : a +:+ c = b +:+ c → a = b.
Proof.
  revert b. induction a as [|x a IH]; intros [|y b]; simpl; intros H; try done.
  - exfalso. apply (f_equal slen) in H. simpl in H. rewrite slen_app in H. lia.
  - exfalso. apply (f_equal slen) in H. simpl in H. rewrite slen_app in H. lia.
  - injection H as -> H. by rewrite (IH b).
Qed.

Lemma stake_app s t : stake (slen s) (s +:+ t) = s.
Proof. induction s as [|x s IH]; simpl; [by destruct t|]. by rewrite IH. Qed.
Lemma sdrop_app s t : sdrop (slen s) (s +:+ t) = t.
Proof. induction s; simpl; [by destruct t|done]. Qed.
Lemma sdrop_0 s : sdrop 0 s = s.
Proof. by destruct s. Qed.
Lemma sdrop_cons n c s : sdrop (S n) (String c s) = sdrop n s.
Proof. done. Qed.
Lemma sdrop_app_eq n s t : n = slen s → sdrop n (s +:+ t) = t.
Proof. intros ->. apply sdrop_app. Qed.
Lemma stake_drop n s : stake n s +:+ sdrop n s = s.
Proof. revert s. induction n as [|n IH]; intros [|c s]; simpl; try done. by rewrite IH. Qed.

(** Membership of a byte in a string built by appending. *)
Ltac byte_solver :=
  rewrite ?to_bytes_app, ?to_bytes_cons, ?to_bytes_nil,
    ?elem_of_app, ?elem_of_cons, ?elem_of_nil in *;
  intuition (first [congruence|eauto]).

(** ** Character classes *)

Definition is_digit (c : byte) : bool := (48 <=? u8 c) && (u8 c <=? 57).
Definition is_lower (c : byte) : bool := (97 <=? u8 c) && (u8 c <=? 122).
Definition is_upper (c : byte) : bool := (65 <=? u8 c) && (u8 c <=? 90).
Definition is_alpha (c : byte) : bool := is_lower c || is_upper c.
(** [\t \n \v \f \r] and the space *)
Definition is_space (c : byte) : bool :=
  ((9 <=? u8 c) && (u8 c <=? 13)) || (u8 c =? 32).

Definition upper (c : byte) : byte := if is_lower c then mk8 (u8 c - 32) else c.
Definition lower (c : byte) : byte := if is_upper c then mk8 (u8 c + 32) else c.

Fixpoint smap (f : byte → byte) (s : string) : string :=
  match s with
  | EmptyString => EmptyString
  | String c s => String (f c) (smap f s)
  end.

(** ** Package [strings] *)
Module Strings.

Definition HasPrefix (s p : string) : bool := String.prefix p s.
#[global] Arguments HasPrefix : simpl never.

Fixpoint HasSuffix (s suf : string) : bool :=
  String.eqb s suf ||
  match s with EmptyString => false | String _ s' => HasSuffix s' suf end.

Fixpoint Contains (s sub : string) : bool :=
  HasPrefix s sub ||
  match s with EmptyString => false | String _ s' => Contains s' sub end.

(** [IndexByte], [LastIndexByte]; [None] is Go's -1. *)
Fixpoint IndexByte (s : string) (c : byte) : option nat :=
  match s with
  | EmptyString => None
  | String a s' => if Ascii.eqb a c then Some 0%nat else S <$> IndexByte s' c
  end.

Fixpoint LastIndexByte (s : string) (c : byte) : option nat :=
  match s with
  | EmptyString => None
  | String a s' =>
      match LastIndexByte s' c with
      | Some i => Some (S i)
      | None => if Ascii.eqb a c then Some 0%nat else None
      end
  end.

(** [IndexAny(s, chars)] *)
Fixpoint IndexAny (s chars : string) : option nat :=
  match s with
  | EmptyString => None
  | String a s' =>
      if IndexByte chars a is Some _ then Some 0%nat else S <$> IndexAny s' chars
  end.

Definition TrimPrefix (s p : string) : string :=
  if HasPrefix s p then sdrop (slen p) s else s.
Definition TrimSuffix (s suf : string) : string :=
  if HasSuffix s suf then stake (slen s - slen suf) s else s.

Fixpoint TrimLeftSpace (s : string) : string :=
  match s with
  | EmptyString => EmptyString
  | String c s' => if is_space c then TrimLeftSpace s' else s
  end.

Fixpoint TrimRightSpace (s : string) : string :=
  match s with
  | EmptyString => EmptyString
  | String c s' =>
      match TrimRightSpace s' with
      | EmptyString => if is_space c then EmptyString else String c EmptyString
      | r => String c r
      end
  end.

Definition TrimSpace (s : string) : string := TrimRightSpace (TrimLeftSpace s).

Definition ToUpper (s : string) : string := smap upper s.
Definition ToLower (s : string) : string := smap lower s.
Definition EqualFold (s t : string) : bool := String.eqb (ToLower s) (ToLower t).

(** [Split(s, sep)] and [SplitN(s, sep, n)] for a one-byte separator. *)
Fixpoint Split (s : string) (c : byte) : list string :=
  match s with
  | EmptyString => [EmptyString]
  | String a s' =>
      if Ascii.eqb a c then EmptyString :: Split s' c
      else match Split s' c with
           | h :: t => String a h :: t
           | [] => [String a EmptyString]
           end
  end.

Fixpoint SplitN (s : string) (c : byte) (n : nat) : list string :=
  match n with
  | O => []
  | S O => [s]
  | S n' =>
      match IndexByte s c with
      | None => [s]
      | Some i => stake i s :: SplitN (sdrop (S i) s) c n'
      end
  end.

Definition Cut (s : string) (c : byte) : string * string * bool :=
  match IndexByte s c with
  | Some i => (stake i s, sdrop (S i) s, true)
  | None => (s, EmptyString, false)
  end.

Fixpoint Join (l : list string) (sep : string) : string :=
  match l with
  | [] => EmptyString
  | [s] => s
  | s :: l => s +:+ sep +:+ Join l sep
  end.

(** [Fields]: [cur] is the field being read. *)
Fixpoint fields_aux (cur s : string) : list string :=
  match s with
  | EmptyString => if String.eqb cur "" then [] else [cur]
  | String c s' =>
      if is_space c
      then (if String.eqb cur "" then fields_aux "" s' else cur :: fields_aux "" s')
      else fields_aux (cur +:+ String c EmptyString) s'
  end.
Definition Fields (s : string) : list string := fields_aux "" s.

(** [ReplaceAll(s, old, new)] for a non-empty [old]; [skip] bytes of a matched
    [old] are still to be dropped. *)
Fixpoint replace_aux (old new : string) (skip : nat) (s : string) : string :=
  match s with
  | EmptyString => EmptyString
  | String c s' =>
      match skip with
      | S k => replace_aux old new k s'
      | O => if HasPrefix s old
             then new +:+ replace_aux old new (slen old - 1) s'
             else String c (replace_aux old new 0 s')
      end
  end.
Definition ReplaceAll (s old new : string) : string := replace_aux old new 0 s.

Definition Count (s : string) (c : byte) : nat := (length (Split s c) - 1)%nat.

(** *** Specifications *)

Lemma HasPrefix_spec s p : HasPrefix s p = true ↔ ∃ r, s = p +:+ r.
Proof.
  unfold HasPrefix. revert s. induction p as [|a p IH]; intros s.
  - simpl. split; [eexists; done|by destruct s].
  - destruct s as [|b s]; simpl; [split; [done|by intros [r ?]]|].
    destruct (ascii_dec a b) as [->|Hne].
    + rewrite IH. split; intros [r ?]; exists r; congruence.
    + split; [done|intros [r ?]; congruence].
Qed.

Lemma HasSuffix_spec s suf : HasSuffix s suf = true ↔ ∃ r, s = r +:+ suf.
Proof.
  induction s as [|a s IH]; simpl.
  - rewrite orb_true_iff, String.eqb_eq. split.
    + intros [<-|?]; [by exists ""|done].
    + intros [[|c r] H]; simpl in H; [by left|done].
  - rewrite orb_true_iff, String.eqb_eq, IH. split.
    + intros [<-|[r ->]]; [by exists ""|by exists (String a r)].
    + intros [[|c r] H]; simpl in H; [by left|]. injection H as -> ->. eauto.
Qed.

Lemma Contains_spec s sub : Contains s sub = true ↔ ∃ a b, s = a +:+ sub +:+ b.
Proof.
  induction s as [|c s IH]; simpl; rewrite orb_true_iff, HasPrefix_spec.
  - split.
    + intros [[r H]|?]; [by exists "", r|done].
    + intros ([|x a] & b & H); simpl in H; [left; eauto|done].
  - rewrite IH. split.
    + intros [[r ->]|(a & b & ->)]; [by exists "", r|by exists (String c a), b].
    + intros ([|x a] & b & H); simpl in H; [left; eauto|].
      injection H as -> ->. right; eauto.
Qed.

Lemma Contains_refl s : Contains s s = true.
Proof. apply Contains_spec. exists "", "". by rewrite sapp_nil_r. Qed.

Lemma TrimPrefix_app p s : TrimPrefix (p +:+ s) p = s.
Proof.
  unfold TrimPrefix. rewrite (proj2 (HasPrefix_spec _ _)) by eauto. apply sdrop_app.
Qed.

Lemma IndexByte_None s c :
  IndexByte s c = None ↔ c ∉ to_bytes s.
Proof.
  induction s as [|a s IH]; simpl; [set_solver|].
  destruct (Ascii.eqb_spec a c) as [->|Hne]; [set_solver|].
  rewrite fmap_None, IH. set_solver.
Qed.

Lemma IndexByte_app_first s t c :
  c ∉ to_bytes s → IndexByte (s +:+ String c t) c = Some (slen s).
Proof.
  induction s as [|a s IH]; simpl; intros Hn.
  - by rewrite Ascii.eqb_refl.
  - destruct (Ascii.eqb_spec a c); [set_solver|]. rewrite IH; set_solver.
Qed.

Lemma Cut_app s t c : c ∉ to_bytes s → Cut (s +:+ String c t) c = (s, t, true).
Proof.
  intros Hn. unfold Cut. rewrite IndexByte_app_first, stake_app by done.
  replace (s +:+ String c t) with ((s +:+ String c "") +:+ t) by apply sapp_assoc.
  rewrite sdrop_app_eq; [done|]. rewrite slen_app. cbn. lia.
Qed.

Lemma LastIndexByte_None s c :
  LastIndexByte s c = None ↔ c ∉ to_bytes s.
Proof.
  induction s as [|a s IH]; simpl; [set_solver|].
  destruct (LastIndexByte s c) eqn:E.
  - split; [done|]. intros Hn. exfalso.
    assert (c ∉ to_bytes s) as Hc by set_solver. apply IH in Hc. done.
  - destruct (Ascii.eqb_spec a c); [set_solver|].
    split; [|done]. intros _. assert (c ∉ to_bytes s) by (by apply IH). set_solver.
Qed.

Lemma LastIndexByte_app_last s t c :
  c ∉ to_bytes t → LastIndexByte (s +:+ String c t) c = Some (slen s).
Proof.
  intros Hn. induction s as [|a s IH]; simpl.
  - apply LastIndexByte_None in Hn. by rewrite Hn, Ascii.eqb_refl.
  - by rewrite IH.
Qed.

Lemma Split_nonempty s c : Split s c ≠ [].
Proof. destruct s as [|a s]; simpl; [done|]. by repeat case_match. Qed.

Lemma Join_Split s c : Join (Split s c) (String c EmptyString) = s.
Proof.
  induction s as [|a s IH]; simpl; [done|].
  pose proof (Split_nonempty s c) as Hne.
  destruct (Ascii.eqb_spec a c) as [->|Hac].
  - destruct (Split s c) as [|h t]; [done|]. simpl in *. by rewrite IH.
  - destruct (Split s c) as [|h [|h2 t]]; [done| |]; simpl in *; by rewrite IH.
Qed.

(** Splitting a joined pair whose head has no separator. *)
Lemma Split_app_sep s t c :
  c ∉ to_bytes s → Split (s +:+ String c t) c = s :: Split t c.
Proof.
  induction s as [|a s IH]; simpl; intros Hn; [by rewrite Ascii.eqb_refl|].
  destruct (Ascii.eqb_spec a c); [set_solver|]. rewrite IH; [done|set_solver].
Qed.

Lemma Split_no_sep s c : c ∉ to_bytes s → Split s c = [s].
Proof.
  induction s as [|a s IH]; simpl; intros Hn; [done|].
  destruct (Ascii.eqb_spec a c); [set_solver|]. rewrite IH; [done|set_solver].
Qed.

Lemma Split_elem_no_sep s c e : e ∈ Split s c → c ∉ to_bytes e.
Proof.
  revert e. induction s as [|a s IH]; simpl; intros e.
  - rewrite list_elem_of_singleton. intros ->. apply not_elem_of_nil.
  - destruct (Ascii.eqb_spec a c) as [->|Hac].
    + rewrite elem_of_cons. intros [->|H]; [apply not_elem_of_nil|by apply IH].
    + destruct (Split s c) as [|h t].
      * rewrite list_elem_of_singleton. intros ->. rewrite to_bytes_cons, to_bytes_nil. set_solver.
      * rewrite elem_of_cons. intros [->|H]; [|apply IH; by right].
        rewrite to_bytes_cons, not_elem_of_cons. split; [done|]. apply IH. by left.
Qed.

Lemma Split_Join l c :
  l ≠ [] → (∀ e, e ∈ l → c ∉ to_bytes e) → Split (Join l (String c EmptyString)) c = l.
Proof.
  intros Hne He. induction l as [|x [|y l] IH]; [done| |].
  - apply Split_no_sep, He. by left.
  - change (Join (x :: y :: l) (String c EmptyString))
      with (x +:+ String c (Join (y :: l) (String c EmptyString))).
    rewrite Split_app_sep by (apply He; by left). f_equal. apply IH; [done|]. intros. apply He. by right.
Qed.

Lemma TrimRightSpace_app s t :
  TrimRightSpace t = t → t ≠ "" → TrimRightSpace (s +:+ t) = s +:+ t.
Proof.
  intros Ht Hne. induction s as [|c s IH]; simpl; [done|].
  rewrite IH. by destruct s, t.
Qed.

Lemma TrimLeftSpace_nonspace s : match s with String c _ => is_space c = false | _ => True end →
  TrimLeftSpace s = s.
Proof. destruct s; simpl; [done|]. by intros ->. Qed.

Lemma TrimSpace_app s t :
  TrimLeftSpace (s +:+ t) = s +:+ t → TrimRightSpace t = t → t ≠ "" →
  TrimSpace (s +:+ t) = s +:+ t.
Proof. intros Hl Hr Hne. unfold TrimSpace. rewrite Hl. by apply TrimRightSpace_app. Qed.

Lemma slen_TrimLeftSpace s : (slen (TrimLeftSpace s) ≤ slen s)%nat.
Proof. induction s; simpl; [done|]. case_match; simpl; lia. Qed.
Lemma slen_TrimRightSpace s : (slen (TrimRightSpace s) ≤ slen s)%nat.
Proof. induction s; simpl; [done|]. repeat case_match; simpl in *; lia. Qed.

(** A string that trimming does not change has no space at either end. *)
Lemma TrimSpace_fixed s : TrimSpace s = s → TrimLeftSpace s = s ∧ TrimRightSpace s = s.
Proof.
  intros H. assert (TrimLeftSpace s = s) as Hl.
  { destruct s as [|c s]; [done|]. simpl. destruct (is_space c) eqn:E; [|done]. exfalso.
    unfold TrimSpace in H. simpl in H. rewrite E in H. apply (f_equal slen) in H.
    pose proof (slen_TrimRightSpace (TrimLeftSpace s)). pose proof (slen_TrimLeftSpace s).
    simpl in H. lia. }
  split; [done|]. unfold TrimSpace in H. by rewrite Hl in H.
Qed.

Lemma TrimSpace_digits s : (∀ c, c ∈ to_bytes s → is_digit c = true) → TrimSpace s = s.
Proof.
  intros H. assert (∀ c, c ∈ to_bytes s → is_space c = false) as Hs.
  { intros c Hc%H. unfold is_digit in Hc. boolify. unfold is_space.
    apply orb_false_intro; [apply andb_false_intro2|]; lia. }
  clear H. unfold TrimSpace. rewrite TrimLeftSpace_nonspace by (destruct s; [done|apply Hs; set_solver]).
  induction s as [|c s IH]; simpl; [done|].
  rewrite IH by (intros; apply Hs; set_solver). destruct s; [|done]. rewrite Hs; [done|set_solver].
Qed.

Lemma ToLower_app s t : ToLower (s +:+ t) = ToLower s +:+ ToLower t.
Proof. unfold ToLower. induction s as [|c s IH]; simpl; [done|]. by rewrite IH. Qed.

Lemma ToLower_length s : slen (ToLower s) = slen s.
Proof. unfold ToLower. induction s; simpl; auto. Qed.

End Strings.

(** ** Package [strconv] and [fmt.Sscanf(_, "%d", _)] *)
Module Strconv.

Definition digit (z : Z) : byte := mk8 (48 + z).

(** Decimal digits of a non-negative [n], most significant first. *)
Fixpoint dec_aux (fuel : nat) (n : Z) (acc : string) : string :=
  match fuel with
  | O => acc
  | S f =>
      let acc := String (digit (n mod 10)) acc in
      if n <? 10 then acc else dec_aux f (n / 10) acc
  end.

(** [Itoa]; 20 digits are enough for every 64-bit integer. *)
Definition Itoa (n : Z) : string :=
  if n <? 0 then String "-" (dec_aux 20 (- n) "") else dec_aux 20 n "".

(** [fmt.Sprintf("%04d", n)] for [n >= 0]. *)
Definition Sprintf_04d (n : Z) : string :=
  let s := Itoa n in String.string_of_list_ascii (replicate (4 - slen s) "0"%char) +:+ s.

(** The value of a string of decimal digits, on top of [acc]. *)
Fixpoint digits_value (acc : Z) (s : string) : option Z :=
  match s with
  | EmptyString => Some acc
  | String c s' =>
      if is_digit c then digits_value (acc * 10 + (u8 c - 48)) s' else None
  end.

(** [ParseUint(s, 10, bits)]; [None] is a syntax or range error. *)
Definition ParseUint (s : string) (bits : Z) : option Z :=
  match s with
  | EmptyString => None
  | _ => match digits_value 0 s with
         | Some v => if v <? 2 ^ bits then Some v else None
         | None => None
         end
  end.

(** An optional sign and the rest of the string. *)
Definition cut_sign (s : string) : bool * string :=
  match s with
  | String c r =>
      if Ascii.eqb c "-" then (true, r)
      else if Ascii.eqb c "+" then (false, r) else (false, s)
  | EmptyString => (false, s)
  end.

(** [Atoi(s)] as (value, err == nil): the value is 0 on a syntax error and the
    nearest 64-bit integer on a range error. *)
Definition Atoi (s : string) : Z * bool :=
  let '(neg, ds) := cut_sign s in
  match ds with
  | EmptyString => (0, false)
  | _ => match digits_value 0 ds with
         | None => (0, false)
         | Some v =>
             let v := if (neg : bool) then - v else v in
             if v <? - 2 ^ 63 then (- 2 ^ 63, false)
             else if 2 ^ 63 - 1 <? v then (2 ^ 63 - 1, false)
             else (v, true)
         end
  end.

(** The longest prefix of decimal digits. *)
Fixpoint span_digits (s : string) : string :=
  match s with
  | String c s' => if is_digit c then String c (span_digits s') else EmptyString
  | EmptyString => EmptyString
  end.

(** The integer [Sscanf(s, "%d", &x)] stores in an [x] that was 0: the leading
    signed decimal of [s], or 0 when there is none or it does not fit. *)
Definition Sscanf_d (s : string) : Z :=
  let s := Strings.TrimLeftSpace s in
  let '(neg, ds) := cut_sign s in
  let '(v, ok) := Atoi ((if (neg : bool) then "-" else "") +:+ span_digits ds) in
  if (ok : bool) then v else 0.

Lemma digits_value_dec_aux f n s :
  0 ≤ n < 10 ^ Z.of_nat f → (0 < f)%nat →
  digits_value 0 (dec_aux f n s) = digits_value n s.
Proof.
  revert n s. induction f as [|f IH]; intros n s Hn Hf; [lia|]. cbn [dec_aux].
  assert (is_digit (digit (n mod 10)) = true ∧ u8 (digit (n mod 10)) = 48 + n mod 10) as [Hd Hv].
  { unfold is_digit, digit. pose proof (Z.mod_pos_bound n 10).
    rewrite u8_mk8_small by lia. split; [|done]. apply andb_true_intro. lia. }
  destruct (Z.ltb_spec n 10).
  - cbn [digits_value]. rewrite Hd, Hv. f_equal. rewrite Z.mod_small; lia.
  - rewrite IH.
    + cbn [digits_value]. rewrite Hd, Hv. f_equal. zlia.
    + split; [zlia|]. rewrite Nat2Z.inj_succ, Z.pow_succ_r in Hn by lia.
      apply Z.div_lt_upper_bound; lia.
    + destruct f; [simpl in Hn; lia|lia].
Qed.

Lemma dec_aux_nonempty f n s : (0 < f)%nat → dec_aux f n s ≠ "".
Proof.
  revert n s. induction f as [|f IH]; intros n s Hf; [lia|]. cbn [dec_aux].
  case_match; [done|]. destruct f; [done|]. apply IH. lia.
Qed.

Lemma ParseUint_Itoa n bits :
  0 ≤ n < 2 ^ bits → n < 10 ^ 20 → ParseUint (Itoa n) bits = Some n.
Proof.
  intros Hn Hb. unfold ParseUint, Itoa.
  rewrite (proj2 (Z.ltb_ge n 0)) by lia.
  pose proof (dec_aux_nonempty 20 n "" ltac:(lia)) as Hne.
  pose proof (digits_value_dec_aux 20 n "" ltac:(lia) ltac:(lia)) as Hv.
  destruct (dec_aux 20 n "") as [|c s]; [done|]. rewrite Hv. cbn [digits_value].
  by rewrite (proj2 (Z.ltb_lt _ _)) by lia.
Qed.

(** The digits printed by [Itoa] are digits. *)
Lemma dec_aux_digits f n s :
  (∀ c, c ∈ to_bytes s → is_digit c = true) →
  ∀ c, c ∈ to_bytes (dec_aux f n s) → is_digit c = true.
Proof.
  revert n s. induction f as [|f IH]; intros n s Hs c; [apply Hs|]. cbn [dec_aux].
  assert (is_digit (digit (n mod 10)) = true) as Hd.
  { unfold is_digit, digit. pose proof (Z.mod_pos_bound n 10).
    rewrite u8_mk8_small by lia. apply andb_true_intro. lia. }
  assert (∀ c', c' ∈ to_bytes (String (digit (n mod 10)) s) → is_digit c' = true).
  { intros c'. cbn. rewrite elem_of_cons. intros [->|]; [done|by apply Hs]. }
  case_match; [auto|]. apply IH. auto.
Qed.

Lemma Itoa_digits n c : 0 ≤ n → c ∈ to_bytes (Itoa n) → is_digit c = true.
Proof.
  intros Hn. unfold Itoa. rewrite (proj2 (Z.ltb_ge n 0)) by lia.
  apply dec_aux_digits. cbn. set_solver.
Qed.

Lemma Atoi_Itoa n : 0 ≤ n < 2 ^ 63 → Atoi (Itoa n) = (n, true).
Proof.
  intros Hn. pose proof (Itoa_digits n) as Hdig.
  unfold Itoa in *. rewrite (proj2 (Z.ltb_ge n 0)) in * by lia.
  pose proof (dec_aux_nonempty 20 n "" ltac:(lia)) as Hne.
  pose proof (digits_value_dec_aux 20 n "" ltac:(lia) ltac:(lia)) as Hv.
  destruct (dec_aux 20 n "") as [|c s] eqn:E; [done|].
  assert (is_digit c = true) as Hc by (apply Hdig; [lia|by left]).
  unfold Atoi.
  assert (cut_sign (String c s) = (false, String c s)) as ->.
  { unfold cut_sign. destruct (Ascii.eqb_spec c "-"); [by subst c|].
    destruct (Ascii.eqb_spec c "+"); [by subst c|done]. }
  rewrite Hv. cbn [digits_value].
  rewrite (proj2 (Z.ltb_ge _ _)), (proj2 (Z.ltb_ge _ _)) by lia. done.
Qed.

Lemma span_digits_all s : (∀ c, c ∈ to_bytes s → is_digit c = true) → span_digits s = s.
Proof.
  induction s as [|c s IH]; simpl; intros H; [done|].
  rewrite H by set_solver. f_equal. apply IH. set_solver.
Qed.

Lemma Sscanf_d_Itoa n : 0 ≤ n < 2 ^ 63 → Sscanf_d (Itoa n) = n.
Proof.
  intros Hn. pose proof (Itoa_digits n) as Hdig. unfold Sscanf_d.
  assert (Itoa n ≠ "") as Hne.
  { unfold Itoa. rewrite (proj2 (Z.ltb_ge n 0)) by lia. apply dec_aux_nonempty. lia. }
  destruct (Itoa n) as [|c s] eqn:E; [done|].
  assert (is_digit c = true) as Hc by (apply Hdig; [lia|by left]).
  assert (48 ≤ u8 c ≤ 57) as Hr by (unfold is_digit in Hc; boolify; lia).
  rewrite Strings.TrimLeftSpace_nonspace.
  2:{ unfold is_space. apply orb_false_intro; [apply andb_false_intro2|]; lia. }
  assert (cut_sign (String c s) = (false, String c s)) as ->.
  { unfold cut_sign. destruct (Ascii.eqb_spec c "-"); [by subst c|].
    destruct (Ascii.eqb_spec c "+"); [by subst c|done]. }
  rewrite span_digits_all by (intros; apply Hdig; [lia|done]).
  cbn [String.append]. rewrite <- E, Atoi_Itoa by lia. done.
Qed.

End Strconv.

(** ** Package [path/filepath], with '/' as the separator *)
Module Filepath.

Fixpoint trim_slashes (s : string) : string :=
  match s with
  | EmptyString => EmptyString
  | String c s' => match trim_slashes s' with
                   | EmptyString => if Ascii.eqb c "/" then EmptyString else String c EmptyString
                   | r => String c r
                   end
  end.

Definition Base (path : string) : string :=
  if String.eqb path "" then "."
  else
    let p := trim_slashes path in
    let p := match Strings.LastIndexByte p "/" with Some i => sdrop (S i) p | None => p end in
    if String.eqb p "" then "/" else p.

End Filepath.
