(* ===== verification/GoNet.v ===== *)
(** * The parts of Go's [net] and [net/netip] packages the sources use

    A [net.IP] is a byte slice of length 4 or 16 ([nil] is [None] where the
    sources test for it); [ParseIP] always answers the 16-byte form. *)

From S2P Require Import Prelude GoStrings.

Definition ip := list byte.

Module Net.

(** The 12 bytes that prefix an IPv4 address inside a 16-byte one. *)
Definition v4InV6Prefix : list byte :=
  bytes [0; 0; 0; 0; 0; 0; 0; 0; 0; 0; 255; 255].

(** [IPv4(a, b, c, d)] *)
Definition IPv4 (a b c d : byte) : ip := v4InV6Prefix ++ [a; b; c; d].

Definition To4 (x : ip) : option ip :=
  match length x with
  | 4%nat => Some x
  | 16%nat => if bool_decide (take 12 x = v4InV6Prefix) then Some (drop 12 x) else None
  | _ => None
  end.

Definition To16 (x : ip) : option ip :=
  match length x with
  | 4%nat => Some (v4InV6Prefix ++ x)
  | 16%nat => Some x
  | _ => None
  end.

(** [x[i]] of an address whose length is known; 0 outside. *)
Definition at_ (x : ip) (i : nat) : Z := default 0 (u8 <$> x !! i).

Definition IPv6loopback : ip := bytes [0;0;0;0;0;0;0;0;0;0;0;0;0;0;0;1].

(** [ip.Equal(x)] *)
Definition Equal (x y : ip) : bool :=
  bool_decide (x = y) ||
  match To16 x, To16 y with
  | Some a, Some b => bool_decide (a = b)
  | _, _ => false
  end.

Definition IsLoopback (x : ip) : bool :=
  match To4 x with
  | Some x4 => at_ x4 0 =? 127
  | None => Equal x IPv6loopback
  end.

Definition IsLinkLocalUnicast (x : ip) : bool :=
  match To4 x with
  | Some x4 => (at_ x4 0 =? 169) && (at_ x4 1 =? 254)
  | None => Nat.eqb (length x) 16 && (at_ x 0 =? 254) && (Z.land (at_ x 1) 192 =? 128)
  end.

Definition IsLinkLocalMulticast (x : ip) : bool :=
  match To4 x with
  | Some x4 => (at_ x4 0 =? 224) && (at_ x4 1 =? 0) && (at_ x4 2 =? 0)
  | None => Nat.eqb (length x) 16 && (at_ x 0 =? 255) && (Z.land (at_ x 1) 15 =? 2)
  end.

Definition IsPrivate (x : ip) : bool :=
  match To4 x with
  | Some x4 =>
      (at_ x4 0 =? 10) ||
      ((at_ x4 0 =? 172) && (Z.land (at_ x4 1) 240 =? 16)) ||
      ((at_ x4 0 =? 192) && (at_ x4 1 =? 168))
  | None => Nat.eqb (length x) 16 && (Z.land (at_ x 0) 254 =? 252)
  end.

(** ** Parsing addresses: [netip.ParseAddr] without zones *)

(** [parseIPv4Fields]: [prev_dot] is true at the start and after a dot. *)
Fixpoint parseIPv4_aux (val : Z) (digLen : nat) (pos : nat) (prev_dot : bool)
    (acc : list byte) (s : string) : option (list byte) :=
  match s with
  | EmptyString =>
      if Nat.eqb pos 3 then Some (acc ++ [mk8 val]) else None
  | String c s' =>
      if is_digit c then
        if Nat.eqb digLen 1 && (val =? 0) then None
        else let val := val * 10 + (u8 c - 48) in
             if 255 <? val then None
             else parseIPv4_aux val (S digLen) pos false acc s'
      else if Ascii.eqb c "." then
        if prev_dot || String.eqb s' "" then None
        else if Nat.eqb pos 3 then None
        else parseIPv4_aux 0 0 (S pos) true (acc ++ [mk8 val]) s'
      else None
  end.
Definition parseIPv4 (s : string) : option (list byte) :=
  parseIPv4_aux 0 0 0 true [] s.

Definition hex_value (c : byte) : option Z :=
  if is_digit c then Some (u8 c - 48)
  else if (97 <=? u8 c) && (u8 c <=? 102) then Some (u8 c - 87)
  else if (65 <=? u8 c) && (u8 c <=? 70) then Some (u8 c - 55)
  else None.

(** One hexadecimal group: (number of digits, value, rest), at most 4 digits. *)
Fixpoint hex_group (off : nat) (acc : Z) (s : string) : option (nat * Z * string) :=
  match s with
  | EmptyString => Some (off, acc, s)
  | String c s' =>
      match hex_value c with
      | None => Some (off, acc, s)
      | Some v => if Nat.ltb 3 off then None else hex_group (S off) (acc * 16 + v) s'
      end
  end.

(** The group loop of [parseIPv6]; [acc] holds the bytes stored so far, so
    [length acc] is the loop's [i]; [ell] the position of the ellipsis.  The
    result is (bytes, ellipsis, unread rest).  8 rounds reach [i = 16]. *)
Fixpoint parseIPv6_loop (fuel : nat) (acc : list byte) (ell : option nat) (s : string)
    : option (list byte * option nat * string) :=
  match fuel with
  | O => Some (acc, ell, s)
  | S fuel =>
      match hex_group 0 0 s with
      | None => None
      | Some (off, v, rest) =>
          if Nat.eqb off 0 then None
          else match rest with
          | EmptyString => Some (acc ++ put16 v, ell, rest)
          | String c rest' =>
              if Ascii.eqb c "." then
                if (if ell is Some _ then false else negb (Nat.eqb (length acc) 12)) then None
                else if Nat.ltb 16 (length acc + 4) then None
                else match parseIPv4 s with
                     | None => None
                     | Some f => Some (acc ++ f, ell, EmptyString)
                     end
              else if negb (Ascii.eqb c ":") then None
              else match rest' with
              | EmptyString => None
              | String c2 rest2 =>
                  if Ascii.eqb c2 ":" then
                    match ell with
                    | Some _ => None
                    | None =>
                        let acc := acc ++ put16 v in
                        if String.eqb rest2 "" then Some (acc, Some (length acc), rest2)
                        else parseIPv6_loop fuel acc (Some (length acc)) rest2
                    end
                  else parseIPv6_loop fuel (acc ++ put16 v) ell rest'
              end
          end
      end
  end.

Definition parseIPv6 (s : string) : option (list byte) :=
  let '(ell, s) :=
    if Strings.HasPrefix s "::" then (Some 0%nat, sdrop 2 s) else (None, s) in
  if String.eqb s "" && (if ell is Some _ then true else false)
  then Some (replicate 16 (mk8 0))
  else match parseIPv6_loop 8 [] ell s with
  | None => None
  | Some (acc, ell, rest) =>
      if negb (String.eqb rest "") then None
      else if Nat.ltb (length acc) 16 then
        match ell with
        | None => None
        | Some e => Some (take e acc ++ replicate (16 - length acc) (mk8 0) ++ drop e acc)
        end
      else match ell with Some _ => None | None => Some acc end
  end.

(** [netip.ParseAddr] for addresses without a zone: (bytes, bit length); an
    address with a zone is rejected by both callers modelled here. *)
Fixpoint ParseAddr_aux (s0 s : string) : option (list byte) :=
  match s with
  | EmptyString => None
  | String c s' =>
      if Ascii.eqb c "." then parseIPv4 s0
      else if Ascii.eqb c ":" then
        (if Strings.IndexByte s0 "%" is Some _ then None else parseIPv6 s0)
      else if Ascii.eqb c "%" then None
      else ParseAddr_aux s0 s'
  end.
Definition ParseAddr (s : string) : option (list byte) := ParseAddr_aux s s.

Definition As16 (a : list byte) : ip :=
  if Nat.eqb (length a) 4 then v4InV6Prefix ++ a else a.

Definition ParseIP (s : string) : option ip := As16 <$> ParseAddr s.

(** ** Networks *)

Record IPNet := { net_ip : ip; net_mask : list byte }.

(** [CIDRMask(ones, 8 * n)]: [n] bytes, the first [ones] bits set. *)
Fixpoint CIDRMask (ones : Z) (n : nat) : list byte :=
  match n with
  | O => []
  | S n =>
      mk8 (if 8 <=? ones then 255 else 256 - 2 ^ (8 - Z.max 0 ones)) :: CIDRMask (ones - 8) n
  end.

Fixpoint and_bytes (x m : list byte) : list byte :=
  match x, m with
  | a :: x, b :: m => mk8 (Z.land (u8 a) (u8 b)) :: and_bytes x m
  | _, _ => []
  end.

(** [dtoi] on a whole string: digits only, non-empty, below 0xFFFFFF. *)
Definition dtoi (s : string) : option Z :=
  match s with
  | EmptyString => None
  | _ => match Strconv.digits_value 0 s with
         | Some v => if v <? 16777215 then Some v else None
         | None => None
         end
  end.

Definition ParseCIDR (s : string) : option IPNet :=
  match Strings.Cut s "/" with
  | (addr, mask, true) =>
      match ParseAddr addr, dtoi mask with
      | Some a, Some n =>
          if 8 * Z.of_nat (length a) <? n then None
          else let m := CIDRMask n (length a) in
               Some {| net_ip := and_bytes a m; net_mask := m |}
      | _, _ => None
      end
  | _ => None
  end.

(** [Mask.Size()] for the masks [CIDRMask] builds: (ones, bits). *)
Fixpoint mask_ones (m : list byte) : Z :=
  match m with
  | [] => 0
  | b :: m =>
      if u8 b =? 255 then 8 + mask_ones m
      else 8 - Z.log2 (256 - u8 b)
  end.
Definition mask_bits (m : list byte) : Z := 8 * Z.of_nat (length m).

Definition networkNumberAndMask (n : IPNet) : option (ip * list byte) :=
  let x := match To4 (net_ip n) with Some x => Some x
           | None => if Nat.eqb (length (net_ip n)) 16 then Some (net_ip n) else None end in
  match x with
  | None => None
  | Some x =>
      match length (net_mask n) with
      | 4%nat => if Nat.eqb (length x) 4 then Some (x, net_mask n) else None
      | 16%nat => Some (x, if Nat.eqb (length x) 4 then drop 12 (net_mask n) else net_mask n)
      | _ => None
      end
  end.

(** [n.Contains(x)] *)
Definition Contains (n : IPNet) (x : ip) : bool :=
  let x := default x (To4 x) in
  match networkNumberAndMask n with
  | None => Nat.eqb (length x) 0
  | Some (nn, m) =>
      Nat.eqb (length x) (length nn) &&
      bool_decide (and_bytes nn m = and_bytes x m)
  end.

(** ** Host and port strings *)

Definition SplitHostPort (hp : string) : option (string * string) :=
  match Strings.LastIndexByte hp ":" with
  | None => None
  | Some i =>
      let finish (host : string) (j k : nat) :=
        if Strings.IndexByte (sdrop j hp) "[" is Some _ then None
        else if Strings.IndexByte (sdrop k hp) "]" is Some _ then None
        else Some (host, sdrop (S i) hp) in
      if Strings.HasPrefix hp "[" then
        match Strings.IndexByte hp "]" with
        | None => None
        | Some e =>
            if Nat.eqb (S e) i then finish (sdrop 1 (stake e hp)) 1%nat (S e) else None
        end
      else let host := stake i hp in
           if Strings.IndexByte host ":" is Some _ then None else finish host 0%nat 0%nat
  end.

Definition JoinHostPort (host port : string) : string :=
  if Strings.IndexByte host ":" is Some _
  then "[" +:+ host +:+ "]:" +:+ port
  else host +:+ ":" +:+ port.

(** ** [IP.String] *)

Definition ipv4_string (x : ip) : string :=
  Strings.Join ((fun b => Strconv.Itoa (u8 b)) <$> x) ".".

Definition hex_digit (z : Z) : byte := if z <? 10 then mk8 (48 + z) else mk8 (87 + z).
(** lower-case hexadecimal without leading zeros, for 16-bit values *)
Fixpoint hex_aux (fuel : nat) (n : Z) (acc : string) : string :=
  match fuel with
  | O => acc
  | S f => let acc := String (hex_digit (n mod 16)) acc in
           if n <? 16 then acc else hex_aux f (n / 16) acc
  end.
Definition hex16 (n : Z) : string := hex_aux 4 n "".

(** The 16-bit groups of an address. *)
Fixpoint groups (x : list byte) : list Z :=
  match x with
  | a :: b :: x => be16 a b :: groups x
  | _ => []
  end.

(** Length of the run of zero groups at the head. *)
Fixpoint zero_run (l : list Z) : nat :=
  match l with 0 :: l => S (zero_run l) | _ => 0%nat end.

(** Start and length of the leftmost longest run of at least two zero groups. *)
Fixpoint best_run (pos : nat) (l : list Z) : nat * nat :=
  match l with
  | [] => (0%nat, 1%nat)
  | _ :: l' =>
      let here := zero_run l in
      let '(p, n) := best_run (S pos) l' in
      if Nat.leb n here && Nat.leb 2 here then (pos, here) else (p, n)
  end.

Definition ipv6_string (x : ip) : string :=
  let g := groups x in
  let '(p, n) := best_run 0 g in
  if Nat.leb 2 n
  then Strings.Join (hex16 <$> take p g) ":" +:+ "::" +:+
       Strings.Join (hex16 <$> drop (p + n) g) ":"
  else Strings.Join (hex16 <$> g) ":".

Definition String_ (x : ip) : string :=
  match To4 x with
  | Some x4 => ipv4_string x4
  | None => ipv6_string x
  end.

(** ** Facts *)

Lemma To4_length x y : To4 x = Some y → length y = 4%nat.
Proof.
  unfold To4. intros. destruct (length x) eqn:E; [done|].
  repeat (case_match; simplify_eq; try done); rewrite ?length_drop; lia.
Qed.

Lemma To4_4 x : length x = 4%nat → To4 x = Some x.
Proof. unfold To4. by intros ->. Qed.

Lemma To4_As16 x : length x = 4%nat → To4 (As16 x) = Some x.
Proof.
  intros H. unfold As16. rewrite H. cbn [Nat.eqb]. unfold To4.
  destruct x as [|a [|b [|c [|d [|]]]]]; simplify_eq/=. done.
Qed.

Lemma parseIPv4_aux_length val dl pos pd acc s r :
  parseIPv4_aux val dl pos pd acc s = Some r → length acc = pos → length r = 4%nat.
Proof.
  revert val dl pos pd acc. induction s as [|c s IH]; intros val dl pos pd acc; cbn [parseIPv4_aux].
  - intros H Hp. case_match; simplify_eq. boolify. rewrite length_app. simpl. lia.
  - intros H Hp. repeat (case_match; try done); eapply IH; eauto.
    rewrite length_app. simpl. lia.
Qed.

Lemma parseIPv4_length s r : parseIPv4 s = Some r → length r = 4%nat.
Proof. intros H. eapply parseIPv4_aux_length; [apply H|done]. Qed.

Lemma parseIPv6_loop_length fuel acc ell s acc' ell' rest :
  parseIPv6_loop fuel acc ell s = Some (acc', ell', rest) →
  (length acc + 2 * fuel ≤ 16)%nat → (length acc' ≤ 16)%nat.
Proof.
  revert acc ell s. induction fuel as [|f IH]; intros acc ell s; cbn [parseIPv6_loop].
  - intros. simplify_eq. lia.
  - intros H Hl. repeat (case_match; simplify_eq/=; try done); boolify;
      repeat match goal with
      | H : parseIPv4 _ = Some _ |- _ => apply parseIPv4_length in H
      end; rewrite ?length_app; simpl; try lia;
      (eapply IH; [eassumption|rewrite length_app; simpl; lia]).
Qed.

Lemma parseIPv6_length s r : parseIPv6 s = Some r → length r = 16%nat.
Proof.
  unfold parseIPv6. intros H.
  destruct (if Strings.HasPrefix s "::" then _ else _) as [ell s'].
  case_match; [simplify_eq; done|].
  destruct (parseIPv6_loop 8 [] ell s') as [[[acc ell'] rest]|] eqn:E; [|done].
  apply parseIPv6_loop_length in E; [|simpl; lia].
  repeat (case_match; simplify_eq; try done); boolify; try lia;
    rewrite !length_app, length_replicate, length_take, length_drop; lia.
Qed.

Lemma ParseAddr_length s a :
  ParseAddr s = Some a → length a = 4%nat ∨ length a = 16%nat.
Proof.
  unfold ParseAddr. generalize s at 1. intros s0. revert s0.
  induction s as [|c s IH]; intros s0; cbn [ParseAddr_aux]; [done|].
  intros. repeat (case_match; try done); eauto using parseIPv4_length, parseIPv6_length.
Qed.

Lemma ParseIP_length s x : ParseIP s = Some x → length x = 16%nat.
Proof.
  unfold ParseIP. intros (a & Ha & ->)%fmap_Some. unfold As16.
  destruct (ParseAddr_length _ _ Ha) as [H|H]; rewrite H; simpl; [|done]. lia.
Qed.

(** An address either parses to a 4-byte or to a genuine 16-byte address. *)
Lemma length_CIDRMask ones n : length (CIDRMask ones n) = n.
Proof. revert ones. induction n; intros; simpl; auto. Qed.

Lemma length_and_bytes x m :
  length x = length m → length (and_bytes x m) = length x.
Proof.
  revert m. induction x as [|a x IH]; intros [|b m]; simpl; try done.
  intros [= H]. f_equal. auto.
Qed.

(** *** Splitting and joining host and port *)

Lemma sdrop_1_stake c h t : sdrop 1 (stake (S (slen h)) (String c (h +:+ t))) = h.
Proof. cbn [stake sdrop]. rewrite stake_app. done. Qed.

Lemma IndexByte_not_in s c : c ∉ to_bytes s → Strings.IndexByte s c = None.
Proof. apply Strings.IndexByte_None. Qed.

Lemma SplitHostPort_JoinHostPort h p :
  "["%char ∉ to_bytes h → "]"%char ∉ to_bytes h →
  ":"%char ∉ to_bytes p → "["%char ∉ to_bytes p → "]"%char ∉ to_bytes p →
  SplitHostPort (JoinHostPort h p) = Some (h, p).
Proof.
  intros H1 H2 P1 P2 P3. unfold JoinHostPort.
  destruct (Strings.IndexByte h ":") eqn:Ec.
  - unfold SplitHostPort.
    replace ("[" +:+ h +:+ "]:" +:+ p) with (("[" +:+ h +:+ "]") +:+ String ":" p)
      by (simpl; rewrite sapp_assoc; done).
    rewrite Strings.LastIndexByte_app_last by done.
    assert (Strings.HasPrefix (("[" +:+ h +:+ "]") +:+ String ":" p) "[" = true) as ->
      by (apply Strings.HasPrefix_spec; eexists; simpl; done).
    assert (Strings.IndexByte (("[" +:+ h +:+ "]") +:+ String ":" p) "]" = Some (S (slen h))) as ->.
    { replace (("[" +:+ h +:+ "]") +:+ String ":" p)
        with (String "[" h +:+ String "]" (String ":" p)) by (simpl; rewrite sapp_assoc; done).
      rewrite Strings.IndexByte_app_first; [done|]. byte_solver. }
    replace (slen ("[" +:+ h +:+ "]")) with (S (S (slen h)))
      by (simpl; rewrite slen_app; simpl; lia).
    rewrite Nat.eqb_refl. cbn [String.append]. rewrite sapp_assoc.
    rewrite sdrop_1_stake, !sdrop_cons, sdrop_0.
    change (String "]" "" +:+ String ":" p) with ("]" +:+ ":" +:+ p).
    rewrite (IndexByte_not_in (h +:+ _)) by byte_solver.
    rewrite <- (sapp_assoc h), (sdrop_app_eq (S (slen h)))
      by (rewrite slen_app; simpl; lia).
    rewrite IndexByte_not_in by byte_solver.
    rewrite <- (sapp_assoc (h +:+ "]")), sdrop_app_eq; [done|].
    rewrite !slen_app. simpl. lia.
  - unfold SplitHostPort. change (h +:+ ":" +:+ p) with (h +:+ String ":" p).
    rewrite Strings.LastIndexByte_app_last by done.
    assert (Strings.HasPrefix (h +:+ String ":" p) "[" = false) as ->.
    { apply not_true_is_false. intros [r Hr]%Strings.HasPrefix_spec.
      destruct h as [|c h]; simpl in Hr; [done|]. injection Hr as -> _. apply H1. by left. }
    rewrite stake_app, Ec, sdrop_0.
    rewrite !IndexByte_not_in by byte_solver.
    change (h +:+ String ":" p) with (h +:+ ":" +:+ p).
    rewrite <- sapp_assoc, sdrop_app_eq; [done|]. rewrite slen_app. simpl. lia.
Qed.

(** *** IPv4 networks as integer ranges *)

Lemma testbit_u8_high b n : 8 ≤ n → Z.testbit (u8 b) n = false.
Proof.
  intros Hn. rewrite <- (Z.mod_small (u8 b) (2 ^ 8)) by apply u8_range.
  apply Z.mod_pow2_bits_high. lia.
Qed.

Lemma u8_land a b : u8 (mk8 (Z.land (u8 a) (u8 b))) = Z.land (u8 a) (u8 b).
Proof.
  rewrite u8_mk8. change 256 with (2 ^ 8). rewrite <- Z.land_ones by lia.
  rewrite <- Z.land_assoc. f_equal. rewrite Z.land_ones by lia.
  apply Z.mod_small, u8_range.
Qed.

Lemma be32_testbit b0 b1 b2 b3 n :
  0 ≤ n →
  Z.testbit (be32 b0 b1 b2 b3) n =
  Z.testbit (u8 b0) (n - 24) || Z.testbit (u8 b1) (n - 16) ||
  (Z.testbit (u8 b2) (n - 8) || Z.testbit (u8 b3) n).
Proof. intros. unfold be32. by rewrite !Z.lor_spec, !Z.shiftl_spec by lia. Qed.

(** At a given position at most one of the four bytes contributes. *)
Lemma be32_land a0 a1 a2 a3 m0 m1 m2 m3 :
  be32 (mk8 (Z.land (u8 a0) (u8 m0))) (mk8 (Z.land (u8 a1) (u8 m1)))
       (mk8 (Z.land (u8 a2) (u8 m2))) (mk8 (Z.land (u8 a3) (u8 m3))) =
  Z.land (be32 a0 a1 a2 a3) (be32 m0 m1 m2 m3).
Proof.
  apply Z.bits_inj'. intros n Hn.
  rewrite Z.land_spec, !be32_testbit, !u8_land, !Z.land_spec by done.
  assert (n < 8 ∨ 8 ≤ n < 16 ∨ 16 ≤ n < 24 ∨ 24 ≤ n) as Hc by lia.
  destruct Hc as [?|[?|[?|?]]];
    repeat match goal with
    | |- context [Z.testbit (u8 ?b) ?k] =>
        first [ rewrite (Z.testbit_neg_r (u8 b) k) by lia
              | rewrite (testbit_u8_high b k) by lia ]
    end; by rewrite ?andb_false_l, ?andb_false_r, ?orb_false_l, ?orb_false_r.
Qed.

Definition mask32 (ones : Z) : Z := 2 ^ 32 - 2 ^ (32 - ones).

Lemma land_mask32 v ones :
  0 ≤ ones ≤ 32 → 0 ≤ v < 2 ^ 32 →
  Z.land v (mask32 ones) = v / 2 ^ (32 - ones) * 2 ^ (32 - ones).
Proof.
  intros Ho Hv. set (k := 32 - ones). assert (0 ≤ k ≤ 32) by lia.
  assert (mask32 ones = Z.shiftl (Z.ones (32 - k)) k) as ->.
  { unfold mask32. fold k. rewrite Z.shiftl_mul_pow2, Z.ones_equiv by lia.
    replace (2 ^ 32) with (2 ^ (32 - k) * 2 ^ k) by (rewrite <- Z.pow_add_r by lia; f_equal; lia).
    unfold Z.pred. lia. }
  rewrite <- Z.shiftr_div_pow2, <- Z.shiftl_mul_pow2 by lia.
  apply Z.bits_inj'. intros n Hn.
  rewrite Z.land_spec, !Z.shiftl_spec by lia.
  destruct (Z.lt_ge_cases n k).
  - rewrite !(Z.testbit_neg_r _ (n - k)) by lia. by rewrite andb_false_r.
  - rewrite Z.shiftr_spec, Z.testbit_ones by lia.
    replace (n - k + k) with n by lia.
    destruct (Z.lt_ge_cases n 32).
    + replace ((0 <=? n - k) && (n - k <? 32 - k)) with true by lia. by rewrite andb_true_r.
    + rewrite <- (Z.mod_small v (2 ^ 32)) by lia. by rewrite Z.mod_pow2_bits_high by lia.
Qed.

(** The 4-byte masks of [CIDRMask], as integers. *)
Lemma CIDRMask_be32 ones :
  0 ≤ ones ≤ 32 →
  ∃ m0 m1 m2 m3, CIDRMask ones 4 = [m0; m1; m2; m3] ∧ be32 m0 m1 m2 m3 = mask32 ones.
Proof.
  intros Ho. unfold CIDRMask. do 4 eexists. split; [reflexivity|].
  assert (∃ n : nat, (n ≤ 32)%nat ∧ ones = Z.of_nat n) as (n & Hn & ->)
    by (exists (Z.to_nat ones); lia).
  clear Ho. do 33 (destruct n as [|n]; [vm_compute; reflexivity|]). lia.
Qed.

(** The network [ParseCIDR] builds from the IPv4 address of value [a]. *)
Definition cidr4 (a ones : Z) : IPNet :=
  {| net_ip := and_bytes (put32 a) (CIDRMask ones 4); net_mask := CIDRMask ones 4 |}.

(** An IPv4 network contains the addresses that agree on the prefix. *)
Lemma Contains_cidr4 a v ones :
  0 ≤ ones ≤ 32 → 0 ≤ a < 2 ^ 32 → 0 ≤ v < 2 ^ 32 →
  Contains (cidr4 a ones) (put32 v) = true ↔
  a / 2 ^ (32 - ones) = v / 2 ^ (32 - ones).
Proof.
  intros Ho Ha Hv. destruct (CIDRMask_be32 ones Ho) as (m0 & m1 & m2 & m3 & Em & Hm).
  unfold Contains, cidr4, networkNumberAndMask. cbn [net_ip net_mask]. rewrite Em.
  destruct (put32 a) as [|a0 [|a1 [|a2 [|a3 [|]]]]] eqn:Ea; try done.
  destruct (put32 v) as [|v0 [|v1 [|v2 [|v3 [|]]]]] eqn:Ev; try done.
  apply be32_put32 in Ea, Ev. rewrite wrap32_small in Ea, Ev by lia.
  cbn [and_bytes To4 length default Nat.eqb andb].
  change (To4 [v0; v1; v2; v3]) with (Some [v0; v1; v2; v3]).
  cbn [default from_option id length Nat.eqb andb].
  rewrite bool_decide_eq_true. cbn [and_bytes].
  rewrite !u8_land, <- !Z.land_assoc, !Z.land_diag.
  split.
  - intros [= E0 E1 E2 E3].
    assert (Z.land a (mask32 ones) = Z.land v (mask32 ones)) as E.
    { rewrite <- Ea, <- Ev, <- Hm, <- !be32_land. by rewrite E0, E1, E2, E3. }
    rewrite !land_mask32 in E by lia. nia.
  - intros E.
    assert (Z.land a (mask32 ones) = Z.land v (mask32 ones)) as E'
      by (rewrite !land_mask32 by lia; by rewrite E).
    rewrite <- Ea, <- Ev, <- Hm, <- !be32_land in E'.
    apply (f_equal put32) in E'. by rewrite !put32_be32 in E'.
Qed.

(** For a network address that is a multiple of the block size, membership is
    an interval. *)
Lemma Contains_cidr4_range a v ones :
  0 ≤ ones ≤ 32 → 0 ≤ a < 2 ^ 32 → 0 ≤ v < 2 ^ 32 → a mod 2 ^ (32 - ones) = 0 →
  Contains (cidr4 a ones) (put32 v) = true ↔ a ≤ v < a + 2 ^ (32 - ones).
Proof.
  intros Ho Ha Hv Hm. rewrite Contains_cidr4 by done.
  set (K := 2 ^ (32 - ones)) in *. assert (0 < K) by (apply Z.pow_pos_nonneg; lia).
  pose proof (Z.div_mod a K ltac:(lia)). pose proof (Z.div_mod v K ltac:(lia)).
  pose proof (Z.mod_pos_bound v K ltac:(lia)). rewrite Hm in *. split.
  - intros E. rewrite E in *. nia.
  - intros ?. apply Z.div_unique_pos with (v - a); lia.
Qed.

(** ** Dotted-quad addresses print and parse *)

Lemma parseIPv4_octet b pos acc s :
  (pos < 3)%nat → s ≠ "" →
  parseIPv4_aux 0 0 pos true acc (Strconv.Itoa (u8 b) +:+ "." +:+ s) =
  parseIPv4_aux 0 0 (S pos) true (acc ++ [b]) s.
Proof.
  intros Hp Hs. apply String.eqb_neq in Hs.
  assert (Nat.eqb pos 3 = false) as Hq by (apply Nat.eqb_neq; lia).
  destruct b as [[] [] [] [] [] [] [] []];
    lazymatch goal with |- parseIPv4_aux _ _ _ _ _ (?a +:+ ?t) = _ =>
      let v := eval vm_compute in a in change a with v end;
    cbn -[Nat.eqb String.eqb Z.mul Z.add]; rewrite Hs, Hq; reflexivity.
Qed.

Lemma parseIPv4_last b acc :
  parseIPv4_aux 0 0 3 true acc (Strconv.Itoa (u8 b)) = Some (acc ++ [b]).
Proof. destruct b as [[] [] [] [] [] [] [] []]; reflexivity. Qed.

Lemma Itoa_byte_nonempty b : Strconv.Itoa (u8 b) ≠ "".
Proof. by destruct b as [[] [] [] [] [] [] [] []]. Qed.

Lemma Itoa_octet_nocolon b c : c ∈ to_bytes (Strconv.Itoa (u8 b)) → is_digit c = true.
Proof. apply Strconv.Itoa_digits. apply u8_range. Qed.

Lemma ipv4_string_4 a b c d :
  ipv4_string [a; b; c; d] =
  Strconv.Itoa (u8 a) +:+ "." +:+ Strconv.Itoa (u8 b) +:+ "." +:+
  Strconv.Itoa (u8 c) +:+ "." +:+ Strconv.Itoa (u8 d).
Proof. reflexivity. Qed.

Lemma sapp_nonempty_r a b : b ≠ "" → a +:+ b ≠ "".
Proof. by destruct a. Qed.

Lemma ParseAddr_aux_dot s0 p s :
  (∀ c, c ∈ to_bytes p → is_digit c = true) →
  ParseAddr_aux s0 (p +:+ "." +:+ s) = parseIPv4 s0.
Proof.
  induction p as [|c p IH]; intros H; [done|]. cbn [String.append ParseAddr_aux].
  assert (is_digit c = true) as Hc by (apply H; byte_solver).
  assert (Ascii.eqb c "." = false ∧ Ascii.eqb c ":" = false ∧ Ascii.eqb c "%" = false)
    as (-> & -> & ->).
  { repeat split; apply Ascii.eqb_neq; by intros ->. }
  apply IH. intros. apply H. byte_solver.
Qed.

(** [ParseIP] undoes [IP.String] on IPv4 addresses. *)
Lemma ParseIP_ipv4_string x :
  length x = 4%nat → ParseIP (ipv4_string x) = Some (As16 x).
Proof.
  destruct x as [|a [|b [|c [|d [|]]]]]; try done. intros _.
  rewrite ipv4_string_4. unfold ParseIP, ParseAddr.
  rewrite ParseAddr_aux_dot by apply Itoa_octet_nocolon. unfold parseIPv4.
  rewrite !parseIPv4_octet by
    (lia || (repeat (apply sapp_nonempty_r || discriminate); apply Itoa_byte_nonempty)).
  by rewrite parseIPv4_last.
Qed.

(** Only IPv4 addresses lie in an IPv4 network. *)
Lemma Contains_cidr4_To4 a ones x : Contains (cidr4 a ones) x = true → ∃ y, To4 x = Some y.
Proof.
  destruct (To4 x) as [y|] eqn:E; [by eexists|]. intros Hc. exfalso.
  assert (length x ≠ 4%nat) as Hx by (intros Hl; rewrite To4_4 in E; done).
  unfold Contains, networkNumberAndMask, cidr4 in Hc. cbn [net_ip net_mask] in Hc.
  assert (length (and_bytes (put32 a) (CIDRMask ones 4)) = 4%nat) as Hl
    by (rewrite length_and_bytes; [done|by rewrite length_CIDRMask]).
  rewrite E, (To4_4 (and_bytes _ _)), length_CIDRMask, Hl in Hc by done.
  cbn [default from_option id Nat.eqb] in Hc. rewrite Hl in Hc. boolify. done.
Qed.

End Net.
