(* ===== verification/GoIO.v ===== *)
(** * Byte streams ([io], [net.Conn]) as the sources use them

    A connection delivers the bytes [c_in] and then the condition [c_end]; how
    the bytes are cut into reads does not matter to [io.ReadFull].  [c_out] is
    the list of writes that were made, [c_wlimit] the number of writes the peer
    accepts before a write fails.  [io A] is a call on one connection. *)

From S2P Require Import Prelude GoStrings.

Inductive io_err :=
| EOF
| ErrUnexpectedEOF
| ErrShortBuffer
| ErrReset
| ErrTimeout
| ErrCode (code : Z)
| ErrText (msg : string)
| ErrWrap (msg : string) (e : io_err).

Record conn := mkConn {
  c_in : list byte;
  c_end : io_err;
  c_out : list (list byte);
  c_wlimit : nat;
  c_deadline : bool;
  c_closed : bool
}.

Definition io (A : Type) : Type := stm conn io_err A.

Definition set_in (c : conn) (l : list byte) : conn :=
  mkConn l (c_end c) (c_out c) (c_wlimit c) (c_deadline c) (c_closed c).

(** [io.ReadFull(c, buf)] with [len(buf) = n]: the bytes read. *)
Definition ReadFull (n : nat) : io (list byte) := fun c =>
  if Nat.leb n (length (c_in c)) then (Ok (take n (c_in c)), set_in c (drop n (c_in c)))
  else (Err (match c_end c, c_in c with
             | EOF, _ :: _ => ErrUnexpectedEOF
             | e, _ => e
             end), set_in c []).

(** [c.Write(b)] *)
Definition Write (b : list byte) : io unit := fun c =>
  match c_wlimit c with
  | O => (Err ErrReset, c)
  | S k => (Ok tt, mkConn (c_in c) (c_end c) (c_out c ++ [b]) k (c_deadline c) (c_closed c))
  end.

Definition Close : io unit := fun c =>
  (Ok tt, mkConn (c_in c) (c_end c) (c_out c) (c_wlimit c) (c_deadline c) true).

(** [c.SetDeadline]: whether a deadline is armed. *)
Definition SetDeadline (armed : bool) : io unit := fun c =>
  (Ok tt, mkConn (c_in c) (c_end c) (c_out c) (c_wlimit c) armed (c_closed c)).

(** [fmt.Errorf("msg: %w", err)] *)
Definition wrap {A} (msg : string) (m : io A) : io A := fun c =>
  match m c with
  | (Err e, c) => (Err (ErrWrap msg e), c)
  | r => r
  end.

(** Run [m]; on an error close the connection and return the error. *)
Definition or_close {A} (m : io A) : io A := fun c =>
  match m c with
  | (Err e, c) => (Err e, snd (Close c))
  | r => r
  end.

Lemma ReadFull_app l rest e out k d cl :
  ReadFull (length l) (mkConn (l ++ rest) e out k d cl) = (Ok l, mkConn rest e out k d cl).
Proof.
  unfold ReadFull, set_in. cbn [c_in c_end c_out c_wlimit c_deadline c_closed].
  rewrite length_app, (proj2 (Nat.leb_le _ _)) by lia.
  by rewrite take_app_length, drop_app_length.
Qed.

(** Sequenced reads of known bytes. *)
Lemma ReadFull_bind {A} n l (f : list byte → io A) rest e out k d cl :
  n = length l →
  (ReadFull n ≫= f) (mkConn (l ++ rest) e out k d cl) = f l (mkConn rest e out k d cl).
Proof. intros ->. by rewrite (stm_bind_ok _ _ _ _ _ (ReadFull_app l _ _ _ _ _ _)). Qed.

Lemma ReadFull_bind_1 {A} b (f : list byte → io A) rest e out k d cl :
  (ReadFull 1 ≫= f) (mkConn (b :: rest) e out k d cl) = f [b] (mkConn rest e out k d cl).
Proof. by apply (ReadFull_bind 1 [b]). Qed.

Lemma wrap_ReadFull_bind {A} msg n l (f : list byte → io A) rest e out k d cl :
  n = length l →
  (wrap msg (ReadFull n) ≫= f) (mkConn (l ++ rest) e out k d cl) = f l (mkConn rest e out k d cl).
Proof.
  intros ->. apply stm_bind_ok. unfold wrap. by rewrite ReadFull_app.
Qed.

Lemma Write_bind {A} b (f : unit → io A) l e out k d cl :
  (Write b ≫= f) (mkConn l e out (S k) d cl) = f tt (mkConn l e (out ++ [b]) k d cl).
Proof. done. Qed.

Lemma wrap_Write_bind {A} msg b (f : unit → io A) l e out k d cl :
  (wrap msg (Write b) ≫= f) (mkConn l e out (S k) d cl) = f tt (mkConn l e (out ++ [b]) k d cl).
Proof. done. Qed.

Lemma wrap_ok {A} msg (m : io A) c a c' : m c = (Ok a, c') → wrap msg m c = (Ok a, c').
Proof. unfold wrap. by intros ->. Qed.

(** A short stream: the bytes are consumed and an error is returned. *)
Lemma ReadFull_short n c :
  (length (c_in c) < n)%nat →
  ∃ e, ReadFull n c = (Err e, set_in c []).
Proof.
  intros H. unfold ReadFull. rewrite (proj2 (Nat.leb_gt _ _)) by done. eauto.
Qed.

Lemma ReadFull_ok n c l c' :
  ReadFull n c = (Ok l, c') → c_in c = l ++ c_in c' ∧ length l = n ∧ c' = set_in c (c_in c').
Proof.
  unfold ReadFull. destruct (Nat.leb_spec n (length (c_in c))); [|done].
  intros [= <- <-]. cbn [set_in c_in]. rewrite take_drop, length_take. split; [done|]. split; [lia|done].
Qed.

(** Calls that neither close the connection nor touch its deadline. *)
Definition same_life (c c' : conn) : Prop :=
  c_closed c' = c_closed c ∧ c_deadline c' = c_deadline c.

Lemma same_life_trans c1 c2 c3 : same_life c1 c2 → same_life c2 c3 → same_life c1 c3.
Proof. unfold same_life. naive_solver congruence. Qed.

Lemma ReadFull_life n : keeps same_life (ReadFull n).
Proof. intros c. unfold ReadFull, set_in. by case_match. Qed.

Lemma Write_life b : keeps same_life (Write b).
Proof. intros c. unfold Write. by case_match. Qed.

Lemma throw_life {A} e : keeps same_life (throw e : io A).
Proof. by intros c. Qed.

Lemma mret_life {A} (a : A) : keeps same_life (mret a : io A).
Proof. by intros c. Qed.

Lemma bind_life {A B} (m : io A) (f : A → io B) :
  keeps same_life m → (∀ a, keeps same_life (f a)) → keeps same_life (m ≫= f).
Proof. apply keeps_bind, same_life_trans. Qed.

#[export] Hint Resolve ReadFull_life Write_life throw_life mret_life bind_life : vproxy.
