(* ===== verification/GoUrl.v ===== *)
(** * Go's [net/url] as the sources use it: [Parse], [Hostname], [Port],
    [EscapedPath], [RawQuery]

    The fields kept are the scheme, the host, the path (decoded, and as it was
    written) and the query; the user information and the fragment are checked
    for well-formed escapes, as [Parse] does, and dropped. *)

From S2P Require Import Prelude GoStrings GoNet.

Module Url.

Record URL := mkURL {
  Scheme : string;
  Host : string;
  Path : string;
  WrittenPath : string;
  RawQuery : string
}.

Definition is_ctl (c : byte) : bool := (u8 c <? 32) || (u8 c =? 127).
Fixpoint sexistsb (f : byte → bool) (s : string) : bool :=
  match s with EmptyString => false | String c s => f c || sexistsb f s end.

(** [getScheme]: [None] is the missing-scheme error, otherwise scheme and rest. *)
Fixpoint getScheme_aux (raw : string) (i : nat) (s : string) : option (string * string) :=
  match s with
  | EmptyString => Some ("", raw)
  | String c s' =>
      if is_alpha c then getScheme_aux raw (S i) s'
      else if is_digit c || Ascii.eqb c "+" || Ascii.eqb c "-" || Ascii.eqb c "." then
        if Nat.eqb i 0 then Some ("", raw) else getScheme_aux raw (S i) s'
      else if Ascii.eqb c ":" then
        if Nat.eqb i 0 then None else Some (stake i raw, sdrop (S i) raw)
      else Some ("", raw)
  end.
Definition getScheme (raw : string) : option (string * string) := getScheme_aux raw 0 raw.

(** The escaping modes that occur here. *)
Inductive encoding := encodePath | encodeHost | encodeZone | encodeUserPassword | encodeFragment.

Definition mem (c : byte) (s : string) : bool :=
  if Strings.IndexByte s c is Some _ then true else false.

(** [shouldEscape(c, encodeHost)], the same for [encodeZone]. *)
Definition shouldEscapeHost (c : byte) : bool :=
  negb (is_alpha c || is_digit c || mem c "!$&'()*+,;=:[]<>-_.~" || (u8 c =? 34)).

Definition is_host_mode (m : encoding) : bool :=
  match m with encodeHost | encodeZone => true | _ => false end.

Definition cons_to (c : byte) (o : option string) : option string := String c <$> o.

(** [unescape(s, mode)] *)
Fixpoint unescape (m : encoding) (s : string) : option string :=
  match s with
  | EmptyString => Some EmptyString
  | String c s1 =>
      if Ascii.eqb c "%" then
        match s1 with
        | String a (String b s') =>
            match Net.hex_value a, Net.hex_value b with
            | Some x, Some y =>
                let is25 := Ascii.eqb a "2" && Ascii.eqb b "5" in
                let v := mk8 (16 * x + y) in
                if match m with encodeHost => (x <? 8) && negb is25 | _ => false end then None
                else if match m with
                        | encodeZone => negb is25 && negb (u8 v =? 32) && shouldEscapeHost v
                        | _ => false end then None
                else cons_to v (unescape m s')
            | _, _ => None
            end
        | _ => None
        end
      else if is_host_mode m && (u8 c <? 128) && shouldEscapeHost c then None
      else cons_to c (unescape m s1)
  end.

Definition validOptionalPort (port : string) : bool :=
  match port with
  | EmptyString => true
  | String c p => Ascii.eqb c ":" && negb (sexistsb (fun c => negb (is_digit c)) p)
  end.

(** [strings.Index(s, "%25")] *)
Fixpoint index_25 (s : string) : option nat :=
  if Strings.HasPrefix s "%25" then Some 0%nat
  else match s with EmptyString => None | String _ s' => S <$> index_25 s' end.

(** [netip.ParseAddr] of a bracketed host: an IPv6 address, perhaps with a zone. *)
Definition ipv6_literal (s : string) : bool :=
  match Strings.IndexByte s "%" with
  | Some i =>
      negb (String.eqb (sdrop (S i) s) "") &&
      match Net.parseIPv6 (stake i s) with
      | Some a => negb (bool_decide (take 12 a = Net.v4InV6Prefix))
      | None => false
      end
  | None => match Net.ParseAddr s with Some a => Nat.eqb (length a) 16 | None => false end
  end.

Definition parseHost (host : string) : option string :=
  match Strings.LastIndexByte host "[" with
  | Some openB =>
      match Strings.LastIndexByte host "]" with
      | None => None
      | Some closeB =>
          let colonPort := sdrop (S closeB) host in
          if negb (validOptionalPort colonPort) then None
          else
            colonPort ← unescape encodeHost colonPort;
            let hostname := sdrop (S openB) (stake closeB host) in
            name ← match index_25 hostname with
                   | Some z => h ← unescape encodeHost (stake z hostname);
                               zone ← unescape encodeZone (sdrop z hostname);
                               Some (h +:+ zone)
                   | None => unescape encodeHost hostname
                   end;
            if ipv6_literal name then Some ("[" +:+ name +:+ "]" +:+ colonPort) else None
      end
  | None =>
      match Strings.LastIndexByte host ":" with
      | Some i => if validOptionalPort (sdrop i host) then unescape encodeHost host else None
      | None => unescape encodeHost host
      end
  end.

(** [validUserinfo] *)
Definition validUserinfo (s : string) : bool :=
  negb (sexistsb (fun c => negb (is_alpha c || is_digit c || mem c "-._:~!$&'()*+,;=%@")) s).

Definition parseAuthority (authority : string) : option string :=
  match Strings.LastIndexByte authority "@" with
  | None => parseHost authority
  | Some i =>
      host ← parseHost (sdrop (S i) authority);
      let userinfo := stake i authority in
      if negb (validUserinfo userinfo) then None
      else
        let '(user, pass, _) := Strings.Cut userinfo ":" in
        _ ← unescape encodeUserPassword user;
        _ ← unescape encodeUserPassword pass;
        Some host
  end.

(** [parse(rawURL, false)] *)
Definition parse (raw : string) : option URL :=
  if sexistsb is_ctl raw then None
  else if String.eqb raw "*" then Some (mkURL "" "" "*" "*" "")
  else
    match getScheme raw with
    | None => None
    | Some (scheme, rest) =>
        let scheme := Strings.ToLower scheme in
        let '(rest, query, _) := Strings.Cut rest "?" in
        if negb (Strings.HasPrefix rest "/") && negb (String.eqb scheme "") then
          Some (mkURL scheme "" "" "" query)
        else if negb (Strings.HasPrefix rest "/") &&
                mem ":" (let '(seg, _, _) := Strings.Cut rest "/" in seg) then None
        else if (negb (String.eqb scheme "") || negb (Strings.HasPrefix rest "///")) &&
                Strings.HasPrefix rest "//" then
          let authority := sdrop 2 rest in
          let '(authority, path) :=
            match Strings.IndexByte authority "/" with
            | Some i => (stake i authority, sdrop i authority)
            | None => (authority, "")
            end in
          host ← parseAuthority authority;
          decoded ← unescape encodePath path;
          Some (mkURL scheme host decoded path query)
        else decoded ← unescape encodePath rest; Some (mkURL scheme "" decoded rest query)
    end.

Definition Parse (raw : string) : option URL :=
  let '(u, frag, _) := Strings.Cut raw "#" in
  url ← parse u;
  _ ← unescape encodeFragment frag;
  Some url.

(** [splitHostPort] of package url *)
Definition splitHostPort (hostPort : string) : string * string :=
  let '(host, port) :=
    match Strings.LastIndexByte hostPort ":" with
    | Some i => if validOptionalPort (sdrop i hostPort)
                then (stake i hostPort, sdrop (S i) hostPort) else (hostPort, "")
    | None => (hostPort, "")
    end in
  (if Strings.HasPrefix host "[" && Strings.HasSuffix host "]"
   then sdrop 1 (stake (slen host - 1) host) else host, port).

Definition Hostname (u : URL) : string := fst (splitHostPort (Host u)).
Definition Port (u : URL) : string := snd (splitHostPort (Host u)).

(** [shouldEscape(c, encodePath)] *)
Definition shouldEscapePath (c : byte) : bool :=
  negb (is_alpha c || is_digit c || mem c "-_.~$&+,/:;=@").

(** [validEncoded(s, encodePath)] *)
Definition validEncoded (s : string) : bool :=
  negb (sexistsb (fun c => negb (mem c "!$&'()*+,;=:@[]%") && shouldEscapePath c) s).

Definition upper_hex (z : Z) : byte := if z <? 10 then mk8 (48 + z) else mk8 (55 + z).

(** [escape(s, encodePath)] *)
Fixpoint escapePath (s : string) : string :=
  match s with
  | EmptyString => EmptyString
  | String c s =>
      if shouldEscapePath c
      then String "%" (String (upper_hex (u8 c / 16)) (String (upper_hex (u8 c mod 16)) (escapePath s)))
      else String c (escapePath s)
  end.

(** The written form when it is a valid encoding of the path, else the default
    encoding. *)
Definition EscapedPath (u : URL) : string :=
  if validEncoded (WrittenPath u) then WrittenPath u else escapePath (Path u).

End Url.

