(* ===== verification/Buffers.v ===== *)
(** * Parts of byte buffers

    Reading and overwriting fields at fixed offsets, as the sources do through
    slices and casts of pointers. *)

From S2P Require Import Prelude.

Definition sub (l : list byte) (off n : nat) : list byte := take n (drop off l).
Definition byte_at (l : list byte) (i : nat) : Z := default 0 (u8 <$> l !! i).

(** Overwriting a part of a buffer. *)
Definition put_at (off : nat) (v : list byte) (l : list byte) : list byte :=
  take off l ++ v ++ drop (off + length v) l.

Lemma length_put_at off v l : (off + length v ≤ length l)%nat → length (put_at off v l) = length l.
Proof. intros H. unfold put_at. rewrite !length_app, length_take, length_drop. lia. Qed.

Lemma put_at_lookup off v l i : (off + length v ≤ length l)%nat →
  put_at off v l !! i = if decide (off ≤ i < off + length v)%nat then v !! (i - off)%nat else l !! i.
Proof.
  intros H. unfold put_at. assert (length (take off l) = off) as Ht by (rewrite length_take; lia).
  case_decide as Hi.
  - rewrite lookup_app_r, Ht by lia. by rewrite lookup_app_l by lia.
  - destruct (decide (i < off)%nat).
    + rewrite lookup_app_l by lia. by rewrite lookup_take_lt.
    + rewrite lookup_app_r, Ht by lia. rewrite lookup_app_r by lia. rewrite lookup_drop. f_equal. lia.
Qed.

Lemma sub_lookup l off n i : sub l off n !! i = if decide (i < n)%nat then l !! (off + i)%nat else None.
Proof.
  unfold sub. case_decide; [by rewrite lookup_take_lt, lookup_drop by lia|by rewrite lookup_take_ge by lia].
Qed.

Lemma sub_eq l l' off off' n :
  (off + n ≤ length l)%nat → (off' + n ≤ length l')%nat →
  (∀ i, (i < n)%nat → l !! (off + i)%nat = l' !! (off' + i)%nat) → sub l off n = sub l' off' n.
Proof. intros H1 H2 H. apply list_eq. intros i. rewrite !sub_lookup. case_decide; [by apply H|done]. Qed.

Lemma length_sub l off n : (off + n ≤ length l)%nat → length (sub l off n) = n.
Proof. intros. unfold sub. rewrite length_take, length_drop. lia. Qed.

Lemma length_put_at_eq off v l n :
  length l = n → (off + length v ≤ n)%nat → length (put_at off v l) = n.
Proof. intros <-. apply length_put_at. Qed.

Lemma put_at_lookup_eq n off v l i : length l = n → (off + length v ≤ n)%nat →
  put_at off v l !! i = if decide (off ≤ i < off + length v)%nat then v !! (i - off)%nat else l !! i.
Proof. intros <-. apply put_at_lookup. Qed.

(** Lengths and entries of a buffer of [n] bytes written several times. *)
Ltac put_len :=
  repeat (apply length_put_at_eq; [|rewrite ?length_fmap; first [cbn [length put16]; lia | cbn; lia]]); assumption.
Ltac buffers n :=
  repeat (rewrite (put_at_lookup_eq n); [|put_len|rewrite ?length_fmap; cbn [length put16]; lia]);
  rewrite ?length_fmap; cbn [length put16].

Lemma sub_put_same off v l n :
  (off + n ≤ length l)%nat → length v = n → sub (put_at off v l) off n = v.
Proof.
  intros H <-. apply list_eq. intros i. rewrite sub_lookup, put_at_lookup by done.
  destruct (decide (i < length v)%nat) as [Hi|Hi].
  - rewrite decide_True by lia. f_equal. lia.
  - symmetry. apply lookup_ge_None_2. lia.
Qed.

Lemma sub_put_other off v l o n :
  (off + length v ≤ length l)%nat → (o + n ≤ off ∨ off + length v ≤ o)%nat →
  sub (put_at off v l) o n = sub l o n.
Proof.
  intros H Hd. apply list_eq. intros i. rewrite !sub_lookup. case_decide; [|done].
  rewrite put_at_lookup by done. by rewrite decide_False by lia.
Qed.

(** The fields of a buffer of [n] bytes written several times. *)
Lemma sub_put_same_eq N off v l n :
  length l = N → (off + n ≤ N)%nat → length v = n → sub (put_at off v l) off n = v.
Proof. intros <-. apply sub_put_same. Qed.

Lemma sub_put_other_eq N off v l o n :
  length l = N → (off + length v ≤ N)%nat → (o + n ≤ off ∨ off + length v ≤ o)%nat →
  sub (put_at off v l) o n = sub l o n.
Proof. intros <-. apply sub_put_other. Qed.

Ltac fields N := repeat first
  [ rewrite (sub_put_same_eq N) by (first [put_len | cbn; lia])
  | rewrite (sub_put_other_eq N) by (first [put_len | cbn; lia]) ].
