(* ===== verification/FakeIP.v ===== *)
(** * Fake-IP pool ([src/internal/dns/fakeip.go], lines 10-92)

    The pool hands out addresses of a reserved subnet to domain names and maps
    them back.  [FakeIPPool] is the source's struct, [NewFakeIPPool], [GetIP],
    [GetDomain], [IsFakeIP] and [InitGlobalPool] its operations; the mutex makes
    every operation atomic, so a run is a sequence of operations.

    The contract is stated on an abstract pool, the list of the distinct domains
    asked for so far in order of first request: the [i]-th of them owns the
    address [minIP + i mod size].  [pool_rel] relates the two and [GetIP_refines]
    is the simulation. *)

From S2P Require Import Prelude GoStrings GoNet.

Module FakeIP.

Record FakeIPPool := mkPool {
  subnet : Net.IPNet;
  minIP : Z;
  maxIP : Z;
  current : Z;
  ipToDomain : gmap Z string;
  domainToIP : gmap string Z
}.

(** [binary.BigEndian.Uint32(x)]: panics on fewer than four bytes. *)
Definition Uint32 {E} (x : list byte) : outcome E Z :=
  match x with
  | b0 :: b1 :: b2 :: b3 :: _ => Ok (be32 b0 b1 b2 b3)
  | _ => Panic
  end.

(** [uint32(1 << uint(n))] *)
Definition shl1_32 (n : Z) : Z := if n <? 32 then 2 ^ n else 0.

Definition NewFakeIPPool (cidr : string) : outcome unit FakeIPPool :=
  match Net.ParseCIDR cidr with
  | None => Err tt
  | Some ipnet =>
      let ones := Net.mask_ones (Net.net_mask ipnet) in
      let bits := Net.mask_bits (Net.net_mask ipnet) in
      let total := shl1_32 (bits - ones) in
      minIP ← Uint32 (Net.net_ip ipnet);
      Ok {| subnet := ipnet;
            minIP := wrap32 (minIP + 2);
            maxIP := wrap32 (minIP + total - 2);
            current := wrap32 (minIP + 2);
            ipToDomain := ∅;
            domainToIP := ∅ |}
  end.

Definition uint32ToIP (v : Z) : ip := put32 v.

Definition GetIP (p : FakeIPPool) (domain : string) : ip * FakeIPPool :=
  match domainToIP p !! domain with
  | Some v => (uint32ToIP v, p)
  | None =>
      let v := current p in
      let next := wrap32 (v + 1) in
      let next := if maxIP p <? next then minIP p else next in
      (uint32ToIP v,
       {| subnet := subnet p; minIP := minIP p; maxIP := maxIP p; current := next;
          ipToDomain := <[v := domain]> (ipToDomain p);
          domainToIP := <[domain := v]> (domainToIP p) |})
  end.

(** A missing key of a Go map reads as the zero value [""]. *)
Definition GetDomain (p : FakeIPPool) (x : ip) : outcome unit string :=
  v ← Uint32 (default [] (Net.To4 x));
  Ok (default "" (ipToDomain p !! v)).

Definition IsFakeIP (p : FakeIPPool) (x : ip) : bool := Net.Contains (subnet p) x.

(** The package-level [GlobalPool] and its [sync.Once]. *)
Record global := mkGlobal { poolOnce : bool; GlobalPool : option FakeIPPool }.

Definition InitGlobalPool (g : global) (cidr : string) : outcome unit unit * global :=
  if poolOnce g then (Ok tt, g)
  else match NewFakeIPPool cidr with
       | Ok p => (Ok tt, {| poolOnce := true; GlobalPool := Some p |})
       | Err e => (Err e, {| poolOnce := true; GlobalPool := None |})
       | Panic => (Panic, {| poolOnce := true; GlobalPool := GlobalPool g |})
       end.

(** ** The abstract pool *)

Definition size (p : FakeIPPool) : Z := maxIP p - minIP p + 1.
Definition addr_at (p : FakeIPPool) (i : nat) : Z := minIP p + Z.of_nat i mod size p.

(** Ask for a domain: a new one is appended. *)
Definition spec_get (ds : list string) (d : string) : list string :=
  if decide (d ∈ ds) then ds else ds ++ [d].

(** The range of the pool is a non-empty range of 32-bit addresses, below the
    last one. *)
Definition range_ok (p : FakeIPPool) : Prop :=
  0 ≤ minIP p ≤ maxIP p ∧ maxIP p < 2 ^ 32 - 1.

Record pool_rel (p : FakeIPPool) (ds : list string) : Prop := {
  rel_range : range_ok p;
  rel_nodup : NoDup ds;
  rel_current : current p = addr_at p (length ds);
  rel_fwd : ∀ d v, domainToIP p !! d = Some v ↔
    ∃ i, ds !! i = Some d ∧ v = addr_at p i;
  rel_bwd : ∀ v d, ipToDomain p !! v = Some d ↔
    ∃ i, ds !! i = Some d ∧ v = addr_at p i ∧
         ∀ j, (i < j < length ds)%nat → addr_at p j ≠ v
}.

(** ** Lemmas *)

Lemma size_pos p : range_ok p → 0 < size p.
Proof. unfold range_ok, size. lia. Qed.

Lemma addr_at_range p i : range_ok p → minIP p ≤ addr_at p i ≤ maxIP p.
Proof.
  intros H. pose proof (size_pos p H). unfold addr_at.
  pose proof (Z.mod_pos_bound (Z.of_nat i) (size p)). unfold size in *. lia.
Qed.

Lemma addr_at_next p i :
  range_ok p →
  addr_at p (S i) = if maxIP p <? wrap32 (addr_at p i + 1) then minIP p
                    else wrap32 (addr_at p i + 1).
Proof.
  intros H. pose proof (size_pos p H). pose proof (addr_at_range p i H) as Hr.
  rewrite wrap32_small by (unfold range_ok in *; lia).
  unfold addr_at in *. rewrite Nat2Z.inj_succ, <- Z.add_1_r.
  rewrite Z.add_mod by lia. set (m := Z.of_nat i mod size p) in *.
  assert (0 ≤ m < size p) by (apply Z.mod_pos_bound; lia).
  destruct (Z.eq_dec (size p) 1) as [E|E].
  - rewrite E, !Z.mod_1_r. unfold size in *. case_match; boolify; lia.
  - rewrite (Z.mod_small 1) by lia. unfold size in *. case_match; boolify.
    + replace (m + 1) with (maxIP p - minIP p + 1) by lia. rewrite Z.mod_same; lia.
    + rewrite Z.mod_small; lia.
Qed.

Lemma addr_at_inj p i j :
  range_ok p → Z.of_nat i < size p → Z.of_nat j < size p → addr_at p i = addr_at p j → i = j.
Proof. intros H Hi Hj. unfold addr_at. rewrite !Z.mod_small by lia. lia. Qed.

Lemma addr_at_u32 p i : range_ok p → 0 ≤ addr_at p i < 2 ^ 32.
Proof. intros H. pose proof (addr_at_range p i H). unfold range_ok in *. lia. Qed.

(** The fields that [GetIP] never changes. *)
Lemma GetIP_frame p d :
  minIP (snd (GetIP p d)) = minIP p ∧ maxIP (snd (GetIP p d)) = maxIP p ∧
  subnet (snd (GetIP p d)) = subnet p.
Proof. unfold GetIP. by case_match. Qed.

Lemma addr_at_GetIP p d i : addr_at (snd (GetIP p d)) i = addr_at p i.
Proof. unfold addr_at, size. by destruct (GetIP_frame p d) as (-> & -> & _). Qed.

Lemma pool_rel_empty p :
  range_ok p → current p = minIP p → ipToDomain p = ∅ → domainToIP p = ∅ →
  pool_rel p [].
Proof.
  intros H Hc Hi Hd. split; [done|constructor| | |].
  - unfold addr_at. simpl. rewrite Z.mod_0_l by (pose proof (size_pos p H); lia). lia.
  - intros d v. rewrite Hd, lookup_empty. naive_solver.
  - intros v d. rewrite Hi, lookup_empty. naive_solver.
Qed.

Lemma lookup_snoc_Some {A} (l : list A) x i y :
  (l ++ [x]) !! i = Some y ↔ l !! i = Some y ∨ (i = length l ∧ y = x).
Proof.
  rewrite lookup_app_Some. split.
  - intros [?|[Hle H]]; [by left|]. right.
    destruct (i - length l)%nat eqn:E; simplify_eq/=. split; [lia|done].
  - intros [?|[-> ->]]; [by left|right]. split; [lia|]. by rewrite Nat.sub_diag.
Qed.

(** A new domain extends the abstract list and takes over the address of the
    domain [size] places before it, if there is one. *)
Lemma pool_rel_alloc p ds d :
  pool_rel p ds → d ∉ ds → domainToIP p !! d = None →
  pool_rel (snd (GetIP p d)) (ds ++ [d]).
Proof.
  intros [Hr Hnd Hc Hf Hb] Hd Hn. pose proof (GetIP_frame p d) as (Hmin & Hmax & _).
  pose proof (addr_at_GetIP p d) as Ha.
  assert (range_ok (snd (GetIP p d))) as Hr' by (unfold range_ok; by rewrite Hmin, Hmax).
  split; [done| | | |].
  - apply NoDup_app. split; [done|]. split; [set_solver|]. apply NoDup_singleton.
  - rewrite Ha, length_app, Nat.add_1_r, (addr_at_next p) by done.
    unfold GetIP. rewrite Hn. cbn [snd current]. by rewrite Hc.
  - intros d' v. setoid_rewrite Ha. unfold GetIP. rewrite Hn. cbn [snd domainToIP].
    setoid_rewrite lookup_snoc_Some. destruct (decide (d = d')) as [<-|Hne].
    + rewrite lookup_insert_eq. split.
      * intros [= <-]. exists (length ds). rewrite Hc. auto.
      * intros (i & [Hi|[-> _]] & ->); [|by rewrite Hc].
        exfalso. apply Hd. by apply list_elem_of_lookup_2 in Hi.
    + rewrite lookup_insert_ne, Hf by done. naive_solver.
  - intros v d'. setoid_rewrite Ha. unfold GetIP. rewrite Hn. cbn [snd ipToDomain].
    setoid_rewrite lookup_snoc_Some. setoid_rewrite length_app. simpl.
    destruct (decide (current p = v)) as [<-|Hne].
    + rewrite lookup_insert_eq. split.
      * intros [= <-]. exists (length ds). repeat split; auto. intros j ?. lia.
      * intros (i & [Hi|[-> ->]] & Hv & Hlast); [|done]. exfalso.
        apply (Hlast (length ds)); [|by rewrite Hc].
        apply lookup_lt_Some in Hi. lia.
    + rewrite lookup_insert_ne, Hb by done. split.
      * intros (i & Hi & Hv & Hlast). exists i. repeat split; auto.
        intros j Hj. destruct (decide (j = length ds)) as [->|]; [congruence|].
        apply Hlast. lia.
      * intros (i & [Hi|[-> ->]] & Hv & Hlast); [|congruence].
        exists i. repeat split; auto. intros j ?. apply Hlast. lia.
Qed.

(** The simulation step, used by every property below. *)
Lemma pool_rel_GetIP p ds d :
  pool_rel p ds →
  pool_rel (snd (GetIP p d)) (spec_get ds d) ∧
  ∃ i, spec_get ds d !! i = Some d ∧ fst (GetIP p d) = uint32ToIP (addr_at p i).
Proof.
  intros H. unfold spec_get. destruct (domainToIP p !! d) as [v|] eqn:E.
  - destruct H as [Hr Hnd Hc Hf Hb]. pose proof (proj1 (Hf d v) E) as (i & Hi & ->).
    rewrite decide_True by (by apply list_elem_of_lookup_2 in Hi).
    unfold GetIP. rewrite E. split; [by split|]. exists i. auto.
  - assert (d ∉ ds) as Hd.
    { intros (i & Hi)%list_elem_of_lookup. destruct H as [_ _ _ Hf _].
      assert (domainToIP p !! d = Some (addr_at p i)) as E2 by (apply Hf; eauto). congruence. }
    rewrite decide_False by done. split; [by apply pool_rel_alloc|].
    exists (length ds). rewrite lookup_snoc_Some. split; [by right|].
    unfold GetIP. rewrite E. cbn [fst]. by rewrite (rel_current _ _ H).
Qed.

(** A run of requests. *)
Fixpoint run (p : FakeIPPool) (qs : list string) : FakeIPPool :=
  match qs with [] => p | d :: qs => run (snd (GetIP p d)) qs end.
Fixpoint spec_run (ds : list string) (qs : list string) : list string :=
  match qs with [] => ds | d :: qs => spec_run (spec_get ds d) qs end.

Lemma pool_rel_run p ds qs : pool_rel p ds → pool_rel (run p qs) (spec_run ds qs).
Proof.
  revert p ds. induction qs as [|d qs IH]; intros p ds H; simpl; [done|].
  apply IH. by apply pool_rel_GetIP.
Qed.

Lemma run_frame p qs :
  minIP (run p qs) = minIP p ∧ maxIP (run p qs) = maxIP p ∧ subnet (run p qs) = subnet p.
Proof.
  revert p. induction qs as [|d qs IH]; intros p; simpl; [done|].
  destruct (IH (snd (GetIP p d))) as (-> & -> & ->). apply GetIP_frame.
Qed.

Lemma uint32_of_put32 E v : 0 ≤ v < 2 ^ 32 → Uint32 (E:=E) (put32 v) = Ok v.
Proof.
  intros Hv. unfold put32, Uint32. f_equal. rewrite (be32_put32 v) by done.
  by apply wrap32_small.
Qed.

Lemma GetDomain_addr p ds i :
  pool_rel p ds → GetDomain p (uint32ToIP (addr_at p i)) =
  Ok (default "" (ipToDomain p !! addr_at p i)).
Proof.
  intros H. unfold GetDomain, uint32ToIP. rewrite Net.To4_4 by done. cbn [default from_option id].
  rewrite uint32_of_put32 by (apply addr_at_u32, H). done.
Qed.

(** While no address has been reused, the last owner of an address is its only
    owner. *)
Lemma reverse_lookup p ds i d :
  pool_rel p ds → Z.of_nat (length ds) ≤ size p → ds !! i = Some d →
  ipToDomain p !! addr_at p i = Some d.
Proof.
  intros [Hr Hnd Hc Hf Hb] Hs Hi. apply Hb. exists i. repeat split; [done|].
  intros j Hj Ha. apply lookup_lt_Some in Hi.
  apply addr_at_inj in Ha; lia || done.
Qed.

(** The pool of an IPv4 network of at most 30 prefix bits. *)
Lemma NewFakeIPPool_ok cidr a ones :
  Net.ParseCIDR cidr = Some (Net.cidr4 a ones) →
  0 ≤ ones ≤ 30 → 0 ≤ a → a + 2 ^ (32 - ones) ≤ 2 ^ 32 → a mod 2 ^ (32 - ones) = 0 →
  NewFakeIPPool cidr = Ok {| subnet := Net.cidr4 a ones;
    minIP := a + 2; maxIP := a + 2 ^ (32 - ones) - 2; current := a + 2;
    ipToDomain := ∅; domainToIP := ∅ |}.
Proof.
  intros Hp Ho Ha Hb Hm. unfold NewFakeIPPool. rewrite Hp. cbn [Net.cidr4 Net.net_mask Net.net_ip].
  assert (4 ≤ 2 ^ (32 - ones)) by (change 4 with (2 ^ 2); apply Z.pow_le_mono_r; lia).
  assert (Net.mask_bits (Net.CIDRMask ones 4) = 32) as ->
    by (unfold Net.mask_bits; by rewrite Net.length_CIDRMask).
  assert (Net.mask_ones (Net.CIDRMask ones 4) = ones) as ->.
  { assert (∃ n : nat, (n ≤ 30)%nat ∧ ones = Z.of_nat n) as (n & Hn & ->)
      by (exists (Z.to_nat ones); lia).
    clear -Hn. do 31 (destruct n as [|n]; [vm_compute; reflexivity|]). lia. }
  assert (Uint32 (E:=unit) (Net.and_bytes (put32 a) (Net.CIDRMask ones 4)) = Ok a) as ->.
  { destruct (Net.CIDRMask_be32 ones ltac:(lia)) as (m0 & m1 & m2 & m3 & -> & Hm32).
    unfold put32, Net.and_bytes, Uint32. f_equal.
    rewrite Net.be32_land, Hm32, (be32_put32 a), wrap32_small by (done || lia).
    rewrite Net.land_mask32 by lia.
    pose proof (Z.div_mod a (2 ^ (32 - ones)) ltac:(lia)). lia. }
  unfold shl1_32. cbn [mbind outcome_bind].
  destruct (Z.ltb_spec (32 - ones) 32) as [Hlt|Hge].
  - rewrite !wrap32_small by lia. repeat f_equal; lia.
  - assert (ones = 0) as -> by lia. change (2 ^ (32 - 0)) with (2 ^ 32) in *.
    assert (a = 0) as -> by lia. vm_compute. reflexivity.
Qed.

(** ** Properties of a pool built from a configured IPv4 subnet *)

(** [cidr] denotes the aligned block of [2^(32-ones)] addresses from [a] on, the
    pool was built from it and has since answered the requests [qs]. *)
Record served (cidr : string) (a ones : Z) (qs : list string) (p : FakeIPPool) : Prop := {
  sv_parse : Net.ParseCIDR cidr = Some (Net.cidr4 a ones);
  sv_ones : 0 ≤ ones ≤ 30;
  sv_base : 0 ≤ a ∧ a + 2 ^ (32 - ones) < 2 ^ 32;
  sv_aligned : a mod 2 ^ (32 - ones) = 0;
  sv_run : ∃ p0, NewFakeIPPool cidr = Ok p0 ∧ p = run p0 qs
}.

Lemma served_facts cidr a ones qs p :
  served cidr a ones qs p →
  pool_rel p (spec_run [] qs) ∧ minIP p = a + 2 ∧ maxIP p = a + 2 ^ (32 - ones) - 2 ∧
  subnet p = Net.cidr4 a ones.
Proof.
  intros [Hp Ho [Ha Hb] Hm (p0 & Hn & ->)].
  rewrite (NewFakeIPPool_ok cidr a ones) in Hn by (done || lia). injection Hn as <-.
  destruct (run_frame {| subnet := Net.cidr4 a ones; minIP := a + 2;
    maxIP := a + 2 ^ (32 - ones) - 2; current := a + 2; ipToDomain := ∅; domainToIP := ∅ |} qs)
    as (-> & -> & ->).
  assert (4 ≤ 2 ^ (32 - ones)) by (change 4 with (2 ^ 2); apply Z.pow_le_mono_r; lia).
  split; [|done]. apply pool_rel_run, pool_rel_empty; [|done..].
  unfold range_ok. cbn [minIP maxIP]. lia.
Qed.

Lemma elem_of_spec_run ds qs d : d ∈ spec_run ds qs ↔ d ∈ ds ∨ d ∈ qs.
Proof.
  revert ds. induction qs as [|q qs IH]; intros ds; simpl; [set_solver|].
  rewrite IH. unfold spec_get. case_decide; set_solver.
Qed.

Lemma spec_run_nodup ds qs : NoDup (ds ++ qs) → spec_run ds qs = ds ++ qs.
Proof.
  revert ds. induction qs as [|q qs IH]; intros ds H; simpl; [by rewrite app_nil_r|].
  unfold spec_get. rewrite decide_False.
  - rewrite IH; by rewrite <- app_assoc.
  - apply NoDup_app in H as (_ & H & _). intros Hq. apply (H q Hq). set_solver.
Qed.

(** Facts for the clients of the pool. *)
Lemma run_app p qs qs' : run p (qs ++ qs') = run (run p qs) qs'.
Proof. revert p. induction qs; simpl; auto. Qed.

Lemma served_snoc cidr a ones qs p d :
  served cidr a ones qs p → served cidr a ones (qs ++ [d]) (snd (GetIP p d)).
Proof.
  intros [? ? ? ? (p0 & ? & ->)]. split; [done..|]. exists p0. by rewrite run_app.
Qed.

(** Asking again gives the same address. *)
Lemma GetIP_again p d : fst (GetIP (snd (GetIP p d)) d) = fst (GetIP p d).
Proof.
  unfold GetIP at 2 3. destruct (domainToIP p !! d) eqn:E; cbn [fst snd]; unfold GetIP.
  - by rewrite E.
  - cbn [domainToIP]. by rewrite lookup_insert_eq.
Qed.

Lemma served_answer cidr a ones qs p d :
  served cidr a ones qs p → d ∈ qs →
  Z.of_nat (length (spec_run [] qs)) ≤ 2 ^ (32 - ones) - 3 →
  IsFakeIP p (fst (GetIP p d)) = true ∧ GetDomain p (fst (GetIP p d)) = Ok d.
Proof.
  intros Hs Hd Hl. pose proof (served_facts _ _ _ _ _ Hs) as (Hr & Hmin & Hmax & Hsub).
  assert (d ∈ spec_run [] qs) as (i & Hi)%list_elem_of_lookup
    by (apply elem_of_spec_run; by right).
  assert (domainToIP p !! d = Some (addr_at p i)) as E by (apply (rel_fwd _ _ Hr); eauto).
  unfold GetIP. rewrite E. cbn [fst snd]. split.
  - unfold IsFakeIP, uint32ToIP. rewrite Hsub. destruct Hs as [_ ? [? ?] ? _].
    pose proof (addr_at_range p i (rel_range _ _ Hr)). rewrite Hmin, Hmax in *.
    apply Net.Contains_cidr4_range; lia.
  - rewrite (GetDomain_addr _ _ _ Hr), (reverse_lookup _ (spec_run [] qs) i d Hr); [done| |done].
    unfold size. rewrite Hmin, Hmax. lia.
Qed.

(** C3. Simulation.  A pool built from any IPv4 subnet of at most 30 prefix bits
    implements the abstract pool after any sequence of requests: the reply to a
    request is the address that the abstract pool assigns to the domain, the
    next state is again related, and [GetDomain] of a pool address is the
    domain that was last assigned to it. *)
Theorem GetIP_refines cidr a ones qs p d :
  served cidr a ones qs p →
  pool_rel p (spec_run [] qs) ∧
  pool_rel (snd (GetIP p d)) (spec_get (spec_run [] qs) d) ∧
  (∃ i, spec_get (spec_run [] qs) d !! i = Some d ∧
        fst (GetIP p d) = put32 (a + 2 + Z.of_nat i mod (2 ^ (32 - ones) - 3))) ∧
  (∀ i x, spec_run [] qs !! i = Some x →
     (∀ j, (i < j < length (spec_run [] qs))%nat → addr_at p j ≠ addr_at p i) →
     GetDomain p (uint32ToIP (addr_at p i)) = Ok x).
Proof.
  intros H. apply served_facts in H as (Hr & Hmin & Hmax & _). split; [done|].
  destruct (pool_rel_GetIP p _ d Hr) as (H2 & i & Hi & Hf). split; [done|]. split.
  - exists i. split; [done|]. rewrite Hf. unfold uint32ToIP, addr_at, size.
    rewrite Hmin, Hmax. repeat f_equal. lia.
  - intros j x Hx Hl. rewrite (GetDomain_addr _ _ _ Hr).
    assert (ipToDomain p !! addr_at p j = Some x) as ->; [|done].
    apply (rel_bwd _ _ Hr). exists j. auto.
Qed.

(** Round trip.  As long as no more distinct domains were asked for than the
    pool has addresses, every domain that was asked for keeps its address and
    the address resolves to that domain; the address lies in the configured
    subnet, so [IsFakeIP] recognises it. *)
Theorem GetDomain_GetIP cidr a ones qs p d :
  served cidr a ones qs p → d ∈ qs →
  Z.of_nat (length (spec_run [] qs)) ≤ 2 ^ (32 - ones) - 3 →
  GetDomain p (fst (GetIP p d)) = Ok d ∧ snd (GetIP p d) = p ∧
  IsFakeIP p (fst (GetIP p d)) = true.
Proof.
  intros Hs Hd Hl. destruct (served_answer _ _ _ _ _ d Hs Hd Hl) as [Hf Hg].
  split; [done|]. split; [|done]. apply served_facts in Hs as (Hr & _).
  assert (d ∈ spec_run [] qs) as (i & Hi)%list_elem_of_lookup
    by (apply elem_of_spec_run; by right).
  assert (domainToIP p !! d = Some (addr_at p i)) as E by (apply (rel_fwd _ _ Hr); eauto).
  unfold GetIP. by rewrite E.
Qed.

(** Exhaustion.  Once a further distinct domain has taken over an address,
    the earlier domain is still answered with that address, and the address now
    resolves to the later domain: traffic for the earlier name is attributed to
    the later one. *)
Theorem pool_reuse_misattributes cidr a ones qs p i d d' :
  served cidr a ones qs p → NoDup qs →
  qs !! i = Some d →
  qs !! (i + Z.to_nat (2 ^ (32 - ones) - 3))%nat = Some d' →
  Z.of_nat (length qs) ≤ Z.of_nat i + 2 * (2 ^ (32 - ones) - 3) →
  GetDomain p (fst (GetIP p d)) = Ok d' ∧ d ≠ d'.
Proof.
  intros Hs Hnd Hi Hj Hl. pose proof (served_facts _ _ _ _ _ Hs) as (Hr & Hmin & Hmax & _).
  assert (4 ≤ 2 ^ (32 - ones)).
  { destruct Hs. change 4 with (2 ^ 2). apply Z.pow_le_mono_r; lia. }
  assert (size p = 2 ^ (32 - ones) - 3) as Hsz by (unfold size; lia).
  rewrite spec_run_nodup in Hr by done. cbn [app] in Hr.
  set (j := (i + Z.to_nat (2 ^ (32 - ones) - 3))%nat) in *.
  assert (addr_at p j = addr_at p i) as Haj.
  { unfold addr_at, j. rewrite Nat2Z.inj_add, Z2Nat.id, Hsz by lia.
    rewrite <- (Z.mul_1_l (2 ^ _ - 3)) at 1. rewrite Z.mod_add; lia. }
  assert (domainToIP p !! d = Some (addr_at p i)) as E by (apply (rel_fwd _ _ Hr); eauto).
  unfold GetIP. rewrite E. cbn [fst]. rewrite <- Haj, (GetDomain_addr _ _ _ Hr). split.
  - assert (ipToDomain p !! addr_at p j = Some d') as ->; [|done].
    apply (rel_bwd _ _ Hr). exists j. repeat split; [done|]. intros k Hk Ek.
    assert (size p = 0 ∨ (Z.of_nat k - Z.of_nat j) mod size p = 0) as [?|Hz];
      [right|lia|].
    { unfold addr_at in Ek. rewrite Zminus_mod. replace (Z.of_nat k mod size p) with
        (Z.of_nat j mod size p) by lia. by rewrite Z.sub_diag. }
    rewrite Z.mod_small in Hz by lia. lia.
  - intros ->. pose proof (NoDup_lookup _ _ _ _ Hnd Hi Hj). lia.
Qed.

(** The subnets of the witnesses: the default one and the smallest one. *)
Lemma served_default qs :
  served "198.18.0.0/16" 3323068416 16 qs
    (run {| subnet := Net.cidr4 3323068416 16; minIP := 3323068418; maxIP := 3323133950;
            current := 3323068418; ipToDomain := ∅; domainToIP := ∅ |} qs).
Proof.
  split; [vm_compute; reflexivity|lia|split; vm_compute; congruence|vm_compute; reflexivity|].
  eexists. split; [vm_compute; reflexivity|done].
Qed.

Lemma served_smallest qs :
  served "10.0.0.0/30" 167772160 30 qs
    (run {| subnet := Net.cidr4 167772160 30; minIP := 167772162; maxIP := 167772162;
            current := 167772162; ipToDomain := ∅; domainToIP := ∅ |} qs).
Proof.
  split; [vm_compute; reflexivity|lia|split; vm_compute; congruence|vm_compute; reflexivity|].
  eexists. split; [vm_compute; reflexivity|done].
Qed.

Lemma GetIP_refines_witness :
  ∃ p, served "198.18.0.0/16" 3323068416 16 ["a.com"; "b.com"; "a.com"] p ∧
       pool_rel p (spec_run [] ["a.com"; "b.com"; "a.com"]).
Proof.
  eexists. split; [apply served_default|].
  apply (GetIP_refines "198.18.0.0/16" 3323068416 16 _ _ "c.com"). apply served_default.
Defined.

Lemma GetDomain_GetIP_witness :
  ∃ p, served "198.18.0.0/16" 3323068416 16 ["a.com"; "b.com"; "a.com"] p ∧
       GetDomain p (fst (GetIP p "b.com")) = Ok "b.com".
Proof.
  eexists. split; [apply served_default|].
  apply (GetDomain_GetIP "198.18.0.0/16" 3323068416 16 ["a.com"; "b.com"; "a.com"]);
    [apply served_default|set_solver|vm_compute; congruence].
Defined.

Lemma pool_reuse_misattributes_witness :
  ∃ p, served "10.0.0.0/30" 167772160 30 ["a.com"; "b.com"] p ∧
       GetDomain p (fst (GetIP p "a.com")) = Ok "b.com".
Proof.
  eexists. split; [apply served_smallest|].
  apply (pool_reuse_misattributes "10.0.0.0/30" 167772160 30 ["a.com"; "b.com"] _ 0);
    [apply served_smallest|repeat constructor; set_solver|reflexivity|reflexivity|].
  vm_compute. congruence.
Defined.

(** [InitGlobalPool] runs once: a failed first call is reported only to its own
    caller, later calls succeed without a pool. *)
Lemma InitGlobalPool_after_failure cidr :
  Net.ParseCIDR cidr = None →
  ∀ cidr2, let g := snd (InitGlobalPool (mkGlobal false None) cidr) in
  fst (InitGlobalPool (mkGlobal false None) cidr) = Err tt ∧
  InitGlobalPool g cidr2 = (Ok tt, g) ∧ GlobalPool g = None.
Proof. intros H cidr2. unfold InitGlobalPool, NewFakeIPPool. by rewrite H. Qed.

End FakeIP.
