(* ===== verification/Dns.v ===== *)
(** * DNS hijacking ([src/internal/dns/fakeip.go], lines 94-197)

    [HandleDNSQuery] parses one question, allocates a fake address for an A
    query and builds the answer; [HijackPacket] is its entry point for the
    interception loops.  A query is a Go slice of a receive buffer: indexing is
    checked against its length, re-slicing against its capacity. *)

From S2P Require Import Prelude GoStrings GoNet FakeIP.

Module Dns.
Import FakeIP.

Inductive dns_err :=
| PacketTooShort
| OnlySingleQuestion
| OutOfBounds
| OnlyAandAAAA.

(** [binary.BigEndian.Uint16] *)
Definition Uint16 {E} (x : list byte) : outcome E Z :=
  match x with
  | hi :: lo :: _ => Ok (be16 hi lo)
  | _ => Panic
  end.

(** The label loop.  Every round moves [curr] forward, so [len(data) + 1]
    rounds are enough ([parseDomain_no_panic]). *)
Fixpoint parseDomain_loop (fuel : nat) (data : slice) (domain : string) (curr : nat)
    : outcome dns_err (string * nat) :=
  match fuel with
  | O => Panic
  | S fuel =>
      if Nat.leb (sl_len data) curr then Err OutOfBounds
      else
        b ← sl_index data curr;
        let length := Z.to_nat (u8 b) in
        if Nat.eqb length 0 then Ok (domain, S curr)
        else
          let domain := if String.eqb domain "" then domain else domain +:+ "." in
          if Nat.ltb (sl_len data) (curr + 1 + length) then Err OutOfBounds
          else
            label ← sl_sub data (curr + 1) (curr + 1 + length);
            parseDomain_loop fuel data (domain +:+ of_bytes label) (curr + (1 + length))
  end.

Definition parseDomain (data : slice) (offset : nat) : outcome dns_err (string * nat) :=
  parseDomain_loop (S (sl_len data)) data "" offset.

(** Errors carry the domain the source returns beside them. *)
Definition qerr := (string * dns_err)%type.

Definition no_domain {A} (o : outcome dns_err A) : outcome qerr A :=
  match o with Ok a => Ok a | Err e => Err ("", e) | Panic => Panic end.

(** [GlobalPool.GetIP(domain)]: a nil pool is dereferenced. *)
Definition global_GetIP (domain : string) : stm global qerr ip := fun g =>
  match GlobalPool g with
  | None => (Panic, g)
  | Some p => let '(x, p) := GetIP p domain in
              (Ok x, {| poolOnce := poolOnce g; GlobalPool := Some p |})
  end.

Definition HandleDNSQuery (query : slice) : stm global qerr (list byte * string) :=
  if Nat.ltb (sl_len query) 12 then throw ("", PacketTooShort)
  else
    id ← lift (sl_sub query 0 2);
    qd ← lift (sl_sub query 4 6);
    qdCount ← lift (Uint16 qd);
    if negb (qdCount =? 1) then throw ("", OnlySingleQuestion)
    else
      '(domain, offset) ← lift (no_domain (parseDomain query 12));
      qt ← lift (sl_sub query offset (offset + 2));
      qType ← lift (Uint16 qt);
      if negb (qType =? 1) then
        if qType =? 28 then
          question ← lift (sl_sub query 12 (offset + 4));
          mret (id ++ bytes [129; 128] ++ qd ++ bytes [0; 0] ++ bytes [0; 0] ++
                bytes [0; 0] ++ question, domain)
        else throw (domain, OnlyAandAAAA)
      else
        fakeIP ← global_GetIP domain;
        question ← lift (sl_sub query 12 (offset + 4));
        mret (id ++ bytes [129; 128] ++ qd ++ bytes [0; 1] ++ bytes [0; 0] ++
              bytes [0; 0] ++ question ++
              bytes [192; 12] ++ bytes [0; 1] ++ bytes [0; 1] ++ bytes [0; 0; 0; 60] ++
              bytes [0; 4] ++ default [] (Net.To4 fakeIP), domain).

(** (response, domain, handled); a panic of the handler is one of the caller. *)
Definition HijackPacket (raw : slice) : stm global qerr (list byte * string * bool) :=
  fun g =>
  match GlobalPool g with
  | None => (Ok ([], "", false), g)
  | Some _ =>
      match HandleDNSQuery raw g with
      | (Ok (resp, domain), g) => (Ok (resp, domain, true), g)
      | (Err (domain, _), g) => (Ok ([], domain, false), g)
      | (Panic, g) => (Panic, g)
      end
  end.

(** ** The wire format of a question, for the specifications *)

(** Labels are 1 to 255 bytes long. *)
Definition label_ok (l : string) : Prop := (0 < slen l < 256)%nat.

Fixpoint encode_labels (ls : list string) : list byte :=
  match ls with
  | [] => bytes [0]
  | l :: ls => mk8 (Z.of_nat (slen l)) :: to_bytes l ++ encode_labels ls
  end.

(** The name the parser rebuilds: the labels joined by dots. *)
Definition dotted (ls : list string) : string := Strings.Join ls ".".

(** A query packet: header with one question, name, type and class, rest. *)
Definition query_packet (id flags counts : list byte) (ls : list string)
    (qtype cls rest : list byte) : list byte :=
  id ++ flags ++ bytes [0; 1] ++ counts ++ encode_labels ls ++ qtype ++ cls ++ rest.

(** ** Lemmas *)

Lemma parseDomain_loop_no_panic fuel data domain curr :
  sl_wf data → (0 < fuel)%nat → (sl_len data < curr + fuel)%nat →
  ∃ r, parseDomain_loop fuel data domain curr = r ∧ is_panic r = false ∧
       ∀ d off, r = Ok (d, off) → (curr < off ≤ sl_len data)%nat.
Proof.
  intros Hw. revert domain curr. induction fuel as [|f IH]; intros domain curr H0 Hf; [lia|].
  cbn [parseDomain_loop]. destruct (Nat.leb_spec (sl_len data) curr); [by eexists|].
    destruct (sl_index_ok (E:=dns_err) data curr Hw) as (b & _ & ->); [done|].
    cbn [mbind outcome_bind]. case_match eqn:E0; boolify.
    + eexists. split; [done|]. split; [done|]. intros d off [= <- <-]. lia.
    + case_match eqn:E1; boolify; [by eexists|].
      rewrite sl_sub_ok by (unfold sl_wf in Hw; lia).
      destruct (IH ((if String.eqb domain "" then domain else domain +:+ ".") +:+
        of_bytes (take (curr + 1 + Z.to_nat (u8 b) - (curr + 1)) (drop (curr + 1) (sl_mem data))))
        (curr + (1 + Z.to_nat (u8 b)))%nat) as (r & Hr & Hp & Ho); [lia..|].
      exists r. split; [done|]. split; [done|]. intros d off H2. apply Ho in H2. lia.
Qed.

Lemma parseDomain_no_panic data offset :
  sl_wf data → (0 < offset)%nat → is_panic (parseDomain data offset) = false.
Proof.
  intros Hw Ho. unfold parseDomain.
  destruct (parseDomain_loop_no_panic (S (sl_len data)) data "" offset)
    as (r & -> & H & _); [done|lia..|done].
Qed.

Lemma parseDomain_offset data offset d off :
  sl_wf data → parseDomain data offset = Ok (d, off) → (offset < off ≤ sl_len data)%nat.
Proof.
  intros Hw. unfold parseDomain. intros H.
  destruct (parseDomain_loop_no_panic (S (sl_len data)) data "" offset)
    as (r & Hr & _ & Ho); [done|lia..|]. apply (Ho d). congruence.
Qed.

Lemma length_encode_labels ls :
  length (encode_labels ls) = S (sum_list_with (fun l => S (slen l)) ls).
Proof.
  induction ls as [|l ls IH]; simpl; [done|].
  rewrite length_app, length_to_bytes, IH. lia.
Qed.

(** The loop over an encoded name, in a larger buffer. *)
Lemma parseDomain_loop_encode ls fuel pre rest n dom :
  Forall label_ok ls →
  (length pre + length (encode_labels ls) ≤ n ≤ length (pre ++ encode_labels ls ++ rest))%nat →
  (length ls < fuel)%nat →
  parseDomain_loop fuel (Slice (pre ++ encode_labels ls ++ rest) n) dom (length pre) =
  Ok (match ls with
      | [] => dom
      | _ => (if String.eqb dom "" then dom else dom +:+ ".") +:+ dotted ls
      end, (length pre + length (encode_labels ls))%nat).
Proof.
  revert fuel pre dom. induction ls as [|l ls IH]; intros fuel pre dom Hok Hn Hf;
    (destruct fuel as [|fuel]; [simpl in Hf; lia|]); cbn [parseDomain_loop sl_len].
  - simpl in *. rewrite (proj2 (Nat.leb_gt _ _)) by lia.
    unfold sl_index. cbn [sl_len sl_mem]. rewrite (proj2 (Nat.ltb_lt _ _)) by lia.
    rewrite lookup_app_r, Nat.sub_diag by lia. cbn. f_equal. f_equal. lia.
  - apply Forall_cons in Hok as [[Hl1 Hl2] Hok]. simpl in Hn.
    rewrite !length_app in Hn. simpl in Hn. rewrite !length_app, length_to_bytes in Hn.
    rewrite (proj2 (Nat.leb_gt _ _)) by lia.
    unfold sl_index. cbn [sl_len sl_mem]. rewrite (proj2 (Nat.ltb_lt _ _)) by lia.
    rewrite lookup_app_r, Nat.sub_diag by lia.
    cbn [encode_labels lookup list_lookup app mbind outcome_bind].
    rewrite u8_mk8_small, Nat2Z.id by lia.
    rewrite (proj2 (Nat.eqb_neq (slen l) 0)) by lia.
    rewrite (proj2 (Nat.ltb_ge _ _)) by lia.
    rewrite sl_sub_ok; cbn [sl_mem]; [|lia|].
    2:{ rewrite !length_app. simpl. rewrite !length_app, length_to_bytes. lia. }
    cbn [mbind outcome_bind].
    replace (pre ++ mk8 (Z.of_nat (slen l)) :: (to_bytes l ++ encode_labels ls) ++ rest)
      with ((pre ++ [mk8 (Z.of_nat (slen l))]) ++ to_bytes l ++ (encode_labels ls ++ rest))
      by (simplify_list_eq; done).
    rewrite (take_drop_middle_app (pre ++ [_]));
      [|rewrite length_app; simpl; lia|rewrite length_to_bytes; lia].
    rewrite of_to_bytes.
    replace ((pre ++ [mk8 (Z.of_nat (slen l))]) ++ to_bytes l ++ (encode_labels ls ++ rest))
      with (((pre ++ [mk8 (Z.of_nat (slen l))]) ++ to_bytes l) ++ encode_labels ls ++ rest)
      by (simplify_list_eq; done).
    replace (length pre + (1 + slen l))%nat
      with (length ((pre ++ [mk8 (Z.of_nat (slen l))]) ++ to_bytes l))
      by (rewrite !length_app, length_to_bytes; simpl; lia).
    rewrite IH; [|done|rewrite !length_app, length_to_bytes; simpl; lia|simpl in Hf; lia].
    f_equal. f_equal.
    + destruct ls as [|l2 ls]; [done|].
      assert (String.eqb ((if String.eqb dom "" then dom else dom +:+ ".") +:+ l) "" = false) as ->.
      { apply String.eqb_neq. intros E. apply (f_equal slen) in E.
        rewrite slen_app in E. simpl in E. lia. }
      unfold dotted. cbn [Strings.Join]. by rewrite !sapp_assoc.
    + rewrite !length_app, length_to_bytes. simpl. rewrite length_app, length_to_bytes. lia.
Qed.

Lemma length_labels_encode ls : (length ls < length (encode_labels ls))%nat.
Proof. rewrite length_encode_labels. induction ls; simpl in *; lia. Qed.

(** Parsing undoes encoding, wherever the name stands in the buffer. *)
Lemma parseDomain_encode_labels ls pre rest n :
  Forall label_ok ls →
  (length pre + length (encode_labels ls) ≤ n ≤ length (pre ++ encode_labels ls ++ rest))%nat →
  parseDomain (Slice (pre ++ encode_labels ls ++ rest) n) (length pre) =
  Ok (dotted ls, (length pre + length (encode_labels ls))%nat).
Proof.
  intros Hok Hn. unfold parseDomain. pose proof (length_labels_encode ls).
  rewrite parseDomain_loop_encode by (done || (cbn [sl_len]; lia)).
  by destruct ls.
Qed.

(** The steps of [HandleDNSQuery] up to the question type, on a well-formed
    packet that lies in a buffer [mem] with [n] valid bytes. *)
Section WellFormedQuery.
Context (id flags counts : list byte) (ls : list string) (qtype cls rest : list byte) (n : nat).
Context (Hid : length id = 2%nat) (Hfl : length flags = 2%nat) (Hco : length counts = 6%nat)
        (Hls : Forall label_ok ls) (Hqt : length qtype = 2%nat) (Hcl : length cls = 2%nat).
Let mem := query_packet id flags counts ls qtype cls rest.
Context (Hn : (12 + length (encode_labels ls) ≤ n ≤ length mem)%nat).

Let off := (12 + length (encode_labels ls))%nat.

Lemma query_id E : sl_sub (E:=E) (Slice mem n) 0 2 = Ok id.
Proof. apply (sl_sub_app [] id); simpl; lia. Qed.

Lemma query_qd E : sl_sub (E:=E) (Slice mem n) 4 6 = Ok (bytes [0; 1]).
Proof.
  unfold mem, query_packet. rewrite (app_assoc id).
  apply sl_sub_app; rewrite length_app; simpl; lia.
Qed.

Let pre := id ++ flags ++ bytes [0; 1] ++ counts.

Lemma query_pre : length pre = 12%nat.
Proof. unfold pre. rewrite !length_app. simpl. lia. Qed.

Lemma query_split : mem = pre ++ encode_labels ls ++ qtype ++ cls ++ rest.
Proof. unfold mem, query_packet, pre. by rewrite <- !app_assoc. Qed.

Lemma query_domain : parseDomain (Slice mem n) 12 = Ok (dotted ls, off).
Proof.
  pose proof query_pre as Hp. pose proof Hn as Hn'. unfold off.
  rewrite query_split in Hn' |- *. rewrite <- Hp. apply parseDomain_encode_labels; [done|].
  rewrite Hp. lia.
Qed.

Lemma query_type E : sl_sub (E:=E) (Slice mem n) off (off + 2) = Ok qtype.
Proof.
  rewrite query_split, app_assoc. apply sl_sub_app; rewrite length_app, query_pre; unfold off; lia.
Qed.

Lemma query_question E :
  sl_sub (E:=E) (Slice mem n) 12 (off + 4) = Ok (encode_labels ls ++ qtype ++ cls).
Proof.
  rewrite query_split, (app_assoc qtype), (app_assoc (encode_labels ls)).
  apply sl_sub_app; rewrite ?length_app, query_pre; unfold off; lia.
Qed.

(** What the answer to an A query looks like, and what it does to the pool. *)
Lemma HandleDNSQuery_A_eq g p :
  GlobalPool g = Some p → qtype = bytes [0; 1] →
  HandleDNSQuery (Slice mem n) g =
  (Ok (id ++ bytes [129; 128] ++ bytes [0; 1] ++ bytes [0; 1] ++ bytes [0; 0] ++ bytes [0; 0] ++
       (encode_labels ls ++ qtype ++ cls) ++
       bytes [192; 12; 0; 1; 0; 1; 0; 0; 0; 60; 0; 4] ++ fst (GetIP p (dotted ls)), dotted ls),
   {| poolOnce := poolOnce g; GlobalPool := Some (snd (GetIP p (dotted ls))) |}).
Proof.
  intros Hg Hq. unfold HandleDNSQuery. cbn [sl_len]. rewrite (proj2 (Nat.ltb_ge _ _)) by lia.
  rewrite (lift_bind _ _ _ _ (query_id _)), (lift_bind _ _ _ _ (query_qd _)).
  rewrite (lift_bind _ _ 1) by done. cbn [Z.eqb negb Pos.eqb].
  rewrite (lift_bind _ _ (dotted ls, off)) by (by rewrite query_domain).
  cbv beta iota. rewrite (lift_bind _ _ _ _ (query_type _)).
  rewrite (lift_bind _ _ 1) by (by rewrite Hq). cbn [Z.eqb negb Pos.eqb].
  unfold mbind at 1, stm_bind at 1, global_GetIP at 1. rewrite Hg.
  destruct (GetIP p (dotted ls)) as [x p'] eqn:E. cbn [fst snd].
  rewrite (lift_bind _ _ _ _ (query_question _)).
  assert (Net.To4 x = Some x) as ->.
  { apply Net.To4_4. apply (f_equal fst) in E. cbn in E. subst x.
    unfold GetIP. by case_match. }
  reflexivity.
Qed.

(** An AAAA query is answered with no record and leaves the pool alone. *)
Lemma HandleDNSQuery_AAAA_eq g :
  qtype = bytes [0; 28] →
  HandleDNSQuery (Slice mem n) g =
  (Ok (id ++ bytes [129; 128] ++ bytes [0; 1] ++ bytes [0; 0] ++ bytes [0; 0] ++ bytes [0; 0] ++
       (encode_labels ls ++ qtype ++ cls), dotted ls), g).
Proof.
  intros Hq. unfold HandleDNSQuery. cbn [sl_len]. rewrite (proj2 (Nat.ltb_ge _ _)) by lia.
  rewrite (lift_bind _ _ _ _ (query_id _)), (lift_bind _ _ _ _ (query_qd _)).
  rewrite (lift_bind _ _ 1) by done. cbn [Z.eqb negb Pos.eqb].
  rewrite (lift_bind _ _ (dotted ls, off)) by (by rewrite query_domain).
  cbv beta iota. rewrite (lift_bind _ _ _ _ (query_type _)).
  rewrite (lift_bind _ _ 28) by (by rewrite Hq). cbn [Z.eqb negb Pos.eqb].
  by rewrite (lift_bind _ _ _ _ (query_question _)).
Qed.

(** Other types are refused, with the name that was parsed. *)
Lemma HandleDNSQuery_other_eq g :
  qtype ≠ bytes [0; 1] → qtype ≠ bytes [0; 28] →
  HandleDNSQuery (Slice mem n) g = (Err (dotted ls, OnlyAandAAAA), g).
Proof.
  intros Hq Hq2. unfold HandleDNSQuery. cbn [sl_len]. rewrite (proj2 (Nat.ltb_ge _ _)) by lia.
  rewrite (lift_bind _ _ _ _ (query_id _)), (lift_bind _ _ _ _ (query_qd _)).
  rewrite (lift_bind _ _ 1) by done. cbn [Z.eqb negb Pos.eqb].
  rewrite (lift_bind _ _ (dotted ls, off)) by (by rewrite query_domain).
  cbv beta iota. rewrite (lift_bind _ _ _ _ (query_type _)).
  assert (∃ hi lo, qtype = [hi; lo]) as (hi & lo & Eq).
  { destruct qtype as [|hi [|lo [|]]]; simpl in Hqt; try lia. eauto. }
  rewrite (lift_bind _ _ (be16 hi lo)) by (by rewrite Eq).
  assert (∀ k, qtype ≠ put16 k → (be16 hi lo =? k) = false) as Hne.
  { intros k Hk. apply Z.eqb_neq. intros <-. apply Hk. by rewrite put16_be16. }
  rewrite !Hne by done. done.
Qed.

End WellFormedQuery.

(** ** Safety *)

Lemma Uint16_sub query a b :
  b = (a + 2)%nat → (b ≤ length (sl_mem query))%nat →
  ∃ z, Uint16 (E:=qerr) (take (b - a) (drop a (sl_mem query))) = Ok z.
Proof.
  intros -> Hb. assert (length (take (a + 2 - a) (drop a (sl_mem query))) = 2%nat) as Hl
    by (rewrite length_take, length_drop; lia).
  destruct (take _ _) as [|hi [|lo t]]; simpl in Hl; [lia..|by eexists].
Qed.

Lemma HandleDNSQuery_total query g p :
  GlobalPool g = Some p → sl_wf query → (sl_len query + 4 ≤ length (sl_mem query))%nat →
  is_panic (fst (HandleDNSQuery query g)) = false.
Proof.
  intros Hg Hw Hc. unfold HandleDNSQuery.
  destruct (Nat.ltb_spec (sl_len query) 12); [done|].
  rewrite (lift_bind _ _ _ _ (sl_sub_ok query 0 2 ltac:(lia) ltac:(lia))).
  rewrite (lift_bind _ _ _ _ (sl_sub_ok query 4 6 ltac:(lia) ltac:(lia))).
  destruct (Uint16_sub query 4 6) as [qd Hqd]; [lia..|]. rewrite (lift_bind _ _ _ _ Hqd).
  case_match; [done|].
  pose proof (parseDomain_no_panic query 12 Hw ltac:(lia)) as Hnp.
  destruct (parseDomain query 12) as [[dom off]|e|] eqn:Ep; [|done|done].
  apply parseDomain_offset in Ep; [|done]. cbn [no_domain].
  rewrite (lift_bind _ _ (dom, off)) by done.
  rewrite (lift_bind _ _ _ _ (sl_sub_ok query off (off + 2) ltac:(lia) ltac:(lia))).
  destruct (Uint16_sub query off (off + 2)) as [qt Hqt]; [lia..|].
  rewrite (lift_bind _ _ _ _ Hqt).
  repeat case_match; try done;
    rewrite ?(lift_bind _ _ _ _ (sl_sub_ok query 12 (off + 4) ltac:(lia) ltac:(lia))); [done|].
  unfold mbind at 1, stm_bind at 1, global_GetIP at 1. rewrite Hg.
  destruct (GetIP p dom).
  by rewrite (lift_bind _ _ _ _ (sl_sub_ok query 12 (off + 4) ltac:(lia) ltac:(lia))).
Qed.

(** Safety.  On any datagram of any content whose buffer has four bytes of
    spare capacity, the handler returns: it never indexes or slices out of
    range, and the label loop ends. *)
Theorem HandleDNSQuery_no_panic query g p :
  GlobalPool g = Some p → sl_wf query → (sl_len query + 4 ≤ length (sl_mem query))%nat →
  is_panic (fst (HandleDNSQuery query g)) = false.
Proof. apply HandleDNSQuery_total. Qed.

Lemma HijackPacket_total query g :
  sl_wf query → (sl_len query + 4 ≤ length (sl_mem query))%nat →
  ∃ r g', HijackPacket query g = (Ok r, g').
Proof.
  intros Hw Hc. unfold HijackPacket. destruct (GlobalPool g) as [p|] eqn:Eg; [|by eexists _, _].
  pose proof (HandleDNSQuery_total query g p Eg Hw Hc) as Hn.
  destruct (HandleDNSQuery query g) as [[[resp d]|[d e]|] g']; [by eexists _, _..|done].
Qed.

(** A datagram that fills its buffer and stops right after the name makes the
    handler slice past the capacity of the buffer: the question type is read
    without a length check, and the interception goroutine panics. *)
Theorem HandleDNSQuery_truncated g id flags counts ls :
  length id = 2%nat → length flags = 2%nat → length counts = 6%nat → Forall label_ok ls →
  HandleDNSQuery (sl_of (query_packet id flags counts ls [] [] [])) g = (Panic, g).
Proof.
  intros Hid Hfl Hco Hls. unfold HandleDNSQuery, sl_of, query_packet.
  rewrite !app_nil_r. cbn [sl_len].
  set (pre := id ++ flags ++ bytes [0; 1] ++ counts).
  assert (length pre = 12%nat) as Hp by (unfold pre; rewrite !length_app; simpl; lia).
  assert (id ++ flags ++ bytes [0; 1] ++ counts ++ encode_labels ls = pre ++ encode_labels ls ++ [])
    as Em by (unfold pre; rewrite app_nil_r, <- !app_assoc; done).
  assert (length (pre ++ encode_labels ls ++ []) = (12 + length (encode_labels ls))%nat) as El
    by (rewrite !length_app; simpl; lia).
  rewrite (proj2 (Nat.ltb_ge _ _)) by (rewrite Em, El; lia).
  rewrite (lift_bind _ _ id) by (apply (sl_sub_app [] id); simpl; lia).
  rewrite (lift_bind _ _ (bytes [0; 1])) by
    (rewrite (app_assoc id); apply sl_sub_app; rewrite length_app; simpl; lia).
  rewrite (lift_bind _ _ 1) by done. cbn [Z.eqb negb Pos.eqb].
  rewrite (lift_bind _ _ (dotted ls, (12 + length (encode_labels ls))%nat)).
  2:{ rewrite Em, El. pose proof (parseDomain_encode_labels ls pre []
        (12 + length (encode_labels ls)) Hls ltac:(lia)) as He.
      rewrite Hp in He. by rewrite He. }
  unfold mbind at 1, stm_bind at 1, lift at 1. rewrite Em. unfold sl_sub at 1. cbn [sl_mem].
  rewrite (proj2 (Nat.leb_gt _ (length _))) by lia. by rewrite andb_false_r.
Qed.

(** ** Functional behaviour *)

(** Round trip of the name codec.  Wherever an encoded name stands in a
    buffer, [parseDomain] rebuilds the dotted name and returns the offset just
    after its terminating zero byte. *)
Theorem parseDomain_encode ls pre rest n :
  Forall label_ok ls →
  (length pre + length (encode_labels ls) ≤ n ≤ length (pre ++ encode_labels ls ++ rest))%nat →
  parseDomain (Slice (pre ++ encode_labels ls ++ rest) n) (length pre) =
  Ok (dotted ls, (length pre + length (encode_labels ls))%nat).
Proof. apply parseDomain_encode_labels. Qed.

(** A packet that asks one question. *)
Record question_ok (id flags counts : list byte) (ls : list string) (cls : list byte) : Prop := {
  q_id : length id = 2%nat;
  q_flags : length flags = 2%nat;
  q_counts : length counts = 6%nat;
  q_labels : Forall label_ok ls;
  q_class : length cls = 2%nat
}.

(** The receive buffer holds the question up to the end of the name at least. *)
Definition received (mem : list byte) (ls : list string) (n : nat) : Prop :=
  (12 + length (encode_labels ls) ≤ n ≤ length mem)%nat.

(** C27. Functional.  An A query for a name is answered with the query's id, the
    response flags, the echoed question and one A record that points back to the
    name, lives 60 seconds and holds the pool's address; an AAAA query is
    answered with the echoed question and no record, and the pool is left
    alone; any other type is not handled, and the name is still reported. *)
Theorem HijackPacket_functional id flags counts ls qtype cls rest n once p :
  question_ok id flags counts ls cls → length qtype = 2%nat →
  received (query_packet id flags counts ls qtype cls rest) ls n →
  HijackPacket (Slice (query_packet id flags counts ls qtype cls rest) n) (mkGlobal once (Some p)) =
  if decide (qtype = bytes [0; 1]) then
    (Ok (id ++ bytes [129; 128; 0; 1; 0; 1; 0; 0; 0; 0] ++ (encode_labels ls ++ qtype ++ cls) ++
         bytes [192; 12; 0; 1; 0; 1; 0; 0; 0; 60; 0; 4] ++ fst (GetIP p (dotted ls)),
         dotted ls, true), mkGlobal once (Some (snd (GetIP p (dotted ls)))))
  else if decide (qtype = bytes [0; 28]) then
    (Ok (id ++ bytes [129; 128; 0; 1; 0; 0; 0; 0; 0; 0] ++ (encode_labels ls ++ qtype ++ cls),
         dotted ls, true), mkGlobal once (Some p))
  else (Ok ([], dotted ls, false), mkGlobal once (Some p)).
Proof.
  intros [Hid Hfl Hco Hls Hcl] Hqt Hn. unfold HijackPacket. cbn [GlobalPool].
  case_decide as H1; [|case_decide as H2].
  - by rewrite (HandleDNSQuery_A_eq id flags counts ls qtype cls rest n) with (p := p).
  - by rewrite (HandleDNSQuery_AAAA_eq id flags counts ls qtype cls rest n).
  - by rewrite (HandleDNSQuery_other_eq id flags counts ls qtype cls rest n).
Qed.

(** The fake address leads back to the name.  When the pool was built from
    an IPv4 subnet and still has a fresh address, the last four bytes of the
    answer to an A query are an address of that subnet which, looked up later
    by the transparent proxy, gives the name that was asked for. *)
Theorem HijackPacket_restores cidr a ones qs id flags counts ls cls rest n once p :
  served cidr a ones qs p →
  Z.of_nat (length (spec_run [] (qs ++ [dotted ls]))) ≤ 2 ^ (32 - ones) - 3 →
  question_ok id flags counts ls cls →
  received (query_packet id flags counts ls (bytes [0; 1]) cls rest) ls n →
  ∃ hd x p', HijackPacket (Slice (query_packet id flags counts ls (bytes [0; 1]) cls rest) n)
           (mkGlobal once (Some p)) = (Ok (hd ++ x, dotted ls, true), mkGlobal once (Some p')) ∧
         length x = 4%nat ∧ IsFakeIP p' x = true ∧ GetDomain p' x = Ok (dotted ls).
Proof.
  intros Hs Hl [Hid Hfl Hco Hls Hcl] Hn. unfold HijackPacket. cbn [GlobalPool].
  rewrite (HandleDNSQuery_A_eq id flags counts ls _ cls rest n) with (p := p) by done.
  eexists _, (fst (GetIP p (dotted ls))), (snd (GetIP p (dotted ls))).
  rewrite !app_assoc. split; [done|]. split; [unfold GetIP; by case_match|].
  rewrite <- (GetIP_again p). by apply (served_answer cidr a ones (qs ++ [dotted ls]));
    [apply served_snoc|set_solver|].
Qed.

(** The witnesses: a query for "a.bc" in a 64-byte buffer. *)
Definition ex_rest : list byte := replicate 40 Ascii.zero.

Lemma ex_question :
  question_ok (bytes [18; 52]) (bytes [1; 0]) (bytes [0; 0; 0; 0; 0; 0]) ["a"; "bc"] (bytes [0; 1]).
Proof. split; try reflexivity. repeat constructor; simpl; lia. Qed.

Lemma HandleDNSQuery_no_panic_witness :
  is_panic (fst (HandleDNSQuery (Slice (replicate 64 (mk8 1)) 20)
    (mkGlobal true (Some (mkPool (Net.cidr4 0 8) 2 10 2 ∅ ∅))))) = false.
Proof.
  eapply HandleDNSQuery_no_panic; [reflexivity|unfold sl_wf; simpl; lia|simpl; lia].
Defined.

Lemma HandleDNSQuery_truncated_witness :
  fst (HandleDNSQuery (sl_of (query_packet (bytes [18; 52]) (bytes [1; 0])
    (bytes [0; 0; 0; 0; 0; 0]) ["a"; "bc"] [] [] [])) (mkGlobal true None)) = Panic.
Proof.
  rewrite HandleDNSQuery_truncated; [reflexivity..|]. repeat constructor; simpl; lia.
Defined.

Lemma parseDomain_encode_witness :
  parseDomain (Slice (bytes [9] ++ encode_labels ["a"; "bc"] ++ []) 7) 1 = Ok ("a.bc", 7%nat).
Proof.
  apply (parseDomain_encode ["a"; "bc"] (bytes [9]) [] 7); [|simpl; lia].
  repeat constructor; simpl; lia.
Defined.

Lemma HijackPacket_functional_witness :
  ∃ r, HijackPacket (Slice (query_packet (bytes [18; 52]) (bytes [1; 0])
         (bytes [0; 0; 0; 0; 0; 0]) ["a"; "bc"] (bytes [0; 16]) (bytes [0; 1]) ex_rest) 30)
         (mkGlobal true (Some (mkPool (Net.cidr4 0 8) 2 10 2 ∅ ∅))) = r ∧
       fst r = Ok ([], "a.bc", false).
Proof.
  eexists. split; [apply HijackPacket_functional;
    [apply ex_question|reflexivity|unfold received; simpl; lia]|reflexivity].
Defined.

Lemma HijackPacket_restores_witness :
  ∃ p, served "198.18.0.0/16" 3323068416 16 ["x.org"] p ∧
  ∃ hd x p', HijackPacket (Slice (query_packet (bytes [18; 52]) (bytes [1; 0])
         (bytes [0; 0; 0; 0; 0; 0]) ["a"; "bc"] (bytes [0; 1]) (bytes [0; 1]) ex_rest) 30)
         (mkGlobal true (Some p)) = (Ok (hd ++ x, "a.bc", true), mkGlobal true (Some p')) ∧
       length x = 4%nat ∧ IsFakeIP p' x = true ∧ GetDomain p' x = Ok "a.bc".
Proof.
  eexists. split; [apply served_default|].
  apply (HijackPacket_restores "198.18.0.0/16" 3323068416 16 ["x.org"] (bytes [18; 52])
    (bytes [1; 0]) (bytes [0; 0; 0; 0; 0; 0]) ["a"; "bc"] (bytes [0; 1]) ex_rest 30);
    [apply served_default|vm_compute; congruence|apply ex_question|
     unfold received; simpl; lia].
Defined.

End Dns.
