(* ===== verification/Router.v ===== *)
(** * Rule router ([src/internal/router.go])

    Rules are parsed from configuration lines ([NewRuleManager]), extended at
    run time ([AddPIDRule], [SetRemoteLANs], [SetDirectDNS]) and consulted for
    every connection ([MatchContext]).  The read-write mutex makes each call
    atomic, except [SetDirectDNS] which takes no lock; log output is left out.
    [routes] is the routing policy as an inductive relation and
    [doMatchContext_routes] the equivalence with the code. *)

From S2P Require Import Prelude GoStrings GoNet.

Module Router.

Inductive RuleAction := ActionDirect | ActionProxy | ActionIntercept | ActionMap | ActionBlock.
Inductive RuleType := RuleTypeDomain | RuleTypeProcess | RuleTypeURL | RuleTypePID | RuleTypeIPCIDR.

#[global] Instance RuleAction_eq_dec : EqDecision RuleAction.
Proof. solve_decision. Defined.
#[global] Instance RuleType_eq_dec : EqDecision RuleType.
Proof. solve_decision. Defined.

(** [RuleAction.String] *)
Definition RuleAction_String (ra : RuleAction) : string :=
  match ra with
  | ActionDirect => "DIRECT"
  | ActionProxy => "PROXY"
  | ActionIntercept => "INTERCEPT"
  | ActionMap => "MAP"
  | ActionBlock => "BLOCK"
  end.

Record Rule := mkRule {
  Type_ : RuleType;
  Pattern : string;
  PID : Z;
  CIDR : option Net.IPNet;
  Action : RuleAction;
  Target : string
}.

Record MatchCtx := mkCtx {
  ctx_Host : string;
  ctx_Port : Z;
  ctx_Process : string;
  ctx_PID : Z;
  ctx_URL : string
}.

(** [remoteLANs] only ever receives non-nil networks. *)
Record RuleManager := mkRM {
  rules : list Rule;
  remoteLANs : list Net.IPNet;
  defaultAction : RuleAction;
  directDNS : bool
}.

Definition with_rules (rm : RuleManager) (rs : list Rule) : RuleManager :=
  mkRM rs (remoteLANs rm) (defaultAction rm) (directDNS rm).
Definition with_default (rm : RuleManager) (a : RuleAction) : RuleManager :=
  mkRM (rules rm) (remoteLANs rm) a (directDNS rm).

(** A nil receiver is a no-op. *)
Definition AddPIDRule (rm : option RuleManager) (pid : Z) (action : RuleAction)
    : option RuleManager :=
  match rm with
  | None => None
  | Some rm => Some (with_rules rm (mkRule RuleTypePID "" pid None action "" :: rules rm))
  end.

(** ** Parsing of the configured rules *)

(** Inactive or comment lines. *)
Definition inactive (trimmed : string) : bool :=
  String.eqb trimmed "" || Strings.HasPrefix trimmed "#" || Strings.HasPrefix trimmed "//" ||
  Strings.HasPrefix (Strings.ToUpper trimmed) "DISABLED,".

(** The action names of an IP_CIDR rule. *)
Definition cidr_action (s : string) : option RuleAction :=
  if String.eqb s "DIRECT" then Some ActionDirect
  else if String.eqb s "PROXY" then Some ActionProxy
  else if String.eqb s "BLOCK" then Some ActionBlock
  else None.

(** The action names of every other rule. *)
Definition rule_action (s : string) : option RuleAction :=
  if String.eqb s "DIRECT" then Some ActionDirect
  else if String.eqb s "PROXY" then Some ActionProxy
  else if String.eqb s "INTERCEPT" then Some ActionIntercept
  else if String.eqb s "MAP" then Some ActionMap
  else if String.eqb s "BLOCK" then Some ActionBlock
  else None.

(** [switch p0] *)
Definition rule_type (p0 : string) : RuleType :=
  if String.eqb p0 "DOMAIN" then RuleTypeDomain
  else if String.eqb p0 "PROCESS" then RuleTypeProcess
  else if String.eqb p0 "URL" || String.eqb p0 "MAP" then RuleTypeURL
  else RuleTypeDomain.

(** The tail of the loop body: the action is looked up and the rule appended. *)
Definition finish_rule (rm : RuleManager) (p0 pattern actionStr target : string) : RuleManager :=
  match rule_action actionStr with
  | None => rm
  | Some action =>
      if String.eqb p0 "PID" then
        with_rules rm (rules rm ++
          [mkRule RuleTypePID "" (Strconv.Sscanf_d pattern) None action target])
      else if String.eqb (Strings.ToUpper pattern) "DEFAULT" ||
              String.eqb (Strings.ToUpper pattern) "FINAL" then
        with_default rm action
      else with_rules rm (rules rm ++ [mkRule (rule_type p0) pattern 0 None action target])
  end.

(** The IP_CIDR branch. *)
Definition cidr_rule (rm : RuleManager) (cidrStr actionStr : string) : RuleManager :=
  match cidr_action actionStr with
  | None => rm
  | Some action =>
      match Net.ParseCIDR cidrStr with
      | None => rm
      | Some ipNet => with_rules rm (rules rm ++ [mkRule RuleTypeIPCIDR "" 0 (Some ipNet) action ""])
      end
  end.

(** One round of the loop over the entries.  [parts] has at least two elements
    where they are indexed. *)
Definition add_entry (rm : RuleManager) (entry : string) : RuleManager :=
  let trimmed := Strings.TrimSpace entry in
  if inactive trimmed then rm
  else
    let parts := Strings.Split trimmed ","%char in
    let part i := Strings.TrimSpace (default "" (parts !! i)) in
    if Nat.ltb (length parts) 2 then rm
    else
      let p0 := Strings.ToUpper (part 0%nat) in
      if String.eqb p0 "MAP" && Nat.leb 3 (length parts) then
        finish_rule rm p0 (part 1%nat) "MAP" (part 2%nat)
      else if String.eqb p0 "INTERCEPT" then
        finish_rule rm p0 (part 1%nat) "INTERCEPT" ""
      else if String.eqb p0 "IP_CIDR" && Nat.leb 3 (length parts) then
        cidr_rule rm (part 1%nat) (Strings.ToUpper (part 2%nat))
      else if Nat.eqb (length parts) 3 then
        finish_rule rm p0 (part 1%nat) (Strings.ToUpper (part 2%nat)) ""
      else finish_rule rm p0 (part 0%nat) (Strings.ToUpper (part 1%nat)) "".

Definition NewRuleManager (ruleEntries : list string) : RuleManager :=
  foldl add_entry (mkRM [] [] ActionDirect true) ruleEntries.

Definition SetDirectDNS (rm : RuleManager) (direct : bool) : RuleManager :=
  mkRM (rules rm) (remoteLANs rm) (defaultAction rm) direct.

(** The network that a remote-LAN entry denotes, if it denotes one. *)
Definition lan_net (entry : string) : option Net.IPNet :=
  if Strings.Contains entry "/" then Net.ParseCIDR entry
  else match Net.ParseIP entry with
       | None => None
       | Some x =>
           Net.ParseCIDR (entry +:+ (if Net.To4 x is None then "/128" else "/32"))
       end.

(** The loop of [SetRemoteLANs]: the networks and the rules it collects. *)
Fixpoint lan_entries (entries : list string) : list Net.IPNet * list Rule :=
  match entries with
  | [] => ([], [])
  | raw :: entries =>
      let entry := Strings.TrimSpace raw in
      let '(nets, prepended) := lan_entries entries in
      if String.eqb entry "" then (nets, prepended)
      else match lan_net entry with
           | Some n => (n :: nets, prepended)
           | None => (nets, mkRule RuleTypeDomain (Strings.TrimPrefix entry "*") 0 None
                              ActionProxy "" :: prepended)
           end
  end.

Definition SetRemoteLANs (rm : option RuleManager) (entries : list string) : option RuleManager :=
  match rm with
  | None => None
  | Some rm =>
      if Nat.eqb (length entries) 0 then Some rm
      else let '(nets, prepended) := lan_entries entries in
           Some (mkRM (prepended ++ rules rm) (remoteLANs rm ++ nets) (defaultAction rm)
                      (directDNS rm))
  end.

Definition HasProcessMetadataRules (rm : option RuleManager) : bool :=
  match rm with
  | None => false
  | Some rm =>
      existsb (fun r => bool_decide (Type_ r = RuleTypeProcess) ||
                        bool_decide (Type_ r = RuleTypePID)) (rules rm)
  end.

(** ** Matching *)

(** [ip4[i]], [ip6[i]] are in range: [To4] and [To16] give 4 and 16 bytes. *)
Definition isPrivateIP (x : ip) : bool :=
  if Net.IsLoopback x || Net.IsLinkLocalUnicast x || Net.IsLinkLocalMulticast x then true
  else match Net.To4 x with
       | Some ip4 =>
           (Net.at_ ip4 0 =? 10) ||
           ((Net.at_ ip4 0 =? 172) && ((16 <=? Net.at_ ip4 1) && (Net.at_ ip4 1 <=? 31))) ||
           ((Net.at_ ip4 0 =? 192) && (Net.at_ ip4 1 =? 168))
       | None =>
           match Net.To16 x with
           | Some ip6 => Z.land (Net.at_ ip6 0) 254 =? 252
           | None => false
           end
       end.

(** The body of the loop over the rules: does the rule take the context? *)
Definition rule_matches (rule : Rule) (ctx : MatchCtx) : bool :=
  match Type_ rule with
  | RuleTypePID => negb (ctx_PID ctx =? 0) && (ctx_PID ctx =? PID rule)
  | RuleTypeProcess =>
      negb (String.eqb (ctx_Process ctx) "") &&
      (String.eqb (ctx_Process ctx) (Pattern rule) ||
       Strings.Contains (Strings.ToLower (ctx_Process ctx)) (Strings.ToLower (Pattern rule)))
  | RuleTypeDomain =>
      if String.eqb (ctx_Host ctx) "" then false
      else
        let host := ctx_Host ctx in
        if Strings.HasPrefix (Pattern rule) "." then
          let trimmedPattern := Strings.TrimPrefix (Pattern rule) "." in
          String.eqb host trimmedPattern || Strings.HasSuffix host (Pattern rule)
        else String.eqb host (Pattern rule) || Strings.HasSuffix host ("." +:+ Pattern rule)
  | RuleTypeURL =>
      if negb (String.eqb (ctx_URL ctx) "") then
        Strings.HasPrefix (ctx_URL ctx) (Pattern rule) ||
        Strings.Contains (ctx_URL ctx) (Pattern rule)
      else if negb (String.eqb (ctx_Host ctx) "") then
        Strings.Contains (Pattern rule) (ctx_Host ctx)
      else false
  | RuleTypeIPCIDR =>
      match CIDR rule with
      | None => false
      | Some n => match Net.ParseIP (ctx_Host ctx) with
                  | Some x => Net.Contains n x
                  | None => false
                  end
      end
  end.

Fixpoint match_rules (rs : list Rule) (ctx : MatchCtx) : option (RuleAction * string) :=
  match rs with
  | [] => None
  | rule :: rs => if rule_matches rule ctx then Some (Action rule, Target rule)
                  else match_rules rs ctx
  end.

Definition is_localhost (host : string) : bool :=
  String.eqb host "localhost" || String.eqb host "127.0.0.1" || String.eqb host "::1".

Definition doMatchContext (rm : RuleManager) (ctx : MatchCtx) : RuleAction * string :=
  if directDNS rm && (ctx_Port ctx =? 53) then (ActionDirect, "")
  else if is_localhost (ctx_Host ctx) then (ActionDirect, "")
  else
    let by_rules := default (defaultAction rm, "") (match_rules (rules rm) ctx) in
    match Net.ParseIP (ctx_Host ctx) with
    | Some x =>
        if existsb (fun n => Net.Contains n x) (remoteLANs rm) then (ActionProxy, "")
        else if isPrivateIP x then (ActionDirect, "")
        else by_rules
    | None => by_rules
    end.

Definition MatchContext (rm : RuleManager) (ctx : MatchCtx) : RuleAction * string :=
  doMatchContext rm ctx.
Definition Match_ (rm : RuleManager) (host : string) : RuleAction * string :=
  MatchContext rm (mkCtx host 0 "" 0 "").
Definition MatchURL (rm : RuleManager) (url : string) : RuleAction * string :=
  MatchContext rm (mkCtx "" 0 "" 0 url).

(** ** The routing policy *)

(** The name a domain rule stands for, without its leading dot. *)
Definition base (pattern : string) : string := Strings.TrimPrefix pattern ".".

(** When a rule covers a context, declaratively. *)
Definition covers (r : Rule) (ctx : MatchCtx) : Prop :=
  match Type_ r with
  | RuleTypePID => ctx_PID ctx ≠ 0 ∧ ctx_PID ctx = PID r
  | RuleTypeProcess =>
      ctx_Process ctx ≠ "" ∧
      ∃ a b, Strings.ToLower (ctx_Process ctx) = a +:+ Strings.ToLower (Pattern r) +:+ b
  | RuleTypeDomain =>
      ctx_Host ctx ≠ "" ∧
      (ctx_Host ctx = base (Pattern r) ∨ ∃ sub, ctx_Host ctx = sub +:+ "." +:+ base (Pattern r))
  | RuleTypeURL =>
      (ctx_URL ctx ≠ "" ∧ ∃ a b, ctx_URL ctx = a +:+ Pattern r +:+ b) ∨
      (ctx_URL ctx = "" ∧ ctx_Host ctx ≠ "" ∧ ∃ a b, Pattern r = a +:+ ctx_Host ctx +:+ b)
  | RuleTypeIPCIDR =>
      ∃ n x, CIDR r = Some n ∧ Net.ParseIP (ctx_Host ctx) = Some x ∧ Net.Contains n x = true
  end.

Definition dns_direct (rm : RuleManager) (ctx : MatchCtx) : Prop :=
  directDNS rm = true ∧ ctx_Port ctx = 53.
Definition local_host (ctx : MatchCtx) : Prop :=
  ctx_Host ctx ∈ ["localhost"; "127.0.0.1"; "::1"].
Definition in_remote_lan (rm : RuleManager) (ctx : MatchCtx) : Prop :=
  ∃ x n, Net.ParseIP (ctx_Host ctx) = Some x ∧ n ∈ remoteLANs rm ∧ Net.Contains n x = true.
Definition private_host (ctx : MatchCtx) : Prop :=
  ∃ x, Net.ParseIP (ctx_Host ctx) = Some x ∧ isPrivateIP x = true.

Inductive routes (rm : RuleManager) (ctx : MatchCtx) : RuleAction * string → Prop :=
| routes_dns : dns_direct rm ctx → routes rm ctx (ActionDirect, "")
| routes_local : ¬ dns_direct rm ctx → local_host ctx → routes rm ctx (ActionDirect, "")
| routes_lan : ¬ dns_direct rm ctx → ¬ local_host ctx → in_remote_lan rm ctx →
    routes rm ctx (ActionProxy, "")
| routes_private : ¬ dns_direct rm ctx → ¬ local_host ctx → ¬ in_remote_lan rm ctx →
    private_host ctx → routes rm ctx (ActionDirect, "")
| routes_rule i r : ¬ dns_direct rm ctx → ¬ local_host ctx → ¬ in_remote_lan rm ctx →
    ¬ private_host ctx → rules rm !! i = Some r → covers r ctx →
    (∀ j r', (j < i)%nat → rules rm !! j = Some r' → ¬ covers r' ctx) →
    routes rm ctx (Action r, Target r)
| routes_default : ¬ dns_direct rm ctx → ¬ local_host ctx → ¬ in_remote_lan rm ctx →
    ¬ private_host ctx → (∀ r, r ∈ rules rm → ¬ covers r ctx) →
    routes rm ctx (defaultAction rm, "").

(** ** Lemmas *)

Lemma domain_match_base pattern host :
  (if Strings.HasPrefix pattern "." then
     String.eqb host (Strings.TrimPrefix pattern ".") || Strings.HasSuffix host pattern
   else String.eqb host pattern || Strings.HasSuffix host ("." +:+ pattern)) = true ↔
  host = base pattern ∨ ∃ sub, host = sub +:+ "." +:+ base pattern.
Proof.
  unfold base. destruct (Strings.HasPrefix pattern ".") eqn:E.
  - pose proof (proj1 (Strings.HasPrefix_spec _ _) E) as [r ->].
    rewrite Strings.TrimPrefix_app, orb_true_iff, String.eqb_eq, Strings.HasSuffix_spec. done.
  - unfold Strings.TrimPrefix. rewrite E.
    by rewrite orb_true_iff, String.eqb_eq, Strings.HasSuffix_spec.
Qed.

Lemma rule_matches_covers r ctx : rule_matches r ctx = true ↔ covers r ctx.
Proof.
  unfold rule_matches, covers. destruct (Type_ r).
  - destruct (String.eqb_spec (ctx_Host ctx) ""); [naive_solver|].
    cbn zeta. rewrite domain_match_base. naive_solver.
  - rewrite andb_true_iff, negb_true_iff, String.eqb_neq, orb_true_iff, String.eqb_eq.
    rewrite Strings.Contains_spec. split; [|naive_solver].
    intros [Hn [He|H]]; (split; [done|]); [|done].
    exists "", "". by rewrite He, sapp_nil_r.
  - destruct (String.eqb_spec (ctx_URL ctx) ""); simpl.
    + destruct (String.eqb_spec (ctx_Host ctx) ""); simpl; [naive_solver|].
      rewrite Strings.Contains_spec. naive_solver.
    + rewrite orb_true_iff, Strings.HasPrefix_spec, Strings.Contains_spec. split.
      * intros [[b Hb]|H]; left; (split; [done|]); [by exists "", b|done].
      * naive_solver.
  - rewrite andb_true_iff, negb_true_iff, Z.eqb_neq, Z.eqb_eq. done.
  - destruct (CIDR r), (Net.ParseIP (ctx_Host ctx)); naive_solver.
Qed.

Lemma match_rules_Some rs ctx v :
  match_rules rs ctx = Some v ↔
  ∃ i r, rs !! i = Some r ∧ v = (Action r, Target r) ∧ covers r ctx ∧
         ∀ j r', (j < i)%nat → rs !! j = Some r' → ¬ covers r' ctx.
Proof.
  induction rs as [|r rs IH]; simpl; [split; [done|by intros (i & ? & [=] & _)]|].
  destruct (rule_matches r ctx) eqn:E.
  - apply rule_matches_covers in E. split.
    + intros [= <-]. exists 0%nat, r. repeat split; auto. lia.
    + intros ([|i] & r' & Hi & -> & Hc & Hf); simpl in *; [by simplify_eq|].
      exfalso. by apply (Hf 0%nat r); [lia|..].
  - assert (¬ covers r ctx) as Hn by (rewrite <- rule_matches_covers; congruence).
    rewrite IH. split.
    + intros (i & r' & Hi & -> & Hc & Hf). exists (S i), r'. repeat split; auto.
      intros [|j] r'' Hj Hr; simpl in Hr; [congruence|]. apply (Hf j); auto. lia.
    + intros ([|i] & r' & Hi & -> & Hc & Hf); simpl in *; [congruence|].
      exists i, r'. repeat split; auto. intros j r'' Hj Hr. apply (Hf (S j)); auto. lia.
Qed.

Lemma match_rules_None rs ctx :
  match_rules rs ctx = None ↔ ∀ r, r ∈ rs → ¬ covers r ctx.
Proof.
  induction rs as [|r rs IH]; simpl; [set_solver|].
  destruct (rule_matches r ctx) eqn:E.
  - apply rule_matches_covers in E. split; [done|]. intros H. exfalso. apply (H r); set_solver.
  - rewrite IH, <- not_true_iff_false, rule_matches_covers in *.
    setoid_rewrite elem_of_cons. naive_solver.
Qed.

Lemma is_localhost_spec ctx : is_localhost (ctx_Host ctx) = true ↔ local_host ctx.
Proof.
  unfold is_localhost, local_host. rewrite !orb_true_iff, !String.eqb_eq, !elem_of_cons, elem_of_nil.
  naive_solver.
Qed.

Lemma lan_test rm x :
  existsb (fun n => Net.Contains n x) (remoteLANs rm) = true ↔
  ∃ n, n ∈ remoteLANs rm ∧ Net.Contains n x = true.
Proof. rewrite existsb_exists. by setoid_rewrite list_elem_of_In. Qed.

(** The code decides the policy... *)
Lemma doMatchContext_sound rm ctx : routes rm ctx (doMatchContext rm ctx).
Proof.
  unfold doMatchContext. destruct (directDNS rm && (ctx_Port ctx =? 53)) eqn:Ed.
  { boolify. by apply routes_dns. }
  assert (¬ dns_direct rm ctx) as Hd.
  { intros [H1 H2]. rewrite H1, H2 in Ed. done. }
  destruct (is_localhost (ctx_Host ctx)) eqn:El.
  { apply routes_local; [done|by apply is_localhost_spec]. }
  assert (¬ local_host ctx) as Hl by (rewrite <- is_localhost_spec; congruence).
  assert (¬ in_remote_lan rm ctx → ¬ private_host ctx →
          routes rm ctx (default (defaultAction rm, "") (match_rules (rules rm) ctx))) as Hr.
  { intros Hn Hp. destruct (match_rules (rules rm) ctx) as [v|] eqn:E; cbn.
    - apply match_rules_Some in E as (i & r & ? & -> & ? & ?). by eapply routes_rule.
    - apply routes_default; [done..|]. by apply match_rules_None. }
  destruct (Net.ParseIP (ctx_Host ctx)) as [x|] eqn:Ex.
  - destruct (existsb _ _) eqn:Elan.
    + apply lan_test in Elan as (n & ? & ?). apply routes_lan; [done..|]. by exists x, n.
    + assert (¬ in_remote_lan rm ctx) as Hn.
      { intros (y & n & Hy & Hin & Hc). assert (existsb (fun n => Net.Contains n x)
          (remoteLANs rm) = true) by (apply lan_test; exists n; simplify_eq; done). congruence. }
      destruct (isPrivateIP x) eqn:Ep.
      * apply routes_private; [done..|]. by exists x.
      * apply Hr; [done|]. intros (y & ? & ?). congruence.
  - apply Hr; [intros (y & n & ? & _)|intros (y & ? & _)]; congruence.
Qed.

(** ... and the policy is deterministic. *)
Lemma routes_unique rm ctx v w : routes rm ctx v → routes rm ctx w → v = w.
Proof.
  intros H1 H2.
  assert (∀ u, routes rm ctx u → ¬ dns_direct rm ctx → ¬ local_host ctx →
    ¬ in_remote_lan rm ctx → ¬ private_host ctx →
    u = default (defaultAction rm, "") (match_rules (rules rm) ctx)) as Hu.
  { intros u Hu ????. inversion Hu as [| | | |i r ? ? ? ? Hi Hc Hf|? ? ? ? Hf]; subst; try done.
    - assert (match_rules (rules rm) ctx = Some (Action r, Target r)) as ->; [|done].
      apply match_rules_Some. exists i, r. auto.
    - by rewrite (proj2 (match_rules_None _ _) Hf). }
  inversion H1; subst; try (inversion H2; subst; done);
    rewrite (Hu w) by done; apply Hu; done.
Qed.

(** C2. Equivalence with the policy.  [doMatchContext] answers [v] exactly when
    the routing policy gives [v]: DNS bypass, loopback names, remote LANs,
    private addresses, the first rule that covers the context, the default, in
    this order; a domain rule covers its name and the names below it, at a dot
    boundary. *)
Theorem doMatchContext_routes rm ctx v : doMatchContext rm ctx = v ↔ routes rm ctx v.
Proof.
  split; [intros <-; apply doMatchContext_sound|].
  intros H. eapply routes_unique; [apply doMatchContext_sound|done].
Qed.

(** *** Private addresses *)

(** The IPv4 ranges that are always direct: RFC 1918, loopback, link-local
    unicast and link-local multicast. *)
Definition private4 (v : Z) : Prop :=
  10 * 2 ^ 24 ≤ v < 11 * 2 ^ 24 ∨
  172 * 2 ^ 24 + 16 * 2 ^ 16 ≤ v < 172 * 2 ^ 24 + 32 * 2 ^ 16 ∨
  192 * 2 ^ 24 + 168 * 2 ^ 16 ≤ v < 192 * 2 ^ 24 + 169 * 2 ^ 16 ∨
  127 * 2 ^ 24 ≤ v < 128 * 2 ^ 24 ∨
  169 * 2 ^ 24 + 254 * 2 ^ 16 ≤ v < 169 * 2 ^ 24 + 255 * 2 ^ 16 ∨
  224 * 2 ^ 24 ≤ v < 224 * 2 ^ 24 + 2 ^ 8.

Lemma isPrivateIP_bytes b0 b1 b2 b3 x :
  Net.To4 x = Some [b0; b1; b2; b3] →
  isPrivateIP x = true ↔ private4 (be32 b0 b1 b2 b3).
Proof.
  intros Hx. unfold isPrivateIP, Net.IsLoopback, Net.IsLinkLocalUnicast, Net.IsLinkLocalMulticast.
  rewrite Hx. unfold Net.at_, private4. cbn [lookup list_lookup fmap option_fmap option_map default].
  cbn [from_option id]. rewrite be32_eq.
  pose proof (u8_range b0). pose proof (u8_range b1).
  pose proof (u8_range b2). pose proof (u8_range b3).
  assert (∀ a b : bool, (if a then true else b) = true ↔ a = true ∨ b = true) as ->
    by (intros [] []; naive_solver).
  rewrite !orb_true_iff, !andb_true_iff, !Z.eqb_eq, !Z.leb_le. lia.
Qed.

(** Which IPv4 destinations bypass the rules: [isPrivateIP] holds of
    exactly the addresses of 10/8, 172.16/12, 192.168/16, 127/8, 169.254/16 and
    224.0.0/24, in the 4-byte and in the 16-byte form. *)
Theorem isPrivateIP_ipv4 v :
  0 ≤ v < 2 ^ 32 →
  (isPrivateIP (put32 v) = true ↔ private4 v) ∧
  (isPrivateIP (Net.As16 (put32 v)) = true ↔ private4 v).
Proof.
  intros Hv.
  assert (be32 (mk8 (Z.shiftr v 24)) (mk8 (Z.shiftr v 16)) (mk8 (Z.shiftr v 8)) (mk8 v) = v) as E
    by (rewrite (be32_put32 v) by done; by apply wrap32_small).
  split.
  - rewrite <- E at 2. apply isPrivateIP_bytes. by apply Net.To4_4.
  - rewrite <- E at 2. apply isPrivateIP_bytes. by apply Net.To4_As16.
Qed.

Lemma isPrivateIP_ipv4_witness :
  (isPrivateIP (put32 3232235777) = true ↔ private4 3232235777) ∧ private4 3232235777.
Proof. split; [apply isPrivateIP_ipv4; lia|unfold private4; lia]. Defined.

(** *** Parsing *)

(** What one line adds: at most one rule, or a new default action. *)
Definition entry_rules (e : string) : list Rule := rules (NewRuleManager [e]).

Lemma add_entry_rules rm e :
  rules (add_entry rm e) = rules rm ++ entry_rules e ∧ (length (entry_rules e) ≤ 1)%nat ∧
  remoteLANs (add_entry rm e) = remoteLANs rm ∧ directDNS (add_entry rm e) = directDNS rm.
Proof.
  unfold entry_rules, NewRuleManager, add_entry, finish_rule, cidr_rule. cbn [foldl rules].
  repeat (case_match; cbn [rules with_rules with_default remoteLANs directDNS app length];
          rewrite ?app_nil_r; try (repeat split; lia || done)).
Qed.

Lemma foldl_add_entry rm es :
  rules (foldl add_entry rm es) = rules rm ++ concat (entry_rules <$> es) ∧
  remoteLANs (foldl add_entry rm es) = remoteLANs rm ∧
  directDNS (foldl add_entry rm es) = directDNS rm.
Proof.
  revert rm. induction es as [|e es IH]; intros rm; simpl; [by rewrite app_nil_r|].
  destruct (IH (add_entry rm e)) as (-> & -> & ->).
  destruct (add_entry_rules rm e) as (-> & _ & -> & ->). by rewrite <- app_assoc.
Qed.

(** A comma-free text without surrounding white space. *)
Definition clean (p : string) : Prop :=
  p ≠ "" ∧ ","%char ∉ to_bytes p ∧ Strings.TrimSpace p = p.
Definition not_default (p : string) : Prop :=
  Strings.ToUpper p ≠ "DEFAULT" ∧ Strings.ToUpper p ≠ "FINAL".

(** The configuration lines that denote a rule. *)
Inductive writes : Rule → string → Prop :=
| writes_domain p a : clean p → not_default p →
    writes (mkRule RuleTypeDomain p 0 None a "") ("DOMAIN," +:+ p +:+ "," +:+ RuleAction_String a)
| writes_process p a : clean p → not_default p →
    writes (mkRule RuleTypeProcess p 0 None a "") ("PROCESS," +:+ p +:+ "," +:+ RuleAction_String a)
| writes_url p a : clean p → not_default p →
    writes (mkRule RuleTypeURL p 0 None a "") ("URL," +:+ p +:+ "," +:+ RuleAction_String a)
| writes_map p t : clean p → not_default p → clean t →
    writes (mkRule RuleTypeURL p 0 None ActionMap t) ("MAP," +:+ p +:+ "," +:+ t)
| writes_intercept p : clean p → not_default p →
    writes (mkRule RuleTypeDomain p 0 None ActionIntercept "") ("INTERCEPT," +:+ p)
| writes_pid n a : 0 ≤ n < 2 ^ 63 →
    writes (mkRule RuleTypePID "" n None a "") ("PID," +:+ Strconv.Itoa n +:+ "," +:+ RuleAction_String a)
| writes_cidr c net a : clean c → Net.ParseCIDR c = Some net →
    a ∈ [ActionDirect; ActionProxy; ActionBlock] →
    writes (mkRule RuleTypeIPCIDR "" 0 (Some net) a "") ("IP_CIDR," +:+ c +:+ "," +:+ RuleAction_String a).

Lemma clean_Itoa n : 0 ≤ n < 2 ^ 63 → clean (Strconv.Itoa n).
Proof.
  intros Hn. assert (Strconv.Itoa n ≠ "") as Hne.
  { unfold Strconv.Itoa. rewrite (proj2 (Z.ltb_ge n 0)) by lia.
    apply Strconv.dec_aux_nonempty. lia. }
  assert (∀ c, c ∈ to_bytes (Strconv.Itoa n) → is_digit c = true) as Hd
    by (intros; apply (Strconv.Itoa_digits n); [lia|done]).
  split; [done|]. split; [by intros ?%Hd|]. by apply Strings.TrimSpace_digits.
Qed.

(** The three parts of a rendered line. *)
Lemma line_parts k p t :
  ","%char ∉ to_bytes k → clean p → clean t →
  Strings.Split (k +:+ "," +:+ p +:+ "," +:+ t) ","%char = [k; p; t].
Proof.
  intros Hk (_ & Hp & _) (_ & Ht & _). cbn [String.append].
  by rewrite !Strings.Split_app_sep, Strings.Split_no_sep.
Qed.

Lemma line_trim k p t :
  Strings.TrimLeftSpace (k +:+ p +:+ "," +:+ t) = k +:+ p +:+ "," +:+ t → clean t →
  Strings.TrimSpace (k +:+ p +:+ "," +:+ t) = k +:+ p +:+ "," +:+ t.
Proof.
  intros Hk (Hne & _ & [Hl Hr]%Strings.TrimSpace_fixed).
  rewrite <- !sapp_assoc in *. by apply Strings.TrimSpace_app.
Qed.

Lemma clean_action a : clean (RuleAction_String a).
Proof. destruct a; (split; [done|]; split; [|reflexivity]); cbn; set_solver. Qed.

Lemma rule_action_String a : rule_action (Strings.ToUpper (RuleAction_String a)) = Some a.
Proof. by destruct a. Qed.

Lemma not_default_tests p :
  not_default p → String.eqb (Strings.ToUpper p) "DEFAULT" ||
                  String.eqb (Strings.ToUpper p) "FINAL" = false.
Proof. intros [H1 H2]. by rewrite !(proj2 (String.eqb_neq _ _)). Qed.

(** A line [k,p,t] reaches the branch on the kind [k] with its parts. *)
Lemma add_entry_line rm k p t :
  clean p → clean t → ","%char ∉ to_bytes k → Strings.TrimSpace k = k →
  (∃ c k', k = String c k' ∧ is_space c = false) →
  (∀ s, inactive (k +:+ "," +:+ s) = false) →
  add_entry rm (k +:+ "," +:+ p +:+ "," +:+ t) =
  (let p0 := Strings.ToUpper k in
   if String.eqb p0 "MAP" then finish_rule rm p0 p "MAP" t
   else if String.eqb p0 "INTERCEPT" then finish_rule rm p0 p "INTERCEPT" ""
   else if String.eqb p0 "IP_CIDR" then cidr_rule rm p (Strings.ToUpper t)
   else finish_rule rm p0 p (Strings.ToUpper t) "").
Proof.
  intros Hp Ht Hk Hkt (c & k' & -> & Hc) Hina. unfold add_entry.
  assert (Strings.TrimSpace (String c k' +:+ "," +:+ p +:+ "," +:+ t) =
          String c k' +:+ "," +:+ p +:+ "," +:+ t) as ->.
  { rewrite <- (sapp_assoc (String c k')). apply line_trim; [|done]. simpl. by rewrite Hc. }
  rewrite Hina, line_parts by done.
  cbn [length Nat.ltb Nat.leb Nat.eqb lookup list_lookup default from_option id].
  destruct Hp as (_ & _ & ->), Ht as (_ & _ & ->). rewrite Hkt, !andb_true_r. done.
Qed.

Ltac by_line rm k :=
  etransitivity; [apply (add_entry_line rm k);
    first [done|by eexists _, _|by apply (bool_decide_unpack _)|idtac]|].

Lemma add_entry_writes rm r s :
  writes r s → add_entry rm s = with_rules rm (rules rm ++ [r]).
Proof.
  intros [p a Hp Hd|p a Hp Hd|p a Hp Hd|p t Hp Hd Ht|p Hp Hd|n a Hn|c net a Hc Hnet Ha];
    try pose proof (clean_action a) as Hca.
  - by_line rm "DOMAIN".
    cbn -[finish_rule]. unfold finish_rule. rewrite rule_action_String, not_default_tests by done. done.
  - by_line rm "PROCESS".
    cbn -[finish_rule]. unfold finish_rule. rewrite rule_action_String, not_default_tests by done. done.
  - by_line rm "URL".
    cbn -[finish_rule]. unfold finish_rule. rewrite rule_action_String, not_default_tests by done. done.
  - by_line rm "MAP".
    cbn -[finish_rule]. unfold finish_rule. cbn [rule_action]. rewrite not_default_tests by done. done.
  - unfold add_entry. destruct Hp as (Hne & Hcm & Htr).
    assert (Strings.TrimSpace ("INTERCEPT," +:+ p) = "INTERCEPT," +:+ p) as ->.
    { apply Strings.TrimSpace_app; [done| |done]. by apply Strings.TrimSpace_fixed. }
    assert (Strings.Split ("INTERCEPT," +:+ p) ","%char = ["INTERCEPT"; p]) as ->.
    { change ("INTERCEPT," +:+ p) with ("INTERCEPT" +:+ String "," p).
      rewrite Strings.Split_app_sep, Strings.Split_no_sep; [done|done|cbn; set_solver]. }
    cbn -[finish_rule Strings.TrimSpace]. rewrite Htr. unfold finish_rule. cbn [rule_action].
    rewrite not_default_tests by done. done.
  - pose proof (clean_Itoa n Hn).
    by_line rm "PID".
    cbn -[finish_rule]. unfold finish_rule. rewrite rule_action_String. cbn.
    by rewrite Strconv.Sscanf_d_Itoa.
  - by_line rm "IP_CIDR".
    cbn -[cidr_rule]. unfold cidr_rule. rewrite Hnet.
    set_unfold in Ha. destruct_or! Ha; subst a; done.
Qed.

(** Round trip of the rule syntax.  A configuration that writes a list of
    rules, with comments and disabled lines anywhere between them, is parsed to
    exactly those rules in the same order, with the default action DIRECT and
    DNS bypass on. *)
Theorem NewRuleManager_writes rs ss ls :
  Forall2 writes rs ss →
  ss = filter (fun l => inactive (Strings.TrimSpace l) = false) ls →
  NewRuleManager ls = mkRM rs [] ActionDirect true.
Proof.
  intros Hw Hs. unfold NewRuleManager.
  assert (∀ rm, foldl add_entry rm ls = with_rules rm (rules rm ++ rs)) as H;
    [|by rewrite H].
  revert rs ss Hw Hs. induction ls as [|l ls IH]; intros rs ss Hw Hs rm; simpl.
  - subst. inversion Hw; subst. rewrite app_nil_r. by destruct rm.
  - destruct (inactive (Strings.TrimSpace l)) eqn:E.
    + rewrite filter_cons_False in Hs by congruence.
      unfold add_entry at 2. rewrite E. by apply (IH rs ss).
    + rewrite filter_cons_True in Hs by done. subst.
      inversion Hw as [|r ? rs' ? Hr Hrs]; subst.
      rewrite (IH rs' _ Hrs), (add_entry_writes rm r l) by done.
      unfold with_rules. simpl. by rewrite <- app_assoc.
Qed.

Lemma NewRuleManager_writes_witness :
  NewRuleManager ["# comment"; "DOMAIN,.corp.net,BLOCK"; "disabled,DOMAIN,x.y,PROXY";
                  "MAP,https://a.b/x.js,file:///tmp/x.js"; "PID,42,PROXY"] =
  mkRM [mkRule RuleTypeDomain ".corp.net" 0 None ActionBlock "";
        mkRule RuleTypeURL "https://a.b/x.js" 0 None ActionMap "file:///tmp/x.js";
        mkRule RuleTypePID "" 42 None ActionProxy ""] [] ActionDirect true.
Proof.
  apply (NewRuleManager_writes _ ["DOMAIN,.corp.net,BLOCK";
    "MAP,https://a.b/x.js,file:///tmp/x.js"; "PID,42,PROXY"]); [|vm_compute; reflexivity].
  constructor; [|constructor; [|constructor; [|constructor]]].
  - apply (writes_domain ".corp.net" ActionBlock);
      unfold clean, not_default; by apply (bool_decide_unpack _).
  - apply (writes_map "https://a.b/x.js" "file:///tmp/x.js");
      unfold clean, not_default; by apply (bool_decide_unpack _).
  - apply (writes_pid 42 ActionProxy). lia.
Defined.

(** *** Remote LANs *)

Lemma existsb_elem {A} (l : list A) (f : A → bool) :
  existsb f l = true ↔ ∃ x, x ∈ l ∧ f x = true.
Proof. rewrite existsb_exists. by setoid_rewrite list_elem_of_In. Qed.

Lemma not_dns_test rm ctx : ¬ dns_direct rm ctx → directDNS rm && (ctx_Port ctx =? 53) = false.
Proof. intros H. apply not_true_iff_false. intros ?. boolify. by apply H. Qed.

Lemma not_local_test ctx : ¬ local_host ctx → is_localhost (ctx_Host ctx) = false.
Proof. rewrite <- is_localhost_spec. apply not_true_is_false. Qed.

(** An entry denotes a network or a domain rule. *)
Definition entry_net (e : string) (n : Net.IPNet) : Prop :=
  lan_net (Strings.TrimSpace e) = Some n.
Definition entry_rule (e : string) (r : Rule) : Prop :=
  Strings.TrimSpace e ≠ "" ∧ lan_net (Strings.TrimSpace e) = None ∧
  r = mkRule RuleTypeDomain (Strings.TrimPrefix (Strings.TrimSpace e) "*") 0 None ActionProxy "".

Lemma exists_cons {A} (P : A → Prop) x l :
  (∃ y, y ∈ x :: l ∧ P y) ↔ P x ∨ ∃ y, y ∈ l ∧ P y.
Proof. setoid_rewrite elem_of_cons. naive_solver. Qed.

Lemma lan_entries_spec es :
  (∀ n, n ∈ fst (lan_entries es) ↔ ∃ e, e ∈ es ∧ entry_net e n) ∧
  (∀ r, r ∈ snd (lan_entries es) ↔ ∃ e, e ∈ es ∧ entry_rule e r).
Proof.
  induction es as [|e es [IHn IHr]]; simpl; [set_solver|].
  setoid_rewrite exists_cons. setoid_rewrite <- IHn. setoid_rewrite <- IHr. clear IHn IHr.
  destruct (lan_entries es) as [nets pre]. unfold entry_net, entry_rule.
  destruct (String.eqb_spec (Strings.TrimSpace e) "") as [E|E].
  - rewrite E. assert (lan_net "" = None) as -> by reflexivity.
    split; intros x; cbn [fst snd]; (split; [by right|]); [by intros [?|?]|].
    by intros [(? & _)|?].
  - destruct (lan_net (Strings.TrimSpace e)) eqn:El; cbn [fst snd]; split; intros x;
      rewrite ?elem_of_cons; naive_solver.
Qed.

(** A list of rules that all send to the proxy, consulted first. *)
Lemma match_rules_app rs1 rs2 ctx :
  match_rules (rs1 ++ rs2) ctx =
  match match_rules rs1 ctx with Some v => Some v | None => match_rules rs2 ctx end.
Proof. induction rs1 as [|r rs1 IH]; simpl; [done|]. by destruct (rule_matches r ctx). Qed.

Lemma match_rules_all_proxy rs ctx v :
  (∀ r, r ∈ rs → Action r = ActionProxy ∧ Target r = "") →
  match_rules rs ctx = Some v → v = (ActionProxy, "").
Proof.
  intros H (i & r & Hi%list_elem_of_lookup_2 & -> & _)%match_rules_Some.
  by destruct (H r Hi) as [-> ->].
Qed.

(** Remote LANs take precedence.  After [SetRemoteLANs], a host inside the
    network of an entry is sent to the proxy although it is private or a rule
    blocks it; a host that a domain entry covers is sent to the proxy unless
    its address is private; every other host is routed as before.  DNS bypass and
    loopback names stay direct. *)
Theorem SetRemoteLANs_routing rm es rm' ctx :
  SetRemoteLANs (Some rm) es = Some rm' →
  ((dns_direct rm ctx ∨ local_host ctx) → doMatchContext rm' ctx = doMatchContext rm ctx) ∧
  (¬ dns_direct rm ctx → ¬ local_host ctx →
   ∀ e n x, e ∈ es → entry_net e n → Net.ParseIP (ctx_Host ctx) = Some x →
   Net.Contains n x = true → doMatchContext rm' ctx = (ActionProxy, "")) ∧
  (¬ dns_direct rm ctx → ¬ local_host ctx → ¬ private_host ctx →
   ∀ e r, e ∈ es → entry_rule e r → covers r ctx → doMatchContext rm' ctx = (ActionProxy, "")) ∧
  ((∀ e n x, e ∈ es → entry_net e n → Net.ParseIP (ctx_Host ctx) = Some x →
             Net.Contains n x = false) →
   (∀ e r, e ∈ es → entry_rule e r → ¬ covers r ctx) →
   doMatchContext rm' ctx = doMatchContext rm ctx).
Proof.
  intros H. destruct (lan_entries_spec es) as [Hn Hr].
  assert (∃ nets pre, lan_entries es = (nets, pre) ∧
    rm' = mkRM (pre ++ rules rm) (remoteLANs rm ++ nets) (defaultAction rm) (directDNS rm))
    as (nets & pre & El & ->).
  { unfold SetRemoteLANs in H. destruct (Nat.eqb_spec (length es) 0) as [E|E].
    - destruct es; [|done]. injection H as <-. exists [], []. split; [done|].
      rewrite app_nil_r. by destruct rm.
    - destruct (lan_entries es) as [nets pre]. injection H as <-. eauto. }
  rewrite El in Hn, Hr. cbn [fst snd] in Hn, Hr. clear H El.
  assert (∀ r, r ∈ pre → Action r = ActionProxy ∧ Target r = "") as Hpx.
  { intros r (e & _ & _ & _ & ->)%Hr. done. }
  unfold doMatchContext. cbn [directDNS rules remoteLANs defaultAction].
  split; [|split; [|split]].
  - intros [[-> ->]|?%is_localhost_spec]; [done|]. case_match; [done|]. by case_match.
  - intros Hd Hl e n x He Hen Hx Hc.
    rewrite (not_dns_test rm ctx Hd), (not_local_test ctx Hl), Hx, existsb_app.
    rewrite (proj2 (existsb_elem nets _)); [by rewrite orb_true_r|].
    exists n. split; [|done]. apply Hn. eauto.
  - intros Hd Hl Hp e r He Her Hc.
    assert (default (defaultAction rm, "") (match_rules (pre ++ rules rm) ctx) = (ActionProxy, ""))
      as ->.
    { rewrite match_rules_app. destruct (match_rules pre ctx) eqn:E.
      - by rewrite (match_rules_all_proxy _ _ _ Hpx E).
      - exfalso. apply (proj1 (match_rules_None pre ctx) E r); [|done]. apply Hr. eauto. }
    rewrite (not_dns_test rm ctx Hd), (not_local_test ctx Hl).
    destruct (Net.ParseIP (ctx_Host ctx)) as [x|] eqn:Ex; [|done].
    case_match; [done|]. destruct (isPrivateIP x) eqn:Epr; [|done].
    exfalso. apply Hp. by exists x.
  - intros Hnn Hnr. rewrite match_rules_app.
    assert (match_rules pre ctx = None) as ->.
    { apply match_rules_None. intros r (e & He & Her)%Hr. by apply (Hnr e). }
    do 2 (case_match; [done|]). case_match eqn:Ex; [|done].
    rewrite existsb_app. assert (existsb (fun n => Net.Contains n i) nets = false) as ->;
      [|by rewrite orb_false_r].
    apply not_true_iff_false. rewrite existsb_elem. intros (n & (e & He & Hen)%Hn & Hc).
    rewrite (Hnn e n i) in Hc; done.
Qed.

Lemma SetRemoteLANs_routing_witness :
  ∃ rm', SetRemoteLANs (Some (NewRuleManager ["IP_CIDR,192.168.0.0/16,BLOCK"]))
           ["192.168.50.0/24"; "*.home.arpa"] = Some rm' ∧
  doMatchContext rm' (mkCtx "192.168.50.7" 443 "" 0 "") = (ActionProxy, "").
Proof.
  eexists. split; [reflexivity|].
  destruct (SetRemoteLANs_routing (NewRuleManager ["IP_CIDR,192.168.0.0/16,BLOCK"])
    ["192.168.50.0/24"; "*.home.arpa"] _ (mkCtx "192.168.50.7" 443 "" 0 "") eq_refl)
    as (_ & H & _).
  refine (H _ _ "192.168.50.0/24" _ _ _ _ _ _); [by intros [_ ?]| | | | |].
  - unfold local_host. by apply (bool_decide_unpack _).
  - by apply (bool_decide_unpack _).
  - vm_compute. reflexivity.
  - vm_compute. reflexivity.
  - vm_compute. reflexivity.
Defined.

End Router.
