(* ===== verification/Socks.v ===== *)
(** * SOCKS5 ([src/socks/client.go])

    Module [Socks]: the address codec ([Addr_String], [readAddr], [SplitAddr],
    [ParseAddr]), the server side of the handshake ([Handshake], [WriteReply]),
    the client side ([ClientConnect], [DialUDP]) and the UDP encapsulation
    ([UDP_Write], [UDP_Read]).  The connection is the stream model of [GoIO];
    the network behind [DialUDP] and the SOCKS client of golang.org/x/net, both
    outside the sources, are parameters. *)

From S2P Require Import Prelude GoStrings GoNet GoIO.

Module Socks.

Definition Version5 : Z := 5.
Definition CmdConnect : Z := 1.
Definition CmdUDPAssociate : Z := 3.
Definition AtypIPv4 : Z := 1.
Definition AtypDomainName : Z := 3.
Definition AtypIPv6 : Z := 4.
Definition MaxAddrLen : nat := 259.

(** The SOCKS error codes of the [Error] type. *)
Definition ErrConnectionNotAllowed : Z := 2.
Definition ErrConnectionRefused : Z := 5.
Definition ErrAddressNotSupported : Z := 8.

(** [Error.Error] *)
Definition Error_Error (err : Z) : string := "SOCKS error: " +:+ Strconv.Itoa err.

(** A SOCKS address: type, body, port. *)
Definition Addr := list byte.

(** [Addr.String]: slicing is checked against the capacity, indexing against
    the length. *)
Definition Addr_String (a : slice) : outcome io_err string :=
  let port_at (i : nat) :=
    hi ← sl_index a i; lo ← sl_index a (i + 1);
    Ok (Strconv.Itoa (be16 hi lo)) in
  a0 ← sl_index a 0;
  if u8 a0 =? AtypDomainName then
    a1 ← sl_index a 1;
    let n := Z.to_nat (u8 a1) in
    host ← sl_sub a 2 (2 + n);
    port ← port_at (2 + n)%nat;
    Ok (Net.JoinHostPort (of_bytes host) port)
  else if u8 a0 =? AtypIPv4 then
    host ← sl_sub a 1 5;
    port ← port_at 5%nat;
    Ok (Net.JoinHostPort (Net.String_ host) port)
  else if u8 a0 =? AtypIPv6 then
    host ← sl_sub a 1 17;
    port ← port_at 17%nat;
    Ok (Net.JoinHostPort (Net.String_ host) port)
  else Ok (Net.JoinHostPort "" "").

(** [readAddr(r, b)] with [len(b) = blen]: the bytes left in [b]. *)
Definition readAddr (blen : nat) : io Addr :=
  if Nat.ltb blen MaxAddrLen then throw ErrShortBuffer
  else
    b0 ← ReadFull 1;
    let atyp := Net.at_ b0 0 in
    if atyp =? AtypDomainName then
      b1 ← ReadFull 1;
      body ← ReadFull (Z.to_nat (Net.at_ b1 0) + 2);
      mret (b0 ++ b1 ++ body)
    else if atyp =? AtypIPv4 then
      body ← ReadFull 6; mret (b0 ++ body)
    else if atyp =? AtypIPv6 then
      body ← ReadFull 18; mret (b0 ++ body)
    else throw (ErrCode ErrAddressNotSupported).

Definition ReadAddr : io Addr := readAddr MaxAddrLen.

Definition SplitAddr (b : list byte) : option Addr :=
  match b with
  | [] => None
  | b0 :: b' =>
      let cut (addrLen : nat) :=
        if Nat.ltb (length b) addrLen then None else Some (take addrLen b) in
      if u8 b0 =? AtypDomainName then
        match b' with
        | [] => None
        | b1 :: _ => cut (1 + 1 + Z.to_nat (u8 b1) + 2)%nat
        end
      else if u8 b0 =? AtypIPv4 then cut 7%nat
      else if u8 b0 =? AtypIPv6 then cut 19%nat
      else None
  end.

Definition ParseAddr (s : string) : option Addr :=
  match Net.SplitHostPort s with
  | None => None
  | Some (host, port) =>
      let body :=
        match Net.ParseIP host with
        | Some x =>
            match Net.To4 x with
            | Some ip4 => Some (mk8 AtypIPv4 :: ip4)
            | None => Some (mk8 AtypIPv6 :: x)
            end
        | None =>
            if Nat.ltb 255 (slen host) then None
            else Some (mk8 AtypDomainName :: mk8 (Z.of_nat (slen host)) :: to_bytes host)
        end in
      match body with
      | None => None
      | Some body =>
          match Strconv.ParseUint port 16 with
          | None => None
          | Some portnum => Some (body ++ [mk8 (Z.shiftr portnum 8); mk8 portnum])
          end
      end
  end.

(** Server side: the target address and the command. *)
Definition Handshake : io (Addr * Z) :=
  hello ← wrap "failed to read VER and NMETHODS" (ReadFull 2);
  _ ← wrap "failed to read METHODS" (ReadFull (Z.to_nat (Net.at_ hello 1)));
  _ ← wrap "failed to write greeting response" (Write (bytes [Version5; 0]));
  hdr ← wrap "failed to read request header" (ReadFull 3);
  let cmd := Net.at_ hdr 1 in
  addr ← wrap "failed to read target address" (readAddr MaxAddrLen);
  mret (addr, cmd).

Definition WriteReply (rep : Z) (addr : option Addr) : io unit :=
  let addr := default (bytes [AtypIPv4; 0; 0; 0; 0; 0; 0]) addr in
  Write (bytes [Version5; rep; 0] ++ addr).

(** Client side of CONNECT over an established connection. *)
Definition ClientConnect (target : string) : io unit :=
  _ ← Write (bytes [5; 1; 0]);
  method ← ReadFull 2;
  if Net.at_ method 1 =? 255 then throw (ErrCode ErrConnectionNotAllowed)
  else
    match ParseAddr target with
    | None => throw (ErrCode ErrAddressNotSupported)
    | Some addr =>
        _ ← Write (bytes [5; 1; 0] ++ addr);
        reply ← ReadFull 4;
        if negb (Net.at_ reply 1 =? 0) then throw (ErrCode (Net.at_ reply 1))
        else _ ← readAddr MaxAddrLen; mret tt
    end.

(** ** UDP over SOCKS5 *)

(** The relay socket of an association: the datagrams sent, the datagrams still
    to be received ([None] is a receive error). *)
Record udp_conn := mkUDP {
  u_sent : list (list byte);
  u_recv : list (option (list byte));
  u_closed : bool
}.

Record socksUDPConn := mkAssoc {
  UDPConn : udp_conn;
  ctrlConn : conn;
  target : Addr
}.

(** [udpConn.Write] as the network answers it. *)
Definition UDP_Write (send_ok : list byte → bool) (b : list byte)
    : stm socksUDPConn io_err nat := fun c =>
  let payload := bytes [0; 0; 0] ++ target c ++ b in
  if send_ok payload then
    (Ok (length b),
     mkAssoc (mkUDP (u_sent (UDPConn c) ++ [payload]) (u_recv (UDPConn c)) (u_closed (UDPConn c)))
       (ctrlConn c) (target c))
  else (Err ErrReset, c).

(** [copy(b, src)]: the new contents of [b]. *)
Definition copy (b src : list byte) : list byte :=
  take (length b) src ++ drop (length src) b.

(** The parse of a received datagram of [n] bytes in the 65535-byte buffer; the
    result is the new contents of [b] and the count that is returned. *)
Definition udp_parse (buf : list byte) (n : nat) (b : list byte)
    : outcome io_err (list byte * Z) :=
  if Nat.ltb n 4 then Err ErrUnexpectedEOF
  else
    match SplitAddr (drop 3 buf) with
    | None => Err (ErrText "invalid socks udp header")
    | Some addr =>
        let dataOffset := (3 + length addr)%nat in
        data ← sl_sub (sl_of buf) dataOffset n;
        Ok (copy b data, Z.of_nat n - Z.of_nat dataOffset)
    end.

(** The size of the receive buffer of [Read]. *)
Definition udp_buf : nat := Z.to_nat 65535.

Definition UDP_Read (b : list byte) : stm socksUDPConn io_err (list byte * Z) := fun c =>
  match u_recv (UDPConn c) with
  | [] | None :: _ => (Err EOF, c)
  | Some d :: rest =>
      let n := Nat.min (length d) udp_buf in
      let buf := take n d ++ replicate (udp_buf - n) (mk8 0) in
      (udp_parse buf n b,
       mkAssoc (mkUDP (u_sent (UDPConn c)) rest (u_closed (UDPConn c))) (ctrlConn c) (target c))
  end.

Definition UDP_Close : stm socksUDPConn io_err unit := fun c =>
  (Ok tt, mkAssoc (mkUDP (u_sent (UDPConn c)) (u_recv (UDPConn c)) true)
            (snd (Close (ctrlConn c))) (target c)).

(** [DialUDP]: the control connection is dialled by the environment ([ctrl]),
    as is the relay socket ([dial_relay], by address). *)
Definition associate : io Addr :=
  _ ← Write (bytes [Version5; 1; 0]);
  _ ← ReadFull 2;
  _ ← Write (bytes [Version5; CmdUDPAssociate; 0; AtypIPv4; 0; 0; 0; 0; 0; 0]);
  _ ← ReadFull 3;
  readAddr MaxAddrLen.

(** The result, and the control connection and relay socket left behind. *)
Record dial_udp := mkDialUDP {
  du_result : outcome io_err socksUDPConn;
  du_ctrl : option conn;
  du_relay : option udp_conn
}.

Definition DialUDP (ctrl : option conn) (dial_relay : string → option udp_conn)
    (targetAddr : string) : dial_udp :=
  match ctrl with
  | None => mkDialUDP (Err (ErrText "udp associate: failed to connect to socks server")) None None
  | Some c =>
      match or_close associate c with
      | (Panic, c) => mkDialUDP Panic (Some c) None
      | (Err e, c) => mkDialUDP (Err e) (Some c) None
      | (Ok relayAddr, c) =>
          match Addr_String (sl_of relayAddr) with
          | Panic => mkDialUDP Panic (Some c) None
          | Err e => mkDialUDP (Err e) (Some c) None
          | Ok relay =>
              match dial_relay relay with
              | None =>
                  mkDialUDP (Err (ErrText "udp associate: failed to dial relay"))
                    (Some (snd (Close c))) None
              | Some u =>
                  match ParseAddr targetAddr with
                  | None =>
                      mkDialUDP (Err (ErrText ("invalid target address: " +:+ targetAddr)))
                        (Some (snd (Close c))) (Some (mkUDP (u_sent u) (u_recv u) true))
                  | Some target =>
                      let c := snd (SetDeadline false c) in
                      mkDialUDP (Ok (mkAssoc u c target)) (Some c) (Some u)
                  end
              end
          end
      end
  end.

(** ** The address format *)

(** Well-formed addresses: what [SplitAddr] cuts off. *)
Inductive addr_ok : Addr → Prop :=
| addr_ok4 b p : length b = 4%nat → length p = 2%nat → addr_ok (mk8 1 :: b ++ p)
| addr_ok6 b p : length b = 16%nat → length p = 2%nat → addr_ok (mk8 4 :: b ++ p)
| addr_okd b p : (length b < 256)%nat → length p = 2%nat →
    addr_ok (mk8 3 :: mk8 (Z.of_nat (length b)) :: b ++ p).

Lemma at_0 b l : Net.at_ (b :: l) 0 = u8 b.
Proof. done. Qed.

Lemma byte_case b z : u8 b = z → b = mk8 z.
Proof. intros <-. symmetry. apply mk8_u8. Qed.

Lemma split_len2 (l : list byte) n :
  length l = (n + 2)%nat → ∃ b p, l = b ++ p ∧ length b = n ∧ length p = 2%nat.
Proof.
  intros H. exists (take n l), (drop n l).
  rewrite take_drop, length_take, length_drop. split; [done|]. lia.
Qed.

(** [SplitAddr] cuts off exactly a well-formed address. *)
Lemma SplitAddr_spec b a :
  SplitAddr b = Some a ↔ addr_ok a ∧ ∃ rest, b = a ++ rest.
Proof.
  split.
  - destruct b as [|b0 b']; [done|]. unfold SplitAddr, AtypDomainName, AtypIPv4, AtypIPv6.
    assert (∀ n, (n ≤ length (b0 :: b'))%nat → ∃ rest, b0 :: b' = take n (b0 :: b') ++ rest) as Hr
      by (intros n _; exists (drop n (b0 :: b')); by rewrite take_drop).
    assert (∀ n l, (n ≤ length l)%nat → length (take n l : list byte) = n) as Hl
      by (intros; rewrite length_take; lia).
    destruct (Z.eqb_spec (u8 b0) 3) as [E|_].
    + destruct b' as [|b1 b']; [done|]. case_match eqn:Eq; [done|]. boolify. intros <-%(inj Some).
      split; [|by apply Hr]. pose proof (u8_range b1). simpl in Eq. cbn [Nat.add take].
      destruct (split_len2 (take (Z.to_nat (u8 b1) + 2) b') (Z.to_nat (u8 b1)))
        as (x & p & -> & Hx & Hp); [apply Hl; lia|].
      rewrite (byte_case b0 3), (byte_case b1 (Z.of_nat (length x))) by lia.
      constructor; lia.
    + destruct (Z.eqb_spec (u8 b0) 1) as [E|_]; [|destruct (Z.eqb_spec (u8 b0) 4) as [E|_]; [|done]];
        (case_match eqn:Eq; [done|]); boolify; intros <-%(inj Some); (split; [|by apply Hr]);
        simpl in Eq; rewrite (byte_case _ _ E); cbn [take].
      * destruct (split_len2 (take 6 b') 4) as (x & p & -> & Hx & Hp); [apply Hl; lia|].
        by constructor.
      * destruct (split_len2 (take 18 b') 16) as (x & p & -> & Hx & Hp); [apply Hl; lia|].
        by constructor.
  - intros [Ha [rest ->]]. destruct Ha as [b p Hb Hp|b p Hb Hp|b p Hb Hp];
      unfold SplitAddr, AtypDomainName, AtypIPv4, AtypIPv6; cbn [app];
      rewrite ?u8_mk8_small by lia; cbn [Z.eqb Pos.eqb];
      (rewrite (proj2 (Nat.ltb_ge _ _)) by (simpl; rewrite !length_app; lia)); f_equal.
    + apply (take_app_length' (mk8 1 :: b ++ p) rest). simpl. rewrite length_app. lia.
    + apply (take_app_length' (mk8 4 :: b ++ p) rest). simpl. rewrite length_app. lia.
    + apply (take_app_length' (mk8 3 :: mk8 (Z.of_nat (length b)) :: b ++ p) rest).
      simpl. rewrite length_app. lia.
Qed.

(** Reading from a stream and slicing from a buffer accept the same addresses. *)
Lemma readAddr_SplitAddr c a :
  SplitAddr (c_in c) = Some a →
  readAddr MaxAddrLen c = (Ok a, set_in c (drop (length a) (c_in c))).
Proof.
  intros [Ha [rest E]]%SplitAddr_spec. destruct c as [l e out k d cl]. cbn [c_in] in *. subst l.
  unfold readAddr. change (Nat.ltb MaxAddrLen MaxAddrLen) with false. cbn iota.
  rewrite drop_app_length. unfold set_in. cbn [c_end c_out c_wlimit c_deadline c_closed].
  destruct Ha as [b p Hb Hp|b p Hb Hp|b p Hb Hp]; cbn [app]; rewrite ReadFull_bind_1, at_0;
    rewrite u8_mk8_small by lia; cbn [Z.eqb Pos.eqb AtypDomainName AtypIPv4 AtypIPv6].
  - by rewrite (ReadFull_bind 6 (b ++ p)) by (rewrite length_app; lia).
  - by rewrite (ReadFull_bind 18 (b ++ p)) by (rewrite length_app; lia).
  - rewrite ReadFull_bind_1, at_0, u8_mk8_small, Nat2Z.id by lia.
    by rewrite (ReadFull_bind (length b + 2) (b ++ p)) by (rewrite length_app; lia).
Qed.

Lemma ParseAddr_addr_ok s a : ParseAddr s = Some a → addr_ok a.
Proof.
  unfold ParseAddr, AtypDomainName, AtypIPv4, AtypIPv6. intros H.
  destruct (Net.SplitHostPort s) as [[host port]|]; [|done].
  destruct (Net.ParseIP host) as [x|] eqn:Ex.
  - destruct (Net.To4 x) as [x4|] eqn:E4; case_match; simplify_eq/=.
    + apply addr_ok4; [by eapply Net.To4_length|done].
    + apply addr_ok6; [by eapply Net.ParseIP_length|done].
  - destruct (Nat.ltb_spec 255 (slen host)); [done|]. case_match; simplify_eq/=.
    rewrite <- length_to_bytes. apply addr_okd; [rewrite length_to_bytes; lia|done].
Qed.

(** An accepted stream starts with an address. *)
Lemma readAddr_inv n c a c' :
  readAddr n c = (Ok a, c') → SplitAddr (c_in c) = Some a.
Proof.
  unfold readAddr, mbind, stm_bind, throw, mret, stm_ret.
  destruct (Nat.ltb n MaxAddrLen); [done|].
  destruct (ReadFull 1 c) as [[b0|?|] c1] eqn:E1; try done.
  apply ReadFull_ok in E1 as (Ein & Hl1 & ->). destruct b0 as [|b0 [|]]; try done.
  rewrite at_0. unfold AtypDomainName, AtypIPv4, AtypIPv6.
  destruct (Z.eqb_spec (u8 b0) 3) as [E|_]; [|destruct (Z.eqb_spec (u8 b0) 1) as [E|_];
    [|destruct (Z.eqb_spec (u8 b0) 4) as [E|_]; [|done]]].
  - destruct (ReadFull 1 _) as [[b1|?|] c2] eqn:E2; try done.
    apply ReadFull_ok in E2 as (Ein2 & Hl2 & ->). destruct b1 as [|b1 [|]]; try done. rewrite at_0.
    destruct (ReadFull _ (set_in _ (c_in c2))) as [[body|?|] c3] eqn:E3; try done.
    apply ReadFull_ok in E3 as (Ein3 & Hl3 & ->). intros [= <- <-].
    apply SplitAddr_spec. cbn [set_in c_in] in *. pose proof (u8_range b1).
    destruct (split_len2 _ _ Hl3) as (x & p & -> & Hx & Hp). split.
    + rewrite (byte_case b0 3), (byte_case b1 (Z.of_nat (length x))) by lia. constructor; lia.
    + exists (c_in c3). by rewrite Ein, Ein2, Ein3.
  - destruct (ReadFull 6 _) as [[body|?|] c2] eqn:E2; try done.
    apply ReadFull_ok in E2 as (Ein2 & Hl2 & ->). intros [= <- <-]. apply SplitAddr_spec.
    destruct (split_len2 body 4 Hl2) as (x & p & -> & Hx & Hp). cbn [set_in c_in] in *.
    split; [rewrite (byte_case b0 1) by lia; by constructor|].
    exists (c_in c2). by rewrite Ein, Ein2.
  - destruct (ReadFull 18 _) as [[body|?|] c2] eqn:E2; try done.
    apply ReadFull_ok in E2 as (Ein2 & Hl2 & ->). intros [= <- <-]. apply SplitAddr_spec.
    destruct (split_len2 body 16 Hl2) as (x & p & -> & Hx & Hp). cbn [set_in c_in] in *.
    split; [rewrite (byte_case b0 4) by lia; by constructor|].
    exists (c_in c2). by rewrite Ein, Ein2.
Qed.

(** Stream parser and slice parser agree.  Reading an address from a
    connection succeeds exactly when [SplitAddr] finds one at the head of the
    bytes to come; it returns that address and consumes nothing more. *)
Theorem readAddr_iff_SplitAddr c a c' :
  ReadAddr c = (Ok a, c') ↔
  SplitAddr (c_in c) = Some a ∧ c' = set_in c (drop (length a) (c_in c)).
Proof.
  split.
  - intros H. pose proof (readAddr_inv _ _ _ _ H) as Hs.
    split; [done|]. unfold ReadAddr in H. rewrite (readAddr_SplitAddr c a Hs) in H. congruence.
  - intros [Hs ->]. by apply readAddr_SplitAddr.
Qed.

(** *** Printing and parsing *)

Lemma be16_list (p : list byte) : length p = 2%nat → ∃ hi lo, p = [hi; lo].
Proof. destruct p as [|hi [|lo [|]]]; try done. eauto. Qed.

Lemma Addr_String_ip4 x hi lo :
  length x = 4%nat →
  Addr_String (sl_of (mk8 1 :: x ++ [hi; lo])) =
  Ok (Net.JoinHostPort (Net.String_ x) (Strconv.Itoa (be16 hi lo))).
Proof. destruct x as [|? [|? [|? [|? [|]]]]]; done. Qed.

Lemma Addr_String_ip6 x hi lo :
  length x = 16%nat →
  Addr_String (sl_of (mk8 4 :: x ++ [hi; lo])) =
  Ok (Net.JoinHostPort (Net.String_ x) (Strconv.Itoa (be16 hi lo))).
Proof. do 17 (destruct x as [|? x]; try done). Qed.

Lemma Addr_String_domain x hi lo :
  (length x < 256)%nat →
  Addr_String (sl_of (mk8 3 :: mk8 (Z.of_nat (length x)) :: x ++ [hi; lo])) =
  Ok (Net.JoinHostPort (of_bytes x) (Strconv.Itoa (be16 hi lo))).
Proof.
  intros Hx. unfold Addr_String.
  rewrite (sl_index_of _ 0 (mk8 3)) by done. cbn [mbind outcome_bind].
  rewrite u8_mk8_small by lia. cbn [Z.eqb Pos.eqb AtypDomainName].
  rewrite (sl_index_of _ 1 (mk8 (Z.of_nat (length x)))) by done. cbn [mbind outcome_bind].
  rewrite u8_mk8_small, Nat2Z.id by lia.
  assert (sl_sub (E:=io_err) (sl_of (mk8 3 :: mk8 (Z.of_nat (length x)) :: x ++ [hi; lo]))
    2 (2 + length x) = Ok x) as -> by (by apply (sl_sub_app [_; _] x [hi; lo])).
  cbn [mbind outcome_bind].
  rewrite (sl_index_of _ (2 + length x) hi)
    by (change ((x ++ [hi; lo]) !! length x = Some hi);
        rewrite lookup_app_r, Nat.sub_diag by lia; done).
  rewrite (sl_index_of _ (2 + length x + 1) lo); [done|].
  change ((x ++ [hi; lo]) !! (length x + 1)%nat = Some lo).
  rewrite lookup_app_r by lia. by replace (length x + 1 - length x)%nat with 1%nat by lia.
Qed.

(** A well-formed address prints: [String] stays in range. *)
Lemma Addr_String_total a : addr_ok a → ∃ s, Addr_String (sl_of a) = Ok s.
Proof.
  intros [b p Hb (hi & lo & ->)%be16_list|b p Hb (hi & lo & ->)%be16_list|
          b p Hb (hi & lo & ->)%be16_list].
  - rewrite Addr_String_ip4 by done. eauto.
  - rewrite Addr_String_ip6 by done. eauto.
  - rewrite Addr_String_domain by done. eauto.
Qed.

(** A host name as it can stand before a port. *)
Definition host_name (h : string) : Prop :=
  Net.ParseIP h = None ∧ (slen h ≤ 255)%nat ∧
  "["%char ∉ to_bytes h ∧ "]"%char ∉ to_bytes h.

Lemma Itoa_no c n : 0 ≤ n → is_digit c = false → c ∉ to_bytes (Strconv.Itoa n).
Proof. intros Hn Hc H%Strconv.Itoa_digits; [congruence|done]. Qed.

Lemma port_split h hi lo :
  "["%char ∉ to_bytes h → "]"%char ∉ to_bytes h →
  Net.SplitHostPort (Net.JoinHostPort h (Strconv.Itoa (be16 hi lo))) =
  Some (h, Strconv.Itoa (be16 hi lo)).
Proof.
  intros H1 H2. pose proof (be16_range hi lo).
  apply Net.SplitHostPort_JoinHostPort; try done; apply Itoa_no; done || lia.
Qed.

Lemma port_bytes hi lo :
  Strconv.ParseUint (Strconv.Itoa (be16 hi lo)) 16 = Some (be16 hi lo) ∧
  [mk8 (Z.shiftr (be16 hi lo) 8); mk8 (be16 hi lo)] = [hi; lo].
Proof.
  pose proof (be16_range hi lo). split; [|apply put16_be16].
  apply Strconv.ParseUint_Itoa; lia.
Qed.

(** Round trip of the address codec.  [ParseAddr] undoes [Addr.String] on
    IPv4 addresses and on host names of at most 255 bytes, whatever the port;
    and every address that [ParseAddr] produces prints without a panic, is at
    most [MaxAddrLen] bytes long, and is cut off unchanged from any byte
    sequence it heads. *)
Theorem ParseAddr_String :
  (∀ x hi lo, length x = 4%nat →
     ∃ s, Addr_String (sl_of (mk8 1 :: x ++ [hi; lo])) = Ok s ∧
          ParseAddr s = Some (mk8 1 :: x ++ [hi; lo])) ∧
  (∀ h hi lo, host_name h →
     let a := mk8 3 :: mk8 (Z.of_nat (slen h)) :: to_bytes h ++ [hi; lo] in
     ∃ s, Addr_String (sl_of a) = Ok s ∧ ParseAddr s = Some a) ∧
  (∀ s a rest, ParseAddr s = Some a →
     (length a ≤ MaxAddrLen)%nat ∧ SplitAddr (a ++ rest) = Some a ∧
     is_panic (Addr_String (sl_of a)) = false).
Proof.
  split; [|split].
  - intros x hi lo Hx. eexists. split; [by apply Addr_String_ip4|].
    unfold Net.String_. rewrite (Net.To4_4 x) by done.
    assert (∀ c, is_digit c = false → c ≠ "."%char → c ∉ to_bytes (Net.ipv4_string x)) as Hc.
    { intros c Hc Hd. destruct x as [|x0 [|x1 [|x2 [|x3 [|]]]]]; try done.
      rewrite Net.ipv4_string_4. pose proof (fun b => Itoa_no c (u8 b)) as Hi.
      rewrite !to_bytes_app, !elem_of_app. cbn [to_bytes String.list_ascii_of_string].
      rewrite !list_elem_of_singleton.
      intros H. destruct_or! H; try done; revert H; apply Hi; try done; apply u8_range. }
    unfold ParseAddr. rewrite port_split by (by apply Hc).
    rewrite Net.ParseIP_ipv4_string, Net.To4_As16 by done.
    destruct (port_bytes hi lo) as [-> ->]. done.
  - intros h hi lo (Hp & Hl & H1 & H2) a.
    pose proof (Addr_String_domain (to_bytes h) hi lo) as Hs. rewrite length_to_bytes in Hs.
    eexists. split; [apply Hs; lia|]. rewrite of_to_bytes.
    unfold ParseAddr. rewrite port_split, Hp, (proj2 (Nat.ltb_ge _ _)) by done.
    destruct (port_bytes hi lo) as [-> ->]. done.
  - intros s a rest H%ParseAddr_addr_ok. split; [|split].
    + destruct H; cbn [length]; rewrite length_app; unfold MaxAddrLen; lia.
    + apply SplitAddr_spec. eauto.
    + destruct (Addr_String_total a H) as [? ->]. done.
Qed.

(** *** The handshake *)

(** C37. Server side.  On a greeting with any list of methods followed by a
    request, [Handshake] answers method 0, returns the address and the command
    of the request and leaves exactly the bytes after it. *)
Theorem Handshake_functional ver methods v2 cmd rsv a rest e out k d cl :
  (length methods < 256)%nat → addr_ok a →
  Handshake (mkConn ([ver; mk8 (Z.of_nat (length methods))] ++ methods ++
                     [v2; cmd; rsv] ++ a ++ rest) e out (S k) d cl) =
  (Ok (a, u8 cmd), mkConn rest e (out ++ [bytes [5; 0]]) k d cl).
Proof.
  intros Hm Ha. unfold Handshake.
  rewrite (wrap_ReadFull_bind _ 2 [ver; _]) by done.
  change (Net.at_ [ver; mk8 (Z.of_nat (length methods))] 1) with (u8 (mk8 (Z.of_nat (length methods)))).
  rewrite u8_mk8_small, Nat2Z.id by lia.
  rewrite (wrap_ReadFull_bind _ (length methods) methods) by done.
  rewrite wrap_Write_bind.
  rewrite (wrap_ReadFull_bind _ 3 [v2; cmd; rsv]) by done.
  erewrite (stm_bind_ok (wrap _ (readAddr _))).
  2:{ apply wrap_ok, readAddr_SplitAddr, SplitAddr_spec. cbn [c_in]. eauto. }
  unfold set_in. cbn [c_in]. by rewrite drop_app_length.
Qed.

(** What the client sends for a target, as the server sees it. *)
Lemma Handshake_functional_witness :
  Handshake (mkConn ([mk8 5; mk8 1] ++ bytes [0] ++ [mk8 5; mk8 1; mk8 0] ++
                     bytes [1; 93; 184; 216; 34; 1; 187] ++ bytes [22]) EOF [] 1 false false) =
  (Ok (bytes [1; 93; 184; 216; 34; 1; 187], 1),
   mkConn (bytes [22]) EOF [bytes [5; 0]] 0 false false).
Proof.
  apply (Handshake_functional (mk8 5) (bytes [0])); [simpl; lia|].
  by apply (addr_ok4 (bytes [93; 184; 216; 34]) (bytes [1; 187])).
Defined.

(** A complete reply of a SOCKS server with an IPv4 bind address. *)
Definition ipv4_reply (b0 b1 b2 b3 hi lo : byte) : list byte :=
  bytes [5; 0; 0; 1] ++ [b0; b1; b2; b3; hi; lo].

(** The tail of [ClientConnect]: the reply is read. *)
Lemma ClientConnect_reply target a l e out k d cl :
  ParseAddr target = Some a →
  ClientConnect target (mkConn (bytes [5; 0] ++ bytes [5; 0; 0; 1] ++ l) e out (S (S k)) d cl) =
  match readAddr MaxAddrLen (mkConn l e (out ++ [bytes [5; 1; 0]] ++ [bytes [5; 1; 0] ++ a]) k d cl)
  with
  | (Ok _, c) => (Ok tt, c)
  | (Err e, c) => (Err e, c)
  | (Panic, c) => (Panic, c)
  end.
Proof.
  intros Ha. unfold ClientConnect. rewrite Write_bind.
  rewrite (ReadFull_bind 2 (bytes [5; 0])) by done.
  change (Net.at_ (bytes [5; 0]) 1 =? 255) with false. cbn iota. rewrite Ha.
  rewrite Write_bind, (ReadFull_bind 4 (bytes [5; 0; 0; 1])) by done.
  change (negb (Net.at_ (bytes [5; 0; 0; 1]) 1 =? 0)) with false. cbn iota.
  unfold mbind, stm_bind. rewrite app_assoc. done.
Qed.

(** The client misreads every standard reply.  [ClientConnect] takes four
    bytes of the reply header, the address type among them, and then reads an
    address type again.  So a server that accepts the request with an IPv4 bind
    address makes it fail, unless that address starts with 3.0, 3.1 or 3.2; the
    reply of this program's own [WriteReply] is rejected with "address type not
    supported". *)
Theorem ClientConnect_rejects_ipv4_reply target a b0 b1 b2 b3 hi lo k :
  ParseAddr target = Some a →
  (u8 b0 ≠ 3 ∨ 2 < u8 b1) →
  (∃ e, fst (ClientConnect target (mkConn (bytes [5; 0] ++ ipv4_reply b0 b1 b2 b3 hi lo)
                EOF [] (S (S k)) false false)) = Err e) ∧
  (let server := snd (WriteReply 0 None (mkConn [] EOF [] 1 false false)) in
   fst (ClientConnect target (mkConn (bytes [5; 0] ++ concat (c_out server))
          EOF [] (S (S k)) false false)) = Err (ErrCode ErrAddressNotSupported)).
Proof.
  intros Ha Hb. split.
  - unfold ipv4_reply. rewrite (ClientConnect_reply _ a) by done. unfold readAddr.
    change (Nat.ltb MaxAddrLen MaxAddrLen) with false. cbn iota.
    rewrite ReadFull_bind_1, at_0. unfold AtypDomainName, AtypIPv4, AtypIPv6.
    destruct (Z.eqb_spec (u8 b0) 3) as [E|_];
      [|destruct (Z.eqb_spec (u8 b0) 1); [|destruct (Z.eqb_spec (u8 b0) 4)]];
      [|by eexists..].
    rewrite ReadFull_bind_1, at_0. unfold mbind, stm_bind.
    edestruct (ReadFull_short (Z.to_nat (u8 b1) + 2)) as [e ->]; [cbn; lia|]. by eexists.
  - change (concat _) with (bytes [5; 0; 0; 1] ++ bytes [0; 0; 0; 0; 0; 0]). cbn zeta.
    by rewrite (ClientConnect_reply _ a).
Qed.

Lemma ClientConnect_rejects_ipv4_reply_witness :
  ∃ e, fst (ClientConnect "example.com:443"
    (mkConn (bytes [5; 0] ++ ipv4_reply (mk8 10) (mk8 0) (mk8 0) (mk8 1) (mk8 4) (mk8 56))
       EOF [] 2 false false)) = Err e.
Proof.
  eapply (ClientConnect_rejects_ipv4_reply "example.com:443");
    [vm_compute; reflexivity|left; vm_compute; congruence].
Defined.

(** *** UDP encapsulation *)

Lemma buf_split n l r : n = length (l : list byte) → take n (l ++ r) = l.
Proof. intros ->. apply take_app_length. Qed.

(** A datagram with a whole header is unwrapped. *)
Lemma udp_parse_ok a data b pad :
  addr_ok a →
  udp_parse ((bytes [0; 0; 0] ++ a ++ data) ++ pad) (3 + length a + length data) b =
  Ok (copy b data, Z.of_nat (length data)).
Proof.
  intros Ha. unfold udp_parse.
  assert (1 ≤ length a)%nat by (destruct Ha; cbn; lia).
  rewrite (proj2 (Nat.ltb_ge _ _)) by lia.
  replace (drop 3 ((bytes [0; 0; 0] ++ a ++ data) ++ pad)) with (a ++ data ++ pad)
    by (cbn; by rewrite <- app_assoc).
  rewrite (proj2 (SplitAddr_spec _ a)) by eauto. cbn iota.
  replace ((bytes [0; 0; 0] ++ a ++ data) ++ pad) with ((bytes [0; 0; 0] ++ a) ++ data ++ pad)
    by (by rewrite <- !app_assoc).
  unfold sl_of. rewrite (sl_sub_app (bytes [0; 0; 0] ++ a) data pad);
    [|by rewrite length_app|by rewrite length_app].
  cbn [mbind outcome_bind]. repeat f_equal. lia.
Qed.

(** Round trip of the UDP encapsulation.  A datagram written through the
    association carries the payload after the target address; when the relay
    sends back a datagram in the same format, from any address, [Read] copies the
    payload and returns its length. *)
Theorem UDP_roundtrip c payload from reply b send_ok rest :
  addr_ok from → (3 + length from + length reply ≤ udp_buf)%nat →
  u_recv (UDPConn c) = Some (bytes [0; 0; 0] ++ from ++ reply) :: rest →
  send_ok (bytes [0; 0; 0] ++ target c ++ payload) = true →
  ∃ c1 c2,
    UDP_Write send_ok payload c = (Ok (length payload), c1) ∧
    u_sent (UDPConn c1) = u_sent (UDPConn c) ++ [bytes [0; 0; 0] ++ target c ++ payload] ∧
    UDP_Read b c1 = (Ok (copy b reply, Z.of_nat (length reply)), c2) ∧
    u_recv (UDPConn c2) = rest.
Proof.
  intros Ha Hl Hr Hs. eexists _, _. split; [unfold UDP_Write; by rewrite Hs|]. split; [done|].
  unfold UDP_Read. cbn [UDPConn u_recv]. rewrite Hr.
  assert (length (bytes [0; 0; 0] ++ from ++ reply) = (3 + length from + length reply)%nat) as El
    by (rewrite !length_app; cbn; lia).
  rewrite El, Nat.min_l by done. rewrite (take_ge (bytes [0; 0; 0] ++ from ++ reply)) by lia.
  rewrite udp_parse_ok by done. done.
Qed.

Definition ex_assoc : socksUDPConn :=
  mkAssoc (mkUDP [] [Some (bytes [0; 0; 0; 1; 8; 8; 8; 8; 0; 53; 42])] false)
    (mkConn [] EOF [] 0 false false) (bytes [1; 8; 8; 8; 8; 0; 53]).

Lemma UDP_roundtrip_witness :
  ∃ c1 c2, UDP_Write (fun _ => true) (bytes [7]) ex_assoc = (Ok 1%nat, c1) ∧
    UDP_Read (bytes [0; 0]) c1 = (Ok (bytes [42; 0], 1), c2).
Proof.
  edestruct (UDP_roundtrip ex_assoc (bytes [7]) (bytes [1; 8; 8; 8; 8; 0; 53]) (bytes [42])
    (bytes [0; 0]) (fun _ => true)) as (c1 & c2 & H1 & _ & H2 & _);
    [by apply (addr_ok4 (bytes [8; 8; 8; 8]) (bytes [0; 53]))|unfold udp_buf; cbn [length bytes fmap list_fmap]; lia|reflexivity|reflexivity|].
  exists c1, c2. split; [exact H1|exact H2].
Defined.

(** Two ways in which [Read] breaks its callers.  (1) The header is parsed in
    the whole 65535-byte buffer instead of the [n] bytes received: a datagram
    that ends inside its IPv4 address makes [Read] slice [buf[10:n]] with
    [n < 10] and panic.  (2) When the payload is longer than the caller's
    buffer, the count returned is larger than the buffer. *)
Theorem UDP_Read_unsafe :
  (∀ c t rest b, u_recv (UDPConn c) = Some (bytes [0; 0; 0; 1] ++ t) :: rest →
     (length t < 6)%nat → fst (UDP_Read b c) = Panic) ∧
  (∀ c from data rest b, u_recv (UDPConn c) = Some (bytes [0; 0; 0] ++ from ++ data) :: rest →
     addr_ok from → (3 + length from + length data ≤ udp_buf)%nat → (length b < length data)%nat →
     ∃ b' n, fst (UDP_Read b c) = Ok (b', n) ∧ Z.of_nat (length b) < n ∧ length b' = length b).
Proof.
  split.
  - intros c t rest b Hr Ht. unfold UDP_Read. rewrite Hr. cbn [fst].
    rewrite length_app. change (length (bytes [0; 0; 0; 1])) with 4%nat.
    rewrite Nat.min_l by (unfold udp_buf; lia). rewrite (take_ge (_ ++ t)) by (rewrite length_app; cbn; lia).
    unfold udp_parse. rewrite (proj2 (Nat.ltb_ge _ _)) by lia.
    set (pad := replicate _ _).
    change (drop 3 ((bytes [0; 0; 0; 1] ++ t) ++ pad)) with (mk8 1 :: t ++ pad).
    assert (length (take 7 (mk8 1 :: t ++ pad)) = 7%nat) as Hl7.
    { unfold pad. rewrite length_take. cbn [length].
      rewrite length_app, length_replicate. unfold udp_buf. lia. }
    unfold SplitAddr. rewrite u8_mk8_small by lia. cbn [Z.eqb Pos.eqb AtypDomainName AtypIPv4].
    rewrite (proj2 (Nat.ltb_ge _ _)).
    2:{ unfold pad. cbn [length]. rewrite length_app, length_replicate. unfold udp_buf. lia. }
    rewrite Hl7. unfold sl_sub. rewrite (proj2 (Nat.leb_gt _ _)) by lia. done.
  - intros c from data rest b Hr Ha Hl Hb. unfold UDP_Read. rewrite Hr. cbn [fst].
    assert (length (bytes [0; 0; 0] ++ from ++ data) = (3 + length from + length data)%nat) as El
      by (rewrite !length_app; cbn; lia).
    rewrite El, Nat.min_l by done. rewrite (take_ge (bytes [0; 0; 0] ++ from ++ data)) by lia.
    rewrite udp_parse_ok by done. eexists _, _. split; [done|]. split; [lia|].
    unfold copy. rewrite length_app, length_take, length_drop. lia.
Qed.

Lemma UDP_Read_unsafe_witness :
  fst (UDP_Read (bytes [0; 0]) (mkAssoc (mkUDP [] [Some (bytes [0; 0; 0; 1] ++ bytes [8; 8])] false)
    (mkConn [] EOF [] 0 false false) [])) = Panic.
Proof. eapply (proj1 UDP_Read_unsafe); [reflexivity|simpl; lia]. Defined.

(** *** Resources of an association *)

Lemma readAddr_life n : keeps same_life (readAddr n).
Proof.
  unfold readAddr. case_match; [auto with vproxy|]. apply bind_life; [auto with vproxy|].
  intros b0. repeat case_match; auto 8 with vproxy.
Qed.

Lemma associate_life : keeps same_life associate.
Proof. unfold associate. pose proof (readAddr_life MaxAddrLen). auto 12 with vproxy. Qed.

Lemma associate_ok c a c' : associate c = (Ok a, c') → addr_ok a.
Proof.
  unfold associate. intros H.
  do 4 (apply stm_bind_inv in H as (? & ? & _ & H)).
  apply readAddr_inv, SplitAddr_spec in H. naive_solver.
Qed.

(** The stream calls never panic. *)
Lemma ReadFull_np n c : is_panic (fst (ReadFull n c)) = false.
Proof. unfold ReadFull. by case_match. Qed.

Lemma bind_np {A B} (m : io A) (f : A → io B) c :
  (∀ c, is_panic (fst (m c)) = false) → (∀ a c, is_panic (fst (f a c)) = false) →
  is_panic (fst ((m ≫= f) c)) = false.
Proof.
  intros Hm Hf. specialize (Hm c). unfold mbind, stm_bind.
  destruct (m c) as [[a|e|] c']; [apply Hf|done..].
Qed.

Lemma Write_np b c : is_panic (fst (Write b c)) = false.
Proof. unfold Write. by case_match. Qed.

Lemma readAddr_np n c : is_panic (fst (readAddr n c)) = false.
Proof.
  unfold readAddr. case_match; [done|]. apply bind_np; [apply ReadFull_np|]. intros b0 c1.
  repeat case_match; try done; apply bind_np; try apply ReadFull_np; try done.
  intros b1 c2. apply bind_np; [apply ReadFull_np|done].
Qed.

Lemma associate_no_panic c : is_panic (fst (associate c)) = false.
Proof.
  unfold associate. do 4 (apply bind_np; [apply ReadFull_np || apply Write_np|]; intros ? ?).
  apply readAddr_np.
Qed.

(** [DialUDP] never leaks and never panics.  Whatever the SOCKS server, the
    network and the target do: on failure the control connection, if it was
    opened, is closed and so is the relay socket, if it was opened; on success
    both are open, the control connection has its deadline cleared, and the
    association carries the parsed target. *)
Theorem DialUDP_resources ctrl dial_relay targetAddr :
  (∀ c, ctrl = Some c → c_closed c = false) →
  (∀ s u, dial_relay s = Some u → u_closed u = false) →
  let r := DialUDP ctrl dial_relay targetAddr in
  match du_result r with
  | Ok assoc =>
      du_ctrl r = Some (ctrlConn assoc) ∧ c_closed (ctrlConn assoc) = false ∧
      c_deadline (ctrlConn assoc) = false ∧ u_closed (UDPConn assoc) = false ∧
      ParseAddr targetAddr = Some (target assoc)
  | Err _ =>
      (∀ c, du_ctrl r = Some c → c_closed c = true) ∧
      (∀ u, du_relay r = Some u → u_closed u = true)
  | Panic => False
  end.
Proof.
  intros Hc Hu. destruct ctrl as [c|]; [|cbn; done]. unfold DialUDP, or_close.
  pose proof (associate_life c) as [Hcl Hdl]. pose proof (associate_no_panic c) as Hnp.
  destruct (associate c) as [[a|e|] c'] eqn:E; cbn [snd fst is_panic] in *; [| |done].
  - destruct (Addr_String_total a (associate_ok _ _ _ E)) as [s ->].
    destruct (dial_relay s) as [u|] eqn:Er; [|cbn; naive_solver].
    destruct (ParseAddr targetAddr) as [t|] eqn:Et; cbn; [|naive_solver].
    rewrite Hcl. naive_solver.
  - cbn. naive_solver.
Qed.

Lemma DialUDP_resources_witness :
  ∃ assoc, du_result (DialUDP
    (Some (mkConn (bytes [5; 0; 5; 1; 0; 1; 10; 0; 0; 1; 4; 56]) EOF [] 9 true false))
    (fun s => if String.eqb s "10.0.0.1:1080" then Some (mkUDP [] [] false) else None)
    "8.8.8.8:53") = Ok assoc ∧ c_closed (ctrlConn assoc) = false.
Proof.
  eexists. split; [vm_compute; reflexivity|].
  refine (proj1 (proj2 (DialUDP_resources
    (Some (mkConn (bytes [5; 0; 5; 1; 0; 1; 10; 0; 0; 1; 4; 56]) EOF [] 9 true false))
    (fun s => if String.eqb s "10.0.0.1:1080" then Some (mkUDP [] [] false) else None)
    "8.8.8.8:53" _ _))); [by intros c [= <-]|].
  intros s u. case_match; [by intros [= <-]|done].
Defined.

End Socks.
