(* ===== verification/Sni.v ===== *)
(** * SNI sniffing ([src/internal/handler.go], lines 35-147)

    [PeekingConn] reads ahead on a connection and replays the bytes to later
    reads; [sniffSNI] uses it to find the server name of a TLS ClientHello
    ([extractSNIFromPayload]).  The reader of the struct is either the
    connection itself or an [io.MultiReader] of the unread part of a peeked
    buffer and the connection. *)

From S2P Require Import Prelude GoStrings GoNet GoIO.

Module Sni.

(** ** [PeekingConn] *)

Inductive preader :=
| RConn
| RMulti (unread : list byte).

Record PeekingConn := mkPC {
  pc_conn : conn;
  peeked : list byte;
  reader : preader
}.

Definition NewPeekingConn (c : conn) : PeekingConn := mkPC c [] RConn.

(** [Read(p)] with [len(p) = n]; [k] is how much the network delivers, at least
    one byte when there is one.  An exhausted buffer falls through to the
    connection. *)
Definition Read (n k : nat) : stm PeekingConn io_err (list byte) := fun pc =>
  let from_conn :=
    match c_in (pc_conn pc) with
    | [] => (Err (c_end (pc_conn pc)), pc)
    | l => let m := Nat.min n (Nat.max 1 k) in
           (Ok (take m l), mkPC (set_in (pc_conn pc) (drop m l)) (peeked pc)
                             (match reader pc with RConn => RConn | RMulti _ => RMulti [] end))
    end in
  match reader pc with
  | RMulti (b :: u) =>
      (Ok (take n (b :: u)), mkPC (pc_conn pc) (peeked pc) (RMulti (drop n (b :: u))))
  | _ => from_conn
  end.

(** [Peek(n)]: the bytes are returned also with [ErrUnexpectedEOF]. *)
Definition Peek (n : nat) : PeekingConn → outcome io_err (list byte) * PeekingConn := fun pc =>
  if Nat.leb n (length (peeked pc)) then (Ok (take n (peeked pc)), pc)
  else
    let want := (n - length (peeked pc))%nat in
    let avail := c_in (pc_conn pc) in
    let read := take want avail in
    let '(r, c) := ReadFull want (pc_conn pc) in
    let pk := peeked pc ++ read in
    let pc := if Nat.eqb (length read) 0 then mkPC c (peeked pc) (reader pc)
              else mkPC c pk (RMulti pk) in
    match r with
    | Ok _ => (Ok (take n pk), pc)
    | Err EOF | Err ErrUnexpectedEOF => (Err ErrUnexpectedEOF, pc)
    | Err e => (Err e, pc)
    | Panic => (Panic, pc)
    end.

(** ** The ClientHello parser *)

(** [int(payload[i])<<8 | int(payload[i+1])] *)
Definition u16_at (payload : list byte) (i : nat) : outcome string nat :=
  hi ← sl_index (sl_of payload) i;
  lo ← sl_index (sl_of payload) (i + 1);
  Ok (Z.to_nat (be16 hi lo)).
Definition u8_at (payload : list byte) (i : nat) : outcome string nat :=
  b ← sl_index (sl_of payload) i; Ok (Z.to_nat (u8 b)).

(** The loop over the extensions; every round moves [offset] by four or more. *)
Fixpoint ext_loop (fuel : nat) (payload : list byte) (offset end_ : nat) : outcome string string :=
  match fuel with
  | O => Panic
  | S fuel =>
      if Nat.leb (offset + 4) end_ then
        extType ← u16_at payload offset;
        extLen ← u16_at payload (offset + 2);
        let offset := (offset + 4)%nat in
        if Nat.eqb extType 0 then
          if Nat.leb 5 extLen && Nat.leb (offset + 5) end_ then
            nameLen ← u16_at payload (offset + 3);
            if Nat.leb (offset + 5 + nameLen) end_ then
              name ← sl_sub (sl_of payload) (offset + 5) (offset + 5 + nameLen);
              Ok (of_bytes name)
            else Err "SNI not found"
          else Err "SNI not found"
        else ext_loop fuel payload (offset + extLen) end_
      else Err "SNI not found"
  end.

Definition extractSNIFromPayload (payload : list byte) : outcome string string :=
  let len := length payload in
  if Nat.ltb len 42 then Err "payload too short"
  else
    b0 ← u8_at payload 0;
    if negb (Nat.eqb b0 1) then Err "not a ClientHello message"
    else
      sessionIDLen ← u8_at payload 38;
      let offset := (39 + sessionIDLen)%nat in
      if Nat.ltb len (offset + 2) then Err "invalid ClientHello"
      else
        cipherSuitesLen ← u16_at payload offset;
        let offset := (offset + (2 + cipherSuitesLen))%nat in
        if Nat.ltb len (offset + 1) then Err "invalid ClientHello"
        else
          compressionMethodsLen ← u8_at payload offset;
          let offset := (offset + (1 + compressionMethodsLen))%nat in
          if Nat.ltb len (offset + 2) then Err "no extensions"
          else
            extensionsLen ← u16_at payload offset;
            let offset := (offset + 2)%nat in
            let end_ := Nat.min (offset + extensionsLen) len in
            ext_loop (S len) payload offset end_.

(** [sniffSNI]; errors of [Peek] are kept apart from those of the parser. *)
Definition sniffSNI : PeekingConn → outcome (io_err + string) string * PeekingConn := fun pc =>
  match Peek 5 pc with
  | (Panic, pc) => (Panic, pc)
  | (Err e, pc) => (Err (inl e), pc)
  | (Ok header, pc) =>
      if negb (Net.at_ header 0 =? 22) then (Err (inr "not a TLS handshake"), pc)
      else
        let length := Z.to_nat (Z.lor (Z.shiftl (Net.at_ header 3) 8) (Net.at_ header 4)) in
        if Nat.ltb (Z.to_nat 8192) length then (Err (inr "TLS record too large"), pc)
        else
          match Peek (5 + length) pc with
          | (Panic, pc) => (Panic, pc)
          | (Err e, pc) => (Err (inl e), pc)
          | (Ok payload, pc) =>
              match extractSNIFromPayload (drop 5 payload) with
              | Ok s => (Ok s, pc)
              | Err m => (Err (inr m), pc)
              | Panic => (Panic, pc)
              end
          end
  end.

(** ** The bytes later reads will see *)

Definition pending (pc : PeekingConn) : list byte :=
  match reader pc with
  | RConn => c_in (pc_conn pc)
  | RMulti u => u ++ c_in (pc_conn pc)
  end.

(** Nothing has been read through the wrapper yet: the buffer is what was taken
    from the connection. *)
Definition unread (s : list byte) (pc : PeekingConn) : Prop :=
  peeked pc ++ c_in (pc_conn pc) = s ∧ pending pc = s.

Lemma ReadFull_state n c :
  snd (ReadFull n c) = set_in c (drop n (c_in c)) ∧
  (fst (ReadFull n c) = Ok (take n (c_in c)) ∨ (length (c_in c) < n)%nat).
Proof.
  unfold ReadFull. destruct (Nat.leb_spec n (length (c_in c))); cbn; [by auto|].
  split; [by rewrite drop_ge by lia|by right].
Qed.

(** Peeking does not change what will be read, whatever it returns. *)
Lemma Peek_unread s n pc : unread s pc → unread s (snd (Peek n pc)).
Proof.
  intros [H1 H2]. unfold Peek. destruct (Nat.leb_spec n (length (peeked pc))); [done|].
  set (want := (n - length (peeked pc))%nat).
  destruct (ReadFull_state want (pc_conn pc)) as [Hc _].
  destruct (ReadFull want (pc_conn pc)) as [r c]. cbn [snd] in Hc. subst c.
  assert (unread s (if Nat.eqb (length (take want (c_in (pc_conn pc)))) 0
    then mkPC (set_in (pc_conn pc) (drop want (c_in (pc_conn pc)))) (peeked pc) (reader pc)
    else mkPC (set_in (pc_conn pc) (drop want (c_in (pc_conn pc))))
           (peeked pc ++ take want (c_in (pc_conn pc)))
           (RMulti (peeked pc ++ take want (c_in (pc_conn pc)))))) as Hu.
  { destruct (Nat.eqb_spec (length (take want (c_in (pc_conn pc)))) 0) as [E|E].
    - assert (drop want (c_in (pc_conn pc)) = c_in (pc_conn pc)) as Hd.
      { rewrite length_take in E. destruct (c_in (pc_conn pc)); [by rewrite drop_nil|].
        simpl in E. assert (want = 0%nat) as -> by lia. done. }
      rewrite Hd. by split.
    - split; cbn; by rewrite <- app_assoc, take_drop. }
  destruct r as [|[]|]; done.
Qed.

(** When the bytes are there, [Peek] returns the first of them. *)
Lemma Peek_ok s n pc :
  unread s pc → (n ≤ length s)%nat → fst (Peek n pc) = Ok (take n s).
Proof.
  intros [H1 H2] Hn. unfold Peek. destruct (Nat.leb_spec n (length (peeked pc))).
  - cbn. by rewrite <- H1, take_app_le.
  - destruct (ReadFull_state (n - length (peeked pc)) (pc_conn pc)) as [_ [Hr|Hl]].
    + destruct (ReadFull _ _) as [r c]. cbn [fst] in Hr. subst r. cbn [fst].
      rewrite <- H1, take_app. rewrite (take_ge (peeked pc)) by lia.
      rewrite take_app, (take_ge (peeked pc)) by lia. f_equal. f_equal.
      rewrite take_take, Nat.min_id. done.
    + rewrite <- H1, length_app in Hn. lia.
Qed.

Lemma NewPeekingConn_unread c : unread (c_in c) (NewPeekingConn c).
Proof. by split. Qed.

Lemma sniffSNI_unread c : unread (c_in c) (snd (sniffSNI (NewPeekingConn c))).
Proof.
  unfold sniffSNI. pose proof (Peek_unread _ 5 _ (NewPeekingConn_unread c)) as H5.
  destruct (Peek 5 (NewPeekingConn c)) as [[header|e|] pc]; cbn [snd] in *; [|done..].
  do 2 (case_match; [done|]).
  pose proof (Peek_unread _ (5 + Z.to_nat (Z.lor (Z.shiftl (Net.at_ header 3) 8)
    (Net.at_ header 4))) _ H5) as H6.
  destruct (Peek _ pc) as [[payload|e|] pc2]; cbn [snd] in *; [|done..].
  by destruct (extractSNIFromPayload (drop 5 payload)).
Qed.

(** How the connection ends is not changed by looking ahead. *)
Lemma Peek_end n pc : c_end (pc_conn (snd (Peek n pc))) = c_end (pc_conn pc).
Proof.
  unfold Peek. case_match; [done|].
  destruct (ReadFull_state (n - length (peeked pc)) (pc_conn pc)) as [Hc _].
  destruct (ReadFull _ _) as [r c]. cbn [snd] in Hc. subst c.
  repeat case_match; simplify_eq; done.
Qed.

Lemma sniffSNI_end c : c_end (pc_conn (snd (sniffSNI (NewPeekingConn c)))) = c_end c.
Proof.
  unfold sniffSNI. pose proof (Peek_end 5 (NewPeekingConn c)) as H5.
  change (c_end (pc_conn (NewPeekingConn c))) with (c_end c) in H5.
  destruct (Peek 5 (NewPeekingConn c)) as [[header|e|] pc]; cbn [snd] in *; [|done..].
  do 2 (case_match; [done|]).
  pose proof (Peek_end (5 + Z.to_nat (Z.lor (Z.shiftl (Net.at_ header 3) 8)
    (Net.at_ header 4))) pc) as H6.
  destruct (Peek _ pc) as [[payload|e|] pc2]; cbn [snd] in *; [|congruence..].
  destruct (extractSNIFromPayload (drop 5 payload)); cbn [snd]; congruence.
Qed.

(** ** Reading through the wrapper *)

(** A reader of the connection: it calls [Read] with buffers of the given sizes,
    [k] being what the network delivers at that call. *)
Fixpoint read_seq (szs : list (nat * nat)) (pc : PeekingConn)
    : list (outcome io_err (list byte)) * PeekingConn :=
  match szs with
  | [] => ([], pc)
  | (n, k) :: szs =>
      let '(r, pc) := Read n k pc in
      let '(rs, pc) := read_seq szs pc in (r :: rs, pc)
  end.

Definition delivered (rs : list (outcome io_err (list byte))) : list byte :=
  concat ((λ r, match r with Ok l => l | _ => [] end) <$> rs).

(** One [Read] takes bytes from the front of what is pending, at least one of
    them while there is one, and reports the end of the connection after that. *)
Lemma Read_step n k pc :
  (0 < n)%nat →
  c_end (pc_conn (snd (Read n k pc))) = c_end (pc_conn pc) ∧
  ((∃ l, fst (Read n k pc) = Ok l ∧ l ≠ [] ∧ pending pc = l ++ pending (snd (Read n k pc))) ∨
   (fst (Read n k pc) = Err (c_end (pc_conn pc)) ∧ pending pc = [] ∧
    pending (snd (Read n k pc)) = [])).
Proof.
  intros Hn.
  assert (∀ (b : byte) u m, (0 < m)%nat → take m (b :: u) ≠ [] ∧ b :: u = take m (b :: u) ++ drop m (b :: u))
    as Hcut by (intros b u [|m] ?; [lia|]; by rewrite take_drop).
  unfold Read, pending. destruct pc as [c pk [|[|b u]]]; cbn [reader pc_conn peeked].
  - destruct (c_in c) as [|b u] eqn:E; cbn [fst snd pc_conn reader]; [rewrite E; auto|].
    destruct (Hcut b u (Nat.min n (Nat.max 1 k))) as [? ?]; [lia|]. eauto 6.
  - destruct (c_in c) as [|b u] eqn:E; cbn [fst snd pc_conn reader app]; [rewrite E; auto|].
    destruct (Hcut b u (Nat.min n (Nat.max 1 k))) as [? ?]; [lia|]. eauto 6.
  - destruct (Hcut b u n) as [? Hd]; [lia|]. split; [done|]. left.
    exists (take n (b :: u)). cbn [fst snd pc_conn reader]. split; [done|]. split; [done|].
    by rewrite app_assoc, <- Hd.
Qed.

(** What a run of [Read]s returns. *)
Lemma read_seq_spec szs pc :
  Forall (λ s, (0 < fst s)%nat) szs →
  pending pc = delivered (fst (read_seq szs pc)) ++ pending (snd (read_seq szs pc)) ∧
  (∀ j r, fst (read_seq szs pc) !! j = Some r →
     (∃ l, r = Ok l ∧ l ≠ []) ∨
     (r = Err (c_end (pc_conn pc)) ∧ delivered (take j (fst (read_seq szs pc))) = pending pc)) ∧
  (length szs ≤ length (delivered (fst (read_seq szs pc))) ∨
   delivered (fst (read_seq szs pc)) = pending pc)%nat.
Proof.
  intros H. revert pc. induction H as [|[n k] szs Hn _ IH]; intros pc; cbn [read_seq].
  { cbn. split; [done|]. split; [done|lia]. }
  destruct (Read_step n k pc Hn) as [He Hs]. cbn [fst] in Hn.
  destruct (Read n k pc) as [r pc1]. cbn [fst snd] in *. specialize (IH pc1).
  destruct (read_seq szs pc1) as [rs pc2]. cbn [fst snd] in *.
  unfold delivered in *. cbn [fmap list_fmap concat]. destruct IH as (Hp & Hj & Hlen).
  destruct Hs as [(l & -> & Hl & E)|(-> & E & E1)].
  - rewrite E, <- app_assoc, <- Hp. split; [done|]. split.
    + intros [|j] r Hr; cbn in Hr; [simplify_eq; eauto|].
      destruct (Hj j r Hr) as [?|[-> Hd]]; [by left|right]. rewrite <- He, <- Hd. by split.
    + rewrite length_app. destruct Hlen as [Hlen| ->]; [left|by right].
      destruct l; [done|]. cbn [length]. lia.
  - rewrite E1 in *. rewrite E in *. symmetry in Hp. apply app_eq_nil in Hp as [Hd Hp].
    cbn [app]. rewrite Hd, Hp. split; [done|]. split; [|by right].
    intros [|j] r Hr; cbn in Hr; [simplify_eq; by right|].
    destruct (Hj j r Hr) as [?|[-> Hd']]; [by left|right]. rewrite <- He. by split.
Qed.

(** C34. Sniffing is transparent.  Whatever [sniffSNI] finds or fails with,
    whatever the client sent and however the later calls of [Read] cut it (any
    buffer sizes other than 0, any amount delivered by the network at a call): put
    together, what they return is the stream the client sent, from its first byte
    on.  Every call returns at least one further byte, or the error the connection
    ends with, and that only after the whole stream; as many calls as the stream
    has bytes have returned all of it. *)
Theorem sniffSNI_transparent c szs :
  let rs := fst (read_seq szs (snd (sniffSNI (NewPeekingConn c)))) in
  Forall (λ s, (0 < fst s)%nat) szs →
  delivered rs `prefix_of` c_in c ∧
  (∀ j r, rs !! j = Some r →
     (∃ l, r = Ok l ∧ l ≠ []) ∨ (r = Err (c_end c) ∧ delivered (take j rs) = c_in c)) ∧
  (length (c_in c) ≤ length szs → delivered rs = c_in c)%nat.
Proof.
  intros rs H. destruct (sniffSNI_unread c) as [_ Hu].
  destruct (read_seq_spec szs (snd (sniffSNI (NewPeekingConn c))) H) as (Hp & Hj & Hlen). fold rs in Hp, Hj, Hlen.
  rewrite Hu, ?sniffSNI_end in *. split; [by eexists|]. split; [done|].
  intros Hl. destruct Hlen as [Hlen|]; [|done]. rewrite Hp at 1.
  destruct (pending (snd (read_seq szs (snd (sniffSNI (NewPeekingConn c)))))) as [|x q];
    [by rewrite app_nil_r|].
  apply (f_equal length) in Hp. rewrite length_app in Hp. cbn [length] in Hp. lia.
Qed.

Lemma sniffSNI_transparent_witness :
  let c := mkConn (bytes [22; 3; 1; 0; 2; 7; 8; 9]) EOF [] 0 false false in
  delivered (fst (read_seq [(3, 1); (9, 1); (2, 5); (4, 4); (4, 4); (1, 1); (1, 1); (1, 1)]%nat
    (snd (sniffSNI (NewPeekingConn c))))) = c_in c.
Proof.
  intros c. apply (sniffSNI_transparent c); [repeat (constructor; [cbn; lia|]); constructor|].
  cbn. lia.
Defined.

(** ** Safety and termination of the parser *)

Lemma u8_at_ok payload i : (i < length payload)%nat → ∃ n, u8_at payload i = Ok n.
Proof.
  intros H. unfold u8_at. destruct (lookup_lt_is_Some_2 payload i H) as [b Hb].
  rewrite (sl_index_of _ i b) by done. eexists. done.
Qed.

Lemma u16_at_ok payload i : (i + 1 < length payload)%nat → ∃ n, u16_at payload i = Ok n.
Proof.
  intros H. unfold u16_at. destruct (lookup_lt_is_Some_2 payload i) as [b Hb]; [lia|].
  destruct (lookup_lt_is_Some_2 payload (i + 1)) as [b' Hb']; [lia|].
  rewrite (sl_index_of _ i b), (sl_index_of _ (i + 1) b') by done. eexists. done.
Qed.

Lemma ext_loop_no_panic fuel payload offset end_ :
  (end_ ≤ length payload)%nat → (end_ < offset + fuel)%nat → (0 < fuel)%nat →
  is_panic (ext_loop fuel payload offset end_) = false.
Proof.
  revert offset. induction fuel as [|fuel IH]; intros offset He Hf H0; [lia|]. cbn [ext_loop].
  destruct (Nat.leb_spec (offset + 4) end_); [|done].
  destruct (u16_at_ok payload offset) as [t ->]; [lia|].
  destruct (u16_at_ok payload (offset + 2)) as [l ->]; [lia|]. cbn [mbind outcome_bind].
  destruct (Nat.eqb t 0).
  - destruct (Nat.leb_spec 5 l), (Nat.leb_spec (offset + 4 + 5) end_); cbn [andb]; try done.
    destruct (u16_at_ok payload (offset + 4 + 3)) as [nl ->]; [lia|]. cbn [mbind outcome_bind].
    destruct (Nat.leb_spec (offset + 4 + 5 + nl) end_); [|done].
    by rewrite sl_sub_ok by (cbn; lia).
  - apply IH; lia.
Qed.

(** C35. Safety.  The ClientHello parser returns on every input: no index or slice
    is out of range and the loop over the extensions ends, whatever lengths an
    attacker writes into the message. *)
Theorem extractSNI_no_panic payload : is_panic (extractSNIFromPayload payload) = false.
Proof.
  unfold extractSNIFromPayload. destruct (Nat.ltb_spec (length payload) 42); [done|].
  destruct (u8_at_ok payload 0) as [b0 ->]; [lia|]. cbn [mbind outcome_bind].
  case_match; [done|]. destruct (u8_at_ok payload 38) as [sid ->]; [lia|]. cbn [mbind outcome_bind].
  destruct (Nat.ltb_spec (length payload) (39 + sid + 2)); [done|].
  destruct (u16_at_ok payload (39 + sid)) as [cs ->]; [lia|]. cbn [mbind outcome_bind].
  destruct (Nat.ltb_spec (length payload) (39 + sid + (2 + cs) + 1)); [done|].
  destruct (u8_at_ok payload (39 + sid + (2 + cs))) as [cm ->]; [lia|]. cbn [mbind outcome_bind].
  destruct (Nat.ltb_spec (length payload) (39 + sid + (2 + cs) + (1 + cm) + 2)); [done|].
  destruct (u16_at_ok payload (39 + sid + (2 + cs) + (1 + cm))) as [el ->]; [lia|].
  cbn [mbind outcome_bind]. apply ext_loop_no_panic; lia.
Qed.

(** ** Finding the name *)

Definition enc_ext (e : Z * list byte) : list byte :=
  put16 (fst e) ++ put16 (Z.of_nat (length (snd e))) ++ snd e.
Definition enc_exts (es : list (Z * list byte)) : list byte := concat (enc_ext <$> es).
Definition ext_ok (e : Z * list byte) : Prop :=
  0 < fst e < 65536 ∧ Z.of_nat (length (snd e)) < 65536.

(** The body of a server_name extension: list length, name type, name. *)
Definition sni_body (ll : list byte) (ty : byte) (name : string) (more : list byte) : list byte :=
  ll ++ [ty] ++ put16 (Z.of_nat (slen name)) ++ to_bytes name ++ more.

(** Its extension type is 0. *)
Definition sni_ext (ll : list byte) (ty : byte) (name : string) (more : list byte)
    : Z * list byte := (0, sni_body ll ty name more).

(** A ClientHello: type and the 37 bytes up to the session id, session id, cipher
    suites, compression methods, extensions. *)
Definition client_hello (hd sid cs comp ext : list byte) : list byte :=
  ([mk8 1] ++ hd) ++ [mk8 (Z.of_nat (length sid))] ++ sid ++
  put16 (Z.of_nat (length cs)) ++ cs ++ [mk8 (Z.of_nat (length comp))] ++ comp ++
  put16 (Z.of_nat (length ext)) ++ ext.

Lemma u16_at_app l1 z l2 i :
  i = length l1 → 0 ≤ z < 65536 → u16_at (l1 ++ put16 z ++ l2) i = Ok (Z.to_nat z).
Proof.
  intros -> Hz. unfold u16_at, put16.
  rewrite (sl_index_of _ (length l1) (mk8 (Z.shiftr z 8)))
    by (rewrite lookup_app_r, Nat.sub_diag by lia; done).
  rewrite (sl_index_of _ (length l1 + 1) (mk8 z)).
  2:{ rewrite lookup_app_r by lia. by replace (length l1 + 1 - length l1)%nat with 1%nat by lia. }
  cbn [mbind outcome_bind]. rewrite (be16_put16 z) by done.
  unfold wrap16. by rewrite Z.mod_small by lia.
Qed.

Lemma u8_at_app l1 z l2 i :
  i = length l1 → 0 ≤ z < 256 → u8_at (l1 ++ [mk8 z] ++ l2) i = Ok (Z.to_nat z).
Proof.
  intros -> Hz. unfold u8_at.
  rewrite (sl_index_of _ (length l1) (mk8 z)) by (rewrite lookup_app_r, Nat.sub_diag by lia; done).
  cbn [mbind outcome_bind]. by rewrite u8_mk8_small by lia.
Qed.

Lemma length_enc_ext e : length (enc_ext e) = (4 + length (snd e))%nat.
Proof. unfold enc_ext. by rewrite !length_app. Qed.

(** The header of an extension. *)
Lemma u16_at_ext P e X :
  0 ≤ fst e < 65536 → Z.of_nat (length (snd e)) < 65536 →
  u16_at (P ++ enc_ext e ++ X) (length P) = Ok (Z.to_nat (fst e)) ∧
  u16_at (P ++ enc_ext e ++ X) (length P + 2) = Ok (length (snd e)).
Proof.
  intros Ht Hl. unfold enc_ext. rewrite <- !app_assoc. split; [by apply u16_at_app|].
  rewrite (app_assoc P (put16 (fst e))).
  rewrite u16_at_app by (rewrite ?length_app; cbn; lia). by rewrite Nat2Z.id.
Qed.

(** Foreign extensions are skipped. *)
Lemma ext_loop_skip es fuel P rest end_ :
  Forall ext_ok es →
  (length P + length (enc_exts es) ≤ end_)%nat → (end_ < length P + fuel)%nat →
  ∃ fuel', (end_ < length (P ++ enc_exts es) + fuel')%nat ∧ (0 < fuel' ∨ fuel' = fuel)%nat ∧
  ext_loop fuel (P ++ enc_exts es ++ rest) (length P) end_ =
  ext_loop fuel' ((P ++ enc_exts es) ++ rest) (length (P ++ enc_exts es)) end_.
Proof.
  intros Hes. revert fuel P. induction Hes as [|[t b] es [Ht Hb] Hes IH]; intros fuel P He Hf.
  - exists fuel. unfold enc_exts. cbn [fmap list_fmap concat]. rewrite app_nil_r. auto.
  - change (enc_exts ((t, b) :: es)) with (enc_ext (t, b) ++ enc_exts es) in *.
    rewrite length_app, length_enc_ext in He. cbn [fst snd] in *.
    destruct fuel as [|fuel]; [lia|].
    destruct (IH fuel (P ++ enc_ext (t, b))) as (f' & Hf' & Hor & Heq).
    { rewrite length_app, length_enc_ext. cbn [snd]. lia. }
    { rewrite length_app, length_enc_ext. cbn [snd]. lia. }
    rewrite <- !app_assoc in *. exists f'. split; [done|]. split.
    { destruct Hor as [?| ->]; [by left|]. left. rewrite !length_app, length_enc_ext in Hf'.
      cbn [snd] in *. lia. }
    rewrite <- Heq. cbn [ext_loop]. rewrite (proj2 (Nat.leb_le _ _)) by lia.
    destruct (u16_at_ext P (t, b) (enc_exts es ++ rest)) as [-> ->]; [cbn; lia|done|].
    cbn [mbind outcome_bind fst snd]. rewrite (proj2 (Nat.eqb_neq _ _)) by lia.
    f_equal. rewrite length_app, length_enc_ext. cbn [snd]. lia.
Qed.

(** The server_name extension gives the name. *)
Lemma ext_loop_sni P ll ty name more rest fuel end_ :
  length ll = 2%nat → Z.of_nat (length (sni_body ll ty name more)) < 65536 → (0 < fuel)%nat →
  (length P + length (enc_ext (sni_ext ll ty name more)) ≤ end_)%nat →
  ext_loop fuel (P ++ enc_ext (sni_ext ll ty name more) ++ rest) (length P) end_ = Ok name.
Proof.
  intros Hll Hb Hf He. destruct fuel as [|fuel]; [lia|]. cbn [ext_loop].
  rewrite length_enc_ext in He. cbn [snd sni_ext] in He.
  assert (length (sni_body ll ty name more) = (5 + slen name + length more)%nat) as Hlb
    by (unfold sni_body; rewrite !length_app, length_to_bytes; cbn; lia).
  rewrite (proj2 (Nat.leb_le _ _)) by lia.
  destruct (u16_at_ext P (sni_ext ll ty name more) rest) as [-> ->]; [cbn; lia|done|].
  cbn [mbind outcome_bind fst snd sni_ext Z.to_nat Nat.eqb].
  rewrite (proj2 (Nat.leb_le 5 _)), (proj2 (Nat.leb_le (_ + 5) _)) by lia. cbn [andb].
  set (n := Z.of_nat (length (sni_body ll ty name more))).
  set (Q := P ++ put16 0 ++ put16 n ++ ll ++ [ty]).
  assert (length Q = (length P + 4 + 3)%nat) as HQ by (unfold Q; rewrite !length_app; cbn; lia).
  replace (P ++ enc_ext (sni_ext ll ty name more) ++ rest)
    with (Q ++ put16 (Z.of_nat (slen name)) ++ to_bytes name ++ more ++ rest)
    by (unfold Q, enc_ext; cbn [fst snd sni_ext]; fold n; unfold sni_body; by rewrite <- !app_assoc).
  rewrite u16_at_app by lia. cbn [mbind outcome_bind]. rewrite Nat2Z.id.
  rewrite (proj2 (Nat.leb_le _ end_)) by lia. rewrite (app_assoc Q).
  unfold sl_of. rewrite (sl_sub_app (Q ++ put16 (Z.of_nat (slen name))));
    [|rewrite length_app; cbn; lia|rewrite length_app, length_to_bytes; cbn; lia].
  cbn [mbind outcome_bind]. by rewrite of_to_bytes.
Qed.

Section Hello.
Context (hd sid cs comp ext : list byte).
Context (Hhd : length hd = 37%nat) (Hsid : (length sid < 256)%nat)
        (Hcs : Z.of_nat (length cs) < 65536) (Hcomp : (length comp < 256)%nat)
        (Hext : Z.of_nat (length ext) < 65536).

(** The fixed part: the parser reaches the extensions. *)
Lemma extractSNI_hello P :
  client_hello hd sid cs comp ext = P ++ ext → (42 ≤ length P)%nat →
  extractSNIFromPayload (client_hello hd sid cs comp ext) =
  ext_loop (S (length (P ++ ext))) (P ++ ext) (length P) (length (P ++ ext)).
Proof.
  intros EP HP. unfold extractSNIFromPayload.
  assert (length P = (44 + length sid + length cs + length comp)%nat) as HlP.
  { apply (f_equal length) in EP. unfold client_hello in EP.
    rewrite !length_app in EP. cbn in EP. lia. }
  rewrite (proj2 (Nat.ltb_ge _ 42)) by (rewrite EP, length_app; lia).
  assert (∀ i z X Y, client_hello hd sid cs comp ext = X ++ [mk8 z] ++ Y → i = length X →
    0 ≤ z < 256 → u8_at (client_hello hd sid cs comp ext) i = Ok (Z.to_nat z)) as H8
    by (intros i z X Y -> -> ?; by apply u8_at_app).
  assert (∀ i z X Y, client_hello hd sid cs comp ext = X ++ put16 z ++ Y → i = length X →
    0 ≤ z < 65536 → u16_at (client_hello hd sid cs comp ext) i = Ok (Z.to_nat z)) as H16
    by (intros i z X Y -> -> ?; by apply u16_at_app).
  rewrite (H8 0%nat 1 [] (hd ++ [mk8 (Z.of_nat (length sid))] ++ sid ++
    put16 (Z.of_nat (length cs)) ++ cs ++ [mk8 (Z.of_nat (length comp))] ++ comp ++
    put16 (Z.of_nat (length ext)) ++ ext)) by (done || lia).
  cbn [mbind outcome_bind Z.to_nat Pos.to_nat Pos.iter_op Nat.eqb negb].
  rewrite (H8 38%nat (Z.of_nat (length sid)) ([mk8 1] ++ hd) _ eq_refl)
    by (cbn; lia). cbn [mbind outcome_bind]. rewrite Nat2Z.id.
  rewrite (proj2 (Nat.ltb_ge _ (39 + _ + 2))) by (rewrite EP, length_app; lia).
  erewrite (H16 _ (Z.of_nat (length cs)) (([mk8 1] ++ hd) ++ [mk8 (Z.of_nat (length sid))] ++ sid));
    [|by (unfold client_hello; rewrite <- !app_assoc; reflexivity)
     |rewrite !length_app; cbn; lia|lia].
  cbn [mbind outcome_bind]. rewrite Nat2Z.id.
  rewrite (proj2 (Nat.ltb_ge _ (_ + 1))) by (rewrite EP, length_app; lia).
  erewrite (H8 _ (Z.of_nat (length comp)) (([mk8 1] ++ hd) ++ [mk8 (Z.of_nat (length sid))] ++ sid ++
    put16 (Z.of_nat (length cs)) ++ cs));
    [|by (unfold client_hello; rewrite <- !app_assoc; reflexivity)
     |rewrite !length_app; cbn; lia|lia].
  cbn [mbind outcome_bind]. rewrite Nat2Z.id.
  rewrite (proj2 (Nat.ltb_ge _ (_ + (1 + _) + 2))) by (rewrite EP, length_app; lia).
  erewrite (H16 _ (Z.of_nat (length ext)) (([mk8 1] ++ hd) ++ [mk8 (Z.of_nat (length sid))] ++ sid ++
    put16 (Z.of_nat (length cs)) ++ cs ++ [mk8 (Z.of_nat (length comp))] ++ comp));
    [|by (unfold client_hello; rewrite <- !app_assoc; reflexivity)
     |rewrite !length_app; cbn; lia|lia].
  cbn [mbind outcome_bind]. rewrite Nat2Z.id, EP.
  f_equal; [lia|]. rewrite length_app. lia.
Qed.
End Hello.

(** C36. The name is found.  In a ClientHello with any session id, cipher suites
    and compression methods, the parser returns the host name of the
    server_name extension, whatever other extensions come before and after
    it. *)
Theorem extractSNI_finds hd sid cs comp before ll ty name more after :
  length hd = 37%nat → (length sid < 256)%nat → Z.of_nat (length cs) < 65536 →
  (length comp < 256)%nat → Forall ext_ok before → length ll = 2%nat →
  Z.of_nat (length (sni_body ll ty name more)) < 65536 →
  Z.of_nat (length (enc_exts before ++ enc_ext (sni_ext ll ty name more) ++ after)) < 65536 →
  extractSNIFromPayload (client_hello hd sid cs comp
    (enc_exts before ++ enc_ext (sni_ext ll ty name more) ++ after)) = Ok name.
Proof.
  intros Hhd Hsid Hcs Hcomp Hb Hll Hbody Hext.
  set (ext := enc_exts before ++ _) in *.
  set (P := ([mk8 1] ++ hd) ++ [mk8 (Z.of_nat (length sid))] ++ sid ++
    put16 (Z.of_nat (length cs)) ++ cs ++ [mk8 (Z.of_nat (length comp))] ++ comp ++
    put16 (Z.of_nat (length ext))).
  rewrite (extractSNI_hello hd sid cs comp ext) with (P := P); [|done..| |].
  2:{ unfold client_hello, P. by rewrite <- !app_assoc. }
  2:{ unfold P. rewrite !length_app. cbn. lia. }
  unfold ext. destruct (ext_loop_skip before (S (length (P ++ ext))) P
    (enc_ext (sni_ext ll ty name more) ++ after) (length (P ++ ext))) as (f & Hf & Hor & Heq);
    [done|unfold ext; rewrite !length_app; lia|lia|].
  unfold ext in Heq. rewrite Heq. apply ext_loop_sni; [done|done|lia|].
  unfold ext. rewrite !length_app. lia.
Qed.

Lemma extractSNI_finds_witness :
  extractSNIFromPayload (client_hello (replicate 37 (mk8 0)) (bytes [1; 2]) (bytes [19; 1])
    (bytes [0]) (enc_exts [(11, bytes [1; 0])] ++
      enc_ext (sni_ext (bytes [0; 14]) (mk8 0) "example.com" []) ++ bytes [])) = Ok "example.com".
Proof.
  apply extractSNI_finds; try (vm_compute; lia || done).
  repeat constructor; cbn; lia.
Defined.

End Sni.
