(* ===== verification/ServerManager.v ===== *)
(** * Upstream servers ([src/internal/servermanager.go])

    [SM] is the struct; the methods that take the lock are functions on it, a nil
    receiver being [None] where the source tests for it.  [testServers] releases
    the lock between its snapshot, its probes and its commit, so it is also a
    small state machine ([tpc], [ts_step]) whose steps interleave with the other
    methods in [sm_step]; its goroutines are the list [pcs].  Probing dials the
    network: the answer is a parameter, a connection with the bytes the peer
    would send.  Time is in nanoseconds; the zero [time.Time] is [None]. *)

From S2P Require Import Prelude GoStrings GoNet GoIO GoUrl.

Module ServerManager.

Record SM := mkSM {
  servers : list string;
  selfPorts : list Z;
  activeServer : string;
  lastSuccess : option Z;
  testInterval : Z;
  stopped : bool
}.

Definition NewServerManager (servers : list string) (testInterval : Z) : SM :=
  mkSM servers [] "" None testInterval false.

(** [Stop]: closing the channel once. *)
Definition Stop (sm : SM) : SM :=
  mkSM (servers sm) (selfPorts sm) (activeServer sm) (lastSuccess sm) (testInterval sm) true.

Definition GetBestServer (sm : option SM) : string :=
  match sm with None => "" | Some sm => activeServer sm end.
Definition HasWorkingServer (sm : option SM) : bool :=
  match sm with None => false | Some sm => negb (String.eqb (activeServer sm) "") end.
Definition GetServers (sm : option SM) : list string :=
  match sm with None => [] | Some sm => servers sm end.

(** The state change of [UpdateServers]; it also starts a [testServers]. *)
Definition UpdateServers (sm : SM) (newServers : list string) : SM :=
  mkSM newServers (selfPorts sm) (activeServer sm) (lastSuccess sm) (testInterval sm) (stopped sm).

(** The new state, and whether a [testServers] is started. *)
Definition ReportFailure (sm : SM) (addr : string) : SM * bool :=
  if String.eqb (activeServer sm) addr then
    (mkSM (servers sm) (selfPorts sm) "" None (testInterval sm) (stopped sm), true)
  else (sm, false).

Definition ReportSuccess (sm : SM) (now : Z) (addr : string) : SM :=
  if String.eqb (activeServer sm) addr then
    mkSM (servers sm) (selfPorts sm) (activeServer sm) (Some now) (testInterval sm) (stopped sm)
  else sm.

Definition SetSelfPorts (sm : SM) (ports : list Z) : SM :=
  mkSM (servers sm) ports (activeServer sm) (lastSuccess sm) (testInterval sm) (stopped sm).

(** [isLoopbackUpstream] and the same test inside [IsSelfUpstream]. *)
Definition isLoopbackUpstream (host : string) : bool :=
  String.eqb host "localhost" ||
  match Net.ParseIP host with Some x => Net.IsLoopback x | None => false end.

Definition default_port (scheme : string) : string :=
  if String.eqb scheme "http" then "80"
  else if String.eqb scheme "socks5" then "1080"
  else if String.eqb scheme "tproxy" then "10080"
  else "".

Definition IsSelfUpstream (sm : SM) (addr : string) : bool :=
  if Nat.eqb (length (selfPorts sm)) 0 then false
  else
    match Url.Parse addr with
    | None => false
    | Some u =>
        if negb (isLoopbackUpstream (Url.Hostname u)) then false
        else
          let portStr := if String.eqb (Url.Port u) "" then default_port (Url.Scheme u)
                         else Url.Port u in
          let port := fst (Strconv.Atoi portStr) in
          existsb (fun sp => (0 <? sp) && (sp =? port)) (selfPorts sm)
    end.

(** ** Probing *)

(** The address that is dialled and the scheme. *)
Definition probe_addr (addr : string) : string * string :=
  match Url.Parse addr with
  | Some u =>
      if String.eqb (Url.Host u) "" then (addr, "")
      else
        let port :=
          if Strings.Contains (Url.Host u) ":" then ""
          else if String.eqb (Url.Scheme u) "http" then ":80"
          else if String.eqb (Url.Scheme u) "https" then ":443"
          else if String.eqb (Url.Scheme u) "socks5" then ":1080"
          else if String.eqb (Url.Scheme u) "tproxy" then ":10080"
          else "" in
        (Url.Host u +:+ port, Url.Scheme u)
  | None => (addr, "")
  end.

(** The greeting exchanged with a SOCKS5 server. *)
Definition socks5_hello : io unit :=
  _ ← SetDeadline true;
  _ ← Write (bytes [5; 1; 0]);
  resp ← wrap "invalid SOCKS5 response" (ReadFull 2);
  if Net.at_ resp 0 =? 5 then mret tt else throw (ErrText "invalid SOCKS5 response").

(** Is the server usable?  [dial] answers the dialled address. *)
Definition probe (dial : string → option conn) (addr : string) : bool :=
  let '(dialAddr, scheme) := probe_addr addr in
  match dial dialAddr with
  | None => false
  | Some c => if String.eqb scheme "socks5" then is_ok (fst (socks5_hello c)) else true
  end.

(** ** [testServers] as a state machine *)

Inductive tpc :=
| TStart
| TProbe (todo : list string)
| TCommit (found : string)
| TDone.

(** Skip the probe: an active server was used recently. *)
Definition recently_used (sm : SM) (now : Z) : bool :=
  negb (String.eqb (activeServer sm) "") &&
  match lastSuccess sm with Some t => now - t <? testInterval sm | None => false end.

Definition set_active (sm : SM) (a : string) : SM :=
  mkSM (servers sm) (selfPorts sm) a (lastSuccess sm) (testInterval sm) (stopped sm).

(** One step of a goroutine at time [now]; [dial] is what the network answers. *)
Definition ts_step (dial : string → option conn) (now : Z) (sm : SM) (pc : tpc) : SM * tpc :=
  match pc with
  | TStart =>
      if recently_used sm now then (sm, TDone)
      else if Nat.eqb (length (servers sm)) 0 then (sm, TDone)
      else (sm, TProbe (servers sm))
  | TProbe [] => (sm, TCommit "")
  | TProbe (addr :: todo) =>
      if IsSelfUpstream sm addr then (sm, TProbe todo)
      else if probe dial addr then (sm, TCommit addr)
      else (sm, TProbe todo)
  | TCommit found => (set_active sm found, TDone)
  | TDone => (sm, TDone)
  end.

(** A call that runs alone; every address takes one round. *)
Fixpoint ts_run (fuel : nat) (dial : string → option conn) (now : Z) (sm : SM) (pc : tpc) : SM :=
  match fuel with
  | O => sm
  | S fuel =>
      match pc with
      | TDone => sm
      | _ => let '(sm, pc) := ts_step dial now sm pc in ts_run fuel dial now sm pc
      end
  end.

Definition testServers (dial : string → option conn) (now : Z) (sm : SM) : SM :=
  ts_run (length (servers sm) + 4) dial now sm TStart.

(** ** The manager as a system of goroutines *)

Record sys := mkSys { st : SM; pcs : list tpc }.

Inductive sm_step : sys → sys → Prop :=
| step_update s l :
    sm_step s (mkSys (UpdateServers (st s) l) (pcs s ++ [TStart]))
| step_success s now a :
    sm_step s (mkSys (ReportSuccess (st s) now a) (pcs s))
| step_failure s a sm' b :
    ReportFailure (st s) a = (sm', b) →
    sm_step s (mkSys sm' (pcs s ++ if (b : bool) then [TStart] else []))
| step_tick s :
    stopped (st s) = false → sm_step s (mkSys (st s) (pcs s ++ [TStart]))
| step_stop s : sm_step s (mkSys (Stop (st s)) (pcs s))
| step_test s i pc dial now sm' pc' :
    pcs s !! i = Some pc → ts_step dial now (st s) pc = (sm', pc') →
    sm_step s (mkSys sm' (<[i := pc']> (pcs s))).

(** ** Properties *)

(** The first server of the list that is not this program and answers. *)
Definition first_usable (dial : string → option conn) (sm : SM) (l : list string) : string :=
  default "" (find (fun a => negb (IsSelfUpstream sm a) && probe dial a) l).

Lemma ts_run_probe dial now sm todo fuel :
  (length todo + 2 < fuel)%nat →
  ts_run fuel dial now sm (TProbe todo) = set_active sm (first_usable dial sm todo).
Proof.
  revert fuel. induction todo as [|a todo IH]; intros fuel Hf.
  - do 3 (destruct fuel as [|fuel]; [simpl in Hf; lia|]). reflexivity.
  - destruct fuel as [|fuel]; [lia|]. cbn [ts_run ts_step].
    unfold first_usable. cbn [find].
    destruct (IsSelfUpstream sm a); cbn [negb andb]; [apply IH; simpl in Hf; lia|].
    destruct (probe dial a); [|apply IH; simpl in Hf; lia].
    do 2 (destruct fuel as [|fuel]; [simpl in Hf; lia|]). reflexivity.
Qed.

Lemma testServers_alone dial now sm :
  testServers dial now sm =
  if recently_used sm now || Nat.eqb (length (servers sm)) 0 then sm
  else set_active sm (first_usable dial sm (servers sm)).
Proof.
  unfold testServers. replace (length (servers sm) + 4)%nat
    with (S (length (servers sm) + 3)) by lia. cbn [ts_run ts_step].
  destruct (recently_used sm now); cbn [orb]; [by destruct (length (servers sm))|].
  destruct (Nat.eqb _ 0); [by destruct (length (servers sm))|].
  apply ts_run_probe. lia.
Qed.

(** Functional.  A [testServers] that runs alone terminates within its
    bound; it changes nothing when the active server was used within the test
    interval or when there are no servers, and otherwise makes the first
    configured server active that does not point back to this program and that
    answers the probe, or clears the active server when there is none. *)
Theorem testServers_functional dial now sm :
  testServers dial now sm =
  if recently_used sm now || Nat.eqb (length (servers sm)) 0 then sm
  else set_active sm (first_usable dial sm (servers sm)).
Proof. apply testServers_alone. Qed.

(** *** Starting

    Start returns after a probe, StartAsync leaves it to a goroutine; both leave the
    goroutine that probes on every tick until the manager is stopped ([step_tick]). *)

Definition Start (dial : string → option conn) (now : Z) (s : sys) : sys := mkSys (testServers dial now (st s)) (pcs s).
Definition StartAsync (s : sys) : sys := mkSys (st s) (pcs s ++ [TStart]).

(** The goroutine [i], left alone, until its call returns. *)
Lemma ts_run_steps dial now fuel : ∀ s i pc, pcs s !! i = Some pc → ∃ pc', rtc sm_step s (mkSys (ts_run fuel dial now (st s) pc) (<[i := pc']> (pcs s))).
Proof.
  assert (∀ s i pc, pcs s !! i = Some pc → rtc sm_step s (mkSys (st s) (<[i := pc]> (pcs s)))) as Hstay.
  { intros [sm l] i pc Hi. cbn in *. by rewrite list_insert_id. }
  induction fuel as [|fuel IH]; intros s i pc Hi; [exists pc; by apply Hstay|].
  destruct (match pc with TDone => true | _ => false end) eqn:Hd; [destruct pc; try done; exists TDone; by apply Hstay|].
  destruct (ts_step dial now (st s) pc) as [sm1 pc1] eqn:E.
  assert (ts_run (S fuel) dial now (st s) pc = ts_run fuel dial now sm1 pc1) as -> by (destruct pc; [..|done]; cbn [ts_run]; by rewrite E).
  destruct (IH (mkSys sm1 (<[i := pc1]> (pcs s))) i pc1) as [pc' Hr].
  { apply list_lookup_insert_eq. by eapply lookup_lt_Some. }
  exists pc'. cbn in Hr. rewrite list_insert_insert_eq in Hr. eapply rtc_l; [by eapply step_test|done].
Qed.

(** StartAsync returns at once with the server it had; once its goroutine is done, if
    nothing else happens, the manager is where Start leaves it: if it was never used
    and has servers, at the first usable one. *)
Lemma StartAsync_reaches_Start dial now s :
  GetBestServer (Some (st (StartAsync s))) = GetBestServer (Some (st s)) ∧
  (∃ pcs', rtc sm_step (StartAsync s) (mkSys (st (Start dial now s)) pcs')) ∧
  (activeServer (st s) = "" → servers (st s) ≠ [] → activeServer (st (Start dial now s)) = first_usable dial (st s) (servers (st s))).
Proof.
  split; [done|]. split.
  - destruct (ts_run_steps dial now (length (servers (st s)) + 4) (StartAsync s) (length (pcs s)) TStart) as [pc' H]; [|by eexists].
    cbn. by rewrite lookup_app_r, Nat.sub_diag by lia.
  - intros Ha Hn. cbn. rewrite testServers_alone. unfold recently_used. rewrite Ha. by destruct (servers (st s)).
Qed.

(** What every goroutine of a system respects while the own ports are fixed. *)
Definition not_self (ports : list Z) (a : string) : Prop :=
  a = "" ∨ ∀ sm, selfPorts sm = ports → IsSelfUpstream sm a = false.

Record sys_inv (ports : list Z) (s : sys) : Prop := {
  inv_ports : selfPorts (st s) = ports;
  inv_active : not_self ports (activeServer (st s));
  inv_pcs : ∀ a, TCommit a ∈ pcs s → not_self ports a
}.

Lemma IsSelfUpstream_ports sm sm' a :
  selfPorts sm = selfPorts sm' → IsSelfUpstream sm a = IsSelfUpstream sm' a.
Proof. intros H. unfold IsSelfUpstream. by rewrite H. Qed.

Lemma ts_step_inv ports dial now s i pc sm' pc' :
  sys_inv ports s → pcs s !! i = Some pc → ts_step dial now (st s) pc = (sm', pc') →
  selfPorts sm' = ports ∧ not_self ports (activeServer sm') ∧
  (∀ a, pc' = TCommit a → not_self ports a).
Proof.
  intros [Hp Ha Hc] Hi. destruct pc as [|[|a todo]|found|]; cbn [ts_step].
  - intros H. crush_match.
  - intros [= <- <-]. split; [done|]. split; [done|]. intros a [= <-]. by left.
  - destruct (IsSelfUpstream (st s) a) eqn:E; [by intros [= <- <-]|].
    destruct (probe dial a); intros [= <- <-]; [|done].
    split; [done|]. split; [done|]. intros b [= <-]. right.
    intros sm Hsm. rewrite <- E. apply IsSelfUpstream_ports. congruence.
  - intros [= <- <-]. split; [done|]. split; [|done]. cbn. apply Hc.
    by eapply list_elem_of_lookup_2.
  - by intros [= <- <-].
Qed.

Lemma sys_inv_step ports s s' : sys_inv ports s → sm_step s s' → sys_inv ports s'.
Proof.
  intros Hinv Hstep. pose proof Hinv as [Hp Ha Hc].
  assert (∀ a l, TCommit a ∈ pcs s ++ l → l = [] ∨ l = [TStart] → not_self ports a) as Hl.
  { intros a l [H|H]%elem_of_app Hn; [by apply Hc|].
    destruct Hn as [-> | ->]; [by apply not_elem_of_nil in H|].
    by apply list_elem_of_singleton in H. }
  destruct Hstep as [s l|s now a|s a sm' b Hf|s|s|s i pc dial now sm' pc' Hi Ht];
    try (split; cbn; [done|done|]; intros a' Hin; (by apply Hc) || (eapply Hl; [done|by auto])).
  - split; cbn; unfold ReportSuccess; repeat case_match; cbn; auto.
  - unfold ReportFailure in Hf. case_match; simplify_eq; split; cbn; auto.
    + by left.
    + intros a' Ha'. eapply Hl; [done|by auto].
    + intros a' Ha'. eapply Hl; [done|by auto].
  - destruct (ts_step_inv _ _ _ _ _ _ _ _ Hinv Hi Ht) as (H1 & H2 & H3).
    split; cbn; [done|done|]. intros a (j & Hj)%list_elem_of_lookup.
    destruct (decide (i = j)) as [<-|Hne].
    + rewrite list_lookup_insert_eq in Hj by (by eapply lookup_lt_Some). simplify_eq. by apply H3.
    + rewrite list_lookup_insert_ne in Hj by done. apply Hc. by eapply list_elem_of_lookup_2.
Qed.

(** *** When an upstream is this program

    Stated on the URL, apart from the test of the source: its host is localhost or
    a loopback address, and its port, written or implied by the scheme, is one of
    the program's. *)

Definition loopback_host (h : string) : Prop :=
  h = "localhost" ∨
  ∃ x, Net.ParseIP h = Some x ∧
    ((∃ b c d, Net.To4 x = Some [mk8 127; b; c; d]) ∨ (Net.To4 x = None ∧ x = Net.IPv6loopback)).

(** The schemes whose port need not be written. *)
Definition implied_port : list (string * Z) := [("http", 80); ("socks5", 1080); ("tproxy", 10080)].

Definition own_url (ports : list Z) (addr : string) : Prop :=
  ∃ u p, Url.Parse addr = Some u ∧ loopback_host (Url.Hostname u) ∧
    0 < p < 65536 ∧ p ∈ ports ∧
    (Url.Port u = Strconv.Itoa p ∨ (Url.Port u = "" ∧ (Url.Scheme u, p) ∈ implied_port)).

Lemma loopback_host_found h : loopback_host h → isLoopbackUpstream h = true.
Proof.
  unfold isLoopbackUpstream. intros [-> | (x & -> & H)]; [done|]. apply orb_true_intro. right.
  unfold Net.IsLoopback. destruct H as [(b & c & d & ->)|[-> ->]]; done.
Qed.

(** The port of the source's test is the port of the URL. *)
Lemma own_port_found u p :
  0 < p < 65536 → Url.Port u = Strconv.Itoa p ∨ (Url.Port u = "" ∧ (Url.Scheme u, p) ∈ implied_port) →
  fst (Strconv.Atoi (if String.eqb (Url.Port u) "" then default_port (Url.Scheme u) else Url.Port u)) = p.
Proof.
  intros Hp [Hw|[Hw Hi]]; rewrite Hw.
  - destruct (String.eqb_spec (Strconv.Itoa p) "") as [E|_].
    + apply (f_equal Strconv.Atoi) in E. rewrite Strconv.Atoi_Itoa in E by lia. by vm_compute in E.
    + by rewrite Strconv.Atoi_Itoa by lia.
  - cbn [String.eqb]. unfold implied_port in Hi. rewrite !elem_of_cons, elem_of_nil in Hi.
    destruct Hi as [[= -> ->]|[[= -> ->]|[[= -> ->]|[]]]]; reflexivity.
Qed.

Lemma own_url_found sm addr : own_url (selfPorts sm) addr → IsSelfUpstream sm addr = true.
Proof.
  intros (u & p & Hu & Hh & Hp & Hin & Hport). unfold IsSelfUpstream.
  destruct (Nat.eqb_spec (length (selfPorts sm)) 0) as [E|_].
  { apply nil_length_inv in E. rewrite E in Hin. by apply not_elem_of_nil in Hin. }
  rewrite Hu, (loopback_host_found _ Hh). cbn [negb]. rewrite (own_port_found u p Hp Hport).
  apply existsb_exists. exists p. split; [by apply list_elem_of_In|].
  apply andb_true_intro. split; [apply Z.ltb_lt; lia|by apply Z.eqb_refl].
Qed.

(** The test knows nothing of the other names of this machine: the unspecified
    address, its addresses in the network, and no port is implied for https although
    the probe dials 443. *)
Lemma self_unrecognised :
  let sm := SetSelfPorts (NewServerManager [] 30) [1080; 443] in
  IsSelfUpstream sm "socks5://0.0.0.0:1080" = false ∧
  IsSelfUpstream sm "socks5://192.168.1.2:1080" = false ∧
  IsSelfUpstream sm "https://127.0.0.1" = false ∧ probe_addr "https://127.0.0.1" = ("127.0.0.1:443", "https").
Proof. by vm_compute. Qed.

(** C28. No self loop.  From the start with any servers and own ports, in every
    interleaving of probes, updates, success and failure reports, the active server
    is never a URL that names this program: one whose host is localhost, an address
    in 127.0.0.0/8 or ::1, and whose port, written in decimal or implied by http,
    socks5 or tproxy, is one of the own ports.  The ports are those of the
    configuration, which SetSelfPorts is given before the first probe; a URL that
    reaches this program under another name (0.0.0.0, an address of the machine in
    its network) is not recognised, see [self_unrecognised]. *)
Theorem active_never_self interval ports l s :
  rtc sm_step (mkSys (SetSelfPorts (NewServerManager l interval) ports) []) s →
  ¬ own_url ports (activeServer (st s)).
Proof.
  intros Hr. assert (sys_inv ports s) as [Hp Ha _].
  { remember (mkSys _ _) as s0 eqn:E0. assert (sys_inv ports s0) as H0.
    { subst. split; cbn; [done|by left|set_solver]. }
    clear E0. induction Hr as [|s0 s1 s2 Hs Hr IH]; [done|].
    apply IH. by eapply sys_inv_step. }
  intros Hself. destruct Ha as [Ha|Ha].
  - destruct Hself as (u & p & Hu & Hh & _). rewrite Ha in Hu. vm_compute in Hu. simplify_eq.
    destruct Hh as [Hh|(x & Hx & _)]; [by vm_compute in Hh|by vm_compute in Hx].
  - specialize (Ha (st s) Hp). rewrite <- Hp in Hself. by rewrite (own_url_found _ _ Hself) in Ha.
Qed.

Definition ex_dial : string → option conn := fun a =>
  if String.eqb a "10.0.0.9:1080" then Some (mkConn (bytes [5; 0]) EOF [] 9 false false) else None.

Lemma active_never_self_witness :
  ∃ s, rtc sm_step (mkSys (SetSelfPorts (NewServerManager
         ["socks5://127.0.0.1:1080"; "socks5://10.0.0.9:1080"] 30) [1080]) []) s ∧
       activeServer (st s) = "socks5://10.0.0.9:1080" ∧
       ¬ own_url [1080] (activeServer (st s)).
Proof.
  assert (∀ P : sys → Prop, (∀ s, rtc sm_step (mkSys (SetSelfPorts (NewServerManager
         ["socks5://127.0.0.1:1080"; "socks5://10.0.0.9:1080"] 30) [1080]) []) s →
       activeServer (st s) = "socks5://10.0.0.9:1080" → P s) → ∃ s, P s) as Hrun.
  { intros P HP. eexists. apply HP.
    - eapply rtc_l; [by apply step_tick|]. cbn.
      eapply rtc_l; [apply (step_test _ 0 TStart ex_dial 0); [reflexivity|vm_compute; reflexivity]|].
      do 3 (eapply rtc_l; [eapply (step_test _ 0 _ ex_dial 0);
        [reflexivity|vm_compute; reflexivity]|]).
      apply rtc_refl.
    - reflexivity. }
  apply Hrun. intros s Hr Ha. split; [done|]. split; [done|].
  exact (active_never_self 30 [1080] _ s Hr).
Defined.

(** A removed server stays in use.  When the server list is replaced by the
    empty list, no later [testServers] clears the active server, whatever the
    network answers and however much time passes: connections go on through a
    server that is no longer configured. *)
Theorem UpdateServers_empty_keeps_active sm dials :
  activeServer (foldl (fun s (d : (string → option conn) * Z) => testServers (fst d) (snd d) s)
                  (UpdateServers sm []) dials) = activeServer sm ∧
  servers (foldl (fun s (d : (string → option conn) * Z) => testServers (fst d) (snd d) s)
                  (UpdateServers sm []) dials) = [].
Proof.
  assert (∀ s, servers s = [] →
    foldl (fun s (d : (string → option conn) * Z) => testServers (fst d) (snd d) s) s dials = s) as H.
  { induction dials as [|[dial now] dials IH]; intros s Hs; [done|]. cbn [foldl fst snd].
    rewrite testServers_alone, Hs, orb_true_r. by apply IH. }
  by rewrite H.
Qed.

End ServerManager.
