(* ===== verification/Dial.v ===== *)
(** * Dialling ([src/internal/handler.go], lines 155-282 and 1210-1371, 1608-1699)

    How a target is reached: [dialDirect], [dialTarget] and [dialTargetUDP] with
    their routing decision, upstream choice and retry loops, and the relay tests
    they consult.  The network, the resolver, the process table and the other
    goroutines that use the server manager are the class [Env]: every answer is
    an arbitrary function of the events so far.  The events ([w_ev]) record
    every dial, resolver query and pause, in order; [policy] is what the routing
    decision allows them to be.  Log output, timeouts and the socket option set
    by the dialer control are left out. *)

From S2P Require Import Prelude GoStrings GoNet GoIO GoUrl FakeIP Router ServerManager.

Module Dial.
Import ServerManager.

Inductive dialreq :=
| DDirect (network target : string)
| DSocksTCP (proxy target : string)
| DSocksUDP (proxy target : string)
| DHTTP (proxy target : string).

Inductive event :=
| EvDial (r : dialreq) (ok : bool)
| EvLookup (domain : string)
| EvSleep
| EvSuccess (upstream : string)
| EvFailure (upstream : string).

Inductive derr :=
| EBlocked (target : string)
| ENoUpstream
| EBadURL
| EBadScheme (scheme : string)
| EAllFailed
| EDialFailed.

Class Env := {
  (** does the dial succeed? *)
  env_dial : list event → dialreq → bool;
  (** the IPv4 addresses of a name *)
  env_lookup : list event → string → option (list ip);
  (** what other goroutines did to the server manager meanwhile *)
  env_sm : list event → SM → SM;
  (** the process that owns a local port: executable and PID *)
  env_proc_by_port : list event → Z → option (string * Z);
  env_now : list event → Z;
  goos : string
}.

Record world := mkW {
  w_sm : option SM;
  w_pool : FakeIP.global;
  w_ev : list event
}.

(** The fields of [ProxyHandler] that dialling reads. *)
Record PH := mkPH {
  rm : option Router.RuleManager;
  DialRetryCount : Z;
  TransPort : Z
}.

Definition H (A : Type) : Type := stm world derr A.

Section Dialling.
Context `{HE : Env}.

Definition emit (e : event) : H unit := fun w =>
  (Ok tt, mkW (w_sm w) (w_pool w) (w_ev w ++ [e])).

Definition dial (r : dialreq) : H bool := fun w =>
  let ok := env_dial (w_ev w) r in
  (Ok ok, mkW (w_sm w) (w_pool w) (w_ev w ++ [EvDial r ok])).

Definition set_sm (sm : option SM) : H unit := fun w => (Ok tt, mkW sm (w_pool w) (w_ev w)).

(** The server manager as the other goroutines left it. *)
Definition sync_sm : H (option SM) := fun w =>
  let sm := env_sm (w_ev w) <$> w_sm w in (Ok sm, mkW sm (w_pool w) (w_ev w)).

(** ** Relay tests *)

Definition hasLocalUpstream (sm : option SM) : bool :=
  match sm with
  | None => false
  | Some _ => existsb (fun server => match Url.Parse server with
                                     | Some u => isLoopbackUpstream (Url.Hostname u)
                                     | None => false end) (GetServers sm)
  end.

Definition same_program (relayPath process : string) : bool :=
  negb (String.eqb relayPath "") && negb (String.eqb process "") &&
  (String.eqb relayPath process ||
   Strings.EqualFold (Filepath.Base relayPath) (Filepath.Base process)).

(** One round of the loop of [isLocalRelay]. *)
Definition relay_server (ev : list event) (process : string) (pid : Z) (server : string) : bool :=
  match Url.Parse server with
  | None => false
  | Some u =>
      if negb (isLoopbackUpstream (Url.Hostname u)) then false
      else if String.eqb (Url.Port u) "" then false
      else
        let '(port, ok) := Strconv.Atoi (Url.Port u) in
        if negb ok then false
        else
          match env_proc_by_port ev port with
          | None => false
          | Some (relayPath, relayPID) =>
              ((0 <? relayPID) && (pid =? relayPID)) || same_program relayPath process
          end
  end.

Definition isLocalRelay (sm : option SM) (ev : list event) (process : string) (pid : Z) : bool :=
  if (pid <=? 0) || (if sm is None then true else false) then false
  else existsb (relay_server ev process pid) (GetServers sm).

(** [isForwardedRelay]; [srcIP] is the remote address, when it is a TCP or UDP one. *)
Definition isForwardedRelay (sm : option SM) (srcIP : option ip) (isFakeIP : bool) (pid : Z) : bool :=
  if isFakeIP || (0 <? pid) || negb (hasLocalUpstream sm) then false
  else match srcIP with
       | None => false
       | Some x =>
           if negb (Net.Equal x (default [] (Net.ParseIP "198.18.0.1"))) && Net.IsPrivate x
           then true else pid =? 0
       end.

Definition needsProcessMetadata (ph : PH) (sm : option SM) : bool :=
  (if rm ph is Some _ then Router.HasProcessMetadataRules (rm ph) else false) ||
  hasLocalUpstream sm.

(** ** Direct dialling *)

Definition retryCount (ph : PH) : nat :=
  Z.to_nat (if DialRetryCount ph <=? 0 then 3 else DialRetryCount ph).

(** The address [dialDirect] connects to: a fake address is mapped back to its
    name, a name is resolved. *)
Definition direct_target (target : string) : H string := fun w =>
  match Net.SplitHostPort target with
  | None => (Ok target, w)
  | Some (host, port) =>
      let domain : outcome unit string :=
        match Net.ParseIP host, FakeIP.GlobalPool (w_pool w) with
        | Some x, Some p => if FakeIP.IsFakeIP p x then FakeIP.GetDomain p x else Ok ""
        | Some _, None => Ok ""
        | None, _ => Ok host
        end in
      match domain with
      | Ok domain =>
          if String.eqb domain "" then (Ok target, w)
          else if String.eqb goos "windows" || String.eqb goos "linux" then
            let w' := mkW (w_sm w) (w_pool w) (w_ev w ++ [EvLookup domain]) in
            match env_lookup (w_ev w) domain with
            | Some (x :: _) => (Ok (Net.JoinHostPort (Net.String_ x) port), w')
            | _ => (Ok (Net.JoinHostPort domain port), w')
            end
          else (Ok (Net.JoinHostPort domain port), w)
      | _ => (Panic, w)
      end
  end.

(** [n] attempts are left. *)
Fixpoint direct_loop (n : nat) (target : string) : H dialreq :=
  match n with
  | O => throw EDialFailed
  | S n =>
      ok ← dial (DDirect "tcp" target);
      if (ok : bool) then mret (DDirect "tcp" target)
      else _ ← (if Nat.eqb n 0 then mret tt else emit EvSleep); direct_loop n target
  end.

Definition dialDirect (ph : PH) (target : string) : H dialreq :=
  target ← direct_target target;
  direct_loop (retryCount ph) target.

(** ** Dialling through an upstream *)

(** The upstream of one attempt when none is verified: the first server that is
    not this program for TCP (an empty string counts as none), the first server
    for UDP. *)
Definition tcp_fallback (sm : SM) : option string :=
  match find (fun s => negb (IsSelfUpstream sm s)) (servers sm) with
  | Some s => if String.eqb s "" then None else Some s
  | None => None
  end.
Definition udp_fallback (sm : SM) : option string := head (servers sm).

(** [None] is the "no upstream servers configured" error. *)
Definition choose_upstream (fallback : SM → option string) (sm : option SM) : option string :=
  match sm with
  | None => None
  | Some sm => if String.eqb (activeServer sm) "" then fallback sm else Some (activeServer sm)
  end.

Definition tcp_request (scheme host target : string) : option dialreq :=
  if String.eqb scheme "socks5" then Some (DSocksTCP host target)
  else if String.eqb scheme "http" then Some (DHTTP host target)
  else None.
Definition udp_request (scheme host target : string) : option dialreq :=
  if String.eqb scheme "socks5" then Some (DSocksUDP host target) else None.

Definition report_success (u : string) : H unit := fun w =>
  (Ok tt, mkW (match w_sm w with
               | Some sm => Some (ReportSuccess sm (env_now (w_ev w)) u) | None => None end)
            (w_pool w) (w_ev w ++ [EvSuccess u])).
Definition report_failure (u : string) : H unit := fun w =>
  (Ok tt, mkW (match w_sm w with
               | Some sm => Some (fst (ReportFailure sm u)) | None => None end)
            (w_pool w) (w_ev w ++ [EvFailure u])).

(** The retry loop shared by TCP and UDP: they differ in the fallback and in the
    schemes they support. *)
Fixpoint upstream_loop (fallback : SM → option string)
    (request : string → string → string → option dialreq) (n : nat) (target : string)
    : H dialreq :=
  match n with
  | O => throw EAllFailed
  | S n =>
      sm ← sync_sm;
      match choose_upstream fallback sm with
      | None => throw ENoUpstream
      | Some upstreamURL =>
          match Url.Parse upstreamURL with
          | None => throw EBadURL
          | Some u =>
              match request (Url.Scheme u) (Url.Host u) target with
              | None => throw (EBadScheme (Url.Scheme u))
              | Some r =>
                  ok ← dial r;
                  if (ok : bool) then _ ← report_success upstreamURL; mret r
                  else
                    _ ← report_failure upstreamURL;
                    _ ← (if Nat.eqb n 0 then mret tt else emit EvSleep);
                    upstream_loop fallback request n target
              end
          end
      end
  end.

(** The decision for a target: the rule manager is dereferenced. *)
Definition route (ph : PH) (target process : string) (pid : Z) : outcome derr Router.RuleAction :=
  let '(host, portStr) := default ("", "") (Net.SplitHostPort target) in
  let port := fst (Strconv.Atoi portStr) in
  match rm ph with
  | None => Panic
  | Some rm => Ok (fst (Router.MatchContext rm (Router.mkCtx host port process pid "")))
  end.

Definition dialTarget (ph : PH) (target process : string) (pid : Z) : H dialreq := fun w =>
  if isLocalRelay (w_sm w) (w_ev w) process pid then dialDirect ph target w
  else
    match route ph target process pid with
    | Ok Router.ActionDirect => dialDirect ph target w
    | Ok Router.ActionBlock => (Err (EBlocked target), w)
    | Ok _ => upstream_loop tcp_fallback tcp_request (retryCount ph) target w
    | Err e => (Err e, w)
    | Panic => (Panic, w)
    end.

Definition direct_udp (target : string) : H dialreq :=
  ok ← dial (DDirect "udp" target);
  if (ok : bool) then mret (DDirect "udp" target) else throw EDialFailed.

Definition dialTargetUDP (ph : PH) (target process : string) (pid : Z) : H dialreq := fun w =>
  if isLocalRelay (w_sm w) (w_ev w) process pid then direct_udp target w
  else
    match route ph target process pid with
    | Ok Router.ActionDirect => direct_udp target w
    | Ok Router.ActionBlock => (Err (EBlocked target), w)
    | Ok _ => upstream_loop udp_fallback udp_request (retryCount ph) target w
    | Err e => (Err e, w)
    | Panic => (Panic, w)
    end.

(** ** What a dial may do *)

Definition dials (evs : list event) : list (dialreq * bool) :=
  omap (fun e => match e with EvDial r ok => Some (r, ok) | _ => None end) evs.

(** A bounded retry: failed dials that all satisfy [P], then perhaps a successful
    one; giving up takes all [n] attempts. *)
Definition retry_trace (P : dialreq → Prop) (n : nat) (evs : list event)
    (res : outcome derr dialreq) : Prop :=
  ∃ fails, Forall (fun d => P (fst d) ∧ snd d = false) fails ∧
  match res with
  | Ok q => dials evs = fails ++ [(q, true)] ∧ P q ∧ (length fails < n)%nat
  | Err e => dials evs = fails ∧ (length fails ≤ n)%nat ∧
             (e = EAllFailed ∨ e = EDialFailed → length fails = n)
  | Panic => False
  end.

(** A call that starts in [w] and ends in [w'] made the events [evs]. *)
Definition made (w w' : world) (evs : list event) : Prop := w_ev w' = w_ev w ++ evs.

Definition is_direct (network : string) (q : dialreq) : Prop := ∃ t, q = DDirect network t.
Definition is_upstream_tcp (target : string) (q : dialreq) : Prop :=
  ∃ h, q = DSocksTCP h target ∨ q = DHTTP h target.
Definition is_upstream_udp (target : string) (q : dialreq) : Prop := ∃ h, q = DSocksUDP h target.

(** The fake-IP pool, if there is one, is an IPv4 pool. *)
Definition pool_v4 (g : FakeIP.global) : Prop :=
  ∀ p, FakeIP.GlobalPool g = Some p → ∃ a ones, FakeIP.subnet p = Net.cidr4 a ones.

Lemma dials_app e1 e2 : dials (e1 ++ e2) = dials e1 ++ dials e2.
Proof. apply omap_app. Qed.

(** Events that are no dials do not matter; one failed dial is one attempt less. *)
Lemma retry_trace_cons P n evs evs' res :
  dials evs = [] → retry_trace P n evs' res → retry_trace P n (evs ++ evs') res.
Proof. intros He (f & Hf & Hr). exists f. by rewrite dials_app, He. Qed.

Lemma retry_trace_fail P n q evs res :
  P q → retry_trace P n evs res → retry_trace P (S n) (EvDial q false :: evs) res.
Proof.
  intros Hq (f & Hf & Hr). exists ((q, false) :: f). split; [by constructor|].
  change (dials (EvDial q false :: evs)) with ((q, false) :: dials evs).
  destruct res as [q'|e|]; [|..|done].
  - destruct Hr as (-> & ? & ?). cbn. split; [done|]. split; [done|lia].
  - destruct Hr as (-> & ? & He). cbn. split; [done|]. split; [lia|]. intros E%He. by rewrite E.
Qed.

Lemma retry_trace_ok (P : dialreq → Prop) n q evs :
  P q → dials evs = [] → retry_trace P (S n) (EvDial q true :: evs) (Ok q).
Proof.
  intros Hq He. exists []. split; [done|].
  change (dials (EvDial q true :: evs)) with ((q, true) :: dials evs). rewrite He.
  cbn. split; [done|]. split; [done|lia].
Qed.

Lemma retry_trace_err (P : dialreq → Prop) n e :
  e ≠ EAllFailed → e ≠ EDialFailed → retry_trace P n [] (Err e).
Proof. intros. exists []. cbn. split; [done|]. split; [done|]. split; [lia|naive_solver]. Qed.

Lemma made_cons w q b w1 w2 evs :
  w_ev w1 = w_ev w ++ [EvDial q b] → made w1 w2 evs → made w w2 (EvDial q b :: evs).
Proof. unfold made. intros -> ->. by rewrite <- app_assoc. Qed.

Lemma direct_loop_trace n target w :
  let '(res, w') := direct_loop n target w in
  ∃ evs, made w w' evs ∧ retry_trace (is_direct "tcp") n evs res.
Proof.
  revert w. induction n as [|n IH]; intros w; cbn [direct_loop].
  - exists []. split; [unfold made; by rewrite app_nil_r|]. exists []. cbn. auto.
  - set (q := DDirect "tcp" target). assert (is_direct "tcp" q) as Hq by (by eexists).
    unfold mbind, stm_bind. cbn [dial]. destruct (env_dial (w_ev w) q) eqn:Ed.
    + exists [EvDial q true]. split; [done|]. by apply retry_trace_ok.
    + destruct (Nat.eqb n 0).
      * cbn [mret stm_ret].
        match goal with |- context [direct_loop n target ?w1] => specialize (IH w1) end.
        destruct (direct_loop n target _) as [res w'].
        destruct IH as (evs & Hm & Ht). exists (EvDial q false :: evs).
        split; [by eapply made_cons; [|exact Hm]|]. by apply retry_trace_fail.
      * cbn [emit w_sm w_pool w_ev].
        match goal with |- context [direct_loop n target ?w1] => specialize (IH w1) end.
        destruct (direct_loop n target _) as [res w'].
        destruct IH as (evs & Hm & Ht). exists (EvDial q false :: [EvSleep] ++ evs). split.
        { unfold made in *. rewrite Hm. cbn. by rewrite <- !app_assoc. }
        apply retry_trace_fail; [done|]. by apply retry_trace_cons.
Qed.

Lemma upstream_loop_trace fallback request (P : dialreq → Prop) n target w :
  (∀ scheme host q, request scheme host target = Some q → P q) →
  let '(res, w') := upstream_loop fallback request n target w in
  ∃ evs, made w w' evs ∧ retry_trace P n evs res.
Proof.
  intros HP. revert w. induction n as [|n IH]; intros w; cbn [upstream_loop].
  { exists []. split; [unfold made; by rewrite app_nil_r|]. exists []. cbn. auto. }
  unfold mbind at 1, stm_bind at 1. cbn [sync_sm].
  set (sm := env_sm (w_ev w) <$> w_sm w). set (w1 := mkW sm (w_pool w) (w_ev w)).
  assert (∀ e, e ≠ EAllFailed → e ≠ EDialFailed → let '(res, w') := throw e w1 in
    ∃ evs, made w w' evs ∧ retry_trace P (S n) evs res) as Hthrow.
  { intros e ? ?. exists []. split; [unfold made; cbn; by rewrite app_nil_r|].
    by apply retry_trace_err. }
  destruct (choose_upstream fallback sm) as [u|]; [|by apply Hthrow].
  destruct (Url.Parse u) as [url|]; [|by apply Hthrow].
  destruct (request (Url.Scheme url) (Url.Host url) target) as [q|] eqn:Eq; [|by apply Hthrow].
  apply HP in Eq. clear Hthrow. unfold mbind, stm_bind. cbn [dial].
  destruct (env_dial (w_ev w1) q) eqn:Ed.
  - exists [EvDial q true; EvSuccess u]. split; [unfold made; cbn; by rewrite <- app_assoc|].
    by apply retry_trace_ok.
  - cbn [report_failure]. destruct (Nat.eqb n 0); cbn [mret stm_ret emit];
      match goal with |- context [upstream_loop _ _ n target ?w2] => specialize (IH w2) end;
      destruct (upstream_loop fallback request n target _) as [res w'];
      destruct IH as (evs & Hm & Ht).
    + exists (EvDial q false :: [EvFailure u] ++ evs). split.
      { unfold made in *. rewrite Hm. cbn. by rewrite <- !app_assoc. }
      apply retry_trace_fail; [done|]. by apply retry_trace_cons.
    + exists (EvDial q false :: [EvFailure u; EvSleep] ++ evs). split.
      { unfold made in *. rewrite Hm. cbn. by rewrite <- !app_assoc. }
      apply retry_trace_fail; [done|]. by apply retry_trace_cons.
Qed.

Lemma GetDomain_v4 p x a ones :
  FakeIP.subnet p = Net.cidr4 a ones → FakeIP.IsFakeIP p x = true →
  ∃ d, FakeIP.GetDomain p x = Ok d.
Proof.
  intros Hs Hf. unfold FakeIP.IsFakeIP in Hf. rewrite Hs in Hf.
  destruct (Net.Contains_cidr4_To4 _ _ _ Hf) as [y Hy].
  unfold FakeIP.GetDomain. rewrite Hy. pose proof (Net.To4_length _ _ Hy).
  destruct y as [|? [|? [|? [|? [|]]]]]; try done. eexists. reflexivity.
Qed.

(** Resolving the address makes no dial and never panics. *)
Lemma direct_target_trace target w :
  pool_v4 (w_pool w) →
  ∃ t w' evs, direct_target target w = (Ok t, w') ∧ made w w' evs ∧ dials evs = [].
Proof.
  intros Hp. unfold direct_target.
  assert (∀ t : string, ∃ t' w' evs, (Ok (E:=derr) t, w) = (Ok t', w') ∧ made w w' evs ∧ dials evs = []) as Hret.
  { intros t. exists t, w, []. split; [done|]. split; [unfold made; by rewrite app_nil_r|done]. }
  destruct (Net.SplitHostPort target) as [[host port]|]; [|done].
  set (dom := match Net.ParseIP host with Some _ => _ | None => _ end).
  assert (∃ d, dom = Ok d) as [d ->].
  { unfold dom. destruct (Net.ParseIP host) as [x|]; [|by eexists].
    destruct (FakeIP.GlobalPool (w_pool w)) as [p|] eqn:Eg; [|by eexists].
    destruct (FakeIP.IsFakeIP p x) eqn:Ef; [|by eexists].
    destruct (Hp p Eg) as (a & ones & Hs). by eapply GetDomain_v4. }
  destruct (String.eqb d ""); [done|]. destruct (_ || _); [|apply Hret].
  destruct (env_lookup (w_ev w) d) as [[|x l]|]; eexists _, _, [EvLookup d]; done.
Qed.

Lemma dialDirect_trace ph target w :
  pool_v4 (w_pool w) →
  let '(res, w') := dialDirect ph target w in
  ∃ evs, made w w' evs ∧ retry_trace (is_direct "tcp") (retryCount ph) evs res.
Proof.
  intros Hp. unfold dialDirect, mbind, stm_bind.
  destruct (direct_target_trace target w Hp) as (t & w1 & evs & -> & Hm & Hd).
  pose proof (direct_loop_trace (retryCount ph) t w1) as Hl.
  destruct (direct_loop (retryCount ph) t w1) as [res w'].
  destruct Hl as (evs' & Hm' & Ht). exists (evs ++ evs'). split.
  - unfold made in *. by rewrite Hm', Hm, app_assoc.
  - by apply retry_trace_cons.
Qed.

Lemma route_ok ph rules target process pid :
  rm ph = Some rules → ∃ action, route ph target process pid = Ok action.
Proof.
  intros Hr. unfold route. rewrite Hr.
  destruct (default _ (Net.SplitHostPort target)) as [host port]. by eexists.
Qed.

(** C1. The routing decision is obeyed.  For every behaviour of the network, of
    the process table and of the goroutines beside it, a TCP dial to a target
    that the rules block makes no dial at all; a target that is routed direct, or
    that a local relay process asks for, is only dialled directly; every other
    target is only dialled through an upstream, never directly, for this very
    target.  In each case at most [retryCount] dials are made, they stop at the
    first success, and giving up means that all of them failed. *)
Theorem dialTarget_policy ph rules target process pid w :
  rm ph = Some rules → pool_v4 (w_pool w) →
  ∃ action, route ph target process pid = Ok action ∧
  let '(res, w') := dialTarget ph target process pid w in
  ∃ evs, made w w' evs ∧
    (if isLocalRelay (w_sm w) (w_ev w) process pid then
       retry_trace (is_direct "tcp") (retryCount ph) evs res
     else match action with
          | Router.ActionDirect => retry_trace (is_direct "tcp") (retryCount ph) evs res
          | Router.ActionBlock => res = Err (EBlocked target) ∧ w' = w
          | _ => retry_trace (is_upstream_tcp target) (retryCount ph) evs res
          end).
Proof.
  intros Hr Hp. destruct (route_ok ph rules target process pid Hr) as [action Ha].
  exists action. split; [done|]. unfold dialTarget. rewrite Ha.
  destruct (isLocalRelay _ _ _ _); [by apply dialDirect_trace|].
  assert (let '(res, w') := upstream_loop tcp_fallback tcp_request (retryCount ph) target w in
    ∃ evs, made w w' evs ∧ retry_trace (is_upstream_tcp target) (retryCount ph) evs res) as Hu.
  { apply upstream_loop_trace. intros scheme host q. unfold tcp_request, is_upstream_tcp.
    intros. crush_match; eauto. }
  destruct action; try done; [by apply dialDirect_trace|].
  exists []. split; [unfold made; by rewrite app_nil_r|done].
Qed.

(** The same for UDP: blocked datagrams are not dialled, direct ones go out
    directly in one attempt, the others only through a SOCKS5 association. *)
Theorem dialTargetUDP_policy ph rules target process pid w :
  rm ph = Some rules →
  ∃ action, route ph target process pid = Ok action ∧
  let '(res, w') := dialTargetUDP ph target process pid w in
  ∃ evs, made w w' evs ∧
    (if isLocalRelay (w_sm w) (w_ev w) process pid then
       retry_trace (is_direct "udp") 1 evs res
     else match action with
          | Router.ActionDirect => retry_trace (is_direct "udp") 1 evs res
          | Router.ActionBlock => res = Err (EBlocked target) ∧ w' = w
          | _ => retry_trace (is_upstream_udp target) (retryCount ph) evs res
          end).
Proof.
  intros Hr. destruct (route_ok ph rules target process pid Hr) as [action Ha].
  exists action. split; [done|]. unfold dialTargetUDP. rewrite Ha.
  assert (let '(res, w') := direct_udp target w in
    ∃ evs, made w w' evs ∧ retry_trace (is_direct "udp") 1 evs res) as Hd.
  { unfold direct_udp, mbind, stm_bind. cbn [dial].
    set (q := DDirect "udp" target). assert (is_direct "udp" q) as Hq by (by eexists).
    destruct (env_dial (w_ev w) q); cbn.
    - exists [EvDial q true]. split; [done|]. by apply retry_trace_ok.
    - exists [EvDial q false]. split; [done|]. apply retry_trace_fail; [done|].
      exists []. cbn. auto. }
  destruct (isLocalRelay _ _ _ _); [done|].
  assert (let '(res, w') := upstream_loop udp_fallback udp_request (retryCount ph) target w in
    ∃ evs, made w w' evs ∧ retry_trace (is_upstream_udp target) (retryCount ph) evs res) as Hu.
  { apply upstream_loop_trace. intros scheme host q. unfold udp_request, is_upstream_udp.
    intros. crush_match; eauto. }
  destruct action; try done.
  exists []. split; [unfold made; by rewrite app_nil_r|done].
Qed.

(** UDP can be looped back into this program.  While no upstream is verified,
    TCP never falls back to a server that points to one of the own ports, but
    [dialTargetUDP] takes the first configured server without that test: when
    it is the own SOCKS port, the first dial of a proxied datagram goes to
    it. *)
Theorem udp_fallback_self ph target process pid w sm s rest u :
  (∀ evs sm, env_sm evs sm = sm) →
  w_sm w = Some sm → activeServer sm = "" → servers sm = s :: rest →
  IsSelfUpstream sm s = true → Url.Parse s = Some u → Url.Scheme u = "socks5" →
  isLocalRelay (w_sm w) (w_ev w) process pid = false →
  route ph target process pid = Ok Router.ActionProxy →
  (∀ s', choose_upstream tcp_fallback (Some sm) = Some s' → IsSelfUpstream sm s' = false) ∧
  ∃ ok evs, made w (snd (dialTargetUDP ph target process pid w))
              (EvDial (DSocksUDP (Url.Host u) target) ok :: evs).
Proof.
  intros Henv Hsm Ha Hs Hself Hu Hsch Hrel Hroute. split.
  - unfold choose_upstream. rewrite Ha. change (String.eqb "" "") with true. cbn iota.
    unfold tcp_fallback. intros s'. destruct (find _ _) as [f|] eqn:Ef; [|done].
    apply find_some in Ef as [_ Hf]. destruct (String.eqb f ""); [done|].
    intros [= <-]. by apply negb_true_iff in Hf.
  - unfold dialTargetUDP. rewrite Hrel, Hroute.
    destruct (retryCount ph) as [|n] eqn:En.
    { exfalso. unfold retryCount in En. case_match; boolify; lia. }
    cbn [upstream_loop]. unfold mbind, stm_bind. cbn [sync_sm].
    rewrite Hsm. cbn [fmap option_fmap option_map]. rewrite Henv. cbn [choose_upstream].
    rewrite Ha. change (String.eqb "" "") with true. cbn iota.
    unfold udp_fallback. rewrite Hs. cbn [head]. rewrite Hu, Hsch.
    change (udp_request "socks5" (Url.Host u) target) with (Some (DSocksUDP (Url.Host u) target)).
    cbn iota. set (q := DSocksUDP (Url.Host u) target). cbn [dial w_sm w_ev w_pool].
    destruct (env_dial (w_ev w) q).
    + exists true, [EvSuccess s]. unfold made. cbn. by rewrite <- app_assoc.
    + exists false. cbn [report_failure]. destruct (Nat.eqb n 0); cbn [mret stm_ret emit];
        match goal with |- context [upstream_loop _ _ n target ?w2] =>
          pose proof (upstream_loop_trace udp_fallback udp_request (fun _ => True) n target w2
                        (fun _ _ _ _ => I)) as Hl end;
        destruct (upstream_loop _ _ n target _) as [res w']; destruct Hl as (evs & Hm & _);
        unfold made in *; cbn [snd]; rewrite Hm; cbn; rewrite <- !app_assoc; by eexists.
Qed.

End Dialling.

(** ** Witnesses *)

#[export] Instance ex_env : Env := {|
  env_dial := fun evs q => match q with DSocksTCP _ _ => Nat.ltb 2 (length evs) | _ => false end;
  env_lookup := fun _ _ => None;
  env_sm := fun _ sm => sm;
  env_proc_by_port := fun _ _ => None;
  env_now := fun _ => 0;
  goos := "linux" |}.

Definition ex_ph : PH := mkPH (Some (Router.NewRuleManager ["DOMAIN,a.com,PROXY"])) 3 10080.
Definition ex_w : world :=
  mkW (Some (mkSM ["socks5://127.0.0.1:1080"] [1080] "" None 30 false))
    (FakeIP.mkGlobal false None) [].

Lemma dialTarget_policy_witness :
  ∃ action, route ex_ph "a.com:443" "" 0 = Ok action ∧ action = Router.ActionProxy.
Proof.
  destruct (dialTarget_policy ex_ph (Router.NewRuleManager ["DOMAIN,a.com,PROXY"])
    "a.com:443" "" 0 ex_w eq_refl ltac:(intros p Hp; discriminate)) as (action & Ha & _).
  exists action. split; [exact Ha|]. vm_compute in Ha. congruence.
Defined.

Lemma dialTargetUDP_policy_witness :
  ∃ action, route ex_ph "b.com:443" "" 0 = Ok action ∧ action = Router.ActionDirect.
Proof.
  destruct (dialTargetUDP_policy ex_ph (Router.NewRuleManager ["DOMAIN,a.com,PROXY"])
    "b.com:443" "" 0 ex_w eq_refl) as (action & Ha & _).
  exists action. split; [exact Ha|]. vm_compute in Ha. congruence.
Defined.

Lemma udp_fallback_self_witness :
  ∃ ok evs, made ex_w (snd (dialTargetUDP ex_ph "a.com:443" "" 0 ex_w))
              (EvDial (DSocksUDP "127.0.0.1:1080" "a.com:443") ok :: evs).
Proof.
  apply (udp_fallback_self ex_ph "a.com:443" "" 0 ex_w
    (mkSM ["socks5://127.0.0.1:1080"] [1080] "" None 30 false)
    "socks5://127.0.0.1:1080" [] (Url.mkURL "socks5" "127.0.0.1:1080" "" "" ""));
    try reflexivity; vm_compute; reflexivity.
Defined.

End Dial.
