(* ===== verification/UdpProxy.v ===== *)
(** * Transparent UDP ([src/internal/handler.go], lines 581-736)

    The loop of [serveTransparentUDP] is one function per datagram
    ([udp_datagram]) on the state [ustate]: the dialling world, the session table
    and what was sent.  The relay goroutine of a session ends at any time
    ([session_end]).  [resolveUDPTarget] and [isSelfProxyTarget] decide the
    destination; [udpDropLog] throttles the diagnostics and is used by several
    goroutines, so its compare-and-swap loop is a state machine of its own. *)

From S2P Require Import Prelude GoStrings GoNet GoIO GoUrl FakeIP Dns Router ServerManager Dial.

Module UdpProxy.
Import Dial.

(** ** Destinations *)

Record UDPAddr := mkAddr { a_IP : ip; a_Port : Z }.

Definition addr_String (a : UDPAddr) : string :=
  Net.JoinHostPort (if Nat.eqb (length (a_IP a)) 0 then "" else Net.String_ (a_IP a))
    (Strconv.Itoa (a_Port a)).

(** [lookupErr] tells whether the map lookup failed. *)
Definition resolveUDPTarget (ebpfMode : bool) (cmsgDst ebpfDst : option UDPAddr)
    (lookupErr : bool) : option UDPAddr :=
  if ebpfMode && negb lookupErr && (if ebpfDst is Some _ then true else false) then ebpfDst
  else cmsgDst.

Definition isSelfProxyTarget (ph : PH) (dst : option UDPAddr) : bool :=
  match dst with
  | None => false
  | Some d => (a_Port d =? TransPort ph) && Net.IsLoopback (a_IP d)
  end.

(** ** The throttle of the drop diagnostics *)

(** A caller of [allow] with its clock reading; [prev] is the value it loaded. *)
Inductive allow_pc :=
| AStart (now : Z)
| ALoaded (now prev : Z)
| ADone (now : Z) (emitted : bool).

(** One atomic step of a caller on the shared [last]. *)
Definition allow_step (interval last : Z) (pc : allow_pc) : Z * allow_pc :=
  match pc with
  | AStart now => (last, ALoaded now last)
  | ALoaded now prev =>
      if now - prev <? interval then (last, ADone now false)
      else if last =? prev then (now, ADone now true)
      else (last, AStart now)
  | ADone now b => (last, ADone now b)
  end.

Record alog := mkLog { a_last : Z; a_callers : list allow_pc; a_emitted : list Z }.

Inductive allow_sys (interval : Z) : alog → alog → Prop :=
| allow_call s now :
    allow_sys interval s (mkLog (a_last s) (a_callers s ++ [AStart now]) (a_emitted s))
| allow_run s i pc last' pc' :
    a_callers s !! i = Some pc → allow_step interval (a_last s) pc = (last', pc') →
    allow_sys interval s (mkLog last' (<[i := pc']> (a_callers s))
      (match pc, pc' with
       | ALoaded _ _, ADone now true => a_emitted s ++ [now]
       | _, _ => a_emitted s
       end)).

(** A call that runs alone. *)
Definition allow (last now interval : Z) : bool * Z :=
  if now - last <? interval then (false, last) else (true, now).

(** ** One datagram *)

Inductive uevent :=
| UDrop (logged : bool)
| UDnsReply (resp : list byte) (dst src : UDPAddr)
| UOpen (key : string) (up : dialreq)
| UCloseUp (up : dialreq)
| USend (up : dialreq) (data : list byte).

Record ustate := mkU {
  u_world : world;
  u_sessions : gmap string dialreq;
  u_last : Z;
  u_ev : list uevent
}.

Class UEnv := {
  (** can a socket bound to the foreign address be created, for a session, for an
      answer to a DNS query? *)
  spoof_ok : list uevent → UDPAddr → bool;
  dns_spoof_ok : list uevent → UDPAddr → bool;
  proc_of_port : list uevent → Z → string * Z;
  wall_clock : list uevent → Z
}.

Record datagram := mkDg {
  dg_buf : list byte;
  dg_n : nat;
  dg_src : UDPAddr;
  dg_cmsg : option UDPAddr;
  dg_ebpfMode : bool;
  dg_ebpfDst : option UDPAddr;
  dg_lookupErr : bool
}.

Section Udp.
Context `{HE : Env} `{HU : UEnv}.
Context (ph : PH) (has_inspector : bool).

Definition drop_interval : Z := 5 * 10 ^ 9.

(** Drop a datagram with a throttled diagnostic. *)
Definition drop_datagram (s : ustate) : ustate :=
  let '(b, last) := allow (u_last s) (wall_clock (u_ev s)) drop_interval in
  mkU (u_world s) (u_sessions s) last (u_ev s ++ [UDrop b]).

Definition uemit (e : uevent) (s : ustate) : ustate :=
  mkU (u_world s) (u_sessions s) (u_last s) (u_ev s ++ [e]).

Definition session_key (src dst : UDPAddr) : string := addr_String src +:+ "|" +:+ addr_String dst.

Definition dg_data (dg : datagram) : list byte := take (dg_n dg) (dg_buf dg).

(** The process that sent a datagram, when a rule may need it. *)
Definition sender_process (dg : datagram) (s : ustate) : string * Z :=
  if needsProcessMetadata ph (w_sm (u_world s)) && has_inspector
  then proc_of_port (u_ev s) (a_Port (dg_src dg)) else ("", 0).

(** The session part: use the session of the key or open one. *)
Definition relay_datagram (dg : datagram) (dst : UDPAddr) (s : ustate) : outcome unit ustate :=
  let key := session_key (dg_src dg) dst in
  match u_sessions s !! key with
  | Some up => Ok (uemit (USend up (dg_data dg)) s)
  | None =>
      let '(process, pid) := sender_process dg s in
      match dialTargetUDP ph (addr_String dst) process pid (u_world s) with
      | (Panic, _) => Panic
      | (Err _, w) => Ok (mkU w (u_sessions s) (u_last s) (u_ev s))
      | (Ok up, w) =>
          if spoof_ok (u_ev s) dst then
            Ok (mkU w (<[key := up]> (u_sessions s)) (u_last s)
                  (u_ev s ++ [UOpen key up; USend up (dg_data dg)]))
          else Ok (mkU w (u_sessions s) (u_last s) (u_ev s ++ [UOpen key up; UCloseUp up]))
      end
  end.

(** The interception of DNS queries; [None] when the datagram is to be relayed. *)
Definition hijack_datagram (dg : datagram) (dst : UDPAddr) (s : ustate)
    : outcome unit (option ustate * ustate) :=
  if a_Port dst =? 53 then
    match Dns.HijackPacket (Slice (dg_buf dg) (dg_n dg)) (w_pool (u_world s)) with
    | (Panic, _) => Panic
    | (Ok (resp, domain, handled), pool) =>
        let w := u_world s in
        let s := mkU (mkW (w_sm w) pool (w_ev w)) (u_sessions s) (u_last s) (u_ev s) in
        if (handled : bool) && dns_spoof_ok (u_ev s) dst
        then Ok (Some (uemit (UDnsReply resp dst (dg_src dg)) s), s)
        else Ok (None, s)
    | (Err _, _) => Ok (None, s)
    end
  else Ok (None, s).

Definition udp_datagram (dg : datagram) (s : ustate) : outcome unit ustate :=
  match resolveUDPTarget (dg_ebpfMode dg) (dg_cmsg dg) (dg_ebpfDst dg) (dg_lookupErr dg) with
  | None => Ok (drop_datagram s)
  | Some dst =>
      if isSelfProxyTarget ph (Some dst) then Ok (drop_datagram s)
      else
        match hijack_datagram dg dst s with
        | Panic => Panic
        | Err e => Err e
        | Ok (Some s', _) => Ok s'
        | Ok (None, s) => relay_datagram dg dst s
        end
  end.

(** The relay goroutine of a session returns: the entry is deleted and the
    sockets are closed. *)
Definition session_end (key : string) (s : ustate) : ustate :=
  match u_sessions s !! key with
  | Some up => mkU (u_world s) (delete key (u_sessions s)) (u_last s) (u_ev s ++ [UCloseUp up])
  | None => s
  end.

Inductive udp_step : ustate → ustate → Prop :=
| udp_step_datagram dg s s' : udp_datagram dg s = Ok s' → udp_step s s'
| udp_step_end key s : udp_step s (session_end key s).

(** ** Properties *)

(** Upstream connections opened and closed, as multisets. *)
Definition opened (evs : list uevent) : list dialreq :=
  omap (fun e => match e with UOpen _ up => Some up | _ => None end) evs.
Definition closed (evs : list uevent) : list dialreq :=
  omap (fun e => match e with UCloseUp up => Some up | _ => None end) evs.

(** No leak: what was opened is closed or in the table. *)
Definition balanced (s : ustate) : Prop :=
  opened (u_ev s) ≡ₚ closed (u_ev s) ++ (map_to_list (u_sessions s)).*2.

Lemma opened_app (e1 e2 : list uevent) : opened (e1 ++ e2) = opened e1 ++ opened e2.
Proof. apply omap_app. Qed.
Lemma closed_app (e1 e2 : list uevent) : closed (e1 ++ e2) = closed e1 ++ closed e2.
Proof. apply omap_app. Qed.

(** Events that open and close nothing. *)
Lemma balanced_quiet s w last evs :
  balanced s → opened evs = [] → closed evs = [] →
  balanced (mkU w (u_sessions s) last (u_ev s ++ evs)).
Proof.
  unfold balanced. cbn. intros Hb Ho Hc. by rewrite opened_app, closed_app, Ho, Hc, !app_nil_r.
Qed.

Lemma balanced_relay dg dst s s' :
  balanced s → relay_datagram dg dst s = Ok s' → balanced s'.
Proof.
  intros Hb. unfold relay_datagram. destruct (u_sessions s !! session_key (dg_src dg) dst) eqn:Ek.
  { intros [= <-]. by apply balanced_quiet. }
  destruct (sender_process dg s) as [process pid].
  destruct (dialTargetUDP _ _ _ _ _) as [[up|e|] w]; [|intros [= <-]|done].
  - destruct (spoof_ok (u_ev s) dst); intros [= <-]; unfold balanced in *; cbn;
      rewrite opened_app, closed_app; cbn [opened closed omap list_omap].
    + rewrite map_to_list_insert by done. cbn. rewrite app_nil_r, Hb, <- app_assoc.
      apply Permutation_app_head. by rewrite Permutation_app_comm.
    + rewrite Hb, <- !app_assoc. apply Permutation_app_head. by rewrite Permutation_app_comm.
  - rewrite <- (app_nil_r (u_ev s)). by apply balanced_quiet.
Qed.

Lemma balanced_step s s' : balanced s → udp_step s s' → balanced s'.
Proof.
  intros Hb Hs. destruct Hs as [dg s1 s1' Hd|key s1].
  - unfold udp_datagram in Hd.
    assert (∀ s0, balanced s0 → balanced (drop_datagram s0)) as Hdrop.
    { intros s0 Hs. unfold drop_datagram. destruct (allow _ _ _). by apply balanced_quiet. }
    destruct (resolveUDPTarget _ _ _ _) as [dst|]; [|injection Hd as <-; auto].
    destruct (isSelfProxyTarget ph (Some dst)); [injection Hd as <-; auto|].
    unfold hijack_datagram in Hd. destruct (a_Port dst =? 53); [|by eapply balanced_relay].
    destruct (Dns.HijackPacket _ _) as [[[[resp domain] handled]|e|] pool]; [| |done].
    + destruct (handled && _); [injection Hd as <-; by apply balanced_quiet|].
      by eapply balanced_relay; [|done].
    + by eapply balanced_relay.
  - unfold session_end. destruct (u_sessions s1 !! key) as [up|] eqn:Ek; [|done].
    unfold balanced in *. cbn. rewrite opened_app, closed_app. cbn [opened closed omap list_omap].
    rewrite app_nil_r, Hb, <- (map_to_list_delete _ key up Ek). cbn.
    by rewrite <- app_assoc.
Qed.

(** C25. No leaked upstream.  After any sequence of datagrams and of sessions that
    end, in any order, the upstream connections that were opened are exactly
    those that were closed and those in the session table: a failed reply socket
    closes its upstream, and a table entry never hides one. *)
Theorem udp_sessions_balanced w last s :
  rtc udp_step (mkU w ∅ last []) s → balanced s.
Proof.
  intros Hr. remember (mkU w ∅ last []) as s0 eqn:E.
  assert (balanced s0) as H0 by (subst; unfold balanced; cbn; by rewrite map_to_list_empty).
  clear E. induction Hr as [|s0 s1 s2 Hs Hr IH]; [done|]. apply IH. by eapply balanced_step.
Qed.







(** Where the map has no entry, the control message is believed, whatever it says. *)
Lemma cmsg_fallback cmsg ebpfDst : resolveUDPTarget true cmsg ebpfDst true = cmsg.
Proof. done. Qed.



End Udp.

(** ** The throttle *)

(** Consecutive elements are at least [d] apart. *)
Definition spaced (d : Z) (l : list Z) : Prop :=
  ∀ i x y, l !! i = Some x → l !! S i = Some y → x + d ≤ y.

Lemma spaced_snoc d l x y :
  spaced d l → last l = Some x → x + d ≤ y → spaced d (l ++ [y]).
Proof.
  intros Hs Hl Hxy i a b Ha Hb. apply lookup_app_Some in Hb as [Hb|[Hge Hb]].
  - apply (Hs i); [|done]. rewrite lookup_app_l in Ha; [done|].
    apply lookup_lt_Some in Hb. lia.
  - destruct (S i - length l)%nat eqn:E; simplify_eq/=.
    assert (S i = length l) as Hi by lia.
    rewrite lookup_app_l in Ha by lia. rewrite last_lookup in Hl.
    replace (pred (length l)) with i in Hl by lia. simplify_eq. lia.
Qed.

Lemma spaced_trans d l i j x y :
  0 ≤ d → spaced d l → (i < j)%nat → l !! i = Some x → l !! j = Some y → x + d ≤ y.
Proof.
  intros Hd Hs Hij Hi. revert y. induction Hij as [|j Hij IH]; intros y Hj; [by eapply Hs|].
  destruct (lookup_lt_is_Some_2 l j) as [z Hz]; [apply lookup_lt_Some in Hj; lia|].
  specialize (IH z Hz). pose proof (Hs j z y Hz Hj). lia.
Qed.

Lemma allow_sys_inv interval s s' :
  allow_sys interval s s' →
  spaced interval (0 :: a_emitted s) ∧ last (0 :: a_emitted s) = Some (a_last s) →
  spaced interval (0 :: a_emitted s') ∧ last (0 :: a_emitted s') = Some (a_last s').
Proof.
  intros [s1 now|s1 i pc last' pc' Hi Hs]; [done|]. intros [Hsp Hl].
  destruct pc as [now|now prev|now b]; cbn [allow_step] in Hs; [by simplify_eq| |by simplify_eq].
  destruct (Z.ltb_spec (now - prev) interval); [by simplify_eq|].
  destruct (Z.eqb_spec (a_last s1) prev); [|by simplify_eq].
  injection Hs as <- <-. cbn [a_emitted a_last].
  change (0 :: a_emitted s1 ++ [now]) with ((0 :: a_emitted s1) ++ [now]). split.
  - eapply spaced_snoc; [done..|lia].
  - by rewrite last_snoc.
Qed.

(** The throttle works under contention.  However the loads and the
    compare-and-swaps of concurrent callers interleave, and whatever their
    clocks read, two diagnostics that are emitted are at least one interval
    apart. *)
Theorem allow_spaced interval s i j x y :
  0 ≤ interval → rtc (allow_sys interval) (mkLog 0 [] []) s →
  (i < j)%nat → a_emitted s !! i = Some x → a_emitted s !! j = Some y → x + interval ≤ y.
Proof.
  intros Hi Hr Hij Hx Hy.
  assert (spaced interval (0 :: a_emitted s) ∧ last (0 :: a_emitted s) = Some (a_last s)) as [Hs _].
  { remember (mkLog 0 [] []) as s0 eqn:E.
    assert (spaced interval (0 :: a_emitted s0) ∧ last (0 :: a_emitted s0) = Some (a_last s0)) as H0
      by (subst; split; [by intros [|k] a b|done]).
    clear E Hx Hy. induction Hr as [|s0 s1 s2 Hs Hr IH]; [done|].
    apply IH. by eapply allow_sys_inv. }
  by apply (spaced_trans interval (0 :: a_emitted s) (S i) (S j)); [|done|lia|..].
Qed.

(** ** Witnesses *)

#[export] Instance ex_uenv : UEnv := {|
  spoof_ok := fun _ _ => true; dns_spoof_ok := fun _ _ => true; proc_of_port := fun _ _ => ("", 0); wall_clock := fun _ => 10 ^ 10 |}.

(** A direct datagram to 9.9.9.9:443. *)
Definition ex_dg : datagram :=
  mkDg (bytes [1; 2; 3; 0; 0; 0; 0; 0]) 3 (mkAddr (bytes [10; 0; 0; 2]) 40000)
    (Some (mkAddr (bytes [9; 9; 9; 9]) 443)) false None false.

#[local] Instance ex_env_up : Env := {|
  env_dial := fun _ _ => true; env_lookup := fun _ _ => None; env_sm := fun _ sm => sm;
  env_proc_by_port := fun _ _ => None; env_now := fun _ => 0; goos := "linux" |}.

Lemma udp_sessions_balanced_witness :
  ∃ s, rtc (udp_step ex_ph true) (mkU ex_w ∅ 0 []) s ∧
       opened (u_ev s) = [DDirect "udp" "9.9.9.9:443"] ∧ balanced s.
Proof.
  assert (∃ s, udp_datagram ex_ph true ex_dg (mkU ex_w ∅ 0 []) = Ok s ∧
               opened (u_ev s) = [DDirect "udp" "9.9.9.9:443"]) as (s & Hs & Ho)
    by (eexists; split; [vm_compute; reflexivity|vm_compute; reflexivity]).
  assert (rtc (udp_step ex_ph true) (mkU ex_w ∅ 0 []) s) as Hr
    by (eapply rtc_l; [by eapply udp_step_datagram|apply rtc_refl]).
  exists s. split; [done|]. split; [done|].
  exact (udp_sessions_balanced ex_ph true ex_w 0 s Hr).
Defined.


(** Two callers load the same value; one of them emits. *)
Lemma allow_spaced_witness :
  ∃ s, rtc (allow_sys 5) (mkLog 0 [] []) s ∧ a_emitted s = [10; 20] ∧ 10 + 5 ≤ 20.
Proof.
  assert (∃ s, rtc (allow_sys 5) (mkLog 0 [] []) s ∧ a_emitted s = [10; 20]) as (s & Hr & He).
  { eexists. split.
    - eapply rtc_l; [apply (allow_call 5 _ 10)|]. eapply rtc_l; [apply (allow_call 5 _ 20)|].
      eapply rtc_l; [by eapply (allow_run 5 _ 0)|]. eapply rtc_l; [by eapply (allow_run 5 _ 0)|].
      eapply rtc_l; [by eapply (allow_run 5 _ 1)|]. eapply rtc_l; [by eapply (allow_run 5 _ 1)|].
      apply rtc_refl.
    - reflexivity. }
  exists s. split; [done|]. split; [done|].
  apply (allow_spaced 5 s 0 1); [lia|done|lia|by rewrite He|by rewrite He].
Defined.

End UdpProxy.
