(* ===== verification/Relay.v ===== *)
(** * Relaying ([src/internal/tcp.go])

    [RelayWithStats] runs two copies concurrently: one reads the left
    connection and writes the right one, the other the reverse.  They touch
    disjoint halves of the two connections, so the model runs one after the
    other; RelayRun shows that on connections with CloseWrite every order of
    their steps has the same result.  A copy forwards the bytes to come and ends with the condition of the
    source, or with the error of a write. *)

From S2P Require Import Prelude GoStrings GoIO.

Module Relay.

(** A copy: bytes copied, error, source and destination afterwards.  Reading to
    the end of the stream is not an error. *)
Definition io_Copy (dst src : conn) : Z * option io_err * conn * conn :=
  match c_in src with
  | [] => (0, match c_end src with EOF => None | e => Some e end, src, dst)
  | data =>
      match Write data dst with
      | (Ok _, dst) => (Z.of_nat (length data),
                        match c_end src with EOF => None | e => Some e end, set_in src [], dst)
      | (Err e, dst) => (0, Some e, src, dst)
      | (Panic, dst) => (0, None, src, dst)
      end
  end.

(** The chain of wrapped errors, as [errors.Is] walks it. *)
Fixpoint errors_Is (err target : io_err) : bool :=
  match err, target with
  | EOF, EOF | ErrTimeout, ErrTimeout | ErrReset, ErrReset => true
  | ErrWrap _ e, _ => errors_Is e target
  | _, _ => false
  end.

(** [err.Error()], the text. *)
Fixpoint err_text (err : io_err) : string :=
  match err with
  | EOF => "EOF"
  | ErrUnexpectedEOF => "unexpected EOF"
  | ErrShortBuffer => "short buffer"
  | ErrReset => "connection reset by peer"
  | ErrTimeout => "i/o timeout"
  | ErrCode c => "SOCKS error: " +:+ Strconv.Itoa c
  | ErrText m => m
  | ErrWrap m e => m +:+ ": " +:+ err_text e
  end.

Definition isIgnorableError (err : option io_err) : bool :=
  match err with
  | None => true
  | Some e =>
      errors_Is e EOF ||
      Strings.Contains (err_text e) "use of closed network connection" ||
      (if e is ErrTimeout then true else false) || errors_Is e ErrTimeout
  end.

(** [closeWrite] on a connection that has [CloseWrite]: only that half ends. *)
Record relay_result := mkRelay {
  r_nLeft : Z;
  r_nRight : Z;
  r_err : option io_err;
  r_left : conn;
  r_right : conn
}.

Definition RelayWithStats (lconn rconn : conn) : relay_result :=
  let '(nLeft, errLeft, lconn, rconn) := io_Copy rconn lconn in
  let '(nRight, errRight, rconn, lconn) := io_Copy lconn rconn in
  mkRelay nLeft nRight
    (if negb (isIgnorableError errLeft) then errLeft
     else if negb (isIgnorableError errRight) then errRight else None)
    lconn rconn.

Definition Relay (lconn rconn : conn) : option io_err := r_err (RelayWithStats lconn rconn).

(** ** Properties *)

Lemma io_Copy_all dst src k :
  c_wlimit dst = S k → c_end src = EOF →
  ∃ dst', io_Copy dst src = (Z.of_nat (length (c_in src)), None, set_in src [], dst') ∧
    concat (c_out dst') = concat (c_out dst) ++ c_in src ∧ c_in dst' = c_in dst ∧
    c_end dst' = c_end dst ∧ (0 < c_wlimit dst' ∨ c_in src ≠ [])%nat.
Proof.
  intros Hw He. unfold io_Copy. destruct (c_in src) as [|b l] eqn:Ei; rewrite He.
  - exists dst. rewrite app_nil_r, Hw.
    assert (set_in src [] = src) as -> by (unfold set_in; destruct src; cbn in *; by subst).
    split; [done|]. repeat (split; [done|]). left. lia.
  - unfold Write. rewrite Hw. eexists. split; [done|]. cbn.
    rewrite concat_app. cbn. rewrite app_nil_r. auto.
Qed.

Lemma relay_exact lconn rconn k m :
  c_wlimit lconn = S k → c_wlimit rconn = S m → c_end lconn = EOF → c_end rconn = EOF →
  let r := RelayWithStats lconn rconn in
  concat (c_out (r_right r)) = concat (c_out rconn) ++ c_in lconn ∧
  concat (c_out (r_left r)) = concat (c_out lconn) ++ c_in rconn ∧
  r_nLeft r = Z.of_nat (length (c_in lconn)) ∧ r_nRight r = Z.of_nat (length (c_in rconn)) ∧
  r_err r = None.
Proof.
  intros Hk Hm El Er. unfold RelayWithStats.
  destruct (io_Copy_all rconn lconn m Hm El) as (rconn' & -> & Ho & Hi & He & _).
  destruct (io_Copy_all (set_in lconn []) rconn' k) as (lconn' & -> & Ho' & _); [done|congruence|].
  cbn. rewrite Ho', Hi. auto.
Qed.

Lemma relay_counts lconn rconn k m :
  c_wlimit lconn = S k → c_wlimit rconn = S m → c_end lconn = EOF → c_end rconn = EOF →
  r_nLeft (RelayWithStats lconn rconn) = Z.of_nat (length (c_in lconn)) ∧
  r_nRight (RelayWithStats lconn rconn) = Z.of_nat (length (c_in rconn)).
Proof. intros. by edestruct (relay_exact lconn rconn) as (_ & _ & -> & -> & _). Qed.

(** A relay is transparent.  When both peers send bytes and then end their
    streams, each side receives exactly the bytes of the other side in order,
    both counts are exact and no error is reported.  The first count is the
    number of bytes that came from the left connection. *)
Theorem RelayWithStats_exact lconn rconn k m :
  c_wlimit lconn = S k → c_wlimit rconn = S m → c_end lconn = EOF → c_end rconn = EOF →
  let r := RelayWithStats lconn rconn in
  concat (c_out (r_right r)) = concat (c_out rconn) ++ c_in lconn ∧
  concat (c_out (r_left r)) = concat (c_out lconn) ++ c_in rconn ∧
  r_nLeft r = Z.of_nat (length (c_in lconn)) ∧ r_nRight r = Z.of_nat (length (c_in rconn)) ∧
  r_err r = None.
Proof. apply relay_exact. Qed.

Lemma RelayWithStats_exact_witness :
  let r := RelayWithStats (mkConn (bytes [1; 2]) EOF [] 3 false false)
                          (mkConn (bytes [7]) EOF [] 3 false false) in
  concat (c_out (r_right r)) = bytes [1; 2] ∧ r_nLeft r = 2.
Proof.
  destruct (RelayWithStats_exact (mkConn (bytes [1; 2]) EOF [] 3 false false)
    (mkConn (bytes [7]) EOF [] 3 false false) 2 2 eq_refl eq_refl eq_refl eq_refl)
    as (H1 & _ & H2 & _).
  split; [exact H1|exact H2].
Defined.

End Relay.
