(* ===== verification/RelayRun.v ===== *)
(** * Relaying as two goroutines (src/internal/tcp.go)

    RelayWithStats copies in both directions at once.  Here every read, write and
    close is a step of one of the two goroutines, in any order and with any size of
    chunks, and writes may fail.  When a copy ends, its destination is told by
    CloseWrite if the connection has that method and closed altogether if it has
    not, which the other goroutine notices.  [Relay.RelayWithStats], which runs one
    copy after the other, is what every schedule gives on connections that have
    CloseWrite; on others bytes can be lost.  A write delivers its chunk or fails
    and delivers nothing of it (a partial write followed by an error is not
    modelled), and the stream of each peer is finite. *)

From S2P Require Import Prelude GoStrings GoIO Relay.

Module RelayRun.

(** ** State *)

(** A connection: the bytes that its peer sends and what follows them, the bytes that
    reached the peer, whether there is a CloseWrite method, and what was closed. *)
Record side := mkSide {
  s_in : list byte; s_end : io_err; s_out : list byte; s_half : bool; s_wclosed : bool; s_closed : bool }.

Definition set_in (l : list byte) (d : side) : side := mkSide l (s_end d) (s_out d) (s_half d) (s_wclosed d) (s_closed d).
Definition add_out (l : list byte) (d : side) : side := mkSide (s_in d) (s_end d) (s_out d ++ l) (s_half d) (s_wclosed d) (s_closed d).

(** Where a goroutine is: io.Copy reads and writes in turn, then the destination is
    told, then the wait group. *)
Inductive gpc := Reading | Writing (chunk : list byte) | Closing (err : option io_err) | Done (err : option io_err).

(** [gl] copies from the left to the right connection, [gr] the other way. *)
Record sys := mkSys { sl : side; sr : side; gl : gpc; gr : gpc; nLeft : Z; nRight : Z }.

(** ** Steps *)

Definition ErrClosed : io_err := ErrText "use of closed network connection".

Definition closeWrite (d : side) : side :=
  if s_half d then mkSide (s_in d) (s_end d) (s_out d) true true (s_closed d)
  else mkSide (s_in d) (s_end d) (s_out d) false (s_wclosed d) true.

(** The size of a chunk beyond its first byte; a write that fails. *)
Inductive answer := Size (k : nat) | Fail (e : io_err).

(** The end of a copy: the end of the stream is not an error. *)
Definition copy_err (e : io_err) : option io_err := match e with EOF => None | e => Some e end.

Definition copy_step (a : answer) (src dst : side) (pc : gpc) (n : Z) : option (side * side * gpc * Z) :=
  match pc with
  | Reading =>
      if s_closed src then Some (src, dst, Closing (Some ErrClosed), n)
      else match s_in src with
           | [] => Some (src, dst, Closing (copy_err (s_end src)), n)
           | data =>
               let k := match a with Size k => S k | Fail _ => 1%nat end in
               Some (set_in (drop k data) src, dst, Writing (take k data), n)
           end
  | Writing chunk =>
      if s_closed dst || s_wclosed dst then Some (src, dst, Closing (Some ErrClosed), n)
      else match a with
           | Fail e => Some (src, dst, Closing (Some e), n)
           | Size _ => Some (src, add_out chunk dst, Reading, n + Z.of_nat (length chunk))
           end
  | Closing err => Some (src, closeWrite dst, Done err, n)
  | Done _ => None
  end.

Definition exec (left : bool) (a : answer) (s : sys) : option sys :=
  if left then
    match copy_step a (sl s) (sr s) (gl s) (nLeft s) with
    | Some (src, dst, pc, n) => Some (mkSys src dst pc (gr s) n (nRight s))
    | None => None
    end
  else
    match copy_step a (sr s) (sl s) (gr s) (nRight s) with
    | Some (src, dst, pc, n) => Some (mkSys dst src (gl s) pc (nLeft s) n)
    | None => None
    end.

(** [fails]: writes may fail. *)
Definition step (fails : bool) (s s' : sys) : Prop :=
  ∃ left a, (fails = false → match a with Size _ => True | Fail _ => False end) ∧ exec left a s = Some s'.

Definition start (l r : side) : sys := mkSys l r Reading Reading 0 0.

(** After the wait group. *)
Definition result (s : sys) : option (Z * Z * option io_err) :=
  match gl s, gr s with
  | Done errLeft, Done errRight =>
      Some (nLeft s, nRight s,
        if negb (Relay.isIgnorableError errLeft) then errLeft
        else if negb (Relay.isIgnorableError errRight) then errRight else None)
  | _, _ => None
  end.

(** ** Invariant *)

(** One direction: what was sent so far, and what is left. *)
Definition carried (in0 out0 : list byte) (src dst : side) (pc : gpc) (n : Z) : Prop :=
  ∃ sent rest, in0 = sent ++ rest ∧ s_out dst = out0 ++ sent ∧ n = Z.of_nat (length sent) ∧
    match pc with
    | Reading => rest = s_in src
    | Writing chunk => rest = chunk ++ s_in src ∧ chunk ≠ []
    | _ => True
    end.

Definition over (pc : gpc) : bool := match pc with Done _ => true | _ => false end.

(** Without failures, on connections with CloseWrite: a copy ends at the end. *)
Definition complete (e0 : io_err) (in0 out0 : list byte) (dst : side) (pc : gpc) : Prop :=
  match pc with
  | Closing err | Done err => err = copy_err e0 ∧ s_out dst = out0 ++ in0
  | _ => True
  end ∧ (s_wclosed dst = true → over pc = true).

Definition clean (d : side) : Prop := s_half d = true ∧ s_closed d = false.

Lemma copy_carried in0 out0 a src dst pc n src' dst' pc' n' :
  copy_step a src dst pc n = Some (src', dst', pc', n') → carried in0 out0 src dst pc n → carried in0 out0 src' dst' pc' n'.
Proof.
  intros Hs (sent & rest & -> & Ho & -> & Hp). destruct pc as [|chunk|err|err]; cbn in Hs; [| | |done].
  - cbn in Hp. destruct (s_closed src); [injection Hs as <- <- <- <-; by exists sent, rest|].
    destruct (s_in src) as [|b data] eqn:Ei; injection Hs as <- <- <- <-; exists sent, rest; [by split_and!|].
    split_and!; try done; [cbn [s_in set_in]; by rewrite Hp, take_drop|by destruct a].
  - destruct Hp as [-> Hc]. destruct (s_closed dst || s_wclosed dst); [injection Hs as <- <- <- <-; by exists sent, (chunk ++ s_in src)|].
    destruct a; injection Hs as <- <- <- <-; [|by exists sent, (chunk ++ s_in src)].
    exists (sent ++ chunk), (s_in src). split_and!; [by rewrite app_assoc|cbn; by rewrite Ho, app_assoc| |done].
    rewrite length_app. lia.
  - injection Hs as <- <- <- <-. exists sent, rest. split_and!; try done. unfold closeWrite. by destruct (s_half dst).
Qed.

(** What a copy does to the connections: it takes from one and gives to the other. *)
Lemma copy_frame a src dst pc n src' dst' pc' n' : copy_step a src dst pc n = Some (src', dst', pc', n') →
  s_out src' = s_out src ∧ s_end src' = s_end src ∧ s_half src' = s_half src ∧ s_wclosed src' = s_wclosed src ∧
  s_closed src' = s_closed src ∧ s_in dst' = s_in dst ∧ s_end dst' = s_end dst ∧ s_half dst' = s_half dst ∧
  (s_half dst = true → s_closed dst' = s_closed dst).
Proof.
  destruct pc as [|chunk|err|err]; cbn; intros Hs; [| | |done].
  - destruct (s_closed src) eqn:E1; [by injection Hs as <- <- <- <-|]. by destruct (s_in src); injection Hs as <- <- <- <-.
  - destruct (s_closed dst || s_wclosed dst); [by injection Hs as <- <- <- <-|]. by destruct a; injection Hs as <- <- <- <-.
  - injection Hs as <- <- <- <-. unfold closeWrite. destruct (s_half dst) eqn:E; by split_and!.
Qed.


Lemma copy_complete e0 in0 out0 k src dst pc n src' dst' pc' n' :
  copy_step (Size k) src dst pc n = Some (src', dst', pc', n') → carried in0 out0 src dst pc n → s_end src = e0 →
  s_closed src = false → clean dst → complete e0 in0 out0 dst pc → complete e0 in0 out0 dst' pc'.
Proof.
  intros Hs (sent & rest & -> & Ho & _ & Hp) <- Hc [Hh Hd] [Hk Hw]. destruct pc as [|chunk|err|err]; cbn in Hs; [| | |done].
  - rewrite Hc in Hs. cbn in Hp. destruct (s_in src) as [|b data]; injection Hs as <- <- <- <-; (split; [|done]); [|done].
    split; [done|]. by rewrite Ho, Hp, app_nil_r.
  - destruct (s_wclosed dst) eqn:Ew; [by specialize (Hw eq_refl)|]. rewrite Hd in Hs. injection Hs as <- <- <- <-.
    split; [done|]. cbn. by rewrite Ew.
  - injection Hs as <- <- <- <-. unfold closeWrite. rewrite Hh. by split.
Qed.

(** The state of a whole relay, from connections [l] and [r] that nobody closed. *)
Record inv (l r : side) (s : sys) : Prop := mkInv {
  inv_left : carried (s_in l) (s_out r) (sl s) (sr s) (gl s) (nLeft s);
  inv_right : carried (s_in r) (s_out l) (sr s) (sl s) (gr s) (nRight s);
  inv_ends : s_end (sl s) = s_end l ∧ s_end (sr s) = s_end r;
  inv_half : s_half (sl s) = s_half l ∧ s_half (sr s) = s_half r }.

Record whole (l r : side) (s : sys) : Prop := mkWhole {
  whole_clean : clean (sl s) ∧ clean (sr s);
  whole_left : complete (s_end l) (s_in l) (s_out r) (sr s) (gl s);
  whole_right : complete (s_end r) (s_in r) (s_out l) (sl s) (gr s) }.

(** The other direction does not notice. *)
Lemma carried_frame in0 out0 src src' dst dst' pc n : s_in src' = s_in src → s_out dst' = s_out dst →
  carried in0 out0 src dst pc n → carried in0 out0 src' dst' pc n.
Proof. unfold carried. by intros -> ->. Qed.

Lemma exec_inv_relay left a l r s s' : exec left a s = Some s' → inv l r s → inv l r s'.
Proof.
  intros He [I1 I2 [I3 I4] [I5 I6]]. destruct left; cbn in He.
  - destruct (copy_step a (sl s) (sr s) (gl s) (nLeft s)) as [[[[src dst] pc] n]|] eqn:Hs; [|done]. injection He as <-.
    destruct (copy_frame _ _ _ _ _ _ _ _ _ Hs) as (F1 & F2 & F3 & F4 & F5 & F6 & F7 & F8 & _). split; cbn.
    + by eapply copy_carried.
    + by eapply carried_frame.
    + by rewrite F2, F7.
    + by rewrite F3, F8.
  - destruct (copy_step a (sr s) (sl s) (gr s) (nRight s)) as [[[[src dst] pc] n]|] eqn:Hs; [|done]. injection He as <-.
    destruct (copy_frame _ _ _ _ _ _ _ _ _ Hs) as (F1 & F2 & F3 & F4 & F5 & F6 & F7 & F8 & _). split; cbn.
    + by eapply carried_frame.
    + by eapply copy_carried.
    + by rewrite F2, F7.
    + by rewrite F3, F8.
Qed.

Lemma complete_frame e0 in0 out0 dst dst' pc : s_out dst' = s_out dst → s_wclosed dst' = s_wclosed dst →
  complete e0 in0 out0 dst pc → complete e0 in0 out0 dst' pc.
Proof. unfold complete. by intros -> ->. Qed.

Lemma exec_whole left k l r s s' : exec left (Size k) s = Some s' → inv l r s → whole l r s → whole l r s'.
Proof.
  intros He [I1 I2 [I3 I4] _] [[[C1 C2] [C3 C4]] W1 W2]. destruct left; cbn in He.
  - destruct (copy_step (Size k) (sl s) (sr s) (gl s) (nLeft s)) as [[[[src dst] pc] n]|] eqn:Hs; [|done]. injection He as <-.
    destruct (copy_frame _ _ _ _ _ _ _ _ _ Hs) as (F1 & F2 & F3 & F4 & F5 & F6 & F7 & F8 & F9). split; cbn.
    + unfold clean. by rewrite F3, F5, F8, F9.
    + by eapply copy_complete.
    + by eapply complete_frame.
  - destruct (copy_step (Size k) (sr s) (sl s) (gr s) (nRight s)) as [[[[src dst] pc] n]|] eqn:Hs; [|done]. injection He as <-.
    destruct (copy_frame _ _ _ _ _ _ _ _ _ Hs) as (F1 & F2 & F3 & F4 & F5 & F6 & F7 & F8 & F9). split; cbn.
    + unfold clean. by rewrite F3, F5, F8, F9.
    + by eapply complete_frame.
    + by eapply copy_complete.
Qed.

(** ** The end of a relay *)

Definition finished (s : sys) : bool := over (gl s) && over (gr s).

Definition left_steps (src : side) (pc : gpc) : nat :=
  match pc with
  | Reading => 2 * length (s_in src) + 2
  | Writing _ => 2 * length (s_in src) + 3
  | Closing _ => 1
  | Done _ => 0
  end.
Definition remaining (s : sys) : nat := left_steps (sl s) (gl s) + left_steps (sr s) (gr s).

Lemma copy_steps a src dst pc n src' dst' pc' n' : copy_step a src dst pc n = Some (src', dst', pc', n') →
  (left_steps src' pc' < left_steps src pc)%nat.
Proof.
  destruct pc as [|chunk|err|err]; cbn; intros Hs; [| | |done].
  - destruct (s_closed src); [simplify_eq; cbn; lia|].
    destruct (s_in src) as [|b data]; injection Hs as <- <- <- <-; cbn [left_steps set_in s_in]; [cbn; lia|].
    assert (1 ≤ match a with Size k => S k | Fail _ => 1 end)%nat by (destruct a; lia).
    rewrite length_drop. cbn [length]. lia.
  - destruct (s_closed dst || s_wclosed dst); [simplify_eq; cbn; lia|]. destruct a; simplify_eq; cbn; lia.
  - simplify_eq. cbn. lia.
Qed.

Lemma exec_remaining_relay left a s s' : exec left a s = Some s' → (remaining s' < remaining s)%nat.
Proof.
  unfold remaining. destruct left; cbn; intros He.
  - destruct (copy_step a (sl s) (sr s) (gl s) (nLeft s)) as [[[[src dst] pc] n]|] eqn:Hs; [|done]. injection He as <-. cbn.
    pose proof (copy_steps _ _ _ _ _ _ _ _ _ Hs). destruct (copy_frame _ _ _ _ _ _ _ _ _ Hs) as (_ & _ & _ & _ & _ & F & _).
    assert (left_steps dst (gr s) = left_steps (sr s) (gr s)) by (unfold left_steps; by rewrite F). lia.
  - destruct (copy_step a (sr s) (sl s) (gr s) (nRight s)) as [[[[src dst] pc] n]|] eqn:Hs; [|done]. injection He as <-. cbn.
    pose proof (copy_steps _ _ _ _ _ _ _ _ _ Hs). destruct (copy_frame _ _ _ _ _ _ _ _ _ Hs) as (_ & _ & _ & _ & _ & F & _).
    assert (left_steps dst (gl s) = left_steps (sl s) (gl s)) by (unfold left_steps; by rewrite F). lia.
Qed.

Lemma copy_ready src dst pc n : over pc = false → copy_step (Size 0) src dst pc n ≠ None.
Proof. destruct pc; cbn; [|by destruct (_ || _)|done|done]. intros _. destruct (s_closed src); [done|]. by destruct (s_in src). Qed.

Lemma ready fails s : finished s = false → ∃ s', step fails s s'.
Proof.
  unfold finished. destruct (over (gl s)) eqn:El; cbn [andb]; intros Er.
  - pose proof (copy_ready (sr s) (sl s) (gr s) (nRight s) Er) as H.
    destruct (copy_step (Size 0) (sr s) (sl s) (gr s) (nRight s)) as [[[[src dst] pc] n]|] eqn:Hs; [|done].
    eexists. exists false, (Size 0). split; [done|]. cbn. by rewrite Hs.
  - pose proof (copy_ready (sl s) (sr s) (gl s) (nLeft s) El) as H.
    destruct (copy_step (Size 0) (sl s) (sr s) (gl s) (nLeft s)) as [[[[src dst] pc] n]|] eqn:Hs; [|done].
    eexists. exists true, (Size 0). split; [done|]. cbn. by rewrite Hs.
Qed.

(** ** The sequential model *)

Definition as_conn (d : side) : conn := mkConn (s_in d) (s_end d) [s_out d] 2 false false.

Lemma sequential l r :
  let q := Relay.RelayWithStats (as_conn l) (as_conn r) in
  Relay.r_nLeft q = Z.of_nat (length (s_in l)) ∧ Relay.r_nRight q = Z.of_nat (length (s_in r)) ∧
  Relay.r_err q = (if negb (Relay.isIgnorableError (copy_err (s_end l))) then copy_err (s_end l)
    else if negb (Relay.isIgnorableError (copy_err (s_end r))) then copy_err (s_end r) else None) ∧
  concat (c_out (Relay.r_right q)) = s_out r ++ s_in l ∧ concat (c_out (Relay.r_left q)) = s_out l ++ s_in r.
Proof.
  unfold Relay.RelayWithStats, Relay.io_Copy, as_conn. cbn.
  destruct (s_in l) as [|b data], (s_in r) as [|b' data']; cbn; rewrite ?app_nil_r; split_and!; try done;
    by destruct (s_end l), (s_end r).
Qed.

Lemma start_inv l r : inv l r (start l r).
Proof. split; cbn; [exists [], (s_in l)|exists [], (s_in r)|done|done]; by rewrite app_nil_r. Qed.

Lemma nsteps_inv fails n l r s s' : nsteps (step fails) n s s' → inv l r s → inv l r s' ∧ (n + remaining s' ≤ remaining s)%nat.
Proof.
  induction 1 as [|n x y z (left & a & _ & He) _ IH]; intros HI; [done|].
  destruct (IH (exec_inv_relay _ _ _ _ _ _ He HI)) as [H1 H2]. apply exec_remaining_relay in He. split; [done|lia].
Qed.

Lemma nsteps_whole n l r s s' : nsteps (step false) n s s' → inv l r s → whole l r s → whole l r s'.
Proof.
  induction 1 as [|n x y z (left & a & Ha & He) _ IH]; intros HI HW; [done|].
  destruct a as [k|e]; [|by destruct (Ha eq_refl)]. apply IH; [by eapply exec_inv_relay|by eapply exec_whole].
Qed.

Definition open (d : side) : Prop := s_closed d = false ∧ s_wclosed d = false.

Lemma relay_complete n l r s : open l → open r → s_half l = true → s_half r = true →
  nsteps (step false) n (start l r) s → finished s = true →
  let q := Relay.RelayWithStats (as_conn l) (as_conn r) in
  result s = Some (Relay.r_nLeft q, Relay.r_nRight q, Relay.r_err q) ∧
  s_out (sr s) = s_out r ++ s_in l ∧ s_out (sl s) = s_out l ++ s_in r.
Proof.
  intros [Cl Wl] [Cr Wr] Hl Hr Hn Hf q. destruct (sequential l r) as (Q1 & Q2 & Q3 & _). fold q in Q1, Q2, Q3.
  assert (whole l r (start l r)) as HW by (split; cbn; [done|split; cbn; [done|congruence]..]).
  destruct (nsteps_inv _ _ l r _ _ Hn (start_inv l r)) as [[I1 I2 _ _] _].
  destruct (nsteps_whole _ l r _ _ Hn (start_inv l r) HW) as [_ [W1 _] [W2 _]].
  unfold finished in Hf. unfold result. destruct (gl s) as [| | |eL]; try done. destruct (gr s) as [| | |eR]; try done.
  destruct W1 as [-> O1], W2 as [-> O2]. rewrite Q1, Q2, Q3. split; [|done].
  destruct I1 as (sent & rest & _ & E1 & -> & _). destruct I2 as (sent' & rest' & _ & E2 & -> & _).
  rewrite O1 in E1. rewrite O2 in E2. apply app_inv_head in E1, E2. by rewrite E1, E2.
Qed.

(** C24. A relay is transparent, in every schedule.  Two open connections, reads of any
    size, the two goroutines in any order, writes that may fail: at every moment each
    side has received, after what it had, a prefix of what the other sent, and the
    counts are the lengths of the prefixes; a goroutine that is not done can go on,
    and there is a bound for the steps, so the relay returns.  If no write fails and
    both connections have CloseWrite, then in the end everything has arrived and the
    counts and the error are those of the sequential model. *)
Theorem relay_any_schedule fails l r n s :
  open l → open r → nsteps (step fails) n (start l r) s →
  (∃ sent rest, s_in l = sent ++ rest ∧ s_out (sr s) = s_out r ++ sent ∧ nLeft s = Z.of_nat (length sent)) ∧
  (∃ sent rest, s_in r = sent ++ rest ∧ s_out (sl s) = s_out l ++ sent ∧ nRight s = Z.of_nat (length sent)) ∧
  (finished s = false → ∃ s', step fails s s') ∧
  (n ≤ 2 * (length (s_in l) + length (s_in r)) + 4)%nat ∧
  (fails = false → s_half l = true → s_half r = true → finished s = true →
     let q := Relay.RelayWithStats (as_conn l) (as_conn r) in
     result s = Some (Relay.r_nLeft q, Relay.r_nRight q, Relay.r_err q) ∧
     s_out (sr s) = s_out r ++ s_in l ∧ s_out (sl s) = s_out l ++ s_in r).
Proof.
  intros Hl Hr Hn. destruct (nsteps_inv _ _ l r _ _ Hn (start_inv l r)) as [[I1 I2 _ _] Hb]. split_and!.
  - destruct I1 as (sent & rest & ? & ? & ? & _). by exists sent, rest.
  - destruct I2 as (sent & rest & ? & ? & ? & _). by exists sent, rest.
  - apply ready.
  - unfold remaining in Hb. cbn in Hb. lia.
  - intros -> ? ?. by apply (relay_complete n).
Qed.

(** ** Runs *)

Fixpoint run (l : list (bool * answer)) (s : sys) : option sys :=
  match l with
  | [] => Some s
  | x :: l => match exec x.1 x.2 s with Some s => run l s | None => None end
  end.

Definition no_fail (x : bool * answer) : bool := match x.2 with Size _ => true | Fail _ => false end.

Lemma run_steps l : ∀ s s', run l s = Some s' → forallb no_fail l = true → nsteps (step false) (length l) s s'.
Proof.
  induction l as [|[b a] l IH]; cbn; intros s s'; [intros [= <-] _; constructor|].
  destruct (exec b a s) as [s1|] eqn:E; [|done]. intros H [Ha Hl]%andb_prop. econstructor; [|by apply IH].
  exists b, a. split; [|done]. intros _. by destruct a.
Qed.

Definition ex_left : side := mkSide (bytes [1; 2; 3]) EOF [] true false false.
Definition ex_right : side := mkSide (bytes [7; 8]) EOF [] true false false.
(** The left stream in two chunks around the right one. *)
Definition ex_schedule : list (bool * answer) :=
  [(true, Size 1); (false, Size 5); (true, Size 0); (false, Size 0); (false, Size 0); (false, Size 0); (true, Size 9);
   (true, Size 0); (true, Size 0); (true, Size 0)].
Definition ex_end : sys := default (start ex_left ex_right) (run ex_schedule (start ex_left ex_right)).

Lemma relay_any_schedule_witness :
  finished ex_end = true ∧ result ex_end = Some (3, 2, None) ∧ s_out (sr ex_end) = bytes [1; 2; 3] ∧ s_out (sl ex_end) = bytes [7; 8].
Proof.
  assert (run ex_schedule (start ex_left ex_right) = Some ex_end) as Hr by (vm_compute; reflexivity).
  pose proof (run_steps ex_schedule _ _ Hr ltac:(vm_compute; reflexivity)) as Hn.
  assert (finished ex_end = true) as Hf by (vm_compute; reflexivity).
  destruct (relay_any_schedule false ex_left ex_right _ _ ltac:(split; reflexivity) ltac:(split; reflexivity) Hn)
    as (_ & _ & _ & _ & H). destruct (H eq_refl eq_refl eq_refl Hf) as (H1 & H2 & H3).
  split; [exact Hf|]. split; [exact H1|]. split; [exact H2|exact H3].
Defined.

(** ** Connections without CloseWrite

    PeekingConn and peekedConn wrap a connection without its CloseWrite method.  When
    the server ends its stream first, the client is closed altogether: what it still
    sends is lost, and no error is reported. *)
Definition ex_client : side := mkSide (bytes [7; 8]) EOF [] false false false.
Definition ex_server : side := mkSide [] EOF [] true false false.

Lemma upload_truncated :
  ∃ s, run [(true, Size 0); (true, Size 0); (false, Size 0); (false, Size 0)] (start ex_server ex_client) = Some s ∧
    finished s = true ∧ result s = Some (0, 0, None) ∧ s_out (sl s) = [] ∧ s_in ex_client ≠ [].
Proof. eexists. split; [vm_compute; reflexivity|]. by split_and!. Qed.

End RelayRun.
