(* ===== verification/Rewrite.v ===== *)
(** * L7 rewrite rules ([src/internal/rewrite.go])

    Rewrite entries are parsed into rules, each with a compiled regular
    expression, and grouped into buckets by host ([NewRewriteEngine]); a request
    is looked up in the bucket of its host and then in the rules without a host
    ([Match_]).  The regular-expression engine is the class [Regexp]: the
    theorems hold for every engine. *)

From S2P Require Import Prelude GoStrings GoNet GoUrl.

Module Rewrite.

Class Regexp := {
  regex : Type;
  (** [regexp.Compile] *)
  Compile : string → option regex;
  MatchString : regex → string → bool;
  (** [FindStringSubmatchIndex] *)
  FindStringSubmatchIndex : regex → string → list Z;
  (** [ExpandString(nil, template, src, match)] *)
  ExpandString : regex → string → string → list Z → string;
  ReplaceAllString : regex → string → string → string
}.

Inductive RewriteType := RewriteRegex | RewriteWildcard | RewriteExact.
Inductive RewriteAction := RewriteActionProxy | RewriteActionMock.

#[global] Instance RewriteAction_eq_dec : EqDecision RewriteAction.
Proof. solve_decision. Defined.

(** [RewriteAction.String] *)
Definition RewriteAction_String (ra : RewriteAction) : string :=
  match ra with RewriteActionProxy => "PROXY" | RewriteActionMock => "MOCK" end.

Record RewriteResult := mkRes {
  res_Action : RewriteAction;
  res_TargetURL : string;
  res_LocalFile : string
}.

(** [regexp.QuoteMeta]: a backslash before each special byte. *)
Fixpoint QuoteMeta (s : string) : string :=
  match s with
  | EmptyString => EmptyString
  | String c s =>
      if Url.mem c "\.+*?()|[]{}^$" then String "\" (String c (QuoteMeta s))
      else String c (QuoteMeta s)
  end.

(** [strings.Index(s, c)], cutting at the first occurrence. *)
Definition cut_at (s : string) (c : byte) : string :=
  match Strings.IndexByte s c with Some i => stake i s | None => s end.

Definition parseRewriteEntry (entry : string) : string * string :=
  let by_fields :=
    match Strings.Fields entry with
    | a :: b :: _ => (a, b)
    | _ => ("", "")
    end in
  if Strings.HasPrefix (Strings.ToUpper entry) "MAP," then
    match Strings.SplitN entry "," 3 with
    | [_; p; t] => (Strings.TrimSpace p, Strings.TrimSpace t)
    | _ => by_fields
    end
  else by_fields.

Definition extractHostFromRegexPattern (regexBody : string) : string :=
  let cleaned := Strings.ReplaceAll regexBody "\/" "/" in
  let cleaned := Strings.ReplaceAll cleaned "\." "." in
  let cleaned := Strings.TrimPrefix cleaned "^" in
  let cleaned := Strings.TrimPrefix cleaned "https://" in
  let cleaned := Strings.TrimPrefix cleaned "http://" in
  let cleaned := Strings.TrimPrefix cleaned "//" in
  let hostPart :=
    match Strings.IndexAny cleaned "/(?[:" with Some i => stake i cleaned | None => cleaned end in
  let hostPart := Strings.TrimSpace hostPart in
  if Strings.Contains hostPart "." || String.eqb hostPart "localhost" then hostPart else "".

Definition extractHostFromWildcard (pattern : string) : string :=
  let cleaned := Strings.TrimPrefix pattern "https://" in
  let cleaned := Strings.TrimPrefix cleaned "http://" in
  let cleaned := Strings.TrimPrefix cleaned "//" in
  Strings.TrimSpace (cut_at (cut_at cleaned "/") ":").

Definition extractHostFromURL (rawURL : string) : string :=
  let rawURL := if Strings.Contains rawURL "://" then rawURL else "http://" +:+ rawURL in
  match Url.Parse rawURL with
  | Some u => cut_at (Url.Host u) ":"
  | None => ""
  end.

Definition wildcardToRegex (pattern : string) : string :=
  let inner := Strings.Join (QuoteMeta <$> Strings.Split pattern "*") "(.*)" in
  if negb (Strings.HasPrefix pattern "http://") && negb (Strings.HasPrefix pattern "https://") &&
     negb (Strings.HasPrefix pattern "//")
  then "^(?:https?:)?(?://)?" +:+ inner +:+ "$"
  else "^" +:+ inner +:+ "$".

Section Engine.
Context `{RE : Regexp}.

Record RewriteRule := mkRewrite {
  Raw : string;
  Type_ : RewriteType;
  Host : string;
  Regex : regex;
  Target : string;
  Action : RewriteAction
}.

Record RewriteEngine := mkEngine {
  hostBuckets : gmap string (list RewriteRule);
  globalRules : list RewriteRule;
  allHosts : list string
}.

(** The three forms of a rule; [None] is a pattern that does not compile. *)
Definition buildRewriteRule (raw pattern target : string) : option RewriteRule :=
  let action := if Strings.HasPrefix target "file://" then RewriteActionMock
                else RewriteActionProxy in
  let other :=
    if Strings.Contains pattern "*" then
      re ← Compile (wildcardToRegex pattern);
      Some (mkRewrite raw RewriteWildcard (extractHostFromWildcard pattern) re target action)
    else
      re ← Compile ("^" +:+ QuoteMeta pattern +:+ "(?:$|\?|/)");
      Some (mkRewrite raw RewriteExact (extractHostFromURL pattern) re target action) in
  if Strings.HasPrefix pattern "/" && Nat.leb 2 (slen pattern) then
    match Strings.LastIndexByte pattern "/" with
    | Some (S i) =>
        let regexBody := sdrop 1 (stake (S i) pattern) in
        let flags := sdrop (S (S i)) pattern in
        let host := extractHostFromRegexPattern regexBody in
        let body := if Strings.Contains flags "i" then "(?i)" +:+ regexBody else regexBody in
        re ← Compile body;
        Some (mkRewrite raw RewriteRegex host re target action)
    | _ => other
    end
  else other.

(** One entry: nothing, a rule, or an error ([None]). *)
Definition parse_entry (entry : string) : option (option RewriteRule) :=
  let entry := Strings.TrimSpace entry in
  if String.eqb entry "" || Strings.HasPrefix entry "#" then Some None
  else
    let '(pattern, target) := parseRewriteEntry entry in
    if String.eqb pattern "" || String.eqb target "" then Some None
    else Some <$> buildRewriteRule entry pattern target.

(** Filing a rule. *)
Definition add_rule (e : RewriteEngine) (rule : RewriteRule) : RewriteEngine :=
  if String.eqb (Host rule) "" then
    mkEngine (hostBuckets e) (globalRules e ++ [rule]) (allHosts e)
  else
    mkEngine (<[Host rule := default [] (hostBuckets e !! Host rule) ++ [rule]]> (hostBuckets e))
      (globalRules e)
      (if decide (Host rule ∈ allHosts e) then allHosts e else allHosts e ++ [Host rule]).

Fixpoint add_entries (e : RewriteEngine) (entries : list string) : option RewriteEngine :=
  match entries with
  | [] => Some e
  | entry :: entries =>
      match parse_entry entry with
      | None => None
      | Some None => add_entries e entries
      | Some (Some rule) => add_entries (add_rule e rule) entries
      end
  end.

Definition NewRewriteEngine (entries : list string) : option RewriteEngine :=
  add_entries (mkEngine ∅ [] []) entries.

Definition GetInterceptHosts (e : RewriteEngine) : list string := allHosts e.
Definition IsInterceptHost (e : RewriteEngine) (host : string) : bool :=
  if hostBuckets e !! host is Some _ then true else false.

(** The path and query that are appended to a target without [$]. *)
Definition path_and_query (reqURL : string) : string :=
  match Url.Parse reqURL with
  | None => ""
  | Some u => Url.EscapedPath u +:+
              (if String.eqb (Url.RawQuery u) "" then "" else "?" +:+ Url.RawQuery u)
  end.

Definition join_target (targetBase pathAndQuery : string) : string :=
  if Strings.HasSuffix targetBase "/" && Strings.HasPrefix pathAndQuery "/" then
    Strings.TrimSuffix targetBase "/" +:+ pathAndQuery
  else if negb (Strings.HasSuffix targetBase "/") && negb (Strings.HasPrefix pathAndQuery "/") then
    targetBase +:+ "/" +:+ pathAndQuery
  else targetBase +:+ pathAndQuery.

Definition evaluateRule (rule : RewriteRule) (reqURL : string) : option RewriteResult :=
  if negb (MatchString (Regex rule) reqURL) then None
  else
    match Action rule with
    | RewriteActionMock =>
        Some (mkRes RewriteActionMock "" (Strings.TrimPrefix (Target rule) "file://"))
    | RewriteActionProxy =>
        let url :=
          if Strings.Contains (Target rule) "$" then
            let submatches := FindStringSubmatchIndex (Regex rule) reqURL in
            if Nat.ltb 0 (length submatches)
            then ExpandString (Regex rule) (Target rule) reqURL submatches
            else ReplaceAllString (Regex rule) reqURL (Target rule)
          else join_target (Target rule) (path_and_query reqURL) in
        Some (mkRes RewriteActionProxy url "")
    end.

(** The first rule of a list that applies. *)
Fixpoint first_rule (rules : list RewriteRule) (reqURL : string) : option RewriteResult :=
  match rules with
  | [] => None
  | r :: rules => match evaluateRule r reqURL with Some x => Some x | None => first_rule rules reqURL end
  end.

Definition Match_ (e : RewriteEngine) (reqURL host : string) : option RewriteResult :=
  let host := if String.eqb host "" then
                match Url.Parse reqURL with Some u => Url.Hostname u | None => host end
              else host in
  match first_rule (default [] (hostBuckets e !! host)) reqURL with
  | Some r => Some r
  | None => first_rule (globalRules e) reqURL
  end.

(** ** The reference: one list of rules, scanned in order *)

(** The rules of the entries, or [None] when one does not compile. *)
Fixpoint all_rules (entries : list string) : option (list RewriteRule) :=
  match entries with
  | [] => Some []
  | entry :: entries =>
      match parse_entry entry, all_rules entries with
      | Some None, Some rs => Some rs
      | Some (Some r), Some rs => Some (r :: rs)
      | _, _ => None
      end
  end.

Definition of_host (host : string) (rs : list RewriteRule) : list RewriteRule :=
  filter (fun r => Host r = host) rs.

Lemma first_rule_app rs1 rs2 url :
  first_rule (rs1 ++ rs2) url =
  match first_rule rs1 url with Some x => Some x | None => first_rule rs2 url end.
Proof. induction rs1 as [|r rs1 IH]; simpl; [done|]. by destruct (evaluateRule r url). Qed.

(** What the engine holds after filing a list of rules. *)
Record files (e : RewriteEngine) (rs : list RewriteRule) : Prop := {
  files_bucket : ∀ h, h ≠ "" → default [] (hostBuckets e !! h) = of_host h rs;
  files_no_empty : hostBuckets e !! "" = None;
  files_some : ∀ h, is_Some (hostBuckets e !! h) → of_host h rs ≠ [];
  files_global : globalRules e = of_host "" rs;
  files_hosts : ∀ h, h ∈ allHosts e ↔ is_Some (hostBuckets e !! h)
}.

Lemma of_host_snoc h rs r :
  of_host h (rs ++ [r]) = of_host h rs ++ (if decide (Host r = h) then [r] else []).
Proof.
  unfold of_host. by rewrite filter_app.
Qed.

Lemma files_add e rs r : files e rs → files (add_rule e r) (rs ++ [r]).
Proof.
  intros [Hb He Hs Hg Hh]. unfold add_rule.
  destruct (String.eqb_spec (Host r) "") as [E|E].
  - split; cbn; [| done | | |done].
    + intros h Hne. rewrite of_host_snoc, decide_False by congruence. rewrite app_nil_r. auto.
    + intros h Hsome. rewrite of_host_snoc. specialize (Hs h Hsome).
      destruct (of_host h rs); [by destruct Hs|done].
    + rewrite of_host_snoc, decide_True by done. by rewrite Hg.
  - split; cbn.
    + intros h Hne. rewrite of_host_snoc. destruct (decide (Host r = h)) as [<-|Hd].
      * rewrite lookup_insert_eq. cbn. by rewrite Hb.
      * rewrite lookup_insert_ne, app_nil_r by done. auto.
    + by rewrite lookup_insert_ne.
    + intros h. rewrite of_host_snoc. destruct (decide (Host r = h)) as [<-|Hd].
      * intros _. by destruct (of_host (Host r) rs).
      * rewrite lookup_insert_ne, app_nil_r by done. auto.
    + rewrite of_host_snoc, decide_False, app_nil_r by done. done.
    + intros h. destruct (decide (Host r = h)) as [<-|Hd].
      * rewrite lookup_insert_eq. destruct (decide (Host r ∈ allHosts e)); set_solver.
      * rewrite lookup_insert_ne by done. rewrite <- Hh.
        destruct (decide (Host r ∈ allHosts e)); [done|]. set_solver.
Qed.

Lemma files_entries e rs0 entries e' :
  files e rs0 → add_entries e entries = Some e' →
  ∃ rs, all_rules entries = Some rs ∧ files e' (rs0 ++ rs).
Proof.
  revert e rs0. induction entries as [|entry entries IH]; intros e rs0 Hf; cbn.
  - intros [= <-]. exists []. by rewrite app_nil_r.
  - destruct (parse_entry entry) as [[r|]|]; [| |done]; intros H.
    + destruct (IH _ (rs0 ++ [r]) (files_add _ _ _ Hf) H) as (rs & -> & Hrs).
      exists (r :: rs). by rewrite <- app_assoc in Hrs.
    + destruct (IH _ _ Hf H) as (rs & -> & Hrs). by exists rs.
Qed.

(** The buckets are only an index.  For every regular-expression engine, an
    engine built from a list of entries answers a request exactly as a scan of
    the rules in the order they were written, those of the request's host first
    and then those without a host; the hosts to intercept are the hosts of the
    rules. *)
Theorem Match_linear entries e reqURL host :
  NewRewriteEngine entries = Some e → host ≠ "" →
  ∃ rs, all_rules entries = Some rs ∧
    Match_ e reqURL host = first_rule (of_host host rs ++ of_host "" rs) reqURL ∧
    (IsInterceptHost e host = true ↔ of_host host rs ≠ []) ∧
    (host ∈ GetInterceptHosts e ↔ IsInterceptHost e host = true).
Proof.
  intros He Hh. destruct (files_entries (mkEngine ∅ [] []) [] entries e) as (rs & Hrs & Hf);
    [split; cbn; [done|done|by intros h [? ?%lookup_empty_Some]|done|]|done|].
  { intros h. rewrite lookup_empty. split; [set_solver|]. by intros []. }
  cbn in Hf. exists rs. split; [done|]. destruct Hf as [Hb Hne Hs Hg Hhosts].
  split; [|split].
  - unfold Match_. rewrite (proj2 (String.eqb_neq _ _)) by done.
    by rewrite first_rule_app, Hb, Hg.
  - unfold IsInterceptHost. specialize (Hb host Hh). specialize (Hs host).
    destruct (hostBuckets e !! host); cbn in Hb.
    + split; [intros _; by apply Hs|done].
    + rewrite <- Hb. naive_solver.
  - unfold GetInterceptHosts, IsInterceptHost. rewrite Hhosts.
    destruct (hostBuckets e !! host); [naive_solver|]. split; [by intros []|done].
Qed.

(** A wildcard in the host never matches.  The host of a wildcard rule is
    cut out of the pattern with its asterisk and used as a bucket key, so a rule
    such as "*.example.com/api http://localhost:3000" is never consulted for a
    request to a host that contains no asterisk, whatever the
    regular-expression engine says. *)
Theorem wildcard_host_never_matches entry pattern target e reqURL host :
  Strings.TrimSpace entry = entry → entry ≠ "" → Strings.HasPrefix entry "#" = false →
  parseRewriteEntry entry = (pattern, target) → pattern ≠ "" → target ≠ "" →
  Strings.HasPrefix pattern "/" = false →
  "*"%char ∈ to_bytes (extractHostFromWildcard pattern) → Strings.Contains pattern "*" = true →
  NewRewriteEngine [entry] = Some e →
  host ≠ "" → "*"%char ∉ to_bytes host →
  Match_ e reqURL host = None ∧ IsInterceptHost e host = false.
Proof.
  intros Ht Hne Hc Hp Hpn Htn Hsl Hstar Hcont He Hh Hhs.
  unfold NewRewriteEngine in He. cbn [add_entries] in He. unfold parse_entry in He.
  rewrite Ht, Hc, Hp, !(proj2 (String.eqb_neq _ _)) in He by done. cbn [orb] in He.
  unfold buildRewriteRule in He. rewrite Hsl, Hcont in He. cbn [andb] in He.
  destruct (Compile (wildcardToRegex pattern)) as [re|]; [|done]. cbn in He.
  unfold add_rule in He. cbn [Host] in He.
  assert (extractHostFromWildcard pattern ≠ "") as Hx.
  { intros E. rewrite E in Hstar. by apply elem_of_nil in Hstar. }
  rewrite (proj2 (String.eqb_neq _ _)) in He by done. injection He as <-.
  assert (extractHostFromWildcard pattern ≠ host) as Hd by (intros <-; done).
  unfold Match_, IsInterceptHost. cbn [hostBuckets globalRules].
  rewrite (proj2 (String.eqb_neq host "")) by done. rewrite lookup_insert_ne, lookup_empty by done.
  done.
Qed.

End Engine.

(** ** Witnesses: an engine that matches by substring *)

Definition ex_regexp : Regexp := {|
  regex := string; Compile := Some; MatchString := fun re s => Strings.Contains s re;
  FindStringSubmatchIndex := fun _ _ => []; ExpandString := fun _ t _ _ => t;
  ReplaceAllString := fun _ _ t => t |}.

Definition ex_entries : list string := ["# a comment"; "/api\.test\/v1/ http://localhost:3000"].

Lemma Match_linear_witness :
  ∃ e, NewRewriteEngine (RE := ex_regexp) ex_entries = Some e ∧
       ∃ rs, all_rules (RE := ex_regexp) ex_entries = Some rs ∧
             length (of_host (RE := ex_regexp) "api.test" rs) = 1%nat.
Proof.
  destruct (NewRewriteEngine (RE := ex_regexp) ex_entries) as [e|] eqn:E;
    [|vm_compute in E; discriminate].
  exists e. split; [done|].
  destruct (Match_linear (RE := ex_regexp) ex_entries e "https://api.test/v1" "api.test" E)
    as (rs & Hrs & _); [done|].
  exists rs. split; [exact Hrs|]. vm_compute in Hrs. injection Hrs as <-. vm_compute. reflexivity.
Defined.

Lemma wildcard_host_never_matches_witness :
  ∃ e, NewRewriteEngine (RE := ex_regexp) ["*.example.com/api http://localhost:3000"] = Some e ∧
       Match_ (RE := ex_regexp) e "https://a.example.com/api" "a.example.com" = None.
Proof.
  destruct (NewRewriteEngine (RE := ex_regexp) ["*.example.com/api http://localhost:3000"])
    as [e|] eqn:E; [|vm_compute in E; discriminate].
  exists e. split; [done|].
  apply (wildcard_host_never_matches (RE := ex_regexp) "*.example.com/api http://localhost:3000"
    "*.example.com/api" "http://localhost:3000");
    try (vm_compute; reflexivity); try discriminate; try exact E; by apply (bool_decide_unpack _).
Defined.

End Rewrite.
