(* ===== verification/Forward.v ===== *)
(** * Connections ([src/internal/handler.go], lines 413-474, 496-580, 740-1208,
    1373-1604)

    [forward] takes a transparent connection from its original destination to
    the relay: fake addresses and SNI are mapped back to names, the process is
    looked up, loops and blocked targets are refused, intercepted hosts go to
    the HTTP loop ([handlePlainHTTP]), the rest is dialled and relayed.
    [handleUDP] and the SOCKS and HTTP connection handlers are here too; the
    listeners are in the file Listeners.

    The state [fstate] holds the dialling world, the trace counter and the
    events in order.  HTTP messages are records: reading and writing them is
    the standard library's; a client is the list of the requests it sends.
    What the handler asks of other parts (process table, TLS, certificates,
    telemetry switch, upstream responses) is the class [HEnv]; every answer may
    depend on the events so far. *)

From S2P Require Import Prelude GoStrings GoNet GoIO GoUrl FakeIP Router Socks Sni ServerManager Dial Relay Rewrite.

Module Forward.
Import Dial.

Record request := mkReq {
  rq_Method : string;
  rq_URL : string;
  rq_RequestURI : string;
  rq_Path : string;
  rq_Host : string;
  rq_Proto : string;
  rq_Body : list byte
}.

Record response := mkResp { rs_Status : Z; rs_Header : list (string * string); rs_Body : list byte }.

Inductive span := SpanSession | SpanRoute | SpanDial | SpanRelay.

#[global] Instance span_eq_dec : EqDecision span.
Proof. solve_decision. Defined.

Inductive fevent :=
| FSpanStart (s : span)
| FSpanEnd (s : span)
| FSpanStatus (s : span) (ok : bool) (msg : string)
| FTraffic (sent received : Z)
| FCloseClient
| FCloseUpstream (up : dialreq)
| FRaw (text : string)
| FReply (r : response)
| FOutbound (url host xForwardedProto xForwardedHost : string)
| FUpstreamReq (up : dialreq) (req : request)
| FTls (host : string)
| FRelay (up : dialreq)
| FTrace (id url : string) (status : Z)
| FSocksReply (code : Z).

(** The rewrite engine as the handler sees it. *)
Record rewriter := mkRewriter {
  rw_Match : string → string → option Rewrite.RewriteResult;
  rw_IsInterceptHost : string → bool
}.

Definition rewriter_of `{Rewrite.Regexp} (e : Rewrite.RewriteEngine) : rewriter :=
  mkRewriter (Rewrite.Match_ e) (Rewrite.IsInterceptHost e).

Class HEnv := {
  (** [inspector.GetProcessNameByConn] *)
  proc_of_conn : list fevent → string * Z;
  (** [mitm.GetCertificateForHost] succeeds *)
  cert_ok : list fevent → string → bool;
  (** a TLS client handshake over the connection succeeds *)
  tls_ok : list fevent → dialreq → bool;
  otel_active : bool;
  (** the answer of the server to a request, or a failure *)
  server_response : list fevent → dialreq → request → option response;
  (** [http.NewRequest] accepts the method and the URL *)
  request_ok : string → string → bool;
  (** the answer of an HTTP round trip to a URL *)
  round_trip : list fevent → string → option response;
  read_file : string → option (list byte);
  (** [mime.TypeByExtension] *)
  mime_type : string → string;
  (** the upstream side of a relay *)
  upstream_conn : list fevent → dialreq → conn;
  (** writing to the client succeeds *)
  client_write_ok : list fevent → bool
}.

(** One connection, as [net.Conn] presents it. *)
Record client := mkClient {
  cl_conn : conn;
  cl_Local : string;
  cl_remote : option ip;
  cl_isTUN : bool
}.

(** The handler's own configuration, beside the part dialling reads. *)
Record handler := mkHandler {
  h_ph : PH;
  h_rewrite : option rewriter;
  h_inspector : bool;
  (** [relayDetector.IsForwardedRelay] of the platform, by source address *)
  h_relay : option (option ip → bool → Z → bool)
}.

Record fstate := mkF {
  f_w : world;
  f_ev : list fevent;
  f_counter : Z
}.

Definition F (A : Type) : Type := stm fstate unit A.

Section Forward.
Context `{HE : Env} `{HH : HEnv}.
Context (h : handler).

Definition ev (e : fevent) : F unit := fun s =>
  (Ok tt, mkF (f_w s) (f_ev s ++ [e]) (f_counter s)).
Definition ask {A} (f : list fevent → A) : F A := fun s => (Ok (f (f_ev s)), s).
Definition world_of : F world := fun s => (Ok (f_w s), s).

(** A dial inside a connection: its result, with the error as a value. *)
Definition dialling (m : H dialreq) : F (option dialreq) := fun s =>
  match m (f_w s) with
  | (Ok q, w) => (Ok (Some q), mkF w (f_ev s) (f_counter s))
  | (Err _, w) => (Ok None, mkF w (f_ev s) (f_counter s))
  | (Panic, w) => (Panic, mkF w (f_ev s) (f_counter s))
  end.

Definition when (b : bool) (m : F unit) : F unit := if b then m else mret tt.

(** [atomic.AddUint64(&traceCounter, 1)] *)
Definition next_id : F Z := fun s =>
  let n := (f_counter s + 1) mod 2 ^ 64 in (Ok n, mkF (f_w s) (f_ev s) n).

(** ** Names behind fake addresses *)

(** The first step of [forward] and [handleUDP]: the target, and whether it was
    a fake address. *)
Definition restore_fakeip (g : FakeIP.global) (target : string) : outcome unit (string * bool) :=
  match FakeIP.GlobalPool g with
  | None => Ok (target, false)
  | Some p =>
      match Net.SplitHostPort target with
      | None => Ok (target, false)
      | Some (host, port) =>
          match Net.ParseIP host with
          | None => Ok (target, false)
          | Some x =>
              if FakeIP.IsFakeIP p x then
                domain ← FakeIP.GetDomain p x;
                if String.eqb domain "" then Ok (target, false)
                else Ok (Net.JoinHostPort domain port, true)
              else Ok (target, false)
          end
      end
  end.

(** The second step of [forward]: target, host and port after SNI sniffing. *)
Definition sniff_target (c : conn) (target : string) : string * string * string :=
  let '(host, port) := default ("", "") (Net.SplitHostPort target) in
  if (if Net.ParseIP host is Some _ then true else false) && String.eqb port "443" then
    match fst (Sni.sniffSNI (Sni.NewPeekingConn c)) with
    | Ok domain => if String.eqb domain "" then (target, host, port)
                   else (Net.JoinHostPort domain port, domain, port)
    | _ => (target, host, port)
    end
  else (target, host, port).

(** ** TLS to the target *)

Definition dialTargetTLS (target process : string) (pid : Z) : F (option dialreq) :=
  let target := if Strings.Contains target ":" then target else Net.JoinHostPort target "443" in
  up ← dialling (dialTarget (h_ph h) target process pid);
  match up with
  | None => mret None
  | Some q =>
      ok ← ask (fun evs => tls_ok evs q);
      if (ok : bool) then mret (Some q) else _ ← ev (FCloseUpstream q); mret None
  end.

(** ** HTTP *)

Definition bad_gateway : response := mkResp 502 [] [].

(** [filepath.Ext] *)
Definition filepath_Ext (path : string) : string :=
  let elem := match Strings.LastIndexByte path "/" with Some i => sdrop (S i) path | None => path end in
  match Strings.LastIndexByte elem "." with Some i => sdrop i elem | None => "" end.

Definition serveLocalFile (path : string) : F unit :=
  match read_file path with
  | None => ev (FReply (mkResp 404 [("Content-Type", "text/plain")]
                          (to_bytes "Local file not found by vproxy")))
  | Some data =>
      let contentType := mime_type (filepath_Ext path) in
      let contentType := if String.eqb contentType "" then "application/octet-stream"
                         else contentType in
      ev (FReply (mkResp 200
        [("Content-Type", contentType);
         ("Content-Length", Strconv.Itoa (Z.of_nat (length data)));
         ("Access-Control-Allow-Origin", "*");
         ("Access-Control-Allow-Methods", "GET, POST, OPTIONS, PUT, DELETE, PATCH");
         ("Access-Control-Allow-Headers", "*");
         ("Server", "vproxy-mitm")] data))
  end.

Definition forwardRewriteRequest (req : request) (targetURL origHost origFullURL : string)
    : F unit :=
  match Url.Parse targetURL with
  | None => ev (FReply bad_gateway)
  | Some targetU =>
      if negb (request_ok (rq_Method req) targetURL) then ev (FReply bad_gateway)
      else
      _ ← ev (FOutbound targetURL (Url.Host targetU) "https" origHost);
      resp ← ask (fun evs => round_trip evs targetURL);
      match resp with
      | None => ev (FReply bad_gateway)
      | Some r =>
          n ← next_id;
          _ ← ev (FTrace ("rw-" +:+ Strconv.Sprintf_04d n) origFullURL (rs_Status r));
          ev (FReply r)
      end
  end.

(** [fmt.Sprintf("https://%s%s", displayHost, ...)] *)
Definition host_only (host : string) : string :=
  match Net.SplitHostPort host with Some (x, _) => x | None => host end.
Definition full_url (host : string) (req : request) : string :=
  let displayHost :=
    match Net.SplitHostPort host with
    | Some (x, p) => if String.eqb p "443" || String.eqb p "80" then x else host
    | None => host
    end in
  "https://" +:+ displayHost +:+ rq_RequestURI req.

(** What a rewrite rule makes of a request. *)
Definition rewrite_of (fullURL hostOnly : string) : option Rewrite.RewriteResult :=
  match h_rewrite h with
  | None => None
  | Some re =>
      match rw_Match re fullURL hostOnly with
      | Some r =>
          match Rewrite.res_Action r with
          | Rewrite.RewriteActionMock => Some r
          | Rewrite.RewriteActionProxy =>
              if String.eqb (Rewrite.res_TargetURL r) "" then None else Some r
          end
      | None => None
      end
  end.

(** The local file of a legacy MAP rule. *)
Definition mapped_file (r : Router.RuleManager) (fullURL : string) : option string :=
  let '(action, target) := Router.MatchURL r fullURL in
  if bool_decide (action = Router.ActionMap) && Strings.HasPrefix target "file://"
  then Some (Strings.TrimPrefix target "file://") else None.

(** The rule manager is dereferenced. *)
Definition rules : F Router.RuleManager :=
  match rm (h_ph h) with None => crash | Some r => mret r end.

(** One request of [handlePlainHTTP]; the answer tells whether the loop goes on. *)
Definition plain_request (server : option dialreq) (host : string) (req : request) : F bool :=
  let fullURL := full_url host req in
  match rewrite_of fullURL (host_only host) with
  | Some rw =>
      match Rewrite.res_Action rw with
      | Rewrite.RewriteActionMock =>
          _ ← serveLocalFile (Rewrite.res_LocalFile rw);
          n ← next_id;
          _ ← ev (FTrace ("mock-" +:+ Strconv.Sprintf_04d n) fullURL 200);
          mret true
      | Rewrite.RewriteActionProxy =>
          _ ← forwardRewriteRequest req (Rewrite.res_TargetURL rw) host fullURL;
          mret true
      end
  | None =>
      r ← rules;
      match mapped_file r fullURL with
      | Some localPath =>
          _ ← serveLocalFile localPath;
          n ← next_id;
          _ ← ev (FTrace ("map-" +:+ Strconv.Sprintf_04d n) fullURL 200);
          mret true
      | None =>
          match server with
          | None => _ ← ev (FReply bad_gateway); mret false
          | Some up =>
              _ ← ev (FUpstreamReq up req);
              resp ← ask (fun evs => server_response evs up req);
              match resp with
              | None => mret false
              | Some r =>
                  n ← next_id;
                  _ ← ev (FTrace ("trace-" +:+ Strconv.Sprintf_04d n) fullURL (rs_Status r));
                  ok ← ask client_write_ok;
                  _ ← ev (FReply r);
                  mret ok
              end
          end
      end
  end.

(** The loop over the requests of the client, until one cannot be read. *)
Fixpoint plain_loop (server : option dialreq) (host : string) (reqs : list request) : F unit :=
  match reqs with
  | [] => mret tt
  | req :: reqs =>
      go ← plain_request server host req;
      if (go : bool) then plain_loop server host reqs else mret tt
  end.

(** [handlePlainHTTP]: [reqs] are the requests that can be read; with none at all
    the bytes are relayed to the server.  Both ends are closed by the defers. *)
Definition handlePlainHTTP (server : option dialreq) (host : string) (reqs : list request)
    : F unit :=
  _ ← match reqs, server with
      | [], Some up => ev (FRelay up)
      | [], None => mret tt
      | _, _ => plain_loop server host reqs
      end;
  _ ← match server with Some up => ev (FCloseUpstream up) | None => mret tt end;
  ev FCloseClient.

(** ** [forward] *)

(** The process behind the connection, when a rule may need it. *)
Definition conn_process : F (string * Z) :=
  w ← world_of;
  if needsProcessMetadata (h_ph h) (w_sm w) && h_inspector h then ask proc_of_conn else mret ("", 0).

(** The action of the rules for the host; without rules the zero action. *)
Definition forward_action (host process : string) (pid : Z) : Router.RuleAction :=
  match rm (h_ph h) with
  | None => Router.ActionDirect
  | Some r => fst (Router.MatchContext r (Router.mkCtx host 0 process pid ""))
  end.

Definition is_intercept (a : Router.RuleAction) : bool :=
  bool_decide (a = Router.ActionIntercept) || bool_decide (a = Router.ActionMap).

Definition relay_with (up : dialreq) (c : conn) : F Relay.relay_result :=
  _ ← ev (FRelay up);
  ask (fun evs => Relay.RelayWithStats (upstream_conn evs up) c).

(** From the routing decision on: MITM, direct bypass or tunnel. *)
Definition tunnel (c : conn) (target process : string) (pid : Z) : F unit :=
  _ ← when otel_active (ev (FSpanStart SpanDial));
  up ← dialling (dialTarget (h_ph h) target process pid);
  match up with
  | None =>
      when otel_active (_ ← ev (FSpanStatus SpanDial false "dial failed");
                        _ ← ev (FSpanEnd SpanDial);
                        ev (FSpanStatus SpanSession false "dial failed"))
  | Some q =>
      _ ← when otel_active (_ ← ev (FSpanStatus SpanDial true "connected"); ev (FSpanEnd SpanDial));
      _ ← when otel_active (ev (FSpanStart SpanRelay));
      r ← relay_with q c;
      let ok := if Relay.r_err r is None then true else false in
      _ ← when otel_active (_ ← ev (FTraffic (Relay.r_nLeft r) (Relay.r_nRight r));
                            _ ← ev (FSpanStatus SpanRelay ok "closed");
                            ev (FSpanEnd SpanRelay));
      _ ← when otel_active (ev (FSpanStatus SpanSession ok "session completed"));
      ev (FCloseUpstream q)
  end.

Definition bypass (c : conn) (target : string) : F unit :=
  up ← dialling (dialDirect (h_ph h) target);
  match up with
  | None => when otel_active (ev (FSpanStatus SpanSession false "dial failed"))
  | Some q => _ ← relay_with q c; ev (FCloseUpstream q)
  end.

Definition forwarded (cl : client) (isFakeIP : bool) (pid : Z) : bool :=
  match h_relay h with None => false | Some f => f (cl_remote cl) isFakeIP pid end.

Definition route_conn (cl : client) (reqs : list request) (target host port process : string)
    (pid : Z) (isFakeIP : bool) : F unit :=
  let action := forward_action host process pid in
  let mitm := (match h_rewrite h with Some re => rw_IsInterceptHost re host | None => false end) ||
              is_intercept action in
  let plain :=
    if forwarded cl isFakeIP pid then bypass (cl_conn cl) target
    else tunnel (cl_conn cl) target process pid in
  if bool_decide (action = Router.ActionBlock) then
    _ ← when otel_active (ev (FSpanStatus SpanSession false "blocked by policy"));
    ev FCloseClient
  else
    _ ← when otel_active (_ ← ev (FSpanStart SpanRoute); ev (FSpanEnd SpanRoute));
    if String.eqb port "443" && mitm then
      ok ← ask (fun evs => cert_ok evs host);
      if (ok : bool) then
        _ ← ev (FTls host);
        server ← dialTargetTLS target process pid;
        handlePlainHTTP server host reqs
      else plain
    else if String.eqb port "80" && mitm then
      server ← dialling (dialTarget (h_ph h) target process pid);
      handlePlainHTTP server host reqs
    else plain.

Definition forward (cl : client) (reqs : list request) (target : string) : F unit := fun s =>
  match restore_fakeip (w_pool (f_w s)) target with
  | Panic | Err _ => (Panic, s)
  | Ok (target, isFakeIP) =>
      let '(target, host, port) := sniff_target (cl_conn cl) target in
      ('(process, pid) ← conn_process;
       _ ← next_id;
       _ ← when otel_active (ev (FSpanStart SpanSession));
       _ ← (if String.eqb target (cl_Local cl) && negb (cl_isTUN cl)
            then when otel_active (ev (FSpanStatus SpanSession false "loop detected"))
            else route_conn cl reqs target host port process pid isFakeIP);
       when otel_active (ev (FSpanEnd SpanSession))) s
  end.

(** ** The other connection handlers *)

(** [handleUDP]: one intercepted UDP association. *)
Definition handleUDP (cl : client) (target : string) : F unit := fun s =>
  match restore_fakeip (w_pool (f_w s)) target with
  | Panic | Err _ => (Panic, s)
  | Ok (target, isFakeIP) =>
      ('(process, pid) ← conn_process;
       up ← (if forwarded cl isFakeIP pid then dialling (direct_udp target)
             else dialling (dialTargetUDP (h_ph h) target process pid));
       _ ← match up with
           | None => mret tt
           | Some q => _ ← relay_with q (cl_conn cl); ev (FCloseUpstream q)
           end;
       ev FCloseClient) s
  end.

(** The body of [serveSocks] for one accepted connection. *)
Definition serve_socks_conn (cl : client) : F unit :=
  let '(r, c) := Socks.Handshake (cl_conn cl) in
  _ ← match r with
      | Ok (tgt, _) =>
          match Socks.Addr_String (sl_of tgt) with
          | Ok target =>
              _ ← next_id;
              up ← dialling (dialTarget (h_ph h) target "" 0);
              match up with
              | None => ev (FSocksReply Socks.ErrConnectionRefused)
              | Some q =>
                  _ ← ev (FSocksReply 0);
                  ok ← ask client_write_ok;
                  _ ← (if (ok : bool) then _ ← relay_with q c; mret tt else mret tt);
                  ev (FCloseUpstream q)
              end
          | Err _ => mret tt
          | Panic => crash
          end
      | Err _ => mret tt
      | Panic => crash
      end;
  ev FCloseClient.

(** The body of [serveTransparent]: the original destination is looked up in the
    eBPF map and, failing that, asked of the socket. *)
Definition original_dst (map_dst : option (option string)) (sock_dst : option string)
    : option string :=
  match map_dst with
  | Some (Some t) => Some t
  | _ => sock_dst
  end.
Definition serve_transparent_conn (cl : client) (reqs : list request)
    (map_dst : option (option string)) (sock_dst : option string) : F unit :=
  _ ← match original_dst map_dst sock_dst with
      | None => mret tt
      | Some target => forward cl reqs target
      end;
  ev FCloseClient.

Definition forwardPlainHTTPRequest (req : request) (process : string) (pid : Z) : F unit :=
  let target := if Strings.Contains (rq_Host req) ":" then rq_Host req
                else Net.JoinHostPort (rq_Host req) "80" in
  up ← dialling (dialTarget (h_ph h) target process pid);
  match up with
  | None => ev (FReply bad_gateway)
  | Some q =>
      _ ← ev (FUpstreamReq q req);
      resp ← ask (fun evs => server_response evs q req);
      _ ← match resp with Some r => ev (FReply r) | None => mret tt end;
      ev (FCloseUpstream q)
  end.

Definition forbidden : response :=
  mkResp 403 [("X-Block-Reason", "policy"); ("Content-Length", "0"); ("Connection", "close")] [].
Definition crlf : string := of_bytes (bytes [13; 10]).
Definition established : string := "HTTP/1.1 200 Connection Established" +:+ crlf +:+ crlf.
Definition connect_forbidden : string :=
  "HTTP/1.1 403 Forbidden" +:+ crlf +:+ "X-Block-Reason: policy" +:+ crlf +:+
  "Content-Length: 0" +:+ crlf +:+ "Connection: close" +:+ crlf +:+ crlf.

(** The body of [serveHTTP] for a request [req] that was read; [reqs] are the
    requests inside an intercepted tunnel. *)
Definition serve_http_conn (cl : client) (req : request) (reqs : list request) : F unit :=
  '(process, pid) ← conn_process;
  let hostOnly := host_only (rq_Host req) in
  let action_of (r : Router.RuleManager) :=
    fst (Router.MatchContext r (Router.mkCtx hostOnly 0 process pid "")) in
  _ ← (if negb (String.eqb (rq_Method req) "CONNECT") then
         let fullURL := if Strings.Contains (rq_URL req) "://" then rq_URL req
                        else "http://" +:+ rq_Host req +:+ rq_RequestURI req in
         match rewrite_of fullURL hostOnly with
         | Some rw =>
             match Rewrite.res_Action rw with
             | Rewrite.RewriteActionMock => serveLocalFile (Rewrite.res_LocalFile rw)
             | Rewrite.RewriteActionProxy =>
                 forwardRewriteRequest req (Rewrite.res_TargetURL rw) hostOnly fullURL
             end
         | None =>
             r ← rules;
             if bool_decide (action_of r = Router.ActionBlock) then ev (FReply forbidden)
             else forwardPlainHTTPRequest req process pid
         end
       else
         r ← rules;
         let action := action_of r in
         let isRewriteHost :=
           match h_rewrite h with Some re => rw_IsInterceptHost re hostOnly | None => false end in
         if bool_decide (action = Router.ActionBlock) then ev (FRaw connect_forbidden)
         else if is_intercept action || isRewriteHost then
           server ← (if isRewriteHost then mret None
                     else dialTargetTLS (rq_Host req) process pid);
           ok ← ask client_write_ok;
           _ ← ev (FRaw established);
           cert ← ask (fun evs => cert_ok evs (rq_Host req));
           if (ok : bool) && (cert : bool) then
             _ ← ev (FTls (rq_Host req)); handlePlainHTTP server (rq_Host req) reqs
           else match server with Some q => ev (FCloseUpstream q) | None => mret tt end
         else
           ok ← ask client_write_ok;
           _ ← ev (FRaw established);
           if (ok : bool) then forward cl reqs (rq_Host req) else mret tt);
  ev FCloseClient.

(** ** Effects of the calls on the events *)

(** Starts minus ends of a span. *)
Definition net1 (sp : span) (e : fevent) : Z :=
  match e with
  | FSpanStart x => if decide (x = sp) then 1 else 0
  | FSpanEnd x => if decide (x = sp) then -1 else 0
  | _ => 0
  end.
Definition net (sp : span) (evs : list fevent) : Z := foldr (fun e z => net1 sp e + z) 0 evs.

Lemma net_app sp e1 e2 : net sp (e1 ++ e2) = net sp e1 + net sp e2.
Proof. induction e1; simpl; lia. Qed.

(** A call that appends events with the net effect [d], unless it does not
    return normally. *)
Definition effect {A} (d : span → Z) (m : F A) : Prop := ∀ s,
  ∃ evs, f_ev (snd (m s)) = f_ev s ++ evs ∧
         (is_ok (fst (m s)) = true → ∀ sp, net sp evs = d sp).

Lemma effect_bind {A B} d1 d2 d (m : F A) (f : A → F B) :
  effect d1 m → (∀ a, effect d2 (f a)) → (∀ sp, d sp = d1 sp + d2 sp) → effect d (m ≫= f).
Proof.
  intros Hm Hf Hd s. unfold mbind, stm_bind.
  destruct (Hm s) as (e1 & He1 & Hn1). destruct (m s) as [[a|e|] s1]; cbn in *.
  - destruct (Hf a s1) as (e2 & He2 & Hn2). exists (e1 ++ e2).
    split; [by rewrite He2, He1, app_assoc|]. intros Ho sp. rewrite net_app, Hd, Hn1, Hn2 by done. done.
  - exists e1. done.
  - exists e1. done.
Qed.

Definition zero : span → Z := fun _ => 0.
Definition quiet {A} (m : F A) : Prop := effect zero m.

Lemma quiet_bind {A B} (m : F A) (f : A → F B) : quiet m → (∀ a, quiet (f a)) → quiet (m ≫= f).
Proof. intros Hm Hf. by eapply effect_bind. Qed.

Lemma quiet_then {A B} d (m : F A) (f : A → F B) :
  quiet m → (∀ a, effect d (f a)) → effect d (m ≫= f).
Proof. intros Hm Hf. eapply effect_bind; [exact Hm|exact Hf|]. intros sp. unfold zero. lia. Qed.

Lemma then_quiet {A B} d (m : F A) (f : A → F B) :
  effect d m → (∀ a, quiet (f a)) → effect d (m ≫= f).
Proof. intros Hm Hf. eapply effect_bind; [exact Hm|exact Hf|]. intros sp. unfold zero. lia. Qed.

Lemma effect_ev e : effect (fun sp => net1 sp e) (ev e).
Proof. intros s. exists [e]. split; [done|]. intros _ sp. simpl. lia. Qed.

Lemma quiet_same {A} (m : F A) : (∀ s, f_ev (snd (m s)) = f_ev s) → quiet m.
Proof. intros H s. exists []. by rewrite H, app_nil_r. Qed.

Lemma quiet_ret {A} (a : A) : quiet (mret a : F A).
Proof. by apply quiet_same. Qed.
Lemma quiet_crash {A} : quiet (crash : F A).
Proof. by apply quiet_same. Qed.
Lemma quiet_ask {A} (f : list fevent → A) : quiet (ask f).
Proof. by apply quiet_same. Qed.
Lemma quiet_world : quiet world_of.
Proof. by apply quiet_same. Qed.
Lemma quiet_next : quiet next_id.
Proof. by apply quiet_same. Qed.
Lemma quiet_dialling m : quiet (dialling m).
Proof. apply quiet_same. intros s. unfold dialling. by destruct (m (f_w s)) as [[]]. Qed.
Lemma quiet_ev e : (∀ sp, net1 sp e = 0) → quiet (ev e).
Proof. intros H s. destruct (effect_ev e s) as (evs & He & Hn). exists evs. split; [done|].
  intros Ho sp. by rewrite Hn. Qed.

Lemma quiet_rules : quiet rules.
Proof. unfold rules. case_match; [apply quiet_ret|apply quiet_crash]. Qed.

Hint Resolve quiet_ret quiet_crash quiet_ask quiet_world quiet_next quiet_dialling quiet_rules : core.
Hint Extern 1 (quiet (ev _)) => by apply quiet_ev : core.

(** Calls built from quiet ones by sequencing and case analysis. *)
Ltac quiet :=
  repeat first
    [ progress intros
    | solve [auto]
    | apply quiet_bind
    | case_match ].

Lemma quiet_serveLocalFile p : quiet (serveLocalFile p).
Proof. unfold serveLocalFile. quiet. Qed.
Lemma quiet_rewriteRequest req t o f : quiet (forwardRewriteRequest req t o f).
Proof. unfold forwardRewriteRequest. quiet. Qed.
Hint Resolve quiet_serveLocalFile quiet_rewriteRequest : core.

Lemma quiet_plain_request server host req : quiet (plain_request server host req).
Proof. unfold plain_request. quiet. Qed.
Hint Resolve quiet_plain_request : core.

Lemma quiet_plain_loop server host reqs : quiet (plain_loop server host reqs).
Proof. induction reqs as [|r reqs IH]; simpl; quiet. Qed.
Hint Resolve quiet_plain_loop : core.

Lemma quiet_handlePlainHTTP server host reqs : quiet (handlePlainHTTP server host reqs).
Proof. unfold handlePlainHTTP. quiet. Qed.
Lemma quiet_dialTargetTLS t p pid : quiet (dialTargetTLS t p pid).
Proof. unfold dialTargetTLS. quiet. Qed.
Lemma quiet_conn_process : quiet conn_process.
Proof. unfold conn_process. quiet. Qed.
Lemma quiet_relay_with up c : quiet (relay_with up c).
Proof. unfold relay_with. quiet. Qed.
Hint Resolve quiet_handlePlainHTTP quiet_dialTargetTLS quiet_conn_process quiet_relay_with : core.

Lemma quiet_when b m : quiet m → quiet (when b m).
Proof. by destruct b. Qed.
Hint Resolve quiet_when : core.

(** The span of the dial and the span of the relay are ended in the tunnel. *)
Lemma quiet_tunnel c target process pid : quiet (tunnel c target process pid).
Proof.
  unfold tunnel, when. destruct otel_active; [|quiet].
  eapply (effect_bind (fun sp => net1 sp (FSpanStart SpanDial)) (fun sp => net1 sp (FSpanEnd SpanDial)));
    [apply effect_ev| |by intros []].
  intros _. apply quiet_then; [auto|]. intros [q|]; cbn beta iota.
  - apply then_quiet.
    { apply quiet_then; [auto|]. intros _. apply effect_ev. }
    intros _. eapply (effect_bind (fun sp => net1 sp (FSpanStart SpanRelay))
             (fun sp => net1 sp (FSpanEnd SpanRelay))); [apply effect_ev|intros _|by intros []].
    apply quiet_then; [auto|]. intros r. apply then_quiet; [|quiet].
    apply quiet_then; [auto|]. intros _. apply quiet_then; [auto|]. intros _. apply effect_ev.
  - apply quiet_then; [auto|]. intros _. apply then_quiet; [apply effect_ev|auto].
Qed.

Lemma quiet_bypass c target : quiet (bypass c target).
Proof. unfold bypass. quiet. Qed.
Hint Resolve quiet_tunnel quiet_bypass : core.

Lemma quiet_route_conn cl reqs target host port process pid fake :
  quiet (route_conn cl reqs target host port process pid fake).
Proof.
  unfold route_conn. case_match; [quiet|].
  apply quiet_bind; [|quiet]. apply quiet_when.
  eapply effect_bind; [apply effect_ev|intros _; apply effect_ev|by intros []].
Qed.
Hint Resolve quiet_route_conn : core.

(** Spans are paired.  Whatever happens to a connection in [forward] (loop,
    block, interception, bypass, failed or completed tunnel), every telemetry
    span it started has been ended when it returns. *)
Theorem forward_spans_paired cl reqs target s u s' :
  forward cl reqs target s = (Ok u, s') →
  ∃ evs, f_ev s' = f_ev s ++ evs ∧ ∀ sp, net sp evs = 0.
Proof.
  unfold forward. intros H. destruct (restore_fakeip _ _) as [[t fake]|e|]; [|done..].
  destruct (sniff_target (cl_conn cl) t) as [[t' host] port].
  match type of H with ?m s = _ => assert (quiet m) as Hq end.
  { apply quiet_bind; [auto|]. intros [process pid]. apply quiet_bind; [auto|]. intros _.
    unfold when. destruct otel_active; [|quiet].
    eapply (effect_bind (fun sp => net1 sp (FSpanStart SpanSession))
             (fun sp => net1 sp (FSpanEnd SpanSession))); [apply effect_ev|intros _|by intros []].
    apply quiet_then; [case_match; quiet|]. intros _. apply effect_ev. }
  destruct (Hq s) as (evs & He & Hn). rewrite H in He, Hn. exists evs. split; [done|].
  by apply Hn.
Qed.

(** ** Blocked targets *)

(** Events that neither reach a server nor pass data on. *)
Definition harmless (e : fevent) : bool :=
  match e with
  | FSpanStart _ | FSpanEnd _ | FSpanStatus _ _ _ | FCloseClient | FReply _ | FRaw _ => true
  | _ => false
  end.

(** A call that only makes harmless events and leaves the dialling world alone. *)
Definition inert {A} (m : F A) : Prop := ∀ s,
  f_w (snd (m s)) = f_w s ∧
  ∃ evs, f_ev (snd (m s)) = f_ev s ++ evs ∧ Forall (fun e => harmless e = true) evs.

Lemma inert_bind {A B} (m : F A) (f : A → F B) : inert m → (∀ a, inert (f a)) → inert (m ≫= f).
Proof.
  intros Hm Hf s. unfold mbind, stm_bind. destruct (Hm s) as (Hw & e1 & He & H1).
  destruct (m s) as [[a|e|] s1]; cbn in *; [|by eauto..].
  destruct (Hf a s1) as (Hw2 & e2 & He2 & H2). split; [congruence|].
  exists (e1 ++ e2). split; [by rewrite He2, He, app_assoc|]. by apply Forall_app.
Qed.

Lemma inert_ev e : harmless e = true → inert (ev e).
Proof. intros H s. split; [done|]. exists [e]. split; [done|]. by constructor. Qed.
Lemma inert_same {A} (m : F A) :
  (∀ s, f_w (snd (m s)) = f_w s ∧ f_ev (snd (m s)) = f_ev s) → inert m.
Proof. intros H s. destruct (H s) as [-> ->]. split; [done|]. exists []. by rewrite app_nil_r. Qed.
Lemma inert_ret {A} (a : A) : inert (mret a : F A).
Proof. by apply inert_same. Qed.
Lemma inert_when b m : inert m → inert (when b m).
Proof. destruct b; [done|]. intros _. apply inert_ret. Qed.

(** What [conn_process] answers in a state, without changing it. *)
Definition process_of (s : fstate) : string * Z :=
  if needsProcessMetadata (h_ph h) (w_sm (f_w s)) && h_inspector h then proc_of_conn (f_ev s)
  else ("", 0).

Lemma conn_process_eq {A} (f : string * Z → F A) s :
  (conn_process ≫= f) s = f (process_of s) s.
Proof.
  unfold conn_process, process_of, mbind, stm_bind. cbn [world_of].
  by destruct (needsProcessMetadata _ _ && _).
Qed.

(** The whole run of a blocked connection; one to the own listener is given up
    before the rules are asked. *)
Lemma forward_block_run cl reqs target s t fake t' host port r :
  rm (h_ph h) = Some r →
  restore_fakeip (w_pool (f_w s)) target = Ok (t, fake) →
  sniff_target (cl_conn cl) t = (t', host, port) →
  fst (Router.MatchContext r (Router.mkCtx host 0 (fst (process_of s)) (snd (process_of s)) ""))
    = Router.ActionBlock →
  f_w (snd (forward cl reqs target s)) = f_w s ∧
  ∃ evs, f_ev (snd (forward cl reqs target s)) = f_ev s ++ evs ∧
         (t' = cl_Local cl ∧ cl_isTUN cl = false ∨ FCloseClient ∈ evs) ∧
         Forall (fun e => harmless e = true) evs.
Proof.
  intros Hr Hres Hsn Hact. unfold forward. rewrite Hres, Hsn, conn_process_eq.
  destruct (process_of s) as [process pid]. cbn [fst snd] in Hact. cbn beta iota.
  destruct (String.eqb t' (cl_Local cl) && negb (cl_isTUN cl)) eqn:Hloop.
  - apply andb_prop in Hloop as [->%String.eqb_eq Htun%negb_true_iff].
    unfold mbind, stm_bind. cbn [next_id]. unfold when. destruct otel_active; cbn; (split; [done|]); eexists.
    + rewrite <- !app_assoc. split; [done|]. split; [by left|]. by repeat constructor.
    + split; [by rewrite app_nil_r|]. split; [by left|constructor].
  - unfold route_conn, forward_action. rewrite Hr, Hact.
    rewrite bool_decide_eq_true_2 by done. unfold mbind, stm_bind. cbn [next_id].
    unfold when. destruct otel_active; cbn; (split; [done|]); eexists.
    + rewrite <- !app_assoc. split; [done|]. split; [right; set_solver|]. by repeat constructor.
    + split; [done|]. split; [right; set_solver|]. by repeat constructor.
Qed.

(** The URL of a request to the proxy; no rewrite rule matches it. *)
Definition proxy_url (req : request) : string :=
  if Strings.Contains (rq_URL req) "://" then rq_URL req
  else "http://" +:+ rq_Host req +:+ rq_RequestURI req.
Definition no_rewrite (req : request) : Prop :=
  ∀ re, h_rewrite h = Some re → rw_Match re (proxy_url req) (host_only (rq_Host req)) = None.

Lemma no_rewrite_none req : no_rewrite req → rewrite_of (proxy_url req) (host_only (rq_Host req)) = None.
Proof. unfold no_rewrite, rewrite_of. destruct (h_rewrite h) as [re|]; [|done]. intros H. by rewrite H. Qed.

(** C23. A blocked target is refused, on transparent connections and by the HTTP
    proxy.  When the rules block the host of a transparent connection (after fake
    addresses and SNI were mapped back to the name), [forward] makes no dial, no
    upstream request and no relay, and closes the client (a connection to the own
    listener, which is given up as a loop, is closed by the caller).  When they block
    the host of an HTTP proxy request, [serveHTTP] answers 403 and makes no dial
    either: a status line for CONNECT, a response for any other method.  The latter is
    for requests that match no rewrite rule; rewrite rules come before the rules of the
    router.  SOCKS and UDP connections ask the rules in dialTarget and
    dialTargetUDP, which are not spoken of here. *)
Theorem blocked_is_refused cl reqs r s :
  rm (h_ph h) = Some r →
  (∀ target t fake t' host port,
     restore_fakeip (w_pool (f_w s)) target = Ok (t, fake) →
     sniff_target (cl_conn cl) t = (t', host, port) →
     fst (Router.MatchContext r (Router.mkCtx host 0 (fst (process_of s)) (snd (process_of s)) ""))
       = Router.ActionBlock →
     f_w (snd (forward cl reqs target s)) = f_w s ∧
     ∃ evs, f_ev (snd (forward cl reqs target s)) = f_ev s ++ evs ∧
            (t' = cl_Local cl ∧ cl_isTUN cl = false ∨ FCloseClient ∈ evs) ∧
            Forall (fun e => harmless e = true) evs) ∧
  (∀ req,
     fst (Router.MatchContext r (Router.mkCtx (host_only (rq_Host req)) 0
            (fst (process_of s)) (snd (process_of s)) "")) = Router.ActionBlock →
     (rq_Method req = "CONNECT" ∨ no_rewrite req) →
     ∃ reply, serve_http_conn cl req reqs s =
       (Ok tt, mkF (f_w s) (f_ev s ++ [reply; FCloseClient]) (f_counter s)) ∧
       reply = if String.eqb (rq_Method req) "CONNECT" then FRaw connect_forbidden
               else FReply forbidden).
Proof.
  intros Hr. split; [intros; by eapply forward_block_run|].
  intros req Hact Hm. unfold serve_http_conn. rewrite conn_process_eq.
  destruct (process_of s) as [process pid]. cbn [fst snd] in Hact. cbn beta iota.
  destruct (String.eqb_spec (rq_Method req) "CONNECT") as [E|E]; cbn [negb];
    eexists; (split; [|reflexivity]).
  - unfold rules. rewrite Hr. unfold mbind, stm_bind. cbn [mret stm_ret].
    rewrite Hact, bool_decide_eq_true_2 by done.
    unfold ev. cbn [f_w f_ev f_counter]. by rewrite <- app_assoc.
  - destruct Hm as [?|Hnone%no_rewrite_none]; [done|]. fold (proxy_url req). rewrite Hnone.
    unfold rules. rewrite Hr. unfold mbind, stm_bind. cbn [mret stm_ret].
    rewrite Hact, bool_decide_eq_true_2 by done.
    unfold ev. cbn [f_w f_ev f_counter]. by rewrite <- app_assoc.
Qed.

(** ** Telemetry of the relay *)

(** The byte counters are swapped.  The specification of the relay span calls
    the bytes from the client to the server "traffic.bytes_sent"; [forward]
    passes the upstream as the left connection of the relay, so the attribute
    holds the number of bytes that came from the upstream, and
    "traffic.bytes_received" the number that came from the client. *)
Theorem traffic_counters_swapped c target process pid s q w k m :
  otel_active = true →
  dialTarget (h_ph h) target process pid (f_w s) = (Ok q, w) →
  let up evs := upstream_conn evs q in
  (∀ evs, c_end (up evs) = EOF ∧ c_wlimit (up evs) = S k) → c_end c = EOF → c_wlimit c = S m →
  ∃ evs before, f_ev (snd (tunnel c target process pid s)) = f_ev s ++ evs ∧
    FTraffic (Z.of_nat (length (c_in (up (f_ev s ++ before))))) (Z.of_nat (length (c_in c))) ∈ evs.
Proof.
  intros Ho Hd up Hup Hc Hm. unfold tunnel, when, relay_with, dialling, ev, ask, mbind, stm_bind.
  rewrite Ho. cbn [f_w f_ev f_counter]. rewrite Hd. cbn [f_w f_ev f_counter].
  match goal with |- context [Relay.RelayWithStats (upstream_conn ?e q) c] => set (e0 := e) end.
  destruct (Hup e0) as [He Hw].
  destruct (Relay.relay_counts (upstream_conn e0 q) c k m Hw Hm He Hc) as [Hl Hr].
  rewrite Hl, Hr. cbn [snd f_ev].
  set (before := [FSpanStart SpanDial; FSpanStatus SpanDial true "connected"; FSpanEnd SpanDial;
                  FSpanStart SpanRelay; FRelay q]).
  assert (e0 = f_ev s ++ before) as E0 by (unfold e0; by rewrite <- !app_assoc).
  clearbody e0. eexists _, before.
  replace (up (f_ev s ++ before)) with (up e0) by (by rewrite E0). split.
  { rewrite <- !app_assoc. rewrite E0 at 1. rewrite <- app_assoc. reflexivity. }
  unfold up. set_solver.
Qed.

(** ** The loop over HTTP requests *)

(** Requests that a rewrite rule or a MAP rule answers locally. *)
Definition answered_locally (r : Router.RuleManager) (host : string) (req : request) : bool :=
  (if rewrite_of (full_url host req) (host_only host) is Some _ then true else false) ||
  (if mapped_file r (full_url host req) is Some _ then true else false).

Definition upstream_reqs (evs : list fevent) : list request :=
  omap (fun e => match e with FUpstreamReq _ q => Some q | _ => None end) evs.
Definition replies (evs : list fevent) : list response :=
  omap (fun e => match e with FReply x => Some x | _ => None end) evs.

(** One request with a server that answers: one reply, and it goes upstream
    exactly when nothing local takes it. *)
Lemma plain_request_one r up host req s :
  rm (h_ph h) = Some r → (∀ evs, is_Some (server_response evs up req)) →
  (∀ evs, client_write_ok evs = true) →
  ∃ s' evs, plain_request (Some up) host req s = (Ok true, s') ∧ f_ev s' = f_ev s ++ evs ∧
    length (replies evs) = 1%nat ∧
    upstream_reqs evs = if answered_locally r host req then [] else [req].
Proof.
  intros Hr Hs Hw. unfold plain_request, answered_locally.
  assert (∀ p s0, ∃ x, serveLocalFile p s0 =
    (Ok tt, mkF (f_w s0) (f_ev s0 ++ [FReply x]) (f_counter s0))) as Hfile.
  { intros p s0. unfold serveLocalFile. destruct (read_file p); by eexists. }
  destruct (rewrite_of (full_url host req) (host_only host)) as [rw|].
  - cbn [orb]. destruct (Rewrite.res_Action rw).
    + unfold forwardRewriteRequest. destruct (Url.Parse (Rewrite.res_TargetURL rw)) as [u|].
      * destruct (negb (request_ok (rq_Method req) (Rewrite.res_TargetURL rw))).
        { eexists _, [FReply bad_gateway]. done. }
        unfold mbind, stm_bind. cbn [ev ask f_ev f_w f_counter].
        destruct (round_trip _ (Rewrite.res_TargetURL rw)) as [x|]; cbn;
          eexists _, _; (split; [done|]); cbn; rewrite <- ?app_assoc; split; done.
      * eexists _, [FReply bad_gateway]. done.
    + unfold mbind, stm_bind. destruct (Hfile (Rewrite.res_LocalFile rw) s) as [x ->].
      cbn. eexists _, _. split; [done|]. cbn. rewrite <- app_assoc. split; done.
  - unfold rules. rewrite Hr. unfold mbind, stm_bind. cbn [mret stm_ret orb].
    destruct (mapped_file r (full_url host req)) as [p|].
    + destruct (Hfile p s) as [x ->]. cbn. eexists _, _. split; [done|]. cbn.
      rewrite <- app_assoc. split; done.
    + cbn [ev ask f_ev f_w f_counter]. destruct (Hs (f_ev s ++ [FUpstreamReq up req])) as [x ->].
      cbn. rewrite Hw. eexists _, _. split; [done|]. cbn. rewrite <- !app_assoc. split; done.
Qed.

(** One answer per request.  Over an intercepted connection with a server that
    answers, every request of the client gets exactly one reply; the requests
    sent upstream are those that no rewrite or MAP rule answers locally, in the
    order the client sent them. *)
Theorem plain_loop_answers r up host reqs s :
  rm (h_ph h) = Some r → (∀ evs req, is_Some (server_response evs up req)) →
  (∀ evs, client_write_ok evs = true) →
  ∃ s' evs, plain_loop (Some up) host reqs s = (Ok tt, s') ∧ f_ev s' = f_ev s ++ evs ∧
    length (replies evs) = length reqs ∧
    upstream_reqs evs = filter (fun q => answered_locally r host q = false) reqs.
Proof.
  intros Hr Hs Hw. revert s. induction reqs as [|req reqs IH]; intros s; cbn [plain_loop].
  - exists s, []. by rewrite app_nil_r.
  - destruct (plain_request_one r up host req s Hr (fun e => Hs e req) Hw)
      as (s1 & e1 & H1 & He1 & Hl1 & Hu1).
    rewrite (stm_bind_ok _ _ _ _ _ H1). cbn beta iota.
    destruct (IH s1) as (s2 & e2 & -> & He2 & Hl2 & Hu2). exists s2, (e1 ++ e2).
    split; [done|]. split; [by rewrite He2, He1, app_assoc|]. split.
    + unfold replies in *. rewrite omap_app, length_app, Hl1, Hl2. done.
    + unfold upstream_reqs in *. rewrite omap_app, Hu1, Hu2.
      destruct (answered_locally r host req) eqn:E;
        [rewrite filter_cons_False by congruence|rewrite filter_cons_True by done]; done.
Qed.

End Forward.
(** ** Witnesses *)

(** Every dial succeeds, telemetry is on, servers answer 200. *)
#[local] Instance ex_env_all : Env := {|
  env_dial := fun _ _ => true; env_lookup := fun _ _ => None; env_sm := fun _ sm => sm;
  env_proc_by_port := fun _ _ => None; env_now := fun _ => 0; goos := "linux" |}.

#[export] Instance ex_henv : HEnv := {|
  proc_of_conn := fun _ => ("", 0); cert_ok := fun _ _ => true; tls_ok := fun _ _ => true;
  otel_active := true; server_response := fun _ _ _ => Some (mkResp 200 [] []);
  request_ok := fun _ _ => true; round_trip := fun _ _ => None; read_file := fun _ => None;
  mime_type := fun _ => ""; upstream_conn := fun _ _ => mkConn (bytes [1; 2; 3]) EOF [] 1 false false;
  client_write_ok := fun _ => true |}.

Definition ex_rules : Router.RuleManager :=
  Router.NewRuleManager ["DOMAIN,a.com,BLOCK"; "MAP,https://m.com/x.js,file:///tmp/x.js"].
Definition ex_handler : handler := mkHandler (mkPH (Some ex_rules) 3 10080) None false None.
Definition ex_client : client :=
  mkClient (mkConn (bytes [9]) EOF [] 1 false false) "127.0.0.1:10080" None false.
Definition ex_fs : fstate := mkF ex_w [] 0.

Lemma forward_spans_paired_witness :
  ∃ s', forward ex_handler ex_client [] "9.9.9.9:8080" ex_fs = (Ok tt, s') ∧
        ∃ evs, f_ev s' = [] ++ evs ∧ ∀ sp, net sp evs = 0.
Proof.
  destruct (forward ex_handler ex_client [] "9.9.9.9:8080" ex_fs) as [r s'] eqn:E.
  assert (r = Ok tt) as -> by (apply (f_equal fst) in E; vm_compute in E; congruence).
  exists s'. split; [done|].
  exact (forward_spans_paired ex_handler ex_client [] "9.9.9.9:8080" ex_fs tt s' E).
Defined.

Definition ex_request (m host uri : string) : request := mkReq m uri uri uri host "HTTP/1.1" [].

Lemma blocked_is_refused_witness :
  serve_http_conn ex_handler ex_client (ex_request "GET" "a.com" "/") [] ex_fs =
  (Ok tt, mkF ex_w ([] ++ [FReply forbidden; FCloseClient]) 0).
Proof.
  destruct (blocked_is_refused ex_handler ex_client [] ex_rules ex_fs eq_refl) as [_ H].
  destruct (H (ex_request "GET" "a.com" "/")) as (reply & Hr & ->);
    [vm_compute; reflexivity|right; by intros re|exact Hr].
Defined.

Lemma traffic_counters_swapped_witness :
  ∃ evs, f_ev (snd (tunnel ex_handler (cl_conn ex_client) "9.9.9.9:8080" "" 0 ex_fs)) = [] ++ evs ∧
         FTraffic 3 1 ∈ evs.
Proof.
  destruct (dialTarget (h_ph ex_handler) "9.9.9.9:8080" "" 0 (f_w ex_fs)) as [r w] eqn:E.
  assert (r = Ok (DDirect "tcp" "9.9.9.9:8080")) as ->
    by (apply (f_equal fst) in E; vm_compute in E; congruence).
  destruct (traffic_counters_swapped (HH := ex_henv) ex_handler (cl_conn ex_client) "9.9.9.9:8080" "" 0 ex_fs
    (DDirect "tcp" "9.9.9.9:8080") w 0 0 eq_refl E) as (evs & before & He & Hin);
    [by intros evs|reflexivity|reflexivity|].
  exists evs. split; [exact He|exact Hin].
Defined.

Lemma plain_loop_answers_witness :
  ∃ s' evs, plain_loop ex_handler (Some (DDirect "tcp" "m.com:443")) "m.com"
      [ex_request "GET" "m.com" "/x.js"; ex_request "GET" "m.com" "/y.js"] ex_fs = (Ok tt, s') ∧
    length (replies evs) = 2%nat ∧ upstream_reqs evs = [ex_request "GET" "m.com" "/y.js"].
Proof.
  destruct (plain_loop_answers ex_handler ex_rules (DDirect "tcp" "m.com:443") "m.com"
    [ex_request "GET" "m.com" "/x.js"; ex_request "GET" "m.com" "/y.js"] ex_fs)
    as (s' & evs & H1 & _ & H2 & H3); [reflexivity|by eexists|done|].
  exists s', evs. split; [exact H1|]. split; [exact H2|]. rewrite H3. vm_compute. reflexivity.
Defined.

End Forward.
