(* ===== verification/RotatingWriter.v ===== *)
(** * The rotating log file (src/internal/rotating_writer.go)

    The file system is a map from paths to contents together with the faults of
    its next operations: every call consumes one entry of [faults], [Some k]
    makes it fail (a failing write first stores at most [k] bytes), [None] or an
    exhausted list lets it act normally.  The open handle of a writer is the
    flag [file]: the writer is the only one to write its file and closes it
    before it renames it, so that a write appends to the file at [filePath].
    The mutex makes the calls sequential.  Sizes are far below 2^63. *)

From S2P Require Import Prelude GoStrings.

Module RotatingWriter.

Record World := mkWorld {
  files : gmap string (list byte);
  faults : list (option nat)
}.

Definition set_files (s : World) (f : gmap string (list byte)) : World := mkWorld f (faults s).

(** The fault of the next operation. *)
Definition next_fault (s : World) : option nat * World :=
  match faults s with
  | [] => (None, s)
  | f :: fs => (f, mkWorld (files s) fs)
  end.

(** [os.Stat(path)]: the size. *)
Definition Stat (s : World) (path : string) : option Z * World :=
  match next_fault s with
  | (Some _, s) => (None, s)
  | (None, s) => ((fun c => Z.of_nat (length c)) <$> files s !! path, s)
  end.

(** [os.OpenFile(path, O_APPEND|O_WRONLY, 0644)] *)
Definition OpenAppend (s : World) (path : string) : bool * World :=
  match next_fault s with
  | (Some _, s) => (false, s)
  | (None, s) => (bool_decide (is_Some (files s !! path)), s)
  end.

(** [os.OpenFile(path, O_CREATE|O_WRONLY|O_TRUNC, 0644)] *)
Definition OpenTrunc (s : World) (path : string) : bool * World :=
  match next_fault s with
  | (Some _, s) => (false, s)
  | (None, s) => (true, set_files s (<[path := []]> (files s)))
  end.

(** [os.Remove(path)] *)
Definition Remove (s : World) (path : string) : World :=
  match next_fault s with
  | (Some _, s) => s
  | (None, s) => set_files s (delete path (files s))
  end.

(** [os.Rename(src, dst)] *)
Definition Rename (s : World) (src dst : string) : World :=
  match next_fault s with
  | (Some _, s) => s
  | (None, s) =>
      match files s !! src with
      | Some c => set_files s (<[dst := c]> (delete src (files s)))
      | None => s
      end
  end.

(** [os.MkdirAll(dir, 0755)]: directories are not part of the map. *)
Definition MkdirAll (s : World) : bool * World :=
  match next_fault s with
  | (Some _, s) => (false, s)
  | (None, s) => (true, s)
  end.

(** [file.Write(p)] on the open file at [path]: bytes written and success. *)
Definition FileWrite (s : World) (path : string) (p : list byte) : nat * bool * World :=
  let append (q : list byte) (s : World) :=
    set_files s (<[path := default [] (files s !! path) ++ q]> (files s)) in
  match next_fault s with
  | (Some k, s) => let q := take k p in (length q, false, append q s)
  | (None, s) => (length p, true, append p s)
  end.

(** ** The writer *)

Record RW := mkRW {
  filePath : string;
  maxSize : Z;
  maxBackups : nat;
  currentSize : Z;
  file : bool
}.

Definition set_size (w : RW) (n : Z) : RW := mkRW (filePath w) (maxSize w) (maxBackups w) n (file w).
Definition set_file (w : RW) (b : bool) : RW := mkRW (filePath w) (maxSize w) (maxBackups w) (currentSize w) b.

(** [fmt.Sprintf("%s.%d", w.filePath, i)] *)
Definition backup (w : RW) (i : nat) : string := filePath w +:+ "." +:+ Strconv.Itoa (Z.of_nat i).

Definition openExistingOrNew (w : RW) (s : World) : bool * (RW * World) :=
  match Stat s (filePath w) with
  | (Some size, s) =>
      let w := set_size w size in
      match OpenAppend s (filePath w) with
      | (false, s) => (false, (w, s))
      | (true, s) => (true, (set_file w true, s))
      end
  | (None, s) =>
      match OpenTrunc s (filePath w) with
      | (false, s) => (false, (w, s))
      | (true, s) => (true, (set_size (set_file w true) 0, s))
      end
  end.

Definition NewRotatingWriter (path : string) (size backups : Z) (s : World) : option RW * World :=
  let size := if size <=? 0 then 10 * 1024 * 1024 else size in
  let backups := if backups <=? 0 then 1 else backups in
  match MkdirAll s with
  | (false, s) => (None, s)
  | (true, s) =>
      match openExistingOrNew (mkRW path size (Z.to_nat backups) 0 false) s with
      | (false, (_, s)) => (None, s)
      | (true, (w, s)) => (Some w, s)
      end
  end.

(** The body of the loop of [rotate]: log.i becomes log.(i+1). *)
Definition shift_one (w : RW) (i : nat) (s : World) : World :=
  match Stat s (backup w i) with
  | (Some _, s) => Rename s (backup w i) (backup w (S i))
  | (None, s) => s
  end.

(** The loop [for i := k; i >= 1; i--] of [rotate]. *)
Fixpoint shift_backups (w : RW) (k : nat) (s : World) : World :=
  match k with
  | O => s
  | S k' => shift_backups w k' (shift_one w k s)
  end.

Definition rotate (w : RW) (s : World) : bool * (RW * World) :=
  let w := set_file w false in
  let s := Remove s (backup w (maxBackups w)) in
  let s := shift_backups w (maxBackups w - 1) s in
  let s := Rename s (filePath w) (backup w 1) in
  openExistingOrNew w s.

(** The bytes written, whether the error is nil, and the new state. *)
Definition Write (w : RW) (s : World) (p : list byte) : nat * bool * (RW * World) :=
  let writeLen := Z.of_nat (length p) in
  let '(w, s) :=
    if (maxSize w <? currentSize w + writeLen) && (0 <? currentSize w)
    then snd (rotate w s) else (w, s) in
  let '(ok, (w, s)) := if file w then (true, (w, s)) else openExistingOrNew w s in
  if (ok : bool)
  then let '(n, ok, s) := FileWrite s (filePath w) p in
       (n, ok, (set_size w (currentSize w + Z.of_nat n), s))
  else (0%nat, false, (w, s)).

Definition Close (w : RW) : RW := set_file w false.

(** Successive writes. *)
Definition write_all (w : RW) (s : World) (ps : list (list byte)) : RW * World :=
  fold_left (fun ws p => snd (Write (fst ws) (snd ws) p)) ps (w, s).

(** ** What the log holds *)

(** The path and the contents of segment [i]: 0 is the file being written, [i]
    the [i]-th backup. *)
Definition seg_path (w : RW) (i : nat) : string :=
  match i with O => filePath w | _ => backup w i end.
Definition segment (w : RW) (s : World) (i : nat) : list byte := default [] (files s !! seg_path w i).

(** The contents of segments [k] down to 0, oldest first. *)
Fixpoint history (w : RW) (s : World) (k : nat) : list byte :=
  match k with
  | O => segment w s 0
  | S k' => segment w s k ++ history w s k'
  end.
Definition retained (w : RW) (s : World) : list byte := history w s (maxBackups w).

(** Sizes match, whenever the file is open. *)
Definition rw_ok (w : RW) (s : World) : Prop :=
  file w = true → ∃ c, files s !! filePath w = Some c ∧ currentSize w = Z.of_nat (length c).

Definition rw_conf (w : RW) : Prop := (1 ≤ maxBackups w)%nat ∧ Z.of_nat (maxBackups w) < 2 ^ 63 ∧ 0 < maxSize w.

(** A rotation leaves no room: two neighbouring segments together exceed
    [maxSize], and the backups in use are numbered without gaps. *)
Definition packed (w : RW) (s : World) : Prop :=
  ∀ i, (i < maxBackups w)%nat → segment w s (S i) ≠ [] →
    maxSize w < Z.of_nat (length (segment w s (S i)) + length (segment w s i)) ∧
    ((1 ≤ i)%nat → segment w s i ≠ []).

Definition bounded (B : Z) (w : RW) (s : World) : Prop :=
  ∀ i, (i ≤ maxBackups w)%nat → Z.of_nat (length (segment w s i)) ≤ B.

(** ** Paths *)

Lemma backup_inj w i j :
  Z.of_nat i < 2 ^ 63 → Z.of_nat j < 2 ^ 63 → backup w i = backup w j → i = j.
Proof.
  intros Hi Hj H%sapp_inj_l%sapp_inj_l. apply (f_equal Strconv.Atoi) in H.
  rewrite !Strconv.Atoi_Itoa in H by lia. injection H. lia.
Qed.

Lemma backup_path w i : backup w i ≠ filePath w.
Proof. intros H%(f_equal slen). unfold backup in H. rewrite !slen_app in H. simpl in H. lia. Qed.

Lemma seg_path_inj w i j :
  Z.of_nat i < 2 ^ 63 → Z.of_nat j < 2 ^ 63 → seg_path w i = seg_path w j → i = j.
Proof.
  destruct i as [|i], j as [|j]; cbn [seg_path]; intros Hi Hj H; [done| | |by eapply backup_inj].
  - by apply eq_sym, backup_path in H.
  - by apply backup_path in H.
Qed.

Lemma seg_path_ne w i j :
  Z.of_nat i < 2 ^ 63 → Z.of_nat j < 2 ^ 63 → i ≠ j → seg_path w i ≠ seg_path w j.
Proof. intros Hi Hj Hne H. apply Hne. by eapply seg_path_inj. Qed.

(** ** Rotation without faults *)

Lemma shift_backups_spec w k s :
  faults s = [] → Z.of_nat (S k) < 2 ^ 63 → files s !! seg_path w (S k) = None →
  let s' := shift_backups w k s in
  faults s' = [] ∧
  (∀ i, (1 ≤ i ≤ k)%nat → files s' !! seg_path w (S i) = files s !! seg_path w i) ∧
  files s' !! seg_path w 1 = None ∧
  (∀ q, (∀ i, (1 ≤ i ≤ S k)%nat → q ≠ seg_path w i) → files s' !! q = files s !! q).
Proof.
  revert s. induction k as [|k IH]; intros s Hf Hk Hn; cbn [shift_backups].
  { cbn zeta. split_and!; [done|lia|done|done]. }
  assert (seg_path w (S k) ≠ seg_path w (S (S k))) as Hne by (apply seg_path_ne; lia).
  cbn [seg_path] in Hne. set (s1 := shift_one w (S k) s).
  assert (faults s1 = [] ∧ files s1 !! seg_path w (S k) = None ∧
    files s1 !! seg_path w (S (S k)) = files s !! seg_path w (S k) ∧
    ∀ q, q ≠ seg_path w (S k) → q ≠ seg_path w (S (S k)) → files s1 !! q = files s !! q)
    as (Hf1 & Hn1 & Ht & Hq).
  { subst s1. unfold shift_one, Stat, next_fault. rewrite Hf. cbn [seg_path] in *. destruct (files s !! backup w (S k)) as [c|] eqn:E; cbn.
    - unfold Rename, next_fault. rewrite Hf, E. cbn [faults files set_files]. split; [done|].
      rewrite lookup_insert_ne, lookup_delete_eq, lookup_insert_eq by congruence.
      split; [done|]. split; [done|]. intros q H1 H2.
      by rewrite lookup_insert_ne, lookup_delete_ne by congruence.
    - rewrite E. by split_and!. }
  clearbody s1. destruct (IH s1 Hf1 ltac:(lia) Hn1) as (Hf2 & Hs & H1 & Hfr). cbn zeta.
  split; [done|]. split; [|split; [done|]].
  - intros i Hi. destruct (decide (i = S k)) as [->|Hik].
    + rewrite Hfr; [done|]. intros j Hj. apply seg_path_ne; lia.
    + rewrite Hs by lia. apply Hq; apply seg_path_ne; lia.
  - intros q Hne'. rewrite Hfr by (intros; apply Hne'; lia). apply Hq; apply Hne'; lia.
Qed.

(** Rotation shifts every segment by one, forgets the oldest and opens an empty
    file. *)
Lemma rotate_spec w s c :
  faults s = [] → rw_conf w → files s !! filePath w = Some c →
  ∃ s', rotate w s = (true, (set_size (set_file w true) 0, s')) ∧ faults s' = [] ∧
    files s' !! filePath w = Some [] ∧
    (∀ i, (i < maxBackups w)%nat → files s' !! seg_path w (S i) = files s !! seg_path w i) ∧
    (∀ q, (∀ i, (i ≤ maxBackups w)%nat → q ≠ seg_path w i) → files s' !! q = files s !! q).
Proof.
  intros Hf (Hb & Hbm & Hm) Hc. unfold rotate. cbn [maxBackups set_file filePath].
  set (n := maxBackups w) in *.
  change (backup (set_file w false)) with (backup w).
  set (s1 := Remove s (backup w n)).
  assert (faults s1 = [] ∧ files s1 = delete (seg_path w n) (files s)) as [Hf1 Hs1].
  { subst s1. unfold Remove, next_fault. rewrite Hf. cbn. split; [done|]. by destruct n; [lia|]. }
  destruct (shift_backups_spec w (n - 1) s1 Hf1 ltac:(lia)) as (Hf2 & Hsh & H1 & Hfr).
  { replace (S (n - 1)) with n by lia. rewrite Hs1. apply lookup_delete_eq. }
  assert (∀ k s, shift_backups (set_file w false) k s = shift_backups w k s) as ->.
  { intros k. induction k as [|k IH]; intros t; cbn [shift_backups]; [done|]. by rewrite IH. }
  set (s2 := shift_backups w (n - 1) s1) in *.
  assert (∀ q, (∀ i, (1 ≤ i ≤ n)%nat → q ≠ seg_path w i) → files s2 !! q = files s !! q) as Hfr2.
  { intros q Hq. rewrite Hfr by (intros; apply Hq; lia). rewrite Hs1.
    apply lookup_delete_ne. apply not_eq_sym, Hq. lia. }
  assert (files s2 !! filePath w = Some c) as Hc2.
  { rewrite Hfr2; [done|]. intros i Hi. apply (seg_path_ne w 0); lia. }
  pose proof (backup_path w 1) as Hne.
  unfold Rename, next_fault. rewrite Hf2, Hc2.
  unfold openExistingOrNew, Stat, OpenTrunc, next_fault, set_files. cbn. rewrite !Hf2. cbn.
  rewrite lookup_insert_ne, lookup_delete_eq by done. cbn. rewrite ?Hf2. cbn.
  eexists. split; [done|]. cbn [faults files]. split; [done|].
  split; [apply lookup_insert_eq|]. split.
  - intros i Hi. rewrite lookup_insert_ne by (apply (seg_path_ne w 0 (S i)); lia).
    destruct i as [|i].
    + by rewrite lookup_insert_eq.
    + rewrite lookup_insert_ne by (apply (seg_path_ne w 1 (S (S i))); lia).
      rewrite lookup_delete_ne by (apply (seg_path_ne w 0 (S (S i))); lia).
      change (backup w (S (S i))) with (seg_path w (S (S i))).
      rewrite Hsh by lia. rewrite Hs1. apply lookup_delete_ne. apply seg_path_ne; lia.
  - intros q Hq. rewrite lookup_insert_ne by (apply not_eq_sym, (Hq 0%nat); lia).
    rewrite lookup_insert_ne by (apply not_eq_sym, (Hq 1%nat); lia).
    rewrite lookup_delete_ne by (apply not_eq_sym, (Hq 0%nat); lia).
    apply Hfr2. intros. apply Hq. lia.
Qed.

(** ** A write without faults *)

Lemma open_existing w s c :
  faults s = [] → files s !! filePath w = Some c →
  openExistingOrNew w s = (true, (set_file (set_size w (Z.of_nat (length c))) true, s)).
Proof.
  intros Hf Hc. unfold openExistingOrNew, Stat, OpenAppend, next_fault. rewrite Hf, Hc. cbn.
  by rewrite Hf, Hc.
Qed.

(** What a write does to the segments: it appends to the current file, or it
    moves every segment up and starts a new file. *)
Definition appends (p : list byte) (w : RW) (s s' : World) : Prop :=
  (Z.of_nat (length (segment w s 0) + length p) ≤ maxSize w ∨ segment w s 0 = []) ∧
  segment w s' 0 = segment w s 0 ++ p ∧
  ∀ q, q ≠ filePath w → files s' !! q = files s !! q.
Definition rotates (p : list byte) (w : RW) (s s' : World) : Prop :=
  maxSize w < Z.of_nat (length (segment w s 0) + length p) ∧ segment w s 0 ≠ [] ∧
  segment w s' 0 = p ∧
  (∀ i, (i < maxBackups w)%nat → segment w s' (S i) = segment w s i) ∧
  ∀ q, (∀ i, (i ≤ maxBackups w)%nat → q ≠ seg_path w i) → files s' !! q = files s !! q.

Definition same_conf (w w' : RW) : Prop :=
  filePath w' = filePath w ∧ maxSize w' = maxSize w ∧ maxBackups w' = maxBackups w.

Lemma segment_conf w w' s i : same_conf w w' → segment w' s i = segment w s i.
Proof. intros (H1 & H2 & H3). unfold segment, seg_path, backup. by rewrite H1. Qed.

Lemma FileWrite_ok s path p :
  faults s = [] →
  FileWrite s path p =
  (length p, true, set_files s (<[path := default [] (files s !! path) ++ p]> (files s))).
Proof. intros Hf. unfold FileWrite, next_fault. by rewrite Hf. Qed.

Lemma Write_step w s p :
  faults s = [] → rw_conf w → rw_ok w s → file w = true →
  ∃ w' s', Write w s p = (length p, true, (w', s')) ∧
    faults s' = [] ∧ same_conf w w' ∧ rw_ok w' s' ∧ file w' = true ∧
    (appends p w s s' ∨ rotates p w s s').
Proof.
  intros Hf Hconf Hok Hfile. destruct (Hok Hfile) as (c & Hc & Hsz).
  assert (segment w s 0 = c) as Hseg by (unfold segment; cbn [seg_path]; by rewrite Hc).
  unfold Write. destruct ((maxSize w <? _) && _) eqn:E.
  - boolify. destruct (rotate_spec w s c Hf Hconf Hc) as (s' & -> & Hf' & Hc' & Hsh & Hfr).
    cbn [snd fst file set_size set_file filePath]. rewrite FileWrite_ok by done. rewrite Hc'. cbn.
    do 2 eexists. split; [done|]. split; [done|]. split; [done|]. split; [|split; [done|right]].
    + intros _. exists p. cbn. split; [apply lookup_insert_eq|lia].
    + split; [rewrite Hseg; lia|]. split; [rewrite Hseg; intros ->; cbn in *; lia|].
      split; [unfold segment; cbn; by rewrite lookup_insert_eq|]. split.
      * intros i Hi. unfold segment. cbn [files set_files]. destruct Hconf as (?&?&?).
        rewrite lookup_insert_ne by (apply (seg_path_ne w 0 (S i)); lia). by rewrite Hsh.
      * intros q Hq. cbn. rewrite lookup_insert_ne by (apply not_eq_sym, (Hq 0%nat); lia). auto.
  - rewrite Hfile. rewrite FileWrite_ok by done. rewrite Hc. cbn [default].
    do 2 eexists. split; [done|]. split; [done|]. split; [done|]. split; [|split; [done|left]].
    + intros _. exists (c ++ p). cbn. split; [apply lookup_insert_eq|rewrite length_app; lia].
    + split; [|split; [unfold segment; cbn; by rewrite Hc, lookup_insert_eq|]].
      * rewrite Hseg. apply andb_false_iff in E as [E|E]; boolify; [left; lia|right].
        destruct c; [done|cbn in *; lia].
      * intros q Hq. cbn. by rewrite lookup_insert_ne.
Qed.

Lemma history_frame w s s' k :
  (∀ i, (i ≤ k)%nat → segment w s' i = segment w s i) → history w s' k = history w s k.
Proof.
  intros H. induction k as [|k IH]; cbn [history]; [apply H; lia|].
  rewrite H, IH; [done|intros; apply H; lia|lia].
Qed.

Lemma appends_others p w s s' i :
  rw_conf w → appends p w s s' → (1 ≤ i ≤ maxBackups w)%nat → segment w s' i = segment w s i.
Proof.
  intros (? & ? & ?) (_ & _ & Hq) Hi. unfold segment. rewrite Hq; [done|].
  apply (seg_path_ne w i 0); lia.
Qed.

Lemma appends_history p w s s' k :
  rw_conf w → appends p w s s' → (k ≤ maxBackups w)%nat → history w s' k = history w s k ++ p.
Proof.
  intros Hc Ha. induction k as [|k IH]; intros Hk; cbn [history]; [apply Ha|].
  rewrite IH, (appends_others p w s) by (done || lia). by rewrite app_assoc.
Qed.

Lemma rotates_history p w s s' k :
  rotates p w s s' → (k < maxBackups w)%nat → history w s' (S k) = history w s k ++ p.
Proof.
  intros (_ & _ & H0 & Hs & _). induction k as [|k IH]; intros Hk.
  - cbn [history]. by rewrite Hs, H0 by lia.
  - cbn [history]. rewrite Hs by lia. cbn [history] in IH. by rewrite IH, app_assoc by lia.
Qed.

(** One write keeps everything, or forgets exactly the oldest backup. *)
Lemma step_retained p w s s' :
  rw_conf w → appends p w s s' ∨ rotates p w s s' →
  ∃ old, retained w s ++ p = old ++ retained w s' ∧
    (old = [] ∨ old = segment w s (maxBackups w) ∧ rotates p w s s').
Proof.
  intros Hc [Ha|Hr]; unfold retained.
  - exists []. split; [|by left]. by rewrite (appends_history p w s s') by (done || lia).
  - destruct Hc as (Hb & _). destruct (maxBackups w) as [|n] eqn:E; [lia|].
    exists (segment w s (S n)). split; [|by right].
    rewrite (rotates_history p w s s') by (done || lia). cbn [history]. by rewrite app_assoc.
Qed.

Lemma step_packed p w s s' :
  rw_conf w → packed w s → appends p w s s' ∨ rotates p w s s' → packed w s'.
Proof.
  intros Hc Hp [Ha|Hr] i Hi.
  - rewrite (appends_others p w s s' (S i)) by (done || lia). intros Hne.
    destruct (Hp i Hi Hne) as [H1 H2]. destruct i as [|i].
    + destruct Ha as (_ & -> & _). rewrite length_app. split; [lia|lia].
    + rewrite (appends_others p w s s' (S i)) by (done || lia). done.
  - destruct Hr as (Hbig & Hne0 & H0 & Hs & _). rewrite Hs by lia. intros Hne. destruct i as [|i].
    + rewrite H0. split; [lia|lia].
    + rewrite Hs by lia. destruct (Hp i ltac:(lia) Hne) as [H1 H2]. split; [done|].
      intros _. destruct i as [|i]; [done|]. apply H2. lia.
Qed.

Lemma step_bounded B p w s s' :
  rw_conf w → maxSize w ≤ B → Z.of_nat (length p) ≤ B → bounded B w s →
  appends p w s s' ∨ rotates p w s s' → bounded B w s'.
Proof.
  intros Hc HB Hp Hb [Ha|Hr] i Hi; (destruct i as [|i]; [clear Hi|]).
  - destruct Ha as ([Hle|Hnil] & -> & _); rewrite length_app; [lia|]. rewrite Hnil. cbn. lia.
  - rewrite (appends_others p w s s' (S i)) by (done || lia). by apply Hb.
  - destruct Hr as (_ & _ & -> & _). done.
  - destruct Hr as (_ & _ & _ & Hs & _). rewrite Hs by lia. apply Hb. lia.
Qed.

(** Once the oldest backup is in use it stays in use. *)
Lemma step_full p w s s' :
  rw_conf w → packed w s → appends p w s s' ∨ rotates p w s s' →
  segment w s (maxBackups w) ≠ [] → segment w s' (maxBackups w) ≠ [].
Proof.
  intros Hc Hp [Ha|Hr] Hne.
  - rewrite (appends_others p w s s') by (destruct Hc; (done || lia)). done.
  - destruct Hc as (Hb & _). destruct (maxBackups w) as [|n] eqn:E; [lia|].
    destruct Hr as (_ & Hne0 & _ & Hs & _). rewrite Hs by lia.
    destruct n as [|n]; [done|]. apply (Hp (S n)); [lia|done|lia].
Qed.

(** Everything that does not depend on the size and the handle is the same for
    writers of one configuration. *)
Lemma same_conf_view w w' s :
  same_conf w w' →
  retained w' s = retained w s ∧ (∀ i, segment w' s i = segment w s i) ∧
  (packed w' s ↔ packed w s) ∧ (∀ B, bounded B w' s ↔ bounded B w s) ∧ (rw_conf w' ↔ rw_conf w).
Proof.
  intros (H1 & H2 & H3). destruct w, w'; cbn in *; subst. split; [|split_and!; try done; intros; split; exact id].
  unfold retained. cbn [maxBackups]. generalize maxBackups0 at 2 4.
  intros k. induction k as [|k IH]; cbn [history]; [done|]. by rewrite IH.
Qed.

Lemma packed_all w s :
  packed w s → segment w s (maxBackups w) ≠ [] →
  ∀ i, (1 ≤ i ≤ maxBackups w)%nat → segment w s i ≠ [].
Proof.
  intros Hp Hn i Hi. remember (maxBackups w - i)%nat as d eqn:Hd. revert i Hi Hd.
  induction d as [|d IH]; intros i Hi Hd.
  - by replace i with (maxBackups w) by lia.
  - apply (Hp i); [lia| |lia]. apply IH; lia.
Qed.

Lemma step_frame p w s s' q :
  appends p w s s' ∨ rotates p w s s' →
  (∀ i, (i ≤ maxBackups w)%nat → q ≠ seg_path w i) → files s' !! q = files s !! q.
Proof.
  intros [(_ & _ & H)|(_ & _ & _ & _ & H)] Hq; [|auto]. apply H. apply (Hq 0%nat). lia.
Qed.

Lemma write_all_spec ps w s B :
  faults s = [] → rw_conf w → rw_ok w s → file w = true → packed w s →
  maxSize w ≤ B → bounded B w s → Forall (fun p => Z.of_nat (length p) ≤ B) ps →
  ∃ w' s' old, write_all w s ps = (w', s') ∧ same_conf w w' ∧ rw_ok w' s' ∧ file w' = true ∧
    retained w s ++ concat ps = old ++ retained w s' ∧
    (old ≠ [] ∨ segment w s (maxBackups w) ≠ [] → segment w s' (maxBackups w) ≠ []) ∧
    packed w s' ∧ bounded B w s' ∧
    ∀ q, (∀ i, (i ≤ maxBackups w)%nat → q ≠ seg_path w i) → files s' !! q = files s !! q.
Proof.
  revert w s. induction ps as [|p ps IH]; intros w s Hf Hc Hok Hfile Hp HB Hb Hps.
  { exists w, s, []. cbn [concat app]. rewrite app_nil_r. split_and!; try done. by intros [?|?]. }
  apply Forall_cons in Hps as [Hlp Hps].
  destruct (Write_step w s p Hf Hc Hok Hfile) as (w1 & s1 & Hw & Hf1 & Hsc & Hok1 & Hfile1 & Hst).
  destruct (same_conf_view w w1 s1 Hsc) as (Er & Es & Ep & Eb & Ec).
  destruct (IH w1 s1) as (w' & s' & old & Hrun & Hsc' & Hok' & Hfile' & Hret & Hfull & Hp' & Hb' & Hfr);
    [done|by apply Ec|done|done|apply Ep; by eapply step_packed|by destruct Hsc as (_ & -> & _)|
     apply Eb; by eapply step_bounded|done|].
  destruct (same_conf_view w w1 s' Hsc) as (Er' & Es' & Ep' & Eb' & _).
  destruct (step_retained p w s s1 Hc Hst) as (old1 & Hret1 & Hold1).
  pose proof (step_full p w s s1 Hc Hp Hst) as Hfull1.
  rewrite Er, Er' in Hret. rewrite Es, Es' in Hfull. pose proof Hsc as (E1 & E2 & E3).
  rewrite E3 in Hfull. exists w', s', (old1 ++ old). split_and!.
  - unfold write_all in *. cbn [fold_left fst snd]. by rewrite Hw.
  - unfold same_conf in *. naive_solver congruence.
  - done.
  - done.
  - cbn [concat]. by rewrite app_assoc, Hret1, <- app_assoc, Hret, app_assoc.
  - intros H. apply Hfull. destruct (decide (old = [])) as [->|]; [right|by left].
    apply Hfull1. destruct H as [H|H]; [|done]. rewrite app_nil_r in H.
    destruct Hold1 as [->|[-> _]]; done.
  - by apply Ep'.
  - by apply Eb'.
  - intros q Hq. rewrite Hfr, (step_frame p w s s1); [done|done|done|].
    intros i Hi. rewrite E3 in Hi. unfold seg_path, backup. rewrite E1. by apply Hq.
Qed.

(** ** With faults *)

Lemma openExistingOrNew_ok w s :
  file w = false →
  let '(ok, (w', s')) := openExistingOrNew w s in
  same_conf w w' ∧ rw_ok w' s' ∧ file w' = ok.
Proof.
  intros Hfile. unfold openExistingOrNew, Stat, OpenAppend, OpenTrunc.
  assert (∀ s, files (snd (next_fault s)) = files s) as Hnf.
  { intros t. unfold next_fault. by destruct (faults t). }
  pose proof (Hnf s). destruct (next_fault s) as [[k|] s1]; cbn [snd] in *.
  - pose proof (Hnf s1). destruct (next_fault s1) as [[k'|] s2]; cbn [snd] in *.
    + split_and!; try done. intros ?. congruence.
    + split_and!; try done. intros _. exists []. cbn. by rewrite lookup_insert_eq.
  - destruct (files s1 !! filePath w) as [c|] eqn:Ec; cbn;
      pose proof (Hnf s1); destruct (next_fault s1) as [[k'|] s2]; cbn [snd] in *.
    + split_and!; try done. intros ?. cbn in *. congruence.
    + rewrite bool_decide_eq_true_2 by (rewrite H0, Ec; eauto).
      split_and!; try done. intros _. exists c. cbn. by rewrite H0.
    + split_and!; try done. intros ?. congruence.
    + split_and!; try done. intros _. exists []. cbn. by rewrite lookup_insert_eq.
Qed.

(** Whatever fails, a write keeps the recorded size in step with the file and
    reports success only when all its bytes are at the end of the file. *)
Lemma Write_any_fault w s p :
  rw_ok w s →
  let '(n, ok, (w', s')) := Write w s p in
  rw_ok w' s' ∧ same_conf w w' ∧ (n ≤ length p)%nat ∧
  (ok = true → n = length p ∧ ∃ c, files s' !! filePath w = Some (c ++ p)) ∧
  (file w' = false → ok = false ∧ n = 0%nat).
Proof.
  intros Hok. unfold Write.
  set (r := if _ && _ then snd (rotate w s) else (w, s)).
  assert (same_conf w (fst r) ∧ rw_ok (fst r) (snd r)) as [Hsc Hr].
  { subst r. case_match; [|done]. unfold rotate.
    match goal with |- context [openExistingOrNew ?a ?b] =>
      pose proof (openExistingOrNew_ok a b eq_refl) as H1; destruct (openExistingOrNew a b) as [b1 [w1 s1]] end.
    by destruct H1 as (? & ? & _). }
  destruct r as [w1 s1]. cbn [fst snd] in *.
  set (r2 := if file w1 then (true, (w1, s1)) else openExistingOrNew w1 s1).
  assert (same_conf w1 (fst (snd r2)) ∧ rw_ok (fst (snd r2)) (snd (snd r2)) ∧ file (fst (snd r2)) = fst r2)
    as (Hsc2 & Hr2 & Hf2).
  { subst r2. destruct (file w1) eqn:E; [done|]. pose proof (openExistingOrNew_ok w1 s1 E) as H1.
    by destruct (openExistingOrNew w1 s1) as [b1 [w2 s2]]. }
  destruct r2 as [ok [w2 s2]]. cbn [fst snd] in *.
  assert (same_conf w w2) as Hsc3 by (unfold same_conf in *; naive_solver congruence).
  destruct ok; [|split_and!; (done || lia)]. destruct (Hr2 Hf2) as (c & Hc & Hsz).
  assert (filePath w = filePath w2) as -> by (by destruct Hsc3).
  unfold FileWrite.
  assert (files (snd (next_fault s2)) = files s2) as Hnf by (unfold next_fault; by destruct (faults s2)).
  destruct (next_fault s2) as [[k|] s3]; cbn [snd] in Hnf; rewrite Hnf, Hc; cbn.
  - split_and!; try done; [|rewrite length_take; lia|congruence].
    intros _. exists (c ++ take k p). cbn. rewrite lookup_insert_eq, length_app. split; [done|lia].
  - split_and!; try done; [|intros _; split; [done|exists c; by rewrite lookup_insert_eq]|congruence].
    intros _. exists (c ++ p). cbn. rewrite lookup_insert_eq, length_app. split; [done|lia].
Qed.

(** A [Stat] that fails for any reason, not only because the file is missing,
    empties the log: the fallback opens it with [O_TRUNC]. *)
Lemma stat_fault_truncates w c rest k :
  file w = false →
  ∃ s', openExistingOrNew w (mkWorld {[ filePath w := c ]} (Some k :: None :: rest)) =
    (true, (set_size (set_file w true) 0, s')) ∧ files s' !! filePath w = Some [].
Proof.
  intros _. eexists. split; [reflexivity|]. cbn. apply lookup_insert_eq.
Qed.

Lemma NewRotatingWriter_ok path size backups s w s' :
  backups < 2 ^ 63 → NewRotatingWriter path size backups s = (Some w, s') →
  rw_conf w ∧ rw_ok w s' ∧ file w = true ∧ filePath w = path.
Proof.
  intros Hb. unfold NewRotatingWriter. destruct (MkdirAll s) as [[|] s1]; [|done].
  match goal with |- context [openExistingOrNew ?a ?b] =>
    pose proof (openExistingOrNew_ok a b eq_refl) as H1; destruct (openExistingOrNew a b) as [[|] [w1 s2]] end;
    [|done].
  intros [= -> ->]. destruct H1 as ((E1 & E2 & E3) & ? & ?). cbn in *. split_and!; try done.
  unfold rw_conf. rewrite E2, E3. destruct (Z.leb_spec size 0), (Z.leb_spec backups 0); lia.
Qed.

(** Without faults of the file system, a sequence of writes loses nothing
    but whole backups at the old end: what the log held followed by what was
    written is some forgotten prefix followed by what the log holds afterwards.
    Bytes are forgotten only when all [maxBackups] backups are in use, any two
    neighbouring segments together exceed [maxSize] (so that rotation never
    wastes more than half of the space), every file stays within [maxSize] or
    the longest single write, and no other path of the file system changes. *)
Theorem write_all_retains w s ps B :
  faults s = [] → rw_conf w → rw_ok w s → file w = true → packed w s →
  maxSize w ≤ B → bounded B w s → Forall (fun p => Z.of_nat (length p) ≤ B) ps →
  let '(w', s') := write_all w s ps in
  (∃ old, retained w s ++ concat ps = old ++ retained w' s' ∧
    (old ≠ [] → ∀ i, (1 ≤ i ≤ maxBackups w)%nat → segment w s' i ≠ [])) ∧
  packed w' s' ∧ bounded B w' s' ∧ rw_ok w' s' ∧ file w' = true ∧ same_conf w w' ∧
  ∀ q, (∀ i, (i ≤ maxBackups w)%nat → q ≠ seg_path w i) → files s' !! q = files s !! q.
Proof.
  intros Hf Hc Hok Hfile Hp HB Hb Hps.
  destruct (write_all_spec ps w s B) as
    (w' & s' & old & -> & Hsc & Hok' & Hfile' & Hret & Hfull & Hp' & Hb' & Hfr); try done.
  destruct (same_conf_view w w' s' Hsc) as (-> & _ & Ep & Eb & _).
  split_and!; [|by apply Ep|by apply Eb|done..].
  exists old. split; [done|]. intros Hold. apply packed_all; auto.
Qed.

Definition ex_rw : RW := mkRW "/var/log/vproxy.log" 8 2 3 true.
Definition ex_fs : World :=
  mkWorld {[ "/var/log/vproxy.log" := to_bytes "abc"; "/etc/hosts" := to_bytes "x" ]} [].

Lemma write_all_retains_witness :
  (∃ old, retained ex_rw ex_fs ++ concat (to_bytes <$> ["defgh"; "ijkl"; "mnopqr"; "st"; "uvwxyz"]) =
     old ++ retained ex_rw (snd (write_all ex_rw ex_fs (to_bytes <$> ["defgh"; "ijkl"; "mnopqr"; "st"; "uvwxyz"])))) ∧
  retained ex_rw (snd (write_all ex_rw ex_fs (to_bytes <$> ["defgh"; "ijkl"; "mnopqr"; "st"; "uvwxyz"]))) =
    to_bytes "ijklmnopqrstuvwxyz".
Proof.
  split; [|by vm_compute].
  pose proof (write_all_retains ex_rw ex_fs (to_bytes <$> ["defgh"; "ijkl"; "mnopqr"; "st"; "uvwxyz"]) 8
    eq_refl) as H.
  destruct (write_all _ _ _) as [w' s'] eqn:E. destruct H as ((old & H & _) & _ & _ & _ & _ & Hsc & _).
  - unfold rw_conf. cbn. lia.
  - intros _. exists (to_bytes "abc"). split; vm_compute; reflexivity.
  - done.
  - intros [|[|i]] Hi Hne; [by destruct Hne; vm_compute..|cbn in Hi; lia].
  - cbn. lia.
  - intros [|[|[|i]]] Hi; [vm_compute; done..|cbn in Hi; lia].
  - repeat constructor; vm_compute; done.
  - exists old. cbn [snd]. rewrite H. f_equal. by apply same_conf_view.
Defined.

End RotatingWriter.
