(* ===== verification/Ipc.v ===== *)
(** * The control socket (src/internal/ipc, src/proxy/cgroup)

    The daemon listens on a Unix socket that every local user may write to and,
    on request, moves a process into the vproxy cgroup.  The peer credentials of
    the socket decide whether it may.  Messages are exchanged as the Go values
    that [encoding/json] transports; only the raw [data] field is a JSON text,
    decoded by the parameter [Json] below.  The kernel's answer to a write to
    [cgroup.procs], the owners of the processes and the conditions of the socket
    are inputs.  The owners do not change while a request is served: that a process
    ends and its number is used again between the check and the write is not
    modelled. *)

From S2P Require Import Prelude GoStrings.

Module Ipc.

(** What [json.Unmarshal(data, &req)] leaves in a zero [AttachRequest]: the
    decoded pid, or 0 when the text is not a JSON object with an integer "pid".
    [json.Marshal] of an [AttachRequest] is read back. *)
Class Json := {
  unmarshal_pid : string → Z;
  marshal_pid : Z → string;
  unmarshal_marshal : ∀ p, - 2 ^ 63 ≤ p < 2 ^ 63 → unmarshal_pid (marshal_pid p) = p;
  unmarshal_null : unmarshal_pid "null" = 0
}.

(** ** Messages (client.go) *)

Definition TypeAttach : string := "attach".
Definition TypeStatus : string := "status".
Definition TypeRepair : string := "repair".

Record Request := mkRequest { Type_ : string; Data : string }.
Record AttachResponse := mkAttachResponse { Success : bool; Error : string }.
Record StatusResponse := mkStatusResponse { SSuccess : bool; SError : string; Version : string; Uptime : string }.

Inductive Response :=
| RAttach (r : AttachResponse)
| RStatus (r : StatusResponse).

(** ** The machine *)

(** [cgroup_procs]: the texts written to /sys/fs/cgroup/vproxy/cgroup.procs
    that the kernel accepted. *)
Record World := mkWorld { cgroup_procs : list string; repairs : nat }.

Record Kernel := mkKernel {
  (** the error of a write of this text to cgroup.procs *)
  write_procs : string → option string;
  (** the owner of /proc/<pid>, [None] when [Stat] fails *)
  proc_owner : Z → option Z
}.

(** [cgroup.MoveProcessToVProxyCgroup(pid)] *)
Definition MoveProcessToVProxyCgroup (K : Kernel) (pid : Z) (w : World) : option string * World :=
  match write_procs K (Strconv.Itoa pid) with
  | Some e => (Some ("failed to move pid " +:+ Strconv.Itoa pid +:+ " to cgroup: " +:+ e +:+
                     ". Ensure 'sudo vproxy init' was run"), w)
  | None => (None, mkWorld (cgroup_procs w ++ [Strconv.Itoa pid]) (repairs w))
  end.

Record peerCred := mkCred { Pid : Z; Uid : Z; Gid : Z }.

(** The connection as [getPeerCred] sees it: whether it is a Unix connection,
    the error of [SyscallConn], and what the callback of [Control] obtained
    ([None]: [Control] failed and the callback never ran). *)
Record Peer := mkPeer {
  is_unix : bool;
  syscall_err : option string;
  control : option (string + peerCred)
}.

(** [getPeerCred]; the error of [Control] is dropped, so that a callback that
    never ran leaves a nil [ucred] to be dereferenced. *)
Definition getPeerCred (p : Peer) : outcome string peerCred :=
  if is_unix p then
    match syscall_err p with
    | Some e => Err e
    | None =>
        match control p with
        | None => Panic
        | Some (inl e) => Err e
        | Some (inr c) => Ok c
        end
    end
  else Err "not a unix socket".

Definition isProcessOwnedBy (K : Kernel) (pid uid : Z) : bool :=
  match proc_owner K pid with
  | None => false
  | Some u => u =? uid
  end.

(** ** The server (server_linux.go) *)

Record Server := mkServer {
  version : string;
  repairHandler : option (World → option string * World);
  uptime : string
}.

Definition SetVersion (s : Server) (v : string) : Server := mkServer v (repairHandler s) (uptime s).

Definition denied : AttachResponse :=
  mkAttachResponse false "permission denied: cannot attach process owned by another user".

Definition answer (e : option string) : AttachResponse :=
  match e with None => mkAttachResponse true "" | Some e => mkAttachResponse false e end.

Section handler.
Context {J : Json} (K : Kernel).

(** The [TypeAttach, ""] case of the switch. *)
Definition handle_attach (p : Peer) (req : Request) (w : World) : outcome unit (option Response) * World :=
  match getPeerCred p with
  | Panic => (Panic, w)
  | Err e => (Ok (Some (RAttach (mkAttachResponse false ("failed to retrieve peer credentials: " +:+ e)))), w)
  | Ok cred =>
      let pid := if String.eqb (Type_ req) TypeAttach then unmarshal_pid (Data req) else 0 in
      if negb (Uid cred =? 0) && negb (pid =? Pid cred) && negb (isProcessOwnedBy K pid (Uid cred))
      then (Ok (Some (RAttach denied)), w)
      else let '(e, w) := MoveProcessToVProxyCgroup K pid w in
           (Ok (Some (RAttach (answer e))), w)
  end.

(** [handleConnection]: [req] is [None] when the request does not decode.  The
    result is the response that is sent, if any. *)
Definition handleConnection (s : Server) (p : Peer) (req : option Request) (w : World) :
    outcome unit (option Response) * World :=
  match req with
  | None => (Ok None, w)
  | Some req =>
      if String.eqb (Type_ req) TypeStatus then
        let ver := if String.eqb (version s) "" then "dev" else version s in
        (Ok (Some (RStatus (mkStatusResponse true "" ver (uptime s)))), w)
      else if String.eqb (Type_ req) TypeRepair then
        match repairHandler s with
        | Some h => let '(e, w) := h w in (Ok (Some (RAttach (answer e))), w)
        | None => (Ok (Some (RAttach (mkAttachResponse false "repair handler not configured"))), w)
        end
      else if String.eqb (Type_ req) TypeAttach || String.eqb (Type_ req) ""
      then handle_attach p req w
      else (Ok None, w)
  end.

(** [serve]: what [Accept] returns, in order; an error ends the loop only after
    [Stop] has closed [stopCh]. *)
Inductive accepted :=
| Conn (p : Peer) (req : option Request)
| AcceptErr (stopped : bool).

Fixpoint serve (s : Server) (evs : list accepted) (w : World) : World :=
  match evs with
  | [] => w
  | AcceptErr true :: _ => w
  | AcceptErr false :: evs => serve s evs w
  | Conn p req :: evs => serve s evs (snd (handleConnection s p req w))
  end.

(** [StartServer] and [Stop]: whether the socket file exists, whether the
    listener is open and whether [stopCh] is closed.  Closing a listener that
    [net.Listen] made removes the socket file. *)
Record Life := mkLife { sock_file : bool; listening : bool; stopped_ : bool }.

Definition StartServer (listen_err chmod_err : option string) (h : option (World → option string * World))
    (up : string) : (string + Server) * Life :=
  match listen_err with
  | Some e => (inl e, mkLife false false false)
  | None =>
      match chmod_err with
      | Some e => (inl e, mkLife false false false)
      | None => (inr (mkServer "" h up), mkLife true true false)
      end
  end.

Definition Stop (l : Life) : outcome unit Life :=
  if stopped_ l then Panic else Ok (mkLife false false true).

(** ** The client (client.go) *)

(** The conditions of one exchange: the error of the dial, of the send and of
    the read of the response. *)
Record Link := mkLink { dial_err : option string; send_err : option string; read_err : option string }.

(** The error of one exchange of the client, and the response it decoded. *)
Definition exchange (s : Server) (me : Peer) (l : Link) (what : string) (req : Request) (w : World) :
    (string + Response) * World :=
  match dial_err l with
  | Some e => (inl ("failed to connect to vproxy daemon (is it running?): " +:+ e), w)
  | None =>
      match send_err l with
      | Some e => (inl ("failed to send " +:+ what +:+ " request: " +:+ e), snd (handleConnection s me None w))
      | None =>
          let '(r, w) := handleConnection s me (Some req) w in
          match read_err l, r with
          | Some e, _ => (inl ("failed to read " +:+ what +:+ " response: " +:+ e), w)
          | None, Ok (Some resp) => (inr resp, w)
          | None, _ => (inl ("failed to read " +:+ what +:+ " response: EOF"), w)
          end
      end
  end.

(** The Success and Error fields as a decoder of [AttachResponse] finds them. *)
Definition as_attach (r : Response) : AttachResponse :=
  match r with RAttach a => a | RStatus t => mkAttachResponse (SSuccess t) (SError t) end.
Definition as_status (r : Response) : StatusResponse :=
  match r with RStatus t => t | RAttach a => mkStatusResponse (Success a) (Error a) "" "" end.

(** The error returned, [None] for nil. *)
Definition RequestAttach (s : Server) (me : Peer) (l : Link) (pid : Z) (w : World) : option string * World :=
  match exchange s me l "attach" (mkRequest TypeAttach (marshal_pid pid)) w with
  | (inl e, w) => (Some e, w)
  | (inr resp, w) =>
      let resp := as_attach resp in
      (if Success resp then None else Some ("daemon rejected attach request: " +:+ Error resp), w)
  end.

Definition RequestStatus (s : Server) (me : Peer) (l : Link) (w : World) : (string + StatusResponse) * World :=
  match exchange s me l "status" (mkRequest TypeStatus "null") w with
  | (inl e, w) => (inl e, w)
  | (inr resp, w) => (inr (as_status resp), w)
  end.

Definition RequestRepair (s : Server) (me : Peer) (l : Link) (w : World) : option string * World :=
  match exchange s me l "repair" (mkRequest TypeRepair "null") w with
  | (inl e, w) => (Some e, w)
  | (inr resp, w) =>
      let resp := as_attach resp in
      (if Success resp then None else Some ("daemon failed to self-heal: " +:+ Error resp), w)
  end.

(** A 64-bit product as Go's [time.Duration] computes it. *)
Definition wrap_i64 (z : Z) : Z := (z + 2 ^ 63) mod 2 ^ 64 - 2 ^ 63.

(** The loop of [RequestAttachWithRetry] from [attempt] on: [left] attempts may
    still be made, [links] are the conditions of each.  The result is the error,
    the durations slept and the world. *)
Fixpoint retry_loop (s : Server) (me : Peer) (links : nat → Link) (pid : Z)
    (attempt left : nat) (backoff : Z) (err : option string) (w : World) :
    option string * list Z * World :=
  match left with
  | O => (err, [], w)
  | S left' =>
      match RequestAttach s me (links attempt) pid w with
      | (None, w) => (None, [], w)
      | (Some e, w) =>
          match left' with
          | O => (Some e, [], w)
          | S _ =>
              let '(r, sleeps, w) :=
                retry_loop s me links pid (S attempt) left' (wrap_i64 (backoff * 2)) (Some e) w in
              (r, backoff :: sleeps, w)
          end
      end
  end.

Definition RequestAttachWithRetry (s : Server) (me : Peer) (links : nat → Link)
    (pid maxRetries initialBackoff : Z) (w : World) : option string * list Z * World :=
  retry_loop s me links pid 0 (Z.to_nat (maxRetries + 1)) initialBackoff None w.

(** ** Authorisation *)

(** Who may attach [pid]: root, the process itself, or the owner of the process. *)
Definition may_attach (c : peerCred) (pid : Z) : Prop :=
  Uid c = 0 ∨ pid = Pid c ∨ proc_owner K pid = Some (Uid c).

Lemma guard_spec c pid :
  negb (Uid c =? 0) && negb (pid =? Pid c) && negb (isProcessOwnedBy K pid (Uid c)) = false ↔
  may_attach c pid.
Proof.
  unfold may_attach, isProcessOwnedBy. rewrite !andb_false_iff, !negb_false_iff, !Z.eqb_eq.
  destruct (proc_owner K pid) as [u|].
  - rewrite Z.eqb_eq. split; [intros [[?|?]|?]|intros [?|[?|?]]]; simplify_eq; auto.
  - split; [intros [[?|?]|?]|intros [?|[?|?]]]; simplify_eq; auto.
Qed.

End handler.

(** The pid an attach message asks for. *)
Definition asked_pid {J : Json} (req : Request) : Z :=
  if String.eqb (Type_ req) TypeAttach then unmarshal_pid (Data req) else 0.

Definition is_attach (req : Request) : bool :=
  String.eqb (Type_ req) TypeAttach || String.eqb (Type_ req) "".

(** [w'] is [w] after the kernel accepted a move of [pid]. *)
Definition moved (pid : Z) (w w' : World) : Prop :=
  w' = mkWorld (cgroup_procs w ++ [Strconv.Itoa pid]) (repairs w).

Section spec.
Context {J : Json} (K : Kernel).

Lemma handleConnection_attach s p req w :
  is_attach req = true → handleConnection K s p (Some req) w = handle_attach K p req w.
Proof.
  intros Ha. unfold handleConnection. unfold is_attach in Ha. rewrite Ha.
  apply orb_prop in Ha as [Ha|Ha]; apply String.eqb_eq in Ha; by rewrite Ha.
Qed.

(** The behaviour of an attach request with known credentials, case by case. *)
Lemma handle_attach_spec s p req c w :
  getPeerCred p = Ok c → is_attach req = true →
  let r := handleConnection K s p (Some req) w in
  let pid := asked_pid req in
  (¬ may_attach K c pid → r = (Ok (Some (RAttach denied)), w)) ∧
  (may_attach K c pid → ∀ e, write_procs K (Strconv.Itoa pid) = Some e →
     ∃ msg, r = (Ok (Some (RAttach (mkAttachResponse false msg))), w)) ∧
  (may_attach K c pid → write_procs K (Strconv.Itoa pid) = None →
     ∃ w', r = (Ok (Some (RAttach (mkAttachResponse true ""))), w') ∧ moved pid w w').
Proof.
  intros Hc Ha. cbn zeta. rewrite handleConnection_attach by done. unfold handle_attach. rewrite Hc.
  change (if String.eqb (Type_ req) TypeAttach then _ else 0) with (asked_pid req).
  pose proof (guard_spec K c (asked_pid req)) as Hg. split_and!.
  - intros Hn. case_match; [done|]. exfalso. by apply Hn, Hg.
  - intros Hm e He. rewrite (proj2 Hg Hm). unfold MoveProcessToVProxyCgroup. rewrite He. cbn. eauto.
  - intros Hm He. rewrite (proj2 Hg Hm). unfold MoveProcessToVProxyCgroup. rewrite He. cbn. by eexists.
Qed.

Lemma may_attach_dec c pid : may_attach K c pid ∨ ¬ may_attach K c pid.
Proof.
  rewrite <- (guard_spec K c pid). destruct (_ && _ && _); [right|left]; done.
Qed.

(** A connection asking for an attach writes its pid when the peer is entitled
    to it and the kernel accepts, and nothing otherwise. *)
Lemma handle_attach_authorised s p rq w w' r :
  is_attach rq = true → handleConnection K s p (Some rq) w = (r, w') →
  w' = w ∨
  ∃ c, getPeerCred p = Ok c ∧ may_attach K c (asked_pid rq) ∧
    write_procs K (Strconv.Itoa (asked_pid rq)) = None ∧ moved (asked_pid rq) w w'.
Proof.
  intros Ha Hr. destruct (getPeerCred p) as [c|e|] eqn:Hc.
  - destruct (handle_attach_spec s p rq c w Hc Ha) as (H1 & H2 & H3). rewrite Hr in *.
    destruct (may_attach_dec c (asked_pid rq)) as [Hm|Hm].
    + destruct (write_procs K _) as [e|] eqn:Hw.
      * destruct (H2 Hm e eq_refl) as [msg [= _ ->]]. by left.
      * destruct (H3 Hm eq_refl) as (w1 & [= _ ->] & Hmv). right. eauto 6.
    + left. by specialize (H1 Hm) as [= _ ->].
  - left. rewrite handleConnection_attach in Hr by done. unfold handle_attach in Hr. rewrite Hc in Hr. congruence.
  - left. rewrite handleConnection_attach in Hr by done. unfold handle_attach in Hr. rewrite Hc in Hr. congruence.
Qed.

(** A repair handler that leaves the cgroup alone. *)
Definition repair_safe (s : Server) : Prop :=
  match repairHandler s with Some h => ∀ w, cgroup_procs (snd (h w)) = cgroup_procs w | None => True end.

(** Why a text may be written to [cgroup.procs] on behalf of a connection. *)
Definition entitled (p : Peer) (req : option Request) (text : string) : Prop :=
  ∃ rq c, req = Some rq ∧ is_attach rq = true ∧ getPeerCred p = Ok c ∧
    may_attach K c (asked_pid rq) ∧ text = Strconv.Itoa (asked_pid rq).

Lemma handleConnection_writes s p req w text :
  repair_safe s → text ∈ cgroup_procs (snd (handleConnection K s p req w)) →
  text ∈ cgroup_procs w ∨ entitled p req text.
Proof.
  intros Hs Ht. destruct req as [rq|]; [|by left].
  destruct (is_attach rq) eqn:Ha.
  - destruct (handleConnection K s p (Some rq) w) as [r w'] eqn:Hr. cbn [snd] in Ht.
    destruct (handle_attach_authorised s p rq w w' r Ha Hr) as [->|(c & Hc & Hm & _ & ->)]; [by left|].
    cbn in Ht. apply elem_of_app in Ht as [Ht|Ht]; [by left|right].
    apply list_elem_of_singleton in Ht as ->. exists rq, c. by split_and!.
  - left. unfold handleConnection in Ht. unfold is_attach in Ha. rewrite Ha in Ht.
    unfold repair_safe in Hs. destruct (repairHandler s) as [h|]; [|by repeat case_match].
    specialize (Hs w). destruct (h w) as [e w1]. cbn [snd] in Hs.
    repeat case_match; cbn in Ht; congruence.
Qed.

(** C29. Only entitled clients move processes.  Whatever connections the daemon
    serves, with whatever requests, until it is stopped, every text it writes to
    [cgroup.procs] is the pid an attach request of one of them asked for, and
    the peer of that connection was root, that process itself, or the owner of
    that process. *)
Theorem serve_authorised s evs w text :
  repair_safe s → text ∈ cgroup_procs (serve K s evs w) →
  text ∈ cgroup_procs w ∨ ∃ p req, Conn p req ∈ evs ∧ entitled p req text.
Proof.
  intros Hs. revert w. induction evs as [|[p req|[|]] evs IH]; intros w; cbn [serve]; [by left| |by left|].
  - intros [Ht|(p' & req' & Hin & He)]%IH.
    + apply handleConnection_writes in Ht as [Ht|He]; [by left| |done].
      right. exists p, req. split; [by left|done].
    + right. exists p', req'. split; [by right|done].
  - intros [Ht|(p' & req' & Hin & He)]%IH; [by left|right]. exists p', req'. split; [by right|done].
Qed.

(** ** Retries *)

Definition clean (l : Link) : Prop := l = mkLink None None None.

Lemma RequestAttach_spec s me c l pid w e w' :
  - 2 ^ 63 ≤ pid < 2 ^ 63 → getPeerCred me = Ok c →
  RequestAttach K s me l pid w = (e, w') →
  (w' = w ∧ e ≠ None ∨
   moved pid w w' ∧ may_attach K c pid ∧ (e = None ∨ read_err l ≠ None)) ∧
  (clean l → may_attach K c pid → write_procs K (Strconv.Itoa pid) = None → e = None).
Proof.
  intros Hp Hc. unfold RequestAttach, exchange, clean.
  destruct l as [[de|] [se|] re]; cbn [dial_err send_err read_err];
    try (intros [= <- <-]; split; [by left|congruence]).
  set (rq := mkRequest TypeAttach (marshal_pid pid)).
  assert (asked_pid rq = pid) as Hpid by (by apply unmarshal_marshal).
  destruct (handle_attach_spec s me rq c w Hc eq_refl) as (H1 & H2 & H3). rewrite Hpid in *.
  destruct (may_attach_dec c pid) as [Hm|Hm].
  - destruct (write_procs K (Strconv.Itoa pid)) as [er|].
    + destruct (H2 Hm er eq_refl) as [msg ->]. destruct re; cbn; intros [= <- <-]; (split; [by left|congruence]).
    + destruct (H3 Hm eq_refl) as (w1 & -> & Hmv). destruct re; cbn; intros [= <- <-]; (split; [|congruence]).
      * right. split_and!; [done..|by right].
      * right. split_and!; [done..|by left].
  - rewrite (H1 Hm). destruct re; cbn; intros [= <- <-]; (split; [by left|congruence]).
Qed.

(** Doubling without overflow. *)
Definition backoffs (b : Z) (n : nat) : list Z := (fun i => b * 2 ^ Z.of_nat i) <$> seq 0 n.

Lemma backoffs_cons b n : b :: backoffs (b * 2) n = backoffs b (S n).
Proof.
  unfold backoffs. cbn [seq fmap list_fmap]. f_equal; [lia|].
  rewrite <- seq_shift, <- list_fmap_compose. apply list_fmap_ext. intros i x _. unfold compose.
  rewrite Nat2Z.inj_succ, Z.pow_succ_r by lia. lia.
Qed.

Lemma retry_loop_spec s me c links pid left : ∀ attempt b err w r sleeps w',
  - 2 ^ 63 ≤ pid < 2 ^ 63 → getPeerCred me = Ok c → 0 ≤ b → b * 2 ^ Z.of_nat left < 2 ^ 63 →
  (0 < left)%nat →
  retry_loop K s me links pid attempt left b err w = (r, sleeps, w') →
  (∃ n, sleeps = backoffs b n ∧ (n < left)%nat ∧ (r ≠ None → S n = left) ∧
    (may_attach K c pid → write_procs K (Strconv.Itoa pid) = None →
     ∀ j, (j < left)%nat → clean (links (attempt + j)%nat) → r = None ∧ (n ≤ j)%nat) ∧
    ∃ k, (k ≤ S n)%nat ∧ cgroup_procs w' = cgroup_procs w ++ replicate k (Strconv.Itoa pid) ∧
      (r = None → (1 ≤ k)%nat) ∧ ((1 ≤ k)%nat → may_attach K c pid)).
Proof.
  induction left as [|left IH]; intros attempt b err w r sleeps w' Hp Hc Hb Hov Hl; [lia|].
  cbn [retry_loop]. destruct (RequestAttach K s me (links attempt) pid w) as [e w1] eqn:Ha.
  destruct (RequestAttach_spec _ _ _ _ _ _ _ _ Hp Hc Ha) as [Hw Hclean].
  assert (∃ k, (k ≤ 1)%nat ∧ cgroup_procs w1 = cgroup_procs w ++ replicate k (Strconv.Itoa pid) ∧
    (e = None → k = 1%nat) ∧ ((1 ≤ k)%nat → may_attach K c pid)) as (k1 & Hk1 & Hw1 & Hn1 & Hm1).
  { destruct Hw as [[-> He]|(-> & Hm & _)]; [exists 0%nat|exists 1%nat].
    - rewrite app_nil_r. split_and!; (done || lia).
    - split_and!; done. }
  destruct e as [e|].
  2:{ intros [= <- <- <-]. exists 0%nat. split_and!; [done|lia|done| |].
      - intros _ _ j _ _. split; [done|lia].
      - exists k1. split_and!; [lia|done|intros; rewrite Hn1; done|done]. }
  assert (may_attach K c pid → write_procs K (Strconv.Itoa pid) = None → clean (links attempt) → False)
    as Hnc by (intros Hm Hwr Hcl; by specialize (Hclean Hcl Hm Hwr)).
  destruct left as [|left].
  { intros [= <- <- <-]. exists 0%nat. split_and!; [done|lia|done| |].
    - intros Hm Hwr j Hj Hcl. exfalso. apply Hnc; [done..|]. by replace attempt with (attempt + j)%nat by lia.
    - exists k1. split_and!; [lia|done|done|done]. }
  assert (wrap_i64 (b * 2) = b * 2) as ->.
  { unfold wrap_i64. rewrite Nat2Z.inj_succ, Z.pow_succ_r in Hov by lia.
    rewrite Nat2Z.inj_succ, Z.pow_succ_r in Hov by lia.
    pose proof (Z.pow_pos_nonneg 2 (Z.of_nat left) ltac:(lia) ltac:(lia)).
    rewrite Z.mod_small; nia. }
  destruct (retry_loop K s me links pid (S attempt) (S left) (b * 2) (Some e) w1) as [[r1 sl1] w2] eqn:Hrec.
  intros [= <- <- <-].
  destruct (IH (S attempt) (b * 2) (Some e) w1 r1 sl1 w2) as (n & -> & Hn & Hlast & Hlive & k & Hk & Hwk & Hnk & Hmk);
    [done|done|lia| |lia|done|].
  { rewrite (Nat2Z.inj_succ (S left)), Z.pow_succ_r in Hov by lia. lia. }
  exists (S n). split_and!; [apply backoffs_cons|lia|intros; by rewrite Hlast| |].
  - intros Hm Hwr j Hj Hcl. destruct j as [|j].
    + exfalso. apply Hnc; [done..|]. by rewrite Nat.add_0_r in Hcl.
    + destruct (Hlive Hm Hwr j ltac:(lia)) as [-> ?]; [|split; [done|lia]].
      by replace (S attempt + j)%nat with (attempt + S j)%nat by lia.
  - exists (k1 + k)%nat. split_and!; [lia| |intros H; specialize (Hnk H); lia|].
    + by rewrite Hwk, Hw1, <- app_assoc, replicate_add.
    + intros H. destruct k1; [apply Hmk; lia|apply Hm1; lia].
Qed.

(** C39. [RequestAttachWithRetry] makes at most [maxRetries+1] attempts, sleeping
    [initialBackoff], then twice as long before each next one.  When the client is
    entitled to the pid and the kernel accepts it, the call returns nil as soon as
    one of these attempts meets no socket error; when it returns nil, the daemon
    did move the process; and it never causes anything but moves of [pid], and
    these only when the client is entitled to them. *)
Theorem attach_retries s me c links pid maxRetries initial w :
  - 2 ^ 63 ≤ pid < 2 ^ 63 → getPeerCred me = Ok c → 0 ≤ maxRetries → 0 ≤ initial →
  initial * 2 ^ (maxRetries + 1) < 2 ^ 63 →
  let '(r, sleeps, w') := RequestAttachWithRetry K s me links pid maxRetries initial w in
  sleeps = backoffs initial (length sleeps) ∧ Z.of_nat (length sleeps) ≤ maxRetries ∧
  (∃ k, (k ≤ S (length sleeps))%nat ∧
     cgroup_procs w' = cgroup_procs w ++ replicate k (Strconv.Itoa pid) ∧
     (r = None → (1 ≤ k)%nat) ∧ ((1 ≤ k)%nat → may_attach K c pid)) ∧
  (may_attach K c pid → write_procs K (Strconv.Itoa pid) = None →
   ∀ j, Z.of_nat j ≤ maxRetries → clean (links j) → r = None ∧ (length sleeps ≤ j)%nat) ∧
  (r ≠ None → Z.of_nat (length sleeps) = maxRetries).
Proof.
  intros Hp Hc Hm Hi Hov. unfold RequestAttachWithRetry.
  destruct (retry_loop _ _ _ _ _ _ _ _ _ _) as [[r sleeps] w'] eqn:E.
  pose proof (retry_loop_spec s me c links pid (Z.to_nat (maxRetries + 1)) 0 initial None w r sleeps w' Hp Hc Hi) as H.
  destruct H as (n & -> & Hn & Hlast & Hlive & Hk); [by rewrite Z2Nat.id by lia|lia|done|].
  assert (length (backoffs initial n) = n) as -> by (unfold backoffs; by rewrite length_fmap, length_seq).
  split_and!; [done|lia|done| |intros Hr; specialize (Hlast Hr); lia].
  intros Hma Hwr j Hj Hcl. apply (Hlive Hma Hwr j); [lia|done].
Qed.

(** A daemon that failed to start leaves no socket behind; one that started and
    was stopped leaves none either, and must not be stopped twice. *)
Lemma server_lifecycle le ce h up :
  match StartServer le ce h up with
  | (inl _, l) => sock_file l = false ∧ listening l = false
  | (inr _, l) => listening l = true ∧
      ∃ l', Stop l = Ok l' ∧ sock_file l' = false ∧ listening l' = false ∧ Stop l' = Panic
  end.
Proof. unfold StartServer. destruct le, ce; cbn; eauto 6. Qed.

(** With a negative [maxRetries] the loop body never runs and the call reports
    success without having asked the daemon. *)
Lemma negative_retries_succeed s me links pid maxRetries initial w :
  maxRetries < 0 → RequestAttachWithRetry K s me links pid maxRetries initial w = (None, [], w).
Proof. intros H. unfold RequestAttachWithRetry. by replace (Z.to_nat (maxRetries + 1)) with 0%nat by lia. Qed.

(** A root client whose attach message carries no decodable pid makes the daemon
    write 0, which the kernel takes as the daemon itself. *)
Lemma root_without_pid_moves_daemon s me c w :
  getPeerCred me = Ok c → Uid c = 0 → write_procs K "0" = None →
  ∃ w', handleConnection K s me (Some (mkRequest "" "null")) w =
    (Ok (Some (RAttach (mkAttachResponse true ""))), w') ∧ cgroup_procs w' = cgroup_procs w ++ ["0"].
Proof.
  intros Hc Hr Hk.
  destruct (handle_attach_spec s me (mkRequest "" "null") c w Hc eq_refl) as (_ & _ & H).
  destruct (H (or_introl Hr) Hk) as (w' & -> & ->). by eexists.
Qed.

End spec.
(** ** Witnesses *)

(** A decoder of the texts the client sends: an object with one integer field. *)
Definition ex_prefix : string := String "{" (String "034" ("pid" +:+ String "034" ":")).
Definition ex_marshal (p : Z) : string := ex_prefix +:+ (Strconv.Itoa p +:+ "}").
Definition ex_unmarshal (s : string) : Z := fst (Strconv.Atoi (Strings.TrimSuffix (sdrop 7 s) "}")).

Lemma Atoi_Itoa_neg n : - 2 ^ 63 ≤ n < 0 → Strconv.Atoi (Strconv.Itoa n) = (n, true).
Proof.
  intros Hn. unfold Strconv.Itoa. rewrite (proj2 (Z.ltb_lt n 0)) by lia.
  pose proof (Strconv.dec_aux_nonempty 20 (- n) "" ltac:(lia)) as Hne.
  pose proof (Strconv.digits_value_dec_aux 20 (- n) "" ltac:(lia) ltac:(lia)) as Hv.
  destruct (Strconv.dec_aux 20 (- n) "") as [|c s]; [done|]. unfold Strconv.Atoi.
  change (Strconv.cut_sign (String "-" (String c s))) with (true, String c s). cbv beta iota.
  rewrite Hv. cbn [Strconv.digits_value].
  rewrite (proj2 (Z.ltb_ge _ _)), (proj2 (Z.ltb_ge _ _)) by lia. f_equal. lia.
Qed.

Lemma ex_roundtrip p : - 2 ^ 63 ≤ p < 2 ^ 63 → ex_unmarshal (ex_marshal p) = p.
Proof.
  intros Hp. unfold ex_unmarshal, ex_marshal. rewrite (sdrop_app_eq 7) by done.
  unfold Strings.TrimSuffix. rewrite (proj2 (Strings.HasSuffix_spec _ _)) by eauto.
  rewrite slen_app, Nat.add_sub, stake_app.
  destruct (Z.lt_ge_cases p 0); [by rewrite Atoi_Itoa_neg by lia|by rewrite Strconv.Atoi_Itoa by lia].
Qed.

#[local] Instance ex_json : Json := {
  unmarshal_pid := ex_unmarshal;
  marshal_pid := ex_marshal;
  unmarshal_marshal := ex_roundtrip;
  unmarshal_null := eq_refl
}.

Definition ex_kernel : Kernel :=
  mkKernel (fun _ => None) (fun p => if p =? 700 then Some 1000 else if p =? 1 then Some 0 else None).
Definition ex_server : Server := mkServer "v1" None "5s".
Definition ex_user : Peer := mkPeer true None (Some (inr (mkCred 650 1000 1000))).
Definition ex_attach (p : Z) : option Request := Some (mkRequest TypeAttach (ex_marshal p)).
Definition ex_events : list accepted :=
  [Conn ex_user (ex_attach 1); AcceptErr false; Conn ex_user (ex_attach 700); AcceptErr true; Conn ex_user (ex_attach 650)].

Lemma serve_authorised_witness :
  cgroup_procs (serve ex_kernel ex_server ex_events (mkWorld [] 0)) = ["700"] ∧
  ∃ p req, Conn p req ∈ ex_events ∧ entitled ex_kernel p req "700".
Proof.
  split; [by vm_compute|].
  destruct (serve_authorised (J := ex_json) ex_kernel ex_server ex_events (mkWorld [] 0) "700" I) as [H|H].
  - vm_compute. left.
  - exfalso. by apply elem_of_nil in H.
  - exact H.
Defined.

Definition ex_links (i : nat) : Link :=
  match i with
  | O => mkLink (Some "connection refused") None None
  | 1%nat => mkLink None None (Some "i/o timeout")
  | _ => mkLink None None None
  end.

Lemma attach_retries_witness :
  RequestAttachWithRetry ex_kernel ex_server ex_user ex_links 700 5 50000000 (mkWorld [] 0) =
    (None, [50000000; 100000000], mkWorld ["700"; "700"] 0) ∧
  may_attach ex_kernel (mkCred 650 1000 1000) 700.
Proof.
  split; [by vm_compute|].
  pose proof (attach_retries (J := ex_json) ex_kernel ex_server ex_user (mkCred 650 1000 1000) ex_links 700 5 50000000
    (mkWorld [] 0) ltac:(lia) eq_refl ltac:(lia) ltac:(lia) ltac:(lia)) as H.
  destruct (RequestAttachWithRetry _ _ _ _ _ _ _ _) as [[r sl] w'] eqn:E. vm_compute in E. simplify_eq.
  destruct H as (_ & _ & (k & _ & _ & H1 & H2) & _). auto.
Defined.

End Ipc.
