(* ===== verification/ProcCache.v ===== *)
(** * Which process owns a port (src/proxy/tproxy/proc_linux.go)

    The cache of (port, process) pairs with its time to live, the search of
    /proc/net for the inode of a socket and of /proc/<pid>/fd for the process
    that holds it.  Time is in nanoseconds.  The /proc file system is an input;
    a file of /proc/net is the sequence of the reads that deliver it, so that
    [bufio.Scanner] and its buffer are modelled as they run: after [f.Close] the
    scanner still finds what was buffered and nothing else. *)

From S2P Require Import Prelude GoStrings.

Module ProcCache.

(** ** The cache *)

Record procCacheEntry := mkEntry { pid : Z; name : string; expiresAt : Z }.
Record procCache := mkCache { ttl : Z; entries : gmap Z procCacheEntry }.

Definition newProcCache (t : Z) : procCache := mkCache t ∅.

Definition Get (c : procCache) (now port : Z) : option (string * Z) :=
  match entries c !! port with
  | None => None
  | Some e => if expiresAt e <? now then None else Some (name e, pid e)
  end.

(** [now] is the time of the clean-up, [now'] that of the insertion. *)
Definition Put (c : procCache) (now now' port p : Z) (n : string) : procCache :=
  let es := if Nat.ltb 2048 (size (entries c))
            then filter (fun kv => negb (expiresAt (snd kv) <? now)) (entries c) else entries c in
  mkCache (ttl c) (<[port := mkEntry p n (now' + ttl c)]> es).

(** The cache of the package lives for five seconds. *)
Definition globalProcCache : procCache := newProcCache (5 * 1000000000).

Definition RecordProcessMetadata (c : procCache) (now now' port p : Z) (n : string) : procCache :=
  if (0 <? port) && (0 <? p) && negb (String.eqb n "") then Put c now now' port p n else c.

(** ** [bufio.Scanner] with [ScanLines] *)

Definition newline : byte := mk8 10.

Fixpoint cut_line (l : list byte) : option (list byte * list byte) :=
  match l with
  | [] => None
  | c :: l =>
      if Ascii.eqb c newline then Some ([], l)
      else match cut_line l with Some (a, r) => Some (c :: a, r) | None => None end
  end.

Definition dropCR (l : list byte) : list byte :=
  match last l with
  | Some c => if u8 c =? 13 then take (length l - 1) l else l
  | None => l
  end.

(** [Scan]: the next line, the rest of the buffer and the reads to come.  A
    line that does not fit the largest buffer stops the scan. *)
Fixpoint Scan (buf : list byte) (reads : list (list byte)) :
    option (list byte * (list byte * list (list byte))) :=
  match cut_line buf with
  | Some (l, rest) => Some (dropCR l, (rest, reads))
  | None =>
      if 65536 <=? Z.of_nat (length buf) then None
      else match reads with
           | [] => match buf with [] => None | _ => Some (dropCR buf, ([], [])) end
           | r :: reads => Scan (buf ++ r) reads
           end
  end.

(** ** /proc/net *)

Definition hex_digit (z : Z) : byte := if z <? 10 then mk8 (48 + z) else mk8 (55 + z).

Fixpoint hex_aux (fuel : nat) (n : Z) (acc : string) : string :=
  match fuel with
  | O => acc
  | S f =>
      let acc := String (hex_digit (n mod 16)) acc in
      if n <? 16 then acc else hex_aux f (n / 16) acc
  end.

(** [fmt.Sprintf("%04X", n)] for [n >= 0]; 16 digits hold every 64-bit int. *)
Definition Sprintf_04X (n : Z) : string :=
  let s := hex_aux 16 n "" in
  String.string_of_list_ascii (replicate (4 - slen s) "0"%char) +:+ s.

(** A line of /proc/net with its local address and inode, when it has at least
    ten fields. *)
Definition net_fields (line : list byte) : option (string * string) :=
  let fields := Strings.Fields (of_bytes line) in
  if Nat.ltb (length fields) 10 then None
  else Some (nth 1 fields "", nth 9 fields "").

Definition local_is (addr hexPort : string) : bool := Strings.HasSuffix addr (":" +:+ hexPort).
Definition live_inode (inode : string) : bool := negb (String.eqb inode "0") && negb (String.eqb inode "").

(** The loop over the lines of one file; a line whose address matches closes the
    file before its inode is looked at. *)
Fixpoint scan_loop (fuel : nat) (hexPort : string) (isFirst : bool) (buf : list byte)
    (reads : list (list byte)) : option string :=
  match fuel with
  | O => None
  | S f =>
      match Scan buf reads with
      | None => None
      | Some (line, (buf, reads)) =>
          if isFirst then scan_loop f hexPort false buf reads
          else
            match net_fields line with
            | None => scan_loop f hexPort false buf reads
            | Some (localAddr, inode) =>
                if local_is localAddr hexPort
                then if live_inode inode then Some inode
                     else scan_loop f hexPort false buf []
                else scan_loop f hexPort false buf reads
            end
      end
  end.

(** Every successful [Scan] consumes a byte: one more than the bytes is enough. *)
Definition scan_fuel (reads : list (list byte)) : nat := S (length (concat reads)).

Definition procFiles : list string :=
  ["/proc/net/tcp"; "/proc/net/tcp6"; "/proc/net/udp"; "/proc/net/udp6"].

(** [net f]: [None] when the file does not open, else its reads. *)
Fixpoint scan_files (net : string → option (list (list byte))) (hexPort : string) (fs : list string) :
    option string :=
  match fs with
  | [] => None
  | f :: fs =>
      match net f with
      | None => scan_files net hexPort fs
      | Some reads =>
          match scan_loop (scan_fuel reads) hexPort true [] reads with
          | Some inode => Some inode
          | None => scan_files net hexPort fs
          end
      end
  end.

Definition findSocketInodeByPort (net : string → option (list (list byte))) (port : Z) : outcome string string :=
  match scan_files net (Sprintf_04X port) procFiles with
  | Some inode => Ok inode
  | None => Err ("socket inode not found for port " +:+ Strconv.Itoa port)
  end.

(** ** /proc/<pid> *)

Record ProcFS := mkProcFS {
  getpid : Z;
  (** names of /proc and whether each is a directory *)
  proc_dir : string + list (string * bool);
  fd_dir : Z → option (list string);
  fd_link : Z → string → option string;
  comm_file : Z → option string;
  exe_link : Z → option string
}.

Definition process_name (P : ProcFS) (p : Z) : string :=
  let comm := match comm_file P p with Some s => Strings.TrimSpace s | None => "" end in
  if negb (String.eqb comm "") then comm
  else match exe_link P p with
       | Some e => if String.eqb e "" then "pid-" +:+ Strconv.Itoa p else Filepath.Base e
       | None => "pid-" +:+ Strconv.Itoa p
       end.

Definition holds_link (P : ProcFS) (p : Z) (target : string) : bool :=
  match fd_dir P p with
  | None => false
  | Some fds => existsb (fun fd => match fd_link P p fd with Some l => String.eqb l target | None => false end) fds
  end.

Definition checkPidFd (P : ProcFS) (p : Z) (targetLink : string) : option string :=
  if holds_link P p targetLink then Some (process_name P p) else None.

(** The loop over the directory entries of /proc. *)
Fixpoint scan_procs (P : ProcFS) (targetLink : string) (es : list (string * bool)) : option (string * Z) :=
  match es with
  | [] => None
  | (n, isdir) :: es =>
      if negb isdir then scan_procs P targetLink es
      else let '(p, ok) := Strconv.Atoi n in
           if negb ok || (p <=? 0) || (p =? getpid P) then scan_procs P targetLink es
           else match checkPidFd P p targetLink with
                | Some nm => Some (nm, p)
                | None => scan_procs P targetLink es
                end
  end.

Definition findProcessBySocketInode (P : ProcFS) (inode : string) : outcome string (string * Z) :=
  let targetLink := "socket:[" +:+ inode +:+ "]" in
  match checkPidFd P (getpid P) targetLink with
  | Some nm => Ok (nm, getpid P)
  | None =>
      match proc_dir P with
      | inl e => Err e
      | inr es =>
          match scan_procs P targetLink es with
          | Some r => Ok r
          | None => Err ("no process found for inode " +:+ inode)
          end
      end
  end.

(** ** Resolution *)

Record Sys := mkSys { sys_net : string → option (list (list byte)); sys_proc : ProcFS }.

(** [now] is the time of the look-up, [now1] and [now2] those of the [Put]. *)
Definition ResolveProcessByPort (S : Sys) (now now1 now2 port : Z) (c : procCache) :
    outcome string (string * Z) * procCache :=
  if port <=? 0 then (Err ("invalid port " +:+ Strconv.Itoa port), c)
  else
    match Get c now port with
    | Some r => (Ok r, c)
    | None =>
        match findSocketInodeByPort (sys_net S) port with
        | Ok inode =>
            match findProcessBySocketInode (sys_proc S) inode with
            | Ok (nm, p) => (Ok (nm, p), Put c now1 now2 port p nm)
            | Err e => (Err e, c)
            | Panic => (Panic, c)
            end
        | Err e => (Err e, c)
        | Panic => (Panic, c)
        end
    end.

Inductive Addr := TCPAddr (port : Z) | UDPAddr (port : Z) | OtherAddr.
Inductive AnyConn := NilConn | NotConn | NetConn (remote local : option Addr).

(** The port of an address, or [old] when it is nil or of another type. *)
Definition addr_port (a : option Addr) (old : Z) : Z :=
  match a with Some (TCPAddr p) | Some (UDPAddr p) => p | _ => old end.

Definition ResolveProcessByConn (S : Sys) (now now1 now2 : Z) (conn : AnyConn) (c : procCache) :
    outcome string (string * Z) * procCache :=
  match conn with
  | NilConn => (Err "nil conn", c)
  | NotConn => (Err "not a network connection", c)
  | NetConn remote local =>
      let port := addr_port remote 0 in
      let '(first, c) :=
        if 0 <? port then ResolveProcessByPort S now now1 now2 port c else (Err "", c) in
      match first with
      | Ok r => (Ok r, c)
      | Panic => (Panic, c)
      | Err _ =>
          let port := addr_port local port in
          if 0 <? port then ResolveProcessByPort S now now1 now2 port c
          else (Err "could not determine port from conn", c)
      end
  end.

(** ** The cache is a map with a time to live *)

(** A recorded insertion: times of the clean-up and of the insertion, port, pid
    and name. *)
Record put := mkPut { p_clean : Z; p_at : Z; p_port : Z; p_pid : Z; p_name : string }.

Definition run_puts (t : Z) (ps : list put) : procCache :=
  fold_left (fun c p => Put c (p_clean p) (p_at p) (p_port p) (p_pid p) (p_name p)) ps (newProcCache t).

(** The clock does not run backwards over a sequence of insertions up to [now]. *)
Fixpoint ordered (from : Z) (ps : list put) (now : Z) : Prop :=
  match ps with
  | [] => from ≤ now
  | p :: ps => from ≤ p_clean p ∧ p_clean p ≤ p_at p ∧ ordered (p_at p) ps now
  end.

(** The last insertion for a port. *)
Fixpoint last_put (ps : list put) (port : Z) : option put :=
  match ps with
  | [] => None
  | p :: ps => match last_put ps port with
               | Some q => Some q
               | None => if p_port p =? port then Some p else None
               end
  end.

(** What a cache without clean-up and of any size would answer. *)
Definition spec_get (t : Z) (ps : list put) (now port : Z) : option (string * Z) :=
  match last_put ps port with
  | Some p => if p_at p + t <? now then None else Some (p_name p, p_pid p)
  | None => None
  end.

Lemma last_put_app ps p port :
  last_put (ps ++ [p]) port = if p_port p =? port then Some p else last_put ps port.
Proof. induction ps as [|q ps IH]; cbn; [done|]. rewrite IH. by case_match. Qed.

Lemma ordered_app from ps p now :
  ordered from (ps ++ [p]) now → ordered from ps (p_clean p) ∧ p_clean p ≤ p_at p ≤ now.
Proof.
  revert from. induction ps as [|q ps IH]; intros from; cbn; [lia|].
  intros (? & ? & H). apply IH in H. naive_solver.
Qed.

(** An entry is what was last put for its port; a missing one has expired. *)
Lemma run_puts_entries t ps now port :
  ordered 0 ps now →
  ttl (run_puts t ps) = t ∧
  match entries (run_puts t ps) !! port with
  | Some e => ∃ p, last_put ps port = Some p ∧ e = mkEntry (p_pid p) (p_name p) (p_at p + t)
  | None => ∀ p, last_put ps port = Some p → p_at p + t < now
  end.
Proof.
  revert now. induction ps as [|p ps IH] using rev_ind; intros now Ho.
  { split; [done|]. cbn. by rewrite lookup_empty. }
  apply ordered_app in Ho as [Ho Hle]. destruct (IH _ Ho) as [Ht He]. clear IH.
  unfold run_puts. rewrite fold_left_app. fold (run_puts t ps). cbn [fold_left]. unfold Put. cbn [ttl entries].
  rewrite Ht. split; [done|]. rewrite last_put_app.
  destruct (Z.eqb_spec (p_port p) port) as [->|Hne].
  { rewrite lookup_insert_eq. eauto. }
  rewrite lookup_insert_ne by done. destruct (Nat.ltb _ _).
  - rewrite map_lookup_filter. destruct (entries (run_puts t ps) !! port) as [e|]; cbn [option_bind mbind].
    + destruct He as (q & Hq & ->). cbn. destruct (Z.ltb_spec (p_at q + t) (p_clean p)); cbn.
      * intros q' Hq'. rewrite Hq in Hq'. simplify_eq. lia.
      * rewrite option_guard_True by done. eauto.
    + intros q Hq%He. lia.
  - destruct (entries (run_puts t ps) !! port) as [e|]; [done|]. intros q Hq%He. lia.
Qed.

(** The cache answers as an unbounded map with a time to live: after any
    sequence of insertions under a clock that does not run backwards, [Get]
    returns exactly the process last recorded for the port within the last
    [ttl], and nothing when there is none; the clean-up of a cache with more
    than 2048 entries is not observable. *)
Theorem procCache_refines t ps now port :
  ordered 0 ps now → Get (run_puts t ps) now port = spec_get t ps now port.
Proof.
  intros Ho. destruct (run_puts_entries t ps now port Ho) as [_ He].
  unfold Get, spec_get. destruct (entries (run_puts t ps) !! port) as [e|].
  - destruct He as (p & -> & ->). done.
  - destruct (last_put ps port) as [p|]; [|done].
    by rewrite (proj2 (Z.ltb_lt _ _)) by (by apply He).
Qed.

Lemma procCache_refines_witness :
  Get (run_puts 5 [mkPut 1 1 80 7 "a"; mkPut 2 3 81 8 "b"; mkPut 4 4 80 9 "c"]) 9 80 = Some ("c", 9) ∧
  Get (run_puts 5 [mkPut 1 1 80 7 "a"; mkPut 2 3 81 8 "b"; mkPut 4 4 80 9 "c"]) 9 81 = None.
Proof. split; rewrite procCache_refines; [reflexivity|cbn; lia|reflexivity|cbn; lia]. Defined.

(** ** The lines of a file *)

Fixpoint raw_lines (l : list byte) : list (list byte) :=
  match l with
  | [] => []
  | c :: l =>
      if Ascii.eqb c newline then [] :: raw_lines l
      else match raw_lines l with h :: t => (c :: h) :: t | [] => [[c]] end
  end.
Definition file_lines (l : list byte) : list (list byte) := dropCR <$> raw_lines l.

Definition short_lines (l : list byte) : Prop :=
  Forall (fun r => Z.of_nat (length r) < 65536) (raw_lines l).

Lemma cut_line_Some l a r :
  cut_line l = Some (a, r) →
  raw_lines l = a :: raw_lines r ∧ length l = S (length a + length r) ∧
  ∀ x, cut_line (l ++ x) = Some (a, r ++ x).
Proof.
  revert a r. induction l as [|c l IH]; intros a r; cbn; [done|].
  destruct (Ascii.eqb c newline); [by intros [= <- <-]|].
  destruct (cut_line l) as [[a' r']|]; [|done]. intros [= <- <-].
  destruct (IH a' r' eq_refl) as (-> & -> & Hx). split_and!; [done|done|]. intros x. by rewrite Hx.
Qed.

Lemma cut_line_None l : cut_line l = None → l ≠ [] → raw_lines l = [l].
Proof.
  induction l as [|c l IH]; cbn; [done|]. destruct (Ascii.eqb c newline); [done|].
  destruct (cut_line l) as [[? ?]|] eqn:E; [done|]. intros _ _. destruct l as [|d l]; [done|].
  by rewrite IH.
Qed.

(** The first line of a text is at least as long as a prefix without newline. *)
Lemma cut_line_None_long l x :
  cut_line l = None → l ++ x ≠ [] → ∃ h t, raw_lines (l ++ x) = h :: t ∧ (length l ≤ length h)%nat.
Proof.
  intros Hc Hne. induction l as [|c l IH]; cbn in *.
  - destruct (cut_line x) as [[a r]|] eqn:E.
    + apply cut_line_Some in E as (-> & _). eexists _, _. split; [done|lia].
    + rewrite cut_line_None by done. eexists _, _. split; [done|lia].
  - destruct (Ascii.eqb c newline); [done|]. destruct (cut_line l) as [[? ?]|] eqn:E; [done|].
    destruct (decide (l ++ x = [])) as [Hn|Hn].
    + rewrite Hn. cbn. apply app_nil in Hn as [-> ->]. eexists _, _. split; [done|cbn; lia].
    + destruct (IH eq_refl Hn) as (h & t & -> & Hl). eexists _, _. split; [done|cbn; lia].
Qed.

(** [Scan] delivers the lines of the file, whatever the reads. *)
Lemma Scan_lines reads : ∀ buf,
  short_lines (buf ++ concat reads) →
  match Scan buf reads with
  | None => buf ++ concat reads = []
  | Some (l, (buf', reads')) =>
      ∃ raw, raw_lines (buf ++ concat reads) = raw :: raw_lines (buf' ++ concat reads') ∧ l = dropCR raw ∧
      (length (buf' ++ concat reads') < length (buf ++ concat reads))%nat
  end.
Proof.
  induction reads as [|r reads IH]; intros buf Hs; cbn [Scan concat] in *;
    (destruct (cut_line buf) as [[a rest]|] eqn:E;
     [destruct (cut_line_Some _ _ _ E) as (_ & Hl & Hx)|]).
  - rewrite app_nil_r in *. destruct (cut_line_Some _ _ _ E) as (-> & _ & _).
    exists a. cbn [concat]. rewrite app_nil_r. split_and!; [done|done|lia].
  - rewrite app_nil_r in *. destruct buf as [|c buf]; [done|].
    pose proof (cut_line_None _ E ltac:(done)) as Hr. unfold short_lines in Hs. rewrite Hr in Hs.
    apply Forall_cons in Hs as [Hs _]. rewrite (proj2 (Z.leb_gt _ _)) by lia.
    exists (c :: buf). rewrite Hr. split_and!; [done|done|cbn; lia].
  - destruct (cut_line_Some _ _ _ (Hx (r ++ concat reads))) as (Hr & Hl' & _). cbn [concat].
    exists a. split_and!; [done|done|lia].
  - destruct (Z.leb_spec 65536 (Z.of_nat (length buf))) as [Hlong|_].
    + exfalso. destruct (cut_line_None_long buf (r ++ concat reads) E) as (h & t & Hr & Hle).
      { intros [-> _]%app_nil. cbn in Hlong. lia. }
      unfold short_lines in Hs. rewrite Hr in Hs. apply Forall_cons in Hs as [Hs _]. lia.
    + rewrite app_assoc in *. by apply IH.
Qed.

(** ** Finding the inode *)

(** The first line, after the heading, that names the port and a socket. *)
Definition line_inode (hexPort : string) (line : list byte) : option string :=
  match net_fields line with
  | Some (a, i) => if local_is a hexPort && live_inode i then Some i else None
  | None => None
  end.
Fixpoint first_inode (hexPort : string) (lines : list (list byte)) : option string :=
  match lines with
  | [] => None
  | l :: ls => match line_inode hexPort l with Some i => Some i | None => first_inode hexPort ls end
  end.

(** No socket of the port is without inode (in the state TIME_WAIT, say). *)
Definition no_dead (hexPort : string) (lines : list (list byte)) : Prop :=
  Forall (fun l => match net_fields l with
                   | Some (a, i) => local_is a hexPort = true → live_inode i = true
                   | None => True end) lines.

Lemma scan_loop_spec fuel hexPort : ∀ buf reads,
  short_lines (buf ++ concat reads) → (length (buf ++ concat reads) < fuel)%nat →
  no_dead hexPort (file_lines (buf ++ concat reads)) →
  scan_loop fuel hexPort false buf reads = first_inode hexPort (file_lines (buf ++ concat reads)).
Proof.
  induction fuel as [|f IH]; intros buf reads Hs Hf Hd; [lia|]. cbn [scan_loop].
  pose proof (Scan_lines reads buf Hs) as Hsc.
  destruct (Scan buf reads) as [[l [buf' reads']]|]; [|by rewrite Hsc].
  destruct Hsc as (raw & Hr & -> & Hlt). unfold file_lines in *. unfold short_lines in Hs.
  rewrite Hr in *. cbn [fmap list_fmap first_inode] in *. apply Forall_cons in Hs as [_ Hs].
  apply Forall_cons in Hd as [Hd0 Hd]. unfold line_inode.
  destruct (net_fields (dropCR raw)) as [[a i]|]; [|apply IH; [done|lia|done]].
  destruct (local_is a hexPort); [|apply IH; [done|lia|done]].
  rewrite Hd0 by done. done.
Qed.

Lemma scan_file_spec hexPort reads :
  short_lines (concat reads) → no_dead hexPort (tail (file_lines (concat reads))) →
  scan_loop (scan_fuel reads) hexPort true [] reads = first_inode hexPort (tail (file_lines (concat reads))).
Proof.
  intros Hs Hd. unfold scan_fuel. cbn [scan_loop].
  pose proof (Scan_lines reads [] Hs) as Hsc. cbn [app] in Hsc.
  destruct (Scan [] reads) as [[l [buf' reads']]|]; [|by rewrite Hsc].
  destruct Hsc as (raw & Hr & _ & Hlt). unfold file_lines, short_lines in *. rewrite Hr in *.
  cbn [fmap list_fmap tail] in *. apply Forall_cons in Hs as [_ Hs].
  by apply scan_loop_spec.
Qed.

(** The lines after the headings of the files that open, in order. *)
Definition table (net : string → option (list (list byte))) : list (list byte) :=
  concat ((fun f => match net f with Some reads => tail (file_lines (concat reads)) | None => [] end) <$> procFiles).

Lemma first_inode_app h l1 l2 :
  first_inode h (l1 ++ l2) = match first_inode h l1 with Some i => Some i | None => first_inode h l2 end.
Proof. induction l1 as [|l l1 IH]; cbn [app first_inode]; [done|]. by destruct (line_inode h l). Qed.

Lemma scan_files_spec net h fs :
  (∀ f reads, f ∈ fs → net f = Some reads →
     short_lines (concat reads) ∧ no_dead h (tail (file_lines (concat reads)))) →
  scan_files net h fs =
  first_inode h (concat ((fun f => match net f with Some reads => tail (file_lines (concat reads)) | None => [] end) <$> fs)).
Proof.
  induction fs as [|f fs IH]; intros H; cbn [scan_files fmap list_fmap concat]; [done|].
  rewrite first_inode_app, <- IH by (intros f' rd Hin; apply H; by right).
  destruct (net f) as [reads|] eqn:E; [|done].
  destruct (H f reads) as [H1 H2]; [by left|done|]. by rewrite scan_file_spec.
Qed.

(** ** Finding the process *)

Definition socket_link (inode : string) : string := "socket:[" +:+ inode +:+ "]".

Lemma scan_procs_spec P link es :
  match scan_procs P link es with
  | Some (nm, p) => holds_link P p link = true ∧ nm = process_name P p
  | None => ∀ n p, (n, true) ∈ es → Strconv.Atoi n = (p, true) → 0 < p → p ≠ getpid P →
      holds_link P p link = false
  end.
Proof.
  induction es as [|[n isdir] es IH]; cbn [scan_procs]; [intros ?? H; by apply elem_of_nil in H|].
  set (Q := fun n p => Strconv.Atoi n = (p, true) → 0 < p → p ≠ getpid P → holds_link P p link = false).
  assert ((∀ p, isdir = true → Q n p) → (∀ n' p, (n', true) ∈ es → Q n' p) →
    ∀ n' p, (n', true) ∈ (n, isdir) :: es → Q n' p) as Hcons.
  { intros H1 H2 n' p [[= -> <-]|Hin]%elem_of_cons; [by apply H1|by apply H2]. }
  destruct isdir; cbn [negb].
  2:{ destruct (scan_procs P link es) as [[nm p]|]; [done|]. by apply Hcons. }
  destruct (Strconv.Atoi n) as [p ok] eqn:Ea.
  destruct (negb ok || (p <=? 0) || (p =? getpid P)) eqn:Eg.
  { destruct (scan_procs P link es) as [[nm p']|]; [done|]. apply Hcons; [|done].
    intros p' _ Hp' ??. rewrite Ea in Hp'. simplify_eq. cbn in Eg. lia. }
  unfold checkPidFd. destruct (holds_link P p link) eqn:Eh; [done|].
  destruct (scan_procs P link es) as [[nm p']|]; [done|]. apply Hcons; [|done].
  intros p' _ Hp' ??. rewrite Ea in Hp'. by simplify_eq.
Qed.

Lemma findProcess_spec P inode :
  match findProcessBySocketInode P inode with
  | Ok (nm, p) => holds_link P p (socket_link inode) = true ∧ nm = process_name P p
  | Err _ => holds_link P (getpid P) (socket_link inode) = false ∧
      ∀ es n p, proc_dir P = inr es → (n, true) ∈ es → Strconv.Atoi n = (p, true) → 0 < p →
        holds_link P p (socket_link inode) = false
  | Panic => False
  end.
Proof.
  unfold findProcessBySocketInode. fold (socket_link inode). unfold checkPidFd.
  destruct (holds_link P (getpid P) (socket_link inode)) eqn:Es; [done|].
  destruct (proc_dir P) as [e|es]; [done|].
  pose proof (scan_procs_spec P (socket_link inode) es) as H.
  destruct (scan_procs P (socket_link inode) es) as [[nm p]|]; [done|].
  split; [done|]. intros es' n p [= <-] Hin Ha Hp.
  destruct (decide (p = getpid P)) as [->|]; [done|]. by eapply H.
Qed.

(** What the files of /proc/net must satisfy for the search to see all of them. *)
Definition readable (net : string → option (list (list byte))) (port : Z) : Prop :=
  ∀ f reads, f ∈ procFiles → net f = Some reads →
    short_lines (concat reads) ∧ no_dead (Sprintf_04X port) (tail (file_lines (concat reads))).

(** Resolution of a port that is not cached.  When no socket of the port is
    without inode, however the files of /proc/net are cut into reads: the answer
    is the name and pid of a process that holds the first socket listed for the
    port, and it is cached for the time to live; an error means that no line
    lists the port or that neither this process nor any process of /proc holds
    the socket, and leaves the cache as it was. *)
Theorem resolve_finds_owner S now now1 now2 port c :
  0 < port → Get c now port = None → readable (sys_net S) port →
  let '(r, c') := ResolveProcessByPort S now now1 now2 port c in
  let found := first_inode (Sprintf_04X port) (table (sys_net S)) in
  let P := sys_proc S in
  match r with
  | Ok (nm, p) =>
      (∃ inode, found = Some inode ∧ holds_link P p (socket_link inode) = true ∧ nm = process_name P p) ∧
      (∀ t, t ≤ now2 + ttl c → Get c' t port = Some (nm, p))
  | Err _ => c' = c ∧
      ∀ inode, found = Some inode →
        holds_link P (getpid P) (socket_link inode) = false ∧
        ∀ es n p, proc_dir P = inr es → (n, true) ∈ es → Strconv.Atoi n = (p, true) → 0 < p →
          holds_link P p (socket_link inode) = false
  | Panic => False
  end.
Proof.
  intros Hp Hg Hr. unfold ResolveProcessByPort. rewrite (proj2 (Z.leb_gt _ _)) by done. rewrite Hg.
  unfold findSocketInodeByPort. rewrite scan_files_spec by done. fold (table (sys_net S)).
  destruct (first_inode _ _) as [inode|]; [|done].
  pose proof (findProcess_spec (sys_proc S) inode) as Hf.
  destruct (findProcessBySocketInode (sys_proc S) inode) as [[nm p]|e|]; [|by split; [|intros ? [= <-]]|done].
  split; [eauto|]. intros t Ht. unfold Get, Put. cbn [entries]. rewrite lookup_insert_eq. cbn [expiresAt].
  by rewrite (proj2 (Z.ltb_ge _ _)) by lia.
Qed.

Definition ex_header : string := "  sl  local_address rem_address st tx_queue rx_queue tr tm->when retrnsmt uid timeout inode".
Definition ex_line (addr inode : string) : string :=
  "   0: " +:+ addr +:+ " 0100007F:C350 01 00000000:00000000 00:00000000 00000000 1000 0 " +:+ inode +:+ " 1".
Definition ex_file (ls : list string) : list byte := concat ((fun l => to_bytes l ++ [newline]) <$> ls).
Definition ex_net (reads : list (list byte)) (f : string) : option (list (list byte)) :=
  if String.eqb f "/proc/net/tcp" then Some reads else None.
Definition ex_proc : ProcFS :=
  mkProcFS 100 (inr [("self", true); ("42", true)])
    (fun p => if p =? 42 then Some ["0"; "3"] else Some [])
    (fun p fd => if String.eqb fd "3" then Some "socket:[4242]" else Some "/dev/null")
    (fun p => Some (of_bytes (to_bytes "curl" ++ [newline]))) (fun p => None).
Definition ex_sys : Sys :=
  mkSys (ex_net [ex_file [ex_header; ex_line "0100007F:0050" "0"]; ex_file [ex_line "0100007F:1FB6" "4242"]]) ex_proc.

Lemma ex_readable : readable (sys_net ex_sys) 8118.
Proof.
  intros f reads Hf. cbn [sys_net ex_sys]. unfold ex_net. destruct (String.eqb f _); [|done].
  intros [= <-]. split.
  - unfold short_lines. apply Forall_forall. intros l Hl.
    assert (Z.of_nat (list_max (length <$> raw_lines (concat [ex_file [ex_header; ex_line "0100007F:0050" "0"];
      ex_file [ex_line "0100007F:1FB6" "4242"]]))) < 65536) by (vm_compute; reflexivity).
    assert (length l ≤ list_max (length <$> raw_lines (concat [ex_file [ex_header; ex_line "0100007F:0050" "0"];
      ex_file [ex_line "0100007F:1FB6" "4242"]])))%nat; [|lia].
    match goal with |- (_ ≤ list_max ?k)%nat => pose proof (list_max_le k (list_max k)) as [Hk _] end.
    specialize (Hk ltac:(lia)). rewrite Forall_forall in Hk. apply Hk. apply list_elem_of_fmap. eauto.
  - unfold no_dead. vm_compute tail. repeat constructor; vm_compute; done.
Qed.

Lemma resolve_finds_owner_witness :
  ∃ c', ResolveProcessByPort ex_sys 0 1 2 8118 globalProcCache = (Ok ("curl", 42), c') ∧
    Get c' 5000000000 8118 = Some ("curl", 42).
Proof.
  pose proof (resolve_finds_owner ex_sys 0 1 2 8118 globalProcCache ltac:(lia) eq_refl ex_readable) as H.
  destruct (ResolveProcessByPort _ _ _ _ _ _) as [r c'] eqn:E.
  assert (r = Ok ("curl", 42)) as -> by (apply (f_equal fst) in E; vm_compute in E; by simplify_eq).
  exists c'. split; [done|]. apply H. vm_compute. done.
Defined.

(** A socket of the port in the state TIME_WAIT, listed with inode 0, ends the
    search of the file: the code closes the file before it looks at the inode and
    scans on, so that every line not yet buffered is lost.  Whatever the later
    reads would have delivered, the live socket of the same port among them, the
    port is reported as not found. *)
Theorem time_wait_hides_socket rest :
  findSocketInodeByPort (ex_net (ex_file [ex_header; ex_line "0100007F:1FB6" "0"] :: rest)) 8118 =
    Err "socket inode not found for port 8118" ∧
  first_inode (Sprintf_04X 8118)
    (table (ex_net [ex_file [ex_header; ex_line "0100007F:1FB6" "0"]; ex_file [ex_line "0100007F:1FB6" "4242"]])) =
    Some "4242".
Proof. split; [destruct rest; vm_compute; reflexivity|vm_compute; reflexivity]. Qed.

End ProcCache.
