(* ===== verification/Trace.v ===== *)
(** * Traces of HTTP transactions (src/internal/trace_model.go, trace.go)

    The registry of formatters, the three formatters with what each writes, and
    the rendering of bodies.  A memory formatter is shared by pointer: the
    registry holds its address [id] and [mems] the objects.  [encoding/json]'s
    rendering of an entry is the parameter [marshal] ([None]: an error). *)

From S2P Require Import Prelude GoStrings.

Module Trace.

Record TraceEntry := mkEntry {
  ID : string;
  Timestamp : Z;
  Method : string;
  URL : string;
  Path : string;
  Host : string;
  RequestProto : string;
  ReqHeaders : list (string * list string);
  ReqBody : string;
  StatusCode : Z;
  RespHeaders : list (string * list string);
  RespBody : string;
  (** the bits of the float64 *)
  LatencyMs : Z
}.

(** ** Bodies *)

(** A byte that makes a body binary. *)
Definition control (b : byte) : bool :=
  (u8 b =? 0) ||
  ((u8 b <? 32) && negb (u8 b =? 9) && negb (u8 b =? 13) && negb (u8 b =? 10)).

(** The loop of [IsBinary]: [limit] bytes are still looked at. *)
Fixpoint has_control (limit : nat) (data : list byte) : bool :=
  match limit, data with
  | S l, b :: data => if control b then true else has_control l data
  | _, _ => false
  end.

Definition IsBinary (data : list byte) : bool := has_control 512 data.

(** [fmt.Sprintf("%.1f", n/d)]: the nearest tenth, ties to even; the quotients
    of the source are exact in a float64 for bodies below 2^53 bytes. *)
Definition fmt_tenth (n d : Z) : string :=
  let q := 10 * n / d in
  let r := 10 * n mod d in
  let q := if (d <? 2 * r) || ((2 * r =? d) && Z.odd q) then q + 1 else q in
  Strconv.Itoa (q / 10) +:+ "." +:+ Strconv.Itoa (q mod 10).

Definition FormatBinaryDesc (n : Z) : string :=
  if n <? 1024 then
    if n =? 1 then "[1byte:binary]" else "[" +:+ Strconv.Itoa n +:+ "bytes:binary]"
  else if n <? 1024 * 1024 then "[" +:+ fmt_tenth n 1024 +:+ "KB:binary]"
  else "[" +:+ fmt_tenth n (1024 * 1024) +:+ "MB:binary]".

Definition ProcessBody (data : list byte) : string :=
  match data with
  | [] => ""
  | _ => if IsBinary data then FormatBinaryDesc (Z.of_nat (length data)) else of_bytes data
  end.

(** ** Formatters *)

(** A line of the console log. *)
Inductive log_line :=
| LRequest (id method url : string)
| LReqHeaders (id : string) (h : list (string * list string))
| LReqBody (id body : string)
| LResponse (id path : string) (status latency : Z)
| LRespHeaders (id : string) (h : list (string * list string))
| LRespBody (id body : string).

(** [TextConsoleFormatter.Format] *)
Definition text_lines (e : TraceEntry) : list log_line :=
  [LRequest (ID e) (Method e) (URL e)] ++
  (if Nat.ltb 0 (length (ReqHeaders e)) then [LReqHeaders (ID e) (ReqHeaders e)] else []) ++
  (if Nat.ltb 0 (slen (ReqBody e)) then [LReqBody (ID e) (ReqBody e)] else []) ++
  [LResponse (ID e) (Path e) (StatusCode e) (LatencyMs e)] ++
  (if Nat.ltb 0 (length (RespHeaders e)) then [LRespHeaders (ID e) (RespHeaders e)] else []) ++
  (if Nat.ltb 0 (slen (RespBody e)) then
     let body := if Nat.ltb 1024 (slen (RespBody e))
                 then stake 1024 (RespBody e) +:+ "... [truncated]" else RespBody e in
     [LRespBody (ID e) body]
   else []).

Record MemoryTraceFormatter := mkMem { Traces : list TraceEntry; Max : Z }.

(** [make] with a negative capacity panics. *)
Definition NewMemoryTraceFormatter (max : Z) : outcome unit MemoryTraceFormatter :=
  if max <? 0 then Panic else Ok (mkMem [] max).

(** [MemoryTraceFormatter.Format]; [Traces[1:]] of an empty slice panics. *)
Definition mem_Format (m : MemoryTraceFormatter) (e : TraceEntry) : outcome unit MemoryTraceFormatter :=
  if Max m <=? Z.of_nat (length (Traces m)) then
    match Traces m with
    | [] => Panic
    | _ :: t => Ok (mkMem (t ++ [e]) (Max m))
    end
  else Ok (mkMem (Traces m ++ [e]) (Max m)).

Definition GetTraces (m : MemoryTraceFormatter) : list TraceEntry := Traces m.

Inductive Formatter := TextConsole | JSONFile | Memory (id : nat).

Record World := mkWorld {
  activeFormatters : list Formatter;
  console : list log_line;
  jsonl : list byte;
  jsonl_opens : bool;
  mems : gmap nat MemoryTraceFormatter
}.

Section publish.
Context (marshal : TraceEntry → option (list byte)).

(** [JSONFileFormatter.Format]: the bytes appended to the file. *)
Definition json_line (e : TraceEntry) : list byte :=
  match marshal e with Some d => d ++ [mk8 10] | None => [] end.

Definition Format (w : World) (f : Formatter) (e : TraceEntry) : outcome unit World :=
  match f with
  | TextConsole => Ok (mkWorld (activeFormatters w) (console w ++ text_lines e) (jsonl w) (jsonl_opens w) (mems w))
  | JSONFile =>
      Ok (mkWorld (activeFormatters w) (console w)
            (if jsonl_opens w then jsonl w ++ json_line e else jsonl w) (jsonl_opens w) (mems w))
  | Memory id =>
      match mems w !! id with
      | Some m => m' ← mem_Format m e;
                  Ok (mkWorld (activeFormatters w) (console w) (jsonl w) (jsonl_opens w) (<[id := m']> (mems w)))
      | None => Panic
      end
  end.

Definition RegisterFormatter (w : World) (f : Formatter) : World :=
  mkWorld (activeFormatters w ++ [f]) (console w) (jsonl w) (jsonl_opens w) (mems w).

Fixpoint format_all (w : World) (fs : list Formatter) (e : TraceEntry) : outcome unit World :=
  match fs with
  | [] => Ok w
  | f :: fs => w ← Format w f e; format_all w fs e
  end.

Definition PublishTrace (w : World) (e : TraceEntry) : outcome unit World :=
  format_all w (activeFormatters w) e.

Fixpoint publish_all (w : World) (es : list TraceEntry) : outcome unit World :=
  match es with
  | [] => Ok w
  | e :: es => w ← PublishTrace w e; publish_all w es
  end.

(** The package's [init]. *)
Definition init (opens : bool) (m : gmap nat MemoryTraceFormatter) : World :=
  RegisterFormatter (RegisterFormatter (mkWorld [] [] [] opens m) TextConsole) JSONFile.

(** The last [n] elements. *)
Definition last_n {A} (n : nat) (l : list A) : list A := drop (length l - n) l.

Lemma last_n_snoc {A} n (l : list A) x :
  (1 ≤ n)%nat → last_n n (last_n n l ++ [x]) = last_n n (l ++ [x]).
Proof.
  intros Hn. unfold last_n. rewrite !length_app, length_drop. cbn [length].
  destruct (decide (length l ≤ n)%nat) as [Hl|Hl].
  - replace (length l - n)%nat with 0%nat by lia. rewrite drop_0. f_equal. lia.
  - rewrite <- (drop_app_le l [x] (length l - n)) by lia. rewrite drop_drop. f_equal. lia.
Qed.

Lemma mem_Format_spec m e l :
  1 ≤ Max m → Traces m = last_n (Z.to_nat (Max m)) l →
  mem_Format m e = Ok (mkMem (last_n (Z.to_nat (Max m)) (l ++ [e])) (Max m)).
Proof.
  intros HM Ht. set (n := Z.to_nat (Max m)) in *.
  assert (length (Traces m) = Nat.min n (length l)) as Hlen.
  { rewrite Ht. unfold last_n. rewrite length_drop. lia. }
  rewrite <- last_n_snoc by lia. rewrite <- Ht. unfold mem_Format, last_n at 1.
  rewrite length_app. cbn [length].
  destruct (Z.leb_spec (Max m) (Z.of_nat (length (Traces m)))) as [Hge|Hlt].
  - destruct (Traces m) as [|t0 t] eqn:Et; [cbn in *; lia|]. cbn [length] in *.
    replace (S (length t) + 1 - n)%nat with 1%nat by lia. done.
  - replace (length (Traces m) + 1 - n)%nat with 0%nat by lia. by rewrite drop_0.
Qed.

(** The state after the traces [es]: what each formatter has received. *)
Definition received (opens : bool) (id : nat) (max : Z) (rest : gmap nat MemoryTraceFormatter)
    (es : list TraceEntry) : World :=
  mkWorld [TextConsole; JSONFile; Memory id] (concat (text_lines <$> es))
    (if opens then concat (json_line <$> es) else []) opens
    (<[id := mkMem (last_n (Z.to_nat max) es) max]> rest).

Lemma PublishTrace_received opens id max rest es e :
  1 ≤ max → PublishTrace (received opens id max rest es) e = Ok (received opens id max rest (es ++ [e])).
Proof.
  intros HM. unfold PublishTrace, received. cbn [activeFormatters format_all Format mbind outcome_bind console jsonl jsonl_opens mems].
  rewrite lookup_insert_eq. rewrite (mem_Format_spec _ e es) by done.
  cbn [mbind outcome_bind Max]. rewrite insert_insert_eq, !fmap_app, !concat_app. cbn [fmap list_fmap concat].
  rewrite !app_nil_r. by destruct opens.
Qed.

(** Every published trace reaches every formatter, once and in order.  With
    the formatters of [init] and a memory formatter of capacity [max >= 1], after
    any sequence of traces the console holds the lines of each trace, the JSONL
    file (when it can be opened) one line per trace, and the memory formatter
    exactly the last [max] traces; nothing panics. *)
Theorem publish_delivers opens id max rest es :
  1 ≤ max →
  ∃ m, NewMemoryTraceFormatter max = Ok m ∧
    publish_all (RegisterFormatter (init opens (<[id := m]> rest)) (Memory id)) es =
      Ok (received opens id max rest es) ∧
    (GetTraces <$> mems (received opens id max rest es) !! id) = Some (last_n (Z.to_nat max) es).
Proof.
  intros HM. exists (mkMem [] max). unfold NewMemoryTraceFormatter.
  rewrite (proj2 (Z.ltb_ge _ _)) by lia. split; [done|]. split; [|cbn; by rewrite lookup_insert_eq].
  assert (∀ es' es0, publish_all (received opens id max rest es0) es' = Ok (received opens id max rest (es0 ++ es'))) as H.
  { intros es'. induction es' as [|e es' IH]; intros es0; cbn [publish_all]; [by rewrite app_nil_r|].
    rewrite PublishTrace_received by done. cbn [mbind outcome_bind]. rewrite IH. by rewrite <- app_assoc. }
  rewrite <- (app_nil_l es) at 2. rewrite <- H. f_equal. unfold received, RegisterFormatter, init. cbn.
  by destruct opens.
Qed.

(** A memory formatter of capacity 0 panics on its first trace. *)
Lemma mem_zero_panics e : ∃ m, NewMemoryTraceFormatter 0 = Ok m ∧ mem_Format m e = Panic.
Proof. by eexists. Qed.

End publish.

Definition ex_entry (id : string) : TraceEntry :=
  mkEntry id 0 "GET" "http://a/" "/" "a" "HTTP/1.1" [] "" 200 [] "ok" 0.

Lemma publish_delivers_witness :
  ∃ m, NewMemoryTraceFormatter 2 = Ok m ∧
    publish_all (fun e => Some (to_bytes (ID e))) (RegisterFormatter (init true (<[7%nat := m]> ∅)) (Memory 7))
      [ex_entry "1"; ex_entry "2"; ex_entry "3"] =
      Ok (received (fun e => Some (to_bytes (ID e))) true 7 2 ∅ [ex_entry "1"; ex_entry "2"; ex_entry "3"]) ∧
    last_n 2 [ex_entry "1"; ex_entry "2"; ex_entry "3"] = [ex_entry "2"; ex_entry "3"].
Proof.
  destruct (publish_delivers (fun e => Some (to_bytes (ID e))) true 7 2 ∅ [ex_entry "1"; ex_entry "2"; ex_entry "3"])
    as (m & H1 & H2 & _); [lia|]. by exists m.
Defined.

(** ** Bodies *)

Lemma has_control_spec limit data :
  has_control limit data = true ↔ ∃ b, b ∈ take limit data ∧ control b = true.
Proof.
  revert data. induction limit as [|l IH]; intros [|b data]; cbn [has_control take].
  1,2,3: split; [done|intros (? & H & _); by apply elem_of_nil in H].
  destruct (control b) eqn:E.
  - split; [|done]. intros _. exists b. split; [by left|done].
  - rewrite IH. split; intros (b' & Hin & Hb).
    + exists b'. split; [by right|done].
    + apply elem_of_cons in Hin as [->|Hin]; [congruence|eauto].
Qed.

(** A body is shown verbatim exactly when its first 512 bytes hold no control
    character but tab, newline and carriage return; otherwise only a
    descriptor of its size is shown. *)
Lemma ProcessBody_spec data :
  data ≠ [] →
  ((∀ b, b ∈ take 512 data → control b = false) → ProcessBody data = of_bytes data) ∧
  ((∃ b, b ∈ take 512 data ∧ control b = true) → ProcessBody data = FormatBinaryDesc (Z.of_nat (length data))).
Proof.
  intros Hne. destruct data as [|d data]; [done|]. unfold ProcessBody, IsBinary.
  pose proof (has_control_spec 512 (d :: data)) as H.
  destruct (has_control 512 (d :: data)); split; intros Hb; try done.
  - exfalso. destruct (proj1 H eq_refl) as (b & Hin & Hc). rewrite (Hb b Hin) in Hc. done.
  - apply H in Hb. done.
Qed.

Example FormatBinaryDesc_examples :
  FormatBinaryDesc 1 = "[1byte:binary]" ∧ FormatBinaryDesc 1023 = "[1023bytes:binary]" ∧
  FormatBinaryDesc 1280 = "[1.2KB:binary]" ∧ FormatBinaryDesc 1048575 = "[1024.0KB:binary]" ∧
  FormatBinaryDesc 1572864 = "[1.5MB:binary]".
Proof. by vm_compute. Qed.

(** ** Trace identifiers (trace.go) *)

Record Ctx := mkCtx {
  c_trace : option string;
  c_md : option (gmap string (list string));
  (** the rounded time to the deadline and since the start, as text *)
  c_deadline : option string;
  c_start : option string
}.

Definition GetTraceID (ctx : Ctx) : string :=
  match c_trace ctx with
  | Some id => id
  | None =>
      match c_md ctx with
      | Some md => match default [] (md !! "x-trace-id") with id :: _ => id | [] => "" end
      | None => ""
      end
  end.

(** The format string and the leading arguments that [TraceInfof] and
    [TraceErrorf] hand to the logger. *)
Definition TraceInfof (ctx : Ctx) (format : string) : string * list string :=
  let id := GetTraceID ctx in
  let extra :=
    (match c_deadline ctx with Some d => " [D: " +:+ d +:+ "]" | None => "" end) +:+
    (match c_start ctx with Some d => " [T+ " +:+ d +:+ "]" | None => "" end) in
  if negb (String.eqb id "") then ("[%s]%s " +:+ format, [id; extra])
  else (extra +:+ " " +:+ format, []).

Definition TraceErrorf (ctx : Ctx) (format : string) : string * list string := TraceInfof ctx format.

Definition TraceDebugf (ctx : Ctx) (format : string) : string * list string :=
  let id := GetTraceID ctx in
  if negb (String.eqb id "") then ("[%s] " +:+ format, [id]) else (format, []).

End Trace.
