(* ===== verification/Config.v ===== *)
(** * The configuration file (src/internal/config.go)

    [LoadConfig]: which file is read, the defaults that fill missing settings and
    every error.  The file system answers each call through [FS]; [os.Stat] is
    asked up to three times and its answers may differ, as the file may appear
    or vanish in between.  [json.Unmarshal] into a zero [Config] is the parameter
    [decode].  Pointers are options; the float64 of the sampling rate is its
    bits. *)

From S2P Require Import Prelude GoStrings.

Module Config.

Record OtelConfig := mkOtel {
  Enabled : bool;
  Endpoint : string;
  Protocol : string;
  Insecure : bool;
  ServiceName : string;
  SampleRate : Z;
  SkipProbe : bool
}.

Record Config := mkConfig {
  Upstreams : list string;
  Rules : list string;
  TestInterval : Z;
  WebPort : Z;
  SocksPort : option Z;
  HttpPort : option Z;
  EnableEbpf : option bool;
  DirectDNS : option bool;
  DialTimeoutMs : option Z;
  DialRetryCount : option Z;
  BypassNodes : list string;
  RemoteLANs : list string;
  Rewrites : list string;
  Otel : option OtelConfig
}.

Record FS := mkFS {
  goos : string;
  (** [os.UserHomeDir] *)
  home : option string;
  (** the [i]-th [os.Stat] succeeds *)
  stat : nat → string → bool;
  ReadFile : string → option (list byte)
}.

Inductive load_err :=
| NotFound (finalPath path : string)
| BadJSON.

(** [filepath.Join(home, ".vproxy", "config.json")] for a clean home. *)
Definition defaultPath (fs : FS) : string :=
  if String.eqb (goos fs) "linux" then "/etc/vproxy/config.json"
  else match home fs with Some h => h +:+ "/.vproxy/config.json" | None => "" end.

Definition bom : list byte := bytes [239; 187; 191].

(** [bytes.TrimPrefix(data, bom)] *)
Definition trim_bom (data : list byte) : list byte :=
  if decide (take 3 data = bom) then drop 3 data else data.

(** The defaults of step 6. *)
Definition apply_defaults (c : Config) : Config :=
  mkConfig (Upstreams c) (Rules c)
    (if TestInterval c =? 0 then 30 else TestInterval c)
    (if WebPort c =? 0 then 8899 else WebPort c)
    (SocksPort c) (HttpPort c) (EnableEbpf c)
    (Some (default true (DirectDNS c)))
    (Some (default 5000 (DialTimeoutMs c)))
    (Some (default 3 (DialRetryCount c)))
    (BypassNodes c) (RemoteLANs c) (Rewrites c) (Otel c).

Section load.
Context (decode : list byte → option Config) (fs : FS).

(** Step 2: the path to try first. *)
Definition first_path (path : string) : string :=
  if String.eqb path "vproxy.json" && negb (String.eqb (defaultPath fs) "")
     && stat fs 0 (defaultPath fs)
  then defaultPath fs else path.

(** Step 3: the bytes, if any were read, and the path they come from. *)
Definition read_config (path : string) : option (list byte) * string :=
  let finalPath := first_path path in
  if stat fs 1 finalPath then (ReadFile fs finalPath, finalPath)
  else if negb (String.eqb finalPath path) then
    if stat fs 2 path then (ReadFile fs path, path) else (None, finalPath)
  else (None, finalPath).

Definition LoadConfig (path : string) : outcome load_err (Config * string) :=
  match read_config path with
  | (None, finalPath) => Err (NotFound finalPath path)
  | (Some data, finalPath) =>
      match decode (trim_bom data) with
      | None => Err BadJSON
      | Some cfg => Ok (apply_defaults cfg, finalPath)
      end
  end.

(** Every setting the program dereferences is there. *)
Definition complete (c : Config) : Prop :=
  TestInterval c ≠ 0 ∧ WebPort c ≠ 0 ∧ is_Some (DirectDNS c) ∧
  is_Some (DialTimeoutMs c) ∧ is_Some (DialRetryCount c).

(** [d] has every setting of [c] that was given. *)
Definition extends (c d : Config) : Prop :=
  Upstreams d = Upstreams c ∧ Rules d = Rules c ∧ BypassNodes d = BypassNodes c ∧
  RemoteLANs d = RemoteLANs c ∧ Rewrites d = Rewrites c ∧ Otel d = Otel c ∧
  SocksPort d = SocksPort c ∧ HttpPort d = HttpPort c ∧ EnableEbpf d = EnableEbpf c ∧
  (TestInterval c ≠ 0 → TestInterval d = TestInterval c) ∧
  (WebPort c ≠ 0 → WebPort d = WebPort c) ∧
  (∀ b, DirectDNS c = Some b → DirectDNS d = Some b) ∧
  (∀ n, DialTimeoutMs c = Some n → DialTimeoutMs d = Some n) ∧
  (∀ n, DialRetryCount c = Some n → DialRetryCount d = Some n).

Lemma apply_defaults_ok c : complete (apply_defaults c) ∧ extends c (apply_defaults c).
Proof.
  unfold complete, extends, apply_defaults. cbn.
  destruct (Z.eqb_spec (TestInterval c) 0), (Z.eqb_spec (WebPort c) 0);
    repeat split; try done; try lia; try eauto; by intros ? ->.
Qed.

(** Applying the defaults twice is applying them once: a saved configuration
    is loaded unchanged. *)
Lemma apply_defaults_idem c : apply_defaults (apply_defaults c) = apply_defaults c.
Proof.
  unfold apply_defaults. cbn.
  destruct (Z.eqb_spec (TestInterval c) 0) as [|H1], (Z.eqb_spec (WebPort c) 0) as [|H2]; cbn;
    rewrite ?(proj2 (Z.eqb_neq _ _) H1), ?(proj2 (Z.eqb_neq _ _) H2); done.
Qed.

(** A loaded configuration is complete, keeps what the file said, and comes from
    the path that is returned: the given one, or the global one when the path is
    the default name and the global file exists.  Otherwise the error tells
    whether no file could be read or its text does not decode. *)
Lemma LoadConfig_spec path :
  match LoadConfig path with
  | Ok (c, p) =>
      (p = path ∨ path = "vproxy.json" ∧ p = defaultPath fs ∧ stat fs 0 p = true) ∧
      ∃ data c0, ReadFile fs p = Some data ∧ decode (trim_bom data) = Some c0 ∧
        complete c ∧ extends c0 c
  | Err (NotFound p _) => stat fs 1 p = false ∨ ReadFile fs p = None ∨ ReadFile fs path = None
  | Err BadJSON => ∃ p data, ReadFile fs p = Some data ∧ decode (trim_bom data) = None
  | Panic => False
  end.
Proof.
  unfold LoadConfig, read_config.
  assert (first_path path = path ∨
    path = "vproxy.json" ∧ first_path path = defaultPath fs ∧ stat fs 0 (first_path path) = true) as Hp.
  { unfold first_path. destruct (_ && _ && _) eqn:E; [right|by left]. boolify. done. }
  destruct (stat fs 1 (first_path path)) eqn:Es.
  - destruct (ReadFile fs (first_path path)) as [data|] eqn:Er; [|by right; left].
    destruct (decode (trim_bom data)) as [c|] eqn:Ed; [|eauto].
    split; [destruct Hp as [?|(? & ? & ?)]; [by left|right; by split_and!]|].
    exists data, c. destruct (apply_defaults_ok c). by split_and!.
  - destruct (String.eqb (first_path path) path); cbn [negb]; [by left|].
    destruct (stat fs 2 path); [|by left].
    destruct (ReadFile fs path) as [data|] eqn:Er; [|right; by right].
    destruct (decode (trim_bom data)) as [c|] eqn:Ed; [|eauto].
    split; [by left|]. exists data, c. destruct (apply_defaults_ok c). by split_and!.
Qed.

End load.
End Config.
