(* ===== verification/Listeners.v ===== *)
(** * The life of the proxy handler (src/internal/handler.go, src/internal/app.go)

    Construction ([setupServices], [NewProxyHandler]), the listeners
    ([StartSocks], [StartHTTP], [StartTransparent], [Stop]) and the changes a
    reloaded configuration makes ([UpdateServers], [UpdateRules] and the body of
    [watchConfig]).  [net.Listen] and [tproxy.ListenUDPTransparent] answer as the
    class [LEnv] says, from the events so far; the events record what is opened
    and closed.  The goroutines that serve a listener are the subject of the
    files Forward and UdpProxy; the interception driver is its name. *)

From S2P Require Import Prelude GoStrings GoNet FakeIP Router ServerManager Rewrite Config.

Module Listeners.
Import ServerManager.

Inductive kind := KSocks | KHTTP | KTrans | KTransUDP.
#[global] Instance kind_eq_dec : EqDecision kind.
Proof. solve_decision. Defined.

Inductive levent :=
| LOpen (k : kind) (port : Z)
| LClose (k : kind) (port : Z)
| LDriverStart (name : string).

Class LEnv := {
  (** [net.Listen("tcp", addr)]: the port that is bound *)
  env_listen : list levent → string → option Z;
  (** [tproxy.ListenUDPTransparent(port)]: an error, or the socket (nil on
      platforms that have none) *)
  env_udp : list levent → Z → option (option Z);
  (** the name of the platform's driver *)
  env_driver : string
}.

(** The handler, with the ports its listeners are bound to. *)
Record Handler `{RE : Rewrite.Regexp} := mkHandler {
  sm : option SM;
  rm : option Router.RuleManager;
  SocksPort : Z;
  HttpPort : Z;
  TransPort : Z;
  WebPort : Z;
  DialTimeout : Z;
  DialRetryCount : Z;
  BypassNodes : list string;
  rewriteEngine : option Rewrite.RewriteEngine;
  socksLn : option Z;
  httpLn : option Z;
  transLn : option Z;
  transUDPLn : option Z;
  driver : option string
}.

Section handler.
Context `{RE : Rewrite.Regexp} `{LE : LEnv}.

Definition NewProxyHandler (s : option SM) (r : option Router.RuleManager)
    (socksPort httpPort transPort webPort : Z) : Handler :=
  mkHandler RE s r socksPort httpPort transPort webPort (5000 * 1000000) 3 [] None None None None None None.

Definition SetRewriteEngine (h : Handler) (re : option Rewrite.RewriteEngine) : Handler :=
  mkHandler RE (sm h) (rm h) (SocksPort h) (HttpPort h) (TransPort h) (WebPort h) (DialTimeout h)
    (DialRetryCount h) (BypassNodes h) re (socksLn h) (httpLn h) (transLn h) (transUDPLn h) (driver h).

Definition SetBypassNodes (h : Handler) (nodes : list string) : Handler :=
  mkHandler RE (sm h) (rm h) (SocksPort h) (HttpPort h) (TransPort h) (WebPort h) (DialTimeout h)
    (DialRetryCount h) nodes (rewriteEngine h) (socksLn h) (httpLn h) (transLn h) (transUDPLn h) (driver h).

Definition set_dialing (h : Handler) (timeout retries : Z) : Handler :=
  mkHandler RE (sm h) (rm h) (SocksPort h) (HttpPort h) (TransPort h) (WebPort h) timeout
    retries (BypassNodes h) (rewriteEngine h) (socksLn h) (httpLn h) (transLn h) (transUDPLn h) (driver h).

Definition set_managers (h : Handler) (s : option SM) (r : option Router.RuleManager) : Handler :=
  mkHandler RE s r (SocksPort h) (HttpPort h) (TransPort h) (WebPort h) (DialTimeout h)
    (DialRetryCount h) (BypassNodes h) (rewriteEngine h) (socksLn h) (httpLn h) (transLn h) (transUDPLn h) (driver h).

Definition UpdateServers (h : Handler) (upstreams : list string) : Handler :=
  set_managers h ((fun s => ServerManager.UpdateServers s upstreams) <$> sm h) (rm h).

Definition UpdateRules (h : Handler) (rules : list string) (directDNS : bool) : Handler :=
  set_managers h (sm h) (Some (Router.SetDirectDNS (Router.NewRuleManager rules) directDNS)).

(** ** Listeners *)

(** [net.Listen] on the wanted address, or else on any port. *)
Definition listen (evs : list levent) (k : kind) (prefix : string) (port : Z) : option (Z * list levent) :=
  match env_listen evs (prefix +:+ Strconv.Itoa port) with
  | Some p => Some (p, evs ++ [LOpen k p])
  | None =>
      match env_listen evs (prefix +:+ "0") with
      | Some p => Some (p, evs ++ [LOpen k p])
      | None => None
      end
  end.

Definition set_socks (h : Handler) (ln : option Z) (port : Z) : Handler :=
  mkHandler RE (sm h) (rm h) port (HttpPort h) (TransPort h) (WebPort h) (DialTimeout h) (DialRetryCount h)
    (BypassNodes h) (rewriteEngine h) ln (httpLn h) (transLn h) (transUDPLn h) (driver h).
Definition set_http (h : Handler) (ln : option Z) (port : Z) : Handler :=
  mkHandler RE (sm h) (rm h) (SocksPort h) port (TransPort h) (WebPort h) (DialTimeout h) (DialRetryCount h)
    (BypassNodes h) (rewriteEngine h) (socksLn h) ln (transLn h) (transUDPLn h) (driver h).
Definition set_trans (h : Handler) (ln : option Z) (port : Z) : Handler :=
  mkHandler RE (sm h) (rm h) (SocksPort h) (HttpPort h) port (WebPort h) (DialTimeout h) (DialRetryCount h)
    (BypassNodes h) (rewriteEngine h) (socksLn h) (httpLn h) ln (transUDPLn h) (driver h).
Definition set_udp (h : Handler) (ln : option Z) : Handler :=
  mkHandler RE (sm h) (rm h) (SocksPort h) (HttpPort h) (TransPort h) (WebPort h) (DialTimeout h) (DialRetryCount h)
    (BypassNodes h) (rewriteEngine h) (socksLn h) (httpLn h) (transLn h) ln (driver h).
Definition set_driver (h : Handler) (d : string) : Handler :=
  mkHandler RE (sm h) (rm h) (SocksPort h) (HttpPort h) (TransPort h) (WebPort h) (DialTimeout h) (DialRetryCount h)
    (BypassNodes h) (rewriteEngine h) (socksLn h) (httpLn h) (transLn h) (transUDPLn h) (Some d).

(** Each operation returns whether its error is nil, the handler and the events. *)
Definition op : Type := Handler → list levent → bool * (Handler * list levent).

Definition StartSocks : op := fun h evs =>
  match socksLn h with
  | Some _ => (true, (h, evs))
  | None =>
      if SocksPort h <=? 0 then (true, (h, evs))
      else match listen evs KSocks "127.0.0.1:" (SocksPort h) with
           | None => (false, (h, evs))
           | Some (p, evs) => (true, (set_socks h (Some p) p, evs))
           end
  end.

Definition StartHTTP : op := fun h evs =>
  match httpLn h with
  | Some _ => (true, (h, evs))
  | None =>
      if HttpPort h <? 0 then (true, (h, evs))
      else match listen evs KHTTP "127.0.0.1:" (HttpPort h) with
           | None => (false, (h, evs))
           | Some (p, evs) => (true, (set_http h (Some p) p, evs))
           end
  end.

(** Drivers with an interface of their own need no listener. *)
Definition dedicated (name : string) : bool :=
  String.eqb name "windows-wintun" || String.eqb name "darwin-pf" || String.eqb name "linux-tun".

(** The global fake-IP pool is initialised on the way; its error is dropped. *)
Definition StartTransparent (g : FakeIP.global) (h : Handler) (evs : list levent) :
    bool * (Handler * list levent) * FakeIP.global :=
  match transLn h with
  | Some _ => (true, (h, evs), g)
  | None =>
      let g := snd (FakeIP.InitGlobalPool g "198.18.0.0/15") in
      let h := match driver h with Some _ => h | None => set_driver h env_driver end in
      let name := default "" (driver h) in
      if dedicated name then (true, (h, evs ++ [LDriverStart name]), g)
      else match listen evs KTrans ":" (TransPort h) with
           | None => (false, (h, evs), g)
           | Some (p, evs) =>
               let h := set_trans h (Some p) p in
               match env_udp evs p with
               | None => (true, (h, evs), g)
               | Some None => (true, (set_udp h None, evs), g)
               | Some (Some u) => (true, (set_udp h (Some u), evs ++ [LOpen KTransUDP u]), g)
               end
           end
  end.

Definition close (k : kind) (ln : option Z) (evs : list levent) : list levent :=
  match ln with Some p => evs ++ [LClose k p] | None => evs end.

Definition Stop (h : Handler) (evs : list levent) : Handler * list levent :=
  let evs := close KSocks (socksLn h) evs in
  let h := set_socks h None (SocksPort h) in
  let evs := close KHTTP (httpLn h) evs in
  let h := set_http h None (HttpPort h) in
  let evs := close KTrans (transLn h) evs in
  let h := set_trans h None (TransPort h) in
  let evs := close KTransUDP (transUDPLn h) evs in
  (set_udp h None, evs).

(** ** Configuration *)

(** The local ports of the command line. *)
Record Locals := mkLocals { LocalSocks : Z; LocalHTTP : Z; LocalTrans : Z }.

Definition positive (p : Z) : list Z := if 0 <? p then [p] else [].

Definition setupServices (a : Locals) (c : Config.Config) : Handler :=
  let lsocks := match Config.SocksPort c with
                | Some p => if LocalSocks a =? 0 then p else LocalSocks a
                | None => LocalSocks a end in
  let lhttp := match Config.HttpPort c with
               | Some p => if LocalHTTP a =? 8118 then p else LocalHTTP a
               | None => LocalHTTP a end in
  let s := NewServerManager (Config.Upstreams c) (Config.TestInterval c * 1000000000) in
  let s := SetSelfPorts s (positive lsocks ++ positive lhttp ++ positive (LocalTrans a) ++ positive (Config.WebPort c)) in
  let r := Router.NewRuleManager (Config.Rules c) in
  let r := match Config.RemoteLANs c with
           | [] => r
           | es => default r (Router.SetRemoteLANs (Some r) es)
           end in
  let r := match Config.DirectDNS c with Some d => Router.SetDirectDNS r d | None => r end in
  let h := NewProxyHandler (Some s) (Some r) lsocks lhttp (LocalTrans a) (Config.WebPort c) in
  let h := match Config.BypassNodes c with [] => h | ns => SetBypassNodes h ns end in
  let h := set_dialing h (match Config.DialTimeoutMs c with Some ms => ms * 1000000 | None => DialTimeout h end)
                         (match Config.DialRetryCount c with Some n => n | None => DialRetryCount h end) in
  match Config.Rewrites c with
  | [] => h
  | es => match Rewrite.NewRewriteEngine es with Some re => SetRewriteEngine h (Some re) | None => h end
  end.

(** The body of [watchConfig] for a configuration file that has changed. *)
Definition reload (h : Handler) (c : Config.Config) : Handler :=
  let h := UpdateServers h (Config.Upstreams c) in
  let h := UpdateRules h (Config.Rules c) (match Config.DirectDNS c with Some d => d | None => true end) in
  let h := SetBypassNodes h (Config.BypassNodes c) in
  match Config.Rewrites c with
  | [] => SetRewriteEngine h None
  | es => match Rewrite.NewRewriteEngine es with Some re => SetRewriteEngine h (Some re) | None => h end
  end.

(** ** Every listener is closed once *)

(** Listeners of a kind that are open after some events. *)
Definition change (k : kind) (e : levent) : Z :=
  match e with
  | LOpen k' _ => if decide (k = k') then 1 else 0
  | LClose k' _ => if decide (k = k') then -1 else 0
  | LDriverStart _ => 0
  end.
Definition opened (k : kind) (evs : list levent) : Z := foldr (fun e z => change k e + z) 0 evs.

Definition field (h : Handler) (k : kind) : option Z :=
  match k with KSocks => socksLn h | KHTTP => httpLn h | KTrans => transLn h | KTransUDP => transUDPLn h end.

(** The handler holds exactly the listeners that are open, at most one of each
    kind, and a UDP socket only beside its TCP listener. *)
Definition accounted (h : Handler) (evs : list levent) : Prop :=
  (∀ k, opened k evs = match field h k with Some _ => 1 | None => 0 end) ∧
  (transLn h = None → transUDPLn h = None).

Inductive call := CSocks | CHTTP | CTrans | CStop | CReload (c : Config.Config).

Definition run_call (c : call) (g : FakeIP.global) (h : Handler) (evs : list levent) :
    Handler * list levent * FakeIP.global :=
  match c with
  | CSocks => (snd (StartSocks h evs), g)
  | CHTTP => (snd (StartHTTP h evs), g)
  | CTrans => let '(_, he, g) := StartTransparent g h evs in (he, g)
  | CStop => (Stop h evs, g)
  | CReload c => (reload h c, evs, g)
  end.

Definition run_calls (cs : list call) (g : FakeIP.global) (h : Handler) : Handler * list levent * FakeIP.global :=
  fold_left (fun '(h, evs, g) c => run_call c g h evs) cs (h, [], g).

Lemma lopened_app k l1 l2 : opened k (l1 ++ l2) = opened k l1 + opened k l2.
Proof. unfold opened. induction l1 as [|e l1 IH]; cbn; [lia|]. rewrite IH. lia. Qed.

Lemma opened_snoc k evs e : opened k (evs ++ [e]) = opened k evs + change k e.
Proof. rewrite lopened_app. cbn. lia. Qed.

Lemma listen_opens evs k pre port p evs' :
  listen evs k pre port = Some (p, evs') → evs' = evs ++ [LOpen k p].
Proof. unfold listen. repeat case_match; naive_solver. Qed.

Lemma opened_close k k' ln evs :
  opened k (close k' ln evs) =
  opened k evs + (if decide (k = k') then match ln with Some _ => -1 | None => 0 end else 0).
Proof. destruct ln; cbn [close]; rewrite ?opened_snoc; cbn [change]; case_decide; lia. Qed.

Lemma reload_field h c k : field (reload h c) k = field h k.
Proof. unfold reload. destruct (Config.Rewrites c); [by destruct k|]. case_match; by destruct k. Qed.

Lemma Stop_closes h evs :
  accounted h evs →
  (∀ k, opened k (snd (Stop h evs)) = 0) ∧ (∀ k, field (fst (Stop h evs)) k = None).
Proof.
  intros [Ha _]. split; [|by intros []].
  intros k. unfold Stop. cbn [snd]. rewrite !opened_close. rewrite Ha.
  destruct k; repeat case_decide; try done; cbn; case_match; lia.
Qed.

Lemma run_call_accounted c g h evs :
  accounted h evs → let '(h', evs', _) := run_call c g h evs in accounted h' evs'.
Proof.
  intros [Ha Hu]. destruct c as [| | | |c]; cbn [run_call].
  - unfold StartSocks. destruct (socksLn h) as [p|] eqn:E; [done|]. destruct (SocksPort h <=? 0); [done|].
    destruct (listen _ _ _ _) as [[p evs']|] eqn:El; [|done]. apply listen_opens in El as ->. cbn [snd].
    split; [|done]. intros k. rewrite opened_snoc, Ha. destruct k; cbn; rewrite ?E; repeat case_decide; done || lia.
  - unfold StartHTTP. destruct (httpLn h) as [p|] eqn:E; [done|]. destruct (HttpPort h <? 0); [done|].
    destruct (listen _ _ _ _) as [[p evs']|] eqn:El; [|done]. apply listen_opens in El as ->. cbn [snd].
    split; [|done]. intros k. rewrite opened_snoc, Ha. destruct k; cbn; rewrite ?E; repeat case_decide; done || lia.
  - unfold StartTransparent. destruct (transLn h) as [p|] eqn:E; [split; [done|by rewrite E]|].
    specialize (Hu eq_refl).
    set (h1 := match driver h with Some _ => h | None => set_driver h env_driver end).
    assert (∀ k, field h1 k = field h k) as Hf by (subst h1; destruct (driver h); by intros []).
    clearbody h1. destruct (dedicated _).
    + split; [|intros _; rewrite <- Hu; apply (Hf KTransUDP)]. intros k. rewrite opened_snoc, Ha, Hf. cbn. lia.
    + destruct (listen _ _ _ _) as [[p evs']|] eqn:El.
      2:{ split; [intros k; by rewrite Hf, Ha|]. intros _. rewrite <- Hu. apply (Hf KTransUDP). }
      apply listen_opens in El as ->.
      assert (transUDPLn h1 = None) as Hu1 by (rewrite <- Hu; apply (Hf KTransUDP)).
      assert (∀ k, opened k evs = match field h1 k with Some _ => 1 | None => 0 end) as Ha1
        by (intros k; by rewrite Hf, Ha).
      assert (transLn h1 = None) as Ht1 by (rewrite <- E; apply (Hf KTrans)).
      destruct (env_udp _ _) as [[u|]|]; (split; [|done]); intros k; rewrite !opened_snoc, Ha1;
        destruct k; cbn; rewrite ?Hu1, ?Ht1; repeat case_decide; done || lia.
  - destruct (Stop h evs) as [h' evs'] eqn:Es.
    destruct (Stop_closes h evs (conj Ha Hu)) as [H1 H2]. rewrite Es in H1, H2. cbn [fst snd] in *.
    split; [intros k; by rewrite H1, H2|]. intros _. apply (H2 KTransUDP).
  - split; [intros k; by rewrite reload_field|]. intros H. rewrite <- (Hu ltac:(rewrite <- H; symmetry; apply (reload_field h c KTrans))).
    apply (reload_field h c KTransUDP).
Qed.

Lemma setupServices_accounted a c : accounted (setupServices a c) [].
Proof.
  assert (∀ k, field (setupServices a c) k = None) as Hf.
  { intros k. unfold setupServices. destruct (Config.Rewrites c), (Config.BypassNodes c); try case_match; by destruct k. }
  split; [intros k; by rewrite Hf|]. intros _. apply (Hf KTransUDP).
Qed.

(** The handler accounts for its listeners.  Whatever sequence of starts,
    stops and configuration reloads it goes through, and whichever of the
    attempts to listen fail, the handler holds exactly the listeners that are
    open, never two of one kind, and a final [Stop] leaves none open. *)
Theorem listeners_accounted cs g a c :
  let '(h, evs, _) := run_calls cs g (setupServices a c) in
  accounted h evs ∧ ∀ k, opened k (snd (Stop h evs)) = 0.
Proof.
  pose proof (setupServices_accounted a c) as H0.
  assert (∀ s, accounted s.1.1 s.1.2 →
    let '(h, evs, _) := fold_left (fun '(h, evs, g) c => run_call c g h evs) cs s in accounted h evs) as H.
  { induction cs as [|x cs IH]; intros [[h evs] g'] Hs; cbn [fold_left]; [done|].
    pose proof (run_call_accounted x g' h evs Hs) as Hx.
    destruct (run_call x g' h evs) as [[h1 evs1] g1]. by apply IH. }
  specialize (H (setupServices a c, [], g) H0). unfold run_calls.
  destruct (fold_left _ _ _) as [[h evs] g']. split; [done|]. by apply Stop_closes.
Qed.

(** A driver with an interface of its own keeps no listener: nothing stops a
    second [StartTransparent] from starting it again, and [Stop] leaves it
    running. *)
Lemma dedicated_driver_restarts g h :
  transLn h = None → driver h = None → dedicated env_driver = true →
  let '(_, (h1, evs1), g1) := StartTransparent g h [] in
  let '(_, (h2, evs2), _) := StartTransparent g1 h1 evs1 in
  evs2 = [LDriverStart env_driver; LDriverStart env_driver] ∧
  snd (Stop h2 []) = snd (Stop h []).
Proof.
  intros Ht Hd Hn. unfold StartTransparent. rewrite Ht, Hd. cbn [driver set_driver from_option id]. rewrite Hn.
  cbn [transLn driver set_driver from_option id]. rewrite Ht. cbn [from_option id]. by rewrite Hn.
Qed.

(** ** Reloading *)

Lemma add_entry_lans r e : Router.remoteLANs (Router.add_entry r e) = Router.remoteLANs r.
Proof.
  unfold Router.add_entry, Router.cidr_rule, Router.finish_rule, Router.with_rules.
  repeat (case_match; try done).
Qed.

Lemma NewRuleManager_lans es : Router.remoteLANs (Router.NewRuleManager es) = [].
Proof.
  unfold Router.NewRuleManager.
  assert (∀ r, Router.remoteLANs (foldl Router.add_entry r es) = Router.remoteLANs r) as H; [|apply H].
  induction es as [|e es IH]; intros r; cbn [foldl]; [done|]. by rewrite IH, add_entry_lans.
Qed.

(** An address of a remote LAN goes to the proxy, and a private address of no
    remote LAN is reached directly. *)
Lemma lan_decision r ctx x :
  Router.ctx_Port ctx ≠ 53 → ¬ Router.local_host ctx → Net.ParseIP (Router.ctx_Host ctx) = Some x →
  (∀ n, n ∈ Router.remoteLANs r → Net.Contains n x = true →
     Router.doMatchContext r ctx = (Router.ActionProxy, "")) ∧
  (Router.remoteLANs r = [] → Router.isPrivateIP x = true →
     Router.doMatchContext r ctx = (Router.ActionDirect, "")).
Proof.
  intros Hp Hl Hx. unfold Router.doMatchContext.
  rewrite (proj2 (Z.eqb_neq _ _)), andb_false_r, (Router.not_local_test _ Hl), Hx by done. split.
  - intros n Hn Hc. by rewrite (proj2 (Router.existsb_elem _ _)) by eauto.
  - intros -> Hpr. cbn [existsb]. by rewrite Hpr.
Qed.

Lemma setup_lans a c e n :
  e ∈ Config.RemoteLANs c → Router.entry_net e n →
  ∃ r, rm (setupServices a c) = Some r ∧ n ∈ Router.remoteLANs r.
Proof.
  intros He Hn.
  assert (∃ r0, rm (setupServices a c) = Some (match Config.DirectDNS c with Some d => Router.SetDirectDNS r0 d | None => r0 end) ∧
    n ∈ Router.remoteLANs r0) as (r0 & -> & Hin).
  { exists (default (Router.NewRuleManager (Config.Rules c)) (Router.SetRemoteLANs (Some (Router.NewRuleManager (Config.Rules c))) (Config.RemoteLANs c))).
    split.
    - unfold setupServices. destruct (Config.RemoteLANs c) as [|e0 es]; [by apply elem_of_nil in He|].
      destruct (Config.Rewrites c), (Config.BypassNodes c); try case_match; done.
    - unfold Router.SetRemoteLANs. destruct (Nat.eqb_spec (length (Config.RemoteLANs c)) 0) as [E|_].
      { apply length_zero_iff_nil in E. rewrite E in He. by apply elem_of_nil in He. }
      destruct (Router.lan_entries_spec (Config.RemoteLANs c)) as [Hl _].
      destruct (Router.lan_entries (Config.RemoteLANs c)) as [nets pre]. cbn in *.
      apply elem_of_app. right. apply Hl. eauto. }
  destruct (Config.DirectDNS c); by eexists.
Qed.

(** Reloading the configuration forgets the remote LANs.  A private address
    inside a configured remote LAN is sent to the proxy after start-up; after a
    reload of the very same configuration it is dialled directly, because
    [UpdateRules] builds a new rule manager without [SetRemoteLANs]. *)
Theorem reload_forgets_remote_lans a c e n x ctx :
  e ∈ Config.RemoteLANs c → Router.entry_net e n →
  Net.ParseIP (Router.ctx_Host ctx) = Some x → Net.Contains n x = true → Router.isPrivateIP x = true →
  Router.ctx_Port ctx ≠ 53 → ¬ Router.local_host ctx →
  (∃ r, rm (setupServices a c) = Some r ∧ Router.doMatchContext r ctx = (Router.ActionProxy, "")) ∧
  (∃ r, rm (reload (setupServices a c) c) = Some r ∧ Router.doMatchContext r ctx = (Router.ActionDirect, "")).
Proof.
  intros He Hn Hx Hc Hpr Hp Hl. split.
  - destruct (setup_lans a c e n He Hn) as (r & Hr & Hin). exists r. split; [done|].
    by eapply (lan_decision r ctx x).
  - eexists. split.
    + unfold reload. destruct (Config.Rewrites c); [done|]. by case_match.
    + eapply lan_decision; [done..| |done]. apply NewRuleManager_lans.
Qed.

End handler.

Definition ex_config : Config.Config :=
  Config.mkConfig ["socks5://10.0.0.1:1080"] ["DOMAIN,a.com,PROXY"] 30 8899 (Some 1080) None None None None None [] ["192.168.50.0/24"] [] None.

Lemma reload_forgets_remote_lans_witness :
  (∃ r, rm (setupServices (RE := Rewrite.ex_regexp) (mkLocals 0 8118 10080) ex_config) = Some r ∧
     Router.doMatchContext r (Router.mkCtx "192.168.50.7" 443 "" 0 "") = (Router.ActionProxy, "")).
Proof.
  destruct (Net.ParseCIDR "192.168.50.0/24") as [n|] eqn:En; [|vm_compute in En; done].
  destruct (Net.ParseIP "192.168.50.7") as [x|] eqn:Ex; [|vm_compute in Ex; done].
  destruct (reload_forgets_remote_lans (RE := Rewrite.ex_regexp) (mkLocals 0 8118 10080) ex_config "192.168.50.0/24" n x
    (Router.mkCtx "192.168.50.7" 443 "" 0 "")) as [H _].
  - by left.
  - vm_compute in En. injection En as <-. vm_compute. done.
  - exact Ex.
  - vm_compute in En, Ex. injection En as <-. injection Ex as <-. vm_compute. reflexivity.
  - vm_compute in Ex. injection Ex as <-. vm_compute. reflexivity.
  - done.
  - unfold Router.local_host. by apply (bool_decide_unpack _).
  - exact H.
Defined.

End Listeners.
