(* ===== verification/Drivers.v ===== *)
(** * Platform glue with decisions of its own

    The relay detectors of src/proxy/driver and the original destination of a
    redirected datagram (src/proxy/tproxy/tproxy_udp_linux.go,
    ReadFromUDPWithOrigDst).  The control messages are those that
    [unix.ParseSocketControlMessage] returns: level, type and data. *)

From S2P Require Import Prelude GoStrings GoNet GoUrl ServerManager Dial.

Module Drivers.
Import ServerManager.

(** ** Relay detectors *)

(** [windowsRelayDetector.hasLocalUpstream] *)
Definition win_hasLocalUpstream (servers : list string) : bool :=
  existsb (fun server => match Url.Parse server with
                         | Some u => String.eqb (Url.Hostname u) "localhost" ||
                                     String.eqb (Url.Hostname u) "127.0.0.1"
                         | None => false end) servers.

(** [windowsRelayDetector.IsForwardedRelay]; [srcIP] is the remote address of a
    TCP or UDP connection. *)
Definition win_IsForwardedRelay (servers : list string) (srcIP : option ip) (isFakeIP : bool) (pid : Z) : bool :=
  if isFakeIP || (0 <? pid) || negb (win_hasLocalUpstream servers) then false
  else match srcIP with
       | None => false
       | Some x =>
           if negb (Net.Equal x (default [] (Net.ParseIP "198.18.0.1"))) && Net.IsPrivate x
           then true else pid =? 0
       end.

(** The detectors of the other platforms. *)
Definition other_IsForwardedRelay (srcIP : option ip) (isFakeIP : bool) (pid : Z) : bool := false.

Lemma win_local_is_local servers :
  win_hasLocalUpstream servers = true →
  existsb (fun server => match Url.Parse server with
                         | Some u => isLoopbackUpstream (Url.Hostname u)
                         | None => false end) servers = true.
Proof.
  unfold win_hasLocalUpstream. rewrite !existsb_exists. intros (s & Hin & Hs). exists s. split; [done|].
  destruct (Url.Parse s) as [u|]; [|done]. unfold isLoopbackUpstream.
  destruct (String.eqb_spec (Url.Hostname u) "localhost"); [done|].
  destruct (String.eqb_spec (Url.Hostname u) "127.0.0.1") as [->|]; [|done]. by vm_compute.
Qed.

(** The detector of Windows never bypasses more than the handler's own test
    [isForwardedRelay] would, and both agree when every loopback upstream is
    written as "localhost" or "127.0.0.1". *)
Lemma win_detector_agrees sm srcIP isFakeIP pid :
  (win_IsForwardedRelay (servers sm) srcIP isFakeIP pid = true →
   Dial.isForwardedRelay (Some sm) srcIP isFakeIP pid = true) ∧
  (win_hasLocalUpstream (servers sm) = Dial.hasLocalUpstream (Some sm) →
   win_IsForwardedRelay (servers sm) srcIP isFakeIP pid = Dial.isForwardedRelay (Some sm) srcIP isFakeIP pid).
Proof.
  unfold win_IsForwardedRelay, Dial.isForwardedRelay. split; [|by intros ->].
  destruct (win_hasLocalUpstream (servers sm)) eqn:E.
  - rewrite (win_local_is_local _ E : Dial.hasLocalUpstream (Some sm) = true). done.
  - by rewrite orb_true_r.
Qed.

(** An upstream on the IPv6 loopback is local for the handler and not for the
    detector. *)
Lemma win_detector_misses_ipv6 :
  Dial.hasLocalUpstream (Some (NewServerManager ["socks5://[::1]:1080"] 30)) = true ∧
  win_hasLocalUpstream ["socks5://[::1]:1080"] = false.
Proof. by vm_compute. Qed.

(** ** The original destination of a datagram *)

Record cmsg := mkCmsg { Level : Z; CType : Z; CData : list byte }.

Definition SOL_IP : Z := 0.
Definition IP_RECVORIGDSTADDR : Z := 20.
Definition SOL_IPV6 : Z := 41.
Definition IPV6_RECVORIGDSTADDR : Z := 74.

(** A 16-bit field in the byte order of the machine, here little endian. *)
Definition le16 (b0 b1 : byte) : Z := u8 b0 + 256 * u8 b1.

(** [int((orig.Port >> 8) | (orig.Port << 8))] on a uint16. *)
Definition swap16 (p : Z) : Z := Z.lor (Z.shiftr p 8) (wrap16 (Z.shiftl p 8)).

(** The address in a [RawSockaddrInet4] or [RawSockaddrInet6] at the start of the
    data; taking [&msg.Data[0]] of no data panics.  Data shorter than the struct
    are read past their end: [None]. *)
Definition sockaddr4 (d : list byte) : option (ip * Z) :=
  match d with
  | _ :: _ :: p0 :: p1 :: a :: b :: c :: e :: _ =>
      Some (Net.IPv4 a b c e, swap16 (le16 p0 p1))
  | _ => None
  end.
Definition sockaddr6 (d : list byte) : option (ip * Z) :=
  match d with
  | _ :: _ :: p0 :: p1 :: rest =>
      if Nat.ltb (length rest) 20 then None
      else Some (take 16 (drop 4 rest), swap16 (le16 p0 p1))
  | _ => None
  end.

(** The loop over the messages: the destination, if one carries it. *)
Fixpoint orig_dst (msgs : list cmsg) : outcome unit (option (ip * Z)) :=
  match msgs with
  | [] => Ok None
  | m :: msgs =>
      if (Level m =? SOL_IP) && (CType m =? IP_RECVORIGDSTADDR) then
        match sockaddr4 (CData m) with Some r => Ok (Some r) | None => Panic end
      else if (Level m =? SOL_IPV6) && (CType m =? IPV6_RECVORIGDSTADDR) then
        match sockaddr6 (CData m) with Some r => Ok (Some r) | None => Panic end
      else orig_dst msgs
  end.

(** [ReadFromUDPWithOrigDst] after a successful read; [msgs] is [None] when the
    control data do not parse. *)
Definition ReadFromUDPWithOrigDst (msgs : option (list cmsg)) : outcome unit (option (ip * Z)) :=
  match msgs with
  | None => Ok None
  | Some msgs => orig_dst msgs
  end.

Lemma swap16_le16 b0 b1 : swap16 (le16 b0 b1) = be16 b0 b1.
Proof.
  pose proof (u8_range b0). pose proof (u8_range b1).
  unfold swap16, le16, wrap16. rewrite be16_eq.
  rewrite Z.shiftr_div_pow2, Z.shiftl_mul_pow2 by lia.
  change (2 ^ 8) with 256. change (2 ^ 16) with 65536.
  replace ((u8 b0 + 256 * u8 b1) / 256) with (u8 b1) by zlia.
  replace ((u8 b0 + 256 * u8 b1) * 256 mod 65536) with (Z.shiftl (u8 b0) 8)
    by (rewrite Z.shiftl_mul_pow2 by lia; change (2 ^ 8) with 256; zlia).
  rewrite Z.lor_comm, lor_shiftl_add by (change (2 ^ 8) with 256; lia). lia.
Qed.

(** The messages the kernel sends for a redirected datagram. *)
Definition cmsg4 (fam : list byte) (port : Z) (a b c d : byte) (pad : list byte) : cmsg :=
  mkCmsg SOL_IP IP_RECVORIGDSTADDR (fam ++ put16 port ++ [a; b; c; d] ++ pad).
Definition cmsg6 (fam : list byte) (port : Z) (flow addr pad : list byte) : cmsg :=
  mkCmsg SOL_IPV6 IPV6_RECVORIGDSTADDR (fam ++ put16 port ++ flow ++ addr ++ pad).

Definition unrelated (m : cmsg) : Prop :=
  ¬ (Level m = SOL_IP ∧ CType m = IP_RECVORIGDSTADDR) ∧
  ¬ (Level m = SOL_IPV6 ∧ CType m = IPV6_RECVORIGDSTADDR).

Lemma orig_dst_skip ms rest : Forall unrelated ms → orig_dst (ms ++ rest) = orig_dst rest.
Proof.
  induction 1 as [|m ms [H1 H2] _ IH]; cbn [app orig_dst]; [done|].
  destruct (Z.eqb_spec (Level m) SOL_IP), (Z.eqb_spec (CType m) IP_RECVORIGDSTADDR),
    (Z.eqb_spec (Level m) SOL_IPV6), (Z.eqb_spec (CType m) IPV6_RECVORIGDSTADDR); cbn [andb];
    (done || (exfalso; tauto)).
Qed.

(** The original destination is recovered, address and port in the right order,
    from the first message that carries it, whatever other messages precede. *)
Lemma orig_dst_recovers ms rest fam port :
  Forall unrelated ms → length fam = 2%nat → 0 ≤ port < 65536 →
  (∀ a b c d pad, ReadFromUDPWithOrigDst (Some (ms ++ cmsg4 fam port a b c d pad :: rest)) =
     Ok (Some (Net.IPv4 a b c d, port))) ∧
  (∀ flow addr pad, length flow = 4%nat → length addr = 16%nat →
     ReadFromUDPWithOrigDst (Some (ms ++ cmsg6 fam port flow addr pad :: rest)) = Ok (Some (addr, port))).
Proof.
  intros Hms Hf Hp. destruct fam as [|f0 [|f1 [|? ?]]]; try done.
  assert (∀ hi lo, put16 port = [hi; lo] → be16 hi lo = port) as Hbe.
  { intros hi lo H%be16_put16. rewrite H. unfold wrap16. apply Z.mod_small. done. }
  unfold ReadFromUDPWithOrigDst. split.
  - intros a b c d pad. rewrite orig_dst_skip by done. unfold cmsg4. cbn -[swap16 le16 Net.IPv4].
    rewrite swap16_le16. do 2 f_equal. f_equal. by apply Hbe.
  - intros flow addr pad Hfl Ha. rewrite orig_dst_skip by done. unfold cmsg6.
    cbn [orig_dst Level CType CData]. cbn [SOL_IP SOL_IPV6 Z.eqb andb Pos.eqb].
    unfold sockaddr6, put16. cbn [app].
    rewrite (proj2 (Nat.ltb_ge _ _)) by (rewrite !length_app; lia).
    rewrite swap16_le16, (take_drop_middle_app flow addr pad) by done.
    do 2 f_equal. f_equal. by apply Hbe.
Qed.

End Drivers.
