(* ===== verification/Bpf.v ===== *)
(** * The kernel side of redirection: src/proxy/ebpf/bpf/redirect.c

    The four cgroup hooks and the sockops program, over the maps they share with
    the daemon.  The objects are built for a little-endian target (the
    go:generate line of loader.go): a C integer is a [Z] and the bytes it
    occupies are [mem16] and [mem32].  Hash maps compare keys as bytes and refuse
    a new key when they hold max_entries entries; the programs ignore that
    refusal, as the source does. *)

From S2P Require Import Prelude GoStrings GoNet.

Module Bpf.

(** ** Integers in little-endian memory *)

Definition mem16 (z : Z) : list byte := reverse (put16 z).
Definition mem32 (z : Z) : list byte := reverse (put32 z).
(** The integer that a load of four bytes gives. *)
Definition ld32 (b0 b1 b2 b3 : byte) : Z := be32 b3 b2 b1 b0.
(** [bpf_htons], [bpf_ntohs] and [bpf_htonl], [bpf_ntohl]. *)
Definition bpf_htons (z : Z) : Z := be16 (mk8 z) (mk8 (Z.shiftr z 8)).
Definition bpf_htonl (z : Z) : Z :=
  be32 (mk8 z) (mk8 (Z.shiftr z 8)) (mk8 (Z.shiftr z 16)) (mk8 (Z.shiftr z 24)).

Definition AF_INET : Z := 2.
Definition AF_INET6 : Z := 10.
Definition IPPROTO_TCP : Z := 6.
Definition IPPROTO_UDP : Z := 17.
Definition BPF_SOCK_OPS_ACTIVE_ESTABLISHED_CB : Z := 4.

(** Four 32-bit words, as [user_ip6]. *)
Definition word4 : Type := Z * Z * Z * Z.
Definition mem_word4 (w : word4) : list byte :=
  let '(a, b, c, d) := w in mem32 a ++ mem32 b ++ mem32 c ++ mem32 d.

(** ** Structures *)

Record original_dst := mkDst {
  dst_ip : word4; dst_port : Z; dst_family : Z; dst_pid : Z; dst_comm : list byte }.
Definition original_dst_mem (d : original_dst) : list byte :=
  mem_word4 (dst_ip d) ++ mem32 (dst_port d) ++ mem32 (dst_family d) ++ mem32 (dst_pid d) ++ dst_comm d.

Record udp_orig_key := mkUdpKey { uk_src_port : Z; uk_family : Z }.
Definition udp_orig_key_mem (k : udp_orig_key) : list byte :=
  mem16 (uk_src_port k) ++ [mk8 (uk_family k); mk8 0].

Record tcp_4tuple_key := mkTcpKey {
  tk_client_ip : word4; tk_proxy_ip : word4; tk_client_port : Z; tk_proxy_port : Z; tk_family : Z }.
Definition tcp_4tuple_key_mem (k : tcp_4tuple_key) : list byte :=
  mem_word4 (tk_client_ip k) ++ mem_word4 (tk_proxy_ip k) ++ mem16 (tk_client_port k) ++
  mem16 (tk_proxy_port k) ++ [mk8 (tk_family k)] ++ bytes [0; 0; 0].

(** struct lpm_cidr_key: a prefix length and the four address bytes. *)
Definition lpm_cidr_key : Type := Z * list byte.

(** ** Maps *)

Record maps := mkMaps {
  tcp_cookie_map : gmap Z original_dst;
  tcp_orig_dst : gmap (list byte) (list byte);
  udp_orig_dst : gmap (list byte) (list byte);
  cidr_bypass_map : gmap lpm_cidr_key Z;
  config_map : gmap Z Z }.

Definition set_cookies (f : gmap Z original_dst → gmap Z original_dst) (m : maps) : maps :=
  mkMaps (f (tcp_cookie_map m)) (tcp_orig_dst m) (udp_orig_dst m) (cidr_bypass_map m) (config_map m).
Definition set_tcp (f : gmap (list byte) (list byte) → gmap (list byte) (list byte)) (m : maps) : maps :=
  mkMaps (tcp_cookie_map m) (f (tcp_orig_dst m)) (udp_orig_dst m) (cidr_bypass_map m) (config_map m).
Definition set_udp (f : gmap (list byte) (list byte) → gmap (list byte) (list byte)) (m : maps) : maps :=
  mkMaps (tcp_cookie_map m) (tcp_orig_dst m) (f (udp_orig_dst m)) (cidr_bypass_map m) (config_map m).

(** [bpf_map_update_elem(..., BPF_ANY)] on a hash map of [cap] entries. *)
Definition map_update `{Countable K} {V} (cap : Z) (k : K) (v : V) (m : gmap K V) : gmap K V :=
  match m !! k with
  | Some _ => <[k := v]> m
  | None => if Z.of_nat (size m) <? cap then <[k := v]> m else m
  end.

Definition max_entries : Z := 65536.

(** Element [idx] of the array map: present below its 16 entries, zero until
    written. *)
Definition config_lookup (m : maps) (idx : Z) : option Z :=
  if (0 <=? idx) && (idx <? 16) then Some (default 0 (config_map m !! idx)) else None.

(** Whether the first [prefixlen] bits of a key and an address agree. *)
Definition bits4 (l : list byte) : Z :=
  match l with [a; b; c; d] => be32 a b c d | _ => 0 end.
Definition lpm_match (k : lpm_cidr_key) (addr : list byte) : bool :=
  Z.eqb (Z.shiftr (bits4 k.2) (32 - k.1)) (Z.shiftr (bits4 addr) (32 - k.1)).
(** A look-up of a full-length key in the LPM trie finds something exactly when
    some entry is a prefix of it. *)
Definition lpm_lookup (m : gmap lpm_cidr_key Z) (addr : list byte) : bool :=
  existsb (λ kv, lpm_match kv.1 addr) (map_to_list m).

(** ** Configuration helpers *)

Definition cfg_proxy_port (m : maps) : Z :=
  match config_lookup m 0 with Some v => wrap32 v | None => 8118 end.
Definition cfg_bypass_mark (m : maps) : Z :=
  match config_lookup m 1 with Some v => wrap32 v | None => 255 end.
Definition cfg_is_remote_tproxy (m : maps) : bool :=
  match config_lookup m 3 with Some v => negb (Z.eqb (wrap32 v) 0) | None => false end.
Definition cfg_upstream_ip4 (m : maps) : Z :=
  match config_lookup m 4 with Some v => wrap32 v | None => 0 end.
Definition cfg_upstream_port (m : maps) : Z :=
  match config_lookup m 5 with Some v => wrap32 v | None => 0 end.
Definition cfg_upstream_ip6 (m : maps) : word4 :=
  let hi i := match config_lookup m i with Some v => wrap32 (Z.shiftr v 32) | None => 0 end in
  let lo i := match config_lookup m i with Some v => wrap32 v | None => 0 end in
  (hi 6, lo 6, hi 7, lo 7).

(** ** Contexts *)

Record bpf_sock := mkSock { mark : Z; src_port : Z }.
Record bpf_sock_addr := mkCtx {
  user_ip4 : Z; user_ip6 : word4; user_port : Z; protocol : Z; sk : option bpf_sock }.
Definition with4 (c : bpf_sock_addr) (ip port : Z) : bpf_sock_addr :=
  mkCtx ip (user_ip6 c) port (protocol c) (sk c).
Definition with6 (c : bpf_sock_addr) (ip : word4) (port : Z) : bpf_sock_addr :=
  mkCtx (user_ip4 c) ip port (protocol c) (sk c).

(** What the helpers of the kernel return for the calling task and socket. *)
Record task := mkTask { pid_tgid : Z; comm : list byte; cookie : Z }.

Definition fill_process_info (t : task) (d : original_dst) : original_dst :=
  mkDst (dst_ip d) (dst_port d) (dst_family d) (wrap32 (Z.shiftr (pid_tgid t) 32)) (comm t).

(** ** Decisions *)

Definition is_bypass_socket (m : maps) (c : bpf_sock_addr) : bool :=
  match sk c with Some s => Z.eqb (mark s) (cfg_bypass_mark m) | None => false end.

Definition is_cidr_bypass_v4 (m : maps) (addr_net : Z) : bool :=
  lpm_lookup (cidr_bypass_map m) (mem32 addr_net).

Definition is_local_ipv6 (c : bpf_sock_addr) : bool :=
  let '(w0, w1, w2, w3) := user_ip6 c in
  if Z.eqb w0 0 && Z.eqb w1 0 && Z.eqb w2 0 && Z.eqb w3 (bpf_htonl 1) then true
  else if Z.eqb (Z.land w0 (bpf_htonl 0xFFC00000)) (bpf_htonl 0xFE800000) then true
  else Z.eqb (Z.land w0 (bpf_htonl 0xFE000000)) (bpf_htonl 0xFC000000).

(** The guards of the IPv4 hooks and of the IPv6 hooks. *)
Definition pass4 (m : maps) (c : bpf_sock_addr) : bool :=
  if is_bypass_socket m c then true
  else if Z.eqb (Z.land (user_ip4 c) (bpf_htonl 0xFF000000)) (bpf_htonl 0x7F000000) then true
  else if Z.eqb (user_port c) (bpf_htons 53) then true
  else is_cidr_bypass_v4 m (user_ip4 c).
Definition pass6 (m : maps) (c : bpf_sock_addr) : bool :=
  if is_bypass_socket m c then true
  else if is_local_ipv6 c then true
  else Z.eqb (user_port c) (bpf_htons 53).

(** ** Saving the destination *)

Definition save_udp (c : bpf_sock_addr) (family : Z) (d : original_dst) (m : maps) : outcome unit maps :=
  match sk c with
  | None => Panic
  | Some s =>
    let k := mkUdpKey (wrap16 (src_port s)) family in
    Ok (set_udp (map_update max_entries (udp_orig_key_mem k) (original_dst_mem d)) m)
  end.

Definition save_connect (t : task) (c : bpf_sock_addr) (family : Z) (d : original_dst) (m : maps) :
    outcome unit maps :=
  if Z.eqb (protocol c) IPPROTO_TCP
  then Ok (set_cookies (map_update max_entries (cookie t) d) m)
  else if Z.eqb (protocol c) IPPROTO_UDP then save_udp c family d m
  else Ok m.

Definition dst4 (t : task) (c : bpf_sock_addr) : original_dst :=
  fill_process_info t (mkDst (user_ip4 c, 0, 0, 0) (user_port c) AF_INET 0 []).
Definition dst6 (t : task) (c : bpf_sock_addr) : original_dst :=
  fill_process_info t (mkDst (user_ip6 c) (user_port c) AF_INET6 0 []).

Definition remote4 (m : maps) (c : bpf_sock_addr) : bpf_sock_addr :=
  with4 c (cfg_upstream_ip4 m) (bpf_htons (wrap16 (cfg_upstream_port m))).
Definition remote6 (m : maps) (c : bpf_sock_addr) : bpf_sock_addr :=
  with6 c (cfg_upstream_ip6 m) (bpf_htons (wrap16 (cfg_upstream_port m))).
Definition local4 (m : maps) (c : bpf_sock_addr) : bpf_sock_addr :=
  with4 c (bpf_htonl 0x7F000001) (bpf_htons (wrap16 (cfg_proxy_port m))).
Definition local6 (m : maps) (c : bpf_sock_addr) : bpf_sock_addr :=
  with6 c (0, 0, 0, bpf_htonl 1) (bpf_htons (wrap16 (cfg_proxy_port m))).

(** ** The programs

    Each returns 1 (the system call goes on) with the rewritten context and the
    maps; [Panic] stands for a dereference of a null socket, which the verifier
    of the kernel excludes. *)

Definition sock4_connect (t : task) (c : bpf_sock_addr) (m : maps) : outcome unit (bpf_sock_addr * maps) :=
  if pass4 m c then Ok (c, m)
  else if cfg_is_remote_tproxy m then Ok (remote4 m c, m)
  else m' ← save_connect t c AF_INET (dst4 t c) m; Ok (local4 m c, m').

Definition sock4_sendmsg (t : task) (c : bpf_sock_addr) (m : maps) : outcome unit (bpf_sock_addr * maps) :=
  if pass4 m c then Ok (c, m)
  else if cfg_is_remote_tproxy m then Ok (remote4 m c, m)
  else m' ← save_udp c AF_INET (dst4 t c) m; Ok (local4 m c, m').

Definition sock6_connect (t : task) (c : bpf_sock_addr) (m : maps) : outcome unit (bpf_sock_addr * maps) :=
  if pass6 m c then Ok (c, m)
  else if cfg_is_remote_tproxy m then Ok (remote6 m c, m)
  else m' ← save_connect t c AF_INET6 (dst6 t c) m; Ok (local6 m c, m').

Definition sock6_sendmsg (t : task) (c : bpf_sock_addr) (m : maps) : outcome unit (bpf_sock_addr * maps) :=
  if pass6 m c then Ok (c, m)
  else if cfg_is_remote_tproxy m then Ok (remote6 m c, m)
  else m' ← save_udp c AF_INET6 (dst6 t c) m; Ok (local6 m c, m').

Record bpf_sock_ops := mkOps {
  op : Z; so_family : Z; so_cookie : Z;
  local_ip4 : Z; remote_ip4 : Z; local_ip6 : word4; remote_ip6 : word4;
  local_port : Z; remote_port : Z }.

Definition sockops_key (s : bpf_sock_ops) : tcp_4tuple_key :=
  let cport := wrap16 (local_port s) in
  let pport := wrap16 (bpf_htonl (remote_port s)) in
  if Z.eqb (so_family s) 2
  then mkTcpKey (local_ip4 s, 0, 0, 0) (remote_ip4 s, 0, 0, 0) cport pport AF_INET
  else mkTcpKey (local_ip6 s) (remote_ip6 s) cport pport AF_INET6.

Definition vproxy_sockops (s : bpf_sock_ops) (m : maps) : maps :=
  if Z.eqb (op s) BPF_SOCK_OPS_ACTIVE_ESTABLISHED_CB then
    match tcp_cookie_map m !! so_cookie s with
    | Some d =>
      set_cookies (delete (so_cookie s))
        (set_tcp (map_update max_entries (tcp_4tuple_key_mem (sockops_key s)) (original_dst_mem d)) m)
    | None => m
    end
  else m.

(** ** Facts about the byte order *)

Lemma mem32_ld32 a b c d : mem32 (ld32 a b c d) = [a; b; c; d].
Proof. unfold mem32, ld32. by rewrite put32_be32. Qed.

Lemma mem32_htonl z : mem32 (bpf_htonl z) = put32 z.
Proof. unfold mem32, bpf_htonl. by rewrite put32_be32. Qed.

Lemma length_mem32 z : length (mem32 z) = 4%nat.
Proof. done. Qed.
Lemma length_mem_word4 w : length (mem_word4 w) = 16%nat.
Proof. by destruct w as [[[? ?] ?] ?]. Qed.

(** A word whose bytes are known is the word loaded from them. *)
Lemma mem32_inj x y : 0 ≤ x < 2 ^ 32 → 0 ≤ y < 2 ^ 32 → mem32 x = mem32 y → x = y.
Proof.
  intros Hx Hy H. apply (inj reverse) in H. unfold put32 in H.
  assert (∀ z, 0 ≤ z < 2 ^ 32 →
    be32 (mk8 (Z.shiftr z 24)) (mk8 (Z.shiftr z 16)) (mk8 (Z.shiftr z 8)) (mk8 z) = z) as Hb.
  { intros z Hz. rewrite (be32_put32 z _ _ _ _ eq_refl). by apply wrap32_small. }
  rewrite <- (Hb x Hx), <- (Hb y Hy). by injection H as -> -> -> ->.
Qed.

Lemma ld32_mem32 z a b c d : mem32 z = [a; b; c; d] → ld32 a b c d = wrap32 z.
Proof.
  intros H. apply (f_equal reverse) in H. unfold mem32 in H.
  rewrite reverse_involutive in H. by apply be32_put32 in H.
Qed.

Lemma htons_port port : 0 ≤ port < 65536 →
  0 ≤ bpf_htons port < 65536 ∧
  mem32 (bpf_htons port) = put16 port ++ bytes [0; 0].
Proof.
  intros Hp. split; [apply be16_range|].
  assert (bpf_htons port = ld32 (mk8 (Z.shiftr port 8)) (mk8 port) (mk8 0) (mk8 0)) as ->.
  { unfold bpf_htons, ld32. rewrite be16_eq, be32_eq.
    change (u8 (mk8 0)) with 0. lia. }
  by rewrite mem32_ld32.
Qed.

Lemma htons_inj p q : 0 ≤ p < 65536 → 0 ≤ q < 65536 → bpf_htons p = bpf_htons q → p = q.
Proof.
  intros Hp Hq H. apply (f_equal mem32) in H.
  rewrite (proj2 (htons_port p Hp)), (proj2 (htons_port q Hq)) in H.
  unfold put16 in H. cbn [app] in H. injection H as H1 H2.
  pose proof (be16_put16 p _ _ eq_refl) as Ep. pose proof (be16_put16 q _ _ eq_refl) as Eq.
  unfold wrap16 in Ep, Eq. change (2 ^ 16) with 65536 in *.
  rewrite Z.mod_small in Ep, Eq by done. rewrite <- Ep, <- Eq. by rewrite H1, H2.
Qed.

Lemma htonl_range z : 0 ≤ bpf_htonl z < 2 ^ 32.
Proof. unfold bpf_htonl. apply be32_range. Qed.

Lemma htonl_htonl z : 0 ≤ z < 2 ^ 32 → bpf_htonl (bpf_htonl z) = z.
Proof.
  intros Hz. apply mem32_inj; [apply htonl_range|exact Hz|].
  rewrite mem32_htonl. unfold bpf_htonl. by rewrite put32_be32.
Qed.

(** ** Facts about the maps *)

Lemma map_update_here `{Countable K} {V} cap (k : K) (v : V) m :
  Z.of_nat (size m) < cap → map_update cap k v m !! k = Some v.
Proof.
  intros Hc. unfold map_update. destruct (m !! k); [by rewrite lookup_insert_eq|].
  rewrite (proj2 (Z.ltb_lt _ _)) by done. by rewrite lookup_insert_eq.
Qed.

Lemma map_update_other `{Countable K} {V} cap (k k' : K) (v : V) m :
  k ≠ k' → map_update cap k v m !! k' = m !! k'.
Proof.
  intros Hk. unfold map_update. repeat case_match; rewrite ?lookup_insert_ne; done.
Qed.

Lemma lpm_lookup_spec m addr :
  lpm_lookup m addr = true ↔ ∃ k v, m !! k = Some v ∧ lpm_match k addr = true.
Proof.
  unfold lpm_lookup. rewrite existsb_exists. split.
  - intros ([k v] & Hin & Hm). exists k, v. split; [|done].
    apply elem_of_map_to_list. by apply list_elem_of_In.
  - intros (k & v & Hl & Hm). exists (k, v). split; [|done].
    apply list_elem_of_In. by apply elem_of_map_to_list.
Qed.

(** The hooks return normally for every context that has a socket. *)
Lemma save_connect_ok t c f d m :
  is_Some (sk c) → ∃ m', save_connect t c f d m = Ok m'.
Proof. intros [s Hs]. unfold save_connect, save_udp. rewrite Hs. repeat case_match; eauto. Qed.

End Bpf.
