(* ===== verification/Ebpf.v ===== *)
(** * The daemon side of redirection: src/proxy/ebpf/loader.go

    Loading and unloading the programs of redirect.c, their configuration, the
    look-up of original destinations and the list of bypassed networks.  The
    kernel is the state [kern]: the loaded collections of maps, the attached
    links and the open directory descriptors, with a log of the calls.  Whether a
    call fails is decided by the environment from the calls so far.  The last
    part composes these functions with the programs of [Bpf]. *)

From S2P Require Import Prelude GoStrings GoNet Dial UdpProxy ProcCache Bpf.

Module Ebpf.
Import Bpf.

(** ** The kernel, as loader.go uses it *)

Inductive kcall :=
| RemoveMemlock | LoadSpec | LoadAndAssign | OpenCgroup (path : string) | CloseCgroup
| AttachCgroup (id : nat) (name : string) | CloseLink (id : nat) (name : string)
| CloseObjs (id : nat)
| PutConfig (id : nat) (idx val : Z)
| PutCidr (id : nat) (k : lpm_cidr_key) | DeleteCidr (id : nat) (k : lpm_cidr_key).

Record kern := mkKern {
  klog : list kcall;                 (* newest first *)
  store : gmap nat maps;             (* open collections *)
  links : gset (nat * string);       (* attached programs *)
  fds : nat }.                       (* open cgroup directories *)

Class KEnv := { goarch : string; fails : list kcall → kcall → bool }.

Definition push (c : kcall) (k : kern) : kern := mkKern (c :: klog k) (store k) (links k) (fds k).
Definition set_store (f : gmap nat maps → gmap nat maps) (k : kern) : kern :=
  mkKern (klog k) (f (store k)) (links k) (fds k).
Definition set_links (f : gset (nat * string) → gset (nat * string)) (k : kern) : kern :=
  mkKern (klog k) (store k) (f (links k)) (fds k).
Definition set_fds (f : nat → nat) (k : kern) : kern := mkKern (klog k) (store k) (links k) (f (fds k)).

(** The maps right after loading: empty, the array zeroed. *)
Definition fresh_maps : maps := mkMaps ∅ ∅ ∅ ∅ ∅.
Definition set_cidr (f : gmap lpm_cidr_key Z → gmap lpm_cidr_key Z) (m : maps) : maps :=
  mkMaps (tcp_cookie_map m) (tcp_orig_dst m) (udp_orig_dst m) (f (cidr_bypass_map m)) (config_map m).
Definition set_config (f : gmap Z Z → gmap Z Z) (m : maps) : maps :=
  mkMaps (tcp_cookie_map m) (tcp_orig_dst m) (udp_orig_dst m) (cidr_bypass_map m) (f (config_map m)).

(** An update of the LPM trie: prefixes longer than the address and, when 256
    entries are in use, new keys are refused; a deletion needs the key. *)
Definition lpm_put (k : lpm_cidr_key) (m : gmap lpm_cidr_key Z) : option (gmap lpm_cidr_key Z) :=
  if 32 <? k.1 then None
  else match m !! k with
       | Some _ => Some (<[k := 1]> m)
       | None => if Z.of_nat (size m) <? 256 then Some (<[k := 1]> m) else None
       end.
Definition lpm_delete (k : lpm_cidr_key) (m : gmap lpm_cidr_key Z) : option (gmap lpm_cidr_key Z) :=
  match m !! k with Some _ => Some (delete k m) | None => None end.

Abbreviation km := (stm kern string).

Section Calls.
Context {E : KEnv}.

(** A call that either fails and changes nothing or has its effect. *)
Definition act (c : kcall) (eff : kern → kern) : km unit := fun k =>
  if fails (klog k) c then (Err "system call", push c k) else (Ok tt, eff (push c k)).
(** A close: the resource is gone, an error may still be reported. *)
Definition act_close (c : kcall) (eff : kern → kern) : km (option string) := fun k =>
  (Ok (if fails (klog k) c then Some "close" else None), eff (push c k)).
(** An update of a map of collection [id]. *)
Definition act_map (c : kcall) (id : nat) (f : maps → option maps) : km unit := fun k =>
  if fails (klog k) c then (Err "system call", push c k)
  else match store k !! id with
       | None => (Err "bad file descriptor", push c k)
       | Some m => match f m with
                   | None => (Err "map update", push c k)
                   | Some m' => (Ok tt, set_store (insert id m') (push c k))
                   end
       end.

Definition close_objs (id : nat) : km (option string) :=
  act_close (CloseObjs id) (set_store (delete id)).
Definition close_link (id : nat) (n : string) : km (option string) :=
  act_close (CloseLink id n) (set_links (λ L, L ∖ {[(id, n)]})).

(** Close links in order and keep the first error. *)
Fixpoint close_links (id : nat) (ns : list string) (first : option string) : km (option string) :=
  match ns with
  | [] => mret first
  | n :: ns =>
      e ← close_link id n;
      close_links id ns (match first with Some _ => first | None => e end)
  end.

(** ** LoadResult *)

Record LoadResult := mkResult { r_objs : nat; r_links : list string }.

Definition Unload (r : LoadResult) : km (option string * LoadResult) :=
  e ← close_links (r_objs r) (r_links r) None;
  e' ← close_objs (r_objs r);
  mret (match e with Some _ => e | None => e' end, mkResult (r_objs r) []).

Definition cfgProxyPort : Z := 0.
Definition cfgBypassMark : Z := 1.
Definition cfgVerbose : Z := 2.
Definition cfgIsRemoteTProxy : Z := 3.
Definition cfgUpstreamIP4 : Z := 4.
Definition cfgUpstreamPort : Z := 5.
Definition cfgUpstreamIP6_0 : Z := 6.
Definition cfgUpstreamIP6_1 : Z := 7.

Definition b2z (b : bool) : Z := if b then 1 else 0.

(** [uint64(BigEndian.Uint32(x[i:i+4]))] of an address of 4 or 16 bytes. *)
Definition Uint32_at (x : ip) (i : nat) : Z := bits4 (take 4 (drop i x)).

Definition upstream_ip4 (x : option ip) : Z :=
  match x with
  | Some x => match Net.To4 x with Some x4 => Uint32_at x4 0 | None => 0 end
  | None => 0
  end.
Definition upstream_ip6 (x : option ip) : Z * Z :=
  match x with
  | Some x =>
      match Net.To4 x, Net.To16 x with
      | None, Some x6 =>
          (Z.lor (Z.shiftl (Uint32_at x6 0) 32) (Uint32_at x6 4),
           Z.lor (Z.shiftl (Uint32_at x6 8) 32) (Uint32_at x6 12))
      | _, _ => (0, 0)
      end
  | None => (0, 0)
  end.

(** [r.ConfigMap.Put(idx, val)]: the array refuses an index past its end. *)
Definition config_put (id : nat) (idx val : Z) : km unit :=
  act_map (PutConfig id idx val) id
    (λ m, if idx <? 16 then Some (set_config (insert idx val) m) else None).

Definition writeConfig (r : LoadResult) (proxyPort bypassMark : Z) (verbose isRemoteTProxy : bool)
    (upstreamIP : option ip) (upstreamPort : Z) : km unit :=
  let set := config_put (r_objs r) in
  _ ← set cfgProxyPort proxyPort;
  _ ← set cfgBypassMark bypassMark;
  _ ← set cfgVerbose (b2z verbose);
  _ ← set cfgIsRemoteTProxy (b2z isRemoteTProxy);
  _ ← set cfgUpstreamPort upstreamPort;
  _ ← set cfgUpstreamIP4 (upstream_ip4 upstreamIP);
  _ ← set cfgUpstreamIP6_0 (upstream_ip6 upstreamIP).1;
  set cfgUpstreamIP6_1 (upstream_ip6 upstreamIP).2.

Definition UpdateConfig := writeConfig.

(** ** CIDRManager *)

Definition parseCIDRKey (cidr : string) : outcome string lpm_cidr_key :=
  match Net.ParseCIDR cidr with
  | None => Err "invalid CIDR"
  | Some n =>
      match Net.To4 (Net.net_ip n) with
      | None => Err "only IPv4 CIDRs supported in cidr_bypass_map"
      | Some v4 => Ok (wrap32 (Net.mask_ones (Net.net_mask n)), v4)
      end
  end.

Definition Add (id : nat) (cidr : string) : km unit :=
  key ← lift (parseCIDRKey cidr);
  act_map (PutCidr id key) id
    (λ m, c ← lpm_put key (cidr_bypass_map m); Some (set_cidr (λ _, c) m)).

Definition Remove (id : nat) (cidr : string) : km unit :=
  key ← lift (parseCIDRKey cidr);
  act_map (DeleteCidr id key) id
    (λ m, c ← lpm_delete key (cidr_bypass_map m); Some (set_cidr (λ _, c) m)).

(** One line of [List]. *)
Definition key_string (k : lpm_cidr_key) : string :=
  Net.String_ k.2 +:+ "/" +:+ Strconv.Itoa k.1.
Definition List_ (m : maps) : list string := key_string <$> (map_to_list (cidr_bypass_map m)).*1.

Definition defaultCIDRs : list string :=
  ["127.0.0.0/8"; "10.0.0.0/8"; "172.16.0.0/12"; "192.168.0.0/16"; "169.254.0.0/16"].

Fixpoint add_all (id : nat) (cs : list string) : km unit :=
  match cs with
  | [] => mret tt
  | c :: cs => _ ← Add id c; add_all id cs
  end.
Definition AddDefaults (id : nat) : km unit := add_all id defaultCIDRs.

(** ** Load *)

Definition programs : list string := ["connect4"; "sendmsg4"; "connect6"; "sendmsg6"; "sockops"].

(** The attachment loop; [done] are the links made so far.  The clean-up of a
    failed attachment ignores errors. *)
Fixpoint attach_all (id : nat) (ps done : list string) : km (list string) :=
  match ps with
  | [] => mret done
  | p :: ps =>
      o ← try_ (act (AttachCgroup id p) (set_links (λ L, {[(id, p)]} ∪ L)));
      match o with
      | Ok _ => attach_all id ps (done ++ [p])
      | _ => _ ← close_links id done None; _ ← close_objs id; throw ("attaching " +:+ p)
      end
  end.

(** [if err := m; err != nil { r.Unload(); return nil, err }] *)
Definition or_unload (r : LoadResult) (m : km unit) : km unit :=
  o ← try_ m;
  match o with
  | Ok _ => mret tt
  | Err e => _ ← Unload r; throw e
  | Panic => crash
  end.

(** The body of Load after the cgroup directory is open. *)
Definition load_attached (id : nat) (proxyPort bypassMark : Z) (isRemoteTProxy : bool)
    (upstreamIP : option ip) (upstreamPort : Z) : km LoadResult :=
  ls ← attach_all id programs [];
  let r := mkResult id ls in
  _ ← or_unload r (writeConfig r proxyPort bypassMark false isRemoteTProxy upstreamIP upstreamPort);
  _ ← or_unload r (AddDefaults id);
  mret r.

(** [defer cgroupFD.Close()] *)
Definition with_close {A} (m : km A) : km A := fun k =>
  let '(o, k) := m k in
  let '(_, k) := act_close CloseCgroup (set_fds pred) k in (o, k).

Definition Load (cgroupPath : string) (proxyPort bypassMark : Z) (isRemoteTProxy : bool)
    (upstreamIP : option ip) (upstreamPort : Z) : km LoadResult :=
  if String.eqb goarch "wasm" then throw "eBPF not supported on wasm"
  else
    _ ← act RemoveMemlock id;
    _ ← act LoadSpec id;
    k0 ← get_st;
    let id := length (klog k0) in
    _ ← act LoadAndAssign (set_store (insert id fresh_maps));
    o ← try_ (act (OpenCgroup cgroupPath) (set_fds S));
    match o with
    | Ok _ => with_close (load_attached id proxyPort bypassMark isRemoteTProxy upstreamIP upstreamPort)
    | _ => _ ← close_objs id; throw "opening cgroup"
    end.

End Calls.

(** ** Original destinations *)

(** Go's [OriginalDst], read from the bytes of a map value. *)
Record OriginalDst := mkOrig { IP : list byte; Port : Z; Family : Z; Pid : Z; Comm : list byte }.
Definition load32 (l : list byte) : Z :=
  match l with [a; b; c; d] => ld32 a b c d | _ => 0 end.
Definition decode (l : list byte) : OriginalDst :=
  mkOrig (take 16 l) (load32 (take 4 (drop 16 l))) (load32 (take 4 (drop 20 l)))
         (load32 (take 4 (drop 24 l))) (drop 28 l).

(** The bytes of [Comm] before the first zero. *)
Fixpoint until_nul (l : list byte) : list byte :=
  match l with
  | b :: l => if u8 b =? 0 then [] else b :: until_nul l
  | [] => []
  end.
Definition ProcessName (d : OriginalDst) : string := of_bytes (until_nul (Comm d)).

Definition toNetIP (d : OriginalDst) : ip :=
  if Family d =? AF_INET6 then take 16 (IP d) else take 4 (IP d).

(** ToTCPAddr and ToUDPAddr: the port is the big-endian reading of the first two
    bytes of the field. *)
Definition ToAddr (d : OriginalDst) : ip * Z :=
  (toNetIP d, match mem32 (Port d) with b0 :: b1 :: _ => be16 b0 b1 | _ => 0 end).

Inductive naddr := TCPAddr (x : ip) (port : Z) | NotTCP.

(** [copy(dst[:], src)] into a zeroed array of [n] bytes. *)
Definition copy_into (n : nat) (src : option ip) : list byte :=
  take n (default [] src) ++ replicate (n - length (default [] src)) (mk8 0).

(** TCP4TupleKey as it lies in memory. *)
Definition tcp_key (l r : ip) (lport rport : Z) : list byte :=
  let fam := match Net.To4 l with Some _ => AF_INET | None => AF_INET6 end in
  let '(c, p) :=
    match Net.To4 l with
    | Some _ => (copy_into 4 (Net.To4 r) ++ bytes [0;0;0;0;0;0;0;0;0;0;0;0],
                 copy_into 4 (Net.To4 l) ++ bytes [0;0;0;0;0;0;0;0;0;0;0;0])
    | None => (copy_into 16 (Net.To16 r), copy_into 16 (Net.To16 l))
    end in
  c ++ p ++ mem16 (wrap16 rport) ++ mem16 (wrap16 lport) ++ [mk8 fam] ++ bytes [0; 0; 0].

(** UDPOrigKey as it lies in memory. *)
Definition udp_key (x : ip) (port : Z) : list byte :=
  mem16 (wrap16 port) ++ [mk8 (match Net.To4 x with Some _ => AF_INET | None => AF_INET6 end); mk8 0].

(** [if dst.Pid > 0 { tproxy.RecordProcessMetadata(...) }] *)
Definition record_process (d : OriginalDst) (port now now' : Z) (c : ProcCache.procCache) : ProcCache.procCache :=
  if 0 <? Pid d then ProcCache.RecordProcessMetadata c now now' port (Pid d) (ProcessName d) else c.

Definition LookupTCPOrigDst (local remote : naddr) (now now' : Z) (m : maps) (c : ProcCache.procCache) :
    outcome string (ip * Z) * maps * ProcCache.procCache :=
  match local, remote with
  | TCPAddr l lport, TCPAddr r rport =>
      let key := tcp_key l r lport rport in
      match tcp_orig_dst m !! key with
      | None => (Err "tcp_orig_dst lookup", m, c)
      | Some v =>
          (Ok (ToAddr (decode v)), set_tcp (delete key) m,
           record_process (decode v) (wrap16 rport) now now' c)
      end
  | _, _ => (Err "not a *net.TCPAddr", m, c)
  end.

Definition LookupUDPOrigDst (src : ip) (port : Z) (now now' : Z) (m : maps) (c : ProcCache.procCache) :
    outcome string (ip * Z) * maps * ProcCache.procCache :=
  let key := udp_key src port in
  match udp_orig_dst m !! key with
  | None => (Err "udp_orig_dst lookup", m, c)
  | Some v =>
      (Ok (ToAddr (decode v)), set_udp (delete key) m,
       record_process (decode v) (wrap16 port) now now' c)
  end.

(** ** Resources *)

Section Resources.
Context {E : KEnv}.

(** Only the resources of collection [id] may differ. *)
Definition touches (id : nat) (k k' : kern) : Prop :=
  (∀ j, j ≠ id → store k' !! j = store k !! j) ∧
  (∀ j n, j ≠ id → (j, n) ∈ links k' ↔ (j, n) ∈ links k) ∧
  fds k' = fds k ∧ (length (klog k) ≤ length (klog k'))%nat.
(** The links of collection [id] are those of [ls]. *)
Definition held (id : nat) (ls : list string) (k : kern) : Prop := ∀ n, (id, n) ∈ links k ↔ n ∈ ls.
(** Nothing of collection [id] is left. *)
Definition gone (id : nat) (k : kern) : Prop := store k !! id = None ∧ held id [] k.
(** The links of every collection are unchanged. *)
Definition same_links (k k' : kern) : Prop := links k' = links k.

Lemma touches_trans id k1 k2 k3 : touches id k1 k2 → touches id k2 k3 → touches id k1 k3.
Proof.
  intros (A1 & A2 & A3 & A4) (B1 & B2 & B3 & B4). split_and!; [|..|congruence|lia].
  - intros j Hj. by rewrite B1, A1.
  - intros j n Hj. by rewrite B2, A2.
Qed.

Lemma touches_refl id k : touches id k k.
Proof. by split_and!. Qed.

Lemma touches_act_map id c f : keeps (touches id) (act_map c id f).
Proof.
  intros k. unfold act_map. repeat case_match; (split_and!; cbn; [|done|done|lia]);
    intros j Hj; by rewrite ?lookup_insert_ne.
Qed.

Lemma same_links_act_map id c f : keeps same_links (act_map c id f).
Proof. intros k. unfold act_map. by repeat case_match. Qed.

Lemma close_link_spec id n k :
  ∃ e k', close_link id n k = (Ok e, k') ∧ touches id k k' ∧ store k' = store k ∧
    ∀ n', (id, n') ∈ links k' ↔ (id, n') ∈ links k ∧ n' ≠ n.
Proof.
  unfold close_link, act_close. do 2 eexists. split; [done|]. unfold touches. split_and!; cbn; try done; try lia.
  - intros j n' Hj. rewrite elem_of_difference, elem_of_singleton. naive_solver.
  - intros n'. rewrite elem_of_difference, elem_of_singleton. naive_solver.
Qed.

Lemma close_links_spec id ns first k :
  ∃ e k', close_links id ns first k = (Ok e, k') ∧ touches id k k' ∧ store k' = store k ∧
    ∀ n', (id, n') ∈ links k' ↔ (id, n') ∈ links k ∧ n' ∉ ns.
Proof.
  revert first k. induction ns as [|n ns IH]; intros first k; cbn [close_links].
  - exists first, k. split_and!; try done. set_solver.
  - destruct (close_link_spec id n k) as (e & k1 & E1 & T1 & S1 & L1).
    destruct (IH (match first with Some _ => first | None => e end) k1)
      as (e2 & k2 & E2 & T2 & S2 & L2).
    exists e2, k2. rewrite (stm_bind_ok _ _ _ _ _ E1). split_and!; [done|by eapply touches_trans| |].
    + congruence.
    + intros n'. rewrite L2, L1, not_elem_of_cons. naive_solver.
Qed.

Lemma close_objs_spec id k :
  ∃ e k', close_objs id k = (Ok e, k') ∧ touches id k k' ∧ links k' = links k ∧ store k' !! id = None.
Proof.
  unfold close_objs, act_close. do 2 eexists. split; [done|]. unfold touches. split_and!; cbn; try done; try lia.
  - intros j Hj. by rewrite lookup_delete_ne.
  - apply lookup_delete_eq.
Qed.

(** Closing the held links and the objects leaves nothing. *)
Lemma close_all_spec id ns k :
  held id ns k →
  ∃ e e' k1 k2, close_links id ns None k = (Ok e, k1) ∧ close_objs id k1 = (Ok e', k2) ∧
    touches id k k2 ∧ gone id k2.
Proof.
  intros Hh. destruct (close_links_spec id ns None k) as (e & k1 & E1 & T1 & S1 & L1).
  destruct (close_objs_spec id k1) as (e' & k2 & E2 & T2 & L2 & S2).
  exists e, e', k1, k2. split_and!; [done..|by eapply touches_trans|].
  split; [done|]. intros n. rewrite L2, L1, (Hh n), elem_of_nil. naive_solver.
Qed.

Lemma Unload_spec r k :
  held (r_objs r) (r_links r) k →
  ∃ e k', Unload r k = (Ok (e, mkResult (r_objs r) []), k') ∧ touches (r_objs r) k k' ∧ gone (r_objs r) k'.
Proof.
  intros (e & e' & k1 & k2 & E1 & E2 & T & G)%close_all_spec.
  do 2 eexists. unfold Unload. rewrite (stm_bind_ok _ _ _ _ _ E1), (stm_bind_ok _ _ _ _ _ E2). done.
Qed.

Lemma or_unload_spec r m k :
  keeps (touches (r_objs r)) m → keeps same_links m → is_panic (m k).1 = false →
  held (r_objs r) (r_links r) k →
  (∃ k', m k = (Ok tt, k') ∧ or_unload r m k = (Ok tt, k') ∧
         touches (r_objs r) k k' ∧ held (r_objs r) (r_links r) k') ∨
  (∃ e k', or_unload r m k = (Err e, k') ∧ touches (r_objs r) k k' ∧ gone (r_objs r) k').
Proof.
  intros Ht Hl Hp Hh. specialize (Ht k). specialize (Hl k). unfold or_unload.
  destruct (m k) as [[[]|e|] k1] eqn:Em; cbn [fst snd] in *; [left|right|done].
  - exists k1. rewrite (stm_bind_ok _ _ _ _ _ (try_ok _ _ _ _ Em)). split_and!; try done. intros n. by rewrite Hl.
  - destruct (Unload_spec r k1) as (e' & k2 & E2 & T2 & G2); [intros n; by rewrite Hl|].
    exists e, k2. rewrite (stm_bind_ok _ _ _ _ _ (try_err _ _ _ _ Em)), (stm_bind_ok _ _ _ _ _ E2).
    split_and!; [done| |done].
    by eapply touches_trans.
Qed.

Lemma attach_spec id p k :
  (∃ k', act (AttachCgroup id p) (set_links (λ L, {[(id, p)]} ∪ L)) k = (Ok tt, k') ∧
     touches id k k' ∧ store k' = store k ∧
     ∀ n, (id, n) ∈ links k' ↔ n = p ∨ (id, n) ∈ links k) ∨
  (∃ e k', act (AttachCgroup id p) (set_links (λ L, {[(id, p)]} ∪ L)) k = (Err e, k') ∧
     touches id k k' ∧ links k' = links k).
Proof.
  unfold act. case_match; [right|left]; unfold touches; repeat eexists; cbn; try done; try lia; set_solver.
Qed.

Lemma attach_all_cons id p ps done_ k :
  attach_all id (p :: ps) done_ k =
  (o ← try_ (act (AttachCgroup id p) (set_links (λ L, {[(id, p)]} ∪ L)));
   match o with
   | Ok _ => attach_all id ps (done_ ++ [p])
   | _ => _ ← close_links id done_ None; _ ← close_objs id; throw ("attaching " +:+ p)
   end) k.
Proof. reflexivity. Qed.

Lemma attach_all_spec id ps : ∀ done_ k,
  held id done_ k →
  (∃ k', attach_all id ps done_ k = (Ok (done_ ++ ps), k') ∧ touches id k k' ∧
         store k' = store k ∧ held id (done_ ++ ps) k') ∨
  (∃ e k', attach_all id ps done_ k = (Err e, k') ∧ touches id k k' ∧ gone id k').
Proof.
  induction ps as [|p ps IH]; intros done_ k Hh.
  - left. exists k. rewrite app_nil_r. split_and!; [done|apply touches_refl|done..].
  - rewrite attach_all_cons.
    destruct (attach_spec id p k) as [(k1 & E1 & T1 & S1 & L1)|(e & k1 & E1 & T1 & L1)].
    + rewrite (stm_bind_ok _ _ _ _ _ (try_ok _ _ _ _ E1)).
      destruct (IH (done_ ++ [p]) k1) as [(k2 & E2 & T2 & S2 & H2)|(e & k2 & E2 & T2 & G2)].
      * intros n. rewrite L1, (Hh n), elem_of_app, list_elem_of_singleton. tauto.
      * left. exists k2. rewrite <- app_assoc in *. split_and!; [done|by eapply touches_trans|congruence|done].
      * right. exists e, k2. split_and!; [done|by eapply touches_trans|done].
    + rewrite (stm_bind_ok _ _ _ _ _ (try_err _ _ _ _ E1)).
      destruct (close_all_spec id done_ k1) as (e1 & e2 & k2 & k3 & E2 & E3 & T3 & G3);
        [intros n; by rewrite L1|].
      right. do 2 eexists. rewrite (stm_bind_ok _ _ _ _ _ E2), (stm_bind_ok _ _ _ _ _ E3).
      split_and!; [reflexivity|by eapply touches_trans|done].
Qed.

Lemma act_map_ok c id f k k' :
  act_map c id f k = (Ok tt, k') →
  ∃ m m', store k !! id = Some m ∧ f m = Some m' ∧ store k' = <[id := m']> (store k).
Proof. unfold act_map. intros. crush_match. cbn. eauto. Qed.

Lemma act_map_no_panic c id f k : is_panic (act_map c id f k).1 = false.
Proof. unfold act_map. by repeat case_match. Qed.

(** A sequence of map updates: what holds of each holds of all. *)
Lemma seq_no_panic {A B} (m : km A) (f : A → km B) k :
  (∀ k, is_panic (m k).1 = false) → (∀ a k, is_panic (f a k).1 = false) →
  is_panic ((m ≫= f) k).1 = false.
Proof.
  intros Hm Hf. unfold mbind, stm_bind. specialize (Hm k).
  by destruct (m k) as [[a|e|] k1]; cbn in *.
Qed.

Definition map_call (id : nat) (m : km unit) : Prop :=
  keeps (touches id) m ∧ keeps same_links m ∧ ∀ k, is_panic (m k).1 = false.

Lemma map_call_act c id f : map_call id (act_map c id f).
Proof. split_and!; [apply touches_act_map|apply same_links_act_map|intros; apply act_map_no_panic]. Qed.

Lemma map_call_seq {A} id (m : km unit) (f : unit → km A) :
  map_call id m →
  (∀ u, keeps (touches id) (f u) ∧ keeps same_links (f u) ∧ ∀ k, is_panic (f u k).1 = false) →
  keeps (touches id) (m ≫= f) ∧ keeps same_links (m ≫= f) ∧ ∀ k, is_panic ((m ≫= f) k).1 = false.
Proof.
  intros (A1 & A2 & A3) Hf. split_and!.
  - apply keeps_bind; [apply touches_trans|done|intros u; apply Hf].
  - apply keeps_bind; [unfold same_links; congruence|done|intros u; apply Hf].
  - intros k. apply seq_no_panic; [done|intros u; apply Hf].
Qed.

Lemma map_call_ret id : map_call id (mret tt).
Proof. split_and!; [intros k; apply touches_refl|done|done]. Qed.

Lemma writeConfig_call r pp bm v rem up upp : map_call (r_objs r) (writeConfig r pp bm v rem up upp).
Proof.
  unfold writeConfig. repeat (apply map_call_seq; [apply map_call_act|intros _]). apply map_call_act.
Qed.

Lemma Add_call id c : map_call id (Add id c).
Proof.
  unfold Add. destruct (parseCIDRKey c) as [key|e|] eqn:Ek.
  - apply map_call_act.
  - split_and!; [intros k; apply touches_refl|done|done].
  - unfold parseCIDRKey in Ek. by repeat case_match.
Qed.

Lemma add_all_call id cs : map_call id (add_all id cs).
Proof.
  induction cs as [|c cs IH]; [apply map_call_ret|].
  apply map_call_seq; [apply Add_call|done].
Qed.

(** The array after writeConfig, in the order of the writes. *)
Definition written (pp bm : Z) (v rem : bool) (up : option ip) (upp : Z) (c : gmap Z Z) : gmap Z Z :=
  <[cfgUpstreamIP6_1 := (upstream_ip6 up).2]> (<[cfgUpstreamIP6_0 := (upstream_ip6 up).1]>
  (<[cfgUpstreamIP4 := upstream_ip4 up]> (<[cfgUpstreamPort := upp]>
  (<[cfgIsRemoteTProxy := b2z rem]> (<[cfgVerbose := b2z v]>
  (<[cfgBypassMark := bm]> (<[cfgProxyPort := pp]> c))))))).

Lemma config_put_ok id idx val k k' m :
  config_put id idx val k = (Ok tt, k') → store k !! id = Some m →
  store k' !! id = Some (set_config (insert idx val) m).
Proof.
  intros (m1 & m2 & S1 & F & ->)%act_map_ok Hm. rewrite Hm in S1. simplify_eq.
  rewrite lookup_insert_eq. crush_match.
Qed.

Lemma writeConfig_ok r pp bm v rem up upp k k' m :
  writeConfig r pp bm v rem up upp k = (Ok tt, k') → store k !! r_objs r = Some m →
  store k' !! r_objs r = Some (set_config (written pp bm v rem up upp) m).
Proof.
  unfold writeConfig. intros H Hm.
  repeat match goal with
  | H : (_ ≫= _) _ = _ |- _ => apply stm_bind_inv in H as ([] & ? & ?H1 & H)
  end.
  repeat match goal with
  | H : config_put _ _ _ _ = _ |- _ => eapply config_put_ok in H; [|eassumption]
  end.
  done.
Qed.

(** The keys of the default networks and the map that holds them. *)
Definition default_keys : list lpm_cidr_key :=
  [(8, bytes [127; 0; 0; 0]); (8, bytes [10; 0; 0; 0]); (12, bytes [172; 16; 0; 0]);
   (16, bytes [192; 168; 0; 0]); (16, bytes [169; 254; 0; 0])].
Definition default_cidr : gmap lpm_cidr_key Z := foldl (λ m k, <[k := 1]> m) ∅ default_keys.

Lemma default_keys_parse : parseCIDRKey <$> defaultCIDRs = Ok <$> default_keys.
Proof. vm_compute. reflexivity. Qed.

Lemma Add_ok id c key k k' m :
  parseCIDRKey c = Ok key → Add id c k = (Ok tt, k') → store k !! id = Some m →
  store k' !! id = Some (set_cidr (insert key 1) m).
Proof.
  intros Hk H Hm. unfold Add in H. rewrite Hk in H. cbn in H.
  apply act_map_ok in H as (m1 & m2 & S1 & F & ->). rewrite Hm in S1. simplify_eq.
  rewrite lookup_insert_eq. unfold lpm_put, mbind, option_bind in F. crush_match.
Qed.

Lemma add_all_ok id cs keys k k' m :
  parseCIDRKey <$> cs = Ok <$> keys → add_all id cs k = (Ok tt, k') → store k !! id = Some m →
  store k' !! id = Some (set_cidr (λ c, foldl (λ m k, <[k := 1]> m) c keys) m).
Proof.
  revert keys k m. induction cs as [|c cs IH]; intros [|key keys] k m Hp H Hm; try done.
  - injection H as <-. rewrite Hm. by destruct m.
  - cbn in Hp. injection Hp as Hk Hp.
    apply stm_bind_inv in H as ([] & k1 & H1 & H). eapply Add_ok in H1; [|done..].
    eapply IH in H; [|done..]. rewrite H. by destruct m.
Qed.

(** Collections that do not exist yet own nothing. *)
Definition fresh_ids (k : kern) : Prop := ∀ j, (length (klog k) ≤ j)%nat → gone j k.

Lemma touches_gone id k k' :
  touches id k k' → gone id k → gone id k' → store k' = store k ∧ links k' = links k ∧ fds k' = fds k.
Proof.
  intros (T1 & T2 & T3 & _) [S1 L1] [S2 L2]. split_and!; [| |done].
  - apply map_eq. intros j. destruct (decide (j = id)) as [->|Hj]; [congruence|by apply T1].
  - apply set_eq. intros [j n]. destruct (decide (j = id)) as [->|Hj]; [|by apply T2].
    by rewrite (L1 n), (L2 n).
Qed.

(** The outcome of Load once the objects are loaded as collection [id]. *)
Definition load_post (id : nat) (pp bm : Z) (rem : bool) (up : option ip) (upp : Z) (k : kern)
    (res : outcome string LoadResult * kern) : Prop :=
  let '(o, k') := res in
  touches id k k' ∧
  match o with
  | Ok r => r = mkResult id programs ∧ held id programs k' ∧
      store k' !! id = Some (mkMaps ∅ ∅ ∅ default_cidr (written pp bm false rem up upp ∅))
  | Err _ => gone id k'
  | Panic => False
  end.

Lemma load_attached_spec id pp bm rem up upp k :
  store k !! id = Some fresh_maps → held id [] k →
  load_post id pp bm rem up upp k (load_attached id pp bm rem up upp k).
Proof.
  intros Hs Hh. unfold load_attached.
  destruct (attach_all_spec id programs [] k Hh)
    as [(k1 & E1 & T1 & S1 & H1)|(e & k1 & E1 & T1 & G1)];
    [|rewrite (stm_bind_err _ _ _ _ _ E1); by split].
  rewrite (stm_bind_ok _ _ _ _ _ E1). cbn [app] in *. set (r := mkResult id programs).
  destruct (writeConfig_call r pp bm false rem up upp) as (C1 & C2 & C3).
  destruct (or_unload_spec r _ k1 C1 C2 (C3 k1) H1)
    as [(k2 & W & E2 & T2 & H2)|(e & k2 & E2 & T2 & G2)].
  2:{ rewrite (stm_bind_err _ _ _ _ _ E2). split; [by eapply touches_trans|done]. }
  rewrite (stm_bind_ok _ _ _ _ _ E2).
  eapply writeConfig_ok in W; [|cbn; rewrite S1; exact Hs].
  destruct (add_all_call id defaultCIDRs) as (D1 & D2 & D3).
  destruct (or_unload_spec r (AddDefaults id) k2 D1 D2 (D3 k2) H2)
    as [(k3 & A & E3 & T3 & H3)|(e & k3 & E3 & T3 & G3)].
  2:{ rewrite (stm_bind_err _ _ _ _ _ E3). split; [|done]. by do 2 (eapply touches_trans; [done|]). }
  rewrite (stm_bind_ok _ _ _ _ _ E3). unfold mret, stm_ret. split; [|split_and!; [done..|]].
  - by do 2 (eapply touches_trans; [done|]).
  - eapply add_all_ok in A; [|apply default_keys_parse|exact W]. by rewrite A.
Qed.

Lemma act_cases c eff k :
  act c eff k = (Err "system call", push c k) ∨ act c eff k = (Ok tt, eff (push c k)).
Proof. unfold act. case_match; auto. Qed.

Lemma fresh_ids_push c k : fresh_ids k → fresh_ids (push c k).
Proof. intros H j Hj. apply (H j). cbn in Hj. lia. Qed.

(** From the loaded objects to the return of Load. *)
Lemma with_close_spec id pp bm rem up upp path k :
  gone id k →
  let res := with_close (load_attached id pp bm rem up upp)
       (set_fds S (push (OpenCgroup path) (set_store (insert id fresh_maps) (push LoadAndAssign k)))) in
  load_post id pp bm rem up upp k res ∧ (length (klog k) < length (klog res.2))%nat.
Proof.
  intros [Hs Hl]. unfold with_close. set (k1 := set_fds S _).
  pose proof (load_attached_spec id pp bm rem up upp k1) as H.
  destruct (load_attached id pp bm rem up upp k1) as [o k2].
  destruct H as [(T1 & T2 & T3 & T4) Ho].
  { cbn. by rewrite lookup_insert_eq. } { done. }
  cbn in T3, T4. cbn [act_close]. split; [|cbn; lia]. split; [|by destruct o].
  split_and!; cbn; [| |lia|lia].
  - intros j Hj. rewrite T1 by done. cbn. by rewrite lookup_insert_ne.
  - intros j n Hj. by rewrite T2.
Qed.

(** What Load leaves: on an error, exactly the resources there were before; on
    success, one new collection, configured and with the default networks, its
    five programs attached. *)
Definition loaded (pp bm : Z) (rem : bool) (up : option ip) (upp : Z) (k : kern)
    (res : outcome string LoadResult * kern) : Prop :=
  let '(o, k') := res in
  match o with
  | Ok r => (length (klog k) ≤ r_objs r < length (klog k'))%nat ∧ load_post (r_objs r) pp bm rem up upp k res
  | Err _ => store k' = store k ∧ links k' = links k ∧ fds k' = fds k ∧
             (length (klog k) ≤ length (klog k'))%nat
  | Panic => False
  end.

Lemma Load_spec path pp bm rem up upp k :
  fresh_ids k → loaded pp bm rem up upp k (Load path pp bm rem up upp k).
Proof.
  intros Hf. unfold Load. destruct (String.eqb goarch _); [by split_and!|].
  destruct (act_cases RemoveMemlock Datatypes.id k) as [E1|E1];
    [rewrite (stm_bind_err _ _ _ _ _ E1); by split_and!; cbn; try lia|].
  rewrite (stm_bind_ok _ _ _ _ _ E1). unfold Datatypes.id at 1.
  destruct (act_cases LoadSpec Datatypes.id (push RemoveMemlock k)) as [E2|E2];
    [rewrite (stm_bind_err _ _ _ _ _ E2); by split_and!; cbn; try lia|].
  rewrite (stm_bind_ok _ _ _ _ _ E2). unfold Datatypes.id at 1.
  set (k2 := push LoadSpec (push RemoveMemlock k)).
  rewrite (stm_bind_ok get_st _ k2 k2 k2) by done. cbn beta zeta. set (id := length (klog k2)).
  assert (gone id k2) as Hg by (by apply (fresh_ids_push _ _ (fresh_ids_push _ _ Hf))).
  destruct (act_cases LoadAndAssign (set_store (insert id fresh_maps)) k2) as [E3|E3];
    [rewrite (stm_bind_err _ _ _ _ _ E3); by split_and!; cbn; try lia|].
  rewrite (stm_bind_ok _ _ _ _ _ E3). set (k3 := set_store _ (push LoadAndAssign k2)) in *.
  destruct (act_cases (OpenCgroup path) (set_fds S) k3) as [E4|E4].
  - rewrite (stm_bind_ok _ _ _ _ _ (try_err _ _ _ _ E4)). cbn.
    split; [apply delete_insert_id, Hg|]. split_and!; [done..|cbn; lia].
  - rewrite (stm_bind_ok _ _ _ _ _ (try_ok _ _ _ _ E4)).
    destruct (with_close_spec id pp bm rem up upp path k2 Hg) as [H Hlen]. fold k3 in H, Hlen.
    destruct (with_close _ _) as [[r|e|] k4]; destruct H as [T Ho]; [| |done].
    + destruct Ho as (-> & Hh & Hs). cbn [snd] in Hlen.
      split; [cbn in *; lia|]. split; [|done].
      destruct T as (T1 & T2 & T3 & T4). split_and!; [exact T1|exact T2|exact T3|cbn in T4; lia].
    + destruct (touches_gone id k2 k4 T Hg Ho) as (? & ? & ?).
      destruct T as (_ & _ & _ & T4). split_and!; [done..|cbn in *; lia].
Qed.

(** C9. Load owns nothing it does not return: whatever system call fails and
    wherever, an error leaves the collections, links and descriptors of before;
    a success adds one configured collection with the default networks and its
    five attached programs, closes the cgroup directory, and Unload of the result
    gives back exactly the state of before. *)
Theorem Load_resources path pp bm rem up upp k :
  fresh_ids k →
  match Load path pp bm rem up upp k with
  | (Ok r, k') =>
      loaded pp bm rem up upp k (Ok r, k') ∧ fds k' = fds k ∧ r_links r = programs ∧
      ∃ e k'', Unload r k' = (Ok (e, mkResult (r_objs r) []), k'') ∧
        store k'' = store k ∧ links k'' = links k ∧ fds k'' = fds k
  | (Err _, k') => store k' = store k ∧ links k' = links k ∧ fds k' = fds k
  | (Panic, _) => False
  end.
Proof.
  intros Hf. pose proof (Load_spec path pp bm rem up upp k Hf) as H.
  destruct (Load _ _ _ _ _ _ _) as [[r|e|] k1]; [|naive_solver|done].
  assert (H0 := H). destruct H as [Hid [T (-> & Hh & Hs)]]. cbn [r_objs] in *.
  split; [done|]. split; [apply T|]. split; [done|].
  destruct (Unload_spec (mkResult (r_objs r) programs) k1 Hh) as (e & k2 & E2 & T2 & G2).
  cbn [r_objs] in *. exists e, k2. split; [done|].
  apply (touches_gone (r_objs r)); [by eapply touches_trans|apply Hf; lia|done].
Qed.

End Resources.

(** An environment in which the fourth attachment fails. *)
Definition ex_env (bad : option kcall) : KEnv :=
  {| goarch := "amd64"; fails := λ _ c, match bad, c with
       | Some (AttachCgroup _ n), AttachCgroup _ n' => String.eqb n n'
       | _, _ => false end |}.
Definition ex_kern : kern := mkKern [] ∅ ∅ 0.

Lemma ex_kern_fresh : fresh_ids ex_kern.
Proof. intros j _. split; [done|]. intros n. cbn. set_solver. Qed.

Lemma Load_resources_witness :
  is_ok (Load (E := ex_env None) "/sys/fs/cgroup/vproxy" 8118 255 false None 0 ex_kern).1 = true ∧
  fresh_ids ex_kern ∧
  match Load (E := ex_env (Some (AttachCgroup 0 "sendmsg6"))) "/sys/fs/cgroup/vproxy" 8118 255 false None 0 ex_kern with
  | (Err _, k') => store k' = ∅ ∧ links k' = ∅ ∧ fds k' = 0%nat ∧ length (klog k') = 13%nat
  | _ => False
  end.
Proof.
  split; [vm_compute; reflexivity|]. split; [apply ex_kern_fresh|].
  pose proof (Load_resources (E := ex_env (Some (AttachCgroup 0 "sendmsg6")))
    "/sys/fs/cgroup/vproxy" 8118 255 false None 0 ex_kern ex_kern_fresh) as H.
  destruct (Load (E := ex_env (Some _)) _ _ _ _ _ _ _) as [[r|e|] k'] eqn:El.
  - exfalso. apply (f_equal fst) in El. vm_compute in El. discriminate.
  - destruct H as (H1 & H2 & H3). split_and!; [done..|].
    apply (f_equal (λ x, length (klog x.2))) in El.
    etransitivity; [symmetry; exact El|]. vm_compute. reflexivity.
  - done.
Defined.

(** ** Which connections are redirected *)

Lemma foldl_insert_lookup (keys : list lpm_cidr_key) (c : gmap lpm_cidr_key Z) k :
  is_Some (foldl (λ m k, <[k := 1]> m) c keys !! k) ↔ is_Some (c !! k) ∨ k ∈ keys.
Proof.
  revert c. induction keys as [|k0 keys IH]; intros c; cbn [foldl].
  - rewrite elem_of_nil. tauto.
  - rewrite IH, lookup_insert_is_Some, elem_of_cons.
    destruct (decide (k0 = k)); naive_solver.
Qed.

Lemma lpm_default addr :
  lpm_lookup default_cidr addr = existsb (λ k, lpm_match k addr) default_keys.
Proof.
  apply eq_true_iff_eq. rewrite lpm_lookup_spec, existsb_exists. unfold default_cidr.
  setoid_rewrite <- list_elem_of_In. split.
  - intros (k & v & Hk & Hm). exists k. split; [|done].
    destruct (proj1 (foldl_insert_lookup default_keys ∅ k)) as [[? H]|]; [by eexists|done|done].
  - intros (k & Hk & Hm). destruct (proj2 (foldl_insert_lookup default_keys ∅ k)) as [v Hv]; [by right|].
    by exists k, v.
Qed.

(** The first bits of an address, by the length of the prefix. *)
Lemma be32_prefix8 a b c d : Z.shiftr (be32 a b c d) 24 = u8 a.
Proof.
  rewrite be32_eq, Z.shiftr_div_pow2 by lia. pose proof (u8_range a). pose proof (u8_range b).
  pose proof (u8_range c). pose proof (u8_range d). zlia.
Qed.
Lemma be32_prefix16 a b c d : Z.shiftr (be32 a b c d) 16 = u8 a * 256 + u8 b.
Proof.
  rewrite be32_eq, Z.shiftr_div_pow2 by lia. pose proof (u8_range a). pose proof (u8_range b).
  pose proof (u8_range c). pose proof (u8_range d). zlia.
Qed.
Lemma be32_prefix12 a b c d : Z.shiftr (be32 a b c d) 20 = u8 a * 16 + u8 b / 16.
Proof.
  rewrite be32_eq, Z.shiftr_div_pow2 by lia. pose proof (u8_range a). pose proof (u8_range b).
  pose proof (u8_range c). pose proof (u8_range d). zlia.
Qed.

(** The default networks are those that package net calls loopback, private or
    link-local. *)
Lemma default_cidr_private a b c d :
  lpm_lookup default_cidr [a; b; c; d] =
  Net.IsLoopback [a; b; c; d] || Net.IsPrivate [a; b; c; d] || Net.IsLinkLocalUnicast [a; b; c; d].
Proof.
  rewrite lpm_default. apply eq_true_iff_eq.
  unfold Net.IsLoopback, Net.IsPrivate, Net.IsLinkLocalUnicast, Net.To4, Net.at_.
  cbn [length lookup list_lookup fmap option_fmap option_map default from_option id].
  unfold default_keys, lpm_match, existsb, bytes, bits4, fmap, list_fmap. cbn [fst snd].
  change (Z.shiftr (be32 (mk8 127) (mk8 0) (mk8 0) (mk8 0)) (32 - 8)) with 127.
  change (Z.shiftr (be32 (mk8 10) (mk8 0) (mk8 0) (mk8 0)) (32 - 8)) with 10.
  change (Z.shiftr (be32 (mk8 172) (mk8 16) (mk8 0) (mk8 0)) (32 - 12)) with 2753.
  change (Z.shiftr (be32 (mk8 192) (mk8 168) (mk8 0) (mk8 0)) (32 - 16)) with 49320.
  change (Z.shiftr (be32 (mk8 169) (mk8 254) (mk8 0) (mk8 0)) (32 - 16)) with 43518.
  change (32 - 8) with 24. change (32 - 12) with 20. change (32 - 16) with 16.
  rewrite be32_prefix8, be32_prefix16, be32_prefix12.
  rewrite !orb_true_iff, !andb_true_iff, !Z.eqb_eq.
  assert (Z.land (u8 b) 240 = 16 ↔ u8 b / 16 = 1) as ->
    by (destruct b as [[] [] [] [] [] [] [] []]; vm_compute; split; congruence).
  pose proof (u8_range a). pose proof (u8_range b).
  assert (¬ false = true) by done. split; intros; zlia.
Qed.

(** Maps as Load leaves them and as UpdateConfig, the programs and the look-ups
    keep them. *)
Definition configured (pp bm : Z) (rem : bool) (up : option ip) (upp : Z) (m : maps) : Prop :=
  cidr_bypass_map m = default_cidr ∧ ∃ v c, config_map m = written pp bm v rem up upp c.

Lemma configured_lookup pp bm rem up upp m :
  configured pp bm rem up upp m →
  config_lookup m 0 = Some pp ∧ config_lookup m 1 = Some bm ∧ config_lookup m 3 = Some (b2z rem) ∧
  config_lookup m 4 = Some (upstream_ip4 up) ∧ config_lookup m 5 = Some upp ∧
  config_lookup m 6 = Some (upstream_ip6 up).1 ∧ config_lookup m 7 = Some (upstream_ip6 up).2.
Proof.
  intros (_ & v & c & Hc). unfold config_lookup. rewrite Hc. unfold written,
    cfgProxyPort, cfgBypassMark, cfgVerbose, cfgIsRemoteTProxy, cfgUpstreamIP4, cfgUpstreamPort,
    cfgUpstreamIP6_0, cfgUpstreamIP6_1.
  cbn [Z.leb Z.ltb Z.compare andb Pos.compare Pos.compare_cont].
  split_and!; repeat (rewrite lookup_insert_ne by lia); by rewrite lookup_insert_eq.
Qed.

(** The connection of a socket [s] to the IPv4 address [a.b.c.d] and [port]. *)
Definition ctx4 (a b c d : byte) (port proto : Z) (s : bpf_sock) : bpf_sock_addr :=
  mkCtx (ld32 a b c d) (0, 0, 0, 0) (bpf_htons port) proto (Some s).

Definition bypass4 (bm : Z) (x : ip) (port : Z) (s : bpf_sock) : bool :=
  Z.eqb (mark s) bm || Z.eqb port 53 || (Net.IsLoopback x || Net.IsPrivate x || Net.IsLinkLocalUnicast x).

Lemma ld32_land_ff a b c d : Z.land (ld32 a b c d) 255 = u8 a.
Proof.
  change 255 with (Z.ones 8). rewrite Z.land_ones by lia. unfold ld32. rewrite be32_eq.
  pose proof (u8_range a). pose proof (u8_range b). pose proof (u8_range c). pose proof (u8_range d). zlia.
Qed.

Lemma pass4_spec pp bm rem up upp m a b c d port proto s :
  configured pp bm rem up upp m → 0 ≤ bm < 2 ^ 32 → 0 ≤ port < 65536 →
  pass4 m (ctx4 a b c d port proto s) = bypass4 bm [a; b; c; d] port s.
Proof.
  intros Hm Hb Hp. destruct (configured_lookup _ _ _ _ _ _ Hm) as (_ & C1 & _).
  unfold pass4, is_bypass_socket, bypass4, cfg_bypass_mark, is_cidr_bypass_v4, ctx4.
  cbn [sk user_ip4 user_port]. rewrite C1, wrap32_small by lia.
  destruct (mark s =? bm); cbn [orb]; [done|].
  change (bpf_htonl 0xFF000000) with 255. change (bpf_htonl 0x7F000000) with 127.
  rewrite ld32_land_ff, mem32_ld32, (proj1 Hm), default_cidr_private.
  assert (Net.IsLoopback [a; b; c; d] = Z.eqb (u8 a) 127) as -> by done.
  destruct (Z.eqb_spec port 53) as [->|Hn]; cbn [orb]; [by destruct (u8 a =? 127)|].
  destruct (Z.eqb_spec (bpf_htons port) (bpf_htons 53)) as [He|_];
    [apply htons_inj in He; lia|]. by destruct (u8 a =? 127).
Qed.

(** What the hooks put into the context, in terms of the configuration. *)
Definition written4 (pp : Z) (rem : bool) (up : option ip) (upp : Z) (c : bpf_sock_addr) : bpf_sock_addr :=
  if rem then with4 c (wrap32 (upstream_ip4 up)) (bpf_htons upp)
  else with4 c (bpf_htonl 0x7F000001) (bpf_htons pp).

Lemma hooks4_run pp bm rem up upp m a b c d port proto s t :
  configured pp bm rem up upp m → 0 ≤ bm < 2 ^ 32 → 0 ≤ pp < 65536 → 0 ≤ upp < 65536 →
  0 ≤ port < 65536 →
  let ctx := ctx4 a b c d port proto s in
  let ctx' := if bypass4 bm [a; b; c; d] port s then ctx else written4 pp rem up upp ctx in
  ∃ m1 m2, sock4_connect t ctx m = Ok (ctx', m1) ∧ sock4_sendmsg t ctx m = Ok (ctx', m2) ∧
    configured pp bm rem up upp m1 ∧ configured pp bm rem up upp m2 ∧
    tcp_orig_dst m1 = tcp_orig_dst m ∧ tcp_orig_dst m2 = tcp_orig_dst m ∧
    (bypass4 bm [a; b; c; d] port s || rem = true → m1 = m ∧ m2 = m).
Proof.
  intros Hm Hbm Hpp Hup Hp ctx ctx'.
  destruct (configured_lookup _ _ _ _ _ _ Hm) as (C0 & C1 & C3 & C4 & C5 & _).
  unfold sock4_connect, sock4_sendmsg. subst ctx ctx'.
  rewrite (pass4_spec pp bm rem up upp) by done.
  destruct (bypass4 _ _ _ _); [exists m, m; by split_and!|].
  unfold cfg_is_remote_tproxy, written4. rewrite C3.
  destruct rem; cbn [b2z wrap32 negb Z.eqb].
  - change (negb (wrap32 1 =? 0)) with true. cbv iota. unfold remote4, cfg_upstream_ip4, cfg_upstream_port.
    rewrite C4, C5, (wrap32_small upp) by lia. unfold wrap16. rewrite Z.mod_small by lia.
    exists m, m. by split_and!.
  - change (negb (wrap32 0 =? 0)) with false. cbv iota. unfold local4, cfg_proxy_port.
    rewrite C0, (wrap32_small pp) by lia. unfold wrap16. rewrite Z.mod_small by lia.
    unfold save_connect, save_udp, ctx4. cbn [protocol sk].
    destruct (proto =? IPPROTO_TCP); [|destruct (proto =? IPPROTO_UDP)]; do 2 eexists;
      (split_and!; [reflexivity|reflexivity|exact Hm|exact Hm|done|done|done]).
Qed.

(** The bytes the context gets for an upstream. *)
Lemma upstream_bytes x u : Net.To4 x = Some u → mem32 (wrap32 (upstream_ip4 (Some x))) = reverse u.
Proof.
  intros Hx. pose proof (Net.To4_length x u Hx) as Hl. unfold upstream_ip4. rewrite Hx.
  destruct u as [|w0 [|w1 [|w2 [|w3 [|]]]]]; try done. unfold Uint32_at. cbn [drop take bits4].
  rewrite wrap32_small by apply be32_range. apply mem32_ld32.
Qed.

(** C7. Which IPv4 connections and datagrams are redirected, and where to.  With the
    maps as Load configures them, one is left alone exactly when its socket carries the
    bypass mark, its port is 53 or Go calls its address loopback, private or
    link-local.  Every other one is sent to 127.0.0.1 and the proxy port; or, in remote
    mode, to the port of the upstream at the address that has the four bytes of the
    upstream's address in reverse order, which is a defect of the loader: it stores a
    number where the program wants the bytes ([remote_upstream_reversed]).  Nothing
    else of the context changes, and of the maps at most those of saved destinations,
    none of them in remote mode. *)
Theorem redirect4_decision pp bm rem up upp m a b c d port proto s t :
  configured pp bm rem up upp m → 0 ≤ bm < 2 ^ 32 → 0 ≤ pp < 65536 → 0 ≤ upp < 65536 →
  0 ≤ port < 65536 →
  let ctx := ctx4 a b c d port proto s in
  ∃ ctx' m1 m2, sock4_connect t ctx m = Ok (ctx', m1) ∧ sock4_sendmsg t ctx m = Ok (ctx', m2) ∧
    configured pp bm rem up upp m1 ∧ configured pp bm rem up upp m2 ∧
    tcp_orig_dst m1 = tcp_orig_dst m ∧ tcp_orig_dst m2 = tcp_orig_dst m ∧
    ctx' = with4 ctx (user_ip4 ctx') (user_port ctx') ∧
    if bypass4 bm [a; b; c; d] port s then ctx' = ctx ∧ m1 = m ∧ m2 = m
    else if rem then
      user_port ctx' = bpf_htons upp ∧ m1 = m ∧ m2 = m ∧
      ∀ x u, up = Some x → Net.To4 x = Some u → mem32 (user_ip4 ctx') = reverse u
    else user_port ctx' = bpf_htons pp ∧ mem32 (user_ip4 ctx') = bytes [127; 0; 0; 1].
Proof.
  intros Hm Hbm Hpp Hup Hp ctx.
  destruct (hooks4_run pp bm rem up upp m a b c d port proto s t Hm Hbm Hpp Hup Hp)
    as (m1 & m2 & H1 & H2 & H3 & H4 & H5 & H6 & H7). fold ctx in H1, H2.
  destruct (bypass4 bm [a; b; c; d] port s).
  { destruct (H7 eq_refl) as [-> ->]. exists ctx, m, m. by split_and!. }
  eexists _, m1, m2. split; [exact H1|]. split; [exact H2|]. do 4 (split; [done|]).
  unfold written4. destruct rem; (split; [done|]).
  - destruct (H7 eq_refl) as [-> ->]. split_and!; [done..|]. intros x u -> Hu. by apply upstream_bytes.
  - split; [done|]. cbn [with4 user_ip4]. rewrite mem32_htonl. reflexivity.
Qed.

(** ** From the hook to the look-up *)

(** Everything that changes the maps of destinations, in any order. *)
Inductive mop :=
| OConnect4 (t : task) (c : bpf_sock_addr) | OConnect6 (t : task) (c : bpf_sock_addr)
| OSendmsg4 (t : task) (c : bpf_sock_addr) | OSendmsg6 (t : task) (c : bpf_sock_addr)
| OSockops (s : bpf_sock_ops)
| OLookupTCP (l r : naddr) | OLookupUDP (x : ip) (port : Z).

Definition hook_maps (m : maps) (o : outcome unit (bpf_sock_addr * maps)) : maps :=
  match o with Ok (_, m') => m' | _ => m end.
Definition mstep (m : maps) (o : mop) : maps :=
  match o with
  | OConnect4 t c => hook_maps m (sock4_connect t c m)
  | OConnect6 t c => hook_maps m (sock6_connect t c m)
  | OSendmsg4 t c => hook_maps m (sock4_sendmsg t c m)
  | OSendmsg6 t c => hook_maps m (sock6_sendmsg t c m)
  | OSockops s => vproxy_sockops s m
  | OLookupTCP l r => (LookupTCPOrigDst l r 0 0 m ProcCache.globalProcCache).1.2
  | OLookupUDP x port => (LookupUDPOrigDst x port 0 0 m ProcCache.globalProcCache).1.2
  end.

(** An operation on behalf of other sockets and other four-tuples. *)
Definition foreign (ck : Z) (key : list byte) (o : mop) : Prop :=
  match o with
  | OConnect4 t _ | OConnect6 t _ => cookie t ≠ ck
  | OSockops s => so_cookie s ≠ ck ∧ tcp_4tuple_key_mem (sockops_key s) ≠ key
  | OLookupTCP (TCPAddr l lp) (TCPAddr r rp) => tcp_key l r lp rp ≠ key
  | _ => True
  end.

Lemma save_connect_foreign t c f d m m' ck :
  save_connect t c f d m = Ok m' → cookie t ≠ ck →
  tcp_cookie_map m' !! ck = tcp_cookie_map m !! ck ∧ tcp_orig_dst m' = tcp_orig_dst m.
Proof.
  unfold save_connect, save_udp. intros H Hc. crush_match; split; try done.
  by apply map_update_other.
Qed.

Lemma save_udp_foreign c f d m m' :
  save_udp c f d m = Ok m' → tcp_cookie_map m' = tcp_cookie_map m ∧ tcp_orig_dst m' = tcp_orig_dst m.
Proof. unfold save_udp. intros. by crush_match. Qed.

Lemma mstep_foreign ck key o m :
  foreign ck key o →
  tcp_cookie_map (mstep m o) !! ck = tcp_cookie_map m !! ck ∧
  tcp_orig_dst (mstep m o) !! key = tcp_orig_dst m !! key.
Proof.
  destruct o as [t c|t c|t c|t c|s|l r|x port]; cbn [foreign mstep].
  - intros Hc. unfold sock4_connect. do 2 (case_match; [done|]).
    destruct (save_connect _ _ _ _ _) eqn:Es; cbn; [|done..].
    eapply save_connect_foreign in Es as [? Ht]; [|done]. by rewrite Ht.
  - intros Hc. unfold sock6_connect. do 2 (case_match; [done|]).
    destruct (save_connect _ _ _ _ _) eqn:Es; cbn; [|done..].
    eapply save_connect_foreign in Es as [? Ht]; [|done]. by rewrite Ht.
  - intros _. unfold sock4_sendmsg. do 2 (case_match; [done|]).
    destruct (save_udp _ _ _ _) eqn:Es; cbn; [|done..].
    by apply save_udp_foreign in Es as [-> ->].
  - intros _. unfold sock6_sendmsg. do 2 (case_match; [done|]).
    destruct (save_udp _ _ _ _) eqn:Es; cbn; [|done..].
    by apply save_udp_foreign in Es as [-> ->].
  - intros [Hc Hk]. unfold vproxy_sockops. case_match; [|done]. case_match; [|done]. cbn. split.
    + by rewrite lookup_delete_ne.
    + by apply map_update_other.
  - destruct l as [l lp|], r as [r rp|]; try done. intros Hk. unfold LookupTCPOrigDst.
    case_match; [|done]. cbn. split; [done|]. by rewrite lookup_delete_ne.
  - intros _. unfold LookupUDPOrigDst. by case_match.
Qed.

Lemma msteps_foreign ck key ops m :
  Forall (foreign ck key) ops →
  tcp_cookie_map (foldl mstep m ops) !! ck = tcp_cookie_map m !! ck ∧
  tcp_orig_dst (foldl mstep m ops) !! key = tcp_orig_dst m !! key.
Proof.
  intros Hf. revert m. induction Hf as [|o ops Ho _ IH]; intros m; [done|]. cbn [foldl].
  destruct (IH (mstep m o)) as [-> ->]. by apply mstep_foreign.
Qed.

(** What the daemon reads back is what the hook saved. *)
Lemma decode_mem d :
  0 ≤ dst_family d < 2 ^ 32 → 0 ≤ dst_pid d < 2 ^ 32 →
  IP (decode (original_dst_mem d)) = mem_word4 (dst_ip d) ∧
  mem32 (Port (decode (original_dst_mem d))) = mem32 (dst_port d) ∧
  Family (decode (original_dst_mem d)) = dst_family d ∧
  Pid (decode (original_dst_mem d)) = dst_pid d ∧
  Comm (decode (original_dst_mem d)) = dst_comm d.
Proof.
  destruct d as [w port fam pid com]. cbn [dst_ip dst_port dst_family dst_pid dst_comm].
  intros Hf Hp. unfold decode, original_dst_mem. cbn [dst_ip dst_port dst_family dst_pid dst_comm].
  cbn [IP Port Family Pid Comm]. destruct w as [[[w0 w1] w2] w3].
  set (L := λ z, ld32 (mk8 z) (mk8 (Z.shiftr z 8)) (mk8 (Z.shiftr z 16)) (mk8 (Z.shiftr z 24))).
  assert (∀ z, L z = wrap32 z) as HL by (intros z; by apply ld32_mem32).
  split_and!; [reflexivity| | | |reflexivity].
  - transitivity (mem32 (L port)); [reflexivity|]. unfold L. by rewrite mem32_ld32.
  - transitivity (L fam); [reflexivity|]. rewrite HL. by apply wrap32_small.
  - transitivity (L pid); [reflexivity|]. rewrite HL. by apply wrap32_small.
Qed.

(** The kernel's report that the socket with cookie [ck], bound to [ca.cb.cc.cd]
    and [cport], is connected to the destination of [ctx].  The local port of
    bpf_sock_ops is in host order, the remote port in network order. *)
Definition established (ck : Z) (ca cb cc cd : byte) (cport : Z) (ctx : bpf_sock_addr) : bpf_sock_ops :=
  mkOps BPF_SOCK_OPS_ACTIVE_ESTABLISHED_CB 2 ck (ld32 ca cb cc cd) (user_ip4 ctx)
    (0, 0, 0, 0) (0, 0, 0, 0) cport (bpf_htonl (bpf_htons (user_port ctx))).

Definition loopback4 : list byte := bytes [127; 0; 0; 1].

Lemma htons_htons p : 0 ≤ p < 65536 → bpf_htons (bpf_htons p) = p.
Proof.
  intros Hp. apply htons_inj; [apply be16_range|done|].
  assert (∀ q, 0 ≤ q < 65536 → bpf_htons q = be16 (mk8 q) (mk8 (Z.shiftr q 8))) as H by done.
  assert (∀ a b, bpf_htons (be16 a b) = be16 b a) as Hs.
  { intros a b. unfold bpf_htons. pose proof (put16_be16 a b) as E. unfold put16 in E.
    injection E as E1 E2. by rewrite E1, E2. }
  rewrite (H p Hp). by rewrite !Hs.
Qed.

(** The key the sockops program writes is the key the daemon looks up. *)
Lemma key_agrees ck ca cb cc cd cport ctx l r pp :
  Net.To4 l = Some loopback4 → Net.To4 r = Some [ca; cb; cc; cd] →
  0 ≤ pp < 65536 → 0 ≤ cport < 65536 →
  user_ip4 ctx = bpf_htonl 0x7F000001 → user_port ctx = bpf_htons pp →
  tcp_4tuple_key_mem (sockops_key (established ck ca cb cc cd cport ctx)) = tcp_key l r pp cport.
Proof.
  intros Hl Hr Hp Hc Hi Hu. unfold tcp_key, sockops_key, established. rewrite Hl, Hr.
  cbn [so_family local_ip4 remote_ip4 local_port remote_port Z.eqb Pos.eqb].
  rewrite Hi, Hu, htonl_htonl, htons_htons by (rewrite ?htons_htons; lia).
  unfold tcp_4tuple_key_mem, mem_word4.
  cbn [tk_client_ip tk_proxy_ip tk_client_port tk_proxy_port tk_family].
  rewrite mem32_ld32, mem32_htonl. reflexivity.
Qed.

(** The connect hook on a connection that is redirected to the local port. *)
Lemma connect4_saves pp bm up upp m t a b c d port proto s :
  configured pp bm false up upp m → 0 ≤ bm < 2 ^ 32 → 0 ≤ pp < 65536 → 0 ≤ port < 65536 →
  bypass4 bm [a; b; c; d] port s = false →
  let ctx := ctx4 a b c d port proto s in
  sock4_connect t ctx m =
  (m' ← save_connect t ctx AF_INET (dst4 t ctx) m;
   Ok (with4 ctx (bpf_htonl 0x7F000001) (bpf_htons pp), m')).
Proof.
  intros Hm Hbm Hpp Hp Hby ctx. destruct (configured_lookup _ _ _ _ _ _ Hm) as (C0 & _ & C3 & _).
  unfold sock4_connect, ctx. rewrite (pass4_spec pp bm false up upp), Hby by done.
  unfold cfg_is_remote_tproxy. rewrite C3. change (negb (wrap32 (b2z false) =? 0)) with false.
  cbv iota. unfold local4, cfg_proxy_port. rewrite C0, wrap32_small by lia.
  unfold wrap16. by rewrite Z.mod_small by lia.
Qed.

(** The destination read back from the value the IPv4 hooks save. *)
Lemma decode_dst4 t a b c d port proto s :
  0 ≤ port < 65536 →
  let v := decode (original_dst_mem (dst4 t (ctx4 a b c d port proto s))) in
  ToAddr v = ([a; b; c; d], port) ∧
  Pid v = wrap32 (Z.shiftr (pid_tgid t) 32) ∧ ProcessName v = of_bytes (until_nul (comm t)).
Proof.
  intros Hp v. destruct (decode_mem (dst4 t (ctx4 a b c d port proto s))) as (D1 & D2 & D3 & D4 & D5);
    [done|apply Z.mod_pos_bound; lia|].
  unfold v, ToAddr, toNetIP, ProcessName. rewrite D1, D2, D3, D4, D5.
  unfold dst4, fill_process_info, ctx4. cbn [dst_ip dst_port dst_family dst_pid dst_comm user_ip4 user_port].
  rewrite (proj2 (htons_port port Hp)). unfold mem_word4. rewrite mem32_ld32.
  change (AF_INET =? AF_INET6) with false. cbn [take app put16].
  rewrite (be16_put16 port _ _ eq_refl). unfold wrap16. by rewrite Z.mod_small by lia.
Qed.

(** *** IPv6 *)

Definition words (x : list byte) : word4 :=
  match x with
  | [a0; a1; a2; a3; b0; b1; b2; b3; c0; c1; c2; c3; d0; d1; d2; d3] =>
      (ld32 a0 a1 a2 a3, ld32 b0 b1 b2 b3, ld32 c0 c1 c2 c3, ld32 d0 d1 d2 d3)
  | _ => (0, 0, 0, 0)
  end.

Lemma mem_words x : length x = 16%nat → mem_word4 (words x) = x.
Proof.
  intros Hx. do 16 (destruct x as [|? x]; [done|]). destruct x; [|done].
  cbn [words]. unfold mem_word4. by rewrite !mem32_ld32.
Qed.

Definition ctx6 (x : list byte) (port proto : Z) (s : bpf_sock) : bpf_sock_addr :=
  mkCtx 0 (words x) (bpf_htons port) proto (Some s).

(** ::1, fe80::/10 and fc00::/7 *)
Definition local6_bytes (x : list byte) : bool :=
  bool_decide (x = Net.IPv6loopback) || ((Net.at_ x 0 =? 254) && (Z.land (Net.at_ x 1) 192 =? 128)) ||
  (Z.land (Net.at_ x 0) 254 =? 252).
Definition bypass6 (bm : Z) (x : ip) (port : Z) (s : bpf_sock) : bool :=
  Z.eqb (mark s) bm || Z.eqb port 53 || local6_bytes x.

Lemma land_split a h m k : 0 ≤ a < 256 → 0 ≤ m < 256 →
  Z.land (a + 256 * h) (m + 256 * k) = Z.land a m + 256 * Z.land h k.
Proof.
  intros Ha Hm. assert (∀ x y, 0 ≤ x < 256 → x + 256 * y = Z.lor (Z.shiftl y 8) x) as E.
  { intros x y Hx. rewrite lor_shiftl_add by lia. lia. }
  assert (0 ≤ Z.land a m < 256) as Hl.
  { pose proof (Z.land_nonneg a m). split; [tauto|]. pose proof (Z.log2_land a m). 
    destruct (Z.eq_dec (Z.land a m) 0) as [->|]; [lia|]. apply (Z.log2_lt_pow2 _ 8); [lia|].
    enough (Z.log2 a < 8) by lia. destruct (Z.eq_dec a 0) as [->|]; [done|]. apply Z.log2_lt_pow2; lia. }
  rewrite (E a h), (E m k), (E (Z.land a m)) by lia. apply Z.bits_inj'. intros n Hn.
  rewrite !Z.land_spec, !Z.lor_spec, !Z.land_spec, !Z.shiftl_spec, !Z.land_spec by lia.
  destruct (Z.ltb_spec n 8) as [H8|H8].
  - rewrite !(Z.testbit_neg_r _ (n - 8)) by lia. done.
  - assert (∀ x, 0 ≤ x < 256 → Z.testbit x n = false) as Hz.
    { intros x Hx. apply Z.bits_above_log2; [lia|]. destruct (Z.eq_dec x 0) as [->|]; [cbn; lia|].
      apply Z.lt_le_trans with 8; [|lia]. apply Z.log2_lt_pow2; lia. }
    rewrite (Hz a), (Hz m) by lia. by destruct (Z.testbit h (n - 8)), (Z.testbit k (n - 8)).
Qed.

Lemma ld32_low a b c d : ld32 a b c d = u8 a + 256 * (u8 b + 256 * (u8 c + 256 * u8 d)).
Proof. unfold ld32. rewrite be32_eq. lia. Qed.

(** The masks of the program, on the bytes. *)
Lemma word_link_local a b c d :
  (Z.land (ld32 a b c d) (bpf_htonl 0xFFC00000) =? bpf_htonl 0xFE800000) =
  (u8 a =? 254) && (Z.land (u8 b) 192 =? 128).
Proof.
  change (bpf_htonl 0xFFC00000) with (255 + 256 * (192 + 256 * 0)). change (bpf_htonl 0xFE800000) with (254 + 256 * 128).
  pose proof (u8_range a). pose proof (u8_range b). rewrite ld32_low, !land_split, Z.land_0_r by lia.
  assert (Z.land (u8 a) 255 = u8 a) as -> by (change 255 with (Z.ones 8); rewrite Z.land_ones by lia; by apply Z.mod_small).
  destruct (Z.eqb_spec (u8 a) 254), (Z.eqb_spec (Z.land (u8 b) 192) 128); cbn [andb];
    (apply Z.eqb_eq || apply Z.eqb_neq); lia.
Qed.

Lemma word_ula a b c d : (Z.land (ld32 a b c d) (bpf_htonl 0xFE000000) =? bpf_htonl 0xFC000000) = (Z.land (u8 a) 254 =? 252).
Proof.
  change (bpf_htonl 0xFE000000) with (254 + 256 * 0). change (bpf_htonl 0xFC000000) with 252.
  pose proof (u8_range a). rewrite ld32_low, land_split, Z.land_0_r by lia. f_equal. lia.
Qed.

Lemma word_eqb a b c d z : 0 ≤ z < 2 ^ 32 → (ld32 a b c d =? z) = bool_decide ([a; b; c; d] = mem32 z).
Proof.
  intros Hz. destruct (Z.eqb_spec (ld32 a b c d) z) as [<-|Hn]; symmetry.
  - apply bool_decide_eq_true_2. by rewrite mem32_ld32.
  - apply bool_decide_eq_false_2. intros E. apply Hn. apply mem32_inj; [apply be32_range|done|]. by rewrite mem32_ld32.
Qed.

Lemma pass6_spec pp bm rem up upp m x port proto s :
  configured pp bm rem up upp m → 0 ≤ bm < 2 ^ 32 → 0 ≤ port < 65536 → length x = 16%nat →
  pass6 m (ctx6 x port proto s) = bypass6 bm x port s.
Proof.
  intros Hm Hb Hp Hx. destruct (configured_lookup _ _ _ _ _ _ Hm) as (_ & C1 & _).
  unfold pass6, is_bypass_socket, bypass6, cfg_bypass_mark. cbn [sk ctx6 user_port].
  rewrite C1, wrap32_small by lia. destruct (mark s =? bm); cbn [orb]; [done|].
  assert (is_local_ipv6 (ctx6 x port proto s) = local6_bytes x) as ->.
  { do 16 (destruct x as [|? x]; [done|]). destruct x; [|done]. unfold is_local_ipv6, local6_bytes, ctx6, Net.at_.
    cbn [user_ip6 words lookup list_lookup fmap option_fmap option_map default from_option id].
    rewrite word_link_local, word_ula, !word_eqb by (done || apply htonl_range).
    set (l := bool_decide _ && bool_decide _ && bool_decide _ && bool_decide _).
    assert (l = bool_decide ([a; a0; a1; a2; a3; a4; a5; a6; a7; a8; a9; a10; a11; a12; a13; a14] = Net.IPv6loopback)) as ->.
    { unfold l. rewrite <- !bool_decide_and. apply bool_decide_ext. cbn. split; [by intros [[[[= -> -> -> ->] [= -> -> -> ->]] [= -> -> -> ->]] [= -> -> -> ->]]|by intros [= -> -> -> -> -> -> -> -> -> -> -> -> -> -> -> ->]]. }
    by destruct (bool_decide _), (_ && _), (_ =? _). }
  destruct (local6_bytes x); [by rewrite orb_true_r|]. rewrite orb_false_r.
  destruct (Z.eqb_spec port 53) as [->|Hn]; [by rewrite Z.eqb_refl|].
  apply Z.eqb_neq. intros He%htons_inj; lia.
Qed.

Lemma connect6_saves pp bm up upp m t x port proto s :
  configured pp bm false up upp m → 0 ≤ bm < 2 ^ 32 → 0 ≤ pp < 65536 → 0 ≤ port < 65536 → length x = 16%nat →
  bypass6 bm x port s = false →
  let ctx := ctx6 x port proto s in
  sock6_connect t ctx m =
  (m' ← save_connect t ctx AF_INET6 (dst6 t ctx) m;
   Ok (with6 ctx (0, 0, 0, bpf_htonl 1) (bpf_htons pp), m')).
Proof.
  intros Hm Hbm Hpp Hp Hx Hby ctx. destruct (configured_lookup _ _ _ _ _ _ Hm) as (C0 & _ & C3 & _).
  unfold sock6_connect, ctx. rewrite (pass6_spec pp bm false up upp), Hby by done.
  unfold cfg_is_remote_tproxy. rewrite C3. change (negb (wrap32 (b2z false) =? 0)) with false.
  cbv iota. unfold local6, cfg_proxy_port. rewrite C0, wrap32_small by lia.
  unfold wrap16. by rewrite Z.mod_small by lia.
Qed.

Lemma decode_dst6 t x port proto s :
  0 ≤ port < 65536 → length x = 16%nat →
  let v := decode (original_dst_mem (dst6 t (ctx6 x port proto s))) in
  ToAddr v = (x, port) ∧
  Pid v = wrap32 (Z.shiftr (pid_tgid t) 32) ∧ ProcessName v = of_bytes (until_nul (comm t)).
Proof.
  intros Hp Hx v. destruct (decode_mem (dst6 t (ctx6 x port proto s))) as (D1 & D2 & D3 & D4 & D5);
    [done|apply Z.mod_pos_bound; lia|].
  unfold v, ToAddr, toNetIP, ProcessName. rewrite D1, D2, D3, D4, D5.
  unfold dst6, fill_process_info, ctx6. cbn [dst_ip dst_port dst_family dst_pid dst_comm user_ip6 user_port].
  rewrite (proj2 (htons_port port Hp)), mem_words by done.
  change (AF_INET6 =? AF_INET6) with true. cbn iota. rewrite take_ge by lia. cbn [app put16].
  rewrite (be16_put16 port _ _ eq_refl). unfold wrap16. by rewrite Z.mod_small by lia.
Qed.

(** A socket bound to the IPv6 address [y] that is connected to the destination of
    [ctx]. *)
Definition established6 (ck : Z) (y : list byte) (cport : Z) (ctx : bpf_sock_addr) : bpf_sock_ops :=
  mkOps BPF_SOCK_OPS_ACTIVE_ESTABLISHED_CB 10 ck 0 0 (words y) (user_ip6 ctx)
    cport (bpf_htonl (bpf_htons (user_port ctx))).

Lemma key_agrees6 ck y cport ctx r pp :
  length y = 16%nat → Net.To16 r = Some y → 0 ≤ pp < 65536 → 0 ≤ cport < 65536 →
  user_ip6 ctx = (0, 0, 0, bpf_htonl 1) → user_port ctx = bpf_htons pp →
  tcp_4tuple_key_mem (sockops_key (established6 ck y cport ctx)) = tcp_key Net.IPv6loopback r pp cport.
Proof.
  intros Hy Hr Hp Hc Hi Hu. unfold tcp_key, sockops_key, established6. rewrite Hr.
  change (Net.To4 Net.IPv6loopback) with (@None ip). change (Net.To16 Net.IPv6loopback) with (Some Net.IPv6loopback).
  cbn [so_family local_ip6 remote_ip6 local_port remote_port Z.eqb Pos.eqb].
  rewrite Hi, Hu, htonl_htonl, htons_htons by (rewrite ?htons_htons; lia).
  unfold tcp_4tuple_key_mem. cbn [tk_client_ip tk_proxy_ip tk_client_port tk_proxy_port tk_family].
  rewrite mem_words by done. unfold copy_into. cbn [default from_option id]. rewrite Hy, take_ge, app_nil_r by lia. reflexivity.
Qed.

(** *** Both families *)

(** Where a client wants to go, and the address its own socket has. *)
Inductive tcp_flow := Flow4 (a b c d ca cb cc cd : byte) | Flow6 (dst client : list byte).

Definition fl_dst (f : tcp_flow) : ip := match f with Flow4 a b c d _ _ _ _ => [a; b; c; d] | Flow6 x _ => x end.
Definition fl_bypass (bm : Z) (f : tcp_flow) (port : Z) (s : bpf_sock) : bool :=
  match f with Flow4 a b c d _ _ _ _ => bypass4 bm [a; b; c; d] port s | Flow6 x _ => bypass6 bm x port s end.
Definition fl_connect (f : tcp_flow) (port : Z) (s : bpf_sock) (t : task) (m : maps) : outcome unit (bpf_sock_addr * maps) :=
  match f with
  | Flow4 a b c d _ _ _ _ => sock4_connect t (ctx4 a b c d port IPPROTO_TCP s) m
  | Flow6 x _ => sock6_connect t (ctx6 x port IPPROTO_TCP s) m
  end.
Definition fl_established (ck : Z) (f : tcp_flow) (cport : Z) (ctx : bpf_sock_addr) : bpf_sock_ops :=
  match f with
  | Flow4 _ _ _ _ ca cb cc cd => established ck ca cb cc cd cport ctx
  | Flow6 _ y => established6 ck y cport ctx
  end.
(** The addresses of the accepted connection: the loopback address of the family and
    the client. *)
Definition fl_accepted (f : tcp_flow) (l r : ip) : Prop :=
  match f with
  | Flow4 _ _ _ _ ca cb cc cd => Net.To4 l = Some loopback4 ∧ Net.To4 r = Some [ca; cb; cc; cd]
  | Flow6 x y => length x = 16%nat ∧ length y = 16%nat ∧ l = Net.IPv6loopback ∧ Net.To16 r = Some y
  end.

(** What the hook saves for a flow, and that the keys agree. *)
Lemma fl_saves pp bm up upp m t f port s l r cport :
  configured pp bm false up upp m → 0 ≤ bm < 2 ^ 32 → 0 ≤ pp < 65536 → 0 ≤ port < 65536 → 0 ≤ cport < 65536 →
  fl_accepted f l r → fl_bypass bm f port s = false →
  ∃ ctx' d, fl_connect f port s t m = Ok (ctx', set_cookies (map_update max_entries (cookie t) d) m) ∧
    tcp_4tuple_key_mem (sockops_key (fl_established (cookie t) f cport ctx')) = tcp_key l r pp cport ∧
    ToAddr (decode (original_dst_mem d)) = (fl_dst f, port) ∧
    Pid (decode (original_dst_mem d)) = wrap32 (Z.shiftr (pid_tgid t) 32) ∧
    ProcessName (decode (original_dst_mem d)) = of_bytes (until_nul (comm t)).
Proof.
  intros Hm Hbm Hpp Hp Hcp Hacc Hby. destruct f as [a b c d ca cb cc cd|x y]; cbn in Hacc, Hby.
  - destruct Hacc as [Hl Hr]. do 2 eexists. cbn [fl_connect fl_established fl_dst].
    split; [rewrite (connect4_saves pp bm up upp) by done; reflexivity|].
    split; [by apply key_agrees|]. by apply decode_dst4.
  - destruct Hacc as (Hx & Hy & -> & Hr). do 2 eexists. cbn [fl_connect fl_established fl_dst].
    split; [rewrite (connect6_saves pp bm up upp) by done; reflexivity|].
    split; [by apply key_agrees6|]. by apply decode_dst6.
Qed.

(** C6. A redirected TCP connection, over IPv4 or IPv6, is mapped back to where it was
    going: from the connect hook, through the sockops program, to the look-up of the
    daemon on the accepted connection, with any operations of other sockets in between,
    the daemon gets the address and port the client asked for, the process that asked
    is recorded, and the entry is consumed.  The daemon is the local one, the maps are
    as Load configures them, and they have room: tcp_cookie_map when the client
    connects and tcp_orig_dst when the connection is established hold fewer than 65536
    entries (entries of connections that are never established are not removed). *)
Theorem tcp_redirect_roundtrip pp bm up upp m t f port s cport l r ops1 ops2 now now' pc :
  configured pp bm false up upp m → 0 ≤ bm < 2 ^ 32 → 0 ≤ pp < 65536 →
  0 ≤ port < 65536 → 0 ≤ cport < 65536 →
  fl_bypass bm f port s = false → fl_accepted f l r →
  Z.of_nat (size (tcp_cookie_map m)) < max_entries →
  let key := tcp_key l r pp cport in
  ∃ ctx' m1, fl_connect f port s t m = Ok (ctx', m1) ∧
    (Forall (foreign (cookie t) key) ops1 → Forall (foreign (cookie t) key) ops2 →
     let m2 := foldl mstep m1 ops1 in
     Z.of_nat (size (tcp_orig_dst m2)) < max_entries →
     let m3 := vproxy_sockops (fl_established (cookie t) f cport ctx') m2 in
     let m4 := foldl mstep m3 ops2 in
     let pid := wrap32 (Z.shiftr (pid_tgid t) 32) in
     LookupTCPOrigDst (TCPAddr l pp) (TCPAddr r cport) now now' m4 pc =
       (Ok (fl_dst f, port), set_tcp (delete key) m4,
        if 0 <? pid then ProcCache.RecordProcessMetadata pc now now' cport pid (of_bytes (until_nul (comm t)))
        else pc) ∧
     tcp_cookie_map m4 !! cookie t = None).
Proof.
  intros Hm Hbm Hpp Hp Hcp Hby Hacc Hroom key.
  destruct (fl_saves pp bm up upp m t f port s l r cport) as (ctx' & d & Hc & Hk & D1 & D2 & D3); [done..|].
  exists ctx'. eexists. split; [exact Hc|]. intros Hf1 Hf2 m2 Hroom2 m3 m4 pid.
  assert (tcp_cookie_map m2 !! cookie t = Some d) as K1.
  { unfold m2. rewrite (proj1 (msteps_foreign (cookie t) key ops1 _ Hf1)). by apply map_update_here. }
  assert (tcp_orig_dst m3 !! key = Some (original_dst_mem d) ∧ tcp_cookie_map m3 !! cookie t = None) as [K3 K3'].
  { unfold m3, vproxy_sockops.
    assert (op (fl_established (cookie t) f cport ctx') = BPF_SOCK_OPS_ACTIVE_ESTABLISHED_CB) as -> by by destruct f.
    assert (so_cookie (fl_established (cookie t) f cport ctx') = cookie t) as -> by by destruct f.
    rewrite Z.eqb_refl, K1, Hk. cbn. split; [|apply lookup_delete_eq]. by apply map_update_here. }
  destruct (msteps_foreign (cookie t) key ops2 m3 Hf2) as [K4' K4]. fold m4 in K4, K4'.
  split; [|congruence]. unfold LookupTCPOrigDst. fold key. rewrite K4, K3.
  unfold record_process. rewrite D1, D2, D3. unfold wrap16. by rewrite Z.mod_small by lia.
Qed.

(** A client going to 2001:db8::1, port 443, while another socket connects and is
    looked up. *)
Definition ex_task (ck : Z) : task := mkTask (Z.shiftl 4711 32) (bytes [99; 117; 114; 108; 0; 0]) ck.
Definition ex_maps : maps := mkMaps ∅ ∅ ∅ default_cidr (written 8118 255 false false None 0 ∅).
Definition ex_client : list byte := bytes [10; 0; 0; 2].
Definition ex_other : list mop :=
  [OConnect4 (ex_task 8) (ctx4 (mk8 1) (mk8 1) (mk8 1) (mk8 1) 443 IPPROTO_TCP (mkSock 0 0));
   OLookupTCP (TCPAddr loopback4 8118) (TCPAddr ex_client 40001)].
Definition ex_flow : tcp_flow :=
  Flow6 (bytes [32; 1; 13; 184; 0; 0; 0; 0; 0; 0; 0; 0; 0; 0; 0; 1]) Net.IPv6loopback.

Lemma ex_configured : configured 8118 255 false None 0 ex_maps.
Proof. split; [done|]. by exists false, ∅. Qed.

Lemma tcp_redirect_roundtrip_witness :
  let key := tcp_key Net.IPv6loopback Net.IPv6loopback 8118 40000 in
  Forall (foreign 7 key) ex_other ∧
  ∃ ctx' m1, fl_connect ex_flow 443 (mkSock 0 0) (ex_task 7) ex_maps = Ok (ctx', m1) ∧
    let m3 := vproxy_sockops (fl_established 7 ex_flow 40000 ctx') (foldl mstep m1 ex_other) in
    (LookupTCPOrigDst (TCPAddr Net.IPv6loopback 8118) (TCPAddr Net.IPv6loopback 40000) 1 2 (foldl mstep m3 ex_other)
       ProcCache.globalProcCache).1.1 = Ok (fl_dst ex_flow, 443).
Proof.
  intros key.
  assert (Forall (foreign 7 key) ex_other) as Hf.
  { repeat constructor; [done|]. cbn [foreign]. intros H. vm_compute in H. discriminate. }
  split; [done|].
  destruct (tcp_redirect_roundtrip 8118 255 None 0 ex_maps (ex_task 7) ex_flow 443 (mkSock 0 0) 40000
    Net.IPv6loopback Net.IPv6loopback ex_other ex_other 1 2 ProcCache.globalProcCache ex_configured)
    as (ctx' & m1 & Hc & H);
    [lia..|vm_compute; reflexivity|by split_and!|vm_compute; reflexivity|].
  exists ctx', m1. split; [exact Hc|]. cbv zeta in H |- *.
  destruct (H Hf Hf) as [H1 _].
  - assert (hook_maps ex_maps (Ok (ctx', m1)) = m1) as Hm1 by done. rewrite <- Hc in Hm1.
    rewrite <- Hm1. vm_compute. reflexivity.
  - cbn [cookie ex_task] in H1. rewrite H1. reflexivity.
Defined.

(** ** Datagrams of connected sockets *)

(** A connected UDP socket loses its datagrams after the first: its
    destination is saved once, when it connects, and the look-up for the first
    datagram consumes it; every later one is a miss, and with only the redirected
    address to fall back on the datagram is dropped. *)
Theorem connected_udp_second_lost pp bm up upp m t a b c d port s x now now' pc pc' ph :
  configured pp bm false up upp m → 0 ≤ bm < 2 ^ 32 → 0 ≤ pp < 65536 → 0 ≤ port < 65536 →
  bypass4 bm [a; b; c; d] port s = false → is_Some (Net.To4 x) →
  Z.of_nat (size (udp_orig_dst m)) < max_entries → Dial.TransPort ph = pp →
  ∃ ctx' m1 m2 pc1, sock4_connect t (ctx4 a b c d port IPPROTO_UDP s) m = Ok (ctx', m1) ∧
    LookupUDPOrigDst x (src_port s) now now' m1 pc = (Ok ([a; b; c; d], port), m2, pc1) ∧
    (LookupUDPOrigDst x (src_port s) now now' m2 pc').1.1 = Err "udp_orig_dst lookup" ∧
    UdpProxy.isSelfProxyTarget ph
      (UdpProxy.resolveUDPTarget true (Some (UdpProxy.mkAddr loopback4 pp)) None true) = true.
Proof.
  intros Hm Hbm Hpp Hp Hby [x4 Hx] Hroom Hph. set (ctx := ctx4 a b c d port IPPROTO_UDP s).
  do 4 eexists. split; [unfold ctx; rewrite (connect4_saves pp bm up upp) by done; reflexivity|].
  assert (udp_key x (src_port s) = udp_orig_key_mem (mkUdpKey (wrap16 (src_port s)) AF_INET)) as Hk.
  { unfold udp_key, udp_orig_key_mem. by rewrite Hx. }
  unfold LookupUDPOrigDst. rewrite Hk. cbn [udp_orig_dst set_udp].
  rewrite map_update_here by done.
  destruct (decode_dst4 t a b c d port IPPROTO_UDP s Hp) as (D1 & _ & _). rewrite D1.
  split; [reflexivity|]. cbn [udp_orig_dst set_udp]. rewrite lookup_delete_eq. split; [done|].
  cbn. rewrite Hph, Z.eqb_refl. done.
Qed.

Lemma connected_udp_second_lost_witness :
  ∃ ctx' m1 m2 pc1,
    sock4_connect (ex_task 7) (ctx4 (mk8 1) (mk8 1) (mk8 1) (mk8 1) 443 IPPROTO_UDP (mkSock 0 5353)) ex_maps
      = Ok (ctx', m1) ∧
    LookupUDPOrigDst ex_client 5353 1 2 m1 ProcCache.globalProcCache = (Ok (bytes [1; 1; 1; 1], 443), m2, pc1) ∧
    (LookupUDPOrigDst ex_client 5353 1 2 m2 ProcCache.globalProcCache).1.1 = Err "udp_orig_dst lookup".
Proof.
  destruct (connected_udp_second_lost 8118 255 None 0 ex_maps (ex_task 7) (mk8 1) (mk8 1) (mk8 1) (mk8 1)
    443 (mkSock 0 5353) ex_client 1 2 ProcCache.globalProcCache ProcCache.globalProcCache
    (Dial.mkPH None 0 8118) ex_configured) as (ctx' & m1 & m2 & pc1 & H1 & H2 & H3 & _);
    [lia..|vm_compute; reflexivity|by eexists|vm_compute; reflexivity|reflexivity|].
  exists ctx', m1, m2, pc1. split; [exact H1|]. split; [exact H2|exact H3].
Defined.

Lemma redirect4_decision_witness :
  bypass4 255 (bytes [198; 18; 0; 9]) 443 (mkSock 0 0) = false ∧
  ∃ ctx' m1 m2,
    sock4_connect (ex_task 7) (ctx4 (mk8 198) (mk8 18) (mk8 0) (mk8 9) 443 IPPROTO_TCP (mkSock 0 0)) ex_maps = Ok (ctx', m1) ∧
    mem32 (user_ip4 ctx') = bytes [127; 0; 0; 1] ∧
    sock4_connect (ex_task 7) (ctx4 (mk8 192) (mk8 168) (mk8 1) (mk8 1) 443 IPPROTO_TCP (mkSock 0 0)) ex_maps
      = Ok (ctx4 (mk8 192) (mk8 168) (mk8 1) (mk8 1) 443 IPPROTO_TCP (mkSock 0 0), m2) ∧ m2 = ex_maps.
Proof.
  split; [vm_compute; reflexivity|].
  destruct (redirect4_decision 8118 255 false None 0 ex_maps (mk8 198) (mk8 18) (mk8 0) (mk8 9) 443 IPPROTO_TCP
    (mkSock 0 0) (ex_task 7) ex_configured) as (ctx' & m1 & m1' & H1 & _ & _ & _ & _ & _ & _ & Hb); [lia..|].
  destruct (redirect4_decision 8118 255 false None 0 ex_maps (mk8 192) (mk8 168) (mk8 1) (mk8 1) 443 IPPROTO_TCP
    (mkSock 0 0) (ex_task 7) ex_configured) as (ctx2 & m2 & m3 & H2 & _ & _ & _ & _ & _ & _ & Hc); [lia..|].
  replace (bypass4 255 [mk8 198; mk8 18; mk8 0; mk8 9] 443 (mkSock 0 0)) with false in Hb by (vm_compute; reflexivity).
  replace (bypass4 255 [mk8 192; mk8 168; mk8 1; mk8 1] 443 (mkSock 0 0)) with true in Hc by (vm_compute; reflexivity).
  destruct Hc as (-> & Hm & _). exists ctx', m1, m2. split; [exact H1|]. split; [exact (proj2 Hb)|]. split; [exact H2|exact Hm].
Defined.

(** In remote mode the hooks send a connection to the upstream address with its
    bytes reversed: the configuration holds the big-endian value of the address,
    the context wants its bytes in memory order. *)
Lemma remote_upstream_reversed pp bm x w0 w1 w2 w3 upp m t a b c d port proto s :
  configured pp bm true (Some x) upp m → Net.To4 x = Some [w0; w1; w2; w3] →
  0 ≤ bm < 2 ^ 32 → 0 ≤ pp < 65536 → 0 ≤ upp < 65536 → 0 ≤ port < 65536 →
  bypass4 bm [a; b; c; d] port s = false →
  ∃ ctx', sock4_connect t (ctx4 a b c d port proto s) m = Ok (ctx', m) ∧
    mem32 (user_ip4 ctx') = [w3; w2; w1; w0].
Proof.
  intros Hm Hx Hbm Hpp Hup Hp Hby.
  destruct (hooks4_run pp bm true (Some x) upp m a b c d port proto s t)
    as (m1 & m2 & H1 & _ & _ & _ & _ & _ & Hm1); [done..|].
  destruct Hm1 as [-> _]; [by rewrite orb_true_r|]. rewrite Hby in H1.
  eexists. split; [exact H1|]. exact (upstream_bytes x _ Hx).
Qed.

(** ** The list of networks reads back *)

(** The keys parseCIDRKey gives: at most 32 bits, the host part zero. *)
Definition canonical (k : lpm_cidr_key) : Prop :=
  ∃ a, 0 ≤ a < 2 ^ 32 ∧ 0 ≤ k.1 ≤ 32 ∧ k.2 = put32 a ∧ a mod 2 ^ (32 - k.1) = 0.

Lemma mask_ones_CIDRMask n : 0 ≤ n ≤ 32 → Net.mask_ones (Net.CIDRMask n 4) = n.
Proof.
  intros Hn. assert (∃ i : nat, (i ≤ 32)%nat ∧ n = Z.of_nat i) as (i & Hi & ->)
    by (exists (Z.to_nat n); lia).
  clear Hn. do 33 (destruct i as [|i]; [vm_compute; reflexivity|]). lia.
Qed.

Lemma ParseAddr_ipv4_string x : length x = 4%nat → Net.ParseAddr (Net.ipv4_string x) = Some x.
Proof.
  intros Hx. pose proof (Net.ParseIP_ipv4_string x Hx) as H. unfold Net.ParseIP in H.
  destruct (Net.ParseAddr (Net.ipv4_string x)) as [y|] eqn:E; [|done]. cbn in H. injection H as H.
  f_equal. pose proof (Net.ParseAddr_length _ _ E) as Hl. unfold Net.As16 in H. rewrite Hx in H.
  cbn [Nat.eqb] in H. destruct (Nat.eqb_spec (length y) 4) as [|Hy].
  - by apply app_inv_head in H.
  - exfalso. subst y. clear -E Hx. destruct x as [|x0 [|x1 [|x2 [|x3 [|]]]]]; try done.
    rewrite Net.ipv4_string_4 in E. unfold Net.ParseAddr in E.
    rewrite Net.ParseAddr_aux_dot in E by apply Net.Itoa_octet_nocolon.
    apply Net.parseIPv4_length in E. done.
Qed.

Lemma dtoi_Itoa n : 0 ≤ n ≤ 32 → Net.dtoi (Strconv.Itoa n) = Some n.
Proof.
  intros Hn. assert (∃ i : nat, (i ≤ 32)%nat ∧ n = Z.of_nat i) as (i & Hi & ->)
    by (exists (Z.to_nat n); lia).
  clear Hn. do 33 (destruct i as [|i]; [vm_compute; reflexivity|]). lia.
Qed.

(** Masking changes nothing of an address whose host part is zero. *)
Lemma and_bytes_canonical a n :
  0 ≤ a < 2 ^ 32 → 0 ≤ n ≤ 32 → a mod 2 ^ (32 - n) = 0 →
  Net.and_bytes (put32 a) (Net.CIDRMask n 4) = put32 a.
Proof.
  intros Ha Hn Hm. destruct (Net.CIDRMask_be32 n Hn) as (m0 & m1 & m2 & m3 & -> & Hb).
  unfold put32 at 1. cbn [Net.and_bytes].
  pose proof (Net.be32_land (mk8 (Z.shiftr a 24)) (mk8 (Z.shiftr a 16)) (mk8 (Z.shiftr a 8)) (mk8 a)
    m0 m1 m2 m3) as E.
  rewrite (be32_put32 a _ _ _ _ eq_refl), wrap32_small, Hb, Net.land_mask32 in E by done.
  rewrite <- (put32_be32 (mk8 _)), E. f_equal.
  pose proof (Z.div_mod a (2 ^ (32 - n)) ltac:(apply Z.pow_nonzero; lia)). lia.
Qed.

Lemma ipv4_string_no_slash x : "/"%char ∉ to_bytes (Net.ipv4_string x).
Proof.
  unfold Net.ipv4_string. induction x as [|b [|b' x] IH]; [apply not_elem_of_nil| |].
  - intros H. by apply Net.Itoa_octet_nocolon in H.
  - change (Strings.Join ((λ b, Strconv.Itoa (u8 b)) <$> b :: b' :: x) ".")
      with (Strconv.Itoa (u8 b) +:+ "." +:+ Strings.Join ((λ b, Strconv.Itoa (u8 b)) <$> b' :: x) ".").
    rewrite !to_bytes_app, !elem_of_app. intros [H|[H|H]]; [by apply Net.Itoa_octet_nocolon in H| |done].
    by apply list_elem_of_singleton in H.
Qed.

(** What List prints, Add and Remove read back as the same key. *)
Lemma parseCIDRKey_List k : canonical k → parseCIDRKey (key_string k) = Ok k.
Proof.
  destruct k as [n x]. intros (a & Ha & Hn & Hx & Hm). cbn [fst snd] in *. subst x.
  assert (Net.To4 (put32 a) = Some (put32 a)) as H4 by (by apply Net.To4_4).
  unfold parseCIDRKey, key_string, Net.ParseCIDR. cbn [fst snd].
  unfold Net.String_. rewrite H4.
  change (Net.ipv4_string (put32 a) +:+ "/" +:+ Strconv.Itoa n)
    with (Net.ipv4_string (put32 a) +:+ String "/" (Strconv.Itoa n)).
  rewrite Strings.Cut_app by apply ipv4_string_no_slash.
  rewrite ParseAddr_ipv4_string, dtoi_Itoa by done.
  change (8 * Z.of_nat (length (put32 a))) with 32. change (length (put32 a)) with 4%nat.
  rewrite (proj2 (Z.ltb_ge 32 n)) by lia. cbn [Net.net_ip Net.net_mask].
  rewrite and_bytes_canonical, H4, mask_ones_CIDRMask by done. by rewrite wrap32_small by lia.
Qed.

End Ebpf.
