(* ===== verification/Iptables.v ===== *)
(** * Redirection by packet filter rules: src/proxy/iptables/iptables_linux.go

    SetupRules and CleanupRules are lists of shell commands.  A command is a
    value of [cmd]; [cmd_string] is the text the source passes to the shell, and
    [exec] its effect on the rule sets and the policy routes of the kernel.
    Beyond what the commands themselves refuse, any command may fail ([Shell]). *)

From S2P Require Import Prelude GoStrings GoNet Bpf Ebpf.

Module Iptables.

(** ** Rules *)

Inductive target :=
| RETURN | REDIRECT (ports : string) | DNAT (dest : string) | JUMP (chain : string)
| MARK (m : Z) | TPROXY (port ip : string).
Record rule := mkRule {
  r_proto : option string; r_mark : option Z; r_dst : option string; r_cgroup : bool; r_target : target }.

#[global] Instance target_eq_dec : EqDecision target.
Proof. solve_decision. Defined.
#[global] Instance rule_eq_dec : EqDecision rule.
Proof. solve_decision. Defined.

Definition bypassMark : Z := 255.

(** ** Commands *)

(** The key of a chain: iptables or ip6tables, table, name. *)
Abbreviation key := (string * string * string)%type.

Inductive action :=
| NewChain (k : key) | Flush (k : key) | Append (k : key) (r : rule) | Delete (k : key) (r : rule)
| DelChain (k : key)
| PolicyAdd (fam what : string) | PolicyDel (fam what : string).
(** [c_soft]: the command ends in [2>/dev/null || true]. *)
Record cmd := mkCmd { c_act : action; c_soft : bool }.

#[global] Instance action_eq_dec : EqDecision action.
Proof. solve_decision. Defined.
#[global] Instance cmd_eq_dec : EqDecision cmd.
Proof. solve_decision. Defined.

Definition quote : string := String "034" EmptyString.

Definition rule_string (r : rule) : string :=
  (match r_proto r with Some p => "-p " +:+ p +:+ " " | None => "" end) +:+
  (match r_mark r with
   | Some m => "-m mark --mark " +:+ (if m =? bypassMark then "0x" +:+ Net.hex16 m else Strconv.Itoa m) +:+ " "
   | None => "" end) +:+
  (match r_dst r with Some d => "-d " +:+ d +:+ " " | None => "" end) +:+
  (if r_cgroup r then "-m cgroup --path " +:+ quote +:+ "vproxy" +:+ quote +:+ " " else "") +:+
  "-j " +:+
  match r_target r with
  | RETURN => "RETURN"
  | REDIRECT p => "REDIRECT --to-ports " +:+ p
  | DNAT d => "DNAT --to-destination " +:+ d
  | JUMP c => c
  | MARK m => "MARK --set-mark " +:+ Strconv.Itoa m
  | TPROXY p x => "TPROXY --on-port " +:+ p +:+ " --on-ip " +:+ x +:+ " --tproxy-mark 1/1"
  end.

Definition action_string (a : action) : string :=
  let at_ (k : key) (op : string) := k.1.1 +:+ " -t " +:+ k.1.2 +:+ " " +:+ op +:+ " " +:+ k.2 in
  match a with
  | NewChain k => at_ k "-N"
  | Flush k => at_ k "-F"
  | Append k r => at_ k "-A" +:+ " " +:+ rule_string r
  | Delete k r => at_ k "-D" +:+ " " +:+ rule_string r
  | DelChain k => at_ k "-X"
  | PolicyAdd f w => f +:+ " " +:+ (if String.eqb w "rule" then "rule add fwmark 1 lookup 100"
                                    else "route add local default dev lo table 100")
  | PolicyDel f w => f +:+ " " +:+ (if String.eqb w "rule" then "rule del fwmark 1 lookup 100"
                                    else "route del local default dev lo table 100")
  end.
Definition cmd_string (c : cmd) : string :=
  action_string (c_act c) +:+ (if c_soft c then " 2>/dev/null || true" else "").

(** ** The lists of commands *)

Definition ipt : string := "iptables".
Definition ip6t : string := "ip6tables".
Definition REDIR (f : string) : key := (f, "nat", "VPROXY_REDIRECT").
Definition VMARK (f : string) : key := (f, "mangle", "VPROXY_MARK").
Definition VTPROXY (f : string) : key := (f, "mangle", "VPROXY_TPROXY").

Definition hard (a : action) : cmd := mkCmd a false.
Definition soft (a : action) : cmd := mkCmd a true.

Definition from_mark (m : Z) (t : target) : rule := mkRule None (Some m) None false t.
Definition to_net (d : string) : rule := mkRule None None (Some d) false RETURN.
Definition on_proto (p : string) (t : target) : rule := mkRule (Some p) None None false t.
Definition hook_rule (p chain : string) : rule := mkRule (Some p) None None true (JUMP chain).
Definition tproxy_hook : rule := mkRule (Some "udp") (Some 1) None false (JUMP "VPROXY_TPROXY").

Definition nets4 : list string :=
  ["127.0.0.0/8"; "10.0.0.0/8"; "172.16.0.0/12"; "192.168.0.0/16"; "169.254.0.0/16"].
Definition nets6 : list string := ["::1/128"; "fc00::/7"; "fe80::/10"].

(** Create a chain in both families, empty it and fill in the bypasses. *)
Definition make_chain (k : string → key) : list cmd :=
  [soft (NewChain (k ipt)); hard (Flush (k ipt)); soft (NewChain (k ip6t)); hard (Flush (k ip6t))].
Definition bypasses (k : string → key) : list cmd :=
  [hard (Append (k ipt) (from_mark bypassMark RETURN)); hard (Append (k ip6t) (from_mark bypassMark RETURN))] ++
  ((λ d, hard (Append (k ipt) (to_net d))) <$> nets4) ++
  ((λ d, hard (Append (k ip6t) (to_net d))) <$> nets6).

(** Replace a hook of a built-in chain, in both families. *)
Definition rehook (table chain : string) (r : rule) : list cmd :=
  [soft (Delete (ipt, table, chain) r); hard (Append (ipt, table, chain) r);
   soft (Delete (ip6t, table, chain) r); hard (Append (ip6t, table, chain) r)].

Definition remote_cmds (target : string) : list cmd :=
  let targetPort := match Strings.LastIndexByte target ":" with
                    | Some i => sdrop (S i) target | None => target end in
  [hard (Append (REDIR ipt) (on_proto "tcp" (DNAT target)));
   hard (Append (REDIR ip6t) (on_proto "tcp" (REDIRECT targetPort)));
   hard (Append (REDIR ipt) (on_proto "udp" (DNAT target)));
   hard (Append (REDIR ip6t) (on_proto "udp" (REDIRECT targetPort)))] ++
  rehook "nat" "OUTPUT" (hook_rule "tcp" "VPROXY_REDIRECT") ++
  rehook "nat" "OUTPUT" (hook_rule "udp" "VPROXY_REDIRECT").

Definition local_cmds (target : string) : list cmd :=
  [hard (Append (REDIR ipt) (on_proto "tcp" (REDIRECT target)));
   hard (Append (REDIR ip6t) (on_proto "tcp" (REDIRECT target)))] ++
  rehook "nat" "OUTPUT" (hook_rule "tcp" "VPROXY_REDIRECT") ++
  [soft (PolicyAdd "ip" "rule"); soft (PolicyAdd "ip" "route");
   soft (PolicyAdd "ip -6" "rule"); soft (PolicyAdd "ip -6" "route")] ++
  make_chain VMARK ++ bypasses VMARK ++
  [hard (Append (VMARK ipt) (mkRule None None None false (MARK 1)));
   hard (Append (VMARK ip6t) (mkRule None None None false (MARK 1)))] ++
  rehook "mangle" "OUTPUT" (hook_rule "udp" "VPROXY_MARK") ++
  make_chain VTPROXY ++
  [hard (Append (VTPROXY ipt) (mkRule (Some "udp") (Some 1) None false (TPROXY target "127.0.0.1")));
   hard (Append (VTPROXY ip6t) (mkRule (Some "udp") (Some 1) None false (TPROXY target "::1")))] ++
  rehook "mangle" "PREROUTING" tproxy_hook.

Definition setup_cmds (target : string) (isRemoteTProxy : bool) : list cmd :=
  make_chain REDIR ++ bypasses REDIR ++
  (if isRemoteTProxy then remote_cmds target else local_cmds target).

Definition drop_chain (k : key) : list cmd := [soft (Flush k); soft (DelChain k)].
Definition cleanup_cmds : list cmd :=
  [soft (Delete (ipt, "nat", "OUTPUT") (hook_rule "tcp" "VPROXY_REDIRECT"));
   soft (Delete (ip6t, "nat", "OUTPUT") (hook_rule "tcp" "VPROXY_REDIRECT"));
   soft (Delete (ipt, "nat", "OUTPUT") (hook_rule "udp" "VPROXY_REDIRECT"));
   soft (Delete (ip6t, "nat", "OUTPUT") (hook_rule "udp" "VPROXY_REDIRECT"))] ++
  drop_chain (REDIR ipt) ++ drop_chain (REDIR ip6t) ++
  [soft (Delete (ipt, "mangle", "OUTPUT") (hook_rule "udp" "VPROXY_MARK"));
   soft (Delete (ipt, "mangle", "PREROUTING") tproxy_hook);
   soft (Delete (ip6t, "mangle", "OUTPUT") (hook_rule "udp" "VPROXY_MARK"));
   soft (Delete (ip6t, "mangle", "PREROUTING") tproxy_hook)] ++
  drop_chain (VMARK ipt) ++ drop_chain (VMARK ip6t) ++
  drop_chain (VTPROXY ipt) ++ drop_chain (VTPROXY ip6t) ++
  [soft (PolicyDel "ip" "rule"); soft (PolicyDel "ip" "route");
   soft (PolicyDel "ip -6" "rule"); soft (PolicyDel "ip -6" "route")].

(** ** The effect of a command *)

Record fw := mkFw { chains : gmap key (list rule); policy : gset (string * string) }.

(** Whether a rule of the same family and table jumps to the chain. *)
Definition jumps_to (c : string) (r : rule) : bool :=
  match r_target r with JUMP c' => String.eqb c c' | _ => false end.
Definition referenced (s : fw) (k : key) : bool :=
  existsb (λ kv, String.eqb kv.1.1.1 k.1.1 && String.eqb kv.1.1.2 k.1.2 && existsb (jumps_to k.2) kv.2)
    (map_to_list (chains s)).

(** Remove the first rule equal to [r]. *)
Fixpoint remove_first (r : rule) (l : list rule) : option (list rule) :=
  match l with
  | [] => None
  | x :: l => if bool_decide (x = r) then Some l else cons x <$> remove_first r l
  end.

Definition set_chain (s : fw) (k : key) (l : list rule) : fw := mkFw (<[k := l]> (chains s)) (policy s).

(** [None]: the command fails and changes nothing. *)
Definition exec (a : action) (s : fw) : option fw :=
  match a with
  | NewChain k => match chains s !! k with Some _ => None | None => Some (set_chain s k []) end
  | Flush k => match chains s !! k with Some _ => Some (set_chain s k []) | None => None end
  | Append k r => match chains s !! k with
      | Some l => match r_target r with
          | JUMP c => match chains s !! (k.1, c) with Some _ => Some (set_chain s k (l ++ [r])) | None => None end
          | _ => Some (set_chain s k (l ++ [r])) end
      | None => None end
  | Delete k r => match chains s !! k with
      | Some l => match remove_first r l with Some l' => Some (set_chain s k l') | None => None end
      | None => None end
  | DelChain k => match chains s !! k with
      | Some [] => if referenced s k then None else Some (mkFw (delete k (chains s)) (policy s))
      | _ => None end
  | PolicyAdd f w => if bool_decide ((f, w) ∈ policy s) then None else Some (mkFw (chains s) ({[(f, w)]} ∪ policy s))
  | PolicyDel f w => if bool_decide ((f, w) ∈ policy s) then Some (mkFw (chains s) (policy s ∖ {[(f, w)]})) else None
  end.

(** Whether a command fails for reasons outside the rule sets, given what ran. *)
Class Shell := shell_fails : list cmd → cmd → bool.

Section Run.
Context {Sh : Shell}.

(** One shell command: its status and the state. *)
Definition run1 (h : list cmd) (c : cmd) (s : fw) : bool * fw :=
  match (if shell_fails h c then None else exec (c_act c) s) with
  | Some s' => (true, s')
  | None => (c_soft c, s)
  end.

(** The loop of SetupRules: stop at the first command that fails. *)
Fixpoint run_until (h cs : list cmd) (s : fw) : outcome string unit * fw :=
  match cs with
  | [] => (Ok tt, s)
  | c :: cs =>
      let '(ok, s') := run1 h c s in
      if ok then run_until (c :: h) cs s' else (Err ("failed to run iptables command " +:+ cmd_string c), s')
  end.
(** The loop of CleanupRules: run all of them. *)
Fixpoint run_all (h cs : list cmd) (s : fw) : fw :=
  match cs with
  | [] => s
  | c :: cs => run_all (c :: h) cs (run1 h c s).2
  end.

Definition SetupRules (target : string) (isRemoteTProxy : bool) (s : fw) : outcome string unit * fw :=
  run_until [] (setup_cmds target isRemoteTProxy) s.
Definition CleanupRules (s : fw) : fw := run_all [] cleanup_cmds s.

End Run.

Example setup_strings :
  take 6 (cmd_string <$> setup_cmds "8118" false) =
  ["iptables -t nat -N VPROXY_REDIRECT 2>/dev/null || true";
   "iptables -t nat -F VPROXY_REDIRECT";
   "ip6tables -t nat -N VPROXY_REDIRECT 2>/dev/null || true";
   "ip6tables -t nat -F VPROXY_REDIRECT";
   "iptables -t nat -A VPROXY_REDIRECT -m mark --mark 0xff -j RETURN";
   "ip6tables -t nat -A VPROXY_REDIRECT -m mark --mark 0xff -j RETURN"] ∧
  drop 48 (cmd_string <$> setup_cmds "8118" false) =
  ["iptables -t mangle -A VPROXY_TPROXY -p udp -m mark --mark 1 -j TPROXY --on-port 8118 --on-ip 127.0.0.1 --tproxy-mark 1/1";
   "ip6tables -t mangle -A VPROXY_TPROXY -p udp -m mark --mark 1 -j TPROXY --on-port 8118 --on-ip ::1 --tproxy-mark 1/1";
   "iptables -t mangle -D PREROUTING -p udp -m mark --mark 1 -j VPROXY_TPROXY 2>/dev/null || true";
   "iptables -t mangle -A PREROUTING -p udp -m mark --mark 1 -j VPROXY_TPROXY";
   "ip6tables -t mangle -D PREROUTING -p udp -m mark --mark 1 -j VPROXY_TPROXY 2>/dev/null || true";
   "ip6tables -t mangle -A PREROUTING -p udp -m mark --mark 1 -j VPROXY_TPROXY"].
Proof. split; vm_compute; reflexivity. Qed.

(** ** What belongs to vproxy *)

Definition our_keys : list key :=
  [REDIR ipt; REDIR ip6t; VMARK ipt; VMARK ip6t; VTPROXY ipt; VTPROXY ip6t].
Definition our_chain (c : string) : bool :=
  String.eqb c "VPROXY_REDIRECT" || String.eqb c "VPROXY_MARK" || String.eqb c "VPROXY_TPROXY".
(** A rule that jumps to one of our chains. *)
Definition our_rule (r : rule) : bool :=
  match r_target r with JUMP c => our_chain c | _ => false end.
Definition hooks : list (key * rule) :=
  f ← [ipt; ip6t];
  [((f, "nat", "OUTPUT"), hook_rule "tcp" "VPROXY_REDIRECT");
   ((f, "nat", "OUTPUT"), hook_rule "udp" "VPROXY_REDIRECT");
   ((f, "mangle", "OUTPUT"), hook_rule "udp" "VPROXY_MARK");
   ((f, "mangle", "PREROUTING"), tproxy_hook)].
Definition our_policy : list (string * string) :=
  [("ip", "rule"); ("ip", "route"); ("ip -6", "rule"); ("ip -6", "route")].

(** A system without anything of ours. *)
Definition clean (s : fw) : Prop :=
  (∀ k, our_chain k.2 = true → chains s !! k = None) ∧
  (∀ k l r, chains s !! k = Some l → r ∈ l → our_rule r = false) ∧
  (∀ p, p ∈ our_policy → p ∉ policy s).

(** [s] is [s0] with our chains, each of our hooks at most once, and our routes. *)
Definition dirty (s0 s : fw) : Prop :=
  (∀ k, our_chain k.2 = false →
     filter (λ r, our_rule r = false) <$> (chains s !! k) = chains s0 !! k) ∧
  (∀ k l, chains s !! k = Some l → NoDup (filter (λ r, our_rule r = true) l)) ∧
  (∀ k l r, chains s !! k = Some l → r ∈ l → our_rule r = true → (k, r) ∈ hooks) ∧
  (∀ k l, our_chain k.2 = true → chains s !! k = Some l → k ∈ our_keys) ∧
  (∀ p, p ∉ our_policy → p ∈ policy s ↔ p ∈ policy s0).

Lemma clean_dirty s0 : clean s0 → dirty s0 s0.
Proof.
  intros (C1 & C2 & C3). split_and!.
  - intros k Hk. destruct (chains s0 !! k) as [l|] eqn:El; [|done]. cbn. f_equal.
    apply filter_keep. intros r Hr. by eapply C2.
  - intros k l Hl. rewrite filter_none; [constructor|].
    intros r Hr Ho. by rewrite (C2 _ _ _ Hl Hr) in Ho.
  - intros k l r Hl Hr Ho. by rewrite (C2 _ _ _ Hl Hr) in Ho.
  - intros k l Hk Hl. by rewrite C1 in Hl.
  - done.
Qed.

(** ** One command *)

Definition allowed (a : action) : bool :=
  match a with
  | NewChain k | Flush k | DelChain k => bool_decide (k ∈ our_keys)
  | Append k r => (bool_decide (k ∈ our_keys) && negb (our_rule r)) || bool_decide ((k, r) ∈ hooks)
  | Delete k r => bool_decide ((k, r) ∈ hooks)
  | PolicyAdd f w | PolicyDel f w => bool_decide ((f, w) ∈ our_policy)
  end.

Lemma remove_first_spec r l :
  match remove_first r l with
  | Some l' => ∃ a b, l = a ++ r :: b ∧ l' = a ++ b ∧ r ∉ a
  | None => r ∉ l
  end.
Proof.
  induction l as [|x l IH]; cbn [remove_first]; [apply not_elem_of_nil|].
  case_bool_decide as Hx.
  - subst x. exists [], l. split_and!; [done..|apply not_elem_of_nil].
  - destruct (remove_first r l) as [l'|]; cbn.
    + destruct IH as (a & b & -> & -> & Ha). exists (x :: a), b. split_and!; [done..|].
      rewrite not_elem_of_cons. auto.
    + rewrite not_elem_of_cons. auto.
Qed.

Lemma our_keys_chain k : k ∈ our_keys → our_chain k.2 = true.
Proof. unfold our_keys. rewrite !elem_of_cons, elem_of_nil. intros H. naive_solver. Qed.

Lemma hooks_rule k r : (k, r) ∈ hooks → our_rule r = true ∧ our_chain k.2 = false.
Proof.
  unfold hooks, mbind, list_bind. cbn [app]. rewrite !elem_of_cons, elem_of_nil. naive_solver.
Qed.

(** Replacing the list of a chain that is not ours. *)
Lemma dirty_set s0 s k l l' :
  dirty s0 s → chains s !! k = Some l → our_chain k.2 = false →
  filter (λ r, our_rule r = false) l' = filter (λ r, our_rule r = false) l →
  NoDup (filter (λ r, our_rule r = true) l') →
  (∀ r, r ∈ l' → our_rule r = true → (k, r) ∈ hooks) →
  dirty s0 (set_chain s k l').
Proof.
  intros (D1 & D2 & D3 & D4 & D5) Hl Hk Hf Hn Hh. split_and!; cbn; [| | | |done].
  - intros k' Hk'. destruct (decide (k = k')) as [<-|Hne];
      [rewrite lookup_insert_eq|rewrite lookup_insert_ne by done; by apply D1].
    cbn. rewrite Hf. rewrite <- D1 by done. by rewrite Hl.
  - intros k' m. rewrite lookup_insert_Some. intros [[<- <-]|[_ ?]]; [done|by eapply D2].
  - intros k' m r. rewrite lookup_insert_Some. intros [[<- <-]|[_ ?]]; [apply Hh|by eapply D3].
  - intros k' m Hk'. rewrite lookup_insert_Some. intros [[<- <-]|[_ ?]]; [congruence|by eapply D4].
Qed.

(** Replacing or making a chain of ours, without jumps to our chains. *)
Lemma dirty_set_our s0 s k l' :
  dirty s0 s → k ∈ our_keys → (∀ r, r ∈ l' → our_rule r = false) → dirty s0 (set_chain s k l').
Proof.
  intros (D1 & D2 & D3 & D4 & D5) Hk Hr. pose proof (our_keys_chain _ Hk) as Hc.
  split_and!; cbn; [| | | |done].
  - intros k' Hk'. rewrite lookup_insert_ne by congruence. by apply D1.
  - intros k' m. rewrite lookup_insert_Some. intros [[<- <-]|[_ ?]]; [|by eapply D2].
    rewrite filter_none; [constructor|]. intros r Hin. rewrite (Hr r Hin). done.
  - intros k' m r. rewrite lookup_insert_Some. intros [[<- <-]|[_ ?]]; [|by eapply D3].
    intros Hin Ho. by rewrite (Hr r Hin) in Ho.
  - intros k' m Hk'. rewrite lookup_insert_Some. intros [[<- <-]|[_ ?]]; [done|by eapply D4].
Qed.

(** Our chains never jump to each other. *)
Lemma dirty_our_flat s0 s k l r :
  dirty s0 s → k ∈ our_keys → chains s !! k = Some l → r ∈ l → our_rule r = false.
Proof.
  intros (_ & _ & D3 & _) Hk Hl Hr. destruct (our_rule r) eqn:Ho; [|done].
  destruct (hooks_rule _ _ (D3 _ _ _ Hl Hr Ho)) as [_ Hc]. rewrite our_keys_chain in Hc by done. done.
Qed.

(** The chain does not contain the rule. *)
Definition absent (kr : key * rule) (s : fw) : Prop := ∀ l, chains s !! kr.1 = Some l → kr.2 ∉ l.

(** A deletion that runs leaves the hook absent. *)
Lemma delete_absent s0 s k r :
  dirty s0 s → (k, r) ∈ hooks → absent (k, r) (default s (exec (Delete k r) s)).
Proof.
  intros D Hkr. destruct (hooks_rule _ _ Hkr) as [Ho _]. cbn [exec].
  destruct (chains s !! k) as [l|] eqn:El; cbn; [|intros l'; cbn; congruence].
  pose proof (remove_first_spec r l) as Hr. destruct (remove_first r l) as [l'|]; cbn.
  - destruct Hr as (a & b & -> & -> & Ha). intros l'. cbn. rewrite lookup_insert_eq. intros [= <-].
    destruct D as (_ & D2 & _). specialize (D2 _ _ El).
    rewrite filter_app, filter_cons_True in D2 by done. apply NoDup_app in D2 as (_ & _ & D2).
    apply NoDup_cons in D2 as [D2 _]. rewrite elem_of_app. intros [?|Hb]; [done|].
    apply D2. apply list_elem_of_filter. done.
  - intros l'. cbn. rewrite El. by intros [= <-].
Qed.

Lemma dirty_append_hook s0 s k l r :
  dirty s0 s → (k, r) ∈ hooks → chains s !! k = Some l → r ∉ l → dirty s0 (set_chain s k (l ++ [r])).
Proof.
  intros D Hh El Hab. destruct (hooks_rule _ _ Hh) as [Ho Hc]. assert (H0 := D).
  destruct H0 as (D1 & D2 & D3 & D4 & D5). apply (dirty_set s0 s k l); [done..| | |].
  - rewrite filter_app, (filter_singleton_False _ r []) by (cbn beta; congruence). by rewrite app_nil_r.
  - rewrite filter_app, (filter_singleton_True _ r []) by done. apply NoDup_app. split_and!.
    + by eapply D2.
    + intros x [_ Hx]%list_elem_of_filter. rewrite list_elem_of_singleton. by intros ->.
    + apply NoDup_singleton.
  - intros r'. rewrite elem_of_app, list_elem_of_singleton. intros [?| ->]; [by eapply D3|done].
Qed.

Lemma dirty_delete s0 s k l r :
  dirty s0 s → (k, r) ∈ hooks → chains s !! k = Some l →
  dirty s0 (match remove_first r l with Some l' => set_chain s k l' | None => s end).
Proof.
  intros D Hh El. destruct (hooks_rule _ _ Hh) as [Ho Hc].
  pose proof (remove_first_spec r l) as Hr. destruct (remove_first r l) as [l'|]; [|done].
  destruct Hr as (a & b & -> & -> & Ha). assert (H0 := D).
  destruct H0 as (D1 & D2 & D3 & D4 & D5). apply (dirty_set s0 s k (a ++ r :: b)); [done..| | |].
  - rewrite !filter_app, filter_cons_False by (cbn beta; congruence). done.
  - specialize (D2 _ _ El). rewrite filter_app, filter_cons_True in D2 by done. rewrite filter_app.
    apply NoDup_app in D2 as (N1 & N2 & N3). apply NoDup_cons in N3 as [_ N3].
    apply NoDup_app. split_and!; [done| |done]. intros x Hx Hb. apply (N2 x Hx). by right.
  - intros r' Hr'. apply (D3 k _ r' El). rewrite !elem_of_app, elem_of_cons in *. naive_solver.
Qed.

Lemma dirty_policy s0 s P :
  dirty s0 s → (∀ p, p ∉ our_policy → p ∈ P ↔ p ∈ policy s) → dirty s0 (mkFw (chains s) P).
Proof.
  intros (D1 & D2 & D3 & D4 & D5) HP. split_and!; try done. intros p Hp. cbn. rewrite HP by done. by apply D5.
Qed.

Lemma dirty_drop s0 s k :
  dirty s0 s → k ∈ our_keys → dirty s0 (mkFw (delete k (chains s)) (policy s)).
Proof.
  intros (D1 & D2 & D3 & D4 & D5) Hk. pose proof (our_keys_chain _ Hk).
  split_and!; cbn; [| | | |done].
  - intros k' Hk'. rewrite lookup_delete_ne by congruence. by apply D1.
  - intros k' m [_ ?]%lookup_delete_Some. by eapply D2.
  - intros k' m r [_ ?]%lookup_delete_Some. by eapply D3.
  - intros k' m Hk' [_ ?]%lookup_delete_Some. by eapply D4.
Qed.

(** Every command of the lists keeps [dirty], if a hook is only added where it
    is absent. *)
Lemma exec_dirty s0 s a :
  dirty s0 s → allowed a = true →
  (∀ k r, a = Append k r → (k, r) ∈ hooks → absent (k, r) s) →
  dirty s0 (default s (exec a s)).
Proof.
  intros D Ha Hpre. destruct a as [k|k|k r|k r|k|f w|f w]; cbn [allowed exec] in *.
  - boolify. case_match; [done|]. apply dirty_set_our; [done..|]. intros r Hr. by apply elem_of_nil in Hr.
  - boolify. case_match; [|done]. apply dirty_set_our; [done..|]. intros r Hr. by apply elem_of_nil in Hr.
  - destruct (chains s !! k) as [l|] eqn:El; [|done].
    assert (dirty s0 (set_chain s k (l ++ [r]))) as H; [|by repeat case_match].
    apply orb_prop in Ha as [Ha|Ha]; boolify.
    + apply dirty_set_our; [done..|]. intros r'. rewrite elem_of_app, list_elem_of_singleton.
      intros [Hr| ->]; [by eapply dirty_our_flat|done].
    + apply dirty_append_hook; [done..|]. by apply (Hpre _ _ eq_refl Ha).
  - boolify. destruct (chains s !! k) as [l|] eqn:El; [|done].
    pose proof (dirty_delete s0 s k l r D Ha El) as H. by destruct (remove_first r l).
  - boolify. repeat case_match; try done. by apply dirty_drop.
  - boolify. case_bool_decide; [done|]. cbn. apply dirty_policy; [done|]. intros p Hp. set_solver.
  - boolify. case_bool_decide; [|done]. cbn. apply dirty_policy; [done|]. intros p Hp.
    assert (p ≠ (f, w)) by congruence. set_solver.
Qed.

(** ** SetupRules, however it ends *)

(** Every addition of a hook follows its deletion. *)
Fixpoint disciplined (last : option (key * rule)) (cs : list cmd) : bool :=
  match cs with
  | [] => true
  | c :: cs =>
      allowed (c_act c) &&
      match c_act c with
      | Append k r => (bool_decide (k ∈ our_keys) || bool_decide (last = Some (k, r))) && disciplined None cs
      | Delete k r => disciplined (Some (k, r)) cs
      | _ => disciplined None cs
      end
  end.

Lemma setup_disciplined target rem : disciplined None (setup_cmds target rem) = true.
Proof. destruct rem; vm_compute; reflexivity. Qed.

(** Deleting an existing rule does not fail. *)
Definition deletes_work (Sh : Shell) : Prop :=
  ∀ h c k r, c_act c = Delete k r → shell_fails h c = false.

Lemma run1_default {Sh : Shell} h c s :
  (run1 h c s).2 = s ∨ (shell_fails h c = false ∧ (run1 h c s).2 = default s (exec (c_act c) s)).
Proof.
  unfold run1. destruct (shell_fails h c); [by left|right].
  by destruct (exec (c_act c) s).
Qed.

Lemma run_until_dirty {Sh : Shell} s0 cs : deletes_work Sh →
  ∀ h last s, dirty s0 s → (∀ kr, last = Some kr → absent kr s) → disciplined last cs = true →
  dirty s0 (run_until h cs s).2.
Proof.
  intros Hdel. induction cs as [|c cs IH]; intros h last s D Hl Hd; [done|].
  cbn [run_until disciplined] in *. apply andb_prop in Hd as [Ha Hd].
  assert (dirty s0 (run1 h c s).2) as D'.
  { destruct (run1_default h c s) as [->|[_ ->]]; [done|]. apply exec_dirty; [done..|].
    intros k r Hc Hh. rewrite Hc in Hd. apply andb_prop in Hd as [Hd _].
    apply orb_prop in Hd as [Hd|Hd]; boolify; [|by apply Hl].
    apply our_keys_chain in Hd. destruct (hooks_rule _ _ Hh). congruence. }
  assert (∀ k r, c_act c = Delete k r → absent (k, r) (run1 h c s).2) as Hab.
  { intros k r Hc. unfold run1. rewrite (Hdel _ _ _ _ Hc), Hc in *. cbn [allowed] in Ha. boolify.
    pose proof (delete_absent s0 s k r D Ha) as H. by destruct (exec (Delete k r) s). }
  destruct (run1 h c s) as [ok s']. cbn [snd] in *. destruct ok; [|done].
  destruct (c_act c) as [| |k r|k r| | |] eqn:Ec; try (eapply IH; [done| |exact Hd]; done).
  - apply andb_prop in Hd as [_ Hd]. eapply IH; [done| |exact Hd]. done.
  - eapply IH; [done| |exact Hd]. intros kr [= <-]. by apply Hab.
Qed.

(** ** CleanupRules with commands that work *)

Definition reliable : Shell := λ _ _, false.

Definition effect (s : fw) (c : cmd) : fw := default s (exec (c_act c) s).

Lemma run_all_reliable cs h s : run_all (Sh := reliable) h cs s = foldl effect s cs.
Proof.
  revert h s. induction cs as [|c cs IH]; intros h s; [done|]. cbn [run_all foldl]. rewrite IH. f_equal.
  unfold run1, effect, shell_fails, reliable. by destruct (exec (c_act c) s).
Qed.

(** Rules, chains and routes only disappear. *)
Definition shrinks (s s' : fw) : Prop :=
  (∀ k l', chains s' !! k = Some l' → ∃ l, chains s !! k = Some l ∧ ∀ r, r ∈ l' → r ∈ l) ∧
  policy s' ⊆ policy s.
Definition removing (a : action) : bool :=
  match a with Flush _ | Delete _ _ | DelChain _ | PolicyDel _ _ => true | _ => false end.

Lemma shrinks_refl s : shrinks s s.
Proof. split; [eauto|done]. Qed.

Lemma shrinks_trans s1 s2 s3 : shrinks s1 s2 → shrinks s2 s3 → shrinks s1 s3.
Proof.
  intros [A1 A2] [B1 B2]. split; [|set_solver]. intros k l3 H3.
  destruct (B1 k l3 H3) as (l2 & H2 & S2). destruct (A1 k l2 H2) as (l1 & H1 & S1). eauto.
Qed.

Lemma shrinks_set s k l l' :
  chains s !! k = Some l → (∀ r, r ∈ l' → r ∈ l) → shrinks s (set_chain s k l').
Proof.
  intros Hl Hs. split; [|done]. intros k' m. cbn. rewrite lookup_insert_Some.
  intros [[<- <-]|[_ H]]; [by exists l|]. exists m. auto.
Qed.

Lemma exec_shrinks s a : removing a = true → shrinks s (default s (exec a s)).
Proof.
  destruct a as [k|k|k r|k r|k|f w|f w]; try done; intros _; cbn [exec].
  - destruct (chains s !! k) as [l|] eqn:El; [|apply shrinks_refl].
    eapply shrinks_set; [done|]. intros r Hr. by apply elem_of_nil in Hr.
  - destruct (chains s !! k) as [l|] eqn:El; [|apply shrinks_refl].
    pose proof (remove_first_spec r l) as Hr. destruct (remove_first r l) as [l'|]; [|apply shrinks_refl].
    destruct Hr as (a & b & -> & -> & _). eapply shrinks_set; [done|].
    intros r'. rewrite !elem_of_app, elem_of_cons. tauto.
  - repeat case_match; try apply shrinks_refl. split; [|done]. intros k' m. cbn.
    intros [_ Hm]%lookup_delete_Some. eauto.
  - case_bool_decide; [|apply shrinks_refl]. split; [cbn; eauto|set_solver].
Qed.

Lemma foldl_shrinks cs s :
  forallb (λ c, removing (c_act c)) cs = true → shrinks s (foldl effect s cs).
Proof.
  revert s. induction cs as [|c cs IH]; intros s Hc; [apply shrinks_refl|].
  cbn [forallb foldl] in *. boolify. eapply shrinks_trans; [by apply exec_shrinks|by apply IH].
Qed.

Lemma foldl_dirty s0 cs s :
  dirty s0 s → forallb (λ c, removing (c_act c) && allowed (c_act c)) cs = true →
  dirty s0 (foldl effect s cs).
Proof.
  revert s. induction cs as [|c cs IH]; intros s D Hc; [done|]. cbn [forallb foldl] in *. boolify.
  apply IH; [|done]. apply exec_dirty; [done..|]. intros k r Hk. by rewrite Hk in *.
Qed.

Lemma referenced_spec s k :
  referenced s k = true →
  ∃ k' l r, chains s !! k' = Some l ∧ k'.1 = k.1 ∧ r ∈ l ∧ jumps_to k.2 r = true.
Proof.
  unfold referenced. rewrite existsb_exists. intros ([k' l] & Hin & Hb). cbn [fst snd] in Hb. boolify.
  match goal with H : existsb _ _ = true |- _ => apply existsb_exists in H as (r & Hr & Hj) end.
  exists k', l, r. split_and!; [|destruct k' as [[? ?] ?], k as [[? ?] ?]; cbn in *; congruence| |done].
  - apply elem_of_map_to_list. by apply list_elem_of_In.
  - by apply list_elem_of_In.
Qed.

Lemma jumps_to_our c r : our_chain c = true → jumps_to c r = true → our_rule r = true.
Proof. unfold jumps_to, our_rule. intros Hc. destruct (r_target r); try done. intros He%String.eqb_eq. by subst. Qed.

(** Emptying and deleting a chain whose hooks are gone removes it. *)
Lemma drop_gone s0 s k :
  dirty s0 s → k ∈ our_keys →
  (∀ k' r, (k', r) ∈ hooks → k'.1 = k.1 → jumps_to k.2 r = true → absent (k', r) s) →
  chains (foldl effect s (drop_chain k)) !! k = None.
Proof.
  intros D Hk Hab. unfold drop_chain. cbn [foldl].
  destruct (chains s !! k) as [l|] eqn:El.
  2:{ assert (effect s (soft (Flush k)) = s) as ->; unfold effect; cbn [soft c_act exec]; by rewrite El. }
  assert (effect s (soft (Flush k)) = set_chain s k []) as -> by (unfold effect; cbn [soft c_act exec]; by rewrite El).
  unfold effect. cbn [soft c_act exec]. cbn [chains set_chain]. rewrite lookup_insert_eq.
  destruct (referenced (set_chain s k []) k) eqn:Hr; [exfalso|by cbn; rewrite lookup_delete_eq].
  apply referenced_spec in Hr as (k' & m & r & Hm & Hk' & Hrm & Hj).
  cbn [chains set_chain] in Hm. apply lookup_insert_Some in Hm as [[<- <-]|[Hne Hm]];
    [by apply elem_of_nil in Hrm|].
  assert ((k', r) ∈ hooks) as Hh.
  { destruct D as (_ & _ & D3 & _). eapply D3; [done..|].
    eapply jumps_to_our; [by apply our_keys_chain|done]. }
  by eapply (Hab k' r Hh Hk' Hj m).
Qed.

Lemma cleanup_removing : forallb (λ c, removing (c_act c) && allowed (c_act c)) cleanup_cmds = true.
Proof. vm_compute. reflexivity. Qed.

(** A part of the clean-up removes only, and only what is ours. *)
Lemma cleanup_part a b :
  cleanup_cmds = a ++ b →
  forallb (λ c, removing (c_act c) && allowed (c_act c)) a = true ∧
  forallb (λ c, removing (c_act c)) b = true.
Proof.
  intros H. pose proof cleanup_removing as Hc. rewrite H, forallb_app in Hc. boolify. split; [done|].
  apply forallb_forall. intros c Hin.
  match goal with H : forallb _ b = true |- _ => apply (proj1 (forallb_forall _ _)) with (x := c) in H; [|done] end.
  boolify. done.
Qed.

(** After any part of the list that deletes the hook, the hook is absent. *)
Lemma part_absent s0 s a b k r :
  dirty s0 s → cleanup_cmds = a ++ b → (k, r) ∈ hooks → soft (Delete k r) ∈ a →
  absent (k, r) (foldl effect s a).
Proof.
  intros D Hab Hh Hin. apply list_elem_of_split in Hin as (a1 & a2 & ->).
  destruct (cleanup_part _ _ Hab) as [Ha _]. rewrite <- app_assoc in Hab.
  destruct (cleanup_part _ _ Hab) as [Ha1 _].
  rewrite forallb_app in Ha. boolify. rewrite foldl_app. cbn [foldl forallb] in *. boolify.
  pose proof (delete_absent s0 (foldl effect s a1) k r (foldl_dirty _ _ _ D Ha1) Hh) as Hgone.
  assert (shrinks (effect (foldl effect s a1) (soft (Delete k r)))
    (foldl effect (effect (foldl effect s a1) (soft (Delete k r))) a2)) as [Hs _].
  { apply foldl_shrinks. apply forallb_forall. intros c Hc.
    match goal with H : forallb _ a2 = true |- _ => apply (proj1 (forallb_forall _ _)) with (x := c) in H; [|done] end.
    boolify. done. }
  intros l Hl Hr. destruct (Hs _ _ Hl) as (l0 & Hl0 & Hsub). by eapply (Hgone l0 Hl0), Hsub.
Qed.

(** Where the list drops a chain, and what it deleted before. *)
Definition drop_at (k : key) : nat :=
  if String.eqb k.2 "VPROXY_REDIRECT" then (if String.eqb k.1.1 ipt then 4 else 6)%nat
  else if String.eqb k.2 "VPROXY_MARK" then (if String.eqb k.1.1 ipt then 12 else 14)%nat
  else (if String.eqb k.1.1 ipt then 16 else 18)%nat.

Lemma cleanup_split :
  forallb (λ k, bool_decide (cleanup_cmds = take (drop_at k) cleanup_cmds ++ drop_chain k ++
                             drop (drop_at k + 2) cleanup_cmds) &&
    forallb (λ kr, negb (bool_decide (kr.1.1 = k.1) && jumps_to k.2 kr.2) ||
                   existsb (λ c, match c_act c with
                                 | Delete k' r => bool_decide ((k', r) = kr) && c_soft c | _ => false end)
                     (take (drop_at k) cleanup_cmds)) hooks) our_keys = true.
Proof. vm_compute. reflexivity. Qed.

Lemma cleanup_chain_gone s0 s k :
  dirty s0 s → k ∈ our_keys → chains (foldl effect s cleanup_cmds) !! k = None.
Proof.
  intros D Hk. pose proof (proj1 (forallb_forall _ _) cleanup_split k (proj1 (list_elem_of_In _ _) Hk)) as Hs.
  cbv beta in Hs. apply andb_prop in Hs as [Hs Hh]. apply bool_decide_eq_true in Hs.
  set (a := take (drop_at k) cleanup_cmds) in *. set (b := drop (drop_at k + 2) cleanup_cmds) in *.
  destruct (cleanup_part _ _ Hs) as [Ha _].
  assert (cleanup_cmds = (a ++ drop_chain k) ++ b) as Hs2 by (by rewrite <- app_assoc).
  destruct (cleanup_part _ _ Hs2) as [_ Hb].
  rewrite Hs2, !foldl_app. set (s1 := foldl effect s a).
  assert (chains (foldl effect s1 (drop_chain k)) !! k = None) as Hg.
  { apply (drop_gone s0); [by apply foldl_dirty|done|]. intros k' r Hkr Hk1 Hj.
    pose proof (proj1 (forallb_forall _ _) Hh (k', r) (proj1 (list_elem_of_In _ _) Hkr)) as Hd.
    cbn [fst snd] in Hd. rewrite bool_decide_true, Hj in Hd by done. cbn [andb negb orb] in Hd.
    apply existsb_exists in Hd as (c & Hc & Hd). destruct c as [act sf]. cbn [c_act c_soft] in Hd.
    destruct act; try done. boolify. simplify_eq.
    eapply part_absent; [done|exact Hs|done|]. by apply list_elem_of_In. }
  destruct (foldl_shrinks b (foldl effect s1 (drop_chain k)) Hb) as [Hsh _].
  destruct (chains (foldl effect _ b) !! k) as [l|] eqn:El; [|done].
  destruct (Hsh _ _ El) as (l0 & Hl0 & _). congruence.
Qed.

Lemma cleanup_policy_gone s p : p ∈ our_policy → p ∉ policy (foldl effect s cleanup_cmds).
Proof.
  intros Hp. assert (∃ a b, cleanup_cmds = a ++ soft (PolicyDel p.1 p.2) :: b) as (a & b & Hs).
  { apply list_elem_of_split. unfold our_policy in Hp. rewrite !elem_of_cons, elem_of_nil in Hp.
    apply list_elem_of_In. vm_compute. destruct_or!; subst; tauto. }
  assert (cleanup_cmds = (a ++ [soft (PolicyDel p.1 p.2)]) ++ b) as Hs2 by (by rewrite <- app_assoc).
  destruct (cleanup_part _ _ Hs2) as [_ Hb]. rewrite Hs2, !foldl_app. cbn [foldl].
  destruct (foldl_shrinks b (effect (foldl effect s a) (soft (PolicyDel p.1 p.2))) Hb) as [_ Hsub].
  intros Hin. apply Hsub in Hin. unfold effect in Hin. cbn [soft c_act exec] in Hin.
  destruct p as [f w]. cbn [fst snd] in Hin. case_bool_decide; cbn in Hin; [|done]. set_solver.
Qed.

Lemma hooks_deleted :
  forallb (λ kr, bool_decide (soft (Delete kr.1 kr.2) ∈ cleanup_cmds)) hooks = true.
Proof. vm_compute. reflexivity. Qed.

(** With our chains, hooks and routes gone, what is left is what there was. *)
Lemma dirty_gone s0 s :
  clean s0 → dirty s0 s → (∀ k, k ∈ our_keys → chains s !! k = None) →
  (∀ kr, kr ∈ hooks → absent kr s) → (∀ p, p ∈ our_policy → p ∉ policy s) → s = s0.
Proof.
  intros (C1 & C2 & C3) (D1 & D2 & D3 & D4 & D5) Hk Hh Hp. destruct s as [cs ps], s0 as [cs0 ps0].
  cbn [chains policy] in *. f_equal.
  - apply map_eq. intros k. destruct (our_chain k.2) eqn:Ho.
    + rewrite C1 by done. destruct (cs !! k) as [l|] eqn:El; [|done].
      specialize (D4 _ _ Ho El). by rewrite Hk in El.
    + rewrite <- D1 by done. destruct (cs !! k) as [l|] eqn:El; [|done]. cbn. f_equal. symmetry.
      apply filter_keep. intros r Hr. destruct (our_rule r) eqn:Hor; [exfalso|done].
      by apply (Hh (k, r) (D3 _ _ _ El Hr Hor) l).
  - apply set_eq. intros p. destruct (decide (p ∈ our_policy)) as [Hi|Hi]; [|by apply D5].
    split; intros H; [by apply Hp in H|by apply C3 in H].
Qed.

Lemma SetupRules_dirty (Sh : Shell) s0 t rem s :
  deletes_work Sh → dirty s0 s → dirty s0 (SetupRules t rem s).2.
Proof. intros Hd D. eapply run_until_dirty; [done|done| |apply setup_disciplined]. done. Qed.

(** Cleaning up gives back what was there before us. *)
Lemma CleanupRules_dirty s0 s : clean s0 → dirty s0 s → CleanupRules (Sh := reliable) s = s0.
Proof.
  intros C D. unfold CleanupRules. rewrite run_all_reliable. apply dirty_gone; [done| | | |].
  - apply foldl_dirty; [done|apply cleanup_removing].
  - intros k Hk. by eapply cleanup_chain_gone.
  - intros [k r] Hkr. eapply (part_absent s0 s cleanup_cmds []); [done|by rewrite app_nil_r|done|].
    apply list_elem_of_In in Hkr. apply (proj1 (forallb_forall _ _) hooks_deleted) in Hkr.
    cbn [fst snd] in Hkr. by boolify.
  - intros p Hp. by apply cleanup_policy_gone.
Qed.

(** C8. Whatever SetupRules did, CleanupRules undoes it.  Assumed: before there are
    no chains, rules or routing policies of this program; in the calls of
    SetupRules the commands that delete a rule succeed when there is one, while any
    other command may fail, at which the call stops or goes on as the code says;
    and every command of CleanupRules succeeds if it can.  Then, after any sequence
    of calls of SetupRules, in either mode and with any targets, complete or not,
    cleaning up gives back the rule sets and routes of before, unchanged and in
    order. *)
Theorem setup_cleanup_restores s0 (calls : list (Shell * string * bool)) :
  clean s0 → Forall (λ c, deletes_work c.1.1) calls →
  CleanupRules (Sh := reliable)
    (foldl (λ s '(Sh, t, rem), (SetupRules (Sh := Sh) t rem s).2) s0 calls) = s0.
Proof.
  intros C Hd. apply CleanupRules_dirty; [done|].
  pose proof (clean_dirty s0 C) as D. revert D. generalize s0 at 2 4 as s1.
  induction Hd as [|[[Sh t] rem] calls Hc _ IH]; intros s1 D; [done|]. cbn [foldl].
  apply IH. by apply SetupRules_dirty.
Qed.

(** A machine with container rules, and a run of SetupRules that succeeds
    followed by one in the other mode whose fifth command fails. *)
Definition ex_fw : fw :=
  mkFw (list_to_map [((ipt, "nat", "OUTPUT"), [mkRule None None None false (JUMP "DOCKER")]);
                     ((ipt, "nat", "DOCKER"), []);
                     ((ipt, "mangle", "OUTPUT"), []); ((ipt, "mangle", "PREROUTING"), []);
                     ((ip6t, "nat", "OUTPUT"), []); ((ip6t, "mangle", "OUTPUT"), []);
                     ((ip6t, "mangle", "PREROUTING"), [])]) ∅.
Definition ex_shell : Shell := λ h c,
  Nat.eqb (length h) 5 && match c_act c with Delete _ _ => false | _ => true end.
Definition ex_calls : list (Shell * string * bool) :=
  [(reliable, "8118", false); (ex_shell, "1.2.3.4:80", true)].

Lemma ex_fw_clean : clean ex_fw.
Proof.
  assert (∀ k l, chains ex_fw !! k = Some l →
    our_chain k.2 = false ∧ forallb (λ r, negb (our_rule r)) l = true) as H.
  { intros k l Hl. apply elem_of_list_to_map_2 in Hl. rewrite !elem_of_cons, elem_of_nil in Hl.
    by destruct_or!; simplify_eq. }
  split_and!.
  - intros k Hk. destruct (chains ex_fw !! k) as [l|] eqn:El; [|done].
    apply H in El as [El _]. congruence.
  - intros k l r Hl Hr. apply H in Hl as [_ Hl]. apply list_elem_of_In in Hr.
    apply (proj1 (forallb_forall _ _) Hl) in Hr. by boolify.
  - intros p _. cbn. set_solver.
Qed.

Lemma setup_cleanup_restores_witness :
  clean ex_fw ∧
  (SetupRules (Sh := reliable) "8118" false ex_fw).1 = Ok tt ∧
  is_ok (SetupRules (Sh := ex_shell) "1.2.3.4:80" true ex_fw).1 = false ∧
  CleanupRules (Sh := reliable)
    (foldl (λ s '(Sh, t, rem), (SetupRules (Sh := Sh) t rem s).2) ex_fw ex_calls) = ex_fw.
Proof.
  split; [apply ex_fw_clean|]. split; [vm_compute; reflexivity|]. split; [vm_compute; reflexivity|].
  apply (setup_cleanup_restores ex_fw ex_calls ex_fw_clean).
  constructor; [intros h c k r _; reflexivity|]. constructor; [|constructor].
  intros h c k r Hc. unfold shell_fails, ex_shell. cbn [fst]. rewrite Hc. apply andb_false_r.
Defined.

(** ** What the rules do to packets *)

(** The contents of chain [k] after a command, when they are determined; [cur]
    are the contents before. *)
Definition track1 (k : key) (c : cmd) (cur : option (list rule)) : option (list rule) :=
  match c_act c with
  | NewChain k' | DelChain k' | Delete k' _ => if bool_decide (k' = k) then None else cur
  | Flush k' => if bool_decide (k' = k) then (if c_soft c then None else Some []) else cur
  | Append k' r => if bool_decide (k' = k) then (if c_soft c then None else (λ l, l ++ [r]) <$> cur) else cur
  | _ => cur
  end.
Definition track (k : key) (cs : list cmd) : option (list rule) := foldl (λ cur c, track1 k c cur) None cs.

(** Other chains keep their rules. *)
Lemma exec_other s a s' k :
  exec a s = Some s' →
  match a with
  | NewChain k' | Flush k' | Append k' _ | Delete k' _ | DelChain k' => k' ≠ k
  | _ => True end →
  chains s' !! k = chains s !! k.
Proof.
  destruct a; cbn [exec]; intros He Hk; crush_match; cbn; rewrite ?lookup_insert_ne, ?lookup_delete_ne; done.
Qed.

Definition known (k : key) (cur : option (list rule)) (s : fw) : Prop :=
  ∀ l, cur = Some l → chains s !! k = Some l.

Lemma run1_track {Sh : Shell} k h c s s1 cur :
  run1 h c s = (true, s1) → known k cur s → known k (track1 k c cur) s1.
Proof.
  intros Hr Hc l. unfold run1 in Hr.
  destruct (if shell_fails h c then None else exec (c_act c) s) as [s2|] eqn:Hx.
  - destruct (shell_fails h c); [done|]. injection Hr as <-.
    pose proof (exec_other _ _ _ k Hx) as Ho. unfold track1.
    destruct (c_act c) as [k'|k'|k' r|k' r|k'|f w|f w]; try case_bool_decide as Hk; try done;
      intros Hl; try (rewrite Ho by done; by apply Hc).
    + subst k'. destruct (c_soft c); [done|]. cbn [exec] in Hx. crush_match. cbn. by rewrite lookup_insert_eq.
    + subst k'. destruct (c_soft c); [done|]. destruct cur as [l0|]; [|done]. cbn in Hl. injection Hl as <-.
      cbn [exec] in Hx. rewrite (Hc l0 eq_refl) in Hx. crush_match; cbn; by rewrite lookup_insert_eq.
  - injection Hr as Hs <-. unfold track1. rewrite Hs. repeat case_match; naive_solver.
Qed.

Lemma run_until_track {Sh : Shell} k cs : ∀ h s s' cur,
  run_until h cs s = (Ok tt, s') → known k cur s → known k (foldl (λ cur c, track1 k c cur) cur cs) s'.
Proof.
  induction cs as [|c cs IH]; intros h s s' cur Hr Hc; [by injection Hr as <-|].
  cbn [run_until foldl] in *. destruct (run1 h c s) as [[] s1] eqn:E1; [|done].
  eapply IH; [exact Hr|]. by eapply run1_track.
Qed.

(** A packet of a process in the cgroup. *)
Record packet := mkPkt { pk_proto : string; pk_mark : Z; pk_dst : ip }.
Definition rule_matches (p : packet) (r : rule) : bool :=
  (match r_proto r with Some x => String.eqb x (pk_proto p) | None => true end) &&
  (match r_mark r with Some m => m =? pk_mark p | None => true end) &&
  (match r_dst r with
   | Some d => match Net.ParseCIDR d with Some n => Net.Contains n (pk_dst p) | None => false end
   | None => true end).
(** The target of the first rule that matches; [RETURN] and the end of the chain
    leave the packet alone. *)
Fixpoint walk (l : list rule) (p : packet) : option target :=
  match l with
  | [] => None
  | r :: l => if rule_matches p r
              then (if bool_decide (r_target r = RETURN) then None else Some (r_target r))
              else walk l p
  end.

Definition left_alone (p : packet) : bool :=
  (pk_mark p =? bypassMark) ||
  (Net.IsLoopback (pk_dst p) || Net.IsPrivate (pk_dst p) || Net.IsLinkLocalUnicast (pk_dst p)).

Definition bypass_rules : list rule := from_mark bypassMark RETURN :: (to_net <$> nets4).

(** The -d option and the trie of the eBPF programs agree on IPv4 networks. *)
Lemma contains_lpm x n a b c d :
  0 ≤ n ≤ 32 → 0 ≤ x < 2 ^ 32 →
  Net.Contains (Net.cidr4 x n) [a; b; c; d] = Bpf.lpm_match (n, put32 x) [a; b; c; d].
Proof.
  intros Hn Hx. apply eq_true_iff_eq. rewrite <- put32_be32, Net.Contains_cidr4 by (done || apply be32_range).
  unfold Bpf.lpm_match. cbn [fst snd]. rewrite Z.eqb_eq, !Z.shiftr_div_pow2 by lia.
  assert (∀ z, 0 ≤ z < 2 ^ 32 → Bpf.bits4 (put32 z) = z) as Hb.
  { intros z Hz. etransitivity; [apply (be32_put32 z _ _ _ _ eq_refl)|]. by apply wrap32_small. }
  rewrite !Hb by (done || apply be32_range). done.
Qed.

Lemma nets4_private a b c d :
  existsb (λ n, match Net.ParseCIDR n with Some n => Net.Contains n [a; b; c; d] | None => false end) nets4 =
  Net.IsLoopback [a; b; c; d] || Net.IsPrivate [a; b; c; d] || Net.IsLinkLocalUnicast [a; b; c; d].
Proof.
  rewrite <- Ebpf.default_cidr_private, Ebpf.lpm_default.
  assert (Net.ParseCIDR "127.0.0.0/8" = Some (Net.cidr4 0x7F000000 8)) as E1 by (vm_compute; reflexivity).
  assert (Net.ParseCIDR "10.0.0.0/8" = Some (Net.cidr4 0x0A000000 8)) as E2 by (vm_compute; reflexivity).
  assert (Net.ParseCIDR "172.16.0.0/12" = Some (Net.cidr4 0xAC100000 12)) as E3 by (vm_compute; reflexivity).
  assert (Net.ParseCIDR "192.168.0.0/16" = Some (Net.cidr4 0xC0A80000 16)) as E4 by (vm_compute; reflexivity).
  assert (Net.ParseCIDR "169.254.0.0/16" = Some (Net.cidr4 0xA9FE0000 16)) as E5 by (vm_compute; reflexivity).
  cbn [existsb nets4]. rewrite E1, E2, E3, E4, E5, !contains_lpm by lia. reflexivity.
Qed.

(** The bypass rules leave alone what [left_alone] says, for IPv4. *)
Lemma walk_bypass rest proto m a b c d :
  walk (bypass_rules ++ rest) (mkPkt proto m [a; b; c; d]) =
  if left_alone (mkPkt proto m [a; b; c; d]) then None else walk rest (mkPkt proto m [a; b; c; d]).
Proof.
  set (p := mkPkt proto m [a; b; c; d]).
  assert (∀ ds, walk ((to_net <$> ds) ++ rest) p =
    if existsb (λ n, match Net.ParseCIDR n with Some n => Net.Contains n [a; b; c; d] | None => false end) ds
    then None else walk rest p) as Hw.
  { induction ds as [|n ds IH]; [done|]. cbn [fmap list_fmap app walk existsb].
    unfold rule_matches at 1. cbn [to_net r_proto r_mark r_dst r_target andb].
    change (pk_dst p) with [a; b; c; d].
    rewrite bool_decide_true by done. destruct (match Net.ParseCIDR n with Some _ => _ | None => _ end); [done|].
    apply IH. }
  unfold bypass_rules. cbn [app walk]. unfold rule_matches at 1.
  cbn [from_mark r_proto r_mark r_dst r_target andb]. rewrite andb_true_r, bool_decide_true by done.
  unfold left_alone. change (pk_dst p) with [a; b; c; d]. change (pk_mark p) with m.
  rewrite (Z.eqb_sym bypassMark). destruct (m =? bypassMark); [done|]. cbn [orb].
  by rewrite <- nets4_private, Hw.
Qed.

(** After a successful SetupRules, from whatever state, our chains treat an
    IPv4 packet of the cgroup as the eBPF hooks do: packets with the bypass mark
    and packets to loopback, private or link-local addresses are left alone, and
    every other packet is redirected, TCP to the local port (or to the upstream in
    remote mode) and UDP by mark and TPROXY (or to the upstream). *)
Theorem setup_redirects (Sh : Shell) target rem s s' m a b c d :
  SetupRules target rem s = (Ok tt, s') →
  let verdict (k : key) (proto : string) :=
    (λ l, walk l (mkPkt proto m [a; b; c; d])) <$> chains s' !! k in
  let alone := left_alone (mkPkt "" m [a; b; c; d]) in
  verdict (REDIR ipt) "tcp" = Some (if alone then None else Some (if rem then DNAT target else REDIRECT target)) ∧
  (rem = true → verdict (REDIR ipt) "udp" = Some (if alone then None else Some (DNAT target))) ∧
  (rem = false →
     verdict (REDIR ipt) "udp" = Some None ∧
     verdict (VMARK ipt) "udp" = Some (if alone then None else Some (MARK 1)) ∧
     (m = 1 → verdict (VTPROXY ipt) "udp" = Some (Some (TPROXY target "127.0.0.1")))).
Proof.
  intros Hs. assert (∀ k, known k (track k (setup_cmds target rem)) s') as Hk
    by (intros k; eapply run_until_track; [exact Hs|done]).
  assert (∀ proto rest, walk (bypass_rules ++ rest) (mkPkt proto m [a; b; c; d]) =
    if left_alone (mkPkt "" m [a; b; c; d]) then None else walk rest (mkPkt proto m [a; b; c; d])) as Hw
    by (intros; rewrite walk_bypass; done).
  destruct rem; cbv zeta; (split; [|split; [|intros]]); try done.
  - rewrite (Hk (REDIR ipt) (bypass_rules ++ [on_proto "tcp" (DNAT target); on_proto "udp" (DNAT target)]) eq_refl).
    cbn [fmap option_fmap option_map]. by rewrite Hw.
  - intros _. rewrite (Hk (REDIR ipt) (bypass_rules ++ [on_proto "tcp" (DNAT target); on_proto "udp" (DNAT target)]) eq_refl).
    cbn [fmap option_fmap option_map]. by rewrite Hw.
  - rewrite (Hk (REDIR ipt) (bypass_rules ++ [on_proto "tcp" (REDIRECT target)]) eq_refl).
    cbn [fmap option_fmap option_map]. by rewrite Hw.
  - rewrite (Hk (REDIR ipt) (bypass_rules ++ [on_proto "tcp" (REDIRECT target)]) eq_refl).
    rewrite (Hk (VMARK ipt) (bypass_rules ++ [mkRule None None None false (MARK 1)]) eq_refl).
    cbn [fmap option_fmap option_map]. rewrite !Hw. split; [by case_match|]. split; [done|].
    intros ->. rewrite (Hk (VTPROXY ipt) [mkRule (Some "udp") (Some 1) None false (TPROXY target "127.0.0.1")] eq_refl).
    done.
Qed.

(** Setting up the remote mode leaves the mangle table as it was: after a switch
    from the local mode, UDP packets are still marked and handed to the old local
    port. *)
Definition nat_only (c : cmd) : bool :=
  match c_act c with
  | NewChain k | Flush k | Append k _ | Delete k _ | DelChain k => String.eqb k.1.2 "nat"
  | _ => false
  end.

Lemma remote_keeps_mangle (Sh : Shell) target s f c :
  chains (SetupRules target true s).2 !! (f, "mangle", c) = chains s !! (f, "mangle", c).
Proof.
  assert (∀ cs h s, forallb nat_only cs = true →
    chains (run_until h cs s).2 !! (f, "mangle", c) = chains s !! (f, "mangle", c)) as H.
  { induction cs as [|x cs IH]; intros h s1 Hc; [done|]. cbn [forallb run_until] in *. boolify.
    assert (chains (run1 h x s1).2 !! (f, "mangle", c) = chains s1 !! (f, "mangle", c)) as H1.
    { unfold run1. destruct (if shell_fails h x then None else exec (c_act x) s1) as [s2|] eqn:Hx; [|done].
      destruct (shell_fails h x); [done|]. eapply exec_other; [exact Hx|].
      unfold nat_only in *. destruct (c_act x); try done; boolify; intros ->; done. }
    destruct (run1 h x s1) as [[] s2]; cbn [snd] in *; [|done]. rewrite IH; done. }
  apply H. vm_compute. reflexivity.
Qed.

Lemma setup_redirects_witness :
  ∃ s', SetupRules (Sh := reliable) "8118" false ex_fw = (Ok tt, s') ∧
    (λ l, walk l (mkPkt "tcp" 0 (bytes [93; 184; 216; 34]))) <$> chains s' !! REDIR ipt
      = Some (Some (REDIRECT "8118")).
Proof.
  destruct (SetupRules (Sh := reliable) "8118" false ex_fw) as [o s'] eqn:Es.
  assert (o = Ok tt) as Ho by (apply (f_equal fst) in Es; vm_compute in Es; exact (eq_sym Es)).
  subst o. exists s'. split; [reflexivity|].
  destruct (setup_redirects reliable "8118" false ex_fw s' 0 (mk8 93) (mk8 184) (mk8 216) (mk8 34) Es) as [H _].
  exact H.
Defined.

End Iptables.
