(* ===== verification/Otel.v ===== *)
(** * The life cycle of telemetry: src/internal/otel.go

    The tracing state of the process: the published snapshot that every
    connection reads, the provider and the configuration it came from.  Writers
    run their critical sections under one mutex, so each is one step; shutting a
    provider down happens outside the mutex, as a later step of its own, and
    interleaves with everything.  The SDK is a parameter: whether an exporter or a
    resource can be built is decided by the environment.  The rate is a float64,
    kept as its bits as in Config. *)

From S2P Require Import Prelude GoStrings UdpProxy Config.

Module Otel.
Import Config.

(** ** float64 comparisons on the bits *)

Definition f_mag (b : Z) : Z := Z.land b 0x7FFFFFFFFFFFFFFF.
Definition f_nan (b : Z) : bool := 0x7FF0000000000000 <? f_mag b.
Definition f_le0 (b : Z) : bool := negb (f_nan b) && ((b =? 0) || (2 ^ 63 <=? b)).
Definition f_one : Z := 0x3FF0000000000000.
Definition f_ge1 (b : Z) : bool := negb (f_nan b) && (b <? 2 ^ 63) && (f_one <=? b).
Definition f_eq (a b : Z) : bool :=
  negb (f_nan a) && negb (f_nan b) && ((a =? b) || ((f_mag a =? 0) && (f_mag b =? 0))).

(** ** Providers *)

Inductive sampler := AlwaysSample | TraceIDRatioBased (rate : Z).
(** What determines a provider: transport, endpoint, security, service, sampling. *)
Record provider_spec := mkSpec {
  ps_http : bool; ps_endpoint : string; ps_insecure : bool; ps_service : string; ps_sampler : sampler }.

Definition or_default (s d : string) : string := if String.eqb s "" then d else s.
Definition rate_of (r : Z) : Z := if f_le0 r then f_one else r.

(** The options of buildOtelProvider. *)
Definition spec_of (c : OtelConfig) : provider_spec :=
  let rate := rate_of (SampleRate c) in
  mkSpec (String.eqb (Strings.ToLower (Protocol c)) "http")
         (or_default (Endpoint c) "localhost:4317") (Insecure c)
         (or_default (ServiceName c) "vproxy")
         (if f_ge1 rate then AlwaysSample else TraceIDRatioBased rate).

(** A provider: its identity and what it was built from. *)
Record provider := mkTP { tp_id : nat; tp_spec : provider_spec }.

(** The tracer of a snapshot: the no-op one or that of a provider. *)
Inductive tracer := NoopTracer | TracerOf (tp : provider).
Record otelState := mkState { os_tracer : tracer; os_active : bool }.
Definition noopState : otelState := mkState NoopTracer false.

(** Which steps of building a provider fail, by the number of those built. *)
Class OtelEnv := { exporter_fails : nat → OtelConfig → bool; resource_fails : nat → OtelConfig → bool }.

Record otel := mkOtelG {
  globalState : option otelState;          (* the atomic pointer *)
  globalTracerProvider : option provider;
  globalOtelConfig : option OtelConfig;
  sdk_provider : option provider;          (* otel.SetTracerProvider *)
  exporters : nat;                         (* exporters without a provider *)
  built : nat;                             (* providers built so far *)
  detached : list provider;                (* to be shut down *)
  closed : list provider }.                (* Shutdown was called *)

Definition otel_init : otel := mkOtelG None None None None 0 0 [] [].

Definition currentState (g : otel) : otelState :=
  match globalState g with Some s => s | None => noopState end.
Definition IsOtelActive (g : otel) : bool := os_active (currentState g).
Definition GetOtelTracer (g : otel) : tracer := os_tracer (currentState g).

Definition enabled (c : option OtelConfig) : bool :=
  match c with Some c => Enabled c | None => false end.

Definition otelConfigEqual (a b : option OtelConfig) : bool :=
  if negb (enabled a) && negb (enabled b) then true
  else if negb (Bool.eqb (enabled a) (enabled b)) then false
  else match a, b with
       | Some a, Some b =>
           String.eqb (or_default (Endpoint a) "localhost:4317") (or_default (Endpoint b) "localhost:4317") &&
           String.eqb (or_default (Strings.ToLower (Protocol a)) "grpc")
                      (or_default (Strings.ToLower (Protocol b)) "grpc") &&
           Bool.eqb (Insecure a) (Insecure b) &&
           String.eqb (or_default (ServiceName a) "vproxy") (or_default (ServiceName b) "vproxy") &&
           f_eq (rate_of (SampleRate a)) (rate_of (SampleRate b))
       | _, _ => false
       end.

(** What a call of InitOtelTracer returns: a function that does nothing or one
    that shuts the current provider down. *)
Inductive shutdown_fn := ShutdownNothing | ShutdownCurrent.

Section Otel.
Context {OE : OtelEnv}.

Inductive build_result := NoProvider | Built (tp : provider) | BuildErr (leaked : nat) (msg : string).

Definition buildOtelProvider (g : otel) (cfg : option OtelConfig) : build_result :=
  match cfg with
  | Some c =>
      if negb (Enabled c) then NoProvider
      else if exporter_fails (built g) c then BuildErr 0 "create otlp exporter"
      else if resource_fails (built g) c then BuildErr 1 "create otel resource"
      else Built (mkTP (built g) (spec_of c))
  | None => NoProvider
  end.

Definition detach (old : option provider) (l : list provider) : list provider :=
  match old with Some p => p :: l | None => l end.

(** The critical section of InitOtelTracer; the teardown of the old provider is
    left in [detached]. *)
Definition InitOtelTracer (cfg : option OtelConfig) (g : otel) : outcome string shutdown_fn * otel :=
  if otelConfigEqual (globalOtelConfig g) cfg
  then (Ok (if enabled cfg then ShutdownCurrent else ShutdownNothing), g)
  else
    match buildOtelProvider g cfg with
    | BuildErr n msg =>
        (Err msg, mkOtelG (globalState g) (globalTracerProvider g) (globalOtelConfig g) (sdk_provider g)
                    (exporters g + n) (built g) (detached g) (closed g))
    | NoProvider =>
        (Ok ShutdownNothing,
         mkOtelG (Some (mkState NoopTracer false)) None cfg (sdk_provider g)
           (exporters g) (built g) (detach (globalTracerProvider g) (detached g)) (closed g))
    | Built tp =>
        (Ok ShutdownCurrent,
         mkOtelG (Some (mkState (TracerOf tp) true)) (Some tp) cfg (Some tp)
           (exporters g) (S (built g)) (detach (globalTracerProvider g) (detached g)) (closed g))
    end.

End Otel.

(** The function makeShutdown returns, up to the end of its critical section. *)
Definition makeShutdown (g : otel) : otel :=
  mkOtelG (Some noopState) None None (sdk_provider g) (exporters g) (built g)
    (detach (globalTracerProvider g) (detached g)) (closed g).
Definition run_shutdown (f : shutdown_fn) (g : otel) : otel :=
  match f with ShutdownNothing => g | ShutdownCurrent => makeShutdown g end.

(** shutdownProvider on a detached provider. *)
Definition shutdownProvider (tp : provider) (g : otel) : otel :=
  mkOtelG (globalState g) (globalTracerProvider g) (globalOtelConfig g) (sdk_provider g) (exporters g)
    (built g) (filter (λ p, tp_id p ≠ tp_id tp) (detached g)) (tp :: closed g).

(** Everything that happens to the state, in any order. *)
Inductive otel_step {OE : OtelEnv} : otel → otel → Prop :=
| step_init cfg g o g' : InitOtelTracer cfg g = (o, g') → otel_step g g'
| step_shutdown f g : otel_step g (run_shutdown f g)
| step_teardown tp g : tp ∈ detached g → otel_step g (shutdownProvider tp g).

(** ** The throttled error handler *)

Inductive handle_pc := HStart (now : Z) | HLoaded (now last : Z) | HDone (emitted : bool).

(** One atomic step of Handle: load, then compare and swap once. *)
Definition handle_step (lastLogged : Z) (pc : handle_pc) : Z * handle_pc :=
  match pc with
  | HStart now => (lastLogged, HLoaded now lastLogged)
  | HLoaded now last =>
      if 30 <=? now - last
      then if lastLogged =? last then (now, HDone true) else (lastLogged, HDone false)
      else (lastLogged, HDone false)
  | HDone b => (lastLogged, HDone b)
  end.

Record hlog := mkHlog { h_last : Z; h_calls : list handle_pc; h_warned : list Z }.

Inductive handle_sys : hlog → hlog → Prop :=
| handle_call s now : handle_sys s (mkHlog (h_last s) (h_calls s ++ [HStart now]) (h_warned s))
| handle_run s i pc last' pc' :
    h_calls s !! i = Some pc → handle_step (h_last s) pc = (last', pc') →
    handle_sys s (mkHlog last' (<[i := pc']> (h_calls s))
      (match pc, pc' with HLoaded now _, HDone true => h_warned s ++ [now] | _, _ => h_warned s end)).

(** ** Equal configurations build equal providers *)

(** The rate is a 64-bit pattern, as encoding/json produces (never NaN). *)
Definition rated (c : option OtelConfig) : Prop :=
  match c with Some c => 0 ≤ SampleRate c < 2 ^ 64 ∧ f_nan (SampleRate c) = false | None => True end.

Lemma f_mag_split b : 0 ≤ b < 2 ^ 64 → f_mag b = 0 → b = 0 ∨ b = 2 ^ 63.
Proof.
  intros Hb Hm. unfold f_mag in Hm. change 0x7FFFFFFFFFFFFFFF with (Z.ones 63) in Hm.
  rewrite Z.land_ones in Hm by lia.
  pose proof (Z.div_mod b (2 ^ 63) ltac:(lia)). assert (0 ≤ b / 2 ^ 63 < 2) by
    (split; [apply Z.div_pos; lia|apply Z.div_lt_upper_bound; lia]). lia.
Qed.

Lemma rate_of_nonzero r : 0 ≤ r < 2 ^ 64 → f_nan r = false → f_mag (rate_of r) ≠ 0.
Proof.
  intros Hr Hn H0. unfold rate_of in H0. destruct (f_le0 r) eqn:E; [by vm_compute in H0|].
  unfold f_le0 in E. rewrite Hn in E. cbn [negb andb] in E. apply f_mag_split in H0 as [->| ->]; [done| |done].
  by vm_compute in E.
Qed.

Lemma f_eq_rate a b :
  0 ≤ a < 2 ^ 64 → f_nan a = false → f_eq (rate_of a) (rate_of b) = true → rate_of a = rate_of b.
Proof.
  intros Ha Hn. unfold f_eq. intros H. boolify.
  match goal with H : _ || _ = true |- _ => apply orb_prop in H as [?|?] end; boolify; [done|].
  exfalso. by apply (rate_of_nonzero a).
Qed.

Lemma or_default_http a b :
  or_default a "grpc" = or_default b "grpc" → String.eqb a "http" = String.eqb b "http".
Proof.
  unfold or_default. intros H. repeat case_match; boolify; subst; try done.
Qed.

Lemma equal_spec a b :
  rated (Some a) → otelConfigEqual (Some a) (Some b) = true → Enabled a = true →
  Enabled b = true ∧ spec_of a = spec_of b.
Proof.
  intros [Ha Hn] He Hen. unfold otelConfigEqual in He. cbn [enabled] in He. rewrite Hen in He.
  cbn [negb andb] in He. destruct (Enabled b) eqn:Hb; [|done]. cbn [Bool.eqb negb] in He.
  apply andb_prop in He as [He Hr]. boolify. apply eqb_prop in H1. split; [done|].
  apply f_eq_rate in Hr; [|done..]. unfold spec_of. rewrite Hr. f_equal; [|done..].
  by apply or_default_http.
Qed.

Lemma equal_disabled a b : enabled a = false → otelConfigEqual a b = true → enabled b = false.
Proof.
  intros Ha. unfold otelConfigEqual. rewrite Ha. cbn. by destruct (enabled b).
Qed.

(** On such configurations the comparison is an equivalence. *)
Lemma f_eq_refl r : f_nan r = false → f_eq r r = true.
Proof. intros Hn. unfold f_eq. by rewrite Hn, Z.eqb_refl. Qed.

Lemma rate_of_nan r : f_nan r = false → f_nan (rate_of r) = false.
Proof. unfold rate_of. by destruct (f_le0 r). Qed.

Lemma otelConfigEqual_refl a : rated a → otelConfigEqual a a = true.
Proof.
  destruct a as [a|]; [|done]. intros [_ Hn]. unfold otelConfigEqual. cbn [enabled].
  destruct (Enabled a); [|done]. cbn.
  rewrite !String.eqb_refl, Bool.eqb_reflx, f_eq_refl by (by apply rate_of_nan). done.
Qed.

(** ** The invariant *)

Definition current_list (g : otel) : list provider :=
  match globalTracerProvider g with Some p => [p] | None => [] end.
Definition snapshot_of (tp : option provider) : otelState :=
  match tp with Some p => mkState (TracerOf p) true | None => mkState NoopTracer false end.

(** The snapshot and the provider belong together, the provider to the
    configuration, and every provider ever built is the current one, waiting to
    be shut down or shut down, exactly once. *)
Definition otel_wf (g : otel) : Prop :=
  currentState g = snapshot_of (globalTracerProvider g) ∧
  tp_id <$> (current_list g ++ detached g ++ closed g) ≡ₚ seq 0 (built g) ∧
  match globalTracerProvider g with
  | Some p => ∃ c, globalOtelConfig g = Some c ∧ Enabled c = true ∧ tp_spec p = spec_of c
  | None => enabled (globalOtelConfig g) = false
  end.

Lemma detach_ids g :
  detach (globalTracerProvider g) (detached g) = current_list g ++ detached g.
Proof. unfold detach, current_list. by destruct (globalTracerProvider g). Qed.

Section Invariant.
Context {OE : OtelEnv}.

Lemma init_wf cfg g o g' : InitOtelTracer cfg g = (o, g') → otel_wf g → otel_wf g'.
Proof.
  unfold InitOtelTracer. intros Hi (W1 & W2 & W3).
  destruct (otelConfigEqual _ _); [by injection Hi as _ <-|].
  unfold buildOtelProvider in Hi. destruct cfg as [c|].
  2:{ injection Hi as _ <-. split_and!; [done| |done]. cbn. rewrite detach_ids.
      by rewrite <- app_assoc. }
  destruct (Enabled c) eqn:Hc; cbn [negb] in Hi.
  2:{ injection Hi as _ <-. split_and!; [done| |done]. cbn. rewrite detach_ids.
      by rewrite <- app_assoc. }
  destruct (exporter_fails _ _); [by injection Hi as _ <-|].
  destruct (resource_fails _ _); [by injection Hi as _ <-|].
  injection Hi as _ <-. split_and!; [done| |by exists c].
  cbn [current_list globalTracerProvider detached closed built]. rewrite detach_ids, seq_S.
  rewrite <- app_assoc, <- W2. cbn. apply Permutation_cons_append.
Qed.

Lemma shutdown_wf f g : otel_wf g → otel_wf (run_shutdown f g).
Proof.
  destruct f; [done|]. intros (W1 & W2 & W3). split_and!; [done| |done].
  cbn. rewrite detach_ids. by rewrite <- app_assoc.
Qed.

Lemma filter_ids_perm (tp : provider) (l : list provider) :
  tp ∈ l → NoDup (tp_id <$> l) →
  tp_id tp :: (tp_id <$> filter (λ p, tp_id p ≠ tp_id tp) l) ≡ₚ tp_id <$> l.
Proof.
  induction l as [|p l IH]; [by intros ?%elem_of_nil|]. rewrite elem_of_cons, fmap_cons, NoDup_cons.
  intros [->|Hin] [Hp Hn].
  - rewrite filter_cons_False by (intros H; by apply H). rewrite filter_keep; [done|].
    intros q Hq He. apply Hp. rewrite <- He. by apply list_elem_of_fmap_2.
  - rewrite filter_cons_True. { cbn. rewrite <- (IH Hin Hn). apply perm_swap. }
    intros He. apply Hp. rewrite He. by apply list_elem_of_fmap_2.
Qed.

Lemma teardown_wf tp g : tp ∈ detached g → otel_wf g → otel_wf (shutdownProvider tp g).
Proof.
  intros Hin (W1 & W2 & W3). split_and!; [done| |done].
  cbn [shutdownProvider detached closed current_list globalTracerProvider built].
  change (match globalTracerProvider g with Some p => [p] | None => [] end) with (current_list g).
  assert (NoDup (tp_id <$> (current_list g ++ detached g ++ closed g))) as Hn
    by (rewrite W2; apply NoDup_seq).
  rewrite !fmap_app in *. rewrite <- W2. apply Permutation_app_head.
  apply NoDup_app in Hn as (_ & _ & Hn). apply NoDup_app in Hn as (Hn & _ & _).
  rewrite <- (filter_ids_perm tp (detached g)) by done. cbn. symmetry. apply Permutation_middle.
Qed.

Lemma otel_step_wf g g' : otel_step g g' → otel_wf g → otel_wf g'.
Proof. intros [cfg g1 o g2 Hi|f g1|tp g1 Hin]; eauto using init_wf, shutdown_wf, teardown_wf. Qed.

(** C31. The tracing state is well formed in every interleaving of
    initialisations, shutdowns and teardowns: the snapshot a connection reads is
    active exactly when there is a provider and carries that provider's tracer,
    the provider is the one the stored configuration describes, it is neither
    shut down nor about to be, and every provider ever built is the current one,
    detached or shut down, once. *)
Theorem otel_states_wf g :
  rtc otel_step otel_init g →
  otel_wf g ∧
  ∀ tp, GetOtelTracer g = TracerOf tp →
    IsOtelActive g = true ∧ globalTracerProvider g = Some tp ∧
    tp_id tp ∉ tp_id <$> detached g ∧ tp_id tp ∉ tp_id <$> closed g.
Proof.
  intros Hr. assert (otel_wf g) as W.
  { assert (otel_wf otel_init) as W0 by (by split_and!). revert W0.
    induction Hr as [|g1 g2 g3 Hs _ IH]; [done|]. intros W. apply IH. by eapply otel_step_wf. }
  split; [done|]. intros tp Ht. destruct W as (W1 & W2 & W3).
  unfold IsOtelActive, GetOtelTracer in *. rewrite W1 in *. unfold snapshot_of in *.
  destruct (globalTracerProvider g) as [p|] eqn:Ep; [|done]. cbn in *. injection Ht as ->.
  assert (NoDup (tp_id <$> (current_list g ++ detached g ++ closed g))) as Hn by (rewrite W2; apply NoDup_seq).
  unfold current_list in Hn. rewrite Ep in Hn. cbn in Hn. apply NoDup_cons in Hn as [Hn _].
  rewrite fmap_app, elem_of_app in Hn. tauto.
Qed.

(** InitOtelTracer does what its specification says: on an error the
    published snapshot, the provider and the configuration stay as they were; a
    configuration equal to the one in force changes nothing at all; otherwise an
    enabled configuration is in force with the provider it describes and a
    disabled one leaves no provider and an inactive snapshot. *)
Theorem InitOtelTracer_contract cfg g :
  otel_wf g → rated (globalOtelConfig g) →
  let '(o, g') := InitOtelTracer cfg g in
  match o with
  | Panic => False
  | Err _ => currentState g' = currentState g ∧ globalTracerProvider g' = globalTracerProvider g ∧
             globalOtelConfig g' = globalOtelConfig g ∧ detached g' = detached g
  | Ok f =>
      (otelConfigEqual (globalOtelConfig g) cfg = true → g' = g) ∧
      match cfg with
      | Some c => if Enabled c
          then f = ShutdownCurrent ∧ IsOtelActive g' = true ∧
               ∃ tp, globalTracerProvider g' = Some tp ∧ GetOtelTracer g' = TracerOf tp ∧ tp_spec tp = spec_of c
          else f = ShutdownNothing ∧ IsOtelActive g' = false ∧ GetOtelTracer g' = NoopTracer
      | None => f = ShutdownNothing ∧ IsOtelActive g' = false ∧ GetOtelTracer g' = NoopTracer
      end
  end.
Proof.
  intros W Hrt. pose proof (init_wf cfg g) as Hwf. destruct W as (W1 & W2 & W3).
  unfold InitOtelTracer in *. destruct (otelConfigEqual (globalOtelConfig g) cfg) eqn:Heq.
  - split; [done|]. unfold IsOtelActive, GetOtelTracer. rewrite W1. unfold snapshot_of.
    destruct (globalTracerProvider g) as [tp|].
    + destruct W3 as (c0 & Hc0 & Hen0 & Hsp). rewrite Hc0 in *.
      destruct cfg as [c|]; [|unfold otelConfigEqual in Heq; cbn in Heq; by rewrite Hen0 in Heq].
      destruct (equal_spec c0 c Hrt Heq Hen0) as [Hen Hs]. rewrite Hen. cbn. rewrite Hen.
      split_and!; [done..|]. exists tp. by rewrite Hsp, Hs.
    + apply equal_disabled in Heq; [|done]. destruct cfg as [c|]; [|done]. cbn in Heq. by rewrite Heq; cbn; rewrite Heq.
  - unfold buildOtelProvider in *. destruct cfg as [c|]; [|done].
    destruct (Enabled c); cbn [negb] in *; [|done].
    destruct (exporter_fails _ _); [done|]. destruct (resource_fails _ _); [done|].
    split; [done|]. split_and!; [done..|]. by exists (mkTP (built g) (spec_of c)).
Qed.

(** A provider that a reload brings up after a start without tracing is not shut
    down by the function the start obtained. *)
Lemma reload_provider_not_shut_down c g1 g2 f :
  Enabled c = true →
  InitOtelTracer None otel_init = (f, g1) → (InitOtelTracer (Some c) g1).1 = Ok ShutdownCurrent →
  (InitOtelTracer (Some c) g1).2 = g2 →
  f = Ok ShutdownNothing ∧ ∃ tp, globalTracerProvider (run_shutdown ShutdownNothing g2) = Some tp ∧
    detached g2 = [] ∧ closed g2 = [].
Proof.
  intros Hc [= <- <-] Ho <-. split; [done|]. unfold InitOtelTracer in *. cbn [globalOtelConfig otel_init] in *.
  unfold otelConfigEqual in *. cbn [enabled] in *. rewrite Hc in *. cbn in *. rewrite Hc in *. cbn in *.
  destruct (exporter_fails _ _); [done|]. destruct (resource_fails _ _); [done|]. cbn. eauto.
Qed.

End Invariant.

(** A collector that is reachable; tracing is switched on, changed and stopped. *)
#[local] Instance ex_otel : OtelEnv := {| exporter_fails := λ _ _, false; resource_fails := λ _ _, false |}.
Definition ex_cfg (endpoint : string) : OtelConfig := mkOtel true endpoint "HTTP" true "" 0 false.
Definition ex_otel_1 : otel := (InitOtelTracer (Some (ex_cfg "")) otel_init).2.
Definition ex_otel_2 : otel := (InitOtelTracer (Some (ex_cfg "a:1")) ex_otel_1).2.

Lemma otel_states_wf_witness :
  rtc otel_step otel_init (shutdownProvider (mkTP 0 (spec_of (ex_cfg ""))) ex_otel_2) ∧
  otel_wf (shutdownProvider (mkTP 0 (spec_of (ex_cfg ""))) ex_otel_2).
Proof.
  assert (rtc otel_step otel_init (shutdownProvider (mkTP 0 (spec_of (ex_cfg ""))) ex_otel_2)) as Hr.
  { eapply rtc_l; [by eapply (step_init (Some (ex_cfg "")))|].
    eapply rtc_l; [by eapply (step_init (Some (ex_cfg "a:1")))|].
    eapply rtc_l; [apply step_teardown|apply rtc_refl].
    assert (detached ex_otel_2 = [mkTP 0 (spec_of (ex_cfg ""))]) as Hd by (vm_compute; reflexivity).
    change (mkTP 0 (spec_of (ex_cfg "")) ∈ detached ex_otel_2). rewrite Hd. by left. }
  split; [exact Hr|]. apply (otel_states_wf _ Hr).
Defined.

Lemma InitOtelTracer_contract_witness :
  otel_wf ex_otel_1 ∧ rated (globalOtelConfig ex_otel_1) ∧
  (InitOtelTracer (Some (ex_cfg "localhost:4317")) ex_otel_1).2 = ex_otel_1 ∧
  IsOtelActive ex_otel_1 = true.
Proof.
  assert (otel_wf ex_otel_1) as W.
  { eapply (init_wf (Some (ex_cfg "")) otel_init); [reflexivity|]. by split_and!. }
  assert (rated (globalOtelConfig ex_otel_1)) as R by (split; [vm_compute; split; [discriminate|reflexivity]|reflexivity]).
  split; [exact W|]. split; [exact R|].
  pose proof (InitOtelTracer_contract (Some (ex_cfg "localhost:4317")) ex_otel_1 W R) as H.
  destruct (InitOtelTracer (Some (ex_cfg "localhost:4317")) ex_otel_1) as [o g'] eqn:E.
  assert (o = Ok ShutdownCurrent) as Ho by (apply (f_equal fst) in E; vm_compute in E; exact (eq_sym E)).
  rewrite Ho in H. destruct H as [H _]. cbn [snd]. split; [|vm_compute; reflexivity].
  apply H. vm_compute. reflexivity.
Defined.

(** ** Warnings of the exporter are at least 30 seconds apart *)

Lemma handle_sys_inv s s' :
  handle_sys s s' →
  UdpProxy.spaced 30 (0 :: h_warned s) ∧ last (0 :: h_warned s) = Some (h_last s) →
  UdpProxy.spaced 30 (0 :: h_warned s') ∧ last (0 :: h_warned s') = Some (h_last s').
Proof.
  intros [s1 now|s1 i pc last' pc' Hi Hs]; [done|]. intros [Hsp Hl].
  destruct pc as [now|now prev|b]; cbn [handle_step] in Hs; [by simplify_eq| |by simplify_eq].
  destruct (Z.leb_spec 30 (now - prev)); [|by simplify_eq].
  destruct (Z.eqb_spec (h_last s1) prev); [|by simplify_eq].
  injection Hs as <- <-. cbn [h_warned h_last].
  change (0 :: h_warned s1 ++ [now]) with ((0 :: h_warned s1) ++ [now]). split.
  - eapply UdpProxy.spaced_snoc; [done..|lia].
  - by rewrite last_snoc.
Qed.

Lemma warnings_spaced s i j x y :
  rtc handle_sys (mkHlog 0 [] []) s → (i < j)%nat →
  h_warned s !! i = Some x → h_warned s !! j = Some y → x + 30 ≤ y.
Proof.
  intros Hr Hij Hx Hy.
  assert (UdpProxy.spaced 30 (0 :: h_warned s) ∧ last (0 :: h_warned s) = Some (h_last s)) as [Hs _].
  { remember (mkHlog 0 [] []) as s0 eqn:E.
    assert (UdpProxy.spaced 30 (0 :: h_warned s0) ∧ last (0 :: h_warned s0) = Some (h_last s0)) as H0
      by (subst; split; [by intros [|k] a b|done]).
    clear E Hx Hy. induction Hr as [|s0 s1 s2 Hs Hr IH]; [done|]. apply IH. by eapply handle_sys_inv. }
  by apply (UdpProxy.spaced_trans 30 (0 :: h_warned s) (S i) (S j)); [|done|lia|..].
Qed.

End Otel.
