(* ===== verification/Web.v ===== *)
(** * The web console: src/internal/web.go

    The handlers of the management interface.  A request is its method, its URL
    path and its body; the response says what is sent.  [path.Clean] and the
    validity test of [io/fs] are modelled, files are answered by the environment
    ([WebEnv]), and encoding and decoding of JSON are parameters.  Saving a
    configuration composes the updates of the handler and of telemetry. *)

From S2P Require Import Prelude GoStrings GoNet Router ServerManager Rewrite Trace Config Listeners Otel.

Module Web.

(** ** Package path *)

(** Elements of a path, shortest form: [.] and empty elements disappear, [..]
    takes the element before it away.  [stack] is reversed. *)
Fixpoint clean_elems (rooted : bool) (stack : list string) (es : list string) : list string :=
  match es with
  | [] => stack
  | e :: es =>
      clean_elems rooted
        (if String.eqb e "" || String.eqb e "." then stack
         else if String.eqb e ".." then
           match stack with
           | x :: st => if String.eqb x ".." then ".." :: stack else st
           | [] => if rooted then [] else [".."]
           end
         else e :: stack) es
  end.

Definition Clean (p : string) : string :=
  if String.eqb p "" then "."
  else
    let rooted := Strings.HasPrefix p "/" in
    let body := Strings.Join (reverse (clean_elems rooted [] (Strings.Split p "/"))) "/" in
    if rooted then "/" +:+ body else if String.eqb body "" then "." else body.

(** [filepath.Join(dir, name)] of two non-empty elements and [filepath.Dir]. *)
Definition FJoin (dir name : string) : string := Clean (dir +:+ "/" +:+ name).
Definition FDir (p : string) : string :=
  match Strings.LastIndexByte p "/" with Some i => Clean (stake (S i) p) | None => "." end.

(** ** fs.ValidPath *)

Definition in_range (lo hi : Z) (b : byte) : bool := (lo <=? u8 b) && (u8 b <=? hi).
Definition cont (b : byte) : bool := in_range 128 191 b.

Fixpoint ValidUTF8 (l : list byte) : bool :=
  match l with
  | [] => true
  | a :: l1 =>
      if u8 a <? 128 then ValidUTF8 l1
      else match l1 with
      | [] => false
      | b :: l2 =>
          if in_range 194 223 a then cont b && ValidUTF8 l2
          else match l2 with
          | [] => false
          | c :: l3 =>
              if in_range 224 224 a then in_range 160 191 b && cont c && ValidUTF8 l3
              else if in_range 237 237 a then in_range 128 159 b && cont c && ValidUTF8 l3
              else if in_range 225 239 a then cont b && cont c && ValidUTF8 l3
              else match l3 with
              | [] => false
              | d :: l4 =>
                  if in_range 240 240 a then in_range 144 191 b && cont c && cont d && ValidUTF8 l4
                  else if in_range 244 244 a then in_range 128 143 b && cont c && cont d && ValidUTF8 l4
                  else if in_range 241 243 a then cont b && cont c && cont d && ValidUTF8 l4
                  else false
              end
          end
      end
  end.

Definition valid_elem (e : string) : bool :=
  negb (String.eqb e "") && negb (String.eqb e ".") && negb (String.eqb e "..").
Definition ValidPath (name : string) : bool :=
  ValidUTF8 (to_bytes name) && (String.eqb name "." || forallb valid_elem (Strings.Split name "/")).

(** ** The environment *)

(** A file system: [Some true] is a directory, [Some false] another file. *)
Definition FSys : Type := string → option bool.

Class WebEnv := {
  os_stat : string → option bool;
  os_executable : option string;
  DirFS : string → FSys;
  embeddedDist : option FSys }.

Section Frontend.
Context {WE : WebEnv}.

(** A directory with an index file. *)
Definition usable_dist (dir : string) : bool :=
  match os_stat dir with
  | Some true => match os_stat (FJoin dir "index.html") with Some _ => true | None => false end
  | _ => false
  end.

Definition candidates : list string :=
  ["frontend/dist"; "./dist"; "/usr/local/share/vproxy/frontend/dist"; "/usr/local/share/vproxy/dist"] ++
  match os_executable with
  | Some exe =>
      let exeDir := FDir exe in
      [FJoin exeDir "frontend/dist"; FJoin exeDir "dist";
       FJoin (FDir exeDir) "share/vproxy/frontend/dist"; FJoin (FDir exeDir) "share/vproxy/dist"]
  | None => []
  end.

(** The empty string stands for none, as in the source. *)
Definition findFrontendDistDir (customDistDir : string) : string :=
  if negb (String.eqb customDistDir "")
  then (if usable_dist customDistDir then customDistDir else "")
  else default "" (List.find usable_dist candidates).

Definition hasIndex (fsys : FSys) : bool :=
  match fsys "index.html" with Some isdir => negb isdir | None => false end.

Definition resolveFrontendFS (customDistDir : string) : option FSys :=
  let on_disk := let dir := findFrontendDistDir customDistDir in
                 if String.eqb dir "" then None else Some (DirFS dir) in
  if negb (String.eqb customDistDir "") then on_disk
  else match embeddedDist with
       | Some e => if hasIndex e then Some e else on_disk
       | None => on_disk
       end.

(** ** handleIndex *)

(** What is sent: a file, a directory (its index or a listing), an error of opening,
    a redirection, a refusal, and what the handler itself answers. *)
Inductive page :=
  | ServeFile (fsys : FSys) (name : string) | ServeDir (fsys : FSys) (name : string) | Missing (name : string)
  | RedirectedTo (location : string) | BadRequest | NotFound | BuiltinPage.

(** The elements of a path, a backslash counting as a slash. *)
Definition slash_elems (p : string) : list string := flat_map (λ e, Strings.Split e "\") (Strings.Split p "/").

(** [http.ServeFileFS], as documented: a URL path with a dot-dot element is refused and
    one that ends in /index.html is sent to its directory, whatever the name. *)
Definition ServeFileFS (urlPath : string) (fsys : FSys) (name : string) : page :=
  if existsb (String.eqb "..") (slash_elems urlPath) then BadRequest
  else if Strings.HasSuffix urlPath "/index.html" then RedirectedTo "./"
  else match fsys name with
       | Some false => ServeFile fsys name
       | Some true => ServeDir fsys name
       | None => Missing name
       end.

Definition rel_path (urlPath : string) : string := Strings.TrimPrefix (Clean ("/" +:+ urlPath)) "/".

Definition handleIndex (customDistDir urlPath : string) : page :=
  match resolveFrontendFS customDistDir with
  | Some fsys =>
      let rel := rel_path urlPath in
      if negb (String.eqb rel "") && ValidPath rel &&
         match fsys rel with Some isdir => negb isdir | None => false end
      then ServeFileFS urlPath fsys rel
      else ServeFileFS urlPath fsys "index.html"
  | None => if negb (String.eqb urlPath "/") then NotFound else BuiltinPage
  end.

End Frontend.

(** ** handleTraces *)

Inductive traces_reply := TracesError (code : Z) | SendTraces (l : list Trace.TraceEntry).
Definition handleTraces (webMemoryTrace : option Trace.MemoryTraceFormatter) : traces_reply :=
  match webMemoryTrace with
  | None => TracesError 500
  | Some m => SendTraces (Trace.GetTraces m)
  end.

(** ** handleConfig *)

Inductive reply := Status (code : Z) | SendConfig (c : Config.Config) | Saved.

Class ConfigCodec := {
  decode_config : list byte → option Config.Config;
  encode_config : Config.Config → option (list byte) }.

Section Config.
Context `{RE : Rewrite.Regexp} {OE : Otel.OtelEnv} {CC : ConfigCodec}.

Record web := mkWeb {
  w_config : Config.Config;
  w_file : list byte;
  w_handler : option Listeners.Handler;
  w_otel : Otel.otel }.

(** [broken] are the contents a failed os.WriteFile leaves behind. *)
Definition handleConfig (broken : option (list byte)) (method : string) (body : list byte) (w : web) : reply * web :=
  if String.eqb method "GET" then (SendConfig (w_config w), w)
  else if String.eqb method "POST" then
    match decode_config body with
    | None => (Status 400, w)
    | Some newCfg =>
        match encode_config newCfg with
        | None => (Status 500, w)
        | Some data =>
            match broken with
            | Some junk => (Status 500, mkWeb (w_config w) junk (w_handler w) (w_otel w))
            | None =>
              let h := match w_handler w with
                       | Some h =>
                           let h := Listeners.UpdateRules h (Config.Rules newCfg)
                                      (match Config.DirectDNS newCfg with Some d => d | None => true end) in
                           Some (Listeners.UpdateServers h (Config.Upstreams newCfg))
                       | None => None
                       end in
              let '(_, o) := Otel.InitOtelTracer (Config.Otel newCfg) (w_otel w) in
              (Saved, mkWeb newCfg data h o)
            end
        end
    end
  else (Status 405, w).

End Config.

(** ** StartWebServer

    The requests are told apart by the multiplexer of net/http, which sends a client
    with an unclean path to the clean one; a clean path keeps its last slash. *)

Definition clean_path (p : string) : string :=
  if String.eqb p "" then "/"
  else
    let np := Clean (if Strings.HasPrefix p "/" then p else "/" +:+ p) in
    if Strings.HasSuffix p "/" && negb (String.eqb np "/") then np +:+ "/" else np.

Inductive dispatched := MovedTo (path : string) | ToTraces | ToConfig | ToIndex.

Definition dispatch (path : string) : dispatched :=
  if negb (String.eqb (clean_path path) path) then MovedTo (clean_path path)
  else if String.eqb path "/api/traces" then ToTraces
  else if String.eqb path "/api/config" then ToConfig
  else ToIndex.

(** The address that is listened on. *)
Definition listen_address (webPort : Z) : string := ":" +:+ Strconv.Itoa webPort.

(** ** The console never leaves its directory *)

Lemma clean_elems_valid stack es :
  Forall (λ e, valid_elem e = true) stack → Forall (λ e, valid_elem e = true) (clean_elems true stack es).
Proof.
  revert stack. induction es as [|e es IH]; intros stack Hs; [done|]. cbn [clean_elems]. apply IH.
  destruct (String.eqb e "") eqn:E1; [done|]. destruct (String.eqb e ".") eqn:E2; [done|]. cbn [orb].
  destruct (String.eqb e "..") eqn:E3; [|by constructor; [unfold valid_elem; rewrite E1, E2, E3|]].
  destruct Hs as [|x st Hx Hst]; [done|].
  destruct (String.eqb x "..") eqn:E4; [|done]. exfalso. unfold valid_elem in Hx. rewrite E4, !andb_false_r in Hx. done.
Qed.

Lemma clean_elems_subset rooted stack es e :
  e ∈ clean_elems rooted stack es → e ∈ stack ∨ e ∈ es ∨ e = "..".
Proof.
  revert stack. induction es as [|x es IH]; intros stack; cbn [clean_elems]; [by left|].
  intros [H|[H|H]]%IH; [|set_solver..]. repeat case_match; set_solver.
Qed.

(** Cleaning a path that is clean already. *)
Lemma clean_elems_id stack es :
  Forall (λ e, valid_elem e = true) es → clean_elems true stack es = reverse es ++ stack.
Proof.
  revert stack. induction es as [|e es IH]; intros stack He; [done|]. apply Forall_cons in He as [H1 H2].
  cbn [clean_elems]. unfold valid_elem in H1. boolify.
  destruct (String.eqb_spec e ""), (String.eqb_spec e "."), (String.eqb_spec e ".."); try done. cbn [orb].
  rewrite IH by done. by rewrite reverse_cons, <- app_assoc.
Qed.

Definition url_elems (urlPath : string) : list string :=
  reverse (clean_elems true [] (Strings.Split urlPath "/")).

Lemma rel_path_elems urlPath : rel_path urlPath = Strings.Join (url_elems urlPath) "/".
Proof.
  unfold rel_path, Clean, url_elems. change ("/" +:+ urlPath) with (String "/" urlPath).
  change (String.eqb (String "/" urlPath) "") with false.
  assert (Strings.HasPrefix (String "/" urlPath) "/" = true) as -> by (apply Strings.HasPrefix_spec; by exists urlPath).
  cbv iota zeta.
  rewrite Strings.TrimPrefix_app. do 2 f_equal.
Qed.

Lemma url_elems_valid urlPath e :
  e ∈ url_elems urlPath → valid_elem e = true ∧ "/"%char ∉ to_bytes e.
Proof.
  unfold url_elems. rewrite elem_of_reverse. intros He.
  assert (valid_elem e = true) as Hv.
  { pose proof (clean_elems_valid [] (Strings.Split urlPath "/") (Forall_nil_2 _)) as H.
    rewrite Forall_forall in H. by apply H. }
  split; [done|]. apply clean_elems_subset in He as [He|[He| ->]]; [by apply elem_of_nil in He| |done].
  by eapply Strings.Split_elem_no_sep.
Qed.

(** What is left of a URL path is empty or a sequence of proper elements. *)
Lemma rel_path_split urlPath :
  rel_path urlPath ≠ "" → Strings.Split (rel_path urlPath) "/" = url_elems urlPath.
Proof.
  intros Hr. rewrite rel_path_elems in *. apply Strings.Split_Join.
  - intros H. by rewrite H in Hr.
  - intros e He. by apply (url_elems_valid urlPath e).
Qed.

Lemma rel_path_proper urlPath :
  rel_path urlPath = "" ∨ forallb valid_elem (Strings.Split (rel_path urlPath) "/") = true.
Proof.
  destruct (decide (rel_path urlPath = "")) as [|Hr]; [by left|right].
  rewrite rel_path_split by done. apply forallb_forall. intros e He.
  apply url_elems_valid with urlPath. by apply list_elem_of_In.
Qed.

(** Cleaning is idempotent. *)
Lemma rel_path_idem urlPath : rel_path (rel_path urlPath) = rel_path urlPath.
Proof.
  destruct (decide (rel_path urlPath = "")) as [->|Hr]; [vm_compute; reflexivity|].
  rewrite (rel_path_elems (rel_path urlPath)). unfold url_elems.
  rewrite rel_path_split, clean_elems_id, app_nil_r, reverse_involutive by
    (done || (apply Forall_forall; intros e He; by destruct (url_elems_valid _ _ He))).
  by rewrite <- rel_path_elems.
Qed.

Section Confined.
Context {WE : WebEnv}.

(** The name that is asked for. *)
Definition served_name (fsys : FSys) (urlPath : string) : string :=
  if decide (rel_path urlPath ≠ "" ∧ ValidUTF8 (to_bytes (rel_path urlPath)) = true ∧ fsys (rel_path urlPath) = Some false)
  then rel_path urlPath else "index.html".

Lemma handleIndex_serves customDistDir urlPath fsys :
  resolveFrontendFS customDistDir = Some fsys →
  handleIndex customDistDir urlPath = ServeFileFS urlPath fsys (served_name fsys urlPath).
Proof.
  intros Hf. unfold handleIndex, served_name. rewrite Hf. cbv zeta. unfold ValidPath.
  destruct (decide (rel_path urlPath = "")) as [E|E].
  { rewrite decide_False by (by intros [? _]). by rewrite E. }
  destruct (rel_path_proper urlPath) as [|Hp]; [done|]. rewrite Hp, orb_true_r, andb_true_r.
  rewrite (proj2 (String.eqb_neq _ _) E). cbn [negb andb].
  destruct (ValidUTF8 _); cbn [andb]; [|by rewrite decide_False by naive_solver].
  destruct (fsys (rel_path urlPath)) as [[]|]; cbn [negb]; [by rewrite decide_False by naive_solver|by rewrite decide_True|].
  by rewrite decide_False by naive_solver.
Qed.

Lemma served_name_proper fsys urlPath :
  forallb valid_elem (Strings.Split (served_name fsys urlPath) "/") = true ∧
  (served_name fsys urlPath = "index.html" ∨
   served_name fsys urlPath = rel_path urlPath ∧ fsys (rel_path urlPath) = Some false).
Proof.
  unfold served_name. case_decide as H; [|by split; [|left]]. destruct H as (Hn & _ & Hf).
  destruct (rel_path_proper urlPath) as [|Hp]; [done|]. by split; [|right].
Qed.

(** C30. The console opens names below its own directory only.  With a front end, for
    every URL path: whatever is sent is sent from that front end, under a relative name
    without dot, dot-dot or empty elements, which is the cleaned path of a regular file
    or the index page.  A path with a dot-dot element (between slashes or backslashes)
    is refused with 400, one that ends in /index.html is redirected to its directory;
    any other path that, cleaned, is valid UTF-8 and names a regular file is answered
    with that file, and every other one with the index page where it is a file.
    Without a front end only the root page is answered.  Links inside the directory
    are followed, as os.DirFS does. *)
Theorem handleIndex_confined customDistDir urlPath :
  match resolveFrontendFS customDistDir with
  | Some fsys =>
      (∀ fsys' name, handleIndex customDistDir urlPath = ServeFile fsys' name ∨
                     handleIndex customDistDir urlPath = ServeDir fsys' name →
         fsys' = fsys ∧ forallb valid_elem (Strings.Split name "/") = true ∧
         (name = "index.html" ∨ (name = rel_path urlPath ∧ fsys name = Some false))) ∧
      (".." ∈ slash_elems urlPath → handleIndex customDistDir urlPath = BadRequest) ∧
      (".." ∉ slash_elems urlPath →
         (Strings.HasSuffix urlPath "/index.html" = true → handleIndex customDistDir urlPath = RedirectedTo "./") ∧
         (Strings.HasSuffix urlPath "/index.html" = false →
            let asked := rel_path urlPath ≠ "" ∧ ValidUTF8 (to_bytes (rel_path urlPath)) = true ∧
                         fsys (rel_path urlPath) = Some false in
            (asked → handleIndex customDistDir urlPath = ServeFile fsys (rel_path urlPath)) ∧
            (¬ asked → fsys "index.html" = Some false →
               handleIndex customDistDir urlPath = ServeFile fsys "index.html")))
  | None => handleIndex customDistDir urlPath = (if String.eqb urlPath "/" then BuiltinPage else NotFound)
  end.
Proof.
  destruct (resolveFrontendFS customDistDir) as [fsys|] eqn:Hf;
    [|unfold handleIndex; rewrite Hf; by destruct (String.eqb urlPath "/")].
  rewrite (handleIndex_serves _ urlPath fsys Hf). destruct (served_name_proper fsys urlPath) as [Hp Hn].
  unfold ServeFileFS. destruct (existsb (String.eqb "..") (slash_elems urlPath)) eqn:Hd.
  - apply existsb_exists in Hd as (e & He & ->%String.eqb_eq). apply list_elem_of_In in He.
    split; [by intros ?? [?|?]|]. split; [done|]. intros Hno. by destruct Hno.
  - assert (".." ∉ slash_elems urlPath) as Hno.
    { intros He%list_elem_of_In. apply not_true_iff_false in Hd. apply Hd, existsb_exists. by exists "..". }
    destruct (Strings.HasSuffix urlPath "/index.html") eqn:Hs.
    { split; [by intros ?? [?|?]|]. split; [by intros|]. by split. }
    split_and!; [|by intros|intros _; split; [done|intros _]].
    + intros fsys' name Ho. assert (fsys' = fsys ∧ name = served_name fsys urlPath) as [-> ->].
      { destruct (fsys (served_name fsys urlPath)) as [[]|]; destruct Ho; by simplify_eq. }
      split_and!; [done|done|]. destruct Hn as [Hn|[Hn Hr]]; [by left|right]. by rewrite Hn.
    + unfold served_name. split; [intros Ha|intros Ha Hi].
      * rewrite decide_True by done. destruct Ha as (_ & _ & Hr). by rewrite Hr.
      * rewrite decide_False by done. by rewrite Hi.
Qed.

End Confined.

Example traversal : rel_path "/../../etc/passwd" = "etc/passwd" ∧ rel_path "a//./b/../c.js" = "a/c.js".
Proof. split; vm_compute; reflexivity. Qed.

(** The two interfaces are reached by their exact paths only. *)
Lemma dispatch_exact path :
  (dispatch path = ToTraces ↔ path = "/api/traces") ∧ (dispatch path = ToConfig ↔ path = "/api/config").
Proof.
  unfold dispatch. split; split.
  - intros H. repeat case_match; try done. by apply String.eqb_eq.
  - intros ->. vm_compute. reflexivity.
  - intros H. repeat case_match; try done. by apply String.eqb_eq.
  - intros ->. vm_compute. reflexivity.
Qed.

(** The console listens on every interface: the host of its address is empty. *)
Lemma console_on_all_interfaces webPort :
  0 ≤ webPort → Net.SplitHostPort (listen_address webPort) = Some ("", Strconv.Itoa webPort).
Proof.
  intros H. change (listen_address webPort) with (Net.JoinHostPort "" (Strconv.Itoa webPort)).
  assert (∀ c, is_digit c = false → c ∉ to_bytes (Strconv.Itoa webPort)) as Hd.
  { intros c Hc Hin. apply (Strconv.Itoa_digits _ _ H) in Hin. congruence. }
  apply Net.SplitHostPort_JoinHostPort; [by intros ?%elem_of_nil..| | |]; by apply Hd.
Qed.

(** ** Saving a configuration *)

Section Saving.
Context `{RE : Rewrite.Regexp} {OE : Otel.OtelEnv} {CC : ConfigCodec}.

(** A request that is not answered with success leaves the running configuration,
    the handler and telemetry alone. *)
Lemma handleConfig_refused broken method body w :
  let '(r, w') := handleConfig broken method body w in
  r ≠ Saved → w_config w' = w_config w ∧ w_handler w' = w_handler w ∧ w_otel w' = w_otel w.
Proof. unfold handleConfig. repeat (case_match; simplify_eq/=; try done). Qed.

(** A saved configuration is running and is what the file decodes to. *)
Lemma handleConfig_saved broken method body w w' :
  (∀ c data, encode_config c = Some data → decode_config data = Some c) →
  handleConfig broken method body w = (Saved, w') →
  method = "POST" ∧ decode_config body = Some (w_config w') ∧ decode_config (w_file w') = Some (w_config w') ∧
  ∀ h', w_handler w' = Some h' →
    Listeners.rm h' = Some (Router.SetDirectDNS (Router.NewRuleManager (Config.Rules (w_config w')))
      (default true (Config.DirectDNS (w_config w')))).
Proof.
  intros Hrt. unfold handleConfig. intros H.
  destruct (String.eqb method "GET"); [done|]. destruct (String.eqb_spec method "POST") as [->|]; [|done].
  destruct (decode_config body) as [c|] eqn:Ed; [|done].
  destruct (encode_config c) as [data|] eqn:Ee; [|done]. destruct broken; [done|].
  destruct (Otel.InitOtelTracer _ _) as [? o]. injection H as <-. cbn. split_and!; [done..|by apply Hrt|].
  destruct (w_handler w) as [h|]; [|done]. intros h' [= <-]. cbn. by destruct (Config.DirectDNS c).
Qed.

End Saving.

End Web.
