(* ===== verification/Runtime.v ===== *)
(** * Services of the process

    Version information (src/internal/version.go, printVersion of
    src/cmd/vproxy/main.go), the status report of src/internal/app.go, the control
    group (src/proxy/cgroup), the permission check and the mark of dialled sockets
    (src/proxy/ebpf/ebpf_linux.go), the PID file (src/internal/config.go), the test
    for a live process on Windows (src/cmd/vproxy/privilege_windows.go) and the
    bundled library of Wintun (src/internal/wintunruntime).  What the operating
    system answers is an argument or a class. *)

From S2P Require Import Prelude GoStrings Config Web.

Module Runtime.

(** ** Version *)

Record VersionInfo := mkInfo {
  Version : string; GitCommit : string; GitDirty : bool; BuildDate : string; GoVersion : string; Platform : string }.

(** What the Go runtime knows: its version, the platform and the build settings. *)
Class BuildEnv := { go_version : string; GOOS : string; GOARCH : string; build_info : option (list (string * string)) }.

Section Version.
Context {E : BuildEnv}.

(** The loop over the settings. *)
Definition setting (i : VersionInfo) (kv : string * string) : VersionInfo :=
  if String.eqb kv.1 "vcs.revision" then
    mkInfo (Version i) (if String.eqb (GitCommit i) "" then kv.2 else GitCommit i) (GitDirty i) (BuildDate i) (GoVersion i) (Platform i)
  else if String.eqb kv.1 "vcs.time" then
    mkInfo (Version i) (GitCommit i) (GitDirty i) (if String.eqb (BuildDate i) "" then kv.2 else BuildDate i) (GoVersion i) (Platform i)
  else if String.eqb kv.1 "vcs.modified" then
    mkInfo (Version i) (GitCommit i) (GitDirty i || String.eqb kv.2 "true") (BuildDate i) (GoVersion i) (Platform i)
  else i.

Definition short_commit (c : string) : string := if Nat.ltb 7 (slen c) then stake 7 c else c.

Definition named (i : VersionInfo) : VersionInfo :=
  if String.eqb (Version i) "" then
    let v := if negb (String.eqb (GitCommit i) "")
             then (if GitDirty i then short_commit (GitCommit i) +:+ "-dirty" else short_commit (GitCommit i))
             else "dev" in
    mkInfo v (GitCommit i) (GitDirty i) (BuildDate i) (GoVersion i) (Platform i)
  else i.

Definition buildVersionInfo (version commit date : string) : VersionInfo :=
  let info := mkInfo version commit false date go_version (GOOS +:+ "/" +:+ GOARCH) in
  named (match build_info with Some l => foldl setting info l | None => info end).

(** The variables that the linker sets, and the cached answer. *)
Record versions := mkVersions { v_Version : string; v_GitCommit : string; v_BuildDate : string; cachedInfo : option VersionInfo }.

Definition GetVersionInfo (s : versions) : VersionInfo * versions :=
  match cachedInfo s with
  | Some i => (i, s)
  | None =>
      let i := buildVersionInfo (v_Version s) (v_GitCommit s) (v_BuildDate s) in
      (i, mkVersions (v_Version s) (v_GitCommit s) (v_BuildDate s) (Some i))
  end.
Definition GetVersion (s : versions) : string := Version (GetVersionInfo s).1.
Definition ResetVersionForTesting (version commit date : string) (s : versions) : versions := mkVersions version commit date None.

Definition version_details (i : VersionInfo) : list string :=
  (if negb (String.eqb (GitCommit i) "")
   then ["commit: " +:+ GitCommit i +:+ (if GitDirty i then " (dirty)" else "")] else []) ++
  (if negb (String.eqb (BuildDate i) "") then ["built: " +:+ BuildDate i] else []) ++
  ["go: " +:+ GoVersion i; Platform i].

(** The line without its newline. *)
Definition printVersion (s : versions) : string :=
  let i := (GetVersionInfo s).1 in
  "vproxy version " +:+ Version i +:+ " (" +:+ Strings.Join (version_details i) ", " +:+ ")".

(** What an explicit value overrides. *)
Lemma setting_keeps i kv :
  Version (setting i kv) = Version i ∧ (GitCommit i ≠ "" → GitCommit (setting i kv) = GitCommit i) ∧
  (BuildDate i ≠ "" → BuildDate (setting i kv) = BuildDate i) ∧ (GitDirty i = true → GitDirty (setting i kv) = true).
Proof.
  unfold setting. destruct (String.eqb kv.1 "vcs.revision"); [|destruct (String.eqb kv.1 "vcs.time");
    [|destruct (String.eqb kv.1 "vcs.modified")]]; cbn; split_and!; try done.
  - intros H%String.eqb_neq. by rewrite H.
  - intros H%String.eqb_neq. by rewrite H.
  - by intros ->.
Qed.

Lemma settings_keep l : ∀ i,
  Version (foldl setting i l) = Version i ∧ (GitCommit i ≠ "" → GitCommit (foldl setting i l) = GitCommit i) ∧
  (BuildDate i ≠ "" → BuildDate (foldl setting i l) = BuildDate i).
Proof.
  induction l as [|kv l IH]; intros i; [done|]. cbn. destruct (IH (setting i kv)) as (H1 & H2 & H3).
  destruct (setting_keeps i kv) as (K1 & K2 & K3 & _). split_and!; [by rewrite H1|..]; intros H.
  - rewrite H2; rewrite K2; done.
  - rewrite H3; rewrite K3; done.
Qed.

Lemma short_commit_nonempty c : c ≠ "" → short_commit c ≠ "".
Proof. unfold short_commit. destruct (Nat.ltb 7 (slen c)); [|done]. by destruct c. Qed.

(** The version is never empty, what the linker set wins over the build settings,
    and later calls answer the same until a reset. *)
Lemma version_info version commit date s :
  let i := buildVersionInfo version commit date in
  Version i ≠ "" ∧ (version ≠ "" → Version i = version) ∧ (commit ≠ "" → GitCommit i = commit) ∧ (date ≠ "" → BuildDate i = date) ∧
  (GetVersionInfo (GetVersionInfo s).2).1 = (GetVersionInfo s).1 ∧
  (GetVersionInfo (ResetVersionForTesting version commit date s)).1 = i.
Proof.
  cbv zeta. set (info := mkInfo version commit false date go_version (GOOS +:+ "/" +:+ GOARCH)).
  set (i0 := match build_info with Some l => foldl setting info l | None => info end).
  assert (buildVersionInfo version commit date = named i0) as -> by done.
  assert (Version i0 = version ∧ (commit ≠ "" → GitCommit i0 = commit) ∧ (date ≠ "" → BuildDate i0 = date)) as (H1 & H2 & H3).
  { unfold i0. destruct build_info as [l|]; [|done]. apply (settings_keep l info). }
  split_and!; [..|by destruct s as [? ? ? []]|done]; unfold named; destruct (String.eqb_spec (Version i0) "") as [Ev|Ev]; cbn;
    try congruence; try (intros; auto; congruence).
  destruct (String.eqb_spec (GitCommit i0) "") as [Ec|Ec]; cbn; [done|].
  pose proof (short_commit_nonempty _ Ec). destruct (GitDirty i0); [|done]. by destruct (short_commit (GitCommit i0)).
Qed.

End Version.

(** ** The status report *)

Record status := mkStatus { ipv6 : string; ebpf : string; iptables : string; tun : string; upstream_line : string }.

(** [listen6]: a listener on the IPv6 loopback can be opened; [daemon]: the PID file exists. *)
Definition verbose_status (listen6 daemon isEbpfActive : bool) (goos VP_USE_TUN : string) (EnableEbpf : option bool)
    (upstream : string) : status :=
  mkStatus
    (if listen6 then "Available (Loopback Active)" else "Unavailable")
    (if isEbpfActive then "Active (Maps Loaded: tcp_orig_dst, udp_orig_dst, cidr_bypass_map)"
     else if daemon then
       match EnableEbpf with
       | Some true => "Active (Delegated to system-wide background vproxy server)"
       | _ => "Inactive (Delegated to background server, but eBPF is disabled in config)"
       end
     else "Inactive")
    (if negb isEbpfActive && String.eqb goos "linux" && negb (String.eqb VP_USE_TUN "1") then
       if daemon then
         match EnableEbpf with
         | Some false => "Active (Delegated to system-wide background vproxy server)"
         | _ => "Inactive (Using eBPF system-wide instead)"
         end
       else "Active fallback (TPROXY redirection configured)"
     else "Inactive")
    (if String.eqb goos "darwin" || String.eqb goos "windows" || (String.eqb goos "linux" && String.eqb VP_USE_TUN "1")
     then "Active (TUN interface redirection configured)" else "Inactive")
    (if String.eqb upstream "" then "None configured" else "Active upstream: " +:+ upstream +:+ " (Verified)").

Definition active (line : string) : bool := Strings.HasPrefix line "Active".

(** eBPF and iptables are never both reported active, and on Linux without TUN one
    of them is, if the configuration says which. *)
Lemma status_exclusive listen6 daemon e goos v o u :
  let s := verbose_status listen6 daemon e goos v o u in
  active (ebpf s) && active (iptables s) = false ∧
  (goos = "linux" → v ≠ "1" → is_Some o → active (ebpf s) || active (iptables s) = true).
Proof.
  cbv zeta. unfold verbose_status, active. cbn [ebpf iptables]. split.
  - destruct e, daemon, o as [[]|], (String.eqb goos "linux"), (String.eqb v "1"); reflexivity.
  - intros -> Hv [b ->]. apply String.eqb_neq in Hv. rewrite Hv. by destruct e, daemon, b.
Qed.

(** A configuration that does not mention eBPF means that iptables is used; beside a
    running daemon the report says that neither is. *)
Lemma status_without_setting :
  let s := verbose_status true true false "linux" "" None "" in active (ebpf s) || active (iptables s) = false.
Proof. reflexivity. Qed.

Definition checkColorSupport (NO_COLOR TERM : string) (stdout_is_tty : option bool) : outcome unit bool :=
  if negb (String.eqb NO_COLOR "") then Ok false
  else if String.eqb TERM "dumb" then Ok false
  else match stdout_is_tty with Some t => Ok t | None => Panic end.

Definition PrintConnectivityOK (NO_COLOR TERM : string) (stdout_is_tty : option bool) : outcome unit string :=
  color ← checkColorSupport NO_COLOR TERM stdout_is_tty;
  Ok ("vproxy connectivity: " +:+
      (if (color : bool) then of_bytes (bytes [27]) +:+ "[32mOK" +:+ of_bytes (bytes [27]) +:+ "[0m" else "OK")).

(** Standard output cannot be examined, and nothing keeps the program from trying. *)
Definition stdout_closed (out : string * string * option bool) : Prop :=
  out.1.1 = "" ∧ out.1.2 ≠ "dumb" ∧ out.2 = None.

Lemma PrintConnectivityOK_cases NO_COLOR TERM tty :
  match PrintConnectivityOK NO_COLOR TERM tty with
  | Ok _ => ¬ stdout_closed (NO_COLOR, TERM, tty)
  | Err _ => False
  | Panic => stdout_closed (NO_COLOR, TERM, tty)
  end.
Proof.
  unfold PrintConnectivityOK, checkColorSupport, stdout_closed.
  destruct (String.eqb_spec NO_COLOR "") as [->|], (String.eqb_spec TERM "dumb"), tty; cbn; naive_solver.
Qed.

(** When standard output cannot be examined the result of Stat is nil and is used. *)
Lemma closed_stdout_panics : PrintConnectivityOK "" "xterm" None = Panic.
Proof. reflexivity. Qed.

(** ** Control group, permission and mark *)

Definition defaultCgroupPath : string := "/sys/fs/cgroup/vproxy".

(** [stat] is None or whether it is a directory; [writable]: cgroup.procs can be opened. *)
Definition EnsureVProxyCgroup (stat : option bool) (writable : bool) : outcome string unit :=
  match stat with
  | Some true => if writable then Ok tt else Err "cgroup directory exists but is not writable"
  | _ => Err "cgroup directory does not exist"
  end.

Definition IsProcessInVProxyCgroup (self_cgroup : option string) : bool :=
  match self_cgroup with Some data => Strings.Contains data "/vproxy" | None => false end.

Inductive mark_call := OpenSocket | SetMark (fd : nat) (mark : Z) | CloseFd (fd : nat).
Definition bypassMark : Z := 0xff.

(** [socket] is the descriptor or an error, [marked] the answer of setsockopt. *)
Definition CheckPermission (socket : option nat) (marked : bool) : bool * list mark_call :=
  match socket with
  | None => (false, [OpenSocket])
  | Some fd => (marked, [OpenSocket; SetMark fd bypassMark; CloseFd fd])
  end.

(** The control function, if the component is enabled: an error of the descriptor, or
    of setsockopt, refuses the connection. *)
Definition GetDialerControl (enabled : bool) : option (nat → bool → bool → bool * list mark_call) :=
  if enabled then Some (λ (fd : nat) (usable marked : bool),
    if usable then (marked, [SetMark fd bypassMark]) else (false, []))
  else None.

(** A connection that the control function lets pass carries the mark. *)
Lemma dialer_marks enabled f fd usable marked l :
  GetDialerControl enabled = Some f → f fd usable marked = (true, l) → marked = true ∧ l = [SetMark fd bypassMark].
Proof. unfold GetDialerControl. destruct enabled; [|done]. intros [= <-]. destruct usable; [|done]. by intros [= -> <-]. Qed.

(** ** The PID file and live processes *)

Definition GetPIDFilePath (goos ProgramData TempDir : string) (join : string → string → string) : string :=
  if String.eqb goos "windows" then
    if negb (String.eqb ProgramData "") then join (join ProgramData "vproxy") "vproxy.pid"
    else join TempDir "vproxy.pid"
  else "/tmp/vproxy.pid".

Definition STILL_ACTIVE : Z := 259.
(** [exit_code]: no handle, no answer, or the code. *)
Definition win_isPIDAlive (pid : Z) (exit_code : option (option Z)) : bool :=
  if pid <=? 0 then false
  else match exit_code with Some (Some code) => code =? STILL_ACTIVE | _ => false end.

(** A process that ended with that very code counts as alive. *)
Lemma exit_259_alive pid : 0 < pid → win_isPIDAlive pid (Some (Some 259)) = true.
Proof. intros Hp. unfold win_isPIDAlive. by rewrite (proj2 (Z.leb_gt _ _)). Qed.

(** ** The bundled library *)

Class DllEnv := {
  exe_dir : option string;                     (* the directory of the executable *)
  temp_dir : string;
  write_fails : string → bool;
  mkdir_fails : string → bool;
  set_dir_fails : string → bool;
  wintunDLL : list byte }.

Record files := mkFiles { contents : string → option (list byte); dllDirectory : option string }.

Section Dll.
Context {E : DllEnv}.

Definition write (p : string) (s : files) : files :=
  mkFiles (λ q, if String.eqb q p then Some wintunDLL else contents s q) (dllDirectory s).
Definition set_dir (d : string) (s : files) : files :=
  mkFiles (contents s) (if set_dir_fails d then dllDirectory s else Some d).

Definition versionedRuntimeDir : string := "vproxy-wintun-0.14.1".
Definition fjoin (a b : string) : string := a +:+ "\" +:+ b.

Definition in_temp (s : files) : outcome string string * files :=
  let dir := fjoin temp_dir versionedRuntimeDir in
  if mkdir_fails dir then (Err "create Wintun runtime directory", s)
  else
    let p := fjoin dir "wintun.dll" in
    if write_fails p then (Err "write bundled Wintun 0.14.1", s)
    else
      let s := write p s in
      if set_dir_fails dir then (Err "configure Wintun DLL directory", s) else (Ok p, set_dir dir s).

Definition Ensure (s : files) : outcome string string * files :=
  match exe_dir with
  | Some d =>
      let p := fjoin d "wintun.dll" in
      match contents s p with
      | Some (_ :: _) => (Ok p, set_dir d s)
      | _ => if write_fails p then in_temp s else (Ok p, set_dir d (write p s))
      end
  | None => in_temp s
  end.

(** A path that is returned holds a library: one that was beside the executable, or
    the bundled one; only that path is written. *)
Lemma Ensure_installs s p s' : wintunDLL ≠ [] → Ensure s = (Ok p, s') →
  (∃ x l, contents s' p = Some (x :: l)) ∧ (contents s' p = Some wintunDLL ∨ contents s' p = contents s p) ∧
  (∀ q, q ≠ p → contents s' q = contents s q).
Proof.
  intros Hd. assert (∀ q, contents (write q s) q = Some wintunDLL) as Hw by (intros q; cbn; by rewrite String.eqb_refl).
  assert (∀ d q, contents (set_dir d (write q s)) q = Some wintunDLL ∧
    ∀ q', q' ≠ q → contents (set_dir d (write q s)) q' = contents s q') as Hc.
  { intros d q. split; [apply Hw|]. intros q' Hq. cbn. by rewrite (proj2 (String.eqb_neq _ _)). }
  assert (∃ x l, wintunDLL = x :: l) as (x & l & Hx) by (destruct wintunDLL as [|x l]; [done|by exists x, l]).
  match goal with |- _ → ?G => assert (∀ d q, (Ok q, set_dir d (write q s)) = (Ok p, s') :> outcome string string * files → G) as Hend end.
  2: { unfold Ensure, in_temp. destruct exe_dir as [d|].
    - destruct (contents s (fjoin d "wintun.dll")) as [[|y k]|] eqn:Ek;
        [| intros [= <- <-]; cbn; rewrite Ek; split_and!; by eauto |].
      all: destruct (write_fails (fjoin d "wintun.dll")); [|apply Hend].
      all: destruct (mkdir_fails _); [done|]; destruct (write_fails _); [done|]; destruct (set_dir_fails _); [done|]; apply Hend.
    - destruct (mkdir_fails _); [done|]. destruct (write_fails _); [done|]. destruct (set_dir_fails _); [done|]. apply Hend. }
  intros d q [= <- <-]. destruct (Hc d q) as [H1 H2]. rewrite H1, Hx in *. split_and!; [eauto|auto|done].
Qed.

End Dll.
End Runtime.
