(* ===== verification/App.v ===== *)
(** * The daemon's care for redirection: src/internal/app.go

    SelfHeal installs the redirection of the whole system, by eBPF programs or by
    packet filter rules, and is called at the start, on request and every quarter
    of an hour; RunServer removes it at the end.  The model composes [Ebpf.Load],
    [Ebpf.Unload], [Iptables.SetupRules] and [Iptables.CleanupRules].  The
    goroutines that watch the configuration file and the network are state
    machines over what they observe. *)

From S2P Require Import Prelude GoStrings GoNet GoUrl Router ServerManager Rewrite Config Listeners Bpf Ebpf Iptables Otel.

Module App.

(** ** SelfHeal *)

(** What SelfHeal asks of its environment. *)
Record healing := mkHealing {
  hl_goos : string;
  hl_tun : bool;              (* VP_USE_TUN=1 *)
  hl_force_iptables : bool;   (* VP_FORCE_IPTABLES=1 *)
  hl_enable : option bool;    (* Config.EnableEbpf *)
  hl_permission : bool;       (* ebpf.CheckPermission *)
  hl_cgroup : bool;           (* cgroup.EnsureVProxyCgroup *)
  hl_best : string;           (* getBestUpstream *)
  hl_port : Z;                (* ph.TransPort *)
  hl_kernel : Ebpf.KEnv;
  hl_shell : Iptables.Shell }.

Record app := mkApp {
  ebpfResult : option Ebpf.LoadResult;
  ph_ebpf : option Ebpf.LoadResult;        (* ph.SetEbpfResult *)
  kernel : Ebpf.kern;
  rules : Iptables.fw;
  marking : bool }.                        (* SetEnabled and SetDialerControl *)

Definition getBestUpstream (sm : option ServerManager.SM) : string := ServerManager.GetBestServer sm.

(** A live upstream that does the transparent proxying itself. *)
Definition tproxy_upstream (best : string) : option Url.URL :=
  if String.eqb best "" then None
  else match Url.Parse best with
       | Some u => if String.eqb (Url.Scheme u) "tproxy" then Some u else None
       | None => None
       end.

(** The arguments of the set-up: target of the rules, mode, upstream address. *)
Definition setup_args (best : string) (port : Z) : string * bool * option ip * Z :=
  match tproxy_upstream best with
  | Some u =>
      let '(upIP, upPort) :=
        match Net.SplitHostPort (Url.Host u) with
        | Some (host, portStr) => (Net.ParseIP host, wrap16 (Strconv.Sscanf_d portStr))
        | None => (None, 0)
        end in
      (Url.Host u, true, upIP, upPort)
  | None => (Strconv.Itoa port, false, None, 0)
  end.

Definition cgroupPath : string := "/sys/fs/cgroup/vproxy".

(** The fallback to rules. *)
Definition heal_rules (h : healing) (a : app) : outcome string unit * app :=
  let '(target, remote, _, _) := setup_args (hl_best h) (hl_port h) in
  match Iptables.SetupRules (Sh := hl_shell h) target remote (rules a) with
  | (Ok _, fw) => (Ok tt, mkApp (ebpfResult a) (ph_ebpf a) (kernel a) fw true)
  | (_, fw) => (Err "iptables setup failed", mkApp (ebpfResult a) (ph_ebpf a) (kernel a) fw (marking a))
  end.

Definition unload_opt (E : Ebpf.KEnv) (r : option Ebpf.LoadResult) (k : Ebpf.kern) : Ebpf.kern :=
  match r with Some r => (Ebpf.Unload (E := E) r k).2 | None => k end.

(** A collection that was loaded: the old one is unloaded, then the new one is
    the current one. *)
Definition unload_old (h : healing) (a : app) : app :=
  mkApp (ebpfResult a) (ph_ebpf a) (unload_opt (hl_kernel h) (ebpfResult a) (kernel a)) (rules a) (marking a).

Definition publish (r : Ebpf.LoadResult) (a : app) : app := mkApp (Some r) (Some r) (kernel a) (rules a) true.

Definition SelfHeal (h : healing) (a : app) : outcome string unit * app :=
  if negb (String.eqb (hl_goos h) "linux") || hl_tun h || negb (default false (hl_enable h))
  then (Ok tt, a)
  else if negb (hl_permission h) then (Err "permission check failed", a)
  else if negb (hl_cgroup h) then (Err "cgroup setup failed", a)
  else if negb (hl_force_iptables h) then
    let '(_, remote, upIP, upPort) := setup_args (hl_best h) (hl_port h) in
    match Ebpf.Load (E := hl_kernel h) cgroupPath (wrap16 (hl_port h)) 255 remote upIP upPort (kernel a) with
    | (Ok r, k) => (Ok tt, publish r (unload_old h (mkApp (ebpfResult a) (ph_ebpf a) k (rules a) (marking a))))
    | (_, k) => heal_rules h (mkApp (ebpfResult a) (ph_ebpf a) k (rules a) (marking a))
    end
  else heal_rules h a.

(** What RunServer does to the redirection when it is told to stop. *)
Definition shut_down (h : healing) (a : app) : app :=
  match ebpfResult a with
  | Some r => mkApp None (ph_ebpf a) (Ebpf.Unload (E := hl_kernel h) r (kernel a)).2 (rules a) (marking a)
  | None =>
      if default false (hl_enable h) && String.eqb (hl_goos h) "linux"
      then mkApp None (ph_ebpf a) (kernel a) (Iptables.CleanupRules (Sh := hl_shell h) (rules a)) (marking a)
      else a
  end.

(** ** watchConfig *)

Section Watch.
Context `{RE : Rewrite.Regexp} {OE : Otel.OtelEnv}.

(** One round: the modification time, if the file can be examined, and the
    configuration LoadConfig gives, if it loads. *)
Record round := mkRound { rd_mtime : option Z; rd_config : option Config.Config }.

Record watcher := mkWatcher { lastMod : Z; w_handler : Listeners.Handler; w_otel : Otel.otel; reloads : nat }.

Definition watch_round (w : watcher) (r : round) : watcher :=
  match rd_mtime r with
  | None => w
  | Some t =>
      if lastMod w <? t then
        match rd_config r with
        | Some c =>
            mkWatcher t (Listeners.reload (w_handler w) c)
              (Otel.InitOtelTracer (Config.Otel c) (w_otel w)).2 (S (reloads w))
        | None => mkWatcher t (w_handler w) (w_otel w) (reloads w)
        end
      else w
  end.

(** The goroutine gives up at once when the file cannot be examined at first. *)
Definition watchConfig (first : option Z) (h : Listeners.Handler) (g : Otel.otel) (rs : list round) : watcher :=
  match first with
  | None => mkWatcher 0 h g 0
  | Some t => foldl watch_round (mkWatcher t h g 0) rs
  end.

End Watch.

(** ** monitorNetwork *)

(** A tick of the health timer, with the outcome of SelfHeal, or a probe of the
    network after 15 seconds. *)
Inductive tick := HealTick (h : healing) | Probe (online : bool).

Record monitor := mkMonitor { wasOffline : bool; m_app : app; m_sm : option ServerManager.SM; retests : nat }.

Definition monitor_tick (m : monitor) (t : tick) : monitor :=
  match t with
  | HealTick h => mkMonitor (wasOffline m) (SelfHeal h (m_app m)).2 (m_sm m) (retests m)
  | Probe false => mkMonitor true (m_app m) (m_sm m) (retests m)
  | Probe true =>
      if wasOffline m then
        let servers := ServerManager.GetServers (m_sm m) in
        if Nat.ltb 1 (length servers)
        then mkMonitor false (m_app m)
               ((λ s, ServerManager.UpdateServers s servers) <$> m_sm m) (S (retests m))
        else mkMonitor false (m_app m) (m_sm m) (retests m)
      else m
  end.
Definition monitorNetwork (m : monitor) (ts : list tick) : monitor := foldl monitor_tick m ts.

(** The probes that find the network back after a loss. *)
Fixpoint recoveries (offline : bool) (ts : list tick) : nat :=
  match ts with
  | [] => 0
  | HealTick _ :: ts => recoveries offline ts
  | Probe false :: ts => recoveries true ts
  | Probe true :: ts => (if offline then 1 else 0) + recoveries false ts
  end.

(** With more than one upstream they are tested again once per recovery, and the
    list of upstreams stays the same. *)
Lemma monitor_retests ts : ∀ m, (1 < length (ServerManager.GetServers (m_sm m)))%nat →
  retests (monitorNetwork m ts) = (retests m + recoveries (wasOffline m) ts)%nat ∧
  ServerManager.GetServers (m_sm (monitorNetwork m ts)) = ServerManager.GetServers (m_sm m).
Proof.
  induction ts as [|t ts IH]; intros m Hm; [split; [cbn; lia|done]|].
  unfold monitorNetwork. cbn [foldl]. fold (monitorNetwork (monitor_tick m t) ts).
  assert (ServerManager.GetServers (m_sm (monitor_tick m t)) = ServerManager.GetServers (m_sm m)) as Hs.
  { destruct t as [h|[]]; [done| |done]. unfold monitor_tick.
    destruct (wasOffline m); [|done]. cbv zeta. destruct (Nat.ltb _ _); [|done]. by destruct (m_sm m). }
  destruct (IH (monitor_tick m t) ltac:(by rewrite Hs)) as [-> ->]. split; [|done].
  destruct t as [h|[]]; [done| |done]. cbn [recoveries]. unfold monitor_tick.
  destruct (wasOffline m) eqn:E; [|cbn; by rewrite E].
  rewrite (proj2 (Nat.ltb_lt _ _) Hm). cbn. lia.
Qed.

Section Watched.
Context `{RE : Rewrite.Regexp} {OE : Otel.OtelEnv}.

(** The last change of the file counts: rounds that find no newer time leave the
    handler alone, and a newer file that loads is applied. *)
Lemma watch_quiet rs : ∀ w,
  Forall (λ r, match rd_mtime r with Some t => t ≤ lastMod w | None => True end) rs → foldl watch_round w rs = w.
Proof.
  induction rs as [|r rs IH]; intros w Hr; [done|]. apply Forall_cons in Hr as [Hr Hrs]. cbn [foldl].
  assert (watch_round w r = w) as ->; [|by apply IH].
  unfold watch_round. destruct (rd_mtime r) as [t|]; [|done]. by rewrite (proj2 (Z.ltb_ge _ _) Hr).
Qed.

Lemma watch_applies w t c rs :
  lastMod w < t → Forall (λ r, match rd_mtime r with Some t' => t' ≤ t | None => True end) rs →
  w_handler (foldl watch_round w (mkRound (Some t) (Some c) :: rs)) = Listeners.reload (w_handler w) c.
Proof.
  intros Ht Hr. cbn [foldl].
  assert (watch_round w (mkRound (Some t) (Some c)) =
    mkWatcher t (Listeners.reload (w_handler w) c) (Otel.InitOtelTracer (Config.Otel c) (w_otel w)).2 (S (reloads w))) as ->.
  { unfold watch_round. cbn. by rewrite (proj2 (Z.ltb_lt _ _) Ht). }
  by rewrite watch_quiet.
Qed.

End Watched.

(** ** Redirection is installed once and removed *)

Section Lifecycle.
Import Ebpf.

Lemma fresh_touches id k k' :
  fresh_ids k → touches id k k' → (id < length (klog k'))%nat → fresh_ids k'.
Proof.
  intros Hf (T1 & T2 & _ & T4) Hid j Hj. assert (j ≠ id) as Hne by lia.
  destruct (Hf j ltac:(lia)) as [G1 G2]. split; [by rewrite T1|]. intros n. by rewrite T2.
Qed.

(** The kernel holds what it held at the start ([k0]) and, if there is a current
    result, that collection with its five programs. *)
Definition owned (k0 : kern) (r : option LoadResult) (k : kern) : Prop :=
  fresh_ids k ∧
  match r with
  | None => store k = store k0 ∧ links k = links k0 ∧ fds k = fds k0 ∧ (length (klog k0) ≤ length (klog k))%nat
  | Some r => r_links r = programs ∧ gone (r_objs r) k0 ∧ touches (r_objs r) k0 k ∧
      held (r_objs r) programs k ∧ is_Some (store k !! r_objs r) ∧ (r_objs r < length (klog k))%nat
  end.

Lemma owned_same k0 r k k' :
  owned k0 r k → store k' = store k → links k' = links k → fds k' = fds k →
  (length (klog k) ≤ length (klog k'))%nat → owned k0 r k'.
Proof.
  intros [Hf Ho] E1 E2 E3 E4. split.
  - intros j Hj. destruct (Hf j ltac:(lia)) as [G1 G2]. split; [by rewrite E1|].
    intros n. rewrite E2. apply G2.
  - destruct r as [r|].
    + destruct Ho as (P & G & (T1 & T2 & T3 & T4) & Hh & Hs & Hl). split_and!; [done|done| | | |lia].
      * split_and!; [by rewrite E1|by rewrite E2|congruence|lia].
      * intros n. rewrite E2. apply Hh.
      * by rewrite E1.
    + destruct Ho as (A1 & A2 & A3 & A4). split_and!; [congruence..|lia].
Qed.

(** A collection that is loaded on top of the old one and replaces it. *)
Lemma owned_replace (E : KEnv) k0 r k id k1 m :
  owned k0 r k → (length (klog k) ≤ id < length (klog k1))%nat →
  touches id k k1 → held id programs k1 → store k1 !! id = Some m →
  owned k0 (Some (mkResult id programs)) (unload_opt E r k1).
Proof.
  intros [Hf Ho] Hid T Hh Hs. assert (gone id k) as Hgk by (apply Hf; lia).
  pose proof (fresh_touches _ _ _ Hf T (proj2 Hid)) as Hf1.
  destruct r as [r|]; cbn [unload_opt].
  - destruct Ho as (P & G & T0 & H0 & S0 & L0). destruct r as [rid rl]. cbn [r_objs r_links] in *. subst rl.
    assert (rid ≠ id) as Hne by lia.
    destruct (Unload_spec (mkResult rid programs) k1) as (e & k2 & E2 & T2 & G2).
    { intros n. destruct T as (_ & T2 & _). cbn [r_objs r_links]. rewrite T2 by done. apply H0. }
    cbn [r_objs] in *. rewrite E2. cbn [snd].
    destruct T as (A1 & A2 & A3 & A4), T2 as (B1 & B2 & B3 & B4), T0 as (C1 & C2 & C3 & C4).
    split; [|split_and!; cbn [r_objs r_links]].
    + intros j Hj. destruct (Hf1 j ltac:(lia)) as [F1 F2]. split; [rewrite B1 by lia; done|].
      intros n. rewrite B2 by lia. apply F2.
    + done.
    + destruct Hgk as [Hg1 Hg2]. split; [by rewrite <- C1|]. intros n. rewrite <- C2 by done. apply Hg2.
    + split_and!; [| |congruence|lia].
      * intros j Hj. destruct (decide (j = rid)) as [->|Hj2].
        -- destruct G2 as [G2 _], G as [G _]. congruence.
        -- by rewrite B1, A1, C1.
      * intros j n Hj. destruct (decide (j = rid)) as [->|Hj2].
        -- destruct G2 as [_ G2], G as [_ G]. by rewrite (G2 n), (G n).
        -- by rewrite B2, A2, C2.
    + intros n. rewrite B2 by done. apply Hh.
    + rewrite B1 by done. by eexists.
    + lia.
  - destruct Ho as (C1 & C2 & C3 & C4). destruct T as (A1 & A2 & A3 & A4).
    split; [done|]. split_and!; cbn [r_objs r_links]; [done| | |done|by eexists|lia].
    + destruct Hgk as [Hg1 Hg2]. split; [congruence|]. intros n. rewrite <- C2. apply Hg2.
    + split_and!; [|setoid_rewrite <- C2; done|congruence|lia]. intros j Hj. rewrite <- C1. by apply A1.
Qed.

Lemma heal_rules_kernel h a : kernel (heal_rules h a).2 = kernel a ∧ ebpfResult (heal_rules h a).2 = ebpfResult a.
Proof. unfold heal_rules. repeat case_match; done. Qed.

Lemma SelfHeal_owned h k0 a : owned k0 (ebpfResult a) (kernel a) →
  owned k0 (ebpfResult (SelfHeal h a).2) (kernel (SelfHeal h a).2).
Proof.
  intros Ho. unfold SelfHeal. repeat (case_match; [done|]).
  destruct (negb (hl_force_iptables h)).
  2:{ destruct (heal_rules_kernel h a) as [-> ->]. done. }
  destruct (setup_args (hl_best h) (hl_port h)) as [[[target remote] upIP] upPort].
  pose proof (Load_spec (E := hl_kernel h) cgroupPath (wrap16 (hl_port h)) 255 remote upIP upPort (kernel a)
    (proj1 Ho)) as Hl.
  destruct (Load _ _ _ _ _ _ _) as [[r|e|] k1]; [| |done].
  - destruct Hl as [Hid [T (Hr & Hh & Hs)]]. destruct r as [id ls]. cbn [r_objs] in *.
    injection Hr as ->. cbn [snd ebpfResult kernel]. by eapply owned_replace.
  - destruct (heal_rules_kernel h (mkApp (ebpfResult a) (ph_ebpf a) k1 (rules a) (marking a))) as [-> ->].
    cbn [ebpfResult kernel]. destruct Hl as (L1 & L2 & L3 & L4). by eapply owned_same.
Qed.

Lemma SelfHeal_no_panic h a : (SelfHeal h a).1 ≠ Panic.
Proof.
  assert (∀ a, (heal_rules h a).1 ≠ Panic) as Hr by (intros a'; unfold heal_rules; repeat case_match; done).
  unfold SelfHeal. repeat (case_match; try done).
Qed.

(** A healing that fails keeps the current result. *)
Lemma SelfHeal_error h a e : (SelfHeal h a).1 = Err e → ebpfResult (SelfHeal h a).2 = ebpfResult a.
Proof.
  unfold SelfHeal. repeat (case_match; [done|]). destruct (negb (hl_force_iptables h)); [|by rewrite (proj2 (heal_rules_kernel h a))].
  destruct (setup_args (hl_best h) (hl_port h)) as [[[target remote] upIP] upPort].
  destruct (Load _ _ _ _ _ _ _) as [[r|e'|] k1]; [done|..]; by rewrite (proj2 (heal_rules_kernel h _)).
Qed.

(** Unloading the current result gives back the kernel of the start. *)
Lemma owned_unload (E : KEnv) k0 r k : owned k0 r k → owned k0 None (unload_opt E r k).
Proof.
  intros [Hf Ho]. destruct r as [[rid rl]|]; [|done]. destruct Ho as (P & G & T & Hh & Hs & Hl).
  cbn [r_objs r_links unload_opt] in *. subst rl.
  destruct (Unload_spec (E := E) (mkResult rid programs) k Hh) as (e & k2 & E2 & T2 & G2).
  cbn [r_objs] in *. rewrite E2. cbn [snd].
  assert (length (klog k) ≤ length (klog k2))%nat as Hlen by apply T2.
  split; [eapply fresh_touches; [done|exact T2|lia]|].
  pose proof (touches_trans _ _ _ _ T T2) as T3.
  destruct (touches_gone rid k0 k2 T3 G G2) as (A1 & A2 & A3). split_and!; [done..|apply T3].
Qed.

Lemma shut_down_kernel h k0 a : owned k0 (ebpfResult a) (kernel a) →
  store (kernel (shut_down h a)) = store k0 ∧ links (kernel (shut_down h a)) = links k0 ∧
  fds (kernel (shut_down h a)) = fds k0.
Proof.
  intros Ho. apply (owned_unload (hl_kernel h)) in Ho as [_ (A1 & A2 & A3 & _)].
  unfold shut_down. destruct (ebpfResult a) as [r|]; [done|]. by case_match.
Qed.

Definition heals (hs : list healing) (a : app) : app := foldl (λ a h, (SelfHeal h a).2) a hs.

Lemma heals_owned hs k0 : ∀ a, owned k0 (ebpfResult a) (kernel a) →
  owned k0 (ebpfResult (heals hs a)) (kernel (heals hs a)).
Proof. induction hs as [|h hs IH]; intros a Ho; [done|]. cbn. apply IH. by apply SelfHeal_owned. Qed.

Lemma heal_rules_dirty h s0 a : Iptables.deletes_work (hl_shell h) →
  Iptables.dirty s0 (rules a) → Iptables.dirty s0 (rules (heal_rules h a).2).
Proof.
  intros Hd D. unfold heal_rules.
  destruct (setup_args (hl_best h) (hl_port h)) as [[[target remote] upIP] upPort].
  pose proof (Iptables.SetupRules_dirty _ s0 target remote _ Hd D) as H.
  destruct (Iptables.SetupRules _ _ _) as [[] fw]; exact H.
Qed.

Lemma SelfHeal_dirty h s0 a : Iptables.deletes_work (hl_shell h) →
  Iptables.dirty s0 (rules a) → Iptables.dirty s0 (rules (SelfHeal h a).2).
Proof.
  intros Hd D. unfold SelfHeal. repeat (case_match; [done|]).
  destruct (negb (hl_force_iptables h)); [|by apply heal_rules_dirty].
  destruct (setup_args (hl_best h) (hl_port h)) as [[[target remote] upIP] upPort].
  destruct (Load _ _ _ _ _ _ _) as [[r|e|] k1]; [done|by apply heal_rules_dirty..].
Qed.

Lemma heals_dirty hs s0 : Forall (λ h, Iptables.deletes_work (hl_shell h)) hs →
  ∀ a, Iptables.dirty s0 (rules a) → Iptables.dirty s0 (rules (heals hs a)).
Proof. induction 1 as [|h hs Hh _ IH]; intros a D; [done|]. cbn. apply IH. by apply SelfHeal_dirty. Qed.

(** An application that has just started. *)
Definition started (k0 : kern) (fw0 : Iptables.fw) : app := mkApp None None k0 fw0 false.

Lemma started_owned k0 fw0 : fresh_ids k0 → owned k0 None (kernel (started k0 fw0)).
Proof. intros Hf. split; [done|]. cbn. split_and!; done || lia. Qed.

(** The redirection of the whole system has one owner.  Over any sequence of
    healings, whatever fails in each (the permission check, the cgroup, any call
    to the kernel, any shell command), the kernel holds, beyond what it held at
    the start, exactly the collection and the five attached programs of the
    current result, or nothing if there is none; when the daemon stops, programs,
    maps and descriptors are those of the start, and if it ran on packet filter
    rules, so are these. *)
Theorem daemon_redirection_removed hs h k0 fw0 :
  fresh_ids k0 → Iptables.clean fw0 →
  Forall (λ h, Iptables.deletes_work (hl_shell h)) hs → hl_shell h = Iptables.reliable →
  let a := heals hs (started k0 fw0) in
  owned k0 (ebpfResult a) (kernel a) ∧
  (store (kernel (shut_down h a)) = store k0 ∧ links (kernel (shut_down h a)) = links k0 ∧
   fds (kernel (shut_down h a)) = fds k0) ∧
  (ebpfResult a = None → hl_enable h = Some true → hl_goos h = "linux" → rules (shut_down h a) = fw0).
Proof.
  intros Hf Hc Hd Hs a.
  assert (owned k0 (ebpfResult a) (kernel a)) as Ho by (apply heals_owned, started_owned, Hf).
  split; [done|]. split; [by apply shut_down_kernel|].
  intros En Ee Eg. unfold shut_down. rewrite En, Ee, Eg, Hs. cbn.
  apply Iptables.CleanupRules_dirty; [done|]. apply heals_dirty; [done|]. by apply Iptables.clean_dirty.
Qed.

End Lifecycle.

(** ** A run *)

(** A healing on a machine where the eBPF programs load, or, for [bad], where the
    call [bad] to the kernel fails. *)
Definition ex_heal (bad : option Ebpf.kcall) : healing :=
  mkHealing "linux" false false (Some true) true true "" 8118 (Ebpf.ex_env bad) Iptables.reliable.
Definition no_sendmsg6 (id : nat) : option Ebpf.kcall := Some (Ebpf.AttachCgroup id "sendmsg6").

Lemma reliable_deletes : Iptables.deletes_work Iptables.reliable.
Proof. intros h c k r _. reflexivity. Qed.

Lemma daemon_redirection_removed_witness :
  (let a := heals [ex_heal (no_sendmsg6 0)] (started Ebpf.ex_kern Iptables.ex_fw) in
   bool_decide (Iptables.policy (rules a) = ∅) = false ∧
   rules (shut_down (ex_heal None) a) = Iptables.ex_fw) ∧
  (let a := heals [ex_heal None; ex_heal None] (started Ebpf.ex_kern Iptables.ex_fw) in
   owned Ebpf.ex_kern (ebpfResult a) (kernel a) ∧ size (Ebpf.links (kernel a)) = 5%nat).
Proof.
  split.
  - split; [vm_compute; reflexivity|].
    apply (daemon_redirection_removed [ex_heal (no_sendmsg6 0)] (ex_heal None) Ebpf.ex_kern Iptables.ex_fw);
      [apply Ebpf.ex_kern_fresh|apply Iptables.ex_fw_clean| |reflexivity| |reflexivity|reflexivity].
    + constructor; [apply reliable_deletes|constructor].
    + vm_compute. reflexivity.
  - split; [|vm_compute; reflexivity].
    apply (daemon_redirection_removed [ex_heal None; ex_heal None] (ex_heal None) Ebpf.ex_kern Iptables.ex_fw);
      [apply Ebpf.ex_kern_fresh|apply Iptables.ex_fw_clean| |reflexivity].
    repeat constructor; apply reliable_deletes.
Defined.

(** A healing that falls back to rules, followed by one that loads the programs,
    leaves the rules behind: on exit only the programs are removed. *)
Lemma fallback_rules_left :
  let a := heals [ex_heal (no_sendmsg6 0); ex_heal None] (started Ebpf.ex_kern Iptables.ex_fw) in
  bool_decide (Iptables.policy (rules (shut_down (ex_heal None) a)) = ∅) = false ∧
  Iptables.policy Iptables.ex_fw = ∅.
Proof. split; vm_compute; reflexivity. Qed.

(** SelfHeal has no lock.  Two healings that overlap (the timer's and one that a
    client of the control socket requests) can both load their programs before
    either becomes current; the shutdown removes one of the two collections. *)
Definition load_programs (h : healing) (a : app) : option Ebpf.LoadResult * app :=
  let '(_, remote, upIP, upPort) := setup_args (hl_best h) (hl_port h) in
  match Ebpf.Load (E := hl_kernel h) cgroupPath (wrap16 (hl_port h)) 255 remote upIP upPort (kernel a) with
  | (o, k) => (match o with Ok r => Some r | _ => None end, mkApp (ebpfResult a) (ph_ebpf a) k (rules a) (marking a))
  end.

Definition overlapping_heals (h : healing) (a : app) : option app :=
  let '(r1, a) := load_programs h a in
  let '(r2, a) := load_programs h a in
  let a := unload_old h (unload_old h a) in
  match r1, r2 with Some r1, Some r2 => Some (publish r2 (publish r1 a)) | _, _ => None end.

Lemma overlapping_heals_leak :
  ((λ a, size (Ebpf.links (kernel (shut_down (ex_heal None) a)))) <$>
     overlapping_heals (ex_heal None) (started Ebpf.ex_kern Iptables.ex_fw)) = Some 5%nat ∧
  size (Ebpf.links Ebpf.ex_kern) = 0%nat.
Proof. split; vm_compute; reflexivity. Qed.

End App.
