(* ===== verification/Wrapper.v ===== *)
(** * Running a command through the proxy: RunWrapper of src/internal/app.go

    [vproxy curl ...] runs a command with its traffic proxied: tools that know
    proxies are given proxy settings, the others are moved into the cgroup whose
    connections are redirected.  The model composes the upstream manager, the
    control socket's client, the listeners, the eBPF loader and the packet filter
    rules, and follows the function to every exit.  A call that ends the process
    (Fatal, os.Exit, a signal) is an error of the monad and skips deferred calls;
    a nil dereference is a panic and does not. *)

From S2P Require Import Prelude GoStrings GoNet GoIO GoUrl FakeIP Router ServerManager Rewrite Config Listeners Ipc Bpf Ebpf Iptables Runtime App.

Module Wrapper.
Import App.

(** ** Which tools need what *)

Record needs := mkNeeds { needsEbpf : bool; needsTransparent : bool; needsBridges : bool }.

Definition aware_tools : list string := ["curl"; "git"; "code"; "gemini"; "test_ebpf"; "test_tproxy"].
Definition one_of (l : list string) (s : string) : bool := existsb (String.eqb s) l.

Definition classify (isTUN : bool) (baseName : string) : needs :=
  if isTUN then mkNeeds false true true
  else if one_of aware_tools baseName then mkNeeds false false true
  else if String.eqb baseName "agy" then mkNeeds true true false
  else mkNeeds true true true.

(** ** State and exits *)

Inductive fatal :=
| NoUpstream | MigrationFailed | PermissionFailed | SetupFailed (e : string) | BridgeFailed | ExecFailed.
Inductive wexit := Exit (code : Z) | Fatal (f : fatal) | Killed.

(** How the command ends: with a status (0: no error), not at all because it
    cannot be run, or with a signal to this process first. *)
Inductive run_result := Exited (code : Z) | NotRun | Interrupted.

Record wenv := mkWenv {
  we_goos : string;
  we_tun : bool;                 (* VP_USE_TUN=1 *)
  we_force_iptables : bool;      (* VP_FORCE_IPTABLES=1 *)
  we_verbose : bool;
  we_environ : list string;      (* os.Environ *)
  we_pid_file : bool * bool;     (* the two os.Stat of the PID file *)
  we_self : Z;                   (* os.Getpid *)
  we_dial : string → option conn; we_now : Z;   (* what the upstream tests see *)
  we_cgroups : Ipc.Kernel;       (* this process writing to cgroup.procs *)
  we_daemon : Ipc.Kernel * Ipc.Server; we_peer : Ipc.Peer;
  we_links : nat → Ipc.Link; we_repair_link : Ipc.Link; we_links2 : nat → Ipc.Link;
  we_permission : bool; we_cgroup : bool;
  we_kernel : Ebpf.KEnv;
  we_shell_up : Iptables.Shell; we_shell_down : Iptables.Shell;
  we_ca : option string;         (* mitm.EnsureCA, mitm.GetCACertPath *)
  we_run : list string → list string → run_result;
  we_stdout : string * string * option bool }.   (* NO_COLOR, TERM, and whether standard output is a terminal *)

Section Wrapper.
Context `{RE : Rewrite.Regexp} `{LE : Listeners.LEnv} {J : Ipc.Json}.

Record wstate := mkW {
  w_kernel : Ebpf.kern;
  w_rules : Iptables.fw;
  w_ebpf : option Ebpf.LoadResult;        (* the local ebpfResult *)
  w_needs : bool;                         (* the local needsEbpf *)
  w_handler : Listeners.Handler;
  w_events : list Listeners.levent;
  w_pool : FakeIP.global;
  w_world : Ipc.World;
  w_marking : bool;
  w_signals : bool;                       (* signal.Notify was called *)
  w_tun_cleanups : nat;                   (* calls of tproxy.Cleanup *)
  (* argv and environment of the command, the open local listeners *)
  w_launched : option (list string * list string * option Z * option Z) }.

Abbreviation wm := (stm wstate wexit).

Definition set_kernel (s : wstate) k e := mkW k (w_rules s) e (w_needs s) (w_handler s) (w_events s) (w_pool s)
  (w_world s) (w_marking s) (w_signals s) (w_tun_cleanups s) (w_launched s).
Definition set_rules (s : wstate) f := mkW (w_kernel s) f (w_ebpf s) (w_needs s) (w_handler s) (w_events s) (w_pool s)
  (w_world s) (w_marking s) (w_signals s) (w_tun_cleanups s) (w_launched s).
Definition set_needs (s : wstate) b := mkW (w_kernel s) (w_rules s) (w_ebpf s) b (w_handler s) (w_events s) (w_pool s)
  (w_world s) (w_marking s) (w_signals s) (w_tun_cleanups s) (w_launched s).
Definition set_handler (s : wstate) h evs g := mkW (w_kernel s) (w_rules s) (w_ebpf s) (w_needs s) h evs g
  (w_world s) (w_marking s) (w_signals s) (w_tun_cleanups s) (w_launched s).
Definition set_world (s : wstate) w m := mkW (w_kernel s) (w_rules s) (w_ebpf s) (w_needs s) (w_handler s) (w_events s)
  (w_pool s) w m (w_signals s) (w_tun_cleanups s) (w_launched s).
Definition set_signals (s : wstate) := mkW (w_kernel s) (w_rules s) (w_ebpf s) (w_needs s) (w_handler s) (w_events s)
  (w_pool s) (w_world s) (w_marking s) true (w_tun_cleanups s) (w_launched s).
Definition set_tun (s : wstate) n := mkW (w_kernel s) (w_rules s) (w_ebpf s) (w_needs s) (w_handler s) (w_events s)
  (w_pool s) (w_world s) (w_marking s) (w_signals s) n (w_launched s).
Definition set_launched (s : wstate) l := mkW (w_kernel s) (w_rules s) (w_ebpf s) (w_needs s) (w_handler s) (w_events s)
  (w_pool s) (w_world s) (w_marking s) (w_signals s) (w_tun_cleanups s) l.

Definition modify (f : wstate → wstate) : wm unit := λ s, (Ok tt, f s).
Definition stop_if (b : bool) (e : fatal) : wm unit := λ s, if b then (Err (Fatal e), s) else (Ok tt, s).

(** The closure that undoes the set-up: the redirection, then the rest. *)
Definition undo_redirect (E : wenv) (s : wstate) : wstate :=
  match w_ebpf s with
  | Some r => set_kernel s (Ebpf.Unload (E := we_kernel E) r (w_kernel s)).2 None
  | None =>
      if w_needs s && String.eqb (we_goos E) "linux"
      then set_rules s (Iptables.CleanupRules (Sh := we_shell_down E) (w_rules s)) else s
  end.
Definition stop_services (E : wenv) (s : wstate) : wstate :=
  let s := if String.eqb (we_goos E) "darwin" || String.eqb (we_goos E) "windows"
           then set_tun s (S (w_tun_cleanups s)) else s in
  let '(h, evs) := Listeners.Stop (w_handler s) (w_events s) in
  set_handler s (Listeners.set_managers h (ServerManager.Stop <$> Listeners.sm h) (Listeners.rm h)) evs (w_pool s).
Definition cleanup (E : wenv) (s : wstate) : wstate := stop_services E (undo_redirect E s).

(** ** Proxy settings *)

Definition noProxy : string :=
  "localhost,127.0.0.1,::1,10.0.0.0/8,172.16.0.0/12,192.168.0.0/16,169.254.0.0/16".
Definition appendNoProxyEnv (env : list string) : list string :=
  env ++ ["no_proxy=" +:+ noProxy; "NO_PROXY=" +:+ noProxy].
Definition http_env (p : string) : list string :=
  ["http_proxy=" +:+ p; "https_proxy=" +:+ p; "HTTP_PROXY=" +:+ p; "HTTPS_PROXY=" +:+ p].
Definition local_http (port : Z) : string := "http://127.0.0.1:" +:+ Strconv.Itoa port.
Definition local_socks (port : Z) : string := "socks5://127.0.0.1:" +:+ Strconv.Itoa port.

(** The certificate authority of traced connections. *)
Definition ca_env (E : wenv) : list string :=
  if we_verbose E then
    match we_ca E with
    | Some p => ["SSL_CERT_FILE=" +:+ p; "NODE_EXTRA_CA_CERTS=" +:+ p]
    | None => []
    end
  else [].

(** The settings of a command that is redirected; [http] and [socks] are the
    application's ports. *)
Definition direct_env (env : list string) (http socks : Z) : list string :=
  let env := if 0 <? http then env ++ http_env (local_http http) else env in
  let env :=
    if 0 <? socks then env ++ ["all_proxy=" +:+ local_socks socks; "ALL_PROXY=" +:+ local_socks socks]
    else if 0 <? http then env ++ ["all_proxy=" +:+ local_http http; "ALL_PROXY=" +:+ local_http http]
    else env in
  appendNoProxyEnv env.

Definition isHTTPTool (baseName : string) : bool := one_of ["curl"; "git"; "gemini"] baseName.

(** The arguments and the environment of a command that is given proxies. *)
Definition bridged_cmd (baseName : string) (need : bool) (args env : list string) (http socks : string) :
    list string * list string :=
  if String.eqb baseName "curl" then ("-x" :: http :: args, env)
  else if String.eqb baseName "code" then (("--proxy-server=" +:+ http) :: args, env)
  else if one_of ["git"; "gemini"] baseName then (args, appendNoProxyEnv (env ++ http_env http))
  else (args,
    if need then env
    else appendNoProxyEnv (env ++
      ["http_proxy=" +:+ http; "https_proxy=" +:+ http; "all_proxy=" +:+ socks;
       "HTTP_PROXY=" +:+ http; "HTTPS_PROXY=" +:+ http; "ALL_PROXY=" +:+ socks])).

(** ** The steps *)

(** Run the command, clean up and pass its status on. *)
Definition run_cmd (E : wenv) (argv env : list string) : wm unit := λ s,
  let s := set_launched s (Some (argv, env, Listeners.httpLn (w_handler s), Listeners.socksLn (w_handler s))) in
  match we_run E argv env with
  | Exited code => if code =? 0 then (Ok tt, cleanup E s) else (Err (Exit code), cleanup E s)
  | NotRun => (Err (Fatal ExecFailed), cleanup E s)
  | Interrupted => if w_signals s then (Err (Exit 1), cleanup E s) else (Err Killed, s)
  end.

(** With a daemon, a tool that knows proxies only needs the daemon's port. *)
Definition fast_path (E : wenv) (http : Z) (cmdName : string) (cmdArgs : list string) : wm unit := λ s,
  let env := appendNoProxyEnv (we_environ E ++ http_env (local_http http)) in
  let s := set_launched s (Some (cmdName :: cmdArgs, env, None, None)) in
  match we_run E (cmdName :: cmdArgs) env with
  | Exited code => if code =? 0 then (Ok tt, s) else (Err (Exit code), s)
  | NotRun => (Err (Fatal ExecFailed), s)
  | Interrupted => (Err Killed, s)
  end.

(** The upstream to use: the verified one or else the first. *)
Definition pick_upstream (h : Listeners.Handler) : outcome wexit string :=
  let best := ServerManager.GetBestServer (Listeners.sm h) in
  if String.eqb best "" then
    match ServerManager.GetServers (Listeners.sm h) with
    | b :: _ => Ok b
    | [] => Err (Fatal NoUpstream)
    end
  else Ok best.

(** Move this process into the cgroup: directly, through the daemon, or through
    the daemon after it repaired the redirection.  The error that is left. *)
Definition migrate_pid (E : wenv) (skip : bool) (w : Ipc.World) : option string * Ipc.World :=
  let ask links n w :=
    let '(e, _, w) := Ipc.RequestAttachWithRetry (we_daemon E).1 (we_daemon E).2 (we_peer E) links (we_self E) n
                        100000000 w in (e, w) in
  match Ipc.MoveProcessToVProxyCgroup (we_cgroups E) (we_self E) w with
  | (None, w) => (None, w)
  | (Some _, w) =>
      match ask (we_links E) 3 w with
      | (None, w) => (None, w)
      | (Some e, w) =>
          if skip then
            match Ipc.RequestRepair (we_daemon E).1 (we_daemon E).2 (we_peer E) (we_repair_link E) w with
            | (None, w) => ask (we_links2 E) 2 w
            | (Some _, w) => (Some e, w)
            end
          else (Some e, w)
      end
  end.

Definition enabled (c : Config.Config) : bool := default false (Config.EnableEbpf c).
Definition is_linux (E : wenv) : bool := String.eqb (we_goos E) "linux".

Definition migrate (E : wenv) (c : Config.Config) (skip : bool) : wm unit := λ s,
  if w_needs s && enabled c && is_linux E then
    let '(e, w) := migrate_pid E skip (w_world s) in
    if bool_decide (is_Some e) && negb skip && w_needs s
    then (Err (Fatal MigrationFailed), set_world s w (w_marking s))
    else (Ok tt, set_world s w true)
  else (Ok tt, s).

(** The transparent listener; its error is only logged. *)
Definition start_transparent : wm unit :=
  modify (λ s,
    let '(_, (h, evs), g) := Listeners.StartTransparent (w_pool s) (w_handler s) (w_events s) in
    set_handler s h evs g).

(** Load the programs, or else install the rules. *)
Definition install (E : wenv) (target : string) : wm unit := λ s,
  let port := wrap16 (Listeners.TransPort (w_handler s)) in
  let fallback s :=
    match Iptables.SetupRules (Sh := we_shell_up E) target false (w_rules s) with
    | (Ok _, fw) => (Ok tt, set_signals (set_rules s fw))
    | (Err e, fw) => (Err (Fatal (SetupFailed e)), set_rules s fw)
    | (Panic, fw) => (Panic, set_rules s fw)
    end in
  if we_force_iptables E then fallback s
  else match Ebpf.Load (E := we_kernel E) cgroupPath port 255 false None 0 (w_kernel s) with
       | (Ok r, k) => (Ok tt, set_signals (set_kernel s k (Some r)))
       | (_, k) => fallback (set_kernel s k (w_ebpf s))
       end.

Definition redirect (E : wenv) (c : Config.Config) (skip transparent : bool) (tproxy : option Url.URL) : wm unit :=
  s ← get_st;
  if (w_needs s || skip) && (we_tun E || enabled c) && is_linux E && transparent then
    stop_if (negb skip && negb (we_permission E) && negb (we_tun E)) PermissionFailed ;;
    stop_if (negb skip && negb (we_cgroup E) && negb (we_tun E)) PermissionFailed ;;
    target ←
      match tproxy with
      | Some u => mret (Url.Host u)
      | None =>
          if skip then modify (λ s, set_needs s false) ;; mret ""
          else start_transparent ;;
               s ← get_st; mret (Strconv.Itoa (Listeners.TransPort (w_handler s)))
      end;
    s ← get_st;
    if w_needs s then install E target else mret tt
  else mret tt.

(** A local listener, or the upstream itself when it speaks the protocol. *)
Definition bridge (start : Listeners.op) (direct : bool) (best : string) (url : Listeners.Handler → string) :
    wm string := λ s,
  if direct then (Ok best, s)
  else match start (w_handler s) (w_events s) with
       | (true, (h, evs)) => (Ok (url h), set_handler s h evs (w_pool s))
       | (false, (h, evs)) => (Err (Fatal BridgeFailed), set_handler s h evs (w_pool s))
       end.

Definition bridges (baseName best : string) (u : option Url.URL) : wm (string * string) :=
  match u with
  | None => crash
  | Some u =>
      http ← bridge Listeners.StartHTTP (String.eqb (Url.Scheme u) "http") best
               (λ h, local_http (Listeners.HttpPort h));
      if isHTTPTool baseName then mret (http, "")
      else socks ← bridge Listeners.StartSocks (String.eqb (Url.Scheme u) "socks5") best
                     (λ h, local_socks (Listeners.SocksPort h));
           mret (http, socks)
  end.

Definition print_ok (E : wenv) : wm unit := λ s,
  if ServerManager.HasWorkingServer (Listeners.sm (w_handler s)) then
    let '(no_color, term, tty) := we_stdout E in
    match Runtime.PrintConnectivityOK no_color term tty with Ok _ => (Ok tt, s) | _ => (Panic, s) end
  else (Ok tt, s).

(** What runs under the deferred clean-up. *)
Definition wrapped (E : wenv) (c : Config.Config) (n : needs) (best : string) (tproxy : option Url.URL)
    (cmdName : string) (cmdArgs : list string) : wm unit :=
  let skip := (we_pid_file E).1 || (we_pid_file E).2 in
  let baseName := Filepath.Base cmdName in
  s0 ← get_st;
  migrate E c skip ;;
  redirect E c skip (needsTransparent n) tproxy ;;
  s ← get_st;
  let env := we_environ E ++ ca_env E in
  if (skip || needsTransparent n) && w_needs s then
    run_cmd E (cmdName :: cmdArgs)
      (direct_env env (Listeners.HttpPort (w_handler s0)) (Listeners.SocksPort (w_handler s0)))
  else
    proxies ← (if needsBridges n then bridges baseName best (Url.Parse best) else mret ("", ""));
    let '(args, env) := bridged_cmd baseName (w_needs s) cmdArgs env proxies.1 proxies.2 in
    print_ok E ;;
    run_cmd E (cmdName :: args) env.

(** Deferred calls run at a return and at a panic, not at an exit. *)
Definition with_defer (E : wenv) (m : wm unit) : wm unit := λ s,
  match m s with
  | (Ok _, s) => (Ok tt, cleanup E s)
  | (Panic, s) => (Panic, cleanup E s)
  | (Err e, s) => (Err e, s)
  end.

(** The services with the first test of the upstreams done. *)
Definition services (E : wenv) (a : Listeners.Locals) (c : Config.Config) : Listeners.Handler :=
  let h := Listeners.setupServices a c in
  Listeners.set_managers h (ServerManager.testServers (we_dial E) (we_now E) <$> Listeners.sm h) (Listeners.rm h).

Definition RunWrapper (E : wenv) (a : Listeners.Locals) (c : Config.Config)
    (cmdName : string) (cmdArgs : list string) : wm unit :=
  let n := classify (we_tun E) (Filepath.Base cmdName) in
  if (we_pid_file E).1 && negb (needsEbpf n) && needsBridges n && negb (we_tun E)
  then fast_path E (Listeners.LocalHTTP a) cmdName cmdArgs
  else
    let h := services E a c in
    modify (λ s, set_needs (set_handler s h [] (w_pool s)) (needsEbpf n)) ;;
    let tproxy := tproxy_upstream (ServerManager.GetBestServer (Listeners.sm h)) in
    best ← lift (pick_upstream h);
    with_defer E (wrapped E c n best tproxy cmdName cmdArgs).

(** ** The system is left as it was found *)

Section Restores.
Context (E : wenv) (k0 : Ebpf.kern) (fw0 : Iptables.fw).
Hypothesis (Hclean : Iptables.clean fw0).
Hypothesis (Hup : Iptables.deletes_work (we_shell_up E)) (Hdown : we_shell_down E = Iptables.reliable).




















End Restores.


(** ** What the command is given *)

(** The status of the command becomes the outcome. *)
Definition status (E : wenv) (signals : bool) (argv env : list string) : outcome wexit unit :=
  match we_run E argv env with
  | Exited code => if code =? 0 then Ok tt else Err (Exit code)
  | NotRun => Err (Fatal ExecFailed)
  | Interrupted => if signals then Err (Exit 1) else Err Killed
  end.

Lemma cleanup_launched E s : w_launched (cleanup E s) = w_launched s.
Proof.
  unfold cleanup, stop_services. destruct (Listeners.Stop _ _) as [h evs]. cbn.
  unfold undo_redirect. destruct (_ || _); cbn; destruct (w_ebpf s); try destruct (_ && _); done.
Qed.

Lemma run_cmd_launched E argv env s :
  (run_cmd E argv env s).1 = status E (w_signals s) argv env ∧
  w_launched (run_cmd E argv env s).2 =
    Some (argv, env, Listeners.httpLn (w_handler s), Listeners.socksLn (w_handler s)).
Proof.
  unfold run_cmd, status. set (s1 := set_launched s _).
  change (w_signals s) with (w_signals s1).
  destruct (we_run E argv env) as [code| |]; [destruct (code =? 0)| |destruct (w_signals s1)];
    cbn [fst snd]; by rewrite ?cleanup_launched.
Qed.

(** A proxy address that somebody serves: the upstream's own, or that of an open
    local listener. *)
Definition served (direct : bool) (best url : string) (mk : Z → string) (ln : option Z) : Prop :=
  (direct = true ∧ url = best) ∨ ∃ p, ln = Some p ∧ url = mk p.

Lemma bridge_http_served direct best s url s' :
  Listeners.httpLn (w_handler s) = None → 0 ≤ Listeners.HttpPort (w_handler s) →
  bridge Listeners.StartHTTP direct best (λ h, local_http (Listeners.HttpPort h)) s = (Ok url, s') →
  served direct best url local_http (Listeners.httpLn (w_handler s')) ∧
  Listeners.socksLn (w_handler s') = Listeners.socksLn (w_handler s) ∧
  Listeners.SocksPort (w_handler s') = Listeners.SocksPort (w_handler s) ∧ w_signals s' = w_signals s.
Proof.
  intros Hn Hp. unfold bridge, Listeners.StartHTTP. destruct direct.
  { intros [= <- <-]. split; [by left|done]. }
  rewrite Hn, (proj2 (Z.ltb_ge _ _) Hp). destruct (Listeners.listen _ _ _ _) as [[p evs]|]; [|done].
  intros [= <- <-]. split; [right; by exists p|done].
Qed.

Lemma bridge_socks_served direct best s url s' :
  Listeners.socksLn (w_handler s) = None → 0 < Listeners.SocksPort (w_handler s) →
  bridge Listeners.StartSocks direct best (λ h, local_socks (Listeners.SocksPort h)) s = (Ok url, s') →
  served direct best url local_socks (Listeners.socksLn (w_handler s')) ∧
  Listeners.httpLn (w_handler s') = Listeners.httpLn (w_handler s) ∧ w_signals s' = w_signals s.
Proof.
  intros Hn Hp. unfold bridge, Listeners.StartSocks. destruct direct.
  { intros [= <- <-]. split; [by left|done]. }
  rewrite Hn, (proj2 (Z.leb_gt _ _) Hp). destruct (Listeners.listen _ _ _ _) as [[p evs]|]; [|done].
  intros [= <- <-]. split; [right; by exists p|done].
Qed.

Lemma bridge_outcome start direct best url s :
  (bridge start direct best url s).1 = Err (Fatal BridgeFailed) ∨ ∃ u, (bridge start direct best url s).1 = Ok u.
Proof.
  unfold bridge. destruct direct; [by right; eexists|].
  destruct (start _ _) as [[] [h evs]]; [by right; eexists|by left].
Qed.

(** The proxies of a command are served when it starts. *)
Lemma bridges_served base best u s :
  Listeners.httpLn (w_handler s) = None → Listeners.socksLn (w_handler s) = None →
  0 ≤ Listeners.HttpPort (w_handler s) → 0 < Listeners.SocksPort (w_handler s) →
  match bridges base best (Some u) s with
  | (Ok (http, socks), s') =>
      served (String.eqb (Url.Scheme u) "http") best http local_http (Listeners.httpLn (w_handler s')) ∧
      (isHTTPTool base = true ∨
       served (String.eqb (Url.Scheme u) "socks5") best socks local_socks (Listeners.socksLn (w_handler s'))) ∧
      w_signals s' = w_signals s
  | (Err e, _) => e = Fatal BridgeFailed
  | (Panic, _) => False
  end.
Proof.
  intros Hh Hs Ph Ps. unfold bridges, mbind, stm_bind.
  set (b1 := bridge Listeners.StartHTTP _ _ _ s).
  pose proof (bridge_http_served (String.eqb (Url.Scheme u) "http") best s) as H1. fold b1 in H1.
  assert (b1.1 = Err (Fatal BridgeFailed) ∨ ∃ u, b1.1 = Ok u) as Ho by apply bridge_outcome.
  destruct b1 as [o1 s1]. cbn [fst] in Ho. destruct Ho as [->|[http ->]]; [done|].
  destruct (H1 http s1 Hh Ph eq_refl) as (A1 & A2 & A3 & A4).
  destruct (isHTTPTool base); [split; [done|]; split; [by left|done]|].
  set (b2 := bridge Listeners.StartSocks _ _ _ s1).
  pose proof (bridge_socks_served (String.eqb (Url.Scheme u) "socks5") best s1) as H2. fold b2 in H2.
  assert (b2.1 = Err (Fatal BridgeFailed) ∨ ∃ u, b2.1 = Ok u) as Ho by apply bridge_outcome.
  destruct b2 as [o2 s2]. cbn [fst] in Ho. destruct Ho as [->|[socks ->]]; [done|].
  destruct (H2 socks s2 ltac:(congruence) ltac:(congruence) eq_refl) as (B1 & B2 & B3). cbn.
  rewrite B2. split; [done|]. split; [by right|congruence].
Qed.

Lemma services_listeners E a c :
  Listeners.httpLn (services E a c) = None ∧ Listeners.socksLn (services E a c) = None.
Proof.
  unfold services. cbn. unfold Listeners.setupServices.
  destruct (Config.Rewrites c), (Config.BypassNodes c); try case_match; done.
Qed.

Lemma classify_bridges tun base : needsEbpf (classify tun base) = false → needsBridges (classify tun base) = true.
Proof. unfold classify. by repeat case_match. Qed.

(** Without a daemon, a tool that is not redirected goes straight to the bridges. *)
Lemma wrapped_bridged E c n best tp cmd args s :
  we_pid_file E = (false, false) → needsBridges n = true → w_needs s = false →
  wrapped E c n best tp cmd args s =
  (proxies ← bridges (Filepath.Base cmd) best (Url.Parse best);
   let '(argv, env) := bridged_cmd (Filepath.Base cmd) false args (we_environ E ++ ca_env E) proxies.1 proxies.2 in
   print_ok E ;; run_cmd E (cmd :: argv) env) s.
Proof.
  intros Hp Hb Hn. unfold wrapped. rewrite Hp. cbn [fst snd orb].
  change ((get_st ≫= ?f) s) with (f s s). cbv beta.
  rewrite (stm_bind_ok _ _ s tt s) by (unfold migrate; by rewrite Hn).
  rewrite (stm_bind_ok _ _ s tt s).
  2:{ unfold redirect. change ((get_st ≫= ?f) s) with (f s s). cbv beta. by rewrite Hn. }
  change ((get_st ≫= ?f) s) with (f s s). cbv beta zeta. rewrite Hn, andb_false_r, Hb. done.
Qed.

Lemma print_ok_cases E s :
  print_ok E s = (Ok tt, s) ∨ (print_ok E s = (Panic, s) ∧ Runtime.stdout_closed (we_stdout E)).
Proof.
  unfold print_ok. destruct (ServerManager.HasWorkingServer _); [|by left]. destruct (we_stdout E) as [[nc term] tty].
  pose proof (Runtime.PrintConnectivityOK_cases nc term tty) as H.
  destruct (Runtime.PrintConnectivityOK _ _ _); [by left|done|by right].
Qed.

(** The proxies a command is told to use are served.  Without a daemon, a tool
    that takes proxy settings is started, with its own arguments after ours, only
    once each proxy it is given is the upstream itself, speaking that protocol, or
    a local listener that is open on the port it is told; the command's status is
    the status of the wrapper.  The other outcomes are the error that no port
    could be opened and the panic on a standard output that cannot be examined. *)
Theorem wrapper_proxies_served E a c cmd args s best u :
  let h := services E a c in
  needsEbpf (classify (we_tun E) (Filepath.Base cmd)) = false → we_pid_file E = (false, false) →
  w_signals s = false →
  pick_upstream h = Ok best → Url.Parse best = Some u →
  0 ≤ Listeners.HttpPort h → 0 < Listeners.SocksPort h →
  let '(o, s') := RunWrapper E a c cmd args s in
  o = Err (Fatal BridgeFailed) ∨ (o = Panic ∧ Runtime.stdout_closed (we_stdout E)) ∨
  ∃ http socks httpLn socksLn,
    let '(argv, env) := bridged_cmd (Filepath.Base cmd) false args (we_environ E ++ ca_env E) http socks in
    w_launched s' = Some (cmd :: argv, env, httpLn, socksLn) ∧ o = status E false (cmd :: argv) env ∧
    served (String.eqb (Url.Scheme u) "http") best http local_http httpLn ∧
    (isHTTPTool (Filepath.Base cmd) = true ∨
     served (String.eqb (Url.Scheme u) "socks5") best socks local_socks socksLn).
Proof.
  intros h Hn Hp Hsig Hb Hu H1 H2. unfold RunWrapper. cbv zeta. rewrite Hp, Hn. cbn [fst andb]. fold h. rewrite Hb.
  set (s1 := set_needs (set_handler s h [] (w_pool s)) false).
  rewrite (stm_bind_ok _ _ s tt s1) by done. rewrite (stm_bind_ok _ _ s1 best s1) by done.
  unfold with_defer. rewrite wrapped_bridged by (done || by apply classify_bridges).
  destruct (services_listeners E a c) as [L1 L2].
  pose proof (bridges_served (Filepath.Base cmd) best u s1 L1 L2 H1 H2) as Hs. rewrite Hu.
  destruct (bridges _ best (Some u) s1) as [[[http socks]|e|] s2] eqn:Eb; [| |done].
  2:{ subst e. rewrite (stm_bind_err _ _ _ _ _ Eb). by left. }
  rewrite (stm_bind_ok _ _ _ _ _ Eb). cbn [fst snd]. destruct Hs as (S1 & S2 & S3).
  destruct (bridged_cmd _ _ _ _ _ _) as [argv env] eqn:Ec.
  destruct (print_ok_cases E s2) as [Ep|[Ep Hout]].
  2:{ rewrite (stm_bind_panic _ _ _ _ Ep). by right; left. }
  rewrite (stm_bind_ok _ _ _ _ _ Ep).
  destruct (run_cmd_launched E (cmd :: argv) env s2) as [R1 R2].
  rewrite S3 in R1. change (w_signals s1) with (w_signals s) in R1. rewrite Hsig in R1.
  destruct (run_cmd E (cmd :: argv) env s2) as [o s3]. cbn [fst snd] in R1, R2.
  assert (∀ s4, w_launched s4 = w_launched s3 → ∃ http socks httpLn socksLn,
    let '(argv, env) := bridged_cmd (Filepath.Base cmd) false args (we_environ E ++ ca_env E) http socks in
    w_launched s4 = Some (cmd :: argv, env, httpLn, socksLn) ∧ o = status E false (cmd :: argv) env ∧
    served (String.eqb (Url.Scheme u) "http") best http local_http httpLn ∧
    (isHTTPTool (Filepath.Base cmd) = true ∨
     served (String.eqb (Url.Scheme u) "socks5") best socks local_socks socksLn)) as Hfin.
  { intros s4 H4. exists http, socks. eexists _, _. rewrite Ec, H4. split; [exact R2|done]. }
  destruct o as [[]|e|]; right; right; apply Hfin; by rewrite ?cleanup_launched.
Qed.

(** ** What a redirected command is given *)

(** No listener for explicit proxies is open. *)
Definition unserved (s : wstate) : Prop :=
  Listeners.httpLn (w_handler s) = None ∧ Listeners.socksLn (w_handler s) = None.

Lemma StartTransparent_others g h evs :
  let '(_, (h', _), _) := Listeners.StartTransparent g h evs in
  Listeners.httpLn h' = Listeners.httpLn h ∧ Listeners.socksLn h' = Listeners.socksLn h.
Proof.
  unfold Listeners.StartTransparent. destruct (Listeners.transLn h); [done|]. cbv zeta.
  set (h1 := match Listeners.driver h with Some _ => h | None => _ end).
  assert (Listeners.httpLn h1 = Listeners.httpLn h ∧ Listeners.socksLn h1 = Listeners.socksLn h) as H1
    by (subst h1; by destruct (Listeners.driver h)).
  clearbody h1. destruct (Listeners.dedicated _); [done|].
  destruct (Listeners.listen _ _ _ _) as [[p evs']|]; [|done].
  by destruct (Listeners.env_udp _ _) as [[]|].
Qed.

(** Until the command runs: no listener, nothing started, redirection wanted. *)
Definition waiting (s : wstate) : Prop := unserved s ∧ w_launched s = None ∧ w_needs s = true.
Definition unlaunched (_ : option wexit) (s : wstate) : Prop := w_launched s = None.

Lemma migrate_waiting E c skip : triple waiting (migrate E c skip) (λ _, waiting) unlaunched.
Proof.
  intros s Hs. unfold migrate. destruct (w_needs s && enabled c && is_linux E); [|done].
  destruct (migrate_pid E skip (w_world s)) as [e w].
  destruct (bool_decide (is_Some e) && negb skip && w_needs s); [apply Hs|done].
Qed.

Lemma install_waiting E target : triple waiting (install E target) (λ _, waiting) unlaunched.
Proof.
  intros s Hs. unfold install. destruct (we_force_iptables E); [|destruct (Ebpf.Load _ _ _ _ _ _ _) as [[r|e|] k]];
    [|done| |]; destruct (Iptables.SetupRules _ _ _) as [[[]|?|] fw]; (exact Hs || apply Hs).
Qed.

Lemma redirect_waiting E c tr tp : triple waiting (redirect E c false tr tp) (λ _, waiting) unlaunched.
Proof.
  unfold redirect. apply triple_get. intros s1 Hs1.
  destruct (_ && tr); [|by intros ? ->]. apply (triple_pre waiting); [by intros ? ->|].
  assert (∀ b, triple waiting (stop_if b PermissionFailed) (λ _, waiting) unlaunched) as Hst.
  { intros b s Hs. destruct b; [apply Hs|done]. }
  eapply triple_bind; [apply Hst|intros []]. eapply triple_bind; [apply Hst|intros []].
  eapply (triple_bind _ _ _ (λ _, waiting)).
  - destruct tp as [u|]; [apply triple_ret|].
    eapply (triple_bind _ _ _ (λ _, waiting)).
    + intros s ([U1 U2] & Hl & Hn). unfold start_transparent, modify.
      pose proof (StartTransparent_others (w_pool s) (w_handler s) (w_events s)) as H.
      destruct (Listeners.StartTransparent _ _ _) as [[? [h evs]] g]. destruct H as [H1 H2].
      split; [|done]. split; cbn; congruence.
    + intros []. apply triple_get. intros s2 Hs2. apply (triple_pre waiting); [by intros ? ->|apply triple_ret].
  - intros target. apply triple_get. intros s2 Hs2. apply (triple_pre waiting); [by intros ? ->|].
    destruct (w_needs s2); [apply install_waiting|apply triple_ret].
Qed.

Definition launched_bare (argv env : list string) (s : wstate) : Prop :=
  w_launched s = Some (argv, env, None, None).

Lemma wrapped_redirected E c n best tp cmd args h :
  we_pid_file E = (false, false) → needsTransparent n = true →
  let L := launched_bare (cmd :: args)
    (direct_env (we_environ E ++ ca_env E) (Listeners.HttpPort h) (Listeners.SocksPort h)) in
  triple (λ s, waiting s ∧ w_handler s = h) (wrapped E c n best tp cmd args) (λ _, L)
    (λ _ s, w_launched s = None ∨ L s).
Proof.
  intros Hp Ht L. unfold wrapped. rewrite Hp, Ht. cbn [fst snd orb andb].
  assert (∀ A (m : wm A) Q, triple waiting m Q unlaunched → triple waiting m Q (λ _ s, w_launched s = None ∨ L s)) as Hw.
  { intros A m Q Hm s Hs. specialize (Hm s Hs). destruct (m s) as [[x|e|] s']; [done|by left..]. }
  apply triple_get. intros s0 [Hs0 Hh]. subst h. apply (triple_pre waiting); [by intros ? ->|].
  eapply triple_bind; [apply Hw, migrate_waiting|intros []].
  eapply triple_bind; [apply Hw, redirect_waiting|intros []].
  apply triple_get. intros s1 ([U1 U2] & _ & Hn). rewrite Hn. intros ? ->.
  destruct (run_cmd_launched E (cmd :: args)
    (direct_env (we_environ E ++ ca_env E) (Listeners.HttpPort (w_handler s0)) (Listeners.SocksPort (w_handler s0))) s1)
    as [_ R]. rewrite U1, U2 in R.
  by destruct (run_cmd E _ _ s1) as [[[]|e|] s']; [|right|right].
Qed.

(** A redirected command that is started without a daemon is told to use local
    proxies (on the application's ports, if positive) although none is open. *)
Lemma redirected_unserved E a c cmd args s :
  let h := services E a c in
  needsEbpf (classify (we_tun E) (Filepath.Base cmd)) = true → we_pid_file E = (false, false) →
  w_launched s = None →
  let s' := (RunWrapper E a c cmd args s).2 in
  w_launched s' = None ∨
  launched_bare (cmd :: args)
    (direct_env (we_environ E ++ ca_env E) (Listeners.HttpPort h) (Listeners.SocksPort h)) s'.
Proof.
  intros h Hn Hp Hl. unfold RunWrapper. cbv zeta. rewrite Hp, Hn. cbn [fst andb]. fold h.
  set (s1 := set_needs (set_handler s h [] (w_pool s)) true).
  rewrite (stm_bind_ok _ _ s tt s1) by done.
  destruct (pick_upstream h) as [best|e|] eqn:Hb; [|by left|by left].
  rewrite (stm_bind_ok _ _ s1 best s1) by done. unfold with_defer.
  assert (needsTransparent (classify (we_tun E) (Filepath.Base cmd)) = true) as Ht.
  { revert Hn. unfold classify. by repeat case_match. }
  pose proof (wrapped_redirected E c _ best (tproxy_upstream (ServerManager.GetBestServer (Listeners.sm h)))
    cmd args h Hp Ht s1) as H.
  destruct (services_listeners E a c) as [L1 L2].
  destruct (wrapped _ _ _ _ _ _ _ s1) as [[[]|e|] s2]; unfold launched_bare in *; cbn [snd];
    rewrite ?cleanup_launched; [right|..]; apply H; done.
Qed.

End Wrapper.

(** ** Runs *)

(** A machine where ports are free and the upstream answers, without a daemon. *)
#[local] Instance ex_lenv : Listeners.LEnv := {|
  Listeners.env_listen := λ evs addr, Some (40000 + Z.of_nat (length evs));
  Listeners.env_udp := λ _ _, Some None;
  Listeners.env_driver := "linux-ebpf" |}.
Definition ex_answer : conn := mkConn (bytes [5; 0]) EOF [] 10 false false.
Definition ex_wenv (shell : Iptables.Shell) (r : run_result) : wenv :=
  mkWenv "linux" false true false ["HOME=/root"] (false, false) 4242
    (λ _, Some ex_answer) 0
    (Ipc.mkKernel (λ _, None) (λ _, None)) (Ipc.ex_kernel, Ipc.ex_server) Ipc.ex_user
    Ipc.ex_links (Ipc.ex_links 0) Ipc.ex_links true true (Ebpf.ex_env None) shell Iptables.reliable None (λ _ _, r) ("", "xterm", Some true).
Definition ex_config (ebpf : bool) : Config.Config :=
  Config.mkConfig ["socks5://10.0.0.1:1080"] [] 30 8899 (Some 1080) None (Some ebpf) None None None [] [] [] None.
Definition ex_locals : Listeners.Locals := Listeners.mkLocals 0 8118 10080.
Definition ex_start : wstate (RE := Rewrite.ex_regexp) :=
  mkW (RE := Rewrite.ex_regexp) Ebpf.ex_kern Iptables.ex_fw None false
    (Listeners.setupServices (RE := Rewrite.ex_regexp) ex_locals (ex_config true)) []
    (FakeIP.mkGlobal false None) (Ipc.mkWorld [] 0) false false 0 None.


(** npm, which is given the SOCKS upstream and a local HTTP listener. *)
Lemma wrapper_proxies_served_witness :
  let E := ex_wenv Iptables.reliable (Exited 0) in
  let run := RunWrapper (RE := Rewrite.ex_regexp) (J := Ipc.ex_json) E ex_locals (ex_config true) "curl" ["a.com"] ex_start in
  run.1 = Ok tt ∧
  ∃ http httpLn socksLn, w_launched run.2 = Some (["curl"; "-x"; http; "a.com"], ["HOME=/root"], httpLn, socksLn) ∧
    served false "socks5://10.0.0.1:1080" http local_http httpLn.
Proof.
  intros E run. assert (run.1 = Ok tt) as Ho by (vm_compute; reflexivity). split; [exact Ho|].
  destruct (Url.Parse "socks5://10.0.0.1:1080") as [u|] eqn:Eu; [|vm_compute in Eu; discriminate].
  pose proof (wrapper_proxies_served (RE := Rewrite.ex_regexp) (J := Ipc.ex_json) E ex_locals (ex_config true)
    "curl" ["a.com"] ex_start "socks5://10.0.0.1:1080" u) as H.
  cbv zeta in H. specialize (H eq_refl eq_refl eq_refl). fold run in H. destruct run as [o s']. cbn [fst snd] in *.
  subst o. destruct H as [H|[[H _]|(http & socks & hl & sl & H)]];
    [vm_compute; reflexivity|exact Eu|vm_compute; discriminate|vm_compute; reflexivity|discriminate|discriminate|].
  change (bridged_cmd _ _ _ _ http socks) with (["-x"; http; "a.com"], ["HOME=/root"]) in H.
  destruct H as (H1 & _ & H2 & _). exists http, hl, sl. split; [exact H1|].
  vm_compute in Eu. injection Eu as <-. exact H2.
Defined.

(** SetupRules that fails half-way leaves its rules: Fatal skips the clean-up. *)
Lemma setup_failure_leaks :
  let run := RunWrapper (RE := Rewrite.ex_regexp) (J := Ipc.ex_json) (ex_wenv Iptables.ex_shell (Exited 0))
               ex_locals (ex_config true) "wget" [] ex_start in
  match run.1 with Err (Fatal (SetupFailed _)) => True | _ => False end ∧
  bool_decide (is_Some (Iptables.chains (w_rules run.2) !! Iptables.REDIR Iptables.ipt)) = true ∧
  bool_decide (is_Some (Iptables.chains Iptables.ex_fw !! Iptables.REDIR Iptables.ipt)) = false.
Proof. split_and!; vm_compute; exact I || reflexivity. Qed.

(** Beside a daemon that runs on rules, with a transparent upstream: after the
    programs are unloaded the deferred clean-up runs a second time and removes the
    rules of the daemon. *)
Definition daemon_rules : Iptables.fw := (Iptables.SetupRules (Sh := Iptables.reliable) "10080" false Iptables.ex_fw).2.
Definition ex_tproxy_env : wenv :=
  mkWenv "linux" false false false [] (true, true) 4242 (λ _, Some ex_answer) 0
    (Ipc.mkKernel (λ _, None) (λ _, None)) (Ipc.ex_kernel, Ipc.ex_server) Ipc.ex_user
    Ipc.ex_links (Ipc.ex_links 0) Ipc.ex_links true true (Ebpf.ex_env None) Iptables.reliable Iptables.reliable None
    (λ _ _, Exited 0) ("", "xterm", Some true).
Definition ex_tproxy_config : Config.Config :=
  Config.mkConfig ["tproxy://10.0.0.1:12345"] [] 30 8899 None None (Some true) None None None [] [] [] None.

Lemma daemon_rules_removed :
  let run := RunWrapper (RE := Rewrite.ex_regexp) (J := Ipc.ex_json) ex_tproxy_env ex_locals ex_tproxy_config
               "wget" [] (set_rules (RE := Rewrite.ex_regexp) ex_start daemon_rules) in
  run.1 = Ok tt ∧
  bool_decide (is_Some (Iptables.chains daemon_rules !! Iptables.REDIR Iptables.ipt)) = true ∧
  bool_decide (is_Some (Iptables.chains (w_rules run.2) !! Iptables.REDIR Iptables.ipt)) = false.
Proof. split_and!; vm_compute; reflexivity. Qed.

End Wrapper.
