(* ===== verification/CommandLine.v ===== *)
(** * The command line: src/cmd/vproxy/main.go

    The subcommands, the start and the end of the background daemon, and the rule
    that [vproxy <command>] adds to the configuration.  The state is the PID file
    and the events so far; everything the operating system answers is a field of
    [menv].  RunServer and RunWrapper are modelled in the files App and Wrapper;
    here they are the action main hands over to. *)

From S2P Require Import Prelude GoStrings GoNet FakeIP Router ServerManager Rewrite Config Listeners Ipc.

Module CommandLine.

Record flags := mkFlags {
  f_config : string;      (* -c *)
  f_verbose : bool;       (* -v *)
  localHTTP : Z;          (* -http, 8118 *)
  localSocks : Z;         (* -socks, 0 *)
  localTrans : Z;         (* -trans, 10080 *)
  useTun : bool;          (* -tun *)
  versionFlag : bool }.   (* -version, -V *)

Inductive event :=
| Spawn (args env : list string) (pid : Z)
| Signal (pid : Z)
| KillChild (pid : Z)
| WritePid (text : string)
| RemovePid
| RemoveReady (path : string)
| TunCleanup
| Setup (binary : string)
| SaveConfig (path : string) (data : list byte)
| Say (line : string).

(** What main hands over to; [Done]: it returns. *)
Inductive action :=
| Done | Failed
| DoServer (c : Config.Config) (path : string) (a : Listeners.Locals)
| DoWrapper (c : Config.Config) (path : string) (a : Listeners.Locals) (args : list string).

Record menv := mkMenv {
  m_goos : string;
  m_root : bool;                       (* elevated privileges *)
  m_alive : Z → bool;                  (* signal 0, or an open handle *)
  m_find : Z → bool;                   (* os.FindProcess *)
  m_executable : option string;
  m_abs : string → option string;      (* filepath.Abs *)
  m_environ : list string;
  m_ready : string;                    (* the path of the readiness file *)
  m_spawn : option Z;                  (* cmd.Start: the PID *)
  m_stat : nat → bool;                 (* the readiness file at the i-th look *)
  m_running : nat → bool;              (* the child at the i-th look *)
  m_start : Z; m_now : nat → Z;        (* the clock, in nanoseconds *)
  m_status : string + Ipc.StatusResponse;
  m_version : string; m_usage : string;   (* what printVersion and printUsage print *)
  m_fs : Config.FS;
  m_decode : list byte → option Config.Config;
  m_marshal : Config.Config → list byte }.

Record mstate := mkM { pid_file : option string; mlog : list event }.
Abbreviation mm := (stm mstate string).

Definition emit (e : event) : mm unit := λ s, (Ok tt, mkM (pid_file s) (mlog s ++ [e])).
Definition say (l : string) : mm unit := emit (Say l).
Definition remove_pid : mm unit := λ s, (Ok tt, mkM None (mlog s ++ [RemovePid])).
Definition write_pid (t : string) : mm unit := λ s, (Ok tt, mkM (Some t) (mlog s ++ [WritePid t])).

(** ** The daemon's PID *)

Definition isPIDAlive (E : menv) (pid : Z) : bool := if pid <=? 0 then false else m_alive E pid.

Definition read_pid (data : string) : Z := fst (Strconv.Atoi (Strings.TrimSpace data)).

(** ** waitForReadyFile *)

Definition poll : Z := 50000000.

(** [None]: out of fuel. *)
Fixpoint wait_loop (E : menv) (fuel i : nat) (deadline : Z) : option (outcome string unit) :=
  match fuel with
  | O => None
  | S fuel =>
      if m_stat E i then Some (Ok tt)
      else if negb (m_running E i) then Some (Err "background server exited before signaling readiness")
      else if deadline <? m_now E i then Some (Err "readiness file was not created")
      else wait_loop E fuel (S i) deadline
  end.
Definition wait_fuel (timeout : Z) : nat := Z.to_nat (timeout / poll) + 2.
Definition waitForReadyFile (E : menv) (timeout : Z) : outcome string unit :=
  default (Err "") (wait_loop E (wait_fuel timeout) 0 (m_start E + timeout)).

(** ** startBackgroundServer *)

Definition bgArgs (F : flags) (config : string) : list string :=
  ["-c"; config] ++
  (if useTun F then ["-tun"] else []) ++
  (if f_verbose F then ["-v"] else []) ++
  (if 0 <? localSocks F then ["-socks"; Strconv.Itoa (localSocks F)] else []) ++
  (if localHTTP F =? 8118 then [] else ["-http"; Strconv.Itoa (localHTTP F)]) ++
  ["start"].

Definition startupTimeout : Z := 15000000000.

Definition spawn_daemon (E : menv) (F : flags) (config : string) : mm unit :=
  emit (RemoveReady (m_ready E)) ;;
  match m_spawn E with
  | None => throw "failed to start background server"
  | Some pid =>
      emit (Spawn (default "" (m_executable E) :: bgArgs F config)
              (m_environ E ++ ["VP_BACKGROUND=1"; "VP_READY_FILE=" +:+ m_ready E]) pid) ;;
      write_pid (Strconv.Itoa pid) ;;
      say ("vproxy: started in background (PID: " +:+ Strconv.Itoa pid +:+ ")") ;;
      if negb (String.eqb (m_goos E) "windows") then say "vproxy: environment initialized."
      else match waitForReadyFile E startupTimeout with
           | Ok _ => emit (RemoveReady (m_ready E)) ;; say "vproxy: TUN environment initialized and ready."
           | _ => emit (KillChild pid) ;; remove_pid ;; emit TunCleanup ;;
                  throw "background server did not become ready"
           end
  end.

Definition startBackgroundServer (E : menv) (F : flags) (config : string) : mm unit :=
  s ← get_st;
  match pid_file s with
  | Some data =>
      if (0 <? read_pid data) && isPIDAlive E (read_pid data)
      then say "vproxy is already running. Run 'vproxy clean' first if you want to restart."
      else remove_pid ;; spawn_daemon E F config
  | None => spawn_daemon E F config
  end.

(** ** stopBackgroundServer *)

Definition stopBackgroundServer (E : menv) : mm unit :=
  s ← get_st;
  match pid_file s with
  | None => mret tt
  | Some data =>
      let pid := fst (Strconv.Atoi data) in
      (if m_find E pid then emit (Signal pid) else mret tt) ;;
      remove_pid ;; emit TunCleanup
  end.

(** ** ensureProcessInConfig *)

Definition with_config_rules (c : Config.Config) (rs : list string) : Config.Config :=
  Config.mkConfig (Config.Upstreams c) rs (Config.TestInterval c) (Config.WebPort c) (Config.SocksPort c)
    (Config.HttpPort c) (Config.EnableEbpf c) (Config.DirectDNS c) (Config.DialTimeoutMs c)
    (Config.DialRetryCount c) (Config.BypassNodes c) (Config.RemoteLANs c) (Config.Rewrites c) (Config.Otel c).

Definition process_rule (proc : string) : string := "PROCESS," +:+ proc +:+ ",PROXY".

Definition ensured (c : Config.Config) (proc : string) : Config.Config :=
  if existsb (λ r, Strings.Contains r proc) (Config.Rules c) then c
  else with_config_rules c (process_rule proc :: Config.Rules c).

Definition ensureProcessInConfig (E : menv) (path : string) (c : Config.Config) (proc : string) : mm Config.Config :=
  if existsb (λ r, Strings.Contains r proc) (Config.Rules c) then mret c
  else let c := ensured c proc in emit (SaveConfig path (m_marshal E c)) ;; mret c.

(** ** main *)

Definition locals (F : flags) : Listeners.Locals := Listeners.mkLocals (localSocks F) (localHTTP F) (localTrans F).

(** [requireElevatedPrivileges] and the other fatal errors end main. *)
Definition or_fail (m : mm action) : mm action := λ s,
  match m s with
  | (Err _, s) => (Ok Failed, s)
  | r => r
  end.

Definition load (E : menv) (F : flags) : mm (Config.Config * string) :=
  match Config.LoadConfig (m_decode E) (m_fs E) (f_config F) with
  | Ok r => mret r
  | _ => throw "Failed to load config"
  end.

(** Capabilities of the binary and the cgroup directory, on Linux. *)
Definition performPrivilegedInitSetup (E : menv) : mm unit :=
  match m_executable E with
  | Some b => if String.eqb (m_goos E) "linux" then emit (Setup b) else mret tt
  | None => mret tt
  end.

Definition status_lines (E : menv) (F : flags) : mm unit :=
  say "vproxy status:" ;;
  s ← get_st;
  match pid_file s with
  | None => say "  Background Daemon: Not running"
  | Some data =>
      let pid := read_pid data in
      if (0 <? pid) && isPIDAlive E pid then
        say ("  Background Daemon: Running (PID: " +:+ Strconv.Itoa pid +:+ ")") ;;
        if String.eqb (m_goos E) "windows" then say "  Mode:              Windows TUN (Wintun)"
        else match m_status E with
             | inr r => say ("  Version:           " +:+ Ipc.Version r) ;; say ("  Uptime:            " +:+ Ipc.Uptime r)
             | inl e => say ("  IPC Detail:        Unavailable (" +:+ e +:+ ")")
             end
      else say ("  Background Daemon: Stale PID file found (PID: " +:+ Strconv.Itoa pid +:+ ")")
  end ;;
  say ("  Config Path:       " +:+ f_config F).

Definition main (E : menv) (F : flags) (args : list string) : mm action :=
  if versionFlag F then say (m_version E) ;; mret Done
  else match args with
  | [] => say (m_usage E) ;; mret Done
  | command :: rest =>
      or_fail (
        if String.eqb command "version" then say (m_version E) ;; mret Done
        else if String.eqb command "status" then status_lines E F ;; mret Done
        else if String.eqb command "clean" then
          if negb (m_root E) then throw "'clean' command requires root privileges"
          else stopBackgroundServer E ;; emit TunCleanup ;; say "vproxy: environment cleaned." ;; mret Done
        else if String.eqb command "stop" then
          stopBackgroundServer E ;; say "vproxy: background server stopped." ;; mret Done
        else if String.eqb command "init" then
          if negb (m_root E) then throw "'init' command requires root privileges"
          else
            r ← load E F;
            let path := default r.2 (m_abs E r.2) in
            performPrivilegedInitSetup E ;;
            startBackgroundServer E F path ;; mret Done
        else if String.eqb command "start" then
          r ← load E F; mret (DoServer r.1 r.2 (locals F))
        else
          r ← load E F;
          c ← ensureProcessInConfig E r.2 r.1 command;
          mret (DoWrapper c r.2 (locals F) (command :: rest)))
  end.

(** ** Waiting ends *)

(** Each round sleeps 50 milliseconds. *)
Definition sleeps (E : menv) : Prop := m_start E ≤ m_now E 0 ∧ ∀ i, m_now E i + poll ≤ m_now E (S i).

(** What is seen until round [k], and the answer given there. *)
Definition decided (E : menv) (deadline : Z) (k : nat) (o : outcome string unit) : Prop :=
  if m_stat E k then o = Ok tt
  else if m_running E k
  then deadline < m_now E k ∧ o = Err "readiness file was not created"
  else o = Err "background server exited before signaling readiness".
Definition undecided (E : menv) (deadline : Z) (j : nat) : Prop :=
  m_stat E j = false ∧ m_running E j = true ∧ m_now E j ≤ deadline.

Lemma sleeps_now E i : sleeps E → m_start E + poll * Z.of_nat i ≤ m_now E i.
Proof.
  intros [H0 Hs]. induction i as [|i IH]; [rewrite Z.mul_0_r, Z.add_0_r; exact H0|].
  specialize (Hs i). rewrite Nat2Z.inj_succ. unfold poll in *. lia.
Qed.

Lemma wait_loop_spec E deadline : ∀ fuel i,
  (∀ j, (i ≤ j)%nat → undecided E deadline j → (j + 1 < i + fuel)%nat) → (0 < fuel)%nat →
  ∃ k o, (i ≤ k < i + fuel)%nat ∧ wait_loop E fuel i deadline = Some o ∧
    (∀ j, (i ≤ j < k)%nat → undecided E deadline j) ∧ decided E deadline k o.
Proof.
  induction fuel as [|fuel IH]; intros i Hb Hf; [lia|]. cbn [wait_loop].
  assert (∀ o, decided E deadline i o → ∃ k o', (i ≤ k < i + S fuel)%nat ∧ Some o = Some o' ∧
    (∀ j, (i ≤ j < k)%nat → undecided E deadline j) ∧ decided E deadline k o') as Hnow.
  { intros o Ho. exists i, o. split_and!; [lia|lia|done| |done]. intros j Hj. lia. }
  unfold decided in Hnow at 1.
  destruct (m_stat E i) eqn:Es; [by apply Hnow|]. destruct (m_running E i) eqn:Er; cbn [negb]; [|by apply Hnow].
  destruct (Z.ltb_spec deadline (m_now E i)) as [Hd|Hd]; [by apply Hnow|].
  assert (undecided E deadline i) as Hu by done.
  pose proof (Hb i ltac:(lia) Hu) as Hi.
  destruct (IH (S i)) as (k & o & Hk & Hl & Hj & Ho); [|lia|].
  { intros j Hj Huj. specialize (Hb j ltac:(lia) Huj). lia. }
  exists k, o. split_and!; [lia|lia|done| |done]. intros j Hj2.
  destruct (decide (j = i)) as [->|]; [done|]. apply Hj. lia.
Qed.

(** Waiting for the daemon ends.  However slow the daemon is, waitForReadyFile
    returns after at most one look more than fit into the time-out at one every 50
    milliseconds and two: with success when the file is there, otherwise with an
    error that tells whether the daemon died or the time ran out, each at the
    first look at which it is the case. *)
Theorem waitForReadyFile_terminates E timeout :
  0 ≤ timeout → sleeps E →
  ∃ k, (k < wait_fuel timeout)%nat ∧
    wait_loop E (wait_fuel timeout) 0 (m_start E + timeout) = Some (waitForReadyFile E timeout) ∧
    (∀ j, (j < k)%nat → undecided E (m_start E + timeout) j) ∧
    decided E (m_start E + timeout) k (waitForReadyFile E timeout).
Proof.
  intros Ht Hs. destruct (wait_loop_spec E (m_start E + timeout) (wait_fuel timeout) 0) as (k & o & Hk & Hl & Hj & Ho).
  - intros j _ (_ & _ & Hn). pose proof (sleeps_now E j Hs) as Hj. unfold wait_fuel.
    assert (Z.of_nat j ≤ timeout / poll) as Hq.
    { apply Z.div_le_lower_bound; [done|]. lia. }
    lia.
  - unfold wait_fuel. lia.
  - exists k. unfold waitForReadyFile. rewrite Hl. cbn [default from_option id].
    split_and!; [lia|done| |done]. intros j Hj2. apply Hj. lia.
Qed.

(** ** One daemon *)

(** The processes started so far. *)
Definition spawned (l : list event) : list Z :=
  omap (λ e, match e with Spawn _ _ pid => Some pid | _ => None end) l.

Lemma spawned_app l1 l2 : spawned (l1 ++ l2) = spawned l1 ++ spawned l2.
Proof. apply omap_app. Qed.

Lemma read_pid_Itoa pid : 0 ≤ pid < 2 ^ 63 → read_pid (Strconv.Itoa pid) = pid.
Proof.
  intros Hp. unfold read_pid. rewrite Strings.TrimSpace_digits; [by rewrite Strconv.Atoi_Itoa|].
  intros c. apply Strconv.Itoa_digits. lia.
Qed.

(** No daemon that runs is recorded. *)
Definition no_daemon (E : menv) (s : mstate) : Prop :=
  match pid_file s with
  | Some data => (0 <? read_pid data) && isPIDAlive E (read_pid data) = false
  | None => True
  end.

Lemma spawn_daemon_spec E F config s pid :
  m_spawn E = Some pid →
  let '(o, s') := spawn_daemon E F config s in
  spawned (mlog s') = spawned (mlog s) ++ [pid] ∧
  match o with
  | Ok _ => pid_file s' = Some (Strconv.Itoa pid)
  | Err _ => pid_file s' = None ∧ KillChild pid ∈ mlog s'
  | Panic => False
  end.
Proof.
  intros Hp. unfold spawn_daemon. rewrite Hp. destruct s as [pf l].
  unfold emit, say, write_pid, mbind, stm_bind. cbv beta iota zeta.
  destruct (negb (String.eqb (m_goos E) "windows")).
  - unfold emit. cbn. rewrite !spawned_app. cbn. by rewrite !app_nil_r.
  - destruct (waitForReadyFile E startupTimeout) as [[]|e|]; unfold emit, remove_pid, throw; cbn;
      rewrite !spawned_app; cbn; rewrite !app_nil_r; (split; [done|]); [done| |];
      (split; [done|]); set_solver.
Qed.

(** The PID file identifies one daemon.  Starting the background server when
    none is running starts one process; if the start succeeds the PID file holds
    its number, a second start while it lives starts nothing, and a stop signals
    exactly that process and removes the file; if the start fails the process is
    killed and no PID file is left. *)
Theorem daemon_life E F config s pid :
  m_spawn E = Some pid → 0 < pid < 2 ^ 63 → no_daemon E s →
  let '(o, s1) := startBackgroundServer E F config s in
  spawned (mlog s1) = spawned (mlog s) ++ [pid] ∧
  match o with
  | Ok _ =>
      (∀ E' F' config', isPIDAlive E' pid = true →
         (startBackgroundServer E' F' config' s1).1 = Ok tt ∧
         spawned (mlog (startBackgroundServer E' F' config' s1).2) = spawned (mlog s1) ∧
         pid_file (startBackgroundServer E' F' config' s1).2 = pid_file s1) ∧
      (∀ E', m_find E' pid = true →
         stopBackgroundServer E' s1 = (Ok tt, mkM None (mlog s1 ++ [Signal pid; RemovePid; TunCleanup])))
  | Err _ => pid_file s1 = None ∧ KillChild pid ∈ mlog s1
  | Panic => False
  end.
Proof.
  intros Hp Hr Hn.
  assert (∃ s0, startBackgroundServer E F config s = spawn_daemon E F config s0 ∧
    spawned (mlog s0) = spawned (mlog s)) as (s0 & -> & Hs0).
  { unfold startBackgroundServer, no_daemon in *. destruct s as [[data|] l]; cbn [pid_file] in Hn.
    - exists (mkM None (l ++ [RemovePid])). unfold get_st, remove_pid, mbind, stm_bind. cbn [pid_file mlog].
      rewrite Hn. split; [done|]. rewrite spawned_app. apply app_nil_r.
    - by exists (mkM None l). }
  pose proof (spawn_daemon_spec E F config s0 pid Hp) as H.
  destruct (spawn_daemon E F config s0) as [o s1]. destruct H as [H1 H2]. rewrite Hs0 in H1. split; [done|].
  destruct o as [[]|e|]; [|done|done]. destruct s1 as [pf l]. cbn [pid_file] in H2. subst pf. split.
  - intros E' F' config' Ha. unfold startBackgroundServer, get_st, mbind, stm_bind. cbn [pid_file].
    rewrite read_pid_Itoa, Ha, (proj2 (Z.ltb_lt _ _)) by lia. cbn. rewrite spawned_app. cbn. by rewrite app_nil_r.
  - intros E' Hf. unfold stopBackgroundServer, get_st, mbind, stm_bind. cbn [pid_file].
    rewrite Strconv.Atoi_Itoa by lia. cbn [fst]. rewrite Hf. unfold remove_pid, emit. cbn.
    by rewrite <- !app_assoc.
Qed.

(** ** The rule of a wrapped command *)

Lemma ensureProcess_run E path c proc s :
  (ensureProcessInConfig E path c proc s).1 = Ok (ensured c proc) ∧
  spawned (mlog (ensureProcessInConfig E path c proc s).2) = spawned (mlog s) ∧
  (ensured c proc = c ∨ SaveConfig path (m_marshal E (ensured c proc)) ∈ mlog (ensureProcessInConfig E path c proc s).2).
Proof.
  unfold ensureProcessInConfig, ensured. destruct (existsb _ _); [split_and!; [done..|by left]|].
  unfold emit, mbind, stm_bind, mret, stm_ret. cbn. rewrite spawned_app. cbn. rewrite app_nil_r.
  split_and!; [done..|right]. set_solver.
Qed.

Lemma Contains_refl_mid a b c : Strings.Contains (a +:+ b +:+ c) b = true.
Proof. apply Strings.Contains_spec. eauto. Qed.

(** A second run of the same command changes nothing. *)
Lemma ensured_idem c proc : ensured (ensured c proc) proc = ensured c proc.
Proof.
  unfold ensured at 2 3. destruct (existsb (λ r, Strings.Contains r proc) (Config.Rules c)) eqn:E.
  - unfold ensured. by rewrite E.
  - unfold ensured. cbn [Config.Rules with_config_rules existsb]. unfold process_rule.
    by rewrite Contains_refl_mid.
Qed.

Section Ensured.
Context `{RE : Rewrite.Regexp}.

Lemma process_rule_first rest d proc ctx :
  Router.clean proc → Router.not_default proc → Router.ctx_Process ctx = proc →
  Router.ctx_Port ctx ≠ 53 → Router.is_localhost (Router.ctx_Host ctx) = false →
  (∀ x, Net.ParseIP (Router.ctx_Host ctx) = Some x → Router.isPrivateIP x = false) →
  Router.doMatchContext (Router.SetDirectDNS (Router.NewRuleManager (process_rule proc :: rest)) d) ctx =
  (Router.ActionProxy, "").
Proof.
  intros Hc Hd Hp H53 Hl Hpr. unfold Router.doMatchContext. cbn [Router.SetDirectDNS Router.directDNS Router.rules
    Router.remoteLANs Router.defaultAction].
  rewrite (proj2 (Z.eqb_neq _ _) H53), andb_false_r, Hl. cbn zeta.
  unfold Router.NewRuleManager. cbn [foldl].
  rewrite (Router.add_entry_writes _ (Router.mkRule Router.RuleTypeProcess proc 0 None Router.ActionProxy ""))
    by (apply (Router.writes_process proc Router.ActionProxy); done).
  destruct (Router.foldl_add_entry (Router.with_rules (Router.mkRM [] [] Router.ActionDirect true)
    [Router.mkRule Router.RuleTypeProcess proc 0 None Router.ActionProxy ""]) rest) as (Hr & Hlan & _).
  cbn [app Router.rules Router.with_rules] in *. rewrite Hr, Hlan. cbn [app Router.match_rules Router.remoteLANs Router.with_rules existsb].
  assert (Router.rule_matches (Router.mkRule Router.RuleTypeProcess proc 0 None Router.ActionProxy "") ctx = true) as ->.
  { unfold Router.rule_matches. cbn [Router.Type_ Router.Pattern]. rewrite Hp, String.eqb_refl.
    destruct Hc as [Hne _]. by rewrite (proj2 (String.eqb_neq _ _) Hne). }
  cbn [default from_option id Router.Action Router.Target].
  destruct (Net.ParseIP (Router.ctx_Host ctx)) as [x|] eqn:Ex; [|done]. by rewrite (Hpr x eq_refl).
Qed.

(** C32. A wrapped command is proxied by the daemon.  When no rule mentions the
    command, ensureProcessInConfig saves a configuration which, once the daemon
    has loaded it (JSON decoding what was encoded), sends every connection of a
    process of that name to the proxy, whatever the other rules say: only port 53,
    local and private destinations keep their bypass. *)
Theorem ensured_process_proxied E path c proc h s ctx :
  Router.clean proc → Router.not_default proc →
  existsb (λ r, Strings.Contains r proc) (Config.Rules c) = false →
  m_decode E (Config.trim_bom (m_marshal E (ensured c proc))) = Some (ensured c proc) →
  Router.ctx_Process ctx = proc → Router.ctx_Port ctx ≠ 53 →
  Router.is_localhost (Router.ctx_Host ctx) = false →
  (∀ x, Net.ParseIP (Router.ctx_Host ctx) = Some x → Router.isPrivateIP x = false) →
  ∃ data c' rm,
    SaveConfig path data ∈ mlog (ensureProcessInConfig E path c proc s).2 ∧
    m_decode E (Config.trim_bom data) = Some c' ∧
    Listeners.rm (Listeners.reload h (Config.apply_defaults c')) = Some rm ∧
    Router.doMatchContext rm ctx = (Router.ActionProxy, "").
Proof.
  intros Hc Hd Hx Hj Hp H53 Hl Hpr. destruct (ensureProcess_run E path c proc s) as (_ & _ & Hs).
  exists (m_marshal E (ensured c proc)), (ensured c proc). eexists. split_and!; [|done| |].
  - destruct Hs as [Hs|Hs]; [exfalso|done]. unfold ensured in Hs. rewrite Hx in Hs.
    apply (f_equal (λ c, length (Config.Rules c))) in Hs. cbn in Hs. lia.
  - unfold Listeners.reload. destruct (Config.Rewrites _); [done|]. by case_match.
  - unfold ensured. rewrite Hx. by apply process_rule_first.
Qed.

End Ensured.

(** The test is a substring test: a rule about another name hides the command. *)
Lemma substring_hides_command c rest :
  Config.Rules c = "DOMAIN,google.com,DIRECT" :: rest → ensured c "go" = c.
Proof. intros Hr. unfold ensured. by rewrite Hr. Qed.

(** A command given by its path gets a rule that no process name matches. *)
Lemma lower_slash c : lower c = "/"%char ↔ c = "/"%char.
Proof. by destruct c as [[] [] [] [] [] [] [] []]. Qed.

Lemma ToLower_slash s : "/"%char ∈ to_bytes (Strings.ToLower s) ↔ "/"%char ∈ to_bytes s.
Proof.
  induction s as [|c s IH]; [done|]. cbn [Strings.ToLower smap]. rewrite !to_bytes_cons, !elem_of_cons.
  fold (Strings.ToLower s). rewrite IH. split; (intros [H|H]; [left|by right]); symmetry; by apply lower_slash.
Qed.

Lemma path_rule_never_matches proc ctx :
  "/"%char ∈ to_bytes proc → "/"%char ∉ to_bytes (Router.ctx_Process ctx) →
  Router.rule_matches (Router.mkRule Router.RuleTypeProcess proc 0 None Router.ActionProxy "") ctx = false.
Proof.
  intros Hp Hc. unfold Router.rule_matches. cbn [Router.Type_ Router.Pattern].
  rewrite (proj2 (String.eqb_neq _ proc)) by (intros E; apply Hc; by rewrite E). cbn [orb].
  destruct (Strings.Contains _ _) eqn:E; [|apply andb_false_r]. exfalso.
  apply Strings.Contains_spec in E as (a & b & E). apply Hc, ToLower_slash. rewrite E, !to_bytes_app, !elem_of_app.
  right; left. by apply ToLower_slash.
Qed.

(** ** Runs *)

(** A machine where the daemon answers at the third look; the only configuration
    is [c]. *)
Definition ex_menv (goos : string) (c : Config.Config) : menv :=
  mkMenv goos true (λ p, p =? 77) (λ _, true) (Some "/usr/bin/vproxy") Some [] "/tmp/ready" (Some 77)
    (λ i, Nat.eqb i 2) (λ _, true) 0 (λ i, poll * Z.of_nat i) (inl "") "" ""
    (Config.mkFS goos None (λ _ _, true) (λ _, Some [])) (λ _, Some c) (λ _, []).
Definition ex_flags : flags := mkFlags "vproxy.json" false 8118 0 10080 false false.
Definition ex_cfg : Config.Config :=
  Config.mkConfig ["socks5://10.0.0.1:1080"] ["DOMAIN,example.com,DIRECT"] 30 8899 None None None None None None [] [] [] None.

Lemma waitForReadyFile_terminates_witness :
  waitForReadyFile (ex_menv "windows" ex_cfg) startupTimeout = Ok tt ∧
  ∃ k, (k < wait_fuel startupTimeout)%nat ∧
    decided (ex_menv "windows" ex_cfg) startupTimeout k (waitForReadyFile (ex_menv "windows" ex_cfg) startupTimeout).
Proof.
  split; [vm_compute; reflexivity|].
  destruct (waitForReadyFile_terminates (ex_menv "windows" ex_cfg) startupTimeout) as (k & H1 & _ & _ & H2).
  - unfold startupTimeout. lia.
  - split; [cbn; lia|]. intros i. cbn [m_now ex_menv]. lia.
  - by exists k.
Defined.

Lemma daemon_life_witness :
  (startBackgroundServer (ex_menv "windows" ex_cfg) ex_flags "c.json" (mkM (Some "12") [])).1 = Ok tt ∧
  spawned (mlog (startBackgroundServer (ex_menv "windows" ex_cfg) ex_flags "c.json" (mkM (Some "12") [])).2) = [77].
Proof.
  split; [vm_compute; reflexivity|].
  pose proof (daemon_life (ex_menv "windows" ex_cfg) ex_flags "c.json" (mkM (Some "12") []) 77 eq_refl
    ltac:(lia) eq_refl) as H.
  destruct (startBackgroundServer _ _ _ _) as [o s1]. exact (proj1 H).
Defined.

Lemma ensured_process_proxied_witness :
  ∃ rm, Listeners.rm (Listeners.reload
      (Listeners.setupServices (RE := Rewrite.ex_regexp) (locals ex_flags) ex_cfg)
      (Config.apply_defaults (ensured ex_cfg "wget"))) = Some rm ∧
    Router.doMatchContext rm (Router.mkCtx "example.com" 443 "wget" 0 "") = (Router.ActionProxy, "").
Proof.
  destruct (ensured_process_proxied (RE := Rewrite.ex_regexp) (ex_menv "linux" (ensured ex_cfg "wget")) "c.json" ex_cfg
    "wget" (Listeners.setupServices (RE := Rewrite.ex_regexp) (locals ex_flags) ex_cfg) (mkM None [])
    (Router.mkCtx "example.com" 443 "wget" 0 "")) as (data & c' & rm & _ & H1 & H2 & H3).
  - split; [discriminate|]. split; [|vm_compute; reflexivity]. apply (bool_decide_unpack _). vm_compute. exact I.
  - split; vm_compute; discriminate.
  - vm_compute; reflexivity.
  - reflexivity.
  - reflexivity.
  - discriminate.
  - vm_compute; reflexivity.
  - intros x Hx. vm_compute in Hx. discriminate.
  - exists rm. injection H1 as <-. split; [exact H2|exact H3].
Defined.

End CommandLine.
