(* ===== verification/Tun.v ===== *)
(** * The TUN device on Linux: src/proxy/tproxy/tproxy_linux.go

    [StartLinuxTransparent] and [Cleanup] under the package's mutex, the routes
    they set, the choice of the default interface and the original destination of
    a redirected connection.  The mutex is modelled: a goroutine that locks it
    while it holds it is blocked for ever ([Blocked]).  Every call to the system
    may fail ([TunEnv]).  Closing a TUN device removes it from the kernel with its
    addresses and routes. *)

From S2P Require Import Prelude GoStrings GoNet FakeIP Dns Drivers.

Module Tun.

(** ** State *)

Inductive tcall :=
| CreateTUN | NewEndpoint | CreateNIC | CloseTUN
| Ip (args : list string).

#[global] Instance tcall_eq_dec : EqDecision tcall.
Proof. solve_decision. Defined.

Record tun := mkTun {
  tunDevice : option string;      (* the package variable: the name of the device *)
  held : bool;                    (* mu *)
  devices : list string;          (* devices open in the kernel *)
  settings : list (list string);  (* addresses, links and routes set for them *)
  pool : FakeIP.global;
  calls : list tcall }.

Inductive terr := TErr (msg : string) | Blocked.

Class TunEnv := tun_fails : list tcall → tcall → bool.

Abbreviation tm := (stm tun terr).

Definition with_calls (s : tun) (c : tcall) : tun :=
  mkTun (tunDevice s) (held s) (devices s) (settings s) (pool s) (c :: calls s).
Definition set_held (s : tun) (b : bool) : tun :=
  mkTun (tunDevice s) b (devices s) (settings s) (pool s) (calls s).
Definition set_device (s : tun) (d : option string) : tun :=
  mkTun d (held s) (devices s) (settings s) (pool s) (calls s).
Definition set_devices (s : tun) (l : list string) : tun :=
  mkTun (tunDevice s) (held s) l (settings s) (pool s) (calls s).
Definition set_settings (s : tun) (l : list (list string)) : tun :=
  mkTun (tunDevice s) (held s) (devices s) l (pool s) (calls s).
Definition set_pool (s : tun) (g : FakeIP.global) : tun :=
  mkTun (tunDevice s) (held s) (devices s) (settings s) g (calls s).

(** [mu.Lock()], and [defer mu.Unlock()] around the rest. *)
Definition lock : tm unit := λ s, if held s then (Err Blocked, s) else (Ok tt, set_held s true).
Definition unlocking {A} (m : tm A) : tm A := λ s,
  match m s with
  | (Err Blocked, s) => (Err Blocked, s)
  | (o, s) => (o, set_held s false)
  end.

Definition modify (f : tun → tun) : tm unit := λ s, (Ok tt, f s).

Section Tun.
Context {E : TunEnv}.

(** A call that fails with an error and otherwise changes the state. *)
Definition sys (c : tcall) (msg : string) (f : tun → tun) : tm unit := λ s,
  if tun_fails (calls s) c then (Err (TErr msg), with_calls s c) else (Ok tt, f (with_calls s c)).
(** A call whose error is ignored. *)
Definition sys_ (c : tcall) (f : tun → tun) : tm unit := λ s,
  if tun_fails (calls s) c then (Ok tt, with_calls s c) else (Ok tt, f (with_calls s c)).

Definition tun_name : string := "vproxy-tun".

(** [exec.Command("ip", ...).Run()]: what is set for the device, and undone. *)
Definition add_setting (a : list string) (s : tun) : tun := set_settings s (settings s ++ [a]).
Definition del_setting (a : list string) (s : tun) : tun := set_settings s (filter (.≠ a) (settings s)).

(** The kernel forgets a closed device and what belongs to it. *)
Definition close_device (s : tun) : tun := set_settings (set_devices s []) [].

Definition addr4 : list string := ["addr"; "198.18.0.1/15"].
Definition addr6 : list string := ["-6"; "addr"; "fc00:198:18::1/64"].
Definition link_up : list string := ["link"; "up"].
Definition split_routes : list (list string) :=
  [["route"; "0.0.0.0/1"]; ["route"; "128.0.0.0/1"]; ["-6"; "route"; "::/1"]; ["-6"; "route"; "8000::/1"]].

(** [add] or [del] of a setting of the device. *)
Definition ip_cmd (op : string) (a : list string) : tcall := Ip (op :: a).

Fixpoint each (op : string) (f : list string → tun → tun) (l : list (list string)) : tm unit :=
  match l with
  | [] => mret tt
  | a :: l => sys_ (ip_cmd op a) (f a) ;; each op f l
  end.

Definition setupRoutingLinux : tm unit :=
  sys (ip_cmd "add" addr4) "failed to assign IPv4" (add_setting addr4) ;;
  sys_ (ip_cmd "add" addr6) (add_setting addr6) ;;
  sys (ip_cmd "set" link_up) "failed to set link up" (add_setting link_up) ;;
  each "add" add_setting split_routes.

Definition Cleanup : tm unit :=
  lock ;;
  unlocking (
    s ← get_st;
    match tunDevice s with
    | None => mret tt
    | Some _ =>
        each "del" del_setting split_routes ;;
        modify (λ s, set_device (close_device (with_calls s CloseTUN)) None)
    end).

Definition init_pool : tm unit := λ s,
  match FakeIP.InitGlobalPool (pool s) "198.18.0.0/15" with
  | (Ok _, g) => (Ok tt, set_pool s g)
  | (Err _, g) => (Err (TErr "failed to init Fake-IP pool"), set_pool s g)
  | (Panic, g) => (Panic, set_pool s g)
  end.

(** [if err := m; err != nil { f(); return err }]; a blocked call stays blocked. *)
Definition or_else (m : tm unit) (f : tm unit) : tm unit := λ s,
  match m s with
  | (Err (TErr e), s) => (f ;; throw (TErr e)) s
  | r => r
  end.

Definition StartLinuxTransparent : tm unit :=
  lock ;;
  unlocking (
    s ← get_st;
    match tunDevice s with
    | Some _ => mret tt
    | None =>
        init_pool ;;
        sys CreateTUN "failed to create TUN device" (λ s, set_devices s (tun_name :: devices s)) ;;
        modify (λ s, set_device s (Some tun_name)) ;;
        or_else (sys NewEndpoint "failed to create fdbased link endpoint" id)
                (modify (λ s, close_device (with_calls s CloseTUN))) ;;
        or_else (sys CreateNIC "failed to create NIC" id)
                (modify (λ s, close_device (with_calls s CloseTUN))) ;;
        or_else setupRoutingLinux Cleanup
    end).

End Tun.

(** ** The dialer's interface *)

(** The lines of /proc/net/route after the heading. *)
Fixpoint default_iface (lines : list string) : option string :=
  match lines with
  | [] => None
  | line :: lines =>
      match Strings.Fields line with
      | name :: dest :: _ :: _ :: _ => if String.eqb dest "00000000" then Some name else default_iface lines
      | _ => default_iface lines
      end
  end.
Definition getDefaultInterface (data : option string) : option string :=
  match data with
  | None => None
  | Some d => default_iface (tail (Strings.Split d "010"%char))
  end.

(** [GetDialerControl]: [None] without a default interface, else the control
    function, as the option it sets: SO_BINDTODEVICE to that name. *)
Definition GetDialerControl (data : option string) : option string := getDefaultInterface data.

(** ** The original destination of a TCP connection *)

(** What the socket is and what the kernel answers. *)
Inductive tcp_conn :=
| GoNet (local : string)                   (* from the TUN: its local address *)
| Kernel (sockname : option (option bool)) (* getsockname: IPv4, IPv6, another family *)
         (raw : option (list byte))        (* getsockopt: the sockaddr *)
| OtherConn.

Definition GetOriginalDstFromFile (sockname : option (option bool)) (raw : option (list byte)) : outcome string string :=
  match sockname with
  | None => Err "getsockname"
  | Some None => Err "unknown address type"
  | Some (Some v6) =>
      match raw with
      | None => Err (if v6 then "failed to get IP6T_SO_ORIGINAL_DST (IPv6)" else "failed to get SO_ORIGINAL_DST (IPv4)")
      | Some (_ :: _ :: p0 :: p1 :: rest) =>
          let port := Strconv.Itoa (be16 p0 p1) in
          if (v6 : bool)
          then Ok ("[" +:+ Net.String_ (take 16 (drop 4 rest)) +:+ "]:" +:+ port)
          else match rest with
               | a :: b :: c :: d :: _ => Ok (Net.String_ (Net.IPv4 a b c d) +:+ ":" +:+ port)
               | _ => Panic
               end
      | Some _ => Panic
      end
  end.

Definition GetOriginalDst (c : tcp_conn) : outcome string string :=
  match c with
  | GoNet local => Ok local
  | Kernel n r => GetOriginalDstFromFile n r
  | OtherConn => Err "not a tcp connection"
  end.

(** The target of a datagram from the TUN. *)
Definition udp_target (addr : ip) (port : Z) : string := Net.String_ addr +:+ ":" +:+ Strconv.Itoa port.

(** What the UDP forwarder does with a flow; [None]: no endpoint could be made. *)
Inductive udp_flow := DnsFlow | HandlerFlow (target : string).
Definition udp_forward (endpoint_ok : bool) (addr : ip) (port : Z) : option udp_flow :=
  if negb endpoint_ok then None
  else if port =? 53 then Some DnsFlow
  else Some (HandlerFlow (udp_target addr port)).

(** ** The life of the device *)

Definition idle (s : tun) : Prop :=
  tunDevice s = None ∧ held s = false ∧ devices s = [] ∧ settings s = [].
Definition running (s : tun) : Prop :=
  tunDevice s = Some tun_name ∧ held s = false ∧ devices s = [tun_name] ∧
  addr4 ∈ settings s ∧ link_up ∈ settings s.

(** What may fail is the creation of the device and the commands whose error is
    ignored. *)
Definition essential (c : tcall) : bool :=
  bool_decide (c ∈ [NewEndpoint; CreateNIC; ip_cmd "add" addr4; ip_cmd "set" link_up]).
Definition sound (E : TunEnv) : Prop := ∀ h c, essential c = true → tun_fails h c = false.

Lemma init_pool_ok s : ∃ g, init_pool s = (Ok tt, set_pool s g).
Proof.
  unfold init_pool, FakeIP.InitGlobalPool. destruct (FakeIP.poolOnce (pool s)); [by eexists|].
  destruct (FakeIP.NewFakeIPPool "198.18.0.0/15") as [p| |] eqn:Ep; [by eexists|exfalso..];
    apply (f_equal is_ok) in Ep; vm_compute in Ep; discriminate.
Qed.

Lemma each_ok {E : TunEnv} op f l s :
  ∃ cs, each op f l s = (Ok tt, cs) ∧
    ((∀ a s, tunDevice (f a s) = tunDevice s ∧ held (f a s) = held s ∧ devices (f a s) = devices s) →
     tunDevice cs = tunDevice s ∧ held cs = held s ∧ devices cs = devices s) ∧
    ((∀ a s x, x ∈ settings s → x ∈ settings (f a s)) → ∀ x, x ∈ settings s → x ∈ settings cs).
Proof.
  revert s. induction l as [|a l IH]; intros s; [by exists s|].
  cbn [each]. unfold sys_ at 1, mbind, stm_bind.
  set (s1 := if tun_fails (calls s) (ip_cmd op a) then with_calls s (ip_cmd op a)
             else f a (with_calls s (ip_cmd op a))).
  replace (if tun_fails (calls s) (ip_cmd op a) then (Ok (), with_calls s (ip_cmd op a))
           else (Ok (), f a (with_calls s (ip_cmd op a)))) with (@Ok terr unit tt, s1)
    by (subst s1; by destruct (tun_fails _ _)).
  destruct (IH s1) as (s2 & E2 & H1 & H2). exists s2. split; [exact E2|]. split.
  - intros Hf. destruct (H1 Hf) as (-> & -> & ->). subst s1. destruct (tun_fails _ _); [done|].
    by destruct (Hf a (with_calls s (ip_cmd op a))) as (-> & -> & ->).
  - intros Hf x Hx. apply H2; [done|]. subst s1. destruct (tun_fails _ _); [done|]. by apply Hf.
Qed.

Lemma Cleanup_idle (E : TunEnv) s : idle s ∨ running s → ∃ s', Cleanup s = (Ok tt, s') ∧ idle s'.
Proof.
  intros Hs. assert (held s = false) as Hh by (destruct Hs as [(_ & ? & _)|(_ & ? & _)]; done).
  unfold Cleanup, lock. unfold mbind at 1, stm_bind at 1. rewrite Hh. unfold unlocking.
  change ((get_st ≫= ?f) (set_held s true)) with (f (set_held s true) (set_held s true)). cbv beta.
  change (tunDevice (set_held s true)) with (tunDevice s).
  destruct Hs as [(Ht & _ & Hd & Hset)|(Ht & _ & Hd & _)]; rewrite Ht.
  - eexists. split; [reflexivity|]. done.
  - destruct (each_ok "del" del_setting split_routes (set_held s true)) as (s1 & E1 & H1 & _).
    rewrite (stm_bind_ok _ _ _ _ _ E1). eexists. split; [reflexivity|]. done.
Qed.

Lemma setupRouting_ok (E : TunEnv) s : sound E →
  ∃ s', setupRoutingLinux s = (Ok tt, s') ∧ tunDevice s' = tunDevice s ∧ held s' = held s ∧
    devices s' = devices s ∧ addr4 ∈ settings s' ∧ link_up ∈ settings s'.
Proof.
  intros Hs. unfold setupRoutingLinux.
  set (s1 := add_setting addr4 (with_calls s (ip_cmd "add" addr4))).
  rewrite (stm_bind_ok _ _ s tt s1) by (unfold sys; by rewrite Hs).
  assert (∃ s2, sys_ (ip_cmd "add" addr6) (add_setting addr6) s1 = (Ok tt, s2) ∧ tunDevice s2 = tunDevice s ∧
    held s2 = held s ∧ devices s2 = devices s ∧ addr4 ∈ settings s2) as (s2 & E2 & A1 & A2 & A3 & A4).
  { unfold sys_. destruct (tun_fails _ _); eexists; (split; [reflexivity|]); cbn; split_and!; try done; set_solver. }
  rewrite (stm_bind_ok _ _ _ _ _ E2).
  set (s3 := add_setting link_up (with_calls s2 (ip_cmd "set" link_up))).
  rewrite (stm_bind_ok _ _ s2 tt s3) by (unfold sys; by rewrite Hs).
  destruct (each_ok "add" add_setting split_routes s3) as (s4 & E4 & H1 & H2). exists s4. split; [exact E4|].
  destruct H1 as (-> & -> & ->); [done|]. split_and!; [done..| |]; apply H2; cbn; set_solver.
Qed.

(** C22. The TUN device has a life cycle without leftovers.  If nothing fails but
    the creation of the device and commands whose error is tolerated, then a start
    that succeeds leaves exactly one device, addressed and up; one that fails
    leaves none; starting again while it runs creates no second device; and a
    clean-up always removes device, addresses and routes.  No call blocks. *)
Theorem tun_life_cycle s :
  idle s ∨ running s →
  (∀ E, sound E →
     match StartLinuxTransparent (E := E) s with
     | (Ok _, s') => running s' ∧ (running s → calls s' = calls s)
     | (Err (TErr _), s') => idle s ∧ idle s'
     | (Err Blocked, _) | (Panic, _) => False
     end) ∧
  (∀ E, ∃ s', Cleanup (E := E) s = (Ok tt, s') ∧ idle s').
Proof.
  intros Hs. split; [|intros E; by apply Cleanup_idle]. intros E HE.
  assert (held s = false) as Hh by (destruct Hs as [(_ & ? & _)|(_ & ? & _)]; done).
  unfold StartLinuxTransparent, lock. unfold mbind at 1, stm_bind at 1. rewrite Hh. unfold unlocking.
  change ((get_st ≫= ?f) (set_held s true)) with (f (set_held s true) (set_held s true)). cbv beta.
  change (tunDevice (set_held s true)) with (tunDevice s).
  destruct Hs as [(Ht & _ & Hd & Hset)|(Ht & _ & Hd & Ha & Hl)]; rewrite Ht.
  2:{ cbn. split; [split_and!; done|done]. }
  destruct (init_pool_ok (set_held s true)) as [g Eg]. rewrite (stm_bind_ok _ _ _ _ _ Eg).
  set (s1 := set_pool (set_held s true) g).
  destruct (tun_fails (calls s1) CreateTUN) eqn:Ec.
  { rewrite (stm_bind_err _ _ s1 (TErr "failed to create TUN device") (with_calls s1 CreateTUN))
      by (unfold sys; by rewrite Ec). split; split_and!; done. }
  rewrite (stm_bind_ok _ _ s1 tt (set_devices (with_calls s1 CreateTUN) (tun_name :: devices s1)))
    by (unfold sys; by rewrite Ec).
  set (s2 := set_device (set_devices (with_calls s1 CreateTUN) (tun_name :: devices s1)) (Some tun_name)).
  rewrite (stm_bind_ok _ _ _ tt s2) by done.
  rewrite (stm_bind_ok _ _ s2 tt (with_calls s2 NewEndpoint)) by (unfold or_else, sys; by rewrite HE).
  set (s3 := with_calls s2 NewEndpoint).
  rewrite (stm_bind_ok _ _ s3 tt (with_calls s3 CreateNIC)) by (unfold or_else, sys; by rewrite HE).
  set (s4 := with_calls s3 CreateNIC).
  destruct (setupRouting_ok E s4 HE) as (s5 & E5 & B1 & B2 & B3 & B4 & B5).
  unfold or_else. rewrite E5. split.
  - split_and!; [exact B1|done|etransitivity; [exact B3|]; cbn; by rewrite Hd|done|done].
  - intros (Ht' & _). by rewrite Ht in Ht'.
Qed.

(** ** What fails badly *)

(** Only the call [bad] fails. *)
Definition only (bad : tcall) : TunEnv := λ _ c, bool_decide (c = bad).
Definition tun0 : tun := mkTun None false [] [] (FakeIP.mkGlobal false None) [].

Lemma tun_life_cycle_witness :
  let start := StartLinuxTransparent (E := only (ip_cmd "add" addr6)) tun0 in
  start.1 = Ok tt ∧ running start.2 ∧
  ∃ s', Cleanup (E := only CreateTUN) start.2 = (Ok tt, s') ∧ idle s'.
Proof.
  assert (idle tun0) as H0 by (split_and!; reflexivity).
  assert (sound (only (ip_cmd "add" addr6))) as Hsd.
  { intros h c Hc. unfold tun_fails, only. apply bool_decide_eq_false. intros ->. vm_compute in Hc. discriminate. }
  intros start. assert (start.1 = Ok tt) as Ho by (vm_compute; reflexivity). split; [exact Ho|].
  pose proof (proj1 (tun_life_cycle tun0 (or_introl H0)) (only (ip_cmd "add" addr6)) Hsd) as H.
  fold start in H. destruct start as [o s1]. cbn [fst snd] in *. subst o. destruct H as [H _]. split; [exact H|].
  exact (proj2 (tun_life_cycle s1 (or_intror H)) (only CreateTUN)).
Defined.

(** After a failure past the creation the closed device stays recorded: the next
    start reports success and there is no device. *)
Lemma failed_start_sticks (E : TunEnv) :
  let s := (StartLinuxTransparent (E := only CreateNIC) tun0).2 in
  is_ok (StartLinuxTransparent (E := only CreateNIC) tun0).1 = false ∧
  (StartLinuxTransparent (E := E) s).1 = Ok tt ∧ devices (StartLinuxTransparent (E := E) s).2 = [].
Proof. split_and!; vm_compute; reflexivity. Qed.

(** When the routes cannot be set, Cleanup locks the mutex its caller holds: the
    start never returns and every later start or clean-up blocks too. *)
Lemma routing_failure_blocks (E : TunEnv) :
  let s := (StartLinuxTransparent (E := only (ip_cmd "set" link_up)) tun0).2 in
  (StartLinuxTransparent (E := only (ip_cmd "set" link_up)) tun0).1 = Err Blocked ∧
  (Cleanup (E := E) s).1 = Err Blocked ∧ (StartLinuxTransparent (E := E) s).1 = Err Blocked.
Proof. split_and!; vm_compute; reflexivity. Qed.

(** An IPv6 target is written without brackets and cannot be split again. *)
Lemma udp_target_ipv6_broken :
  Net.SplitHostPort (udp_target (bytes [32;1;13;184;0;0;0;0;0;0;0;0;0;0;0;1]) 443) = None.
Proof. vm_compute. reflexivity. Qed.

(** ** Destinations *)

Lemma Net_String_IPv4 a b c d : Net.String_ (Net.IPv4 a b c d) = Net.ipv4_string [a; b; c; d].
Proof. reflexivity. Qed.

Lemma digit_not c : is_digit c = true → c ≠ ":"%char ∧ c ≠ "["%char ∧ c ≠ "]"%char.
Proof. intros H. split_and!; intros ->; discriminate. Qed.

Lemma ipv4_string_chars a b c d x :
  x ∈ to_bytes (Net.ipv4_string [a; b; c; d]) → x ≠ ":"%char ∧ x ≠ "["%char ∧ x ≠ "]"%char.
Proof.
  rewrite Net.ipv4_string_4, !to_bytes_app, !elem_of_app.
  assert (∀ y, x ∈ to_bytes (Strconv.Itoa (u8 y)) → x ≠ ":"%char ∧ x ≠ "["%char ∧ x ≠ "]"%char) as Hd
    by (intros y Hy; by eapply digit_not, Net.Itoa_octet_nocolon).
  assert (x ∈ to_bytes "." → x ≠ ":"%char ∧ x ≠ "["%char ∧ x ≠ "]"%char) as Hdot.
  { intros Hx%elem_of_cons. destruct Hx as [->|Hx]; [done|]. by apply elem_of_nil in Hx. }
  intros Hx. destruct_or! Hx; eauto.
Qed.

(** The destination the kernel reports for a redirected IPv4 connection is the
    string the router and the dialers take apart again. *)
Lemma original_dst_splits fam0 fam1 p0 p1 a b c d pad :
  ∃ t, GetOriginalDstFromFile (Some (Some false)) (Some (fam0 :: fam1 :: p0 :: p1 :: a :: b :: c :: d :: pad)) = Ok t ∧
    Net.SplitHostPort t = Some (Net.ipv4_string [a; b; c; d], Strconv.Itoa (be16 p0 p1)) ∧
    Net.ParseIP (Net.ipv4_string [a; b; c; d]) = Some (Net.IPv4 a b c d) ∧
    Strconv.Atoi (Strconv.Itoa (be16 p0 p1)) = (be16 p0 p1, true).
Proof.
  eexists. split; [reflexivity|]. rewrite Net_String_IPv4.
  assert (0 ≤ be16 p0 p1 < 2 ^ 16) as Hp.
  { rewrite be16_eq. pose proof (u8_range p0). pose proof (u8_range p1). lia. }
  assert (∀ x, x ∈ to_bytes (Strconv.Itoa (be16 p0 p1)) → x ≠ ":"%char ∧ x ≠ "["%char ∧ x ≠ "]"%char) as Hc.
  { intros x Hx. eapply digit_not, Strconv.Itoa_digits; [|exact Hx]. lia. }
  split_and!.
  - rewrite <- (Net.SplitHostPort_JoinHostPort (Net.ipv4_string [a; b; c; d]) (Strconv.Itoa (be16 p0 p1)));
      [|intros Hx; (apply ipv4_string_chars in Hx || apply Hc in Hx); naive_solver..].
    unfold Net.JoinHostPort. rewrite (Net.IndexByte_not_in _ ":"); [done|].
    intros Hx. apply ipv4_string_chars in Hx. naive_solver.
  - by rewrite Net.ParseIP_ipv4_string.
  - apply Strconv.Atoi_Itoa. lia.
Qed.

(** The default interface is that of the first route to everywhere. *)
Lemma default_iface_first pre line rest name flags gw l :
  (∀ x, x ∈ pre → match Strings.Fields x with _ :: d :: _ :: _ :: _ => d ≠ "00000000" | _ => True end) →
  Strings.Fields line = name :: "00000000" :: flags :: gw :: l →
  default_iface (pre ++ line :: rest) = Some name.
Proof.
  intros Hp Hl. induction pre as [|x pre IH]; cbn [app default_iface].
  - rewrite Hl. done.
  - assert (default_iface (pre ++ line :: rest) = Some name) as IH' by (apply IH; intros y Hy; apply Hp; by right).
    specialize (Hp x ltac:(left)). destruct (Strings.Fields x) as [|? [|dst [|? [|? ?]]]]; try done.
    by rewrite (proj2 (String.eqb_neq _ _) Hp).
Qed.

End Tun.
