(* ===== verification/WinTun.v ===== *)
(** * Interception on Windows: src/proxy/tproxy/tproxy_windows.go

    The routes, DNS settings and interface choices of the Wintun device.  The
    forwarding table, the adapters' DNS servers and the package variables are the
    state; the IP Helper calls may fail ([WinEnv]).  IPv4 addresses are 32-bit
    numbers; [netip.Addr] keeps IPv4 and IPv6 apart, an IPv4 address in 16 bytes
    being an IPv6 address.  The table holds the routes that programs make: setting the
    addresses of the device leaves it alone, since the on-link routes that Windows adds
    then are its own and go away with the device. *)

From S2P Require Import Prelude GoStrings GoNet GoUrl FakeIP Bpf.

Module WinTun.

(** ** net/netip *)

Inductive naddr := V4 (a : Z) | V6 (b : list byte).
#[global] Instance naddr_eq_dec : EqDecision naddr.
Proof. solve_decision. Defined.

Definition prefix : Type := naddr * Z.

(** [netip.AddrFromSlice] *)
Definition AddrFromSlice (x : list byte) : option naddr :=
  match x with
  | [a; b; c; d] => Some (V4 (be32 a b c d))
  | _ => if Nat.eqb (length x) 16 then Some (V6 x) else None
  end.
Definition Is4 (a : naddr) : bool := match a with V4 _ => true | V6 _ => false end.
(** Within 127.0.0.0/8; for IPv6 only ::1. *)
Definition addr_loopback (a : naddr) : bool :=
  match a with V4 v => Z.shiftr v 24 =? 127 | V6 b => bool_decide (b = Net.IPv6loopback) end.
Definition prefix_valid (p : prefix) : bool :=
  (0 <=? p.2) && (p.2 <=? match p.1 with V4 _ => 32 | V6 _ => 128 end).
(** [Prefix.Contains] for an IPv4 prefix. *)
Definition contains4 (net bits v : Z) : bool := Z.shiftr net (32 - bits) =? Z.shiftr v (32 - bits).

(** [netip.ParseAddr] *)
Definition netip_ParseAddr (s : string) : option naddr := Net.ParseAddr s ≫= AddrFromSlice.

(** [netip.ParsePrefix]: an address and decimal bits without sign or leading zero. *)
Definition netip_ParsePrefix (s : string) : option prefix :=
  match Strings.LastIndexByte s "/" with
  | None => None
  | Some i =>
      let bits := sdrop (S i) s in
      match netip_ParseAddr (stake i s), Net.dtoi bits with
      | Some a, Some n =>
          if (Nat.ltb 1 (slen bits) && Strings.HasPrefix bits "0") || negb (prefix_valid (a, n)) then None
          else Some (a, n)
      | _, _ => None
      end
  end.

(** ** The system *)

(** A row of the IPv4 forwarding table; [r_prefixlen] is also the length of the
    prefix, which may be out of range. *)
Record row := mkRow {
  r_luid : Z; r_index : Z; r_net : Z; r_bits : Z; r_nexthop : option Z; r_metric : Z }.

(** What identifies a row when it is created or deleted. *)
Definition rkey : Type := Z * (Z * Z) * option Z.
Definition key_of (r : row) : rkey := (r_luid r, (r_net r, r_bits r), r_nexthop r).

Inductive wcall :=
| EnsureDLL | LoadDLL | CreateWithGUID | CreateTUN | AskLUID | CreateNIC | AddDNSAddress
| SetAddresses | ReadDNS | SetDNS | FlushDNS | ReadTable | IPInterface | SetInterface
| CreateRoute (k : rkey) | DeleteRoute (k : rkey) | RouteDelete (dest : Z * Z) | ReadAdapters.

Record win := mkWin {
  winPhysicalIfIdx : Z;
  winTunIfIdx : Z;
  winTunDevice : option Z;             (* the device, by the LUID it has *)
  winTunLUID : Z;
  winTunDNS : option (list Z);
  winTunBypassRoutes : list rkey;
  bestIfCache : gmap Z (Z * Z);        (* index and expiry *)
  wpool : FakeIP.global;
  table : list row;
  adapters : list (Z * list Z);        (* DNS servers *)
  wcalls : list wcall }.

Class WinEnv := {
  win_fails : list wcall → wcall → bool;
  win_luid : Z;                        (* of the device that is created *)
  win_ifindex : Z → Z;                 (* of a LUID *)
  win_best : Z → option Z;             (* GetBestInterface *)
  win_resolve : string → option (list ip)   (* names that are not addresses *)
}.

(** [net.LookupIP]: an address is not looked up and comes in 16 bytes. *)
Definition LookupIP {E : WinEnv} (host : string) : option (list ip) :=
  match Net.ParseAddr host with
  | Some a => Some [Net.As16 a]
  | None => win_resolve host
  end.

Abbreviation wm := (stm win string).

Definition upd_table (f : list row → list row) (s : win) : win :=
  mkWin (winPhysicalIfIdx s) (winTunIfIdx s) (winTunDevice s) (winTunLUID s) (winTunDNS s) (winTunBypassRoutes s)
    (bestIfCache s) (wpool s) (f (table s)) (adapters s) (wcalls s).
Definition called (c : wcall) (s : win) : win :=
  mkWin (winPhysicalIfIdx s) (winTunIfIdx s) (winTunDevice s) (winTunLUID s) (winTunDNS s) (winTunBypassRoutes s)
    (bestIfCache s) (wpool s) (table s) (adapters s) (c :: wcalls s).
Definition set_phys (i : Z) (s : win) : win :=
  mkWin i (winTunIfIdx s) (winTunDevice s) (winTunLUID s) (winTunDNS s) (winTunBypassRoutes s)
    (bestIfCache s) (wpool s) (table s) (adapters s) (wcalls s).
Definition set_tunidx (i : Z) (s : win) : win :=
  mkWin (winPhysicalIfIdx s) i (winTunDevice s) (winTunLUID s) (winTunDNS s) (winTunBypassRoutes s)
    (bestIfCache s) (wpool s) (table s) (adapters s) (wcalls s).
Definition set_dev (b : option Z) (s : win) : win :=
  mkWin (winPhysicalIfIdx s) (winTunIfIdx s) b (winTunLUID s) (winTunDNS s) (winTunBypassRoutes s)
    (bestIfCache s) (wpool s) (table s) (adapters s) (wcalls s).
Definition set_luid (l : Z) (s : win) : win :=
  mkWin (winPhysicalIfIdx s) (winTunIfIdx s) (winTunDevice s) l (winTunDNS s) (winTunBypassRoutes s)
    (bestIfCache s) (wpool s) (table s) (adapters s) (wcalls s).
Definition set_dns (d : option (list Z)) (s : win) : win :=
  mkWin (winPhysicalIfIdx s) (winTunIfIdx s) (winTunDevice s) (winTunLUID s) d (winTunBypassRoutes s)
    (bestIfCache s) (wpool s) (table s) (adapters s) (wcalls s).
Definition set_bypass (l : list rkey) (s : win) : win :=
  mkWin (winPhysicalIfIdx s) (winTunIfIdx s) (winTunDevice s) (winTunLUID s) (winTunDNS s) l
    (bestIfCache s) (wpool s) (table s) (adapters s) (wcalls s).
Definition set_cache (m : gmap Z (Z * Z)) (s : win) : win :=
  mkWin (winPhysicalIfIdx s) (winTunIfIdx s) (winTunDevice s) (winTunLUID s) (winTunDNS s) (winTunBypassRoutes s)
    m (wpool s) (table s) (adapters s) (wcalls s).
Definition set_pool (g : FakeIP.global) (s : win) : win :=
  mkWin (winPhysicalIfIdx s) (winTunIfIdx s) (winTunDevice s) (winTunLUID s) (winTunDNS s) (winTunBypassRoutes s)
    (bestIfCache s) g (table s) (adapters s) (wcalls s).
Definition upd_adapters (f : list (Z * list Z) → list (Z * list Z)) (s : win) : win :=
  mkWin (winPhysicalIfIdx s) (winTunIfIdx s) (winTunDevice s) (winTunLUID s) (winTunDNS s) (winTunBypassRoutes s)
    (bestIfCache s) (wpool s) (table s) (f (adapters s)) (wcalls s).

(** The DNS servers of an adapter. *)
Definition dns_of (l : Z) (a : list (Z * list Z)) : list Z :=
  match list_find (λ x, x.1 = l) a with Some (_, x) => x.2 | None => [] end.
Definition dns_set (l : Z) (d : list Z) (a : list (Z * list Z)) : list (Z * list Z) :=
  (λ x, if x.1 =? l then (x.1, d) else x) <$> a.

Definition modify (f : win → win) : wm unit := λ s, (Ok tt, f s).

Section Win.
Context {E : WinEnv}.

(** A call that may fail, and one whose error is ignored. *)
Definition sys (c : wcall) (msg : string) (f : win → win) : wm unit := λ s,
  if win_fails (wcalls s) c then (Err msg, called c s) else (Ok tt, f (called c s)).
Definition sys_ (c : wcall) (f : win → win) : wm unit := λ s,
  if win_fails (wcalls s) c then (Ok tt, called c s) else (Ok tt, f (called c s)).

(** [row.Create] refuses a row that is there; [row.Delete] needs one. *)
Definition create_route (r : row) : wm bool := λ s,
  if win_fails (wcalls s) (CreateRoute (key_of r)) || bool_decide (key_of r ∈ key_of <$> table s)
  then (Ok false, called (CreateRoute (key_of r)) s)
  else (Ok true, upd_table (λ t, t ++ [r]) (called (CreateRoute (key_of r)) s)).
Definition delete_route (k : rkey) : wm unit :=
  sys_ (DeleteRoute k) (upd_table (filter (λ r, key_of r ≠ k))).
(** [route delete 0.0.0.0 mask 128.0.0.0]: every route to the network. *)
Definition route_delete (d : Z * Z) : wm unit :=
  sys_ (RouteDelete d) (upd_table (filter (λ r, (r_net r, r_bits r) ≠ d))).

(** ** Choosing a physical route *)

Definition row_contains (v : Z) (r : row) : bool :=
  (0 <=? r_bits r) && (r_bits r <=? 32) && contains4 (r_net r) (r_bits r) v.

Fixpoint best_route (routes : list row) (v tun : Z) (best : option row) (bestBits : Z) : option row :=
  match routes with
  | [] => best
  | r :: rs =>
      if (negb (tun =? 0) && (r_luid r =? tun)) || negb (row_contains v r) then best_route rs v tun best bestBits
      else if bestBits <? r_bits r then best_route rs v tun (Some r) (r_bits r)
      else if (r_bits r =? bestBits)
              && match best with Some b => r_metric r <? r_metric b | None => false end
      then best_route rs v tun (Some r) bestBits
      else best_route rs v tun best bestBits
  end.
Definition findBestPhysicalRoute (routes : list row) (target : naddr) (tun : Z) : option row :=
  match target with
  | V4 v => best_route routes v tun None (-1)
  | V6 _ => None
  end.

(** The default route with the lowest metric, not through the TUN. *)
Definition default_physical (routes : list row) (tun : Z) : option row :=
  foldl (λ best r,
    if (r_luid r =? tun) || negb (r_bits r =? 0) then best
    else match best with
         | Some b => if r_metric r <? r_metric b then Some r else best
         | None => Some r
         end) None routes.

(** ** Bypass routes *)

Definition installPrefix (routes : list row) (dflt : option row) (tun : Z) (seen : list prefix) (p : prefix) :
    wm (list prefix) :=
  if negb (prefix_valid p) || negb (Is4 p.1) || addr_loopback p.1 || bool_decide (p ∈ seen) then mret seen
  else
    let best := match findBestPhysicalRoute routes p.1 tun with Some r => Some r | None => dflt end in
    match best, p.1 with
    | Some b, V4 v =>
        let nextHop := match r_nexthop b with Some h => if h =? 0 then 0 else h | None => 0 end in
        let r := mkRow (r_luid b) 0 v p.2 (Some nextHop) 1 in
        ok ← create_route r;
        (if (ok : bool) then modify (λ s, set_bypass (winTunBypassRoutes s ++ [key_of r]) s) else mret tt) ;;
        mret (seen ++ [p])
    | _, _ => mret (seen ++ [p])
    end.

(** The IPv4 results of a look-up, one host route each. *)
Fixpoint install_ips (routes : list row) (dflt : option row) (tun : Z) (seen : list prefix) (ips : list ip) :
    wm (list prefix) :=
  match ips with
  | [] => mret seen
  | x :: ips =>
      match AddrFromSlice x with
      | Some (V4 v) => seen ← installPrefix routes dflt tun seen (V4 v, 32); install_ips routes dflt tun seen ips
      | _ => install_ips routes dflt tun seen ips
      end
  end.

Fixpoint install_upstreams (routes : list row) (dflt : option row) (tun : Z) (seen : list prefix)
    (upstreams : list string) : wm (list prefix) :=
  match upstreams with
  | [] => mret seen
  | u :: us =>
      match Url.Hostname <$> Url.Parse u with
      | None | Some "" => install_upstreams routes dflt tun seen us
      | Some host =>
          match LookupIP host with
          | None => throw ("resolve upstream " +:+ u)
          | Some ips => seen ← install_ips routes dflt tun seen ips; install_upstreams routes dflt tun seen us
          end
      end
  end.

Fixpoint install_nodes (routes : list row) (dflt : option row) (tun : Z) (seen : list prefix)
    (nodes : list string) : wm (list prefix) :=
  match nodes with
  | [] => mret seen
  | node :: nodes =>
      let node := Strings.TrimSpace node in
      if String.eqb node "" then install_nodes routes dflt tun seen nodes
      else
        seen ←
          match netip_ParsePrefix node with
          | Some p => installPrefix routes dflt tun seen p
          | None =>
              match netip_ParseAddr node with
              | Some a => installPrefix routes dflt tun seen (a, 32)
              | None =>
                  match LookupIP node with
                  | None => mret seen
                  | Some ips => install_ips routes dflt tun seen ips
                  end
              end
          end;
        install_nodes routes dflt tun seen nodes
  end.

Definition setupUpstreamBypassRoutes (tun : Z) (upstreams nodes : list string) : wm unit :=
  sys ReadTable "enumerate physical routes" id ;;
  s ← get_st;
  let routes := table s in
  let dflt := default_physical routes tun in
  seen ← install_upstreams routes dflt tun [] upstreams;
  _ ← install_nodes routes dflt tun seen nodes;
  mret tt.

(** ** Set-up and clean-up *)

Definition split_dests : list (Z * Z) := [(0, 1); (2 ^ 31, 1)].
Definition tun_row (luid : Z) (d : Z * Z) : row := mkRow luid 0 d.1 d.2 None 1.
Definition tunDNS : Z := 0xC6120002.   (* 198.18.0.2 *)
Definition tunAddr : Z := 0xC6120001.  (* 198.18.0.1 *)

Fixpoint cleanupInstalledRoutes (luid : Z) (ds : list (Z * Z)) : wm unit :=
  match ds with
  | [] => mret tt
  | d :: ds => delete_route (key_of (tun_row luid d)) ;; cleanupInstalledRoutes luid ds
  end.

Fixpoint install_split (luid : Z) (installed ds : list (Z * Z)) : wm (list (Z * Z)) :=
  match ds with
  | [] => mret installed
  | d :: ds =>
      ok ← create_route (tun_row luid d);
      if (ok : bool) then install_split luid (installed ++ [d]) ds
      else cleanupInstalledRoutes luid installed ;; throw "create route"
  end.

(** [if err := m; err != nil { f(); return err }] *)
Definition or_else {A} (m : wm A) (f : wm unit) : wm A := λ s,
  match m s with
  | (Err e, s) => (f ;; throw e) s
  | r => r
  end.

(** Forwarding, router discovery, MTU and metric of the interface; errors are ignored. *)
Definition configure_interface : wm unit := λ s,
  if win_fails (wcalls s) IPInterface then (Ok tt, called IPInterface s)
  else sys_ SetInterface id (called IPInterface s).

(** The routes of setupRoutingWindowsLUID. *)
Definition setup_routes (luid : Z) (upstreams nodes : list string) : wm unit :=
  installed ← install_split luid [] split_dests;
  or_else (setupUpstreamBypassRoutes luid upstreams nodes) (cleanupInstalledRoutes luid installed).

Definition setupRoutingWindowsLUID (luid : Z) (upstreams nodes : list string) : wm unit :=
  sys SetAddresses "set ipv4 address" id ;;
  sys ReadDNS "read DNS servers" id ;;
  s ← get_st;
  let previousDNS := dns_of luid (adapters s) in
  sys SetDNS "set TUN DNS" (upd_adapters (dns_set luid [tunDNS])) ;;
  modify (set_dns (Some previousDNS)) ;;        (* the slice is never nil *)
  configure_interface ;;
  modify (set_luid luid) ;;
  sys_ IPInterface (set_tunidx (win_ifindex luid)) ;;
  setup_routes luid upstreams nodes.

Fixpoint delete_bypass (ks : list rkey) : wm unit :=
  match ks with
  | [] => mret tt
  | k :: ks => delete_route k ;; delete_bypass ks
  end.

(** The first adapter that has a server of ours loses its servers. *)
Fixpoint flush_first (a : list (Z * list Z)) : list (Z * list Z) :=
  match a with
  | [] => []
  | x :: a => if existsb (λ d, (d =? tunAddr) || (d =? tunDNS)) x.2 then (x.1, []) :: a else x :: flush_first a
  end.
Definition restoreDiscoveredTUNDNS : wm unit := sys_ ReadAdapters (upd_adapters flush_first).

Definition cleanupWindowsState : wm unit :=
  s ← get_st;
  delete_bypass (winTunBypassRoutes s) ;;
  modify (λ s, set_cache ∅ (set_tunidx 0 (set_bypass [] s))) ;;
  (if winTunLUID s =? 0 then mret tt
   else
     (match winTunDNS s with
      | Some d => sys_ SetDNS (upd_adapters (dns_set (winTunLUID s) d)) ;; modify (set_dns None)
      | None => sys_ FlushDNS (upd_adapters (dns_set (winTunLUID s) []))
      end) ;;
     cleanupInstalledRoutes (winTunLUID s) split_dests ;;
     modify (set_luid 0)) ;;
  restoreDiscoveredTUNDNS ;;
  route_delete (0, 1) ;; route_delete (2 ^ 31, 1) ;;
  modify (λ s, match winTunDevice s with
               | Some l => set_dev None (upd_adapters (filter (λ x, x.1 ≠ l)) s)
               | None => s
               end).

Definition Cleanup : wm unit := cleanupWindowsState.

(** ** Connections

    A connection of the stack has the destination it was made for as its local
    address; there is nothing else to ask. *)

Definition GetOriginalDst (gonet : option string) : outcome string string :=
  match gonet with Some local => Ok local | None => Err "not a gvisor connection" end.
Definition IsTUNConn (gonet : option string) : bool := match gonet with Some _ => true | None => false end.

(** ** Interfaces *)

Definition getDefaultInterfaceIndex : wm (option Z) := λ s,
  if 0 <? winPhysicalIfIdx s then (Ok (Some (winPhysicalIfIdx s)), s)
  else
    let failed := win_fails (wcalls s) ReadTable in
    let physical := if failed then None
      else foldl (λ best r,
        if negb (r_bits r =? 0) || (negb (winTunLUID s =? 0) && (r_luid r =? winTunLUID s)) then best
        else match best with
             | Some b => if r_metric r <? r_metric b then Some r else best
             | None => Some r
             end) None (table s) in
    let s := called ReadTable s in
    match physical with
    | Some r => if 0 <? r_index r then (Ok (Some (r_index r)), s) else (Ok (win_best 0x08080808), s)
    | None => (Ok (win_best 0x08080808), s)
    end.

Definition isTunInterface (i : Z) : wm bool := λ s,
  if i <=? 0 then (Ok false, s)
  else if (0 <? winTunIfIdx s) && (i =? winTunIfIdx s) then (Ok true, s)
  else if negb (winTunLUID s =? 0) then
    if win_fails (wcalls s) IPInterface then (Ok false, called IPInterface s)
    else (Ok (i =? win_ifindex (winTunLUID s)), set_tunidx (win_ifindex (winTunLUID s)) (called IPInterface s))
  else (Ok false, s).

Definition ifCacheTTL : Z := 5000000000.

Definition store (v i now : Z) : wm unit := modify (λ s, set_cache (<[v := (i, now + ifCacheTTL)]> (bestIfCache s)) s).

Definition cached (m : gmap Z (Z * Z)) (v now : Z) : option Z :=
  match m !! v with
  | Some (i, expiry) => if now <? expiry then Some i else None
  | None => None
  end.

(** [None]: an error. *)
Definition getBestInterfaceForTarget (x : option ip) (now : Z) : wm (option Z) :=
  match (x ≫= Net.To4) ≫= AddrFromSlice with
  | Some (V4 v) =>
      s ← get_st;
      match cached (bestIfCache s) v now with
      | Some i => mret (Some i)
      | None =>
          t ← (match win_best v with Some i => isTunInterface i | None => mret true end);
          if (t : bool) || match win_best v with Some i => i =? 0 | None => true end then
            d ← getDefaultInterfaceIndex;
            match d with
            | None => mret None
            | Some i => store v i now ;; mret (Some i)
            end
          else
            let i := default 0 (win_best v) in store v i now ;; mret (Some i)
      end
  | _ => getDefaultInterfaceIndex
  end.

(** [isLoopbackAddress] *)
Definition isLoopbackAddress (host : string) : bool :=
  Strings.EqualFold host "localhost" ||
  match netip_ParseAddr host with Some a => addr_loopback a | None => false end.

(** The index in network byte order, as IP_UNICAST_IF takes it. *)
Definition netIfIdx (i : Z) : Z :=
  Z.lor (Z.lor (Z.lor (Z.shiftl (Z.land i 255) 24) (Z.shiftl (Z.land (Z.shiftr i 8) 255) 16))
    (Z.shiftl (Z.land (Z.shiftr i 16) 255) 8)) (Z.land (Z.shiftr i 24) 255).

(** The socket options the control function sets: IPv6?, value. *)
Definition unicast_options (network : string) (i : Z) : list (bool * Z) :=
  if String.eqb network "tcp4" || String.eqb network "udp4" then [(false, netIfIdx i)]
  else if String.eqb network "tcp6" || String.eqb network "udp6" then [(true, i)]
  else [(false, netIfIdx i); (true, i)].

Definition dialer_control (defaultIdx : option Z) (network address : string) (now : Z) : wm (list (bool * Z)) :=
  let host := match Net.SplitHostPort address with Some (h, _) => h | None => address end in
  if match Net.SplitHostPort address with Some (h, _) => isLoopbackAddress h | None => false end then mret []
  else
    i ← match Net.ParseIP host with
        | None => mret (default 0 defaultIdx)
        | Some x =>
            o ← getBestInterfaceForTarget (Some x) now;
            mret (match o with Some b => if 0 <? b then b else default 0 defaultIdx | None => default 0 defaultIdx end)
        end;
    if i <=? 0 then mret [] else mret (unicast_options network i).

(** ** StartWindowsTransparent *)

Definition init_pool : wm unit := λ s,
  match FakeIP.InitGlobalPool (wpool s) "198.18.0.0/15" with
  | (Ok _, g) => (Ok tt, set_pool g s)
  | (Err _, g) => (Err "failed to init Fake-IP pool", set_pool g s)
  | (Panic, g) => (Panic, set_pool g s)
  end.

(** With the wanted GUID, or else with any. *)
Definition create_device : wm unit :=
  s ← get_st;
  (if win_fails (wcalls s) CreateWithGUID
   then modify (called CreateWithGUID) ;; sys CreateTUN "failed to create TUN device" id
   else modify (called CreateWithGUID)) ;;
  modify (λ s, set_dev (Some win_luid) (upd_adapters (λ a, (win_luid, []) :: a) s)).

(** The body, under the mutex. *)
Definition start_locked (upstreams nodes : list string) : wm unit :=
  s ← get_st;
  if bool_decide (is_Some (winTunDevice s)) then mret tt
  else
    init_pool ;;
    d ← getDefaultInterfaceIndex;
    (match d with Some i => if 0 <? i then modify (set_phys i) else mret tt | None => mret tt end) ;;
    sys EnsureDLL "wintun runtime" id ;;
    sys LoadDLL "bundled Wintun 0.14.1 could not be loaded" id ;;
    create_device ;;
    sys AskLUID "TUN device does not provide LUID" id ;;
    modify (set_luid win_luid) ;;
    sys CreateNIC "CreateNIC" id ;;
    sys AddDNSAddress "add TUN peer DNS address" id ;;
    setupRoutingWindowsLUID win_luid upstreams nodes.

(** The deferred function cleans up after an error, and after a panic, which it
    turns into an error, twice; it runs without the mutex. *)
Definition StartWindowsTransparent (upstreams nodes : list string) : wm unit := λ s,
  match start_locked upstreams nodes s with
  | (Ok _, s) => (Ok tt, s)
  | (Err e, s) => (cleanupWindowsState ;; throw e) s
  | (Panic, s) =>
      (cleanupWindowsState ;; cleanupWindowsState ;; throw "panic while initializing Wintun/TUN") s
  end.

(** ** The route of a bypassed address *)

(** The rows that may carry [v]. *)
Definition eligible (v tun : Z) (r : row) : bool :=
  negb (negb (tun =? 0) && (r_luid r =? tun)) && row_contains v r.
(** A longer prefix wins, then a lower metric. *)
Definition beats (b r : row) : Prop :=
  r_bits r < r_bits b ∨ r_bits r = r_bits b ∧ r_metric b ≤ r_metric r.
Definition wins (b r : row) : Prop :=
  r_bits r < r_bits b ∨ r_bits r = r_bits b ∧ r_metric b < r_metric r.

Lemma wins_beats b r : wins b r → beats b r.
Proof. unfold wins, beats. lia. Qed.
Lemma wins_trans a b r : wins a b → beats b r → wins a r.
Proof. unfold wins, beats. lia. Qed.

Lemma eligible_bits v tun r : eligible v tun r = true → 0 ≤ r_bits r.
Proof. unfold eligible, row_contains. intros H. boolify. lia. Qed.

(** [o] is the choice among [rs] when [best] was chosen before them: [best] itself
    if nothing is better, or the first row that no other one beats. *)
Definition chosen (v tun : Z) (best : option row) (rs : list row) (o : option row) : Prop :=
  match o with
  | None => best = None ∧ ∀ r, r ∈ rs → eligible v tun r = false
  | Some b =>
      (best = Some b ∧ ∀ r, r ∈ rs → eligible v tun r = true → beats b r) ∨
      ∃ pre post, rs = pre ++ b :: post ∧ eligible v tun b = true ∧
        (∀ r, r ∈ pre → eligible v tun r = true → wins b r) ∧
        (∀ b0, best = Some b0 → wins b b0) ∧
        (∀ r, r ∈ post → eligible v tun r = true → beats b r)
  end.

Lemma chosen_skip v tun best r rs o :
  eligible v tun r = false → chosen v tun best rs o → chosen v tun best (r :: rs) o.
Proof.
  intros El. destruct o as [b|]; cbn [chosen].
  - intros [[Hb Hr]|(pre & post & -> & E1 & E2 & E3 & E4)].
    + left. split; [done|]. intros x Hx Hex. apply elem_of_cons in Hx as [->|Hx]; [congruence|by apply Hr].
    + right. exists (r :: pre), post. split_and!; [done..| |done|done].
      intros x Hx Hex. apply elem_of_cons in Hx as [->|Hx]; [congruence|by apply E2].
  - intros [Hb Hr]. split; [done|]. intros x Hx. apply elem_of_cons in Hx as [->|Hx]; [done|by apply Hr].
Qed.

Lemma chosen_take v tun best r rs o :
  eligible v tun r = true → (∀ b0, best = Some b0 → wins r b0) →
  chosen v tun (Some r) rs o → chosen v tun best (r :: rs) o.
Proof.
  intros El Hw. destruct o as [b|]; cbn [chosen]; [|by intros []].
  intros [[[= ->] Hr]|(pre & post & -> & E1 & E2 & E3 & E4)]; right.
  - exists [], rs. split_and!; [done..| |done|done]. intros x Hx. by apply elem_of_nil in Hx.
  - specialize (E3 r eq_refl). exists (r :: pre), post. split_and!; [done..| | |done].
    + intros x Hx Hex. apply elem_of_cons in Hx as [->|Hx]; [done|by apply E2].
    + intros b0 Hb0. eapply wins_trans; [exact E3|]. by apply wins_beats, Hw.
Qed.

Lemma chosen_keep v tun b0 r rs o :
  beats b0 r → chosen v tun (Some b0) rs o → chosen v tun (Some b0) (r :: rs) o.
Proof.
  intros Hbt. destruct o as [b|]; cbn [chosen]; [|by intros []].
  intros [[[= ->] Hr]|(pre & post & -> & E1 & E2 & E3 & E4)].
  - left. split; [done|]. intros x Hx Hex. apply elem_of_cons in Hx as [->|Hx]; [done|by apply Hr].
  - right. exists (r :: pre), post. split_and!; [done..| |done|done].
    intros x Hx Hex. apply elem_of_cons in Hx as [->|Hx]; [|by apply E2].
    eapply wins_trans; [by apply E3|done].
Qed.

Lemma best_route_chosen v tun rs : ∀ best,
  chosen v tun best rs (best_route rs v tun best (match best with Some b => r_bits b | None => -1 end)).
Proof.
  induction rs as [|r rs IH]; intros best; cbn [best_route].
  { destruct best as [b|]; [left|]; (split; [done|]); intros r Hr; by apply elem_of_nil in Hr. }
  assert ((negb (tun =? 0) && (r_luid r =? tun)) || negb (row_contains v r) = negb (eligible v tun r)) as ->
    by (unfold eligible; by destruct (negb _ && _), (row_contains v r)).
  destruct (eligible v tun r) eqn:El; cbn [negb]; [|by apply chosen_skip].
  pose proof (eligible_bits _ _ _ El) as Hbits. destruct best as [b0|].
  - destruct (Z.ltb_spec (r_bits b0) (r_bits r)).
    + apply chosen_take, (IH (Some r)); [done|]. intros ? [= <-]. unfold wins. lia.
    + destruct ((r_bits r =? r_bits b0) && (r_metric r <? r_metric b0)) eqn:Em; boolify.
      * assert (r_bits b0 = r_bits r) as -> by lia. apply chosen_take, (IH (Some r)); [done|].
        intros ? [= <-]. unfold wins. lia.
      * apply chosen_keep, (IH (Some b0)). unfold beats. apply andb_false_iff in Em as [Em|Em]; boolify; lia.
  - rewrite (proj2 (Z.ltb_lt _ _)) by lia. by apply chosen_take, (IH (Some r)).
Qed.

(** findBestPhysicalRoute is longest-prefix match.  The row it returns is a row
    of the table that does not go through the TUN device and whose network
    contains the address; every other such row has a shorter prefix or, at the
    same length, no lower metric, and of equal ones it is the first.  It returns
    nil exactly when there is no such row. *)
Theorem findBestPhysicalRoute_lpm routes v tun :
  match findBestPhysicalRoute routes (V4 v) tun with
  | Some b =>
      ∃ pre post, routes = pre ++ b :: post ∧ eligible v tun b = true ∧
        (∀ r, r ∈ pre → eligible v tun r = true → wins b r) ∧
        (∀ r, r ∈ post → eligible v tun r = true → beats b r)
  | None => ∀ r, r ∈ routes → eligible v tun r = false
  end.
Proof.
  pose proof (best_route_chosen v tun routes None) as H. cbn [findBestPhysicalRoute].
  destruct (best_route routes v tun None (-1)) as [b|]; [|apply H].
  destruct H as [[? _]|(pre & post & H1 & H2 & H3 & _ & H4)]; [done|]. by exists pre, post.
Qed.

(** ** The forwarding table is restored *)

Section Restored.
Context (t0 : list row).

(** The table is [t0] and rows of ours: recorded bypass routes and split routes. *)
Definition ours (s : win) : Prop :=
  (∀ k, k ∈ winTunBypassRoutes s → k ∉ key_of <$> t0) ∧
  ∃ ex, table s = t0 ++ ex ∧
    ∀ r, r ∈ ex → key_of r ∈ winTunBypassRoutes s ∨ (r_net r, r_bits r) ∈ split_dests.
(** Nobody else has split routes. *)
Definition no_split : Prop := ∀ r, r ∈ t0 → (r_net r, r_bits r) ∉ split_dests.

(** What every step of a start keeps: our rows, and rows that are needed. *)
Definition kept (rs : list row) (s : win) : Prop := ours s ∧ ∀ r, r ∈ rs → r ∈ table s.
Definition any_exit (_ : option string) (s : win) : Prop := ours s.

Lemma same_kept rs s s' :
  table s' = table s → winTunBypassRoutes s' = winTunBypassRoutes s → kept rs s → kept rs s'.
Proof. intros H1 H2 [[Hk Ho] Hr]. unfold kept, ours. rewrite H1, H2. done. Qed.

Lemma modify_kept rs f : (∀ s, table (f s) = table s ∧ winTunBypassRoutes (f s) = winTunBypassRoutes s) →
  triple (kept rs) (modify f) (λ _, kept rs) any_exit.
Proof. intros Hf s Hs. destruct (Hf s). by eapply same_kept. Qed.

Lemma sys_kept rs c msg f : (∀ s, table (f s) = table s ∧ winTunBypassRoutes (f s) = winTunBypassRoutes s) →
  triple (kept rs) (sys c msg f) (λ _, kept rs) any_exit.
Proof.
  intros Hf s Hs. unfold sys. destruct (win_fails _ _); [apply (same_kept rs s (called c s)); done|].
  destruct (Hf (called c s)). by eapply (same_kept rs s).
Qed.

Lemma sys__kept rs c f : (∀ s, table (f s) = table s ∧ winTunBypassRoutes (f s) = winTunBypassRoutes s) →
  triple (kept rs) (sys_ c f) (λ _, kept rs) any_exit.
Proof.
  intros Hf s Hs. unfold sys_. destruct (win_fails _ _); [by apply (same_kept rs s (called c s))|].
  destruct (Hf (called c s)). by eapply (same_kept rs s).
Qed.

(** Creating a split route, and a bypass route together with its record. *)
Lemma create_split_kept rs luid d : d ∈ split_dests →
  triple (kept rs) (create_route (tun_row luid d))
    (λ ok, kept (if (ok : bool) then tun_row luid d :: rs else rs)) any_exit.
Proof.
  intros Hd s Hs. unfold create_route. destruct (_ || _); [exact Hs|].
  destruct Hs as [[Hk (ex & Ht & He)] Hr]. split; [split; [done|]|].
  - exists (ex ++ [tun_row luid d]). cbn. rewrite Ht, <- app_assoc. split; [done|].
    intros r [Hx|Hx]%elem_of_app; [by apply He|]. apply list_elem_of_singleton in Hx as ->. right. by destruct d.
  - intros r [->|Hx]%elem_of_cons; cbn; apply elem_of_app; [right; by apply list_elem_of_singleton|left; by apply Hr].
Qed.

Lemma create_bypass_kept rs r :
  triple (kept rs)
    (ok ← create_route r;
     if (ok : bool) then modify (λ s, set_bypass (winTunBypassRoutes s ++ [key_of r]) s) else mret tt)
    (λ _, kept rs) any_exit.
Proof.
  intros s Hs. unfold create_route, mbind, stm_bind.
  destruct (win_fails _ _ || _) eqn:Ef; [exact Hs|]. destruct Hs as [[Hk (ex & Ht & He)] Hr].
  apply orb_false_iff in Ef as [_ Ef]. apply bool_decide_eq_false in Ef. split; [split|].
  - cbn. intros k [Hx|Hx]%elem_of_app; [by apply Hk|]. apply list_elem_of_singleton in Hx as ->.
    intros Hin. apply Ef. rewrite Ht, fmap_app. by apply elem_of_app; left.
  - exists (ex ++ [r]). cbn. rewrite Ht, <- app_assoc. split; [done|].
    intros x [Hx|Hx]%elem_of_app.
    + destruct (He x Hx) as [|]; [left; apply elem_of_app; by left|by right].
    + apply list_elem_of_singleton in Hx as ->. left. apply elem_of_app; right. by apply list_elem_of_singleton.
  - cbn. intros x Hx. apply elem_of_app; left. by apply Hr.
Qed.

Lemma delete_kept k : k ∉ key_of <$> t0 → triple ours (delete_route k) (λ _, ours) any_exit.
Proof.
  intros Hn s Hs. unfold delete_route, sys_. destruct (win_fails _ _); [exact Hs|].
  destruct Hs as [Hk (ex & Ht & He)]. split; [done|]. exists (filter (λ r, key_of r ≠ k) ex). cbn. rewrite Ht, filter_app. split.
  - f_equal. apply filter_keep. intros r Hr <-. apply Hn. by apply list_elem_of_fmap_2.
  - intros r Hr. apply list_elem_of_filter in Hr as [_ Hr]. by apply He.
Qed.

Lemma split_key luid d : no_split → d ∈ split_dests → key_of (tun_row luid d) ∉ key_of <$> t0.
Proof.
  intros Hn Hd Hin. apply list_elem_of_fmap in Hin as (r & Hk & Hr). apply (Hn r Hr).
  injection Hk as _ H1 H2 _. rewrite <- H1, <- H2. by destruct d.
Qed.

Lemma cleanup_installed_kept luid ds : no_split → (∀ d, d ∈ ds → d ∈ split_dests) →
  triple ours (cleanupInstalledRoutes luid ds) (λ _, ours) any_exit.
Proof.
  intros Hn. induction ds as [|d ds IH]; intros Hd; [by intros s Hs|]. cbn [cleanupInstalledRoutes].
  eapply triple_bind; [apply delete_kept, split_key; [done|apply Hd; by left]|intros []].
  apply IH. intros x Hx. apply Hd. by right.
Qed.

(** The split routes: both are there, or none of them counts. *)
Lemma install_split_kept luid : no_split → ∀ ds installed,
  (∀ d, d ∈ installed ++ ds → d ∈ split_dests) →
  triple (kept (tun_row luid <$> installed)) (install_split luid installed ds)
    (λ inst s, inst = installed ++ ds ∧ kept (tun_row luid <$> (installed ++ ds)) s) any_exit.
Proof.
  intros Hn ds. induction ds as [|d ds IH]; intros installed Hd; cbn [install_split].
  { intros s Hs. rewrite app_nil_r. done. }
  eapply triple_bind; [apply create_split_kept, Hd, elem_of_app; right; by left|].
  intros ok. destruct ok.
  - rewrite (cons_middle d installed ds), app_assoc in *.
    eapply triple_pre; [|apply IH; by rewrite <- app_assoc in *].
    intros s [Ho Hr]. split; [done|]. intros r Hx. rewrite fmap_app in Hx. apply Hr, elem_of_cons.
    apply elem_of_app in Hx as [Hx|Hx]; [by right|left]. by apply list_elem_of_singleton in Hx.
  - apply (triple_bind _ _ _ (λ _, ours)); [|by intros [] s Hs].
    eapply triple_pre; [|apply cleanup_installed_kept; [done|]]; [by intros s []|].
    intros x Hx. apply Hd, elem_of_app. by left.
Qed.

Lemma installPrefix_kept rs routes dflt tun seen p :
  triple (kept rs) (installPrefix routes dflt tun seen p) (λ _, kept rs) any_exit.
Proof.
  unfold installPrefix. destruct (_ || _); [apply triple_ret|]. cbv zeta.
  destruct (match findBestPhysicalRoute _ _ _ with Some r => _ | None => _ end) as [b|]; [|apply triple_ret].
  destruct (p.1) as [v|]; [|apply triple_ret].
  pose proof (create_bypass_kept rs (mkRow (r_luid b) 0 v p.2
    (Some (match r_nexthop b with Some h => if h =? 0 then 0 else h | None => 0 end)) 1)) as H.
  intros s Hs. specialize (H s Hs). revert H. unfold mbind, stm_bind.
  destruct (create_route _ s) as [[ok|e|] s1]; [|done|done]. by destruct ok.
Qed.

Lemma install_ips_kept rs routes dflt tun ips : ∀ seen,
  triple (kept rs) (install_ips routes dflt tun seen ips) (λ _, kept rs) any_exit.
Proof.
  induction ips as [|x ips IH]; intros seen; cbn [install_ips]; [apply triple_ret|].
  destruct (AddrFromSlice x) as [[v|b]|]; [|apply IH..].
  eapply triple_bind; [apply installPrefix_kept|intros seen'; apply IH].
Qed.

Lemma install_upstreams_kept rs routes dflt tun us : ∀ seen,
  triple (kept rs) (install_upstreams routes dflt tun seen us) (λ _, kept rs) any_exit.
Proof.
  induction us as [|u us IH]; intros seen; cbn [install_upstreams]; [apply triple_ret|].
  destruct (Url.Hostname <$> Url.Parse u) as [[|c h]|]; [apply IH| |apply IH].
  destruct (LookupIP (String c h)) as [ips|]; [|intros s Hs; apply Hs].
  eapply triple_bind; [apply install_ips_kept|intros seen'; apply IH].
Qed.

Lemma install_nodes_kept rs routes dflt tun ns : ∀ seen,
  triple (kept rs) (install_nodes routes dflt tun seen ns) (λ _, kept rs) any_exit.
Proof.
  induction ns as [|n ns IH]; intros seen; cbn [install_nodes]; [apply triple_ret|].
  destruct (String.eqb (Strings.TrimSpace n) ""); [apply IH|].
  apply (triple_bind _ _ _ (λ _, kept rs)); [|intros seen'; apply IH].
  destruct (netip_ParsePrefix _) as [p|]; [apply installPrefix_kept|].
  destruct (netip_ParseAddr _) as [a|]; [apply installPrefix_kept|].
  destruct (LookupIP _) as [ips|]; [apply install_ips_kept|apply triple_ret].
Qed.

Lemma bypass_kept rs tun us ns :
  triple (kept rs) (setupUpstreamBypassRoutes tun us ns) (λ _, kept rs) any_exit.
Proof.
  unfold setupUpstreamBypassRoutes. eapply triple_bind; [by apply sys_kept|intros []].
  apply triple_get. intros s1 Hs1. apply (triple_pre (kept rs)); [by intros ? ->|].
  eapply triple_bind; [apply install_upstreams_kept|intros seen].
  eapply triple_bind; [apply install_nodes_kept|intros seen2]. apply triple_ret.
Qed.

Lemma configure_interface_kept rs : triple (kept rs) configure_interface (λ _, kept rs) any_exit.
Proof.
  intros s Hs. unfold configure_interface. destruct (win_fails (wcalls s) IPInterface); [by eapply same_kept|].
  apply (sys__kept rs SetInterface id); [done|]. by eapply same_kept.
Qed.

Lemma routing_kept luid us ns : no_split →
  triple ours (setupRoutingWindowsLUID luid us ns) (λ _, kept (tun_row luid <$> split_dests)) any_exit.
Proof.
  intros Hn. unfold setupRoutingWindowsLUID. apply (triple_pre (kept (tun_row luid <$> []))).
  { intros s Hs. split; [done|]. intros r Hr. by apply elem_of_nil in Hr. }
  eapply triple_bind; [by apply sys_kept|intros []].
  eapply triple_bind; [by apply sys_kept|intros []].
  apply triple_get. intros s1 Hs1. apply (triple_pre (kept (tun_row luid <$> []))); [by intros ? ->|].
  eapply triple_bind; [by apply sys_kept|intros []].
  eapply triple_bind; [by apply modify_kept|intros []].
  eapply triple_bind; [apply configure_interface_kept|intros []].
  eapply triple_bind; [by apply modify_kept|intros []].
  eapply triple_bind; [by apply sys__kept|intros []].
  eapply triple_bind; [apply install_split_kept; [done|by intros d Hd]|intros installed].
  intros s [-> Hs]. unfold or_else.
  pose proof (bypass_kept _ luid us ns s Hs) as H.
  destruct (setupUpstreamBypassRoutes luid us ns s) as [[[]|e|] s2]; [done| |done].
  pose proof (cleanup_installed_kept luid split_dests Hn ltac:(done) s2 H) as H2.
  change ([] ++ split_dests) with split_dests. unfold mbind, stm_bind.
  by destruct (cleanupInstalledRoutes luid split_dests s2) as [[[]|e'|] s3].
Qed.

Lemma init_pool_same s : ∃ g, init_pool s = (Ok tt, set_pool g s).
Proof.
  unfold init_pool, FakeIP.InitGlobalPool. destruct (FakeIP.poolOnce (wpool s)); [by eexists|].
  destruct (FakeIP.NewFakeIPPool "198.18.0.0/15") as [p| |] eqn:Ep; [by eexists|exfalso..];
    apply (f_equal is_ok) in Ep; vm_compute in Ep; discriminate.
Qed.

Lemma default_index_same s : ∃ o s', getDefaultInterfaceIndex s = (Ok o, s') ∧
  table s' = table s ∧ winTunBypassRoutes s' = winTunBypassRoutes s.
Proof.
  unfold getDefaultInterfaceIndex. destruct (0 <? winPhysicalIfIdx s); [by eexists _, _|]. cbv zeta.
  destruct (if win_fails _ _ then None else _) as [r|]; [destruct (0 <? r_index r)|]; by eexists _, _.
Qed.

Lemma create_device_kept rs : triple (kept rs) create_device (λ _, kept rs) any_exit.
Proof.
  unfold create_device. apply triple_get. intros s1 Hs1. apply (triple_pre (kept rs)); [by intros ? ->|].
  apply (triple_bind _ _ _ (λ _, kept rs)); [|intros []; by apply modify_kept].
  destruct (win_fails _ _); [|by apply modify_kept].
  eapply triple_bind; [by apply modify_kept|intros []; by apply sys_kept].
Qed.

Lemma start_kept us ns : no_split →
  triple (λ s, ours s ∧ winTunDevice s = None) (start_locked us ns)
    (λ _, kept (tun_row win_luid <$> split_dests)) any_exit.
Proof.
  intros Hn. unfold start_locked. apply triple_get. intros s0 [Ho Hd]. rewrite Hd. cbn [bool_decide decide].
  rewrite bool_decide_false by (by intros []).
  apply (triple_pre (kept [])). { intros ? ->. split; [done|]. intros r Hr. by apply elem_of_nil in Hr. }
  apply (triple_bind _ _ _ (λ _, kept [])).
  { intros s Hs. destruct (init_pool_same s) as [g ->]. exact Hs. }
  intros []. apply (triple_bind _ _ _ (λ _, kept [])).
  { intros s Hs. destruct (default_index_same s) as (o & s' & -> & H1 & H2). by eapply same_kept. }
  intros d. apply (triple_bind _ _ _ (λ _, kept [])).
  { destruct d as [i|]; [|apply triple_ret]. destruct (0 <? i); [by apply modify_kept|apply triple_ret]. }
  intros []. eapply triple_bind; [by apply sys_kept|intros []].
  eapply triple_bind; [by apply sys_kept|intros []].
  eapply triple_bind; [apply create_device_kept|intros []].
  eapply triple_bind; [by apply sys_kept|intros []].
  eapply triple_bind; [by apply modify_kept|intros []].
  eapply triple_bind; [by apply sys_kept|intros []].
  eapply triple_bind; [by apply sys_kept|intros []].
  eapply triple_pre; [|by apply routing_kept]. by intros s [].
Qed.

(** During the clean-up: what is left of our rows, the LUID and the records. *)
Definition leftover (P : row → Prop) (l : Z) (bs : list rkey) (s : win) : Prop :=
  (∃ ex, table s = t0 ++ ex ∧ ∀ r, r ∈ ex → P r) ∧ winTunLUID s = l ∧ winTunBypassRoutes s = bs.
Definition never (_ : option string) (_ : win) : Prop := False.
Definition is_split (r : row) : Prop := (r_net r, r_bits r) ∈ split_dests.

Definition deletions_work : Prop :=
  (∀ h k, win_fails h (DeleteRoute k) = false) ∧ (∀ h d, win_fails h (RouteDelete d) = false).

Lemma leftover_filter (P Q : row → Prop) (keep : row → Prop) `{!∀ r, Decision (keep r)} l bs s :
  (∀ r, r ∈ t0 → keep r) → (∀ r, P r → keep r → Q r) →
  leftover P l bs s → leftover Q l bs (upd_table (filter keep) s).
Proof.
  intros H0 HPQ [(ex & Ht & He) Hs]. split; [|done]. exists (filter keep ex). cbn. rewrite Ht, filter_app. split.
  - f_equal. by apply filter_keep.
  - intros r [Hk Hr]%list_elem_of_filter. by apply HPQ; [apply He|].
Qed.

Lemma delete_leftover (P Q : row → Prop) k l bs :
  deletions_work → k ∉ key_of <$> t0 → (∀ r, P r → key_of r ≠ k → Q r) →
  triple (leftover P l bs) (delete_route k) (λ _, leftover Q l bs) never.
Proof.
  intros [Hd _] Hk HPQ s Hs. unfold delete_route, sys_. rewrite Hd.
  apply (leftover_filter P Q _ l bs (called (DeleteRoute k) s)); [|done|done].
  intros r Hr <-. by apply Hk, list_elem_of_fmap_2.
Qed.

Lemma delete_bypass_leftover l bs ks : deletions_work → (∀ k, k ∈ ks → k ∉ key_of <$> t0) →
  triple (leftover (λ r, key_of r ∈ ks ∨ is_split r) l bs) (delete_bypass ks) (λ _, leftover is_split l bs) never.
Proof.
  intros Hd. induction ks as [|k ks IH]; intros Hk; cbn [delete_bypass].
  - intros s [(ex & Ht & He) Hs]. split; [|done]. exists ex. split; [done|].
    intros r Hr. destruct (He r Hr) as [Hx|Hx]; [by apply elem_of_nil in Hx|done].
  - eapply triple_bind.
    + apply (delete_leftover _ (λ r, key_of r ∈ ks ∨ is_split r)); [done|apply Hk; by left|].
      intros r [[Hx|Hx]%elem_of_cons|Hx] Hne; [done|by left|by right].
    + intros []. apply IH. intros x Hx. apply Hk. by right.
Qed.

Lemma delete_split_leftover l bs luid ds : deletions_work → no_split → (∀ d, d ∈ ds → d ∈ split_dests) →
  triple (leftover is_split l bs) (cleanupInstalledRoutes luid ds) (λ _, leftover is_split l bs) never.
Proof.
  intros Hd Hn. induction ds as [|d ds IH]; intros Hds; cbn [cleanupInstalledRoutes]; [by intros s Hs|].
  apply (triple_bind _ _ _ (λ _, leftover is_split l bs)); [|intros []; apply IH; intros x Hx; apply Hds; by right].
  apply delete_leftover; [done|apply split_key; [done|apply Hds; by left]|done].
Qed.

Lemma modify_leftover P l bs l' bs' f :
  (∀ s, winTunLUID s = l → winTunBypassRoutes s = bs →
        table (f s) = table s ∧ winTunLUID (f s) = l' ∧ winTunBypassRoutes (f s) = bs') →
  triple (leftover P l bs) (modify f) (λ _, leftover P l' bs') never.
Proof.
  intros Hf s (Ht & Hl & Hb). destruct (Hf s Hl Hb) as (H1 & H2 & H3).
  unfold modify, leftover. by rewrite H1.
Qed.

Lemma sys__leftover P l bs c f :
  (∀ s, table (f s) = table s ∧ winTunLUID (f s) = winTunLUID s ∧ winTunBypassRoutes (f s) = winTunBypassRoutes s) →
  triple (leftover P l bs) (sys_ c f) (λ _, leftover P l bs) never.
Proof.
  intros Hf s Hs. unfold sys_. destruct (win_fails _ _); [exact Hs|].
  destruct (Hf (called c s)) as (H1 & H2 & H3). unfold leftover. by rewrite H1, H2, H3.
Qed.

Lemma route_delete_leftover (P Q : row → Prop) l bs d : deletions_work → no_split → d ∈ split_dests →
  (∀ r, P r → (r_net r, r_bits r) ≠ d → Q r) →
  triple (leftover P l bs) (route_delete d) (λ _, leftover Q l bs) never.
Proof.
  intros [_ Hd] Hn Hin HPQ s Hs. unfold route_delete, sys_. rewrite Hd.
  apply (leftover_filter P Q _ l bs (called (RouteDelete d) s)); [|done|done].
  intros r Hr <-. by apply (Hn r).
Qed.

(** The table of the start, and nothing recorded. *)
Definition restored (s : win) : Prop :=
  table s = t0 ∧ winTunDevice s = None ∧ winTunLUID s = 0 ∧ winTunBypassRoutes s = [].

Lemma cleanup_restored s : deletions_work → no_split → ours s →
  ∃ s', cleanupWindowsState s = (Ok tt, s') ∧ restored s'.
Proof.
  intros Hd Hn [Hk (ex & Ht & He)].
  assert (triple (λ x, x = s) cleanupWindowsState (λ _, restored) never) as H.
  { unfold cleanupWindowsState. apply triple_get. intros ? ->.
    apply (triple_pre (leftover (λ r, key_of r ∈ winTunBypassRoutes s ∨ is_split r) (winTunLUID s) (winTunBypassRoutes s))).
    { intros ? ->. split; [|done]. by exists ex. }
    eapply triple_bind; [by apply delete_bypass_leftover|intros []].
    eapply triple_bind; [apply (modify_leftover _ _ _ (winTunLUID s) []); by intros|intros []].
    apply (triple_bind _ _ _ (λ _, leftover is_split 0 [])).
    - destruct (Z.eqb_spec (winTunLUID s) 0) as [E0|E0]; [rewrite E0; apply triple_ret|].
      apply (triple_bind _ _ _ (λ _, leftover is_split (winTunLUID s) [])).
      + destruct (winTunDNS s) as [d|]; [|by apply sys__leftover].
        eapply triple_bind; [by apply sys__leftover|intros []]. by apply modify_leftover.
      + intros []. eapply triple_bind; [by apply delete_split_leftover|intros []]. by apply modify_leftover.
    - intros []. eapply triple_bind; [by apply sys__leftover|intros []].
      eapply triple_bind; [apply (route_delete_leftover _ (λ r, (r_net r, r_bits r) = (2 ^ 31, 1))); [done..|by left|]|intros []].
      { intros r Hr Hne. unfold is_split in Hr. apply elem_of_cons in Hr as [Hr|Hr]; [done|].
        by apply list_elem_of_singleton in Hr. }
      eapply triple_bind; [apply (route_delete_leftover _ (λ _, False)); [done..|right; left|done]|intros []].
      intros s1 ((ex1 & Ht1 & He1) & Hl1 & Hb1). destruct ex1 as [|r ex1]; [|exfalso; apply (He1 r); by left].
      rewrite app_nil_r in Ht1. unfold modify. destruct (winTunDevice s1) eqn:Edev; done. }
  specialize (H s eq_refl). destruct (cleanupWindowsState s) as [[[]|e|] s']; [by exists s'|done|done].
Qed.

Lemma restored_ours s : restored s → ours s.
Proof.
  intros (Ht & _ & _ & Hb). split; [intros k Hk; rewrite Hb in Hk; by apply elem_of_nil in Hk|].
  exists []. rewrite app_nil_r. split; [done|]. intros r Hr. by apply elem_of_nil in Hr.
Qed.

End Restored.

End Win.

(** C14. Windows gets its forwarding table back.  Assume there is no device and no
    recorded route at the start, that nobody else owns split routes, and that deletions
    work.  Starting the TUN device, when it succeeds, has installed the two split routes,
    and every route it has added is one of them or a bypass route that it recorded; if
    any step fails the start ends with the table as it was, no device and nothing
    recorded, and after a successful start the clean-up, which may run against another
    state of the system, does the same.  The table is that of the routes made by
    programs: what Windows itself adds for the address of the device and removes with
    the device is not in it.  Which upstreams get a bypass route is not part of the
    statement; one given by its IPv4 address gets none ([literal_upstream_unrouted]). *)
Theorem windows_routes_restored (E : WinEnv) us ns s0 :
  winTunDevice s0 = None → winTunBypassRoutes s0 = [] → no_split (table s0) → deletions_work →
  match StartWindowsTransparent us ns s0 with
  | (Ok _, s) =>
      (∀ d, d ∈ split_dests → tun_row win_luid d ∈ table s) ∧
      (∃ added, table s = table s0 ++ added ∧
         ∀ r, r ∈ added → key_of r ∈ winTunBypassRoutes s ∨ (r_net r, r_bits r) ∈ split_dests) ∧
      ∀ E', deletions_work (E := E') → ∃ s', Cleanup (E := E') s = (Ok tt, s') ∧ restored (table s0) s'
  | (Err _, s) => restored (table s0) s
  | (Panic, _) => False
  end.
Proof.
  intros Hdev Hb Hn Hd.
  assert (ours (table s0) s0) as Ho.
  { split; [intros k Hk; rewrite Hb in Hk; by apply elem_of_nil in Hk|].
    exists []. rewrite app_nil_r. split; [done|]. intros r Hr. by apply elem_of_nil in Hr. }
  pose proof (start_kept (table s0) us ns Hn s0 (conj Ho Hdev)) as H. unfold StartWindowsTransparent.
  destruct (start_locked us ns s0) as [[[]|e|] s] eqn:Es.
  - destruct H as [H1 H2]. split; [|split; [apply H1|intros E' Hd'; by apply (cleanup_restored (E := E') (table s0) s)]].
    intros d Hdd. apply H2. by apply list_elem_of_fmap_2.
  - destruct (cleanup_restored (table s0) s Hd Hn H) as (s' & Ec & Hr).
    rewrite (stm_bind_ok _ _ _ _ _ Ec). exact Hr.
  - destruct (cleanup_restored (table s0) s Hd Hn H) as (s1 & E1 & Hr1).
    rewrite (stm_bind_ok _ _ _ _ _ E1).
    destruct (cleanup_restored (table s0) s1 Hd Hn (restored_ours _ _ Hr1)) as (s2 & E2 & Hr2).
    rewrite (stm_bind_ok _ _ _ _ _ E2). exact Hr2.
Qed.

(** ** Own sockets and the TUN device *)

Section Avoid.
Context {E : WinEnv}.

(** The TUN's index is known, the uplink is another interface, and so is every
    interface remembered. *)
Definition avoiding (s : win) : Prop :=
  0 < winTunIfIdx s ∧ 0 < winPhysicalIfIdx s ∧ winPhysicalIfIdx s ≠ winTunIfIdx s ∧
  (winTunLUID s ≠ 0 → win_ifindex (winTunLUID s) = winTunIfIdx s) ∧
  ∀ v i e, bestIfCache s !! v = Some (i, e) → i ≠ winTunIfIdx s.

(** The indices do not change. *)
Definition same_if (s s' : win) : Prop :=
  winTunIfIdx s' = winTunIfIdx s ∧ winPhysicalIfIdx s' = winPhysicalIfIdx s.

Lemma same_if_trans s1 s2 s3 : same_if s1 s2 → same_if s2 s3 → same_if s1 s3.
Proof. unfold same_if. intuition congruence. Qed.

Lemma isTunInterface_avoids i s : avoiding s →
  ∃ b s', isTunInterface i s = (Ok b, s') ∧ avoiding s' ∧ same_if s s' ∧
    (b = false → i ≠ winTunIfIdx s).
Proof.
  intros Ha. pose proof Ha as (A1 & A2 & A3 & A4 & A5). unfold isTunInterface.
  destruct (Z.leb_spec i 0); [exists false, s; split_and!; try done; lia|].
  rewrite (proj2 (Z.ltb_lt _ _) A1). cbn [andb]. destruct (Z.eqb_spec i (winTunIfIdx s)).
  { exists true, s. done. }
  destruct (Z.eqb_spec (winTunLUID s) 0) as [E0|E0]; cbn [negb]; [by exists false, s|].
  destruct (win_fails _ _); [by exists false, (called IPInterface s)|].
  rewrite (A4 E0). eexists _, _. split; [reflexivity|]. split_and!; [|done|done].
  unfold avoiding. cbn. done.
Qed.

Lemma default_index_avoids s : avoiding s → getDefaultInterfaceIndex s = (Ok (Some (winPhysicalIfIdx s)), s).
Proof. intros (_ & A2 & _). unfold getDefaultInterfaceIndex. by rewrite (proj2 (Z.ltb_lt _ _) A2). Qed.

Lemma store_avoids v i now s : avoiding s → i ≠ winTunIfIdx s →
  ∃ s', store v i now s = (Ok tt, s') ∧ avoiding s' ∧ same_if s s'.
Proof.
  intros (A1 & A2 & A3 & A4 & A5) Hi. eexists. split; [reflexivity|]. split; [|done].
  unfold avoiding. cbn. split_and!; [done..|]. intros v' i' e'.
  destruct (decide (v = v')) as [->|Hv]; [rewrite lookup_insert_eq; by intros [= <- _]|].
  rewrite lookup_insert_ne by done. apply A5.
Qed.

Lemma getBest_avoids x now s : avoiding s →
  ∃ i s', getBestInterfaceForTarget x now s = (Ok (Some i), s') ∧ i ≠ winTunIfIdx s ∧
    avoiding s' ∧ same_if s s'.
Proof.
  intros Ha. pose proof Ha as (A1 & A2 & A3 & A4 & A5). unfold getBestInterfaceForTarget.
  assert (∃ i s', getDefaultInterfaceIndex s = (Ok (Some i), s') ∧ i ≠ winTunIfIdx s ∧
    avoiding s' ∧ same_if s s') as Hdef.
  { rewrite default_index_avoids by done. by eexists _, _. }
  destruct ((x ≫= Net.To4) ≫= AddrFromSlice) as [[v|]|]; [|done|done].
  change ((get_st ≫= ?f) s) with (f s s). cbv beta.
  destruct (cached (bestIfCache s) v now) as [i|] eqn:Ec.
  { exists i, s. split_and!; [done| |done|done]. unfold cached in Ec.
    destruct (bestIfCache s !! v) as [[i' e]|] eqn:Ev; [|done]. destruct (now <? e); [|done].
    injection Ec as ->. by eapply A5. }
  assert (∃ t s1, (match win_best v with Some i => isTunInterface i | None => mret true end) s = (Ok t, s1) ∧
    avoiding s1 ∧ same_if s s1 ∧ (t = false → ∀ i, win_best v = Some i → i ≠ winTunIfIdx s))
    as (t & s1 & Et & B1 & B2 & B3).
  { destruct (win_best v) as [i|]; [|by exists true, s].
    destruct (isTunInterface_avoids i s Ha) as (b & s1 & Eb & H1 & H2 & H3). exists b, s1.
    split_and!; [done..|]. intros Hb j [= <-]. by apply H3. }
  rewrite (stm_bind_ok _ _ _ _ _ Et).
  destruct (t || match win_best v with Some i => i =? 0 | None => true end) eqn:Eb.
  - rewrite (stm_bind_ok _ _ _ _ _ (default_index_avoids s1 B1)).
    destruct (store_avoids v (winPhysicalIfIdx s1) now s1 B1) as (s2 & E2 & C1 & C2); [apply B1|].
    rewrite (stm_bind_ok _ _ _ _ _ E2). eexists _, s2. split; [reflexivity|]. split; [|split; [done|by eapply same_if_trans]].
    rewrite <- (proj1 B2). apply B1.
  - apply orb_false_iff in Eb as [-> Ew]. destruct (win_best v) as [i|]; [|done]. cbn [default from_option id].
    assert (i ≠ winTunIfIdx s) as Hi by (by apply B3).
    destruct (store_avoids v i now s1 B1) as (s2 & E2 & C1 & C2); [by rewrite (proj1 B2)|].
    rewrite (stm_bind_ok _ _ _ _ _ E2). eexists _, s2. split; [reflexivity|]. split; [done|split; [done|by eapply same_if_trans]].
Qed.

(** C13. The proxy's own sockets avoid the TUN device.  While the TUN's index is
    known and the uplink is another interface, the control function of the dialer
    binds a socket, if at all, to one interface that is not the TUN, by its index
    for IPv6 and its byte-reversed index for IPv4; loopback targets are not bound.
    The remembered interfaces keep that property, so it holds for every sequence
    of dials. *)
Theorem dialer_avoids_tun dflt network address now s :
  avoiding s → dflt = Some (winPhysicalIfIdx s) →
  ∃ opts s', dialer_control dflt network address now s = (Ok opts, s') ∧
    avoiding s' ∧ same_if s s' ∧
    (opts = [] ∨ ∃ i, 0 < i ∧ i ≠ winTunIfIdx s ∧ opts = unicast_options network i) ∧
    (∀ h p, Net.SplitHostPort address = Some (h, p) → isLoopbackAddress h = true → opts = []).
Proof.
  intros Ha ->. pose proof Ha as (A1 & A2 & A3 & _). unfold dialer_control.
  destruct (match Net.SplitHostPort address with Some (h, _) => isLoopbackAddress h | None => false end) eqn:El.
  { exists [], s. split; [done|]. split_and!; try done. by left. }
  assert (∀ h p, Net.SplitHostPort address = Some (h, p) → isLoopbackAddress h = true → False) as Hl.
  { intros h p Hs Hb. rewrite Hs in El. congruence. }
  cbn [default from_option id].
  set (host := match Net.SplitHostPort address with Some (h, _) => h | None => address end).
  assert (∃ i s', (match Net.ParseIP host with
      | None => mret (winPhysicalIfIdx s)
      | Some x => o ← getBestInterfaceForTarget (Some x) now;
          mret (match o with Some b => if 0 <? b then b else winPhysicalIfIdx s | None => winPhysicalIfIdx s end)
      end : wm Z) s = (Ok i, s') ∧ i ≠ winTunIfIdx s ∧ avoiding s' ∧ same_if s s')
    as (i & s' & Ei & B1 & B2 & B3).
  { destruct (Net.ParseIP host) as [x|]; [|by eexists _, s].
    destruct (getBest_avoids (Some x) now s Ha) as (b & s1 & Eb & C1 & C2 & C3).
    rewrite (stm_bind_ok _ _ _ _ _ Eb). eexists _, s1. split; [reflexivity|]. by destruct (0 <? b). }
  rewrite (stm_bind_ok _ _ _ _ _ Ei). destruct (Z.leb_spec i 0).
  - exists [], s'. split; [done|]. split_and!; try done. by left.
  - eexists _, s'. split; [reflexivity|]. split_and!; try done; [|by intros h p Hs Hb; destruct (Hl h p Hs Hb)].
    right. by exists i.
Qed.

End Avoid.

(** The index goes to IPv4 sockets in network byte order. *)
Lemma netIfIdx_htonl i : 0 ≤ i < 2 ^ 32 → netIfIdx i = Bpf.bpf_htonl i.
Proof.
  intros Hi. unfold netIfIdx, Bpf.bpf_htonl, be32.
  assert (∀ z, Z.land z 255 = u8 (mk8 z)) as Hm.
  { intros z. rewrite u8_mk8. change 255 with (Z.ones 8). by rewrite Z.land_ones. }
  by rewrite !Hm, Z.lor_assoc.
Qed.

(** ** Runs *)

(** Two uplinks: the default route on interface 5, a lab network on interface 7. *)
Definition ex_table : list row :=
  [mkRow 500 5 0 0 (Some 0xC0A80101) 25; mkRow 700 7 0xC0A81F00 24 (Some 0) 10].
Definition ex_win : win := mkWin 0 0 None 0 None [] ∅ (FakeIP.mkGlobal false None) ex_table [] [].
(** The table cannot be read once the split routes are there if [bad]. *)
Definition ex_winenv (bad : bool) : WinEnv := {|
  win_fails := λ h c, match c with ReadTable => bad && bool_decide (1 < length h)%nat | _ => false end;
  win_luid := 900; win_ifindex := λ _, 9;
  win_best := λ _, Some 5;
  win_resolve := λ h, if String.eqb h "lab.test" then Some [bytes [192; 168; 31; 253]] else None |}.

Lemma ex_no_split : no_split ex_table.
Proof.
  intros r Hr. apply elem_of_cons in Hr as [->|Hr]; [|apply list_elem_of_singleton in Hr as ->];
    apply (bool_decide_unpack _); vm_compute; exact I.
Qed.

Lemma windows_routes_restored_witness :
  let run := StartWindowsTransparent (E := ex_winenv false) ["socks5://lab.test:1080"] ["203.0.113.0/24"] ex_win in
  run.1 = Ok tt ∧ winTunBypassRoutes run.2 = [(700, (0xC0A81FFD, 32), Some 0); (500, (0xCB007100, 24), Some 0xC0A80101)] ∧
  (∃ s', Cleanup (E := ex_winenv true) run.2 = (Ok tt, s') ∧ restored ex_table s') ∧
  is_ok (StartWindowsTransparent (E := ex_winenv true) ["socks5://lab.test:1080"] [] ex_win).1 = false.
Proof.
  intros run. assert (run.1 = Ok tt) as Ho by (vm_compute; reflexivity).
  split; [exact Ho|]. split; [vm_compute; reflexivity|]. split; [|vm_compute; reflexivity].
  pose proof (windows_routes_restored (ex_winenv false) ["socks5://lab.test:1080"] ["203.0.113.0/24"] ex_win
    eq_refl eq_refl ex_no_split) as H. fold run in H.
  destruct run as [o s]. cbn [fst] in Ho. subst o.
  apply H; [split; reflexivity|]. split; reflexivity.
Defined.

Definition ex_dialing : win := mkWin 5 9 (Some 900) 900 None [] ∅ (FakeIP.mkGlobal true None) ex_table [] [].

Lemma dialer_avoids_tun_witness :
  avoiding (E := ex_winenv false) ex_dialing ∧
  (dialer_control (E := ex_winenv false) (Some 5) "tcp4" "192.168.31.253:1080" 0 ex_dialing).1 = Ok [(false, 0x05000000)] ∧
  ∃ opts s', dialer_control (E := ex_winenv false) (Some 5) "tcp4" "192.168.31.253:1080" 0 ex_dialing = (Ok opts, s') ∧
    avoiding (E := ex_winenv false) s'.
Proof.
  assert (avoiding (E := ex_winenv false) ex_dialing) as Ha.
  { split_and!; [reflexivity|reflexivity|discriminate|reflexivity|]. intros v i e Hv. cbn in Hv.
    rewrite lookup_empty in Hv. discriminate. }
  split; [exact Ha|]. split; [vm_compute; reflexivity|].
  destruct (dialer_avoids_tun (E := ex_winenv false) (Some 5) "tcp4" "192.168.31.253:1080" 0 ex_dialing Ha eq_refl)
    as (opts & s' & H1 & H2 & _). exists opts, s'. split; [exact H1|exact H2].
Defined.

(** ** What goes wrong *)

(** An upstream given by its IPv4 address gets no bypass route: the look-up of an
    address answers in 16 bytes, and only 4-byte addresses are taken. *)
Lemma literal_upstream_unrouted (E : WinEnv) routes dflt tun seen u us host a b c d s :
  Url.Hostname <$> Url.Parse u = Some host → host ≠ "" → Net.ParseAddr host = Some [a; b; c; d] →
  install_upstreams routes dflt tun seen (u :: us) s = install_upstreams routes dflt tun seen us s.
Proof.
  intros Hu Hne Ha. cbn [install_upstreams]. rewrite Hu. destruct host as [|x host]; [done|].
  unfold LookupIP. rewrite Ha. reflexivity.
Qed.

Lemma literal_upstream_example :
  winTunBypassRoutes (StartWindowsTransparent (E := ex_winenv false) ["socks5://192.168.31.253:1080"] [] ex_win).2 = [].
Proof. vm_compute. reflexivity. Qed.

(** Without a physical default route the answer of GetBestInterface is taken as it
    is: behind the split routes that is the TUN itself. *)
Lemma default_index_is_tun (E : WinEnv) s i :
  winPhysicalIfIdx s = 0 → table s = [] → win_best 0x08080808 = Some i →
  (getDefaultInterfaceIndex s).1 = Ok (Some i).
Proof.
  intros Hp Ht Hb. unfold getDefaultInterfaceIndex. rewrite Hp, Ht. cbn. rewrite Hb. by destruct (win_fails _ _).
Qed.

(** The clean-up deletes every route to the two halves of the address space, those
    of other programs too. *)
Lemma cleanup_deletes_foreign :
  table (Cleanup (E := ex_winenv false)
    (upd_table (λ t, t ++ [mkRow 300 3 0 1 (Some 0x0A080001) 1]) ex_win)).2 = ex_table.
Proof. vm_compute. reflexivity. Qed.

End WinTun.
