(* ===== verification/HttpConnect.v ===== *)
(** * Tunnels through HTTP proxies: dialHTTPWithTimeout of src/internal/handler.go

    The CONNECT request, the response and the connection handed out, which reads
    through the buffered reader that parsed the response.  [http.ReadResponse] is
    the class [ReadResponse]: from the bytes that arrive it gives the status and
    how many bytes the response takes.  How much the reader has buffered beyond
    them is arbitrary. *)

From S2P Require Import Prelude GoStrings GoIO.

Module HttpConnect.

Class ReadResponse := {
  read_response : list byte → option (Z * string * nat);
  read_response_within : ∀ l code status n, read_response l = Some (code, status, n) → (n ≤ length l)%nat
}.

(** peekedConn: the buffer of the reader, and the connection. *)
Record peekedConn := mkPeeked { p_buf : list byte; p_conn : conn }.

(** One Read of at most [n] bytes: from the buffer while it lasts. *)
Definition Read (n : nat) (p : peekedConn) : list byte * peekedConn :=
  match p_buf p with
  | [] => (take n (c_in (p_conn p)), mkPeeked [] (set_in (p_conn p) (drop n (c_in (p_conn p)))))
  | b => (take n b, mkPeeked (drop n b) (p_conn p))
  end.
(** Reads of the given sizes. *)
Fixpoint Reads (ns : list nat) (p : peekedConn) : list byte * peekedConn :=
  match ns with
  | [] => ([], p)
  | n :: ns => let '(b, p) := Read n p in let '(bs, p) := Reads ns p in (b ++ bs, p)
  end.

Definition crlf : string := String "013" (String "010" "").
Definition connect_request (target : string) : string :=
  "CONNECT " +:+ target +:+ " HTTP/1.1" +:+ crlf +:+ "Host: " +:+ target +:+ crlf +:+ crlf.

Section Dial.
Context {R : ReadResponse}.

(** [dialed]: what the dialer gives; [ahead]: how many bytes beyond the response
    are in the buffer when it has been parsed.  The error of the write is dropped. *)
Definition dialHTTPWithTimeout (dialed : option conn) (ahead : nat) (target : string) :
    outcome io_err peekedConn * option conn :=
  match dialed with
  | None => (Err (ErrText "dial"), None)
  | Some c =>
      let c := snd (SetDeadline true c) in
      let c := snd (Write (to_bytes (connect_request target)) c) in
      match read_response (c_in c) with
      | None => (Err (c_end c), Some (snd (Close (set_in c []))))
      | Some (code, status, n) =>
          let buf := take ahead (drop n (c_in c)) in
          let c := set_in c (drop ahead (drop n (c_in c))) in
          if negb (code =? 200) then (Err (ErrText ("HTTP proxy error: " +:+ status)), Some (snd (Close c)))
          else let c := snd (SetDeadline false c) in (Ok (mkPeeked buf c), Some c)
      end
  end.

(** What a reader sees of a tunnel, however it cuts its reads. *)
Lemma Reads_prefix ns : ∀ p,
  ∃ rest, p_buf p ++ c_in (p_conn p) = (Reads ns p).1 ++ rest ∧
    rest = p_buf (Reads ns p).2 ++ c_in (p_conn (Reads ns p).2).
Proof.
  induction ns as [|n ns IH]; intros p; [by eexists|]. cbn [Reads].
  destruct (Read n p) as [b p1] eqn:Er.
  assert (p_buf p ++ c_in (p_conn p) = b ++ p_buf p1 ++ c_in (p_conn p1)) as Hs.
  { unfold Read in Er. destruct (p_buf p) as [|x buf]; injection Er as <- <-; cbn [p_buf p_conn set_in c_in].
    - cbn [app]. by rewrite take_drop.
    - by rewrite app_assoc, take_drop. }
  destruct (IH p1) as (rest & H1 & H2). destruct (Reads ns p1) as [bs p2]. cbn [fst snd] in *.
  exists rest. split; [|done]. by rewrite Hs, H1, <- app_assoc.
Qed.

(** A tunnel is handed out only after status 200, with the deadline of the
    handshake cleared, and its readers get the bytes after the response, in order
    and without loss, whatever the reader had buffered; in every other case the
    connection that was dialled is closed. *)
Lemma connect_tunnel c ahead target ns :
  match dialHTTPWithTimeout (Some c) ahead target with
  | (Ok p, Some c') =>
      ∃ status n rest, read_response (c_in c) = Some (200, status, n) ∧ p_conn p = c' ∧
        c_deadline c' = false ∧ c_closed c' = c_closed c ∧
        drop n (c_in c) = (Reads ns p).1 ++ rest
  | (Err _, Some c') => c_closed c' = true
  | _ => False
  end.
Proof.
  unfold dialHTTPWithTimeout.
  set (c1 := (SetDeadline true c).2). set (c2 := (Write _ c1).2).
  assert (c_in c2 = c_in c ∧ c_closed c2 = c_closed c) as [Hin Hcl].
  { subst c2. unfold Write. destruct (c_wlimit c1); done. }
  rewrite Hin. destruct (read_response (c_in c)) as [[[code status] n]|]; [|done].
  destruct (Z.eqb_spec code 200) as [->|Hc]; cbn [negb]; [|done].
  destruct (Reads_prefix ns (mkPeeked (take ahead (drop n (c_in c)))
    (SetDeadline false (set_in c2 (drop ahead (drop n (c_in c))))).2)) as (rest & H1 & _).
  exists status, n, rest. split_and!; [done|done|done|done|].
  rewrite <- H1. cbn [p_buf p_conn SetDeadline snd set_in c_in]. by rewrite take_drop.
Qed.

End Dial.
End HttpConnect.
