(* ===== verification/Log.v ===== *)
(** * Logging: src/internal/log.go

    Levels, the choice of the destination, the copy of errors to the terminal and
    the end of the process after a fatal message.  Messages are taken as already
    formatted; the date and the file position that the standard logger adds are
    left out. *)

From S2P Require Import Prelude GoStrings.

Module Log.

Inductive Level := LevelDebug | LevelInfo | LevelWarn | LevelError | LevelFatal.
#[global] Instance Level_eq_dec : EqDecision Level.
Proof. solve_decision. Defined.
Definition rank (l : Level) : nat :=
  match l with LevelDebug => 0 | LevelInfo => 1 | LevelWarn => 2 | LevelError => 3 | LevelFatal => 4 end.
Definition levelString (l : Level) : string :=
  match l with
  | LevelDebug => "DEBUG" | LevelInfo => "INFO" | LevelWarn => "WARN" | LevelError => "ERROR" | LevelFatal => "FATAL"
  end.

(** Where the logger writes: the terminal, or something else by its name. *)
Inductive sink := Stderr | Other (name : string).
#[global] Instance sink_eq_dec : EqDecision sink.
Proof. solve_decision. Defined.

Record logger := mkLogger {
  currentLevel : Level;
  logOutput : sink;
  written : list (sink * string);    (* lines, and where they went *)
  exited : bool }.

Definition shouldLog (s : logger) (l : Level) : bool := Nat.leb (rank (currentLevel s)) (rank l).
Definition SetLevel (l : Level) (s : logger) : logger := mkLogger l (logOutput s) (written s) (exited s).
Definition SetOutput (w : sink) (s : logger) : logger := mkLogger (currentLevel s) w (written s) (exited s).
Definition SetVerbose (v : bool) (s : logger) : logger := SetLevel (if v then LevelDebug else LevelInfo) s.
Definition IsVerbose (s : logger) : bool := match currentLevel s with LevelDebug => true | _ => false end.

(** [background]: VP_BACKGROUND=1.  A process that has exited writes nothing. *)
Definition output (background : bool) (l : Level) (text : string) (s : logger) : logger :=
  if exited s || negb (shouldLog s l) then s
  else
    let msg := "[" +:+ levelString l +:+ "] " +:+ text in
    let w := written s ++ [(logOutput s, msg)] in
    let w := if negb background && bool_decide (logOutput s ≠ Stderr) && Nat.leb (rank LevelError) (rank l)
             then w ++ [(Stderr, "vproxy: " +:+ msg)] else w in
    mkLogger (currentLevel s) (logOutput s) w (match l with LevelFatal => true | _ => false end).

(** The functions with a format; [text] is the formatted message. *)
Definition Debugf (background : bool) := output background LevelDebug.
Definition Infof (background : bool) := output background LevelInfo.
Definition Warnf (background : bool) := output background LevelWarn.
Definition Errorf (background : bool) := output background LevelError.
Definition Fatalf (background : bool) := output background LevelFatal.

(** The control function of outgoing sockets, kept here and in package socks. *)
Record controls (F : Type) := mkControls { dialerControl : option F; DefaultDialerControl : option F }.
Arguments mkControls {F}. Arguments dialerControl {F}. Arguments DefaultDialerControl {F}.
Definition SetDialerControl {F} (f : option F) (c : controls F) : controls F := mkControls f f.
Definition GetDialerControl {F} (c : controls F) : option F := dialerControl c.

Definition logHelper_Write (background : bool) (prefix p : string) (s : logger) : nat * logger :=
  (slen p, if shouldLog s LevelDebug then output background LevelDebug (prefix +:+ p) s else s).

(** One newline at the end is removed. *)
Definition trim_newline (p : string) : string :=
  if Strings.HasSuffix p (String "010" "") then stake (slen p - 1) p else p.
Definition stdLogBridge_Write (background : bool) (p : string) (s : logger) : nat * logger :=
  (slen p, output background LevelInfo (trim_newline p) s).

(** [opened]: whether NewRotatingWriter succeeds. *)
Definition InitBackgroundLogging (background opened : bool) (s : logger) : logger :=
  if negb background then s else if opened then SetOutput (Other "vproxy.log") s else s.

Definition init (background opened : bool) (s : logger) : logger :=
  InitBackgroundLogging background opened
    (SetLevel (if shouldLog s LevelDebug then LevelDebug else LevelInfo) s).

(** What the user sees. *)
Definition seen (s : logger) : list string := omap (λ x, if decide (x.1 = Stderr) then Some x.2 else None) (written s).

Lemma seen_app s w : omap (λ x : sink * string, if decide (x.1 = Stderr) then Some x.2 else None) (written s ++ w) =
  seen s ++ omap (λ x, if decide (x.1 = Stderr) then Some x.2 else None) w.
Proof. apply omap_app. Qed.

(** In the foreground an error is shown once, whatever the destination of the log;
    in the background nothing is shown unless the log itself is the terminal; a
    fatal message is written before the process ends and nothing after it. *)
Lemma output_shown background l text s :
  exited s = false → shouldLog s l = true →
  let msg := "[" +:+ levelString l +:+ "] " +:+ text in
  let s' := output background l text s in
  (logOutput s, msg) ∈ written s' ∧
  exited s' = bool_decide (l = LevelFatal) ∧
  (logOutput s = Stderr → seen s' = seen s ++ [msg]) ∧
  (logOutput s ≠ Stderr → background = false → (rank LevelError ≤ rank l)%nat →
     seen s' = seen s ++ ["vproxy: " +:+ msg]) ∧
  (logOutput s ≠ Stderr → background = true → seen s' = seen s) ∧
  ∀ b l' t', exited s' = true → output b l' t' s' = s'.
Proof.
  intros He Hl msg s'. subst s'. unfold output. rewrite He, Hl. cbn [orb negb]. fold msg.
  set (w := written s ++ [(logOutput s, msg)]).
  split_and!.
  - cbn. destruct (_ && _); subst w; set_solver.
  - by destruct l.
  - intros Hs. rewrite (bool_decide_false (logOutput s ≠ Stderr)), andb_false_r by tauto. unfold seen at 1.
    cbn [written andb]. subst w. rewrite seen_app. cbn. by rewrite Hs.
  - intros Hs -> Hr. rewrite bool_decide_true, (proj2 (Nat.leb_le _ _) Hr) by done. cbn [negb andb]. unfold seen at 1.
    cbn [written]. subst w. rewrite <- app_assoc, seen_app. cbn. by rewrite decide_False.
  - intros Hs ->. cbn [negb andb]. unfold seen at 1. cbn [written]. subst w. rewrite seen_app. cbn.
    rewrite decide_False by done. apply app_nil_r.
  - intros b l' t' Hx. cbn [exited] in *. by rewrite Hx.
Qed.

End Log.
