(* ===== verification/DarwinProc.v ===== *)
(** * Which process owns a port on macOS (src/proxy/tproxy/process_darwin.go)

    The list of protocol control blocks that sysctl returns is parsed record by
    record over Go slices, so that every access is checked against the length
    and the capacity of the buffer.  What the kernel, lsof and ps answer are
    inputs. *)

From S2P Require Import Prelude GoStrings.

Module DarwinProc.

(** ** Records of net.inet.tcp.pcblist_n *)

Definition xsoSocket : Z := 0x001.
Definition xsoInPCB : Z := 0x010.
Definition xsocketEPidOffset : nat := 124.
Definition xinpcbLPortOffset : nat := 58.

Definition int32 (z : Z) : Z := (z + 2 ^ 31) mod 2 ^ 32 - 2 ^ 31.

(** [binary.LittleEndian.Uint32(s[off : off+4])] and
    [binary.BigEndian.Uint16(s[off : off+2])] *)
Definition u32_at (s : slice) (off : nat) : outcome string Z :=
  b ← sl_sub s off (off + 4); mret (le32 b).
Definition u16_at (s : slice) (off : nat) : outcome string Z :=
  b ← sl_sub s off (off + 2);
  mret (match b with [hi; lo] => be16 hi lo | _ => 0 end).

(** [s[n:]] and [s[:n]] for [n] up to the length *)
Definition sl_from (s : slice) (n : nat) : slice := Slice (drop n (sl_mem s)) (sl_len s - n).
Definition sl_to (s : slice) (n : nat) : slice := Slice (sl_mem s) n.

Inductive next := Found (pid : Z) | More (buf : slice) (currentPID : Z) | Stop.

(** One round of the loop. *)
Definition record (port : Z) (buf : slice) (currentPID : Z) : outcome string next :=
  recLen ← u32_at buf 0;
  recKind ← u32_at buf 4;
  if (recLen <? 8) || (Z.of_nat (sl_len buf) <? recLen) then mret Stop
  else
    let rec := sl_to buf (Z.to_nat recLen) in
    let buf := sl_from buf (Z.to_nat recLen) in
    if recKind =? xsoSocket then
      if Z.of_nat xsocketEPidOffset + 4 <? recLen then
        v ← u32_at rec xsocketEPidOffset; mret (More buf (int32 v))
      else mret (More buf currentPID)
    else if recKind =? xsoInPCB then
      if Z.of_nat xinpcbLPortOffset + 2 <? recLen then
        lport ← u16_at rec xinpcbLPortOffset;
        if (lport =? port) && (0 <? currentPID) then mret (Found currentPID)
        else mret (More buf currentPID)
      else mret (More buf currentPID)
    else mret (More buf currentPID).

Definition not_found (port : Z) : string := "no TCP socket found on local port " +:+ Strconv.Itoa port.

(** The loop; [None] when the fuel runs out. *)
Fixpoint records (fuel : nat) (port : Z) (buf : slice) (currentPID : Z) : option (outcome string Z) :=
  match fuel with
  | O => None
  | S fuel =>
      if Nat.ltb (sl_len buf) 8 then Some (Err (not_found port))
      else
        match record port buf currentPID with
        | Ok (Found pid) => Some (Ok pid)
        | Ok (More buf cur) => records fuel port buf cur
        | Ok Stop => Some (Err (not_found port))
        | Err e => Some (Err e)
        | Panic => Some Panic
        end
  end.

(** [raw] is the result of the system call.  A record has at least eight bytes,
    so one unit of fuel per byte is enough; running out would show as a panic. *)
Definition getPidByPortSysctl (raw : option slice) (port : Z) : outcome string Z :=
  match raw with
  | None => Err "sysctl net.inet.tcp.pcblist_n"
  | Some buf =>
      if Nat.ltb (sl_len buf) 4 then Err "pcblist_n buffer too small"
      else
        xinpgenSize ← u32_at buf 0;
        if (xinpgenSize <? 8) || (Z.of_nat (sl_len buf) <? xinpgenSize)
        then Err "pcblist_n xinpgen size out of range"
        else default Panic (records (S (sl_len buf)) port (sl_from buf (Z.to_nat xinpgenSize)) 0)
  end.

(** ** The fall-back on lsof *)

Definition lsof_line (st : Z * string) (line : string) : Z * string :=
  match line with
  | String c (String _ _ as rest) =>
      if Ascii.eqb c "p" then
        match Strconv.Atoi (Strings.TrimSpace rest) with (p, true) => (p, st.2) | _ => st end
      else if Ascii.eqb c "c" then (st.1, Strings.TrimSpace rest)
      else st
  | _ => st
  end.

Definition getPidAndNameByPortLSOF (out : option string) : outcome string (Z * string) :=
  match out with
  | None => Err "exit status 1"
  | Some out =>
      let st := foldl lsof_line (0, "") (Strings.Split out "010") in
      if 0 <? st.1 then Ok st else Err "not found"
  end.

Definition getPidByPortLSOF (out : option string) : outcome string Z :=
  r ← getPidAndNameByPortLSOF out; mret r.1.

(** ** Paths of processes *)

(** The answers of the system: proc_pidinfo returns its result, the buffer of
    4096 bytes and errno. *)
Record sys := mkSys {
  sysctl : option slice;
  lsof : Z → option string;
  proc_pidinfo : Z → Z * slice * Z;
  ps : Z → option string
}.

Definition getPidByPort (D : sys) (port : Z) : outcome string Z :=
  match getPidByPortSysctl (sysctl D) port with
  | Ok pid => Ok pid
  | Err _ => getPidByPortLSOF (lsof D port)
  | Panic => Panic
  end.

Definition getProcessPathByPS (out : option string) : outcome string string :=
  match out with
  | None => Err "exit status 1"
  | Some out =>
      let path := Strings.TrimSpace out in
      if String.eqb path "" then Err "ps returned empty path" else Ok path
  end.

(** [bytes.IndexByte(buf, 0)] *)
Fixpoint index_nul (l : list byte) : option nat :=
  match l with
  | [] => None
  | c :: l => if u8 c =? 0 then Some O else S <$> index_nul l
  end.

(** The cache of paths is the state. *)
Definition procPidPath (D : sys) (pid : Z) : stm (gmap Z string) string string := λ cache,
  match cache !! pid with
  | Some path => (Ok path, cache)
  | None =>
      let '(ret, buf, errno) := proc_pidinfo D pid in
      if 0 <? ret then
        let n := default (Z.to_nat ret) (index_nul (sl_bytes buf)) in
        match sl_sub buf 0 n with
        | Ok b => (Ok (of_bytes b), <[pid := of_bytes b]> cache)
        | Err e => (Err e, cache)
        | Panic => (Panic, cache)
        end
      else
        match getProcessPathByPS (ps D pid) with
        | Ok path => (Ok path, <[pid := path]> cache)
        | _ => (Err (if negb (errno =? 0) then "errno" else "proc_pidpath: no result"), cache)
        end
  end.

(** Name, pid and error as the functions return them: when only the path is
    missing the pid is still there. *)
Abbreviation found := (string * Z * option string)%type.

Definition name_of (D : sys) (pid : outcome string Z) : stm (gmap Z string) string found :=
  match pid with
  | Err e => mret ("", 0, Some e)
  | Panic => crash
  | Ok pid =>
      r ← try_ (procPidPath D pid);
      mret (match r with Ok path => (path, pid, None) | Err e => ("", pid, Some e) | Panic => ("", pid, None) end)
  end.

Definition GetProcessNameByPort (D : sys) (port : Z) : stm (gmap Z string) string found :=
  name_of D (getPidByPort D port).

(** What the dynamic type of the connection gives: no RemoteAddr, an address of
    another type, or a TCP port. *)
Inductive any_conn := NotAddressed | NotTCP | Remote (port : Z).

Definition GetProcessNameByConn (D : sys) (conn : any_conn) : stm (gmap Z string) string found :=
  match conn with
  | NotAddressed => mret ("", 0, Some "connection does not implement RemoteAddr")
  | NotTCP => mret ("", 0, Some "remote address is not a TCP address")
  | Remote port => name_of D (getPidByPort D port)
  end.

(** ** No buffer makes the parser panic *)

Lemma u32_field_ok s off : sl_wf s → (off + 4 ≤ sl_len s)%nat → ∃ v, u32_at s off = Ok v.
Proof.
  unfold sl_wf, u32_at. intros ??. rewrite sl_sub_ok by lia. by eexists.
Qed.

Lemma u16_field_ok s off : sl_wf s → (off + 2 ≤ sl_len s)%nat → ∃ v, u16_at s off = Ok v.
Proof.
  unfold sl_wf, u16_at. intros ??. rewrite sl_sub_ok by lia. by eexists.
Qed.

Lemma sl_from_wf s n : sl_wf s → (n ≤ sl_len s)%nat → sl_wf (sl_from s n).
Proof. unfold sl_wf, sl_from. cbn. rewrite length_drop. lia. Qed.

Lemma int32_range z : - 2 ^ 31 ≤ int32 z < 2 ^ 31.
Proof. unfold int32. pose proof (Z.mod_pos_bound (z + 2 ^ 31) (2 ^ 32)). lia. Qed.

(** A round stops, finds a valid process or consumes at least eight bytes. *)
Definition progress (buf : slice) (o : outcome string next) : Prop :=
  match o with
  | Ok (Found pid) => 0 < pid < 2 ^ 31
  | Ok (More buf' cur) => sl_wf buf' ∧ (sl_len buf' + 8 ≤ sl_len buf)%nat ∧ cur < 2 ^ 31
  | Ok Stop => True
  | _ => False
  end.

Lemma record_progress port buf cur :
  sl_wf buf → (8 ≤ sl_len buf)%nat → cur < 2 ^ 31 → progress buf (record port buf cur).
Proof.
  intros Hw H8 Hc. unfold record.
  destruct (u32_field_ok buf 0 Hw) as [len ->]; [lia|]. destruct (u32_field_ok buf 4 Hw) as [kind ->]; [lia|].
  cbn [mbind outcome_bind]. destruct (_ || _) eqn:Eg; [done|]. boolify.
  assert (progress buf (Ok (More (sl_from buf (Z.to_nat len)) cur))) as Hm.
  { cbn. split_and!; [apply sl_from_wf; [done|]|..]; lia. }
  assert (sl_wf (sl_to buf (Z.to_nat len))) as Hr by (unfold sl_wf, sl_to in *; cbn; lia).
  destruct (kind =? xsoSocket); [|destruct (kind =? xsoInPCB)]; [| |done].
  - destruct (_ <? len) eqn:El; [|done]. boolify. unfold xsocketEPidOffset in *.
    destruct (u32_field_ok (sl_to buf (Z.to_nat len)) 124 Hr) as [v ->]; [cbn; lia|].
    cbn in Hm |- *. destruct Hm as (?&?&_). split_and!; [done..|apply int32_range].
  - destruct (_ <? len) eqn:El; [|done]. boolify. unfold xinpcbLPortOffset in *.
    destruct (u16_field_ok (sl_to buf (Z.to_nat len)) 58 Hr) as [v ->]; [cbn; lia|].
    cbn [mbind outcome_bind]. destruct (_ && _) eqn:Ef; [|done]. boolify. cbn. lia.
Qed.

Definition sound_result (o : outcome string Z) : Prop :=
  match o with Ok pid => 0 < pid < 2 ^ 31 | Err _ => True | Panic => False end.

Lemma records_total port : ∀ fuel buf cur, sl_wf buf → (sl_len buf < fuel)%nat → cur < 2 ^ 31 →
  ∃ o, records fuel port buf cur = Some o ∧ sound_result o.
Proof.
  induction fuel as [|fuel IH]; intros buf cur Hw Hf Hc; [lia|]. cbn [records].
  destruct (Nat.ltb _ 8) eqn:E8; [by eexists|]. boolify.
  pose proof (record_progress port buf cur Hw E8 Hc) as Hp.
  destruct (record port buf cur) as [[pid|buf' cur'|]| |]; cbn in Hp; try done; [by eexists| |by eexists].
  apply IH; [tauto|lia|tauto].
Qed.

(** Whatever bytes the kernel returns, whatever lengths its records claim, the
    parser of the control block list terminates without an access outside of the
    buffer, and a process it reports has a positive 32-bit number. *)
Theorem getPidByPortSysctl_total raw port :
  (∀ s, raw = Some s → sl_wf s) → sound_result (getPidByPortSysctl raw port).
Proof.
  intros Hw. destruct raw as [s|]; [|done]. specialize (Hw s eq_refl). unfold getPidByPortSysctl.
  destruct (Nat.ltb _ 4) eqn:E4; [done|]. boolify.
  destruct (u32_field_ok s 0 Hw) as [n ->]; [lia|]. cbn [mbind outcome_bind].
  destruct (_ || _) eqn:Eg; [done|]. boolify.
  destruct (records_total port (S (sl_len s)) (sl_from s (Z.to_nat n)) 0) as (o & -> & Ho); [|cbn; lia|lia|done].
  apply sl_from_wf; [done|lia].
Qed.

(** ** Tables of sockets *)

(** A record with its header. *)
Definition enc (r : Z * list byte) : list byte :=
  put32le (Z.of_nat (8 + length r.2)) ++ put32le r.1 ++ r.2.

Definition rec_ok (r : Z * list byte) : Prop := 0 ≤ r.1 < 2 ^ 32 ∧ Z.of_nat (8 + length r.2) < 2 ^ 32.

(** The records of other kinds, and those too short to hold what the parser
    looks for. *)
Definition other (r : Z * list byte) : Prop :=
  rec_ok r ∧ ((r.1 ≠ xsoSocket ∧ r.1 ≠ xsoInPCB) ∨ (8 + length r.2 ≤ 60)%nat).

(** What the kernel writes for one socket: the record with the process, others,
    the record with the local port, others. *)
Record socket := mkSocket {
  so_fill : list byte; so_pid : Z; so_tail : list byte; so_others : list (Z * list byte);
  in_fill : list byte; in_lport : Z; in_tail : list byte; in_others : list (Z * list byte)
}.

Definition xsocket (s : socket) : Z * list byte := (xsoSocket, so_fill s ++ put32le (so_pid s) ++ so_tail s).
Definition xinpcb (s : socket) : Z * list byte := (xsoInPCB, in_fill s ++ put16 (in_lport s) ++ in_tail s).

Definition socket_records (s : socket) : list (Z * list byte) :=
  xsocket s :: so_others s ++ xinpcb s :: in_others s.

Definition socket_ok (s : socket) : Prop :=
  length (so_fill s) = 116%nat ∧ 0 ≤ so_pid s < 2 ^ 31 ∧ (0 < length (so_tail s))%nat ∧
  length (in_fill s) = 50%nat ∧ 0 ≤ in_lport s < 2 ^ 16 ∧ (0 < length (in_tail s))%nat ∧
  rec_ok (xsocket s) ∧ rec_ok (xinpcb s) ∧ Forall other (so_others s) ∧ Forall other (in_others s).

(** The process the table gives for a port. *)
Definition owner (port : Z) (l : list socket) : option Z :=
  so_pid <$> find (λ s, (in_lport s =? port) && (0 <? so_pid s)) l.

Lemma length_enc r : length (enc r) = (8 + length r.2)%nat.
Proof. unfold enc. rewrite !length_app. done. Qed.

Lemma u32_field_app pre z post n off :
  off = length pre → 0 ≤ z < 2 ^ 32 → u32_at (Slice (pre ++ put32le z ++ post) n) off = Ok z.
Proof.
  intros -> Hz. unfold u32_at. rewrite sl_sub_app by done. cbn [mbind outcome_bind].
  by rewrite le32_put32le.
Qed.

Lemma u16_field_app pre z post n off :
  off = length pre → 0 ≤ z < 2 ^ 16 → u16_at (Slice (pre ++ put16 z ++ post) n) off = Ok z.
Proof.
  intros -> Hz. unfold u16_at. rewrite sl_sub_app by done. cbn [mbind outcome_bind mret outcome_ret put16].
  f_equal. rewrite (be16_put16 z) by done. unfold wrap16. by rewrite Z.mod_small.
Qed.

(** The header of a record that lies at the start of the buffer. *)
Lemma record_enc port r rest n cur :
  rec_ok r → (length (enc r) ≤ n)%nat →
  record port (Slice (enc r ++ rest) n) cur =
    let rec := Slice (enc r ++ rest) (length (enc r)) in
    let buf := Slice rest (n - length (enc r)) in
    if r.1 =? xsoSocket then
      if Nat.ltb 128 (length (enc r)) then v ← u32_at rec 124; mret (More buf (int32 v))
      else mret (More buf cur)
    else if r.1 =? xsoInPCB then
      if Nat.ltb 60 (length (enc r)) then
        lport ← u16_at rec 58;
        if (lport =? port) && (0 <? cur) then mret (Found cur) else mret (More buf cur)
      else mret (More buf cur)
    else mret (More buf cur).
Proof.
  destruct r as [k body]. intros [Hk Hl] Hn. cbn [fst snd] in *. rewrite length_enc in *. cbn [snd] in *.
  assert (enc (k, body) ++ rest = put32le (Z.of_nat (8 + length body)) ++ put32le k ++ body ++ rest) as E2.
  { unfold enc. by rewrite <- !(assoc_L (++)). }
  assert (u32_at (Slice (enc (k, body) ++ rest) n) 0 = Ok (Z.of_nat (8 + length body))) as E0.
  { rewrite E2. apply (u32_field_app []); [done|lia]. }
  assert (u32_at (Slice (enc (k, body) ++ rest) n) 4 = Ok k) as E4 by (rewrite E2; by apply u32_field_app).
  unfold record. rewrite E0, E4. cbn [mbind outcome_bind].
  destruct (_ || _) eqn:Eg; [exfalso; cbn [sl_len] in Eg; apply orb_prop in Eg as [|]; boolify; lia|].
  unfold sl_to, sl_from. cbn [sl_mem sl_len]. rewrite Nat2Z.id.
  rewrite drop_app_length' by (rewrite length_enc; done).
  replace (Z.of_nat xsocketEPidOffset + 4 <? Z.of_nat (8 + length body)) with (Nat.ltb 128 (8 + length body))
    by (unfold xsocketEPidOffset; destruct (Nat.ltb_spec 128 (8 + length body)), (Z.ltb_spec (Z.of_nat 124 + 4) (Z.of_nat (8 + length body))); lia).
  replace (Z.of_nat xinpcbLPortOffset + 2 <? Z.of_nat (8 + length body)) with (Nat.ltb 60 (8 + length body))
    by (unfold xinpcbLPortOffset; destruct (Nat.ltb_spec 60 (8 + length body)), (Z.ltb_spec (Z.of_nat 58 + 2) (Z.of_nat (8 + length body))); lia).
  done.
Qed.

Lemma record_other port r rest n cur :
  other r → (length (enc r) ≤ n)%nat →
  record port (Slice (enc r ++ rest) n) cur = Ok (More (Slice rest (n - length (enc r))) cur).
Proof.
  intros [Hr Ho] Hn. rewrite record_enc by done. cbn zeta. rewrite length_enc.
  destruct Ho as [[H1 H2]|Hs].
  - by rewrite (proj2 (Z.eqb_neq _ _) H1), (proj2 (Z.eqb_neq _ _) H2).
  - rewrite !(proj2 (Nat.ltb_ge _ _)) by lia. by repeat destruct (_ =? _).
Qed.

Lemma record_socket port s rest n cur :
  socket_ok s → (length (enc (xsocket s)) ≤ n)%nat →
  record port (Slice (enc (xsocket s) ++ rest) n) cur =
    Ok (More (Slice rest (n - length (enc (xsocket s)))) (so_pid s)).
Proof.
  intros (Hf & Hp & Ht & _ & _ & _ & Hr & _) Hn. rewrite record_enc by done. cbn zeta.
  change ((xsocket s).1 =? xsoSocket) with true. cbn iota.
  assert (128 < length (enc (xsocket s)))%nat as Hl.
  { rewrite length_enc. cbn [snd xsocket]. rewrite !length_app, Hf. cbn [length put32le put32 rev app]. lia. }
  rewrite (proj2 (Nat.ltb_lt _ _) Hl).
  assert (enc (xsocket s) ++ rest =
    (put32le (Z.of_nat (8 + length (xsocket s).2)) ++ put32le xsoSocket ++ so_fill s) ++ put32le (so_pid s) ++ so_tail s ++ rest) as ->.
  { unfold enc, xsocket. cbn [fst snd]. by rewrite <- !(assoc_L (++)). }
  rewrite u32_field_app; [|by rewrite !length_app, Hf|lia]. cbn [mbind outcome_bind mret outcome_ret].
  unfold int32. rewrite Z.mod_small by lia. by rewrite Z.add_simpl_r.
Qed.

Lemma record_pcb port s rest n cur :
  socket_ok s → (length (enc (xinpcb s)) ≤ n)%nat →
  record port (Slice (enc (xinpcb s) ++ rest) n) cur =
    Ok (if (in_lport s =? port) && (0 <? cur) then Found cur
        else More (Slice rest (n - length (enc (xinpcb s)))) cur).
Proof.
  intros (_ & _ & _ & Hf & Hp & Ht & _ & Hr & _) Hn. rewrite record_enc by done. cbn zeta.
  change ((xinpcb s).1 =? xsoSocket) with false. change ((xinpcb s).1 =? xsoInPCB) with true. cbn iota.
  assert (60 < length (enc (xinpcb s)))%nat as Hl.
  { rewrite length_enc. cbn [snd xinpcb]. rewrite !length_app, Hf. cbn [length put16]. lia. }
  rewrite (proj2 (Nat.ltb_lt _ _) Hl).
  assert (enc (xinpcb s) ++ rest =
    (put32le (Z.of_nat (8 + length (xinpcb s).2)) ++ put32le xsoInPCB ++ in_fill s) ++ put16 (in_lport s) ++ in_tail s ++ rest) as ->.
  { unfold enc, xinpcb. cbn [fst snd]. by rewrite <- !(assoc_L (++)). }
  rewrite u16_field_app; [|by rewrite !length_app, Hf|done]. cbn [mbind outcome_bind mret outcome_ret].
  by destruct (_ && _).
Qed.

(** Stepping over a record in the loop. *)
Lemma records_more port fuel r rest n cur cur' :
  (length (enc r) ≤ n < fuel)%nat →
  record port (Slice (enc r ++ rest) n) cur = Ok (More (Slice rest (n - length (enc r))) cur') →
  ∃ fuel', (n - length (enc r) < fuel')%nat ∧
    records fuel port (Slice (enc r ++ rest) n) cur = records fuel' port (Slice rest (n - length (enc r))) cur'.
Proof.
  intros Hn Hr. rewrite length_enc in *. destruct fuel as [|fuel]; [lia|]. exists fuel. split; [lia|].
  cbn [records sl_len]. rewrite (proj2 (Nat.ltb_ge n 8)) by lia. by rewrite Hr.
Qed.

Definition encs (l : list (Z * list byte)) : list byte := l ≫= enc.

Lemma encs_cons r l : encs (r :: l) = enc r ++ encs l.
Proof. done. Qed.

Lemma encs_app l k : encs (l ++ k) = encs l ++ encs k.
Proof. apply bind_app. Qed.

Lemma records_others port l : ∀ fuel rest n cur,
  Forall other l → (length (encs l) ≤ n < fuel)%nat →
  ∃ fuel', (n - length (encs l) < fuel')%nat ∧
    records fuel port (Slice (encs l ++ rest) n) cur = records fuel' port (Slice rest (n - length (encs l))) cur.
Proof.
  induction l as [|r l IH]; intros fuel rest n cur Hl Hn.
  { exists fuel. cbn in *. rewrite Nat.sub_0_r. split; [lia|done]. }
  apply Forall_cons in Hl as [Hr Hl]. rewrite encs_cons, length_app in *.
  rewrite <- (assoc_L (++)).
  destruct (records_more port fuel r (encs l ++ rest) n cur cur) as (f' & Hf' & ->);
    [lia|apply record_other; [done|lia]|].
  destruct (IH f' rest (n - length (enc r))%nat cur Hl) as (f2 & Hf2 & ->); [lia|].
  exists f2. rewrite Nat.sub_add_distr. split; [lia|done].
Qed.

Definition answer (port : Z) (l : list socket) : outcome string Z :=
  match owner port l with Some pid => Ok pid | None => Err (not_found port) end.

(** The loop on the table of the sockets, followed by other records. *)
Lemma records_table port l : ∀ fuel trail spare n cur,
  Forall socket_ok l → Forall other trail →
  n = length (encs ((l ≫= socket_records) ++ trail)) → (n < fuel)%nat →
  records fuel port (Slice (encs ((l ≫= socket_records) ++ trail) ++ spare) n) cur = Some (answer port l).
Proof.
  induction l as [|s l IH]; intros fuel trail spare n cur Hl Ht Hn Hf.
  { cbn [mbind list_bind app] in *. destruct (records_others port trail fuel spare n cur Ht) as (f' & Hf' & ->); [lia|].
    rewrite Hn, Nat.sub_diag in *. destruct f'; [lia|]. done. }
  apply Forall_cons in Hl as [Hs Hl]. pose proof Hs as (_&_&_&_&_&_&_&_&Ho1&Ho2).
  set (rest := (l ≫= socket_records) ++ trail) in *.
  assert (encs (((s :: l) ≫= socket_records) ++ trail) =
    enc (xsocket s) ++ encs (so_others s) ++ enc (xinpcb s) ++ encs (in_others s) ++ encs rest) as E.
  { cbn [mbind list_bind]. unfold socket_records at 1. rewrite <- !(assoc_L (++)), <- !app_comm_cons. fold rest.
    by rewrite encs_cons, !encs_app, encs_cons, <- !(assoc_L (++)). }
  rewrite E in *. rewrite !length_app in Hn. rewrite <- !(assoc_L (++)).
  destruct (records_more port fuel (xsocket s) (encs (so_others s) ++ enc (xinpcb s) ++ encs (in_others s) ++ encs rest ++ spare) n cur (so_pid s))
    as (f1 & Hf1 & ->); [lia|apply record_socket; [done|lia]|].
  destruct (records_others port (so_others s) f1 (enc (xinpcb s) ++ encs (in_others s) ++ encs rest ++ spare)
    (n - length (enc (xsocket s)))%nat (so_pid s) Ho1) as (f2 & Hf2 & ->); [lia|].
  unfold answer, owner. cbn [find].
  pose proof (record_pcb port s (encs (in_others s) ++ encs rest ++ spare)
    (n - length (enc (xsocket s)) - length (encs (so_others s)))%nat (so_pid s) Hs ltac:(lia)) as Hpcb.
  destruct ((in_lport s =? port) && (0 <? so_pid s)).
  { destruct f2; [lia|]. cbn [records sl_len].
    rewrite (proj2 (Nat.ltb_ge _ 8)) by (rewrite (length_enc (xinpcb s)) in *; lia). by rewrite Hpcb. }
  destruct (records_more port f2 (xinpcb s) (encs (in_others s) ++ encs rest ++ spare)
    (n - length (enc (xsocket s)) - length (encs (so_others s)))%nat (so_pid s) (so_pid s))
    as (f3 & Hf3 & ->); [lia|exact Hpcb|].
  destruct (records_others port (in_others s) f3 (encs rest ++ spare)
    (n - length (enc (xsocket s)) - length (encs (so_others s)) - length (enc (xinpcb s)))%nat (so_pid s) Ho2)
    as (f4 & Hf4 & ->); [lia|].
  apply IH; [done|done|fold rest; lia|lia].
Qed.

(** The fast path agrees with the table of the kernel.  For every list of
    sockets, written as XNU's headers describe it (a self-describing header, then
    per socket a record with the process, a record with the local port and records
    of other kinds), getPidByPortSysctl returns the process of the first socket
    with that local port and a positive number, and an error when there is none. *)
Theorem getPidByPortSysctl_finds hdr_rest l trail spare port :
  (4 ≤ length hdr_rest)%nat → Z.of_nat (4 + length hdr_rest) < 2 ^ 32 →
  Forall socket_ok l → Forall other trail →
  let buf := put32le (Z.of_nat (4 + length hdr_rest)) ++ hdr_rest ++ encs ((l ≫= socket_records) ++ trail) in
  getPidByPortSysctl (Some (Slice (buf ++ spare) (length buf))) port =
    match owner port l with Some pid => Ok pid | None => Err (not_found port) end.
Proof.
  intros Hh Hh2 Hl Ht buf. unfold getPidByPortSysctl. cbn [sl_len].
  assert (length buf = (4 + length hdr_rest + length (encs ((l ≫= socket_records) ++ trail)))%nat) as Hlen.
  { unfold buf. rewrite !length_app. cbn [length put32le put32 rev app]. lia. }
  rewrite (proj2 (Nat.ltb_ge _ 4)) by lia.
  assert (buf ++ spare = [] ++ put32le (Z.of_nat (4 + length hdr_rest)) ++
    (hdr_rest ++ encs ((l ≫= socket_records) ++ trail) ++ spare)) as E.
  { unfold buf. by rewrite <- !(assoc_L (++)). }
  rewrite E at 1. rewrite u32_field_app by (done || lia). cbn [mbind outcome_bind].
  destruct (_ || _) eqn:Eg; [exfalso; apply orb_prop in Eg as [|]; boolify; lia|].
  unfold sl_from. cbn [sl_mem sl_len]. rewrite Nat2Z.id, E. cbn [app].
  rewrite (assoc_L (++)), drop_app_length' by (rewrite length_app; done).
  rewrite records_table; [done..|lia|lia].
Qed.

(** The test on the length of a record is strict: a socket record that ends with
    the process number, as in the layout written above xsocketEPidOffset, is
    passed over, and the process of an earlier socket would be reported. *)
Lemma exact_record_ignored port fill pid rest n cur :
  length fill = 116%nat → 0 ≤ pid < 2 ^ 31 → (128 ≤ n)%nat →
  record port (Slice (enc (xsoSocket, fill ++ put32le pid) ++ rest) n) cur = Ok (More (Slice rest (n - 128)) cur).
Proof.
  intros Hf Hp Hn.
  assert (length (enc (xsoSocket, fill ++ put32le pid)) = 128%nat) as Hl.
  { rewrite length_enc. cbn [snd]. by rewrite length_app, Hf. }
  rewrite record_enc, Hl; [done| |rewrite Hl; done].
  split; [unfold xsoSocket; cbn [fst]; lia|]. rewrite length_enc in Hl. rewrite Hl. lia.
Qed.

(** The cache of paths has no end of life: after the number of a process is
    reused the path of the old process is returned. *)
Lemma stale_path D pid path cache :
  cache !! pid = Some path → procPidPath D pid cache = (Ok path, cache).
Proof. intros H. unfold procPidPath. by rewrite H. Qed.

(** ** Witnesses *)

Definition ex_socket (pid port : Z) : socket :=
  mkSocket (replicate 116 (mk8 7)) pid [mk8 0] [(2, [])] (replicate 50 (mk8 9)) port [mk8 0] [(0x100, [mk8 1])].

Lemma ex_socket_ok pid port : 0 ≤ pid < 2 ^ 31 → 0 ≤ port < 2 ^ 16 → socket_ok (ex_socket pid port).
Proof.
  intros. unfold socket_ok, ex_socket, rec_ok, other. cbn [so_fill so_pid so_tail so_others in_fill in_lport in_tail in_others].
  split_and!; try (cbn; lia); try done;
    (apply Forall_cons; split; [split; [split; cbn; lia|left; done]|apply Forall_nil; exact I]).
Qed.

Lemma getPidByPortSysctl_total_witness :
  sound_result (getPidByPortSysctl (Some (Slice (bytes [255; 0; 0; 0; 1; 2; 3]) 7)) 443).
Proof. apply getPidByPortSysctl_total. intros s [= <-]. unfold sl_wf. cbn. lia. Defined.

Lemma getPidByPortSysctl_finds_witness :
  let buf := put32le 24 ++ replicate 20 (mk8 0) ++
    encs (([ex_socket 0 443; ex_socket 7 80; ex_socket 501 443] ≫= socket_records) ++ [(24, replicate 16 (mk8 0))]) in
  getPidByPortSysctl (Some (Slice (buf ++ []) (length buf))) 443 = Ok 501.
Proof.
  apply (getPidByPortSysctl_finds (replicate 20 (mk8 0)) [ex_socket 0 443; ex_socket 7 80; ex_socket 501 443]
    [(24, replicate 16 (mk8 0))] [] 443); [cbn; lia|cbn; lia| |].
  - repeat (apply Forall_cons; split; [apply ex_socket_ok; lia|]). apply Forall_nil. exact I.
  - apply Forall_cons; split; [|apply Forall_nil; exact I]. split; [split; cbn; lia|left; done].
Defined.

End DarwinProc.
