(* ===== verification/WinProc.v ===== *)
(** * Which process owns a port on Windows (src/proxy/tproxy/process_windows.go)

    GetExtendedTcpTable and GetExtendedUdpTable fill a byte buffer; the rows are
    read from it at the offsets of the C structures.  An access past the end of
    the buffer is a panic of the model, whether Go's index check or an unsafe
    read would hit it first. *)

From S2P Require Import Prelude GoStrings.

Module WinProc.

(** The size of a row and the offsets of its port and its process. *)
Record layout := mkLayout { rowSize : nat; portOff : nat; pidOff : nat }.
Definition mibTCPRowOwnerPID : layout := mkLayout 24 8 20.
Definition mibUDPRowOwnerPID : layout := mkLayout 12 4 8.

(** The answers of the table call in each attempt: the size it asks for, and for
    a buffer of a given length its return value and the contents. *)
Record table_api := mkApi { t_size : nat → Z; t_fill : nat → nat → Z * list byte }.

Definition ERROR_INSUFFICIENT_BUFFER : Z := 122.

Definition u32_in (buf : list byte) (off : nat) : outcome string Z :=
  b ← sl_sub (sl_of buf) off (off + 4); mret (le32 b).

(** [((p & 0xff) << 8) | ((p >> 8) & 0xff)] *)
Definition local_port (p : Z) : Z :=
  Z.lor (Z.shiftl (Z.land p 0xff) 8) (Z.land (Z.shiftr p 8) 0xff).

Definition not_found (what : string) (port : Z) : string :=
  "process not found for " +:+ what +:+ " port " +:+ Strconv.Itoa port.

(** The rows from number [i] on, [rest] of them. *)
Fixpoint scan_rows (L : layout) (what : string) (buf : list byte) (port : Z) (i rest : nat) : outcome string Z :=
  match rest with
  | O => Err (not_found what port)
  | S rest =>
      p ← u32_in buf (4 + i * rowSize L + portOff L);
      if local_port p =? port then u32_in buf (4 + i * rowSize L + pidOff L)
      else scan_rows L what buf port (S i) rest
  end.

(** The attempts from number [i] on, [rest] of them. *)
Fixpoint attempts (L : layout) (what : string) (T : table_api) (port : Z) (i rest : nat) : outcome string Z :=
  match rest with
  | O => Err (not_found what port)
  | S rest =>
      let size := t_size T i in
      if size =? 0 then Err (not_found what port)
      else
        let '(ret, buf) := t_fill T i (Z.to_nat (wrap32 (size + 128))) in
        if ret =? 0 then
          n ← u32_in buf 0;
          scan_rows L what buf port 0 (Z.to_nat n)
        else if negb (ret =? ERROR_INSUFFICIENT_BUFFER) then
          Err ("GetExtended" +:+ what +:+ "Table: error " +:+ Strconv.Itoa ret)
        else attempts L what T port (S i) rest
  end.

Definition getPidByTCPPort (T : table_api) (port : Z) : outcome string Z :=
  attempts mibTCPRowOwnerPID "TCP" T port 0 3.
Definition getPidByUDPPort (T : table_api) (port : Z) : outcome string Z :=
  attempts mibUDPRowOwnerPID "UDP" T port 0 3.
Definition getPidByPort (T : table_api) (port : Z) : outcome string Z := getPidByTCPPort T port.

(** The system: both tables, and the path of a process (OpenProcess followed by
    QueryFullProcessImageNameW). *)
Record winsys := mkSys { tcp_table : table_api; udp_table : table_api; image_name : Z → outcome string string }.

Definition getProcessPath (W : winsys) (pid : Z) : outcome string string := image_name W pid.

(** Path and process; on an error both are empty. *)
Definition named (W : winsys) (pid : outcome string Z) : outcome string (string * Z) :=
  p ← pid; path ← getProcessPath W p; mret (path, p).

Definition GetProcessNameByPort (W : winsys) (port : Z) : outcome string (string * Z) :=
  named W (getPidByTCPPort (tcp_table W) port).
Definition GetProcessNameByUDPPort (W : winsys) (port : Z) : outcome string (string * Z) :=
  named W (getPidByUDPPort (udp_table W) port).

Inductive any_conn := NotAddressed | TCPRemote (port : Z) | UDPRemote (port : Z) | OtherRemote.

Definition GetProcessNameByConn (W : winsys) (conn : any_conn) : outcome string (string * Z) :=
  match conn with
  | NotAddressed => Err "could not determine source port from connection"
  | TCPRemote port => GetProcessNameByPort W port
  | UDPRemote port => GetProcessNameByUDPPort W port
  | OtherRemote => Err "unsupported address type"
  end.

(** ** Tables as Windows documents them *)

(** A row: bytes up to the port, the port in network order with two bytes of
    padding, bytes up to the process, the process and the rest. *)
Record row := mkRow { r_pre : list byte; r_port : Z; r_pad : list byte; r_mid : list byte; r_pid : Z; r_post : list byte }.

Definition enc (r : row) : list byte :=
  r_pre r ++ (put16 (r_port r) ++ r_pad r) ++ r_mid r ++ put32le (r_pid r) ++ r_post r.

Definition row_ok (L : layout) (r : row) : Prop :=
  length (r_pre r) = portOff L ∧ 0 ≤ r_port r < 2 ^ 16 ∧ length (r_pad r) = 2%nat ∧
  (portOff L + 4 + length (r_mid r))%nat = pidOff L ∧ 0 ≤ r_pid r < 2 ^ 32 ∧
  (pidOff L + 4 + length (r_post r))%nat = rowSize L.

Definition owner (port : Z) (rows : list row) : option Z :=
  r_pid <$> find (λ r, r_port r =? port) rows.

Lemma length_row L r : row_ok L r → length (enc r) = rowSize L.
Proof.
  intros (H1 & _ & H3 & H4 & _ & H6). unfold enc. rewrite !length_app.
  change (length (put16 (r_port r))) with 2%nat. change (length (put32le (r_pid r))) with 4%nat. lia.
Qed.

Lemma length_encs L rows : Forall (row_ok L) rows → length (rows ≫= enc) = (length rows * rowSize L)%nat.
Proof.
  induction 1 as [|r rows Hr _ IH]; [done|]. cbn [mbind list_bind] in *.
  rewrite length_app, (length_row L), IH by done. cbn [length]. lia.
Qed.

Lemma u32_in_app pre b post off :
  off = length pre → length b = 4%nat → u32_in (pre ++ b ++ post) off = Ok (le32 b).
Proof.
  intros -> Hb. unfold u32_in, sl_of. rewrite sl_sub_app by (done || by rewrite Hb). done.
Qed.

(** The port in the low half of the little-endian word is read back. *)
Lemma local_port_le p pad : 0 ≤ p < 2 ^ 16 → length pad = 2%nat → local_port (le32 (put16 p ++ pad)) = p.
Proof.
  intros Hp Hl. destruct pad as [|c [|d [|]]]; try done. cbn [put16 app le32].
  pose proof (u8_range c). pose proof (u8_range d).
  rewrite be32_eq, !u8_mk8. rewrite Z.shiftr_div_pow2 by lia. unfold local_port.
  change 255 with (Z.ones 8). rewrite !Z.land_ones, Z.shiftr_div_pow2 by lia.
  rewrite lor_shiftl_add by (change (2 ^ 8) with 256; zlia).
  change (2 ^ 24) with 16777216. change (2 ^ 16) with 65536 in *. change (2 ^ 8) with 256. zlia.
Qed.

Lemma scan_rows_finds L what port l : ∀ pre rows buf post,
  Forall (row_ok L) rows → length l = 4%nat → Forall (row_ok L) pre →
  buf = l ++ (pre ≫= enc) ++ (rows ≫= enc) ++ post →
  scan_rows L what buf port (length pre) (length rows) =
    match owner port rows with Some pid => Ok pid | None => Err (not_found what port) end.
Proof.
  intros pre rows. revert pre. induction rows as [|r rows IH]; intros pre buf post Hr Hl Hp Hb; [done|].
  apply Forall_cons in Hr as [Hr Hrs]. pose proof Hr as (H1 & H2 & H3 & H4 & H5 & H6).
  pose proof (length_encs L pre Hp) as Hlp. cbn [mbind list_bind length scan_rows] in *.
  assert (u32_in buf (4 + length pre * rowSize L + portOff L) = Ok (le32 (put16 (r_port r) ++ r_pad r))) as ->.
  { assert (buf = (l ++ (pre ≫= enc) ++ r_pre r) ++ (put16 (r_port r) ++ r_pad r) ++
      (r_mid r ++ put32le (r_pid r) ++ r_post r ++ (rows ≫= enc) ++ post)) as ->.
    { rewrite Hb. unfold enc at 2. by rewrite <- !(assoc_L (++)). }
    apply u32_in_app; [rewrite !length_app, Hl; cbn [mbind list_bind] in *; lia|by rewrite length_app, H3]. }
  cbn [mbind outcome_bind]. rewrite local_port_le by done. unfold owner. cbn [find].
  destruct (r_port r =? port).
  - assert (buf = (l ++ (pre ≫= enc) ++ r_pre r ++ (put16 (r_port r) ++ r_pad r) ++ r_mid r) ++ put32le (r_pid r) ++
      (r_post r ++ (rows ≫= enc) ++ post)) as ->.
    { rewrite Hb. unfold enc at 2. by rewrite <- !(assoc_L (++)). }
    rewrite u32_in_app; [by rewrite le32_put32le|rewrite !length_app, Hl, H3|done].
    change (length (put16 (r_port r))) with 2%nat. cbn [mbind list_bind] in *. lia.
  - specialize (IH (pre ++ [r]) buf post Hrs Hl). rewrite length_app in IH. cbn [length] in IH.
    rewrite Nat.add_1_r in IH. apply IH; [by apply Forall_app_2, Forall_singleton|].
    rewrite Hb, bind_app. cbn [mbind list_bind]. by rewrite app_nil_r, <- !(assoc_L (++)).
Qed.

(** What a successful call leaves in the buffer: the number of rows, the rows and
    unused space. *)
Definition delivers (L : layout) (T : table_api) (i : nat) (rows : list row) : Prop :=
  t_size T i ≠ 0 ∧ Forall (row_ok L) rows ∧ Z.of_nat (length rows) < 2 ^ 32 ∧
  ∃ post, t_fill T i (Z.to_nat (wrap32 (t_size T i + 128))) =
    (0, put32le (Z.of_nat (length rows)) ++ (rows ≫= enc) ++ post).

(** A call that finds the table has outgrown the buffer. *)
Definition grown (T : table_api) (i : nat) : Prop :=
  t_size T i ≠ 0 ∧
  (t_fill T i (Z.to_nat (wrap32 (t_size T i + 128)))).1 = ERROR_INSUFFICIENT_BUFFER.

Lemma attempts_grown L what T port k : ∀ i n,
  (∀ j, (i ≤ j < i + k)%nat → grown T j) →
  attempts L what T port i (k + n) = attempts L what T port (i + k) n.
Proof.
  induction k as [|k IH]; intros i n Hg; [by rewrite Nat.add_0_r|].
  destruct (Hg i) as [Hs Hf]; [lia|]. cbn [Nat.add attempts].
  rewrite (proj2 (Z.eqb_neq _ _) Hs). destruct (t_fill _ _ _) as [ret buf]. cbn in Hf. subst ret.
  cbn [Z.eqb ERROR_INSUFFICIENT_BUFFER Pos.eqb negb]. rewrite IH by (intros; apply Hg; lia).
  f_equal. lia.
Qed.

Lemma attempts_delivers L what T port i n rows :
  delivers L T i rows →
  attempts L what T port i (S n) =
    match owner port rows with Some pid => Ok pid | None => Err (not_found what port) end.
Proof.
  intros (Hs & Hr & Hn & post & Hf). cbn [attempts]. rewrite (proj2 (Z.eqb_neq _ _) Hs), Hf. cbn [Z.eqb].
  rewrite (u32_in_app [] (put32le (Z.of_nat (length rows))) ((rows ≫= enc) ++ post) 0 eq_refl eq_refl : u32_in (_ ++ _ ++ _) _ = _). cbn [mbind outcome_bind].
  rewrite le32_put32le, Nat2Z.id by lia.
  by apply (scan_rows_finds L what port (put32le (Z.of_nat (length rows))) [] rows _ post).
Qed.

(** The owner of a port is found in spite of races with the table.  When the
    table outgrows the buffer in the first [k] of the three attempts and attempt
    [k] delivers it, the look-ups for TCP and UDP return the process of the first
    row with that port (which the system stores in network order) or an error if
    there is none; when all three attempts fail they return an error. *)
Theorem windows_port_owner T port k rows :
  (k ≤ 3)%nat → (∀ j, (j < k)%nat → grown T j) →
  (k = 3%nat →
     getPidByTCPPort T port = Err (not_found "TCP" port) ∧ getPidByUDPPort T port = Err (not_found "UDP" port)) ∧
  ((k < 3)%nat → delivers mibTCPRowOwnerPID T k rows →
     getPidByTCPPort T port =
       match owner port rows with Some pid => Ok pid | None => Err (not_found "TCP" port) end) ∧
  ((k < 3)%nat → delivers mibUDPRowOwnerPID T k rows →
     getPidByUDPPort T port =
       match owner port rows with Some pid => Ok pid | None => Err (not_found "UDP" port) end).
Proof.
  intros Hk Hg. unfold getPidByTCPPort, getPidByUDPPort.
  assert (∀ L what, attempts L what T port 0 3 = attempts L what T port k (3 - k)) as E.
  { intros L what. replace 3%nat with (k + (3 - k))%nat at 1 by lia. apply attempts_grown. intros; apply Hg; lia. }
  rewrite !E. split_and!; [intros ->; done|..]; intros H3 Hd;
    (destruct (3 - k)%nat as [|m] eqn:Em; [lia|]); by apply attempts_delivers.
Qed.

(** ** Witness *)

Definition ex_row (port pid : Z) : row := mkRow (bytes [2; 0; 0; 0; 127; 0; 0; 1]) port (bytes [9; 9]) (bytes [1; 2; 3; 4; 5; 6; 7; 8]) pid [].
Definition ex_api : table_api :=
  mkApi (λ i, Z.of_nat i * 24 + 28)
        (λ i _, if Nat.eqb i 0 then (122, [])
                else (0, put32le 2 ++ ([ex_row 443 77; ex_row 80 78] ≫= enc) ++ [])).

Lemma windows_port_owner_witness : getPidByTCPPort ex_api 80 = Ok 78.
Proof.
  destruct (windows_port_owner ex_api 80 1 [ex_row 443 77; ex_row 80 78]) as (_ & H & _).
  - lia.
  - intros j Hj. assert (j = 0%nat) as -> by lia. split; [done|reflexivity].
  - apply H; [lia|]. unfold delivers. split_and!; [done| |cbn; lia|exists []; reflexivity].
    repeat (apply Forall_cons; split; [unfold row_ok; split_and!; first [done|cbn; lia]|]). apply Forall_nil. exact I.
Defined.

End WinProc.
