(* ===== verification/Tc.v ===== *)
(** * The traffic-control filter (src/proxy/ebpf/tc_linux.go, bpf/tc_redirect.c)

    The whitelists of hardware and IPv4 addresses that the Go code fills and the
    program tc_ingress that consults them for every frame.  Keys are written and
    read in the byte order of the machine, which is a parameter: [le] is what
    isLittleEndian returns. *)

From Stdlib Require Import Btauto.
From S2P Require Import Prelude GoStrings GoNet.

Module Tc.

(** ** net.ParseMAC *)

Definition xtoi2 (h l : byte) : option byte :=
  x ← Net.hex_value h; y ← Net.hex_value l; Some (mk8 (x * 16 + y)).

(** Groups of two digits separated by [sep]. *)
Fixpoint mac_pairs (sep : byte) (s : list byte) : option (list byte) :=
  match s with
  | h :: l :: rest =>
      b ← xtoi2 h l;
      match rest with
      | [] => Some [b]
      | c :: rest => if Ascii.eqb c sep then r ← mac_pairs sep rest; Some (b :: r) else None
      end
  | _ => None
  end.

(** Groups of four digits separated by dots. *)
Fixpoint mac_quads (s : list byte) : option (list byte) :=
  match s with
  | h1 :: l1 :: h2 :: l2 :: rest =>
      b1 ← xtoi2 h1 l1; b2 ← xtoi2 h2 l2;
      match rest with
      | [] => Some [b1; b2]
      | c :: rest => if Ascii.eqb c "." then r ← mac_quads rest; Some (b1 :: b2 :: r) else None
      end
  | _ => None
  end.

Definition ParseMAC (s : string) : option (list byte) :=
  let l := to_bytes s in
  if Nat.ltb (length l) 14 then None
  else
    c2 ← l !! 2%nat; c4 ← l !! 4%nat;
    hw ← (if Ascii.eqb c2 ":" || Ascii.eqb c2 "-" then mac_pairs c2 l
          else if Ascii.eqb c4 "." then mac_quads l else None);
    if Nat.eqb (length hw) 6 || Nat.eqb (length hw) 8 || Nat.eqb (length hw) 20 then Some hw else None.

(** ** Keys *)

(** Six bytes packed into 64 bits, by AddMacToWhitelist and by mac_to_u64. *)
Definition mac_to_u64 (m : list byte) : Z :=
  match m with
  | a :: b :: c :: d :: e :: f :: _ =>
      Z.lor (Z.shiftl (u8 a) 40) (Z.lor (Z.shiftl (u8 b) 32) (Z.lor (Z.shiftl (u8 c) 24)
        (Z.lor (Z.shiftl (u8 d) 16) (Z.lor (Z.shiftl (u8 e) 8) (u8 f)))))
  | _ => 0
  end.

(** The key AddIPToWhitelist computes from the four bytes of an address. *)
Definition ip_key (le : bool) (v4 : list byte) : Z :=
  match v4 with
  | [a; b; c; d] =>
      if le then Z.lor (u8 a) (Z.lor (Z.shiftl (u8 b) 8) (Z.lor (Z.shiftl (u8 c) 16) (Z.shiftl (u8 d) 24)))
      else Z.lor (u8 d) (Z.lor (Z.shiftl (u8 c) 8) (Z.lor (Z.shiftl (u8 b) 16) (Z.shiftl (u8 a) 24)))
  | _ => 0
  end.

(** A load of four, or of two, bytes by the program. *)
Definition load32 (le : bool) (l : list byte) : Z :=
  match l with [a; b; c; d] => if le then be32 d c b a else be32 a b c d | _ => 0 end.
Definition load16 (le : bool) (l : list byte) : Z :=
  match l with [a; b] => if le then be16 b a else be16 a b | _ => 0 end.
Definition bpf_htons (le : bool) (z : Z) : Z :=
  if le then Z.lor (Z.shiftl (Z.land z 0xff) 8) (Z.shiftr z 8) else z.

(** ** The maps *)

Record whitelists := mkWl { mac_whitelist : list Z; ip_whitelist : list Z }.

(** Hash maps of bounded size; the value is always 1. *)
Definition Put {A} `{EqDecision A} (max_entries : nat) (k : A) (m : list A) : outcome string (list A) :=
  if bool_decide (k ∈ m) then Ok m
  else if Nat.ltb (length m) max_entries then Ok (k :: m)
  else Err "argument list too long".
Definition Delete {A} `{EqDecision A} (k : A) (m : list A) : outcome string (list A) :=
  if bool_decide (k ∈ m) then Ok (filter (.≠ k) m) else Err "key does not exist".

Definition mac_max : nat := 256.
Definition ip_max : nat := 1024.

Definition AddMacToWhitelist (macStr : string) (w : whitelists) : outcome string whitelists :=
  match ParseMAC macStr with
  | None => Err "invalid MAC address"
  | Some mac =>
      if negb (Nat.eqb (length mac) 6) then Err "invalid mac length"
      else m ← Put mac_max (mac_to_u64 mac) (mac_whitelist w); mret (mkWl m (ip_whitelist w))
  end.

Definition RemoveMacFromWhitelist (macStr : string) (w : whitelists) : outcome string whitelists :=
  match ParseMAC macStr with
  | None => Err "invalid MAC address"
  | Some mac => m ← Delete (mac_to_u64 mac) (mac_whitelist w); mret (mkWl m (ip_whitelist w))
  end.

(** Parsing of the address, as both functions on IP addresses begin. *)
Definition parse_v4 (ipStr : string) : outcome string (list byte) :=
  match Net.ParseIP ipStr with
  | None => Err ("invalid ip: " +:+ ipStr)
  | Some x => match Net.To4 x with None => Err ("only ipv4 supported: " +:+ ipStr) | Some v4 => Ok v4 end
  end.

Definition AddIPToWhitelist (le : bool) (ipStr : string) (w : whitelists) : outcome string whitelists :=
  v4 ← parse_v4 ipStr;
  m ← Put ip_max (ip_key le v4) (ip_whitelist w);
  mret (mkWl (mac_whitelist w) m).

Definition RemoveIPFromWhitelist (le : bool) (ipStr : string) (w : whitelists) : outcome string whitelists :=
  v4 ← parse_v4 ipStr;
  m ← Delete (ip_key le v4) (ip_whitelist w);
  mret (mkWl (mac_whitelist w) m).

(** ** The program *)

Definition ETH_P_IP : Z := 0x0800.
Definition bytes_at (pkt : list byte) (off n : nat) : list byte := take n (drop off pkt).

(** The mark of the packet after the program, which lets every packet pass.  The
    Ethernet header has 14 bytes, the IP header 20. *)
Definition tc_ingress (le : bool) (proxy_mark : Z) (w : whitelists) (pkt : list byte) (mark : Z) : Z :=
  if Nat.ltb (length pkt) 14 then mark
  else if negb (load16 le (bytes_at pkt 12 2) =? bpf_htons le ETH_P_IP) then mark
  else
    let exists_mac := bool_decide (mac_to_u64 (bytes_at pkt 6 6) ∈ mac_whitelist w) in
    let has_iph := Nat.leb 34 (length pkt) in
    let saddr := if has_iph then load32 le (bytes_at pkt 26 4) else 0 in
    let exists_ip := has_iph && bool_decide (saddr ∈ ip_whitelist w) in
    if negb (exists_mac || exists_ip) then mark
    else if negb has_iph then mark
    else if load32 le (bytes_at pkt 30 4) =? 0xFFFFFFFF then mark
    else proxy_mark.

(** ** Loading and attaching *)

Inductive tcall := LoadSpec | RewriteConstants | LoadAndAssign | LinkByName (dev : string) | QdiscAdd (dev : string) | FilterReplace (dev : string).
Class TcEnv := tc_fails : list tcall → tcall → bool.

(** The objects of a load: their number, the mark and the whitelists. *)
Record tcobj := mkObj { o_id : nat; o_mark : Z; o_lists : whitelists }.

(** [tcObjs], the objects whose descriptors are open, and the filter of each
    interface, which keeps its program alive. *)
Record tc := mkTc { tcObjs : option tcobj; opened : list nat; filters : list (string * nat); loads : nat; tcalls : list tcall }.
Abbreviation tcm := (stm tc string).

Definition with_objs (o : option tcobj) (s : tc) : tc := mkTc o (opened s) (filters s) (loads s) (tcalls s).

Section TcEnv.
Context {E : TcEnv}.

Definition sys (c : tcall) (msg : string) (f : tc → tc) : tcm unit := λ s,
  let s' := mkTc (tcObjs s) (opened s) (filters s) (loads s) (tcalls s ++ [c]) in
  if tc_fails (tcalls s) c then (Err msg, s') else (Ok tt, f s').

Definition load_objs (mark : Z) (s : tc) : tc :=
  mkTc (Some (mkObj (loads s) mark (mkWl [] []))) (loads s :: opened s) (filters s) (S (loads s)) (tcalls s).

Definition replace_filter (dev : string) (s : tc) : tc :=
  match tcObjs s with
  | None => s
  | Some o => mkTc (tcObjs s) (opened s) ((dev, o_id o) :: filter (λ f, f.1 ≠ dev) (filters s)) (loads s) (tcalls s)
  end.

Definition SetupTC (dev : string) (proxyMark : Z) (verbose : bool) : tcm unit :=
  sys LoadSpec "loading tc spec" id ;;
  sys RewriteConstants "rewriting constants" id ;;
  sys LoadAndAssign "loading tc objects" (load_objs (wrap32 proxyMark)) ;;
  sys (LinkByName dev) ("finding link " +:+ dev) id ;;
  try_ (sys (QdiscAdd dev) "" id) ;;
  sys (FilterReplace dev) "replacing tc filter" (replace_filter dev).

End TcEnv.

(** [tcObjs.Close()]: the descriptors are closed, the filters stay. *)
Definition CloseTC (s : tc) : tc :=
  match tcObjs s with
  | None => s
  | Some o => mkTc (tcObjs s) (filter (.≠ o_id o) (opened s)) (filters s) (loads s) (tcalls s)
  end.

(** ** The whitelists as lists of addresses *)

Inductive op := AddMac (s : string) | RemoveMac (s : string) | AddIP (s : string) | RemoveIP (s : string).

Definition apply_op (le : bool) (o : op) : whitelists → outcome string whitelists :=
  match o with
  | AddMac s => AddMacToWhitelist s
  | RemoveMac s => RemoveMacFromWhitelist s
  | AddIP s => AddIPToWhitelist le s
  | RemoveIP s => RemoveIPFromWhitelist le s
  end.

(** A call that fails changes nothing. *)
Definition or_same {A} (o : outcome string A) (a : A) : A := match o with Ok a => a | _ => a end.
Definition run (le : bool) (ops : list op) : whitelists :=
  foldl (λ w o, or_same (apply_op le o w) w) (mkWl [] []) ops.

(** The specification keeps the addresses themselves. *)
Record spec := mkSpec { macs : list (list byte); ips : list (list byte) }.

Definition spec_op (a : spec) (o : op) : spec :=
  match o with
  | AddMac s =>
      match ParseMAC s with
      | Some m => if Nat.eqb (length m) 6 then mkSpec (or_same (Put mac_max m (macs a)) (macs a)) (ips a) else a
      | None => a
      end
  | RemoveMac s =>
      match ParseMAC s with
      | Some m => mkSpec (or_same (Delete m (macs a)) (macs a)) (ips a)
      | None => a
      end
  | AddIP s =>
      match parse_v4 s with Ok v4 => mkSpec (macs a) (or_same (Put ip_max v4 (ips a)) (ips a)) | _ => a end
  | RemoveIP s =>
      match parse_v4 s with Ok v4 => mkSpec (macs a) (or_same (Delete v4 (ips a)) (ips a)) | _ => a end
  end.
Definition spec_run (ops : list op) : spec := foldl spec_op (mkSpec [] []) ops.

(** Hardware addresses that are removed are Ethernet addresses (net.ParseMAC also reads
    addresses of 8 and of 20 bytes). *)
Definition ethernet (o : op) : Prop :=
  match o with RemoveMac s => ∀ m, ParseMAC s = Some m → length m = 6%nat | _ => True end.

(** A frame the filter has to mark. *)
Definition selected (a : spec) (pkt : list byte) : Prop :=
  ∃ dst src iph, pkt = dst ++ src ++ bytes [8; 0] ++ iph ∧ length dst = 6%nat ∧ length src = 6%nat ∧
    (20 ≤ length iph)%nat ∧ (src ∈ macs a ∨ bytes_at iph 12 4 ∈ ips a) ∧
    bytes_at iph 16 4 ≠ bytes [255; 255; 255; 255].

(** ** Keys are faithful *)

Lemma mac_to_u64_eq a b c d e f r :
  mac_to_u64 (a :: b :: c :: d :: e :: f :: r) =
    u8 a * 2 ^ 40 + (u8 b * 2 ^ 32 + (u8 c * 2 ^ 24 + (u8 d * 2 ^ 16 + (u8 e * 2 ^ 8 + u8 f)))).
Proof.
  pose proof (u8_range a). pose proof (u8_range b). pose proof (u8_range c).
  pose proof (u8_range d). pose proof (u8_range e). pose proof (u8_range f).
  cbn [mac_to_u64]. rewrite (lor_shiftl_add (u8 e) (u8 f) 8) by lia.
  rewrite (lor_shiftl_add (u8 d) _ 16) by lia. rewrite (lor_shiftl_add (u8 c) _ 24) by lia.
  rewrite (lor_shiftl_add (u8 b) _ 32) by lia. by rewrite (lor_shiftl_add (u8 a) _ 40) by lia.
Qed.

Lemma u8_inj a b : u8 a = u8 b → a = b.
Proof. apply (inj u8). Qed.

Lemma digit_split k a r a' r' : 0 ≤ r < k → 0 ≤ r' < k → a * k + r = a' * k + r' → a = a' ∧ r = r'.
Proof. intros Hr Hr' H. rewrite !(Z.mul_comm _ k) in H. by apply Z.div_mod_unique in H; [|lia..]. Qed.

Lemma mac_to_u64_inj x y :
  length x = 6%nat → length y = 6%nat → mac_to_u64 x = mac_to_u64 y → x = y.
Proof.
  intros Hx Hy. destruct x as [|a [|b [|c [|d [|e [|f [|]]]]]]]; try done.
  destruct y as [|a' [|b' [|c' [|d' [|e' [|f' [|]]]]]]]; try done.
  rewrite !mac_to_u64_eq. intros H.
  pose proof (u8_range b). pose proof (u8_range c). pose proof (u8_range d). pose proof (u8_range e). pose proof (u8_range f).
  pose proof (u8_range b'). pose proof (u8_range c'). pose proof (u8_range d'). pose proof (u8_range e'). pose proof (u8_range f').
  apply digit_split in H as [Ha H]; [|lia..]. apply digit_split in H as [Hb H]; [|lia..].
  apply digit_split in H as [Hc H]; [|lia..]. apply digit_split in H as [Hd H]; [|lia..].
  apply digit_split in H as [He H]; [|lia..]. repeat f_equal; by apply u8_inj.
Qed.

Lemma load32_inj le x y :
  length x = 4%nat → length y = 4%nat → load32 le x = load32 le y → x = y.
Proof.
  intros Hx Hy. destruct x as [|a [|b [|c [|d [|]]]]]; try done.
  destruct y as [|a' [|b' [|c' [|d' [|]]]]]; try done. cbn [load32].
  destruct le; intros H; apply (f_equal put32) in H; rewrite !put32_be32 in H; by simplify_eq.
Qed.

(** The shifts of the Go code give what the program loads. *)
Lemma ip_key_load le v4 : length v4 = 4%nat → ip_key le v4 = load32 le v4.
Proof.
  intros H. destruct v4 as [|a [|b [|c [|d [|]]]]]; try done. cbn [ip_key load32].
  destruct le; unfold be32; apply Z.bits_inj'; intros n _; rewrite !Z.lor_spec; btauto.
Qed.

(** ** The maps implement the lists of addresses *)

Section Keys.
Context {A : Type} `{EqDecision A} (f : A → Z) (P : A → Prop).
Hypothesis f_inj : ∀ x y, P x → P y → f x = f y → x = y.

Lemma elem_key x l : P x → Forall P l → f x ∈ f <$> l ↔ x ∈ l.
Proof.
  intros Hx Hl. rewrite list_elem_of_fmap. split; [|by eauto].
  intros (y & Hy & Hin). rewrite Forall_forall in Hl. by rewrite (f_inj x y Hx (Hl y Hin) Hy).
Qed.

Lemma Put_key n x l : P x → Forall P l →
  or_same (Put n (f x) (f <$> l)) (f <$> l) = f <$> or_same (Put n x l) l ∧ Forall P (or_same (Put n x l) l).
Proof.
  intros Hx Hl. unfold Put. rewrite (bool_decide_ext _ _ (elem_key x l Hx Hl)), length_fmap.
  destruct (bool_decide _); [done|]. destruct (Nat.ltb _ _); [|done]. cbn. by split; [|apply Forall_cons].
Qed.

Lemma Delete_key x l : P x → Forall P l →
  or_same (Delete (f x) (f <$> l)) (f <$> l) = f <$> or_same (Delete x l) l ∧ Forall P (or_same (Delete x l) l).
Proof.
  intros Hx Hl. unfold Delete. rewrite (bool_decide_ext _ _ (elem_key x l Hx Hl)).
  destruct (bool_decide _); [|done]. cbn [or_same]. split; [|rewrite Forall_forall in Hl |- *; intros y [_ Hy]%list_elem_of_filter; by apply Hl].
  induction Hl as [|y l Hy Hl IH]; [done|]. cbn [fmap list_fmap]. rewrite !filter_cons.
  destruct (decide (f y ≠ f x)) as [Hf|Hf], (decide (y ≠ x)) as [Hn|Hn].
  - cbn. by rewrite <- IH.
  - exfalso. apply Hn. intros ->. by apply Hf.
  - exfalso. apply Hf. intros He. apply Hn. by apply f_inj.
  - done.
Qed.
End Keys.

Definition len (n : nat) (l : list byte) : Prop := length l = n.

(** The maps hold the keys of the addresses of the specification. *)
Definition refines (le : bool) (a : spec) (w : whitelists) : Prop :=
  mac_whitelist w = mac_to_u64 <$> macs a ∧ Forall (len 6) (macs a) ∧
  ip_whitelist w = load32 le <$> ips a ∧ Forall (len 4) (ips a).

Lemma parse_v4_length s v : parse_v4 s = Ok v → length v = 4%nat.
Proof. unfold parse_v4. intros H. crush_match. by eapply Net.To4_length. Qed.

Lemma or_same_bind {A B} (o : outcome string A) (f : A → B) a b :
  b = f a → or_same (x ← o; mret (f x)) b = f (or_same o a).
Proof. intros ->. by destruct o. Qed.

Lemma op_refines le o a w : ethernet o → refines le a w → refines le (spec_op a o) (or_same (apply_op le o w) w).
Proof.
  destruct a as [ms il], w as [wm wi]. intros He (Hm & Hml & Hi & Hil). cbn in Hm, Hml, Hi, Hil. subst.
  destruct o as [s|s|s|s]; cbn [apply_op spec_op]; unfold AddMacToWhitelist, RemoveMacFromWhitelist, AddIPToWhitelist, RemoveIPFromWhitelist.
  - destruct (ParseMAC s) as [m|]; [|by split_and!]. destruct (Nat.eqb (length m) 6) eqn:E6; [|by split_and!].
    boolify. cbn [negb mac_whitelist ip_whitelist macs ips].
    rewrite (or_same_bind _ (λ x, mkWl x _) (mac_to_u64 <$> ms)) by done.
    destruct (Put_key mac_to_u64 (len 6) mac_to_u64_inj mac_max m ms E6 Hml) as [-> ?]. by split_and!.
  - cbn [ethernet] in He. destruct (ParseMAC s) as [m|]; [|by split_and!]. specialize (He m eq_refl).
    cbn [mac_whitelist ip_whitelist macs ips]. rewrite (or_same_bind _ (λ x, mkWl x _) (mac_to_u64 <$> ms)) by done.
    destruct (Delete_key mac_to_u64 (len 6) mac_to_u64_inj m ms) as [-> ?]; [done|done|by split_and!].
  - destruct (parse_v4 s) as [v| |] eqn:Ev; [|by split_and!..]. apply parse_v4_length in Ev.
    cbn [mbind outcome_bind mac_whitelist ip_whitelist macs ips]. rewrite ip_key_load by done.
    rewrite (or_same_bind _ (λ x, mkWl _ x) (load32 le <$> il)) by done.
    destruct (Put_key (load32 le) (len 4) (load32_inj le) ip_max v il Ev Hil) as [-> ?]. by split_and!.
  - destruct (parse_v4 s) as [v| |] eqn:Ev; [|by split_and!..]. apply parse_v4_length in Ev.
    cbn [mbind outcome_bind mac_whitelist ip_whitelist macs ips]. rewrite ip_key_load by done.
    rewrite (or_same_bind _ (λ x, mkWl _ x) (load32 le <$> il)) by done.
    destruct (Delete_key (load32 le) (len 4) (load32_inj le) v il Ev Hil) as [-> ?]. by split_and!.
Qed.

Lemma run_refines le ops : Forall ethernet ops → refines le (spec_run ops) (run le ops).
Proof.
  unfold spec_run, run. intros He. assert (refines le (mkSpec [] []) (mkWl [] [])) as H by by split_and!.
  revert H. generalize (mkSpec [] []), (mkWl [] []).
  induction He as [|o ops Ho _ IH]; intros a w H; [done|]. cbn. apply IH. by apply op_refines.
Qed.

(** ** The frames that are marked *)

Lemma length_bytes_at pkt off n : (off + n ≤ length pkt)%nat → length (bytes_at pkt off n) = n.
Proof. intros. unfold bytes_at. rewrite length_take, length_drop. lia. Qed.

Lemma bytes_at_app pre pkt off n : bytes_at (pre ++ pkt) (length pre + off) n = bytes_at pkt off n.
Proof. unfold bytes_at. by rewrite <- drop_drop, drop_app_length. Qed.

Lemma selected_offsets a pkt :
  selected a pkt ↔ (34 ≤ length pkt)%nat ∧ bytes_at pkt 12 2 = bytes [8; 0] ∧
    (bytes_at pkt 6 6 ∈ macs a ∨ bytes_at pkt 26 4 ∈ ips a) ∧ bytes_at pkt 30 4 ≠ bytes [255; 255; 255; 255].
Proof.
  split.
  - intros (dst & src & iph & -> & Hd & Hs & Hi & Hw & Hb).
    assert (∀ off n, bytes_at (dst ++ src ++ bytes [8; 0] ++ iph) (6 + off) n = bytes_at (src ++ bytes [8; 0] ++ iph) off n) as E1
      by (intros; rewrite <- Hd; apply bytes_at_app).
    assert (∀ off n, bytes_at (src ++ bytes [8; 0] ++ iph) (6 + off) n = bytes_at (bytes [8; 0] ++ iph) off n) as E2
      by (intros; rewrite <- Hs; apply bytes_at_app).
    split_and!.
    + rewrite !length_app. cbn [length bytes fmap list_fmap]. lia.
    + exact (eq_trans (E1 6%nat 2%nat) (E2 0%nat 2%nat)).
    + destruct Hw as [Hw|Hw]; [left|right].
      * refine (eq_ind_r (.∈ macs a) _ (E1 0%nat 6%nat)). unfold bytes_at. by rewrite drop_0, take_app_length' by done.
      * exact (eq_ind_r (.∈ ips a) Hw (eq_trans (E1 20%nat 4%nat) (E2 14%nat 4%nat))).
    + exact (eq_ind_r (.≠ bytes [255; 255; 255; 255]) Hb (eq_trans (E1 24%nat 4%nat) (E2 18%nat 4%nat))).
  - intros (Hl & Hp & Hw & Hb). exists (take 6 pkt), (bytes_at pkt 6 6), (drop 14 pkt). split_and!.
    + rewrite <- Hp. unfold bytes_at. rewrite <- (take_drop 6 pkt) at 1. f_equal.
      rewrite <- (take_drop 6 (drop 6 pkt)) at 1. f_equal. rewrite drop_drop.
      rewrite <- (take_drop 2 (drop (6 + 6) pkt)) at 1. f_equal. by rewrite drop_drop.
    + rewrite length_take. lia.
    + apply length_bytes_at. lia.
    + rewrite length_drop. lia.
    + unfold bytes_at at 2. rewrite drop_drop. exact Hw.
    + unfold bytes_at at 1. rewrite drop_drop. exact Hb.
Qed.

Lemma load16_ip le x : length x = 2%nat → (load16 le x =? bpf_htons le ETH_P_IP) = bool_decide (x = bytes [8; 0]).
Proof.
  intros H. destruct x as [|a [|b [|]]]; try done.
  pose proof (u8_range a). pose proof (u8_range b).
  assert (a = mk8 8 ∧ b = mk8 0 ↔ u8 a = 8 ∧ u8 b = 0) as Hab.
  { split; [by intros [-> ->]|]. intros [Ha Hb]. split; apply u8_inj; by rewrite u8_mk8_small. }
  assert ([a; b] = bytes [8; 0] ↔ u8 a = 8 ∧ u8 b = 0) as Hl.
  { rewrite <- Hab. cbn. split; [by intros [= -> ->]|by intros [-> ->]]. }
  rewrite (bool_decide_ext _ _ Hl). destruct le; cbn [load16];
    [change (bpf_htons true ETH_P_IP) with 8|change (bpf_htons false ETH_P_IP) with 2048]; rewrite be16_eq;
    (match goal with |- (?x =? ?y) = _ => destruct (Z.eqb_spec x y) as [E|E] end; symmetry; [apply bool_decide_eq_true_2|apply bool_decide_eq_false_2]); lia.
Qed.

Lemma load32_ones le x : length x = 4%nat → (load32 le x =? 0xFFFFFFFF) = bool_decide (x = bytes [255; 255; 255; 255]).
Proof.
  intros H. assert (0xFFFFFFFF = load32 le (bytes [255; 255; 255; 255])) as -> by by destruct le.
  destruct (Z.eqb_spec (load32 le x) (load32 le (bytes [255; 255; 255; 255]))) as [E|E]; symmetry.
  - apply bool_decide_eq_true_2. by apply (load32_inj le).
  - apply bool_decide_eq_false_2. by intros ->.
Qed.

(** C10. The filter marks exactly the frames of whitelisted senders.  After any
    sequence of additions and removals of hardware and IPv4 addresses (given as
    text, some of them malformed, some beyond the capacity of the maps; a hardware
    address that is removed being one of six bytes, see [remove_eui64_removes_mac]),
    on a machine of either byte order, tc_ingress sets the mark on an IPv4 frame if
    its source hardware address or its source IP address was added and not removed
    since, unless its destination is 255.255.255.255, and leaves every other frame as
    it is.  Multicast and directed broadcasts are marked like any other frame, although
    the comment of the program says that they are excluded ([multicast_marked]). *)
Theorem tc_marks_whitelisted le proxy_mark ops pkt mark :
  Forall ethernet ops →
  (selected (spec_run ops) pkt → tc_ingress le proxy_mark (run le ops) pkt mark = proxy_mark) ∧
  (¬ selected (spec_run ops) pkt → tc_ingress le proxy_mark (run le ops) pkt mark = mark).
Proof.
  intros He. destruct (run_refines le ops He) as (Hm & Hml & Hi & Hil).
  rewrite selected_offsets. unfold tc_ingress. rewrite Hm, Hi.
  destruct (Nat.ltb_spec (length pkt) 14); [by split; [lia|]|].
  rewrite load16_ip by (apply length_bytes_at; lia).
  destruct (bool_decide (bytes_at pkt 12 2 = _)) eqn:Ep; boolify; cbn [negb]; [|by split; [tauto|]].
  assert (len 6 (bytes_at pkt 6 6)) as Hs by (apply length_bytes_at; lia).
  rewrite (bool_decide_ext _ _ (elem_key mac_to_u64 (len 6) mac_to_u64_inj _ _ Hs Hml)).
  destruct (Nat.leb_spec 34 (length pkt)) as [H34|H34]; cbn [andb negb].
  - assert (len 4 (bytes_at pkt 26 4)) as Ha by (apply length_bytes_at; lia).
    rewrite (bool_decide_ext _ _ (elem_key (load32 le) (len 4) (load32_inj le) _ _ Ha Hil)).
    rewrite load32_ones by (apply length_bytes_at; lia).
    destruct (bool_decide (bytes_at pkt 6 6 ∈ _)) eqn:E1, (bool_decide (bytes_at pkt 26 4 ∈ _)) eqn:E2,
      (bool_decide (bytes_at pkt 30 4 = _)) eqn:E3; boolify; cbn [orb negb]; split; tauto.
  - destruct (negb _); split; lia.
Qed.

(** A hardware address of eight bytes is accepted by RemoveMacFromWhitelist, which
    deletes the entry of another device whose address is its prefix. *)
Lemma remove_eui64_removes_mac :
  mac_whitelist (run true [AddMac "02:00:5e:10:00:01"]) ≠ [] ∧
  mac_whitelist (run true [AddMac "02:00:5e:10:00:01"; RemoveMac "02:00:5e:10:00:01:aa:bb"]) = [].
Proof. by vm_compute. Qed.

(** A frame to 224.0.0.251 from a whitelisted sender is marked. *)
Lemma multicast_marked :
  tc_ingress true 7 (run true [AddIP "192.168.1.9"])
    (bytes [1; 0; 94; 0; 0; 251; 2; 0; 94; 16; 0; 1; 8; 0] ++ replicate 12 (mk8 0) ++ bytes [192; 168; 1; 9; 224; 0; 0; 251]) 0 = 7.
Proof. by vm_compute. Qed.

(** The filter outlives CloseTC, and a second SetupTC starts with empty whitelists
    and leaves the objects of the first open. *)
Lemma second_setup_forgets :
  let E : TcEnv := λ _ _, false in
  let add (s : tc) := match tcObjs s with
    | Some o => with_objs (Some (mkObj (o_id o) (o_mark o) (or_same (AddIPToWhitelist true "10.0.0.9" (o_lists o)) (o_lists o)))) s
    | None => s end in
  let s := add (SetupTC "eth0" 1 false (mkTc None [] [] 0 [])).2 in
  let s2 := (SetupTC "eth0" 1 false s).2 in
  (ip_whitelist ∘ o_lists <$> tcObjs s = Some [0x0900000A]) ∧
  (ip_whitelist ∘ o_lists <$> tcObjs s2 = Some []) ∧ opened s2 = [1; 0]%nat ∧
  filters (CloseTC s2) = [("eth0", 1%nat)].
Proof. vm_compute. done. Qed.

(** ** Witness *)

Definition ex_frame : list byte :=
  bytes [1; 2; 3; 4; 5; 6] ++ bytes [2; 0; 94; 16; 0; 1] ++ bytes [8; 0] ++
  (replicate 12 (mk8 0) ++ bytes [192; 168; 1; 9; 1; 1; 1; 1]).

Lemma tc_marks_whitelisted_witness :
  tc_ingress false 7 (run false [AddIP "192.168.1.9"; AddMac "bad"; RemoveMac "02-00-5E-10-00-01"]) ex_frame 0 = 7.
Proof.
  apply (tc_marks_whitelisted false 7 [AddIP "192.168.1.9"; AddMac "bad"; RemoveMac "02-00-5E-10-00-01"] ex_frame 0).
  { rewrite !Forall_cons, Forall_nil. split_and!; try done. intros m H. vm_compute in H. by injection H as <-. }
  exists (bytes [1; 2; 3; 4; 5; 6]), (bytes [2; 0; 94; 16; 0; 1]), (replicate 12 (mk8 0) ++ bytes [192; 168; 1; 9; 1; 1; 1; 1]).
  split_and!; [reflexivity|reflexivity|reflexivity|cbn; lia| |vm_compute; discriminate].
  right. vm_compute. left.
Defined.

End Tc.
