(* ===== verification/Mitm.v ===== *)
(** * Certificates for interception (src/internal/mitm/mitm.go)

    The root certificate is loaded from /tmp or generated once; certificates for
    hosts are signed with it and cached.  Keys and certificates are symbolic: a
    key is a number, a certificate records the key it certifies and the key that
    signed it.  Random numbers, the clock and which calls fail are given by the
    environment; each call of the source is one step of the model's monad.

    GetCertificateForHost takes no lock and runs in the goroutines of connections:
    [get_step] cuts it at its accesses of the shared variables (the load from the
    cache, the once-guarded EnsureCA, the signing with caCert, the store), and
    [g_step] interleaves any number of such calls. *)

From S2P Require Import Prelude GoStrings GoNet.

Module Mitm.

(** ** Symbolic x509 *)

(** The pool of keys has RSA keys and, in files written by others, keys of other
    kinds. *)
Inductive key := RSA (n : Z) | OtherKey (n : Z).
#[global] Instance key_eq : EqDecision key.
Proof. solve_decision. Defined.

Record template := mkTemplate {
  SerialNumber : Z; Subject : string; NotBefore : Z; NotAfter : Z; IsCA : bool; DNSNames : list string
}.

#[global] Instance template_eq : EqDecision template.
Proof. solve_decision. Defined.

(** A certificate: the template, the name of the issuer, the key it is for and
    the key that signed it. *)
Record x509 := mkX509 { fields : template; Issuer : string; PublicKey : key; SignedBy : key }.
#[global] Instance x509_eq : EqDecision x509.
Proof. solve_decision. Defined.

(** [tls.Certificate]: certificate and private key. *)
Record Certificate := mkCert { Leaf : x509; PrivateKey : key }.

Definition CreateCertificate (t : template) (parent : string) (pub priv : key) : x509 := mkX509 t parent pub priv.

(** [tls.X509KeyPair] refuses a key that does not belong to the certificate. *)
Definition X509KeyPair (c : x509) (k : key) : outcome string Certificate :=
  if decide (PublicKey c = k) then Ok (mkCert c k) else Err "tls: private key does not match public key".

(** ** State and environment *)

(** The two files of the root certificate; a file may hold something else. *)
Inductive content {A} := Pem (a : A) | Junk.
Arguments content : clear implicits.

Inductive call := GenKey | GenSerial | SignCert | MarshalKey | WriteCert | WriteKey.

Record mitm := mkMitm {
  caCert : option Certificate; certCache : gmap string Certificate;
  initDone : bool; initErr : option string;
  crt_file : option (content x509); key_file : option (content key);
  keys : Z; calls : list call
}.

Class CryptoEnv := {
  fails : list call → call → bool;
  random : list call → Z;            (* below 2^128 *)
  now : list call → Z;
  add_years : Z → Z → Z
}.

Abbreviation mm := (stm mitm string).

Definition set_ca (c : Certificate) (s : mitm) : mitm :=
  mkMitm (Some c) (certCache s) (initDone s) (initErr s) (crt_file s) (key_file s) (keys s) (calls s).
Definition set_cache (m : gmap string Certificate) (s : mitm) : mitm :=
  mkMitm (caCert s) m (initDone s) (initErr s) (crt_file s) (key_file s) (keys s) (calls s).
Definition set_init (e : option string) (s : mitm) : mitm :=
  mkMitm (caCert s) (certCache s) true e (crt_file s) (key_file s) (keys s) (calls s).
Definition set_crt (c : x509) (s : mitm) : mitm :=
  mkMitm (caCert s) (certCache s) (initDone s) (initErr s) (Some (Pem c)) (key_file s) (keys s) (calls s).
Definition set_key (k : key) (s : mitm) : mitm :=
  mkMitm (caCert s) (certCache s) (initDone s) (initErr s) (crt_file s) (Some (Pem k)) (keys s) (calls s).
Definition set_keys (n : Z) (s : mitm) : mitm :=
  mkMitm (caCert s) (certCache s) (initDone s) (initErr s) (crt_file s) (key_file s) n (calls s).
Definition called (c : call) (s : mitm) : mitm :=
  mkMitm (caCert s) (certCache s) (initDone s) (initErr s) (crt_file s) (key_file s) (keys s) (calls s ++ [c]).

Definition modify (f : mitm → mitm) : mm unit := λ s, (Ok tt, f s).

Definition day : Z := 86400000000000.

Section CryptoEnv.
Context {E : CryptoEnv}.

(** A call that may fail, with its effect and its result. *)
Definition sys {A} (c : call) (msg : string) (f : mitm → mitm) (r : mitm → A) : mm A := λ s,
  if fails (calls s) c then (Err msg, called c s) else (Ok (r s), called c (f s)).

(** [rsa.GenerateKey]: a new key. *)
Definition GenerateKey (msg : string) : mm key :=
  sys GenKey msg (λ s, set_keys (keys s + 1) s) (λ s, RSA (keys s)).
Definition serialNumber (msg : string) : mm Z := sys GenSerial msg id (λ s, random (calls s)).
Definition clock : mm Z := s ← get_st; mret (now (calls s)).

(** [tls.LoadX509KeyPair] after the two calls of [os.Stat]. *)
Definition load_pair (s : mitm) : option Certificate :=
  match crt_file s, key_file s with
  | Some (Pem c), Some (Pem k) => match X509KeyPair c k with Ok p => Some p | _ => None end
  | _, _ => None
  end.

Definition ca_template (serial t : Z) : template :=
  mkTemplate serial "VProxy Root CA for Deep Tracing" (t - day) (add_years t 10) true [].

(** The part that generates a new root certificate. *)
Definition generateCA : mm unit :=
  priv ← GenerateKey "failed to generate CA private key";
  serial ← serialNumber "failed to generate CA serial number";
  t ← clock;
  let template := ca_template serial t in
  der ← sys SignCert "failed to create CA certificate" id (λ _, CreateCertificate template (Subject template) priv priv);
  _ ← sys MarshalKey "failed to marshal CA private key" id (λ _, tt);
  _ ← sys WriteCert "failed to write CA certificate" (set_crt der) (λ _, tt);
  _ ← sys WriteKey "failed to write CA key" (set_key priv) (λ _, tt);
  cert ← lift (X509KeyPair der priv);
  modify (set_ca cert).

Definition loadOrGenerateCA : mm unit :=
  s ← get_st;
  match load_pair s with
  | Some p => modify (set_ca p)
  | None => generateCA
  end.

(** [initOnce.Do] runs the function once and keeps its error. *)
Definition EnsureCA : mm unit :=
  s ← get_st;
  _ ← (if initDone s then mret tt
       else r ← try_ loadOrGenerateCA;
            modify (set_init (match r with Err e => Some e | _ => None end)));
  s ← get_st;
  match initErr s with Some e => throw e | None => mret tt end.

Definition leaf_template (host : string) (serial t : Z) : template :=
  mkTemplate serial host (t - day) (add_years t 1) false [host].

(** The name without a port. *)
Definition host_of (host : string) : string :=
  match Net.SplitHostPort host with Some (h, _) => h | None => host end.

(** The part that signs a certificate. *)
Definition sign_leaf (host : string) : mm Certificate :=
  priv ← GenerateKey ("failed to generate key for " +:+ host);
  serial ← serialNumber ("failed to generate serial number for " +:+ host);
  t ← clock;
  s ← get_st;
  match caCert s with
  | None => crash                                   (* caCert.Certificate[0] *)
  | Some ca =>
      match PrivateKey ca with
      | OtherKey _ => throw "invalid CA private key type in memory"
      | RSA _ as caKey =>
          der ← sys SignCert ("failed to sign certificate for " +:+ host) id
                  (λ _, CreateCertificate (leaf_template host serial t) (Subject (fields (Leaf ca))) priv caKey);
          _ ← sys MarshalKey ("failed to marshal key for " +:+ host) id (λ _, tt);
          lift (X509KeyPair der priv)
      end
  end.

(** [certCache.Store] *)
Definition store (host : string) (cert : Certificate) (s : mitm) : mitm :=
  set_cache (<[host := cert]> (certCache s)) s.

Definition GetCertificateForHost (host : string) : mm Certificate :=
  let host := host_of host in
  s ← get_st;
  match certCache s !! host with
  | Some c => mret c
  | None =>
      EnsureCA ;;
      cert ← sign_leaf host;
      modify (store host cert) ;;
      mret cert
  end.

(** ** Overlapping calls *)

(** Where a call is: before the load from the cache, before EnsureCA, before the
    signing, before the store, returned.  From the load on the name has no port. *)
Inductive gpc :=
  | GLook (host : string) | GEnsure (host : string) | GSign (host : string)
  | GStore (host : string) (cert : Certificate) | GDone (host : string) (r : outcome string Certificate).

Definition get_step (pc : gpc) (s : mitm) : gpc * mitm :=
  match pc with
  | GLook host =>
      let host := host_of host in
      match certCache s !! host with Some c => (GDone host (Ok c), s) | None => (GEnsure host, s) end
  | GEnsure host =>
      match EnsureCA s with
      | (Ok _, s) => (GSign host, s)
      | (Err e, s) => (GDone host (Err e), s)
      | (Panic, s) => (GDone host Panic, s)
      end
  | GSign host =>
      match sign_leaf host s with
      | (Ok cert, s) => (GStore host cert, s)
      | (Err e, s) => (GDone host (Err e), s)
      | (Panic, s) => (GDone host Panic, s)
      end
  | GStore host cert => (GDone host (Ok cert), store host cert s)
  | GDone _ _ => (pc, s)
  end.

(** The process: its variables and the calls that were made. *)
Record gsys := mkG { gst : mitm; gpcs : list gpc }.

Definition write_files (c : option (content x509)) (k : option (content key)) (s : mitm) : mitm :=
  mkMitm (caCert s) (certCache s) (initDone s) (initErr s) c k (keys s) (calls s).

(** A call begins or goes on, EnsureCA is called by itself, other programs write the
    two files. *)
Inductive g_step : gsys → gsys → Prop :=
  | g_call s host : g_step s (mkG (gst s) (gpcs s ++ [GLook host]))
  | g_go s i pc pc' st' : gpcs s !! i = Some pc → get_step pc (gst s) = (pc', st') →
      g_step s (mkG st' (<[i := pc']> (gpcs s)))
  | g_ensure s : g_step s (mkG (EnsureCA (gst s)).2 (gpcs s))
  | g_files s c k : g_step s (mkG (write_files c k (gst s)) (gpcs s)).

Definition fresh : mitm := mkMitm None ∅ false None None None 0 [].

(** A call that nothing overlaps takes at most four steps. *)
Lemma get_step_alone host s :
  let r := GetCertificateForHost host s in
  let step x := get_step x.1 x.2 in
  step (step (step (step (GLook host, s)))) = (GDone (host_of host) r.1, r.2).
Proof.
  unfold GetCertificateForHost. cbn zeta. change ((get_st ≫= ?f) s) with (f s s). cbn beta. cbn [get_step fst snd].
  destruct (certCache s !! host_of host) as [c|]; [done|]. cbn [get_step fst snd]. unfold mbind, stm_bind.
  destruct (EnsureCA s) as [[[]|e|] s1]; [|done..]. cbn [get_step fst snd].
  by destruct (sign_leaf (host_of host) s1) as [[c|e|] s2].
Qed.

(** ** Every certificate in the cache is genuine *)

(** A certificate for a host, signed by the root certificate and usable. *)
Definition genuine (ca : Certificate) (host : string) (c : Certificate) : Prop :=
  DNSNames (fields (Leaf c)) = [host] ∧ Subject (fields (Leaf c)) = host ∧ IsCA (fields (Leaf c)) = false ∧
  SignedBy (Leaf c) = PrivateKey ca ∧ Issuer (Leaf c) = Subject (fields (Leaf ca)) ∧ PublicKey (Leaf c) = PrivateKey c.

Definition older (n : Z) (k : key) : Prop := match k with RSA m => m < n | OtherKey _ => False end.

(** Before the root certificate exists, and once it does. *)
Definition blank (m : gmap string Certificate) (n : Z) (s : mitm) : Prop :=
  caCert s = None ∧ certCache s = m ∧ initDone s = false ∧ n ≤ keys s.
Definition settled (m : gmap string Certificate) (n : Z) (s : mitm) : Prop :=
  (∃ ca, caCert s = Some ca) ∧ certCache s = m ∧ initDone s = false ∧ n ≤ keys s.
Definition no_panic (P : mitm → Prop) (e : option string) (s : mitm) : Prop := e ≠ None ∧ P s.

Lemma sys_triple {A} (P : mitm → Prop) (Q : A → mitm → Prop) c msg f (r : mitm → A) :
  (∀ s, P s → P (called c s)) → (∀ s, P s → Q (r s) (called c (f s))) →
  triple P (sys c msg f r) Q (no_panic P).
Proof.
  intros H1 H2 s Hs. unfold sys. destruct (fails _ _); [|by apply H2]. split; [done|by apply H1].
Qed.

Lemma modify_triple (P : mitm → Prop) (Q : unit → mitm → Prop) X f :
  (∀ s, P s → Q tt (f s)) → triple P (modify f) Q X.
Proof. intros H s Hs. by apply H. Qed.

Lemma clock_triple (P : mitm → Prop) X : triple P clock (λ _, P) X.
Proof. intros s Hs. done. Qed.

Lemma GenerateKey_triple m n msg : triple (blank m n) (GenerateKey msg) (λ _, blank m n) (no_panic (blank m n)).
Proof. apply sys_triple; [done|]. intros s (?&?&?&?). unfold blank. cbn. split_and!; [done..|lia]. Qed.

Lemma loadOrGenerateCA_triple m n : triple (blank m n) loadOrGenerateCA (λ _, settled m n) (no_panic (blank m n)).
Proof.
  unfold loadOrGenerateCA. apply triple_get. intros s Hs. apply (triple_pre (blank m n)); [by intros ? ->|].
  destruct (load_pair s) as [p|].
  { apply modify_triple. clear. intros s (Hc & Hm & Hd & Hk). split_and!; cbn; [by eexists|done..]. }
  clear s Hs. unfold generateCA.
  apply triple_bind with (λ _, blank m n); [by apply GenerateKey_triple|intros priv].
  apply triple_bind with (λ _, blank m n); [by apply sys_triple|intros serial].
  apply triple_bind with (λ _, blank m n); [by apply clock_triple|intros t]. cbn zeta.
  apply triple_bind with (λ der s, blank m n s ∧ PublicKey der = priv); [by apply sys_triple|intros der].
  intros s [Hs Hp]. revert s Hs.
  apply triple_bind with (λ _, blank m n); [by apply sys_triple|intros _].
  apply triple_bind with (λ _, blank m n); [by apply sys_triple|intros _].
  apply triple_bind with (λ _, blank m n); [by apply sys_triple|intros _].
  unfold X509KeyPair. destruct (decide _) as [_|]; [|done].
  intros s (Hc & Hm & Hd & Hk). cbn. split_and!; [by eexists|done..].
Qed.

(** The root certificate is there once it was made, unless that failed. *)
Definition root_ok (s : mitm) : Prop :=
  if initDone s then caCert s = None → initErr s ≠ None else caCert s = None.

Lemma EnsureCA_spec s :
  root_ok s →
  (EnsureCA s).1 ≠ Panic ∧ root_ok (EnsureCA s).2 ∧ initDone (EnsureCA s).2 = true ∧
  certCache (EnsureCA s).2 = certCache s ∧ keys s ≤ keys (EnsureCA s).2 ∧
  (initDone s = true → (EnsureCA s).2 = s) ∧
  ((EnsureCA s).1 = Ok tt → ∃ ca, caCert (EnsureCA s).2 = Some ca).
Proof.
  intros Hr. unfold EnsureCA. change ((get_st ≫= ?f) s) with (f s s). cbn beta.
  unfold root_ok in Hr. destruct (initDone s) eqn:Ed.
  - unfold mbind, stm_bind, mret, stm_ret, get_st. destruct (initErr s) as [e|] eqn:Ee; cbn; unfold root_ok; rewrite ?Ed, ?Ee.
    { by split_and!. }
    split_and!; [done..|]. intros _. destruct (caCert s) as [ca|]; [by eexists|by destruct Hr].
  - pose proof (loadOrGenerateCA_triple (certCache s) (keys s) s) as HL.
    unfold mbind, stm_bind, try_. destruct (loadOrGenerateCA s) as [[[]|e|] s'] eqn:EL; cbn.
    + destruct HL as ((ca & Hca) & Hm & _ & Hk); [by split_and!|]. unfold root_ok. cbn. rewrite Hca. split_and!; [done..|by eexists].
    + destruct HL as [_ (Hc & Hm & _ & Hk)]; [by split_and!|]. unfold root_ok. cbn. by rewrite Hc; split_and!.
    + destruct HL as [? _]; [by split_and!|done].
Qed.

(** While a certificate is being made: root certificate and cache stay, keys are
    only added. *)
Definition making (ca : Certificate) (m : gmap string Certificate) (n : Z) (s : mitm) : Prop :=
  initDone s = true ∧ caCert s = Some ca ∧ certCache s = m ∧ n ≤ keys s.

Lemma making_called ca m n c s : making ca m n s → making ca m n (called c s).
Proof. done. Qed.

Lemma sign_leaf_triple ca m n host :
  triple (λ s, making ca m n s ∧ keys s = n) (sign_leaf host)
    (λ c s, making ca m (n + 1) s ∧ genuine ca host c ∧ PrivateKey c = RSA n)
    (no_panic (making ca m n)).
Proof.
  unfold sign_leaf.
  apply triple_bind with (λ priv s, making ca m (n + 1) s ∧ priv = RSA n).
  { intros s [Hs Hk]. unfold GenerateKey, sys. destruct (fails _ _); [by split|].
    destruct Hs as (?&?&?&?). split; [|by rewrite <- Hk]. split_and!; cbn; [done..|lia]. }
  intros priv s [Hs ->]. revert s Hs.
  assert (∀ e s, no_panic (making ca m (n + 1)) e s → no_panic (making ca m n) e s) as Hw.
  { intros e s (?&?&?&?&?). split_and!; [done..|]. split_and!; [done..|lia]. }
  assert (∀ A (P : mitm → Prop) (k : mm A) Q, triple P k Q (no_panic (making ca m (n + 1))) → triple P k Q (no_panic (making ca m n))) as Hx.
  { intros A P k Q H s Hs. specialize (H s Hs). destruct (k s) as [[|e|] s']; [done|by apply Hw..]. }
  apply Hx.
  apply triple_bind with (λ _, making ca m (n + 1)); [by apply sys_triple|intros serial].
  apply triple_bind with (λ _, making ca m (n + 1)); [by apply clock_triple|intros t].
  apply triple_get. intros s (Hd & Hca & Hm & Hn). rewrite Hca. apply (triple_pre (making ca m (n + 1))); [by intros ? ->|].
  destruct (PrivateKey ca) as [k|k] eqn:Ek; [|by intros s' Hs'].
  apply triple_bind with (λ der s, making ca m (n + 1) s ∧
    der = CreateCertificate (leaf_template host serial t) (Subject (fields (Leaf ca))) (RSA n) (RSA k));
    [by apply sys_triple|intros der].
  intros s' [Hs' ->]. revert s' Hs'.
  apply triple_bind with (λ _, making ca m (n + 1)); [by apply sys_triple|intros _].
  intros s' Hs'. unfold X509KeyPair, lift. destruct (decide _) as [_|Hne]; [|by destruct Hne].
  split; [done|]. unfold genuine. cbn. by split_and!.
Qed.

(** ** Every certificate is genuine *)

(** The certificates in the cache, about to be stored, and returned. *)
Definition known (s : gsys) (h : string) (c : Certificate) : Prop :=
  certCache (gst s) !! h = Some c ∨ GStore h c ∈ gpcs s ∨ GDone h (Ok c) ∈ gpcs s.

Record ginv (s : gsys) : Prop := {
  gi_root : root_ok (gst s);
  gi_known : ∀ h c, known s h c → ∃ ca, caCert (gst s) = Some ca ∧ genuine ca h c ∧ older (keys (gst s)) (PrivateKey c);
  gi_keys : ∀ h c h' c', known s h c → known s h' c' → h ≠ h' → PrivateKey c ≠ PrivateKey c';
  gi_sign : ∀ h, GSign h ∈ gpcs s → initDone (gst s) = true ∧ ∃ ca, caCert (gst s) = Some ca;
  gi_done : ∀ h c, GDone h (Ok c) ∈ gpcs s → ∃ c', certCache (gst s) !! h = Some c';
  gi_panic : ∀ h, GDone h Panic ∉ gpcs s
}.

Lemma older_mono n n' k : n ≤ n' → older n k → older n' k.
Proof. destruct k; cbn; [lia|done]. Qed.

Lemma root_done s ca : root_ok s → caCert s = Some ca → initDone s = true.
Proof. unfold root_ok. destruct (initDone s); [done|congruence]. Qed.

(** A step that makes no certificate known: nothing was known before the root
    certificate, or the root certificate stays. *)
Lemma ginv_mono s s' :
  ginv s → root_ok (gst s') → certCache (gst s') = certCache (gst s) → keys (gst s) ≤ keys (gst s') →
  (initDone (gst s) = true → caCert (gst s') = caCert (gst s) ∧ initDone (gst s') = true) →
  (∀ h c, known s' h c → known s h c) →
  (∀ h, GSign h ∈ gpcs s' → GSign h ∈ gpcs s ∨ initDone (gst s') = true ∧ ∃ ca, caCert (gst s') = Some ca) →
  (∀ h c, GDone h (Ok c) ∈ gpcs s' → GDone h (Ok c) ∈ gpcs s ∨ certCache (gst s) !! h = Some c) →
  (∀ h, GDone h Panic ∉ gpcs s') → ginv s'.
Proof.
  intros [Hr Hk Hd Hs Ho Hp] Hr' Hm Hn Hi Hkn Hsn Hdn Hpn. split; [done|..|done].
  - intros h c Hc%Hkn. destruct (Hk h c Hc) as (ca & Hca & Hg & Hold). destruct Hi as [-> _]; [by eapply root_done|].
    exists ca. split_and!; [done..|]. by eapply older_mono.
  - intros h c h' c' ?%Hkn ?%Hkn. by apply Hd.
  - intros h [Hh|]%Hsn; [|done]. destruct (Hs h Hh) as [H1 H2]. by destruct (Hi H1) as [-> ->].
  - intros h c [Hh|Hh]%Hdn; rewrite Hm; [by eapply Ho|eauto].
Qed.

Lemma elem_of_insert {A} (l : list A) i x y : y ∈ <[i := x]> l → y = x ∨ y ∈ l.
Proof.
  intros (j & Hj)%list_elem_of_lookup. apply list_lookup_insert_Some in Hj as [(_ & <- & _)|(_ & Hj)]; [by left|right].
  by eapply list_elem_of_lookup_2.
Qed.

(** The new state of a goroutine makes nothing known. *)
Definition silent (pc : gpc) : Prop := match pc with GStore _ _ | GDone _ (Ok _) | GDone _ Panic | GSign _ => False | _ => True end.

Lemma known_mono s st' l :
  certCache st' = certCache (gst s) →
  (∀ pc, pc ∈ l → pc ∈ gpcs s ∨ match pc with GStore h c | GDone h (Ok c) => known s h c | _ => True end) →
  ∀ h c, known (mkG st' l) h c → known s h c.
Proof.
  intros Hm Hl h c [Hc|[Hc|Hc]]; cbn in Hc.
  - left. congruence.
  - destruct (Hl _ Hc) as [H|H]; [right; by left|done].
  - destruct (Hl _ Hc) as [H|H]; [right; by right|done].
Qed.

Lemma ginv_silent s st' i pc' :
  ginv s → root_ok st' → certCache st' = certCache (gst s) → keys (gst s) ≤ keys st' →
  (initDone (gst s) = true → caCert st' = caCert (gst s) ∧ initDone st' = true) → silent pc' →
  ginv (mkG st' (<[i := pc']> (gpcs s))).
Proof.
  intros H Hr Hm Hk Hi Hs. apply (ginv_mono s); try done; cbn [gst gpcs].
  - apply known_mono; [done|]. intros pc [-> |?]%elem_of_insert; [right|by left]. by destruct pc' as [| | | |? []].
  - intros h [<- |?]%elem_of_insert; [done|by left].
  - intros h c [<- |?]%elem_of_insert; [done|by left].
  - intros h [<- |Hp]%elem_of_insert; [done|]. by apply (gi_panic s H) in Hp.
Qed.

Lemma ginv_ensure s i h : ginv s → gpcs s !! i = Some (GEnsure h) →
  let r := get_step (GEnsure h) (gst s) in ginv (mkG r.2 (<[i := r.1]> (gpcs s))).
Proof.
  intros H Hi. destruct (EnsureCA_spec (gst s) (gi_root s H)) as (Hp & Hr & Hd & Hm & Hk & Hs & Ho).
  cbn [get_step]. cbn zeta. destruct (EnsureCA (gst s)) as [[[]|e|] s1]; cbn [fst snd] in *; [|by apply ginv_silent; naive_solver|done].
  apply (ginv_mono s); try done; cbn [gst gpcs]; [naive_solver|..].
  - apply known_mono; [done|]. intros pc [-> |?]%elem_of_insert; [by right|by left].
  - intros h' [_|?]%elem_of_insert; [right|by left]. split; [done|]. by apply Ho.
  - intros h' c [?|?]%elem_of_insert; [done|by left].
  - intros h' [?|Hp']%elem_of_insert; [done|]. by apply (gi_panic s H) in Hp'.
Qed.

Lemma ginv_sign s i h : ginv s → gpcs s !! i = Some (GSign h) →
  let r := get_step (GSign h) (gst s) in ginv (mkG r.2 (<[i := r.1]> (gpcs s))).
Proof.
  intros H Hi. destruct (gi_sign s H h) as [Hd [ca Hca]]; [by eapply list_elem_of_lookup_2|].
  pose proof (sign_leaf_triple ca (certCache (gst s)) (keys (gst s)) h (gst s)) as HS.
  cbn [get_step]. cbn zeta. destruct (sign_leaf h (gst s)) as [[c|e|] s1]; cbn [fst snd] in *.
  - destruct HS as ((Hd1 & Hca1 & Hm1 & Hk1) & Hg & Hpk); [by split_and!|].
    assert (∀ h' c', known (mkG s1 (<[i := GStore h c]> (gpcs s))) h' c' → known s h' c' ∨ (h' = h ∧ c' = c)) as Hkn.
    { intros h' c' [Hc|[Hc|Hc]]; cbn in Hc; [left; left; congruence|..]; apply elem_of_insert in Hc as [Hc|Hc]; simplify_eq; auto;
        left; right; [by left|by right]. }
    assert (∀ h' c', known s h' c' → PrivateKey c' ≠ RSA (keys (gst s))) as Hold.
    { intros h' c' Hc Hp. destruct (gi_known s H h' c' Hc) as (_ & _ & _ & Ho). rewrite Hp in Ho. cbn in Ho. lia. }
    split; cbn [gst gpcs].
    + unfold root_ok. rewrite Hd1. congruence.
    + intros h' c' [Hc|[-> ->]]%Hkn; exists ca; [|by rewrite Hpk; split_and!; [done..|cbn; lia]].
      destruct (gi_known s H h' c' Hc) as (ca' & Hca' & Hg' & Ho). simplify_eq. split_and!; [done..|].
      eapply older_mono, Ho. lia.
    + intros h1 c1 h2 c2 [H1|[-> ->]]%Hkn [H2|[-> ->]]%Hkn Hne; rewrite ?Hpk; [by eapply (gi_keys s H)|by eapply Hold| |done].
      apply not_eq_sym. by eapply Hold.
    + intros h' [?|Hs]%elem_of_insert; [done|]. split; [done|eauto].
    + intros h' c' [?|Hc]%elem_of_insert; [done|]. rewrite Hm1. by eapply (gi_done s H).
    + intros h' [?|Hp]%elem_of_insert; [done|]. by apply (gi_panic s H) in Hp.
  - destruct HS as [_ (Hd1 & Hca1 & Hm1 & Hk1)]; [by split_and!|]. apply ginv_silent; try done; [|intros _; split; congruence].
    unfold root_ok. rewrite Hd1. congruence.
  - destruct HS as [? _]; [by split_and!|done].
Qed.

Lemma ginv_store s i h c : ginv s → gpcs s !! i = Some (GStore h c) →
  ginv (mkG (store h c (gst s)) (<[i := GDone h (Ok c)]> (gpcs s))).
Proof.
  intros H Hi. assert (known s h c) as Hc by (right; left; by eapply list_elem_of_lookup_2).
  assert (∀ h' c', known (mkG (store h c (gst s)) (<[i := GDone h (Ok c)]> (gpcs s))) h' c' → known s h' c') as Hkn.
  { intros h' c' [Hl|[Hl|Hl]]; cbn in Hl.
    - apply lookup_insert_Some in Hl as [[<- <-]|[_ Hl]]; [done|by left].
    - apply elem_of_insert in Hl as [?|Hl]; [done|]. right; by left.
    - apply elem_of_insert in Hl as [Hl|Hl]; [by simplify_eq|]. right; by right. }
  split; cbn [gst gpcs].
  - exact (gi_root s H).
  - intros h' c' Hl%Hkn. exact (gi_known s H h' c' Hl).
  - intros h1 c1 h2 c2 ?%Hkn ?%Hkn. by apply (gi_keys s H).
  - intros h' [?|Hs]%elem_of_insert; [done|]. exact (gi_sign s H h' Hs).
  - intros h' c' Hl. cbn. destruct (decide (h' = h)) as [-> |Hne]; [rewrite lookup_insert_eq; eauto|].
    rewrite lookup_insert_ne by done. apply elem_of_insert in Hl as [?|Hl]; [congruence|]. by eapply (gi_done s H).
  - intros h' [?|Hp]%elem_of_insert; [done|]. by apply (gi_panic s H) in Hp.
Qed.

Lemma ginv_step s s' : ginv s → g_step s s' → ginv s'.
Proof.
  intros H Hs. destruct Hs as [s host|s i pc pc' st' Hi Hg|s|s c k].
  - assert (∀ pc, pc ∈ gpcs s ++ [GLook host] → pc ∈ gpcs s ∨ pc = GLook host) as Hl
      by (intros pc [?|?%list_elem_of_singleton]%elem_of_app; auto).
    apply (ginv_mono s); try done; cbn [gst gpcs]; [exact (gi_root s H)|..].
    + apply known_mono; [done|]. intros pc [?| ->]%Hl; [by left|by right].
    + intros h [?|?]%Hl; [by left|done].
    + intros h c [?|?]%Hl; [by left|done].
    + intros h [Hp|?]%Hl; [by apply (gi_panic s H) in Hp|done].
  - destruct pc as [host|h|h|h c|h r].
    + cbn in Hg. destruct (certCache (gst s) !! host_of host) as [c|] eqn:Ec; simplify_eq; [|apply ginv_silent; try done; exact (gi_root s H)].
      apply (ginv_mono s); try done; cbn [gst gpcs]; [exact (gi_root s H)|..].
      * apply known_mono; [done|]. intros pc [-> |?]%elem_of_insert; [right; by left|by left].
      * intros h [?|?]%elem_of_insert; [done|by left].
      * intros h c' [?|?]%elem_of_insert; [right|by left]. congruence.
      * intros h [?|Hp]%elem_of_insert; [done|]. by apply (gi_panic s H) in Hp.
    + pose proof (ginv_ensure s i h H Hi) as HE. cbn zeta in HE. by rewrite Hg in HE.
    + pose proof (ginv_sign s i h H Hi) as HE. cbn zeta in HE. by rewrite Hg in HE.
    + injection Hg as <- <-. by apply ginv_store.
    + injection Hg as <- <-. rewrite list_insert_id by done. by destruct s.
  - destruct (EnsureCA_spec (gst s) (gi_root s H)) as (_ & Hr & Hd & Hm & Hk & Hs & _).
    apply (ginv_mono s); try done; cbn [gst gpcs]; [by intros Hi; rewrite (Hs Hi)|..].
    + apply known_mono; [done|]. by left.
    + by left.
    + by left.
    + exact (gi_panic s H).
  - apply (ginv_mono s); try done; cbn [gst gpcs]; [exact (gi_root s H)|by left|by left|exact (gi_panic s H)].
Qed.

Lemma ginv_reached s : rtc g_step (mkG fresh []) s → ginv s.
Proof.
  assert (ginv (mkG fresh [])) as H.
  { split; try done; cbn.
    - by intros h c [?|[?%not_elem_of_nil|?%not_elem_of_nil]].
    - by intros h c h' c' [?|[?%not_elem_of_nil|?%not_elem_of_nil]].
    - by intros h ?%not_elem_of_nil.
    - by intros h c ?%not_elem_of_nil.
    - by intros h ?%not_elem_of_nil. }
  intros Hr. revert H. induction Hr as [|s0 s1 s2 Hs _ IH]; [done|]. intros H. by eapply IH, ginv_step.
Qed.

(** A call from a state of the process, undisturbed from here on. *)
Lemma GetCertificate_alone s host :
  ginv s →
  match GetCertificateForHost host (gst s) with
  | (Panic, _) => False
  | (Err _, s') => certCache s' = certCache (gst s)
  | (Ok c, s') => certCache s' !! host_of host = Some c
  end.
Proof.
  intros H. unfold GetCertificateForHost. cbn zeta. change ((get_st ≫= ?f) ?x) with (f x x). cbn beta.
  destruct (certCache (gst s) !! host_of host) as [c|] eqn:Ec; [done|].
  destruct (EnsureCA_spec (gst s) (gi_root s H)) as (Hp & Hr & Hd & Hm & Hk & Hs & Ho).
  unfold mbind, stm_bind. destruct (EnsureCA (gst s)) as [[[]|e|] s1]; cbn [fst snd] in *; [|done..].
  destruct Ho as [ca Hca]; [done|]. pose proof (sign_leaf_triple ca (certCache s1) (keys s1) (host_of host) s1) as HS.
  destruct (sign_leaf (host_of host) s1) as [[c|e|] s2]; cbn.
  - by rewrite lookup_insert_eq.
  - destruct HS as [_ (_ & _ & Hm2 & _)]; [by split_and!|congruence].
  - destruct HS as [? _]; [by split_and!|done].
Qed.

(** C33. Interception certificates are genuine, also when requests overlap.  In any
    interleaving of requests (each a load from the cache, the making of the root
    certificate, the signing and the store, one step each, without a lock around
    them), whatever others write into the files of the root certificate and whichever
    calls of the cryptographic library fail: no request panics; a certificate that is
    in the cache or was returned names exactly its host (without the port), is signed by
    the root certificate in memory, comes with its own private key and shares it with
    no other host; when a request has returned a certificate there is one for its host
    in the cache.  A request that nothing overlaps leaves the cache as it was when it
    fails, and otherwise returns what the next request returns.  Of overlapping first
    requests for one host each may return its own certificate ([first_requests_race]). *)
Theorem interception_certificates s :
  rtc g_step (mkG fresh []) s →
  (∀ h, GDone h Panic ∉ gpcs s) ∧
  (∀ h c, certCache (gst s) !! h = Some c ∨ GDone h (Ok c) ∈ gpcs s → ∃ ca, caCert (gst s) = Some ca ∧ genuine ca h c) ∧
  (∀ h c h' c', certCache (gst s) !! h = Some c ∨ GDone h (Ok c) ∈ gpcs s →
     certCache (gst s) !! h' = Some c' ∨ GDone h' (Ok c') ∈ gpcs s → h ≠ h' → PrivateKey c ≠ PrivateKey c') ∧
  (∀ h c, GDone h (Ok c) ∈ gpcs s → ∃ c', certCache (gst s) !! h = Some c') ∧
  (∀ host, match GetCertificateForHost host (gst s) with
           | (Panic, _) => False
           | (Err _, s') => certCache s' = certCache (gst s)
           | (Ok c, s') => GetCertificateForHost host s' = (Ok c, s')
           end).
Proof.
  intros Hr. pose proof (ginv_reached s Hr) as H.
  assert (∀ h c, certCache (gst s) !! h = Some c ∨ GDone h (Ok c) ∈ gpcs s → known s h c) as Hkn
    by (intros h c [?|?]; [by left|right; by right]).
  split_and!.
  - exact (gi_panic s H).
  - intros h c (ca & ? & ? & _)%Hkn%(gi_known s H). eauto.
  - intros h c h' c' ?%Hkn ?%Hkn. by apply (gi_keys s H).
  - exact (gi_done s H).
  - intros host. pose proof (GetCertificate_alone s host H) as HG.
    destruct (GetCertificateForHost host (gst s)) as [[c|e|] s']; [|done..].
    unfold GetCertificateForHost. cbn zeta. change ((get_st ≫= ?f) s') with (f s' s'). cbn beta. by rewrite HG.
Qed.

(** A root certificate that was generated is the one the next process loads. *)
Lemma ca_survives_restart s s' :
  load_pair s = None → loadOrGenerateCA s = (Ok tt, s') → caCert s' = load_pair s' ∧ caCert s' ≠ None.
Proof.
  unfold loadOrGenerateCA. change ((get_st ≫= ?f) s) with (f s s). cbn beta. intros -> H. revert H.
  unfold generateCA, GenerateKey, serialNumber, clock, sys, mbind, stm_bind, get_st, mret, stm_ret, lift.
  destruct (fails _ _); [done|]. destruct (fails _ _); [done|]. destruct (fails _ _); [done|].
  destruct (fails _ _); [done|]. destruct (fails _ _); [done|]. destruct (fails _ _); [done|].
  unfold X509KeyPair. destruct (decide _) as [_|]; [|done]. intros [= <-].
  unfold load_pair. cbn. unfold X509KeyPair. destruct (decide _) as [_|Hn]; [done|by destruct Hn].
Qed.

(** A failure to make the root certificate is final: every later request fails
    with it, although nothing fails any more. *)
Lemma failed_ca_is_final s e host :
  initDone s = true → initErr s = Some e → certCache s = ∅ → GetCertificateForHost host s = (Err e, s).
Proof.
  intros Hd He Hc. unfold GetCertificateForHost. cbn zeta. change ((get_st ≫= ?f) s) with (f s s). cbn beta.
  rewrite Hc, lookup_empty. unfold EnsureCA, mbind, stm_bind, get_st. rewrite Hd. cbn. by rewrite He.
Qed.

End CryptoEnv.

(** The first request generates the root certificate and returns a certificate;
    a name with a port shares it. *)
Definition ex_crypto : CryptoEnv :=
  {| fails := λ _ _, false; random := λ h, Z.of_nat (length h); now := λ _, day * 365; add_years := λ t y, t + y * 365 * day |}.

Example first_request :
  let r := GetCertificateForHost (E:=ex_crypto) "example.com:443" fresh in
  (λ c, (DNSNames (fields (Leaf c)), PrivateKey c)) <$> r.1 = Ok (["example.com"], RSA 1) ∧
  (GetCertificateForHost (E:=ex_crypto) "example.com" r.2).1 = r.1 ∧
  PrivateKey <$> caCert r.2 = Some (RSA 0).
Proof. vm_compute. done. Qed.

(** One goroutine takes a step. *)
Definition go {E : CryptoEnv} (i : nat) (s : gsys) : gsys :=
  match gpcs s !! i with
  | Some pc => let r := get_step pc (gst s) in mkG r.2 (<[i := r.1]> (gpcs s))
  | None => s
  end.

Lemma go_step {E : CryptoEnv} i s : rtc g_step s (go i s).
Proof.
  unfold go. destruct (gpcs s !! i) as [pc|] eqn:Ep; [|done]. cbn zeta. apply rtc_once. eapply g_go; [done|].
  by destruct (get_step pc (gst s)).
Qed.

Lemma gos_reached {E : CryptoEnv} hosts turns :
  rtc g_step (mkG fresh []) (foldl (λ s i, go i s) (mkG fresh (GLook <$> hosts)) turns).
Proof.
  etrans; [|].
  - assert (∀ l, rtc g_step (mkG fresh l) (mkG fresh (l ++ (GLook <$> hosts)))) as Hc; [|apply (Hc [])].
    induction hosts as [|h hosts IH]; intros l; [by rewrite app_nil_r|]. rewrite fmap_cons, cons_middle, app_assoc.
    eapply rtc_l; [apply (g_call (mkG fresh l) h)|apply IH].
  - cbn [app]. generalize (mkG fresh (GLook <$> hosts)). induction turns as [|i turns IH]; intros s; [done|]. cbn. etrans; [apply go_step|apply IH].
Qed.

(** Two first requests for one host that overlap: both sign, the first one returns a
    certificate that is not the one later requests get. *)
Lemma first_requests_race : ∃ s c c',
  rtc (@g_step ex_crypto) (mkG fresh []) s ∧
  gpcs s = [GDone "a.example" (Ok c); GDone "a.example" (Ok c')] ∧ PrivateKey c ≠ PrivateKey c' ∧
  certCache (gst s) !! "a.example" = Some c'.
Proof.
  do 3 eexists. split; [exact (gos_reached ["a.example"; "a.example:443"] [0; 1; 0; 1; 0; 1; 0; 1]%nat)|].
  split; [vm_compute; reflexivity|]. split; [done|vm_compute; reflexivity].
Qed.

Lemma interception_certificates_witness :
  match GetCertificateForHost (E:=ex_crypto) "b.example"
    (gst (foldl (λ s i, go (E:=ex_crypto) i s) (mkG fresh (GLook <$> ["a.example"; "a.example:443"])) [0; 1; 0; 1; 0; 1; 0; 1]%nat)) with
  | (Panic, _) => False
  | (Err _, s') => True
  | (Ok c, s') => GetCertificateForHost (E:=ex_crypto) "b.example" s' = (Ok c, s')
  end.
Proof.
  pose proof (proj2 (proj2 (proj2 (proj2 (interception_certificates (E:=ex_crypto) _
    (gos_reached ["a.example"; "a.example:443"] [0; 1; 0; 1; 0; 1; 0; 1]%nat))))) "b.example") as H.
  destruct (GetCertificateForHost _ _) as [[c|e|] s']; [exact H|exact I|exact H].
Defined.

End Mitm.
