(* ===== verification/Darwin.v ===== *)
(** * Interception on macOS (src/proxy/tproxy/tproxy_darwin.go)

    The rules written for the packet filter pf, with the way pf evaluates them
    (translation: first match; filtering: last match, or the first one marked
    quick), the listeners and their life cycle, and the question GetOriginalDst
    asks pf.  Comments in the rule file are left out. *)

From S2P Require Import Prelude GoStrings GoNet FakeIP.

Module Darwin.

(** ** The rules of pf *)

Inductive proto := TCP | UDP | ICMP | ICMP6.
#[global] Instance proto_eq : EqDecision proto.
Proof. solve_decision. Defined.

(** Interfaces a rule is about, and the end points it names. *)
Inductive on := OnAny | OnLo0 | OnNotLo0.
Inductive ends := NoEnds | All | ToPrivate | FromPrivate | ToPort (ports : string) | ToPublic.
Inductive who := AnyUser | IsUser | NotUser.

Record pass_rule := mkPass {
  f_out : bool; f_quick : bool; f_on : on; f_route : bool; f_inet : bool;
  f_proto : option proto; f_ends : ends; f_user : who; f_syn : bool; f_state : bool
}.
Record rdr_rule := mkRdr { d_on : on; d_proto : proto; d_ends : ends; d_port : Z }.

Definition show_proto (p : proto) : string :=
  match p with TCP => "tcp" | UDP => "udp" | ICMP => "icmp" | ICMP6 => "icmp6" end.
Definition show_on (o : on) : string :=
  match o with OnAny => "" | OnLo0 => " on lo0" | OnNotLo0 => " on ! lo0" end.
Definition show_ends (e : ends) : string :=
  match e with
  | NoEnds => "" | All => " all" | ToPrivate => " to <private_ips>" | FromPrivate => " from <private_ips> to any"
  | ToPort p => " from any to any port " +:+ p | ToPublic => " from any to ! <private_ips>"
  end.
Definition show_who (w : who) : string :=
  match w with AnyUser => "" | IsUser => " user $vproxy_user" | NotUser => " user != $vproxy_user" end.
Definition opt (b : bool) (s : string) : string := if b then s else "".

Definition show_pass (r : pass_rule) : string :=
  "pass " +:+ (if f_out r then "out" else "in") +:+ opt (f_quick r) " quick" +:+ show_on (f_on r) +:+
  opt (f_route r) " route-to lo0" +:+ opt (f_inet r) " inet" +:+
  match f_proto r with Some p => " proto " +:+ show_proto p | None => "" end +:+
  show_ends (f_ends r) +:+ show_who (f_user r) +:+ opt (f_syn r) " flags S/SA" +:+ opt (f_state r) " keep state".

Definition show_rdr (r : rdr_rule) : string :=
  "rdr pass" +:+ show_on (d_on r) +:+ " inet proto " +:+ show_proto (d_proto r) +:+ show_ends (d_ends r) +:+
  " -> 127.0.0.1 port " +:+ Strconv.Itoa (d_port r).

(** The rules setupPF writes. *)
Definition rdr_rules (tcpPort dnsPort : Z) : list rdr_rule :=
  [mkRdr OnLo0 UDP (ToPort "53") dnsPort; mkRdr OnNotLo0 UDP (ToPort "53") dnsPort; mkRdr OnLo0 TCP ToPublic tcpPort].

Definition pass_rules : list pass_rule :=
  [mkPass false true OnLo0 false false None All AnyUser false false;
   mkPass true true OnLo0 false false None All AnyUser false false;
   mkPass true true OnAny false false (Some ICMP) All AnyUser false true;
   mkPass true true OnAny false false (Some ICMP6) All AnyUser false true;
   mkPass true true OnAny false false None ToPrivate AnyUser false true;
   mkPass false true OnAny false false None FromPrivate AnyUser false true;
   mkPass true true OnAny false false None NoEnds IsUser false true;
   mkPass true true OnAny false true (Some TCP) (ToPort "$proxy_ports") AnyUser false true;
   mkPass true false OnNotLo0 true true (Some TCP) ToPublic NotUser true true;
   mkPass true false OnNotLo0 true true (Some UDP) (ToPort "53") NotUser false true].

Definition private_ips : list string :=
  ["127.0.0.0/8"; "10.0.0.0/8"; "172.16.0.0/12"; "192.168.0.0/16"; "169.254.0.0/16"; "224.0.0.0/4"; "240.0.0.0/4"].

(** What the rules are instantiated with. *)
Record pf_conf := mkConf { c_user : string; c_tcp : Z; c_dns : Z; c_http : Z; c_socks : Z; c_web : Z }.

Definition excludePorts (c : pf_conf) : list Z := [c_tcp c; c_http c; c_socks c; c_web c].

Definition quote : string := String "034" "".
Definition nl : string := String "010" "".

(** The file. *)
Definition rules_text (c : pf_conf) : list string :=
  ["vproxy_user = " +:+ quote +:+ c_user c +:+ quote;
   "proxy_ports = " +:+ quote +:+ "{ " +:+ Strings.Join (Strconv.Itoa <$> excludePorts c) ", " +:+ " }" +:+ quote;
   "table <private_ips> const { " +:+ Strings.Join private_ips ", " +:+ " }"] ++
  (show_rdr <$> rdr_rules (c_tcp c) (c_dns c)) ++ (show_pass <$> pass_rules).

(** ** How pf evaluates them *)

(** The first packet of a flow. *)
Record packet := mkPacket { k_v6 : bool; k_proto : proto; k_src : ip; k_dst : ip; k_dport : Z; k_user : string }.

Definition is_private (x : ip) : bool :=
  existsb (λ s, match Net.ParseCIDR s with Some n => Net.Contains n x | None => false end) private_ips.

Definition ports_of (c : pf_conf) (p : string) : list Z :=
  if String.eqb p "$proxy_ports" then excludePorts c else [Strconv.Sscanf_d p].

Definition match_on (o : on) (lo : bool) : bool := match o with OnAny => true | OnLo0 => lo | OnNotLo0 => negb lo end.
Definition match_ends (c : pf_conf) (e : ends) (k : packet) : bool :=
  match e with
  | NoEnds | All => true
  | ToPrivate => is_private (k_dst k)
  | FromPrivate => is_private (k_src k)
  | ToPort p => bool_decide (k_dport k ∈ ports_of c p)
  | ToPublic => negb (is_private (k_dst k))
  end.
Definition match_who (c : pf_conf) (w : who) (k : packet) : bool :=
  match w with AnyUser => true | IsUser => String.eqb (k_user k) (c_user c) | NotUser => negb (String.eqb (k_user k) (c_user c)) end.

Definition pass_matches (c : pf_conf) (out lo : bool) (k : packet) (r : pass_rule) : bool :=
  Bool.eqb (f_out r) out && match_on (f_on r) lo && negb (f_inet r && k_v6 k) &&
  match f_proto r with Some p => bool_decide (k_proto k = p) | None => true end &&
  match_ends c (f_ends r) k && match_who c (f_user r) k.

(** The rule that decides: the last one that matches, unless a quick one does. *)
Fixpoint decide_pass (c : pf_conf) (out lo : bool) (k : packet) (rs : list pass_rule) (best : option pass_rule) : option pass_rule :=
  match rs with
  | [] => best
  | r :: rs =>
      if pass_matches c out lo k r then if f_quick r then Some r else decide_pass c out lo k rs (Some r)
      else decide_pass c out lo k rs best
  end.

(** The translation of a packet that arrives on an interface. *)
Definition translate (c : pf_conf) (lo : bool) (k : packet) : option Z :=
  d_port <$> find (λ r, match_on (d_on r) lo && negb (k_v6 k) && bool_decide (k_proto k = d_proto r) && match_ends c (d_ends r) k)
                  (rdr_rules (c_tcp c) (c_dns c)).

(** The fate of a flow that a local process opens over a physical interface: it
    leaves, or it is routed to lo0, where it arrives and may be redirected to a
    port of 127.0.0.1. *)
Inductive fate := Leaves | Redirected (port : Z) | OnLoopback.

Definition outgoing (c : pf_conf) (k : packet) : fate :=
  match decide_pass c true false k pass_rules None with
  | Some r => if f_route r then match translate c true k with Some p => Redirected p | None => OnLoopback end else Leaves
  | None => Leaves
  end.

(** ** Start and clean-up *)

Inductive dcall := RouteGet | ListenTCP | ListenUDP | WriteConf | PfctlEnable | PfctlLoad | WriteMain | PfctlMain | PfctlFlush.

(** What pfctl changes beside the anchor: whether pf runs and its main rules; and the
    file from which the main rules are loaded. *)
Record pf_host := mkHost { pf_on : bool; main_rules : list string; main_conf : option (list string) }.

(** The variables of the package, the open sockets, what the anchor com.apple/vproxy
    of pf holds, and the rest of pf. *)
Record darwin := mkDarwin {
  physIface : string; pfEnabled : bool; localTransLn : option nat; localDNSLn : option nat;
  sockets : list nat; anchor : option pf_conf; host : pf_host; pool : FakeIP.global; next : nat; dcalls : list dcall
}.

(** Which calls fail, the output of route, the user the process runs as (none if
    it cannot be found out) and the ports the system chooses. *)
Class PfEnv := {
  pf_fails : list dcall → dcall → bool;
  route_output : string;
  current_user : option string;
  port_of : nat → Z
}.

Abbreviation dm := (stm darwin string).

Definition upd (f : darwin → darwin) : dm unit := λ s, (Ok tt, f s).
Definition set_iface (i : string) (s : darwin) : darwin :=
  mkDarwin i (pfEnabled s) (localTransLn s) (localDNSLn s) (sockets s) (anchor s) (host s) (pool s) (next s) (dcalls s).
Definition set_enabled (b : bool) (s : darwin) : darwin :=
  mkDarwin (physIface s) b (localTransLn s) (localDNSLn s) (sockets s) (anchor s) (host s) (pool s) (next s) (dcalls s).
Definition set_trans (o : option nat) (s : darwin) : darwin :=
  mkDarwin (physIface s) (pfEnabled s) o (localDNSLn s) (sockets s) (anchor s) (host s) (pool s) (next s) (dcalls s).
Definition set_dns (o : option nat) (s : darwin) : darwin :=
  mkDarwin (physIface s) (pfEnabled s) (localTransLn s) o (sockets s) (anchor s) (host s) (pool s) (next s) (dcalls s).
Definition set_sockets (l : list nat) (s : darwin) : darwin :=
  mkDarwin (physIface s) (pfEnabled s) (localTransLn s) (localDNSLn s) l (anchor s) (host s) (pool s) (next s) (dcalls s).
Definition set_anchor (a : option pf_conf) (s : darwin) : darwin :=
  mkDarwin (physIface s) (pfEnabled s) (localTransLn s) (localDNSLn s) (sockets s) a (host s) (pool s) (next s) (dcalls s).
Definition set_pool (g : FakeIP.global) (s : darwin) : darwin :=
  mkDarwin (physIface s) (pfEnabled s) (localTransLn s) (localDNSLn s) (sockets s) (anchor s) (host s) g (next s) (dcalls s).
Definition open_socket (s : darwin) : darwin :=
  mkDarwin (physIface s) (pfEnabled s) (localTransLn s) (localDNSLn s) (next s :: sockets s) (anchor s) (host s) (pool s) (S (next s)) (dcalls s).
Definition called (c : dcall) (s : darwin) : darwin :=
  mkDarwin (physIface s) (pfEnabled s) (localTransLn s) (localDNSLn s) (sockets s) (anchor s) (host s) (pool s) (next s) (dcalls s ++ [c]).

Definition set_host (f : pf_host → pf_host) (s : darwin) : darwin :=
  mkDarwin (physIface s) (pfEnabled s) (localTransLn s) (localDNSLn s) (sockets s) (anchor s) (f (host s)) (pool s) (next s) (dcalls s).

(** [pfctl -e]; writing /tmp/vproxy_main.conf; [pfctl -g -f] with that file, which
    loads its rules as the main rules (there is nothing to load without the file). *)
Definition pfctl_e (h : pf_host) : pf_host := mkHost true (main_rules h) (main_conf h).
Definition mainConf : list string :=
  ["rdr-anchor " +:+ quote +:+ "com.apple/vproxy" +:+ quote; "anchor " +:+ quote +:+ "com.apple/vproxy" +:+ quote].
Definition write_main (h : pf_host) : pf_host := mkHost (pf_on h) (main_rules h) (Some mainConf).
Definition pfctl_main (h : pf_host) : pf_host :=
  match main_conf h with Some l => mkHost (pf_on h) l (main_conf h) | None => h end.

(** The first line of route's output that names the interface. *)
Fixpoint iface_line (lines : list string) : option string :=
  match lines with
  | [] => None
  | l :: ls =>
      let l := Strings.TrimSpace l in
      if Strings.HasPrefix l "interface:" then Some (Strings.TrimSpace (Strings.TrimPrefix l "interface:")) else iface_line ls
  end.

Section PfEnv.
Context {E : PfEnv}.

Definition sys (c : dcall) (msg : string) (f : darwin → darwin) : dm unit := λ s,
  if pf_fails (dcalls s) c then (Err msg, called c s) else (Ok tt, f (called c s)).
Definition sys_ (c : dcall) (f : darwin → darwin) : dm unit := λ s,
  if pf_fails (dcalls s) c then (Ok tt, called c s) else (Ok tt, f (called c s)).

Definition getDefaultInterface : dm (option string) := λ s,
  (Ok (if pf_fails (dcalls s) RouteGet then None else iface_line (Strings.Split route_output "010")), called RouteGet s).

Definition vproxyUser : string :=
  match current_user with Some u => if String.eqb u "" then "root" else u | None => "root" end.

Definition setupPF (tcpPort dnsPort httpPort socksPort webPort : Z) : dm unit :=
  let conf := mkConf vproxyUser tcpPort dnsPort httpPort socksPort webPort in
  sys WriteConf "failed to write pf conf" id ;;
  sys_ PfctlEnable (set_host pfctl_e) ;;
  sys PfctlLoad "pfctl loading anchor failed" (set_anchor (Some conf)) ;;
  sys_ WriteMain (set_host write_main) ;;
  sys_ PfctlMain (set_host pfctl_main) ;;
  upd (set_enabled true).

Definition init_pool : dm unit := λ s,
  match FakeIP.InitGlobalPool (pool s) "198.18.0.0/15" with
  | (Ok _, g) => (Ok tt, set_pool g s)
  | (Err _, g) => (Err "failed to init Fake-IP pool", set_pool g s)
  | (Panic, g) => (Panic, set_pool g s)
  end.

(** A new socket and its number. *)
Definition listen (c : dcall) (msg : string) : dm nat :=
  s ← get_st;
  sys c msg open_socket ;;
  mret (next s).

Definition StartDarwinTransparent (httpPort socksPort webPort : Z) : dm unit :=
  iface ← getDefaultInterface;
  _ ← match iface with Some i => upd (set_iface i) | None => mret tt end;
  _ ← init_pool;
  ln ← listen ListenTCP "failed to start local TCP listener";
  _ ← upd (set_trans (Some ln));
  udp ← listen ListenUDP "failed to start local UDP DNS listener";
  _ ← upd (set_dns (Some udp));
  setupPF (port_of ln) (port_of udp) httpPort socksPort webPort.

Definition close (o : option nat) (s : darwin) : darwin :=
  match o with Some n => set_sockets (filter (.≠ n) (sockets s)) s | None => s end.

Definition Cleanup : dm unit :=
  s ← get_st;
  _ ← upd (λ s, set_trans None (close (localTransLn s) s));
  _ ← upd (λ s, set_dns None (close (localDNSLn s) s));
  if pfEnabled s then sys_ PfctlFlush (set_anchor None) ;; upd (set_enabled false) else mret tt.

End PfEnv.

(** ** The question to pf *)

(** [struct pfioc_natlook] as the program lays it out: addresses of 16 bytes,
    ports of 4, and four single bytes; [Pad] is the padding at the end. *)
Record pfiocNatlook := mkNl {
  Saddr : list byte; Daddr : list byte; Rsaddr : list byte; Rdaddr : list byte;
  Sxport : list byte; Dxport : list byte; Rsxport : list byte; Rdxport : list byte;
  Af : Z; Proto : Z; ProtoVar : Z; Direction : Z; Pad : list byte
}.
Definition PF_IN : Z := 1.
Definition PF_OUT : Z := 2.
Definition AF_INET : Z := 2.
Definition AF_INET6 : Z := 30.

(** [copy] into an array of zeros. *)
Definition into (n : nat) (l : list byte) : list byte := take n (l ++ replicate n (mk8 0)).
Definition zeros (n : nat) : list byte := replicate n (mk8 0).

Definition natlook (client : ip) (cport : Z) (proxy : ip) (pport : Z) (dir : Z) : pfiocNatlook :=
  let v4 := match Net.To4 client with Some _ => true | None => false end in
  let sel (x : ip) := default [] (if v4 then Net.To4 x else Net.To16 x) in
  mkNl (into 16 (sel client)) (into 16 (sel proxy)) (zeros 16) (zeros 16)
       (into 4 (put16 (wrap16 cport))) (into 4 (put16 (wrap16 pport))) (zeros 4) (zeros 4)
       (if v4 then AF_INET else AF_INET6) 6 0 dir (zeros 4).

(** The bytes handed to the kernel. *)
Definition struct_bytes (n : pfiocNatlook) : list byte :=
  Saddr n ++ Daddr n ++ Rsaddr n ++ Rdaddr n ++ Sxport n ++ Dxport n ++ Rsxport n ++ Rdxport n ++
  bytes [Af n; Proto n; ProtoVar n; Direction n] ++ Pad n.

(** [ioctl] answers a request with the filled structure, or fails. *)
Definition GetOriginalDst (tcp : bool) (dev_pf : bool) (ioctl : pfiocNatlook → option pfiocNatlook)
    (client : ip) (cport : Z) (proxy : ip) (pport : Z) : outcome string string :=
  if negb tcp then Err "not a TCP connection"
  else if negb dev_pf then Err "failed to open /dev/pf"
  else
    match (match ioctl (natlook client cport proxy pport PF_OUT) with
           | Some r => Some r
           | None => ioctl (natlook client cport proxy pport PF_IN)
           end) with
    | None => Err "DIOCNATLOOK failed"
    | Some r =>
        let targetIP :=
          if Af r =? AF_INET then
            match Rdaddr r with a :: b :: c :: d :: _ => Net.IPv4 a b c d | _ => [] end
          else Rdaddr r in
        let targetPort := match Rdxport r with hi :: lo :: _ => be16 hi lo | _ => 0 end in
        Ok (Net.String_ targetIP +:+ ":" +:+ Strconv.Itoa targetPort)
    end.

(** ** What the rules do *)

(** The lines of the rule file. *)
Example rules_as_written :
  show_rdr <$> rdr_rules 50001 50002 =
    ["rdr pass on lo0 inet proto udp from any to any port 53 -> 127.0.0.1 port 50002";
     "rdr pass on ! lo0 inet proto udp from any to any port 53 -> 127.0.0.1 port 50002";
     "rdr pass on lo0 inet proto tcp from any to ! <private_ips> -> 127.0.0.1 port 50001"] ∧
  show_pass <$> pass_rules =
    ["pass in quick on lo0 all";
     "pass out quick on lo0 all";
     "pass out quick proto icmp all keep state";
     "pass out quick proto icmp6 all keep state";
     "pass out quick to <private_ips> keep state";
     "pass in quick from <private_ips> to any keep state";
     "pass out quick user $vproxy_user keep state";
     "pass out quick inet proto tcp from any to any port $proxy_ports keep state";
     "pass out on ! lo0 route-to lo0 inet proto tcp from any to ! <private_ips> user != $vproxy_user flags S/SA keep state";
     "pass out on ! lo0 route-to lo0 inet proto udp from any to any port 53 user != $vproxy_user keep state"].
Proof. split; reflexivity. Qed.

(** The verdict of the rules. *)
Lemma outgoing_eq c k :
  outgoing c k =
    if String.eqb (k_user k) (c_user c) || is_private (k_dst k) || k_v6 k then Leaves
    else match k_proto k with
         | TCP => if bool_decide (k_dport k ∈ excludePorts c) then Leaves else Redirected (c_tcp c)
         | UDP => if k_dport k =? 53 then Redirected (c_dns c) else Leaves
         | _ => Leaves
         end.
Proof.
  assert (bool_decide (k_dport k ∈ ports_of c "53") = (k_dport k =? 53)) as E53.
  { change (ports_of c "53") with [53]. rewrite (bool_decide_ext _ _ (list_elem_of_singleton _ _)).
    destruct (Z.eqb_spec (k_dport k) 53); [by apply bool_decide_eq_true_2|by apply bool_decide_eq_false_2]. }
  unfold outgoing, translate, pass_rules, rdr_rules. cbn [decide_pass find fmap option_fmap option_map].
  unfold pass_matches. cbn [f_out f_on f_inet f_proto f_ends f_user f_quick f_route match_on match_ends match_who d_on d_proto d_ends d_port
    Bool.eqb negb andb].
  rewrite !E53. change (ports_of c "$proxy_ports") with (excludePorts c).
  destruct (k_user k =? c_user c)%string, (is_private (k_dst k)), (k_v6 k), (k_proto k) eqn:Ep;
    rewrite ?Ep; cbn [andb orb negb]; try reflexivity;
    destruct (bool_decide (k_dport k ∈ excludePorts c)), (k_dport k =? 53); reflexivity.
Qed.

(** A name server in the local network, the usual one, is not intercepted: its
    answers are no fake addresses. *)
Lemma local_dns_not_intercepted c k : is_private (k_dst k) = true → outgoing c k = Leaves.
Proof. intros H. rewrite outgoing_eq, H. by destruct (_ =? _)%string. Qed.

(** C11. pf steers connections as intended.  A flow that a local process opens over
    a physical interface is redirected to the TCP listener of the proxy if it is an
    IPv4 TCP connection to a public address and a port that is not one of the
    proxy's own, to the DNS listener if it is an IPv4 datagram to port 53 of a
    public address, and in no other case; a flow of the user the proxy runs as is
    never redirected, so that the proxy cannot be fed with its own connections. *)
Theorem pf_steering c k :
  (∀ p, outgoing c k = Redirected p ↔
     k_user k ≠ c_user c ∧ is_private (k_dst k) = false ∧ k_v6 k = false ∧
     ((k_proto k = TCP ∧ k_dport k ∉ excludePorts c ∧ p = c_tcp c) ∨
      (k_proto k = UDP ∧ k_dport k = 53 ∧ p = c_dns c))) ∧
  (k_user k = c_user c → outgoing c k = Leaves) ∧
  outgoing c k ≠ OnLoopback.
Proof.
  rewrite outgoing_eq. destruct (String.eqb_spec (k_user k) (c_user c)) as [Hu|Hu]; cbn [orb].
  { split_and!; [|done|done]. intros p. split; [done|tauto]. }
  destruct (is_private (k_dst k)), (k_v6 k); cbn [orb]; try (split_and!; [intros p; split; [done|naive_solver]|done|done]).
  destruct (k_proto k); [destruct (bool_decide _) eqn:Ee|destruct (Z.eqb_spec (k_dport k) 53)|..]; boolify;
    (split_and!; [intros p; split; naive_solver|done|done]).
Qed.

(** ** Nothing is left behind *)

Section Life.
Context (E : PfEnv).

Definition idle (s : darwin) : Prop :=
  localTransLn s = None ∧ localDNSLn s = None ∧ sockets s = [] ∧ anchor s = None ∧ pfEnabled s = false.

(** The open sockets are those the variables refer to, and rules are loaded only
    if the flag says so. *)
Definition referenced (s : darwin) : Prop :=
  (∀ n, n ∈ sockets s → localTransLn s = Some n ∨ localDNSLn s = Some n) ∧ (pfEnabled s = false → anchor s = None).
Definition any_exit (_ : option string) (s : darwin) : Prop := referenced s.

Lemma pf_sys_triple (P Q : darwin → Prop) c msg f :
  (∀ s, P s → P (called c s)) → (∀ s, P s → referenced s) → (∀ s, P s → Q (f s)) →
  triple P (sys c msg f) (λ _, Q) any_exit.
Proof.
  intros H1 H2 H3 s Hs. unfold sys. destruct (pf_fails _ _); [by apply H2, H1|by apply H3, H1].
Qed.

Lemma setupPF_triple (P : darwin → Prop) tcpP dnsP h so w :
  (∀ s, P s → referenced s) → (∀ c s, P s → P (called c s)) → (∀ f s, P s → P (set_host f s)) →
  triple P (setupPF tcpP dnsP h so w) (λ _, referenced) any_exit.
Proof.
  intros HP Hc Hh. unfold setupPF. cbn zeta.
  apply triple_bind with (λ _, P); [by apply pf_sys_triple; [apply Hc|apply HP|]|intros _].
  apply triple_bind with (λ _, P).
  { intros s Hs. unfold sys_. destruct (pf_fails _ _); [by apply Hc|by apply Hh, Hc]. }
  intros _ s Hs. unfold sys, sys_, upd, mbind, stm_bind. destruct (pf_fails _ PfctlLoad); [by apply HP, Hc|].
  destruct (HP _ Hs) as [Hr _]. by destruct (pf_fails _ WriteMain), (pf_fails _ PfctlMain); split; cbn.
Qed.

Lemma init_pool_keeps s : ∃ g, init_pool s = (Ok tt, set_pool g s).
Proof.
  unfold init_pool, FakeIP.InitGlobalPool. destruct (FakeIP.poolOnce (pool s)); [by eexists|].
  destruct (FakeIP.NewFakeIPPool "198.18.0.0/15") as [p| |] eqn:Ep; [by eexists|exfalso..];
    apply (f_equal is_ok) in Ep; vm_compute in Ep; discriminate.
Qed.

Lemma Start_referenced h so w : triple idle (StartDarwinTransparent h so w) (λ _, referenced) any_exit.
Proof.
  intros s (Ht & Hd & Hs & Ha & Hp). unfold StartDarwinTransparent, getDefaultInterface, mbind, stm_bind.
  set (s1 := (match (if pf_fails (dcalls s) RouteGet then None else iface_line (Strings.Split route_output "010")) with
              | Some i => upd (set_iface i) | None => mret tt end) (called RouteGet s)).
  assert (∃ s', s1 = (Ok tt, s') ∧ idle s') as (s' & E1 & Hi).
  { unfold s1. destruct (if pf_fails _ _ then _ else _) as [i|]; (eexists; split; [reflexivity|]); by split_and!. }
  rewrite E1. clear s1 E1 s Ht Hd Hs Ha Hp. destruct Hi as (Ht & Hd & Hs & Ha & Hp).
  destruct (init_pool_keeps s') as (g & ->).
  assert (∀ st : darwin, sockets st = [] → anchor st = None → any_exit None st) as Hre.
  { intros st H1 H2. split; [by rewrite H1; intros n ?%not_elem_of_nil|done]. }
  unfold listen at 1. unfold mbind, stm_bind, get_st, sys at 1. destruct (pf_fails _ ListenTCP); [by apply Hre|].
  cbn [mret stm_ret upd]. unfold listen, mbind, stm_bind, get_st, sys at 1.
  set (s2 := set_trans _ _). assert (referenced s2) as H2.
  { split; cbn; [rewrite Hs; intros n ->%list_elem_of_singleton; by left|done]. }
  destruct (pf_fails _ ListenUDP); [exact H2|]. cbn [mret stm_ret upd].
  match goal with |- context [setupPF ?a ?b h so w ?x] => pose proof (setupPF_triple (λ st, referenced st) a b h so w ltac:(done) ltac:(done) ltac:(done) x) as HT end.
  apply HT. split; cbn; [rewrite Hs|done]. intros n [->|[->|[]%not_elem_of_nil]%elem_of_cons]%elem_of_cons; [by right|by left].
Qed.

(** A start that succeeds. *)
Lemma Start_loaded h so w s s1 :
  idle s → StartDarwinTransparent h so w s = (Ok tt, s1) →
  ∃ ln udp, sockets s1 = [udp; ln] ∧ localTransLn s1 = Some ln ∧ localDNSLn s1 = Some udp ∧
    anchor s1 = Some (mkConf vproxyUser (port_of ln) (port_of udp) h so w).
Proof.
  intros (_ & _ & Hs & _ & _). unfold StartDarwinTransparent, getDefaultInterface, listen, setupPF, mbind, stm_bind.
  set (i := if pf_fails (dcalls s) RouteGet then None else _).
  assert (∃ s', match i with Some i => upd (set_iface i) | None => mret tt end (called RouteGet s) = (Ok tt, s') ∧ sockets s' = [])
    as (s' & -> & Hs'). { destruct i; eexists; by split. }
  destruct (init_pool_keeps s') as (g & ->). unfold get_st, sys, sys_, upd, mret, stm_ret.
  destruct (pf_fails _ ListenTCP); [done|]. destruct (pf_fails _ ListenUDP); [done|].
  destruct (pf_fails _ WriteConf); [done|]. destruct (pf_fails _ PfctlEnable);
    (destruct (pf_fails _ PfctlLoad); [done|]; destruct (pf_fails _ WriteMain), (pf_fails _ PfctlMain); intros [= <-]; cbn;
      exists (next s'), (S (next s')); by rewrite Hs').
Qed.

Definition flush_works : Prop := ∀ h, pf_fails h PfctlFlush = false.

Lemma close_eq o s :
  close o s = set_sockets (match o with Some n => filter (.≠ n) (sockets s) | None => sockets s end) s.
Proof. by destruct o, s. Qed.

Lemma Cleanup_restores s : flush_works → referenced s → ∃ s', Cleanup s = (Ok tt, s') ∧ idle s' ∧ host s' = host s.
Proof.
  intros Hf [Hr Ha]. unfold Cleanup, mbind, stm_bind, get_st, upd. rewrite !close_eq.
  set (s2 := set_dns None _).
  assert (sockets s2 = []) as Hs.
  { assert (∀ n, n ∉ sockets s2) as Hn; [|destruct (sockets s2) as [|n l] eqn:El; [done|exfalso; apply (Hn n); left]].
    unfold s2. cbn. intros n Hn. pose proof (Hr n) as Hrn.
    destruct (localDNSLn s) as [d|], (localTransLn s) as [tr|]; rewrite ?list_elem_of_filter in Hn; naive_solver. }
  destruct (pfEnabled s) eqn:Ep.
  - unfold sys_. rewrite Hf. eexists. split; [reflexivity|]. by split_and!.
  - eexists. split; [reflexivity|]. split; [|done]. split_and!; try done. by apply Ha.
Qed.

(** C12. The clean-up on macOS takes back what the start put up for itself.  From an
    idle state, whatever fails while the transparent proxy starts, the clean-up that
    follows closes every socket that was opened and removes the rules from the anchor
    of pf, provided that pfctl can flush the anchor; and a start that succeeds has
    loaded rules into the anchor that point to its own two listeners.  The rest of pf is
    left as the start made it: pf stays enabled and the main rules stay replaced
    ([main_rules_not_restored]). *)
Theorem darwin_restores h so w s :
  flush_works → idle s →
  (∃ s', Cleanup (StartDarwinTransparent h so w s).2 = (Ok tt, s') ∧ idle s' ∧
     host s' = host (StartDarwinTransparent h so w s).2) ∧
  (∀ s1, StartDarwinTransparent h so w s = (Ok tt, s1) →
     ∃ ln udp, sockets s1 = [udp; ln] ∧ localTransLn s1 = Some ln ∧ localDNSLn s1 = Some udp ∧
       anchor s1 = Some (mkConf vproxyUser (port_of ln) (port_of udp) h so w)).
Proof.
  intros Hf Hi. split.
  - apply Cleanup_restores; [done|]. pose proof (Start_referenced h so w s Hi) as H.
    by destruct (StartDarwinTransparent h so w s) as [[[]|e|] s1].
  - intros s1 H. by apply (Start_loaded h so w s).
Qed.

End Life.

(** ** Witness and defects *)

Definition ex_pf (bad : option dcall) : PfEnv := {|
  pf_fails := λ _ c, match bad, c with
    | Some PfctlLoad, PfctlLoad | Some ListenUDP, ListenUDP => true
    | _, _ => false end;
  route_output := "   route to: default" +:+ nl +:+ "  interface: en0" +:+ nl;
  current_user := Some "root";
  port_of := λ n, 50000 + Z.of_nat n |}.
Definition idle0 : darwin := mkDarwin "" false None None [] None
  (mkHost false ["scrub-anchor com.apple/*"; "anchor com.apple/*"] None) (FakeIP.mkGlobal false None) 0 [].

Lemma darwin_restores_witness :
  let s1 := (StartDarwinTransparent (E:=ex_pf None) 8118 0 8899 idle0).2 in
  anchor s1 = Some (mkConf "root" 50000 50001 8118 0 8899) ∧ ∃ s', Cleanup (E:=ex_pf None) s1 = (Ok tt, s') ∧ idle s' ∧ host s' = host s1.
Proof.
  cbn zeta. destruct (darwin_restores (ex_pf None) 8118 0 8899 idle0) as [H1 H2].
  - intros h. reflexivity.
  - by split_and!.
  - split; [|exact H1]. vm_compute. reflexivity.
Defined.

(** After a start and a clean-up pf runs although it did not before, and its main
    rules, which the start replaced by the two references to the anchor, are gone. *)
Lemma main_rules_not_restored :
  let s1 := (StartDarwinTransparent (E:=ex_pf None) 8118 0 8899 idle0).2 in
  let s2 := (Cleanup (E:=ex_pf None) s1).2 in
  idle s2 ∧ pf_on (host idle0) = false ∧ pf_on (host s2) = true ∧
  main_rules (host s2) = mainConf ∧ main_rules (host s2) ≠ main_rules (host idle0).
Proof. by vm_compute. Qed.

(** A start whose rules cannot be loaded returns an error and keeps its listeners
    open; the next start overwrites the references to them, and the clean-up then
    closes only the last two. *)
Lemma failed_start_leaks :
  let s1 := (StartDarwinTransparent (E:=ex_pf (Some PfctlLoad)) 8118 0 8899 idle0).2 in
  let s2 := (StartDarwinTransparent (E:=ex_pf None) 8118 0 8899 s1).2 in
  (StartDarwinTransparent (E:=ex_pf (Some PfctlLoad)) 8118 0 8899 idle0).1 = Err "pfctl loading anchor failed" ∧
  sockets s1 = [1; 0]%nat ∧ sockets (Cleanup (E:=ex_pf None) s2).2 = [1; 0]%nat.
Proof. vm_compute. done. Qed.

(** The flag pfEnabled is a variable of the process: the clean-up of another
    process, such as the command clean after the daemon was killed, does not touch
    rules that are still loaded. *)
Lemma other_process_keeps_rules (E : PfEnv) s :
  pfEnabled s = false → anchor (Cleanup s).2 = anchor s.
Proof.
  intros H. unfold Cleanup, mbind, stm_bind, get_st, upd. rewrite !close_eq, H. done.
Qed.

(** The structure has 88 bytes; the size encoded in DIOCNATLOOK, and named in the
    comment on the padding, is 84. *)
Lemma natlook_size client cport proxy pport dir :
  length (struct_bytes (natlook client cport proxy pport dir)) = 88%nat ∧
  Z.land (Z.shiftr 0xc0544417 16) 0x1fff = 84.
Proof.
  split; [|reflexivity]. unfold struct_bytes, natlook, into, zeros. cbn [Saddr Daddr Rsaddr Rdaddr Sxport Dxport Rsxport Rdxport Af Proto ProtoVar Direction Pad].
  rewrite !length_app, !length_take, !length_app, !length_replicate. cbn [length bytes fmap list_fmap]. lia.
Qed.

(** The target of an IPv6 connection is printed without brackets. *)
Lemma ipv6_target_unusable :
  let answer (q : pfiocNatlook) := Some (mkNl (Saddr q) (Daddr q) (Rsaddr q) (bytes [0x20; 1; 0xd; 0xb8; 0; 0; 0; 0; 0; 0; 0; 0; 0; 0; 0; 1])
    (Sxport q) (Dxport q) (Rsxport q) (bytes [1; 187; 0; 0]) (Af q) (Proto q) (ProtoVar q) (Direction q) (Pad q)) in
  let target := GetOriginalDst true true answer Net.IPv6loopback 50000 Net.IPv6loopback 10080 in
  target = Ok "2001:db8::1:443" ∧ Net.SplitHostPort "2001:db8::1:443" = None.
Proof. vm_compute. done. Qed.

(** The first direction that pf answers decides, and an IPv4 destination is
    reported as it stands in the state table. *)
Lemma GetOriginalDst_ipv4 ioctl client cport proxy pport r a b c d rest hi lo rest' :
  ioctl (natlook client cport proxy pport PF_OUT) = Some r ∨
    (ioctl (natlook client cport proxy pport PF_OUT) = None ∧ ioctl (natlook client cport proxy pport PF_IN) = Some r) →
  Af r = AF_INET → Rdaddr r = a :: b :: c :: d :: rest → Rdxport r = hi :: lo :: rest' →
  GetOriginalDst true true ioctl client cport proxy pport =
    Ok (Net.String_ (Net.IPv4 a b c d) +:+ ":" +:+ Strconv.Itoa (be16 hi lo)).
Proof.
  intros H Ha Hd Hp. unfold GetOriginalDst. cbn [negb].
  destruct H as [->|[-> ->]]; by rewrite Ha, Hd, Hp.
Qed.

End Darwin.
