(* ===== verification/Daemon.v ===== *)
(** * The daemon: RunServer of src/internal/app.go

    The start sequence, the life of the daemon (reloads of the configuration,
    requests to the web console, probes of the network, periodic and requested
    healings, in any order) and the shutdown, composed from the models of the parts.
    A call of Fatal is an error of the monad.

    Each event of the life runs to its end before the next one, and all of them run
    between the start and the shutdown.  The code has no lock that says so: SelfHeal
    is called by the start, by a timer and by the control socket, and
    [App.overlapping_heals_leak] shows two overlapping healings leave a collection
    behind.  The trace formatter of the console and the printed status are not part
    of the state. *)

From S2P Require Import Prelude GoStrings GoNet GoIO GoUrl FakeIP Router ServerManager Rewrite Config Listeners Ipc Bpf Ebpf Iptables Otel Web App Runtime.

Module Daemon.
Import App.

Inductive fatal := SocksFailed | HTTPFailed | TransparentFailed | HealFailed (e : string) | ReadyFailed.

(** What the start asks of its environment. *)
Record denv := mkDenv {
  de_dial : string → option conn; de_now : Z;          (* the first test of the upstreams *)
  de_heal : healing;                                   (* for SelfHeal and the shutdown *)
  de_ipc : option string * option string;              (* errors of the control socket *)
  de_mtime : option Z;                                 (* of the configuration file *)
  de_ready : option bool;                              (* VP_READY_FILE is set, and can be written *)
  de_web : bool;                                       (* the console finds its port free *)
  de_stdout : string * string * option bool;           (* NO_COLOR, TERM, and whether standard output is a terminal *)
  de_down : Iptables.Shell }.                          (* for the shutdown *)

Section Daemon.
Context `{RE : Rewrite.Regexp} `{LE : Listeners.LEnv} {OE : Otel.OtelEnv} {CC : Web.ConfigCodec}.

Record daemon := mkD {
  d_app : app;
  d_handler : Listeners.Handler; d_events : list Listeners.levent; d_pool : FakeIP.global;
  d_otel : Otel.otel; d_shutdown : option Otel.shutdown_fn;
  d_ipc : option Ipc.Life;
  d_lastMod : option Z;                     (* None: the file is not watched *)
  d_offline : bool;
  d_ready : bool; d_tun_cleanups : nat;
  d_config : Config.Config; d_file : list byte;   (* a.Config and the file *)
  d_web : option string }.                        (* the address the console listens on *)

Abbreviation dm := (stm daemon fatal).

Definition set_app a s := mkD a (d_handler s) (d_events s) (d_pool s) (d_otel s) (d_shutdown s) (d_ipc s) (d_lastMod s) (d_offline s) (d_ready s) (d_tun_cleanups s) (d_config s) (d_file s) (d_web s).
Definition set_handler h evs s := mkD (d_app s) h evs (d_pool s) (d_otel s) (d_shutdown s) (d_ipc s) (d_lastMod s) (d_offline s) (d_ready s) (d_tun_cleanups s) (d_config s) (d_file s) (d_web s).
Definition set_pool g s := mkD (d_app s) (d_handler s) (d_events s) g (d_otel s) (d_shutdown s) (d_ipc s) (d_lastMod s) (d_offline s) (d_ready s) (d_tun_cleanups s) (d_config s) (d_file s) (d_web s).
Definition set_otel g f s := mkD (d_app s) (d_handler s) (d_events s) (d_pool s) g f (d_ipc s) (d_lastMod s) (d_offline s) (d_ready s) (d_tun_cleanups s) (d_config s) (d_file s) (d_web s).
Definition set_ipc l s := mkD (d_app s) (d_handler s) (d_events s) (d_pool s) (d_otel s) (d_shutdown s) l (d_lastMod s) (d_offline s) (d_ready s) (d_tun_cleanups s) (d_config s) (d_file s) (d_web s).
Definition set_watch m s := mkD (d_app s) (d_handler s) (d_events s) (d_pool s) (d_otel s) (d_shutdown s) (d_ipc s) m (d_offline s) (d_ready s) (d_tun_cleanups s) (d_config s) (d_file s) (d_web s).
Definition set_ready s := mkD (d_app s) (d_handler s) (d_events s) (d_pool s) (d_otel s) (d_shutdown s) (d_ipc s) (d_lastMod s) (d_offline s) true (d_tun_cleanups s) (d_config s) (d_file s) (d_web s).

Definition set_web w s := mkD (d_app s) (d_handler s) (d_events s) (d_pool s) (d_otel s) (d_shutdown s) (d_ipc s) (d_lastMod s) (d_offline s) (d_ready s) (d_tun_cleanups s) (d_config s) (d_file s) w.

Definition modify (f : daemon → daemon) : dm unit := λ s, (Ok tt, f s).

(** The healing sees the current configuration, the current upstream and the port
    of the handler. *)
Definition healing_at (h : healing) (s : daemon) : healing :=
  mkHealing (hl_goos h) (hl_tun h) (hl_force_iptables h) (Config.EnableEbpf (d_config s)) (hl_permission h) (hl_cgroup h)
    (getBestUpstream (Listeners.sm (d_handler s))) (Listeners.TransPort (d_handler s)) (hl_kernel h) (hl_shell h).

(** ** Start *)

(** A listener whose failure is fatal. *)
Definition start_or (start : Listeners.op) (e : fatal) : dm unit := λ s,
  match start (d_handler s) (d_events s) with
  | (true, (h, evs)) => (Ok tt, set_handler h evs s)
  | (false, (h, evs)) => (Err e, set_handler h evs s)
  end.

Definition start_transparent : dm unit := λ s,
  match Listeners.StartTransparent (d_pool s) (d_handler s) (d_events s) with
  | (true, (h, evs), g) => (Ok tt, set_pool g (set_handler h evs s))
  | (false, (h, evs), g) => (Err TransparentFailed, set_pool g (set_handler h evs s))
  end.

Definition start_services (E : denv) (a : Listeners.Locals) (c : Config.Config) : dm unit :=
  modify (λ s,
    let s := set_pool (FakeIP.InitGlobalPool (d_pool s) "198.18.0.0/15").2 s in
    let h := Listeners.setupServices a c in
    let h := Listeners.set_managers h (ServerManager.testServers (de_dial E) (de_now E) <$> Listeners.sm h) (Listeners.rm h) in
    set_handler h (d_events s) s).

(** The goroutine of the console; nothing closes its listener. *)
Definition start_web (E : denv) : dm unit :=
  modify (λ s, set_web (if de_web E then Some (Web.listen_address (Config.WebPort (d_config s))) else None) s).

Definition start_otel (c : Config.Config) : dm unit :=
  modify (λ s,
    match Otel.InitOtelTracer (Config.Otel c) (d_otel s) with
    | (Ok f, g) => set_otel g (Some f) s
    | (_, g) => set_otel g None s
    end).

Definition start_ipc (E : denv) : dm unit :=
  modify (λ s,
    match Ipc.StartServer (de_ipc E).1 (de_ipc E).2 None "" with
    | (inr _, l) => set_ipc (Some l) s
    | (inl _, _) => set_ipc None s
    end).

Definition heal (h : healing) : dm unit := λ s,
  match SelfHeal (healing_at h s) (d_app s) with
  | (Ok _, a) => (Ok tt, set_app a s)
  | (Err e, a) => (Err (HealFailed e), set_app a s)
  | (Panic, a) => (Panic, set_app a s)
  end.

Definition signal_ready (E : denv) : dm unit := λ s,
  if String.eqb (hl_goos (de_heal E)) "windows" then
    match de_ready E with
    | Some true => (Ok tt, set_ready s)
    | Some false => (Err ReadyFailed, s)
    | None => (Ok tt, s)
    end
  else (Ok tt, s).

Definition print_ok (E : denv) : dm unit := λ s,
  let '(no_color, term, tty) := de_stdout E in
  match Runtime.PrintConnectivityOK no_color term tty with
  | Ok _ => (Ok tt, s)
  | _ => (Panic, s)
  end.

Definition start (E : denv) (a : Listeners.Locals) (c : Config.Config) : dm unit :=
  start_services E a c ;;
  start_web E ;;
  start_otel c ;;
  start_or Listeners.StartSocks SocksFailed ;;
  start_or Listeners.StartHTTP HTTPFailed ;;
  start_ipc E ;;
  s ← get_st;
  match tproxy_upstream (getBestUpstream (Listeners.sm (d_handler s))) with
  | Some _ => mret tt
  | None => start_transparent
  end ;;
  heal (de_heal E) ;;
  signal_ready E ;;
  print_ok E ;;
  modify (set_watch (de_mtime E)).

(** ** Life *)



(** ** Shutdown *)




(** ** Nothing is left behind *)

Section Restores.
Context (k0 : Ebpf.kern) (fw0 : Iptables.fw).



































End Restores.




End Daemon.

(** ** A run *)

#[local] Instance ex_lenv : Listeners.LEnv := {|
  Listeners.env_listen := λ evs addr, Some (40000 + Z.of_nat (length evs));
  Listeners.env_udp := λ _ _, Some None;
  Listeners.env_driver := "linux-redirect" |}.
#[local] Instance ex_otel : Otel.OtelEnv := {| Otel.exporter_fails := λ _ _, false; Otel.resource_fails := λ _ _, false |}.
#[local] Instance ex_codec : Web.ConfigCodec := {| Web.decode_config := λ _, None; Web.encode_config := λ _, None |}.



End Daemon.
