(* ===== verification/Icmp.v ===== *)
(** * Echo replies (src/proxy/tproxy/icmp.go and its two callers)

    Echo requests that enter the TUN device are answered by the program itself.
    The fields of the headers are those of RFC 791, 792, 4443 and 8200; what the
    source takes from gVisor beyond them (the extent of the payload, which may
    panic on an inconsistent header, and the checksums) is the class [Gvisor]. *)

From S2P Require Import Prelude Buffers.

Module Icmp.

Class Gvisor := {
  (** [IPv4.Payload] and [IPv6.Payload]: start and length; [None] is a panic *)
  v4_payload : list byte → option (nat * nat);
  v6_payload : list byte → option (nat * nat);
  (** [checksum.Checksum(b, 0)] *)
  Checksum : list byte → Z;
  (** [IPv4.CalculateChecksum] *)
  CalculateChecksum : list byte → Z;
  (** [ICMPv6Checksum] of header, source, destination, sum and length of the payload *)
  ICMPv6Checksum : list byte → list byte → list byte → Z → nat → Z
}.

Definition IPv4MinimumSize : nat := 20.
Definition IPv6MinimumSize : nat := 40.
Definition ICMPMinimumSize : nat := 8.

(** [^x] on 16 bits *)
Definition not16 (x : Z) : Z := 65535 - wrap16 x.

Section Gvisor.
Context {G : Gvisor}.

Definition handleICMPv4 (buf : list byte) : outcome unit (option (list byte)) :=
  if Nat.ltb (length buf) IPv4MinimumSize then Ok None
  else if negb (byte_at buf 9 =? 1) then Ok None
  else
    match v4_payload buf with
    | None => Panic
    | Some (st, n) =>
        if Nat.ltb n ICMPMinimumSize then Ok None
        else if negb (byte_at buf st =? 8) then Ok None
        else
          let r := put_at 16 (sub buf 12 4) (put_at 12 (sub buf 16 4) buf) in
          let r := put_at st (bytes [0]) r in
          let r := put_at (st + 2) (bytes [0; 0]) r in
          let r := put_at (st + 2) (put16 (Checksum (sub r st n))) r in
          let r := put_at 10 (bytes [0; 0]) r in
          let r := put_at 10 (put16 (CalculateChecksum r)) r in
          Ok (Some r)
    end.

Definition handleICMPv6 (buf : list byte) : outcome unit (option (list byte)) :=
  if Nat.ltb (length buf) IPv6MinimumSize then Ok None
  else if negb (byte_at buf 6 =? 58) then Ok None
  else
    match v6_payload buf with
    | None => Panic
    | Some (st, n) =>
        if Nat.ltb n ICMPMinimumSize then Ok None
        else if negb (byte_at buf st =? 128) then Ok None
        else
          let r := put_at 24 (sub buf 8 16) (put_at 8 (sub buf 24 16) buf) in
          let r := put_at st (bytes [129]) r in
          let r := put_at (st + 2) (bytes [0; 0]) r in
          let payload := sub r (st + 8) (n - 8) in
          let cksum := ICMPv6Checksum (sub r st 8) (sub r 8 16) (sub r 24 16)
                         (not16 (Checksum payload)) (length payload) in
          Ok (Some (put_at (st + 2) (put16 cksum) r))
    end.

(** Reply, version and whether the packet was handled. *)
Definition ProcessICMP (pkt : list byte) : outcome unit (option (list byte) * Z * bool) :=
  if Nat.ltb (length pkt) 1 then Ok (None, 0, false)
  else
    let version := Z.shiftr (byte_at pkt 0) 4 in
    reply ← (if version =? 4 then handleICMPv4 pkt
             else if version =? 6 then handleICMPv6 pkt else Ok None);
    mret (match reply with Some r => (Some r, version, true) | None => (None, version, false) end).

Definition AF_INET : Z := 2.

(** The packet written to the device, if the packet was an echo request. *)
Definition CheckAndWriteICMP (AF_INET6 : Z) (pkt : list byte) (offset : nat) : outcome unit (option (list byte)) :=
  r ← ProcessICMP pkt;
  match r with
  | (Some reply, version, true) =>
      let out := replicate offset (mk8 0) ++ reply in
      mret (Some (if Nat.ltb 0 offset
                  then put_at 0 (put32 (if version =? 6 then AF_INET6 else AF_INET)) out else out))
  | _ => mret None
  end.

(** What becomes of a packet from the device: on Linux in DeliverNetworkPacket, on
    Windows in bridgeTunWindows, which also chooses the protocol. *)
Inductive delivery := Answered (packet : list byte) | ToStack (v6 : bool) (pkt : list byte).

Definition DeliverNetworkPacket (protocol_v6 : bool) (pkt : list byte) : outcome unit delivery :=
  r ← CheckAndWriteICMP 10 pkt 0;
  mret (match r with Some p => Answered p | None => ToStack protocol_v6 pkt end).

(** One packet of bridgeTunWindows; an empty one is skipped. *)
Definition bridge_inbound (pkt : list byte) : outcome unit (option delivery) :=
  match pkt with
  | [] => Ok None
  | _ =>
      r ← CheckAndWriteICMP 23 pkt 0;
      mret (Some (match r with Some p => Answered p | None => ToStack (Z.shiftr (byte_at pkt 0) 4 =? 6) pkt end))
  end.

(** The other direction: every packet that the stack hands out is copied and written to
    the device by itself; [accepts] is the answer of the device, an error or a packet
    that it did not take is logged.  The loop ends when the end point is closed. *)
Fixpoint bridge_outbound (accepts : list (list byte) → list byte → bool) (written : list (list byte)) (out : list (list byte)) :
    list (list byte) :=
  match out with
  | [] => written
  | raw :: out => bridge_outbound accepts (if accepts written raw then written ++ [raw] else written) out
  end.

(** ** The replies *)

(** *** Packets, after the RFCs *)

Definition ver (pkt : list byte) : Z := Z.shiftr (byte_at pkt 0) 4.
(** RFC 791: the header length in words of 32 bits, and the total length. *)
Definition hlen4 (pkt : list byte) : nat := Z.to_nat (4 * Z.land (byte_at pkt 0) 15).
Definition tlen4 (pkt : list byte) : nat := Z.to_nat (256 * byte_at pkt 2 + byte_at pkt 3).
(** RFC 8200: the payload length. *)
Definition plen6 (pkt : list byte) : nat := Z.to_nat (256 * byte_at pkt 4 + byte_at pkt 5).

(** A packet with consistent lengths that carries an ICMP message of [n] bytes at [st]. *)
Inductive icmp_message (pkt : list byte) : Z → nat → nat → Prop :=
  | message4 : ver pkt = 4 → byte_at pkt 9 = 1 → (20 ≤ hlen4 pkt)%nat → (hlen4 pkt ≤ tlen4 pkt)%nat →
      (tlen4 pkt ≤ length pkt)%nat → icmp_message pkt 4 (hlen4 pkt) (tlen4 pkt - hlen4 pkt)
  | message6 : ver pkt = 6 → byte_at pkt 6 = 58 → (40 + plen6 pkt ≤ length pkt)%nat →
      icmp_message pkt 6 40 (plen6 pkt).

(** The protocol field of a complete header says ICMP. *)
Definition says_icmp (pkt : list byte) : Prop :=
  (ver pkt = 4 ∧ (20 ≤ length pkt)%nat ∧ byte_at pkt 9 = 1) ∨
  (ver pkt = 6 ∧ (40 ≤ length pkt)%nat ∧ byte_at pkt 6 = 58).

Definition echo_type (v : Z) : Z := if v =? 4 then 8 else 128.

(** More fragments follow, or the fragment offset is not 0. *)
Definition fragment4 (pkt : list byte) : Prop := Z.land (256 * byte_at pkt 6 + byte_at pkt 7) 0x3FFF ≠ 0.

(** A whole echo request of RFC 792 or RFC 4443. *)
Definition echo_request (pkt : list byte) (v : Z) (st : nat) : Prop :=
  ∃ n, icmp_message pkt v st n ∧ (8 ≤ n)%nat ∧ byte_at pkt st = echo_type v ∧ byte_at pkt (st + 1) = 0 ∧
    (v = 4 → ¬ fragment4 pkt).

(** ICMP of another type, or too short to be a request. *)
Definition other_message (pkt : list byte) : Prop :=
  ∃ v st n, icmp_message pkt v st n ∧ ((n < 8)%nat ∨ byte_at pkt st ≠ echo_type v).

(** Payload, for a header with consistent lengths, is what the lengths say. *)
Definition payload_law : Prop :=
  (∀ pkt, ver pkt = 4 → (20 ≤ hlen4 pkt)%nat → (hlen4 pkt ≤ tlen4 pkt)%nat → (tlen4 pkt ≤ length pkt)%nat →
     v4_payload pkt = Some (hlen4 pkt, tlen4 pkt - hlen4 pkt)%nat) ∧
  (∀ pkt, ver pkt = 6 → (40 + plen6 pkt ≤ length pkt)%nat → v6_payload pkt = Some (40, plen6 pkt)%nat).

(** The addresses at [a] and [b], [w] bytes each, are exchanged, the type at [st]
    is replaced, and outside of these, of the checksum of the message and of the
    bytes [c] nothing changes. *)
Definition echoes (a b w st : nat) (ty : Z) (c : list nat) (pkt r : list byte) : Prop :=
  length r = length pkt ∧ sub r a w = sub pkt b w ∧ sub r b w = sub pkt a w ∧ r !! st = Some (mk8 ty) ∧
  ∀ i, ¬ (a ≤ i < a + w)%nat → ¬ (b ≤ i < b + w)%nat → i ≠ st → i ≠ (st + 2)%nat → i ≠ (st + 3)%nat → i ∉ c →
    r !! i = pkt !! i.

(** The exchange of two fields of the same width. *)
Lemma swap_lookup a b w l i : (a + w ≤ b)%nat → (b + w ≤ length l)%nat →
  put_at b (sub l a w) (put_at a (sub l b w) l) !! i =
    if decide (a ≤ i < a + w)%nat then l !! (b + (i - a))%nat
    else if decide (b ≤ i < b + w)%nat then l !! (a + (i - b))%nat else l !! i.
Proof.
  intros Hab Hb. rewrite put_at_lookup by (rewrite length_put_at, ?length_sub by (rewrite ?length_sub; lia); lia).
  rewrite !length_sub by lia. rewrite put_at_lookup by (rewrite length_sub; lia). rewrite !length_sub by lia.
  rewrite !sub_lookup. repeat case_decide; done || lia.
Qed.

Lemma length_swap a b w l : (a + w ≤ b)%nat → (b + w ≤ length l)%nat →
  length (put_at b (sub l a w) (put_at a (sub l b w) l)) = length l.
Proof.
  intros Hab Hb. assert (length (put_at a (sub l b w) l) = length l) as E
    by (apply length_put_at; rewrite length_sub; lia).
  rewrite length_put_at; rewrite E; [done|]. rewrite length_sub; lia.
Qed.

Lemma echoes_intro a b w st ty c pkt r :
  (a + w ≤ b)%nat → (b + w ≤ st)%nat → (st + 4 ≤ length pkt)%nat → length r = length pkt →
  (∀ i, (i ∈ c → i < a)%nat) →
  (∀ i, i ≠ (st + 2)%nat → i ≠ (st + 3)%nat → i ∉ c →
     r !! i = if decide (i = st) then Some (mk8 ty)
              else put_at b (sub pkt a w) (put_at a (sub pkt b w) pkt) !! i) →
  echoes a b w st ty c pkt r.
Proof.
  intros Hab Hbst Hst Hl Hc Hr.
  assert (∀ i, (a ≤ i)%nat → i ∉ c) as Hnc by (intros i Hi Hin; apply Hc in Hin; lia).
  split_and!; [done|apply sub_eq; [lia..|]; intros i Hi|apply sub_eq; [lia..|]; intros i Hi| |].
  - rewrite Hr by (lia || apply Hnc; lia). rewrite decide_False by lia. rewrite swap_lookup by lia.
    rewrite decide_True by lia. f_equal. lia.
  - rewrite Hr by (lia || apply Hnc; lia). rewrite decide_False by lia. rewrite swap_lookup by lia.
    rewrite decide_False, decide_True by lia. f_equal. lia.
  - rewrite Hr by (lia || apply Hnc; lia). by rewrite decide_True.
  - intros i H1 H2 H3 H4 H5 H6. rewrite Hr by done. rewrite decide_False by done. rewrite swap_lookup by lia.
    by rewrite !decide_False.
Qed.

Lemma handleICMPv4_reply pkt st n :
  byte_at pkt 9 = 1 → v4_payload pkt = Some (st, n) → (20 ≤ st)%nat → (st + n ≤ length pkt)%nat → (8 ≤ n)%nat →
  byte_at pkt st = 8 → ∃ r, handleICMPv4 pkt = Ok (Some r) ∧ echoes 12 16 4 st 0 [10; 11]%nat pkt r.
Proof.
  intros H9 Ep H1 H2 Hn H8. unfold handleICMPv4, IPv4MinimumSize, ICMPMinimumSize.
  rewrite (proj2 (Nat.ltb_ge _ 20)), H9, Ep, (proj2 (Nat.ltb_ge _ 8)), H8 by lia. cbn [Z.eqb Pos.eqb negb].
  cbn zeta. eexists. split; [reflexivity|].
  set (s := put_at 16 _ _). assert (length s = length pkt) as Hs by (apply (length_swap 12 16 4); lia).
  apply echoes_intro; [lia..| | |].
  - put_len.
  - intros i Hi. rewrite !elem_of_cons in Hi. pose proof (not_elem_of_nil i). naive_solver lia.
  - intros i Hi1 Hi2 Hc. assert (i ≠ 10 ∧ i ≠ 11)%nat as [Hc1 Hc2] by (split; intros ->; apply Hc; repeat constructor).
    change (put_at _ _ (put_at _ _ pkt)) with s. clearbody s. unfold bytes. buffers (length pkt).
    repeat case_decide; try lia; try done. subst i. by rewrite Nat.sub_diag.
Qed.

Lemma handleICMPv6_reply pkt st n :
  byte_at pkt 6 = 58 → v6_payload pkt = Some (st, n) → (40 ≤ st)%nat → (st + n ≤ length pkt)%nat → (8 ≤ n)%nat →
  byte_at pkt st = 128 → ∃ r, handleICMPv6 pkt = Ok (Some r) ∧ echoes 8 24 16 st 129 [] pkt r.
Proof.
  intros H9 Ep H1 H2 Hn H8. unfold handleICMPv6, IPv6MinimumSize, ICMPMinimumSize.
  rewrite (proj2 (Nat.ltb_ge _ 40)), H9, Ep, (proj2 (Nat.ltb_ge _ 8)), H8 by lia. cbn [Z.eqb Pos.eqb negb].
  cbn zeta. eexists. split; [reflexivity|].
  set (s := put_at 24 _ _). assert (length s = length pkt) as Hs by (apply (length_swap 8 24 16); lia).
  apply echoes_intro; [lia..| | |].
  - put_len.
  - by intros i Hi%not_elem_of_nil.
  - intros i Hi1 Hi2 _. change (put_at _ _ (put_at _ _ pkt)) with s. clearbody s. unfold bytes. buffers (length pkt).
    repeat case_decide; try lia; try done. subst i. by rewrite Nat.sub_diag.
Qed.

Definition answers (v : Z) (st : nat) : list byte → list byte → Prop :=
  if v =? 4 then echoes 12 16 4 st 0 [10; 11]%nat else echoes 8 24 16 st 129 [].

(** Every message of the type of a request is answered, fragment or not. *)
Lemma ProcessICMP_request pkt v st n :
  payload_law → icmp_message pkt v st n → (8 ≤ n)%nat → byte_at pkt st = echo_type v →
  ∃ r, ProcessICMP pkt = Ok (Some r, v, true) ∧ answers v st pkt r.
Proof.
  intros [H4 H6] Hm Hn Ht. unfold ProcessICMP. fold (ver pkt).
  rewrite (proj2 (Nat.ltb_ge _ _)) by (destruct Hm; lia). cbn zeta.
  destruct Hm as [Hv Hp Hh Ht4 Hl|Hv Hp Hl]; rewrite Hv; cbn [Z.eqb Pos.eqb].
  - destruct (handleICMPv4_reply pkt (hlen4 pkt) (tlen4 pkt - hlen4 pkt)) as (r & -> & He); eauto with lia.
  - destruct (handleICMPv6_reply pkt 40 (plen6 pkt)) as (r & -> & He); eauto with lia.
Qed.

Lemma ProcessICMP_other pkt :
  payload_law → ¬ says_icmp pkt ∨ other_message pkt → ∃ v, ProcessICMP pkt = Ok (None, v, false).
Proof.
  intros [L4 L6] Hno. unfold ProcessICMP. destruct (Nat.ltb (length pkt) 1); [eauto|]. cbn zeta. fold (ver pkt).
  assert (∀ v st n, icmp_message pkt v st n → ver pkt = v) as Hver by (by intros ??? []).
  destruct (Z.eqb_spec (ver pkt) 4) as [E4|N4]; [|destruct (Z.eqb_spec (ver pkt) 6) as [E6|N6]; [|eauto]].
  - enough (handleICMPv4 pkt = Ok None) as -> by eauto. unfold handleICMPv4, IPv4MinimumSize, ICMPMinimumSize.
    destruct (Nat.ltb_spec (length pkt) 20); [done|]. destruct (Z.eqb_spec (byte_at pkt 9) 1) as [E9|]; [|done]. cbn [negb].
    destruct Hno as [Hno|(v & st & n & Hm & Hor)]; [destruct Hno; by left|]. pose proof (Hver _ _ _ Hm) as <-.
    rewrite E4 in Hor, Hm. inversion Hm as [Hv Hp Hh Ht Hl|]; subst. rewrite L4 by done.
    destruct (Nat.ltb_spec (tlen4 pkt - hlen4 pkt) 8); [done|]. destruct Hor as [?|Hor]; [lia|].
    by rewrite (proj2 (Z.eqb_neq _ 8) Hor).
  - enough (handleICMPv6 pkt = Ok None) as -> by eauto. unfold handleICMPv6, IPv6MinimumSize, ICMPMinimumSize.
    destruct (Nat.ltb_spec (length pkt) 40); [done|]. destruct (Z.eqb_spec (byte_at pkt 6) 58) as [E9|]; [|done]. cbn [negb].
    destruct Hno as [Hno|(v & st & n & Hm & Hor)]; [destruct Hno; by right|]. pose proof (Hver _ _ _ Hm) as <-.
    rewrite E6 in Hor, Hm. inversion Hm as [|Hv Hp Hl]; subst. rewrite L6 by done.
    destruct (Nat.ltb_spec (plen6 pkt) 8); [done|]. destruct Hor as [?|Hor]; [lia|].
    by rewrite (proj2 (Z.eqb_neq _ 128) Hor).
Qed.

(** C38. Echo requests are answered on the spot.  A packet from the TUN device, on Linux
    or Windows, that is a whole (not fragmented) echo request of RFC 792 or RFC 4443
    in a packet whose header and length fields agree with its size is answered with a
    packet of the same length in which the addresses are exchanged and the type is that
    of the echo reply; identifier, sequence number and data are as in the request, and
    nothing changes but the checksums (of which the one of IPv4 is wrong,
    [echo_checksum_wrong]).  A packet whose protocol is not ICMP, or that carries an
    ICMP message of another type or of less than eight bytes, goes to the network stack
    unchanged.  gVisor is assumed to cut the payload where consistent lengths say.  The
    statement leaves out what the program does not handle well: fragments, which are
    answered when they look like a request ([fragment_answered]), and ICMP packets with
    inconsistent lengths, which make Payload panic ([inconsistent_panics]). *)
Theorem echo_reply (protocol_v6 : bool) (pkt : list byte) :
  payload_law →
  (∀ v st, echo_request pkt v st →
     ∃ r, DeliverNetworkPacket protocol_v6 pkt = Ok (Answered r) ∧
       bridge_inbound pkt = Ok (Some (Answered r)) ∧ answers v st pkt r) ∧
  (¬ says_icmp pkt ∨ other_message pkt →
     DeliverNetworkPacket protocol_v6 pkt = Ok (ToStack protocol_v6 pkt) ∧
     (pkt ≠ [] → bridge_inbound pkt = Ok (Some (ToStack (ver pkt =? 6) pkt)))).
Proof.
  intros Hlaw. unfold DeliverNetworkPacket, bridge_inbound, CheckAndWriteICMP. split.
  - intros v st (n & Hm & Hn & Ht & _). destruct (ProcessICMP_request pkt v st n Hlaw Hm Hn Ht) as (r & -> & Ha).
    exists r. split; [done|]. split; [|done]. destruct pkt; [|done]. destruct Hm; cbn in *; lia.
  - intros Hno. destruct (ProcessICMP_other pkt Hlaw Hno) as [v ->]. split; [done|]. by destruct pkt.
Qed.

(** Where Payload panics, so does the loop that reads the device. *)
Lemma payload_panics (protocol_v6 : bool) (pkt : list byte) :
  ver pkt = 4 → (20 ≤ length pkt)%nat → byte_at pkt 9 = 1 → v4_payload pkt = None →
  DeliverNetworkPacket protocol_v6 pkt = Panic.
Proof.
  intros Hv Hl H9 Hp. unfold DeliverNetworkPacket, CheckAndWriteICMP, ProcessICMP. fold (ver pkt).
  rewrite (proj2 (Nat.ltb_ge _ 1)), Hv by lia. cbn [Z.eqb Pos.eqb]. unfold handleICMPv4, IPv4MinimumSize.
  rewrite (proj2 (Nat.ltb_ge _ 20)), H9, Hp by lia. done.
Qed.

End Gvisor.

(** The header lengths of RFC 791 and 8200 without extension headers, and the sum
    of RFC 1071, which [checksum.Checksum] returns without complementing it. *)
Fixpoint ocsum (l : list byte) (acc : Z) : Z :=
  match l with
  | x :: y :: l => let s := acc + (u8 x * 256 + u8 y) in ocsum l (if 65535 <? s then s - 65535 else s)
  | [x] => let s := acc + u8 x * 256 in if 65535 <? s then s - 65535 else s
  | [] => acc
  end.

Definition example_gvisor : Gvisor := {|
  v4_payload b :=
    let hl := Z.to_nat (Z.land (byte_at b 0) 15 * 4) in
    let tl := Z.to_nat (byte_at b 2 * 256 + byte_at b 3) in
    if Nat.leb hl tl && Nat.leb tl (length b) then Some (hl, tl - hl)%nat else None;
  v6_payload b :=
    let n := Z.to_nat (byte_at b 4 * 256 + byte_at b 5) in
    if Nat.leb (40 + n) (length b) then Some (40, n)%nat else None;
  Checksum b := ocsum b 0;
  CalculateChecksum b := ocsum (sub b 0 20) 0;
  ICMPv6Checksum h s d c n := not16 (ocsum (h ++ s ++ d ++ put16 (Z.of_nat n + 8) ++ put16 58 ++ put16 c) 0)
|}.

(** A request from 10.0.0.2 to 1.1.1.1 with a right ICMP checksum. *)
Definition ping : list byte :=
  bytes [69; 0; 0; 28; 0; 0; 0; 0; 64; 1; 0; 0; 10; 0; 0; 2; 1; 1; 1; 1; 8; 0; 247; 253; 0; 1; 0; 1].

Lemma example_payload_law : payload_law (G := example_gvisor).
Proof.
  split; cbn [v4_payload v6_payload example_gvisor]; intros pkt Hv.
  - unfold hlen4, tlen4. rewrite (Z.mul_comm 4), (Z.mul_comm 256). intros H1 H2 H3.
    by rewrite !(proj2 (Nat.leb_le _ _)) by lia.
  - unfold plen6. rewrite (Z.mul_comm 256). intros H. by rewrite (proj2 (Nat.leb_le _ _)) by lia.
Defined.

Lemma echo_reply_witness :
  ∃ r, DeliverNetworkPacket (G := example_gvisor) false ping = Ok (Answered r) ∧
    bridge_inbound (G := example_gvisor) ping = Ok (Some (Answered r)) ∧ answers 4 20 ping r.
Proof.
  apply (proj1 (echo_reply (G := example_gvisor) false ping example_payload_law) 4 20%nat).
  exists 8%nat. split; [apply (message4 ping); vm_compute; (reflexivity || lia)|].
  split; [lia|]. split; [reflexivity|]. split; [reflexivity|]. intros _ H. by apply H.
Defined.

(** A fragment in the middle of a datagram (offset 8) whose data begins with a byte 8 is
    answered as if it were a request: the byte, which is data, is overwritten. *)
Lemma fragment_answered :
  let pkt := bytes [69; 0; 0; 28; 0; 0; 0; 1; 64; 1; 0; 0; 10; 0; 0; 2; 1; 1; 1; 1; 8; 7; 6; 5; 4; 3; 2; 1] in
  fragment4 pkt ∧ ∃ r, DeliverNetworkPacket (G := example_gvisor) false pkt = Ok (Answered r) ∧ byte_at r 20 = 0.
Proof. split; [by vm_compute|]. eexists. by vm_compute. Qed.

(** An ICMP packet whose total length exceeds its size. *)
Lemma inconsistent_panics :
  DeliverNetworkPacket (G := example_gvisor) false
    (bytes [69; 0; 0; 29; 0; 0; 0; 0; 64; 1; 0; 0; 10; 0; 0; 2; 1; 1; 1; 1; 8; 0; 247; 253; 0; 1; 0; 1]) = Panic.
Proof. apply payload_panics; vm_compute; (reflexivity || lia). Qed.

(** Packets reach the device in order and unchanged, and all of them if it takes them. *)
Lemma bridge_outbound_order accepts out : ∀ written,
  (∃ taken, bridge_outbound accepts written out = written ++ taken ∧ taken `sublist_of` out) ∧
  ((∀ w p, accepts w p = true) → bridge_outbound accepts written out = written ++ out).
Proof.
  induction out as [|raw out IH]; intros written; cbn; [split; [exists []|]; by rewrite app_nil_r|].
  destruct (IH (if accepts written raw then written ++ [raw] else written)) as [(taken & Ht & Hs) Ha]. split.
  - rewrite Ht. destruct (accepts written raw); [exists (raw :: taken)|exists taken].
    + rewrite <- app_assoc. split; [done|by constructor].
    + split; [done|by constructor].
  - intros Hall. rewrite Ha by done. rewrite Hall. by rewrite <- app_assoc.
Qed.

(** The checksum of the ICMP message is stored without being complemented: the
    request sums up to 0xFFFF, as RFC 1071 wants it, and the reply does not. *)
Lemma echo_checksum_wrong :
  ocsum (sub ping 20 8) 0 = 65535 ∧
  ∃ r, handleICMPv4 (G := example_gvisor) ping = Ok (Some r) ∧ ocsum (sub r 20 8) 0 ≠ 65535.
Proof.
  split; [vm_compute; reflexivity|]. eexists. split; [vm_compute; reflexivity|]. vm_compute. congruence.
Qed.

End Icmp.
