(* ===== verification/WinNotify.v ===== *)
(** * Change notifications of Windows
    (src/internal/winipcfg/interface_change_handler.go, route_change_handler.go,
    unicast_address_change_handler.go)

    The three files are the same program over different rows.  Register, Unregister
    and the function that Windows calls run in threads of their own and interleave
    at every lock, wait and system call; each callback runs in a goroutine of its
    own.  What a lock protects is one step.  The object that Register returns is
    named after the thread that ran it. *)

From S2P Require Import Prelude.

Module WinNotify.

(** ** State *)

(** Where a thread stands; a flag is the result, or [removeIt] of Unregister. *)
Inductive pc :=
  | R0 | R1 | R2 | R3 (ok : bool) | R4 (ok : bool)                 (* Register *)
  | U0 (cb : nat) | U1 (cb : nat) | U2 (cb : nat)                  (* Unregister *)
  | U3 (cb : nat) (removeIt : bool) | U4 (cb : nat) (removeIt : bool)
  | U5 (cb : nat) (removeIt : bool) | U6 (cb : nat) (ok : bool)
  | N0 | N1 | N2.                                                  (* interfaceChanged *)

(** [owner] is the callback goroutine a thread runs in, if any. *)
Record thread := mkThread { at_ : pc; owner : option nat }.

Record sys := mkSys {
  addRemoveMutex : option nat; changeMutex : option nat;           (* holders *)
  callbacks : gset nat;                                            (* the map's keys *)
  handle : Z;                                                      (* 0: none *)
  wait : gmap nat Z;                                               (* the wait groups *)
  pool : gmap nat thread;
  running : list (nat * nat);                                      (* goroutine, callback *)
  next : nat;                                                      (* its next name *)
  os : gset Z;                                                     (* registrations Windows holds *)
  issued : gset nat;                                               (* returned by Register *)
  gone : gset nat }.                                               (* Unregister has returned *)

Definition set_ar (o : option nat) (s : sys) : sys :=
  mkSys o (changeMutex s) (callbacks s) (handle s) (wait s) (pool s) (running s) (next s) (os s) (issued s) (gone s).
Definition set_m (o : option nat) (s : sys) : sys :=
  mkSys (addRemoveMutex s) o (callbacks s) (handle s) (wait s) (pool s) (running s) (next s) (os s) (issued s) (gone s).
Definition set_callbacks (c : gset nat) (s : sys) : sys :=
  mkSys (addRemoveMutex s) (changeMutex s) c (handle s) (wait s) (pool s) (running s) (next s) (os s) (issued s) (gone s).
Definition set_handle (h : Z) (o : gset Z) (s : sys) : sys :=
  mkSys (addRemoveMutex s) (changeMutex s) (callbacks s) h (wait s) (pool s) (running s) (next s) o (issued s) (gone s).
Definition set_pool (p : gmap nat thread) (s : sys) : sys :=
  mkSys (addRemoveMutex s) (changeMutex s) (callbacks s) (handle s) (wait s) p (running s) (next s) (os s) (issued s) (gone s).
Definition set_running (w : gmap nat Z) (r : list (nat * nat)) (n : nat) (s : sys) : sys :=
  mkSys (addRemoveMutex s) (changeMutex s) (callbacks s) (handle s) w (pool s) r n (os s) (issued s) (gone s).
Definition set_issued (i g : gset nat) (s : sys) : sys :=
  mkSys (addRemoveMutex s) (changeMutex s) (callbacks s) (handle s) (wait s) (pool s) (running s) (next s) (os s) i g.

Definition goto (t : nat) (th : thread) (p : pc) (s : sys) : sys :=
  set_pool (<[t := mkThread p (owner th)]> (pool s)) s.
Definition finish (t : nat) (s : sys) : sys := set_pool (delete t (pool s)) s.

(** ** What the locks protect *)

(** The body of RegisterInterfaceChangeCallback; [answer] is what
    notifyIPInterfaceChange returns: a handle, or an error. *)
Definition Register (answer : option Z) (t : nat) (s : sys) : bool * sys :=
  let s := set_callbacks ({[t]} ∪ callbacks s) s in
  if handle s =? 0 then
    match answer with
    | Some h => (true, set_handle h ({[h]} ∪ os s) s)
    | None => (false, set_handle 0 (os s) (set_callbacks (callbacks s ∖ {[t]}) s))
    end
  else (true, s).

(** Unregister until it gives up interfaceChangeMutex. *)
Definition Unregister (cb : nat) (s : sys) : bool * sys :=
  let s := set_callbacks (callbacks s ∖ {[cb]}) s in
  (bool_decide (callbacks s = ∅) && negb (handle s =? 0), s).

(** The end of Unregister; [ok] is the answer of cancelMibChangeNotify2. *)
Definition cancel (removeIt ok : bool) (s : sys) : bool * sys :=
  if removeIt then
    if ok then (true, set_handle 0 (os s ∖ {[handle s]}) s) else (false, s)
  else (true, s).

(** The loop of interfaceChanged: [wait.Add(1)] and a goroutine per callback. *)
Definition start (s : sys) (cb : nat) : sys :=
  set_running (<[cb := default 0 (wait s !! cb) + 1]> (wait s)) ((next s, cb) :: running s) (S (next s)) s.
Definition interfaceChanged (s : sys) : sys := foldl start s (elements (callbacks s)).

(** The end of a callback: [cb.wait.Done()]. *)
Definition callback_done (g cb : nat) (s : sys) : sys :=
  set_running (<[cb := default 0 (wait s !! cb) - 1]> (wait s)) (filter (λ p, p.1 ≠ g) (running s)) (next s) s.

(** The other two files. *)
Definition RegisterRouteChangeCallback := Register.
Definition RegisterUnicastAddressChangeCallback := Register.
Definition UnregisterRoute := Unregister.
Definition UnregisterUnicastAddress := Unregister.
Definition routeChanged := interfaceChanged.
Definition unicastAddressChanged := interfaceChanged.

(** ** Threads *)

Definition notifying (p : pc) : bool := match p with N0 | N1 | N2 => true | _ => false end.
Definition no_notification (s : sys) : bool :=
  bool_decide (map_Forall (λ _ th, notifying (at_ th) = false) (pool s)).

(** One step of thread [t]; [None] when it cannot move.  [answer] is what Windows
    answers, if it is asked; cancelling returns after pending notifications. *)
Definition exec (answer : option Z) (t : nat) (s : sys) : option sys :=
  match pool s !! t with
  | None => None
  | Some th =>
      match at_ th with
      | R0 => if addRemoveMutex s then None else Some (goto t th R1 (set_ar (Some t) s))
      | R1 => if changeMutex s then None else Some (goto t th R2 (set_m (Some t) s))
      | R2 => let '(ok, s) := Register answer t s in Some (goto t th (R3 ok) s)
      | R3 ok => Some (goto t th (R4 ok) (set_m None s))
      | R4 ok => Some (finish t (set_issued (if ok then {[t]} ∪ issued s else issued s) (gone s) (set_ar None s)))
      | U0 cb => if addRemoveMutex s then None else Some (goto t th (U1 cb) (set_ar (Some t) s))
      | U1 cb => if changeMutex s then None else Some (goto t th (U2 cb) (set_m (Some t) s))
      | U2 cb => let '(removeIt, s) := Unregister cb s in Some (goto t th (U3 cb removeIt) s)
      | U3 cb removeIt => Some (goto t th (U4 cb removeIt) (set_m None s))
      | U4 cb removeIt =>
          if default 0 (wait s !! cb) =? 0 then Some (goto t th (U5 cb removeIt) s) else None
      | U5 cb removeIt =>
          if removeIt && bool_decide (answer ≠ None) && negb (no_notification s) then None
          else let '(ok, s) := cancel removeIt (bool_decide (answer ≠ None)) s in Some (goto t th (U6 cb ok) s)
      | U6 cb ok => Some (finish t (set_issued (issued s) ({[cb]} ∪ gone s) (set_ar None s)))
      | N0 => if changeMutex s then None else Some (goto t th N1 (set_m (Some t) s))
      | N1 => Some (goto t th N2 (interfaceChanged s))
      | N2 => Some (finish t (set_m None s))
      end
  end.

(** The program with its environment: callers of Register, and of Unregister on a
    callback that Register returned, alone or from inside a callback; Windows
    notifies while a registration exists; a callback ends when it is not inside of
    such a call. *)
Definition spawn (t : nat) (p : pc) (o : option nat) (s : sys) : sys := set_pool (<[t := mkThread p o]> (pool s)) s.
Definition idle_goroutine (g : nat) (s : sys) : Prop := ∀ t th, pool s !! t = Some th → owner th ≠ Some g.

Inductive step : sys → sys → Prop :=
  | step_exec answer t s s' : (∀ h, answer = Some h → h ≠ 0) → exec answer t s = Some s' → step s s'
  | step_register t o s : pool s !! t = None → t ∉ issued s → step s (spawn t R0 o s)
  | step_unregister t cb o s : pool s !! t = None → cb ∈ issued s → step s (spawn t (U0 cb) o s)
  | step_notify t s : pool s !! t = None → os s ≠ ∅ → step s (spawn t N0 None s)
  | step_done g cb s : (g, cb) ∈ running s → idle_goroutine g s → step s (callback_done g cb s).

Definition initial : sys := mkSys None None ∅ 0 ∅ ∅ [] 0 ∅ ∅ ∅.
Definition reachable (s : sys) : Prop := rtc step initial s.

(** ** The invariant *)

Definition holds_ar (p : pc) : bool :=
  match p with R1 | R2 | R3 _ | R4 _ | U1 _ | U2 _ | U3 _ _ | U4 _ _ | U5 _ _ | U6 _ _ => true | _ => false end.
Definition holds_m (p : pc) : bool :=
  match p with R2 | R3 _ | U2 _ | U3 _ _ | N1 | N2 => true | _ => false end.

(** The goroutines that run callback [cb]. *)
Definition live (cb : nat) (s : sys) : list (nat * nat) := filter (λ p, p.2 = cb) (running s).

Definition silent (cb : nat) (s : sys) : Prop := cb ∉ callbacks s ∧ live cb s = [].

Definition emptied (removeIt : bool) (s : sys) : Prop := removeIt = true → callbacks s = ∅ ∧ handle s ≠ 0.

Definition locks (s : sys) (t : nat) (p : pc) : Prop :=
  (holds_ar p = true ↔ addRemoveMutex s = Some t) ∧ (holds_m p = true ↔ changeMutex s = Some t).

Definition place (s : sys) (t : nat) (p : pc) : Prop :=
  match p with
  | R0 | R1 | R2 | R3 _ | R4 _ => t ∉ issued s
  | U0 cb | U1 cb | U2 cb => cb ∈ issued s
  | U3 cb r | U4 cb r => cb ∈ issued s ∧ cb ∉ callbacks s ∧ emptied r s
  | U5 cb r => cb ∈ issued s ∧ silent cb s ∧ emptied r s
  | U6 cb _ => cb ∈ issued s ∧ silent cb s
  | N0 | N1 | N2 => True
  end.

Definition counted (s : sys) : Prop :=
  NoDup (running s).*1 ∧ (∀ g cb, (g, cb) ∈ running s → (g < next s)%nat) ∧
  ∀ cb, default 0 (wait s !! cb) = Z.of_nat (length (live cb s)).

Definition served (s : sys) : Prop :=
  os s = (if handle s =? 0 then ∅ else {[handle s]}) ∧ (callbacks s ≠ ∅ → handle s ≠ 0).

Record inv (s : sys) : Prop := mkInv {
  inv_ar : ∀ t, addRemoveMutex s = Some t → is_Some (pool s !! t);
  inv_m : ∀ t, changeMutex s = Some t → is_Some (pool s !! t);
  inv_threads : ∀ t th, pool s !! t = Some th → locks s t (at_ th) ∧ place s t (at_ th);
  inv_counted : counted s;
  inv_served : served s;
  inv_gone : ∀ cb, cb ∈ gone s → cb ∈ issued s ∧ silent cb s }.

(** What a step of [t] leaves to the other threads. *)
Record frame (t : nat) (s s' : sys) : Prop := mkFrame {
  fr_ar : ∀ t', t' ≠ t → (addRemoveMutex s' = Some t' ↔ addRemoveMutex s = Some t');
  fr_m : ∀ t', t' ≠ t → (changeMutex s' = Some t' ↔ changeMutex s = Some t');
  fr_issued : issued s ⊆ issued s' ∧ ∀ t', t' ≠ t → t' ∉ issued s → t' ∉ issued s';
  fr_callbacks : ∀ cb, cb ∈ issued s → cb ∉ callbacks s → cb ∉ callbacks s';
  fr_emptied : ∀ t' r, t' ≠ t → addRemoveMutex s = Some t' → emptied r s → emptied r s';
  fr_live : ∀ cb, silent cb s → live cb s' = [] }.

Lemma place_frame t s s' t' p :
  frame t s s' → t' ≠ t → locks s t' p → place s t' p → locks s' t' p ∧ place s' t' p.
Proof.
  intros [Ha Hm [Hi Hi'] Hc He Hl] Ht [La Lm] Hp. split.
  { split; [rewrite (Ha t' Ht); exact La|rewrite (Hm t' Ht); exact Lm]. }
  destruct p; cbn [place holds_ar] in *; eauto.
  all: assert (addRemoveMutex s = Some t') as Har by (by apply La).
  all: unfold silent in *; naive_solver.
Qed.

Lemma inv_step t s s' :
  inv s → frame t s s' →
  (∀ t', t' ≠ t → pool s' !! t' = pool s !! t') →
  (addRemoveMutex s' = Some t ∨ changeMutex s' = Some t → is_Some (pool s' !! t)) →
  (∀ th, pool s' !! t = Some th → locks s' t (at_ th) ∧ place s' t (at_ th)) →
  counted s' → served s' →
  (∀ cb, cb ∈ gone s' → cb ∈ gone s ∨ (cb ∈ issued s' ∧ silent cb s')) →
  inv s'.
Proof.
  intros Hi Hf Hp Hl Ht Hc Hs Hg. split; [| | |done|done|].
  - intros t' Ht'. destruct (decide (t' = t)) as [->|Hne]; [by apply Hl; left|].
    rewrite Hp by done. apply (inv_ar s Hi). by apply (fr_ar t s s' Hf).
  - intros t' Ht'. destruct (decide (t' = t)) as [->|Hne]; [by apply Hl; right|].
    rewrite Hp by done. apply (inv_m s Hi). by apply (fr_m t s s' Hf).
  - intros t' th Ht'. destruct (decide (t' = t)) as [->|Hne]; [by apply Ht|].
    rewrite Hp in Ht' by done. destruct (inv_threads s Hi t' th Ht'). by apply (place_frame t s).
  - intros cb [Hcb|?]%Hg; [|done]. destruct (inv_gone s Hi cb Hcb) as [Hi1 Hsil]. split.
    + by apply (fr_issued t s s' Hf).
    + split; [apply (fr_callbacks t s s' Hf); [done|apply Hsil]|by apply (fr_live t s s' Hf)].
Qed.

(** ** Its preservation *)

Lemma live_start s cb cb' :
  live cb' (start s cb) = if decide (cb = cb') then (next s, cb) :: live cb' s else live cb' s.
Proof.
  unfold live, start. cbn [running set_running]. rewrite filter_cons. cbn.
  by destruct (decide (cb = cb')).
Qed.

Lemma start_counted s cb : counted s → counted (start s cb).
Proof.
  intros (Hd & Hn & Hw). split_and!.
  - unfold start. cbn. apply NoDup_cons. split; [|done].
    intros ([g c] & E & Hin)%list_elem_of_fmap. cbn in E. subst g. apply Hn in Hin. lia.
  - unfold start. cbn. intros g c [[= -> ->]|Hin]%elem_of_cons; [lia|apply Hn in Hin; lia].
  - intros c. rewrite live_start. unfold start. cbn [wait set_running].
    destruct (decide (cb = c)) as [->|Hne].
    + rewrite lookup_insert_eq. cbn [default length]. rewrite (Hw c). cbn. lia.
    + rewrite lookup_insert_ne by done. apply Hw.
Qed.

(** The state apart from the goroutines. *)
Definition core (s : sys) :=
  (addRemoveMutex s, changeMutex s, callbacks s, handle s, pool s, os s, issued s, gone s).

Lemma starts_spec l : ∀ s, counted s →
  counted (foldl start s l) ∧ core (foldl start s l) = core s ∧ ∀ cb, cb ∉ l → live cb (foldl start s l) = live cb s.
Proof.
  induction l as [|c l IH]; intros s Hc; [done|]. cbn [foldl].
  destruct (IH (start s c) (start_counted s c Hc)) as (H1 & H2 & H3). split_and!; [done|by rewrite H2|].
  intros cb Hcb. apply not_elem_of_cons in Hcb as [Hne Hcb]. rewrite (H3 cb Hcb), live_start.
  by rewrite decide_False.
Qed.

Lemma live_done g cb cb' s :
  NoDup (running s).*1 → (g, cb) ∈ running s →
  length (live cb' s) = (length (live cb' (callback_done g cb s)) + if decide (cb = cb') then 1 else 0)%nat.
Proof.
  unfold live, callback_done. cbn [running set_running]. induction (running s) as [|[g0 c0] l IH]; [by intros _ ?%not_elem_of_nil|].
  rewrite fmap_cons. cbn [fst]. intros [Hni Hd]%NoDup_cons [[= -> ->]|Hin]%elem_of_cons.
  - rewrite (filter_cons (λ p, p.1 ≠ g0)). cbn [fst]. rewrite decide_False by (intros Hx; by apply Hx).
    rewrite (filter_keep (λ p, p.1 ≠ g0) l).
    + rewrite filter_cons. cbn [snd]. destruct (decide (c0 = cb')); cbn [length]; lia.
    + intros [g1 c1] H1 Hg. cbn in Hg. subst g1. apply Hni, list_elem_of_fmap. by exists (g0, c1).
  - assert (g0 ≠ g) as Hne by (intros ->; apply Hni, list_elem_of_fmap; by exists (g, cb)).
    specialize (IH Hd Hin). rewrite (filter_cons (λ p, p.1 ≠ g)). cbn [fst]. rewrite decide_True by done.
    rewrite !filter_cons. cbn [snd]. destruct (decide (c0 = cb')); cbn [length]; lia.
Qed.

Lemma done_counted g cb s : (g, cb) ∈ running s → counted s → counted (callback_done g cb s).
Proof.
  intros Hin (Hd & Hn & Hw). split_and!.
  - unfold callback_done. cbn [running set_running]. apply (sublist_NoDup _ (running s).*1); [done|].
    apply fmap_sublist, sublist_filter.
  - unfold callback_done. cbn. intros g' c [_ H]%list_elem_of_filter. by apply Hn in H.
  - intros c. pose proof (live_done g cb c s Hd Hin) as Hl. unfold callback_done. cbn [wait set_running].
    fold (callback_done g cb s). destruct (decide (cb = c)) as [->|Hne].
    + rewrite lookup_insert_eq. cbn [default]. rewrite (Hw c). unfold callback_done in Hl. cbn in Hl. cbn. lia.
    + rewrite lookup_insert_ne by done. rewrite (Hw c). unfold callback_done in Hl. cbn in Hl. cbn. lia.
Qed.

(** A step that touches neither callbacks, handle nor goroutines. *)
Lemma frame_locks t s s' :
  (callbacks s', handle s', running s', issued s') = (callbacks s, handle s, running s, issued s) →
  (∀ t', t' ≠ t → (addRemoveMutex s' = Some t' ↔ addRemoveMutex s = Some t')) →
  (∀ t', t' ≠ t → (changeMutex s' = Some t' ↔ changeMutex s = Some t')) → frame t s s'.
Proof.
  intros [= E1 E2 E3 E4] Ha Hm. split; [done|done|..]; unfold emptied, live; rewrite ?E1, ?E2, ?E3, ?E4; try done.
  by intros cb [_ H].
Qed.

Lemma Register_inv answer t th s :
  inv s → pool s !! t = Some th → at_ th = R2 → (∀ h, answer = Some h → h ≠ 0) →
  let '(ok, s') := Register answer t s in inv (goto t th (R3 ok) s').
Proof.
  intros Hi Ht Hp Ha. destruct (inv_threads s Hi t th Ht) as [[La Lm] Hpl]. rewrite Hp in La, Lm, Hpl. cbn in La, Lm, Hpl.
  assert (addRemoveMutex s = Some t) as Har by (by apply La). assert (changeMutex s = Some t) as Hm by (by apply Lm).
  destruct (inv_served s Hi) as [Hos Hcb].
  assert (∀ ok s', (addRemoveMutex s', changeMutex s', pool s', running s', wait s', next s', issued s', gone s') =
      (addRemoveMutex s, changeMutex s, pool s, running s, wait s, next s, issued s, gone s) →
    callbacks s' ⊆ {[t]} ∪ callbacks s → served s' → inv (goto t th (R3 ok) s')) as Hmain.
  { intros ok s' [= E1 E2 E3 E4 E5 E6 E7 E8] Hsub Hs. apply (inv_step t s); [done| | | | | |done|].
    - split; cbn; unfold live; cbn; rewrite ?E1, ?E2, ?E3, ?E4, ?E7; [done|done|done|set_solver|congruence|by intros cb [_ ?]].
    - intros t' Hne. cbn. by rewrite lookup_insert_ne, E3.
    - cbn. rewrite lookup_insert_eq. eauto.
    - cbn. rewrite lookup_insert_eq. intros th' [= <-]. unfold locks. cbn. by rewrite E1, E2, E7.
    - destruct (inv_counted s Hi) as (C1 & C2 & C3). unfold counted, live in *. cbn. by rewrite E4, E5, E6.
    - cbn. rewrite E8. by left. }
  unfold Register. cbn [handle set_callbacks]. destruct (Z.eqb_spec (handle s) 0) as [E0|E0].
  - destruct answer as [h|]; apply Hmain; try done; [|set_solver|]; unfold served; cbn.
    + rewrite (proj2 (Z.eqb_neq _ _) (Ha h eq_refl)). split; [|intros _; by apply Ha]. rewrite Hos. set_solver.
    + split; [by rewrite Hos|]. intros Hne. exfalso. apply Hcb; [|done]. intros E. apply Hne. rewrite E. set_solver.
  - apply Hmain; [done..|]. unfold served. cbn. by rewrite (proj2 (Z.eqb_neq _ _) E0) in *.
Qed.

Lemma Unregister_inv t th cb s :
  inv s → pool s !! t = Some th → at_ th = U2 cb →
  let '(r, s') := Unregister cb s in inv (goto t th (U3 cb r) s').
Proof.
  intros Hi Ht Hp. destruct (inv_threads s Hi t th Ht) as [[La Lm] Hpl]. rewrite Hp in La, Lm, Hpl. cbn in La, Lm, Hpl.
  assert (addRemoveMutex s = Some t) as Har by (by apply La). assert (changeMutex s = Some t) as Hm by (by apply Lm).
  destruct (inv_served s Hi) as [Hos Hcb]. unfold Unregister.
  apply (inv_step t s); [done| | | | |exact (inv_counted s Hi)| |cbn; by left]; cbn.
  - split; cbn; [done|done|done|set_solver|congruence|by intros c [_ ?]].
  - intros t' Hne. by rewrite lookup_insert_ne.
  - rewrite lookup_insert_eq. eauto.
  - rewrite lookup_insert_eq. intros th' [= <-]. unfold locks. cbn. rewrite Har, Hm. split; [done|].
    split_and!; [done|set_solver|]. unfold emptied. cbn. intros [H1 H2]%andb_prop. boolify. done.
  - split; cbn; [done|]. intros Hne. apply Hcb. set_solver.
Qed.

Lemma cancel_inv t th cb r ok s :
  inv s → pool s !! t = Some th → at_ th = U5 cb r →
  let '(ok, s') := cancel r ok s in inv (goto t th (U6 cb ok) s').
Proof.
  intros Hi Ht Hp. destruct (inv_threads s Hi t th Ht) as [[La Lm] Hpl]. rewrite Hp in La, Lm, Hpl. cbn in La, Lm.
  destruct Hpl as (Hiss & [Hs1 Hs2] & Hem).
  assert (addRemoveMutex s = Some t) as Har by (by apply La).
  destruct (inv_served s Hi) as [Hos Hcb]. unfold cancel.
  assert (∀ b s', (addRemoveMutex s', changeMutex s', pool s', running s', wait s', next s', issued s', gone s', callbacks s') =
      (addRemoveMutex s, changeMutex s, pool s, running s, wait s, next s, issued s, gone s, callbacks s) →
    served s' → inv (goto t th (U6 cb b) s')) as Hmain.
  { intros b s' [= E1 E2 E3 E4 E5 E6 E7 E8 E9] Hsv. apply (inv_step t s); [done| | | | | |done|].
    - split; cbn; unfold live; cbn; rewrite ?E1, ?E2, ?E3, ?E4, ?E7, ?E9; [done|done|done|done|congruence|by intros c [_ ?]].
    - intros t' Hne. cbn. by rewrite lookup_insert_ne, E3.
    - cbn. rewrite lookup_insert_eq. eauto.
    - cbn. rewrite lookup_insert_eq. intros th' [= <-]. unfold locks. cbn. unfold silent, live. cbn. by rewrite E1, E2, E4, E7, E9.
    - destruct (inv_counted s Hi) as (C1 & C2 & C3). unfold counted, live in *. cbn. by rewrite E4, E5, E6.
    - cbn. rewrite E8. by left. }
  destruct r; [|by apply Hmain]. destruct (Hem eq_refl) as [Hc0 Hh0]. destruct ok; apply Hmain; try done.
  split; cbn; [|by rewrite Hc0]. rewrite Hos, (proj2 (Z.eqb_neq _ _) Hh0). set_solver.
Qed.

Lemma changed_inv t th s :
  inv s → pool s !! t = Some th → at_ th = N1 → inv (goto t th N2 (interfaceChanged s)).
Proof.
  intros Hi Ht Hp. destruct (inv_threads s Hi t th Ht) as [[La Lm] Hpl]. rewrite Hp in La, Lm. cbn in La, Lm.
  unfold interfaceChanged. destruct (starts_spec (elements (callbacks s)) s (inv_counted s Hi)) as (Hc & Hco & Hl).
  set (s' := foldl start s _) in *. injection Hco as E1 E2 E3 E4 E5 E6 E7 E8.
  apply (inv_step t s); [done| | | | |exact Hc| |cbn; rewrite E8; by left]; cbn; rewrite ?E5.
  - split; cbn; unfold emptied; cbn; rewrite ?E1, ?E2, ?E3, ?E4, ?E7; try done.
    intros c [Hc1 Hc2]. change (live c s' = []). rewrite Hl; [done|]. by rewrite elem_of_elements.
  - intros t' Hne. by rewrite lookup_insert_ne.
  - rewrite lookup_insert_eq. eauto.
  - rewrite lookup_insert_eq. intros th' [= <-]. unfold locks. cbn. by rewrite E1, E2.
  - unfold served. cbn. rewrite E3, E4, E6. exact (inv_served s Hi).
Qed.

Lemma done_inv g cb s : inv s → (g, cb) ∈ running s → inv (callback_done g cb s).
Proof.
  intros Hi Hin. set (t := fresh (dom (pool s))).
  assert (pool s !! t = None) as Ht by (apply not_elem_of_dom, is_fresh).
  apply (inv_step t s); [done| |done| | |by apply done_counted, (inv_counted s Hi)|exact (inv_served s Hi)|by left].
  - split; cbn; try done. intros c [_ Hc]. unfold live in *. cbn. 
    apply (f_equal length) in Hc. pose proof (live_done g cb c s (proj1 (inv_counted s Hi)) Hin) as Hl.
    apply length_zero_iff_nil. unfold live, callback_done in Hl. cbn in Hl. cbn in Hc. lia.
  - intros [H|H]; [apply (inv_ar s Hi) in H|apply (inv_m s Hi) in H]; cbn; by rewrite Ht in H; destruct H.
  - cbn. by rewrite Ht.
Qed.

(** Taking and giving up a lock. *)
Lemma lock_inv t th p ar m s :
  inv s → pool s !! t = Some th →
  (∀ t', t' ≠ t → (ar = Some t' ↔ addRemoveMutex s = Some t')) →
  (∀ t', t' ≠ t → (m = Some t' ↔ changeMutex s = Some t')) →
  locks (set_ar ar (set_m m s)) t p → place s t p → inv (goto t th p (set_ar ar (set_m m s))).
Proof.
  intros Hi Ht Ha Hm Hl Hp.
  apply (inv_step t s); [done|by apply frame_locks| | | |exact (inv_counted s Hi)|exact (inv_served s Hi)|cbn; by left]; cbn.
  - intros t' Hne. by rewrite lookup_insert_ne.
  - rewrite lookup_insert_eq. eauto.
  - rewrite lookup_insert_eq. intros th' [= <-]. split; [exact Hl|]. by destruct p.
Qed.

Lemma finish_inv t th ar m i g s :
  inv s → pool s !! t = Some th →
  (∀ t', ar = Some t' ↔ addRemoveMutex s = Some t' ∧ t' ≠ t) →
  (∀ t', m = Some t' ↔ changeMutex s = Some t' ∧ t' ≠ t) →
  i = issued s ∨ i = {[t]} ∪ issued s →
  (∀ cb, cb ∈ g → cb ∈ gone s ∨ (cb ∈ issued s ∧ silent cb s)) →
  inv (finish t (set_issued i g (set_ar ar (set_m m s)))).
Proof.
  intros Hi Ht Ha Hm Hii Hg.
  apply (inv_step t s); [done| | | | |exact (inv_counted s Hi)|exact (inv_served s Hi)|]; cbn.
  - split; cbn; try done; [naive_solver|naive_solver|set_solver|by intros c [_ ?]].
  - intros t' Hne. by rewrite lookup_delete_ne.
  - naive_solver.
  - by rewrite lookup_delete_eq.
  - intros cb [?|[? ?]]%Hg; [by left|right]. split; [set_solver|done].
Qed.

(** A lock that is free, or that [t] holds, is moved without anyone noticing. *)
Lemma locks_holders s t th : inv s → pool s !! t = Some th →
  (if holds_ar (at_ th) then addRemoveMutex s = Some t else addRemoveMutex s ≠ Some t) ∧
  (if holds_m (at_ th) then changeMutex s = Some t else changeMutex s ≠ Some t).
Proof.
  intros Hi Ht. destruct (inv_threads s Hi t th Ht) as [[La Lm] _].
  destruct (holds_ar (at_ th)), (holds_m (at_ th)); naive_solver.
Qed.

Ltac lock_step := unfold locks, place, silent; cbn; first [done | set_solver | naive_solver].

Lemma exec_inv answer t s s' :
  inv s → (∀ h, answer = Some h → h ≠ 0) → exec answer t s = Some s' → inv s'.
Proof.
  intros Hi Ha. unfold exec. destruct (pool s !! t) as [th|] eqn:Ht; [|done].
  destruct (locks_holders s t th Hi Ht) as [Har Hm]. destruct (inv_threads s Hi t th Ht) as [_ Hpl].
  destruct (at_ th) as [| | |ok|ok|cb|cb|cb|cb r|cb r|cb r|cb ok| | |] eqn:Hp; cbn [holds_ar holds_m place] in *.
  - destruct (addRemoveMutex s) eqn:E; [done|]. intros [= <-]. apply (lock_inv t th R1 (Some t) (changeMutex s)); lock_step.
  - destruct (changeMutex s) eqn:E; [done|]. intros [= <-]. apply (lock_inv t th R2 (addRemoveMutex s) (Some t)); lock_step.
  - pose proof (Register_inv answer t th s Hi Ht Hp Ha) as H. destruct (Register answer t s). by intros [= <-].
  - intros [= <-]. apply (lock_inv t th (R4 ok) (addRemoveMutex s) None); lock_step.
  - intros [= <-]. apply (finish_inv t th None (changeMutex s) _ (gone s)); try lock_step. destruct ok; auto.
  - destruct (addRemoveMutex s) eqn:E; [done|]. intros [= <-]. apply (lock_inv t th (U1 cb) (Some t) (changeMutex s)); lock_step.
  - destruct (changeMutex s) eqn:E; [done|]. intros [= <-]. apply (lock_inv t th (U2 cb) (addRemoveMutex s) (Some t)); lock_step.
  - pose proof (Unregister_inv t th cb s Hi Ht Hp) as H. destruct (Unregister cb s). by intros [= <-].
  - intros [= <-]. apply (lock_inv t th (U4 cb r) (addRemoveMutex s) None); lock_step.
  - destruct (Z.eqb_spec (default 0 (wait s !! cb)) 0) as [E|]; [|done]. intros [= <-].
    rewrite (proj2 (proj2 (inv_counted s Hi))) in E.
    assert (live cb s = []) as El by (apply length_zero_iff_nil; lia).
    apply (lock_inv t th (U5 cb r) (addRemoveMutex s) (changeMutex s)); lock_step.
  - destruct (_ && _ && _); [done|].
    pose proof (cancel_inv t th cb r (bool_decide (answer ≠ None)) s Hi Ht Hp) as H.
    destruct (cancel r _ s). by intros [= <-].
  - intros [= <-]. apply (finish_inv t th None (changeMutex s) (issued s)); lock_step.
  - destruct (changeMutex s) eqn:E; [done|]. intros [= <-]. apply (lock_inv t th N1 (addRemoveMutex s) (Some t)); lock_step.
  - intros [= <-]. by apply changed_inv.
  - intros [= <-]. apply (finish_inv t th (addRemoveMutex s) None (issued s) (gone s)); lock_step.
Qed.

(** A new thread holds no lock. *)
Lemma spawn_inv t p o s :
  inv s → pool s !! t = None → holds_ar p = false → holds_m p = false → place s t p → inv (spawn t p o s).
Proof.
  intros Hi Ht Hra Hrm Hp.
  assert (addRemoveMutex s ≠ Some t) as Ha by (intros [? ?]%(inv_ar s Hi); congruence).
  assert (changeMutex s ≠ Some t) as Hm by (intros [? ?]%(inv_m s Hi); congruence).
  apply (inv_step t s); [done|by apply frame_locks| | | |exact (inv_counted s Hi)|exact (inv_served s Hi)|cbn; by left]; cbn.
  - intros t' Hne. by rewrite lookup_insert_ne.
  - rewrite lookup_insert_eq. eauto.
  - rewrite lookup_insert_eq. intros th' [= <-]. cbn. split; [unfold locks; rewrite Hra, Hrm; cbn; naive_solver|by destruct p].
Qed.

Lemma step_inv s s' : step s s' → inv s → inv s'.
Proof.
  intros Hs Hi. destruct Hs as [answer t s s' Ha He|t o s Ht Hn|t cb o s Ht Hn|t s Ht Hn|g cb s Hin _].
  - by apply (exec_inv answer t s).
  - by apply spawn_inv.
  - by apply spawn_inv.
  - by apply spawn_inv.
  - by apply done_inv.
Qed.

Lemma reachable_inv s : reachable s → inv s.
Proof.
  assert (inv initial) as H0.
  { split; [done..| | |]; [|done|done]. split_and!; [constructor|by intros g cb ?%not_elem_of_nil|done]. }
  intros H. revert H0. induction H as [|x y z Hxy _ IH]; [done|]. intros Hx. apply IH. by apply (step_inv x).
Qed.

Lemma core_starts l : ∀ s, core (foldl start s l) = core s.
Proof. induction l as [|c l IH]; intros s; [done|]. cbn [foldl]. by rewrite IH. Qed.

Lemma gone_step s s' : step s s' → gone s ⊆ gone s'.
Proof.
  destruct 1 as [answer t s s' _ He| | | |]; [|done..]. revert He. unfold exec.
  destruct (pool s !! t) as [th|]; [|done]. unfold Register, Unregister, cancel.
  destruct (at_ th); cbn; repeat case_match; intros [= <-]; simplify_eq/=; try done; [set_solver|].
  unfold interfaceChanged. pose proof (core_starts (elements (callbacks s)) s) as [= E1 E2 E3 E4 E5 E6 E7 E8]. by rewrite E8.
Qed.

(** C19. A callback that was unregistered is never called again.  In every
    interleaving of registrations, cancellations and notifications, whatever Windows
    answers: once Unregister of a callback has returned, no goroutine runs that
    callback, then or later; as long as a callback is registered Windows holds the
    registration whose handle the program keeps; and it never holds another one. *)
Theorem unregistered_is_silent s s' :
  reachable s → rtc step s s' →
  (∀ cb g, cb ∈ gone s → cb ∉ callbacks s' ∧ (g, cb) ∉ running s') ∧
  (callbacks s' ≠ ∅ → handle s' ≠ 0 ∧ handle s' ∈ os s') ∧
  (∀ h, h ∈ os s' → h = handle s').
Proof.
  intros Hs Hss. assert (inv s') as Hi by (apply reachable_inv; unfold reachable in *; by etrans).
  assert (gone s ⊆ gone s') as Hg.
  { clear Hs Hi. induction Hss as [|x y z Hxy _ IH]; [done|]. etrans; [by apply gone_step|done]. }
  destruct (inv_served s' Hi) as [Hos Hcb]. split_and!.
  - intros cb g Hin%Hg. destruct (inv_gone s' Hi cb Hin) as [_ [Hc Hl]]. split; [done|].
    intros Hr. assert ((g, cb) ∈ live cb s') as H by (by apply list_elem_of_filter). rewrite Hl in H. by apply not_elem_of_nil in H.
  - intros Hne%Hcb. split; [done|]. rewrite Hos, (proj2 (Z.eqb_neq _ _) Hne). set_solver.
  - intros h. rewrite Hos. destruct (handle s' =? 0); set_solver.
Qed.

(** ** Every call returns *)

(** A step of the threads and goroutines that are there. *)
Inductive inner : sys → sys → Prop :=
  | inner_exec answer t s s' : (∀ h, answer = Some h → h ≠ 0) → exec answer t s = Some s' → inner s s'
  | inner_done g cb s : (g, cb) ∈ running s → idle_goroutine g s → inner s (callback_done g cb s).

(** No caller runs inside of a callback. *)
Definition alone (s : sys) : Prop := ∀ t th, pool s !! t = Some th → owner th = None.

(** The steps a thread has left, and whether it will start goroutines. *)
Definition rank (p : pc) : nat :=
  match p with
  | R0 => 5 | R1 => 4 | R2 => 3 | R3 _ => 2 | R4 _ => 1
  | U0 _ => 7 | U1 _ => 6 | U2 _ => 5 | U3 _ _ => 4 | U4 _ _ => 3 | U5 _ _ => 2 | U6 _ _ => 1
  | N0 => 3 | N1 => 2 | N2 => 1
  end.
Definition starter (p : pc) : nat := match p with N0 | N1 => 1 | _ => 0 end.

Definition total (f : pc → nat) (m : gmap nat thread) : nat := map_fold (λ _ th n, f (at_ th) + n)%nat 0%nat m.

Lemma total_delete f m t th : m !! t = Some th → total f m = (f (at_ th) + total f (delete t m))%nat.
Proof. intros H. unfold total. rewrite (map_fold_delete_L _ _ t th m); [done|intros; lia|done]. Qed.

Lemma total_insert f m t th th' :
  m !! t = Some th → (total f (<[t := th']> m) + f (at_ th) = total f m + f (at_ th'))%nat.
Proof.
  intros H. rewrite (total_delete f m t th H), (total_delete f _ t th') by apply lookup_insert_eq.
  rewrite delete_insert_eq. lia.
Qed.

(** Goroutines to come, then steps left and goroutines. *)
Definition measure (s : sys) : nat * nat :=
  (total starter (pool s), total rank (pool s) + length (running s))%nat.
Definition smaller : relation (nat * nat) := λ x y, (x.1 < y.1 ∨ (x.1 = y.1 ∧ x.2 < y.2))%nat.

Lemma smaller_wf : well_founded smaller.
Proof.
  intros [a b]. revert b. induction (lt_wf a) as [a _ IHa]. intros b. induction (lt_wf b) as [b _ IHb].
  constructor. intros [a' b'] [H|[H1 H2]]; cbn in *; [by apply IHa|subst; by apply IHb].
Qed.

Lemma measure_goto t th p s s' :
  pool s' !! t = Some th → pool s' = pool s → (starter p = starter (at_ th))%nat → (rank p < rank (at_ th))%nat →
  running s' = running s → smaller (measure (goto t th p s')) (measure s).
Proof.
  intros Ht Hp Hst Hr Hru. unfold measure, goto, smaller. cbn. rewrite Hp in *. rewrite Hru. right.
  pose proof (total_insert starter (pool s) t th (mkThread p (owner th)) Ht).
  pose proof (total_insert rank (pool s) t th (mkThread p (owner th)) Ht). cbn in *. lia.
Qed.

Lemma measure_finish t th s s' :
  pool s' !! t = Some th → pool s' = pool s → starter (at_ th) = 0%nat → (0 < rank (at_ th))%nat →
  running s' = running s → smaller (measure (finish t s')) (measure s).
Proof.
  intros Ht Hp Hst Hr Hru. unfold measure, finish, smaller. cbn. rewrite Hp in *. rewrite Hru. right.
  pose proof (total_delete starter (pool s) t th Ht). pose proof (total_delete rank (pool s) t th Ht). lia.
Qed.

Lemma exec_measure answer t s s' : counted s → exec answer t s = Some s' → smaller (measure s') (measure s).
Proof.
  intros Hc. unfold exec. destruct (pool s !! t) as [th|] eqn:Ht; [|done]. unfold Register, Unregister, cancel.
  destruct (at_ th) eqn:Hp; cbn [rank starter];
    try (repeat case_match; intros [= <-]; simplify_eq/=;
         (eapply measure_goto || eapply measure_finish); cbn; rewrite ?Hp; cbn; eauto; lia).
  intros [= <-]. unfold interfaceChanged.
  destruct (starts_spec (elements (callbacks s)) s Hc) as (_ & Hco & _). injection Hco as _ _ _ _ E _ _ _.
  left. cbn. rewrite E. pose proof (total_insert starter (pool s) t th (mkThread N2 (owner th)) Ht) as H.
  rewrite Hp in H. cbn in H. lia.
Qed.

Lemma inner_measure s s' : inv s → inner s s' → smaller (measure s') (measure s).
Proof.
  intros Hi Hs. revert Hi. destruct Hs as [answer t s s' _ He|g cb s Hin _]; intros Hi.
  { apply (exec_measure answer t); [by apply inv_counted|done]. }
  right. cbn. split; [done|]. enough (length (filter (λ p, p.1 ≠ g) (running s)) < length (running s))%nat by lia.
  apply (length_filter_lt _ _ (g, cb)); [done|]. intros H. by apply H.
Qed.

Lemma inner_step s s' : inner s s' → step s s'.
Proof. destruct 1; [by eapply step_exec|by apply step_done]. Qed.

Lemma inner_sn s : inv s → sn inner s.
Proof.
  intros Hi. remember (measure s) as m eqn:Em. revert s Hi Em.
  induction (smaller_wf m) as [m _ IH]. intros s Hi ->. constructor. intros s' Hs. cbn in Hs.
  apply (IH (measure s')); [by apply inner_measure| |done]. by apply (step_inv s), Hi; apply inner_step.
Qed.

(** The thread of [s] that can move when no callback runs. *)
Lemma some_thread_moves answer s :
  inv s → running s = [] → pool s ≠ ∅ → ∃ t s', exec answer t s = Some s'.
Proof.
  intros Hi Hr Hne.
  assert (∀ cb, default 0 (wait s !! cb) = 0) as Hw.
  { intros cb. rewrite (proj2 (proj2 (inv_counted s Hi))). unfold live. by rewrite Hr. }
  destruct (changeMutex s) as [t|] eqn:Em.
  { destruct (inv_m s Hi t Em) as [th Ht]. exists t. unfold exec. rewrite Ht.
    destruct (inv_threads s Hi t th Ht) as [[_ Lm] _]. apply proj2 in Lm. specialize (Lm Em).
    destruct (at_ th); cbn in Lm; try done; eauto. destruct (Register _ _ _); eauto. }
  destruct (no_notification s) eqn:En.
  2:{ unfold no_notification in En. apply bool_decide_eq_false in En.
      apply map_not_Forall in En as (t & th & Ht & Hn); [|apply _]. exists t. unfold exec. rewrite Ht.
      destruct (at_ th); cbn in Hn; try done; rewrite ?Em; eauto. }
  destruct (addRemoveMutex s) as [t|] eqn:Ea.
  { destruct (inv_ar s Hi t Ea) as [th Ht]. exists t. unfold exec. rewrite Ht.
    destruct (inv_threads s Hi t th Ht) as [[La Lm] _]. apply proj2 in La. specialize (La Ea).
    destruct (at_ th) as [| | |ok|ok|cb|cb|cb|cb r|cb r|cb r|cb ok| | |]; cbn in La; try done; rewrite ?Em, ?Hw; eauto.
    - destruct (Register _ _ _); eauto.
    - rewrite En, andb_false_r. destruct (cancel _ _ _); eauto. }
  apply map_choose in Hne as (t & th & Ht). exists t. unfold exec. rewrite Ht.
  destruct (inv_threads s Hi t th Ht) as [[La Lm] _].
  destruct (at_ th); cbn in La, Lm; rewrite ?Ea, ?Em; eauto; exfalso; naive_solver.
Qed.

Lemma alone_inner s s' : alone s → inner s s' → alone s'.
Proof.
  intros Ha Hs. revert Ha. destruct Hs as [answer t s s' _ He|g cb s _ _]; intros Ha; [|done].
  revert He. unfold exec. destruct (pool s !! t) as [th|] eqn:Ht; [|done]. specialize (Ha t th Ht) as Hth.
  enough (pool s' ⊆ pool s ∨ (∃ p, pool s' = <[t := mkThread p None]> (pool s)) → alone s') as Hgo.
  { unfold Register, Unregister, cancel.
    destruct (at_ th); repeat case_match; intros [= <-]; simplify_eq/=; apply Hgo; cbn; rewrite ?Hth; eauto.
    all: first [left; apply delete_subseteq | right; exists N2; f_equal].
    apply (f_equal (λ c, c.1.1.1.2) (core_starts (elements (callbacks s)) s)). }
  intros [Hsub|[p Ep]] t' th' H'; [by eapply Ha, lookup_weaken|]. rewrite Ep in H'.
  apply lookup_insert_Some in H' as [[_ <-]|[_ H']]; [done|by eapply Ha].
Qed.

(** C20. Every call returns.  As long as callbacks do not themselves call Register or
    Unregister, the calls, notifications and callbacks that are under way come to an
    end in every schedule and whatever Windows answers: no schedule is infinite, and
    one can only stop when all of them have finished, so that nobody is left waiting
    for a lock, for a callback or for Windows. *)
Theorem calls_return s :
  reachable s → alone s →
  sn inner s ∧
  ∀ s' answer, rtc inner s s' → (∀ t, exec answer t s' = None) →
    (∀ g cb, (g, cb) ∈ running s' → ¬ idle_goroutine g s') → pool s' = ∅ ∧ running s' = [].
Proof.
  intros Hi%reachable_inv Ha. split; [by apply inner_sn|]. intros s' answer Hr Hx Hd.
  assert (inv s' ∧ alone s') as [Hi' Ha'].
  { clear Hx Hd. induction Hr as [|x y z Hxy _ IH]; [done|].
    apply IH; [by apply (step_inv x), Hi; apply inner_step|by apply (alone_inner x)]. }
  assert (running s' = []) as Hru.
  { destruct (running s') as [|[g cb] l] eqn:E; [done|exfalso]. apply (Hd g cb); [rewrite ?E; left|].
    intros t th Ht Ho. by rewrite (Ha' t th Ht) in Ho. }
  split; [|done]. destruct (decide (pool s' = ∅)) as [|Hne]; [done|].
  destruct (some_thread_moves answer s' Hi' Hru Hne) as (t & s'' & He). by rewrite Hx in He.
Qed.

(** ** A callback that unregisters itself *)

(** Unregister waits for the callback, which waits for Unregister: from then on
    neither moves, and as the thread holds the mutex of Register and Unregister no
    other caller gets through. *)
Definition entangled (t g cb : nat) (r : bool) (s : sys) : Prop :=
  pool s !! t = Some (mkThread (U4 cb r) (Some g)) ∧ (g, cb) ∈ running s.

Lemma running_starts l : ∀ s, running s ⊆ running (foldl start s l).
Proof.
  induction l as [|c l IH]; intros s; [done|]. cbn [foldl]. intros x Hx. apply IH. cbn. by right.
Qed.

Lemma exec_keeps_others answer t t' s s' : exec answer t s = Some s' → t' ≠ t → pool s' !! t' = pool s !! t'.
Proof.
  unfold exec. destruct (pool s !! t) as [th|]; [|done]. unfold Register, Unregister, cancel, interfaceChanged.
  pose proof (core_starts (elements (callbacks s)) s) as [= E1 E2 E3 E4 E5 E6 E7 E8].
  destruct (at_ th); repeat case_match; intros [= <-] Hne; simplify_eq/=; rewrite ?E5;
    (by rewrite lookup_insert_ne) || by rewrite lookup_delete_ne.
Qed.

Lemma exec_running answer t s s' : exec answer t s = Some s' → running s ⊆ running s'.
Proof.
  unfold exec. destruct (pool s !! t) as [th|]; [|done]. unfold Register, Unregister, cancel, interfaceChanged.
  destruct (at_ th); repeat case_match; intros [= <-]; simplify_eq/=; try done. apply running_starts.
Qed.

Lemma self_unregister_blocks t g cb r s s' :
  inv s → entangled t g cb r s → rtc step s s' → entangled t g cb r s'.
Proof.
  intros Hi He Hr. revert Hi He. induction Hr as [|x y z Hxy _ IH]; [done|]. intros Hi [Hp Hg].
  apply IH; [by apply (step_inv x)|]. clear IH. destruct Hxy as [answer t' x y _ Hx|t' o x Ht|t' cb' o x Ht|t' x Ht|g' cb' x Hin Hid].
  - destruct (decide (t' = t)) as [->|Hne].
    + exfalso. revert Hx. unfold exec. rewrite Hp. cbn. rewrite (proj2 (proj2 (inv_counted x Hi))).
      destruct (Z.eqb_spec (Z.of_nat (length (live cb x))) 0) as [E|]; [|done]. intros _.
      assert ((g, cb) ∈ live cb x) as H by (by apply list_elem_of_filter).
      destruct (live cb x); [by apply not_elem_of_nil in H|cbn in E; lia].
    + split; [by rewrite (exec_keeps_others answer t' t x)|by apply (exec_running answer t' x)].
  - split; [|done]. cbn. rewrite lookup_insert_ne; [done|congruence].
  - split; [|done]. cbn. rewrite lookup_insert_ne; [done|congruence].
  - split; [|done]. cbn. rewrite lookup_insert_ne; [done|congruence].
  - split; [done|]. cbn. apply list_elem_of_filter. split; [|done]. cbn. intros ->. by apply (Hid t _ Hp).
Qed.

(** ** Runs *)

Fixpoint execs (l : list (nat * option Z)) (s : sys) : option sys :=
  match l with [] => Some s | (t, a) :: l => exec a t s ≫= execs l end.

Definition valid (a : option Z) : Prop := ∀ h, a = Some h → h ≠ 0.

Lemma execs_rtc l : ∀ s s', Forall (λ x, valid x.2) l → execs l s = Some s' → rtc inner s s'.
Proof.
  induction l as [|[t a] l IH]; intros s s' Hv; [by intros [= ->]|]. apply Forall_cons in Hv as [Ha Hv].
  cbn. intros (s1 & H1 & H2)%bind_Some. eapply rtc_l; [by eapply inner_exec|by apply IH].
Qed.

Definition ran (l : list (nat * option Z)) (s : sys) : sys := default s (execs l s).

Lemma ran_reachable l s : reachable s → Forall (λ x, valid x.2) l → reachable (ran l s).
Proof.
  intros Hs Hv. unfold ran. destruct (execs l s) as [s'|] eqn:E; [|done]. cbn. unfold reachable in *. etrans; [exact Hs|].
  apply (rtc_subrel inner); [intros x y; apply inner_step|by apply (execs_rtc l)].
Qed.

(** A callback is registered by thread 1; then Windows notifies and, at the same
    time, thread 3 unregisters it. *)
Definition ex_registered : sys := ran (replicate 5 (1%nat, Some 7)) (spawn 1 R0 None initial).
Definition ex_busy : sys := spawn 3 (U0 1) None (spawn 2 N0 None ex_registered).

Lemma ex_busy_reachable : reachable ex_busy.
Proof.
  assert (reachable ex_registered) as H.
  { apply ran_reachable; [apply rtc_once, step_register; [done|set_solver]|]. repeat constructor; intros h [= <-]; lia. }
  unfold reachable in *. eapply rtc_r; [eapply rtc_r; [exact H|]|]; unfold ex_busy.
  - apply step_notify; [by vm_compute|]. intros E. by vm_compute in E.
  - apply step_unregister; [by vm_compute|]. apply (bool_decide_unpack _). by vm_compute.
Qed.

(** The notification is served, its callback ends, and Unregister returns. *)
Definition ex_gone : sys :=
  ran (replicate 5 (3%nat, Some 7)) (callback_done 0 1 (ran (replicate 3 (2%nat, None) ++ replicate 2 (3%nat, None)) ex_busy)).

Lemma ex_gone_reachable : reachable ex_gone.
Proof.
  apply ran_reachable; [|repeat constructor; intros h [= <-]; lia]. unfold reachable.
  eapply rtc_r; [apply (ran_reachable (replicate 3 (2%nat, None) ++ replicate 2 (3%nat, None)) ex_busy ex_busy_reachable)|].
  { repeat constructor; by intros h. }
  apply step_done; [by apply (bool_decide_unpack _); vm_compute|].
  intros t th Ht.
  assert (map_Forall (λ _ th, owner th ≠ Some 0%nat) (pool (ran (replicate 3 (2%nat, None) ++ replicate 2 (3%nat, None)) ex_busy))) as H
    by (apply (bool_decide_unpack _); by vm_compute).
  exact (H t th Ht).
Qed.

Lemma unregistered_is_silent_witness :
  1%nat ∈ gone ex_gone ∧ 1%nat ∉ callbacks ex_gone ∧ os ex_gone = ∅.
Proof.
  assert (1%nat ∈ gone ex_gone) as Hg by (apply (bool_decide_unpack _); by vm_compute).
  destruct (unregistered_is_silent ex_gone ex_gone ex_gone_reachable ltac:(reflexivity)) as (H & _ & _).
  split; [exact Hg|]. split; [exact (proj1 (H 1%nat 0%nat Hg))|]. by vm_compute.
Defined.

Lemma calls_return_witness : pool ex_busy ≠ ∅ ∧ sn inner ex_busy.
Proof.
  split; [intros E; by vm_compute in E|].
  assert (alone ex_busy) as Ha.
  { intros t th. apply (bool_decide_unpack (map_Forall (λ _ th, owner th = None) (pool ex_busy))). by vm_compute. }
  exact (proj1 (calls_return ex_busy ex_busy_reachable Ha)).
Defined.

(** The entanglement is reached when the callback of the notification unregisters
    itself: goroutine 0 runs callback 1 and thread 4 runs inside of it. *)
Definition ex_inside : sys := spawn 4 (U0 1) (Some 0%nat) (ran (replicate 3 (2%nat, None)) (spawn 2 N0 None ex_registered)).

Lemma ex_entangled : entangled 4 0 1 true (ran (replicate 4 (4%nat, None)) ex_inside).
Proof. split; [by vm_compute|]. apply (bool_decide_unpack _). by vm_compute. Qed.

End WinNotify.
