(* ===== verification/WinAddr.v ===== *)
(** * Socket addresses of Windows (src/internal/winipcfg/types.go)

    RawSockaddrInet is a union of 28 bytes that the source reads and writes through
    casts to the structures for IPv4 (family, port, address, eight bytes of padding)
    and IPv6 (family, port, flow information, address, scope).  Windows machines are
    little endian.  [net/netip] is modelled as documented: an address is invalid, of
    four bytes, or of sixteen bytes with a zone. *)

From S2P Require Import Prelude GoStrings Buffers.

Module WinAddr.

(** ** net/netip *)

Inductive Addr := NoAddr | A4 (b : list byte) | A6 (b : list byte) (zone : string).

Definition addr_ok (a : Addr) : Prop :=
  match a with NoAddr => True | A4 b => length b = 4%nat | A6 b _ => length b = 16%nat end.

Definition Is4 (a : Addr) : bool := match a with A4 _ => true | _ => false end.
Definition Is6 (a : Addr) : bool := match a with A6 _ _ => true | _ => false end.

(** An address without zone and a number of bits, -1 when it is out of range. *)
Definition Prefix : Type := Addr * Z.
Definition without_zone (a : Addr) : Addr := match a with A6 b _ => A6 b "" | a => a end.
Definition BitLen (a : Addr) : Z := match a with NoAddr => 0 | A4 _ => 32 | A6 _ _ => 128 end.
Definition PrefixFrom (a : Addr) (bits : Z) : Prefix :=
  (without_zone a, if (0 <=? bits) && (bits <=? BitLen a) then bits else -1).

(** ** RawSockaddrInet *)

Definition AF_UNSPEC : Z := 0.
Definition AF_INET : Z := 2.
Definition AF_INET6 : Z := 23.

Definition le16 (l : list byte) : Z := byte_at l 0 + 256 * byte_at l 1.
Definition put16le (z : Z) : list byte := [mk8 z; mk8 (Z.shiftr z 8)].

(** A 16-bit number read from, or written to, memory in network order. *)
Definition ntohs (i : Z) : Z :=
  match put16le i with [hi; lo] => be16 hi lo | _ => 0 end.
Definition htons (i : Z) : Z := le16 (put16 i).

Definition Family (m : list byte) : Z := le16 (sub m 0 2).

Definition scope_id (zone : string) : Z :=
  if String.eqb zone "" then 0
  else match Strconv.ParseUint zone 32 with Some s => s | None => 0 end.

Definition zeros (n : nat) : list byte := replicate n (mk8 0).

(** [None] is ERROR_INVALID_PARAMETER. *)
Definition SetAddrPort (m : list byte) (a : Addr) (port : Z) : option (list byte) :=
  match a with
  | A4 b =>
      let m := put_at 0 (put16le AF_INET) m in
      let m := put_at 4 b m in
      let m := put_at 2 (put16le (htons port)) m in
      Some (put_at 8 (zeros 8) m)
  | A6 b zone =>
      let m := put_at 0 (put16le AF_INET6) m in
      let m := put_at 8 b m in
      let m := put_at 2 (put16le (htons port)) m in
      let m := put_at 4 (zeros 4) m in
      Some (put_at 24 (put32le (scope_id zone)) m)
  | NoAddr => None
  end.

Definition SetAddr (m : list byte) (a : Addr) : option (list byte) := SetAddrPort m a 0.

(** [Addr], [Port] and [AddrPort] of a RawSockaddrInet. *)
Definition RawAddr (m : list byte) : Addr :=
  if Family m =? AF_INET then A4 (sub m 4 4)
  else if Family m =? AF_INET6 then
    let s := le32 (sub m 24 4) in
    A6 (sub m 8 16) (if s =? 0 then "" else Strconv.Itoa s)
  else NoAddr.

Definition Port (m : list byte) : Z :=
  if (Family m =? AF_INET) || (Family m =? AF_INET6) then ntohs (le16 (sub m 2 2)) else 0.

Definition AddrPort (m : list byte) : Addr * Z := (RawAddr m, Port m).

(** ** IPAddressPrefix *)

Record IPAddressPrefix := mkIPAddressPrefix { RawPrefix : list byte; PrefixLength : Z }.

Definition SetPrefix (r : IPAddressPrefix) (p : Prefix) : option IPAddressPrefix :=
  match SetAddr (RawPrefix r) p.1 with
  | None => None
  | Some m => Some (mkIPAddressPrefix m (p.2 mod 256))
  end.

Definition prefix_of (r : IPAddressPrefix) : Prefix :=
  let m := RawPrefix r in
  if Family m =? AF_INET then PrefixFrom (A4 (sub m 4 4)) (PrefixLength r)
  else if Family m =? AF_INET6 then PrefixFrom (A6 (sub m 8 16) "") (PrefixLength r)
  else (NoAddr, 0).

(** ** Round trips *)

(** The zone that survives: a non-zero decimal number of 32 bits. *)
Definition normal (a : Addr) : Addr :=
  match a with
  | A6 b zone => A6 b (if scope_id zone =? 0 then "" else Strconv.Itoa (scope_id zone))
  | a => a
  end.

Lemma le16_put16le z : 0 ≤ z < 65536 → le16 (put16le z) = z.
Proof.
  intros H. unfold le16, put16le, byte_at. cbn. rewrite !u8_mk8, Z.shiftr_div_pow2 by lia. change (2 ^ 8) with 256. zlia.
Qed.

Lemma put16le_le16 x y : put16le (le16 [x; y]) = [x; y].
Proof.
  unfold put16le, le16, byte_at. cbn. pose proof (u8_range x). pose proof (u8_range y).
  rewrite Z.shiftr_div_pow2 by lia. change (2 ^ 8) with 256.
  f_equal; [|f_equal]; apply u8_inj; rewrite u8_mk8; zlia.
Qed.

Lemma put16le_htons p : put16le (htons p) = put16 p.
Proof. apply put16le_le16. Qed.

Lemma ntohs_le16 hi lo : ntohs (le16 [hi; lo]) = be16 hi lo.
Proof. unfold ntohs. by rewrite put16le_le16. Qed.

Lemma digits_value_nonneg s : ∀ acc v, 0 ≤ acc → Strconv.digits_value acc s = Some v → 0 ≤ v.
Proof.
  induction s as [|c s IH]; cbn; intros acc v Ha; [by intros [= <-]|].
  destruct (is_digit c) eqn:E; [|done]. apply IH. unfold is_digit in E. boolify. lia.
Qed.

Lemma scope_id_range z : 0 ≤ scope_id z < 2 ^ 32.
Proof.
  unfold scope_id, Strconv.ParseUint. destruct (String.eqb z ""); [lia|]. destruct z as [|c z]; [lia|].
  destruct (Strconv.digits_value 0 (String c z)) as [v|] eqn:E; [|lia]. apply digits_value_nonneg in E; [|lia].
  destruct (Z.ltb_spec v (2 ^ 32)); lia.
Qed.

Lemma scope_id_Itoa n : 0 < n < 2 ^ 32 → scope_id (Strconv.Itoa n) = n.
Proof.
  intros H. unfold scope_id. rewrite Strconv.ParseUint_Itoa by lia.
  destruct (String.eqb_spec (Strconv.Itoa n) "") as [E|]; [|done].
  pose proof (Strconv.ParseUint_Itoa n 32 ltac:(lia) ltac:(lia)) as Hp. by rewrite E in Hp.
Qed.

Lemma put32le_length z : length (put32le z) = 4%nat.
Proof. done. Qed.

Lemma set4 m b port m' :
  length m = 28%nat → length b = 4%nat → SetAddrPort m (A4 b) port = Some m' →
  length m' = 28%nat ∧ Family m' = AF_INET ∧ sub m' 2 2 = put16 port ∧ sub m' 4 4 = b.
Proof.
  intros Hm Hb. unfold SetAddrPort. rewrite put16le_htons. intros [= <-]. unfold Family.
  split_and!; [put_len|fields 28%nat..]; [|done|done]. by apply le16_put16le.
Qed.

Lemma set6 m b zone port m' :
  length m = 28%nat → length b = 16%nat → SetAddrPort m (A6 b zone) port = Some m' →
  length m' = 28%nat ∧ Family m' = AF_INET6 ∧ sub m' 2 2 = put16 port ∧ sub m' 8 16 = b ∧
  le32 (sub m' 24 4) = scope_id zone.
Proof.
  intros Hm Hb. unfold SetAddrPort. rewrite put16le_htons. intros [= <-]. unfold Family.
  split_and!; [put_len|fields 28%nat..]; [|done|done|]; [by apply le16_put16le|].
  apply le32_put32le, scope_id_range.
Qed.

Lemma port_read port : 0 ≤ port < 65536 → ntohs (le16 (put16 port)) = port.
Proof.
  intros H. unfold put16 at 1. rewrite ntohs_le16, (be16_put16 port _ _ eq_refl).
  by apply Z.mod_small.
Qed.

Lemma SetAddrPort_reads m a port m' :
  length m = 28%nat → addr_ok a → 0 ≤ port < 65536 → SetAddrPort m a port = Some m' →
  length m' = 28%nat ∧ AddrPort m' = (normal a, port).
Proof.
  intros Hm Ha Hp H. destruct a as [|b|b zone]; [done| |].
  - destruct (set4 m b port m' Hm Ha H) as (Hl & Hf & H2 & H4). split; [done|].
    unfold AddrPort, RawAddr, Port. by rewrite Hf, H2, H4, (port_read port Hp).
  - destruct (set6 m b zone port m' Hm Ha H) as (Hl & Hf & H2 & H8 & Hs). split; [done|].
    unfold AddrPort, RawAddr, Port. by rewrite Hf, H2, H8, Hs, (port_read port Hp).
Qed.

Lemma RawAddr_ok m : length m = 28%nat → addr_ok (RawAddr m) ∧ normal (RawAddr m) = RawAddr m ∧ 0 ≤ Port m < 65536.
Proof.
  intros Hm. unfold RawAddr, Port. destruct (sub m 2 2) as [|x [|y [|? ?]]] eqn:E2;
    try (pose proof (length_sub m 2 2 ltac:(lia)) as Hx; rewrite E2 in Hx; done).
  assert (0 ≤ ntohs (le16 [x; y]) < 65536) as Hp by (rewrite ntohs_le16; apply be16_range).
  destruct (Family m =? AF_INET); cbn [orb]; [split_and!; [apply length_sub; lia|done|lia|lia]|].
  destruct (Family m =? AF_INET6); [|split_and!; done || lia]. split_and!; [apply length_sub; lia| |lia|lia].
  cbn. f_equal. destruct (Z.eqb_spec (le32 (sub m 24 4)) 0) as [E|E]; [done|].
  assert (0 ≤ le32 (sub m 24 4) < 2 ^ 32) as Hr.
  { destruct (sub m 24 4) as [|a [|b [|c [|d [|? ?]]]]]; cbn; try lia. apply be32_range. }
  rewrite scope_id_Itoa by lia. by rewrite (proj2 (Z.eqb_neq _ _) E).
Qed.

Lemma SetPrefix_reads r a bits r' :
  length (RawPrefix r) = 28%nat → addr_ok a → SetPrefix r (PrefixFrom a bits) = Some r' →
  prefix_of r' = PrefixFrom a bits.
Proof.
  intros Hm Ha. unfold SetPrefix, SetAddr. cbn [fst snd PrefixFrom].
  destruct (SetAddrPort (RawPrefix r) (without_zone a) 0) as [m|] eqn:E; [|done]. intros [= <-].
  unfold prefix_of. cbn [RawPrefix PrefixLength].
  set (n := if (0 <=? bits) && (bits <=? BitLen a) then bits else -1).
  assert (∀ x, BitLen x = BitLen a → PrefixFrom x (n mod 256) = (without_zone x, n)) as Hn.
  { intros x Hx. unfold PrefixFrom. f_equal. rewrite Hx. assert (BitLen a ≤ 128) by (destruct a; cbn; lia). unfold n.
    destruct (Z.leb_spec 0 bits), (Z.leb_spec bits (BitLen a)); cbn [andb];
      try (rewrite (Z.mod_small bits) by lia; by rewrite (proj2 (Z.leb_le _ _)), (proj2 (Z.leb_le _ _)) by lia).
    all: change (-1 mod 256) with 255; rewrite (proj2 (Z.leb_gt 255 _)) by lia; done. }
  destruct a as [|b|b zone]; [done| |]; cbn [without_zone] in E.
  - destruct (set4 _ _ _ _ Hm Ha E) as (_ & -> & _ & ->). by apply Hn.
  - destruct (set6 _ _ _ _ _ Hm Ha E) as (_ & -> & _ & -> & _). by apply Hn.
Qed.

(** C21. Addresses survive the union.  Whatever the 28 bytes held before, an address
    and a port that were written are read back, the zone as far as it is a non-zero
    decimal number of 32 bits; only the invalid address is refused; what is read
    from any memory can be written back and reads the same; and a prefix that was
    written is read back with its number of bits, or as invalid if it was. *)
Theorem sockaddr_roundtrip m a port bits len :
  length m = 28%nat → addr_ok a → 0 ≤ port < 65536 →
  (SetAddrPort m a port = None ↔ a = NoAddr) ∧
  (∀ m', SetAddrPort m a port = Some m' → length m' = 28%nat ∧ AddrPort m' = (normal a, port)) ∧
  (∀ m', SetAddrPort m (RawAddr m) (Port m) = Some m' → AddrPort m' = AddrPort m) ∧
  (∀ r', SetPrefix (mkIPAddressPrefix m len) (PrefixFrom a bits) = Some r' → prefix_of r' = PrefixFrom a bits).
Proof.
  intros Hm Ha Hp. split_and!.
  - by destruct a.
  - intros m' H. by apply (SetAddrPort_reads m).
  - intros m' H. destruct (RawAddr_ok m Hm) as (Ho & Hn & Hr).
    destruct (SetAddrPort_reads m (RawAddr m) (Port m) m' Hm Ho Hr H) as [_ ->]. by rewrite Hn.
  - intros r' H. by apply (SetPrefix_reads (mkIPAddressPrefix m len) a bits).
Qed.

Definition ex_addr : Addr := A6 (bytes [0xfe; 0x80; 0; 0; 0; 0; 0; 0; 0; 0; 0; 0; 0; 0; 0; 1]) "12".

Lemma sockaddr_roundtrip_witness :
  ∃ m', SetAddrPort (replicate 28 (mk8 170)) ex_addr 443 = Some m' ∧ AddrPort m' = (ex_addr, 443).
Proof.
  eexists. split; [reflexivity|].
  exact (proj2 (proj1 (proj2 (sockaddr_roundtrip (replicate 28 (mk8 170)) ex_addr 443 64 0 eq_refl eq_refl ltac:(lia))) _ eq_refl)).
Defined.

(** SetAddr does not clear the whole union as its comment says: behind an IPv4
    address the last twelve bytes keep what was there. *)
Lemma SetAddr_keeps_tail m b : length m = 28%nat → length b = 4%nat →
  ∃ m', SetAddr m (A4 b) = Some m' ∧ sub m' 16 12 = sub m 16 12.
Proof.
  intros Hm Hb. unfold SetAddr, SetAddrPort. rewrite put16le_htons. eexists. split; [reflexivity|]. by fields 28%nat.
Qed.

(** A zone that is a name is lost without an error. *)
Lemma named_zone_lost m b : length m = 28%nat → length b = 16%nat →
  ∃ m', SetAddr m (A6 b "eth0") = Some m' ∧ RawAddr m' = A6 b "".
Proof.
  intros Hm Hb. destruct (SetAddr m (A6 b "eth0")) as [m'|] eqn:E; [|done]. exists m'. split; [done|].
  destruct (SetAddrPort_reads m (A6 b "eth0") 0 m' Hm Hb ltac:(lia) E) as [_ [= -> _]]. done.
Qed.

End WinAddr.
