(* ===== verification/WinLayout.v ===== *)
(** * Memory layout of the Windows structures
    (src/internal/winipcfg/types.go, types_32.go, types_64.go)

    The program hands Go structures to Windows by their address, so that the layout
    Go gives them must be the one Windows expects.  The structures are values of
    [ty]; [size_align] and [offsets] are the layout rules of the Go compiler, with
    pointers of 4 or 8 bytes and 64-bit integers aligned to 4 or 8 bytes.  The two
    structures of golang.org/x/sys/windows that occur are known by size and alignment
    only ([Ext]).  The expected numbers are those of the package's tests. *)

From S2P Require Import Prelude.

Module WinLayout.

Inductive ext := SOCKET_ADDRESS | GUID.

Inductive ty := TInt (bytes : nat) | TPtr | TArr (n : nat) (t : ty) | TExt (x : ext) | TStruct (fs : list (string * ty)).

Record abi := mkAbi { ptr : nat; align8 : nat }.
Definition go32 : abi := mkAbi 4 4.
Definition go64 : abi := mkAbi 8 8.

Class Ext := ext_layout : abi → ext → nat * nat.

(** ** The layout rules *)

Definition align_up (al n : nat) : nat := (n + al - 1) / al * al.

Section Layout.
Context {E : Ext} (a : abi).

Fixpoint size_align (t : ty) : nat * nat :=
  match t with
  | TInt n => (n, if Nat.eqb n 8 then align8 a else n)
  | TPtr => (ptr a, ptr a)
  | TArr n t => let '(s, al) := size_align t in (n * s, al)%nat
  | TExt x => ext_layout a x
  | TStruct fs =>
      (fix go (off al : nat) (fs : list (string * ty)) : nat * nat :=
         match fs with
         | [] => (align_up al off, al)
         | (_, t) :: fs =>
             let '(s, l) := size_align t in go (align_up l off + s)%nat (Nat.max al l) fs
         end) 0%nat 1%nat fs
  end.

(** Where each field starts, from offset [off] on. *)
Fixpoint offsets (off : nat) (fs : list (string * ty)) : list (string * nat) :=
  match fs with
  | [] => []
  | (f, t) :: fs =>
      let '(s, l) := size_align t in
      (f, align_up l off) :: offsets (align_up l off + s) fs
  end.

Definition fields_of (t : ty) : list (string * nat) :=
  match t with TStruct fs => filter (λ x, x.1 ≠ "_") (offsets 0 fs) | _ => [] end.

Definition matches (x : ty * nat * list (string * nat)) : Prop :=
  (size_align x.1.1).1 = x.1.2 ∧ fields_of x.1.1 = x.2.
End Layout.

(** ** The structures *)

(** Named integer types. *)
Definition uint8 : ty := TInt 1.
Definition bool_ : ty := TInt 1.
Definition byte_ : ty := TInt 1.
Definition uint16 : ty := TInt 2.
Definition uint32 : ty := TInt 4.
Definition int32 : ty := TInt 4.
Definition uint64 : ty := TInt 8.
Definition int64 : ty := TInt 8.
Definition AddressFamily : ty := uint16.
Definition IPAAFlags : ty := uint32.
Definition IfOperStatus : ty := uint32.
Definition IfType : ty := uint32.
Definition NdisMedium : ty := uint32.
Definition NdisPhysicalMedium : ty := uint32.
Definition NetIfAccessType : ty := uint32.
Definition NetIfAdminStatus : ty := uint32.
Definition NetIfConnectionType : ty := uint32.
Definition NetIfDirectionType : ty := uint32.
Definition NetIfMediaConnectState : ty := uint32.
Definition DadState : ty := uint32.
Definition PrefixOrigin : ty := uint32.
Definition LinkLocalAddressBehavior : ty := int32.
Definition OffloadRod : ty := uint8.
Definition RouteOrigin : ty := uint32.
Definition RouteProtocol : ty := uint32.
Definition RouterDiscoveryBehavior : ty := int32.
Definition SuffixOrigin : ty := uint32.
Definition TunnelType : ty := uint32.
Definition InterfaceAndOperStatusFlags : ty := uint8.
Definition LUID : ty := uint64.

(** types.go *)
Definition IPAdapterDNSSuffix : ty :=
  TStruct [("Next", TPtr); ("str", TArr 256 uint16)].
Definition RawSockaddrInet : ty :=
  TStruct [("Family", AddressFamily); ("data", TArr 26 byte_)].
Definition IPAddressPrefix : ty :=
  TStruct [("RawPrefix", RawSockaddrInet); ("PrefixLength", uint8); ("_", TArr 2 byte_)].
Definition MibIPforwardRow2 : ty :=
  TStruct [("InterfaceLUID", LUID); ("InterfaceIndex", uint32); ("DestinationPrefix", IPAddressPrefix);
   ("NextHop", RawSockaddrInet); ("SitePrefixLength", uint8); ("ValidLifetime", uint32);
   ("PreferredLifetime", uint32); ("Metric", uint32); ("Protocol", RouteProtocol); ("Loopback", bool_);
   ("AutoconfigureAddress", bool_); ("Publish", bool_); ("Immortal", bool_); ("Age", uint32);
   ("Origin", RouteOrigin)].
Definition DnsInterfaceSettings : ty :=
  TStruct [("Version", uint32); ("_", TArr 4 byte_); ("Flags", uint64); ("Domain", TPtr); ("NameServer", TPtr);
   ("SearchList", TPtr); ("RegistrationEnabled", uint32); ("RegisterAdapterName", uint32);
   ("EnableLLMNR", uint32); ("QueryAdapterName", uint32); ("ProfileNameServer", TPtr)].

(** types_32.go *)
Definition IPAdapterWINSServerAddress_32 : ty :=
  TStruct [("Length", uint32); ("_", uint32); ("Next", TPtr); ("Address", TExt SOCKET_ADDRESS); ("_", TArr 4 byte_)].
Definition IPAdapterGatewayAddress_32 : ty :=
  TStruct [("Length", uint32); ("_", uint32); ("Next", TPtr); ("Address", TExt SOCKET_ADDRESS); ("_", TArr 4 byte_)].
Definition IPAdapterAddresses_32 : ty :=
  TStruct [("Length", uint32); ("IfIndex", uint32); ("Next", TPtr); ("adapterName", TPtr);
   ("FirstUnicastAddress", TPtr); ("FirstAnycastAddress", TPtr); ("FirstMulticastAddress", TPtr);
   ("FirstDNSServerAddress", TPtr); ("dnsSuffix", TPtr); ("description", TPtr); ("friendlyName", TPtr);
   ("physicalAddress", TArr 8 byte_); ("physicalAddressLength", uint32); ("Flags", IPAAFlags); ("MTU", uint32);
   ("IfType", IfType); ("OperStatus", IfOperStatus); ("IPv6IfIndex", uint32); ("ZoneIndices", TArr 16 uint32);
   ("FirstPrefix", TPtr); ("TransmitLinkSpeed", uint64); ("ReceiveLinkSpeed", uint64);
   ("FirstWINSServerAddress", TPtr); ("FirstGatewayAddress", TPtr); ("Ipv4Metric", uint32);
   ("Ipv6Metric", uint32); ("LUID", LUID); ("DHCPv4Server", TExt SOCKET_ADDRESS); ("CompartmentID", uint32);
   ("NetworkGUID", TExt GUID); ("ConnectionType", NetIfConnectionType); ("TunnelType", TunnelType);
   ("DHCPv6Server", TExt SOCKET_ADDRESS); ("dhcpv6ClientDUID", TArr 130 byte_);
   ("dhcpv6ClientDUIDLength", uint32); ("DHCPv6IAID", uint32); ("FirstDNSSuffix", TPtr); ("_", TArr 4 byte_)].
Definition MibIPInterfaceRow_32 : ty :=
  TStruct [("Family", AddressFamily); ("_", TArr 4 byte_); ("InterfaceLUID", LUID); ("InterfaceIndex", uint32);
   ("MaxReassemblySize", uint32); ("InterfaceIdentifier", uint64); ("MinRouterAdvertisementInterval", uint32);
   ("MaxRouterAdvertisementInterval", uint32); ("AdvertisingEnabled", bool_); ("ForwardingEnabled", bool_);
   ("WeakHostSend", bool_); ("WeakHostReceive", bool_); ("UseAutomaticMetric", bool_);
   ("UseNeighborUnreachabilityDetection", bool_); ("ManagedAddressConfigurationSupported", bool_);
   ("OtherStatefulConfigurationSupported", bool_); ("AdvertiseDefaultRoute", bool_);
   ("RouterDiscoveryBehavior", RouterDiscoveryBehavior); ("DadTransmits", uint32);
   ("BaseReachableTime", uint32); ("RetransmitTime", uint32); ("PathMTUDiscoveryTimeout", uint32);
   ("LinkLocalAddressBehavior", LinkLocalAddressBehavior); ("LinkLocalAddressTimeout", uint32);
   ("ZoneIndices", TArr 16 uint32); ("SitePrefixLength", uint32); ("Metric", uint32); ("NLMTU", uint32);
   ("Connected", bool_); ("SupportsWakeUpPatterns", bool_); ("SupportsNeighborDiscovery", bool_);
   ("SupportsRouterDiscovery", bool_); ("ReachableTime", uint32); ("TransmitOffload", OffloadRod);
   ("ReceiveOffload", OffloadRod); ("DisableDefaultRoutes", bool_)].
Definition mibIPInterfaceTable_32 : ty :=
  TStruct [("numEntries", uint32); ("_", TArr 4 byte_); ("table", TArr 1 MibIPInterfaceRow_32)].
Definition MibIfRow2_32 : ty :=
  TStruct [("InterfaceLUID", LUID); ("InterfaceIndex", uint32); ("InterfaceGUID", TExt GUID);
   ("alias", TArr 257 uint16); ("description", TArr 257 uint16); ("physicalAddressLength", uint32);
   ("physicalAddress", TArr 32 byte_); ("permanentPhysicalAddress", TArr 32 byte_); ("MTU", uint32);
   ("Type", IfType); ("TunnelType", TunnelType); ("MediaType", NdisMedium);
   ("PhysicalMediumType", NdisPhysicalMedium); ("AccessType", NetIfAccessType);
   ("DirectionType", NetIfDirectionType); ("InterfaceAndOperStatusFlags", InterfaceAndOperStatusFlags);
   ("OperStatus", IfOperStatus); ("AdminStatus", NetIfAdminStatus);
   ("MediaConnectState", NetIfMediaConnectState); ("NetworkGUID", TExt GUID);
   ("ConnectionType", NetIfConnectionType); ("_", TArr 4 byte_); ("TransmitLinkSpeed", uint64);
   ("ReceiveLinkSpeed", uint64); ("InOctets", uint64); ("InUcastPkts", uint64); ("InNUcastPkts", uint64);
   ("InDiscards", uint64); ("InErrors", uint64); ("InUnknownProtos", uint64); ("InUcastOctets", uint64);
   ("InMulticastOctets", uint64); ("InBroadcastOctets", uint64); ("OutOctets", uint64);
   ("OutUcastPkts", uint64); ("OutNUcastPkts", uint64); ("OutDiscards", uint64); ("OutErrors", uint64);
   ("OutUcastOctets", uint64); ("OutMulticastOctets", uint64); ("OutBroadcastOctets", uint64);
   ("OutQLen", uint64)].
Definition mibIfTable2_32 : ty :=
  TStruct [("numEntries", uint32); ("_", TArr 4 byte_); ("table", TArr 1 MibIfRow2_32)].
Definition MibUnicastIPAddressRow_32 : ty :=
  TStruct [("Address", RawSockaddrInet); ("_", TArr 4 byte_); ("InterfaceLUID", LUID); ("InterfaceIndex", uint32);
   ("PrefixOrigin", PrefixOrigin); ("SuffixOrigin", SuffixOrigin); ("ValidLifetime", uint32);
   ("PreferredLifetime", uint32); ("OnLinkPrefixLength", uint8); ("SkipAsSource", bool_);
   ("DadState", DadState); ("ScopeID", uint32); ("CreationTimeStamp", int64)].
Definition mibUnicastIPAddressTable_32 : ty :=
  TStruct [("numEntries", uint32); ("_", TArr 4 byte_); ("table", TArr 1 MibUnicastIPAddressRow_32)].
Definition MibAnycastIPAddressRow_32 : ty :=
  TStruct [("Address", RawSockaddrInet); ("_", TArr 4 byte_); ("InterfaceLUID", LUID); ("InterfaceIndex", uint32);
   ("ScopeID", uint32)].
Definition mibAnycastIPAddressTable_32 : ty :=
  TStruct [("numEntries", uint32); ("_", TArr 4 byte_); ("table", TArr 1 MibAnycastIPAddressRow_32)].
Definition mibIPforwardTable2_32 : ty :=
  TStruct [("numEntries", uint32); ("_", TArr 4 byte_); ("table", TArr 1 MibIPforwardRow2)].

(** types_64.go *)
Definition IPAdapterWINSServerAddress_64 : ty :=
  TStruct [("Length", uint32); ("_", uint32); ("Next", TPtr); ("Address", TExt SOCKET_ADDRESS)].
Definition IPAdapterGatewayAddress_64 : ty :=
  TStruct [("Length", uint32); ("_", uint32); ("Next", TPtr); ("Address", TExt SOCKET_ADDRESS)].
Definition IPAdapterAddresses_64 : ty :=
  TStruct [("Length", uint32); ("IfIndex", uint32); ("Next", TPtr); ("adapterName", TPtr);
   ("FirstUnicastAddress", TPtr); ("FirstAnycastAddress", TPtr); ("FirstMulticastAddress", TPtr);
   ("FirstDNSServerAddress", TPtr); ("dnsSuffix", TPtr); ("description", TPtr); ("friendlyName", TPtr);
   ("physicalAddress", TArr 8 byte_); ("physicalAddressLength", uint32); ("Flags", IPAAFlags); ("MTU", uint32);
   ("IfType", IfType); ("OperStatus", IfOperStatus); ("IPv6IfIndex", uint32); ("ZoneIndices", TArr 16 uint32);
   ("FirstPrefix", TPtr); ("TransmitLinkSpeed", uint64); ("ReceiveLinkSpeed", uint64);
   ("FirstWINSServerAddress", TPtr); ("FirstGatewayAddress", TPtr); ("Ipv4Metric", uint32);
   ("Ipv6Metric", uint32); ("LUID", LUID); ("DHCPv4Server", TExt SOCKET_ADDRESS); ("CompartmentID", uint32);
   ("NetworkGUID", TExt GUID); ("ConnectionType", NetIfConnectionType); ("TunnelType", TunnelType);
   ("DHCPv6Server", TExt SOCKET_ADDRESS); ("dhcpv6ClientDUID", TArr 130 byte_);
   ("dhcpv6ClientDUIDLength", uint32); ("DHCPv6IAID", uint32); ("FirstDNSSuffix", TPtr)].
Definition MibIPInterfaceRow_64 : ty :=
  TStruct [("Family", AddressFamily); ("InterfaceLUID", LUID); ("InterfaceIndex", uint32);
   ("MaxReassemblySize", uint32); ("InterfaceIdentifier", uint64); ("MinRouterAdvertisementInterval", uint32);
   ("MaxRouterAdvertisementInterval", uint32); ("AdvertisingEnabled", bool_); ("ForwardingEnabled", bool_);
   ("WeakHostSend", bool_); ("WeakHostReceive", bool_); ("UseAutomaticMetric", bool_);
   ("UseNeighborUnreachabilityDetection", bool_); ("ManagedAddressConfigurationSupported", bool_);
   ("OtherStatefulConfigurationSupported", bool_); ("AdvertiseDefaultRoute", bool_);
   ("RouterDiscoveryBehavior", RouterDiscoveryBehavior); ("DadTransmits", uint32);
   ("BaseReachableTime", uint32); ("RetransmitTime", uint32); ("PathMTUDiscoveryTimeout", uint32);
   ("LinkLocalAddressBehavior", LinkLocalAddressBehavior); ("LinkLocalAddressTimeout", uint32);
   ("ZoneIndices", TArr 16 uint32); ("SitePrefixLength", uint32); ("Metric", uint32); ("NLMTU", uint32);
   ("Connected", bool_); ("SupportsWakeUpPatterns", bool_); ("SupportsNeighborDiscovery", bool_);
   ("SupportsRouterDiscovery", bool_); ("ReachableTime", uint32); ("TransmitOffload", OffloadRod);
   ("ReceiveOffload", OffloadRod); ("DisableDefaultRoutes", bool_)].
Definition mibIPInterfaceTable_64 : ty :=
  TStruct [("numEntries", uint32); ("table", TArr 1 MibIPInterfaceRow_64)].
Definition MibIfRow2_64 : ty :=
  TStruct [("InterfaceLUID", LUID); ("InterfaceIndex", uint32); ("InterfaceGUID", TExt GUID);
   ("alias", TArr 257 uint16); ("description", TArr 257 uint16); ("physicalAddressLength", uint32);
   ("physicalAddress", TArr 32 byte_); ("permanentPhysicalAddress", TArr 32 byte_); ("MTU", uint32);
   ("Type", IfType); ("TunnelType", TunnelType); ("MediaType", NdisMedium);
   ("PhysicalMediumType", NdisPhysicalMedium); ("AccessType", NetIfAccessType);
   ("DirectionType", NetIfDirectionType); ("InterfaceAndOperStatusFlags", InterfaceAndOperStatusFlags);
   ("OperStatus", IfOperStatus); ("AdminStatus", NetIfAdminStatus);
   ("MediaConnectState", NetIfMediaConnectState); ("NetworkGUID", TExt GUID);
   ("ConnectionType", NetIfConnectionType); ("TransmitLinkSpeed", uint64); ("ReceiveLinkSpeed", uint64);
   ("InOctets", uint64); ("InUcastPkts", uint64); ("InNUcastPkts", uint64); ("InDiscards", uint64);
   ("InErrors", uint64); ("InUnknownProtos", uint64); ("InUcastOctets", uint64); ("InMulticastOctets", uint64);
   ("InBroadcastOctets", uint64); ("OutOctets", uint64); ("OutUcastPkts", uint64); ("OutNUcastPkts", uint64);
   ("OutDiscards", uint64); ("OutErrors", uint64); ("OutUcastOctets", uint64); ("OutMulticastOctets", uint64);
   ("OutBroadcastOctets", uint64); ("OutQLen", uint64)].
Definition mibIfTable2_64 : ty :=
  TStruct [("numEntries", uint32); ("table", TArr 1 MibIfRow2_64)].
Definition MibUnicastIPAddressRow_64 : ty :=
  TStruct [("Address", RawSockaddrInet); ("InterfaceLUID", LUID); ("InterfaceIndex", uint32);
   ("PrefixOrigin", PrefixOrigin); ("SuffixOrigin", SuffixOrigin); ("ValidLifetime", uint32);
   ("PreferredLifetime", uint32); ("OnLinkPrefixLength", uint8); ("SkipAsSource", bool_);
   ("DadState", DadState); ("ScopeID", uint32); ("CreationTimeStamp", int64)].
Definition mibUnicastIPAddressTable_64 : ty :=
  TStruct [("numEntries", uint32); ("table", TArr 1 MibUnicastIPAddressRow_64)].
Definition MibAnycastIPAddressRow_64 : ty :=
  TStruct [("Address", RawSockaddrInet); ("InterfaceLUID", LUID); ("InterfaceIndex", uint32); ("ScopeID", uint32)].
Definition mibAnycastIPAddressTable_64 : ty :=
  TStruct [("numEntries", uint32); ("table", TArr 1 MibAnycastIPAddressRow_64)].
Definition mibIPforwardTable2_64 : ty :=
  TStruct [("numEntries", uint32); ("table", TArr 1 MibIPforwardRow2)].

(** ** The numbers of types_test.go, types_test_32.go and types_test_64.go *)

Definition expected_32 : list (ty * nat * list (string * nat)) :=
  [(IPAdapterWINSServerAddress_32, 24,
    [("Length", 0); ("Next", 8); ("Address", 12)]);
  (IPAdapterGatewayAddress_32, 24,
    [("Length", 0); ("Next", 8); ("Address", 12)]);
  (IPAdapterAddresses_32, 376,
    [("Length", 0); ("IfIndex", 4); ("Next", 8); ("adapterName", 12); ("FirstUnicastAddress", 16);
      ("FirstAnycastAddress", 20); ("FirstMulticastAddress", 24); ("FirstDNSServerAddress", 28);
      ("dnsSuffix", 32); ("description", 36); ("friendlyName", 40); ("physicalAddress", 44);
      ("physicalAddressLength", 52); ("Flags", 56); ("MTU", 60); ("IfType", 64); ("OperStatus", 68);
      ("IPv6IfIndex", 72); ("ZoneIndices", 76); ("FirstPrefix", 140); ("TransmitLinkSpeed", 144);
      ("ReceiveLinkSpeed", 152); ("FirstWINSServerAddress", 160); ("FirstGatewayAddress", 164);
      ("Ipv4Metric", 168); ("Ipv6Metric", 172); ("LUID", 176); ("DHCPv4Server", 184); ("CompartmentID", 192);
      ("NetworkGUID", 196); ("ConnectionType", 212); ("TunnelType", 216); ("DHCPv6Server", 220);
      ("dhcpv6ClientDUID", 228); ("dhcpv6ClientDUIDLength", 360); ("DHCPv6IAID", 364); ("FirstDNSSuffix", 368)]);
  (MibIPInterfaceRow_32, 168,
    [("Family", 0); ("InterfaceLUID", 8); ("InterfaceIndex", 16); ("MaxReassemblySize", 20);
      ("InterfaceIdentifier", 24); ("MinRouterAdvertisementInterval", 32);
      ("MaxRouterAdvertisementInterval", 36); ("AdvertisingEnabled", 40); ("ForwardingEnabled", 41);
      ("WeakHostSend", 42); ("WeakHostReceive", 43); ("UseAutomaticMetric", 44);
      ("UseNeighborUnreachabilityDetection", 45); ("ManagedAddressConfigurationSupported", 46);
      ("OtherStatefulConfigurationSupported", 47); ("AdvertiseDefaultRoute", 48);
      ("RouterDiscoveryBehavior", 52); ("DadTransmits", 56); ("BaseReachableTime", 60); ("RetransmitTime", 64);
      ("PathMTUDiscoveryTimeout", 68); ("LinkLocalAddressBehavior", 72); ("LinkLocalAddressTimeout", 76);
      ("ZoneIndices", 80); ("SitePrefixLength", 144); ("Metric", 148); ("NLMTU", 152); ("Connected", 156);
      ("SupportsWakeUpPatterns", 157); ("SupportsNeighborDiscovery", 158); ("SupportsRouterDiscovery", 159);
      ("ReachableTime", 160); ("TransmitOffload", 164); ("ReceiveOffload", 165); ("DisableDefaultRoutes", 166)]);
  (mibIPInterfaceTable_32, 176,
    [("numEntries", 0); ("table", 8)]);
  (MibIfRow2_32, 1352,
    [("InterfaceLUID", 0); ("InterfaceIndex", 8); ("InterfaceGUID", 12); ("alias", 28); ("description", 542);
      ("physicalAddressLength", 1056); ("physicalAddress", 1060); ("permanentPhysicalAddress", 1092);
      ("MTU", 1124); ("Type", 1128); ("TunnelType", 1132); ("MediaType", 1136); ("PhysicalMediumType", 1140);
      ("AccessType", 1144); ("DirectionType", 1148); ("InterfaceAndOperStatusFlags", 1152);
      ("OperStatus", 1156); ("AdminStatus", 1160); ("MediaConnectState", 1164); ("NetworkGUID", 1168);
      ("ConnectionType", 1184); ("TransmitLinkSpeed", 1192); ("ReceiveLinkSpeed", 1200); ("InOctets", 1208);
      ("InUcastPkts", 1216); ("InNUcastPkts", 1224); ("InDiscards", 1232); ("InErrors", 1240);
      ("InUnknownProtos", 1248); ("InUcastOctets", 1256); ("InMulticastOctets", 1264);
      ("InBroadcastOctets", 1272); ("OutOctets", 1280); ("OutUcastPkts", 1288); ("OutNUcastPkts", 1296);
      ("OutDiscards", 1304); ("OutErrors", 1312); ("OutUcastOctets", 1320); ("OutMulticastOctets", 1328);
      ("OutBroadcastOctets", 1336); ("OutQLen", 1344)]);
  (mibIfTable2_32, 1360,
    [("numEntries", 0); ("table", 8)]);
  (MibUnicastIPAddressRow_32, 80,
    [("Address", 0); ("InterfaceLUID", 32); ("InterfaceIndex", 40); ("PrefixOrigin", 44);
      ("SuffixOrigin", 48); ("ValidLifetime", 52); ("PreferredLifetime", 56); ("OnLinkPrefixLength", 60);
      ("SkipAsSource", 61); ("DadState", 64); ("ScopeID", 68); ("CreationTimeStamp", 72)]);
  (mibUnicastIPAddressTable_32, 88,
    [("numEntries", 0); ("table", 8)]);
  (MibAnycastIPAddressRow_32, 48,
    [("Address", 0); ("InterfaceLUID", 32); ("InterfaceIndex", 40); ("ScopeID", 44)]);
  (mibAnycastIPAddressTable_32, 56,
    [("numEntries", 0); ("table", 8)]);
  (mibIPforwardTable2_32, 112,
    [("numEntries", 0); ("table", 8)]);
  (IPAdapterDNSSuffix, 516,
    [("Next", 0); ("str", 4)]);
  (RawSockaddrInet, 28,
    [("Family", 0); ("data", 2)]);
  (IPAddressPrefix, 32,
    [("RawPrefix", 0); ("PrefixLength", 28)]);
  (MibIPforwardRow2, 104,
    [("InterfaceLUID", 0); ("InterfaceIndex", 8); ("DestinationPrefix", 12); ("NextHop", 44);
      ("SitePrefixLength", 72); ("ValidLifetime", 76); ("PreferredLifetime", 80); ("Metric", 84);
      ("Protocol", 88); ("Loopback", 92); ("AutoconfigureAddress", 93); ("Publish", 94); ("Immortal", 95);
      ("Age", 96); ("Origin", 100)])]%nat.

Definition expected_64 : list (ty * nat * list (string * nat)) :=
  [(IPAdapterWINSServerAddress_64, 32,
    [("Length", 0); ("Next", 8); ("Address", 16)]);
  (IPAdapterGatewayAddress_64, 32,
    [("Length", 0); ("Next", 8); ("Address", 16)]);
  (IPAdapterAddresses_64, 448,
    [("Length", 0); ("IfIndex", 4); ("Next", 8); ("adapterName", 16); ("FirstUnicastAddress", 24);
      ("FirstAnycastAddress", 32); ("FirstMulticastAddress", 40); ("FirstDNSServerAddress", 48);
      ("dnsSuffix", 56); ("description", 64); ("friendlyName", 72); ("physicalAddress", 80);
      ("physicalAddressLength", 88); ("Flags", 92); ("MTU", 96); ("IfType", 100); ("OperStatus", 104);
      ("IPv6IfIndex", 108); ("ZoneIndices", 112); ("FirstPrefix", 176); ("TransmitLinkSpeed", 184);
      ("ReceiveLinkSpeed", 192); ("FirstWINSServerAddress", 200); ("FirstGatewayAddress", 208);
      ("Ipv4Metric", 216); ("Ipv6Metric", 220); ("LUID", 224); ("DHCPv4Server", 232); ("CompartmentID", 248);
      ("NetworkGUID", 252); ("ConnectionType", 268); ("TunnelType", 272); ("DHCPv6Server", 280);
      ("dhcpv6ClientDUID", 296); ("dhcpv6ClientDUIDLength", 428); ("DHCPv6IAID", 432); ("FirstDNSSuffix", 440)]);
  (MibIPInterfaceRow_64, 168,
    [("Family", 0); ("InterfaceLUID", 8); ("InterfaceIndex", 16); ("MaxReassemblySize", 20);
      ("InterfaceIdentifier", 24); ("MinRouterAdvertisementInterval", 32);
      ("MaxRouterAdvertisementInterval", 36); ("AdvertisingEnabled", 40); ("ForwardingEnabled", 41);
      ("WeakHostSend", 42); ("WeakHostReceive", 43); ("UseAutomaticMetric", 44);
      ("UseNeighborUnreachabilityDetection", 45); ("ManagedAddressConfigurationSupported", 46);
      ("OtherStatefulConfigurationSupported", 47); ("AdvertiseDefaultRoute", 48);
      ("RouterDiscoveryBehavior", 52); ("DadTransmits", 56); ("BaseReachableTime", 60); ("RetransmitTime", 64);
      ("PathMTUDiscoveryTimeout", 68); ("LinkLocalAddressBehavior", 72); ("LinkLocalAddressTimeout", 76);
      ("ZoneIndices", 80); ("SitePrefixLength", 144); ("Metric", 148); ("NLMTU", 152); ("Connected", 156);
      ("SupportsWakeUpPatterns", 157); ("SupportsNeighborDiscovery", 158); ("SupportsRouterDiscovery", 159);
      ("ReachableTime", 160); ("TransmitOffload", 164); ("ReceiveOffload", 165); ("DisableDefaultRoutes", 166)]);
  (mibIPInterfaceTable_64, 176,
    [("numEntries", 0); ("table", 8)]);
  (MibIfRow2_64, 1352,
    [("InterfaceLUID", 0); ("InterfaceIndex", 8); ("InterfaceGUID", 12); ("alias", 28); ("description", 542);
      ("physicalAddressLength", 1056); ("physicalAddress", 1060); ("permanentPhysicalAddress", 1092);
      ("MTU", 1124); ("Type", 1128); ("TunnelType", 1132); ("MediaType", 1136); ("PhysicalMediumType", 1140);
      ("AccessType", 1144); ("DirectionType", 1148); ("InterfaceAndOperStatusFlags", 1152);
      ("OperStatus", 1156); ("AdminStatus", 1160); ("MediaConnectState", 1164); ("NetworkGUID", 1168);
      ("ConnectionType", 1184); ("TransmitLinkSpeed", 1192); ("ReceiveLinkSpeed", 1200); ("InOctets", 1208);
      ("InUcastPkts", 1216); ("InNUcastPkts", 1224); ("InDiscards", 1232); ("InErrors", 1240);
      ("InUnknownProtos", 1248); ("InUcastOctets", 1256); ("InMulticastOctets", 1264);
      ("InBroadcastOctets", 1272); ("OutOctets", 1280); ("OutUcastPkts", 1288); ("OutNUcastPkts", 1296);
      ("OutDiscards", 1304); ("OutErrors", 1312); ("OutUcastOctets", 1320); ("OutMulticastOctets", 1328);
      ("OutBroadcastOctets", 1336); ("OutQLen", 1344)]);
  (mibIfTable2_64, 1360,
    [("numEntries", 0); ("table", 8)]);
  (MibUnicastIPAddressRow_64, 80,
    [("Address", 0); ("InterfaceLUID", 32); ("InterfaceIndex", 40); ("PrefixOrigin", 44);
      ("SuffixOrigin", 48); ("ValidLifetime", 52); ("PreferredLifetime", 56); ("OnLinkPrefixLength", 60);
      ("SkipAsSource", 61); ("DadState", 64); ("ScopeID", 68); ("CreationTimeStamp", 72)]);
  (mibUnicastIPAddressTable_64, 88,
    [("numEntries", 0); ("table", 8)]);
  (MibAnycastIPAddressRow_64, 48,
    [("Address", 0); ("InterfaceLUID", 32); ("InterfaceIndex", 40); ("ScopeID", 44)]);
  (mibAnycastIPAddressTable_64, 56,
    [("numEntries", 0); ("table", 8)]);
  (mibIPforwardTable2_64, 112,
    [("numEntries", 0); ("table", 8)]);
  (IPAdapterDNSSuffix, 520,
    [("Next", 0); ("str", 8)]);
  (RawSockaddrInet, 28,
    [("Family", 0); ("data", 2)]);
  (IPAddressPrefix, 32,
    [("RawPrefix", 0); ("PrefixLength", 28)]);
  (MibIPforwardRow2, 104,
    [("InterfaceLUID", 0); ("InterfaceIndex", 8); ("DestinationPrefix", 12); ("NextHop", 44);
      ("SitePrefixLength", 72); ("ValidLifetime", 76); ("PreferredLifetime", 80); ("Metric", 84);
      ("Protocol", 88); ("Loopback", 92); ("AutoconfigureAddress", 93); ("Publish", 94); ("Immortal", 95);
      ("Age", 96); ("Origin", 100)])]%nat.

(** SOCKET_ADDRESS is a pointer and a 32-bit length, GUID a 32-bit number, two
    16-bit numbers and eight bytes. *)
Definition documented : Ext := λ a x,
  match x with SOCKET_ADDRESS => (2 * ptr a, ptr a) | GUID => (16, 4) end%nat.

(** ** Layouts are sound *)

Lemma align_up_spec al n : (0 < al)%nat → (n ≤ align_up al n < n + al)%nat ∧ (align_up al n mod al = 0)%nat.
Proof.
  intros H. unfold align_up. split; [|by rewrite Nat.Div0.mod_mul].
  pose proof (Nat.div_mod_eq (n + al - 1) al). pose proof (Nat.mod_upper_bound (n + al - 1) al). nia.
Qed.

Section Sound.
Context {E : Ext} (a : abi).

Definition align_of (t : ty) : nat := (size_align a t).2.
Definition size_of (t : ty) : nat := (size_align a t).1.

(** From [off] on, every field is aligned and starts where the previous one has
    ended or later; the last one ends at or before [stop]. *)
Fixpoint laid_out (off stop : nat) (fs : list (string * ty)) (os : list (string * nat)) : Prop :=
  match fs, os with
  | [], [] => (off ≤ stop)%nat
  | (f, t) :: fs, (g, o) :: os =>
      f = g ∧ (off ≤ o)%nat ∧ (o mod align_of t = 0)%nat ∧ laid_out (o + size_of t) stop fs os
  | _, _ => False
  end.

Definition aligned (fs : list (string * ty)) : Prop := Forall (λ x, (0 < align_of x.2)%nat) fs.

Fixpoint struct_end (off al : nat) (fs : list (string * ty)) : nat * nat :=
  match fs with
  | [] => (align_up al off, al)
  | (_, t) :: fs => struct_end (align_up (align_of t) off + size_of t) (Nat.max al (align_of t)) fs
  end.

Lemma size_align_struct fs : size_align a (TStruct fs) = struct_end 0 1 fs.
Proof.
  cbn. generalize 0%nat as off, 1%nat as al. induction fs as [|[f t] fs IH]; intros off al; [done|].
  cbn. unfold align_of, size_of. destruct (size_align a t) as [s l]. apply IH.
Qed.

Lemma offsets_laid_out fs : ∀ off al, (0 < al)%nat → aligned fs →
  laid_out off (struct_end off al fs).1 fs (offsets a off fs) ∧
  ((struct_end off al fs).1 mod (struct_end off al fs).2 = 0)%nat.
Proof.
  induction fs as [|[f t] fs IH]; intros off al Hal Hfs.
  - cbn. destruct (align_up_spec al off Hal). split; [lia|done].
  - apply Forall_cons in Hfs as [Ht Hfs]. cbn in Ht. cbn [struct_end offsets].
    destruct (size_align a t) as [s l] eqn:E1. assert (align_of t = l ∧ size_of t = s) as [El Es] by (unfold align_of, size_of; by rewrite E1).
    rewrite El in Ht. rewrite !El, !Es. destruct (align_up_spec l off Ht) as [H1 H2].
    destruct (IH (align_up l off + s)%nat (Nat.max al l) ltac:(lia) Hfs) as [H3 H4]. split; [|done].
    cbn. rewrite El, Es. split_and!; [done|lia|done|exact H3].
Qed.
End Sound.

Lemma size_align_ext (E E' : Ext) a : (∀ x, ext_layout (Ext := E) a x = ext_layout (Ext := E') a x) →
  ∀ t, size_align (E := E) a t = size_align (E := E') a t.
Proof.
  intros H. fix IH 1. intros [n| |n t|x|fs]; [done|done|cbn; by rewrite (IH t)|apply H|].
  cbn. generalize 0%nat as off, 1%nat as al. induction fs as [|[f t] fs IHfs]; intros off al; [done|].
  rewrite (IH t). destruct (size_align a t) as [s l]. apply IHfs.
Qed.

Lemma offsets_ext (E E' : Ext) a : (∀ x, ext_layout (Ext := E) a x = ext_layout (Ext := E') a x) →
  ∀ fs off, offsets (E := E) a off fs = offsets (E := E') a off fs.
Proof.
  intros H. induction fs as [|[f t] fs IH]; intros off; [done|].
  cbn. rewrite (size_align_ext E E' a H t). destruct (size_align a t) as [s l]. by rewrite IH.
Qed.

#[local] Instance matches_dec (E : Ext) a x : Decision (matches (E := E) a x).
Proof. unfold matches. apply _. Defined.

Definition struct_fields (t : ty) : list (string * ty) := match t with TStruct fs => fs | _ => [] end.

Definition aligned_all (E : Ext) (a : abi) (l : list (ty * nat * list (string * nat))) : Prop :=
  Forall (λ x, aligned (E := E) a (struct_fields x.1.1)) l.
#[local] Instance aligned_all_dec E a l : Decision (aligned_all E a l).
Proof. unfold aligned_all, aligned. apply _. Defined.

Lemma documented_tables :
  Forall (matches (E := documented) go32) expected_32 ∧ Forall (matches (E := documented) go64) expected_64 ∧
  aligned_all documented go32 expected_32 ∧ aligned_all documented go64 expected_64.
Proof. split_and!; apply (bool_decide_unpack _); vm_compute; exact I. Qed.

Lemma matches_ext (E : Ext) a l : (∀ x, ext_layout (Ext := E) a x = documented a x) →
  Forall (matches (E := documented) a) l → Forall (matches (E := E) a) l.
Proof.
  intros H Hl. eapply Forall_impl; [exact Hl|]. intros [[t n] os] [H1 H2]. split; cbn in *.
  - by rewrite (size_align_ext E documented a H).
  - unfold fields_of in *. destruct t; try done. by rewrite (offsets_ext E documented a H).
Qed.

Lemma laid_out_all (E : Ext) a l : (∀ x, ext_layout (Ext := E) a x = documented a x) →
  aligned_all documented a l →
  ∀ fs n os, (TStruct fs, n, os) ∈ l → laid_out a 0 (size_align a (TStruct fs)).1 fs (offsets a 0 fs).
Proof.
  intros H Hl fs n os Hin.
  unfold aligned_all in Hl. rewrite Forall_forall in Hl. specialize (Hl _ Hin). cbn in Hl.
  rewrite size_align_struct. apply offsets_laid_out; [lia|]. eapply Forall_impl; [exact Hl|].
  intros [f t]. cbn. unfold align_of. by rewrite (size_align_ext E documented a H).
Qed.

(** Windows sees the structures as it expects them.  Given the documented size of
    the two structures of the system package, the Go compiler lays out every
    structure of the package, on 32-bit and on 64-bit machines, with the total size
    and the field offsets that Windows uses (those the tests demand), and in each of
    them every field is aligned, no two fields overlap and none reaches beyond the
    end. *)
Theorem layouts_match (E : Ext) :
  (∀ a x, ext_layout a x = documented a x) →
  Forall (matches go32) expected_32 ∧ Forall (matches go64) expected_64 ∧
  (∀ fs n os, (TStruct fs, n, os) ∈ expected_32 →
     laid_out go32 0 (size_align go32 (TStruct fs)).1 fs (offsets go32 0 fs)) ∧
  (∀ fs n os, (TStruct fs, n, os) ∈ expected_64 →
     laid_out go64 0 (size_align go64 (TStruct fs)).1 fs (offsets go64 0 fs)).
Proof.
  intros H. destruct documented_tables as (H32 & H64 & A32 & A64). split_and!.
  - by apply matches_ext; [intros x; apply H|].
  - by apply matches_ext; [intros x; apply H|].
  - by apply laid_out_all; [intros x; apply H|].
  - by apply laid_out_all; [intros x; apply H|].
Qed.

Lemma layouts_match_witness :
  matches (E := documented) go32 (mibUnicastIPAddressTable_32, 88%nat, [("numEntries", 0%nat); ("table", 8%nat)]).
Proof.
  destruct (layouts_match documented (λ a x, eq_refl)) as (H & _).
  rewrite Forall_forall in H. apply H. unfold expected_32. do 8 right. left.
Defined.

(** Without the explicit padding the table of addresses would be misread on 32-bit
    machines: Windows starts the rows at offset 8, the compiler at 4. *)
Lemma padding_needed :
  fields_of (E := documented) go32 (TStruct [("numEntries", uint32); ("table", TArr 1 MibIPInterfaceRow_32)]) =
    [("numEntries", 0%nat); ("table", 4%nat)].
Proof. by vm_compute. Qed.

End WinLayout.
