(* ===== verification/WinIpcfg.v ===== *)
(** * The IP configuration of Windows
    (src/internal/winipcfg/luid.go, winipcfg.go, netsh.go and the methods of types.go)

    The tables of addresses and routes are the state of Windows.  An entry is
    identified by its interface and the address, or the prefix and the next hop,
    that its bytes mean.  Every call may fail, for a reason of its own
    ([ip_fails]); creating an entry that exists and deleting one that does not are
    refused.  Tables are handed out in memory of Windows that has to be freed.  The
    tables are lists, but no property depends on their order; entries that Windows makes
    by itself, such as the on-link routes of a new address, are left out. *)

From S2P Require Import Prelude GoStrings GoNet Buffers WinAddr.

Module WinIpcfg.
Import WinAddr.

#[global] Instance Addr_eq_dec : EqDecision Addr.
Proof. solve_decision. Defined.

Inductive werr :=
  | ERROR_INVALID_PARAMETER | ERROR_NOT_FOUND | ERROR_OBJECT_ALREADY_EXISTS | ERROR_PROTOCOL_UNREACHABLE
  | ERROR_PROC_NOT_FOUND | ERROR_BUFFER_OVERFLOW | EINVAL | OtherCode (c : Z) | Text (s : string).
#[global] Instance werr_eq_dec : EqDecision werr.
Proof. solve_decision. Defined.

(** ** Rows

    The fields that the package sets or reads; the others keep what the
    initialising call of Windows writes. *)

Record MibUnicastIPAddressRow := mkUnicast {
  u_LUID : Z; Address : list byte; OnLinkPrefixLength : Z; DadState : Z; u_ValidLifetime : Z; u_PreferredLifetime : Z }.

Record MibIPforwardRow2 := mkForward {
  f_LUID : Z; DestinationPrefix : IPAddressPrefix; NextHop : list byte; Metric : Z;
  f_ValidLifetime : Z; f_PreferredLifetime : Z }.

Record RouteData := mkRouteData { Destination : Prefix; rd_NextHop : Addr; rd_Metric : Z }.

Definition ukey (r : MibUnicastIPAddressRow) : Z * Addr := (u_LUID r, RawAddr (Address r)).
Definition fkey (r : MibIPforwardRow2) : Z * (Prefix * Addr) :=
  (f_LUID r, (prefix_of (DestinationPrefix r), RawAddr (NextHop r))).

Definition DadStatePreferred : Z := 4.
Definition infinite : Z := 0xffffffff.

(** ** Windows *)

Inductive icall :=
  | UnicastTable | GetUnicast (k : Z * Addr) | CreateUnicast (k : Z * Addr) | DeleteUnicast (k : Z * Addr)
  | ForwardTable | GetForward (k : Z * (Prefix * Addr)) | CreateForward (k : Z * (Prefix * Addr))
  | DeleteForward (k : Z * (Prefix * Addr)).

Record ip := mkIp {
  unicast : list MibUnicastIPAddressRow;
  forward : list MibIPforwardRow2;
  tables : nat;                             (* handed out and not freed *)
  icalls : list icall }.

Class IpEnv := {
  ip_fails : list icall → icall → option werr;
  init_unicast : MibUnicastIPAddressRow;    (* InitializeUnicastIpAddressEntry *)
  init_forward : MibIPforwardRow2           (* InitializeIpForwardEntry *)
}.

Abbreviation im := (stm ip werr).

Section Calls.
Context {E : IpEnv}.

Definition asked (c : icall) (s : ip) : ip := mkIp (unicast s) (forward s) (tables s) (c :: icalls s).
Definition set_unicast (l : list MibUnicastIPAddressRow) (s : ip) : ip := mkIp l (forward s) (tables s) (icalls s).
Definition set_forward (l : list MibIPforwardRow2) (s : ip) : ip := mkIp (unicast s) l (tables s) (icalls s).
Definition set_tables (n : nat) (s : ip) : ip := mkIp (unicast s) (forward s) n (icalls s).

(** A call that fails for a reason of Windows, or else is [f]. *)
Definition call {A} (c : icall) (f : im A) : im A := λ s,
  match ip_fails (icalls s) c with
  | Some e => (Err e, asked c s)
  | None => f (asked c s)
  end.

Definition created {R K} `{EqDecision K} (key : R → K) (r : R) (l : list R) : option (list R) :=
  if bool_decide (key r ∈ key <$> l) then None else Some (l ++ [r]).
Definition deleted {R K} `{EqDecision K} (key : R → K) (r : R) (l : list R) : option (list R) :=
  if bool_decide (key r ∈ key <$> l) then Some (filter (λ x, key x ≠ key r) l) else None.

Definition createUnicastIPAddressEntry (r : MibUnicastIPAddressRow) : im unit :=
  call (CreateUnicast (ukey r)) (λ s,
    match created ukey r (unicast s) with
    | Some l => (Ok tt, set_unicast l s) | None => (Err ERROR_OBJECT_ALREADY_EXISTS, s) end).
Definition deleteUnicastIPAddressEntry (r : MibUnicastIPAddressRow) : im unit :=
  call (DeleteUnicast (ukey r)) (λ s,
    match deleted ukey r (unicast s) with
    | Some l => (Ok tt, set_unicast l s) | None => (Err ERROR_NOT_FOUND, s) end).
Definition getUnicastIPAddressEntry (r : MibUnicastIPAddressRow) : im MibUnicastIPAddressRow :=
  call (GetUnicast (ukey r)) (λ s,
    match filter (λ x, ukey x = ukey r) (unicast s) with x :: _ => (Ok x, s) | [] => (Err ERROR_NOT_FOUND, s) end).

Definition createIPForwardEntry2 (r : MibIPforwardRow2) : im unit :=
  call (CreateForward (fkey r)) (λ s,
    match created fkey r (forward s) with
    | Some l => (Ok tt, set_forward l s) | None => (Err ERROR_OBJECT_ALREADY_EXISTS, s) end).
Definition deleteIPForwardEntry2 (r : MibIPforwardRow2) : im unit :=
  call (DeleteForward (fkey r)) (λ s,
    match deleted fkey r (forward s) with
    | Some l => (Ok tt, set_forward l s) | None => (Err ERROR_NOT_FOUND, s) end).
Definition getIPForwardEntry2 (r : MibIPforwardRow2) : im MibIPforwardRow2 :=
  call (GetForward (fkey r)) (λ s,
    match filter (λ x, fkey x = fkey r) (forward s) with x :: _ => (Ok x, s) | [] => (Err ERROR_NOT_FOUND, s) end).

Definition in_family (family : Z) (m : list byte) : bool := (family =? AF_UNSPEC) || (Family m =? family).
Definition u_family (family : Z) (r : MibUnicastIPAddressRow) : bool := in_family family (Address r).
Definition f_family (family : Z) (r : MibIPforwardRow2) : bool := in_family family (RawPrefix (DestinationPrefix r)).

Definition getUnicastIPAddressTable (family : Z) : im (list MibUnicastIPAddressRow) :=
  call UnicastTable (λ s, (Ok (filter (λ r, u_family family r = true) (unicast s)), set_tables (S (tables s)) s)).
Definition getIPForwardTable2 (family : Z) : im (list MibIPforwardRow2) :=
  call ForwardTable (λ s, (Ok (filter (λ r, f_family family r = true) (forward s)), set_tables (S (tables s)) s)).
Definition freeMibTable : im unit := λ s, (Ok tt, set_tables (pred (tables s)) s).

(** The exported functions copy the table. *)
Definition GetUnicastIPAddressTable (family : Z) : im (list MibUnicastIPAddressRow) :=
  t ← getUnicastIPAddressTable family; freeMibTable ;; mret t.
Definition GetIPForwardTable2 (family : Z) : im (list MibIPforwardRow2) :=
  t ← getIPForwardTable2 family; freeMibTable ;; mret t.

(** ** Operations of an interface (luid.go) *)

(** A call of SetAddr or SetPrefix. *)
Definition checked {A} (o : option A) : im A := match o with Some a => mret a | None => throw ERROR_INVALID_PARAMETER end.

Definition zero28 : list byte := zeros 28.

Definition IPAddress (luid : Z) (addr : Addr) : im MibUnicastIPAddressRow :=
  m ← checked (SetAddr zero28 addr);
  getUnicastIPAddressEntry (mkUnicast luid m 0 0 0 0).

Definition AddIPAddress (luid : Z) (address : Prefix) : im unit :=
  let row := init_unicast in
  m ← checked (SetAddr (Address row) address.1);
  createUnicastIPAddressEntry (mkUnicast luid m (address.2 mod 256) DadStatePreferred infinite infinite).

Fixpoint AddIPAddresses (luid : Z) (addresses : list Prefix) : im unit :=
  match addresses with
  | [] => mret tt
  | a :: addresses => AddIPAddress luid a ;; AddIPAddresses luid addresses
  end.

Definition DeleteIPAddress (luid : Z) (address : Prefix) : im unit :=
  let row := init_unicast in
  m ← checked (SetAddr (Address row) address.1);
  deleteUnicastIPAddressEntry (mkUnicast luid m (address.2 mod 256) (DadState row) (u_ValidLifetime row) (u_PreferredLifetime row)).

(** The loop of FlushIPAddresses, which drops errors. *)
Fixpoint delete_addresses (luid : Z) (t : list MibUnicastIPAddressRow) : im unit :=
  match t with
  | [] => mret tt
  | r :: t =>
      _ ← (if u_LUID r =? luid then try_ (deleteUnicastIPAddressEntry r) else mret (Ok tt));
      delete_addresses luid t
  end.

Definition FlushIPAddresses (luid : Z) (family : Z) : im unit :=
  t ← getUnicastIPAddressTable family;
  delete_addresses luid t ;;
  freeMibTable.

Definition SetIPAddresses (luid : Z) (addresses : list Prefix) : im unit :=
  FlushIPAddresses luid AF_UNSPEC ;;
  AddIPAddresses luid addresses.

(** The addresses that SetIPAddressesForFamily and SetRoutesForFamily skip. *)
Definition skipped (family : Z) (a : Addr) : bool :=
  (negb (Is4 a) && (family =? AF_INET)) || (negb (Is6 a) && (family =? AF_INET6)).

Fixpoint add_for_family (luid : Z) (family : Z) (addresses : list Prefix) : im unit :=
  match addresses with
  | [] => mret tt
  | a :: addresses =>
      if skipped family a.1 then add_for_family luid family addresses
      else AddIPAddress luid a ;; add_for_family luid family addresses
  end.

Definition SetIPAddressesForFamily (luid : Z) (family : Z) (addresses : list Prefix) : im unit :=
  FlushIPAddresses luid family ;;
  add_for_family luid family addresses.

Definition Route (luid : Z) (destination : Prefix) (nextHop : Addr) : im MibIPforwardRow2 :=
  let row := init_forward in
  d ← checked (SetPrefix (DestinationPrefix row) destination);
  n ← checked (SetAddr (NextHop row) nextHop);
  getIPForwardEntry2 (mkForward luid d n (Metric row) infinite infinite).

Definition AddRoute (luid : Z) (destination : Prefix) (nextHop : Addr) (metric : Z) : im unit :=
  let row := init_forward in
  d ← checked (SetPrefix (DestinationPrefix row) destination);
  n ← checked (SetAddr (NextHop row) nextHop);
  createIPForwardEntry2 (mkForward luid d n metric (f_ValidLifetime row) (f_PreferredLifetime row)).

Fixpoint AddRoutes (luid : Z) (routesData : list RouteData) : im unit :=
  match routesData with
  | [] => mret tt
  | rd :: l => AddRoute luid (Destination rd) (rd_NextHop rd) (rd_Metric rd) ;; AddRoutes luid l
  end.

Definition DeleteRoute (luid : Z) (destination : Prefix) (nextHop : Addr) : im unit :=
  let row := init_forward in
  d ← checked (SetPrefix (DestinationPrefix row) destination);
  n ← checked (SetAddr (NextHop row) nextHop);
  row ← getIPForwardEntry2 (mkForward luid d n (Metric row) (f_ValidLifetime row) (f_PreferredLifetime row));
  deleteIPForwardEntry2 row.

(** The loop of FlushRoutes; [err] is the last error. *)
Fixpoint delete_routes (luid : Z) (t : list MibIPforwardRow2) (err : option werr) : im (option werr) :=
  match t with
  | [] => mret err
  | r :: t =>
      o ← (if f_LUID r =? luid then try_ (deleteIPForwardEntry2 r) else mret (Ok tt));
      delete_routes luid t (match o with Err e => Some e | _ => err end)
  end.

Definition FlushRoutes (luid : Z) (family : Z) : im unit :=
  t ← getIPForwardTable2 family;
  err ← delete_routes luid t None;
  freeMibTable ;;
  match err with Some e => throw e | None => mret tt end.

Definition SetRoutes (luid : Z) (routesData : list RouteData) : im unit :=
  FlushRoutes luid AF_UNSPEC ;;
  AddRoutes luid routesData.

Fixpoint routes_for_family (luid : Z) (family : Z) (routesData : list RouteData) : im unit :=
  match routesData with
  | [] => mret tt
  | rd :: l =>
      if skipped family (Destination rd).1 then routes_for_family luid family l
      else AddRoute luid (Destination rd) (rd_NextHop rd) (rd_Metric rd) ;; routes_for_family luid family l
  end.

Definition SetRoutesForFamily (luid : Z) (family : Z) (routesData : list RouteData) : im unit :=
  FlushRoutes luid family ;;
  routes_for_family luid family routesData.

(** ** An operation touches only what it is about *)

Inductive op :=
  | OpAddAddress (a : Prefix) | OpAddAddresses (l : list Prefix) | OpSetAddresses (l : list Prefix)
  | OpSetAddressesFor (family : Z) (l : list Prefix) | OpDeleteAddress (a : Prefix) | OpFlushAddresses (family : Z)
  | OpAddRoute (r : RouteData) | OpAddRoutes (l : list RouteData) | OpSetRoutes (l : list RouteData)
  | OpSetRoutesFor (family : Z) (l : list RouteData) | OpDeleteRoute (d : Prefix) (n : Addr) | OpFlushRoutes (family : Z)
  | OpGetAddress (a : Addr) | OpGetRoute (d : Prefix) (n : Addr) | OpReadAddresses (family : Z) | OpReadRoutes (family : Z).

Definition run (luid : Z) (o : op) : im unit :=
  match o with
  | OpAddAddress a => AddIPAddress luid a
  | OpAddAddresses l => AddIPAddresses luid l
  | OpSetAddresses l => SetIPAddresses luid l
  | OpSetAddressesFor f l => SetIPAddressesForFamily luid f l
  | OpDeleteAddress a => DeleteIPAddress luid a
  | OpFlushAddresses f => FlushIPAddresses luid f
  | OpAddRoute r => AddRoute luid (Destination r) (rd_NextHop r) (rd_Metric r)
  | OpAddRoutes l => AddRoutes luid l
  | OpSetRoutes l => SetRoutes luid l
  | OpSetRoutesFor f l => SetRoutesForFamily luid f l
  | OpDeleteRoute d n => DeleteRoute luid d n
  | OpFlushRoutes f => FlushRoutes luid f
  | OpGetAddress a => IPAddress luid a ;; mret tt
  | OpGetRoute d n => Route luid d n ;; mret tt
  | OpReadAddresses f => GetUnicastIPAddressTable f ;; mret tt
  | OpReadRoutes f => GetIPForwardTable2 f ;; mret tt
  end.

(** The family an operation is limited to. *)
Definition family_of (o : op) : Z :=
  match o with
  | OpSetAddressesFor f _ | OpFlushAddresses f | OpSetRoutesFor f _ | OpFlushRoutes f => f
  | _ => AF_UNSPEC
  end.
Definition fam_ok (family : Z) (a : Addr) : bool :=
  if family =? AF_INET then Is4 a else if family =? AF_INET6 then Is6 a else true.

Definition op_addrs (o : op) : list Addr :=
  match o with
  | OpAddAddress a | OpDeleteAddress a => [a.1]
  | OpAddAddresses l | OpSetAddresses l | OpSetAddressesFor _ l => l.*1
  | OpAddRoute r => [(Destination r).1; rd_NextHop r]
  | OpAddRoutes l | OpSetRoutes l | OpSetRoutesFor _ l => ((λ r, (Destination r).1) <$> l) ++ (rd_NextHop <$> l)
  | OpDeleteRoute d n | OpGetRoute d n => [d.1; n]
  | OpGetAddress a => [a]
  | _ => []
  end.

(** Entries that an operation on [luid] limited to [family] must leave alone. *)
Definition foreign (luid family : Z) (k : Z * Addr) : Prop := ¬ (k.1 = luid ∧ fam_ok family k.2 = true).
Definition uforeign luid family (r : MibUnicastIPAddressRow) : Prop := foreign luid family (ukey r).
Definition fforeign luid family (r : MibIPforwardRow2) : Prop := foreign luid family ((fkey r).1, (fkey r).2.1.1).

#[global] Instance uforeign_dec luid family r : Decision (uforeign luid family r).
Proof. unfold uforeign, foreign. apply _. Defined.
#[global] Instance fforeign_dec luid family r : Decision (fforeign luid family r).
Proof. unfold fforeign, foreign. apply _. Defined.

Definition others (luid family : Z) (s : ip) :=
  (filter (uforeign luid family) (unicast s), filter (fforeign luid family) (forward s)).

(** A call that leaves foreign entries, moves the number of tables by [d], and does
    not panic. *)
Definition confined {A} (luid family : Z) (m : im A) : Prop :=
  ∀ s, (m s).1 ≠ Panic ∧ others luid family (m s).2 = others luid family s ∧ tables (m s).2 = tables s.

Lemma confined_bind {A B} luid family (m : im A) (f : A → im B) :
  confined luid family m → (∀ a, confined luid family (f a)) → confined luid family (m ≫= f).
Proof.
  intros Hm Hf s. unfold mbind, stm_bind. destruct (Hm s) as (H1 & H2 & H3).
  destruct (m s) as [[a|e|] s1]; cbn in *; [|done|done]. destruct (Hf a s1) as (H4 & H5 & H6).
  split_and!; [done|by rewrite H5|by rewrite H6].
Qed.

Lemma confined_ret {A} luid family (a : A) : confined luid family (mret a).
Proof. done. Qed.

Lemma confined_checked {A} luid family (o : option A) : confined luid family (checked o).
Proof. by destruct o. Qed.

(** What is known of a value that was written. *)
Lemma confined_checked_bind {A B} luid family (o : option A) (f : A → im B) :
  (∀ a, o = Some a → confined luid family (f a)) → confined luid family (checked o ≫= f).
Proof. intros H. destruct o as [a|]; [|by intros s]. by apply H. Qed.

Lemma confined_try {A} luid family (m : im A) : confined luid family m → confined luid family (try_ (F := werr) m).
Proof.
  intros H s. destruct (H s) as (H1 & H2 & H3). unfold try_. by destruct (m s) as [[a|e|] s1].
Qed.

Lemma confined_call {A} luid family c (f : im A) : confined luid family f → confined luid family (call c f).
Proof.
  intros H s. unfold call. destruct (ip_fails (icalls s) c); [done|]. destruct (H (asked c s)) as (H1 & H2 & H3).
  by split_and!.
Qed.

Lemma filter_created {R K} `{EqDecision K} (key : R → K) (P : R → Prop) `{∀ x, Decision (P x)} r l l' :
  ¬ P r → created key r l = Some l' → filter P l' = filter P l.
Proof.
  intros Hr. unfold created. case_bool_decide; [done|]. intros [= <-]. rewrite filter_app, (filter_cons_False P) by done.
  by rewrite app_nil_r.
Qed.

Lemma filter_deleted {R K} `{EqDecision K} (key : R → K) (P : R → Prop) `{∀ x, Decision (P x)} r l l' :
  (∀ x, key x = key r → ¬ P x) → deleted key r l = Some l' → filter P l' = filter P l.
Proof.
  intros Hr. unfold deleted. case_bool_decide; [|done]. intros [= <-]. rewrite list_filter_filter.
  apply list_filter_iff. intros x. split; [tauto|]. intros Hx. split; [done|]. intros Ek. by apply (Hr x).
Qed.

Lemma create_unicast_confined luid family r :
  ¬ uforeign luid family r → confined luid family (createUnicastIPAddressEntry r).
Proof.
  intros Hr. apply confined_call. intros s. unfold others.
  destruct (created ukey r (unicast s)) as [l|] eqn:Ec; [|done]. split_and!; [done| |done]. cbn.
  by rewrite (filter_created ukey _ r (unicast s) l Hr Ec).
Qed.

Lemma delete_unicast_confined luid family r :
  ¬ uforeign luid family r → confined luid family (deleteUnicastIPAddressEntry r).
Proof.
  intros Hr. apply confined_call. intros s. unfold others.
  destruct (deleted ukey r (unicast s)) as [l|] eqn:Ec; [|done]. split_and!; [done| |done]. cbn.
  rewrite (filter_deleted ukey (uforeign luid family) r (unicast s) l); [done| |done].
  intros x Hx. unfold uforeign in *. by rewrite Hx.
Qed.

Lemma create_forward_confined luid family r :
  ¬ fforeign luid family r → confined luid family (createIPForwardEntry2 r).
Proof.
  intros Hr. apply confined_call. intros s. unfold others.
  destruct (created fkey r (forward s)) as [l|] eqn:Ec; [|done]. split_and!; [done| |done]. cbn.
  by rewrite (filter_created fkey _ r (forward s) l Hr Ec).
Qed.

Lemma delete_forward_confined luid family r :
  ¬ fforeign luid family r → confined luid family (deleteIPForwardEntry2 r).
Proof.
  intros Hr. apply confined_call. intros s. unfold others.
  destruct (deleted fkey r (forward s)) as [l|] eqn:Ec; [|done]. split_and!; [done| |done]. cbn.
  rewrite (filter_deleted fkey (fforeign luid family) r (forward s) l); [done| |done].
  intros x Hx. unfold fforeign in *. by rewrite Hx.
Qed.

(** ** Addresses that were written *)

(** The rows that Windows initialises have the size of the structures. *)
Definition init_ok : Prop :=
  length (Address init_unicast) = 28%nat ∧ length (RawPrefix (DestinationPrefix init_forward)) = 28%nat ∧
  length (NextHop init_forward) = 28%nat.

Lemma SetAddr_reads m a m' :
  length m = 28%nat → addr_ok a → SetAddr m a = Some m' → RawAddr m' = normal a.
Proof.
  intros Hm Ha H. destruct (SetAddrPort_reads m a 0 m' Hm Ha ltac:(lia) H) as [_ [= -> _]]. done.
Qed.

Lemma fam_ok_normal family a : fam_ok family (normal a) = fam_ok family a.
Proof. unfold fam_ok. by destruct (family =? AF_INET), (family =? AF_INET6), a. Qed.

Lemma fam_ok_without_zone family a : fam_ok family (without_zone a) = fam_ok family a.
Proof. unfold fam_ok. by destruct (family =? AF_INET), (family =? AF_INET6), a. Qed.

(** A prefix, valid or not, comes from PrefixFrom. *)
Definition prefix_ok (p : Prefix) : Prop := addr_ok p.1 ∧ ∃ bits, p = PrefixFrom p.1 bits.

Lemma SetPrefix_prefix r p r' :
  length (RawPrefix r) = 28%nat → prefix_ok p → SetPrefix r p = Some r' → prefix_of r' = p.
Proof. intros Hr [Ha [bits Hb]]. rewrite Hb. by apply SetPrefix_reads. Qed.

Lemma in_family_ok family m : in_family family m = true → fam_ok family (RawAddr m) = true.
Proof.
  unfold in_family, fam_ok, RawAddr.
  destruct (Z.eqb_spec family AF_INET) as [->|]; [|destruct (Z.eqb_spec family AF_INET6) as [->|]; [|done]].
  - cbn [orb]. change (AF_INET =? AF_UNSPEC) with false. cbn [orb]. by intros ->.
  - change (AF_INET6 =? AF_UNSPEC) with false. cbn [orb]. intros H. apply Z.eqb_eq in H. by rewrite H.
Qed.

Lemma skipped_fam_ok family a : a ≠ NoAddr → skipped family a = false → fam_ok family a = true.
Proof.
  unfold skipped, fam_ok. intros Ha. destruct (family =? AF_INET), (family =? AF_INET6), a; try done.
Qed.

Lemma in_family_prefix family r : in_family family (RawPrefix r) = true → fam_ok family (prefix_of r).1 = true.
Proof.
  unfold in_family, fam_ok, prefix_of.
  destruct (Z.eqb_spec family AF_INET) as [->|]; [|destruct (Z.eqb_spec family AF_INET6) as [->|]; [|done]].
  - change (AF_INET =? AF_UNSPEC) with false. cbn [orb]. by intros ->.
  - change (AF_INET6 =? AF_UNSPEC) with false. cbn [orb]. intros H. apply Z.eqb_eq in H. by rewrite H.
Qed.

(** A table is read, worked on by a loop that does not give up, and freed. *)
Definition total {A} (m : im A) : Prop := ∀ s, ∃ a s', m s = (Ok a, s').

Lemma total_bind {A B} (m : im A) (f : A → im B) : total m → (∀ a, total (f a)) → total (m ≫= f).
Proof. intros Hm Hf s. unfold mbind, stm_bind. destruct (Hm s) as (a & s' & ->). apply Hf. Qed.

Lemma total_try {A} luid family (m : im A) : confined luid family m → total (try_ (F := werr) m).
Proof. intros Hm s. destruct (Hm s) as [Hp _]. unfold try_. destruct (m s) as [[a|e|] s']; [eauto|eauto|done]. Qed.

Lemma table_confined {R A B} luid family c (rows : ip → list R) (loop : list R → im A) (k : A → im B) :
  (∀ s, confined luid family (loop (rows s)) ∧ total (loop (rows s))) → (∀ a, confined luid family (k a)) →
  confined luid family
    (t ← call c (λ s, (Ok (rows s), set_tables (S (tables s)) s)); a ← loop t; freeMibTable ;; k a).
Proof.
  intros Hl Hk s. unfold mbind, stm_bind, call. destruct (ip_fails (icalls s) c); [done|].
  set (s1 := set_tables _ _). destruct (Hl (asked c s)) as [Hc Ht]. specialize (Hc s1) as (_ & H2 & H3).
  destruct (Ht s1) as (a & s2 & E2). rewrite E2 in *. cbn [fst snd] in *. unfold freeMibTable.
  destruct (Hk a (set_tables (pred (tables s2)) s2)) as (H4 & H5 & H6).
  split_and!; [done|rewrite H5; exact H2|rewrite H6; cbn; rewrite H3; done].
Qed.

Lemma delete_addresses_confined luid family t :
  Forall (λ r, u_LUID r = luid → ¬ uforeign luid family r) t →
  confined luid family (delete_addresses luid t) ∧ total (delete_addresses luid t).
Proof.
  induction 1 as [|r t Hr Ht [IH1 IH2]]; [split; [done|intros s; by eexists _, _]|].
  assert (confined luid family (if u_LUID r =? luid then try_ (F := werr) (deleteUnicastIPAddressEntry r) else mret (Ok tt)) ∧
    total (if u_LUID r =? luid then try_ (F := werr) (deleteUnicastIPAddressEntry r) else mret (Ok tt))) as [Hc Ht'].
  { destruct (Z.eqb_spec (u_LUID r) luid) as [El|_]; [|split; [done|intros s; by eexists _, _]].
    pose proof (delete_unicast_confined luid family r (Hr El)). split; [by apply confined_try|by eapply total_try]. }
  split; [by apply confined_bind|by apply total_bind].
Qed.

Lemma delete_routes_confined luid family t : ∀ err,
  Forall (λ r, f_LUID r = luid → ¬ fforeign luid family r) t →
  confined luid family (delete_routes luid t err) ∧ total (delete_routes luid t err).
Proof.
  induction t as [|r t IH]; intros err Ht; [split; [done|intros s; by eexists _, _]|].
  apply Forall_cons in Ht as [Hr Ht].
  assert (confined luid family (if f_LUID r =? luid then try_ (F := werr) (deleteIPForwardEntry2 r) else mret (Ok tt)) ∧
    total (if f_LUID r =? luid then try_ (F := werr) (deleteIPForwardEntry2 r) else mret (Ok tt))) as [Hc Ht'].
  { destruct (Z.eqb_spec (f_LUID r) luid) as [El|_]; [|split; [done|intros s; by eexists _, _]].
    pose proof (delete_forward_confined luid family r (Hr El)). split; [by apply confined_try|by eapply total_try]. }
  split; [apply confined_bind; [done|]; intros o; by apply IH|apply total_bind; [done|]; intros o; by apply IH].
Qed.

Lemma FlushIPAddresses_confined luid family : confined luid family (FlushIPAddresses luid family).
Proof.
  assert (∀ s, confined luid family (delete_addresses luid (filter (λ r, u_family family r = true) (unicast s))) ∧
    total (delete_addresses luid (filter (λ r, u_family family r = true) (unicast s)))) as Hl.
  { intros s. apply delete_addresses_confined, Forall_forall. intros r [Hf _]%list_elem_of_filter Hl Hn. apply Hn.
    split; [done|]. by apply in_family_ok. }
  intros s. pose proof (table_confined luid family UnicastTable (λ s, filter (λ r, u_family family r = true) (unicast s))
    (delete_addresses luid) (λ _, mret tt) Hl ltac:(done) s) as H. revert H.
  unfold FlushIPAddresses, getUnicastIPAddressTable, mbind, stm_bind, freeMibTable.
  destruct (call _ _ s) as [[t|e|] s1]; [|done|done]. by destruct (delete_addresses luid t s1) as [[u|e|] s2].
Qed.

Lemma FlushRoutes_confined luid family : confined luid family (FlushRoutes luid family).
Proof.
  apply (table_confined luid family ForwardTable (λ s, filter (λ r, f_family family r = true) (forward s))
    (λ t, delete_routes luid t None)).
  - intros s. apply delete_routes_confined, Forall_forall. intros r [Hf _]%list_elem_of_filter Hl Hn. apply Hn.
    split; [done|]. by apply in_family_prefix.
  - by intros [e|].
Qed.

Lemma AddIPAddress_confined luid family a :
  init_ok → addr_ok a.1 → (a.1 ≠ NoAddr → fam_ok family a.1 = true) → confined luid family (AddIPAddress luid a).
Proof.
  intros (Hi & _ & _) Ha Hf. apply confined_checked_bind. intros m Hm.
  apply create_unicast_confined. intros Hn. apply Hn. split; [done|]. cbn.
  rewrite (SetAddr_reads _ _ _ Hi Ha Hm), fam_ok_normal. apply Hf. by intros E0; rewrite E0 in Hm.
Qed.

Lemma DeleteIPAddress_confined luid a : init_ok → confined luid AF_UNSPEC (DeleteIPAddress luid a).
Proof.
  intros _. apply confined_checked_bind. intros m Hm. apply delete_unicast_confined. intros Hn. by apply Hn.
Qed.

Lemma SetPrefix_family family r p r' :
  length (RawPrefix r) = 28%nat → addr_ok p.1 → SetPrefix r p = Some r' → fam_ok family (prefix_of r').1 = fam_ok family p.1.
Proof.
  intros Hm Ha. unfold SetPrefix, SetAddr. destruct (SetAddrPort (RawPrefix r) p.1 0) as [m|] eqn:Es; [|done].
  intros [= <-]. unfold prefix_of. cbn [RawPrefix PrefixLength]. destruct p as [[|b|b z] n]; cbn [fst] in *; [done| |].
  - destruct (set4 _ _ _ _ Hm Ha Es) as (_ & -> & _ & ->). apply fam_ok_without_zone.
  - destruct (set6 _ _ _ _ _ Hm Ha Es) as (_ & -> & _ & -> & _). cbn. unfold fam_ok. by destruct (family =? AF_INET), (family =? AF_INET6).
Qed.

Lemma AddRoute_confined luid family d n metric :
  init_ok → addr_ok d.1 → (d.1 ≠ NoAddr → fam_ok family d.1 = true) → confined luid family (AddRoute luid d n metric).
Proof.
  intros (_ & Hi & _) Ha Hf. apply confined_checked_bind. intros r Hr. apply confined_checked_bind. intros m Hm.
  apply create_forward_confined. intros Hn. apply Hn. split; [done|]. cbn.
  rewrite (SetPrefix_family _ _ _ _ Hi Ha Hr). apply Hf. intros E0. unfold SetPrefix, SetAddr in Hr. by rewrite E0 in Hr.
Qed.

Lemma get_forward_key r x s s' : getIPForwardEntry2 r s = (Ok x, s') → fkey x = fkey r.
Proof.
  unfold getIPForwardEntry2, call. destruct (ip_fails _ _); [done|].
  destruct (filter _ (forward _)) as [|y l] eqn:Ef; [done|]. intros [= <- _].
  assert (y ∈ filter (λ x, fkey x = fkey r) (forward (asked (GetForward (fkey r)) s))) as H by (rewrite Ef; left).
  by apply list_elem_of_filter in H as [H _].
Qed.

Lemma get_forward_confined luid family r : confined luid family (getIPForwardEntry2 r).
Proof. apply confined_call. intros s. by destruct (filter _ _). Qed.

Lemma DeleteRoute_confined luid d n : confined luid AF_UNSPEC (DeleteRoute luid d n).
Proof.
  apply confined_checked_bind. intros r Hr. apply confined_checked_bind. intros m Hm.
  intros s. pose proof (get_forward_confined luid AF_UNSPEC
    (mkForward luid r m (Metric init_forward) (f_ValidLifetime init_forward) (f_PreferredLifetime init_forward)) s) as Hg.
  unfold mbind, stm_bind. destruct (getIPForwardEntry2 _ s) as [[x|e|] s1] eqn:Eg; destruct Hg as (H1 & H2 & H3); [|by split_and!|done].
  apply get_forward_key in Eg.
  destruct (delete_forward_confined luid AF_UNSPEC x) with (s := s1) as (H4 & H5 & H6).
  { intros Hn. apply Hn. split; [by rewrite Eg|done]. }
  split_and!; [done|by rewrite H5|by rewrite H6].
Qed.

Lemma adds_confined luid family l :
  init_ok → Forall (λ a, addr_ok a.1) l → (family = AF_UNSPEC → confined luid family (AddIPAddresses luid l)) ∧
  confined luid family (add_for_family luid family l).
Proof.
  intros Hi. induction 1 as [|a l Ha Hl [IH1 IH2]]; [done|]. split.
  - intros ->. apply confined_bind; [by apply AddIPAddress_confined|intros _; by apply IH1].
  - cbn. destruct (skipped family a.1) eqn:Es; [done|]. apply confined_bind; [|by intros _].
    apply AddIPAddress_confined; [done|done|]. intros Hne. by apply skipped_fam_ok.
Qed.

Lemma routes_confined luid family l :
  init_ok → Forall (λ r, addr_ok (Destination r).1) l →
  (family = AF_UNSPEC → confined luid family (AddRoutes luid l)) ∧ confined luid family (routes_for_family luid family l).
Proof.
  intros Hi. induction 1 as [|r l Ha Hl [IH1 IH2]]; [done|]. split.
  - intros ->. apply confined_bind; [by apply AddRoute_confined|intros _; by apply IH1].
  - cbn. destruct (skipped family (Destination r).1) eqn:Es; [done|]. apply confined_bind; [|by intros _].
    apply AddRoute_confined; [done|done|]. intros Hne. by apply skipped_fam_ok.
Qed.

(** C17. Configuring one interface leaves the others alone.  Whatever fails in
    between, no operation of an interface panics, changes an address or a route of
    another interface or, where it is limited to a family, of the other family, or
    leaves a table of Windows unfreed. *)
Theorem luid_confined luid o s :
  init_ok → Forall addr_ok (op_addrs o) →
  (run luid o s).1 ≠ Panic ∧ others luid (family_of o) (run luid o s).2 = others luid (family_of o) s ∧
  tables (run luid o s).2 = tables s.
Proof.
  intros Hi Ho. revert s. change (confined luid (family_of o) (run luid o)).
  destruct o as [a|l|l|f l|a|f|r|l|l|f l|d n|f|a|d n|f|f]; cbn [run family_of op_addrs] in *;
    rewrite ?Forall_cons, ?Forall_app, ?Forall_fmap in Ho.
  - apply AddIPAddress_confined; [done|apply Ho|done].
  - by apply adds_confined.
  - apply confined_bind; [apply FlushIPAddresses_confined|intros _]. by apply adds_confined.
  - apply confined_bind; [apply FlushIPAddresses_confined|intros _]. by apply adds_confined.
  - by apply DeleteIPAddress_confined.
  - apply FlushIPAddresses_confined.
  - apply AddRoute_confined; [done|apply Ho|done].
  - apply routes_confined; [done|apply Ho|done].
  - apply confined_bind; [apply FlushRoutes_confined|intros _]. apply routes_confined; [done|apply Ho|done].
  - apply confined_bind; [apply FlushRoutes_confined|intros _]. apply routes_confined; [done|apply Ho].
  - apply DeleteRoute_confined.
  - apply FlushRoutes_confined.
  - apply confined_bind; [|done]. apply confined_checked_bind. intros m _. apply confined_call. intros s. by destruct (filter _ _).
  - apply confined_bind; [|done]. apply confined_checked_bind. intros r _. apply confined_checked_bind. intros m _. apply get_forward_confined.
  - apply confined_bind; [|done]. intros s. unfold GetUnicastIPAddressTable, mbind, stm_bind, getUnicastIPAddressTable, call, freeMibTable.
    by destruct (ip_fails _ _).
  - apply confined_bind; [|done]. intros s. unfold GetIPForwardTable2, mbind, stm_bind, getIPForwardTable2, call, freeMibTable.
    by destruct (ip_fails _ _).
Qed.

(** ** Without failures the configuration is the one asked for *)

Definition calm : Prop := ∀ h c, ip_fails h c = None.

Definition known_family (family : Z) : Prop := family = AF_UNSPEC ∨ family = AF_INET ∨ family = AF_INET6.

Lemma in_family_iff family m : known_family family → in_family family m = fam_ok family (RawAddr m).
Proof.
  intros [-> | [-> | ->]]; unfold in_family, fam_ok, RawAddr; [done| |].
  - change (AF_INET =? AF_UNSPEC) with false. cbn. destruct (Family m =? AF_INET); [done|]. by destruct (Family m =? AF_INET6).
  - change (AF_INET6 =? AF_UNSPEC) with false. cbn.
    destruct (Z.eqb_spec (Family m) AF_INET) as [->|]; [done|]. by destruct (Family m =? AF_INET6).
Qed.

Lemma in_family_prefix_iff family r : known_family family → in_family family (RawPrefix r) = fam_ok family (prefix_of r).1.
Proof.
  intros [-> | [-> | ->]]; unfold in_family, fam_ok, prefix_of; [done| |].
  - change (AF_INET =? AF_UNSPEC) with false. cbn. destruct (Family (RawPrefix r) =? AF_INET); [done|].
    by destruct (Family (RawPrefix r) =? AF_INET6).
  - change (AF_INET6 =? AF_UNSPEC) with false. cbn.
    destruct (Z.eqb_spec (Family (RawPrefix r)) AF_INET) as [->|]; [done|]. by destruct (Family (RawPrefix r) =? AF_INET6).
Qed.

(** The part of the state that [calm] operations speak about. *)
Definition rest (s : ip) : list MibIPforwardRow2 * nat := (forward s, tables s).
Definition urest (s : ip) : list MibUnicastIPAddressRow * nat := (unicast s, tables s).

Lemma filter_iff_in {A} (P Q : A → Prop) `{∀ x, Decision (P x), ∀ x, Decision (Q x)} (l : list A) :
  (∀ x, x ∈ l → P x ↔ Q x) → filter P l = filter Q l.
Proof.
  induction l as [|a l IH]; intros H1; [done|]. rewrite !filter_cons, IH by (intros x Hx; apply H1; by right).
  destruct (H1 a ltac:(left)). by destruct (decide (P a)), (decide (Q a)); tauto.
Qed.

Lemma delete_unicast_calm r s : calm →
  ∃ o s', try_ (F := werr) (deleteUnicastIPAddressEntry r) s = (Ok o, s') ∧ rest s' = rest s ∧
    unicast s' = filter (λ x, ukey x ≠ ukey r) (unicast s).
Proof.
  intros Hc. unfold try_, deleteUnicastIPAddressEntry, call, deleted. rewrite Hc. cbn [unicast asked].
  case_bool_decide as Hk; eexists _, _; (split; [reflexivity|]); (split; [done|]); [done|]. cbn. symmetry.
  apply filter_keep. intros x Hx Ex. apply Hk. rewrite <- Ex. by apply list_elem_of_fmap_2.
Qed.

Lemma delete_addresses_calm luid t : ∀ s, calm →
  ∃ s', delete_addresses luid t s = (Ok tt, s') ∧ rest s' = rest s ∧
    unicast s' = filter (λ x, ukey x ∉ ukey <$> filter (λ r, u_LUID r = luid) t) (unicast s).
Proof.
  induction t as [|r t IH]; intros s Hc.
  - exists s. split_and!; [done|done|]. symmetry. apply filter_keep. intros x _. apply not_elem_of_nil.
  - cbn [delete_addresses]. unfold mbind, stm_bind. rewrite filter_cons.
    destruct (Z.eqb_spec (u_LUID r) luid) as [El|El].
    + destruct (delete_unicast_calm r s Hc) as (o & s1 & -> & Hr1 & Hu1).
      destruct (IH s1 Hc) as (s2 & -> & Hr2 & Hu2). exists s2. split_and!; [done|by rewrite Hr2|].
      rewrite Hu2, Hu1, list_filter_filter. apply list_filter_iff. intros x. rewrite decide_True, fmap_cons, not_elem_of_cons by done. tauto.
    + destruct (IH s Hc) as (s2 & E2 & Hr2 & Hu2). exists s2. split_and!; [exact E2|done|].
      by rewrite decide_False.
Qed.

Definition addresses_of (luid family : Z) (s : ip) : list (Addr * Z) :=
  (λ r, (RawAddr (Address r), OnLinkPrefixLength r)) <$> filter (λ r, ¬ uforeign luid family r) (unicast s).

Lemma FlushIPAddresses_calm luid family s : calm → known_family family →
  ∃ s', FlushIPAddresses luid family s = (Ok tt, s') ∧ rest s' = rest s ∧
    unicast s' = filter (uforeign luid family) (unicast s).
Proof.
  intros Hc Hf. unfold FlushIPAddresses, getUnicastIPAddressTable, call, mbind, stm_bind. rewrite Hc. cbn [unicast asked].
  set (s1 := set_tables _ _).
  destruct (delete_addresses_calm luid (filter (λ r, u_family family r = true) (unicast s)) s1 Hc) as (s2 & -> & Hr2 & Hu2).
  eexists. split; [reflexivity|]. injection Hr2 as Hr2 Ht2. split; [unfold rest; cbn; by rewrite Hr2, Ht2|]. cbn. rewrite Hu2. cbn.
  apply filter_iff_in. intros x Hx. unfold uforeign, foreign. split.
  - intros Hn [H1 H2]. apply Hn, list_elem_of_fmap_2, list_elem_of_filter. split; [done|].
    apply list_elem_of_filter. split; [|done]. unfold u_family. by rewrite in_family_iff.
  - intros Hn (y & Ey & [Hy1 [Hy2 _]%list_elem_of_filter]%list_elem_of_filter)%list_elem_of_fmap. apply Hn.
    rewrite Ey. split; [done|]. cbn. unfold u_family in Hy2. by rewrite in_family_iff in Hy2.
Qed.

(** Adding entries one after the other, in terms of one table of the state. *)
Fixpoint adds {X} (add : X → im unit) (l : list X) : im unit :=
  match l with [] => mret tt | x :: l => add x ;; adds add l end.

Lemma adds_filter {X} (add : X → im unit) (skip : X → bool) (m : list X → im unit) :
  (∀ s, m [] s = (Ok tt, s)) → (∀ x l, m (x :: l) = if skip x then m l else add x ;; m l) →
  ∀ l s, m l s = adds add (filter (λ x, skip x = false) l) s.
Proof.
  intros H0 H1. induction l as [|x l IH]; intros s; [apply H0|]. rewrite H1, filter_cons.
  destruct (skip x).
  { rewrite decide_False by done. apply IH. }
  rewrite decide_True by done. cbn. unfold mbind, stm_bind. destruct (add x s) as [[u|e|] s1]; [apply IH|done|done].
Qed.

Lemma adds_calm {X R K D} (tbl : ip → list R) (rst : ip → D) (key : R → K) (add : X → im unit) (want : X → K)
    (rel : X → R → Prop) (l : list X) :
  (∀ x s, x ∈ l → want x ∉ key <$> tbl s →
    ∃ s' row, add x s = (Ok tt, s') ∧ rst s' = rst s ∧ tbl s' = tbl s ++ [row] ∧ key row = want x ∧ rel x row) →
  NoDup (want <$> l) → ∀ s, (∀ x, x ∈ l → want x ∉ key <$> tbl s) →
  ∃ s' rows, adds add l s = (Ok tt, s') ∧ rst s' = rst s ∧ tbl s' = tbl s ++ rows ∧
    Forall2 (λ x row, key row = want x ∧ rel x row) l rows.
Proof.
  intros Hadd. induction l as [|x l IH]; intros Hd s Hs; [exists s, []; rewrite app_nil_r; by split_and!|].
  rewrite fmap_cons, NoDup_cons in Hd. destruct Hd as [Hx Hd].
  destruct (Hadd x s ltac:(left) (Hs x ltac:(left))) as (s1 & row & E1 & Hr1 & Ht1 & Hk & Hrel).
  destruct (IH ltac:(intros; apply Hadd; [by right|done]) Hd s1) as (s2 & rows & E2 & Hr2 & Ht2 & Hf).
  { intros y Hy. rewrite Ht1, fmap_app, not_elem_of_app. split; [apply Hs; by right|]. cbn.
    rewrite list_elem_of_singleton, Hk. intros Ey. apply Hx. rewrite <- Ey. by apply list_elem_of_fmap_2. }
  exists s2, (row :: rows). cbn. unfold mbind, stm_bind. rewrite E1, E2. split_and!; [done|by rewrite Hr2| |by constructor].
  by rewrite Ht2, Ht1, <- app_assoc.
Qed.

Lemma created_new {R K} `{EqDecision K} (key : R → K) r l : key r ∉ key <$> l → created key r l = Some (l ++ [r]).
Proof. intros Hr. unfold created. by rewrite bool_decide_false. Qed.

Definition wanted (family : Z) (l : list Prefix) : list Prefix := filter (λ p, skipped family p.1 = false) l.
Definition shown (p : Prefix) : Addr * Z := (normal p.1, p.2 mod 256).

Lemma AddIPAddress_calm luid a s : calm → init_ok → addr_ok a.1 → a.1 ≠ NoAddr → (luid, normal a.1) ∉ ukey <$> unicast s →
  ∃ s' row, AddIPAddress luid a s = (Ok tt, s') ∧ rest s' = rest s ∧ unicast s' = unicast s ++ [row] ∧
    ukey row = (luid, normal a.1) ∧ OnLinkPrefixLength row = a.2 mod 256.
Proof.
  intros Hc (Hi & _) Ha Hne Hk. unfold AddIPAddress.
  destruct (SetAddr (Address init_unicast) a.1) as [m|] eqn:Em; [|by destruct a.1].
  set (row := mkUnicast luid m (a.2 mod 256) DadStatePreferred infinite infinite).
  assert (ukey row = (luid, normal a.1)) as Er by (unfold ukey; cbn; by rewrite (SetAddr_reads _ _ _ Hi Ha Em)).
  assert (createUnicastIPAddressEntry row s = (Ok tt, set_unicast (unicast s ++ [row]) (asked (CreateUnicast (ukey row)) s))) as E1.
  { unfold createUnicastIPAddressEntry, call. rewrite Hc. cbn [unicast asked]. by rewrite created_new by (by rewrite Er). }
  eexists _, row. split; [exact E1|]. by split_and!.
Qed.

Lemma SetIPAddresses_family luid l s : SetIPAddresses luid l s = SetIPAddressesForFamily luid AF_UNSPEC l s.
Proof.
  unfold SetIPAddresses, SetIPAddressesForFamily, mbind, stm_bind.
  destruct (FlushIPAddresses luid AF_UNSPEC s) as [[u|e|] s1]; [|done|done]. revert s1.
  induction l as [|a l IH]; intros s1; [done|]. cbn [AddIPAddresses add_for_family]. unfold mbind, stm_bind.
  replace (skipped AF_UNSPEC a.1) with false by (unfold skipped; change (AF_UNSPEC =? _) with false; by rewrite !andb_false_r).
  by destruct (AddIPAddress luid a s1) as [[v|e|] s2].
Qed.

Lemma SetIPAddressesForFamily_calm luid family l s :
  calm → init_ok → known_family family → Forall (λ p, addr_ok p.1 ∧ p.1 ≠ NoAddr) (wanted family l) →
  NoDup ((λ p, normal p.1) <$> wanted family l) →
  ∃ s', SetIPAddressesForFamily luid family l s = (Ok tt, s') ∧ rest s' = rest s ∧
    addresses_of luid family s' = shown <$> wanted family l.
Proof.
  intros Hc Hi Hf Hl Hd. unfold SetIPAddressesForFamily, mbind, stm_bind.
  destruct (FlushIPAddresses_calm luid family s Hc Hf) as (s1 & -> & Hr1 & Hu1).
  rewrite (adds_filter (AddIPAddress luid) (λ p, skipped family p.1) (add_for_family luid family)) by done.
  change (filter _ l) with (wanted family l). rewrite Forall_forall in Hl.
  assert (∀ p, p ∈ wanted family l → fam_ok family (normal p.1) = true) as Hw.
  { intros p Hp. rewrite fam_ok_normal. apply skipped_fam_ok; [by apply Hl|]. by apply list_elem_of_filter in Hp as [Hp _]. }
  destruct (adds_calm unicast rest ukey (AddIPAddress luid) (λ p, (luid, normal p.1))
    (λ p r, OnLinkPrefixLength r = p.2 mod 256) (wanted family l)) with (s := s1)
    as (s2 & rows & -> & Hr2 & Hu2 & Hrows).
  - intros p s0 Hp Hk. destruct (Hl p Hp). by apply AddIPAddress_calm.
  - apply (NoDup_fmap_1 snd). by rewrite <- list_fmap_compose.
  - intros p Hp (x & Ex & Hx)%list_elem_of_fmap. rewrite Hu1 in Hx. apply list_elem_of_filter in Hx as [Hx _].
    apply Hx. rewrite <- Ex. split; [done|]. by apply Hw.
  - exists s2. split_and!; [done|by rewrite Hr2|]. unfold addresses_of. rewrite Hu2, Hu1, filter_app.
    rewrite (filter_none _ (filter _ _)) by (intros x [Hx _]%list_elem_of_filter Hn; done).
    rewrite filter_keep.
    + cbn. clear -Hrows. induction Hrows as [|p r ps rs [Hk Hn] _ IH]; [done|]. cbn. rewrite IH. f_equal.
      unfold shown. rewrite Hn. unfold ukey in Hk. by injection Hk as _ ->.
    + intros r Hr Hn. apply list_elem_of_lookup_1 in Hr as [i Hr]. destruct (Forall2_lookup_r _ _ _ _ _ Hrows Hr) as (p & Hp & Hk & _).
      apply Hn. unfold uforeign. rewrite Hk. split; [done|]. apply Hw. by eapply list_elem_of_lookup_2.
Qed.

(** The same for routes.  A route that is listed twice would be an error: the
    second deletion finds nothing. *)
Lemma delete_routes_calm luid t : ∀ s err, calm → NoDup (fkey <$> t) → (∀ r, r ∈ t → fkey r ∈ fkey <$> forward s) →
  ∃ s', delete_routes luid t err s = (Ok err, s') ∧ urest s' = urest s ∧
    forward s' = filter (λ x, fkey x ∉ fkey <$> filter (λ r, f_LUID r = luid) t) (forward s).
Proof.
  induction t as [|r t IH]; intros s err Hc Hd Hin.
  - exists s. split_and!; [done|done|]. symmetry. apply filter_keep. intros x _. apply not_elem_of_nil.
  - cbn [delete_routes]. unfold mbind, stm_bind. rewrite filter_cons.
    rewrite fmap_cons, NoDup_cons in Hd. destruct Hd as [Hr Hd].
    destruct (Z.eqb_spec (f_LUID r) luid) as [El|El].
    + assert (deleteIPForwardEntry2 r s = (Ok tt, set_forward (filter (λ x, fkey x ≠ fkey r) (forward s))
        (asked (DeleteForward (fkey r)) s))) as Ed.
      { unfold deleteIPForwardEntry2, call, deleted. rewrite Hc. cbn [forward asked].
        by rewrite bool_decide_true by (apply Hin; left). }
      unfold try_. rewrite Ed. cbn [stm_bind]. set (s1 := set_forward _ _).
      destruct (IH s1 err Hc Hd) as (s2 & -> & Hr2 & Hu2).
      { intros x Hx. destruct (list_elem_of_fmap_1 _ _ _ (Hin x ltac:(by right))) as (y & Ey & Hy). rewrite Ey.
        apply list_elem_of_fmap_2, list_elem_of_filter. split; [|done]. rewrite <- Ey. intros Ex. apply Hr. rewrite <- Ex.
        by apply list_elem_of_fmap_2. }
      exists s2. split_and!; [done|done|]. rewrite Hu2. cbn. rewrite list_filter_filter. apply list_filter_iff.
      intros x. rewrite decide_True, fmap_cons, not_elem_of_cons by done. tauto.
    + destruct (IH s err Hc Hd ltac:(intros; apply Hin; by right)) as (s2 & E2 & Hr2 & Hu2). exists s2.
      split_and!; [exact E2|done|]. by rewrite decide_False.
Qed.

Lemma FlushRoutes_calm luid family s : calm → known_family family → NoDup (fkey <$> forward s) →
  ∃ s', FlushRoutes luid family s = (Ok tt, s') ∧ urest s' = urest s ∧
    forward s' = filter (fforeign luid family) (forward s).
Proof.
  intros Hc Hf Hd. unfold FlushRoutes, getIPForwardTable2, call, mbind, stm_bind. rewrite Hc. cbn [forward asked].
  set (s1 := set_tables _ _). set (t := filter (λ r, f_family family r = true) (forward s)).
  destruct (delete_routes_calm luid t s1 None Hc) as (s2 & -> & Hr2 & Hu2).
  { eapply sublist_NoDup; [exact Hd|apply fmap_sublist, sublist_filter]. }
  { intros r [_ Hr]%list_elem_of_filter. by apply list_elem_of_fmap_2. }
  eexists. split; [reflexivity|]. injection Hr2 as Hr2 Ht2. split; [unfold urest; cbn; by rewrite Hr2, Ht2|]. cbn. rewrite Hu2. cbn.
  apply filter_iff_in. intros x Hx. unfold fforeign, foreign. split.
  - intros Hn [H1 H2]. apply Hn, list_elem_of_fmap_2, list_elem_of_filter. split; [done|].
    apply list_elem_of_filter. split; [|done]. unfold f_family. by rewrite in_family_prefix_iff.
  - intros Hn (y & Ey & [Hy1 [Hy2 _]%list_elem_of_filter]%list_elem_of_filter)%list_elem_of_fmap. apply Hn.
    rewrite Ey. split; [done|]. cbn. unfold f_family in Hy2. by rewrite in_family_prefix_iff in Hy2.
Qed.

Definition wanted_routes (family : Z) (l : list RouteData) : list RouteData :=
  filter (λ r, skipped family (Destination r).1 = false) l.
Definition route_key (r : RouteData) : Prefix * Addr := (Destination r, normal (rd_NextHop r)).
Definition routes_of (luid family : Z) (s : ip) : list (Prefix * Addr * Z) :=
  (λ r, ((fkey r).2, Metric r)) <$> filter (λ r, ¬ fforeign luid family r) (forward s).

(** Data that can be written: valid addresses, a prefix from PrefixFrom. *)
Definition writable (r : RouteData) : Prop :=
  prefix_ok (Destination r) ∧ (Destination r).1 ≠ NoAddr ∧ addr_ok (rd_NextHop r) ∧ rd_NextHop r ≠ NoAddr.

Lemma AddRoute_calm luid r s : calm → init_ok → writable r → (luid, route_key r) ∉ fkey <$> forward s →
  ∃ s' row, AddRoute luid (Destination r) (rd_NextHop r) (rd_Metric r) s = (Ok tt, s') ∧ urest s' = urest s ∧
    forward s' = forward s ++ [row] ∧ fkey row = (luid, route_key r) ∧ Metric row = rd_Metric r.
Proof.
  intros Hc (_ & Hi & Hi2) (Hp & Hpn & Ha & Han) Hk. unfold AddRoute.
  destruct (SetPrefix (DestinationPrefix init_forward) (Destination r)) as [d|] eqn:Ed.
  2: { unfold SetPrefix, SetAddr in Ed. by destruct (Destination r).1. }
  destruct (SetAddr (NextHop init_forward) (rd_NextHop r)) as [n|] eqn:En; [|by destruct (rd_NextHop r)].
  set (row := mkForward luid d n (rd_Metric r) (f_ValidLifetime init_forward) (f_PreferredLifetime init_forward)).
  assert (fkey row = (luid, route_key r)) as Er.
  { unfold fkey. cbn. by rewrite (SetPrefix_prefix _ _ _ Hi Hp Ed), (SetAddr_reads _ _ _ Hi2 Ha En). }
  assert (createIPForwardEntry2 row s = (Ok tt, set_forward (forward s ++ [row]) (asked (CreateForward (fkey row)) s))) as E1.
  { unfold createIPForwardEntry2, call. rewrite Hc. cbn [forward asked]. by rewrite created_new by (by rewrite Er). }
  eexists _, row. split; [exact E1|]. by split_and!.
Qed.

Lemma SetRoutesForFamily_calm luid family l s :
  calm → init_ok → known_family family → NoDup (fkey <$> forward s) →
  Forall writable (wanted_routes family l) → NoDup (route_key <$> wanted_routes family l) →
  ∃ s', SetRoutesForFamily luid family l s = (Ok tt, s') ∧ urest s' = urest s ∧
    routes_of luid family s' = (λ r, (route_key r, rd_Metric r)) <$> wanted_routes family l.
Proof.
  intros Hc Hi Hf Hs Hl Hd. unfold SetRoutesForFamily, mbind, stm_bind.
  destruct (FlushRoutes_calm luid family s Hc Hf Hs) as (s1 & -> & Hr1 & Hu1).
  rewrite (adds_filter (λ r, AddRoute luid (Destination r) (rd_NextHop r) (rd_Metric r))
    (λ r, skipped family (Destination r).1) (routes_for_family luid family)) by done.
  change (filter _ l) with (wanted_routes family l). rewrite Forall_forall in Hl.
  assert (∀ r, r ∈ wanted_routes family l → fam_ok family (Destination r).1 = true) as Hw.
  { intros r Hp. apply skipped_fam_ok; [by apply Hl|]. by apply list_elem_of_filter in Hp as [Hp _]. }
  destruct (adds_calm forward urest fkey (λ r, AddRoute luid (Destination r) (rd_NextHop r) (rd_Metric r))
    (λ r, (luid, route_key r)) (λ rd r, Metric r = rd_Metric rd) (wanted_routes family l)) with (s := s1)
    as (s2 & rows & -> & Hr2 & Hu2 & Hrows).
  - intros p s0 Hp Hk. apply AddRoute_calm; by try apply Hl.
  - apply (NoDup_fmap_1 snd). by rewrite <- list_fmap_compose.
  - intros p Hp (x & Ex & Hx)%list_elem_of_fmap. rewrite Hu1 in Hx. apply list_elem_of_filter in Hx as [Hx _].
    apply Hx. rewrite <- Ex. split; [done|]. by apply Hw.
  - exists s2. split_and!; [done|by rewrite Hr2|]. unfold routes_of. rewrite Hu2, Hu1, filter_app.
    rewrite (filter_none _ (filter _ _)) by (intros x [Hx _]%list_elem_of_filter Hn; done).
    rewrite filter_keep.
    + rewrite app_nil_l. clear -Hrows. induction Hrows as [|p r ps rs [Hk Hn] _ IH]; [done|]. rewrite !fmap_cons, IH. f_equal. by rewrite Hn, Hk.
    + intros r Hr Hn. apply list_elem_of_lookup_1 in Hr as [i Hr]. destruct (Forall2_lookup_r _ _ _ _ _ Hrows Hr) as (p & Hp & Hk & _).
      apply Hn. unfold fforeign. rewrite Hk. split; [done|]. apply Hw. by eapply list_elem_of_lookup_2.
Qed.

(** C16. Setting is exact.  Assume that no call of Windows fails for a reason of its
    own, that Windows initialises rows of the documented size and lists no route twice,
    and that what is given for the family can be written: valid addresses, distinct as
    an interface holds them (without the zone), and valid pairs of destination and next
    hop, distinct as well.  Then setting the addresses of a family succeeds and leaves
    the interface with the addresses that were given for that family, with their prefix
    lengths, each once, and with no others of it; and setting the routes succeeds and
    does the same for destination, next hop and metric.  With a duplicate the call fails
    half way ([duplicate_fails_halfway]).  What Windows adds to its tables by itself
    (the on-link routes of a new address, link-local addresses) is not modelled. *)
Theorem configured_exactly luid family l rs s :
  calm → init_ok → known_family family →
  Forall (λ p, addr_ok p.1 ∧ p.1 ≠ NoAddr) (wanted family l) → NoDup ((λ p, normal p.1) <$> wanted family l) →
  NoDup (fkey <$> forward s) → Forall writable (wanted_routes family rs) → NoDup (route_key <$> wanted_routes family rs) →
  (∃ s', SetIPAddressesForFamily luid family l s = (Ok tt, s') ∧
    addresses_of luid family s' ≡ₚ shown <$> wanted family l) ∧
  (∃ s', SetRoutesForFamily luid family rs s = (Ok tt, s') ∧
    routes_of luid family s' ≡ₚ (λ r, (route_key r, rd_Metric r)) <$> wanted_routes family rs).
Proof.
  intros Hc Hi Hf Hl Hd Hs Hr Hn. split.
  - destruct (SetIPAddressesForFamily_calm luid family l s Hc Hi Hf Hl Hd) as (s' & -> & _ & Ha).
    exists s'. split; [done|by rewrite Ha].
  - destruct (SetRoutesForFamily_calm luid family rs s Hc Hi Hf Hs Hr Hn) as (s' & -> & _ & Ha).
    exists s'. split; [done|by rewrite Ha].
Qed.

Lemma SetRoutes_family luid l s : SetRoutes luid l s = SetRoutesForFamily luid AF_UNSPEC l s.
Proof.
  unfold SetRoutes, SetRoutesForFamily, mbind, stm_bind.
  destruct (FlushRoutes luid AF_UNSPEC s) as [[u|e|] s1]; [|done|done]. revert s1.
  induction l as [|r l IH]; intros s1; [done|]. cbn [AddRoutes routes_for_family]. unfold mbind, stm_bind.
  replace (skipped AF_UNSPEC (Destination r).1) with false
    by (unfold skipped; change (AF_UNSPEC =? _) with false; by rewrite !andb_false_r).
  by destruct (AddRoute luid _ _ _ s1) as [[v|e|] s2].
Qed.

End Calls.

(** ** Examples *)

Definition calm_env : IpEnv := {|
  ip_fails := λ _ _, None;
  init_unicast := mkUnicast 0 zero28 255 0 infinite infinite;
  init_forward := mkForward 0 (mkIPAddressPrefix zero28 0) zero28 0 infinite infinite |}.

(** Deleting an address is refused. *)
Definition refusing_env : IpEnv := {|
  ip_fails := λ _ c, match c with DeleteUnicast _ => Some (OtherCode 5) | _ => None end;
  init_unicast := @init_unicast calm_env; init_forward := @init_forward calm_env |}.

Definition v4 (a b c d : Z) : Addr := A4 (bytes [a; b; c; d]).
Definition v6_loopback : Addr := A6 (bytes [0; 0; 0; 0; 0; 0; 0; 0; 0; 0; 0; 0; 0; 0; 0; 1]) "".
Definition raw (a : Addr) : list byte := default [] (SetAddr zero28 a).

(** Interface 7 has an address of each family, interface 8 the same IPv4 address. *)
Definition ex_ip : ip := mkIp
  [mkUnicast 7 (raw (v4 10 0 0 1)) 24 DadStatePreferred infinite infinite;
   mkUnicast 7 (raw v6_loopback) 128 DadStatePreferred infinite infinite;
   mkUnicast 8 (raw (v4 10 0 0 1)) 24 DadStatePreferred infinite infinite]
  [mkForward 7 (mkIPAddressPrefix (raw (v4 10 0 0 0)) 24) (raw (v4 0 0 0 0)) 5 infinite infinite] 0 [].

Definition ex_routes : list RouteData := [mkRouteData (PrefixFrom (v4 0 0 0 0) 1) (v4 10 0 0 2) 3].

Lemma calm_env_ok : @init_ok calm_env.
Proof. by split_and!. Qed.

Lemma luid_confined_witness :
  others 7 AF_INET (@run refusing_env 7 (OpSetAddressesFor AF_INET [PrefixFrom (v4 10 0 0 2) 24; PrefixFrom v6_loopback 64]) ex_ip).2
  = others 7 AF_INET ex_ip.
Proof.
  refine (proj1 (proj2 (@luid_confined refusing_env 7
    (OpSetAddressesFor AF_INET [PrefixFrom (v4 10 0 0 2) 24; PrefixFrom v6_loopback 64]) ex_ip _ _))).
  - by split_and!.
  - repeat constructor.
Defined.

Lemma configured_exactly_witness :
  ∃ s', @SetIPAddressesForFamily calm_env 7 AF_INET [PrefixFrom v6_loopback 64; PrefixFrom (v4 10 0 0 9) 16] ex_ip = (Ok tt, s') ∧
    addresses_of 7 AF_INET s' ≡ₚ [(v4 10 0 0 9, 16)].
Proof.
  refine (proj1 (@configured_exactly calm_env 7 AF_INET [PrefixFrom v6_loopback 64; PrefixFrom (v4 10 0 0 9) 16] ex_routes
    ex_ip _ _ _ _ _ _ _ _)).
  - done.
  - exact calm_env_ok.
  - right. by left.
  - repeat constructor; done.
  - apply NoDup_singleton.
  - apply NoDup_singleton.
  - apply Forall_singleton. split_and!; [split; [done|]; by exists 1|done|done|done].
  - apply NoDup_singleton.
Defined.

(** An address that is given twice is refused by Windows: the call fails, the old
    addresses are gone and those before the duplicate are there. *)
Lemma duplicate_fails_halfway :
  let r := @SetIPAddressesForFamily calm_env 7 AF_INET
    [PrefixFrom (v4 10 0 0 9) 16; PrefixFrom (v4 10 0 0 9) 16; PrefixFrom (v4 10 0 0 10) 16] ex_ip in
  r.1 = Err ERROR_OBJECT_ALREADY_EXISTS ∧ addresses_of 7 AF_INET r.2 = [(v4 10 0 0 9, 16)].
Proof. by vm_compute. Qed.

(** FlushIPAddresses reports success although nothing was deleted, where
    FlushRoutes would have returned the error. *)
Lemma flush_hides_failure :
  ∃ s', @FlushIPAddresses refusing_env 7 AF_INET ex_ip = (Ok tt, s') ∧ unicast s' = unicast ex_ip.
Proof. eexists. by split. Qed.

End WinIpcfg.
