(* ===== verification/WinDns.v ===== *)
(** * Name servers of a Windows interface
    (src/internal/winipcfg/luid.go, netsh.go, winipcfg.go and types.go)

    SetDNS asks the interface of Windows 10 1809 and, where that does not exist,
    writes a script for netsh.exe and a value of the registry.  Windows is the class
    [DnsEnv]: it answers every call, and its answers may depend on the calls before.
    The calls are recorded, with the arguments as they leave the program.  An error
    of a call stands for the error or for one that wraps it, as errors.Is sees it. *)

From S2P Require Import Prelude GoStrings GoNet Buffers WinAddr WinIpcfg.

Module WinDns.
Import WinAddr WinIpcfg.

(** ** Data *)

Record DnsInterfaceSettings := mkSettings {
  Version : Z; Flags : Z; NameServer : option string; SearchList : option string; RegistrationEnabled : Z }.

Definition DnsInterfaceSettingsVersion1 : Z := 1.
Definition DnsInterfaceSettingsFlagIPv6 : Z := 0x0001.
Definition DnsInterfaceSettingsFlagNameserver : Z := 0x0002.
Definition DnsInterfaceSettingsFlagSearchList : Z := 0x0004.
Definition DnsInterfaceSettingsFlagRegistrationEnabled : Z := 0x0008.

(** The fields of an interface row that the package reads or corrects. *)
Record MibIPInterfaceRow := mkIf { i_LUID : Z; i_Family : Z; InterfaceIndex : Z; SitePrefixLength : Z }.

(** The ways a GUID is handed over. *)
Inductive guid_args := ByPtr (guid : list byte) | ByQwords (w0 w1 : Z) | ByDwords (w0 w1 w2 w3 : Z).

Inductive dcall :=
  | ToGuid (luid : Z)
  | Settings (g : guid_args) (s : DnsInterfaceSettings)
  | GetInterface (luid family : Z)
  | Netsh (stdin : string)
  | OpenKey (path : string) | ReadIpConfig (path : string) | SetDomain (path domain : string).

Inductive derr :=
  | Win (e : werr) | Wrapped (msg : string) (e : werr) | NoInterfaces
  | NetshOutput (cleaned : string) | NetshFailed (err : string) (cleaned : string).

Record dns := mkDns { dcalls : list dcall; keys : nat (* registry keys that are open *) }.

Class DnsEnv := {
  GOARCH : string;
  guid_of : list dcall → Z → werr + list byte;
  guid_text : list byte → string;
  settings_fail : list dcall → list byte → DnsInterfaceSettings → option werr;
  interface_of : list dcall → Z → Z → werr + MibIPInterfaceRow;
  no_system_directory : option werr;
  no_stdin_pipe : option werr;
  netsh_answer : list dcall → string → string * option string;
  open_fails : list dcall → string → option werr;
  ip_config : list dcall → string → werr + list string;
  set_fails : list dcall → string → string → option werr
}.

Abbreviation dm := (stm dns derr).

Section Dns.
Context {E : DnsEnv}.

(** A call is answered from the calls before it and then recorded. *)
Definition calling {A} (c : dcall) (answer : list dcall → A) : dm A := λ s,
  (Ok (answer (dcalls s)), mkDns (dcalls s ++ [c]) (keys s)).
Definition lift_err {A} (w : werr → derr) (r : werr + A) : dm A :=
  match r with inl e => throw (w e) | inr a => mret a end.
Definition lift_opt (w : werr → derr) (r : option werr) : dm unit :=
  match r with Some e => throw (w e) | None => mret tt end.

Definition GUID (luid : Z) : dm (list byte) :=
  r ← calling (ToGuid luid) (λ h, guid_of h luid); lift_err Win r.

(** ** Interface rows *)

(** The correction of SitePrefixLength in MibIPInterfaceRow.get. *)
Definition patched (r : MibIPInterfaceRow) : MibIPInterfaceRow :=
  if i_Family r =? AF_INET then
    if 32 <? SitePrefixLength r then mkIf (i_LUID r) (i_Family r) (InterfaceIndex r) 0 else r
  else if i_Family r =? AF_INET6 then
    if 128 <? SitePrefixLength r then mkIf (i_LUID r) (i_Family r) (InterfaceIndex r) 128 else r
  else r.

Definition IPInterface (luid family : Z) : dm MibIPInterfaceRow :=
  r ← calling (GetInterface luid family) (λ h, interface_of h luid family);
  row ← lift_err Win r;
  mret (patched row).

(** ** netsh *)

Definition crlf : string := of_bytes (bytes [13; 10]).
Definition lf : string := of_bytes (bytes [10]).

Definition script (cmds : list string) : string := Strings.Join (cmds ++ ["exit" +:+ crlf]) crlf.

Definition cleaned (output : string) : string :=
  let c := Strings.ReplaceAll output crlf lf in
  let c := Strings.ReplaceAll c "netsh>" "" in
  let c := Strings.ReplaceAll c "There are no Domain Name Servers (DNS) configured on this computer." "" in
  Strings.TrimSpace c.

Definition runNetsh (cmds : list string) : dm unit :=
  lift_opt Win no_system_directory ;;
  lift_opt (Wrapped "runNetsh stdin pipe - ") no_stdin_pipe ;;
  r ← calling (Netsh (script cmds)) (λ h, netsh_answer h (script cmds));
  let c := cleaned r.1 in
  match r.2 with
  | None => if String.eqb c "" then mret tt else throw (NetshOutput c)
  | Some err => throw (NetshFailed err c)
  end.

Definition netshFlush4 (i : Z) : string :=
  "interface ipv4 set dnsservers name=" +:+ Strconv.Itoa i +:+ " source=static address=none validate=no".
Definition netshFlush6 (i : Z) : string :=
  "interface ipv6 set dnsservers name=" +:+ Strconv.Itoa i +:+ " source=static address=none validate=no".
Definition netshAdd4 (i : Z) (a : string) : string :=
  "interface ipv4 add dnsservers name=" +:+ Strconv.Itoa i +:+ " address=" +:+ a +:+ " validate=no".
Definition netshAdd6 (i : Z) (a : string) : string :=
  "interface ipv6 add dnsservers name=" +:+ Strconv.Itoa i +:+ " address=" +:+ a +:+ " validate=no".
Definition netshDisableRegistration (i : Z) : string :=
  "interface ipv6 set dnsservers name=" +:+ Strconv.Itoa i +:+ " register=none".

(** netip.Addr.String *)
Definition AddrString (a : Addr) : string :=
  match a with
  | NoAddr => "invalid IP"
  | A4 b => Net.ipv4_string b
  | A6 b zone =>
      (if bool_decide (take 12 b = Net.v4InV6Prefix) then "::ffff:" +:+ Net.ipv4_string (drop 12 b)
       else Net.ipv6_string b) +:+
      (if String.eqb zone "" then "" else "%" +:+ zone)
  end.

(** The loop over the servers in fallbackSetDNSForFamily. *)
Fixpoint add_commands (family i : Z) (dnses : list Addr) : list string :=
  match dnses with
  | [] => []
  | a :: dnses =>
      if Is4 a && (family =? AF_INET) then netshAdd4 i (AddrString a) :: add_commands family i dnses
      else if Is6 a && (family =? AF_INET6) then netshAdd6 i (AddrString a) :: add_commands family i dnses
      else add_commands family i dnses
  end.

(** The callers pass AF_INET or AF_INET6; any other family has an empty template. *)
Definition flush_command (family i : Z) : string :=
  if family =? AF_INET then netshFlush4 i
  else if family =? AF_INET6 then netshFlush6 i
  else "%!(EXTRA uint32=" +:+ Strconv.Itoa i +:+ ")".

Definition fallbackSetDNSForFamily (luid family : Z) (dnses : list Addr) : dm unit :=
  ipif ← IPInterface luid family;
  runNetsh (flush_command family (InterfaceIndex ipif) :: add_commands family (InterfaceIndex ipif) dnses).

(** ** The registry *)

Definition open_key (msg path : string) : dm unit :=
  r ← calling (OpenKey path) (λ h, open_fails h path);
  match r with
  | Some e => throw (Wrapped msg e)
  | None => λ s, (Ok tt, mkDns (dcalls s) (S (keys s)))
  end.
Definition close_key : dm unit := λ s, (Ok tt, mkDns (dcalls s) (pred (keys s))).

Definition adapter_path (guid : list byte) : string :=
  "SYSTEM\CurrentControlSet\Services\Tcpip\Parameters\Adapters\" +:+ guid_text guid.
Definition service_path (p : string) : string := "SYSTEM\CurrentControlSet\Services\" +:+ p.

Definition fallbackSetDNSDomain (luid : Z) (domain : string) : dm unit :=
  r ← calling (ToGuid luid) (λ h, guid_of h luid);
  guid ← lift_err (Wrapped "error converting luid to guid: ") r;
  open_key "error opening adapter-specific TCP/IP network registry key: " (adapter_path guid) ;;
  paths ← calling (ReadIpConfig (adapter_path guid)) (λ h, ip_config h (adapter_path guid));
  close_key ;;
  paths ← lift_err (Wrapped "error reading IpConfig registry key: ") paths;
  match paths with
  | [] => throw NoInterfaces
  | p :: _ =>
      open_key "unable to open TCP/IP network registry key: " (service_path p) ;;
      r ← calling (SetDomain (service_path p) domain) (λ h, set_fails h (service_path p) domain);
      close_key ;;
      lift_opt Win r
  end.

Definition fallbackDisableDNSRegistration (luid : Z) : dm unit :=
  ipif ← IPInterface luid AF_INET;
  runNetsh [netshDisableRegistration (InterfaceIndex ipif)].

(** ** SetInterfaceDnsSettings *)

(** A number of [n] bytes in memory. *)
Fixpoint le_num (l : list byte) : Z := match l with [] => 0 | b :: l => u8 b + 256 * le_num l end.
Fixpoint le_bytes (n : nat) (z : Z) : list byte :=
  match n with O => [] | S n => mk8 z :: le_bytes n (z / 256) end.

(** What the callee finds in memory or in its registers. *)
Definition received (g : guid_args) : list byte :=
  match g with
  | ByPtr guid => guid
  | ByQwords w0 w1 => le_bytes 8 w0 ++ le_bytes 8 w1
  | ByDwords w0 w1 w2 w3 => le_bytes 4 w0 ++ le_bytes 4 w1 ++ le_bytes 4 w2 ++ le_bytes 4 w3
  end.

Definition guid_call (arch : string) (guid : list byte) : option guid_args :=
  if String.eqb arch "amd64" then Some (ByPtr guid)
  else if String.eqb arch "arm64" then Some (ByQwords (le_num (sub guid 0 8)) (le_num (sub guid 8 8)))
  else if String.eqb arch "arm" || String.eqb arch "386" then
    Some (ByDwords (le_num (sub guid 0 4)) (le_num (sub guid 4 4)) (le_num (sub guid 8 4)) (le_num (sub guid 12 4)))
  else None.

(** The answer is the error, not thrown. *)
Definition SetInterfaceDnsSettings (guid : list byte) (s : DnsInterfaceSettings) : dm (option werr) :=
  match guid_call GOARCH guid with
  | Some g => calling (Settings g s) (λ h, settings_fail h (received g) s)
  | None => crash
  end.

(** ** The operations *)

(** windows.UTF16PtrFromString refuses a string with a zero byte. *)
Definition UTF16PtrFromString (s : string) : dm string :=
  if bool_decide (mk8 0 ∈ to_bytes s) then throw (Win EINVAL) else mret s.

Fixpoint filteredServers (family : Z) (servers : list Addr) : list string :=
  match servers with
  | [] => []
  | a :: servers =>
      if (Is4 a && (family =? AF_INET)) || (Is6 a && (family =? AF_INET6)) then AddrString a :: filteredServers family servers
      else filteredServers family servers
  end.

Definition dns_settings (family : Z) (servers16 domains16 : string) : DnsInterfaceSettings :=
  let flags := Z.lor DnsInterfaceSettingsFlagNameserver DnsInterfaceSettingsFlagSearchList in
  mkSettings DnsInterfaceSettingsVersion1
    (if family =? AF_INET6 then Z.lor flags DnsInterfaceSettingsFlagIPv6 else flags)
    (Some servers16) (Some domains16) 0.

Definition SetDNS (luid family : Z) (servers : list Addr) (domains : list string) : dm unit :=
  if negb (family =? AF_INET) && negb (family =? AF_INET6) then throw (Win ERROR_PROTOCOL_UNREACHABLE)
  else
    servers16 ← UTF16PtrFromString (Strings.Join (filteredServers family servers) ",");
    domains16 ← UTF16PtrFromString (Strings.Join domains ",");
    guid ← GUID luid;
    err ← SetInterfaceDnsSettings guid (dns_settings family servers16 domains16);
    match err with
    | None => mret tt
    | Some e =>
        if bool_decide (e ≠ ERROR_PROC_NOT_FOUND) then throw (Win e)
        else
          fallbackSetDNSForFamily luid family servers ;;
          match domains with
          | d :: _ => fallbackSetDNSDomain luid d
          | [] => fallbackSetDNSDomain luid ""
          end
    end.

Definition FlushDNS (luid family : Z) : dm unit := SetDNS luid family [] [].

Definition DisableDNSRegistration (luid : Z) : dm unit :=
  guid ← GUID luid;
  err ← SetInterfaceDnsSettings guid
    (mkSettings DnsInterfaceSettingsVersion1 DnsInterfaceSettingsFlagRegistrationEnabled None None 0);
  match err with
  | None => mret tt
  | Some e =>
      if bool_decide (e ≠ ERROR_PROC_NOT_FOUND) then throw (Win e) else fallbackDisableDNSRegistration luid
  end.

(** ** Handing over a GUID *)

Lemma le_bytes_num l : le_bytes (length l) (le_num l) = l.
Proof.
  induction l as [|b l IH]; [done|]. cbn [length le_bytes le_num]. pose proof (u8_range b). f_equal.
  - apply mk8_eq. change (2 ^ 8) with 256. rewrite Z.mul_comm, Z_mod_plus_full. by apply Z.mod_small.
  - rewrite Z.mul_comm, Z_div_plus_full, Z.div_small, Z.add_0_l by lia. exact IH.
Qed.

Lemma le_bytes_sub l off n : (off + n ≤ length l)%nat → le_bytes n (le_num (sub l off n)) = sub l off n.
Proof. intros H. rewrite <- (length_sub l off n H) at 1. apply le_bytes_num. Qed.

Definition supported (arch : string) : Prop := arch ∈ ["amd64"; "arm64"; "arm"; "386"].

(** By whichever convention, the callee finds the bytes of the GUID. *)
Lemma guid_received arch guid :
  supported arch → length guid = 16%nat → ∃ g, guid_call arch guid = Some g ∧ received g = guid.
Proof.
  intros Ha Hl. assert (guid = sub guid 0 8 ++ sub guid 8 8) as H2.
  { unfold sub. rewrite drop_0, (take_ge (drop 8 guid)) by (rewrite length_drop; lia). by rewrite take_drop. }
  assert (guid = sub guid 0 4 ++ sub guid 4 4 ++ sub guid 8 4 ++ sub guid 12 4) as H4.
  { do 16 (destruct guid as [|? guid]; [done|]). by destruct guid. }
  unfold supported in Ha. rewrite !elem_of_cons, elem_of_nil in Ha.
  destruct Ha as [-> | [-> | [-> | [-> | []]]]]; eexists; (split; [reflexivity|]); unfold received;
    rewrite ?le_bytes_sub by lia; done.
Qed.

(** ** Reading back what was asked *)

Definition api_servers (s : DnsInterfaceSettings) : list string :=
  match NameServer s with
  | Some t => if String.eqb t "" then [] else Strings.Split t ","
  | None => []
  end.

Definition cr : string := of_bytes (bytes [13]).
Definition lines (text : string) : list string := (λ l, Strings.TrimSuffix l cr) <$> Strings.Split text (mk8 10).
Definition add_prefix (family i : Z) : string :=
  "interface ipv" +:+ (if family =? AF_INET then "4" else "6") +:+ " add dnsservers name=" +:+ Strconv.Itoa i +:+ " address=".
(** The servers of the family, in order. *)
Definition of_family (family : Z) (a : Addr) : bool :=
  match a with A4 _ => family =? AF_INET | A6 _ _ => family =? AF_INET6 | NoAddr => false end.
Definition wanted (family : Z) (servers : list Addr) : list string :=
  AddrString <$> filter (λ a, of_family family a = true) servers.

(** The script netsh is to read: clear the servers of the interface, add each
    wanted one, leave. *)
Definition clear_line (family i : Z) : string :=
  "interface ipv" +:+ (if family =? AF_INET then "4" else "6") +:+ " set dnsservers name=" +:+ Strconv.Itoa i +:+
  " source=static address=none validate=no".
Definition wanted_script (family i : Z) (servers : list Addr) : list string :=
  [clear_line family i] ++ ((λ a, add_prefix family i +:+ a +:+ " validate=no") <$> wanted family servers) ++ ["exit"; ""].

(** An address whose zone, if any, holds no separator (a comma or a line feed). *)
Definition plain (a : Addr) : Prop :=
  match a with A6 _ zone => mk8 10 ∉ to_bytes zone ∧ ","%char ∉ to_bytes zone | _ => True end.

Lemma Join_chars (P : byte → Prop) l sep :
  (∀ e c, e ∈ l → c ∈ to_bytes e → P c) → (∀ c, c ∈ to_bytes sep → P c) → ∀ c, c ∈ to_bytes (Strings.Join l sep) → P c.
Proof.
  intros Hl Hs. induction l as [|x [|y l] IH]; intros c Hc; [by apply not_elem_of_nil in Hc|apply (Hl x); [left|done]|].
  change (Strings.Join (x :: y :: l) sep) with (x +:+ sep +:+ Strings.Join (y :: l) sep) in Hc.
  rewrite !to_bytes_app, !elem_of_app in Hc. destruct Hc as [Hc|[Hc|Hc]]; [apply (Hl x); [left|done]|by apply Hs|].
  apply IH; [|done]. intros e d He. apply Hl. by right.
Qed.

(** The characters of an address without its zone. *)
Definition addr_char (c : byte) : Prop := (is_digit c || ((97 <=? u8 c) && (u8 c <=? 102)) || (u8 c =? 46) || (u8 c =? 58)) = true.

Lemma ipv4_chars x c : c ∈ to_bytes (Net.ipv4_string x) → addr_char c.
Proof.
  apply Join_chars.
  - intros e d (b & -> & _)%list_elem_of_fmap Hd. pose proof (u8_range b).
    unfold addr_char. by rewrite (Strconv.Itoa_digits (u8 b) d) by (done || lia).
  - intros d Hd. change (d ∈ ["."%char]) in Hd. apply list_elem_of_singleton in Hd as ->. done.
Qed.

Lemma hex_digit_char z : 0 ≤ z < 16 → addr_char (Net.hex_digit z).
Proof.
  intros Hz. unfold addr_char, Net.hex_digit, is_digit.
  destruct (Z.ltb_spec z 10); rewrite u8_mk8, (Z.mod_small _ 256) by lia;
    repeat match goal with |- context [?a <=? ?b] => destruct (Z.leb_spec a b) end; try done; lia.
Qed.

Lemma hex_chars f : ∀ n acc c, 0 ≤ n → (∀ d, d ∈ to_bytes acc → addr_char d) → c ∈ to_bytes (Net.hex_aux f n acc) → addr_char c.
Proof.
  induction f as [|f IH]; intros n acc c Hn Ha; [apply Ha|]. cbn [Net.hex_aux].
  assert (∀ d, d ∈ to_bytes (String (Net.hex_digit (n mod 16)) acc) → addr_char d) as Hd.
  { intros d. rewrite to_bytes_cons, elem_of_cons. intros [->|Hd]; [|by apply Ha]. apply hex_digit_char, Z.mod_pos_bound. lia. }
  destruct (n <? 16); [apply Hd|]. apply IH; [by apply Z.div_pos|done].
Qed.

Lemma groups_nonneg : ∀ x, Forall (λ z, 0 ≤ z) (Net.groups x).
Proof.
  fix IH 1. intros [|a [|b x]]; [constructor|constructor|]. constructor; [apply be16_range|apply IH].
Qed.

Lemma ipv6_chars x c : c ∈ to_bytes (Net.ipv6_string x) → addr_char c.
Proof.
  assert (∀ l, Forall (λ z, 0 ≤ z) l → ∀ c, c ∈ to_bytes (Strings.Join (Net.hex16 <$> l) ":") → addr_char c) as Hj.
  { intros l Hl. apply Join_chars.
    - intros e d (z & -> & Hz)%list_elem_of_fmap Hd. rewrite Forall_forall in Hl.
      eapply hex_chars; [by apply Hl| |exact Hd]. intros ? H. by apply not_elem_of_nil in H.
    - intros d Hd. change (d ∈ [":"%char]) in Hd. by apply list_elem_of_singleton in Hd as ->. }
  unfold Net.ipv6_string. pose proof (groups_nonneg x) as Hg. destruct (Net.best_run 0 (Net.groups x)) as [p n].
  destruct (Nat.leb 2 n); [|by apply Hj]. rewrite !to_bytes_app, !elem_of_app. intros [H|[H|H]].
  - eapply Hj, H. by apply Forall_take.
  - change (c ∈ [":"%char; ":"%char]) in H. rewrite !elem_of_cons, elem_of_nil in H. by destruct H as [-> | [-> | []]].
  - eapply Hj, H. by apply Forall_drop.
Qed.

Lemma AddrString_no c a : plain a → a ≠ NoAddr → c = mk8 10 ∨ c = ","%char → c ∉ to_bytes (AddrString a).
Proof.
  intros Hp Hn Hc. assert (¬ addr_char c) as Ha by (by destruct Hc as [-> | ->]).
  destruct a as [|b|b zone]; [done| |]; cbn [AddrString]; [by intros ?%ipv4_chars|].
  rewrite to_bytes_app, elem_of_app. intros [H|H].
  - revert H. case_bool_decide; [|by intros ?%ipv6_chars]. rewrite to_bytes_app, elem_of_app. intros [H'|H'%ipv4_chars]; [|done].
    apply Ha. change (c ∈ bytes [58; 58; 102; 102; 102; 102; 58]) in H'. clear -H'.
    unfold bytes in H'. cbn in H'. rewrite !elem_of_cons, elem_of_nil in H'. by destruct_or! H'; subst.
  - destruct (String.eqb zone ""); [by apply not_elem_of_nil in H|]. rewrite to_bytes_app, elem_of_app in H.
    destruct H as [H|H]; [|destruct Hp, Hc; by subst].
    change (c ∈ ["%"%char]) in H. apply list_elem_of_singleton in H. subst. by destruct Hc.
Qed.

Lemma app_nonempty (a b : string) : b ≠ "" → a +:+ b ≠ "".
Proof. by destruct a. Qed.

Lemma Join_two_nonempty x y l sep : sep ≠ "" → Strings.Join (x :: y :: l) sep ≠ "".
Proof. intros Hs. change (x +:+ sep +:+ Strings.Join (y :: l) sep ≠ ""). apply app_nonempty. by destruct sep. Qed.

Lemma AddrString_nonempty a : addr_ok a → AddrString a ≠ "".
Proof.
  destruct a as [|b|b zone]; cbn [addr_ok AddrString]; [done| |]; intros Hb.
  - destruct b as [|? [|? ?]]; [done|done|]. by apply Join_two_nonempty.
  - case_bool_decide; [done|]. unfold Net.ipv6_string.
    do 16 (destruct b as [|? b]; [done|]). destruct b; [|done]. cbn [Net.groups].
    match goal with |- context [Net.best_run 0 ?g] => destruct (Net.best_run 0 g) as [p n] end.
    match goal with |- ?s +:+ _ ≠ _ => assert (s ≠ "") as Hs end; [|by destruct (if Nat.leb 2 n then _ else _)].
    destruct (Nat.leb 2 n); [by apply app_nonempty|]. by apply Join_two_nonempty.
Qed.

Lemma filteredServers_wanted family servers : filteredServers family servers = wanted family servers.
Proof.
  unfold wanted. induction servers as [|a l IH]; [done|]. cbn [filteredServers]. rewrite filter_cons, IH.
  destruct a; cbn [Is4 Is6 andb orb of_family]; [done|..]; rewrite ?orb_false_r;
    destruct (_ =? _); by repeat case_decide.
Qed.

Lemma filtered_elem family servers e :
  e ∈ filteredServers family servers → ∃ a, a ∈ servers ∧ a ≠ NoAddr ∧ e = AddrString a.
Proof.
  induction servers as [|a l IH]; [by intros ?%not_elem_of_nil|]. cbn [filteredServers]. intros He.
  assert (e ∈ filteredServers family l → ∃ a', a' ∈ a :: l ∧ a' ≠ NoAddr ∧ e = AddrString a') as Hi.
  { intros (a' & Ha & H)%IH. exists a'. split; [by right|done]. }
  destruct a; cbn [Is4 Is6 andb orb] in He; [by apply Hi| |].
  all: destruct (_ =? _) in He; cbn in He; [|by apply Hi].
  all: apply elem_of_cons in He as [->|He]; [|by apply Hi]; eexists; split_and!; [left|done|done].
Qed.

(** The separators do not occur in the names of the servers. *)
Definition servers_ok (servers : list Addr) : Prop := Forall (λ a, plain a ∧ addr_ok a) servers.

Lemma api_reads family servers d : servers_ok servers →
  api_servers (dns_settings family (Strings.Join (filteredServers family servers) ",") d) = filteredServers family servers.
Proof.
  intros Hs. unfold servers_ok in Hs. rewrite Forall_forall in Hs. unfold api_servers. cbn [NameServer dns_settings].
  assert (∀ e, e ∈ filteredServers family servers → e ≠ "" ∧ ","%char ∉ to_bytes e) as He.
  { intros e (a & Ha & Hn & ->)%filtered_elem. destruct (Hs a Ha) as [Hp Ho].
    split; [by apply AddrString_nonempty|]. apply AddrString_no; auto. }
  destruct (filteredServers family servers) as [|x l]; [done|].
  assert (Strings.Join (x :: l) "," ≠ "") as Hj.
  { destruct l; [apply He; left|by apply Join_two_nonempty]. }
  apply String.eqb_neq in Hj. rewrite Hj. apply Strings.Split_Join; [done|]. intros e H. by apply He.
Qed.

Lemma TrimSuffix_app s suf : Strings.TrimSuffix (s +:+ suf) suf = s.
Proof.
  unfold Strings.TrimSuffix. rewrite (proj2 (Strings.HasSuffix_spec _ _)) by eauto.
  rewrite slen_app. replace (slen s + slen suf - slen suf)%nat with (slen s) by lia. apply stake_app.
Qed.

Lemma lines_script cmds : Forall (λ c, mk8 10 ∉ to_bytes c) cmds → lines (script cmds) = cmds ++ ["exit"; ""].
Proof.
  induction 1 as [|x l Hx Hl IH]; [done|].
  assert (script (x :: l) = (x +:+ cr) +:+ String (mk8 10) (script l)) as ->.
  { unfold script. cbn [app]. destruct (l ++ ["exit" +:+ crlf]) as [|y k] eqn:El; [by destruct l|].
    change (x +:+ crlf +:+ Strings.Join (y :: k) crlf = (x +:+ cr) +:+ String (mk8 10) (Strings.Join (y :: k) crlf)).
    by rewrite sapp_assoc. }
  unfold lines. rewrite Strings.Split_app_sep.
  - rewrite fmap_cons, TrimSuffix_app. cbn [app]. f_equal. exact IH.
  - rewrite to_bytes_app, not_elem_of_app. split; [done|]. apply (bool_decide_unpack _). by vm_compute.
Qed.

Lemma Itoa_no_lf n : 0 ≤ n → mk8 10 ∉ to_bytes (Strconv.Itoa n).
Proof. intros Hn Hc%Strconv.Itoa_digits; [by vm_compute in Hc|done]. Qed.

(** A command around an interface index and a server. *)
Lemma command_no_lf a b c i s : 0 ≤ i → mk8 10 ∉ to_bytes a → mk8 10 ∉ to_bytes b → mk8 10 ∉ to_bytes c → mk8 10 ∉ to_bytes s →
  mk8 10 ∉ to_bytes (a +:+ Strconv.Itoa i +:+ b +:+ s +:+ c).
Proof. intros Hi Ha Hb Hc Hs. rewrite !to_bytes_app, !not_elem_of_app. split_and!; try done. by apply Itoa_no_lf. Qed.

Lemma index_no_lf a b i : 0 ≤ i → mk8 10 ∉ to_bytes a → mk8 10 ∉ to_bytes b → mk8 10 ∉ to_bytes (a +:+ Strconv.Itoa i +:+ b).
Proof. intros Hi Ha Hb. rewrite !to_bytes_app, !not_elem_of_app. split_and!; try done. by apply Itoa_no_lf. Qed.

Lemma flush_no_lf family i : 0 ≤ i → mk8 10 ∉ to_bytes (flush_command family i).
Proof.
  intros Hi. unfold flush_command. destruct (family =? AF_INET); [|destruct (family =? AF_INET6)];
    apply index_no_lf; try done; apply (bool_decide_unpack _); by vm_compute.
Qed.

Lemma adds_no_lf family i servers : 0 ≤ i → servers_ok servers →
  Forall (λ c, mk8 10 ∉ to_bytes c) (add_commands family i servers).
Proof.
  intros Hi. induction 1 as [|a l [Hp Ho] Hl IH]; [constructor|]. cbn [add_commands].
  assert (a ≠ NoAddr → mk8 10 ∉ to_bytes (AddrString a)) as Ha by (intros; apply AddrString_no; auto).
  destruct (Is4 a && (family =? AF_INET)) eqn:E4; [|destruct (Is6 a && (family =? AF_INET6)) eqn:E6; [|done]]; constructor; try done.
  - apply command_no_lf; [done| | | |apply Ha; by destruct a]; apply (bool_decide_unpack _); by vm_compute.
  - apply command_no_lf; [done| | | |apply Ha; by destruct a]; apply (bool_decide_unpack _); by vm_compute.
Qed.

Lemma prefix_app (p r : string) : Strings.HasPrefix (p +:+ r) p = true.
Proof. apply Strings.HasPrefix_spec. eauto. Qed.

(** The script is the wanted one, line by line. *)
Lemma add_commands_wanted family i servers : known_family family → family ≠ AF_UNSPEC →
  add_commands family i servers = (λ a, add_prefix family i +:+ a +:+ " validate=no") <$> wanted family servers.
Proof.
  intros Hf Hu. rewrite <- filteredServers_wanted. induction servers as [|a l IH]; [done|].
  cbn [add_commands filteredServers]. rewrite IH. destruct Hf as [-> | [-> | ->]]; [done| |].
  - change (AF_INET =? AF_INET6) with false. change (AF_INET =? AF_INET) with true. rewrite !andb_true_r, !andb_false_r, orb_false_r.
    destruct (Is4 a); [|done]. rewrite fmap_cons. f_equal. unfold add_prefix, netshAdd4. cbn [Z.eqb]. by rewrite !sapp_assoc.
  - change (AF_INET6 =? AF_INET) with false. change (AF_INET6 =? AF_INET6) with true. rewrite !andb_true_r, !andb_false_r, orb_false_l.
    destruct (Is6 a); [|done]. rewrite fmap_cons. f_equal. unfold add_prefix, netshAdd6. cbn [Z.eqb]. by rewrite !sapp_assoc.
Qed.

Lemma script_reads family i servers : known_family family → family ≠ AF_UNSPEC → 0 ≤ i → servers_ok servers →
  lines (script (flush_command family i :: add_commands family i servers)) = wanted_script family i servers.
Proof.
  intros Hf Hu Hi Hs.
  rewrite lines_script by (constructor; [by apply flush_no_lf|by apply adds_no_lf]).
  rewrite add_commands_wanted by done. unfold wanted_script. cbn [app]. f_equal.
  unfold flush_command, clear_line. destruct Hf as [-> | [-> | ->]]; done.
Qed.

(** ** What an operation asks for *)

(** A call of the program: it does not panic, closes the keys it opens, and when it
    succeeds the new calls satisfy [P]. *)
Definition asks (m : dm unit) (P : list dcall → Prop) : Prop := ∀ s,
  (m s).1 ≠ Panic ∧ keys (m s).2 = keys s ∧ ((m s).1 = Ok tt → ∃ l, dcalls (m s).2 = dcalls s ++ l ∧ P l).

Ltac run_calls :=
  unfold open_key, close_key; unfold mbind, stm_bind, calling, lift_err, lift_opt, throw, mret, stm_ret; cbn [fst snd dcalls keys].

Lemma asks_throw e P : asks (throw e) P.
Proof. by intros s. Qed.

Lemma asks_seq m1 m2 P Q : asks m1 P → asks m2 Q → asks (m1 ;; m2) (λ l, ∃ l1 l2, l = l1 ++ l2 ∧ P l1 ∧ Q l2).
Proof.
  intros H1 H2 s. destruct (H1 s) as (Hp1 & Hk1 & Hc1). unfold mbind, stm_bind.
  destruct (m1 s) as [[[]|e|] s1]; cbn [fst snd] in *; [|by split_and!|done].
  destruct (H2 s1) as (Hp2 & Hk2 & Hc2). split_and!; [done|by rewrite Hk2|]. intros Ho.
  destruct (Hc1 eq_refl) as (l1 & El1 & HP), (Hc2 Ho) as (l2 & El2 & HQ).
  exists (l1 ++ l2). rewrite El2, El1, app_assoc. eauto 10.
Qed.

Lemma asks_calling {A} c (answer : list dcall → A) (f : A → dm unit) P :
  (∀ h, asks (f (answer h)) (λ l, P (c :: l))) → asks (calling c answer ≫= f) P.
Proof.
  intros H s. unfold mbind, stm_bind, calling. destruct (H (dcalls s) (mkDns (dcalls s ++ [c]) (keys s))) as (Hp & Hk & Hc).
  split_and!; [done|done|]. intros Ho. destruct (Hc Ho) as (l & El & HP). exists (c :: l). split; [|done].
  rewrite El. cbn. by rewrite <- app_assoc.
Qed.

Lemma runNetsh_asks cmds : asks (runNetsh cmds) (λ l, l = [Netsh (script cmds)]).
Proof.
  unfold runNetsh. destruct no_system_directory as [e|]; [apply asks_throw|]. destruct no_stdin_pipe as [e|]; [apply asks_throw|].
  intros s. run_calls. destruct (netsh_answer (dcalls s) (script cmds)) as [out [err|]]; cbn [fst snd]; [done|].
  destruct (String.eqb (cleaned out) ""); [|done]. split_and!; [done|done|]. intros _. by eexists.
Qed.

Definition domain_calls (luid : Z) (domain : string) (l : list dcall) : Prop := ∃ guid p,
  l = [ToGuid luid; OpenKey (adapter_path guid); ReadIpConfig (adapter_path guid); OpenKey (service_path p);
       SetDomain (service_path p) domain].

Lemma fallbackSetDNSDomain_asks luid domain : asks (fallbackSetDNSDomain luid domain) (domain_calls luid domain).
Proof.
  apply asks_calling. intros h. destruct (guid_of h luid) as [e|guid]; [apply asks_throw|].
  intros s. run_calls. destruct (open_fails _ _) as [e|]; [done|]. cbn [fst snd dcalls keys pred].
  destruct (ip_config _ _) as [e|[|p paths]]; [done|done|]. cbn [fst snd dcalls keys pred].
  destruct (open_fails _ (service_path p)) as [e|]; [done|]. cbn [fst snd dcalls keys pred].
  destruct (set_fails _ _ _) as [e|]; [done|]. split_and!; [done|done|]. intros _. cbn.
  eexists. rewrite <- !app_assoc. split; [reflexivity|]. by exists guid, p.
Qed.

(** The documented sizes: a GUID has sixteen bytes, an interface index no sign. *)
Definition answers_ok : Prop :=
  (∀ h luid guid, guid_of h luid = inr guid → length guid = 16%nat) ∧
  (∀ h luid family row, interface_of h luid family = inr row → 0 ≤ InterfaceIndex row).

Definition script_call (luid family : Z) (servers : list Addr) (l : list dcall) : Prop := ∃ h row text,
  interface_of h luid family = inr row ∧ l = [GetInterface luid family; Netsh text] ∧
  lines text = wanted_script family (InterfaceIndex row) servers.

Lemma patched_index r : InterfaceIndex (patched r) = InterfaceIndex r.
Proof. unfold patched. repeat case_match; done. Qed.

Lemma fallbackSetDNSForFamily_asks luid family servers :
  answers_ok → known_family family → family ≠ AF_UNSPEC → servers_ok servers →
  asks (fallbackSetDNSForFamily luid family servers) (script_call luid family servers).
Proof.
  intros [_ Hi] Hf Hu Hs s. unfold fallbackSetDNSForFamily, IPInterface. run_calls.
  destruct (interface_of (dcalls s) luid family) as [e|row] eqn:Er; [done|]. cbn [fst snd]. rewrite patched_index.
  set (s1 := mkDns _ _). destruct (runNetsh_asks (flush_command family (InterfaceIndex row)
    :: add_commands family (InterfaceIndex row) servers) s1) as (Hp & Hk & Hc).
  split_and!; [done|done|]. intros Ho. destruct (Hc Ho) as (l & El & ->). eexists. rewrite El. cbn [dcalls s1].
  rewrite <- app_assoc. split; [reflexivity|]. exists (dcalls s), row. eexists. split_and!; [done|reflexivity|].
  by apply script_reads; eauto.
Qed.

(** What SetDNS leaves in the record when it succeeds after the calls [h]: the call
    of the new interface and nothing more when Windows has taken it; when Windows
    says that it has no such call, a script and the first domain in the registry as
    well.  No other answer is a success. *)
Definition SetDNS_calls (h : list dcall) (luid family : Z) (servers : list Addr) (domains : list string) (l : list dcall) : Prop :=
  ∃ guid g st, guid_of h luid = inr guid ∧ received g = guid ∧
    api_servers st = wanted family servers ∧ SearchList st = Some (Strings.Join domains ",") ∧
    Z.testbit (Flags st) 0 = (family =? AF_INET6) ∧
    match settings_fail (h ++ [ToGuid luid]) guid st with
    | None => l = [ToGuid luid; Settings g st]
    | Some e => e = ERROR_PROC_NOT_FOUND ∧
        ∃ l1 l2, l = [ToGuid luid; Settings g st] ++ l1 ++ l2 ∧ script_call luid family servers l1 ∧
          domain_calls luid (default "" (head domains)) l2
    end.

(** Windows does what it is asked, except that it may lack the new call. *)
Definition helpful : Prop :=
  (∀ h luid, ∃ guid, guid_of h luid = inr guid) ∧
  (∀ h guid st, settings_fail h guid st = None ∨ settings_fail h guid st = Some ERROR_PROC_NOT_FOUND) ∧
  (∀ h luid family, ∃ row, interface_of h luid family = inr row) ∧
  no_system_directory = None ∧ no_stdin_pipe = None ∧
  (∀ h text, cleaned (netsh_answer h text).1 = "" ∧ (netsh_answer h text).2 = None) ∧
  (∀ h path, open_fails h path = None) ∧
  (∀ h path, ∃ p paths, ip_config h path = inr (p :: paths)) ∧
  (∀ h path domain, set_fails h path domain = None).

(** The fallback succeeds on such a Windows. *)
Lemma fallback_succeeds luid family servers domain s : helpful →
  ((fallbackSetDNSForFamily luid family servers ;; fallbackSetDNSDomain luid domain) s).1 = Ok tt.
Proof.
  intros (Hg & _ & Hi & Hsys & Hpipe & Hnet & Hopen & Hcfg & Hset).
  unfold fallbackSetDNSForFamily, IPInterface, runNetsh, fallbackSetDNSDomain. run_calls.
  destruct (Hi (dcalls s) luid family) as [row ->]. rewrite Hsys, Hpipe. cbn [fst snd dcalls keys].
  match goal with |- context [netsh_answer ?h ?t] => destruct (Hnet h t) as [-> ->] end.
  rewrite String.eqb_refl. cbn [fst snd dcalls keys].
  match goal with |- context [guid_of ?h luid] => destruct (Hg h luid) as [guid ->] end. cbn [fst snd dcalls keys].
  rewrite Hopen. cbn [fst snd dcalls keys].
  match goal with |- context [ip_config ?h ?t] => destruct (Hcfg h t) as (p & paths & ->) end. cbn [fst snd dcalls keys].
  rewrite Hopen. cbn [fst snd dcalls keys]. by rewrite Hset.
Qed.

Lemma SetDNS_succeeds luid family servers domains s :
  supported GOARCH → answers_ok → helpful → family = AF_INET ∨ family = AF_INET6 →
  mk8 0 ∉ to_bytes (Strings.Join (wanted family servers) ",") → mk8 0 ∉ to_bytes (Strings.Join domains ",") →
  (SetDNS luid family servers domains s).1 = Ok tt.
Proof.
  intros Ha Hok Hh Hf Hs0 Hd0. unfold SetDNS.
  replace (negb (family =? AF_INET) && negb (family =? AF_INET6)) with false by (by destruct Hf as [-> | ->]).
  unfold UTF16PtrFromString. rewrite filteredServers_wanted, !bool_decide_eq_false_2 by done.
  destruct (proj1 Hh (dcalls s) luid) as [guid Eg].
  unfold GUID, SetInterfaceDnsSettings. run_calls. rewrite Eg. cbn [fst snd].
  destruct (guid_received GOARCH guid Ha (proj1 Hok _ _ _ Eg)) as (g & -> & Hg). cbn [fst snd dcalls keys].
  match goal with |- context [settings_fail ?h ?x ?st] => destruct (proj1 (proj2 Hh) h x st) as [-> | ->] end; [done|].
  rewrite bool_decide_eq_false_2 by (by intros []).
  set (s1 := mkDns _ _). set (d := match domains with [] => _ | _ => _ end).
  assert (d = fallbackSetDNSDomain luid (default "" (head domains))) as -> by by destruct domains.
  exact (fallback_succeeds luid family servers (default "" (head domains)) s1 Hh).
Qed.

Lemma SetDNS_record luid family servers domains s :
  supported GOARCH → answers_ok → servers_ok servers →
  (SetDNS luid family servers domains s).1 ≠ Panic ∧ keys (SetDNS luid family servers domains s).2 = keys s ∧
  ((SetDNS luid family servers domains s).1 = Ok tt →
   ∃ l, dcalls (SetDNS luid family servers domains s).2 = dcalls s ++ l ∧ SetDNS_calls (dcalls s) luid family servers domains l).
Proof.
  intros Ha Hok Hs.
  unfold SetDNS. destruct (negb (family =? AF_INET) && negb (family =? AF_INET6)) eqn:Ef; [done|].
  assert (known_family family ∧ family ≠ AF_UNSPEC) as [Hf Hu].
  { unfold known_family. destruct (Z.eqb_spec family AF_INET) as [->|]; [by split; [right; left|]|].
    destruct (Z.eqb_spec family AF_INET6) as [->|]; [by split; [right; right|]|done]. }
  unfold UTF16PtrFromString. destruct (bool_decide (mk8 0 ∈ to_bytes (Strings.Join (filteredServers _ _) _))); [by run_calls|].
  destruct (bool_decide (mk8 0 ∈ to_bytes (Strings.Join domains _))); [by run_calls|].
  set (st := dns_settings family (Strings.Join (filteredServers family servers) ",") (Strings.Join domains ",")).
  assert (api_servers st = wanted family servers) as Hst by (rewrite <- filteredServers_wanted; by apply api_reads).
  assert (Z.testbit (Flags st) 0 = (family =? AF_INET6)) as Hfl by (unfold st, dns_settings; by destruct (family =? AF_INET6)).
  unfold GUID, SetInterfaceDnsSettings. run_calls.
  destruct (guid_of (dcalls s) luid) as [e|guid] eqn:Eg; [done|]. cbn [fst snd].
  destruct (guid_received GOARCH guid Ha (proj1 Hok _ _ _ Eg)) as (g & -> & Hg). cbn [fst snd dcalls keys].
  fold st. destruct (settings_fail _ _ st) as [e|] eqn:Ea; rewrite Hg in Ea.
  2: { split_and!; [done|done|]. intros _. eexists. cbn. rewrite <- app_assoc. split; [reflexivity|].
       exists guid, g, st. rewrite Ea. by split_and!. }
  case_bool_decide as Ee; [done|]. subst e.
  set (s1 := mkDns _ _). set (d := match domains with [] => _ | _ => _ end).
  assert (d = fallbackSetDNSDomain luid (default "" (head domains))) as -> by by destruct domains.
  destruct (asks_seq _ _ _ _ (fallbackSetDNSForFamily_asks luid family servers Hok Hf Hu Hs)
    (fallbackSetDNSDomain_asks luid (default "" (head domains))) s1) as (Hp & Hk & Hc).
  split_and!; [done|done|]. intros Ho. destruct (Hc Ho) as (l & El & l1 & l2 & -> & H1 & H2).
  exists ([ToGuid luid; Settings g st] ++ l1 ++ l2). split; [etransitivity; [exact El|]; cbn; by rewrite <- !app_assoc|].
  exists guid, g, st. rewrite Ea. split_and!; try done. eauto 10.
Qed.

(** C18. Old and new Windows are asked for the same servers.  For servers whose zones
    hold no comma and no line feed, on an architecture the package supports and a
    Windows whose GUIDs have 16 bytes and whose interface indexes are not negative:
    SetDNS does not panic and leaves no key of the registry open, whatever fails.  When
    it succeeds it has handed the bytes of the interface's GUID to the call of Windows
    10 1809 with a list that reads back as the servers of the family, in order, and
    either that call succeeded and nothing else was done, or Windows said it has no
    such call and a script was run whose lines are: clear the servers of the
    interface, add each of the same servers in order, exit; and the first domain was
    put into the registry.  And it does succeed, for IPv4 and IPv6, when no name holds
    a zero byte and Windows fails nothing but, perhaps, lacks that call. *)
Theorem SetDNS_asks luid family servers domains s :
  supported GOARCH → answers_ok → servers_ok servers →
  let r := SetDNS luid family servers domains s in
  r.1 ≠ Panic ∧ keys r.2 = keys s ∧
  (r.1 = Ok tt → ∃ l, dcalls r.2 = dcalls s ++ l ∧ SetDNS_calls (dcalls s) luid family servers domains l) ∧
  (helpful → family = AF_INET ∨ family = AF_INET6 →
   mk8 0 ∉ to_bytes (Strings.Join (wanted family servers) ",") → mk8 0 ∉ to_bytes (Strings.Join domains ",") → r.1 = Ok tt).
Proof.
  intros Ha Hok Hs. destruct (SetDNS_record luid family servers domains s Ha Hok Hs) as (Hp & Hk & Hc).
  split_and!; [done|done|done|]. intros. by apply SetDNS_succeeds.
Qed.

Lemma DisableDNSRegistration_asks luid : supported GOARCH → answers_ok →
  asks (DisableDNSRegistration luid) (λ l, ∃ g st, Flags st = DnsInterfaceSettingsFlagRegistrationEnabled ∧ RegistrationEnabled st = 0 ∧
    (l = [ToGuid luid; Settings g st] ∨
     ∃ i, l = [ToGuid luid; Settings g st; GetInterface luid AF_INET; Netsh (script [netshDisableRegistration i])])).
Proof.
  intros Ha Hok s. unfold DisableDNSRegistration, GUID, SetInterfaceDnsSettings. run_calls.
  destruct (guid_of (dcalls s) luid) as [e|guid] eqn:Eg; [done|]. cbn [fst snd].
  destruct (guid_received GOARCH guid Ha (proj1 Hok _ _ _ Eg)) as (g & -> & Hg). cbn [fst snd dcalls keys].
  set (st := mkSettings _ _ _ _ _). destruct (settings_fail _ _ st) as [e|].
  2: { split_and!; [done|done|]. intros _. eexists. cbn. rewrite <- app_assoc. split; [reflexivity|]. exists g, st. auto. }
  case_bool_decide as Ee; [done|]. unfold fallbackDisableDNSRegistration, IPInterface. run_calls.
  destruct (interface_of _ luid AF_INET) as [e'|row]; [done|]. cbn [fst snd].
  set (s1 := mkDns _ _). destruct (runNetsh_asks [netshDisableRegistration (InterfaceIndex (patched row))] s1) as (Hp & Hk & Hc).
  split_and!; [done|done|]. intros Ho. destruct (Hc Ho) as (l & El & ->). eexists. rewrite El. cbn [dcalls s1].
  rewrite <- !app_assoc. split; [reflexivity|]. exists g, st. split_and!; [done|done|]. right. by eexists.
Qed.

End Dns.

(** ** Reading the servers back *)

(** An adapter with the answers of SocketAddress.IP for its servers, [None] for nil. *)
Record adapter := mkAdapter { a_LUID : Z; FirstDNSServerAddress : list (option (list byte)) }.

(** Windows answers the n-th call, given the size of the buffer, with an error, the
    size it wants and the chain of adapters it has written. *)
Class AdaptersEnv := { adapters_answer : nat → Z → option werr * Z * list adapter }.

Section Adapters.
Context {E : AdaptersEnv}.

(** The loop of GetAdaptersAddresses; [None] when the fuel is used up.  Taking the
    address of the first byte of an empty buffer panics. *)
Fixpoint adapters_loop (fuel : nat) (n : nat) (size : Z) : option (outcome werr (list adapter)) :=
  match fuel with
  | O => None
  | S fuel =>
      if size =? 0 then Some Panic
      else match adapters_answer n size with
           | (None, _, l) => Some (Ok l)
           | (Some err, size', _) =>
               if bool_decide (err ≠ ERROR_BUFFER_OVERFLOW) || (size' <=? size) then Some (Err err)
               else adapters_loop fuel (S n) size'
           end
  end.

Definition GetAdaptersAddresses (fuel : nat) : option (outcome werr (list adapter)) := adapters_loop fuel 0 15000.

(** A size is an unsigned number of 32 bits. *)
Definition sizes_ok : Prop := ∀ n size, 0 ≤ (adapters_answer n size).1.2 < 2 ^ 32.

(** The buffer grows with every round, so the loop ends, without a panic. *)
Lemma GetAdaptersAddresses_returns fuel :
  sizes_ok → 2 ^ 32 ≤ 15000 + Z.of_nat fuel → ∃ r, GetAdaptersAddresses fuel = Some r ∧ r ≠ Panic.
Proof.
  intros Hs. unfold GetAdaptersAddresses. assert (0 < 15000 < 2 ^ 32) as H0 by lia. revert H0.
  generalize 15000 as size. generalize 0%nat as n.
  induction fuel as [|fuel IH]; intros n size H0 Hf; [lia|]. cbn [adapters_loop].
  rewrite (proj2 (Z.eqb_neq size 0)) by lia. pose proof (Hs n size) as Hn.
  destruct (adapters_answer n size) as [[[err|] size'] l]; [|by eexists]. cbn in Hn.
  case_bool_decide; cbn [orb]; [by eexists|]. destruct (Z.leb_spec size' size); [by eexists|]. apply IH; lia.
Qed.

Definition AddrFromSlice (b : list byte) : option Addr :=
  match length b with 4%nat => Some (A4 b) | 16%nat => Some (A6 b "") | _ => None end.

(** The inner loop of DNS over the servers of one adapter. *)
Fixpoint read_servers (l : list (option (list byte))) : outcome werr (list Addr) :=
  match l with
  | [] => Ok []
  | Some ip :: l =>
      match read_servers l with
      | Ok r => Ok (match AddrFromSlice ip with Some a => a :: r | None => r end)
      | e => e
      end
  | None :: _ => Err ERROR_INVALID_PARAMETER
  end.

Fixpoint read_adapters (luid : Z) (l : list adapter) : outcome werr (list Addr) :=
  match l with
  | [] => Ok []
  | a :: l =>
      if a_LUID a =? luid then
        match read_servers (FirstDNSServerAddress a) with
        | Ok r => match read_adapters luid l with Ok r' => Ok (r ++ r') | e => e end
        | e => e
        end
      else read_adapters luid l
  end.

Definition DNS (fuel : nat) (luid : Z) : option (outcome werr (list Addr)) :=
  match GetAdaptersAddresses fuel with
  | Some (Ok l) => Some (read_adapters luid l)
  | Some (Err e) => Some (Err e)
  | Some Panic => Some Panic
  | None => None
  end.

(** The bytes of an address. *)
Definition slice_of (a : Addr) : list byte := match a with A4 b | A6 b _ => b | NoAddr => [] end.

(** A chain of servers that were set is read back without zones, in order; a server
    without an IP address makes the whole call fail. *)
Lemma read_servers_set l : Forall (λ a, addr_ok a ∧ a ≠ NoAddr) l →
  read_servers ((λ a, Some (slice_of a)) <$> l) = Ok (without_zone <$> l).
Proof.
  induction 1 as [|a l [Ho Hn] _ IH]; [done|]. cbn [fmap list_fmap read_servers]. rewrite IH. unfold AddrFromSlice.
  destruct a as [|b|b z]; [done| |]; cbn in *; by rewrite Ho.
Qed.

Lemma read_adapters_own luid l a servers : Forall (λ x, a_LUID x ≠ luid) l → a_LUID a = luid →
  Forall (λ a, addr_ok a ∧ a ≠ NoAddr) servers → FirstDNSServerAddress a = (λ a, Some (slice_of a)) <$> servers →
  read_adapters luid (l ++ [a]) = Ok (without_zone <$> servers).
Proof.
  intros Hl Ha Hs Hf. induction Hl as [|x l Hx _ IH]; cbn.
  - rewrite (proj2 (Z.eqb_eq _ _) Ha), Hf, read_servers_set by done. by rewrite app_nil_r.
  - by rewrite (proj2 (Z.eqb_neq _ _) Hx).
Qed.

End Adapters.

(** ** Examples *)

(** An old Windows on ARM where everything else works. *)
Definition old_windows : DnsEnv := {|
  GOARCH := "arm64";
  guid_of := λ _ luid, inr (replicate 16 (mk8 luid));
  guid_text := λ _, "{07070707-0707-0707-0707-070707070707}";
  settings_fail := λ _ _ _, Some ERROR_PROC_NOT_FOUND;
  interface_of := λ _ luid family, inr (mkIf luid family 12 64);
  no_system_directory := None; no_stdin_pipe := None;
  netsh_answer := λ _ _, ("netsh>" +:+ crlf, None);
  open_fails := λ _ _, None;
  ip_config := λ _ _, inr ["Tcpip\Parameters\Interfaces\x"];
  set_fails := λ _ _ _, None |}.

Definition ex_dns : list Addr := [v4 198 18 0 2; v6_loopback; v4 8 8 8 8].

Lemma SetDNS_asks_witness :
  ∃ l, dcalls (@SetDNS old_windows 7 AF_INET ex_dns ["lan"; "corp"] (mkDns [] 0)).2 = [] ++ l ∧
    @SetDNS_calls old_windows [] 7 AF_INET ex_dns ["lan"; "corp"] l.
Proof.
  refine (proj1 (proj2 (proj2 (@SetDNS_asks old_windows 7 AF_INET ex_dns ["lan"; "corp"] (mkDns [] 0) _ _ _))) _).
  - right. left.
  - split; [by intros h luid guid [= <-]|by intros h luid family row [= <-]].
  - unfold servers_ok, ex_dns. rewrite !Forall_cons, Forall_nil. split_and!; try done; split; apply not_elem_of_nil.
  - vm_compute. reflexivity.
Defined.

(** On an old Windows only the first domain is kept, and not as a search list. *)
Lemma fallback_one_domain :
  ∃ l p, dcalls (@SetDNS old_windows 7 AF_INET ex_dns ["lan"; "corp"] (mkDns [] 0)).2 = l ++ [SetDomain p "lan"].
Proof.
  exists (take 8 (dcalls (@SetDNS old_windows 7 AF_INET ex_dns ["lan"; "corp"] (mkDns [] 0)).2)),
    (service_path "Tcpip\Parameters\Interfaces\x").
  by vm_compute.
Qed.

End WinDns.
