(* ===== verification/WinIf.v ===== *)
(** * Interfaces of Windows
    (src/internal/winipcfg/winipcfg.go, luid.go and types.go; the interface settings of
    src/proxy/tproxy/tproxy_windows.go)

    The rows of the two interface tables, the conversions between the names of an
    interface, and the settings that the TUN device gets.  Windows keeps the tables;
    any call may fail ([if_fails]).  SetIpInterfaceEntry refuses a site prefix that is
    longer than an address of the family, as its documentation says. *)

From S2P Require Import Prelude Buffers WinAddr WinIpcfg.

Module WinIf.
Import WinAddr WinIpcfg.

(** ** Rows *)

(** The identity of a row, the fields that the program sets, and the others. *)
Record MibIPInterfaceRow := mkRow {
  Family_ : Z; InterfaceLUID : Z; InterfaceIndex : Z;
  ForwardingEnabled : bool; UseAutomaticMetric : bool; RouterDiscoveryBehavior : Z; DadTransmits : Z;
  SitePrefixLength : Z; IfMetric : Z; NLMTU : Z;
  other_fields : list byte }.
#[global] Instance row_eq_dec : EqDecision MibIPInterfaceRow.
Proof. solve_decision. Defined.

Definition key (r : MibIPInterfaceRow) : Z * Z := (InterfaceLUID r, Family_ r).

Record MibIfRow2 := mkIfRow {
  m_LUID : Z; m_index : Z; m_GUID : list byte;
  physicalAddressLength : Z; physicalAddress : list byte; permanentPhysicalAddress : list byte }.

Record MibAnycastIPAddressRow := mkAnycast { any_Address : list byte; any_LUID : Z }.

(** ** Windows *)

Inductive fcall :=
  | GetInterface (k : Z * Z) | SetInterface (k : Z * Z) | InterfaceTable | IfEntry (luid : Z) | IfTable (level : Z) | AnycastTable
  | ToGUID (luid : Z) | FromGUID (g : list byte) | FromIndex (i : Z).

Record ifs := mkIfs {
  ip_rows : list MibIPInterfaceRow;
  if_rows : list MibIfRow2;
  anycast : list MibAnycastIPAddressRow;
  if_tables : nat;                        (* handed out and not freed *)
  fcalls : list fcall }.

Class IfEnv := { if_fails : list fcall → fcall → option werr }.

Abbreviation fm := (stm ifs werr).

Section Calls.
Context {E : IfEnv}.

Definition record (c : fcall) (s : ifs) : ifs := mkIfs (ip_rows s) (if_rows s) (anycast s) (if_tables s) (c :: fcalls s).
Definition ask {A} (c : fcall) (f : fm A) : fm A := λ s,
  match if_fails (fcalls s) c with
  | Some e => (Err e, record c s)
  | None => f (record c s)
  end.

Definition first_or {A} (l : list A) : fm A := match l with x :: _ => mret x | [] => throw ERROR_NOT_FOUND end.

(** The longest prefix of a family. *)
Definition max_site (family : Z) : Z := if family =? AF_INET then 32 else 128.

Definition getIPInterfaceEntry (luid family : Z) : fm MibIPInterfaceRow :=
  ask (GetInterface (luid, family)) (λ s, first_or (filter (λ r, key r = (luid, family)) (ip_rows s)) s).
Definition setIPInterfaceEntry (r : MibIPInterfaceRow) : fm unit :=
  ask (SetInterface (key r)) (λ s,
    if max_site (Family_ r) <? SitePrefixLength r then (Err ERROR_INVALID_PARAMETER, s)
    else if bool_decide (key r ∈ key <$> ip_rows s)
    then (Ok tt, mkIfs ((λ x, if decide (key x = key r) then r else x) <$> ip_rows s) (if_rows s) (anycast s) (if_tables s) (fcalls s))
    else (Err ERROR_NOT_FOUND, s)).

(** A table in memory of Windows, and its release. *)
Definition table {A} (c : fcall) (rows : ifs → list A) : fm (list A) :=
  ask c (λ s, (Ok (rows s), mkIfs (ip_rows s) (if_rows s) (anycast s) (S (if_tables s)) (fcalls s))).
Definition free : fm unit := λ s, (Ok tt, mkIfs (ip_rows s) (if_rows s) (anycast s) (pred (if_tables s)) (fcalls s)).

(** ** The package *)

(** The correction of SitePrefixLength. *)
Definition patched (r : MibIPInterfaceRow) : MibIPInterfaceRow :=
  let site n := mkRow (Family_ r) (InterfaceLUID r) (InterfaceIndex r) (ForwardingEnabled r) (UseAutomaticMetric r)
    (RouterDiscoveryBehavior r) (DadTransmits r) n (IfMetric r) (NLMTU r) (other_fields r) in
  if Family_ r =? AF_INET then if 32 <? SitePrefixLength r then site 0 else r
  else if Family_ r =? AF_INET6 then if 128 <? SitePrefixLength r then site 128 else r
  else r.

Definition IPInterface (luid family : Z) : fm MibIPInterfaceRow :=
  r ← getIPInterfaceEntry luid family;
  mret (patched r).

Definition Set_ (r : MibIPInterfaceRow) : fm unit := setIPInterfaceEntry r.

Definition Interface (luid : Z) : fm MibIfRow2 :=
  ask (IfEntry luid) (λ s, first_or (filter (λ r, m_LUID r = luid) (if_rows s)) s).

Definition GUID (luid : Z) : fm (list byte) :=
  ask (ToGUID luid) (λ s, (r ← first_or (filter (λ r, m_LUID r = luid) (if_rows s)); mret (m_GUID r)) s).
Definition LUIDFromGUID (g : list byte) : fm Z :=
  ask (FromGUID g) (λ s, (r ← first_or (filter (λ r, m_GUID r = g) (if_rows s)); mret (m_LUID r)) s).
Definition LUIDFromIndex (i : Z) : fm Z :=
  ask (FromIndex i) (λ s, (r ← first_or (filter (λ r, m_index r = i) (if_rows s)); mret (m_LUID r)) s).

Definition GetIPInterfaceTable (family : Z) : fm (list MibIPInterfaceRow) :=
  t ← table InterfaceTable (λ s, filter (λ r, family = AF_UNSPEC ∨ Family_ r = family) (ip_rows s)); free ;; mret t.
Definition GetIfTable2Ex (level : Z) : fm (list MibIfRow2) :=
  t ← table (IfTable level) if_rows; free ;; mret t.
Definition GetAnycastIPAddressTable (family : Z) : fm (list MibAnycastIPAddressRow) :=
  t ← table AnycastTable (λ s, filter (λ r, in_family family (any_Address r) = true) (anycast s)); free ;; mret t.

(** The slices of the hardware addresses, which are arrays of 32 bytes. *)
Definition hardware (n : Z) (l : list byte) : outcome werr (list byte) := if n <=? 32 then Ok (take (Z.to_nat n) l) else Panic.
Definition PhysicalAddress (r : MibIfRow2) := hardware (physicalAddressLength r) (physicalAddress r).
Definition PermanentPhysicalAddress (r : MibIfRow2) := hardware (physicalAddressLength r) (permanentPhysicalAddress r).

(** ** The settings of the TUN device (setupRoutingWindowsLUID) *)

Definition RouterDiscoveryDisabled : Z := 0.

Definition tun_settings (r : MibIPInterfaceRow) : MibIPInterfaceRow :=
  mkRow (Family_ r) (InterfaceLUID r) (InterfaceIndex r) true false RouterDiscoveryDisabled 0 (SitePrefixLength r) 0 1500 (other_fields r).

(** Errors are dropped. *)
Definition configure_interface (luid : Z) : fm unit :=
  o ← try_ (F := werr) (IPInterface luid AF_INET);
  match o with
  | Ok r => _ ← try_ (F := werr) (Set_ (tun_settings r)); mret tt
  | _ => mret tt
  end.

(** ** Properties *)

Lemma patched_key r : key (patched r) = key r.
Proof. unfold patched. by repeat case_match. Qed.

Lemma patched_site r : Family_ r = AF_INET ∨ Family_ r = AF_INET6 → SitePrefixLength (patched r) ≤ max_site (Family_ r).
Proof.
  unfold patched, max_site. intros [-> | ->]; cbn.
  - destruct (Z.ltb_spec 32 (SitePrefixLength r)); cbn; lia.
  - destruct (Z.ltb_spec 128 (SitePrefixLength r)); cbn; lia.
Qed.

Lemma IPInterface_found luid family s r s' : IPInterface luid family s = (Ok r, s') →
  ∃ r0, r0 ∈ ip_rows s ∧ key r0 = (luid, family) ∧ r = patched r0 ∧ s' = record (GetInterface (luid, family)) s.
Proof.
  unfold IPInterface, getIPInterfaceEntry, ask, mbind, stm_bind. destruct (if_fails _ _); [done|]. cbn.
  destruct (filter _ (ip_rows s)) as [|r0 l] eqn:Ef; [done|]. cbn. intros [= <- <-]. exists r0.
  assert (r0 ∈ filter (λ r, key r = (luid, family)) (ip_rows s)) as Hr by (rewrite Ef; left).
  apply list_elem_of_filter in Hr as [Hk Hr]. by split_and!.
Qed.

(** A row that was read can be written back: the correction is enough for Windows. *)
Lemma read_row_is_accepted luid family s r s1 :
  family = AF_INET ∨ family = AF_INET6 → IPInterface luid family s = (Ok r, s1) →
  ∀ r', key r' = key r → SitePrefixLength r' = SitePrefixLength r → if_fails (fcalls s1) (SetInterface (key r)) = None →
  ∃ s2, Set_ r' s1 = (Ok tt, s2) ∧ ip_rows s2 = (λ x, if decide (key x = (luid, family)) then r' else x) <$> ip_rows s.
Proof.
  intros Hf Hr r' Hk Hs Hok. destruct (IPInterface_found _ _ _ _ _ Hr) as (r0 & Hin & Hk0 & -> & ->).
  pose proof (patched_key r0) as Hp. unfold Set_, setIPInterfaceEntry, ask. rewrite Hk, Hok.
  assert (Family_ r' = family ∧ Family_ r0 = family) as [F1 F2].
  { rewrite Hp, Hk0 in Hk. unfold key in *. split; congruence. }
  assert (SitePrefixLength r' ≤ max_site (Family_ r')) as Hle by (rewrite Hs, F1, <- F2; apply patched_site; by rewrite F2).
  rewrite (proj2 (Z.ltb_ge _ _) Hle), Hp, Hk0, bool_decide_eq_true_2.
  - by eexists.
  - cbn. rewrite <- Hk0. by apply list_elem_of_fmap_2.
Qed.

(** The rows with the settings in the IPv4 row of the device. *)
Definition configured (luid : Z) (rows rows' : list MibIPInterfaceRow) : Prop :=
  ∃ r, r ∈ rows ∧ key r = (luid, AF_INET) ∧
    rows' = (λ x, if decide (key x = (luid, AF_INET)) then tun_settings (patched r) else x) <$> rows.

(** The settings of the TUN device reach its IPv4 row and nothing else: the call never
    fails; the rows are as they were, or the row of the device has forwarding on,
    router discovery, duplicate address detection and the automatic metric off,
    metric 0 and an MTU of 1500; if no call fails and the row exists, it has them. *)
Lemma configured_interface luid s :
  ∃ s', configure_interface luid s = (Ok tt, s') ∧ (ip_rows s' = ip_rows s ∨ configured luid (ip_rows s) (ip_rows s')) ∧
    ((∀ h c, if_fails h c = None) → (luid, AF_INET) ∈ key <$> ip_rows s → configured luid (ip_rows s) (ip_rows s')).
Proof.
  unfold configure_interface, mbind at 1, stm_bind at 1, try_ at 1.
  destruct (IPInterface luid AF_INET s) as [[r|e|] s1] eqn:Er.
  - pose proof (read_row_is_accepted luid AF_INET s r s1 ltac:(by left) Er (tun_settings r) eq_refl eq_refl) as Hs.
    destruct (IPInterface_found _ _ _ _ _ Er) as (r0 & Hin & Hk & -> & ->). unfold mbind, stm_bind, try_.
    destruct (if_fails (fcalls (record (GetInterface (luid, AF_INET)) s)) (SetInterface (key (patched r0)))) as [e|] eqn:Ef.
    + unfold Set_, setIPInterfaceEntry, ask. change (key (tun_settings (patched r0))) with (key (patched r0)). rewrite Ef.
      eexists. split_and!; [done|by left|]. intros Hn. by rewrite Hn in Ef.
    + destruct (Hs eq_refl) as (s2 & -> & Hr). exists s2. split_and!; [done|right|intros _ _]; by exists r0.
  - exists s1. assert (ip_rows s1 = ip_rows s) as Hs.
    { revert Er. unfold IPInterface, getIPInterfaceEntry, ask, mbind, stm_bind. destruct (if_fails _ _); [by intros [= <- <-]|].
      destruct (filter _ _); by intros [= <- <-]. }
    split_and!; [done|by left|]. intros Hn (r & Ek & Hr)%list_elem_of_fmap. exfalso. revert Er.
    unfold IPInterface, getIPInterfaceEntry, ask, mbind, stm_bind. rewrite Hn. cbn.
    destruct (filter _ (ip_rows s)) as [|x l] eqn:Ef; [|done].
    assert (r ∈ filter (λ r, key r = (luid, AF_INET)) (ip_rows s)) as Hx by (by apply list_elem_of_filter). rewrite Ef in Hx. by apply elem_of_nil in Hx.
  - exfalso. revert Er. unfold IPInterface, getIPInterfaceEntry, ask, mbind, stm_bind. destruct (if_fails _ _); [done|].
    by destruct (filter _ _).
Qed.

(** Reading a table changes nothing and leaves no memory behind. *)
Lemma table_freed {A} c (rows : ifs → list A) s :
  let '(_, s') := (t ← table c rows; free ;; mret t) s in
  ip_rows s' = ip_rows s ∧ if_rows s' = if_rows s ∧ anycast s' = anycast s ∧ if_tables s' = if_tables s.
Proof. unfold table, ask, free, mbind, stm_bind. by destruct (if_fails _ _). Qed.

(** The names of an interface lead back to it, if Windows does not use them twice. *)
Lemma names_roundtrip luid g i s :
  (∀ h c, if_fails h c = None) → NoDup (m_GUID <$> if_rows s) → NoDup (m_index <$> if_rows s) →
  ∀ r, r ∈ if_rows s → m_LUID r = luid → m_GUID r = g → m_index r = i →
  (LUIDFromGUID g s).1 = Ok luid ∧ (LUIDFromIndex i s).1 = Ok luid.
Proof.
  intros Hn Hg Hi r Hr <- <- <-. unfold LUIDFromGUID, LUIDFromIndex, ask. rewrite !Hn. cbn [if_rows record].
  assert (∀ {K} (f : MibIfRow2 → K) `{EqDecision K} x l, NoDup (f <$> if_rows s) →
    filter (λ x, f x = f r) (if_rows s) = x :: l → x = r) as Hu.
  { intros K f ? x l Hd Hf. assert (x ∈ filter (λ x, f x = f r) (if_rows s)) as [E1 Hx]%list_elem_of_filter by (rewrite Hf; left).
    apply list_elem_of_lookup in Hr as [a Ha]. apply list_elem_of_lookup in Hx as [b Hb].
    assert (a = b) as ->; [|congruence].
    eapply (NoDup_lookup _ a b (f r) Hd); rewrite list_lookup_fmap; [by rewrite Ha|by rewrite Hb, <- E1]. }
  assert (∀ {K} (f : MibIfRow2 → K) `{EqDecision K}, filter (λ x, f x = f r) (if_rows s) ≠ []) as Hne.
  { intros K f ? Hf. assert (r ∈ filter (λ x, f x = f r) (if_rows s)) as Hx by (by apply list_elem_of_filter). rewrite Hf in Hx. by apply elem_of_nil in Hx. }
  unfold mbind, stm_bind. split.
  - destruct (filter _ (if_rows s)) as [|x l] eqn:Ef; [by destruct (Hne _ m_GUID _ Ef)|]. by rewrite (Hu _ m_GUID _ x l Hg Ef).
  - destruct (filter _ (if_rows s)) as [|x l] eqn:Ef; [by destruct (Hne _ m_index _ Ef)|]. by rewrite (Hu _ m_index _ x l Hi Ef).
Qed.

End Calls.
End WinIf.
