(* ===== verification/WinRoutes.v ===== *)
(** * The routes of the Windows interception, byte by byte
    (src/proxy/tproxy/tproxy_windows.go over src/internal/winipcfg)

    WinTun describes what the program does to a table of abstract routes.  Here the
    same functions work on the rows that are handed to Windows: socket addresses are
    written and read through the union of WinAddr, rows are created and deleted as in
    WinIpcfg.  The theorem is a forward simulation: from related states the two
    versions give the same result and related states. *)

From S2P Require Import Prelude GoStrings GoNet GoUrl Buffers WinTun WinAddr WinIpcfg.

Module WinRoutes.
Import WinAddr WinIpcfg.

(** ** State *)

Record winBypassRoute := mkBypass { luid : Z; prefix : Prefix; nextHop : Addr }.

(** The tables of Windows and winTunBypassRoutes. *)
Record state := mkState { sysip : ip; winTunBypassRoutes : list winBypassRoute }.
Abbreviation cm := (stm state string).

(** The IPv4 rows of a table, and the others. *)
Abbreviation v4rows rs := (filter (λ r, f_family AF_INET r = true) rs).
Abbreviation others rs := (filter (λ r, f_family AF_INET r = false) rs).

Section Routes.
Context {E : IpEnv} {W : WinTun.WinEnv}.

(** A call of winipcfg; its error is a value. *)
Definition ask {A} (m : im A) : cm (outcome werr A) := λ c,
  let '(o, i) := m (sysip c) in (Ok o, mkState i (winTunBypassRoutes c)).
Definition append_bypass (k : winBypassRoute) : cm unit := λ c,
  (Ok tt, mkState (sysip c) (winTunBypassRoutes c ++ [k])).
Definition clear_bypass : cm unit := λ c, (Ok tt, mkState (sysip c) []).

(** ** net/netip *)

Fixpoint num_acc (acc : Z) (b : list byte) : Z := match b with [] => acc | x :: b => num_acc (acc * 256 + u8 x) b end.
Definition num (b : list byte) : Z := num_acc 0 b.

Definition PrefixIsValid (p : Prefix) : bool := match p.1 with NoAddr => false | _ => 0 <=? p.2 end.
Definition IsLoopback (a : Addr) : bool :=
  match a with
  | A4 (x :: _) => u8 x =? 127
  | A6 b z => bool_decide (b = Net.IPv6loopback) && String.eqb z ""
  | _ => false
  end.
Definition IsUnspecified (a : Addr) : bool :=
  match a with
  | A4 b => num b =? 0
  | A6 b z => (num b =? 0) && String.eqb z ""
  | NoAddr => false
  end.
(** Families must agree, and the address must not have a zone. *)
Definition Contains (p : Prefix) (a : Addr) : bool :=
  match p.1, a with
  | A4 n, A4 b => Z.shiftr (num n) (32 - p.2) =? Z.shiftr (num b) (32 - p.2)
  | A6 n _, A6 b z => String.eqb z "" && (Z.shiftr (num n) (128 - p.2) =? Z.shiftr (num b) (128 - p.2))
  | _, _ => false
  end.
Definition IPv4Unspecified : Addr := A4 (zeros 4).

(** ** The functions of the source *)

Fixpoint best_loop (routes : list MibIPforwardRow2) (target : Addr) (tun : Z) (best : option MibIPforwardRow2) (bestBits : Z) :
    option MibIPforwardRow2 :=
  match routes with
  | [] => best
  | r :: rs =>
      if negb (tun =? 0) && (f_LUID r =? tun) then best_loop rs target tun best bestBits
      else
        let prefix := prefix_of (DestinationPrefix r) in
        if negb (PrefixIsValid prefix) || negb (Contains prefix target) then best_loop rs target tun best bestBits
        else if bestBits <? prefix.2 then best_loop rs target tun (Some r) prefix.2
        else if (prefix.2 =? bestBits) && match best with Some b => Metric r <? Metric b | None => false end
        then best_loop rs target tun (Some r) bestBits
        else best_loop rs target tun best bestBits
  end.
Definition findBestPhysicalRoute (routes : list MibIPforwardRow2) (target : Addr) (tun : Z) : option MibIPforwardRow2 :=
  best_loop routes target tun None (-1).

Definition default_physical (routes : list MibIPforwardRow2) (tun : Z) : option MibIPforwardRow2 :=
  foldl (λ best r,
    if (f_LUID r =? tun) || negb (PrefixLength (DestinationPrefix r) =? 0) then best
    else match best with
         | Some b => if Metric r <? Metric b then Some r else best
         | None => Some r
         end) None routes.

(** An initialised row with the given fields. *)
Definition row_for (luid metric : Z) (d : IPAddressPrefix) (n : list byte) : MibIPforwardRow2 :=
  mkForward luid d n metric (f_ValidLifetime init_forward) (f_PreferredLifetime init_forward).

(** The gateway of a bypass route. *)
Definition next_hop (b : MibIPforwardRow2) : Addr :=
  match RawAddr (NextHop b) with
  | NoAddr => IPv4Unspecified
  | a => if IsUnspecified a then IPv4Unspecified else a
  end.

Definition installPrefix (routes : list MibIPforwardRow2) (dflt : option MibIPforwardRow2) (tun : Z)
    (seen : list Prefix) (p : Prefix) : cm (list Prefix) :=
  if negb (PrefixIsValid p) || negb (Is4 p.1) then mret seen
  else if IsLoopback p.1 then mret seen
  else if bool_decide (p ∈ seen) then mret seen
  else
    let best := match findBestPhysicalRoute routes p.1 tun with Some r => Some r | None => dflt end in
    match best with
    | None => mret (seen ++ [p])
    | Some b =>
        match SetPrefix (DestinationPrefix init_forward) p with
        | None => throw "set bypass route"
        | Some d =>
            match SetAddr (NextHop init_forward) (next_hop b) with
            | None => throw "set bypass gateway"
            | Some n =>
                o ← ask (createIPForwardEntry2 (row_for (f_LUID b) 1 d n));
                (match o with Ok _ => append_bypass (mkBypass (f_LUID b) p (next_hop b)) | _ => mret tt end) ;;
                mret (seen ++ [p])
            end
        end
    end.

(** The numbers of the parsers as addresses. *)
Definition addr_of (a : WinTun.naddr) : Addr := match a with WinTun.V4 z => A4 (put32 z) | WinTun.V6 b => A6 b "" end.
Definition prefix_for (a : WinTun.naddr) (bits : Z) : Prefix := PrefixFrom (addr_of a) bits.

Fixpoint install_ips (routes : list MibIPforwardRow2) (dflt : option MibIPforwardRow2) (tun : Z)
    (seen : list Prefix) (ips : list (list byte)) : cm (list Prefix) :=
  match ips with
  | [] => mret seen
  | x :: ips =>
      match WinTun.AddrFromSlice x with
      | Some (WinTun.V4 v) => seen ← installPrefix routes dflt tun seen (prefix_for (WinTun.V4 v) 32); install_ips routes dflt tun seen ips
      | _ => install_ips routes dflt tun seen ips
      end
  end.

Fixpoint install_upstreams (routes : list MibIPforwardRow2) (dflt : option MibIPforwardRow2) (tun : Z)
    (seen : list Prefix) (upstreams : list string) : cm (list Prefix) :=
  match upstreams with
  | [] => mret seen
  | u :: us =>
      match Url.Hostname <$> Url.Parse u with
      | None | Some "" => install_upstreams routes dflt tun seen us
      | Some host =>
          match WinTun.LookupIP host with
          | None => throw ("resolve upstream " +:+ u)
          | Some ips => seen ← install_ips routes dflt tun seen ips; install_upstreams routes dflt tun seen us
          end
      end
  end.

Fixpoint install_nodes (routes : list MibIPforwardRow2) (dflt : option MibIPforwardRow2) (tun : Z)
    (seen : list Prefix) (nodes : list string) : cm (list Prefix) :=
  match nodes with
  | [] => mret seen
  | node :: nodes =>
      let node := Strings.TrimSpace node in
      if String.eqb node "" then install_nodes routes dflt tun seen nodes
      else
        seen ←
          match WinTun.netip_ParsePrefix node with
          | Some p => installPrefix routes dflt tun seen (prefix_for p.1 p.2)
          | None =>
              match WinTun.netip_ParseAddr node with
              | Some a => installPrefix routes dflt tun seen (prefix_for a 32)
              | None =>
                  match WinTun.LookupIP node with
                  | None => mret seen
                  | Some ips => install_ips routes dflt tun seen ips
                  end
              end
          end;
        install_nodes routes dflt tun seen nodes
  end.

Definition setupUpstreamBypassRoutes (tun : Z) (upstreams nodes : list string) : cm unit :=
  o ← ask (GetIPForwardTable2 AF_INET);
  match o with
  | Ok routes =>
      let dflt := default_physical routes tun in
      seen ← install_upstreams routes dflt tun [] upstreams;
      _ ← install_nodes routes dflt tun seen nodes;
      mret tt
  | _ => throw "enumerate physical routes"
  end.

Fixpoint cleanupInstalledRoutes (luid : Z) (routes : list Prefix) : cm unit :=
  match routes with
  | [] => mret tt
  | r :: rs =>
      (match SetPrefix (DestinationPrefix init_forward) r with
       | Some d => _ ← ask (deleteIPForwardEntry2 (row_for luid (Metric init_forward) d (NextHop init_forward))); mret tt
       | None => mret tt
       end) ;;
      cleanupInstalledRoutes luid rs
  end.

Definition split_routes : list Prefix := [(A4 (put32 0), 1); (A4 (put32 (2 ^ 31)), 1)].

Fixpoint install_split (luid : Z) (installedRoutes routes : list Prefix) : cm (list Prefix) :=
  match routes with
  | [] => mret installedRoutes
  | r :: rs =>
      match SetPrefix (DestinationPrefix init_forward) r with
      | None => cleanupInstalledRoutes luid installedRoutes ;; throw "set destination prefix"
      | Some d =>
          o ← ask (createIPForwardEntry2 (row_for luid 1 d (NextHop init_forward)));
          match o with
          | Ok _ => install_split luid (installedRoutes ++ [r]) rs
          | _ => cleanupInstalledRoutes luid installedRoutes ;; throw "create route"
          end
      end
  end.

(** [if err := m; err != nil { f(); return err }] *)
Definition or_else {A} (m : cm A) (f : cm unit) : cm A := λ c,
  match m c with
  | (Err e, c) => (f ;; throw e) c
  | r => r
  end.

(** The routes of setupRoutingWindowsLUID. *)
Definition setup_routes (luid : Z) (upstreams nodes : list string) : cm unit :=
  installed ← install_split luid [] split_routes;
  or_else (setupUpstreamBypassRoutes luid upstreams nodes) (cleanupInstalledRoutes luid installed).

(** The loop over winTunBypassRoutes in cleanupWindowsState. *)
Fixpoint delete_bypass (routes : list winBypassRoute) : cm unit :=
  match routes with
  | [] => mret tt
  | route :: rs =>
      (match SetPrefix (DestinationPrefix init_forward) (prefix route), SetAddr (NextHop init_forward) (nextHop route) with
       | Some d, Some n => _ ← ask (deleteIPForwardEntry2 (row_for (luid route) (Metric init_forward) d n)); mret tt
       | _, _ => mret tt
       end) ;;
      delete_bypass rs
  end.

(** The routes of cleanupWindowsState. *)
Definition cleanup_routes (luid : Z) : cm unit :=
  c ← get_st;
  delete_bypass (winTunBypassRoutes c) ;;
  clear_bypass ;;
  cleanupInstalledRoutes luid split_routes.

(** The same on the abstract table, as in [WinTun.cleanupWindowsState]. *)
Definition abs_cleanup_routes (luid : Z) : WinTun.wm unit :=
  s ← get_st;
  WinTun.delete_bypass (WinTun.winTunBypassRoutes s) ;;
  WinTun.modify (WinTun.set_bypass []) ;;
  WinTun.cleanupInstalledRoutes luid WinTun.split_dests.

(** ** What the bytes mean *)

Definition abs_hop (a : Addr) : option Z := match a with A4 b => Some (num b) | _ => None end.
Definition abs_key (k : Z * (Prefix * Addr)) : WinTun.rkey :=
  (k.1, (match k.2.1.1 with A4 b => num b | _ => 0 end, k.2.1.2), abs_hop k.2.2).
Definition bkey (b : winBypassRoute) : Z * (Prefix * Addr) := (luid b, (prefix b, nextHop b)).

(** The keys of rows that the program writes. *)
Definition key_ok (k : Z * (Prefix * Addr)) : Prop :=
  Is4 k.2.1.1 = true ∧ addr_ok k.2.1.1 ∧ 0 ≤ k.2.1.2 ≤ 32 ∧ Is6 k.2.2 = false ∧ addr_ok k.2.2.

Definition bypass_ok (b : winBypassRoute) : Prop := key_ok (bkey b) ∧ Is4 (nextHop b) = true.

(** A row of Windows and the abstract row it stands for. *)
Record same_row (w : WinTun.row) (r : MibIPforwardRow2) : Prop := {
  sr_dest : length (RawPrefix (DestinationPrefix r)) = 28%nat;
  sr_hop : length (NextHop r) = 28%nat;
  sr_fam : Family (RawPrefix (DestinationPrefix r)) = AF_INET;
  sr_len : 0 ≤ PrefixLength (DestinationPrefix r);
  sr_hop4 : Is6 (RawAddr (NextHop r)) = false;
  sr_luid : WinTun.r_luid w = f_LUID r;
  sr_net : WinTun.r_net w = num (sub (RawPrefix (DestinationPrefix r)) 4 4);
  sr_bits : WinTun.r_bits w = PrefixLength (DestinationPrefix r);
  sr_nexthop : WinTun.r_nexthop w = abs_hop (RawAddr (NextHop r));
  sr_metric : WinTun.r_metric w = Metric r }.

(** The calls on routes in the two histories. *)
Inductive rcall := RTable | RCreate (k : WinTun.rkey) | RDelete (k : WinTun.rkey).
Definition wroute (c : WinTun.wcall) : option rcall :=
  match c with
  | WinTun.ReadTable => Some RTable
  | WinTun.CreateRoute k => Some (RCreate k)
  | WinTun.DeleteRoute k => Some (RDelete k)
  | _ => None
  end.
Definition iroute (c : icall) : option rcall :=
  match c with
  | ForwardTable => Some RTable
  | CreateForward k => Some (RCreate (abs_key k))
  | DeleteForward k => Some (RDelete (abs_key k))
  | _ => None
  end.

(** Windows fails the same calls in both descriptions: whether a call on routes fails
    depends on the calls on routes before it. *)
Definition env_agree : Prop :=
  ∀ hw hi w i, omap wroute hw = omap iroute hi → wroute w = iroute i → wroute w ≠ None →
    WinTun.win_fails hw w = match ip_fails hi i with Some _ => true | None => false end.

(** The rows that Windows initialises: of the right size, without a next hop. *)
Definition init_route_ok : Prop :=
  length (RawPrefix (DestinationPrefix init_forward)) = 28%nat ∧ length (NextHop init_forward) = 28%nat ∧
  RawAddr (NextHop init_forward) = NoAddr.

(** The rows of other families, which stay. *)
Context (F : list MibIPforwardRow2).

Record related (s : WinTun.win) (c : state) : Prop := {
  rel_table : Forall2 same_row (WinTun.table s) (v4rows (forward (sysip c)));
  rel_others : others (forward (sysip c)) = F;
  rel_bypass : WinTun.winTunBypassRoutes s = abs_key ∘ bkey <$> winTunBypassRoutes c;
  rel_keys : Forall bypass_ok (winTunBypassRoutes c);
  rel_calls : omap wroute (WinTun.wcalls s) = omap iroute (icalls (sysip c)) }.

(** ** Numbers and bytes *)

Lemma num_be32 a b c d : num [a; b; c; d] = be32 a b c d.
Proof. rewrite be32_eq. unfold num. cbn [num_acc]. lia. Qed.

Lemma num_put32 v : 0 ≤ v < 2 ^ 32 → num (put32 v) = v.
Proof.
  intros H. unfold put32 at 1. rewrite num_be32, (be32_put32 v _ _ _ _ eq_refl). by apply wrap32_small.
Qed.

Lemma put32_num b : length b = 4%nat → put32 (num b) = b.
Proof. destruct b as [|x [|y [|z [|w [|]]]]]; intros [=]. rewrite num_be32. apply put32_be32. Qed.

Lemma num_inj b b' : length b = 4%nat → length b' = 4%nat → num b = num b' → b = b'.
Proof. intros H H' E0. by rewrite <- (put32_num b H), E0, put32_num. Qed.

Lemma abs_hop_inj a a' :
  Is6 a = false → Is6 a' = false → addr_ok a → addr_ok a' → abs_hop a = abs_hop a' → a = a'.
Proof. destruct a, a'; cbn; try done. intros _ _ H H' [= E0]. f_equal. by apply num_inj. Qed.

(** ** Keys *)

Lemma prefix_of_v4 r : Family (RawPrefix r) = AF_INET → prefix_of r = PrefixFrom (A4 (sub (RawPrefix r) 4 4)) (PrefixLength r).
Proof. intros H. unfold prefix_of. by rewrite H. Qed.

Lemma key_iff w r k : same_row w r → key_ok k → WinTun.key_of w = abs_key k ↔ fkey r = k.
Proof.
  intros Hr. destruct k as [l [[a n] h]]. intros (H4 & Ha & Hn & H6 & Hh). cbn in *.
  destruct a as [|b|]; try done. unfold WinTun.key_of, abs_key, fkey. cbn.
  rewrite (sr_luid _ _ Hr), (sr_net _ _ Hr), (sr_bits _ _ Hr), (sr_nexthop _ _ Hr), (prefix_of_v4 _ (sr_fam _ _ Hr)).
  pose proof (sr_len _ _ Hr). unfold PrefixFrom. cbn [without_zone BitLen].
  assert (length (sub (RawPrefix (DestinationPrefix r)) 4 4) = 4%nat) as Hs by (apply length_sub; rewrite (sr_dest _ _ Hr); lia).
  split.
  - intros [= -> E1 -> E3]. rewrite (proj2 (Z.leb_le _ _)), (proj2 (Z.leb_le _ _)) by lia. cbn [andb].
    apply num_inj in E1; [|done..]. apply abs_hop_inj in E3; [|apply Hr|done|apply RawAddr_ok, Hr|done]. by rewrite E1, E3.
  - intros [= -> -> E2 ->]. by destruct (Z.leb_spec 0 (PrefixLength (DestinationPrefix r))),
      (Z.leb_spec (PrefixLength (DestinationPrefix r)) 32); cbn [andb] in E2; subst; try lia.
Qed.

Lemma v4_fam r : f_family AF_INET r = true ↔ Family (RawPrefix (DestinationPrefix r)) = AF_INET.
Proof. unfold f_family, in_family. cbn. apply Z.eqb_eq. Qed.

Lemma fkey_fam r k : key_ok k → fkey r = k → f_family AF_INET r = true.
Proof.
  intros (H4 & _) <-. apply v4_fam. unfold fkey, prefix_of in H4. cbn in H4.
  destruct (Z.eqb_spec (Family (RawPrefix (DestinationPrefix r))) AF_INET); [done|].
  by destruct (Family (RawPrefix (DestinationPrefix r)) =? AF_INET6).
Qed.

Lemma keys_elem ws (rs : list MibIPforwardRow2) k :
  Forall2 same_row ws (v4rows rs) → key_ok k → abs_key k ∈ WinTun.key_of <$> ws ↔ k ∈ fkey <$> rs.
Proof.
  intros H Hk. rewrite !list_elem_of_fmap. split.
  - intros (w & Ew & Hw). destruct (list_elem_of_lookup_1 _ _ Hw) as [i Hi].
    destruct (Forall2_lookup_l _ _ _ _ _ H Hi) as (r & Hr & Hsr). exists r.
    apply list_elem_of_lookup_2, list_elem_of_filter in Hr. split; [|apply Hr]. symmetry. by apply (key_iff w).
  - intros (r & Er & Hr). assert (r ∈ v4rows rs) as Hv by (apply list_elem_of_filter; split; [by apply (fkey_fam r k)|done]).
    destruct (list_elem_of_lookup_1 _ _ Hv) as [i Hi]. destruct (Forall2_lookup_r _ _ _ _ _ H Hi) as (w & Hw & Hsr).
    exists w. split; [symmetry; by apply (key_iff w r)|by apply (list_elem_of_lookup_2 _ i)].
Qed.

Lemma keys_filter ws rs k :
  Forall2 same_row ws rs → key_ok k →
  Forall2 same_row (filter (λ w, WinTun.key_of w ≠ abs_key k) ws) (filter (λ r, fkey r ≠ k) rs).
Proof.
  intros H Hk. induction H as [|w r ws rs Hr H IH]; [constructor|]. rewrite !filter_cons.
  pose proof (key_iff w r k Hr Hk). destruct (decide (WinTun.key_of w ≠ abs_key k)), (decide (fkey r ≠ k)); try tauto.
  by constructor.
Qed.

(** A row that was written stands for what was meant. *)
Lemma written l m b n d hop :
  length (RawPrefix (DestinationPrefix init_forward)) = 28%nat → length b = 4%nat → 0 ≤ n ≤ 32 → length hop = 28%nat →
  Is6 (RawAddr hop) = false → SetPrefix (DestinationPrefix init_forward) (A4 b, n) = Some d →
  same_row (WinTun.mkRow l 0 (num b) n (abs_hop (RawAddr hop)) m) (row_for l m d hop) ∧
  fkey (row_for l m d hop) = (l, ((A4 b, n), RawAddr hop)) ∧ key_ok (l, ((A4 b, n), RawAddr hop)).
Proof.
  intros Hi Hb Hn Hh H6. unfold SetPrefix, SetAddr. cbn [fst snd].
  destruct (SetAddrPort _ (A4 b) 0) as [mem|] eqn:Es; [|done]. intros [= <-].
  destruct (set4 _ _ _ _ Hi Hb Es) as (Hl & Hf & _ & H4). rewrite Z.mod_small by lia. split_and!.
  - split; cbn; try done; [lia|by rewrite <- H4].
  - unfold fkey. cbn [row_for f_LUID DestinationPrefix NextHop]. rewrite prefix_of_v4 by done. cbn [RawPrefix PrefixLength].
    rewrite H4. unfold PrefixFrom. cbn [BitLen without_zone]. by rewrite (proj2 (Z.leb_le _ _)), (proj2 (Z.leb_le _ _)) by lia.
  - split_and!; cbn; try done; [lia|lia|]. by apply RawAddr_ok.
Qed.

(** ** Forward simulation *)

Definition sim {A B} (Q : A → B → Prop) (m : WinTun.wm A) (n : cm B) : Prop := ∀ s c, related s c →
  match m s, n c with
  | (Ok a, s'), (Ok b, c') => Q a b ∧ related s' c'
  | (Err e, s'), (Err e', c') => e = e' ∧ related s' c'
  | _, _ => False
  end.

Lemma sim_ret {A B} (Q : A → B → Prop) a b : Q a b → sim Q (mret a) (mret b).
Proof. by intros H s c Hr. Qed.

Lemma sim_throw {A B} (Q : A → B → Prop) e : sim Q (throw e) (throw e).
Proof. by intros s c Hr. Qed.

Lemma sim_bind {A B A' B'} (Q : A → B → Prop) (Q' : A' → B' → Prop) m n f g :
  sim Q m n → (∀ a b, Q a b → sim Q' (f a) (g b)) → sim Q' (m ≫= f) (n ≫= g).
Proof.
  intros Hm Hf s c Hr. specialize (Hm s c Hr). unfold mbind, stm_bind.
  destruct (m s) as [[a|e|] s'], (n c) as [[b|e'|] c']; try done. destruct Hm as [Hq Hr']. by apply Hf.
Qed.

(** A call whose error is dropped. *)
Lemma sim_drop {A B} (m : WinTun.wm A) (n : cm B) : sim (λ _ _, True) m n → sim (λ _ _, True) m (_ ← n; mret tt).
Proof.
  intros H s c Hr. specialize (H s c Hr). unfold mbind, stm_bind. by destruct (m s) as [[a|e|] s'], (n c) as [[b|e'|] c'].
Qed.

Lemma sim_or_else {A B} (Q : A → B → Prop) m n f g :
  sim Q m n → sim (λ _ _, True) f g → sim Q (WinTun.or_else m f) (or_else n g).
Proof.
  intros Hm Hf s c Hr. specialize (Hm s c Hr). unfold WinTun.or_else, or_else.
  destruct (m s) as [[a|e|] s'], (n c) as [[b|e'|] c']; try done. destruct Hm as [-> Hr'].
  exact (sim_bind _ Q f g (λ _, throw e') (λ _, throw e') Hf (λ _ _ _, sim_throw Q e') s' c' Hr').
Qed.

Section Sim.
Context (HE : env_agree) (HI : init_route_ok).

Lemma fails_related s c w i : related s c → wroute w = iroute i → wroute w ≠ None →
  WinTun.win_fails (WinTun.wcalls s) w = match ip_fails (icalls (sysip c)) i with Some _ => true | None => false end.
Proof. intros Hr. apply HE, Hr. Qed.

Lemma filter_swap {A} (P Q : A → Prop) `{∀ x, Decision (P x), ∀ x, Decision (Q x)} (l : list A) :
  filter P (filter Q l) = filter Q (filter P l).
Proof. rewrite !list_filter_filter. apply list_filter_iff. tauto. Qed.

(** The next states, by the call that was made and the table it left. *)
Lemma related_called s c w i t f n :
  related s c → wroute w = iroute i → Forall2 same_row t (v4rows f) → others f = others (forward (sysip c)) →
  related (WinTun.upd_table (λ _, t) (WinTun.called w s))
    (mkState (mkIp (unicast (sysip c)) f n (i :: icalls (sysip c))) (winTunBypassRoutes c)).
Proof. intros Hr Hw Ht Ho. split; cbn; [done|exact (eq_trans Ho (rel_others _ _ Hr))|apply Hr..|]. rewrite Hw. by destruct (iroute i); cbn; rewrite (rel_calls _ _ Hr). Qed.

Lemma upd_same s w : WinTun.upd_table (λ _, WinTun.table s) (WinTun.called w s) = WinTun.called w s.
Proof. done. Qed.

Lemma sim_create w r : same_row w r → key_ok (fkey r) →
  sim (λ (b : bool) o, if b then o = Ok tt else ∃ e, o = Err e) (WinTun.create_route w) (ask (createIPForwardEntry2 r)).
Proof.
  intros Hwr Hk s c Hr. assert (WinTun.key_of w = abs_key (fkey r)) as Ek by by apply (key_iff w r).
  assert (wroute (WinTun.CreateRoute (WinTun.key_of w)) = iroute (CreateForward (fkey r))) as Hc by by cbn; rewrite Ek.
  unfold WinTun.create_route, ask, createIPForwardEntry2, call.
  rewrite (fails_related s c _ (CreateForward (fkey r)) Hr Hc ltac:(done)).
  destruct (ip_fails (icalls (sysip c)) (CreateForward (fkey r))) as [e|]; cbn [orb].
  { split; [by eexists|]. rewrite <- upd_same. by apply related_called; [..|apply Hr|]. }
  unfold created. cbn [forward asked]. pose proof (keys_elem _ _ _ (rel_table _ _ Hr) Hk) as Hel. rewrite <- Ek in Hel.
  destruct (decide (fkey r ∈ fkey <$> forward (sysip c))) as [Hin|Hin].
  - rewrite !bool_decide_eq_true_2 by tauto. cbn. split; [by eexists|]. rewrite <- upd_same. by apply related_called; [..|apply Hr|].
  - rewrite !bool_decide_eq_false_2 by tauto. cbn. split; [done|].
    apply (related_called s c _ _ (WinTun.table s ++ [w])); [done..| |]; rewrite filter_app.
    2: { rewrite filter_cons_False by (by rewrite (fkey_fam r (fkey r))). by rewrite filter_nil, app_nil_r. }
    apply Forall2_app; [apply Hr|]. rewrite filter_cons_True by (by apply (fkey_fam r (fkey r))). constructor; [done|]. rewrite filter_nil. constructor.
Qed.

Lemma sim_delete r : key_ok (fkey r) →
  sim (λ _ _, True) (WinTun.delete_route (abs_key (fkey r))) (ask (deleteIPForwardEntry2 r)).
Proof.
  intros Hk s c Hr. unfold WinTun.delete_route, WinTun.sys_, ask, deleteIPForwardEntry2, call.
  rewrite (fails_related s c (WinTun.DeleteRoute (abs_key (fkey r))) (DeleteForward (fkey r)) Hr eq_refl ltac:(done)).
  pose proof (keys_filter _ _ _ (rel_table _ _ Hr) Hk) as Hf.
  destruct (ip_fails (icalls (sysip c)) (DeleteForward (fkey r))) as [e|].
  { split; [done|]. rewrite <- upd_same. by apply related_called; [..|apply Hr|]. }
  unfold deleted. cbn [forward asked]. rewrite filter_swap in Hf.
  destruct (decide (fkey r ∈ fkey <$> forward (sysip c))) as [Hin|Hin].
  - rewrite bool_decide_eq_true_2 by done. split; [done|]. apply (related_called s c _ _ (filter _ _)); [done..|].
    rewrite filter_swap. apply filter_keep. intros x [Hx _]%list_elem_of_filter E0. by rewrite (fkey_fam x (fkey r)) in Hx.
  - rewrite bool_decide_eq_false_2 by done. split; [done|]. apply (related_called s c _ _ (filter _ _)); [done..| |done].
    rewrite (filter_keep (λ x, fkey x ≠ fkey r) (forward (sysip c))) in Hf; [done|]. intros x Hx E0. apply Hin. rewrite <- E0. by apply list_elem_of_fmap_2.
Qed.

Lemma sim_delete' k r : key_ok k → fkey r = k → sim (λ _ _, True) (WinTun.delete_route (abs_key k)) (ask (deleteIPForwardEntry2 r)).
Proof. intros Hk <-. by apply sim_delete. Qed.

(** ** Choosing a route *)

Lemma row_contains_same w r v : same_row w r → 0 ≤ v < 2 ^ 32 →
  WinTun.row_contains v w =
    PrefixIsValid (prefix_of (DestinationPrefix r)) && Contains (prefix_of (DestinationPrefix r)) (A4 (put32 v)) ∧
  (WinTun.row_contains v w = true → (prefix_of (DestinationPrefix r)).2 = WinTun.r_bits w).
Proof.
  intros Hr Hv. unfold WinTun.row_contains, WinTun.contains4. rewrite (prefix_of_v4 _ (sr_fam _ _ Hr)).
  rewrite (sr_bits _ _ Hr), (sr_net _ _ Hr). pose proof (sr_len _ _ Hr).
  unfold PrefixFrom, PrefixIsValid, Contains. cbn [fst snd without_zone BitLen]. rewrite num_put32 by done.
  destruct (Z.leb_spec 0 (PrefixLength (DestinationPrefix r))); [|lia].
  destruct (Z.leb_spec (PrefixLength (DestinationPrefix r)) 32); cbn [andb]; [|by split].
  by rewrite (proj2 (Z.leb_le 0 _)) by lia.
Qed.

Lemma best_same v tun ws rs : Forall2 same_row ws rs → 0 ≤ v < 2 ^ 32 → ∀ bw bc bits, option_Forall2 same_row bw bc →
  option_Forall2 same_row (WinTun.best_route ws v tun bw bits) (best_loop rs (A4 (put32 v)) tun bc bits).
Proof.
  intros H Hv. induction H as [|w r ws rs Hr H IH]; intros bw bc bits Hb; [done|]. cbn [WinTun.best_route best_loop].
  destruct (row_contains_same w r v Hr Hv) as [E1 E2]. rewrite <- (sr_luid _ _ Hr).
  destruct (negb (tun =? 0) && (WinTun.r_luid w =? tun)); cbn [orb]; [by apply IH|].
  rewrite <- negb_andb, <- E1. destruct (WinTun.row_contains v w); cbn [negb]; [|by apply IH]. rewrite (E2 eq_refl).
  destruct (bits <? WinTun.r_bits w); [apply IH; by constructor|].
  assert (match bw with Some b => WinTun.r_metric w <? WinTun.r_metric b | None => false end =
    match bc with Some b => Metric r <? Metric b | None => false end) as ->.
  { destruct Hb as [b b' Hb|]; [|done]. by rewrite (sr_metric _ _ Hr), (sr_metric _ _ Hb). }
  clear E1 E2. destruct (_ && _); apply IH; [by constructor|done].
Qed.

Lemma default_same tun ws rs : Forall2 same_row ws rs →
  option_Forall2 same_row (WinTun.default_physical ws tun) (default_physical rs tun).
Proof.
  intros H. unfold WinTun.default_physical, default_physical.
  assert (option_Forall2 same_row None None) as Hb by constructor. revert Hb.
  generalize (@None WinTun.row) (@None MibIPforwardRow2).
  induction H as [|w r ws rs Hr H IH]; intros bw bc Hb; cbn; [done|]. apply IH.
  rewrite (sr_luid _ _ Hr), (sr_bits _ _ Hr). destruct (_ || _); [done|].
  destruct Hb as [b b' Hb|]; [|by constructor]. rewrite (sr_metric _ _ Hr), (sr_metric _ _ Hb).
  destruct (_ <? _); by constructor.
Qed.

Lemma next_hop_same w r : same_row w r →
  ∃ h, next_hop r = A4 h ∧ length h = 4%nat ∧
    num h = match WinTun.r_nexthop w with Some h => if h =? 0 then 0 else h | None => 0 end.
Proof.
  intros Hr. rewrite (sr_nexthop _ _ Hr). unfold next_hop. pose proof (sr_hop4 _ _ Hr) as H6.
  destruct (RawAddr_ok (NextHop r) (sr_hop _ _ Hr)) as [Ho _].
  destruct (RawAddr (NextHop r)) as [|b|]; [by exists (zeros 4)| |done]. cbn.
  destruct (Z.eqb_spec (num b) 0); [by exists (zeros 4)|by exists b].
Qed.

(** ** Prefixes *)

Definition to_prefix (p : WinTun.prefix) : Prefix := prefix_for p.1 p.2.
Definition p4_ok (p : WinTun.prefix) : Prop := match p.1 with WinTun.V4 v => 0 ≤ v < 2 ^ 32 | WinTun.V6 _ => True end.
(** The prefixes that were seen. *)
Definition seen_ok (sw : list WinTun.prefix) (sc : list Prefix) : Prop :=
  sc = to_prefix <$> sw ∧ Forall (λ p, WinTun.prefix_valid p && WinTun.Is4 p.1 = true ∧ p4_ok p) sw.

Lemma to_prefix_valid p : PrefixIsValid (to_prefix p) = WinTun.prefix_valid p.
Proof.
  destruct p as [[v|b] n]; unfold to_prefix, prefix_for, PrefixFrom, PrefixIsValid, WinTun.prefix_valid; cbn;
    by destruct (Z.leb_spec 0 n), (Z.leb_spec n 32), (Z.leb_spec n 128); cbn; rewrite ?(proj2 (Z.leb_le 0 n)) by lia; try lia.
Qed.

Lemma to_prefix_v4 v n : WinTun.prefix_valid (WinTun.V4 v, n) = true → to_prefix (WinTun.V4 v, n) = (A4 (put32 v), n) ∧ 0 ≤ n ≤ 32.
Proof.
  unfold WinTun.prefix_valid. cbn. intros H. unfold to_prefix, prefix_for, PrefixFrom. cbn. rewrite H. boolify. split; [done|lia].
Qed.

Lemma to_prefix_seen p sw sc : seen_ok sw sc → p4_ok p → WinTun.prefix_valid p && WinTun.Is4 p.1 = true →
  bool_decide (p ∈ sw) = bool_decide (to_prefix p ∈ sc).
Proof.
  intros [-> Hs] Hp Hv. apply bool_decide_ext. split; [by apply list_elem_of_fmap_2|].
  intros (q & Eq & Hq)%list_elem_of_fmap. destruct (proj1 (Forall_forall _ _) Hs q Hq) as [Hv' Hp'].
  destruct p as [[v|] n], q as [[v'|] n']; rewrite ?andb_false_r in *; try done. rewrite ?andb_true_r in *.
  rewrite (proj1 (to_prefix_v4 _ _ Hv)), (proj1 (to_prefix_v4 _ _ Hv')) in Eq. unfold p4_ok in *. cbn in *.
  pose proof (f_equal (λ p : Prefix, match p.1 with A4 b => num b | _ => 0 end) Eq) as E1. cbn [fst] in E1.
  rewrite !num_put32 in E1 by done. pose proof (f_equal snd Eq) as E2. cbn in E2. by subst.
Qed.

Lemma loopback_same v : 0 ≤ v < 2 ^ 32 → IsLoopback (A4 (put32 v)) = WinTun.addr_loopback (WinTun.V4 v).
Proof.
  intros H. unfold IsLoopback, put32, WinTun.addr_loopback. rewrite u8_mk8, Z.shiftr_div_pow2 by lia. change (2 ^ 24) with 16777216.
  f_equal. apply Z.mod_small. split; [apply Z.div_pos; lia|apply Z.div_lt_upper_bound; lia].
Qed.

Lemma to_prefix_Is4 p : Is4 (to_prefix p).1 = WinTun.Is4 p.1.
Proof. by destruct p as [[v|b] n]. Qed.

Lemma append_related s c k : related s c → bypass_ok k →
  related (WinTun.set_bypass (WinTun.winTunBypassRoutes s ++ [abs_key (bkey k)]) s) (mkState (sysip c) (winTunBypassRoutes c ++ [k])).
Proof.
  intros [H1 H0 H2 H3 H4] Hk. split; cbn; [done|done| | |done]; [by rewrite H2, fmap_app|].
  apply Forall_app. split; [done|]. by constructor.
Qed.

(** ** The functions *)

Section Install.
Context (ws : list WinTun.row) (rs : list MibIPforwardRow2) (dw : option WinTun.row) (dc : option MibIPforwardRow2) (tun : Z).
Context (Hrows : Forall2 same_row ws rs) (Hdflt : option_Forall2 same_row dw dc).

Lemma sim_install_row w r v n sw sc p' :
  same_row w r → 0 ≤ v < 2 ^ 32 → 0 ≤ n ≤ 32 → seen_ok sw sc →
  let h := match WinTun.r_nexthop w with Some h => if h =? 0 then 0 else h | None => 0 end in
  let row := WinTun.mkRow (WinTun.r_luid w) 0 v n (Some h) 1 in
  p' = (A4 (put32 v), n) →
  sim seen_ok
    (ok ← WinTun.create_route row;
     (if (ok : bool) then WinTun.modify (λ s, WinTun.set_bypass (WinTun.winTunBypassRoutes s ++ [WinTun.key_of row]) s) else mret tt) ;;
     mret sw)
    (match SetPrefix (DestinationPrefix init_forward) p' with
     | None => throw "set bypass route"
     | Some d =>
         match SetAddr (NextHop init_forward) (next_hop r) with
         | None => throw "set bypass gateway"
         | Some hop =>
             o ← ask (createIPForwardEntry2 (row_for (f_LUID r) 1 d hop));
             (match o with Ok _ => append_bypass (mkBypass (f_LUID r) p' (next_hop r)) | _ => mret tt end) ;;
             mret sc
         end
     end).
Proof.
  intros Hr Hv Hn Hs h row ->. destruct (next_hop_same w r Hr) as (hb & Eh & Hlh & Enum). rewrite Eh.
  destruct HI as (Hi1 & Hi2 & _).
  destruct (SetPrefix (DestinationPrefix init_forward) (A4 (put32 v), n)) as [d|] eqn:Ed; [|done].
  destruct (SetAddr (NextHop init_forward) (A4 hb)) as [hop|] eqn:Ep; [|done].
  destruct (SetAddrPort_reads _ (A4 hb) 0 hop Hi2 Hlh ltac:(lia) Ep) as [Hl [= Eraw _]].
  destruct (written (f_LUID r) 1 (put32 v) n d hop Hi1 eq_refl Hn Hl ltac:(by rewrite Eraw) Ed) as (Hsr & Hfk & Hk).
  rewrite Eraw in Hsr, Hfk, Hk. cbn [abs_hop] in Hsr. rewrite num_put32, Enum in Hsr by done. fold h in Hsr.
  rewrite <- (sr_luid _ _ Hr) in Hsr at 1. fold row in Hsr.
  assert (WinTun.key_of row = abs_key (bkey (mkBypass (f_LUID r) (A4 (put32 v), n) (A4 hb)))) as Ek
    by by apply (key_iff row (row_for (f_LUID r) 1 d hop)).
  eapply sim_bind; [apply sim_create; [done|by rewrite Hfk]|]. intros b o Hbo.
  apply (sim_bind (λ _ _, True)); [|intros _ _ _; by apply sim_ret].
  destruct b; [subst o|by destruct Hbo as [e ->]; apply sim_ret]. rewrite Ek.
  intros s c Hsc. split; [done|]. by apply append_related.
Qed.

Lemma sim_install sw sc p : seen_ok sw sc → p4_ok p →
  sim seen_ok (WinTun.installPrefix ws dw tun sw p) (installPrefix rs dc tun sc (to_prefix p)).
Proof.
  intros Hs Hp. unfold WinTun.installPrefix, installPrefix. rewrite to_prefix_valid, to_prefix_Is4, <- negb_andb.
  destruct (WinTun.prefix_valid p && WinTun.Is4 p.1) eqn:Hv; cbn [negb orb]; [|by apply sim_ret].
  rewrite (to_prefix_seen p sw sc Hs Hp Hv). destruct p as [[v|] n]; rewrite ?andb_false_r, ?andb_true_r in Hv; [|done].
  assert (seen_ok (sw ++ [(WinTun.V4 v, n)]) (sc ++ [to_prefix (WinTun.V4 v, n)])) as Hs'.
  { destruct Hs as [-> Hs]. split; [by rewrite fmap_app|]. apply Forall_app. split; [done|]. apply Forall_singleton. split; [by rewrite Hv|done]. }
  destruct (to_prefix_v4 v n Hv) as [Ep Hn]. cbn [fst]. rewrite Ep in *. cbn [fst].
  rewrite loopback_same by done. destruct (WinTun.addr_loopback (WinTun.V4 v)); cbn [orb]; [by apply sim_ret|].
  destruct (bool_decide _); [by apply sim_ret|].
  pose proof (best_same v tun ws rs Hrows Hp None None (-1) ltac:(constructor)) as Hb.
  unfold WinTun.findBestPhysicalRoute, findBestPhysicalRoute.
  assert (option_Forall2 same_row
    match WinTun.best_route ws v tun None (-1) with Some r => Some r | None => dw end
    match best_loop rs (A4 (put32 v)) tun None (-1) with Some r => Some r | None => dc end) as Hbest
    by (destruct Hb; [by constructor|done]).
  destruct Hbest as [w r Hwr|]; [|by apply sim_ret]. by apply sim_install_row.
Qed.

Lemma AddrFromSlice_ok x a : WinTun.AddrFromSlice x = Some a → ∀ n, p4_ok (a, n).
Proof.
  unfold WinTun.AddrFromSlice. destruct x as [|b0 [|b1 [|b2 [|b3 [|]]]]]; cbn; try done.
  - intros [= <-] n. apply be32_range.
  - destruct (Nat.eqb _ _); [|done]. by intros [= <-].
Qed.

Lemma sim_install_ips ips : ∀ sw sc, seen_ok sw sc →
  sim seen_ok (WinTun.install_ips ws dw tun sw ips) (install_ips rs dc tun sc ips).
Proof.
  induction ips as [|x ips IH]; intros sw sc Hs; cbn [WinTun.install_ips install_ips]; [by apply sim_ret|].
  destruct (WinTun.AddrFromSlice x) as [[v|b]|] eqn:Ea; [|by apply IH..].
  apply (sim_bind seen_ok); [|by intros ? ? ?; apply IH].
  apply (sim_install sw sc (WinTun.V4 v, 32)); [done|]. by apply (AddrFromSlice_ok x).
Qed.

Lemma sim_install_upstreams us : ∀ sw sc, seen_ok sw sc →
  sim seen_ok (WinTun.install_upstreams ws dw tun sw us) (install_upstreams rs dc tun sc us).
Proof.
  induction us as [|u us IH]; intros sw sc Hs; cbn [WinTun.install_upstreams install_upstreams]; [by apply sim_ret|].
  destruct (Url.Hostname <$> Url.Parse u) as [[|a host]|]; [by apply IH| |by apply IH].
  destruct (WinTun.LookupIP (String a host)) as [ips|]; [|by apply sim_throw].
  apply (sim_bind seen_ok); [by apply sim_install_ips|by intros ? ? ?; apply IH].
Qed.

Lemma ParseAddr_p4_ok s a : WinTun.netip_ParseAddr s = Some a → ∀ n, p4_ok (a, n).
Proof. unfold WinTun.netip_ParseAddr. intros (x & _ & Hx)%bind_Some. by apply (AddrFromSlice_ok x). Qed.

Lemma ParsePrefix_p4_ok s p : WinTun.netip_ParsePrefix s = Some p → p4_ok p.
Proof.
  unfold WinTun.netip_ParsePrefix. destruct (Strings.LastIndexByte s "/") as [i|]; [|done].
  destruct (WinTun.netip_ParseAddr (stake i s)) as [a|] eqn:Ea; [|done].
  destruct (Net.dtoi (sdrop (S i) s)) as [n|]; [|done]. destruct (_ || _); [done|]. intros [= <-]. by apply (ParseAddr_p4_ok (stake i s)).
Qed.

Lemma sim_install_nodes ns : ∀ sw sc, seen_ok sw sc →
  sim seen_ok (WinTun.install_nodes ws dw tun sw ns) (install_nodes rs dc tun sc ns).
Proof.
  induction ns as [|node ns IH]; intros sw sc Hs; cbn [WinTun.install_nodes install_nodes]; [by apply sim_ret|].
  destruct (String.eqb (Strings.TrimSpace node) ""); [by apply IH|].
  apply (sim_bind seen_ok); [|by intros ? ? ?; apply IH].
  destruct (WinTun.netip_ParsePrefix (Strings.TrimSpace node)) as [p|] eqn:Ep.
  { apply (sim_install sw sc p); [done|]. by apply (ParsePrefix_p4_ok (Strings.TrimSpace node)). }
  destruct (WinTun.netip_ParseAddr (Strings.TrimSpace node)) as [a|] eqn:Ea.
  { apply (sim_install sw sc (a, 32)); [done|]. by apply (ParseAddr_p4_ok (Strings.TrimSpace node)). }
  destruct (WinTun.LookupIP (Strings.TrimSpace node)) as [ips|]; [by apply sim_install_ips|by apply sim_ret].
Qed.
End Install.

Lemma sim_read {A B} (Q : A → B → Prop) msg f g :
  (∀ ws rs, Forall2 same_row ws rs → sim Q (f ws) (g rs)) →
  sim Q (WinTun.sys WinTun.ReadTable msg id ;; s ← get_st; f (WinTun.table s))
    (o ← ask (GetIPForwardTable2 AF_INET); match o with Ok rs => g rs | _ => throw msg end).
Proof.
  intros H s c Hr. pose proof (fails_related s c WinTun.ReadTable ForwardTable Hr eq_refl ltac:(done)) as Hf.
  pose proof (related_called s c WinTun.ReadTable ForwardTable (WinTun.table s) (forward (sysip c)) (tables (sysip c)) Hr eq_refl
    (rel_table _ _ Hr) eq_refl) as Hr'.
  assert (∀ o, ip_fails (icalls (sysip c)) ForwardTable = o → ask (GetIPForwardTable2 AF_INET) c =
    (Ok match o with Some e => Err e | None => Ok (v4rows (forward (sysip c))) end,
     mkState (asked ForwardTable (sysip c)) (winTunBypassRoutes c))) as Ha.
  { intros o Ho. unfold ask, GetIPForwardTable2, getIPForwardTable2, call, mbind, stm_bind. rewrite Ho. by destruct o. }
  rewrite (stm_bind_ok _ _ _ _ _ (Ha _ eq_refl)). clear Ha.
  destruct (ip_fails (icalls (sysip c)) ForwardTable) as [e|].
  - rewrite (stm_bind_err _ _ s msg (WinTun.called WinTun.ReadTable s)) by (unfold WinTun.sys; by rewrite Hf). done.
  - rewrite (stm_bind_ok _ _ s tt (WinTun.called WinTun.ReadTable s)) by (unfold WinTun.sys; by rewrite Hf).
    apply (H (WinTun.table s) (v4rows (forward (sysip c))) (rel_table _ _ Hr) _ _ Hr').
Qed.

Lemma sim_setupUpstreamBypassRoutes tun us ns :
  sim eq (WinTun.setupUpstreamBypassRoutes tun us ns) (setupUpstreamBypassRoutes tun us ns).
Proof.
  apply (sim_read eq "enumerate physical routes"
    (λ routes, seen ← WinTun.install_upstreams routes (WinTun.default_physical routes tun) tun [] us;
       _ ← WinTun.install_nodes routes (WinTun.default_physical routes tun) tun seen ns; mret tt)
    (λ routes, seen ← install_upstreams routes (default_physical routes tun) tun [] us;
       _ ← install_nodes routes (default_physical routes tun) tun seen ns; mret tt)).
  intros ws rs H. pose proof (default_same tun ws rs H) as Hd.
  apply (sim_bind seen_ok); [by apply sim_install_upstreams|]. intros sw sc Hs.
  apply (sim_bind seen_ok); [by apply sim_install_nodes|]. intros ? ? ?. by apply sim_ret.
Qed.

(** A split route that was written. *)
Definition dest_ok (d : Z * Z) : Prop := 0 ≤ d.1 < 2 ^ 32 ∧ 0 ≤ d.2 ≤ 32.
Definition dest_prefix (d : Z * Z) : Prefix := (A4 (put32 d.1), d.2).

Lemma tun_written l m d x : dest_ok d → SetPrefix (DestinationPrefix init_forward) (dest_prefix d) = Some x →
  same_row (WinTun.mkRow l 0 d.1 d.2 None m) (row_for l m x (NextHop init_forward)) ∧
  fkey (row_for l m x (NextHop init_forward)) = (l, (dest_prefix d, NoAddr)) ∧ key_ok (l, (dest_prefix d, NoAddr)).
Proof.
  intros [H1 H2] Hx. destruct HI as (Hi1 & Hi2 & Hi3). rewrite <- Hi3.
  destruct (written l m (put32 d.1) d.2 x (NextHop init_forward) Hi1 eq_refl H2 Hi2 ltac:(by rewrite Hi3) Hx) as (Hw & Hf & Hk).
  split_and!; [|done..]. rewrite Hi3, num_put32 in Hw by done. done.
Qed.

Lemma tun_key l d : dest_ok d → WinTun.key_of (WinTun.tun_row l d) = abs_key (l, (dest_prefix d, NoAddr)).
Proof. intros [H _]. unfold WinTun.key_of, abs_key. cbn [WinTun.tun_row fst snd dest_prefix abs_hop]. by rewrite num_put32. Qed.

Lemma sim_cleanupInstalledRoutes l ds : Forall dest_ok ds →
  sim (λ _ _, True) (WinTun.cleanupInstalledRoutes l ds) (cleanupInstalledRoutes l (dest_prefix <$> ds)).
Proof.
  induction 1 as [|d ds Hd H IH]; cbn [WinTun.cleanupInstalledRoutes cleanupInstalledRoutes fmap list_fmap]; [by apply sim_ret|].
  apply (sim_bind (λ _ _, True)); [|by intros _ _ _].
  destruct (SetPrefix (DestinationPrefix init_forward) (dest_prefix d)) as [x|] eqn:Ex; [|done].
  destruct (tun_written l (Metric init_forward) d x Hd Ex) as (_ & Hf & Hk). rewrite tun_key by done.
  apply sim_drop. by apply sim_delete'.
Qed.

Lemma sim_install_split l ds : Forall dest_ok ds → ∀ i, Forall dest_ok i →
  sim (λ a b, b = dest_prefix <$> a ∧ Forall dest_ok a) (WinTun.install_split l i ds)
    (install_split l (dest_prefix <$> i) (dest_prefix <$> ds)).
Proof.
  induction 1 as [|d ds Hd H IH]; intros i Hi; cbn [WinTun.install_split install_split fmap list_fmap]; [by apply sim_ret|].
  destruct (SetPrefix (DestinationPrefix init_forward) (dest_prefix d)) as [x|] eqn:Ex; [|done].
  destruct (tun_written l 1 d x Hd Ex) as (Hw & Hf & Hk).
  eapply sim_bind; [apply sim_create; [exact Hw|by rewrite Hf]|]. intros b o Hb. destruct b; [subst o|destruct Hb as [e ->]].
  - specialize (IH (i ++ [d])). rewrite fmap_app in IH. apply IH, Forall_app. split; [done|]. by apply Forall_singleton.
  - eapply sim_bind; [by apply sim_cleanupInstalledRoutes|intros _ _ _; by apply sim_throw].
Qed.

Lemma sim_delete_bypass ks : Forall bypass_ok ks →
  sim (λ _ _, True) (WinTun.delete_bypass (abs_key ∘ bkey <$> ks)) (delete_bypass ks).
Proof.
  induction 1 as [|k ks Hk H IH]; cbn [WinTun.delete_bypass delete_bypass fmap list_fmap]; [by apply sim_ret|].
  apply (sim_bind (λ _ _, True)); [|by intros _ _ _]. destruct k as [l [a n] hop]. destruct HI as (Hi1 & Hi2 & _).
  destruct Hk as [(H4 & Ha & Hn & _ & Hh) Hop]. cbn in H4, Ha, Hn, Hh, Hop. destruct a as [|b|], hop as [|hb|]; try done.
  cbn [luid prefix nextHop]. unfold bkey. cbn [luid prefix nextHop compose].
  destruct (SetPrefix (DestinationPrefix init_forward) (A4 b, n)) as [d|] eqn:Ed; [|done].
  destruct (SetAddr (NextHop init_forward) (A4 hb)) as [hop|] eqn:Ep; [|done].
  destruct (SetAddrPort_reads _ (A4 hb) 0 hop Hi2 Hh ltac:(lia) Ep) as [Hl [= Eraw _]].
  destruct (written l (Metric init_forward) b n d hop Hi1 Ha Hn Hl ltac:(by rewrite Eraw) Ed) as (_ & Hf & Hk).
  rewrite Eraw in Hf, Hk. apply sim_drop. by apply sim_delete'.
Qed.

Lemma split_dests_ok : Forall dest_ok WinTun.split_dests.
Proof. repeat constructor; cbn; lia. Qed.

Lemma sim_setup_routes l us ns : sim eq (WinTun.setup_routes l us ns) (setup_routes l us ns).
Proof.
  eapply sim_bind; [apply (sim_install_split l WinTun.split_dests split_dests_ok [] ltac:(constructor))|].
  intros a b [-> Ha]. apply sim_or_else; [apply sim_setupUpstreamBypassRoutes|by apply sim_cleanupInstalledRoutes].
Qed.

Lemma sim_cleanup_routes l : sim (λ _ _, True) (abs_cleanup_routes l) (cleanup_routes l).
Proof.
  intros s c Hr. unfold abs_cleanup_routes, cleanup_routes.
  change ((get_st ≫= ?f) s) with (f s s). change ((get_st ≫= ?f) c) with (f c c). cbv beta. rewrite (rel_bypass _ _ Hr). revert s c Hr.
  assert (∀ ks, Forall bypass_ok ks → sim (λ _ _, True)
    (WinTun.delete_bypass (abs_key ∘ bkey <$> ks) ;; WinTun.modify (WinTun.set_bypass []) ;;
     WinTun.cleanupInstalledRoutes l WinTun.split_dests)
    (delete_bypass ks ;; clear_bypass ;; cleanupInstalledRoutes l split_routes)) as H;
    [|intros s c Hr; by apply H; [apply Hr|]].
  intros ks Hk. eapply sim_bind; [by apply sim_delete_bypass|intros _ _ _].
  apply (sim_bind (λ _ _, True)); [|intros _ _ _; apply (sim_cleanupInstalledRoutes l WinTun.split_dests split_dests_ok)].
  intros s c [H1 H0 H2 H3 H4]. split; [done|]. by split.
Qed.
End Sim.

Lemma sim_eq {A} (m : WinTun.wm A) (n : cm A) s c : sim eq m n → related s c →
  ∃ o s' c', m s = (o, s') ∧ n c = (o, c') ∧ o ≠ Panic ∧ related s' c'.
Proof.
  intros H Hr. specialize (H s c Hr). destruct (m s) as [[a|e|] s'], (n c) as [[b|e'|] c']; try done;
    destruct H as [-> H]; by eexists _, s', c'.
Qed.

(** C15. The bytes handed to Windows are the routes that are meant.  The functions that
    write socket addresses into rows, read gateways and prefixes back from the
    forwarding table and compare them refine the functions on abstract routes: from
    related states the set-up of routes gives the same result, error included, and
    related states, having made the same calls in the same order; so does the
    clean-up; and the table of Windows holds a route exactly if the abstract table
    does.  Rows of another family ([F]) are never touched. *)
Theorem routes_refine l us ns s c :
  env_agree → init_route_ok → related s c →
  (∃ o s' c', WinTun.setup_routes l us ns s = (o, s') ∧ setup_routes l us ns c = (o, c') ∧ o ≠ Panic ∧ related s' c') ∧
  (∃ o s' c', abs_cleanup_routes l s = (o, s') ∧ cleanup_routes l c = (o, c') ∧ o ≠ Panic ∧ related s' c') ∧
  (∀ k, key_ok k → k ∈ fkey <$> forward (sysip c) ↔ abs_key k ∈ WinTun.key_of <$> WinTun.table s).
Proof.
  intros HE HI Hr. split_and!.
  - apply sim_eq; [by apply sim_setup_routes|done].
  - apply sim_eq; [|done]. intros s0 c0 H0. pose proof (sim_cleanup_routes HE HI l s0 c0 H0) as H.
    by destruct (abs_cleanup_routes l s0) as [[[]|e|] s'], (cleanup_routes l c0) as [[[]|e'|] c']; try done; destruct H.
  - intros k Hk. symmetry. apply keys_elem; [apply Hr|done].
Qed.

End Routes.

(** ** A run

    The tables of WinTun's example as bytes, with an IPv6 default route; the creation
    of the third route of the program fails. *)

Definition raw4 (v : Z) : list byte := default [] (SetAddr zero28 (A4 (put32 v))).
Definition fwd4 (l net bits hop metric : Z) : MibIPforwardRow2 :=
  mkForward l (mkIPAddressPrefix (raw4 net) bits) (raw4 hop) metric infinite infinite.
Definition fwd6 : MibIPforwardRow2 :=
  let m := default [] (SetAddr zero28 (A6 (zeros 16) "")) in mkForward 500 (mkIPAddressPrefix m 0) m 5 infinite infinite.

Definition ex_ip : ip := mkIp [] [fwd4 500 0 0 0xC0A80101 25; fwd6; fwd4 700 0xC0A81F00 24 0 10] 0 [].

Definition third_create (h : list rcall) (c : option rcall) : bool :=
  match c with Some (RCreate _) => Nat.eqb (length h) 3 | _ => false end.
Definition ex_ipenv : IpEnv := {|
  ip_fails := λ h c, if third_create (omap iroute h) (iroute c) then Some (OtherCode 5) else None;
  init_unicast := mkUnicast 0 zero28 0 0 0 0;
  init_forward := mkForward 0 (mkIPAddressPrefix zero28 0) zero28 0 infinite infinite |}.
Definition ex_wenv : WinTun.WinEnv := {|
  WinTun.win_fails := λ h c, third_create (omap wroute h) (wroute c);
  WinTun.win_luid := 900; WinTun.win_ifindex := λ _, 9; WinTun.win_best := λ _, Some 5;
  WinTun.win_resolve := λ h, if String.eqb h "lab.test" then Some [bytes [192; 168; 31; 253]] else None |}.

Lemma ex_agree : env_agree (E := ex_ipenv) (W := ex_wenv).
Proof. intros hw hi w i Hh Hc _. cbn. rewrite Hh, Hc. by destruct (third_create _ _). Qed.

Lemma ex_related : related [fwd6] WinTun.ex_win (mkState ex_ip []).
Proof.
  split; [|reflexivity|reflexivity|constructor|reflexivity].
  assert (v4rows (forward (sysip (mkState ex_ip []))) = [fwd4 500 0 0 0xC0A80101 25; fwd4 700 0xC0A81F00 24 0 10]) as -> by reflexivity.
  repeat constructor; vm_compute; congruence.
Qed.

Lemma routes_refine_witness :
  let run := setup_routes (E := ex_ipenv) (W := ex_wenv) 900 ["socks5://lab.test:1080"] ["203.0.113.0/24"] (mkState ex_ip []) in
  run.1 = Ok tt ∧ length (forward (sysip run.2)) = 6%nat ∧
  winTunBypassRoutes run.2 = [mkBypass 500 (A4 (put32 0xCB007100), 24) (A4 (put32 0xC0A80101))] ∧
  ∃ s', related [fwd6] s' run.2 ∧
    WinTun.setup_routes (E := ex_wenv) 900 ["socks5://lab.test:1080"] ["203.0.113.0/24"] WinTun.ex_win = (Ok tt, s').
Proof.
  intros run. split; [vm_compute; reflexivity|]. split; [vm_compute; reflexivity|]. split; [vm_compute; reflexivity|].
  destruct (routes_refine (E := ex_ipenv) (W := ex_wenv) [fwd6] 900 ["socks5://lab.test:1080"] ["203.0.113.0/24"] WinTun.ex_win
    (mkState ex_ip []) ex_agree ltac:(repeat split; reflexivity) ex_related) as ((o & s' & c' & H1 & H2 & _ & H3) & _ & _).
  exists s'. assert (run = (o, c')) as E by exact H2. rewrite E. split; [exact H3|]. rewrite H1.
  assert (run.1 = Ok tt) as Eo by (vm_compute; reflexivity). rewrite E in Eo. cbn in Eo. by rewrite Eo.
Defined.

End WinRoutes.
