(* ===== verification/Wintun.v ===== *)
(** * The bindings of wintun.dll (src/third_party/wintun)

    [Lazy] is dll.go: the library and the addresses of its procedures are looked up
    on first use, by any number of threads, with an atomic load before and a mutex
    around the look-up.  A thread is the point it has reached; [exec] is one step of
    one thread, [None] if it waits for a mutex.  What Windows answers is an argument
    of the step, zero if the call fails.  [Wintun] is wintun.go and session.go on top
    of it: adapters with their finalizers, and sessions. *)

From S2P Require Import Prelude GoStrings.

Module Lazy.

(** ** State *)

(** Who called Load: Find of a procedure, or nobody else (Version). *)
Abbreviation caller := (option string).

Inductive pc :=
  | FindFast (p : string) | FindLock (p : string) | FindCheck (p : string)
  | LoadFast (k : caller) | LoadLock (k : caller) | LoadCheck (k : caller)
  | LoadEx (k : caller) | LoadPlain (k : caller) | LoadStore (k : caller) (m : Z) | LoadUnlock (k : caller) (ok : bool)
  | GetProc (p : string) | FindStore (p : string) (a : Z) | FindUnlock (p : string) (ok : bool)
  | Returned (k : caller) (ok : bool).

(** [loads] and [gets] are the successful calls of Windows. *)
Record sys := mkSys {
  module : Z;
  addr : gmap string Z;                 (* zero if absent *)
  dll_mu : option nat;                  (* the thread that holds the mutex *)
  proc_mu : gmap string nat;
  threads : list pc;
  loads : list Z;
  gets : gmap string (list Z) }.

Definition addr_of (p : string) (s : sys) : Z := default 0 (addr s !! p).
Definition gets_of (p : string) (s : sys) : list Z := default [] (gets s !! p).

Definition set_thread (i : nat) (c : pc) (s : sys) : sys :=
  mkSys (module s) (addr s) (dll_mu s) (proc_mu s) (<[i := c]> (threads s)) (loads s) (gets s).
Definition set_module (m : Z) (s : sys) : sys :=
  mkSys m (addr s) (dll_mu s) (proc_mu s) (threads s) (loads s) (gets s).
Definition set_addr (p : string) (a : Z) (s : sys) : sys :=
  mkSys (module s) (<[p := a]> (addr s)) (dll_mu s) (proc_mu s) (threads s) (loads s) (gets s).
Definition set_dll_mu (o : option nat) (s : sys) : sys :=
  mkSys (module s) (addr s) o (proc_mu s) (threads s) (loads s) (gets s).
Definition set_proc_mu (p : string) (o : option nat) (s : sys) : sys :=
  mkSys (module s) (addr s) (dll_mu s) (partial_alter (λ _, o) p (proc_mu s)) (threads s) (loads s) (gets s).
Definition loaded (m : Z) (s : sys) : sys :=
  mkSys (module s) (addr s) (dll_mu s) (proc_mu s) (threads s) (m :: loads s) (gets s).
Definition got (p : string) (a : Z) (s : sys) : sys :=
  mkSys (module s) (addr s) (dll_mu s) (proc_mu s) (threads s) (loads s) (<[p := a :: gets_of p s]> (gets s)).

(** ** Find and Load *)

(** Where a thread goes on when Load returns. *)
Definition after_load (k : caller) (ok : bool) : pc :=
  match k with
  | None => Returned None ok
  | Some p => if ok then GetProc p else FindUnlock p false
  end.

Definition find_step (i : nat) (answer : Z) (c : pc) (s : sys) : option sys :=
  match c with
  | FindFast p => Some (set_thread i (if addr_of p s =? 0 then FindLock p else Returned (Some p) true) s)
  | FindLock p =>
      match proc_mu s !! p with
      | Some _ => None
      | None => Some (set_thread i (FindCheck p) (set_proc_mu p (Some i) s))
      end
  | FindCheck p => Some (set_thread i (if addr_of p s =? 0 then LoadFast (Some p) else FindUnlock p true) s)
  | GetProc p =>
      if answer =? 0 then Some (set_thread i (FindUnlock p false) s)
      else Some (set_thread i (FindStore p answer) (got p answer s))
  | FindStore p a => Some (set_thread i (FindUnlock p true) (set_addr p a s))
  | FindUnlock p ok => Some (set_thread i (Returned (Some p) ok) (set_proc_mu p None s))
  | _ => None
  end.

(** The library's onLoad is setupLogger, which does nothing. *)
Definition load_step (i : nat) (answer : Z) (c : pc) (s : sys) : option sys :=
  match c with
  | LoadFast k => Some (set_thread i (if module s =? 0 then LoadLock k else after_load k true) s)
  | LoadLock k =>
      match dll_mu s with
      | Some _ => None
      | None => Some (set_thread i (LoadCheck k) (set_dll_mu (Some i) s))
      end
  | LoadCheck k => Some (set_thread i (if module s =? 0 then LoadEx k else LoadUnlock k true) s)
  | LoadEx k =>
      if answer =? 0 then Some (set_thread i (LoadPlain k) s) else Some (set_thread i (LoadStore k answer) (loaded answer s))
  | LoadPlain k =>
      if answer =? 0 then Some (set_thread i (LoadUnlock k false) s) else Some (set_thread i (LoadStore k answer) (loaded answer s))
  | LoadStore k m => Some (set_thread i (LoadUnlock k true) (set_module m s))
  | LoadUnlock k ok => Some (set_thread i (after_load k ok) (set_dll_mu None s))
  | _ => None
  end.

Definition exec (i : nat) (answer : Z) (s : sys) : option sys :=
  match threads s !! i with
  | Some c => match find_step i answer c s with Some s' => Some s' | None => load_step i answer c s end
  | None => None
  end.

Definition runnable (s s' : sys) : Prop := ∃ i answer, exec i answer s = Some s'.

(** Threads that call Find of a procedure, or Load. *)
Definition starting (k : caller) : pc := match k with Some p => FindFast p | None => LoadFast None end.
Definition initial (ks : list caller) : sys := mkSys 0 ∅ None ∅ (starting <$> ks) [] ∅.
Definition reachable (ks : list caller) (s : sys) : Prop := rtc runnable (initial ks) s.

(** ** Invariant *)

Definition holds_dll (c : pc) : bool :=
  match c with LoadCheck _ | LoadEx _ | LoadPlain _ | LoadStore _ _ | LoadUnlock _ _ => true | _ => false end.
Definition holds_proc (c : pc) : option string :=
  match c with
  | FindCheck p | GetProc p | FindStore p _ | FindUnlock p _ => Some p
  | LoadFast k | LoadLock k | LoadCheck k | LoadEx k | LoadPlain k | LoadStore k _ | LoadUnlock k _ => k
  | _ => None
  end.

Definition is_load_store (c : pc) : bool := match c with LoadStore _ _ => true | _ => false end.
Definition is_find_store (p : string) (c : pc) : bool := match c with FindStore q _ => String.eqb q p | _ => false end.

(** What a thread knows where it is. *)
Definition knows (s : sys) (c : pc) : Prop :=
  match c with
  | LoadEx _ | LoadPlain _ => module s = 0 ∧ loads s = []
  | LoadStore _ m => module s = 0 ∧ m ≠ 0 ∧ loads s = [m]
  | LoadUnlock _ ok => ok = true → module s ≠ 0
  | GetProc p => module s ≠ 0 ∧ gets_of p s = []
  | FindStore p a => module s ≠ 0 ∧ a ≠ 0 ∧ gets_of p s = [a]
  | FindUnlock p ok => ok = true → addr_of p s ≠ 0
  | Returned k ok => ok = true → match k with Some p => addr_of p s ≠ 0 | None => module s ≠ 0 end
  | _ => True
  end ∧
  match c with
  | LoadFast (Some p) | LoadLock (Some p) | LoadCheck (Some p) | LoadEx (Some p) | LoadPlain (Some p) | LoadStore (Some p) _
  | LoadUnlock (Some p) _ | GetProc p | FindStore p _ => addr_of p s = 0
  | _ => True
  end.

(** A mutex is held by the thread that is between its Lock and its Unlock. *)
Definition owned (hold : pc → bool) (mu : option nat) (ths : list pc) : Prop :=
  ∀ i, mu = Some i ↔ ∃ c, ths !! i = Some c ∧ hold c = true.

(** The result of a call of Windows is in its variable, or a thread is about to put
    it there. *)
Definition one (z : Z) : list Z := if z =? 0 then [] else [z].
Definition kept (store : pc → bool) (l : list Z) (z : Z) (ths : list pc) : Prop :=
  l = one z ∨ ∃ i c, ths !! i = Some c ∧ store c = true.

Record inv (s : sys) : Prop := mkInv {
  inv_dll : owned holds_dll (dll_mu s) (threads s);
  inv_proc : ∀ p, owned (λ c, bool_decide (holds_proc c = Some p)) (proc_mu s !! p) (threads s);
  inv_knows : ∀ i c, threads s !! i = Some c → knows s c;
  inv_loads : kept is_load_store (loads s) (module s) (threads s);
  inv_gets : ∀ p, kept (is_find_store p) (gets_of p s) (addr_of p s) (threads s) }.

(** ** Preservation *)

Lemma owned_goto hold mu mu' ths i c c' :
  owned hold mu ths → ths !! i = Some c → (hold c = false → hold c' = true → mu = None) →
  mu' = (if hold c' then Some i else if hold c then None else mu) → owned hold mu' (<[i := c']> ths).
Proof.
  intros Ho Hi Hl -> j. assert (i < length ths)%nat as Hlen by by eapply lookup_lt_Some.
  destruct (decide (j = i)) as [-> | Hj].
  - rewrite list_lookup_insert_eq by done. destruct (hold c') eqn:E'; [by split; [exists c'|]|].
    destruct (hold c) eqn:Ec; [|rewrite (Ho i)]; (split; [try done|]); intros (d & Hd & Hh); congruence.
  - rewrite list_lookup_insert_ne by done. destruct (hold c) eqn:Ec.
    + assert (mu = Some i) as Hm by (apply Ho; eauto). rewrite <- (Ho j), Hm. by destruct (hold c'); split; intros; simplify_eq.
    + rewrite <- (Ho j). destruct (hold c'); [|done]. rewrite Hl by done. by split; intros; simplify_eq.
Qed.

Lemma owned_unique hold mu ths i j c d :
  owned hold mu ths → ths !! i = Some c → ths !! j = Some d → hold c = true → hold d = true → i = j.
Proof. intros Ho Hi Hj Hc Hd. assert (mu = Some i) by (apply Ho; eauto). assert (mu = Some j) by (apply Ho; eauto). by simplify_eq. Qed.

Lemma kept_goto store l l' z z' ths i c c' :
  kept store l z ths → ths !! i = Some c →
  l' = one z' ∨ store c' = true ∨ (l' = l ∧ z' = z ∧ store c = false) → kept store l' z' (<[i := c']> ths).
Proof.
  intros Hk Hi [H|[H|(-> & -> & H)]]; [by left|right; exists i, c'; split; [|done]|].
  { apply list_lookup_insert_eq. by eapply lookup_lt_Some. }
  destruct Hk as [Hk|(j & d & Hj & Hd)]; [by left|]. right. exists j, d. split; [|done].
  rewrite list_lookup_insert_ne; [done|]. intros ->. congruence.
Qed.

(** The variables after a step of a thread at [c]. *)
Definition written (c : pc) (s s' : sys) : Prop :=
  (module s' = module s ∧ loads s' = loads s ∨ holds_dll c = true ∧ module s = 0) ∧
  ∀ p, addr_of p s' = addr_of p s ∧ gets_of p s' = gets_of p s ∨ holds_proc c = Some p ∧ addr_of p s = 0.

Lemma knows_other c d s s' : knows s d → written c s s' → (holds_dll c = true → holds_dll d = false) →
  (∀ p, holds_proc c = Some p → holds_proc d ≠ Some p) → knows s' d.
Proof.
  intros Hk [Hm Ha] Hd Hp.
  assert (holds_dll d = true → module s' = module s ∧ loads s' = loads s) as H1
    by (intros E; destruct Hm as [Hm|[Hm _]]; [done|]; rewrite Hd in E by done; done).
  assert (module s ≠ 0 → module s' = module s) as H2 by (intros E; by destruct Hm as [[Hm _]|[_ Hm]]).
  assert (∀ p, holds_proc d = Some p → addr_of p s' = addr_of p s ∧ gets_of p s' = gets_of p s) as H3
    by (intros p E; destruct (Ha p) as [H|[H _]]; [done|]; by destruct (Hp p H)).
  assert (∀ p, addr_of p s ≠ 0 → addr_of p s' = addr_of p s) as H4 by (intros p E; by destruct (Ha p) as [[H _]|[_ H]]).
  clear Hm Ha Hd Hp. destruct d as [p|p|p|[p|]|[p|]|[p|]|[p|]|[p|]|[p|] m|[p|] ok|p|p a|p ok|[p|] ok]; unfold knows in *; cbn in *;
    try (destruct (H1 eq_refl) as [E1 E2]; rewrite ?E1, ?E2); try (destruct (H3 p eq_refl) as [E3 E4]; rewrite ?E3, ?E4);
    destruct Hk as [K1 K2]; split; try done; try (by rewrite H2 by tauto); intros Hok; try (rewrite H4 by auto); try (rewrite H2 by auto); auto.
Qed.

Lemma inv_goto i c c' s s' :
  inv s → threads s !! i = Some c → threads s' = <[i := c']> (threads s) →
  (holds_dll c = false → holds_dll c' = true → dll_mu s = None) →
  dll_mu s' = (if holds_dll c' then Some i else if holds_dll c then None else dll_mu s) →
  (∀ p, holds_proc c ≠ Some p → holds_proc c' = Some p → proc_mu s !! p = None) →
  (∀ p, proc_mu s' !! p = if bool_decide (holds_proc c' = Some p) then Some i
     else if bool_decide (holds_proc c = Some p) then None else proc_mu s !! p) →
  written c s s' → knows s' c' →
  (loads s' = one (module s') ∨ is_load_store c' = true ∨ (loads s' = loads s ∧ module s' = module s ∧ is_load_store c = false)) →
  (∀ p, gets_of p s' = one (addr_of p s') ∨ is_find_store p c' = true ∨
     (gets_of p s' = gets_of p s ∧ addr_of p s' = addr_of p s ∧ is_find_store p c = false)) →
  inv s'.
Proof.
  intros [I1 I2 I3 I4 I5] Hi Ht Hd1 Hd2 Hp1 Hp2 Hw Hk Hl Hg.
  assert (i < length (threads s))%nat as Hlen by by eapply lookup_lt_Some. split; rewrite ?Ht.
  - by eapply owned_goto.
  - intros p. eapply owned_goto; [apply I2|done| |apply Hp2]. cbv beta. rewrite bool_decide_eq_false, bool_decide_eq_true. apply Hp1.
  - intros j d. destruct (decide (j = i)) as [-> | Hj]; [rewrite list_lookup_insert_eq by done; by intros [= <-]|].
    rewrite list_lookup_insert_ne by done. intros Hjd. apply (knows_other c d s s'); [by eapply I3|done|..].
    + intros Hc. destruct (holds_dll d) eqn:Ed; [|done]. destruct Hj. by eapply owned_unique.
    + intros p Hc Ed. destruct Hj. by eapply (owned_unique _ _ _ _ _ _ _ (I2 p)); [..|apply bool_decide_eq_true_2|apply bool_decide_eq_true_2].
  - by eapply kept_goto.
  - intros p. by eapply kept_goto.
Qed.

(** A step that only moves the thread. *)
Lemma inv_local i c c' s :
  inv s → threads s !! i = Some c → holds_dll c' = holds_dll c → holds_proc c' = holds_proc c →
  is_load_store c = false → (∀ p, is_find_store p c = false) → knows s c' → inv (set_thread i c' s).
Proof.
  intros HI Hi Ed Ep El Ef Hk. pose proof (inv_dll _ HI) as Id. pose proof (inv_proc _ HI) as Ip.
  eapply (inv_goto i c c' s); cbn; rewrite ?Ed, ?Ep; try done.
  - congruence.
  - destruct (holds_dll c) eqn:E; [|done]. apply Id. eauto.
  - intros p. case_bool_decide as E; [|done]. apply (Ip p). exists c. split; [done|]. by apply bool_decide_eq_true_2.
  - split; [by left|]. intros p. by left.
  - by right; right.
  - intros p. by right; right.
Qed.

Lemma holder_dll i c s : inv s → threads s !! i = Some c → holds_dll c = true → dll_mu s = Some i.
Proof. intros HI Hi Hc. apply (inv_dll _ HI). eauto. Qed.

Lemma holder_proc i c p s : inv s → threads s !! i = Some c → holds_proc c = Some p → proc_mu s !! p = Some i.
Proof. intros HI Hi Hc. apply (inv_proc _ HI p). exists c. split; [done|]. by apply bool_decide_eq_true_2. Qed.

(** With the mutex held, no other thread is about to write the variable. *)
Lemma no_load_store i c s : inv s → threads s !! i = Some c → holds_dll c = true → is_load_store c = false → loads s = one (module s).
Proof.
  intros HI Hi Hc Hs. destruct (inv_loads _ HI) as [H|(j & d & Hj & Hd)]; [done|].
  assert (holds_dll d = true) as Hh by (by destruct d). pose proof (owned_unique _ _ _ _ _ _ _ (inv_dll _ HI) Hi Hj Hc Hh) as ->. congruence.
Qed.

Lemma no_find_store i c p s : inv s → threads s !! i = Some c → holds_proc c = Some p → is_find_store p c = false →
  gets_of p s = one (addr_of p s).
Proof.
  intros HI Hi Hc Hs. destruct (inv_gets _ HI p) as [H|(j & d & Hj & Hd)]; [done|].
  assert (holds_proc d = Some p) as Hh by (destruct d; try done; cbn in *; by apply String.eqb_eq in Hd as ->).
  pose proof (holder_proc _ _ _ _ HI Hi Hc). pose proof (holder_proc _ _ _ _ HI Hj Hh). congruence.
Qed.

Lemma dll_same i c c' s : inv s → threads s !! i = Some c → holds_dll c' = holds_dll c →
  dll_mu s = (if holds_dll c' then Some i else if holds_dll c then None else dll_mu s).
Proof. intros HI Hi ->. destruct (holds_dll c) eqn:E; [|done]. by eapply holder_dll. Qed.

Lemma proc_same i c c' s : inv s → threads s !! i = Some c → holds_proc c' = holds_proc c →
  ∀ p, proc_mu s !! p = if bool_decide (holds_proc c' = Some p) then Some i
    else if bool_decide (holds_proc c = Some p) then None else proc_mu s !! p.
Proof. intros HI Hi -> p. case_bool_decide as E; [|done]. by eapply holder_proc. Qed.

Lemma knows_after_load i c k ok s : inv s → threads s !! i = Some c → holds_proc c = k → (∀ p, is_find_store p c = false) →
  (∀ p, k = Some p → addr_of p s = 0) → (ok = true → module s ≠ 0) → knows s (after_load k ok).
Proof.
  intros HI Hi Hc Hs Ha Hm. destruct k as [p|]; [|by split]. destruct ok; [|by split].
  split; [|by apply Ha]. split; [by apply Hm|]. rewrite (no_find_store i c p s HI Hi Hc (Hs p)), (Ha p eq_refl). done.
Qed.

Lemma after_load_holds k ok : holds_dll (after_load k ok) = false ∧ holds_proc (after_load k ok) = k.
Proof. by destruct k, ok. Qed.

Lemma got_inv i p answer s : inv s → threads s !! i = Some (GetProc p) → answer ≠ 0 →
  inv (set_thread i (FindStore p answer) (got p answer s)).
Proof.
  intros HI Hi Hn. pose proof (inv_knows _ HI i _ Hi) as [K1 K2]. cbn in K1, K2.
  assert (∀ q, gets_of q (got p answer s) = if bool_decide (q = p) then [answer] else gets_of q s) as Hg.
  { intros q. unfold got, gets_of at 1. cbn. case_bool_decide as E; [subst|by rewrite lookup_insert_ne].
    rewrite lookup_insert_eq. cbn. by rewrite (proj2 K1). }
  eapply (inv_goto i (GetProc p) (FindStore p answer) s); try done.
  - exact (proc_same i _ _ s HI Hi eq_refl).
  - split; [by left|]. intros q. destruct (decide (q = p)) as [-> | Hq]; [by right|left]. split; [done|].
    change (gets_of q (got p answer s) = gets_of q s). by rewrite Hg, bool_decide_eq_false_2.
  - split; [|done]. split_and!; [apply K1|done|]. change (gets_of p (got p answer s) = [answer]). by rewrite Hg, bool_decide_eq_true_2.
  - by right; right.
  - intros q. right. cbn [is_find_store]. destruct (String.eqb_spec p q) as [-> | Hq]; [by left|right]. split_and!; [|done|done].
    change (gets_of q (got p answer s) = gets_of q s). by rewrite Hg, bool_decide_eq_false_2.
Qed.

Lemma found_inv i p a s : inv s → threads s !! i = Some (FindStore p a) → inv (set_thread i (FindUnlock p true) (set_addr p a s)).
Proof.
  intros HI Hi. pose proof (inv_knows _ HI i _ Hi) as [K1 K2]. cbn in K1, K2. destruct K1 as (Km & Ka & Kg).
  assert (∀ q, addr_of q (set_addr p a s) = if bool_decide (q = p) then a else addr_of q s) as Hg.
  { intros q. unfold set_addr, addr_of at 1. cbn. case_bool_decide as E; [subst; by rewrite lookup_insert_eq|by rewrite lookup_insert_ne]. }
  eapply (inv_goto i (FindStore p a) (FindUnlock p true) s); try done.
  - exact (proc_same i _ _ s HI Hi eq_refl).
  - split; [by left|]. intros q. destruct (decide (q = p)) as [-> | Hq]; [by right|left]. split; [|done].
    change (addr_of q (set_addr p a s) = addr_of q s). by rewrite Hg, bool_decide_eq_false_2.
  - split; [|done]. intros _. change (addr_of p (set_addr p a s) ≠ 0). by rewrite Hg, bool_decide_eq_true_2.
  - by right; right.
  - intros q. cbn [is_find_store]. destruct (String.eqb_spec p q) as [-> | Hq]; [left|right; right; split_and!; [done| |done]].
    + change (gets_of q s = one (addr_of q (set_addr q a s))). rewrite Hg, bool_decide_eq_true_2, Kg by done.
      unfold one. by rewrite (proj2 (Z.eqb_neq _ _) Ka).
    + change (addr_of q (set_addr p a s) = addr_of q s). by rewrite Hg, bool_decide_eq_false_2.
Qed.

Lemma find_step_inv i answer c s s' :
  inv s → threads s !! i = Some c → find_step i answer c s = Some s' → inv s'.
Proof.
  intros HI Hi. pose proof (inv_knows _ HI i c Hi) as [K1 K2].
  destruct c as [p|p|p| | | | | | | |p|p a|p ok|]; cbn [find_step]; try done.
  - intros [= <-]. destruct (Z.eqb_spec (addr_of p s) 0); by apply (inv_local i (FindFast p)).
  - destruct (proc_mu s !! p) as [j|] eqn:Ep; [done|]. intros [= <-].
    eapply (inv_goto i (FindLock p) (FindCheck p) s); try done.
    + by intros q _ [= <-].
    + intros q. cbn. destruct (decide (q = p)) as [-> | Hq]; [rewrite lookup_partial_alter_eq; by rewrite bool_decide_eq_true_2|].
      rewrite lookup_partial_alter_ne by done. by rewrite !bool_decide_eq_false_2 by congruence.
    + split; [by left|intros q; by left].
    + by right; right.
    + intros q. by right; right.
  - intros [= <-]. destruct (Z.eqb_spec (addr_of p s) 0); by apply (inv_local i (FindCheck p)).
  - destruct (Z.eqb_spec answer 0); intros [= <-]; [by apply (inv_local i (GetProc p))|by apply got_inv].
  - intros [= <-]. by apply found_inv.
  - intros [= <-]. eapply (inv_goto i (FindUnlock p ok) (Returned (Some p) ok) s); try done.
    + intros q. cbn. destruct (decide (q = p)) as [-> | Hq]; [rewrite lookup_partial_alter_eq; by rewrite (bool_decide_eq_true_2 (Some p = Some p))|].
      rewrite lookup_partial_alter_ne by done. by rewrite !bool_decide_eq_false_2 by congruence.
    + split; [by left|intros q; by left].
    + by right; right.
    + intros q. by right; right.
Qed.

Lemma load_store_inv i c k m s : inv s → threads s !! i = Some c → (c = LoadEx k ∨ c = LoadPlain k) → m ≠ 0 →
  inv (set_thread i (LoadStore k m) (loaded m s)).
Proof.
  intros HI Hi Hc Hm. pose proof (inv_knows _ HI i c Hi) as Hk.
  assert (holds_dll c = true ∧ holds_proc c = k ∧ module s = 0 ∧ loads s = [] ∧
    match k with Some p => addr_of p s = 0 | None => True end) as (H1 & H2 & H3 & H4 & H5)
    by (destruct Hc as [-> | ->]; destruct Hk as [[? ?] ?]; by split_and!).
  eapply (inv_goto i c (LoadStore k m) s); try done.
  - congruence.
  - by cbn; eapply holder_dll.
  - intros p Hp. cbn. congruence.
  - exact (proc_same i c (LoadStore k m) s HI Hi (eq_sym H2)).
  - split; [by right|intros q; by left].
  - split; [|by destruct k]. split_and!; [done|done|]. cbn. by rewrite H4.
  - by right; left.
  - intros q. right; right. split_and!; [done|done|]. by destruct Hc as [-> | ->].
Qed.

Lemma load_step_inv i answer c s s' :
  inv s → threads s !! i = Some c → load_step i answer c s = Some s' → inv s'.
Proof.
  intros HI Hi. pose proof (inv_knows _ HI i c Hi) as [K1 K2].
  destruct c as [| | |k|k|k|k|k|k m|k ok| | | |]; cbn [load_step]; try done.
  - intros [= <-]. destruct (Z.eqb_spec (module s) 0).
    + apply (inv_local i (LoadFast k)); done.
    + destruct (after_load_holds k true). apply (inv_local i (LoadFast k)); try done.
      apply (knows_after_load i (LoadFast k)); try done. by intros p ->.
  - destruct (dll_mu s) as [j|] eqn:Ed; [done|]. intros [= <-].
    eapply (inv_goto i (LoadLock k) (LoadCheck k) s); try done.
    + exact (proc_same i _ _ s HI Hi eq_refl).
    + split; [by left|intros q; by left].
    + by right; right.
    + intros q. by right; right.
  - intros [= <-]. destruct (Z.eqb_spec (module s) 0) as [E|E]; apply (inv_local i (LoadCheck k)); try done.
    split; [|done]. split; [done|]. by rewrite (no_load_store i (LoadCheck k) s HI Hi eq_refl eq_refl), E.
  - destruct (Z.eqb_spec answer 0); intros [= <-]; [by apply (inv_local i (LoadEx k))|].
    by apply (load_store_inv i (LoadEx k)); [..|left|].
  - destruct (Z.eqb_spec answer 0); intros [= <-]; [by apply (inv_local i (LoadPlain k))|].
    by apply (load_store_inv i (LoadPlain k)); [..|right|].
  - cbn in K1. destruct K1 as (Km & Kn & Kl). intros [= <-].
    eapply (inv_goto i (LoadStore k m) (LoadUnlock k true) s); try done.
    + by cbn; eapply holder_dll.
    + exact (proc_same i _ _ s HI Hi eq_refl).
    + split; [by right|intros q; by left].
    + left. cbn. rewrite Kl. unfold one. by rewrite (proj2 (Z.eqb_neq _ _) Kn).
    + intros q. by right; right.
  - intros [= <-]. destruct (after_load_holds k ok) as [E1 E2].
    eapply (inv_goto i (LoadUnlock k ok) (after_load k ok) s); try done; rewrite ?E1; try done.
    + intros p Hp. cbn in Hp. congruence.
    + exact (proc_same i (LoadUnlock k ok) (after_load k ok) s HI Hi E2).
    + split; [by left|intros q; by left].
    + eapply (knows_after_load i (LoadUnlock k ok) k ok s); try done. by intros p ->.
    + by right; right.
    + intros q. by right; right.
Qed.

Lemma exec_lazy_inv i answer s s' : inv s → exec i answer s = Some s' → inv s'.
Proof.
  intros HI. unfold exec. destruct (threads s !! i) as [c|] eqn:Hi; [|done].
  destruct (find_step i answer c s) as [s1|] eqn:Hf; [intros [= <-]; by eapply find_step_inv|by apply load_step_inv].
Qed.

Lemma initial_inv ks : inv (initial ks).
Proof.
  assert (∀ i c, (starting <$> ks) !! i = Some c → ∃ k, c = starting k) as Hs.
  { intros i c Hi. rewrite list_lookup_fmap in Hi. apply fmap_Some in Hi as (k & _ & ->). by exists k. }
  split; cbn.
  - intros i. split; [done|]. intros (c & Hc & Hh). destruct (Hs i c Hc) as [[p|] ->]; done.
  - intros p i. rewrite lookup_empty. split; [done|]. intros (c & Hc & Hh). destruct (Hs i c Hc) as [[q|] ->]; done.
  - intros i c Hc. destruct (Hs i c Hc) as [[p|] ->]; by split.
  - by left.
  - intros p. by left.
Qed.

Lemma reachable_lazy_inv ks s : reachable ks s → inv s.
Proof.
  intros H. assert (inv (initial ks) → inv s) as Hx; [|apply Hx, initial_inv].
  induction H as [|x y z (i & answer & He) _ IH]; [done|]. intros Hx. apply IH. by eapply exec_lazy_inv.
Qed.

(** ** Progress and termination *)

Definition returned (c : pc) : bool := match c with Returned _ _ => true | _ => false end.
Definition finished (s : sys) : Prop := Forall (λ c, returned c = true) (threads s).

(** Only Lock waits. *)
Lemma exec_ready i c s : threads s !! i = Some c → returned c = false →
  (∀ p, c = FindLock p → proc_mu s !! p = None) → (∀ k, c = LoadLock k → dll_mu s = None) → ∃ s', runnable s s'.
Proof.
  intros Hi Hr Hp Hd. cut (∃ s', exec i 0 s = Some s'); [intros [s' H]; by exists s', i, 0|].
  unfold exec. rewrite Hi. destruct c as [p|p|p|k|k|k|k|k|k m|k ok|p|p a|p ok|k ok]; cbn; try (eexists; reflexivity); [| |done].
  - rewrite (Hp p eq_refl). eexists. reflexivity.
  - rewrite (Hd k eq_refl). eexists. reflexivity.
Qed.

Lemma progress s : inv s → finished s ∨ ∃ s', runnable s s'.
Proof.
  intros HI. destruct (decide (finished s)) as [Hf|Hf]; [by left|right].
  apply not_Forall_Exists in Hf; [|apply _]. apply Exists_exists in Hf as (c & Hc & Hr). apply list_elem_of_lookup in Hc as [i Hi].
  assert (returned c = false) as Hn by by apply not_true_is_false.
  destruct (dll_mu s) as [j|] eqn:Ed.
  { destruct (proj1 (inv_dll _ HI j) Ed) as (d & Hj & Hh). eapply (exec_ready j d); [done|by destruct d|by intros p ->|by intros k ->]. }
  destruct (match c with FindLock p => proc_mu s !! p | _ => None end) as [j|] eqn:Ep.
  - destruct c as [|p| | | | | | | | | | | |]; try done. destruct (proj1 (inv_proc _ HI p j) Ep) as (d & Hj & Hh).
    apply bool_decide_eq_true in Hh. eapply (exec_ready j d); [done|by destruct d|by intros q ->|done].
  - eapply (exec_ready i c); [done..| |done]. by intros p ->.
Qed.

Definition rank (c : pc) : nat :=
  match c with
  | FindFast _ => 13 | FindLock _ => 12 | FindCheck _ => 11 | LoadFast _ => 10 | LoadLock _ => 9 | LoadCheck _ => 8
  | LoadEx _ => 7 | LoadPlain _ => 6 | LoadStore _ _ => 5 | LoadUnlock _ _ => 4 | GetProc _ => 3 | FindStore _ _ => 2
  | FindUnlock _ _ => 1 | Returned _ _ => 0
  end.
Definition remaining (s : sys) : nat := sum_list_with rank (threads s).

Lemma sum_goto l i c c' : l !! i = Some c → (rank c' < rank c)%nat → (sum_list_with rank (<[i := c']> l) < sum_list_with rank l)%nat.
Proof.
  revert i. induction l as [|d l IH]; intros [|i] Hi Hr; [done..| |].
  - injection Hi as ->. cbn. lia.
  - specialize (IH i Hi Hr). change (<[S i := c']> (d :: l)) with (d :: <[i := c']> l). cbn [sum_list_with]. lia.
Qed.

Lemma exec_remaining i answer s s' : exec i answer s = Some s' → (remaining s' < remaining s)%nat.
Proof.
  unfold exec. destruct (threads s !! i) as [c|] eqn:Hi; [|done]. intros He.
  assert (∃ c', threads s' = <[i := c']> (threads s) ∧ (rank c' < rank c)%nat) as (c' & Ht & Hr);
    [|unfold remaining; rewrite Ht; by eapply sum_goto].
  destruct c as [p|p|p|k|k|k|k|k|k m|k ok|p|p a|p ok|k ok]; cbn in He;
    repeat case_match; simplify_eq; eexists; (split; [reflexivity|]); cbn; try lia; try (by destruct k; cbn; lia).
  all: destruct k, ok; cbn; lia.
Qed.

Lemma nsteps_remaining n s s' : nsteps runnable n s s' → (n + remaining s' ≤ remaining s)%nat.
Proof. induction 1 as [|n x y z (i & answer & He) _ IH]; [done|]. apply exec_remaining in He. lia. Qed.

Lemma remaining_initial ks : (remaining (initial ks) ≤ 13 * length ks)%nat.
Proof. unfold remaining. cbn. induction ks as [|k ks IH]; cbn; [lia|]. destruct k; cbn; lia. Qed.

(** What was stored stays. *)
Lemma exec_stable i answer s s' : inv s → exec i answer s = Some s' →
  (module s ≠ 0 → module s' = module s) ∧ ∀ p, addr_of p s ≠ 0 → addr_of p s' = addr_of p s.
Proof.
  intros HI. unfold exec. destruct (threads s !! i) as [c|] eqn:Hi; [|done]. intros He.
  pose proof (inv_knows _ HI i c Hi) as [K1 K2].
  destruct c as [p|p|p|k|k|k|k|k|k m|k ok|p|p a|p ok|k ok]; cbn in He; repeat case_match; simplify_eq; try done.
  1-2: split; [|done]; by destruct K1.
  split; [done|]. intros q Hq. unfold addr_of at 1. cbn. destruct (decide (q = p)) as [-> | Hn]; [done|by rewrite lookup_insert_ne].
Qed.

Lemma runs_stable s s' : inv s → rtc runnable s s' →
  (module s ≠ 0 → module s' = module s) ∧ ∀ p, addr_of p s ≠ 0 → addr_of p s' = addr_of p s.
Proof.
  intros HI H. induction H as [|x y z (i & answer & He) _ IH]; [done|].
  destruct (exec_stable _ _ _ _ HI He) as [S1 S2]. destruct (IH (exec_lazy_inv _ _ _ _ HI He)) as [T1 T2]. split.
  - intros Hm. by rewrite T1; rewrite S1.
  - intros p Hp. by rewrite T2; rewrite S2.
Qed.

Lemma loaded_once s : inv s → (length (loads s) ≤ 1)%nat ∧ (module s ≠ 0 → loads s = [module s]).
Proof.
  intros HI. destruct (inv_loads _ HI) as [-> |(i & c & Hi & Hc)].
  - unfold one. by destruct (Z.eqb_spec (module s) 0); split; cbn; try lia.
  - destruct c; try done. destruct (inv_knows _ HI i _ Hi) as [(Hm & _ & ->) _]. by split.
Qed.

Lemma got_once s p : inv s → (length (gets_of p s) ≤ 1)%nat ∧ (addr_of p s ≠ 0 → gets_of p s = [addr_of p s]).
Proof.
  intros HI. destruct (inv_gets _ HI p) as [-> |(i & c & Hi & Hc)].
  - unfold one. by destruct (Z.eqb_spec (addr_of p s) 0); split; cbn; try lia.
  - destruct c as [| | | | | | | | | | |q a| |]; try done. cbn in Hc. apply String.eqb_eq in Hc as ->.
    destruct (inv_knows _ HI i _ Hi) as [(_ & _ & ->) Ha]. by split.
Qed.

(** C40. wintun.dll is loaded once.  However many threads look procedures up or load the
    library, in whatever order they run and whatever Windows answers: after [n] steps
    the library has been loaded at most once and each procedure looked up
    successfully at most once, the variables hold what Windows answered and keep it,
    a call that returned without an error finds its address there, and unless every
    call has returned some thread can go on, so that no order of the mutexes blocks;
    there are at most thirteen steps per call. *)
Theorem lazy_loading ks s n : nsteps runnable n (initial ks) s →
  (n ≤ 13 * length ks)%nat ∧
  (length (loads s) ≤ 1)%nat ∧ (module s ≠ 0 → loads s = [module s]) ∧
  (∀ p, (length (gets_of p s) ≤ 1)%nat ∧ (addr_of p s ≠ 0 → gets_of p s = [addr_of p s])) ∧
  (∀ i k, threads s !! i = Some (Returned k true) → match k with Some p => addr_of p s ≠ 0 | None => module s ≠ 0 end) ∧
  (∀ s', rtc runnable s s' → (module s ≠ 0 → module s' = module s) ∧ ∀ p, addr_of p s ≠ 0 → addr_of p s' = addr_of p s) ∧
  (finished s ∨ ∃ s', runnable s s').
Proof.
  intros Hn. assert (inv s) as HI by (apply (reachable_lazy_inv ks), rtc_nsteps; by exists n).
  destruct (loaded_once s HI). split_and!; try done.
  - pose proof (nsteps_remaining _ _ _ Hn). pose proof (remaining_initial ks). lia.
  - intros p. by apply got_once.
  - intros i k Hi. exact (proj1 (inv_knows _ HI i _ Hi) eq_refl).
  - intros s' Hs. by apply runs_stable.
  - by apply progress.
Qed.

(** ** Runs *)

Fixpoint run (l : list (nat * Z)) (s : sys) : option sys :=
  match l with
  | [] => Some s
  | (i, answer) :: l => match exec i answer s with Some s => run l s | None => None end
  end.

Lemma run_nsteps l : ∀ s s', run l s = Some s' → nsteps runnable (length l) s s'.
Proof.
  induction l as [|[i answer] l IH]; cbn; intros s s'; [intros [= <-]; constructor|].
  destruct (exec i answer s) as [s1|] eqn:E; [|done]. intros H. econstructor; [by exists i, answer|by apply IH].
Qed.

(** A thread alone: the fast check, the mutex, the library (the first way fails), the
    procedure. *)
Definition alone : list (nat * Z) :=
  [(0%nat, 0); (0%nat, 0); (0%nat, 0); (0%nat, 0); (0%nat, 0); (0%nat, 0); (0%nat, 0); (0%nat, 77); (0%nat, 0); (0%nat, 0); (0%nat, 5); (0%nat, 0); (0%nat, 0)].
(** Two threads look the same procedure up; the second waits until the first is done. *)
Definition two_threads : list (nat * Z) := [(1%nat, 0)] ++ alone ++ [(1%nat, 0); (1%nat, 0); (1%nat, 0)].

Definition ex_callers : list caller := [Some "WintunOpenAdapter"; Some "WintunOpenAdapter"].
Definition ex_end : sys := default (initial []) (run two_threads (initial ex_callers)).

Lemma lazy_loading_witness :
  nsteps runnable 17 (initial ex_callers) ex_end ∧ addr_of "WintunOpenAdapter" ex_end = 5 ∧ loads ex_end = [77] ∧
  threads ex_end = [Returned (Some "WintunOpenAdapter") true; Returned (Some "WintunOpenAdapter") true] ∧
  gets_of "WintunOpenAdapter" ex_end = [5] ∧ (17 ≤ 13 * length ex_callers)%nat.
Proof.
  assert (run two_threads (initial ex_callers) = Some ex_end) as Hr by (vm_compute; reflexivity).
  pose proof (run_nsteps two_threads (initial ex_callers) ex_end Hr) as Hn. change (length two_threads) with 17%nat in Hn.
  destruct (lazy_loading ex_callers ex_end 17 Hn) as (H1 & _ & _ & H2 & _).
  split; [exact Hn|]. split; [vm_compute; reflexivity|]. split; [vm_compute; reflexivity|]. split; [vm_compute; reflexivity|].
  split; [|exact H1]. apply (H2 "WintunOpenAdapter"). vm_compute. discriminate.
Defined.

End Lazy.

Module Wintun.

(** ** wintun.dll *)

Inductive wcall :=
  | LoadLibraryEx | LoadLibrary | GetProcAddress (p : string)
  | WintunCreateAdapter (name tunnelType : string) (guid : option Z) | WintunOpenAdapter (name : string)
  | WintunCloseAdapter (h : Z) | WintunDeleteDriver | WintunGetAdapterLUID (h : Z) | WintunGetRunningDriverVersion
  | WintunStartSession (h capacity : Z) | WintunEndSession (h : Z) | WintunGetReadWaitEvent (h : Z)
  | WintunReceivePacket (h : Z) | WintunReleaseReceivePacket (h : Z) | WintunAllocateSendPacket (h n : Z) | WintunSendPacket (h : Z).

Inductive werr := EINVAL | Errno (e : Z) | EUnableToLoad | ELoading (e : werr) | EGetting (p : string).

(** What a call answers after the calls before it: the result (zero for a failure) and
    the error code; the LUID that is written; a packet in the ring. *)
Class WtEnv := {
  wt_result : list wcall → wcall → Z;
  wt_errno : list wcall → wcall → Z;
  wt_luid : Z → Z;
  wt_packet : list wcall → list byte
}.

(** Of [a_closed], the calls of WintunCloseAdapter, and [a_collected] only proofs speak. *)
Record Adapter := mkAdapter { a_handle : Z; a_finalizer : bool; a_closed : nat; a_collected : bool }.
Record Session := mkSession { s_handle : Z }.

Record win := mkWin {
  w_module : Z; w_addr : gmap string Z;
  w_objs : list Adapter;
  w_calls : list wcall }.

Abbreviation wm := (stm win werr).

Definition w_addr_of (p : string) (s : win) : Z := default 0 (w_addr s !! p).
Definition w_set_module (m : Z) : wm unit := λ s, (Ok tt, mkWin m (w_addr s) (w_objs s) (w_calls s)).
Definition w_set_addr (p : string) (a : Z) : wm unit := λ s, (Ok tt, mkWin (w_module s) (<[p := a]> (w_addr s)) (w_objs s) (w_calls s)).
Definition w_set_objs (l : list Adapter) : wm unit := λ s, (Ok tt, mkWin (w_module s) (w_addr s) l (w_calls s)).

Section Bindings.
Context {E : WtEnv}.

(** A call: the result and the error code. *)
Definition dllcall (c : wcall) : wm (Z * Z) := λ s,
  (Ok (wt_result (w_calls s) c, wt_errno (w_calls s) c), mkWin (w_module s) (w_addr s) (w_objs s) (c :: w_calls s)).

(** ** dll.go, one thread *)

Definition Load : wm unit :=
  s ← get_st;
  if negb (w_module s =? 0) then mret tt
  else
    r ← dllcall LoadLibraryEx;
    r ← (if r.1 =? 0 then dllcall LoadLibrary else mret r);
    if r.1 =? 0 then throw EUnableToLoad else w_set_module r.1.

Definition Find (p : string) : wm unit :=
  s ← get_st;
  if negb (w_addr_of p s =? 0) then mret tt
  else
    o ← try_ Load;
    match o with
    | Err e => throw (ELoading e)
    | _ =>
        r ← dllcall (GetProcAddress p);
        if r.1 =? 0 then throw (EGetting p) else w_set_addr p r.1
    end.

(** Panics if the procedure is not found. *)
Definition Addr (p : string) : wm Z := λ s,
  match Find p s with
  | (Ok _, s) => (Ok (w_addr_of p s), s)
  | (_, s) => (Panic, s)
  end.

(** [syscall.Syscall(proc.Addr(), ...)] *)
Definition invoke (p : string) (c : wcall) : wm (Z * Z) := _ ← Addr p; dllcall c.

Definition FileVersion (ms ls : Z) : string :=
  let byte_of v := Strconv.Itoa (Z.land v 0xff) in
  byte_of (Z.shiftr ms 16) +:+ "." +:+ byte_of ms +:+
  (if Z.land (Z.shiftr ls 16) 0xff =? 0 then "" else "." +:+ byte_of (Z.shiftr ls 16)) +:+
  (if Z.land ls 0xff =? 0 then "" else "." +:+ byte_of ls).
(** The resource holds the two words of the version, if it can be read. *)
Definition Version (resource : option (Z * Z)) : wm string :=
  o ← try_ Load;
  mret (match o, resource with Ok _, Some (ms, ls) => FileVersion ms ls | _, _ => "unknown" end).

(** ** wintun.go *)

(** [windows.UTF16PtrFromString] refuses a NUL. *)
Definition utf16 (s : string) : wm unit := 
  if bool_decide (mk8 0 ∈ to_bytes s) then throw EINVAL else mret tt.

Definition new_adapter (h : Z) : wm nat :=
  s ← get_st; w_set_objs (w_objs s ++ [mkAdapter h true 0 false]) ;; mret (length (w_objs s)).

Definition CreateAdapter (name tunnelType : string) (requestedGUID : option Z) : wm nat :=
  utf16 name ;;
  utf16 tunnelType ;;
  Find "WintunCreateAdapter" ;;
  r ← invoke "WintunCreateAdapter" (WintunCreateAdapter name tunnelType requestedGUID);
  if r.1 =? 0 then throw (Errno r.2) else new_adapter r.1.

Definition OpenAdapter (name : string) : wm nat :=
  utf16 name ;;
  Find "WintunOpenAdapter" ;;
  r ← invoke "WintunOpenAdapter" (WintunOpenAdapter name);
  if r.1 =? 0 then throw (Errno r.2) else new_adapter r.1.

Definition adapter (o : nat) : wm Adapter := λ s, match w_objs s !! o with Some a => (Ok a, s) | None => (Panic, s) end.
Definition set_finalizer (o : nat) (b : bool) : wm unit := λ s,
  (Ok tt, mkWin (w_module s) (w_addr s) (alter (λ a, mkAdapter (a_handle a) b (a_closed a) (a_collected a)) o (w_objs s)) (w_calls s)).
Definition count_close (o : nat) : wm unit := λ s,
  (Ok tt, mkWin (w_module s) (w_addr s) (alter (λ a, mkAdapter (a_handle a) (a_finalizer a) (S (a_closed a)) (a_collected a)) o (w_objs s)) (w_calls s)).

Definition closeAdapter (o : nat) : wm unit :=
  a ← adapter o;
  _ ← invoke "WintunCloseAdapter" (WintunCloseAdapter (a_handle a));
  count_close o.

Definition Close (o : nat) : wm unit :=
  Find "WintunCloseAdapter" ;;
  a ← adapter o;
  set_finalizer o false ;;
  r ← invoke "WintunCloseAdapter" (WintunCloseAdapter (a_handle a));
  count_close o ;;
  if r.1 =? 0 then throw (Errno r.2) else mret tt.

(** The collector runs the finalizer of an unreachable object once. *)
Definition set_collected (o : nat) : wm unit := λ s,
  (Ok tt, mkWin (w_module s) (w_addr s) (alter (λ a, mkAdapter (a_handle a) false (a_closed a) true) o (w_objs s)) (w_calls s)).
Definition collect (o : nat) : wm unit :=
  a ← adapter o;
  set_collected o ;;
  if a_finalizer a then closeAdapter o else mret tt.

Definition Uninstall : wm unit :=
  Find "WintunDeleteDriver" ;;
  r ← invoke "WintunDeleteDriver" WintunDeleteDriver;
  if r.1 =? 0 then throw (Errno r.2) else mret tt.

Definition RunningVersion : wm Z :=
  Find "WintunGetRunningDriverVersion" ;;
  r ← invoke "WintunGetRunningDriverVersion" WintunGetRunningDriverVersion;
  if wrap32 r.1 =? 0 then throw (Errno r.2) else mret (wrap32 r.1).

Definition LUID (o : nat) : wm Z :=
  a ← adapter o;
  _ ← invoke "WintunGetAdapterLUID" (WintunGetAdapterLUID (a_handle a));
  mret (wt_luid (a_handle a)).

(** ** session.go *)

Definition StartSession (o : nat) (capacity : Z) : wm Session :=
  a ← adapter o;
  r ← invoke "WintunStartSession" (WintunStartSession (a_handle a) capacity);
  if r.1 =? 0 then throw (Errno r.2) else mret (mkSession r.1).

(** The receiver is a copy: that its handle is cleared is not seen by the caller. *)
Definition End_ (session : Session) : wm Session :=
  _ ← invoke "WintunEndSession" (WintunEndSession (s_handle session));
  mret session.

Definition ReadWaitEvent (session : Session) : wm Z :=
  r ← invoke "WintunGetReadWaitEvent" (WintunGetReadWaitEvent (s_handle session));
  mret r.1.

Definition ReceivePacket (session : Session) : wm (list byte) :=
  r ← invoke "WintunReceivePacket" (WintunReceivePacket (s_handle session));
  if r.1 =? 0 then throw (Errno r.2) else s ← get_st; mret (wt_packet (w_calls s)).

(** The address of the first byte is passed. *)
Definition ReleaseReceivePacket (session : Session) (packet : list byte) : wm unit :=
  _ ← Addr "WintunReleaseReceivePacket";
  match packet with
  | [] => crash
  | _ => _ ← dllcall (WintunReleaseReceivePacket (s_handle session)); mret tt
  end.

(** The slice, by its length; a negative one panics. *)
Definition AllocateSendPacket (session : Session) (packetSize : Z) : wm Z :=
  r ← invoke "WintunAllocateSendPacket" (WintunAllocateSendPacket (s_handle session) (packetSize mod 2 ^ 64));
  if r.1 =? 0 then throw (Errno r.2)
  else if packetSize <? 0 then crash else mret packetSize.

Definition SendPacket (session : Session) (packet : list byte) : wm unit :=
  _ ← Addr "WintunSendPacket";
  match packet with
  | [] => crash
  | _ => _ ← dllcall (WintunSendPacket (s_handle session)); mret tt
  end.

(** ** One thread of the machine is the function *)

Definition machine (s : win) (c : Lazy.pc) : Lazy.sys := Lazy.mkSys (w_module s) (w_addr s) None ∅ [c] [] ∅.

(** A machine with one thread: its variables, and where the thread is. *)
Definition located (x : Lazy.pc * Z * gmap string Z) (y : Lazy.sys) : Prop :=
  let '(c, m, a) := x in
  Lazy.threads y = [c] ∧ Lazy.module y = m ∧ Lazy.addr y = a ∧
  Lazy.dll_mu y = (if Lazy.holds_dll c then Some 0%nat else None) ∧
  ∀ p, Lazy.proc_mu y !! p = if bool_decide (Lazy.holds_proc c = Some p) then Some 0%nat else None.

(** Its steps. *)
Definition next (answer : Z) (x : Lazy.pc * Z * gmap string Z) : Lazy.pc * Z * gmap string Z :=
  let '(c, m, a) := x in
  let addr p := default 0 (a !! p) in
  match c with
  | Lazy.FindFast p => (if addr p =? 0 then Lazy.FindLock p else Lazy.Returned (Some p) true, m, a)
  | Lazy.FindLock p => (Lazy.FindCheck p, m, a)
  | Lazy.FindCheck p => (if addr p =? 0 then Lazy.LoadFast (Some p) else Lazy.FindUnlock p true, m, a)
  | Lazy.LoadFast k => (if m =? 0 then Lazy.LoadLock k else Lazy.after_load k true, m, a)
  | Lazy.LoadLock k => (Lazy.LoadCheck k, m, a)
  | Lazy.LoadCheck k => (if m =? 0 then Lazy.LoadEx k else Lazy.LoadUnlock k true, m, a)
  | Lazy.LoadEx k => (if answer =? 0 then Lazy.LoadPlain k else Lazy.LoadStore k answer, m, a)
  | Lazy.LoadPlain k => (if answer =? 0 then Lazy.LoadUnlock k false else Lazy.LoadStore k answer, m, a)
  | Lazy.LoadStore k m' => (Lazy.LoadUnlock k true, m', a)
  | Lazy.LoadUnlock k ok => (Lazy.after_load k ok, m, a)
  | Lazy.GetProc p => (if answer =? 0 then Lazy.FindUnlock p false else Lazy.FindStore p answer, m, a)
  | Lazy.FindStore p v => (Lazy.FindUnlock p true, m, <[p := v]> a)
  | Lazy.FindUnlock p ok => (Lazy.Returned (Some p) ok, m, a)
  | Lazy.Returned k ok => (Lazy.Returned k ok, m, a)
  end.

(** The mutexes of a thread that keeps what it holds. *)
Lemma located_keep c c' m a m' a' y y' :
  located (c, m, a) y → Lazy.threads y' = <[0%nat := c']> (Lazy.threads y) → Lazy.module y' = m' → Lazy.addr y' = a' →
  Lazy.dll_mu y' = Lazy.dll_mu y → Lazy.proc_mu y' = Lazy.proc_mu y →
  Lazy.holds_dll c' = Lazy.holds_dll c → Lazy.holds_proc c' = Lazy.holds_proc c → located (c', m', a') y'.
Proof.
  intros (Ht & _ & _ & Hd & Hp) Ht' Hm' Ha' Hd' Hp' E1 E2. unfold located. rewrite Ht', Hd', Hp', E1, E2, Ht. by split_and!.
Qed.

Lemma next_exec answer x y : located x y → Lazy.returned x.1.1 = false →
  ∃ y', Lazy.exec 0 answer y = Some y' ∧ located (next answer x) y'.
Proof.
  destruct x as [[c m] a]. intros Hl Hr. pose proof Hl as (Ht & Hm & Ha & Hd & Hp). unfold Lazy.exec. rewrite Ht.
  change ([c] !! 0%nat) with (Some c).
  destruct c as [p|p|p|k|k|k|k|k|k m'|k ok|p|p v|p ok|k ok]; cbn [Lazy.find_step Lazy.load_step next]; [..|done].
  - eexists. split; [reflexivity|]. unfold Lazy.addr_of. rewrite Ha. destruct (_ =? 0); by apply (located_keep _ _ _ _ _ _ y _ Hl).
  - rewrite (Hp p), bool_decide_eq_false_2 by done. eexists. split; [reflexivity|]. unfold located. cbn. rewrite Ht.
    split_and!; try done. intros q. destruct (decide (q = p)) as [-> | Hq].
    + rewrite lookup_partial_alter_eq. by rewrite bool_decide_eq_true_2.
    + rewrite lookup_partial_alter_ne, (Hp q) by done. by rewrite !bool_decide_eq_false_2 by (cbn; congruence).
  - eexists. split; [reflexivity|]. unfold Lazy.addr_of. rewrite Ha. destruct (_ =? 0); by apply (located_keep _ _ _ _ _ _ y _ Hl).
  - eexists. split; [reflexivity|]. rewrite Hm. destruct (_ =? 0); [by apply (located_keep _ _ _ _ _ _ y _ Hl)|].
    destruct (Lazy.after_load_holds k true). by apply (located_keep _ _ _ _ _ _ y _ Hl).
  - cbn in Hd. rewrite Hd. eexists. split; [reflexivity|]. unfold located. cbn. rewrite Ht. by split_and!.
  - eexists. split; [reflexivity|]. rewrite Hm. destruct (_ =? 0); by apply (located_keep _ _ _ _ _ _ y _ Hl).
  - destruct (answer =? 0); (eexists; split; [reflexivity|]); by apply (located_keep _ _ _ _ _ _ y _ Hl).
  - destruct (answer =? 0); (eexists; split; [reflexivity|]); by apply (located_keep _ _ _ _ _ _ y _ Hl).
  - eexists. split; [reflexivity|]. by apply (located_keep _ _ _ _ _ _ y _ Hl).
  - eexists. split; [reflexivity|]. destruct (Lazy.after_load_holds k ok) as [E1 E2]. unfold located. cbn. rewrite Ht, E1, E2. by split_and!.
  - destruct (answer =? 0); (eexists; split; [reflexivity|]); by apply (located_keep _ _ _ _ _ _ y _ Hl).
  - eexists. split; [reflexivity|]. apply (located_keep _ _ _ _ _ _ y _ Hl); try done. cbn. by rewrite Ha.
  - eexists. split; [reflexivity|]. unfold located. cbn. rewrite Ht. split_and!; try done. intros q.
    destruct (decide (q = p)) as [-> | Hq]; [by rewrite lookup_partial_alter_eq|].
    rewrite lookup_partial_alter_ne, (Hp q) by done. by rewrite bool_decide_eq_false_2 by (cbn; congruence).
Qed.

(** A schedule of the thread. *)
Fixpoint nexts (answers : list Z) (x : Lazy.pc * Z * gmap string Z) : Lazy.pc * Z * gmap string Z :=
  match answers with [] => x | r :: answers => nexts answers (next r x) end.

Lemma nexts_runs answers : ∀ x y, located x y → ∃ y', rtc Lazy.runnable y y' ∧ located (nexts answers x) y'.
Proof.
  induction answers as [|r answers IH]; cbn; intros x y Hl; [by exists y|].
  destruct (Lazy.returned x.1.1) eqn:Er.
  - destruct x as [[c m] a]. destruct c; try done. by apply IH.
  - destruct (next_exec r x y Hl Er) as (y1 & He & Hl1). destruct (IH _ _ Hl1) as (y' & Hr & Hl'). exists y'. split; [|done].
    eapply rtc_l; [by exists 0%nat, r|done].
Qed.

(** The cases of Find. *)
Definition loading (s : win) : option (Z * list wcall) :=
  if negb (w_module s =? 0) then Some (w_module s, w_calls s)
  else
    let r1 := wt_result (w_calls s) LoadLibraryEx in
    if negb (r1 =? 0) then Some (r1, LoadLibraryEx :: w_calls s)
    else
      let r2 := wt_result (LoadLibraryEx :: w_calls s) LoadLibrary in
      if negb (r2 =? 0) then Some (r2, LoadLibrary :: LoadLibraryEx :: w_calls s) else None.

Lemma Load_cases s :
  match loading s with
  | Some (m, h) => Load s = (Ok tt, mkWin m (w_addr s) (w_objs s) h)
  | None => w_module s = 0 ∧
      Load s = (Err EUnableToLoad, mkWin (w_module s) (w_addr s) (w_objs s) (LoadLibrary :: LoadLibraryEx :: w_calls s))
  end.
Proof.
  unfold loading, Load, dllcall, mbind, stm_bind, get_st, throw, w_set_module. cbn.
  destruct (Z.eqb_spec (w_module s) 0) as [Em|Em]; cbn; [|by destruct s].
  destruct (Z.eqb_spec (wt_result (w_calls s) LoadLibraryEx) 0) as [E1|E1]; cbn.
  - by destruct (Z.eqb_spec (wt_result (LoadLibraryEx :: w_calls s) LoadLibrary) 0); cbn.
  - by rewrite (proj2 (Z.eqb_neq _ _) E1).
Qed.

(** The way of a thread through Load. *)
Lemma Load_nexts p s : ∃ answers, match loading s with
  | Some (m, _) => nexts answers (Lazy.LoadFast (Some p), w_module s, w_addr s) = (Lazy.GetProc p, m, w_addr s)
  | None => nexts answers (Lazy.LoadFast (Some p), w_module s, w_addr s) = (Lazy.FindUnlock p false, w_module s, w_addr s)
  end.
Proof.
  unfold loading. destruct (Z.eqb_spec (w_module s) 0) as [Em|Em]; cbn [negb].
  2: { exists [0]. cbn. by rewrite (proj2 (Z.eqb_neq _ _) Em). }
  set (r1 := wt_result _ _). set (r2 := wt_result _ _). rewrite Em.
  destruct (Z.eqb_spec r1 0) as [E1|E1]; cbn [negb]; [destruct (Z.eqb_spec r2 0) as [E2|E2]; cbn [negb]|].
  - by exists [0; 0; 0; 0; 0; 0].
  - exists [0; 0; 0; 0; r2; 0; 0]. cbn. by rewrite (proj2 (Z.eqb_neq _ _) E2).
  - exists [0; 0; 0; r1; 0; 0]. cbn. by rewrite (proj2 (Z.eqb_neq _ _) E1).
Qed.

Lemma nexts_app l l' : ∀ x, nexts (l ++ l') x = nexts l' (nexts l x).
Proof. induction l as [|r l IH]; cbn; intros x; [done|apply IH]. Qed.

(** Find is what a thread of the machine does when it is alone. *)
Lemma Find_nexts p s : ∃ answers, nexts answers (Lazy.FindFast p, w_module s, w_addr s) =
  (Lazy.Returned (Some p) (is_ok (Find p s).1), w_module (Find p s).2, w_addr (Find p s).2).
Proof.
  unfold Find. change ((get_st ≫= ?f) s) with (f s s). cbv beta.
  destruct (Z.eqb_spec (w_addr_of p s) 0) as [Ea|Ea]; cbn [negb].
  2: { exists [0]. cbn. unfold w_addr_of in Ea. by rewrite (proj2 (Z.eqb_neq _ _) Ea). }
  assert (nexts [0; 0; 0] (Lazy.FindFast p, w_module s, w_addr s) = (Lazy.LoadFast (Some p), w_module s, w_addr s)) as E3
    by (cbn; unfold w_addr_of in Ea; by rewrite Ea; cbn; rewrite Ea).
  destruct (Load_nexts p s) as [answers Hn]. pose proof (Load_cases s) as Hc.
  destruct (loading s) as [[m h]|].
  - set (r := wt_result h (GetProcAddress p)). exists ([0; 0; 0] ++ answers ++ [r; 0; 0]). rewrite !nexts_app, E3, Hn.
    rewrite (stm_bind_ok _ _ s (Ok tt) (mkWin m (w_addr s) (w_objs s) h)) by (unfold try_; by rewrite Hc).
    unfold dllcall, mbind, stm_bind, throw, w_set_addr. cbn. fold r. by destruct (Z.eqb_spec r 0).
  - destruct Hc as [_ Hc]. exists ([0; 0; 0] ++ answers ++ [0]). rewrite !nexts_app, E3, Hn. cbn [nexts next].
    rewrite (stm_bind_ok _ _ s (Err EUnableToLoad) _) by (unfold try_; by rewrite Hc). done.
Qed.

Lemma Find_alone p s :
  ∃ y, rtc Lazy.runnable (machine s (Lazy.FindFast p)) y ∧
    located (Lazy.Returned (Some p) (is_ok (Find p s).1), w_module (Find p s).2, w_addr (Find p s).2) y.
Proof.
  destruct (Find_nexts p s) as [answers <-]. apply nexts_runs. unfold located. by split_and!.
Qed.

(** ** An adapter is closed once *)

Abbreviation same_objs := (λ s s' : win, w_objs s' = w_objs s).

Lemma objs_bind {A B} (m : wm A) (f : A → wm B) : keeps same_objs m → (∀ a, keeps same_objs (f a)) → keeps same_objs (m ≫= f).
Proof. intros Hm Hf. apply keeps_bind; [congruence|done..]. Qed.

Lemma Find_objs p : keeps same_objs (Find p).
Proof.
  intros s. unfold Find. change ((get_st ≫= ?f) s) with (f s s). cbv beta. destruct (negb _); [done|]. pose proof (Load_cases s) as Hc.
  assert (w_objs (Load s).2 = w_objs s) as Hl by (destruct (loading s) as [[m h]|]; [by rewrite Hc|destruct Hc as [_ Hc]; by rewrite Hc]).
  unfold mbind, stm_bind at 1, try_. destruct (Load s) as [[[]|e|] s1]; cbn in *; [|done..]. unfold w_set_addr, throw. by destruct (_ =? 0).
Qed.

Lemma invoke_objs p c : keeps same_objs (invoke p c).
Proof.
  apply objs_bind; [|done]. intros s. unfold Addr. pose proof (Find_objs p s) as H. by destruct (Find p s) as [[[]|e|] s1].
Qed.

(** What happened to an object that was closed [n] times by its users. *)
Definition life (n : nat) (a : Adapter) : Prop :=
  if a_finalizer a then a_closed a = 0%nat else (a_closed a ≤ if a_collected a then Nat.max 1 n else n)%nat.
Definition lives (n : nat → nat) (s : win) : Prop := ∀ o a, w_objs s !! o = Some a → life (n o) a ∧ (a_finalizer a = true → a_collected a = false).

Inductive op := OpCreate (name tunnelType : string) (guid : option Z) | OpOpen (name : string) | OpClose (o : nat) | OpCollect (o : nat).

(** An object that is collected has no users left. *)
Definition run_op (x : op) : wm unit :=
  match x with
  | OpCreate n t g => _ ← try_ (F := werr) (CreateAdapter n t g); mret tt
  | OpOpen n => _ ← try_ (F := werr) (OpenAdapter n); mret tt
  | OpClose o => a ← adapter o; if a_collected a then mret tt else _ ← try_ (F := werr) (Close o); mret tt
  | OpCollect o => collect o
  end.
Fixpoint run_ops (l : list op) : wm unit := match l with [] => mret tt | x :: l => run_op x ;; run_ops l end.

Definition closes (x : op) (o : nat) : nat := match x with OpClose o' => if Nat.eqb o' o then 1 else 0 | _ => 0 end.

Lemma lives_same n s s' : w_objs s' = w_objs s → lives n s → lives n s'.
Proof. intros Eq H o a. rewrite Eq. apply H. Qed.

Lemma lives_alter n s s' o f k : lives n s → w_objs s' = alter f o (w_objs s) →
  (∀ a, w_objs s !! o = Some a → life (n o) a → (a_finalizer a = true → a_collected a = false) →
     life (n o + k) (f a) ∧ (a_finalizer (f a) = true → a_collected (f a) = false)) →
  lives (λ i, n i + if Nat.eqb o i then k else 0)%nat s'.
Proof.
  intros H Eq Hf i a. rewrite Eq. destruct (decide (o = i)) as [-> | Hi].
  - rewrite list_lookup_alter_eq. intros (a0 & Ha & ->)%fmap_Some. destruct (H i a0 Ha). rewrite Nat.eqb_refl. by apply Hf.
  - rewrite list_lookup_alter_ne by done. rewrite (proj2 (Nat.eqb_neq _ _) Hi), Nat.add_0_r. apply H.
Qed.

Lemma new_adapter_lives n h s : lives n s → lives n (new_adapter h s).2.
Proof.
  intros H o a. cbn. intros [Ha|[_ Ha]]%lookup_app_Some; [by apply H|]. by apply list_lookup_singleton_Some in Ha as [_ <-].
Qed.

Lemma opened_lives n p c s (f : Z * Z → wm nat) :
  (∀ r s, lives n s → lives n (f r s).2) → lives n s → lives n ((Find p ;; (invoke p c ≫= f)) s).2.
Proof.
  intros Hf H. unfold mbind at 1, stm_bind at 1. pose proof (Find_objs p s) as E1. destruct (Find p s) as [[[]|e|] s1]; cbn in E1;
    [|by apply (lives_same n s)..].
  unfold mbind, stm_bind. pose proof (invoke_objs p c s1) as E2. destruct (invoke p c s1) as [[r|e|] s2]; cbn in E2;
    [|apply (lives_same n s); [cbn; congruence|done]..].
  apply Hf, (lives_same n s); [congruence|done].
Qed.

Lemma utf16_bind {A} n x (m : wm A) s : (∀ s, lives n s → lives n (m s).2) → lives n s → lives n ((utf16 x ;; m) s).2.
Proof. intros Hm H. unfold utf16, mbind, stm_bind. destruct (bool_decide _); [done|by apply Hm]. Qed.

Lemma try_snd {A} (m : wm A) s : ((_ ← try_ (F := werr) m; mret tt) s : _ * win).2 = (m s).2.
Proof. unfold mbind, stm_bind, try_. by destruct (m s) as [[a|e|] s1]. Qed.

Lemma create_lives n x s : lives n s → match x with OpCreate _ _ _ | OpOpen _ => lives n (run_op x s).2 | _ => True end.
Proof.
  intros H. assert (∀ (r : Z * Z) s, lives n s → lives n ((if r.1 =? 0 then throw (Errno r.2) else new_adapter r.1) s).2) as Hn
    by (intros r s1 H1; destruct (r.1 =? 0); [done|by apply new_adapter_lives]).
  destruct x; cbn [run_op]; rewrite ?try_snd; [| |done..].
  - apply utf16_bind; [|done]. intros s1 H1. apply utf16_bind; [|done]. intros s2 H2. by apply opened_lives.
  - apply utf16_bind; [|done]. intros s1 H1. by apply opened_lives.
Qed.

Lemma lives_mono n n' s : (∀ i, n i ≤ n' i)%nat → lives n s → lives n' s.
Proof.
  intros Hn H o a Ha. destruct (H o a Ha) as [Hl Hf]. split; [|done]. specialize (Hn o). unfold life in *.
  destruct (a_finalizer a), (a_collected a); lia.
Qed.

Lemma set_finalizer_lives n o s s' : lives n s → w_objs s' = w_objs (set_finalizer o false s).2 → lives n s'.
Proof.
  intros H Es. eapply (lives_mono (λ i, n i + if Nat.eqb o i then 0 else 0)%nat); [intros i; by destruct (Nat.eqb o i); lia|].
  eapply (lives_alter n s s' o _ 0); [done|exact Es|]. intros x Hx Hl Hf. split; [|done]. unfold life in *. cbn.
  destruct (a_finalizer x), (a_collected x); lia.
Qed.

Lemma Close_lives n o a s : lives n s → w_objs s !! o = Some a → a_collected a = false →
  lives (λ i, n i + closes (OpClose o) i)%nat (Close o s).2.
Proof.
  intros H Ha Hc. unfold Close. pose proof (Find_objs "WintunCloseAdapter" s) as E1.
  assert (∀ s', lives n s' → lives (λ i, n i + closes (OpClose o) i)%nat s') as Hs by (intros s'; apply lives_mono; lia).
  unfold mbind at 1, stm_bind at 1. destruct (Find "WintunCloseAdapter" s) as [[[]|e|] s1]; cbn in E1;
    [|by apply Hs, (lives_same n s)..].
  unfold mbind at 1, stm_bind at 1, adapter. rewrite E1, Ha. unfold mbind at 1, stm_bind at 1.
  destruct (set_finalizer o false s1) as [o2 s2] eqn:E2. injection E2 as <- <-. set (s2 := mkWin _ _ _ _).
  unfold mbind at 1, stm_bind at 1. pose proof (invoke_objs "WintunCloseAdapter" (WintunCloseAdapter (a_handle a)) s2) as E3.
  assert (lives n s2) as H2 by (apply (set_finalizer_lives n o s1); [by apply (lives_same n s)|done]).
  destruct (invoke _ _ s2) as [[r|e|] s3]; cbn [snd] in E3; [|by apply Hs, (lives_same n s2)..].
  assert (lives (λ i, n i + closes (OpClose o) i)%nat (count_close o s3).2) as H4.
  { eapply (lives_alter n s3 _ o _ 1); [by apply (lives_same n s2)|reflexivity|]. intros x. rewrite E3. cbn.
    rewrite list_lookup_alter_eq, E1, Ha. intros [= <-] Hl Hf. cbn in *. split; [|done]. unfold life in *. cbn in *. rewrite Hc in *. lia. }
  unfold mbind, stm_bind. cbn. by destruct (r.1 =? 0).
Qed.

Lemma collect_lives n o s : lives n s → lives n (collect o s).2.
Proof.
  intros H. assert (∀ s', lives (λ i, n i + if Nat.eqb o i then 0 else 0)%nat s' → lives n s') as Hn
    by (intros s'; apply lives_mono; intros i; destruct (Nat.eqb o i); lia).
  unfold collect, mbind at 1, stm_bind at 1, adapter. destruct (w_objs s !! o) as [a|] eqn:Ha; [|done].
  destruct (H o a Ha) as [Hl Hf]. unfold mbind at 1, stm_bind at 1.
  destruct (set_collected o s) as [o2 s2] eqn:E2. injection E2 as <- <-. set (s2 := mkWin _ _ _ _).
  assert (lives n s2) as H2.
  { apply Hn. eapply (lives_alter n s s2 o _ 0); [done|reflexivity|]. intros x Hx Hlx Hfx. split; [|done]. unfold life in *. cbn.
    destruct (a_finalizer x), (a_collected x); lia. }
  destruct (a_finalizer a) eqn:Ef; [|done].
  unfold closeAdapter, mbind at 1, stm_bind at 1, adapter. cbn [w_objs s2]. rewrite list_lookup_alter_eq, Ha. cbn [fmap option_fmap option_map a_handle].
  unfold mbind, stm_bind. pose proof (invoke_objs "WintunCloseAdapter" (WintunCloseAdapter (a_handle a)) s2) as E3.
  destruct (invoke _ _ s2) as [[r|e|] s3]; cbn [snd] in E3; [|by apply (lives_same n s2)..].
  apply Hn. eapply (lives_alter n s3 _ o _ 0); [by apply (lives_same n s2)|reflexivity|]. intros x. rewrite E3. cbn.
  rewrite list_lookup_alter_eq, Ha. intros [= <-] _ _. cbn. split; [|done]. unfold life in *. cbn. rewrite Ef in Hl. lia.
Qed.

Lemma run_op_lives n x s : lives n s → lives (λ i, n i + closes x i)%nat (run_op x s).2.
Proof.
  intros H. assert (∀ s', lives n s' → lives (λ i, n i + closes x i)%nat s') as Hs by (intros s'; apply lives_mono; lia).
  destruct x as [a b g|a|o|o].
  - by apply Hs, (create_lives n (OpCreate a b g)).
  - by apply Hs, (create_lives n (OpOpen a)).
  - cbn [run_op]. unfold mbind at 1, stm_bind at 1, adapter. destruct (w_objs s !! o) as [a|] eqn:Ha; [|by apply Hs].
    destruct (a_collected a) eqn:Hc; [by apply Hs|]. rewrite try_snd. by eapply Close_lives.
  - by apply Hs, collect_lives.
Qed.

Definition closed_by_users (l : list op) (o : nat) : nat := sum_list_with (λ x, closes x o) l.

(** Whatever is created, opened, closed and collected, WintunCloseAdapter is called
    for an adapter at most once, and more often only if its users close it more often;
    an adapter that still has its finalizer was not closed. *)
Lemma adapters_closed_once l : ∀ s n, lives n s → lives (λ i, n i + closed_by_users l i)%nat (run_ops l s).2.
Proof.
  induction l as [|x l IH]; intros s n H; [by eapply lives_mono; [|done]; intros i; cbn; lia|].
  cbn [run_ops]. pose proof (run_op_lives n x s H) as Hx. unfold mbind, stm_bind.
  assert (∀ s', lives (λ i, n i + closes x i)%nat s' → lives (λ i, n i + closed_by_users (x :: l) i)%nat s') as Hm
    by (intros s'; apply lives_mono; intros i; cbn; lia).
  destruct (run_op x s) as [[[]|e|] s1]; cbn [snd] in Hx; [|by apply Hm..].
  eapply lives_mono; [|by apply IH]. intros i. unfold closed_by_users. cbn [sum_list_with]. lia.
Qed.

Corollary fresh_adapters_closed_once l s o a : w_objs s = [] → w_objs (run_ops l s).2 !! o = Some a →
  (a_closed a ≤ Nat.max 1 (closed_by_users l o))%nat ∧ (a_finalizer a = true → a_closed a = 0%nat).
Proof.
  intros Hs Ha. destruct (adapters_closed_once l s (λ _, 0%nat) ltac:(intros i x; by rewrite Hs) o a Ha) as [Hl _].
  cbn in Hl. unfold life in Hl. destruct (a_finalizer a), (a_collected a); split; (done || lia).
Qed.

(** ** What the bindings leave to their users *)

(** If WintunCloseAdapter is not in the library, Close reports it and keeps the
    finalizer, which then panics. *)
Lemma unclosable_panics o a s s1 e :
  Find "WintunCloseAdapter" s = (Err e, s1) → Find "WintunCloseAdapter" s1 = (Err e, s1) →
  w_objs s1 !! o = Some a → a_finalizer a = true →
  Close o s = (Err e, s1) ∧ (closeAdapter o s1).1 = Panic.
Proof.
  intros H1 H2 Ha Hf. split; [unfold Close; by rewrite (stm_bind_err _ _ s e s1)|].
  unfold closeAdapter, mbind, stm_bind, adapter. rewrite Ha. unfold invoke, mbind, stm_bind, Addr. by rewrite H2.
Qed.

(** End does not clear the handle of its caller, so a second call ends the session again. *)
Lemma ended_twice ss s : w_addr_of "WintunEndSession" s ≠ 0 →
  ∃ s', (ss' ← End_ ss; End_ ss') s = (Ok ss, s') ∧
    w_calls s' = WintunEndSession (s_handle ss) :: WintunEndSession (s_handle ss) :: w_calls s.
Proof.
  intros Ha. assert (∀ s, w_addr_of "WintunEndSession" s ≠ 0 → ∃ s', End_ ss s = (Ok ss, s') ∧
    w_addr_of "WintunEndSession" s' = w_addr_of "WintunEndSession" s ∧ w_calls s' = WintunEndSession (s_handle ss) :: w_calls s) as H.
  { intros s0 H0. unfold End_, invoke, Addr, Find, mbind, stm_bind, get_st. rewrite (proj2 (Z.eqb_neq _ _) H0). cbn. by eexists. }
  destruct (H s Ha) as (s1 & E1 & A1 & C1). destruct (H s1 ltac:(by rewrite A1)) as (s2 & E2 & _ & C2).
  exists s2. rewrite (stm_bind_ok _ _ _ _ _ E1), E2, C2, C1. done.
Qed.

(** An empty packet cannot be given back or sent. *)
Lemma empty_packet_panics ss s : (ReleaseReceivePacket ss [] s).1 = Panic ∧ (SendPacket ss [] s).1 = Panic.
Proof.
  unfold ReleaseReceivePacket, SendPacket, mbind, stm_bind, Addr.
  by destruct (Find _ s) as [[[]|e|] s1], (Find "WintunSendPacket" s) as [[[]|e'|] s1'].
Qed.

End Bindings.

(** The numbers of a version are bytes. *)
Example version_0_14_1 : FileVersion 0xE 0x10000 = "0.14.1".
Proof. reflexivity. Qed.
Example version_truncated : FileVersion 0x12C 0 = "0.44".
Proof. reflexivity. Qed.

End Wintun.
