(* ===== verification/Intercept.v ===== *)
(** * Platform drivers and their sockets (src/proxy/driver, src/proxy/tproxy)

    The InterceptDriver of each platform, as an instance of a class, over the models
    of its interception; the transparent UDP sockets of Linux with the options that
    are set on them; and the look-up of an original destination by socket cookie.
    The system answers every call from the calls before ([NetEnv]).  A socket whose
    options cannot be set or that cannot be bound is closed by package net. *)

From S2P Require Import Prelude GoStrings GoNet ProcCache Bpf Ebpf Tun WinTun Darwin.

Module Intercept.

(** ** Sockets *)

Inductive sockopt :=
  | IP_TRANSPARENT | IPV6_TRANSPARENT | IP_RECVORIGDSTADDR | IPV6_RECVORIGDSTADDR | IPV6_V6ONLY | SO_REUSEADDR.

Inductive ncall := CSocket (network address : string) | CControl | COpt (o : sockopt) | CBind (network address : string).

Record sock := mkSock { s_network : string; s_address : string; s_opts : list sockopt }.

Record net := mkNet { socks : list sock; ncalls : list ncall }.

(** [free_port] is the port bound for ":0". *)
Class NetEnv := { net_fails : list ncall → ncall → bool; free_port : list ncall → Z }.

Abbreviation nm := (stm net string).

Section Sockets.
Context {E : NetEnv}.

Definition syscall (c : ncall) (msg : string) : nm unit := λ s,
  (if net_fails (ncalls s) c then Err msg else Ok tt, mkNet (socks s) (ncalls s ++ [c])).

(** The option that was set; one whose error is ignored. *)
Definition setopt (o : sockopt) (msg : string) : nm (list sockopt) := syscall (COpt o) msg ;; mret [o].
Definition setopt_ (o : sockopt) : nm (list sockopt) := λ s,
  (Ok (if net_fails (ncalls s) (COpt o) then [] else [o]), mkNet (socks s) (ncalls s ++ [COpt o])).

Definition open_sock (k : sock) : nm unit := λ s, (Ok tt, mkNet (k :: socks s) (ncalls s)).

(** [ListenConfig.ListenPacket]: the socket, its options, the address. *)
Definition ListenPacket (control : nm (list sockopt)) (network address : string) : nm sock :=
  syscall (CSocket network address) "socket" ;;
  opts ← control;
  syscall (CBind network address) "bind" ;;
  open_sock (mkSock network address opts) ;;
  mret (mkSock network address opts).

Definition transparent_control : nm (list sockopt) :=
  syscall CControl "control" ;;
  a ← setopt IP_TRANSPARENT "failed to set IP_TRANSPARENT";
  b ← setopt_ IPV6_TRANSPARENT;
  c ← setopt IP_RECVORIGDSTADDR "failed to set IP_RECVORIGDSTADDR";
  d ← setopt_ IPV6_RECVORIGDSTADDR;
  mret (a ++ b ++ c ++ d).

Definition ListenUDPTransparent (port : Z) : nm sock :=
  r ← try_ (ListenPacket transparent_control "udp" ("[::]:" +:+ Strconv.Itoa port));
  match r with
  | Ok k => mret k
  | Err _ => ListenPacket transparent_control "udp" ("0.0.0.0:" +:+ Strconv.Itoa port)
  | Panic => crash
  end.

Definition ListenUDP4Direct (port : Z) : nm sock :=
  ListenPacket (mret []) "udp4" ("127.0.0.1:" +:+ Strconv.Itoa port).

Definition ListenUDP6Direct (port : Z) : nm sock :=
  ListenPacket (syscall CControl "control" ;; setopt_ IPV6_V6ONLY) "udp6" ("[::1]:" +:+ Strconv.Itoa port).

Definition spoof_control : nm (list sockopt) :=
  syscall CControl "control" ;;
  a ← setopt IP_TRANSPARENT "failed to set IP_TRANSPARENT";
  b ← setopt_ IPV6_TRANSPARENT;
  c ← setopt_ SO_REUSEADDR;
  mret (a ++ b ++ c).

(** UDPAddr.String *)
Definition udp_string (x : ip) (port : Z) : string :=
  Net.JoinHostPort (if Nat.eqb (length x) 0 then "" else Net.String_ x) (Strconv.Itoa port).

Definition DialUDPTransparent (x : ip) (port : Z) : nm sock :=
  ListenPacket spoof_control (match Net.To4 x with None => "udp6" | Some _ => "udp4" end) (udp_string x port).

(** [net.Listen("tcp", ":port")]; the result is the port that is bound. *)
Definition Listen (port : Z) : nm Z :=
  let address := ":" +:+ Strconv.Itoa port in
  syscall (CSocket "tcp" address) "listen" ;;
  syscall (CBind "tcp" address) "listen" ;;
  s ← get_st;
  let p := if port =? 0 then free_port (ncalls s) else port in
  open_sock (mkSock "tcp" (":" +:+ Strconv.Itoa p) []) ;;
  mret p.

End Sockets.

(** ** Drivers *)

Record DriverConfig := mkCfg {
  TransPort : Z; HttpPort : Z; SocksPort : Z; WebPort : Z; Servers : list string; BypassNodes : list string; IsTUN : bool }.

(** The state [S] is the driver with the part of the system it works on. *)
Class InterceptDriver (S Err : Type) := {
  Name : S → string;
  Start : stm S Err unit;
  Cleanup : stm S Err unit }.

(** What a driver does with a connection: the target is asked for, the callback is
    called with it, and the connection is closed. *)
Inductive conn_event := OnTCP (target : string) | CloseConn.
Definition serve_conn (original_dst : outcome string string) : list conn_event :=
  match original_dst with Ok target => [OnTCP target; CloseConn] | _ => [CloseConn] end.

(** Running a model of a part on a state that holds it. *)
Definition within {S T E F A} (get : S → T) (put : T → S → S) (err : E → F) (m : stm T E A) : stm S F A := λ s,
  let '(o, t) := m (get s) in
  (match o with Ok a => Ok a | Err e => Err (err e) | Panic => Panic end, put t s).

Record linuxDriver := mkLinux { l_cfg : DriverConfig; l_net : net; l_tun : Tun.tun }.
Definition set_port (p : Z) (c : DriverConfig) : DriverConfig :=
  mkCfg p (HttpPort c) (SocksPort c) (WebPort c) (Servers c) (BypassNodes c) (IsTUN c).

Definition on_net {E A} (m : stm net E A) : stm linuxDriver (E + Tun.terr) A :=
  within l_net (λ n d, mkLinux (l_cfg d) n (l_tun d)) inl m.
Definition on_tun {E A} (m : stm Tun.tun Tun.terr A) : stm linuxDriver (E + Tun.terr) A :=
  within l_tun (λ t d, mkLinux (l_cfg d) (l_net d) t) inr m.

Section Linux.
Context {NE : NetEnv} {TE : Tun.TunEnv} (VP_USE_TUN : string).

Definition use_tun (c : DriverConfig) : bool := IsTUN c || String.eqb VP_USE_TUN "1".

Definition linux_Name (d : linuxDriver) : string := if use_tun (l_cfg d) then "linux-tun" else "linux-redirect".

(** Two goroutines are left behind: one runs [serve_conn] for every connection the
    listener accepts, the other reads datagrams and does nothing with them. *)
Definition linux_Start : stm linuxDriver (string + Tun.terr) unit :=
  d ← get_st;
  if use_tun (l_cfg d) then on_tun Tun.StartLinuxTransparent
  else
    r ← on_net (try_ (F := string) (Listen (TransPort (l_cfg d))));
    p ← match r with Ok p => mret p | _ => on_net (Listen 0) end;
    (λ d, (Ok tt, mkLinux (set_port p (l_cfg d)) (l_net d) (l_tun d))) ;;
    _ ← on_net (try_ (F := string) (ListenUDPTransparent p));
    mret tt.

Definition linux_Cleanup : stm linuxDriver (string + Tun.terr) unit := on_tun Tun.Cleanup.

#[global] Instance linux_driver : InterceptDriver linuxDriver (string + Tun.terr) :=
  {| Name := linux_Name; Start := linux_Start; Cleanup := linux_Cleanup |}.

End Linux.

Record windowsDriver := mkWindows { w_cfg : DriverConfig; w_win : WinTun.win }.
Definition windows_Start {E : WinTun.WinEnv} : stm windowsDriver string unit := λ d,
  within w_win (λ w d, mkWindows (w_cfg d) w) id
    (WinTun.StartWindowsTransparent (Servers (w_cfg d)) (BypassNodes (w_cfg d))) d.
Definition windows_Cleanup {E : WinTun.WinEnv} : stm windowsDriver string unit :=
  within w_win (λ w d, mkWindows (w_cfg d) w) id WinTun.Cleanup.
#[global] Instance windows_driver {E : WinTun.WinEnv} : InterceptDriver windowsDriver string :=
  {| Name := λ _, "windows-wintun"; Start := windows_Start; Cleanup := windows_Cleanup |}.

Record darwinDriver := mkDarwinD { d_cfg : DriverConfig; d_pf : Darwin.darwin }.
Definition darwin_Start {E : Darwin.PfEnv} : stm darwinDriver string unit := λ d,
  within d_pf (λ w d, mkDarwinD (d_cfg d) w) id
    (Darwin.StartDarwinTransparent (HttpPort (d_cfg d)) (SocksPort (d_cfg d)) (WebPort (d_cfg d))) d.
Definition darwin_Cleanup {E : Darwin.PfEnv} : stm darwinDriver string unit :=
  within d_pf (λ w d, mkDarwinD (d_cfg d) w) id Darwin.Cleanup.
#[global] Instance darwin_driver {E : Darwin.PfEnv} : InterceptDriver darwinDriver string :=
  {| Name := λ _, "darwin-pf"; Start := darwin_Start; Cleanup := darwin_Cleanup |}.

#[global] Instance stub_driver : InterceptDriver DriverConfig string :=
  {| Name := λ _, "stub"; Start := throw "transparent proxying not supported on this platform"; Cleanup := mret tt |}.

(** ** The original destination by socket cookie *)

(** A connection: the answer of SO_COOKIE, 0 when the descriptor could not be used,
    and the port of its remote address if that is a TCP address. *)
Inductive kconn := TCPConn (raw_err : bool) (cookie : option Z) (remote : option Z) | NotTCPConn.

Abbreviation origMap := (gmap Z (list byte)).

Definition words (d : list byte) : list Z :=
  [Ebpf.load32 (take 4 d); Ebpf.load32 (take 4 (drop 4 d)); Ebpf.load32 (take 4 (drop 8 d)); Ebpf.load32 (take 4 (drop 12 d))].

(** The text that lookupTCPFromMap makes of an entry. *)
Definition entry_target (v : list byte) : string :=
  let d := Ebpf.decode v in
  let port := Strconv.Itoa (Ebpf.ToAddr d).2 in
  match words (Ebpf.IP d) with
  | [w0; w1; w2; w3] =>
      if Ebpf.Family d =? Bpf.AF_INET6
      then "[" +:+ Net.String_ (put32 w0 ++ put32 w1 ++ put32 w2 ++ put32 w3) +:+ "]:" +:+ port
      else Net.String_ (put32 w0) +:+ ":" +:+ port
  | _ => ""
  end.

Definition lookupTCPFromMap (c : kconn) (now now' : Z) (m : origMap) (p : ProcCache.procCache) :
    outcome string string * origMap * ProcCache.procCache :=
  match c with
  | NotTCPConn => (Err "not a TCPConn", m, p)
  | TCPConn true _ _ => (Err "syscall connection", m, p)
  | TCPConn false None _ => (Err "SO_COOKIE", m, p)
  | TCPConn false (Some cookie) remote =>
      match m !! cookie with
      | None => (Err "lookup", m, p)
      | Some v =>
          let d := Ebpf.decode v in
          (Ok (entry_target v), delete cookie m,
           match remote with Some port => Ebpf.record_process d port now now' p | None => p end)
      end
  end.

(** [kernel] is the answer of GetOriginalDst. *)
Definition GetOriginalDstEBPF (c : kconn) (kernel : outcome string string) (now now' : Z) (m : option origMap) (p : ProcCache.procCache) :
    outcome string string * option origMap * ProcCache.procCache :=
  match m with
  | Some m =>
      match lookupTCPFromMap c now now' m p with
      | (Ok addr, m, p) => (Ok addr, Some m, p)
      | (_, m, p) => (kernel, Some m, p)
      end
  | None => (kernel, None, p)
  end.

(** ** Sockets that are opened *)

Section Opened.
Context {E : NetEnv}.

(** No socket is opened or lost, and a result satisfies [Q]. *)
Definition quiet {A} (m : nm A) (Q : A → Prop) : Prop :=
  ∀ s, (m s).1 ≠ Panic ∧ socks (m s).2 = socks s ∧ ∀ a, (m s).1 = Ok a → Q a.

(** Success opens one socket, failure none. *)
Definition opens {A} (m : nm A) (P : A → sock → Prop) : Prop := ∀ s,
  match m s with
  | (Ok a, s') => ∃ k, socks s' = k :: socks s ∧ P a k
  | (Err _, s') => socks s' = socks s
  | (Panic, _) => False
  end.

Lemma sock_quiet_bind {A B} (m : nm A) (f : A → nm B) Q R :
  quiet m Q → (∀ a, Q a → quiet (f a) R) → quiet (m ≫= f) R.
Proof.
  intros Hm Hf s. destruct (Hm s) as (Hp & Hs & Ha). unfold mbind, stm_bind.
  destruct (m s) as [[a|e|] s1]; cbn [fst snd] in *; [|done|done].
  destruct (Hf a (Ha a eq_refl) s1) as (Hp' & Hs' & Ha'). split_and!; [done|by rewrite Hs'|done].
Qed.

Lemma sock_quiet_ret {A} (a : A) (Q : A → Prop) : Q a → quiet (mret a) Q.
Proof. intros Ha s. split_and!; [done|done|]. by intros ? [= <-]. Qed.

Lemma quiet_syscall c msg : quiet (syscall c msg) (λ _, True).
Proof. intros s. unfold syscall. by destruct (net_fails (ncalls s) c). Qed.

Lemma quiet_setopt o msg : quiet (setopt o msg) (λ l, o ∈ l).
Proof. eapply sock_quiet_bind; [apply quiet_syscall|]. intros [] _. apply sock_quiet_ret. by left. Qed.

Lemma quiet_setopt_ o : quiet (setopt_ o) (λ _, True).
Proof. by intros s. Qed.

Lemma opens_bind {A B} (m : nm A) (f : A → nm B) Q P : quiet m Q → (∀ a, Q a → opens (f a) P) → opens (m ≫= f) P.
Proof.
  intros Hm Hf s. destruct (Hm s) as (Hp & Hs & Ha). unfold mbind, stm_bind.
  destruct (m s) as [[a|e|] s1]; cbn [fst snd] in *; [|done|done].
  specialize (Hf a (Ha a eq_refl) s1). destruct (f a s1) as [[b|e|] s2]; [by rewrite <- Hs|by rewrite <- Hs|done].
Qed.

Lemma ListenPacket_opens control network address Q : quiet control Q →
  opens (ListenPacket control network address)
    (λ a k, a = k ∧ s_network k = network ∧ s_address k = address ∧ Q (s_opts k)).
Proof.
  intros Hc. eapply opens_bind; [apply quiet_syscall|]. intros [] _. eapply opens_bind; [exact Hc|]. intros opts Ho.
  eapply opens_bind; [apply quiet_syscall|]. intros [] _ s. cbn. by eexists.
Qed.

Definition transparent_opts (l : list sockopt) : Prop := IP_TRANSPARENT ∈ l ∧ IP_RECVORIGDSTADDR ∈ l.

Lemma transparent_control_quiet : quiet transparent_control transparent_opts.
Proof.
  eapply sock_quiet_bind; [apply quiet_syscall|]. intros [] _. eapply sock_quiet_bind; [apply quiet_setopt|]. intros a Ha.
  eapply sock_quiet_bind; [apply quiet_setopt_|]. intros b _. eapply sock_quiet_bind; [apply quiet_setopt|]. intros c Hc.
  eapply sock_quiet_bind; [apply quiet_setopt_|]. intros d _. apply sock_quiet_ret. unfold transparent_opts. rewrite !elem_of_app. tauto.
Qed.

Lemma spoof_control_quiet : quiet spoof_control (λ l, IP_TRANSPARENT ∈ l).
Proof.
  eapply sock_quiet_bind; [apply quiet_syscall|]. intros [] _. eapply sock_quiet_bind; [apply quiet_setopt|]. intros a Ha.
  eapply sock_quiet_bind; [apply quiet_setopt_|]. intros b _. eapply sock_quiet_bind; [apply quiet_setopt_|]. intros c _.
  apply sock_quiet_ret. rewrite !elem_of_app. tauto.
Qed.

(** A socket that receives redirected datagrams for [port]. *)
Definition receives (port : Z) (k : sock) : Prop :=
  s_network k = "udp" ∧ transparent_opts (s_opts k) ∧
  (s_address k = "[::]:" +:+ Strconv.Itoa port ∨ s_address k = "0.0.0.0:" +:+ Strconv.Itoa port).

Lemma ListenUDPTransparent_opens port : opens (ListenUDPTransparent port) (λ a k, a = k ∧ receives port k).
Proof.
  intros s. unfold ListenUDPTransparent, mbind, stm_bind, try_. unfold receives.
  pose proof (ListenPacket_opens transparent_control "udp" ("[::]:" +:+ Strconv.Itoa port) _ transparent_control_quiet s) as H1.
  destruct (ListenPacket _ "udp" _ s) as [[k|e|] s1]; [|..|done].
  - destruct H1 as (k' & Hk & -> & H2 & H3 & H4). cbn. exists k'. auto 10.
  - pose proof (ListenPacket_opens transparent_control "udp" ("0.0.0.0:" +:+ Strconv.Itoa port) _ transparent_control_quiet s1) as H2.
    destruct (ListenPacket _ "udp" _ s1) as [[k|e'|] s2]; [|by rewrite <- H1|done].
    destruct H2 as (k' & Hk & -> & H2 & H3 & H4). exists k'. rewrite <- H1. auto 10.
Qed.

Lemma Listen_opens port :
  opens (Listen port) (λ p k, k = mkSock "tcp" (":" +:+ Strconv.Itoa p) [] ∧ (port ≠ 0 → p = port)).
Proof.
  eapply opens_bind; [apply quiet_syscall|]. intros [] _. eapply opens_bind; [apply quiet_syscall|]. intros [] _ s.
  cbn. eexists. split; [done|]. split; [done|]. intros Hp. by rewrite (proj2 (Z.eqb_neq _ _) Hp).
Qed.

(** The sockets of transparent interception.  Whatever fails, a socket is opened
    exactly when the call succeeds.  The listening socket then has the option that
    lets it take foreign datagrams and the one that reports where they were sent;
    the socket that answers for a destination is bound to that destination, with a
    network of its family, and may use the foreign address. *)
Theorem transparent_sockets x port :
  opens (ListenUDPTransparent port) (λ a k, a = k ∧ receives port k) ∧
  opens (DialUDPTransparent x port) (λ a k, a = k ∧ IP_TRANSPARENT ∈ s_opts k ∧ s_address k = udp_string x port ∧
    (s_network k = "udp4" ↔ is_Some (Net.To4 x))) ∧
  opens (ListenUDP4Direct port) (λ a k, a = k ∧ s_address k = "127.0.0.1:" +:+ Strconv.Itoa port) ∧
  opens (ListenUDP6Direct port) (λ a k, a = k ∧ s_address k = "[::1]:" +:+ Strconv.Itoa port).
Proof.
  assert (∀ {A} (m : nm A) (P Q : A → sock → Prop), (∀ a k, P a k → Q a k) → opens m P → opens m Q) as Hw.
  { intros A m P Q HPQ Hm s. specialize (Hm s). destruct (m s) as [[a|e|] s1]; naive_solver. }
  split_and!.
  - apply ListenUDPTransparent_opens.
  - eapply Hw; [|apply ListenPacket_opens, spoof_control_quiet]. intros a k (-> & Hn & Ha & Ho). rewrite Hn.
    split_and!; [done|done|done|]. destruct (Net.To4 x); split; try done.
  - eapply Hw; [|apply (ListenPacket_opens _ _ _ (λ _, True)), sock_quiet_ret; done]. naive_solver.
  - eapply Hw; [|apply (ListenPacket_opens _ _ _ (λ _, True))]; [naive_solver|].
    eapply sock_quiet_bind; [apply quiet_syscall|]. intros [] _. apply quiet_setopt_.
Qed.

(** *** The driver of Linux without a TUN device *)

Lemma on_net_ok {A} (m : nm A) d a n : m (l_net d) = (Ok a, n) → on_net m d = (Ok a, mkLinux (l_cfg d) n (l_tun d)).
Proof. intros H. unfold on_net, within. by rewrite H. Qed.

Lemma on_net_err {A} (m : nm A) d e n : m (l_net d) = (Err e, n) → on_net m d = (Err (inl e), mkLinux (l_cfg d) n (l_tun d)).
Proof. intros H. unfold on_net, within. by rewrite H. Qed.

Lemma try_Listen_opens port : ∀ s, ∃ o s', try_ (F := string) (Listen port) s = (Ok o, s') ∧
  match o with
  | Ok p => socks s' = mkSock "tcp" (":" +:+ Strconv.Itoa p) [] :: socks s ∧ (port ≠ 0 → p = port)
  | Err _ => socks s' = socks s
  | Panic => False
  end.
Proof.
  intros s. unfold try_. pose proof (Listen_opens port s) as H. destruct (Listen port s) as [[p|e|] s']; [| |done].
  - destruct H as (k & Hk & -> & Hp). by eexists _, _.
  - by eexists _, _.
Qed.

Lemma redirect_udp `{TE : Tun.TunEnv} p d :
  ∃ d', (_ ← on_net (try_ (F := string) (ListenUDPTransparent p)); mret tt) d = (Ok tt, d') ∧ l_cfg d' = l_cfg d ∧ l_tun d' = l_tun d ∧
    (socks (l_net d') = socks (l_net d) ∨ ∃ k, socks (l_net d') = k :: socks (l_net d) ∧ receives p k).
Proof.
  pose proof (ListenUDPTransparent_opens p (l_net d)) as H. unfold mbind, stm_bind.
  destruct (ListenUDPTransparent p (l_net d)) as [[k|e|] n] eqn:El; [| |done].
  - destruct H as (k' & Hk & -> & Hr). rewrite (on_net_ok _ d (Ok k') n) by (unfold try_; by rewrite El).
    eexists. split; [done|]. cbn. eauto 10.
  - rewrite (on_net_ok _ d (Err e) n) by (unfold try_; by rewrite El). eexists. split; [done|]. cbn. auto.
Qed.

(** Without a TUN device the driver listens for connections, on the configured port
    or on a free one that it then reports, and for datagrams on the same port if that
    is possible; if it fails nothing is left open. *)
Lemma linux_redirect_start `{TE : Tun.TunEnv} v d : use_tun v (l_cfg d) = false →
  match linux_Start v d with
  | (Ok _, d') => ∃ u, socks (l_net d') = u ++ mkSock "tcp" (":" +:+ Strconv.Itoa (TransPort (l_cfg d'))) [] :: socks (l_net d) ∧
      (u = [] ∨ ∃ k, u = [k] ∧ receives (TransPort (l_cfg d')) k) ∧ l_tun d' = l_tun d
  | (Err _, d') => socks (l_net d') = socks (l_net d) ∧ l_cfg d' = l_cfg d ∧ l_tun d' = l_tun d
  | (Panic, _) => False
  end.
Proof.
  intros Hu. unfold linux_Start. change ((get_st ≫= ?f) d) with (f d d). cbv beta. rewrite Hu.
  destruct (try_Listen_opens (TransPort (l_cfg d)) (l_net d)) as (o & n & Eo & Ho).
  rewrite (stm_bind_ok _ _ _ _ _ (on_net_ok _ d o n Eo)). set (d1 := mkLinux (l_cfg d) n (l_tun d)).
  assert (∀ p n1, socks n1 = mkSock "tcp" (":" +:+ Strconv.Itoa p) [] :: socks (l_net d) →
    match ((λ d, (Ok tt, mkLinux (set_port p (l_cfg d)) (l_net d) (l_tun d))) ;;
           _ ← on_net (try_ (F := string) (ListenUDPTransparent p)); mret tt) (mkLinux (l_cfg d) n1 (l_tun d)) with
    | (Ok _, d') => ∃ u, socks (l_net d') = u ++ mkSock "tcp" (":" +:+ Strconv.Itoa (TransPort (l_cfg d'))) [] :: socks (l_net d) ∧
        (u = [] ∨ ∃ k, u = [k] ∧ receives (TransPort (l_cfg d')) k) ∧ l_tun d' = l_tun d
    | (Err _, d') => socks (l_net d') = socks (l_net d) ∧ l_cfg d' = l_cfg d ∧ l_tun d' = l_tun d
    | (Panic, _) => False
    end) as Hend.
  { intros p n1 Hn1. destruct (redirect_udp p (mkLinux (set_port p (l_cfg d)) n1 (l_tun d))) as (d' & Ed & Hc & Ht & Hs).
    unfold mbind at 1, stm_bind at 1. cbn [l_cfg l_net l_tun]. rewrite Ed, Hc. cbn [l_net l_cfg TransPort set_port] in *.
    rewrite Hn1 in Hs. destruct Hs as [Hs|(k & Hs & Hk)]; [exists []|exists [k]]; rewrite Hs; eauto 10. }
  destruct o as [p|e|]; [|..|done].
  - apply (Hend p n). apply Ho.
  - pose proof (Listen_opens 0 n) as H0. destruct (Listen 0 n) as [[p|e'|] n2] eqn:El; [| |done].
    + rewrite (stm_bind_ok _ _ _ _ _ (on_net_ok _ d1 p n2 El)). destruct H0 as (k & Hk & -> & _). apply (Hend p n2).
      by rewrite Hk, Ho.
    + rewrite (stm_bind_err _ _ _ _ _ (on_net_err _ d1 e' n2 El)). cbn. by rewrite H0, Ho.
Qed.

(** Cleanup closes neither the listener nor the UDP socket. *)
Lemma cleanup_keeps_sockets `{TE : Tun.TunEnv} d : socks (l_net (linux_Cleanup d).2) = socks (l_net d).
Proof. unfold linux_Cleanup, on_tun, within. by destruct (Tun.Cleanup (l_tun d)) as [o t]. Qed.

End Opened.

(** The look-up by cookie turns the address around: the bytes of an entry are in
    network order already, and are written as a big-endian number once more. *)
Lemma cookie_lookup_reverses a b c d port pid comm :
  let v := [a; b; c; d] ++ replicate 12 (mk8 0) ++ Bpf.mem32 port ++ Bpf.mem32 2 ++ Bpf.mem32 pid ++ comm in
  (Ebpf.ToAddr (Ebpf.decode v)).1 = [a; b; c; d] ∧
  entry_target v = Net.String_ [d; c; b; a] +:+ ":" +:+ Strconv.Itoa (Ebpf.ToAddr (Ebpf.decode v)).2.
Proof.
  intros v.
  assert (Ebpf.Family (Ebpf.decode v) = 2) as Hf by reflexivity.
  assert (Ebpf.IP (Ebpf.decode v) = [a; b; c; d] ++ replicate 12 (mk8 0)) as Hi by reflexivity.
  split.
  - unfold Ebpf.ToAddr, Ebpf.toNetIP. cbn [fst]. by rewrite Hf, Hi.
  - unfold entry_target. rewrite Hf, Hi. cbn [words]. change (2 =? Bpf.AF_INET6) with false.
    change (Ebpf.load32 (take 4 ([a; b; c; d] ++ replicate 12 (mk8 0)))) with (be32 d c b a).
    by rewrite put32_be32.
Qed.

End Intercept.
