(* ===== verification/SocksDial.v ===== *)
(** * Dialling an upstream SOCKS5 proxy (src/socks/client.go)

    ControlDialer, DialSocks5 and Socks5Proxy.DialTCP.  The dialer of package net and
    the SOCKS5 client of golang.org/x/net/proxy are the class [SocksEnv]; the client
    dials through the given dialer and closes the connection when the negotiation
    fails, as its documentation says.  Times are nanoseconds. *)

From S2P Require Import Prelude GoStrings GoNet.

Module SocksDial.

(** The control function of a dialer; ebpf.GetDialerControl returns none unless the
    component is enabled. *)
Inductive control := Given | DefaultDialerControl | EbpfControl | NoControl.
#[global] Instance control_eq_dec : EqDecision control.
Proof. solve_decision. Defined.

Record request := mkRequest { r_network : string; r_address : string; r_timeout : Z; r_control : control }.

Record ControlDialer := mkDialer { Timeout : Z; has_Control : bool }.
Record Socks5Proxy := mkProxy { Addr : string; User : string; Pass : string }.
Record Auth := mkAuth { a_User : string; a_Password : string }.

Record conn := mkConn { c_id : nat; deadline : option Z; open : bool }.
Record net := mkNet { conns : list conn; requests : list request; auths : list (option Auth) }.

Class SocksEnv := {
  dial_fails : list request → request → bool;
  negotiation_fails : list request → option Auth → string → bool;
  now : list request → Z;
  default_control : bool;                      (* DefaultDialerControl is not nil *)
  ebpf_enabled : bool
}.

Abbreviation nm := (stm net string).

Section Dial.
Context {E : SocksEnv}.

Definition is_loopback_host (address : string) : bool :=
  match Net.SplitHostPort address with
  | Some (host, _) => match Net.ParseIP host with Some x => Net.IsLoopback x | None => false end
  | None => false
  end.

Definition choose_control (d : ControlDialer) (address : string) : control :=
  if is_loopback_host address then NoControl
  else if has_Control d then Given
  else if default_control then DefaultDialerControl
  else if ebpf_enabled then EbpfControl else NoControl.

Definition dial_timeout (d : ControlDialer) : Z := if Timeout d <=? 0 then 5000000000 else Timeout d.

Definition upd_conn (i : nat) (f : conn → conn) (s : net) : net :=
  mkNet ((λ c, if Nat.eqb (c_id c) i then f c else c) <$> conns s) (requests s) (auths s).
Definition SetDeadline (i : nat) (t : option Z) : nm unit := λ s, (Ok tt, upd_conn i (λ c, mkConn (c_id c) t (open c)) s).
Definition Close (i : nat) : nm unit := λ s, (Ok tt, upd_conn i (λ c, mkConn (c_id c) (deadline c) false) s).

(** [nd.DialContext]: the connection is its number. *)
Definition DialContext (r : request) : nm nat := λ s,
  let s' := mkNet (conns s) (requests s ++ [r]) (auths s) in
  if dial_fails (requests s) r then (Err "dial", s')
  else (Ok (length (conns s)), mkNet (conns s ++ [mkConn (length (conns s)) None true]) (requests s ++ [r]) (auths s)).

Definition Dial (d : ControlDialer) (network address : string) : nm nat :=
  i ← DialContext (mkRequest network address (dial_timeout d) (choose_control d address));
  s ← get_st;
  SetDeadline i (Some (now (requests s) + dial_timeout d)) ;;
  mret i.

(** [proxy.SOCKS5("tcp", addr, auth, forward)] and its Dial. *)
Definition socks5_dial (addr : string) (auth : option Auth) (forward : string → string → nm nat) (target : string) : nm nat :=
  i ← forward "tcp" addr;
  s ← get_st;
  (λ s, (Ok tt, mkNet (conns s) (requests s) (auths s ++ [auth]))) ;;
  if negotiation_fails (requests s) auth target then Close i ;; throw "negotiation" else mret i.

Definition NewSocks5Proxy (addr user pass : string) : Socks5Proxy := mkProxy addr user pass.

Definition DialTCP (p : Socks5Proxy) (targetAddr : string) (timeout : Z) (has_control : bool) : nm nat :=
  let auth := if negb (String.eqb (User p) "") then Some (mkAuth (User p) (Pass p)) else None in
  i ← socks5_dial (Addr p) auth (Dial (mkDialer timeout has_control)) targetAddr;
  SetDeadline i None ;;
  mret i.

Definition DialSocks5 (proxyAddr target : string) : nm nat :=
  DialTCP (NewSocks5Proxy proxyAddr "" "") target 5000000000 default_control.

(** ** What a caller gets *)

Definition numbered (s : net) : Prop := ∀ i c, conns s !! i = Some c → c_id c = i.

Lemma upd_new s c f : numbered s → c_id c = length (conns s) → ∀ rs au,
  upd_conn (length (conns s)) f (mkNet (conns s ++ [c]) rs au) = mkNet (conns s ++ [f c]) rs au.
Proof.
  intros Hn Hc rs au. unfold upd_conn. cbn [conns requests auths]. f_equal. rewrite fmap_app. cbn. rewrite Hc, Nat.eqb_refl.
  f_equal. transitivity (id <$> conns s); [|apply list_fmap_id]. apply list_fmap_ext. intros i x Hx. rewrite (Hn i x Hx).
  apply lookup_lt_Some in Hx. by rewrite (proj2 (Nat.eqb_neq _ _)) by lia.
Qed.

(** The dialer: a new connection with a deadline. *)
Lemma Dial_result d network address s : numbered s →
  let r := mkRequest network address (dial_timeout d) (choose_control d address) in
  let rs := requests s ++ [r] in
  Dial d network address s =
    if dial_fails (requests s) r then (Err "dial", mkNet (conns s) rs (auths s))
    else (Ok (length (conns s)),
          mkNet (conns s ++ [mkConn (length (conns s)) (Some (now rs + dial_timeout d)) true]) rs (auths s)).
Proof.
  intros Hn r rs. unfold Dial, mbind, stm_bind, DialContext. fold r. destruct (dial_fails (requests s) r); [done|].
  unfold get_st, SetDeadline. cbv iota beta. cbn [requests]. by rewrite (upd_new s) by done.
Qed.

Definition dialer_request (p : Socks5Proxy) (timeout : Z) (has_control : bool) : request :=
  let d := mkDialer timeout has_control in
  mkRequest "tcp" (Addr p) (dial_timeout d) (choose_control d (Addr p)).

(** An upstream is dialled once, with a positive timeout, and without a control
    function exactly when its address is a loopback address or there is none.  A connection that is
    returned is open and has no deadline left; one that is not returned is closed;
    no other connection is touched. *)
Theorem DialTCP_contract p target timeout has_control s : numbered s →
  let r := DialTCP p target timeout has_control s in
  requests r.2 = requests s ++ [dialer_request p timeout has_control] ∧
  0 < r_timeout (dialer_request p timeout has_control) ∧
  (r_control (dialer_request p timeout has_control) = NoControl ↔
    is_loopback_host (Addr p) = true ∨ (has_control || default_control || ebpf_enabled) = false) ∧
  match r.1 with
  | Ok i => conns r.2 = conns s ++ [mkConn i None true] ∧ i = length (conns s)
  | Err _ => ∃ l, conns r.2 = conns s ++ l ∧ Forall (λ c, open c = false) l
  | Panic => False
  end.
Proof.
  intros Hn r. assert (0 < r_timeout (dialer_request p timeout has_control)) as Ht.
  { cbn. unfold dial_timeout. cbn. destruct (Z.leb_spec timeout 0); lia. }
  assert (r_control (dialer_request p timeout has_control) = NoControl ↔
    is_loopback_host (Addr p) = true ∨ (has_control || default_control || ebpf_enabled) = false) as Hc.
  { cbn. unfold choose_control. cbn [has_Control].
    destruct (is_loopback_host (Addr p)), has_control, default_control, ebpf_enabled; cbn; naive_solver. }
  subst r. unfold DialTCP, socks5_dial. set (auth := if negb _ then _ else _).
  pose proof (Dial_result (mkDialer timeout has_control) "tcp" (Addr p) s Hn) as Hd. cbv zeta in Hd.
  change (mkRequest "tcp" (Addr p) _ _) with (dialer_request p timeout has_control) in Hd.
  set (rs := requests s ++ [dialer_request p timeout has_control]) in *.
  destruct (dial_fails (requests s) (dialer_request p timeout has_control)).
  { unfold mbind, stm_bind. rewrite Hd. cbn. split_and!; [done|done|exact Hc|]. exists []. by rewrite app_nil_r. }
  unfold mbind, stm_bind. rewrite Hd. unfold get_st, SetDeadline, Close, throw, mret, stm_ret. cbv iota beta. cbn [requests conns auths].
  destruct (negotiation_fails rs auth target); cbv iota beta; rewrite (upd_new s) by done; cbn [fst snd requests conns].
  - split_and!; [done|done|exact Hc|]. eexists. split; [done|]. by constructor.
  - by split_and!.
Qed.

End Dial.
End SocksDial.
